(* ===== verification/_CoqProject ===== *)
-Q . S2P
Prelude.v
CLib.v
FormatProps.v
Kernel.v
Wire.v
Event.v
Xfer.v
Filters.v
Stub.v
StubTx.v
StubRx.v
StubMain.v
StubDev.v
Ptp.v
Vhci.v
VhciRx.v
VhciTx.v
VhciHcd.v
VhciModule.v
VhciSysfs.v
NetWire.v
Net.v
Names.v
Sysfs.v
HostDriver.v
Usbipd.v
VhciDriver.v
Tools.v
Commands.v
EventProps.v
Exec.v
XferProps.v
IsoProps.v
ListProps.v
FilterProps.v
StubProps.v
StubReqProps.v
StubTxProps.v
StubRxProps.v
StubCrash.v
StubHostProps.v
VhciProps.v
VhciModuleProps.v
VhciTxProps.v
VhciInv.v
Delivery.v
Results.v
NetProps.v
ToolProps.v
AttachProps.v
StatusProps.v
PtpProps.v
PtpHookProps.v
PtpRing.v
Client.v
ClientDev.v
ClientApi.v
Gadget.v
ClientProps.v
ClientReplyProps.v
ClientOpenProps.v
ClientApiProps.v
ClientCloseProps.v
GadgetProps.v
GadgetIoProps.v
GadgetCtlProps.v
NamesProps.v
NamesFile.v
CommandsProps.v
ClientDelivery.v
