(* ===== verification/Prelude.v ===== *)
(** * USB/IP: a verification library for the drivers and tools

    USB/IP makes a USB device of one machine usable on another.  On the machine
    that has the device, the exporting side, the host driver (the stub) grabs
    it; on the importing side a virtual host controller shows it to the USB
    core.  The two kernel drivers talk over one TCP connection per device, which
    user-space programs set up: the daemon [usbipd] on the exporting side,
    [usbip attach], [list], [detach], [bind] and [unbind] on both.  This library
    models these drivers and programs as executable definitions, file by file,
    and proves what each promises the others.

    ** The machine

    - [Prelude]: machine integers ([u8] [u32] [s32] [wrap]), record update
      [r <| f := v |>], lists; the tactics [int_lia], [case_if], [bool_to_prop].
    - [CLib]: C strings and number formats ([strncmp], [strncpy], [sscanf]'s
      conversions, printing), as functions on lists of character codes;
      [FormatProps]: reading undoes printing.
    - [Kernel]: heap blocks, URBs, devices, list nodes, spin locks, and the monad
      [M S A] all code is written in: the component's state [S] and the [kernel]
      are passed on; a C error that the code does not handle (a null pointer,
      an access out of bounds, a lock taken twice, BUG()) is [Crash].  Code
      outside the repository - the USB core, sockets, the allocator, the
      scheduler, system calls - is the environment: each call is an event of the
      trace [k_trace] and its answer is chosen by the class [Env] from the calls
      made before.  Every theorem holds for all environments, or names as a
      hypothesis the documented behaviour it needs ([recvmsg_ok], [delivers],
      [conn], [readable], [memory_left]).  What the USB core computes for a
      device ([UsbPipes]), the byte order ([Arch]), the clock ([Jiffies]), the
      printing of names ([SysfsNames]) and the sysfs library of user space
      ([Sysfs]) are class parameters as well.
    - [Exec], [EventProps]: equations and weakest-precondition rules for the
      calls every operation makes, and the tactics that step with them.

    ** The kernel drivers

    - [Wire] (usbip_struct.h, usbip_common.c): headers as the memory they
      occupy, byte-order conversion, packing of URBs.
    - [Xfer] (usbip_common.c): receiving, transfer buffers, isochronous
      descriptors and padding.  [Event] (usbip_event.c): the state both drivers
      share and the thread that handles errors.  [Filters] (usbip_common.c): the
      hooks for filter drivers, with the kernel's circular lists by address.
    - Exporting side: [Stub] (stub.h), [StubRx] (stub_rx.c), [StubTx]
      (stub_tx.c), [StubMain] (stub_main.c), [StubDev] (stub_dev.c).
    - [Ptp] (filter_ptp.c): the filter for PTP cameras, whose state is kept beside
      that of the stub; the stub's operations are lifted to both ([on_sdev]).
    - Importing side: [Vhci] (vhci.h, the root hub of vhci_hcd.c), [VhciHcd]
      (its operations), [VhciModule] (its probe, remove, init and exit), [VhciRx]
      (vhci_rx.c), [VhciTx] (vhci_tx.c), [VhciSysfs] (vhci_sysfs.c).

    ** The user-space programs (userspace/libsrc, userspace/src)

    - [NetWire] (usbip_struct.h, packing of usbip_network.c), with the class
      [NetStruct] of records that survive the way from memory to the wire and
      back; [Net] (usbip_network.c).
    - [Sysfs] (usbip_common.c), [HostDriver] (usbip_host_driver.c), [Usbipd]
      (usbipd.c), [VhciDriver] (vhci_driver.c), [Tools] (usbip_attach.c,
      usbip_detach.c, usbip_list.c, usbip_bind.c, usbip_unbind.c, utils.c).
    - [Names] (names.c): the hash tables of vendor, product and class names, with
      the memory of their entries, and the reader of usb.ids.
    - [Commands] (usbip.c, the options of every command and of the daemon, the local
      list, what is printed).

    ** The client library (userspace/client)

    A program can use a remote device without the kernel drivers through the
    library of client.c, which runs protothreads over the event loop of libuv.
    [Client]: works, devices, transfers and the session with its queues and free
    lists, as maps from addresses to records, because the code shares and recycles
    them; reference counts; creating, finishing and waiting for works.
    [ClientDev]: a protothread is one definition per stretch between two yields,
    chosen by the stored continuation ([lc_t]); the macros of the code (WORK_BEGIN,
    WORK_ASYNC, READ_PREPARE, ...) are combinators of the same names; the callbacks
    the event loop calls ([read_cb], [write_cb], [connect_cb], the timers, the
    close callbacks) are operations.  [ClientApi]: the exported functions.  The
    event loop itself is the environment: what it calls back, and when, is the
    sequence of operations a theorem is about; [uv_stream] of [ClientProps] hands
    a stream of bytes to the reader in pieces of any size.

    ** The gadget (userspace/client/gadgetfs)

    [Gadget] (gadgetfs.c): a program that presents a remote device, reached through
    the client library, to the host its own machine is plugged into.  It is proved
    against the interface of the library, not its code: each call of it is an event
    ([ULib]) that the environment answers, lists of hosts and devices by the class
    [LibAnswers].  A thread of an endpoint is one definition per stretch between
    the points where it waits, reads or writes ([ep_thread_step]); what the other
    threads do while one waits in [pthread_join] is the class [Schedule].

    A C function is a definition of its name; a loop is a [Fixpoint] named after
    its function; a field of a struct keeps its name behind a prefix ([ud_],
    [sd_], [vd_], [hc_], [uu_], ...).

    ** What is proved

    - The wire ([Wire], [XferProps], [IsoProps]): headers, packets and
      isochronous data survive the way between machines of any byte order; the
      receiving loops terminate and deliver the next bytes of the stream or
      report failure; where the code trusts a length of the other side, the
      theorem says what is overwritten.
    - The exporting side ([StubProps], [StubReqProps], [StubRxProps],
      [StubTxProps], [StubHostProps]): a request owns its URB and memory
      ([stub_wf]) and every operation keeps that; a submission becomes one URB
      with permitted flags, it is answered once, unlinking answers once, closing
      the connection kills and frees exactly what is queued; what it does not
      survive is a request whose URB could not be allocated and a thread that could
      not be started ([StubCrash]); the table of bus ids refines
      a set of at most sixteen names.
    - The importing side ([VhciProps], [VhciTxProps]): URBs the USB core enqueues
      are on the books ([vhci_wf]) until given back once: by the result, the
      result of an unlink, or a dequeue without connection; the transmitter sends
      each request once, in order, in the format of the protocol.  [VhciInv]
      makes the operations the steps of a transition system and proves by
      induction on its runs that no URB is lost or given back twice.  A probe
      leaves a controller with eight free ports or nothing ([VhciModuleProps]).
    - The filters ([ListProps], [FilterProps]): what the hooks do to the lists,
      two errors included.  The camera filter: its parser takes any stream of PDUs
      apart and rewrites only transaction ids ([PtpProps]), the client keeps its
      own ids, two commands of the client deadlock ([PtpHookProps]), and what the
      filter reads stays inside its ring buffer ([PtpRing]).
    - The programs together ([NetProps], [ToolProps], [AttachProps],
      [StatusProps]): the daemon and the commands understand each other over any
      connection; what user space writes to the controller's [attach] file is
      what the controller does; what the controller prints in [status] is what
      user space reads, unless a port is in error.
    - The two machines together ([Delivery], [Results]): a round of one side's
      transmitter is the input of the other side's receiving thread, cut anywhere
      and possibly short: the requests, and the completed URBs, are those sent.
      [ClientDelivery]: the same for a transfer of the client library, there and back.
    - The client library ([ClientProps], [ClientOpenProps], [ClientReplyProps],
      [ClientApiProps], [ClientCloseProps]): opening a device, with its retries;
      sending a transfer and taking its result off the stream; what closing the
      connection finishes; reading the list of hosts.  Five errors are theorems
      too: a failed result only noted, a read without data that is never finished, a
      lost wake-up, a hang on a host with a port, a double free.
    - The gadget ([GadgetProps], [GadgetIoProps], [GadgetCtlProps]): which endpoints
      a setting configures, against a declarative reading of the configuration;
      that data is written to the host whole; how a control request is served;
      what stopping does, when it ends, and that a waiting thread prevents it.
    - The names ([NamesProps], [NamesFile]): the tables refine finite maps, and a
      file printed from vendors and classes is read as exactly these names, and
      freeing them leaves the memory as it was.  [CommandsProps]: what the local
      list prints, from reading usb.ids to giving the memory back.

    ** Bounds and fuel

    Loops over lists are structural.  Receiving loops take the number of bytes
    left as fuel, each round consumes at least one; parsing takes the length of
    the text, each round consumes a line or a header; walks of circular lists take the
    number of nodes; the threads' outer loops, which only end when told to, take
    any fuel, and their theorems are about one round, or say from which fuel on
    the run ends.  The client's queue of works ([session_notify]) and the loop
    over its list of hosts take fuel of one unit per element; the gadget's walk of a
    configuration takes one unit per descriptor, its event loop one per round; the
    reader of usb.ids one per line, and its definition supplies the length of the
    file.  That the fuel is enough
    is part of the theorems: they conclude [Ok].

    ** Not modelled

    Messages to logs and the standard error (the dump functions, the signal
    handlers); [getopt_long], whose answers are the input; libwrap; what the USB
    core and the platform bus do with a registered driver;
    [userspace/client/libusb0], whose [usbip.c] uses an undeclared variable and does
    not compile; vendored headers.  Concurrency is modelled by sequences of the
    operations that hold the locks, with the locks themselves as state: taking a
    lock twice or releasing one not held is a [Crash]. *)
From Stdlib Require Export ZArith Lia.
From stdpp Require Export prelude gmap.

#[global] Open Scope Z_scope.

Declare Scope usbip_scope.
Delimit Scope usbip_scope with usbip.

(** ** Machine integers *)

(** Reduction modulo [2^w]: the value of an unsigned [w]-bit C object. *)
Definition wrap (w x : Z) : Z := x mod 2 ^ w.

(** Two's complement reading of the low [w] bits. *)
Definition swrap (w x : Z) : Z := (x + 2 ^ (w - 1)) mod 2 ^ w - 2 ^ (w - 1).

Definition u8 := wrap 8.
Definition u16 := wrap 16.
Definition u32 := wrap 32.
Definition u64 := wrap 64.
Definition s32 := swrap 32.
Definition s64 := swrap 64.

Definition is_u32 (x : Z) : Prop := 0 <= x < 2 ^ 32.
Definition is_s32 (x : Z) : Prop := - 2 ^ 31 <= x < 2 ^ 31.
Definition is_byte (x : Z) : Prop := 0 <= x < 256.

#[export] Instance is_u32_dec x : Decision (is_u32 x).
Proof. unfold is_u32; apply _. Defined.
#[export] Instance is_s32_dec x : Decision (is_s32 x).
Proof. unfold is_s32; apply _. Defined.
#[export] Instance is_byte_dec x : Decision (is_byte x).
Proof. unfold is_byte; apply _. Defined.

(** [msb32 x] and friends are never needed: masks are written with
    [Z.land], [Z.lor], [Z.lnot] as in the code. *)
Definition has_bits (x m : Z) : bool := negb (Z.land x m =? 0).

Create HintDb usbip.
Create Rewrite HintDb wp.
Create Rewrite HintDb usbip_simp.

Ltac unfold_ints :=
  unfold u8, u16, u32, u64, s32, s64, is_u32, is_s32, is_byte, wrap, swrap in *;
  change (32 - 1) with 31 in *; change (64 - 1) with 63 in *;
  change (2 ^ 31) with 2147483648 in *;
  change (2 ^ 32) with 4294967296 in *;
  change (2 ^ 16) with 65536 in *;
  change (2 ^ 8) with 256 in *;
  change (2 ^ 63) with 9223372036854775808 in *;
  change (2 ^ 64) with 18446744073709551616 in *.

(** Linear arithmetic over machine integers. *)
Ltac int_lia := unfold_ints; Z.div_mod_to_equations; lia.

Lemma u32_id x : is_u32 x -> u32 x = x.
Proof. intros; int_lia. Qed.
Lemma s32_id x : is_s32 x -> s32 x = x.
Proof. intros; int_lia. Qed.
Lemma u32_range x : is_u32 (u32 x).
Proof. int_lia. Qed.
Lemma s32_range x : is_s32 (s32 x).
Proof. int_lia. Qed.
Lemma s32_u32 x : s32 (u32 x) = s32 x.
Proof. int_lia. Qed.
Lemma u32_s32 x : u32 (s32 x) = u32 x.
Proof. int_lia. Qed.
Lemma u32_u32 x : u32 (u32 x) = u32 x.
Proof. int_lia. Qed.
Lemma s32_s32 x : s32 (s32 x) = s32 x.
Proof. int_lia. Qed.
#[export] Hint Resolve u32_range s32_range u32_id s32_id : usbip.
#[export] Hint Rewrite s32_u32 u32_s32 u32_u32 s32_s32 : usbip_simp.

(** ** Byte sequences *)

Definition bytes (l : list Z) : Prop := Forall is_byte l.

Fixpoint le_bytes (n : nat) (x : Z) : list Z :=
  match n with
  | O => []
  | S n' => x mod 256 :: le_bytes n' (x / 256)
  end.

Fixpoint of_le (l : list Z) : Z :=
  match l with
  | [] => 0
  | b :: l' => b + 256 * of_le l'
  end.

Definition be_bytes (n : nat) (x : Z) : list Z := reverse (le_bytes n x).
Definition of_be (l : list Z) : Z := of_le (reverse l).

Lemma length_le_bytes n x : length (le_bytes n x) = n.
Proof. revert x; induction n; intros; cbn; auto. Qed.

Lemma length_be_bytes n x : length (be_bytes n x) = n.
Proof. unfold be_bytes; by rewrite length_reverse, length_le_bytes. Qed.

Lemma le_bytes_bytes n x : bytes (le_bytes n x).
Proof.
  revert x; induction n; intros x; cbn [le_bytes]; [apply Forall_nil_2|].
  apply Forall_cons_2; [int_lia | apply IHn].
Qed.

Lemma of_le_le_bytes n x : of_le (le_bytes n x) = x mod 256 ^ Z.of_nat n.
Proof.
  revert x; induction n; intros x; cbn [le_bytes of_le].
  - change (256 ^ Z.of_nat 0) with 1. by rewrite Z.mod_1_r.
  - rewrite IHn, Nat2Z.inj_succ, Z.pow_succ_r by lia.
    rewrite (Z.rem_mul_r x 256) by lia. lia.
Qed.

Lemma le_bytes_of_le l : bytes l -> le_bytes (length l) (of_le l) = l.
Proof.
  induction 1 as [|b l Hb Hl IH]; cbn [length le_bytes of_le]; [done|].
  unfold is_byte in Hb. f_equal.
  - rewrite Z.mul_comm, Z.mod_add by lia. by apply Z.mod_small.
  - rewrite Z.mul_comm, Z.div_add by lia.
    rewrite Z.div_small by lia. exact IH.
Qed.

Lemma of_le_range l : bytes l -> 0 <= of_le l < 256 ^ Z.of_nat (length l).
Proof.
  induction 1 as [|b l Hb Hl IH]; cbn [length of_le]; [lia|].
  rewrite Nat2Z.inj_succ, Z.pow_succ_r by lia. unfold is_byte in Hb. lia.
Qed.

Lemma bytes_reverse l : bytes l -> bytes (reverse l).
Proof. intros; unfold bytes; by apply Forall_reverse. Qed.

Lemma of_be_be_bytes n x : of_be (be_bytes n x) = x mod 256 ^ Z.of_nat n.
Proof. unfold of_be, be_bytes. by rewrite reverse_involutive, of_le_le_bytes. Qed.

Lemma be_bytes_of_be l : bytes l -> be_bytes (length l) (of_be l) = l.
Proof.
  intros Hl. unfold of_be, be_bytes. rewrite <- (length_reverse l).
  rewrite le_bytes_of_le by by apply bytes_reverse. apply reverse_involutive.
Qed.
#[export] Hint Resolve le_bytes_bytes bytes_reverse : usbip.
#[export] Hint Rewrite length_le_bytes length_be_bytes @length_reverse : usbip_simp.

(** Byte order reversal of a 32-bit word. *)
Definition bswap32 (x : Z) : Z := of_le (be_bytes 4 x).

Lemma bswap32_range x : is_u32 (bswap32 x).
Proof.
  unfold bswap32, is_u32. change (2 ^ 32) with (256 ^ Z.of_nat 4).
  rewrite <- (length_be_bytes 4 x) at 2. apply of_le_range.
  apply bytes_reverse, le_bytes_bytes.
Qed.

Lemma bswap32_involutive x : is_u32 x -> bswap32 (bswap32 x) = x.
Proof.
  intros Hx. unfold bswap32, be_bytes.
  rewrite <- (length_be_bytes 4 x) at 1. unfold be_bytes.
  rewrite le_bytes_of_le by apply bytes_reverse, le_bytes_bytes.
  rewrite reverse_involutive, of_le_le_bytes. apply Z.mod_small, Hx.
Qed.
#[export] Hint Resolve bswap32_range bswap32_involutive : usbip.

(** ** Lists *)

Section lists.
Context {A : Type} `{EqDecision A}.

(** Remove every occurrence of [x]: unlinking a node from whichever of
    several queues holds it. *)
Definition remove_id (x : A) (l : list A) : list A := filter (fun y => y <> x) l.

Lemma elem_of_remove_id x y l : y ∈ remove_id x l <-> y <> x /\ y ∈ l.
Proof. unfold remove_id. by rewrite list_elem_of_filter. Qed.

Lemma remove_id_notin x l : x ∉ l -> remove_id x l = l.
Proof.
  unfold remove_id. induction l as [|y l IH]; intros Hx; [done|].
  rewrite filter_cons_True, IH; [done|set_solver|set_solver].
Qed.

Lemma remove_id_cons_ne x y l : y <> x -> remove_id x (y :: l) = y :: remove_id x l.
Proof. intros. unfold remove_id. by rewrite filter_cons_True. Qed.
Lemma remove_id_cons_eq x l : remove_id x (x :: l) = remove_id x l.
Proof. unfold remove_id. by rewrite filter_cons_False by auto. Qed.

Lemma NoDup_remove_id x l : NoDup l -> NoDup (remove_id x l).
Proof. apply NoDup_filter. Qed.

Lemma remove_id_head x l : NoDup (x :: l) -> remove_id x (x :: l) = l.
Proof.
  intros [Hx _]%NoDup_cons. by rewrite remove_id_cons_eq, remove_id_notin.
Qed.

Lemma length_remove_id x l : (length (remove_id x l) <= length l)%nat.
Proof. apply length_filter. Qed.
End lists.
#[global] Arguments remove_id : simpl never.
#[export] Hint Resolve NoDup_remove_id : usbip.
#[export] Hint Rewrite @elem_of_remove_id : usbip_simp.

(** ** Tactics *)

(** Case analysis on the test the goal is stuck on. *)
Ltac case_if :=
  let E := fresh "Etest" in
  lazymatch goal with |- context [if ?test then _ else _] => destruct test eqn:E end.

(** A boolean test in [H], true or false, as the proposition it decides. *)
Ltac test_to_prop H :=
  lazymatch type of H with
  | negb ?b = ?v => apply (f_equal negb) in H; rewrite negb_involutive in H; cbn [negb] in H
  | (?x =? ?y) = true => apply (proj1 (Z.eqb_eq x y)) in H
  | (?x =? ?y) = false => apply (proj1 (Z.eqb_neq x y)) in H
  | (?x <? ?y) = true => apply (proj1 (Z.ltb_lt x y)) in H
  | (?x <? ?y) = false => apply (proj1 (Z.ltb_ge x y)) in H
  | (?x <=? ?y) = true => apply (proj1 (Z.leb_le x y)) in H
  | (?x <=? ?y) = false => apply (proj1 (Z.leb_gt x y)) in H
  | (?b && ?c)%bool = true => destruct (proj1 (andb_true_iff b c) H); clear H
  | (?b || ?c)%bool = false => destruct (proj1 (orb_false_iff b c) H); clear H
  end.

(** All tests of the context. *)
Ltac bool_to_prop := repeat match goal with E : @eq bool _ _ |- _ => test_to_prop E end.

(** ** Record update

    [r <| f := v |>] is [r] with its field [f] replaced; each record declares
    a [Setter] instance per field. *)
Class Setter {R T : Type} (proj : R -> T) := set_field : T -> R -> R.
#[global] Arguments set_field {R T} proj {_} _ _ /.
Notation "r <| f := v |>" := (set_field f v r)
  (at level 1, f at level 100, v at level 200, left associativity,
   format "r  <| f  :=  v |>") : usbip_scope.
#[global] Open Scope usbip_scope.
