(* ===== verification/CLib.v ===== *)
(** * Strings and number formats

    The C library routines drivers and programs use, on strings as lists of
    character codes; past its last character a string reads as NUL. *)
From Stdlib Require Import String Ascii.
From S2P Require Import Prelude.

(** ** Strings *)

Fixpoint strncmp_eq (n : nat) (a b : list Z) : bool :=
  match n with
  | O => true
  | S n' =>
      let ca := hd 0 a in let cb := hd 0 b in
      if negb (ca =? cb) then false
      else if ca =? 0 then true
      else strncmp_eq n' (tl a) (tl b)
  end.

(** [strncpy] into a buffer of [n]: the rest is filled with NUL. *)
Fixpoint strncpy (n : nat) (src : list Z) : list Z :=
  match n with
  | O => []
  | S n' =>
      let c := hd 0 src in
      if c =? 0 then replicate (S n') 0 else c :: strncpy n' (tl src)
  end.

Fixpoint strnlen (n : nat) (s : list Z) : nat :=
  match n with
  | O => O
  | S n' => if hd 0 s =? 0 then O else S (strnlen n' (tl s))
  end.

(** The characters before the terminating NUL. *)
Fixpoint c_str (s : list Z) : list Z :=
  match s with
  | [] => []
  | c :: s' => if c =? 0 then [] else c :: c_str s'
  end.

Definition chr_space := 32.
Definition chr_newline := 10.
Definition chr_minus := 45.

(** ** Printing numbers *)

Definition digit_char (d : Z) : Z := if d <? 10 then 48 + d else 87 + d.

(** At most [fuel] digits, most significant first. *)
Fixpoint print_base (b : Z) (fuel : nat) (x : Z) : list Z :=
  match fuel with
  | O => []
  | S fuel' =>
      if x <? b then [digit_char x]
      else print_base b fuel' (x / b) ++ [digit_char (x mod b)]
  end.

(** Twenty decimal digits hold every 64-bit number. *)
Definition print_u (x : Z) : list Z := print_base 10 20 x.
Definition print_x (x : Z) : list Z := print_base 16 16 x.
Definition print_d (x : Z) : list Z :=
  if x <? 0 then chr_minus :: print_u (- x) else print_u x.

Definition pad_left (width : nat) (c : Z) (s : list Z) : list Z :=
  replicate (width - length s) c ++ s.
(** Padded with zeros. *)
Definition pad0 (n : nat) (s : list Z) : list Z := pad_left n 48 s.

(** ** Reading numbers *)

Definition is_space (c : Z) : bool := (c =? 32) || ((9 <=? c) && (c <=? 13)).
Definition is_digit (c : Z) : bool := (48 <=? c) && (c <=? 57).

Fixpoint skip_spaces (s : list Z) : list Z :=
  match s with
  | c :: s' => if is_space c then skip_spaces s' else s
  | [] => []
  end.

Fixpoint read_digits (acc : Z) (s : list Z) : Z * list Z :=
  match s with
  | c :: s' => if is_digit c then read_digits (10 * acc + (c - 48)) s' else (acc, s)
  | [] => (acc, [])
  end.

(** [%u]: no sign; the value is reduced to 32 bits. *)
Definition scan_u (s : list Z) : option (Z * list Z) :=
  let s := skip_spaces s in
  match s with
  | c :: _ => if is_digit c then let (v, rest) := read_digits 0 s in Some (u32 v, rest)
              else None
  | [] => None
  end.

(** [%d] *)
Definition scan_d (s : list Z) : option (Z * list Z) :=
  let s := skip_spaces s in
  match s with
  | c :: s' =>
      if c =? chr_minus then
        match s' with
        | c' :: _ => if is_digit c' then let (v, rest) := read_digits 0 s' in
                                         Some (s32 (- v), rest)
                     else None
        | [] => None
        end
      else if is_digit c then let (v, rest) := read_digits 0 s in Some (s32 v, rest)
      else None
  | [] => None
  end.

(** Conversions after the first that fails leave their variables at zero. *)
Fixpoint scan_us (n : nat) (s : list Z) : list Z :=
  match n with
  | O => []
  | S n' =>
      match scan_u s with
      | Some (v, rest) => v :: scan_us n' rest
      | None => replicate (S n') 0
      end
  end.

(** ** Lemmas *)

Lemma length_strncpy n s : length (strncpy n s) = n.
Proof.
  revert s; induction n as [|n IH]; intros s; cbn; [done|].
  case_if; cbn; [by rewrite length_replicate|by rewrite IH].
Qed.

Lemma strncmp_eq_refl n s : strncmp_eq n s s = true.
Proof.
  revert s; induction n as [|n IH]; intros s; cbn; [done|].
  rewrite Z.eqb_refl. cbn. by case_if.
Qed.

Lemma strncmp_eq_sym n a b : strncmp_eq n a b = strncmp_eq n b a.
Proof.
  revert a b; induction n as [|n IH]; intros a b; cbn; [done|].
  rewrite (Z.eqb_sym (hd 0 b)). destruct (hd 0 a =? hd 0 b) eqn:E; cbn; [|done].
  bool_to_prop. rewrite E. by case_if.
Qed.

Lemma strncmp_eq_trans n a b c :
  strncmp_eq n a b = true -> strncmp_eq n b c = true -> strncmp_eq n a c = true.
Proof.
  revert a b c; induction n as [|n IH]; intros a b c; cbn; [done|].
  destruct (hd 0 a =? hd 0 b) eqn:E1; cbn; [|done].
  destruct (hd 0 b =? hd 0 c) eqn:E2; cbn; [|done]. bool_to_prop.
  rewrite E1, E2, Z.eqb_refl. cbn. case_if; [done|]. apply IH.
Qed.

Lemma strncmp_eq_zeros n m s : hd 0 s = 0 -> strncmp_eq n (replicate m 0) s = true.
Proof. intros Hs. destruct n; cbn; [done|]. rewrite Hs. by destruct m. Qed.

(** A copy compares equal to its source. *)
Lemma strncmp_eq_strncpy n s : strncmp_eq n (strncpy n s) s = true.
Proof.
  revert s; induction n as [|n IH]; intros s; cbn; [done|].
  destruct (hd 0 s =? 0) eqn:E; cbn.
  - bool_to_prop. by rewrite E.
  - by rewrite Z.eqb_refl, E, IH.
Qed.

(** Strings that compare equal over their whole buffer have the same text. *)
Lemma strncmp_eq_c_str n a b :
  length a = n -> length b = n -> strncmp_eq n a b = true -> c_str a = c_str b.
Proof.
  revert a b; induction n as [|n IH]; intros [|x a] [|y b] Ha Hb; cbn in *; try done.
  destruct (x =? y) eqn:E; cbn; [|done]. bool_to_prop. subst.
  case_if; [done|]. intros. f_equal. apply IH; auto.
Qed.

Lemma is_digit_char d : 0 <= d < 10 -> is_digit (digit_char d) = true.
Proof.
  intros. unfold digit_char, is_digit. case_if; bool_to_prop; [|lia].
  apply andb_true_iff; split; apply Z.leb_le; lia.
Qed.

Definition digits (l : list Z) : Prop := Forall (fun c => is_digit c = true) l.

Lemma print_base_digits fuel x : 0 <= x -> digits (print_base 10 fuel x).
Proof.
  revert x; induction fuel as [|fuel IH]; intros x Hx; cbn; [constructor|].
  case_if; bool_to_prop.
  - repeat constructor. apply is_digit_char. lia.
  - apply Forall_app_2; [apply IH; int_lia|]. repeat constructor.
    apply is_digit_char. int_lia.
Qed.

Lemma read_digits_app acc l rest :
  digits l -> read_digits acc (l ++ rest) = read_digits (read_digits acc l).1 rest.
Proof.
  intros Hl. revert acc. induction Hl as [|c l Hc Hl IH]; intros acc; cbn; [done|].
  by rewrite Hc.
Qed.

Lemma print_base_nonempty fuel x : print_base 10 (S fuel) x <> [].
Proof. cbn. case_if; [done|]. by destruct (print_base _ _ _). Qed.

Lemma read_print_base fuel x :
  0 <= x < 10 ^ Z.of_nat fuel ->
  (read_digits 0 (print_base 10 fuel x)).1 = x.
Proof.
  revert x; induction fuel as [|fuel IH]; intros x Hx; [cbn in *; lia|].
  cbn [print_base]. case_if; bool_to_prop.
  - cbn. rewrite is_digit_char by lia. cbn. unfold digit_char.
    case_if; bool_to_prop; lia.
  - rewrite Nat2Z.inj_succ, Z.pow_succ_r in Hx by lia.
    rewrite read_digits_app by (apply print_base_digits; int_lia).
    rewrite IH by int_lia. cbn. rewrite is_digit_char by int_lia. cbn.
    unfold digit_char. case_if; bool_to_prop; int_lia.
Qed.

(** No digit follows: the number ends there. *)
Definition no_digit_next (rest : list Z) : Prop :=
  match rest with c :: _ => is_digit c = false | [] => True end.

Lemma read_digits_stop acc rest : no_digit_next rest -> read_digits acc rest = (acc, rest).
Proof. destruct rest; cbn; [done|]. by intros ->. Qed.

Lemma is_digit_not_space c : is_digit c = true -> is_space c = false.
Proof.
  unfold is_digit, is_space. intros; bool_to_prop.
  apply orb_false_iff; split; [apply Z.eqb_neq; lia|].
  apply andb_false_iff. right. apply Z.leb_gt. lia.
Qed.

Lemma skip_spaces_print x rest :
  0 <= x -> skip_spaces (print_u x ++ rest) = print_u x ++ rest.
Proof.
  intros Hx. pose proof (print_base_digits 20 x Hx) as Hd. unfold print_u.
  pose proof (print_base_nonempty 19 x) as Hn.
  destruct (print_base 10 20 x) as [|c l]; [done|]. cbn.
  apply Forall_cons in Hd as [Hc _]. by rewrite is_digit_not_space.
Qed.

Lemma scan_u_print x rest :
  is_u32 x -> no_digit_next rest -> scan_u (print_u x ++ rest) = Some (x, rest).
Proof.
  intros Hx Hr. unfold scan_u. rewrite skip_spaces_print by (unfold is_u32 in *; lia).
  pose proof (print_base_digits 20 x ltac:(unfold is_u32 in *; lia)) as Hd.
  pose proof (print_base_nonempty 19 x) as Hn.
  assert ((read_digits 0 (print_u x)).1 = x) as Hv.
  { apply read_print_base. unfold is_u32 in *. cbn. lia. }
  unfold print_u in *. rewrite read_digits_app, Hv, read_digits_stop by done.
  destruct (print_base 10 20 x) as [|c l]; [done|]. cbn.
  apply Forall_cons in Hd as [-> _]. by rewrite u32_id.
Qed.

Lemma skip_spaces_space s : skip_spaces (chr_space :: s) = skip_spaces s.
Proof. done. Qed.

Lemma scan_u_space s : scan_u (chr_space :: s) = scan_u s.
Proof. done. Qed.

(** ** More of [scanf] *)

Definition is_hex (c : Z) : bool :=
  is_digit c || ((97 <=? c) && (c <=? 102)) || ((65 <=? c) && (c <=? 70)).
Definition hex_value (c : Z) : Z :=
  if is_digit c then c - 48 else if 97 <=? c then c - 87 else c - 55.

(** At most [w] hexadecimal digits. *)
Fixpoint read_hex (w : nat) (acc : Z) (s : list Z) : Z * list Z :=
  match w, s with
  | S w', c :: s' => if is_hex c then read_hex w' (16 * acc + hex_value c) s' else (acc, s)
  | _, _ => (acc, s)
  end.

(** [%x] with a maximal field width: a sign and a prefix [0x] are accepted. *)
Definition scan_x (w : nat) (s : list Z) : option (Z * list Z) :=
  let s := skip_spaces s in
  let '(neg, w, s) :=
    match w, s with
    | S w', c :: s' => if c =? chr_minus then (true, w', s') else
                       if c =? 43 then (false, w', s') else (false, w, s)
    | _, _ => (false, w, s)
    end in
  let '(w, s) :=
    match w, s with
    | S (S (S _ as w')), 48 :: x :: h :: s' =>
        if ((x =? 120) || (x =? 88)) && is_hex h then (w', h :: s') else (w, s)
    | _, _ => (w, s)
    end in
  match w, s with
  | S _, c :: _ =>
      if is_hex c then let (v, rest) := read_hex w 0 s in Some (if neg : bool then - v else v, rest)
      else None
  | _, _ => None
  end.

(** No width was given: any number of digits. *)
Definition scan_x_all (s : list Z) : option (Z * list Z) := scan_x (length s) s.

(** [%s]: the next word. *)
Fixpoint read_word (s : list Z) : list Z * list Z :=
  match s with
  | c :: s' => if is_space c || (c =? 0) then ([], s)
               else let (w, rest) := read_word s' in (c :: w, rest)
  | [] => ([], [])
  end.
Definition scan_s (s : list Z) : option (list Z * list Z) :=
  match read_word (skip_spaces s) with
  | ([], _) => None
  | r => Some r
  end.

(** [atoi], on values that fit. *)
Definition atoi (s : list Z) : Z := match scan_d s with Some (v, _) => v | None => 0 end.

(** [strchr(s, c)] and what follows the character. *)
Fixpoint after_chr (c : Z) (s : list Z) : option (list Z) :=
  match s with
  | x :: s' => if x =? c then Some s' else if x =? 0 then None else after_chr c s'
  | [] => None
  end.

(** [snprintf] into a buffer of [n] bytes, as a string. *)
Definition snprintf (n : nat) (s : list Z) : list Z := take (n - 1) s.

(** An ASCII text. *)
Definition text (s : string) : list Z :=
  map (fun c => Z.of_N (Ascii.N_of_ascii c)) (String.list_ascii_of_string s).

(** A copy with room for the terminator, terminated. *)
Lemma strncpy_terminated n b :
  (strnlen (S n) b < S n)%nat -> strncpy n b ++ [0] = strncpy (S n) b.
Proof.
  revert b. induction n as [|n IH]; intros b Hl; cbn in *.
  - destruct (hd 0 b =? 0); [done|lia].
  - destruct (hd 0 b =? 0) eqn:E.
    + cbn. f_equal. by rewrite replicate_cons_app.
    + cbn. f_equal. apply IH. destruct (hd 0 (tl b) =? 0); lia.
Qed.
