(* ===== verification/FormatProps.v ===== *)
(** * Reading what was printed

    Numbers in decimal and hexadecimal, padded with zeros or behind spaces, words
    and lines: the conversions of [scanf] undo those of [printf]. *)
From S2P Require Import Prelude CLib.

Local Open Scope Z_scope.

(** ** Padded numbers *)

Definition no_hex_next (rest : list Z) : Prop :=
  match rest with c :: _ => is_hex c = false | [] => True end.

Lemma read_digits_zeros n l : read_digits 0 (replicate n 48 ++ l) = read_digits 0 l.
Proof. induction n as [|n IH]; [done|]. exact IH. Qed.

Lemma digits_pad n x : 0 <= x -> digits (pad0 n (print_u x)).
Proof.
  intros Hx. unfold pad0, pad_left. apply Forall_app_2; [|by apply print_base_digits].
  by apply Forall_replicate.
Qed.

Lemma pad_nonempty n x : pad0 n (print_u x) <> [].
Proof.
  unfold pad0, pad_left. pose proof (print_base_nonempty 19 x) as Hn. unfold print_u.
  by destruct (replicate _ _).
Qed.

Lemma is_digit_not_minus c : is_digit c = true -> (c =? chr_minus) = false.
Proof. unfold is_digit, chr_minus. intros; bool_to_prop. apply Z.eqb_neq. lia. Qed.

Lemma scan_d_pad n x rest :
  0 <= x < 2 ^ 31 -> no_digit_next rest -> scan_d (pad0 n (print_u x) ++ rest) = Some (x, rest).
Proof.
  intros Hx Hr. pose proof (digits_pad n x ltac:(lia)) as Hd. pose proof (pad_nonempty n x) as Hn.
  assert (read_digits 0 (pad0 n (print_u x) ++ rest) = (x, rest)) as Hv.
  { unfold pad0, pad_left. rewrite <- app_assoc, read_digits_zeros.
    unfold print_u. rewrite read_digits_app by (apply print_base_digits; lia).
    rewrite read_print_base by (cbn; lia). by apply read_digits_stop. }
  unfold scan_d. destruct (pad0 n (print_u x)) as [|c l]; [done|]. cbn [app] in *.
  apply Forall_cons in Hd as [Hc _]. cbn [skip_spaces].
  rewrite is_digit_not_space, is_digit_not_minus, Hc, Hv by done. rewrite s32_id; [done|]. split; lia.
Qed.

(** ** Hexadecimal numbers *)

Definition hexs (l : list Z) : Prop := Forall (fun c => is_hex c = true) l.

Lemma hex_digit_char d : 0 <= d < 16 -> is_hex (digit_char d) = true /\ hex_value (digit_char d) = d.
Proof.
  intros Hd. revert d Hd.
  enough (forall d, 0 <= d -> d < Z.of_nat 16 -> is_hex (digit_char d) = true /\ hex_value (digit_char d) = d)
    as Hall by (intros d Hd; apply Hall; lia).
  intros d H0 H1. assert (d ∈ seqZ 0 16) as Hin by (apply elem_of_seqZ; lia).
  clear H0 H1. revert d Hin. apply Forall_forall. apply (bool_decide_unpack _). by vm_compute.
Qed.

Lemma print_x_hexs fuel x : 0 <= x -> hexs (print_base 16 fuel x).
Proof.
  revert x; induction fuel as [|fuel IH]; intros x Hx; cbn [print_base]; [constructor|].
  case_if; bool_to_prop.
  - repeat constructor. apply hex_digit_char. lia.
  - apply Forall_app_2; [apply IH; int_lia|]. repeat constructor. apply hex_digit_char. int_lia.
Qed.

Lemma read_hex_app w acc l rest :
  hexs l -> (length l <= w)%nat ->
  read_hex w acc (l ++ rest) = read_hex (w - length l) (read_hex (length l) acc l).1 rest.
Proof.
  intros Hl. revert w acc. induction Hl as [|c l Hc Hl IH]; intros w acc Hw; cbn in *.
  - by rewrite Nat.sub_0_r.
  - destruct w as [|w]; [lia|]. cbn. rewrite Hc. apply IH. lia.
Qed.

Lemma read_hex_snoc acc l c :
  hexs l -> is_hex c = true ->
  (read_hex (length (l ++ [c])) acc (l ++ [c])).1 = 16 * (read_hex (length l) acc l).1 + hex_value c.
Proof.
  intros Hl Hc. rewrite length_app, read_hex_app by (done || lia).
  replace (length l + length [c] - length l)%nat with 1%nat by (cbn; lia). cbn. by rewrite Hc.
Qed.

Lemma read_print_x fuel x :
  0 <= x < 16 ^ Z.of_nat fuel ->
  (read_hex (length (print_base 16 fuel x)) 0 (print_base 16 fuel x)).1 = x.
Proof.
  revert x; induction fuel as [|fuel IH]; intros x Hx; [cbn in *; lia|].
  cbn [print_base]. case_if; bool_to_prop.
  - destruct (hex_digit_char x ltac:(lia)) as [Hh Hv]. cbn. rewrite Hh. cbn. lia.
  - rewrite Nat2Z.inj_succ, Z.pow_succ_r in Hx by lia.
    destruct (hex_digit_char (x mod 16) ltac:(int_lia)) as [Hh Hv].
    rewrite read_hex_snoc by (done || (apply print_x_hexs; int_lia)).
    rewrite IH by int_lia. rewrite Hv. int_lia.
Qed.

Lemma read_hex_zeros n l :
  (read_hex (length (replicate n 48 ++ l)) 0 (replicate n 48 ++ l)).1 = (read_hex (length l) 0 l).1.
Proof. induction n as [|n IH]; [done|]. exact IH. Qed.

Lemma is_hex_not c : is_hex c = true ->
  is_space c = false /\ (c =? chr_minus) = false /\ (c =? 43) = false /\
  ((c =? 120) || (c =? 88)) = false.
Proof.
  intros Hc. assert (48 <= c /\ c <> 120 /\ c <> 88) as (H1 & H2 & H3).
  { unfold is_hex, is_digit in Hc. apply orb_true_iff in Hc as [[H|H]%orb_true_iff|H]; bool_to_prop; lia. }
  unfold is_space, chr_minus. rewrite (proj2 (Z.leb_gt c 13)), andb_false_r by lia.
  rewrite !(proj2 (Z.eqb_neq c _)) by lia. done.
Qed.

(** A number of at least two digits, padded with zeros. *)
Lemma scan_x_pad w n x rest :
  0 <= x < 16 ^ 16 -> (2 <= n)%nat -> no_hex_next rest ->
  (length (pad0 n (print_x x) ++ rest) <= w)%nat ->
  scan_x w (pad0 n (print_x x) ++ rest) = Some (x, rest).
Proof.
  intros Hx Hn Hr Hw. set (l := pad0 n (print_x x)) in *.
  assert (hexs l) as Hl.
  { unfold l, pad0, pad_left. apply Forall_app_2; [by apply Forall_replicate|]. apply print_x_hexs. lia. }
  assert (2 <= length l)%nat as Hlen.
  { unfold l, pad0, pad_left. rewrite length_app, length_replicate. lia. }
  assert (read_hex w 0 (l ++ rest) = (x, rest)) as Hv.
  { rewrite length_app in Hw. rewrite read_hex_app by (done || lia). unfold l at 2 3, pad0, pad_left.
    rewrite read_hex_zeros. unfold print_x. rewrite read_print_x by (cbn; lia).
    destruct (_ - _)%nat; [by destruct rest|]. destruct rest as [|c rest]; [done|].
    cbn in Hr |- *. by rewrite Hr. }
  clearbody l. destruct l as [|c1 [|c2 l]]; [cbn in Hlen; lia|cbn in Hlen; lia|].
  apply Forall_cons in Hl as [H1 [H2 Hl]%Forall_cons].
  destruct (is_hex_not c1 H1) as (Hs & Hm & Hp & _). destruct (is_hex_not c2 H2) as (_ & _ & _ & Hx2).
  destruct w as [|[|w]]; [cbn in Hw; lia|cbn in Hw; lia|].
  assert (forall B (a b : B), match c1 with 48 => a | _ => b end = if c1 =? 48 then a else b) as Hm48.
  { intros. destruct c1 as [|p|p]; try done. do 6 (destruct p as [p|p|]; try done). }
  unfold scan_x. cbn [app skip_spaces] in *. rewrite Hs, Hm, Hp.
  destruct (l ++ rest) as [|c3 l'].
  - destruct w as [|w]; [by rewrite H1, Hv|]. rewrite Hm48. destruct (c1 =? 48); by rewrite H1, Hv.
  - destruct w as [|w]; [cbn in Hw; lia|]. rewrite Hm48, Hx2. cbn [andb].
    destruct (c1 =? 48); by rewrite H1, Hv.
Qed.

Lemma scan_x_space w s : scan_x w (32 :: s) = scan_x w s.
Proof. done. Qed.
Lemma scan_x_spaces w n s : scan_x w (replicate n 32 ++ s) = scan_x w s.
Proof. induction n as [|n IH]; [done|]. cbn [replicate app]. by rewrite scan_x_space. Qed.
Lemma scan_d_space s : scan_d (32 :: s) = scan_d s.
Proof. done. Qed.

(** ** Words and lines *)

(** Characters of a name: no white space, no terminator. *)
Definition word (l : list Z) : Prop := Forall (fun c => is_space c || (c =? 0) = false) l.

Lemma scan_s_word l c rest :
  word l -> l <> [] -> is_space c = true -> scan_s (32 :: l ++ c :: rest) = Some (l, c :: rest).
Proof.
  intros Hl Hne Hc. assert (read_word (l ++ c :: rest) = (l, c :: rest)) as Hr.
  { clear Hne. induction Hl as [|x l Hx Hl IH]; cbn; [by rewrite Hc|]. by rewrite Hx, IH. }
  unfold scan_s. cbn [skip_spaces]. change (is_space 32) with true. cbv iota.
  destruct Hl as [|x l Hx Hl]; [done|]. cbn [app skip_spaces] in *.
  destruct (is_space x) eqn:E; [done|]. by rewrite Hr.
Qed.

Definition no_newline (l : list Z) : Prop := Forall (fun c => (c =? chr_newline) = false /\ (c =? 0) = false) l.

Lemma after_newline l rest : no_newline l -> after_chr chr_newline (l ++ chr_newline :: rest) = Some rest.
Proof. induction 1 as [|c l [H1 H2] Hl IH]; [done|]. cbn. by rewrite H1, H2. Qed.

Lemma hexs_no_newline l : hexs l -> no_newline l.
Proof.
  intros Hl. eapply Forall_impl; [exact Hl|]. cbv beta. intros c Hc. unfold is_hex, is_digit in Hc.
  assert (48 <= c) by (apply orb_true_iff in Hc as [[H|H]%orb_true_iff|H]; bool_to_prop; lia).
  split; apply Z.eqb_neq; unfold chr_newline; lia.
Qed.
Lemma digits_hexs l : digits l -> hexs l.
Proof. intros Hl. eapply Forall_impl; [exact Hl|]. cbv beta. intros c Hc. unfold is_hex. by rewrite Hc. Qed.
Lemma word_no_newline l : word l -> no_newline l.
Proof.
  intros Hl. eapply Forall_impl; [exact Hl|]. cbv beta. intros c [Hs Hz]%orb_false_iff. split; [|done].
  apply Z.eqb_neq. intros ->. done.
Qed.
