(* ===== verification/Kernel.v ===== *)
(** * The machine the code runs in

    The objects the drivers share with the rest of the kernel (heap
    blocks, URBs, USB devices, spin locks) and the monad their code is written
    in.  Code outside the repository (USB core, sockets, the allocator, the
    scheduler, system calls) is an environment: every call to it is an event of
    the trace, and its result is chosen by the parameter [env_answer].  The
    user-space programs run in the same monad and use only the trace. *)
From S2P Require Import Prelude.

(** ** Numbers of the kernel ABI *)

Definition EPERM := 1.
Definition ENOENT := 2.
Definition EAGAIN := 11.
Definition ENOMEM := 12.
Definition EBUSY := 16.
Definition ENODEV := 19.
Definition EINVAL := 22.
Definition EPIPE := 32.
Definition ECONNRESET := 104.
Definition ESHUTDOWN := 108.
Definition ETIMEDOUT := 110.
Definition EINPROGRESS := 115.
Definition ERESTARTSYS := 512.

Definition PIPE_ISOCHRONOUS := 0.
Definition PIPE_INTERRUPT := 1.
Definition PIPE_CONTROL := 2.
Definition PIPE_BULK := 3.

(** URB transfer flags. *)
Definition URB_SHORT_NOT_OK := 1.
Definition URB_ISO_ASAP := 2.
Definition URB_NO_TRANSFER_DMA_MAP := 4.
Definition URB_NO_FSBR := 32.
Definition URB_ZERO_PACKET := 64.
Definition URB_NO_INTERRUPT := 128.
Definition URB_FREE_BUFFER := 256.
Definition URB_DIR_MASK := 512.

(** ** Objects *)

(** What goes wrong in C without a defined result: the model stops there. *)
Inductive bug :=
  | NullDeref | OutOfBounds | UseAfterFree | BadFree | Deadlock | BadUnlock
  | BugOn | BadShift | DivByZero | Uninit | OutOfFuel.

Inductive res (A : Type) :=
  | Ok (a : A)
  | Crash (b : bug).
Arguments Ok {A} _.
Arguments Crash {A} _.

(** Spin locks, and the mutexes of the client library and of the gadget; the argument is the port,
    device, filter or other object that owns the lock. *)
Inductive lock :=
  | LockUd (o : Z) | LockPriv (o : Z) | LockUdFilter (o : Z)
  | LockController | LockBusidTable | LockDrivers | LockPtp (o : positive)
  | MutexMem | MutexWork | MutexSync (o : positive)
  | MutexCtx | MutexEp (o : Z).
#[export] Instance lock_eq_dec : EqDecision lock.
Proof. solve_decision. Defined.

(** A pointer into the heap: block and byte offset; [None] is NULL. *)
Definition ptr : Type := positive * Z.

(** Completion handlers an URB can carry. *)
Inductive completion :=
  | complete_null | complete_driver | stub_complete_fn
  | ptp_cmd_complete_fn | ptp_data_complete_fn.
#[export] Instance completion_eq_dec : EqDecision completion.
Proof. solve_decision. Defined.

(** [struct usb_iso_packet_descriptor] *)
Record usb_iso_packet := mkUsbIso {
  ui_offset : Z;
  ui_length : Z;
  ui_actual_length : Z;
  ui_status : Z
}.
#[export] Instance set_ui_offset : Setter ui_offset := fun v r => mkUsbIso v (ui_length r) (ui_actual_length r) (ui_status r).
#[global] Arguments set_ui_offset _ _ /.
#[export] Instance set_ui_length : Setter ui_length := fun v r => mkUsbIso (ui_offset r) v (ui_actual_length r) (ui_status r).
#[global] Arguments set_ui_length _ _ /.
#[export] Instance set_ui_actual_length : Setter ui_actual_length := fun v r => mkUsbIso (ui_offset r) (ui_length r) v (ui_status r).
#[global] Arguments set_ui_actual_length _ _ /.
#[export] Instance set_ui_status : Setter ui_status := fun v r => mkUsbIso (ui_offset r) (ui_length r) (ui_actual_length r) v.
#[global] Arguments set_ui_status _ _ /.

Definition usb_iso_zero := mkUsbIso 0 0 0 0.

(** [struct urb]: the members the drivers use. *)
Record urb := mkUrb {
  urb_dev : option positive;
  urb_pipe : Z;
  urb_status : Z;
  urb_transfer_flags : Z;
  urb_transfer_buffer : option ptr;
  urb_transfer_buffer_length : Z;
  urb_actual_length : Z;
  urb_setup_packet : option ptr;
  urb_start_frame : Z;
  urb_number_of_packets : Z;
  urb_interval : Z;
  urb_error_count : Z;
  urb_iso_frame_desc : list usb_iso_packet;
  urb_context : option positive;
  urb_complete : completion;
  urb_hcpriv : option positive
}.
#[export] Instance set_urb_dev : Setter urb_dev := fun v r => mkUrb v (urb_pipe r) (urb_status r) (urb_transfer_flags r) (urb_transfer_buffer r) (urb_transfer_buffer_length r) (urb_actual_length r) (urb_setup_packet r) (urb_start_frame r) (urb_number_of_packets r) (urb_interval r) (urb_error_count r) (urb_iso_frame_desc r) (urb_context r) (urb_complete r) (urb_hcpriv r).
#[global] Arguments set_urb_dev _ _ /.
#[export] Instance set_urb_pipe : Setter urb_pipe := fun v r => mkUrb (urb_dev r) v (urb_status r) (urb_transfer_flags r) (urb_transfer_buffer r) (urb_transfer_buffer_length r) (urb_actual_length r) (urb_setup_packet r) (urb_start_frame r) (urb_number_of_packets r) (urb_interval r) (urb_error_count r) (urb_iso_frame_desc r) (urb_context r) (urb_complete r) (urb_hcpriv r).
#[global] Arguments set_urb_pipe _ _ /.
#[export] Instance set_urb_status : Setter urb_status := fun v r => mkUrb (urb_dev r) (urb_pipe r) v (urb_transfer_flags r) (urb_transfer_buffer r) (urb_transfer_buffer_length r) (urb_actual_length r) (urb_setup_packet r) (urb_start_frame r) (urb_number_of_packets r) (urb_interval r) (urb_error_count r) (urb_iso_frame_desc r) (urb_context r) (urb_complete r) (urb_hcpriv r).
#[global] Arguments set_urb_status _ _ /.
#[export] Instance set_urb_transfer_flags : Setter urb_transfer_flags := fun v r => mkUrb (urb_dev r) (urb_pipe r) (urb_status r) v (urb_transfer_buffer r) (urb_transfer_buffer_length r) (urb_actual_length r) (urb_setup_packet r) (urb_start_frame r) (urb_number_of_packets r) (urb_interval r) (urb_error_count r) (urb_iso_frame_desc r) (urb_context r) (urb_complete r) (urb_hcpriv r).
#[global] Arguments set_urb_transfer_flags _ _ /.
#[export] Instance set_urb_transfer_buffer : Setter urb_transfer_buffer := fun v r => mkUrb (urb_dev r) (urb_pipe r) (urb_status r) (urb_transfer_flags r) v (urb_transfer_buffer_length r) (urb_actual_length r) (urb_setup_packet r) (urb_start_frame r) (urb_number_of_packets r) (urb_interval r) (urb_error_count r) (urb_iso_frame_desc r) (urb_context r) (urb_complete r) (urb_hcpriv r).
#[global] Arguments set_urb_transfer_buffer _ _ /.
#[export] Instance set_urb_transfer_buffer_length : Setter urb_transfer_buffer_length := fun v r => mkUrb (urb_dev r) (urb_pipe r) (urb_status r) (urb_transfer_flags r) (urb_transfer_buffer r) v (urb_actual_length r) (urb_setup_packet r) (urb_start_frame r) (urb_number_of_packets r) (urb_interval r) (urb_error_count r) (urb_iso_frame_desc r) (urb_context r) (urb_complete r) (urb_hcpriv r).
#[global] Arguments set_urb_transfer_buffer_length _ _ /.
#[export] Instance set_urb_actual_length : Setter urb_actual_length := fun v r => mkUrb (urb_dev r) (urb_pipe r) (urb_status r) (urb_transfer_flags r) (urb_transfer_buffer r) (urb_transfer_buffer_length r) v (urb_setup_packet r) (urb_start_frame r) (urb_number_of_packets r) (urb_interval r) (urb_error_count r) (urb_iso_frame_desc r) (urb_context r) (urb_complete r) (urb_hcpriv r).
#[global] Arguments set_urb_actual_length _ _ /.
#[export] Instance set_urb_setup_packet : Setter urb_setup_packet := fun v r => mkUrb (urb_dev r) (urb_pipe r) (urb_status r) (urb_transfer_flags r) (urb_transfer_buffer r) (urb_transfer_buffer_length r) (urb_actual_length r) v (urb_start_frame r) (urb_number_of_packets r) (urb_interval r) (urb_error_count r) (urb_iso_frame_desc r) (urb_context r) (urb_complete r) (urb_hcpriv r).
#[global] Arguments set_urb_setup_packet _ _ /.
#[export] Instance set_urb_start_frame : Setter urb_start_frame := fun v r => mkUrb (urb_dev r) (urb_pipe r) (urb_status r) (urb_transfer_flags r) (urb_transfer_buffer r) (urb_transfer_buffer_length r) (urb_actual_length r) (urb_setup_packet r) v (urb_number_of_packets r) (urb_interval r) (urb_error_count r) (urb_iso_frame_desc r) (urb_context r) (urb_complete r) (urb_hcpriv r).
#[global] Arguments set_urb_start_frame _ _ /.
#[export] Instance set_urb_number_of_packets : Setter urb_number_of_packets := fun v r => mkUrb (urb_dev r) (urb_pipe r) (urb_status r) (urb_transfer_flags r) (urb_transfer_buffer r) (urb_transfer_buffer_length r) (urb_actual_length r) (urb_setup_packet r) (urb_start_frame r) v (urb_interval r) (urb_error_count r) (urb_iso_frame_desc r) (urb_context r) (urb_complete r) (urb_hcpriv r).
#[global] Arguments set_urb_number_of_packets _ _ /.
#[export] Instance set_urb_interval : Setter urb_interval := fun v r => mkUrb (urb_dev r) (urb_pipe r) (urb_status r) (urb_transfer_flags r) (urb_transfer_buffer r) (urb_transfer_buffer_length r) (urb_actual_length r) (urb_setup_packet r) (urb_start_frame r) (urb_number_of_packets r) v (urb_error_count r) (urb_iso_frame_desc r) (urb_context r) (urb_complete r) (urb_hcpriv r).
#[global] Arguments set_urb_interval _ _ /.
#[export] Instance set_urb_error_count : Setter urb_error_count := fun v r => mkUrb (urb_dev r) (urb_pipe r) (urb_status r) (urb_transfer_flags r) (urb_transfer_buffer r) (urb_transfer_buffer_length r) (urb_actual_length r) (urb_setup_packet r) (urb_start_frame r) (urb_number_of_packets r) (urb_interval r) v (urb_iso_frame_desc r) (urb_context r) (urb_complete r) (urb_hcpriv r).
#[global] Arguments set_urb_error_count _ _ /.
#[export] Instance set_urb_iso_frame_desc : Setter urb_iso_frame_desc := fun v r => mkUrb (urb_dev r) (urb_pipe r) (urb_status r) (urb_transfer_flags r) (urb_transfer_buffer r) (urb_transfer_buffer_length r) (urb_actual_length r) (urb_setup_packet r) (urb_start_frame r) (urb_number_of_packets r) (urb_interval r) (urb_error_count r) v (urb_context r) (urb_complete r) (urb_hcpriv r).
#[global] Arguments set_urb_iso_frame_desc _ _ /.
#[export] Instance set_urb_context : Setter urb_context := fun v r => mkUrb (urb_dev r) (urb_pipe r) (urb_status r) (urb_transfer_flags r) (urb_transfer_buffer r) (urb_transfer_buffer_length r) (urb_actual_length r) (urb_setup_packet r) (urb_start_frame r) (urb_number_of_packets r) (urb_interval r) (urb_error_count r) (urb_iso_frame_desc r) v (urb_complete r) (urb_hcpriv r).
#[global] Arguments set_urb_context _ _ /.
#[export] Instance set_urb_complete : Setter urb_complete := fun v r => mkUrb (urb_dev r) (urb_pipe r) (urb_status r) (urb_transfer_flags r) (urb_transfer_buffer r) (urb_transfer_buffer_length r) (urb_actual_length r) (urb_setup_packet r) (urb_start_frame r) (urb_number_of_packets r) (urb_interval r) (urb_error_count r) (urb_iso_frame_desc r) (urb_context r) v (urb_hcpriv r).
#[global] Arguments set_urb_complete _ _ /.
#[export] Instance set_urb_hcpriv : Setter urb_hcpriv := fun v r => mkUrb (urb_dev r) (urb_pipe r) (urb_status r) (urb_transfer_flags r) (urb_transfer_buffer r) (urb_transfer_buffer_length r) (urb_actual_length r) (urb_setup_packet r) (urb_start_frame r) (urb_number_of_packets r) (urb_interval r) (urb_error_count r) (urb_iso_frame_desc r) (urb_context r) (urb_complete r) v.
#[global] Arguments set_urb_hcpriv _ _ /.


Definition urb_zero (npackets : nat) : urb :=
  mkUrb None 0 0 0 None 0 0 None 0 0 0 0 (replicate npackets usb_iso_zero)
        None complete_null None.

(** [struct usb_host_endpoint]: the descriptor through the accessors
    [usb_endpoint_type], [usb_endpoint_dir_out] and [wMaxPacketSize]. *)
Record endpoint := mkEp {
  ep_xfertype : Z;
  ep_dir_out : bool;
  ep_wMaxPacketSize : Z
}.
#[export] Instance set_ep_xfertype : Setter ep_xfertype := fun v r => mkEp v (ep_dir_out r) (ep_wMaxPacketSize r).
#[global] Arguments set_ep_xfertype _ _ /.
#[export] Instance set_ep_dir_out : Setter ep_dir_out := fun v r => mkEp (ep_xfertype r) v (ep_wMaxPacketSize r).
#[global] Arguments set_ep_dir_out _ _ /.
#[export] Instance set_ep_wMaxPacketSize : Setter ep_wMaxPacketSize := fun v r => mkEp (ep_xfertype r) (ep_dir_out r) v.
#[global] Arguments set_ep_wMaxPacketSize _ _ /.


(** [struct usb_device] *)
Record usb_device := mkUdev {
  dev_devnum : Z;
  dev_portnum : Z;
  dev_state : Z;
  dev_busnum : Z;
  dev_on_vhci : bool;
  dev_bDeviceClass : Z;
  dev_bDeviceSubClass : Z;
  dev_bDeviceProtocol : Z;
  dev_idVendor : Z;
  dev_idProduct : Z;
  dev_ep_in : list (option endpoint);
  dev_ep_out : list (option endpoint)
}.
#[export] Instance set_dev_devnum : Setter dev_devnum := fun v r => mkUdev v (dev_portnum r) (dev_state r) (dev_busnum r) (dev_on_vhci r) (dev_bDeviceClass r) (dev_bDeviceSubClass r) (dev_bDeviceProtocol r) (dev_idVendor r) (dev_idProduct r) (dev_ep_in r) (dev_ep_out r).
#[global] Arguments set_dev_devnum _ _ /.
#[export] Instance set_dev_portnum : Setter dev_portnum := fun v r => mkUdev (dev_devnum r) v (dev_state r) (dev_busnum r) (dev_on_vhci r) (dev_bDeviceClass r) (dev_bDeviceSubClass r) (dev_bDeviceProtocol r) (dev_idVendor r) (dev_idProduct r) (dev_ep_in r) (dev_ep_out r).
#[global] Arguments set_dev_portnum _ _ /.
#[export] Instance set_dev_state : Setter dev_state := fun v r => mkUdev (dev_devnum r) (dev_portnum r) v (dev_busnum r) (dev_on_vhci r) (dev_bDeviceClass r) (dev_bDeviceSubClass r) (dev_bDeviceProtocol r) (dev_idVendor r) (dev_idProduct r) (dev_ep_in r) (dev_ep_out r).
#[global] Arguments set_dev_state _ _ /.
#[export] Instance set_dev_busnum : Setter dev_busnum := fun v r => mkUdev (dev_devnum r) (dev_portnum r) (dev_state r) v (dev_on_vhci r) (dev_bDeviceClass r) (dev_bDeviceSubClass r) (dev_bDeviceProtocol r) (dev_idVendor r) (dev_idProduct r) (dev_ep_in r) (dev_ep_out r).
#[global] Arguments set_dev_busnum _ _ /.
#[export] Instance set_dev_on_vhci : Setter dev_on_vhci := fun v r => mkUdev (dev_devnum r) (dev_portnum r) (dev_state r) (dev_busnum r) v (dev_bDeviceClass r) (dev_bDeviceSubClass r) (dev_bDeviceProtocol r) (dev_idVendor r) (dev_idProduct r) (dev_ep_in r) (dev_ep_out r).
#[global] Arguments set_dev_on_vhci _ _ /.
#[export] Instance set_dev_bDeviceClass : Setter dev_bDeviceClass := fun v r => mkUdev (dev_devnum r) (dev_portnum r) (dev_state r) (dev_busnum r) (dev_on_vhci r) v (dev_bDeviceSubClass r) (dev_bDeviceProtocol r) (dev_idVendor r) (dev_idProduct r) (dev_ep_in r) (dev_ep_out r).
#[global] Arguments set_dev_bDeviceClass _ _ /.
#[export] Instance set_dev_bDeviceSubClass : Setter dev_bDeviceSubClass := fun v r => mkUdev (dev_devnum r) (dev_portnum r) (dev_state r) (dev_busnum r) (dev_on_vhci r) (dev_bDeviceClass r) v (dev_bDeviceProtocol r) (dev_idVendor r) (dev_idProduct r) (dev_ep_in r) (dev_ep_out r).
#[global] Arguments set_dev_bDeviceSubClass _ _ /.
#[export] Instance set_dev_bDeviceProtocol : Setter dev_bDeviceProtocol := fun v r => mkUdev (dev_devnum r) (dev_portnum r) (dev_state r) (dev_busnum r) (dev_on_vhci r) (dev_bDeviceClass r) (dev_bDeviceSubClass r) v (dev_idVendor r) (dev_idProduct r) (dev_ep_in r) (dev_ep_out r).
#[global] Arguments set_dev_bDeviceProtocol _ _ /.
#[export] Instance set_dev_idVendor : Setter dev_idVendor := fun v r => mkUdev (dev_devnum r) (dev_portnum r) (dev_state r) (dev_busnum r) (dev_on_vhci r) (dev_bDeviceClass r) (dev_bDeviceSubClass r) (dev_bDeviceProtocol r) v (dev_idProduct r) (dev_ep_in r) (dev_ep_out r).
#[global] Arguments set_dev_idVendor _ _ /.
#[export] Instance set_dev_idProduct : Setter dev_idProduct := fun v r => mkUdev (dev_devnum r) (dev_portnum r) (dev_state r) (dev_busnum r) (dev_on_vhci r) (dev_bDeviceClass r) (dev_bDeviceSubClass r) (dev_bDeviceProtocol r) (dev_idVendor r) v (dev_ep_in r) (dev_ep_out r).
#[global] Arguments set_dev_idProduct _ _ /.
#[export] Instance set_dev_ep_in : Setter dev_ep_in := fun v r => mkUdev (dev_devnum r) (dev_portnum r) (dev_state r) (dev_busnum r) (dev_on_vhci r) (dev_bDeviceClass r) (dev_bDeviceSubClass r) (dev_bDeviceProtocol r) (dev_idVendor r) (dev_idProduct r) v (dev_ep_out r).
#[global] Arguments set_dev_ep_in _ _ /.
#[export] Instance set_dev_ep_out : Setter dev_ep_out := fun v r => mkUdev (dev_devnum r) (dev_portnum r) (dev_state r) (dev_busnum r) (dev_on_vhci r) (dev_bDeviceClass r) (dev_bDeviceSubClass r) (dev_bDeviceProtocol r) (dev_idVendor r) (dev_idProduct r) (dev_ep_in r) v.
#[global] Arguments set_dev_ep_out _ _ /.


(** Calls of the event-loop library by the client library.  Handles and requests
    are named by the object they are a member of, callbacks by their function;
    [UvUserCallback] is the call of a function of the library's user. *)
Inductive uv_handle :=
  | UvSocket (d : positive) | UvReqSocket (r : positive)
  | UvWorkTimer (w : positive) | UvDeviceTimer (d : positive).
Inductive uv_req :=
  | UvDevConnect (d : positive) | UvDevWrite (d : positive) | UvUrbWrite (u : positive)
  | UvReqConnect (r : positive) | UvReqWrite (r : positive).
Inductive uv_close_fn :=
  | close_cb_fn | socket_close_cb_fn | timer_close_cb_fn | device_timer_close_cb_fn
  | device_info_req_close_cb_fn.
Inductive uv_timer_fn := timer_cb_fn | timedout_cb_fn.
Inductive uv_call :=
  | UvLoopNew | UvLoopDelete | UvStop | UvThreadCreate | UvThreadJoin | UvAsyncInit | UvNow
  | UvTcpInit (h : uv_handle)
  | UvTcpConnect (r : uv_req) (h : uv_handle) (addr : list Z) (port : Z)
  | UvReadStart (h : uv_handle) | UvReadStop (h : uv_handle)
  | UvWrite (r : uv_req) (h : uv_handle) (data : list Z)
  | UvClose (h : uv_handle) (cb : uv_close_fn)
  | UvTimerInit (h : uv_handle)
  | UvTimerStart (h : uv_handle) (cb : uv_timer_fn) (timeout : Z)
  | UvTimerStop (h : uv_handle)
  | UvAsyncSend | UvLastError | UvUserCallback (data ret : Z).

(** Calls into the client library, as a program sees them: numbers, the bytes of
    an OUT transfer, and for a transfer that goes on the object it belongs to. *)
Inductive lib_call :=
  | LibInit (level : Z) | LibFindHosts (timeout : Z) | LibFreeHosts
  | LibGetDevicesInfo (addr : list Z) (port timeout : Z) | LibFreeDevicesInfo (count : Z)
  | LibDeviceOpen (addr : list Z) (port : Z) (busid : list Z) (busnum devnum retry timeout : Z)
  | LibDeviceClose (dev : Z) | LibWorkClose (work : Z)
  | LibControlMsg (dev requesttype request value index : Z) (data : list Z) (size timeout : Z)
  | LibUrbTransfer (dev ep type : Z) (u : positive) (data : list Z) (size timeout : Z).

(** Registration of the host controller with the USB core and the platform bus. *)
Inductive hcd_call :=
  | HcdCreate | HcdAdd | HcdRemove | HcdPut | UsbDisabled
  | PlatformDriverRegister | PlatformDriverUnregister
  | PlatformDeviceRegister | PlatformDeviceUnregister.

(** Calls out of the drivers and of the user-space programs. *)
Inductive call :=
  | CRecvmsg (sock size : Z)
  | CSendmsg (sock : Z) (data : list Z) (size : Z)
  | CSockShutdown (sock : Z)
  | CFput (sock : Z)
  | CFget (fd : Z)
  | CIsSocket (file : Z)
  | CMalloc (size : Z)
  | CAllocUrb (npackets : Z)
  | CSubmitUrb (u : positive)
  | CUnlinkUrb (u : positive)
  | CKillUrb (u : positive)
  | CLinkUrbToEp (u : positive)
  | CUnlinkUrbFromEp (u : positive)
  | CCheckUnlinkUrb (u : positive) (status : Z)
  | CGivebackUrb (u : positive) (status : Z)
  | CClearHalt (dev : option positive) (pipe : Z)
  | CSetInterface (dev : option positive) (interface alternate : Z)
  | CLockForReset | CResetDevice | CUnlockDevice
  | CGetDev (d : positive) | CPutDev (d : positive)
  | CGetIntf | CPutIntf
  | CKthreadRun (name : Z) | CKthreadStop (name : Z) | CShouldStop
  | CWakeUp (queue : Z) | CWaitEvent (queue : Z)
  | CPollRhStatus | CResumeRootHub
  | CJiffies | CTimer (add : bool) (at_ : Z)
  | CCreateFile (file : Z) | CRemoveFile (file : Z)
  | CSchedule (name : Z) | CModule (name : Z)
  (* system and library calls of the user-space programs; [UCalloc] is any
     allocation, [UStack] what uninitialised memory on the stack holds *)
  | USend (fd : Z) (data : list Z) (len : Z) | URecv (fd len : Z)
  | UGetaddrinfo (host service : list Z) | USocket (addr : Z) | USetsockopt (fd opt : Z)
  | UConnect (fd addr : Z) | UBind (fd addr : Z) | UListen (fd : Z) | UClose (fd : Z)
  | UAccept (fd : Z) | UFork | UPoll (fds : list Z) | UDaemon | UCalloc | UStack
  | UStat (path : list Z) | UOpenAttr (path : list Z) | UReadAttr (path : list Z)
  | UWriteAttr (path data : list Z) (len : Z)
  | UMkdir (path : list Z) | UCreate (path : list Z) | UWrite (fd : Z) (data : list Z)
  | URemove (path : list Z)
  | UGetenv (name : list Z)
  | UUv (c : uv_call)
  | UOpen (path : list Z) | URead (fd len : Z) | UErrno | USleep (seconds : Z) | UChdir (path : list Z)
  | UThreadCreate (i : Z) | UThreadJoin (i : Z) | UFopen (path : list Z) | UFclose
  | CHcd (c : hcd_call)
  | ULib (c : lib_call).

(** The kernel: heap, URBs, devices, the [struct list_head] nodes linked by
    address (next, previous), the locks held, the calls made so far (latest
    first) and the next unused object name. *)
Record kernel := mkKernel {
  k_heap : gmap positive (list Z);
  k_urbs : gmap positive urb;
  k_udevs : gmap positive usb_device;
  k_nodes : gmap positive (positive * positive);
  k_locks : list lock;
  k_trace : list call;
  k_next : positive
}.
#[export] Instance set_k_heap : Setter k_heap := fun v r => mkKernel v (k_urbs r) (k_udevs r) (k_nodes r) (k_locks r) (k_trace r) (k_next r).
#[global] Arguments set_k_heap _ _ /.
#[export] Instance set_k_urbs : Setter k_urbs := fun v r => mkKernel (k_heap r) v (k_udevs r) (k_nodes r) (k_locks r) (k_trace r) (k_next r).
#[global] Arguments set_k_urbs _ _ /.
#[export] Instance set_k_udevs : Setter k_udevs := fun v r => mkKernel (k_heap r) (k_urbs r) v (k_nodes r) (k_locks r) (k_trace r) (k_next r).
#[global] Arguments set_k_udevs _ _ /.
#[export] Instance set_k_nodes : Setter k_nodes := fun v r => mkKernel (k_heap r) (k_urbs r) (k_udevs r) v (k_locks r) (k_trace r) (k_next r).
#[global] Arguments set_k_nodes _ _ /.
#[export] Instance set_k_locks : Setter k_locks := fun v r => mkKernel (k_heap r) (k_urbs r) (k_udevs r) (k_nodes r) v (k_trace r) (k_next r).
#[global] Arguments set_k_locks _ _ /.
#[export] Instance set_k_trace : Setter k_trace := fun v r => mkKernel (k_heap r) (k_urbs r) (k_udevs r) (k_nodes r) (k_locks r) v (k_next r).
#[global] Arguments set_k_trace _ _ /.
#[export] Instance set_k_next : Setter k_next := fun v r => mkKernel (k_heap r) (k_urbs r) (k_udevs r) (k_nodes r) (k_locks r) (k_trace r) v.
#[global] Arguments set_k_next _ _ /.


(** The environment: what a call returns, given the calls before it. *)
Class Env := env_answer : list call -> call -> Z * list Z.

(** The byte order of the machine. *)
Class Arch := big_endian : bool.

(** ** The monad of driver code *)

Definition M (S A : Type) : Type := S -> kernel -> res (A * S * kernel).

#[export] Instance M_ret S : MRet (M S) := fun A a s k => Ok (a, s, k).
#[export] Instance M_bind S : MBind (M S) := fun A B f m s k =>
  match m s k with
  | Ok (a, s', k') => f a s' k'
  | Crash b => Crash b
  end.

Section monad.
Context {S : Type}.

Definition crash {A} (b : bug) : M S A := fun _ _ => Crash b.
Definition get : M S S := fun s k => Ok (s, s, k).
Definition gets {A} (f : S -> A) : M S A := fun s k => Ok (f s, s, k).
Definition modify (f : S -> S) : M S unit := fun s k => Ok (tt, f s, k).
Definition kgets {A} (f : kernel -> A) : M S A := fun s k => Ok (f k, s, k).
Definition kmodify (f : kernel -> kernel) : M S unit := fun s k => Ok (tt, s, f k).

Definition of_option {A} (b : bug) (o : option A) : M S A :=
  match o with Some a => mret a | None => crash b end.

Definition when_ (b : bool) (m : M S unit) : M S unit := if b then m else mret tt.

(** A call to the environment. *)
Definition ext `{Env} (c : call) : M S (Z * list Z) := fun s k =>
  Ok (env_answer (k_trace k) c, s, k <| k_trace := c :: k_trace k |>).
Definition ext_ret `{Env} (c : call) : M S Z := r ← ext c; mret r.1.
Definition ext_do `{Env} (c : call) : M S unit := ext c ;; mret tt.

(** *** Spin locks *)
Definition spin_lock (l : lock) : M S unit := fun s k =>
  if decide (l ∈ k_locks k) then Crash Deadlock
  else Ok (tt, s, k <| k_locks := l :: k_locks k |>).
Definition spin_unlock (l : lock) : M S unit := fun s k =>
  if decide (l ∈ k_locks k) then
    Ok (tt, s, k <| k_locks := remove_id l (k_locks k) |>)
  else Crash BadUnlock.

(** *** Heap *)
Definition alloc_block (blk : list Z) : M S ptr := fun s k =>
  Ok ((k_next k, 0), s,
      k <| k_heap := <[k_next k := blk]> (k_heap k) |>
        <| k_next := Pos.succ (k_next k) |>).

(** A request too large for the allocator, such as a negative size, fails. *)
Definition kzalloc `{Env} (size : Z) : M S (option ptr) :=
  r ← ext_ret (CMalloc size);
  if (size <? 0) || (r =? 0) then mret None
  else p ← alloc_block (replicate (Z.to_nat size) 0); mret (Some p).

Definition kfree (p : option ptr) : M S unit := fun s k =>
  match p with
  | None => Ok (tt, s, k)
  | Some (b, off) =>
      match k_heap k !! b with
      | Some _ => if off =? 0 then Ok (tt, s, k <| k_heap := delete b (k_heap k) |>)
                  else Crash BadFree
      | None => Crash BadFree
      end
  end.

Definition load_bytes (p : ptr) (n : Z) : M S (list Z) := fun s k =>
  match k_heap k !! p.1 with
  | None => Crash UseAfterFree
  | Some blk =>
      if (0 <=? p.2) && (0 <=? n) && (p.2 + n <=? Z.of_nat (length blk)) then
        Ok (take (Z.to_nat n) (drop (Z.to_nat p.2) blk), s, k)
      else Crash OutOfBounds
  end.

Definition splice (blk : list Z) (off : nat) (data : list Z) : list Z :=
  take off blk ++ data ++ drop (off + length data) blk.

Definition store_bytes (p : ptr) (data : list Z) : M S unit := fun s k =>
  match k_heap k !! p.1 with
  | None => Crash UseAfterFree
  | Some blk =>
      if (0 <=? p.2) && (p.2 + Z.of_nat (length data) <=? Z.of_nat (length blk)) then
        Ok (tt, s, k <| k_heap := <[p.1 := splice blk (Z.to_nat p.2) data]> (k_heap k) |>)
      else Crash OutOfBounds
  end.

Definition deref {A} (o : option A) : M S A := of_option NullDeref o.

Definition ptr_add (p : ptr) (n : Z) : ptr := (p.1, p.2 + n).

(** *** URBs *)
Definition get_urb (u : positive) : M S urb := fun s k =>
  match k_urbs k !! u with
  | Some r => Ok (r, s, k)
  | None => Crash UseAfterFree
  end.
Definition put_urb (u : positive) (r : urb) : M S unit := fun s k =>
  match k_urbs k !! u with
  | Some _ => Ok (tt, s, k <| k_urbs := <[u := r]> (k_urbs k) |>)
  | None => Crash UseAfterFree
  end.
Definition modify_urb (u : positive) (f : urb -> urb) : M S unit :=
  r ← get_urb u; put_urb u (f r).

Definition usb_alloc_urb `{Env} (npackets : Z) : M S (option positive) :=
  r ← ext_ret (CAllocUrb npackets);
  if r =? 0 then mret None
  else fun s k =>
    Ok (Some (k_next k), s,
        k <| k_urbs := <[k_next k := urb_zero (Z.to_nat npackets)]> (k_urbs k) |>
          <| k_next := Pos.succ (k_next k) |>).
Definition usb_free_urb (u : option positive) : M S unit := fun s k =>
  match u with
  | None => Ok (tt, s, k)
  | Some u' =>
      match k_urbs k !! u' with
      | Some _ => Ok (tt, s, k <| k_urbs := delete u' (k_urbs k) |>)
      | None => Crash BadFree
      end
  end.

Definition get_udev (d : positive) : M S usb_device :=
  ds ← kgets k_udevs; of_option UseAfterFree (ds !! d).
End monad.
#[global] Arguments splice : simpl never.

(** ** Pipes

    An URB's pipe is an integer only the USB core's accessors look into. *)
Class UsbPipes := {
  usb_pipein : Z -> bool;
  usb_pipetype : Z -> Z;
  usb_pipeendpoint : Z -> Z;
  usb_pipedevice : Z -> Z;
  usb_mkpipe : Z -> bool -> Z -> Z -> Z
}.

Definition usb_pipeout `{UsbPipes} (p : Z) : bool := negb (usb_pipein p).
Definition usb_pipeisoc `{UsbPipes} (p : Z) : bool := usb_pipetype p =? PIPE_ISOCHRONOUS.
Definition usb_pipebulk `{UsbPipes} (p : Z) : bool := usb_pipetype p =? PIPE_BULK.

(** The documented contract of the pipe constructors; the endpoint is a byte, of
    which the reader sees the low four bits. *)
Class UsbPipesOk `{UsbPipes} : Prop := {
  pipein_mk t i d e : 0 <= t < 4 -> 0 <= d < 128 -> 0 <= e < 256 ->
    usb_pipein (usb_mkpipe t i d e) = i;
  pipetype_mk t i d e : 0 <= t < 4 -> 0 <= d < 128 -> 0 <= e < 256 ->
    usb_pipetype (usb_mkpipe t i d e) = t;
  pipeendpoint_mk t i d e : 0 <= t < 4 -> 0 <= d < 128 -> 0 <= e < 256 ->
    usb_pipeendpoint (usb_mkpipe t i d e) = e mod 16;
  pipedevice_mk t i d e : 0 <= t < 4 -> 0 <= d < 128 -> 0 <= e < 256 ->
    usb_pipedevice (usb_mkpipe t i d e) = d
}.

(** The layout Linux documents: direction in bit 7, device number in bits 8
    to 14, endpoint from bit 15 on, type in bits 30 and 31. *)
Definition linux_pipes : UsbPipes := {|
  usb_pipein p := Z.testbit p 7;
  usb_pipetype p := (p / 2 ^ 30) mod 4;
  usb_pipeendpoint p := (p / 2 ^ 15) mod 16;
  usb_pipedevice p := (p / 2 ^ 8) mod 128;
  usb_mkpipe t i d e := t * 2 ^ 30 + e * 2 ^ 15 + d * 2 ^ 8 + (if i : bool then 128 else 0)
|}.

Lemma linux_pipes_ok : @UsbPipesOk linux_pipes.
Proof.
  split; intros t i d e Ht Hd He;
    cbn [linux_pipes usb_pipein usb_pipetype usb_pipeendpoint usb_pipedevice usb_mkpipe];
    try (destruct i; Z.div_mod_to_equations; lia).
  rewrite Z.testbit_odd, Z.shiftr_div_pow2 by lia.
  replace ((_ + _) / 2 ^ 7) with ((if i then 1 else 0) + 2 * (t * 2 ^ 22 + e * 2 ^ 7 + d)).
  - rewrite Z.odd_add_mul_2. by destruct i.
  - destruct i; Z.div_mod_to_equations; lia.
Qed.

(** ** Weakest preconditions

    [wp m Q s k]: from [s] and [k] the code [m] finishes without reaching a
    [bug], and its result and final state satisfy [Q]. *)
Definition wp {S A} (m : M S A) (Q : A -> S -> kernel -> Prop) (s : S) (k : kernel) : Prop :=
  match m s k with
  | Ok (a, s', k') => Q a s' k'
  | Crash _ => False
  end.

Section wp.
Context {S : Type}.
Implicit Types (s : S) (k : kernel).

Lemma wp_ok {A} (m : M S A) Q s k :
  wp m Q s k <-> exists a s' k', m s k = Ok (a, s', k') /\ Q a s' k'.
Proof.
  unfold wp. destruct (m s k) as [[[a s'] k']|b]; naive_solver.
Qed.

Lemma wp_mono {A} (m : M S A) (Q Q' : A -> S -> kernel -> Prop) s k :
  wp m Q s k -> (forall a s' k', Q a s' k' -> Q' a s' k') -> wp m Q' s k.
Proof. unfold wp. destruct (m s k) as [[[a s'] k']|b]; naive_solver. Qed.

Lemma wp_bind {A B} (m : M S A) (f : A -> M S B) Q s k :
  wp (m ≫= f) Q s k <-> wp m (fun a s' k' => wp (f a) Q s' k') s k.
Proof.
  unfold wp, mbind, M_bind. by destruct (m s k) as [[[a s'] k']|b].
Qed.

(** A step that succeeds can be run. *)
Lemma bind_ok {A B} (m : M S A) (f : A -> M S B) s k a s' k' :
  m s k = Ok (a, s', k') -> (m ≫= f) s k = f a s' k'.
Proof. intros Hm. unfold mbind, M_bind. by rewrite Hm. Qed.

Lemma bind_crash {A B} (m : M S A) (f : A -> M S B) s k b :
  m s k = Crash b -> (m ≫= f) s k = Crash b.
Proof. intros Hm. unfold mbind, M_bind. by rewrite Hm. Qed.

Lemma bind_inv {A B} (m : M S A) (f : A -> M S B) s k r :
  (m ≫= f) s k = Ok r -> exists a s' k', m s k = Ok (a, s', k') /\ f a s' k' = Ok r.
Proof. unfold mbind, M_bind. destruct (m s k) as [[[a s'] k']|b]; [|done]. intros Hf. by exists a, s', k'. Qed.

Lemma wp_run {A} (m : M S A) (Q : A -> S -> kernel -> Prop) s k a s' k' :
  m s k = Ok (a, s', k') -> wp m Q s k <-> Q a s' k'.
Proof. intros Hm. unfold wp. by rewrite Hm. Qed.

Lemma wp_ret {A} (a : A) (Q : A -> S -> kernel -> Prop) s k :
  wp (mret a) Q s k <-> Q a s k.
Proof. done. Qed.
Lemma wp_get (Q : S -> S -> kernel -> Prop) s k : wp get Q s k <-> Q s s k.
Proof. done. Qed.
Lemma wp_gets {A} (f : S -> A) Q s k : wp (gets f) Q s k <-> Q (f s) s k.
Proof. done. Qed.
Lemma wp_modify (f : S -> S) Q s k : wp (modify f) Q s k <-> Q tt (f s) k.
Proof. done. Qed.
Lemma wp_kgets {A} (f : kernel -> A) (Q : A -> S -> kernel -> Prop) s k :
  wp (kgets f) Q s k <-> Q (f k) s k.
Proof. done. Qed.
Lemma wp_kmodify (f : kernel -> kernel) (Q : unit -> S -> kernel -> Prop) s k :
  wp (kmodify f) Q s k <-> Q tt s (f k).
Proof. done. Qed.
Lemma wp_ext `{Env} c (Q : Z * list Z -> S -> kernel -> Prop) s k :
  wp (ext c) Q s k <->
  Q (env_answer (k_trace k) c) s (k <| k_trace := c :: k_trace k |>).
Proof. done. Qed.
Lemma wp_ext_ret `{Env} c (Q : Z -> S -> kernel -> Prop) s k :
  wp (ext_ret c) Q s k <->
  Q (env_answer (k_trace k) c).1 s (k <| k_trace := c :: k_trace k |>).
Proof. done. Qed.
Lemma wp_ext_do `{Env} c (Q : unit -> S -> kernel -> Prop) s k :
  wp (ext_do c) Q s k <-> Q tt s (k <| k_trace := c :: k_trace k |>).
Proof. done. Qed.

Lemma wp_spin_lock l (Q : unit -> S -> kernel -> Prop) s k :
  wp (spin_lock l) Q s k <->
  l ∉ k_locks k /\ Q tt s (k <| k_locks := l :: k_locks k |>).
Proof. unfold wp, spin_lock. case_decide; naive_solver. Qed.
Lemma wp_spin_unlock l (Q : unit -> S -> kernel -> Prop) s k :
  wp (spin_unlock l) Q s k <->
  l ∈ k_locks k /\ Q tt s (k <| k_locks := remove_id l (k_locks k) |>).
Proof. unfold wp, spin_unlock. case_decide; naive_solver. Qed.

Lemma wp_of_option {A} b (o : option A) (Q : A -> S -> kernel -> Prop) s k :
  wp (of_option b o) Q s k <-> exists a, o = Some a /\ Q a s k.
Proof. destruct o; cbn; naive_solver. Qed.
Lemma wp_get_urb u (Q : urb -> S -> kernel -> Prop) s k :
  wp (get_urb u) Q s k <-> exists r, k_urbs k !! u = Some r /\ Q r s k.
Proof. unfold wp, get_urb. destruct (k_urbs k !! u); naive_solver. Qed.
Lemma wp_put_urb u r (Q : unit -> S -> kernel -> Prop) s k :
  wp (put_urb u r) Q s k <->
  is_Some (k_urbs k !! u) /\ Q tt s (k <| k_urbs := <[u := r]> (k_urbs k) |>).
Proof. unfold wp, put_urb, is_Some. destruct (k_urbs k !! u); naive_solver. Qed.
Lemma wp_modify_urb u f (Q : unit -> S -> kernel -> Prop) s k :
  wp (modify_urb u f) Q s k <->
  exists r, k_urbs k !! u = Some r /\
    Q tt s (k <| k_urbs := <[u := f r]> (k_urbs k) |>).
Proof.
  unfold modify_urb. rewrite wp_bind, wp_get_urb.
  split; intros (r & Hr & HQ); exists r; split; auto.
  - by apply wp_put_urb in HQ as [_ HQ].
  - apply wp_put_urb; eauto.
Qed.

Lemma wp_load_bytes p n (Q : list Z -> S -> kernel -> Prop) s k :
  wp (load_bytes p n) Q s k <->
  exists blk, k_heap k !! p.1 = Some blk /\ 0 <= p.2 /\ 0 <= n /\
    p.2 + n <= Z.of_nat (length blk) /\
    Q (take (Z.to_nat n) (drop (Z.to_nat p.2) blk)) s k.
Proof.
  unfold wp, load_bytes. destruct (k_heap k !! p.1) as [blk|]; [|naive_solver].
  case_if; bool_to_prop; split; try naive_solver.
  intros (blk' & [= <-] & ? & ? & ? & ?).
  apply andb_false_iff in Etest as [[?|?]%andb_false_iff|?]; bool_to_prop; lia.
Qed.
Lemma wp_store_bytes p data (Q : unit -> S -> kernel -> Prop) s k :
  wp (store_bytes p data) Q s k <->
  exists blk, k_heap k !! p.1 = Some blk /\ 0 <= p.2 /\
    p.2 + Z.of_nat (length data) <= Z.of_nat (length blk) /\
    Q tt s (k <| k_heap := <[p.1 := splice blk (Z.to_nat p.2) data]> (k_heap k) |>).
Proof.
  unfold wp, store_bytes. destruct (k_heap k !! p.1) as [blk|]; [|naive_solver].
  case_if; bool_to_prop; split; try naive_solver.
  intros (blk' & [= <-] & ? & ? & ?).
  apply andb_false_iff in Etest as [?|?]; bool_to_prop; lia.
Qed.
End wp.

#[export] Hint Rewrite @wp_bind @wp_ret @wp_get @wp_gets @wp_modify @wp_kgets
  @wp_kmodify @wp_ext @wp_ext_ret @wp_ext_do @wp_spin_lock @wp_spin_unlock
  @wp_of_option @wp_get_urb @wp_put_urb @wp_modify_urb : wp.

(** One round of symbolic execution. *)
Ltac wp_step := autorewrite with wp; cbn [set_field].

(** ** Derived rules for memory *)

Lemma length_splice blk off data :
  (off + length data <= length blk)%nat -> length (splice blk off data) = length blk.
Proof. intros. unfold splice. rewrite !length_app, length_take, length_drop. lia. Qed.

Lemma splice_nil blk off : splice blk off [] = blk.
Proof. unfold splice. rewrite Nat.add_0_r. apply take_drop. Qed.

Lemma splice_app blk off d1 d2 :
  (off + length d1 + length d2 <= length blk)%nat ->
  splice (splice blk off d1) (off + length d1) d2 = splice blk off (d1 ++ d2).
Proof.
  intros Hl. unfold splice.
  set (pre := take off blk). set (rest := drop (off + length d1) blk).
  assert (length (pre ++ d1) = (off + length d1)%nat) as Hlen
    by (unfold pre; rewrite length_app, length_take; lia).
  replace (pre ++ d1 ++ rest) with ((pre ++ d1) ++ rest) by by rewrite app_assoc.
  rewrite take_app_length', <- drop_drop, drop_app_length' by lia.
  unfold rest. rewrite drop_drop, length_app, <- !app_assoc. do 4 f_equal. lia.
Qed.

Lemma splice_all blk data :
  length data = length blk -> splice blk 0 data = data.
Proof.
  intros Hl. unfold splice. rewrite take_0, Nat.add_0_l, Hl, drop_all. cbn.
  apply app_nil_r.
Qed.

Section wp_memory.
Context `{Env} {St : Type}.

Lemma wp_kzalloc size (Q : option ptr -> St -> kernel -> Prop) s k :
  Q None s (k <| k_trace := CMalloc size :: k_trace k |>) ->
  (0 <= size ->
   Q (Some (k_next k, 0)) s
     (k <| k_trace := CMalloc size :: k_trace k |>
        <| k_heap := <[k_next k := replicate (Z.to_nat size) 0]> (k_heap k) |>
        <| k_next := Pos.succ (k_next k) |>)) ->
  wp (kzalloc size) Q s k.
Proof.
  intros H1 H2. unfold kzalloc. rewrite wp_bind, wp_ext_ret.
  case_if; [done|]. bool_to_prop. rewrite wp_bind. apply H2. lia.
Qed.

Lemma wp_kfree_null (Q : unit -> St -> kernel -> Prop) s k :
  wp (kfree None) Q s k <-> Q tt s k.
Proof. done. Qed.

Lemma wp_kfree b blk (Q : unit -> St -> kernel -> Prop) s k :
  k_heap k !! b = Some blk ->
  Q tt s (k <| k_heap := delete b (k_heap k) |>) -> wp (kfree (Some (b, 0))) Q s k.
Proof. intros Hb HQ. unfold wp, kfree. by rewrite Hb. Qed.
End wp_memory.
