(* ===== verification/Wire.v ===== *)
(** * The USB/IP wire format

    [usbip_struct.h] and the byte-order and packing routines of
    [usbip_common.c].  A header is modelled as it lies in memory: the basic
    header and the words of the union, which the four packet types share, so
    that the byte-order routines act on the words the chosen member aliases. *)
From S2P Require Import Prelude Kernel.

Definition USBIP_CMD_SUBMIT := 1.
Definition USBIP_CMD_UNLINK := 2.
Definition USBIP_RET_SUBMIT := 3.
Definition USBIP_RET_UNLINK := 4.
Definition USBIP_DIR_OUT := 0.
Definition USBIP_DIR_IN := 1.

Record usbip_iso_packet_descriptor := mkIso {
  iso_offset : Z;
  iso_length : Z;
  iso_actual_length : Z;
  iso_status : Z
}.
#[export] Instance set_iso_offset : Setter iso_offset := fun v r => mkIso v (iso_length r) (iso_actual_length r) (iso_status r).
#[global] Arguments set_iso_offset _ _ /.
#[export] Instance set_iso_length : Setter iso_length := fun v r => mkIso (iso_offset r) v (iso_actual_length r) (iso_status r).
#[global] Arguments set_iso_length _ _ /.
#[export] Instance set_iso_actual_length : Setter iso_actual_length := fun v r => mkIso (iso_offset r) (iso_length r) v (iso_status r).
#[global] Arguments set_iso_actual_length _ _ /.
#[export] Instance set_iso_status : Setter iso_status := fun v r => mkIso (iso_offset r) (iso_length r) (iso_actual_length r) v.
#[global] Arguments set_iso_status _ _ /.


Record usbip_header_basic := mkBasic {
  command : Z;
  seqnum : Z;
  devid : Z;
  direction : Z;
  ep : Z
}.
#[export] Instance set_command : Setter command := fun v r => mkBasic v (seqnum r) (devid r) (direction r) (ep r).
#[global] Arguments set_command _ _ /.
#[export] Instance set_seqnum : Setter seqnum := fun v r => mkBasic (command r) v (devid r) (direction r) (ep r).
#[global] Arguments set_seqnum _ _ /.
#[export] Instance set_devid : Setter devid := fun v r => mkBasic (command r) (seqnum r) v (direction r) (ep r).
#[global] Arguments set_devid _ _ /.
#[export] Instance set_direction : Setter direction := fun v r => mkBasic (command r) (seqnum r) (devid r) v (ep r).
#[global] Arguments set_direction _ _ /.
#[export] Instance set_ep : Setter ep := fun v r => mkBasic (command r) (seqnum r) (devid r) (direction r) v.
#[global] Arguments set_ep _ _ /.


Record usbip_header_cmd_submit := mkCmdSubmit {
  cs_transfer_flags : Z;
  cs_transfer_buffer_length : Z;
  cs_start_frame : Z;
  cs_number_of_packets : Z;
  cs_interval : Z;
  cs_setup : list Z
}.
#[export] Instance set_cs_transfer_flags : Setter cs_transfer_flags := fun v r => mkCmdSubmit v (cs_transfer_buffer_length r) (cs_start_frame r) (cs_number_of_packets r) (cs_interval r) (cs_setup r).
#[global] Arguments set_cs_transfer_flags _ _ /.
#[export] Instance set_cs_transfer_buffer_length : Setter cs_transfer_buffer_length := fun v r => mkCmdSubmit (cs_transfer_flags r) v (cs_start_frame r) (cs_number_of_packets r) (cs_interval r) (cs_setup r).
#[global] Arguments set_cs_transfer_buffer_length _ _ /.
#[export] Instance set_cs_start_frame : Setter cs_start_frame := fun v r => mkCmdSubmit (cs_transfer_flags r) (cs_transfer_buffer_length r) v (cs_number_of_packets r) (cs_interval r) (cs_setup r).
#[global] Arguments set_cs_start_frame _ _ /.
#[export] Instance set_cs_number_of_packets : Setter cs_number_of_packets := fun v r => mkCmdSubmit (cs_transfer_flags r) (cs_transfer_buffer_length r) (cs_start_frame r) v (cs_interval r) (cs_setup r).
#[global] Arguments set_cs_number_of_packets _ _ /.
#[export] Instance set_cs_interval : Setter cs_interval := fun v r => mkCmdSubmit (cs_transfer_flags r) (cs_transfer_buffer_length r) (cs_start_frame r) (cs_number_of_packets r) v (cs_setup r).
#[global] Arguments set_cs_interval _ _ /.
#[export] Instance set_cs_setup : Setter cs_setup := fun v r => mkCmdSubmit (cs_transfer_flags r) (cs_transfer_buffer_length r) (cs_start_frame r) (cs_number_of_packets r) (cs_interval r) v.
#[global] Arguments set_cs_setup _ _ /.


Record usbip_header_ret_submit := mkRetSubmit {
  rs_status : Z;
  rs_actual_length : Z;
  rs_start_frame : Z;
  rs_number_of_packets : Z;
  rs_error_count : Z
}.
#[export] Instance set_rs_status : Setter rs_status := fun v r => mkRetSubmit v (rs_actual_length r) (rs_start_frame r) (rs_number_of_packets r) (rs_error_count r).
#[global] Arguments set_rs_status _ _ /.
#[export] Instance set_rs_actual_length : Setter rs_actual_length := fun v r => mkRetSubmit (rs_status r) v (rs_start_frame r) (rs_number_of_packets r) (rs_error_count r).
#[global] Arguments set_rs_actual_length _ _ /.
#[export] Instance set_rs_start_frame : Setter rs_start_frame := fun v r => mkRetSubmit (rs_status r) (rs_actual_length r) v (rs_number_of_packets r) (rs_error_count r).
#[global] Arguments set_rs_start_frame _ _ /.
#[export] Instance set_rs_number_of_packets : Setter rs_number_of_packets := fun v r => mkRetSubmit (rs_status r) (rs_actual_length r) (rs_start_frame r) v (rs_error_count r).
#[global] Arguments set_rs_number_of_packets _ _ /.
#[export] Instance set_rs_error_count : Setter rs_error_count := fun v r => mkRetSubmit (rs_status r) (rs_actual_length r) (rs_start_frame r) (rs_number_of_packets r) v.
#[global] Arguments set_rs_error_count _ _ /.


Record usbip_header_cmd_unlink := mkCmdUnlink {
  cu_seqnum : Z
}.
#[export] Instance set_cu_seqnum : Setter cu_seqnum := fun v r => mkCmdUnlink v.
#[global] Arguments set_cu_seqnum _ _ /.


Record usbip_header_ret_unlink := mkRetUnlink {
  ru_status : Z
}.
#[export] Instance set_ru_status : Setter ru_status := fun v r => mkRetUnlink v.
#[global] Arguments set_ru_status _ _ /.


(** The memory of [union u]: five 32-bit words and the eight setup bytes. *)
Record usbip_union := mkUnion {
  w0 : Z;
  w1 : Z;
  w2 : Z;
  w3 : Z;
  w4 : Z;
  w_setup : list Z
}.
#[export] Instance set_w0 : Setter w0 := fun v r => mkUnion v (w1 r) (w2 r) (w3 r) (w4 r) (w_setup r).
#[global] Arguments set_w0 _ _ /.
#[export] Instance set_w1 : Setter w1 := fun v r => mkUnion (w0 r) v (w2 r) (w3 r) (w4 r) (w_setup r).
#[global] Arguments set_w1 _ _ /.
#[export] Instance set_w2 : Setter w2 := fun v r => mkUnion (w0 r) (w1 r) v (w3 r) (w4 r) (w_setup r).
#[global] Arguments set_w2 _ _ /.
#[export] Instance set_w3 : Setter w3 := fun v r => mkUnion (w0 r) (w1 r) (w2 r) v (w4 r) (w_setup r).
#[global] Arguments set_w3 _ _ /.
#[export] Instance set_w4 : Setter w4 := fun v r => mkUnion (w0 r) (w1 r) (w2 r) (w3 r) v (w_setup r).
#[global] Arguments set_w4 _ _ /.
#[export] Instance set_w_setup : Setter w_setup := fun v r => mkUnion (w0 r) (w1 r) (w2 r) (w3 r) (w4 r) v.
#[global] Arguments set_w_setup _ _ /.


Record usbip_header := mkHeader {
  h_base : usbip_header_basic;
  h_u : usbip_union
}.
#[export] Instance set_h_base : Setter h_base := fun v r => mkHeader v (h_u r).
#[global] Arguments set_h_base _ _ /.
#[export] Instance set_h_u : Setter h_u := fun v r => mkHeader (h_base r) v.
#[global] Arguments set_h_u _ _ /.


Definition sizeof_header : Z := 48.
Definition sizeof_iso : Z := 16.

(** [memset(&pdu, 0, sizeof(pdu))] *)
Definition header_zero : usbip_header :=
  mkHeader (mkBasic 0 0 0 0 0) (mkUnion 0 0 0 0 0 (replicate 8 0)).

(** *** The members of the union: the same words read at their C types. *)
Definition u_cmd_submit (u : usbip_union) : usbip_header_cmd_submit :=
  mkCmdSubmit (w0 u) (s32 (w1 u)) (s32 (w2 u)) (s32 (w3 u)) (s32 (w4 u)) (w_setup u).
Definition put_cmd_submit (c : usbip_header_cmd_submit) (u : usbip_union) : usbip_union :=
  mkUnion (cs_transfer_flags c) (u32 (cs_transfer_buffer_length c))
    (u32 (cs_start_frame c)) (u32 (cs_number_of_packets c)) (u32 (cs_interval c))
    (cs_setup c).
Definition u_ret_submit (u : usbip_union) : usbip_header_ret_submit :=
  mkRetSubmit (s32 (w0 u)) (s32 (w1 u)) (s32 (w2 u)) (s32 (w3 u)) (s32 (w4 u)).
Definition put_ret_submit (c : usbip_header_ret_submit) (u : usbip_union) : usbip_union :=
  mkUnion (u32 (rs_status c)) (u32 (rs_actual_length c)) (u32 (rs_start_frame c))
    (u32 (rs_number_of_packets c)) (u32 (rs_error_count c)) (w_setup u).
Definition u_cmd_unlink (u : usbip_union) : usbip_header_cmd_unlink := mkCmdUnlink (w0 u).
Definition put_cmd_unlink (c : usbip_header_cmd_unlink) (u : usbip_union) : usbip_union :=
  u <| w0 := cu_seqnum c |>.
Definition u_ret_unlink (u : usbip_union) : usbip_header_ret_unlink :=
  mkRetUnlink (s32 (w0 u)).
Definition put_ret_unlink (c : usbip_header_ret_unlink) (u : usbip_union) : usbip_union :=
  u <| w0 := u32 (ru_status c) |>.

(** ** Byte order *)
Section endian.
Context `{Arch}.

Definition cpu_to_be32 (x : Z) : Z := if big_endian then x else bswap32 x.
Definition be32_to_cpu (x : Z) : Z := if big_endian then x else bswap32 x.
(** The in-place variants on signed members. *)
Definition cpu_to_be32s (x : Z) : Z := s32 (cpu_to_be32 (u32 x)).
Definition be32_to_cpus (x : Z) : Z := s32 (be32_to_cpu (u32 x)).

(** The bytes of a 32-bit word in memory, and back. *)
Definition word_bytes (x : Z) : list Z := if big_endian then be_bytes 4 x else le_bytes 4 x.
Definition word_of (l : list Z) : Z := if big_endian then of_be l else of_le l.

Definition correct_endian_basic (base : usbip_header_basic) (send : bool)
    : usbip_header_basic :=
  if send then
    base <| command := cpu_to_be32 (command base) |>
         <| seqnum := cpu_to_be32 (seqnum base) |>
         <| devid := cpu_to_be32 (devid base) |>
         <| direction := cpu_to_be32 (direction base) |>
         <| ep := cpu_to_be32 (ep base) |>
  else
    base <| command := be32_to_cpu (command base) |>
         <| seqnum := be32_to_cpu (seqnum base) |>
         <| devid := be32_to_cpu (devid base) |>
         <| direction := be32_to_cpu (direction base) |>
         <| ep := be32_to_cpu (ep base) |>.

Definition correct_endian_cmd_submit (pdu : usbip_header_cmd_submit) (send : bool)
    : usbip_header_cmd_submit :=
  if send then
    pdu <| cs_transfer_flags := cpu_to_be32 (cs_transfer_flags pdu) |>
        <| cs_transfer_buffer_length := cpu_to_be32s (cs_transfer_buffer_length pdu) |>
        <| cs_start_frame := cpu_to_be32s (cs_start_frame pdu) |>
        <| cs_number_of_packets := cpu_to_be32s (cs_number_of_packets pdu) |>
        <| cs_interval := cpu_to_be32s (cs_interval pdu) |>
  else
    pdu <| cs_transfer_flags := be32_to_cpu (cs_transfer_flags pdu) |>
        <| cs_transfer_buffer_length := be32_to_cpus (cs_transfer_buffer_length pdu) |>
        <| cs_start_frame := be32_to_cpus (cs_start_frame pdu) |>
        <| cs_number_of_packets := be32_to_cpus (cs_number_of_packets pdu) |>
        <| cs_interval := be32_to_cpus (cs_interval pdu) |>.

Definition correct_endian_ret_submit (pdu : usbip_header_ret_submit) (send : bool)
    : usbip_header_ret_submit :=
  if send then
    pdu <| rs_status := cpu_to_be32s (rs_status pdu) |>
        <| rs_actual_length := cpu_to_be32s (rs_actual_length pdu) |>
        <| rs_start_frame := cpu_to_be32s (rs_start_frame pdu) |>
        <| rs_number_of_packets := cpu_to_be32s (rs_number_of_packets pdu) |>
        <| rs_error_count := cpu_to_be32s (rs_error_count pdu) |>
  else
    pdu <| rs_status := be32_to_cpus (rs_status pdu) |>
        <| rs_actual_length := be32_to_cpus (rs_actual_length pdu) |>
        <| rs_start_frame := be32_to_cpus (rs_start_frame pdu) |>
        <| rs_number_of_packets := be32_to_cpus (rs_number_of_packets pdu) |>
        <| rs_error_count := be32_to_cpus (rs_error_count pdu) |>.

Definition correct_endian_cmd_unlink (pdu : usbip_header_cmd_unlink) (send : bool)
    : usbip_header_cmd_unlink :=
  if send then pdu <| cu_seqnum := cpu_to_be32 (cu_seqnum pdu) |>
  else pdu <| cu_seqnum := be32_to_cpu (cu_seqnum pdu) |>.

Definition correct_endian_ret_unlink (pdu : usbip_header_ret_unlink) (send : bool)
    : usbip_header_ret_unlink :=
  if send then pdu <| ru_status := cpu_to_be32s (ru_status pdu) |>
  else pdu <| ru_status := be32_to_cpus (ru_status pdu) |>.

Definition usbip_header_correct_endian (pdu : usbip_header) (send : bool) : usbip_header :=
  let cmd := if send then command (h_base pdu) else 0 in
  let pdu := pdu <| h_base := correct_endian_basic (h_base pdu) send |> in
  let cmd := if send then cmd else command (h_base pdu) in
  let u := h_u pdu in
  if cmd =? USBIP_CMD_SUBMIT then
    pdu <| h_u := put_cmd_submit (correct_endian_cmd_submit (u_cmd_submit u) send) u |>
  else if cmd =? USBIP_RET_SUBMIT then
    pdu <| h_u := put_ret_submit (correct_endian_ret_submit (u_ret_submit u) send) u |>
  else if cmd =? USBIP_CMD_UNLINK then
    pdu <| h_u := put_cmd_unlink (correct_endian_cmd_unlink (u_cmd_unlink u) send) u |>
  else if cmd =? USBIP_RET_UNLINK then
    pdu <| h_u := put_ret_unlink (correct_endian_ret_unlink (u_ret_unlink u) send) u |>
  else pdu.

Definition usbip_iso_packet_correct_endian (iso : usbip_iso_packet_descriptor)
    (send : bool) : usbip_iso_packet_descriptor :=
  if send then
    iso <| iso_offset := cpu_to_be32 (iso_offset iso) |>
        <| iso_length := cpu_to_be32 (iso_length iso) |>
        <| iso_status := cpu_to_be32 (iso_status iso) |>
        <| iso_actual_length := cpu_to_be32 (iso_actual_length iso) |>
  else
    iso <| iso_offset := be32_to_cpu (iso_offset iso) |>
        <| iso_length := be32_to_cpu (iso_length iso) |>
        <| iso_status := be32_to_cpu (iso_status iso) |>
        <| iso_actual_length := be32_to_cpu (iso_actual_length iso) |>.

(** *** The structures as bytes of memory *)
Definition header_words (h : usbip_header) : list Z :=
  [command (h_base h); seqnum (h_base h); devid (h_base h); direction (h_base h);
   ep (h_base h); w0 (h_u h); w1 (h_u h); w2 (h_u h); w3 (h_u h); w4 (h_u h)].

Definition header_to_mem (h : usbip_header) : list Z :=
  mjoin (word_bytes <$> header_words h) ++ w_setup (h_u h).

Definition word_at (l : list Z) (i : nat) : Z := word_of (take 4 (drop (4 * i) l)).

Definition header_of_mem (l : list Z) : usbip_header :=
  mkHeader (mkBasic (word_at l 0) (word_at l 1) (word_at l 2) (word_at l 3) (word_at l 4))
    (mkUnion (word_at l 5) (word_at l 6) (word_at l 7) (word_at l 8) (word_at l 9)
       (drop 40 l)).

Definition iso_to_mem (i : usbip_iso_packet_descriptor) : list Z :=
  word_bytes (iso_offset i) ++ word_bytes (iso_length i) ++
  word_bytes (iso_actual_length i) ++ word_bytes (iso_status i).

Definition iso_of_mem (l : list Z) : usbip_iso_packet_descriptor :=
  mkIso (word_at l 0) (word_at l 1) (word_at l 2) (word_at l 3).
End endian.

(** ** Packing URBs into headers *)

Definition tweak_transfer_flags (flags : Z) : Z :=
  Z.land flags (Z.lnot URB_NO_TRANSFER_DMA_MAP).

Definition usbip_pack_cmd_submit (pdu : usbip_header) (r : urb) (pack : bool)
    : usbip_header * urb :=
  let spdu := u_cmd_submit (h_u pdu) in
  if pack then
    let spdu :=
      spdu <| cs_transfer_flags := tweak_transfer_flags (urb_transfer_flags r) |>
           <| cs_transfer_buffer_length := s32 (urb_transfer_buffer_length r) |>
           <| cs_start_frame := urb_start_frame r |>
           <| cs_number_of_packets := urb_number_of_packets r |>
           <| cs_interval := urb_interval r |> in
    (pdu <| h_u := put_cmd_submit spdu (h_u pdu) |>, r)
  else
    (pdu,
     r <| urb_transfer_flags := cs_transfer_flags spdu |>
       <| urb_transfer_buffer_length := u32 (cs_transfer_buffer_length spdu) |>
       <| urb_start_frame := cs_start_frame spdu |>
       <| urb_number_of_packets := cs_number_of_packets spdu |>
       <| urb_interval := cs_interval spdu |>).

Definition usbip_pack_ret_submit (pdu : usbip_header) (r : urb) (pack : bool)
    : usbip_header * urb :=
  let rpdu := u_ret_submit (h_u pdu) in
  if pack then
    let rpdu :=
      rpdu <| rs_status := urb_status r |>
           <| rs_actual_length := s32 (urb_actual_length r) |>
           <| rs_start_frame := urb_start_frame r |>
           <| rs_number_of_packets := urb_number_of_packets r |>
           <| rs_error_count := urb_error_count r |> in
    (pdu <| h_u := put_ret_submit rpdu (h_u pdu) |>, r)
  else
    (pdu,
     r <| urb_status := rs_status rpdu |>
       <| urb_actual_length := u32 (rs_actual_length rpdu) |>
       <| urb_start_frame := rs_start_frame rpdu |>
       <| urb_number_of_packets := rs_number_of_packets rpdu |>
       <| urb_error_count := rs_error_count rpdu |>).

Definition usbip_pack_pdu (pdu : usbip_header) (r : urb) (cmd : Z) (pack : bool)
    : usbip_header * urb :=
  if cmd =? USBIP_CMD_SUBMIT then usbip_pack_cmd_submit pdu r pack
  else if cmd =? USBIP_RET_SUBMIT then usbip_pack_ret_submit pdu r pack
  else (pdu, r).

Definition usbip_pack_iso (iso : usbip_iso_packet_descriptor) (uiso : usb_iso_packet)
    (pack : bool) : usbip_iso_packet_descriptor * usb_iso_packet :=
  if pack then
    (iso <| iso_offset := ui_offset uiso |>
         <| iso_length := ui_length uiso |>
         <| iso_status := u32 (ui_status uiso) |>
         <| iso_actual_length := ui_actual_length uiso |>, uiso)
  else
    (iso,
     uiso <| ui_offset := iso_offset iso |>
          <| ui_length := iso_length iso |>
          <| ui_status := s32 (iso_status iso) |>
          <| ui_actual_length := iso_actual_length iso |>).

(** ** What the format promises *)

(** The protocol's encoding of a header, free of any machine's byte order. *)
Definition wire_bytes (h : usbip_header) : list Z :=
  mjoin (be_bytes 4 <$> header_words h) ++ w_setup (h_u h).

Definition iso_wire_bytes (i : usbip_iso_packet_descriptor) : list Z :=
  be_bytes 4 (iso_offset i) ++ be_bytes 4 (iso_length i) ++
  be_bytes 4 (iso_actual_length i) ++ be_bytes 4 (iso_status i).

Definition known_command (c : Z) : bool :=
  (c =? USBIP_CMD_SUBMIT) || (c =? USBIP_CMD_UNLINK) ||
  (c =? USBIP_RET_SUBMIT) || (c =? USBIP_RET_UNLINK).

(** A header as the drivers build it: 32-bit words, eight setup bytes, and
    the words a packet type does not use still zero. *)
Definition header_wf (h : usbip_header) : Prop :=
  Forall is_u32 (header_words h) /\ length (w_setup (h_u h)) = 8%nat /\
  known_command (command (h_base h)) = true /\
  (command (h_base h) = USBIP_CMD_UNLINK \/ command (h_base h) = USBIP_RET_UNLINK ->
   w1 (h_u h) = 0 /\ w2 (h_u h) = 0 /\ w3 (h_u h) = 0 /\ w4 (h_u h) = 0).

Definition iso_wf (i : usbip_iso_packet_descriptor) : Prop :=
  Forall is_u32 [iso_offset i; iso_length i; iso_actual_length i; iso_status i].

Definition urb_wf (r : urb) : Prop :=
  is_u32 (urb_transfer_flags r) /\ is_u32 (urb_transfer_buffer_length r) /\
  is_u32 (urb_actual_length r) /\ is_s32 (urb_status r) /\
  is_s32 (urb_start_frame r) /\ is_s32 (urb_number_of_packets r) /\
  is_s32 (urb_interval r) /\ is_s32 (urb_error_count r).

Section words.
Context `{Arch}.

Lemma cpu_to_be32_range x : is_u32 x -> is_u32 (cpu_to_be32 x).
Proof. unfold cpu_to_be32. destruct big_endian; auto with usbip. Qed.

Lemma be32_cpu_be32 x : is_u32 x -> be32_to_cpu (cpu_to_be32 x) = x.
Proof. unfold be32_to_cpu, cpu_to_be32. destruct big_endian; auto with usbip. Qed.

Lemma length_word_bytes x : length (word_bytes x) = 4%nat.
Proof. unfold word_bytes. by destruct big_endian; autorewrite with usbip_simp. Qed.

Lemma word_bytes_cpu_to_be32 x : is_u32 x -> word_bytes (cpu_to_be32 x) = be_bytes 4 x.
Proof.
  intros Hx. unfold word_bytes, cpu_to_be32. destruct big_endian; [done|].
  unfold bswap32. rewrite <- (length_be_bytes 4 x) at 1.
  apply le_bytes_of_le, bytes_reverse, le_bytes_bytes.
Qed.

Lemma be32_to_cpu_word_of x : is_u32 x -> be32_to_cpu (word_of (be_bytes 4 x)) = x.
Proof.
  intros Hx. unfold be32_to_cpu, word_of. destruct big_endian.
  - rewrite of_be_be_bytes. apply Z.mod_small, Hx.
  - by apply bswap32_involutive.
Qed.

Lemma word_of_be_bytes_range x : is_u32 (word_of (be_bytes 4 x)).
Proof.
  unfold word_of. destruct big_endian; [|apply bswap32_range].
  rewrite of_be_be_bytes. apply (u32_range x).
Qed.

(** A signed member holds a word: converting it in place is converting the word. *)
Lemma u32_cpu_to_be32s x : u32 (cpu_to_be32s (s32 x)) = u32 (cpu_to_be32 (u32 x)).
Proof. unfold cpu_to_be32s. by autorewrite with usbip_simp. Qed.
Lemma u32_be32_to_cpus x : u32 (be32_to_cpus (s32 x)) = u32 (be32_to_cpu (u32 x)).
Proof. unfold be32_to_cpus. by autorewrite with usbip_simp. Qed.
Lemma u32_cpu_to_be32s_id x :
  is_u32 x -> u32 (cpu_to_be32s (s32 x)) = cpu_to_be32 x.
Proof.
  intros Hx. rewrite u32_cpu_to_be32s, (u32_id x) by done.
  by apply u32_id, cpu_to_be32_range.
Qed.
Lemma u32_be32_to_cpus_id x :
  is_u32 x -> u32 (be32_to_cpus (s32 x)) = be32_to_cpu x.
Proof. apply u32_cpu_to_be32s_id. Qed.
End words.
#[export] Hint Resolve cpu_to_be32_range word_of_be_bytes_range : usbip.

(** Rewriting with the word lemmas, for hypotheses [is_u32 _] in the context. *)
Ltac word_simp :=
  repeat first
    [ rewrite u32_cpu_to_be32s_id by auto with usbip
    | rewrite u32_be32_to_cpus_id by auto with usbip
    | rewrite word_bytes_cpu_to_be32 by auto with usbip
    | rewrite be32_to_cpu_word_of by auto with usbip
    | rewrite u32_id by auto with usbip ].

(** Open a header into its words, keeping [is_u32] of each. *)
Ltac header_open h :=
  destruct h as [[?c ?sq ?dv ?di ?e] [?v0 ?v1 ?v2 ?v3 ?v4 ?st]];
  unfold header_words in *;
  cbn [h_base h_u command seqnum devid direction ep w0 w1 w2 w3 w4 w_setup] in *;
  repeat match goal with H : Forall is_u32 (_ :: _) |- _ =>
    apply Forall_cons in H as [? H] end.

Lemma word_bytes_0 `{Arch} : word_bytes 0 = be_bytes 4 0.
Proof. unfold word_bytes. by destruct big_endian. Qed.

Lemma word_of_be_0 `{Arch} : word_of (be_bytes 4 0) = 0.
Proof. unfold word_of. by destruct big_endian. Qed.

Section word_at.
Context `{Arch}.
Lemma word_at_0 w l : length w = 4%nat -> word_at (w ++ l) 0 = word_of w.
Proof.
  intros Hw. unfold word_at. rewrite Nat.mul_0_r, drop_0.
  by rewrite take_app_length'.
Qed.
Lemma word_at_S w l i : length w = 4%nat -> word_at (w ++ l) (S i) = word_at l i.
Proof.
  intros Hw. unfold word_at. replace (4 * S i)%nat with (4 + 4 * i)%nat by lia.
  by rewrite <- Hw at 2; rewrite <- drop_drop, drop_app_length.
Qed.
End word_at.

(** Reading the header back out of its protocol encoding. *)
Lemma header_of_mem_wire `{Arch} h :
  length (w_setup (h_u h)) = 8%nat ->
  header_of_mem (wire_bytes h) =
  let w x := word_of (be_bytes 4 x) in
  mkHeader
    (mkBasic (w (command (h_base h))) (w (seqnum (h_base h))) (w (devid (h_base h)))
       (w (direction (h_base h))) (w (ep (h_base h))))
    (mkUnion (w (w0 (h_u h))) (w (w1 (h_u h))) (w (w2 (h_u h))) (w (w3 (h_u h)))
       (w (w4 (h_u h))) (w_setup (h_u h))).
Proof.
  intros Hs. header_open h. unfold wire_bytes, header_words.
  cbn [fmap list_fmap mjoin list_join h_base h_u command seqnum devid direction ep
       w0 w1 w2 w3 w4 w_setup].
  rewrite app_nil_r, <- !app_assoc. unfold header_of_mem.
  rewrite !word_at_S, !word_at_0 by (by autorewrite with usbip_simp). cbv zeta.
  by do 2 f_equal.
Qed.

(** What is sent is the protocol's encoding. *)
Lemma header_to_mem_wire `{Arch} (h : usbip_header) :
  header_wf h -> header_to_mem (usbip_header_correct_endian h true) = wire_bytes h.
Proof.
  intros (Hw & Hs & Hk & Hz). header_open h.
  unfold usbip_header_correct_endian, known_command in *.
  cbn [h_base h_u command] in *.
  unfold header_to_mem, wire_bytes, header_words.
  repeat case_if; bool_to_prop; subst; cbn -[be_bytes word_bytes]; word_simp; try done.
  all: try (destruct Hz as (-> & -> & -> & ->); [by eauto|]; by rewrite word_bytes_0).
Qed.

(** What is received from the encoding is the header, on any machine. *)
Lemma correct_endian_receive `{Arch} (h : usbip_header) :
  header_wf h ->
  usbip_header_correct_endian (header_of_mem (wire_bytes h)) false = h.
Proof.
  intros (Hw & Hs & Hk & Hz). rewrite header_of_mem_wire by done. header_open h.
  unfold usbip_header_correct_endian, known_command in *. cbv zeta.
  cbn -[be_bytes be32_to_cpu word_of Z.eqb orb]. word_simp.
  unfold put_cmd_submit, put_ret_submit, put_cmd_unlink, put_ret_unlink.
  repeat case_if; bool_to_prop; subst;
    cbn -[be_bytes be32_to_cpu be32_to_cpus word_of Z.eqb]; word_simp; try done.
  all: destruct Hz as (-> & -> & -> & ->); [by eauto|];
    by rewrite word_of_be_0.
Qed.

Lemma iso_to_mem_wire `{Arch} i :
  iso_wf i -> iso_to_mem (usbip_iso_packet_correct_endian i true) = iso_wire_bytes i.
Proof.
  destruct i as [o l al st]. intros Hw. unfold iso_wf in Hw. cbn in Hw.
  repeat apply Forall_cons in Hw as [? Hw].
  unfold iso_to_mem, iso_wire_bytes. cbn -[be_bytes word_bytes]. by word_simp.
Qed.

Lemma iso_receive `{Arch} i l :
  iso_wf i -> usbip_iso_packet_correct_endian (iso_of_mem (iso_wire_bytes i ++ l)) false = i.
Proof.
  destruct i as [o len al st]. intros Hw. unfold iso_wf in Hw. cbn in Hw.
  repeat apply Forall_cons in Hw as [? Hw].
  unfold iso_of_mem, iso_wire_bytes.
  cbn [iso_offset iso_length iso_actual_length iso_status]. rewrite <- !app_assoc.
  rewrite !word_at_S, !word_at_0 by (by autorewrite with usbip_simp).
  cbn -[be_bytes be32_to_cpu word_of]. by word_simp.
Qed.

Lemma length_iso_wire_bytes i : length (iso_wire_bytes i) = 16%nat.
Proof. unfold iso_wire_bytes. rewrite !length_app. by autorewrite with usbip_simp. Qed.

(** ** Theorems *)

(** C39: a header any sender converts and writes to the socket is read back
    unchanged by any receiver, whatever the byte orders of the two machines. *)
Theorem wire_roundtrip (sender receiver : Arch) (h : usbip_header) :
  header_wf h ->
  @usbip_header_correct_endian receiver
    (@header_of_mem receiver
       (@header_to_mem sender (@usbip_header_correct_endian sender h true))) false = h.
Proof. intros Hh. rewrite header_to_mem_wire by done. by apply correct_endian_receive. Qed.

Definition sample_header : usbip_header :=
  mkHeader (mkBasic USBIP_CMD_SUBMIT 7 65538 USBIP_DIR_IN 1)
    (mkUnion 0 512 0 0 4294967295 [128; 6; 0; 1; 0; 0; 18; 0]).

Lemma sample_header_wf : header_wf sample_header.
Proof.
  split_and!; [|done|done|by intros [?|?]]. unfold header_words; cbn.
  repeat constructor; try done.
Qed.

Lemma wire_roundtrip_witness :
  header_wf sample_header /\
  @usbip_header_correct_endian true
    (@header_of_mem true
       (@header_to_mem false (@usbip_header_correct_endian false sample_header true))) false
  = sample_header.
Proof. split; [apply sample_header_wf | apply wire_roundtrip, sample_header_wf]. Defined.

(** The bytes sent are the protocol's big-endian encoding, 48 bytes long,
    on little-endian and big-endian machines alike. *)
Theorem wire_format (a : Arch) (h : usbip_header) :
  header_wf h ->
  header_to_mem (usbip_header_correct_endian h true) = wire_bytes h /\
  Z.of_nat (length (wire_bytes h)) = sizeof_header.
Proof.
  intros Hh. split; [by apply header_to_mem_wire|].
  destruct Hh as (_ & Hs & _). unfold wire_bytes. rewrite length_app, Hs. done.
Qed.

Lemma wire_format_witness :
  header_wf sample_header /\
  @header_to_mem false (@usbip_header_correct_endian false sample_header true) =
    wire_bytes sample_header.
Proof.
  split; [apply sample_header_wf | apply (wire_format false), sample_header_wf].
Defined.

(** Packing an URB into a header and unpacking the header into another
    URB copies exactly the members of that packet type; a submission loses
    only the DMA-mapping flag. *)
Theorem pack_pdu_roundtrip (pdu : usbip_header) (r r' : urb) :
  urb_wf r ->
  (usbip_pack_pdu (usbip_pack_pdu pdu r USBIP_CMD_SUBMIT true).1 r' USBIP_CMD_SUBMIT false).2 =
    r' <| urb_transfer_flags := Z.land (urb_transfer_flags r) (Z.lnot URB_NO_TRANSFER_DMA_MAP) |>
       <| urb_transfer_buffer_length := urb_transfer_buffer_length r |>
       <| urb_start_frame := urb_start_frame r |>
       <| urb_number_of_packets := urb_number_of_packets r |>
       <| urb_interval := urb_interval r |> /\
  (usbip_pack_pdu (usbip_pack_pdu pdu r USBIP_RET_SUBMIT true).1 r' USBIP_RET_SUBMIT false).2 =
    r' <| urb_status := urb_status r |>
       <| urb_actual_length := urb_actual_length r |>
       <| urb_start_frame := urb_start_frame r |>
       <| urb_number_of_packets := urb_number_of_packets r |>
       <| urb_error_count := urb_error_count r |>.
Proof.
  intros (? & ? & ? & ? & ? & ? & ? & ?).
  unfold usbip_pack_pdu, usbip_pack_cmd_submit, usbip_pack_ret_submit, u_cmd_submit,
    u_ret_submit, put_cmd_submit, put_ret_submit. cbn.
  autorewrite with usbip_simp.
  by rewrite !u32_id, !s32_id by done.
Qed.

Lemma pack_pdu_roundtrip_witness :
  urb_wf (urb_zero 0) /\
  urb_interval (usbip_pack_pdu (usbip_pack_pdu header_zero (urb_zero 0) USBIP_CMD_SUBMIT true).1
    (urb_zero 3) USBIP_CMD_SUBMIT false).2 = 0.
Proof.
  assert (urb_wf (urb_zero 0)) as Hw by (repeat split; done).
  split; [exact Hw|]. by rewrite (proj1 (pack_pdu_roundtrip header_zero _ _ Hw)).
Defined.
