(* ===== verification/Event.v ===== *)
(** * The common device state and the event handler

    [struct usbip_device] of [usbip_common.h], the part the stub and the
    virtual host controller share, and [usbip_event.c]: error events are
    collected in a bit mask and one kernel thread per device handles them. *)
From S2P Require Import Prelude Kernel.

Inductive usbip_side := USBIP_VHCI | USBIP_STUB.

Inductive usbip_status :=
  | SDEV_ST_AVAILABLE | SDEV_ST_USED | SDEV_ST_ERROR
  | VDEV_ST_NULL | VDEV_ST_NOTASSIGNED | VDEV_ST_USED | VDEV_ST_ERROR.
#[export] Instance usbip_status_eq_dec : EqDecision usbip_status.
Proof. solve_decision. Defined.
#[export] Instance usbip_side_eq_dec : EqDecision usbip_side.
Proof. solve_decision. Defined.

(** The numbers the enumeration gives them, which user space reads. *)
Definition status_num (s : usbip_status) : Z :=
  match s with
  | SDEV_ST_AVAILABLE => 1 | SDEV_ST_USED => 2 | SDEV_ST_ERROR => 3
  | VDEV_ST_NULL => 4 | VDEV_ST_NOTASSIGNED => 5 | VDEV_ST_USED => 6
  | VDEV_ST_ERROR => 7
  end.

Definition USBIP_EH_SHUTDOWN := Z.shiftl 1 0.
Definition USBIP_EH_BYE := Z.shiftl 1 1.
Definition USBIP_EH_RESET := Z.shiftl 1 2.
Definition USBIP_EH_UNUSABLE := Z.shiftl 1 3.

Definition SDEV_EVENT_REMOVED :=
  Z.lor (Z.lor USBIP_EH_SHUTDOWN USBIP_EH_RESET) USBIP_EH_BYE.
Definition SDEV_EVENT_DOWN := Z.lor USBIP_EH_SHUTDOWN USBIP_EH_RESET.
Definition SDEV_EVENT_ERROR_TCP := Z.lor USBIP_EH_SHUTDOWN USBIP_EH_RESET.
Definition SDEV_EVENT_ERROR_SUBMIT := Z.lor USBIP_EH_SHUTDOWN USBIP_EH_RESET.
Definition SDEV_EVENT_ERROR_MALLOC := Z.lor USBIP_EH_SHUTDOWN USBIP_EH_UNUSABLE.
Definition VDEV_EVENT_REMOVED := Z.lor USBIP_EH_SHUTDOWN USBIP_EH_BYE.
Definition VDEV_EVENT_DOWN := Z.lor USBIP_EH_SHUTDOWN USBIP_EH_RESET.
Definition VDEV_EVENT_ERROR_TCP := Z.lor USBIP_EH_SHUTDOWN USBIP_EH_RESET.
Definition VDEV_EVENT_ERROR_MALLOC := Z.lor USBIP_EH_SHUTDOWN USBIP_EH_UNUSABLE.

(** A [struct task_struct *]: NULL, a thread, or the error pointer a failed
    [kthread_create] or [kthread_run] returns. *)
Inductive thread := NoThread | Thread | ThreadErr.
#[export] Instance thread_eq_dec : EqDecision thread.
Proof. solve_decision. Defined.

(** One attached [struct usbip_filter]; its list node is its address. *)
Record usbip_filter := mkFilter {
  f_drv : positive;
  f_priv : Z
}.
#[export] Instance set_f_drv : Setter f_drv := fun v r => mkFilter v (f_priv r).
#[global] Arguments set_f_drv _ _ /.
#[export] Instance set_f_priv : Setter f_priv := fun v r => mkFilter (f_drv r) v.
#[global] Arguments set_f_priv _ _ /.


(** [struct usbip_device]; [ud_filters] is the address of its list head. *)
Record usbip_device := mkUd {
  ud_side : usbip_side;
  ud_status : usbip_status;
  ud_tcp_socket : option Z;
  ud_tcp_rx : thread;
  ud_tcp_tx : thread;
  ud_event : Z;
  ud_eh : thread;
  ud_filters : positive;
  ud_filter_objs : gmap positive usbip_filter
}.
#[export] Instance set_ud_side : Setter ud_side := fun v r => mkUd v (ud_status r) (ud_tcp_socket r) (ud_tcp_rx r) (ud_tcp_tx r) (ud_event r) (ud_eh r) (ud_filters r) (ud_filter_objs r).
#[global] Arguments set_ud_side _ _ /.
#[export] Instance set_ud_status : Setter ud_status := fun v r => mkUd (ud_side r) v (ud_tcp_socket r) (ud_tcp_rx r) (ud_tcp_tx r) (ud_event r) (ud_eh r) (ud_filters r) (ud_filter_objs r).
#[global] Arguments set_ud_status _ _ /.
#[export] Instance set_ud_tcp_socket : Setter ud_tcp_socket := fun v r => mkUd (ud_side r) (ud_status r) v (ud_tcp_rx r) (ud_tcp_tx r) (ud_event r) (ud_eh r) (ud_filters r) (ud_filter_objs r).
#[global] Arguments set_ud_tcp_socket _ _ /.
#[export] Instance set_ud_tcp_rx : Setter ud_tcp_rx := fun v r => mkUd (ud_side r) (ud_status r) (ud_tcp_socket r) v (ud_tcp_tx r) (ud_event r) (ud_eh r) (ud_filters r) (ud_filter_objs r).
#[global] Arguments set_ud_tcp_rx _ _ /.
#[export] Instance set_ud_tcp_tx : Setter ud_tcp_tx := fun v r => mkUd (ud_side r) (ud_status r) (ud_tcp_socket r) (ud_tcp_rx r) v (ud_event r) (ud_eh r) (ud_filters r) (ud_filter_objs r).
#[global] Arguments set_ud_tcp_tx _ _ /.
#[export] Instance set_ud_event : Setter ud_event := fun v r => mkUd (ud_side r) (ud_status r) (ud_tcp_socket r) (ud_tcp_rx r) (ud_tcp_tx r) v (ud_eh r) (ud_filters r) (ud_filter_objs r).
#[global] Arguments set_ud_event _ _ /.
#[export] Instance set_ud_eh : Setter ud_eh := fun v r => mkUd (ud_side r) (ud_status r) (ud_tcp_socket r) (ud_tcp_rx r) (ud_tcp_tx r) (ud_event r) v (ud_filters r) (ud_filter_objs r).
#[global] Arguments set_ud_eh _ _ /.
#[export] Instance set_ud_filters : Setter ud_filters := fun v r => mkUd (ud_side r) (ud_status r) (ud_tcp_socket r) (ud_tcp_rx r) (ud_tcp_tx r) (ud_event r) (ud_eh r) v (ud_filter_objs r).
#[global] Arguments set_ud_filters _ _ /.
#[export] Instance set_ud_filter_objs : Setter ud_filter_objs := fun v r => mkUd (ud_side r) (ud_status r) (ud_tcp_socket r) (ud_tcp_rx r) (ud_tcp_tx r) (ud_event r) (ud_eh r) (ud_filters r) v.
#[global] Arguments set_ud_filter_objs _ _ /.


(** What the common code needs of the driver that embeds a [usbip_device]. *)
Class HasUd (St : Type) := {
  the_ud : St -> usbip_device;
  put_ud : usbip_device -> St -> St;
  ud_owner : Z;
  the_put_ud u s : the_ud (put_ud u s) = u;
  put_the_ud s : put_ud (the_ud s) s = s;
  put_put_ud u u' s : put_ud u (put_ud u' s) = put_ud u s
}.
#[export] Hint Rewrite @the_put_ud @put_the_ud @put_put_ud : usbip_simp wp.

(** The operations the event thread calls back. *)
Record eh_ops (St : Type) := mkEhOps {
  eh_shutdown : M St unit;
  eh_reset : M St unit;
  eh_unusable : M St unit
}.
Arguments eh_shutdown {St} _.
Arguments eh_reset {St} _.
Arguments eh_unusable {St} _.
Arguments mkEhOps {St} _ _ _.

(** Names for the wait queues and threads in the trace. *)
Definition Q_EH := 0.
Definition Q_TX := 1.
Definition T_EH := 0.
Definition T_RX := 1.
Definition T_TX := 2.

Section event.
Context `{Env} {St : Type} `{HasUd St}.

Definition modify_ud (f : usbip_device -> usbip_device) : M St unit :=
  modify (fun s => put_ud (f (the_ud s)) s).

(** [kthread_get_run] and [kthread_run] *)
Definition kthread_run (name : Z) : M St thread :=
  r ← ext_ret (CKthreadRun name);
  mret (if r =? 0 then ThreadErr else Thread).

(** [kthread_stop]: a pointer that is no thread is dereferenced. *)
Definition kthread_stop (name : Z) (t : thread) : M St unit :=
  match t with
  | Thread => ext_do (CKthreadStop name)
  | NoThread => crash NullDeref
  | ThreadErr => crash UseAfterFree
  end.

Definition usbip_event_happened : M St bool :=
  spin_lock (LockUd ud_owner);;
  event ← gets (fun s => ud_event (the_ud s));
  let happened := negb (event =? 0) in
  spin_unlock (LockUd ud_owner);;
  mret happened.

Definition usbip_event_add (event : Z) : M St unit :=
  spin_lock (LockUd ud_owner);;
  modify_ud (fun ud => ud <| ud_event := Z.lor (ud_event ud) event |>);;
  ext_do (CWakeUp Q_EH);;
  spin_unlock (LockUd ud_owner).

(** Clear the bits of [m], without the lock as the code does. *)
Definition event_clear (m : Z) : M St unit :=
  modify_ud (fun ud => ud <| ud_event := Z.land (ud_event ud) (Z.lnot m) |>).

Definition event_test (m : Z) : M St bool :=
  event ← gets (fun s => ud_event (the_ud s)); mret (has_bits event m).

(** The body of the handler's loop; [true] asks for the loop to stop. *)
Definition event_handler_body (ops : eh_ops St) : M St bool :=
  b ← event_test USBIP_EH_SHUTDOWN;
  when_ b (eh_shutdown ops;; event_clear USBIP_EH_SHUTDOWN);;
  b ← event_test USBIP_EH_RESET;
  when_ b (eh_reset ops;; event_clear USBIP_EH_RESET);;
  b ← event_test USBIP_EH_UNUSABLE;
  when_ b (eh_unusable ops;; event_clear USBIP_EH_UNUSABLE);;
  event_test USBIP_EH_BYE.

Fixpoint event_handler (fuel : nat) (ops : eh_ops St) : M St Z :=
  match fuel with
  | O => crash OutOfFuel
  | S fuel' =>
      happened ← usbip_event_happened;
      if happened : bool then
        bye ← event_handler_body ops;
        if bye : bool then mret (-1) else event_handler fuel' ops
      else mret 0
  end.

(** [fuel] bounds the iterations of a thread that only stops when asked. *)
Fixpoint event_handler_loop (fuel : nat) (ops : eh_ops St) : M St Z :=
  match fuel with
  | O => crash OutOfFuel
  | S fuel' =>
      stop ← ext_ret CShouldStop;
      if stop =? 0 then
        ext_do (CWaitEvent Q_EH);;
        r ← event_handler 2 ops;
        if r <? 0 then mret 0 else event_handler_loop fuel' ops
      else mret 0
  end.

Definition usbip_start_eh : M St Z :=
  modify_ud (fun ud => ud <| ud_event := 0 |>);;
  t ← kthread_run T_EH;
  modify_ud (fun ud => ud <| ud_eh := t |>);;
  match t with ThreadErr => mret (- ENOMEM) | _ => mret 0 end.

(** [in_eh]: the caller is the event thread itself. *)
Definition usbip_stop_eh (in_eh : bool) : M St unit :=
  if in_eh then mret tt
  else
    t ← gets (fun s => ud_eh (the_ud s));
    kthread_stop T_EH t.
End event.
