(* ===== verification/Xfer.v ===== *)
(** * Moving packets over the connection

    The transfer routines of [usbip_common.c] both drivers call: receiving a
    given number of bytes, the transfer buffer and the isochronous packet
    descriptors of an URB, and laying isochronous data out with its padding. *)
From S2P Require Import Prelude Kernel Wire Event.

Section xfer.
Context `{Env} `{Arch} `{UsbPipes} {St : Type} `{HasUd St}.

(** The loop of [usbip_recv]; at least one byte arrives per iteration. *)
Fixpoint usbip_recv_loop (fuel : nat) (sock : Z) (buf : ptr) (size total : Z)
    : M St Z :=
  match fuel with
  | O => crash OutOfFuel
  | S fuel' =>
      r ← ext (CRecvmsg sock size);
      let result := r.1 in
      if result <=? 0 then mret result
      else
        store_bytes buf r.2;;
        let size := size - result in
        let buf := ptr_add buf result in
        let total := total + result in
        if size >? 0 then usbip_recv_loop fuel' sock buf size total
        else mret total
  end.

Definition usbip_recv (sock : option Z) (buf : option ptr) (size : Z) : M St Z :=
  match sock, buf with
  | Some sock, Some buf =>
      if size =? 0 then mret (- EINVAL)
      else usbip_recv_loop (S (Z.to_nat size)) sock buf size 0
  | _, _ => mret (- EINVAL)
  end.

(** [file = fget(fd)]; the environment says whether its inode is a socket.
    The socket is named by its file. *)
Definition sockfd_to_socket (sockfd : Z) : M St (option Z) :=
  file ← ext_ret (CFget sockfd);
  if file =? 0 then mret None
  else
    is_sock ← ext_ret (CIsSocket file);
    if is_sock =? 0 then ext_do (CFput file);; mret None
    else mret (Some file).

(** The event a failed transfer raises, by side. *)
Definition event_error_tcp : M St unit :=
  side ← gets (fun s => ud_side (the_ud s));
  match side with
  | USBIP_STUB => usbip_event_add SDEV_EVENT_ERROR_TCP
  | USBIP_VHCI => usbip_event_add VDEV_EVENT_ERROR_TCP
  end.

Fixpoint fill_iso_pdu (iso : ptr) (descs : list usb_iso_packet) (i : Z) (n : nat)
    : M St unit :=
  match n with
  | O => mret tt
  | S n' =>
      d ← of_option OutOfBounds (descs !! Z.to_nat i);
      let (p, _) := usbip_pack_iso (mkIso 0 0 0 0) d true in
      store_bytes (ptr_add iso (i * sizeof_iso))
        (iso_to_mem (usbip_iso_packet_correct_endian p true));;
      fill_iso_pdu iso descs (i + 1) n'
  end.

(** The new descriptors and their size, or NULL. *)
Definition usbip_alloc_iso_desc_pdu (u : positive) : M St (option (ptr * Z)) :=
  r ← get_urb u;
  let np := urb_number_of_packets r in
  let size := s64 (np * sizeof_iso) in
  iso ← kzalloc size;
  match iso with
  | None => mret None
  | Some iso =>
      fill_iso_pdu iso (urb_iso_frame_desc r) 0 (Z.to_nat np);;
      mret (Some (iso, size))
  end.

(** Unpack descriptor [i] onwards; the sum of the actual lengths. *)
Fixpoint unpack_iso_loop (buff : ptr) (u : positive) (i : Z) (n : nat)
    (total_length : Z) : M St Z :=
  match n with
  | O => mret total_length
  | S n' =>
      mem ← load_bytes (ptr_add buff (i * sizeof_iso)) sizeof_iso;
      let iso := usbip_iso_packet_correct_endian (iso_of_mem mem) false in
      r ← get_urb u;
      d ← of_option OutOfBounds (urb_iso_frame_desc r !! Z.to_nat i);
      let (_, d) := usbip_pack_iso iso d false in
      put_urb u (r <| urb_iso_frame_desc := <[Z.to_nat i := d]> (urb_iso_frame_desc r) |>);;
      unpack_iso_loop buff u (i + 1) n' (s32 (total_length + ui_actual_length d))
  end.

Definition usbip_recv_iso (u : positive) : M St Z :=
  r ← get_urb u;
  let np := urb_number_of_packets r in
  let size := s32 (np * sizeof_iso) in
  if negb (usb_pipeisoc (urb_pipe r)) then mret 0
  else if np =? 0 then mret 0
  else
    buff ← kzalloc size;
    match buff with
    | None => mret (- ENOMEM)
    | Some buff =>
        sock ← gets (fun s => ud_tcp_socket (the_ud s));
        ret ← usbip_recv sock (Some buff) size;
        if negb (ret =? size) then
          kfree (Some buff);; event_error_tcp;; mret (- EPIPE)
        else
          total_length ← unpack_iso_loop buff u 0 (Z.to_nat np) 0;
          kfree (Some buff);;
          r ← get_urb u;
          if negb (u32 total_length =? urb_actual_length r) then
            event_error_tcp;; mret (- EPIPE)
          else mret ret
    end.

(** [memmove] within the transfer buffer of packets [i], [i - 1], ..., 1. *)
Fixpoint pad_iso_loop (u : positive) (i : nat) (actualoffset : Z) : M St unit :=
  match i with
  | O => mret tt
  | S i' =>
      r ← get_urb u;
      d ← of_option OutOfBounds (urb_iso_frame_desc r !! i);
      buf ← deref (urb_transfer_buffer r);
      let actualoffset := s32 (actualoffset - ui_actual_length d) in
      mem ← load_bytes (ptr_add buf actualoffset) (ui_actual_length d);
      store_bytes (ptr_add buf (ui_offset d)) mem;;
      pad_iso_loop u i' actualoffset
  end.

Definition usbip_pad_iso (u : positive) : M St unit :=
  r ← get_urb u;
  let np := urb_number_of_packets r in
  let actualoffset := s32 (urb_actual_length r) in
  if negb (usb_pipeisoc (urb_pipe r)) then mret tt
  else if (np =? 0) || (urb_actual_length r =? 0) then mret tt
  else if urb_actual_length r =? urb_transfer_buffer_length r then mret tt
  else pad_iso_loop u (Z.to_nat (np - 1)) actualoffset.

Definition usbip_recv_xbuff (u : positive) : M St Z :=
  r ← get_urb u;
  side ← gets (fun s => ud_side (the_ud s));
  let skip := match side with
              | USBIP_STUB => usb_pipein (urb_pipe r)
              | USBIP_VHCI => usb_pipeout (urb_pipe r)
              end in
  if skip then mret 0
  else
    let size := match side with
                | USBIP_STUB => s32 (urb_transfer_buffer_length r)
                | USBIP_VHCI => s32 (urb_actual_length r)
                end in
    if negb (size >? 0) then mret 0
    else
      sock ← gets (fun s => ud_tcp_socket (the_ud s));
      ret ← usbip_recv sock (urb_transfer_buffer r) size;
      if negb (ret =? size) then
        match side with
        | USBIP_STUB => usbip_event_add SDEV_EVENT_ERROR_TCP;; mret ret
        | USBIP_VHCI => usbip_event_add VDEV_EVENT_ERROR_TCP;; mret (- EPIPE)
        end
      else mret ret.
End xfer.

(** ** Receiving *)

(** What the socket layer documents of [kernel_recvmsg]: it returns no more
    than was asked for, and that many bytes when it succeeds. *)
Definition recvmsg_ok `{Env} : Prop :=
  forall tr sock size, 0 < size ->
    let (r, data) := env_answer tr (CRecvmsg sock size) in
    r <= size /\ (0 < r -> Z.of_nat (length data) = r).

(** [Received sock tr data tr']: the calls that extend the trace from [tr] to
    [tr'] are receptions on [sock] which together delivered [data]. *)
Inductive Received `{Env} (sock : Z) : list call -> list Z -> list call -> Prop :=
  | Received_done tr : Received sock tr [] tr
  | Received_fail tr size :
      (env_answer tr (CRecvmsg sock size)).1 <= 0 ->
      Received sock tr [] (CRecvmsg sock size :: tr)
  | Received_more tr size data tr' :
      0 < size -> 0 < (env_answer tr (CRecvmsg sock size)).1 ->
      Received sock (CRecvmsg sock size :: tr) data tr' ->
      Received sock tr ((env_answer tr (CRecvmsg sock size)).2 ++ data) tr'.

(** The same over any stretch of a trace, whatever else is called in between,
    and when a reception of what follows [data] then fails. *)
Inductive Reads `{Env} (sock : Z) : list call -> list Z -> list call -> Prop :=
  | Reads_done tr : Reads sock tr [] tr
  | Reads_other c tr data tr' :
      (forall size, c = CRecvmsg sock size -> (env_answer tr c).1 <= 0) ->
      Reads sock (c :: tr) data tr' -> Reads sock tr data tr'
  | Reads_more tr size data tr' :
      0 < size -> 0 < (env_answer tr (CRecvmsg sock size)).1 ->
      Reads sock (CRecvmsg sock size :: tr) data tr' ->
      Reads sock tr ((env_answer tr (CRecvmsg sock size)).2 ++ data) tr'.
Definition Stalled `{Env} (sock : Z) (tr : list call) (data : list Z) : Prop :=
  exists tr' size, Reads sock tr data tr' /\ 0 < size /\
    (env_answer tr' (CRecvmsg sock size)).1 <= 0.

Lemma Received_Reads `{Env} sock tr data tr' : Received sock tr data tr' -> Reads sock tr data tr'.
Proof.
  induction 1 as [|tr size Hs|tr size data tr' Hs Hr _ IH]; [constructor| |by constructor].
  eapply (Reads_other _ (CRecvmsg sock size)); [by intros ? [= <-]|constructor].
Qed.

Lemma Reads_trans `{Env} sock tr1 d1 tr2 d2 tr3 :
  Reads sock tr1 d1 tr2 -> Reads sock tr2 d2 tr3 -> Reads sock tr1 (d1 ++ d2) tr3.
Proof.
  induction 1 as [| |tr size data tr' Hs Hr _ IH]; intros H2; [done|eapply Reads_other; eauto|].
  rewrite <- app_assoc. by apply Reads_more, IH.
Qed.

Section recv.
Context `{Env} {St : Type}.

(** The loop fills the buffer from its start with the bytes delivered; it
    returns the full count, or what a failed reception returned. *)
Lemma wp_usbip_recv_loop fuel sock (buf : ptr) size total blk (s : St) k :
  recvmsg_ok -> 0 < size -> (Z.to_nat size <= fuel)%nat ->
  k_heap k !! buf.1 = Some blk -> 0 <= buf.2 -> buf.2 + size <= Z.of_nat (length blk) ->
  wp (usbip_recv_loop fuel sock buf size total)
    (fun ret s' k' => s' = s /\ exists data tr',
       Received sock (k_trace k) data tr' /\
       k' = k <| k_heap := <[buf.1 := splice blk (Z.to_nat buf.2) data]> (k_heap k) |>
              <| k_trace := tr' |> /\
       ((ret = total + size /\ Z.of_nat (length data) = size) \/
        (ret <= 0 /\ Z.of_nat (length data) < size /\ Stalled sock (k_trace k) data))) s k.
Proof.
  intros Hok. revert size total buf blk k.
  induction fuel as [|fuel IH]; intros size total buf blk k Hsz Hf Hb Ho Hl; [lia|].
  cbn [usbip_recv_loop]. rewrite wp_bind, wp_ext.
  specialize (Hok (k_trace k) sock size Hsz).
  pose proof (Received_fail sock (k_trace k) size) as Hrf.
  pose proof (Received_more sock (k_trace k) size) as Hrm.
  pose proof (Reads_more sock (k_trace k) size) as Hrd.
  destruct (env_answer (k_trace k) (CRecvmsg sock size)) as [r d] eqn:Ers; cbn [fst snd] in *.
  destruct Hok as [Hle Hd].
  case_if; bool_to_prop.
  - rewrite wp_ret. split; [done|]. exists [], (CRecvmsg sock size :: k_trace k).
    split; [by apply Hrf|]. split.
    2: { right. split_and!; [done|cbn; lia|]. exists (k_trace k), size.
         split; [constructor|]. by rewrite Ers. }
    rewrite splice_nil. destruct k; cbn in *. by rewrite insert_id.
  - specialize (Hd ltac:(lia)). rewrite wp_bind, wp_store_bytes. cbn.
    exists blk. split_and!; [done|lia|lia|].
    assert (length (splice blk (Z.to_nat buf.2) d) = length blk) as Hls
      by (apply length_splice; lia).
    case_if.
    + apply Z.gtb_lt in Etest0. eapply wp_mono.
      { apply (IH _ _ (ptr_add buf r) (splice blk (Z.to_nat buf.2) d)); cbn; try lia.
        by rewrite lookup_insert_eq. }
      cbn. intros ret s' k' (-> & data & tr' & HR & -> & Hret).
      split; [done|]. exists (d ++ data), tr'. split; [apply Hrm; try lia; done|].
      split.
      * destruct k; cbn. f_equal. rewrite insert_insert_eq. f_equal.
        replace (Z.to_nat (buf.2 + r)) with (Z.to_nat buf.2 + length d)%nat by lia.
        apply splice_app. lia.
      * rewrite length_app. destruct Hret as [?|(Hr0 & Hlt & tr1 & n & HR1 & Hst)]; [left; lia|].
        right. split_and!; [done|lia|]. exists tr1, n. split; [apply Hrd; try lia; done|done].
    + rewrite Z.gtb_ltb in Etest0. bool_to_prop. rewrite wp_ret. split; [done|].
      exists (d ++ []), (CRecvmsg sock size :: k_trace k).
      split; [apply Hrm; try lia; constructor|]. rewrite app_nil_r. split; [done|]. lia.
Qed.

(** As below, and if not everything arrived, what made the reception stop. *)
Lemma wp_usbip_recv_stalled sock (buf : ptr) size blk (s : St) k :
  recvmsg_ok -> 0 < size ->
  k_heap k !! buf.1 = Some blk -> 0 <= buf.2 -> buf.2 + size <= Z.of_nat (length blk) ->
  wp (usbip_recv (Some sock) (Some buf) size)
    (fun ret s' k' => s' = s /\ exists data tr',
       Received sock (k_trace k) data tr' /\
       k' = k <| k_heap := <[buf.1 := splice blk (Z.to_nat buf.2) data]> (k_heap k) |>
              <| k_trace := tr' |> /\
       ((ret = size /\ Z.of_nat (length data) = size) \/
        (ret <= 0 /\ Z.of_nat (length data) < size /\ Stalled sock (k_trace k) data))) s k.
Proof.
  intros ???? Hl. unfold usbip_recv. case_if; bool_to_prop; [lia|].
  apply wp_usbip_recv_loop; auto with lia.
Qed.

Lemma wp_usbip_recv sock (buf : ptr) size blk (s : St) k :
  recvmsg_ok -> 0 < size ->
  k_heap k !! buf.1 = Some blk -> 0 <= buf.2 -> buf.2 + size <= Z.of_nat (length blk) ->
  wp (usbip_recv (Some sock) (Some buf) size)
    (fun ret s' k' => s' = s /\ exists data tr',
       Received sock (k_trace k) data tr' /\
       k' = k <| k_heap := <[buf.1 := splice blk (Z.to_nat buf.2) data]> (k_heap k) |>
              <| k_trace := tr' |> /\
       ((ret = size /\ Z.of_nat (length data) = size) \/
        (ret <= 0 /\ Z.of_nat (length data) < size))) s k.
Proof.
  intros. eapply wp_mono; [by apply wp_usbip_recv_stalled|].
  intros ret s' k' (-> & data & tr' & HR & -> & Hret). split; [done|]. exists data, tr'. intuition.
Qed.
End recv.
