(* ===== verification/Filters.v ===== *)
(** * Filters

    The filter hooks of [usbip_common.c]: filter drivers register in a global
    list, are probed for each exported device, and see every URB on its way to
    and from the device.  The lists are the kernel's circular doubly linked
    lists, modelled by address because the hooks' use of them depends on it. *)
From S2P Require Import Prelude Kernel Wire Event.

(** ** [struct list_head] *)
Section klist.
Context {St : Type}.

Definition node (n : positive) : M St (positive * positive) :=
  ns ← kgets k_nodes; of_option UseAfterFree (ns !! n).
Definition list_next (n : positive) : M St positive := p ← node n; mret p.1.
Definition list_prev (n : positive) : M St positive := p ← node n; mret p.2.
Definition set_node (n : positive) (p : positive * positive) : M St unit :=
  kmodify (fun k => k <| k_nodes := <[n := p]> (k_nodes k) |>).
Definition set_next (n x : positive) : M St unit := p ← node n; set_node n (x, p.2).
Definition set_prev (n x : positive) : M St unit := p ← node n; set_node n (p.1, x).

Definition INIT_LIST_HEAD (n : positive) : M St unit := set_node n (n, n).

(** Insert [new] between two neighbours. *)
Definition list_add_between (new prev next : positive) : M St unit :=
  set_prev next new;; set_next new next;; set_prev new prev;; set_next prev new.

(** Insert [new] before [head], that is, at the end of its list. *)
Definition list_add_tail (new head : positive) : M St unit :=
  prev ← list_prev head; list_add_between new prev head.

(** Unlink an entry; its own links are poisoned. *)
Definition list_del (entry : positive) : M St unit :=
  p ← node entry;
  set_prev p.1 p.2;; set_next p.2 p.1;;
  kmodify (fun k => k <| k_nodes := delete entry (k_nodes k) |>).

Definition node_count : M St nat := kgets (fun k => S (size (k_nodes k))).

(** [list_for_each]: [body] says whether to break. *)
Fixpoint list_for_each_loop (fuel : nat) (head pos : positive)
    (body : positive -> M St bool) : M St unit :=
  match fuel with
  | O => crash OutOfFuel
  | S fuel' =>
      if decide (pos = head) then mret tt
      else
        stop ← body pos;
        if stop : bool then mret tt
        else next ← list_next pos; list_for_each_loop fuel' head next body
  end.
Definition list_for_each (head : positive) (body : positive -> M St bool) : M St unit :=
  fuel ← node_count; pos ← list_next head; list_for_each_loop fuel head pos body.

(** [list_for_each_safe]: the successor is read before [body] runs. *)
Fixpoint list_for_each_safe_loop {A} (fuel : nat) (head pos : positive) (acc : A)
    (body : positive -> A -> M St (A * bool)) : M St A :=
  match fuel with
  | O => crash OutOfFuel
  | S fuel' =>
      if decide (pos = head) then mret acc
      else
        next ← list_next pos;
        r ← body pos acc;
        if r.2 : bool then mret r.1
        else list_for_each_safe_loop fuel' head next r.1 body
  end.
Definition list_for_each_safe {A} (head : positive) (acc : A)
    (body : positive -> A -> M St (A * bool)) : M St A :=
  fuel ← node_count; pos ← list_next head; list_for_each_safe_loop fuel head pos acc body.
End klist.

(** ** Filter drivers *)

(** [struct usbip_filter_driver]; a NULL callback is [None].  Callbacks get
    the address of the filter. *)
Record usbip_filter_driver (St : Type) := mkDriver {
  drv_probe : option (Z -> M St Z);
  drv_remove : option (positive -> M St unit);
  drv_on_tx : option (positive -> positive -> M St Z);
  drv_on_rx : option (positive -> usbip_header -> positive -> M St Z)
}.
Arguments mkDriver {St} _ _ _ _.
Arguments drv_probe {St} _.
Arguments drv_remove {St} _.
Arguments drv_on_tx {St} _.
Arguments drv_on_rx {St} _.

(** The drivers loaded, by the address of their list node. *)
Class FilterDrivers (St : Type) := filter_drivers : gmap positive (usbip_filter_driver St).

(** The address of [usbip_filters.list]. *)
Definition usbip_filters_list : positive := 1%positive.

Section filters.
Context `{Env} {St : Type} `{HasUd St} `{FilterDrivers St}.

Definition get_driver (drv : positive) : M St (usbip_filter_driver St) :=
  of_option UseAfterFree (filter_drivers !! drv).

Definition get_filter (f : positive) : M St usbip_filter :=
  fs ← gets (fun s => ud_filter_objs (the_ud s)); of_option UseAfterFree (fs !! f).

Definition usbip_filter_register (drv : positive) : M St unit :=
  spin_lock LockDrivers;;
  list_add_tail drv usbip_filters_list;;
  spin_unlock LockDrivers.

Definition usbip_filter_unregister (drv : positive) : M St unit :=
  spin_lock LockDrivers;;
  list_for_each usbip_filters_list (fun pos =>
    if decide (pos = drv) then list_del pos;; mret true else mret false);;
  spin_unlock LockDrivers.

(** [kmalloc] of a [struct usbip_filter]. *)
Definition alloc_filter : M St (option positive) :=
  r ← ext_ret (CMalloc 40);
  if r =? 0 then mret None
  else
    a ← kgets k_next;
    kmodify (fun k => k <| k_next := Pos.succ a |>);;
    mret (Some a).

Definition put_filter (f : positive) (o : option usbip_filter) : M St unit :=
  modify_ud (fun ud => ud <| ud_filter_objs := partial_alter (fun _ => o) f
                              (ud_filter_objs ud) |>).

Definition usbip_filter_probe (interface : Z) : M St unit :=
  spin_lock (LockUdFilter ud_owner);;
  spin_lock LockDrivers;;
  list_for_each usbip_filters_list (fun pos =>
    drv ← get_driver pos;
    match drv_probe drv with
    | None => mret false
    | Some probe =>
        priv ← probe interface;
        if priv =? 0 then mret false
        else
          filter ← alloc_filter;
          match filter with
          | None => mret true
          | Some filter =>
              INIT_LIST_HEAD filter;;
              put_filter filter (Some (mkFilter pos priv));;
              filters ← gets (fun s => ud_filters (the_ud s));
              list_add_tail filters filter;;
              mret false
          end
    end);;
  spin_unlock LockDrivers;;
  spin_unlock (LockUdFilter ud_owner).

(** [drv] is NULL when [None]. *)
Definition usbip_filter_remove (drv : option positive) : M St unit :=
  spin_lock (LockUdFilter ud_owner);;
  filters ← gets (fun s => ud_filters (the_ud s));
  list_for_each_safe filters tt (fun pos _ =>
    filter ← get_filter pos;
    if bool_decide (drv = None) && bool_decide (drv <> Some (f_drv filter)) then
      mret (tt, false)
    else
      d ← deref drv; d ← get_driver d;
      match drv_remove d with Some remove => remove pos | None => mret tt end;;
      list_del pos;;
      put_filter pos None;;
      mret (tt, false));;
  spin_unlock (LockUdFilter ud_owner).

Definition usbip_filter_on_rx (pdu : usbip_header) (u : positive) : M St Z :=
  spin_lock (LockUdFilter ud_owner);;
  filters ← gets (fun s => ud_filters (the_ud s));
  ret ← list_for_each_safe filters 0 (fun pos ret =>
    filter ← get_filter pos;
    d ← get_driver (f_drv filter);
    match drv_on_rx d with
    | None => mret (ret, false)
    | Some on_rx => ret ← on_rx pos pdu u; mret (ret, negb (ret =? 0))
    end);
  spin_unlock (LockUdFilter ud_owner);;
  mret ret.

Definition usbip_filter_on_tx (u : positive) : M St Z :=
  spin_lock (LockUdFilter ud_owner);;
  filters ← gets (fun s => ud_filters (the_ud s));
  ret ← list_for_each_safe filters 0 (fun pos ret =>
    filter ← get_filter pos;
    d ← get_driver (f_drv filter);
    match drv_on_tx d with
    | None => mret (ret, false)
    | Some on_tx => ret ← on_tx pos u; mret (ret, negb (ret =? 0))
    end);
  spin_unlock (LockUdFilter ud_owner);;
  mret ret.

Definition usbip_core_init : M St Z :=
  INIT_LIST_HEAD usbip_filters_list;; mret 0.
End filters.
