(* ===== verification/Stub.v ===== *)
(** * The stub device

    The data of [stub.h]: a [stub_device] exports one USB device.  Every
    request it receives becomes a [stub_priv] with an URB; the [stub_priv] moves
    from [priv_init] (submitted) to [priv_tx] (completed) to [priv_free] (sent). *)
From S2P Require Import Prelude Kernel Wire Event.

Record stub_priv := mkStubPriv {
  sp_seqnum : Z;
  sp_urb : option positive;
  sp_priv : Z;
  sp_unlinking : bool
}.
#[export] Instance set_sp_seqnum : Setter sp_seqnum := fun v r => mkStubPriv v (sp_urb r) (sp_priv r) (sp_unlinking r).
#[global] Arguments set_sp_seqnum _ _ /.
#[export] Instance set_sp_urb : Setter sp_urb := fun v r => mkStubPriv (sp_seqnum r) v (sp_priv r) (sp_unlinking r).
#[global] Arguments set_sp_urb _ _ /.
#[export] Instance set_sp_priv : Setter sp_priv := fun v r => mkStubPriv (sp_seqnum r) (sp_urb r) v (sp_unlinking r).
#[global] Arguments set_sp_priv _ _ /.
#[export] Instance set_sp_unlinking : Setter sp_unlinking := fun v r => mkStubPriv (sp_seqnum r) (sp_urb r) (sp_priv r) v.
#[global] Arguments set_sp_unlinking _ _ /.


Record stub_unlink := mkStubUnlink {
  su_seqnum : Z;
  su_status : Z
}.
#[export] Instance set_su_seqnum : Setter su_seqnum := fun v r => mkStubUnlink v (su_status r).
#[global] Arguments set_su_seqnum _ _ /.
#[export] Instance set_su_status : Setter su_status := fun v r => mkStubUnlink (su_seqnum r) v.
#[global] Arguments set_su_status _ _ /.


(** [struct stub_device]; the three queues hold addresses of [stub_priv]s,
    which live in [sd_privs] until they are freed. *)
Record stub_device := mkStubDevice {
  sd_udev : positive;
  sd_ud : usbip_device;
  sd_devid : Z;
  sd_privs : gmap positive stub_priv;
  sd_priv_init : list positive;
  sd_priv_tx : list positive;
  sd_priv_free : list positive;
  sd_unlink_tx : list stub_unlink;
  sd_unlink_free : list stub_unlink
}.
#[export] Instance set_sd_udev : Setter sd_udev := fun v r => mkStubDevice v (sd_ud r) (sd_devid r) (sd_privs r) (sd_priv_init r) (sd_priv_tx r) (sd_priv_free r) (sd_unlink_tx r) (sd_unlink_free r).
#[global] Arguments set_sd_udev _ _ /.
#[export] Instance set_sd_ud : Setter sd_ud := fun v r => mkStubDevice (sd_udev r) v (sd_devid r) (sd_privs r) (sd_priv_init r) (sd_priv_tx r) (sd_priv_free r) (sd_unlink_tx r) (sd_unlink_free r).
#[global] Arguments set_sd_ud _ _ /.
#[export] Instance set_sd_devid : Setter sd_devid := fun v r => mkStubDevice (sd_udev r) (sd_ud r) v (sd_privs r) (sd_priv_init r) (sd_priv_tx r) (sd_priv_free r) (sd_unlink_tx r) (sd_unlink_free r).
#[global] Arguments set_sd_devid _ _ /.
#[export] Instance set_sd_privs : Setter sd_privs := fun v r => mkStubDevice (sd_udev r) (sd_ud r) (sd_devid r) v (sd_priv_init r) (sd_priv_tx r) (sd_priv_free r) (sd_unlink_tx r) (sd_unlink_free r).
#[global] Arguments set_sd_privs _ _ /.
#[export] Instance set_sd_priv_init : Setter sd_priv_init := fun v r => mkStubDevice (sd_udev r) (sd_ud r) (sd_devid r) (sd_privs r) v (sd_priv_tx r) (sd_priv_free r) (sd_unlink_tx r) (sd_unlink_free r).
#[global] Arguments set_sd_priv_init _ _ /.
#[export] Instance set_sd_priv_tx : Setter sd_priv_tx := fun v r => mkStubDevice (sd_udev r) (sd_ud r) (sd_devid r) (sd_privs r) (sd_priv_init r) v (sd_priv_free r) (sd_unlink_tx r) (sd_unlink_free r).
#[global] Arguments set_sd_priv_tx _ _ /.
#[export] Instance set_sd_priv_free : Setter sd_priv_free := fun v r => mkStubDevice (sd_udev r) (sd_ud r) (sd_devid r) (sd_privs r) (sd_priv_init r) (sd_priv_tx r) v (sd_unlink_tx r) (sd_unlink_free r).
#[global] Arguments set_sd_priv_free _ _ /.
#[export] Instance set_sd_unlink_tx : Setter sd_unlink_tx := fun v r => mkStubDevice (sd_udev r) (sd_ud r) (sd_devid r) (sd_privs r) (sd_priv_init r) (sd_priv_tx r) (sd_priv_free r) v (sd_unlink_free r).
#[global] Arguments set_sd_unlink_tx _ _ /.
#[export] Instance set_sd_unlink_free : Setter sd_unlink_free := fun v r => mkStubDevice (sd_udev r) (sd_ud r) (sd_devid r) (sd_privs r) (sd_priv_init r) (sd_priv_tx r) (sd_priv_free r) (sd_unlink_tx r) v.
#[global] Arguments set_sd_unlink_free _ _ /.


#[export] Program Instance stub_has_ud : HasUd stub_device := {|
  the_ud := sd_ud;
  put_ud u s := s <| sd_ud := u |>;
  ud_owner := 0
|}.
Solve All Obligations with by intros; repeat match goal with s : stub_device |- _ => destruct s end.

Section stub_priv.
Notation M := (M stub_device).

Definition get_priv (p : positive) : M stub_priv :=
  ps ← gets sd_privs; of_option UseAfterFree (ps !! p).
Definition put_priv (p : positive) (x : stub_priv) : M unit :=
  modify (fun sd => sd <| sd_privs := <[p := x]> (sd_privs sd) |>).

(** [list_del(&priv->list)]: out of whichever queue links it. *)
Definition unlink_priv (p : positive) (sd : stub_device) : stub_device :=
  sd <| sd_priv_init := remove_id p (sd_priv_init sd) |>
     <| sd_priv_tx := remove_id p (sd_priv_tx sd) |>
     <| sd_priv_free := remove_id p (sd_priv_free sd) |>.

(** [list_move_tail] to each queue. *)
Definition move_to_tx (p : positive) : M unit :=
  modify (fun sd => let sd := unlink_priv p sd in
                    sd <| sd_priv_tx := sd_priv_tx sd ++ [p] |>).
Definition move_to_free (p : positive) : M unit :=
  modify (fun sd => let sd := unlink_priv p sd in
                    sd <| sd_priv_free := sd_priv_free sd ++ [p] |>).

Definition free_priv (p : positive) : M unit :=
  _ ← get_priv p;
  modify (fun sd => sd <| sd_privs := delete p (sd_privs sd) |>).
End stub_priv.
