(* ===== verification/StubTx.v ===== *)
(** * The stub's transmitter

    [stub_tx.c]: the completion handler of the stub's URBs, and the thread that
    sends the results of submissions and unlinks back to the client. *)
From S2P Require Import Prelude Kernel Wire Event Xfer Filters Stub.

Section stub_tx.
Context `{Env} `{Arch} `{UsbPipes} `{FilterDrivers stub_device}.
Notation M := (M stub_device).

Definition LOCK_PRIV := LockPriv 0.

Definition stub_free_priv_and_urb (p : positive) : M unit :=
  priv ← get_priv p;
  u ← deref (sp_urb priv);
  r ← get_urb u;
  kfree (urb_setup_packet r);;
  kfree (urb_transfer_buffer r);;
  modify (unlink_priv p);;
  free_priv p;;
  usb_free_urb (Some u).

(** Called with [priv_lock] held. *)
Definition stub_enqueue_ret_unlink (seqnum status : Z) : M unit :=
  r ← ext_ret (CMalloc 40);
  if r =? 0 then usbip_event_add VDEV_EVENT_ERROR_MALLOC
  else modify (fun sd => sd <| sd_unlink_tx := sd_unlink_tx sd ++ [mkStubUnlink seqnum status] |>).

(** The part of [stub_complete] after the filters; [ret] is their answer. *)
Definition stub_complete_tail (u p : positive) (ret : Z) : M unit :=
  r ← get_urb u;
  if urb_status r =? - ENOENT then mret tt
  else if negb (ret =? 0) then mret tt
  else
    spin_lock LOCK_PRIV;;
    priv ← get_priv p;
    (if sp_unlinking priv then
       stub_enqueue_ret_unlink (u32 (sp_seqnum priv)) (u32 (urb_status r));;
       stub_free_priv_and_urb p
     else move_to_tx p);;
    spin_unlock LOCK_PRIV;;
    ext_do (CWakeUp Q_TX).

Definition stub_complete (u : positive) : M unit :=
  r ← get_urb u;
  p ← deref (urb_context r);
  priv ← get_priv p;
  ret ← usbip_filter_on_tx u;
  stub_complete_tail u p ret.

Definition setup_base_pdu (base : usbip_header_basic) (cmd sq : Z) : usbip_header_basic :=
  base <| command := cmd |> <| seqnum := sq |> <| devid := 0 |> <| ep := 0 |>
       <| direction := 0 |>.

Definition setup_ret_submit_pdu (rpdu : usbip_header) (u : positive) : M usbip_header :=
  r ← get_urb u;
  p ← deref (urb_context r);
  priv ← get_priv p;
  let rpdu := rpdu <| h_base := setup_base_pdu (h_base rpdu) USBIP_RET_SUBMIT
                                  (u32 (sp_seqnum priv)) |> in
  mret (usbip_pack_pdu rpdu r USBIP_RET_SUBMIT true).1.

Definition setup_ret_unlink_pdu (rpdu : usbip_header) (unlink : stub_unlink) : usbip_header :=
  let rpdu := rpdu <| h_base := setup_base_pdu (h_base rpdu) USBIP_RET_UNLINK
                                  (u32 (su_seqnum unlink)) |> in
  rpdu <| h_u := put_ret_unlink (mkRetUnlink (s32 (su_status unlink))) (h_u rpdu) |>.

Definition dequeue_from_priv_tx : M (option positive) :=
  spin_lock LOCK_PRIV;;
  q ← gets sd_priv_tx;
  match q with
  | p :: _ => move_to_free p;; spin_unlock LOCK_PRIV;; mret (Some p)
  | [] => spin_unlock LOCK_PRIV;; mret None
  end.

(** The lengths of the [iov] entries of an isochronous IN transfer, summed. *)
Fixpoint iso_iov_len (descs : list usb_iso_packet) (i n : nat) : M Z :=
  match n with
  | O => mret 0
  | S n' =>
      d ← of_option OutOfBounds (descs !! i);
      rest ← iso_iov_len descs (S i) n';
      mret (ui_actual_length d + rest)
  end.

(** What those entries hold; an empty entry is not dereferenced. *)
Fixpoint iso_iov (buf : option ptr) (descs : list usb_iso_packet) (i n : nat)
    : M (list Z) :=
  match n with
  | O => mret []
  | S n' =>
      d ← of_option OutOfBounds (descs !! i);
      data ← (if ui_actual_length d =? 0 then mret []
              else b ← deref buf;
                   load_bytes (ptr_add b (ui_offset d)) (ui_actual_length d));
      rest ← iso_iov buf descs (S i) n';
      mret (data ++ rest)
  end.

(** Part 2 of a reply: the transfer buffer.  [None]: the actual length does
    not match the packets and the reply is not sent. *)
Definition ret_submit_data (u : positive) : M (option (list Z)) :=
  r ← get_urb u;
  if usb_pipein (urb_pipe r) && negb (usb_pipetype (urb_pipe r) =? PIPE_ISOCHRONOUS)
     && (urb_actual_length r >? 0) then
    b ← deref (urb_transfer_buffer r);
    data ← load_bytes b (urb_actual_length r);
    mret (Some data)
  else if usb_pipein (urb_pipe r) && (usb_pipetype (urb_pipe r) =? PIPE_ISOCHRONOUS) then
    let np := Z.to_nat (urb_number_of_packets r) in
    len ← iso_iov_len (urb_iso_frame_desc r) 0 np;
    if negb (len =? urb_actual_length r) then mret None
    else
      data ← iso_iov (urb_transfer_buffer r) (urb_iso_frame_desc r) 0 np;
      mret (Some data)
  else mret (Some []).

(** One iteration of the sending loop for the dequeued [p]; [false] on failure. *)
Definition stub_send_one_ret_submit (p : positive) : M (option Z) :=
  priv ← get_priv p;
  u ← deref (sp_urb priv);
  r ← get_urb u;
  let iovnum := if usb_pipetype (urb_pipe r) =? PIPE_ISOCHRONOUS
                then 2 + urb_number_of_packets r else 2 in
  iov ← kzalloc (iovnum * 16);
  match iov with
  | None => usbip_event_add SDEV_EVENT_ERROR_MALLOC;; mret None
  | Some _ =>
      pdu_header ← setup_ret_submit_pdu header_zero u;
      let pdu_header := usbip_header_correct_endian pdu_header true in
      data ← ret_submit_data u;
      match data with
      | None => kfree iov;; usbip_event_add SDEV_EVENT_ERROR_TCP;; mret None
      | Some data =>
          iso ← (if usb_pipetype (urb_pipe r) =? PIPE_ISOCHRONOUS then
                   i ← usbip_alloc_iso_desc_pdu u; mret (Some i)
                 else mret None);
          match iso with
          | Some None =>
              usbip_event_add SDEV_EVENT_ERROR_MALLOC;; kfree iov;; mret None
          | _ =>
              let iso_buffer := i ← iso; i ← i; Some (fst i) in
              let iso_len := default 0 (i ← iso; i ← i; Some (snd i)) in
              iso_data ← match iso_buffer with
                         | Some b => load_bytes b iso_len
                         | None => mret []
                         end;
              let msg := header_to_mem pdu_header ++ data ++ iso_data in
              let txsize := sizeof_header + Z.of_nat (length data) + iso_len in
              sock ← gets (fun sd => ud_tcp_socket (sd_ud sd));
              sock ← deref sock;
              ret ← ext_ret (CSendmsg sock msg txsize);
              if negb (ret =? txsize) then
                kfree iov;; kfree iso_buffer;;
                usbip_event_add SDEV_EVENT_ERROR_TCP;; mret None
              else
                kfree iov;; kfree iso_buffer;; mret (Some txsize)
          end
      end
  end.

Fixpoint stub_send_ret_submit_loop (fuel : nat) (total_size : Z) : M (option Z) :=
  match fuel with
  | O => crash OutOfFuel
  | S fuel' =>
      p ← dequeue_from_priv_tx;
      match p with
      | None => mret (Some total_size)
      | Some p =>
          sent ← stub_send_one_ret_submit p;
          match sent with
          | None => mret None
          | Some txsize => stub_send_ret_submit_loop fuel' (total_size + txsize)
          end
      end
  end.

Fixpoint for_each {A} (l : list A) (f : A -> M unit) : M unit :=
  match l with
  | [] => mret tt
  | x :: l' => f x;; for_each l' f
  end.

Definition stub_send_ret_submit : M Z :=
  tx ← gets sd_priv_tx;
  total ← stub_send_ret_submit_loop (S (length tx)) 0;
  match total with
  | None => mret (-1)
  | Some total_size =>
      spin_lock LOCK_PRIV;;
      q ← gets sd_priv_free;
      for_each q stub_free_priv_and_urb;;
      spin_unlock LOCK_PRIV;;
      mret (s32 total_size)
  end.

Definition dequeue_from_unlink_tx : M (option stub_unlink) :=
  spin_lock LOCK_PRIV;;
  q ← gets sd_unlink_tx;
  match q with
  | x :: q' =>
      modify (fun sd => sd <| sd_unlink_tx := q' |>
                           <| sd_unlink_free := sd_unlink_free sd ++ [x] |>);;
      spin_unlock LOCK_PRIV;; mret (Some x)
  | [] => spin_unlock LOCK_PRIV;; mret None
  end.

Fixpoint stub_send_ret_unlink_loop (fuel : nat) (total_size : Z) : M (option Z) :=
  match fuel with
  | O => crash OutOfFuel
  | S fuel' =>
      x ← dequeue_from_unlink_tx;
      match x with
      | None => mret (Some total_size)
      | Some x =>
          let pdu_header :=
            usbip_header_correct_endian (setup_ret_unlink_pdu header_zero x) true in
          sock ← gets (fun sd => ud_tcp_socket (sd_ud sd));
          sock ← deref sock;
          ret ← ext_ret (CSendmsg sock (header_to_mem pdu_header) sizeof_header);
          if negb (ret =? sizeof_header) then
            usbip_event_add SDEV_EVENT_ERROR_TCP;; mret None
          else stub_send_ret_unlink_loop fuel' (total_size + sizeof_header)
      end
  end.

Definition stub_send_ret_unlink : M Z :=
  tx ← gets sd_unlink_tx;
  total ← stub_send_ret_unlink_loop (S (length tx)) 0;
  match total with
  | None => mret (-1)
  | Some total_size =>
      spin_lock LOCK_PRIV;;
      modify (fun sd => sd <| sd_unlink_free := [] |>);;
      spin_unlock LOCK_PRIV;;
      mret (s32 total_size)
  end.

(** [fuel] bounds the iterations of a thread that only stops when asked. *)
Fixpoint stub_tx_loop (fuel : nat) : M Z :=
  match fuel with
  | O => crash OutOfFuel
  | S fuel' =>
      stop ← ext_ret CShouldStop;
      if negb (stop =? 0) then mret 0
      else
        happened ← usbip_event_happened;
        if happened : bool then mret 0
        else
          r ← stub_send_ret_submit;
          if r <? 0 then mret 0
          else
            r ← stub_send_ret_unlink;
            if r <? 0 then mret 0
            else ext_do (CWaitEvent Q_TX);; stub_tx_loop fuel'
  end.
End stub_tx.
