(* ===== verification/StubRx.v ===== *)
(** * The stub's receiver

    [stub_rx.c]: the thread that receives requests, builds and submits an URB
    for each submission, tweaks the control requests the device must not see
    as they are, and unlinks URBs. *)
From S2P Require Import Prelude Kernel Wire Event Xfer Filters Stub StubTx.

(** ** Numbers of the USB specification *)
Definition USB_REQ_CLEAR_FEATURE := 1.
Definition USB_REQ_SET_FEATURE := 3.
Definition USB_REQ_SET_ADDRESS := 5.
Definition USB_REQ_GET_DESCRIPTOR := 6.
Definition USB_REQ_SET_CONFIGURATION := 9.
Definition USB_REQ_SET_INTERFACE := 11.
Definition USB_RECIP_DEVICE := 0.
Definition USB_RECIP_INTERFACE := 1.
Definition USB_RECIP_ENDPOINT := 2.
Definition USB_RT_PORT := 35.
Definition USB_PORT_FEAT_RESET := 4.
Definition USB_ENDPOINT_HALT := 0.
Definition USB_DIR_IN := 128.
Definition USB_ENDPOINT_XFER_CONTROL := 0.
Definition USB_ENDPOINT_XFER_ISOC := 1.
Definition USB_ENDPOINT_XFER_BULK := 2.
Definition USB_ENDPOINT_XFER_INT := 3.
Definition USB_STATE_UNAUTHENTICATED := 4.

(** [struct usb_ctrlrequest]: the 16-bit members as the machine reads them. *)
Record usb_ctrlrequest := mkCtrl {
  bRequestType : Z;
  bRequest : Z;
  wValue : Z;
  wIndex : Z;
  wLength : Z
}.
#[export] Instance set_bRequestType : Setter bRequestType := fun v r => mkCtrl v (bRequest r) (wValue r) (wIndex r) (wLength r).
#[global] Arguments set_bRequestType _ _ /.
#[export] Instance set_bRequest : Setter bRequest := fun v r => mkCtrl (bRequestType r) v (wValue r) (wIndex r) (wLength r).
#[global] Arguments set_bRequest _ _ /.
#[export] Instance set_wValue : Setter wValue := fun v r => mkCtrl (bRequestType r) (bRequest r) v (wIndex r) (wLength r).
#[global] Arguments set_wValue _ _ /.
#[export] Instance set_wIndex : Setter wIndex := fun v r => mkCtrl (bRequestType r) (bRequest r) (wValue r) v (wLength r).
#[global] Arguments set_wIndex _ _ /.
#[export] Instance set_wLength : Setter wLength := fun v r => mkCtrl (bRequestType r) (bRequest r) (wValue r) (wIndex r) v.
#[global] Arguments set_wLength _ _ /.


Section ctrlrequest.
Context `{Arch}.

Definition half_of (l : list Z) : Z := if big_endian then of_be l else of_le l.
Definition le16_to_cpu (x : Z) : Z :=
  if big_endian then of_le (be_bytes 2 x) else x.

Definition ctrlrequest_of_mem (l : list Z) : usb_ctrlrequest :=
  mkCtrl (nth 0 l 0) (nth 1 l 0) (half_of (take 2 (drop 2 l)))
    (half_of (take 2 (drop 4 l))) (half_of (take 2 (drop 6 l))).

Definition is_clear_halt_cmd (req : usb_ctrlrequest) : bool :=
  (bRequest req =? USB_REQ_CLEAR_FEATURE) &&
  (bRequestType req =? USB_RECIP_ENDPOINT) &&
  (wValue req =? USB_ENDPOINT_HALT).

Definition is_set_interface_cmd (req : usb_ctrlrequest) : bool :=
  (bRequest req =? USB_REQ_SET_INTERFACE) &&
  (bRequestType req =? USB_RECIP_INTERFACE).

Definition is_set_configuration_cmd (req : usb_ctrlrequest) : bool :=
  (bRequest req =? USB_REQ_SET_CONFIGURATION) &&
  (bRequestType req =? USB_RECIP_DEVICE).

Definition is_reset_device_cmd (req : usb_ctrlrequest) : bool :=
  (bRequest req =? USB_REQ_SET_FEATURE) &&
  (bRequestType req =? USB_RT_PORT) &&
  (le16_to_cpu (wValue req) =? USB_PORT_FEAT_RESET).
End ctrlrequest.

Section stub_rx.
Context `{Env} `{Arch} `{UsbPipes} `{FilterDrivers stub_device}.
Notation M := (M stub_device).

(** [urb->setup_packet] as a [struct usb_ctrlrequest], dereferenced. *)
Definition setup_request (r : urb) : M usb_ctrlrequest :=
  p ← deref (urb_setup_packet r);
  mem ← load_bytes p 8;
  mret (ctrlrequest_of_mem mem).

Definition tweak_clear_halt_cmd (u : positive) : M Z :=
  r ← get_urb u;
  req ← setup_request r;
  let target_endp := Z.land (le16_to_cpu (wIndex req)) 15 in
  let target_dir := Z.land (le16_to_cpu (wIndex req)) 128 in
  d ← deref (urb_dev r); dev ← get_udev d;
  let target_pipe := usb_mkpipe PIPE_CONTROL (negb (target_dir =? 0))
                       (dev_devnum dev) target_endp in
  ext_ret (CClearHalt (urb_dev r) target_pipe).

Definition tweak_set_interface_cmd (u : positive) : M Z :=
  r ← get_urb u;
  req ← setup_request r;
  let alternate := le16_to_cpu (wValue req) in
  let interface := le16_to_cpu (wIndex req) in
  ext_ret (CSetInterface (urb_dev r) interface alternate).

(** The request is skipped. *)
Definition tweak_set_configuration_cmd (u : positive) : M Z :=
  r ← get_urb u;
  _ ← setup_request r;
  mret 0.

Definition tweak_reset_device_cmd (u : positive) : M Z :=
  r ← get_urb u;
  p ← deref (urb_context r);
  _ ← get_priv p;
  locked ← ext_ret CLockForReset;
  if locked <? 0 then mret 0
  else ext_do CResetDevice;; ext_do CUnlockDevice;; mret 0.

Definition tweak_special_requests (u : positive) : M unit :=
  r ← get_urb u;
  match urb_setup_packet r with
  | None => mret tt
  | Some _ =>
      if negb (usb_pipetype (urb_pipe r) =? PIPE_CONTROL) then mret tt
      else
        req ← setup_request r;
        if is_clear_halt_cmd req then tweak_clear_halt_cmd u;; mret tt
        else if is_set_interface_cmd req then tweak_set_interface_cmd u;; mret tt
        else if is_set_configuration_cmd req then tweak_set_configuration_cmd u;; mret tt
        else if is_reset_device_cmd req then tweak_reset_device_cmd u;; mret tt
        else mret tt
  end.

Fixpoint find_seqnum (privs : gmap positive stub_priv) (sq : Z) (q : list positive)
    : option positive :=
  match q with
  | [] => None
  | p :: q' =>
      match privs !! p with
      | Some x => if sp_seqnum x =? sq then Some p else find_seqnum privs sq q'
      | None => None
      end
  end.

Definition stub_recv_cmd_unlink (pdu : usbip_header) : M Z :=
  spin_lock LOCK_PRIV;;
  sd ← get;
  match find_seqnum (sd_privs sd) (cu_seqnum (u_cmd_unlink (h_u pdu))) (sd_priv_init sd) with
  | Some p =>
      priv ← get_priv p;
      u ← deref (sp_urb priv);
      put_priv p (priv <| sp_unlinking := true |> <| sp_seqnum := seqnum (h_base pdu) |>);;
      spin_unlock LOCK_PRIV;;
      ext_do (CUnlinkUrb u);;
      mret 0
  | None =>
      stub_enqueue_ret_unlink (seqnum (h_base pdu)) 0;;
      spin_unlock LOCK_PRIV;;
      mret 0
  end.

Definition valid_request (pdu : usbip_header) : M bool :=
  sd ← get;
  if devid (h_base pdu) =? sd_devid sd then
    spin_lock (LockUd ud_owner);;
    status ← gets (fun sd => ud_status (sd_ud sd));
    let valid := bool_decide (status = SDEV_ST_USED) in
    spin_unlock (LockUd ud_owner);;
    mret valid
  else mret false.

Definition stub_priv_alloc (pdu : usbip_header) : M (option positive) :=
  spin_lock LOCK_PRIV;;
  r ← ext_ret (CMalloc 64);
  if r =? 0 then
    spin_unlock LOCK_PRIV;;
    usbip_event_add SDEV_EVENT_ERROR_MALLOC;;
    mret None
  else
    p ← kgets k_next;
    kmodify (fun k => k <| k_next := Pos.succ p |>);;
    put_priv p (mkStubPriv (seqnum (h_base pdu)) None 0 false);;
    modify (fun sd => sd <| sd_priv_init := sd_priv_init sd ++ [p] |>);;
    spin_unlock LOCK_PRIV;;
    mret (Some p).

(** The endpoint arrays have 16 entries. *)
Definition get_pipe (epnum dir : Z) : M Z :=
  sd ← get;
  dev ← get_udev (sd_udev sd);
  e ← of_option OutOfBounds
        ((if dir =? USBIP_DIR_IN then dev_ep_in dev else dev_ep_out dev)
           !! Z.to_nat (Z.land epnum 127));
  match e with
  | None => crash BugOn
  | Some epd =>
      let mk t := usb_mkpipe t (negb (dir =? USBIP_DIR_OUT)) (dev_devnum dev) epnum in
      let t := ep_xfertype epd in
      if t =? USB_ENDPOINT_XFER_CONTROL then mret (mk PIPE_CONTROL)
      else if t =? USB_ENDPOINT_XFER_BULK then mret (mk PIPE_BULK)
      else if t =? USB_ENDPOINT_XFER_INT then mret (mk PIPE_INTERRUPT)
      else if t =? USB_ENDPOINT_XFER_ISOC then mret (mk PIPE_ISOCHRONOUS)
      else mret 0
  end.

(** The flags the policy allows for an endpoint. *)
Definition allowed_flags (xfertype : Z) (is_out : bool) : Z :=
  let allowed := Z.lor URB_NO_TRANSFER_DMA_MAP (Z.lor URB_NO_INTERRUPT
                   (Z.lor URB_DIR_MASK URB_FREE_BUFFER)) in
  if xfertype =? USB_ENDPOINT_XFER_ISOC then Z.lor allowed URB_ISO_ASAP
  else
    let allowed := if (xfertype =? USB_ENDPOINT_XFER_BULK) && is_out
                   then Z.lor allowed URB_ZERO_PACKET else allowed in
    let allowed := if (xfertype =? USB_ENDPOINT_XFER_BULK)
                      || (xfertype =? USB_ENDPOINT_XFER_CONTROL)
                   then Z.lor allowed URB_NO_FSBR else allowed in
    if negb is_out then Z.lor allowed URB_SHORT_NOT_OK else allowed.

Definition masking_bogus_flags (u : positive) : M unit :=
  r ← get_urb u;
  if bool_decide (urb_hcpriv r <> None) || bool_decide (urb_complete r = complete_null)
  then mret tt
  else
    match urb_dev r with
    | None => mret tt
    | Some d =>
        dev ← get_udev d;
        if dev_state dev <? USB_STATE_UNAUTHENTICATED then mret tt
        else
          e ← of_option OutOfBounds
                ((if usb_pipein (urb_pipe r) then dev_ep_in dev else dev_ep_out dev)
                   !! Z.to_nat (usb_pipeendpoint (urb_pipe r)));
          match e with
          | None => mret tt
          | Some epd =>
              let xfertype := ep_xfertype epd in
              is_out ←
                (if xfertype =? USB_ENDPOINT_XFER_CONTROL then
                   match urb_setup_packet r with
                   | None => mret None
                   | Some _ =>
                       setup ← setup_request r;
                       mret (Some ((Z.land (bRequestType setup) USB_DIR_IN =? 0)
                                   || (wLength setup =? 0)))
                   end
                 else mret (Some (ep_dir_out epd)));
              match is_out with
              | None => mret tt
              | Some is_out =>
                  put_urb u (r <| urb_transfer_flags :=
                    Z.land (urb_transfer_flags r) (allowed_flags xfertype is_out) |>)
              end
          end
    end.

(** [kmemdup(data, 8, GFP_KERNEL)] *)
Definition kmemdup (data : list Z) : M (option ptr) :=
  p ← kzalloc (Z.of_nat (length data));
  match p with
  | None => mret None
  | Some p => store_bytes p data;; mret (Some p)
  end.

(** [data], when not NULL, is used as the transfer buffer and nothing more
    is received for the URB. *)
Definition stub_build_urb (pdu : usbip_header) (data : option ptr) : M (option positive) :=
  let cmd := u_cmd_submit (h_u pdu) in
  sd ← get;
  pipe ← get_pipe (ep (h_base pdu)) (direction (h_base pdu));
  priv ← stub_priv_alloc pdu;
  match priv with
  | None => mret None
  | Some p =>
      u ← usb_alloc_urb (if usb_pipeisoc pipe then cs_number_of_packets cmd else 0);
      x ← get_priv p;
      put_priv p (x <| sp_urb := u |>);;
      match u with
      | None => usbip_event_add SDEV_EVENT_ERROR_MALLOC;; mret None
      | Some u =>
          buffer_ok ←
            (if cs_transfer_buffer_length cmd >? 0 then
               buf ← match data with
                     | Some d => mret (Some d)
                     | None => kzalloc (cs_transfer_buffer_length cmd)
                     end;
               modify_urb u (fun r => r <| urb_transfer_buffer := buf |>);;
               mret (bool_decide (buf <> None))
             else mret true);
          if negb buffer_ok then usbip_event_add SDEV_EVENT_ERROR_MALLOC;; mret None
          else
            setup ← kmemdup (cs_setup cmd);
            modify_urb u (fun r => r <| urb_setup_packet := setup |>);;
            match setup with
            | None => usbip_event_add SDEV_EVENT_ERROR_MALLOC;; mret None
            | Some _ =>
                modify_urb u (fun r =>
                  r <| urb_context := Some p |>
                    <| urb_dev := Some (sd_udev sd) |>
                    <| urb_pipe := pipe |>
                    <| urb_complete := stub_complete_fn |>);;
                modify_urb u (fun r => (usbip_pack_pdu pdu r USBIP_CMD_SUBMIT false).2);;
                received ←
                  match data with
                  | Some _ => mret true
                  | None =>
                      ret ← usbip_recv_xbuff u;
                      if ret <? 0 then mret false
                      else
                        ret ← usbip_recv_iso u;
                        mret (negb (ret <? 0))
                  end;
                if negb received then mret None
                else
                  tweak_special_requests u;;
                  masking_bogus_flags u;;
                  mret (Some u)
            end
      end
  end.

Definition stub_submit_urb (u : positive) : M Z :=
  ret ← ext_ret (CSubmitUrb u);
  (if ret =? 0 then mret tt else usbip_event_add SDEV_EVENT_ERROR_SUBMIT);;
  mret ret.

Definition stub_recv_cmd_submit (pdu : usbip_header) : M unit :=
  u ← stub_build_urb pdu None;
  match u with
  | None => mret tt
  | Some u =>
      ret ← usbip_filter_on_rx pdu u;
      if negb (ret =? 0) then mret tt
      else stub_submit_urb u;; mret tt
  end.

(** [struct usbip_header pdu] on the stack, received into. *)
Definition recv_header : M (Z * usbip_header) :=
  p ← alloc_block (replicate (Z.to_nat sizeof_header) 0);
  sock ← gets (fun sd => ud_tcp_socket (sd_ud sd));
  ret ← usbip_recv sock (Some p) sizeof_header;
  mem ← load_bytes p sizeof_header;
  kfree (Some p);;
  mret (ret, header_of_mem mem).

Definition stub_rx_pdu : M unit :=
  '(ret, pdu) ← recv_header;
  if negb (ret =? sizeof_header) then usbip_event_add SDEV_EVENT_ERROR_TCP
  else
    let pdu := usbip_header_correct_endian pdu false in
    valid ← valid_request pdu;
    if negb valid then usbip_event_add SDEV_EVENT_ERROR_TCP
    else if command (h_base pdu) =? USBIP_CMD_UNLINK then
      stub_recv_cmd_unlink pdu;; mret tt
    else if command (h_base pdu) =? USBIP_CMD_SUBMIT then
      stub_recv_cmd_submit pdu
    else usbip_event_add SDEV_EVENT_ERROR_TCP.

(** [fuel] bounds the iterations of a thread that only stops when asked. *)
Fixpoint stub_rx_loop (fuel : nat) : M Z :=
  match fuel with
  | O => crash OutOfFuel
  | S fuel' =>
      stop ← ext_ret CShouldStop;
      if negb (stop =? 0) then mret 0
      else
        happened ← usbip_event_happened;
        if happened : bool then mret 0
        else stub_rx_pdu;; stub_rx_loop fuel'
  end.
End stub_rx.
