(* ===== verification/StubMain.v ===== *)
(** * The host driver's tables and cleanup

    [stub_main.c]: the table of bus ids user space lets the driver grab, and
    the release of every request of a device when its connection goes down. *)
From S2P Require Import Prelude CLib Kernel Event Stub.

Definition MAX_BUSID : nat := 16.
Definition BUSID_SIZE : nat := 32.

Definition STUB_BUSID_OTHER := 0.
Definition STUB_BUSID_REMOV := 1.
Definition STUB_BUSID_ADDED := 2.
Definition STUB_BUSID_ALLOC := 3.

Record bus_id_priv := mkBusid {
  b_name : list Z;
  b_status : Z;
  b_interf_count : Z;
  b_sdev : option positive;
  b_shutdown_busid : bool
}.
#[export] Instance set_b_name : Setter b_name := fun v r => mkBusid v (b_status r) (b_interf_count r) (b_sdev r) (b_shutdown_busid r).
#[global] Arguments set_b_name _ _ /.
#[export] Instance set_b_status : Setter b_status := fun v r => mkBusid (b_name r) v (b_interf_count r) (b_sdev r) (b_shutdown_busid r).
#[global] Arguments set_b_status _ _ /.
#[export] Instance set_b_interf_count : Setter b_interf_count := fun v r => mkBusid (b_name r) (b_status r) v (b_sdev r) (b_shutdown_busid r).
#[global] Arguments set_b_interf_count _ _ /.
#[export] Instance set_b_sdev : Setter b_sdev := fun v r => mkBusid (b_name r) (b_status r) (b_interf_count r) v (b_shutdown_busid r).
#[global] Arguments set_b_sdev _ _ /.
#[export] Instance set_b_shutdown_busid : Setter b_shutdown_busid := fun v r => mkBusid (b_name r) (b_status r) (b_interf_count r) (b_sdev r) v.
#[global] Arguments set_b_shutdown_busid _ _ /.


Definition busid_zero : bus_id_priv :=
  mkBusid (replicate BUSID_SIZE 0) STUB_BUSID_OTHER 0 None false.

(** The host driver: the table, the stub devices by address, and the driver
    data of each USB interface. *)
Record host := mkHost {
  h_busid_table : list bus_id_priv;
  h_sdevs : gmap positive stub_device;
  h_intfdata : gmap Z positive
}.
#[export] Instance set_h_busid_table : Setter h_busid_table := fun v r => mkHost v (h_sdevs r) (h_intfdata r).
#[global] Arguments set_h_busid_table _ _ /.
#[export] Instance set_h_sdevs : Setter h_sdevs := fun v r => mkHost (h_busid_table r) v (h_intfdata r).
#[global] Arguments set_h_sdevs _ _ /.
#[export] Instance set_h_intfdata : Setter h_intfdata := fun v r => mkHost (h_busid_table r) (h_sdevs r) v.
#[global] Arguments set_h_intfdata _ _ /.


(** Run stub code on the device at address [sd]. *)
Definition on_sdev {A} (sd : positive) (m : M stub_device A) : M host A := fun h k =>
  match h_sdevs h !! sd with
  | None => Crash UseAfterFree
  | Some s =>
      match m s k with
      | Ok (a, s', k') => Ok (a, h <| h_sdevs := <[sd := s']> (h_sdevs h) |>, k')
      | Crash b => Crash b
      end
  end.

Section busid.
Context `{Env}.
Notation M := (M host).

Definition init_busid_table : M unit :=
  modify (fun h => h <| h_busid_table := replicate MAX_BUSID busid_zero |>).

Definition name_used (b : bus_id_priv) : bool := negb (hd 0 (b_name b) =? 0).

(** The first used entry from index [i] whose name is [busid], else -1. *)
Fixpoint get_busid_idx_from (i : Z) (table : list bus_id_priv) (busid : list Z) : Z :=
  match table with
  | [] => -1
  | b :: table' =>
      if name_used b && strncmp_eq BUSID_SIZE (b_name b) busid then i
      else get_busid_idx_from (i + 1) table' busid
  end.
Definition get_busid_idx (table : list bus_id_priv) (busid : list Z) : Z :=
  get_busid_idx_from 0 table busid.

Definition get_busid_priv (busid : list Z) : M (option nat) :=
  spin_lock LockBusidTable;;
  table ← gets h_busid_table;
  let idx := get_busid_idx table busid in
  spin_unlock LockBusidTable;;
  mret (if idx >=? 0 then Some (Z.to_nat idx) else None).

(** Take the first free entry of the table. *)
Fixpoint add_to_table (table : list bus_id_priv) (busid : list Z) : option (list bus_id_priv) :=
  match table with
  | [] => None
  | b :: table' =>
      if negb (name_used b) then
        let b := b <| b_name := strncpy BUSID_SIZE busid |> in
        Some ((if negb (b_status b =? STUB_BUSID_ALLOC) && negb (b_status b =? STUB_BUSID_REMOV)
               then b <| b_status := STUB_BUSID_ADDED |> else b) :: table')
      else
        match add_to_table table' busid with
        | Some t => Some (b :: t)
        | None => None
        end
  end.

Definition add_match_busid (busid : list Z) : M Z :=
  spin_lock LockBusidTable;;
  table ← gets h_busid_table;
  if get_busid_idx table busid >=? 0 then
    spin_unlock LockBusidTable;; mret 0
  else
    match add_to_table table busid with
    | Some table =>
        modify (fun h => h <| h_busid_table := table |>);;
        spin_unlock LockBusidTable;; mret 0
    | None => spin_unlock LockBusidTable;; mret (-1)
    end.

(** What deleting does to the entry found. *)
Definition del_entry (b : bus_id_priv) : bus_id_priv :=
  let b := if b_status b =? STUB_BUSID_OTHER
           then b <| b_name := replicate BUSID_SIZE 0 |> else b in
  if negb (b_status b =? STUB_BUSID_OTHER) && negb (b_status b =? STUB_BUSID_ADDED)
  then b <| b_status := STUB_BUSID_REMOV |> else b.

Definition del_match_busid (busid : list Z) : M Z :=
  spin_lock LockBusidTable;;
  table ← gets h_busid_table;
  let idx := get_busid_idx table busid in
  if idx <? 0 then spin_unlock LockBusidTable;; mret (-1)
  else
    modify (fun h => h <| h_busid_table := alter del_entry (Z.to_nat idx) table |>);;
    spin_unlock LockBusidTable;; mret 0.

Definition show_match_busid : M (list Z) :=
  spin_lock LockBusidTable;;
  table ← gets h_busid_table;
  let out := mjoin ((fun b => if name_used b then c_str (b_name b) ++ [chr_space] else [])
                      <$> table) in
  spin_unlock LockBusidTable;;
  mret (out ++ [chr_newline]).

Definition str_add : list Z := [97; 100; 100; 32].
Definition str_del : list Z := [100; 101; 108; 32].

Definition store_match_busid (buf : list Z) (count : Z) : M Z :=
  if count <? 5 then mret (- EINVAL)
  else
    let len := strnlen BUSID_SIZE (drop 4 buf) in
    if negb (len <? BUSID_SIZE)%nat then mret (- EINVAL)
    else
      let busid := strncpy BUSID_SIZE (drop 4 buf) in
      if strncmp_eq 4 buf str_add then
        r ← add_match_busid busid;
        mret (if r <? 0 then - ENOMEM else count)
      else if strncmp_eq 4 buf str_del then
        r ← del_match_busid busid;
        mret (if r <? 0 then - ENODEV else count)
      else mret (- EINVAL).
End busid.

Section cleanup.
Context `{Env}.
Notation M := (M stub_device).

Definition stub_priv_pop_from_listhead (q : stub_device -> list positive)
    : M (option positive) :=
  l ← gets q;
  match l with
  | p :: _ => modify (unlink_priv p);; mret (Some p)
  | [] => mret None
  end.

Definition stub_priv_pop : M (option positive) :=
  spin_lock (LockPriv 0);;
  p ← stub_priv_pop_from_listhead sd_priv_init;
  p ← match p with
      | Some p => mret (Some p)
      | None =>
          p ← stub_priv_pop_from_listhead sd_priv_tx;
          match p with
          | Some p => mret (Some p)
          | None => stub_priv_pop_from_listhead sd_priv_free
          end
      end;
  spin_unlock (LockPriv 0);;
  mret p.

(** [usb_kill_urb] ignores NULL; the release of the URB's memory does not. *)
Definition cleanup_urb (p : positive) : M unit :=
  priv ← get_priv p;
  match sp_urb priv with Some u => ext_do (CKillUrb u) | None => mret tt end;;
  free_priv p;;
  u ← deref (sp_urb priv);
  r ← get_urb u;
  kfree (urb_transfer_buffer r);;
  kfree (urb_setup_packet r);;
  usb_free_urb (Some u).

Fixpoint cleanup_urbs_loop (fuel : nat) : M unit :=
  match fuel with
  | O => crash OutOfFuel
  | S fuel' =>
      p ← stub_priv_pop;
      match p with
      | None => mret tt
      | Some p => cleanup_urb p;; cleanup_urbs_loop fuel'
      end
  end.

Definition stub_device_cleanup_urbs : M unit :=
  sd ← get;
  cleanup_urbs_loop
    (S (length (sd_priv_init sd) + length (sd_priv_tx sd) + length (sd_priv_free sd))).
End cleanup.

(** ** Module load *)
Definition MOD_CACHE_CREATE := 0.
Definition MOD_USB_REGISTER := 1.
Definition MOD_CREATE_FILE := 2.
Definition MOD_USB_DEREGISTER := 3.
Definition MOD_CACHE_DESTROY := 4.
Definition MOD_REMOVE_FILE := 5.

Section host_init.
Context `{Env}.
Notation M := (M host).

Definition usbip_host_init : M Z :=
  init_busid_table;;
  cache ← ext_ret (CModule MOD_CACHE_CREATE);
  if cache =? 0 then mret (- ENOMEM)
  else
    ret ← ext_ret (CModule MOD_USB_REGISTER);
    if ret <? 0 then ext_do (CModule MOD_CACHE_DESTROY);; mret ret
    else
      ret ← ext_ret (CModule MOD_CREATE_FILE);
      if ret <? 0 then
        ext_do (CModule MOD_USB_DEREGISTER);;
        ext_do (CModule MOD_CACHE_DESTROY);; mret ret
      else mret ret.

Definition usbip_host_exit : M unit :=
  ext_do (CModule MOD_REMOVE_FILE);;
  ext_do (CModule MOD_USB_DEREGISTER);;
  ext_do (CModule MOD_CACHE_DESTROY).
End host_init.
