(* ===== verification/StubDev.v ===== *)
(** * The host driver

    [stub_dev.c]: probing and disconnecting USB interfaces, the sysfs files
    that hand a connection to a device and show its status, and the event
    handler's operations. *)
From S2P Require Import Prelude CLib Kernel Wire Event Xfer Filters Stub StubTx StubRx StubMain.

Definition USB_CLASS_HUB := 9.

(** The sysfs files of an interface. *)
Definition F_STATUS := 0.
Definition F_SOCKFD := 1.
Definition F_DEBUG := 2.

Definition SDEV_RESET := 0.

(** [struct usb_interface]: the device it belongs to and its bus id. *)
Record usb_interface := mkIntf {
  if_id : Z;
  if_udev : positive;
  if_busid : list Z
}.
#[export] Instance set_if_id : Setter if_id := fun v r => mkIntf v (if_udev r) (if_busid r).
#[global] Arguments set_if_id _ _ /.
#[export] Instance set_if_udev : Setter if_udev := fun v r => mkIntf (if_id r) v (if_busid r).
#[global] Arguments set_if_udev _ _ /.
#[export] Instance set_if_busid : Setter if_busid := fun v r => mkIntf (if_id r) (if_udev r) v.
#[global] Arguments set_if_busid _ _ /.


Section files.
Context `{Env} {St : Type}.

Definition stub_add_files : M St Z :=
  err ← ext_ret (CCreateFile F_STATUS);
  if negb (err =? 0) then mret err
  else
    err ← ext_ret (CCreateFile F_SOCKFD);
    if negb (err =? 0) then ext_do (CRemoveFile F_STATUS);; mret err
    else
      err ← ext_ret (CCreateFile F_DEBUG);
      if negb (err =? 0) then
        ext_do (CRemoveFile F_SOCKFD);; ext_do (CRemoveFile F_STATUS);; mret err
      else mret 0.

Definition stub_remove_files : M St unit :=
  ext_do (CRemoveFile F_STATUS);;
  ext_do (CRemoveFile F_SOCKFD);;
  ext_do (CRemoveFile F_DEBUG).
End files.

Section sdev.
Context `{Env}.
Notation M := (M stub_device).

Definition set_status (st : usbip_status) : M unit :=
  modify_ud (fun ud => ud <| ud_status := st |>).

Definition stub_shutdown_connection : M unit :=
  ud ← gets sd_ud;
  match ud_tcp_socket ud with Some s => ext_do (CSockShutdown s) | None => mret tt end;;
  (if bool_decide (ud_tcp_rx ud = NoThread) then mret tt
   else kthread_stop T_RX (ud_tcp_rx ud);;
        modify_ud (fun ud => ud <| ud_tcp_rx := NoThread |>));;
  (if bool_decide (ud_tcp_tx ud = NoThread) then mret tt
   else kthread_stop T_TX (ud_tcp_tx ud);;
        modify_ud (fun ud => ud <| ud_tcp_tx := NoThread |>));;
  match ud_tcp_socket ud with
  | Some s => ext_do (CFput s);; modify_ud (fun ud => ud <| ud_tcp_socket := None |>)
  | None => mret tt
  end;;
  stub_device_cleanup_urbs;;
  spin_lock LOCK_PRIV;;
  modify (fun sd => sd <| sd_unlink_tx := [] |> <| sd_unlink_free := [] |>);;
  spin_unlock LOCK_PRIV.

Definition stub_device_reset : M unit :=
  ret ← ext_ret CLockForReset;
  if ret <? 0 then
    spin_lock (LockUd ud_owner);;
    set_status SDEV_ST_ERROR;;
    spin_unlock (LockUd ud_owner)
  else
    ret ← ext_ret CResetDevice;
    ext_do CUnlockDevice;;
    spin_lock (LockUd ud_owner);;
    (if negb (ret =? 0) then set_status SDEV_ST_ERROR else set_status SDEV_ST_AVAILABLE);;
    spin_unlock (LockUd ud_owner).

Definition stub_device_unusable : M unit :=
  spin_lock (LockUd ud_owner);;
  set_status SDEV_ST_ERROR;;
  spin_unlock (LockUd ud_owner).

Definition stub_eh_ops : eh_ops stub_device :=
  mkEhOps stub_shutdown_connection stub_device_reset stub_device_unusable.

(** Reading [usbip_status]; [sdev] is known not to be NULL. *)
Definition show_status_sdev : M (list Z) :=
  spin_lock (LockUd ud_owner);;
  status ← gets (fun sd => status_num (ud_status (sd_ud sd)));
  spin_unlock (LockUd ud_owner);;
  mret (print_d status ++ [chr_newline]).

Definition store_sockfd_sdev (sockfd : Z) (count : Z) : M Z :=
  if negb (sockfd =? -1) then
    spin_lock (LockUd ud_owner);;
    status ← gets (fun sd => ud_status (sd_ud sd));
    if bool_decide (status <> SDEV_ST_AVAILABLE) then
      spin_unlock (LockUd ud_owner);; mret (- EINVAL)
    else
      socket ← sockfd_to_socket sockfd;
      match socket with
      | None => spin_unlock (LockUd ud_owner);; mret (- EINVAL)
      | Some s =>
          modify_ud (fun ud => ud <| ud_tcp_socket := Some s |>);;
          spin_unlock (LockUd ud_owner);;
          rx ← kthread_run T_RX;
          modify_ud (fun ud => ud <| ud_tcp_rx := rx |>);;
          tx ← kthread_run T_TX;
          modify_ud (fun ud => ud <| ud_tcp_tx := tx |>);;
          spin_lock (LockUd ud_owner);;
          set_status SDEV_ST_USED;;
          spin_unlock (LockUd ud_owner);;
          mret count
      end
  else
    spin_lock (LockUd ud_owner);;
    status ← gets (fun sd => ud_status (sd_ud sd));
    if bool_decide (status <> SDEV_ST_USED) then
      spin_unlock (LockUd ud_owner);; mret (- EINVAL)
    else
      spin_unlock (LockUd ud_owner);;
      usbip_event_add SDEV_EVENT_DOWN;;
      mret count.
End sdev.

Section host.
Context `{Env} `{Arch} `{UsbPipes} `{FilterDrivers stub_device}.
Notation M := (M host).

Definition get_intfdata (intf : Z) : M (option positive) :=
  gets (fun h => h_intfdata h !! intf).
Definition usb_set_intfdata (intf : Z) (sdev : option positive) : M unit :=
  modify (fun h => h <| h_intfdata := partial_alter (fun _ => sdev) intf (h_intfdata h) |>).

Definition get_busid (i : nat) : M bus_id_priv :=
  t ← gets h_busid_table; of_option OutOfBounds (t !! i).
Definition modify_busid (i : nat) (f : bus_id_priv -> bus_id_priv) : M unit :=
  modify (fun h => h <| h_busid_table := alter f i (h_busid_table h) |>).

Definition show_status (intf : Z) : M (Z + list Z) :=
  sdev ← get_intfdata intf;
  match sdev with
  | None => mret (inl (- ENODEV))
  | Some sd => out ← on_sdev sd show_status_sdev; mret (inr out)
  end.

Definition store_sockfd (intf : Z) (buf : list Z) (count : Z) : M Z :=
  sdev ← get_intfdata intf;
  match sdev with
  | None => mret (- ENODEV)
  | Some sd =>
      let sockfd := match scan_d buf with Some (v, _) => v | None => 0 end in
      on_sdev sd (store_sockfd_sdev sockfd count)
  end.

(** The new device, or NULL.  A failure to start the event thread is ignored. *)
Definition stub_device_alloc (intf : usb_interface) : M (option positive) :=
  udevs ← kgets k_udevs;
  dev ← of_option UseAfterFree (udevs !! if_udev intf);
  r ← ext_ret (CMalloc 400);
  if r =? 0 then mret None
  else
    a ← kgets k_next;
    let filters := Pos.succ a in
    kmodify (fun k => k <| k_next := Pos.succ (Pos.succ a) |>);;
    ext_do CGetIntf;;
    ext_do (CGetDev (if_udev intf));;
    let sd := mkStubDevice (if_udev intf)
                (mkUd USBIP_STUB SDEV_ST_AVAILABLE None NoThread NoThread 0 NoThread
                   filters ∅)
                (Z.lor (Z.shiftl (dev_busnum dev) 16) (dev_devnum dev))
                ∅ [] [] [] [] [] in
    modify (fun h => h <| h_sdevs := <[a := sd]> (h_sdevs h) |>);;
    INIT_LIST_HEAD filters;;
    on_sdev a usbip_start_eh;;
    mret (Some a).

Definition stub_device_free (sd : positive) : M unit :=
  sds ← gets h_sdevs;
  match sds !! sd with
  | None => crash BadFree
  | Some s =>
      kmodify (fun k => k <| k_nodes := delete (ud_filters (sd_ud s)) (k_nodes k) |>);;
      modify (fun h => h <| h_sdevs := delete sd (h_sdevs h) |>)
  end.

Definition stub_probe (intf : usb_interface) : M Z :=
  udevs ← kgets k_udevs;
  udev ← of_option UseAfterFree (udevs !! if_udev intf);
  idx ← get_busid_priv (if_busid intf);
  match idx with
  | None => mret (- ENODEV)
  | Some i =>
      busid_priv ← get_busid i;
      if (b_status busid_priv =? STUB_BUSID_REMOV)
         || (b_status busid_priv =? STUB_BUSID_OTHER) then mret (- ENODEV)
      else if dev_bDeviceClass udev =? USB_CLASS_HUB then mret (- ENODEV)
      else if dev_on_vhci udev then mret (- ENODEV)
      else if b_status busid_priv =? STUB_BUSID_ALLOC then
        match b_sdev busid_priv with
        | None => mret (- ENODEV)
        | Some sdev =>
            modify_busid i (fun b => b <| b_interf_count := b_interf_count b + 1 |>);;
            usb_set_intfdata (if_id intf) (Some sdev);;
            err ← stub_add_files;
            if negb (err =? 0) then
              usb_set_intfdata (if_id intf) None;;
              modify_busid i (fun b => b <| b_interf_count := b_interf_count b - 1 |>);;
              mret err
            else ext_do CGetIntf;; mret 0
        end
      else
        sdev ← stub_device_alloc intf;
        match sdev with
        | None => mret (- ENOMEM)
        | Some sdev =>
            modify_busid i (fun b => b <| b_interf_count := 0 |>
                                      <| b_shutdown_busid := false |>);;
            usb_set_intfdata (if_id intf) (Some sdev);;
            modify_busid i (fun b => b <| b_interf_count := b_interf_count b + 1 |>
                                      <| b_sdev := Some sdev |>);;
            err ← stub_add_files;
            if negb (err =? 0) then
              usb_set_intfdata (if_id intf) None;;
              ext_do CPutIntf;;
              ext_do (CPutDev (if_udev intf));;
              on_sdev sdev (t ← gets (fun sd => ud_eh (sd_ud sd)); kthread_stop T_EH t);;
              modify_busid i (fun b => b <| b_interf_count := 0 |> <| b_sdev := None |>);;
              stub_device_free sdev;;
              mret err
            else
              modify_busid i (fun b => b <| b_status := STUB_BUSID_ALLOC |>);;
              on_sdev sdev (usbip_filter_probe (if_id intf));;
              mret 0
        end
  end.

(** Between raising the event and stopping the event thread, the scheduler
    may or may not let that thread handle it. *)
Definition schedule_eh (sd : positive) : M unit :=
  r ← ext_ret (CSchedule T_EH);
  if r =? 0 then mret tt
  else on_sdev sd (event_handler 2 stub_eh_ops);; mret tt.

Definition shutdown_busid (in_eh : bool) (i : nat) : M unit :=
  b ← get_busid i;
  match b_sdev b with
  | Some sd =>
      if b_shutdown_busid b then mret tt
      else
        modify_busid i (fun b => b <| b_shutdown_busid := true |>);;
        on_sdev sd (usbip_event_add SDEV_EVENT_REMOVED);;
        schedule_eh sd;;
        on_sdev sd (usbip_stop_eh in_eh)
  | None => mret tt
  end.

(** [in_eh]: the disconnect runs in the event thread, during a reset. *)
Definition stub_disconnect (in_eh : bool) (intf : usb_interface) : M unit :=
  idx ← get_busid_priv (if_busid intf);
  match idx with
  | None => crash BugOn
  | Some i =>
      sdev ← get_intfdata (if_id intf);
      match sdev with
      | None => mret tt
      | Some sdev =>
          on_sdev sdev (usbip_filter_remove None);;
          usb_set_intfdata (if_id intf) None;;
          stub_remove_files;;
          b ← get_busid i;
          _ ← deref (b_sdev b);
          if in_eh then
            modify_busid i (fun b => b <| b_interf_count := b_interf_count b - 1 |>)
          else if b_interf_count b >? 1 then
            modify_busid i (fun b => b <| b_interf_count := b_interf_count b - 1 |>);;
            shutdown_busid in_eh i;;
            ext_do CPutIntf
          else
            modify_busid i (fun b => b <| b_interf_count := 0 |>);;
            shutdown_busid in_eh i;;
            ext_do (CPutDev (if_udev intf));;
            ext_do CPutIntf;;
            modify_busid i (fun b => b <| b_sdev := None |>);;
            stub_device_free sdev;;
            b ← get_busid i;
            if b_status b =? STUB_BUSID_ALLOC then
              modify_busid i (fun b => b <| b_status := STUB_BUSID_ADDED |>)
            else
              modify_busid i (fun b => b <| b_status := STUB_BUSID_OTHER |>);;
              del_match_busid (if_busid intf);; mret tt
      end
  end.

Definition stub_pre_reset : M Z := mret 0.
Definition stub_post_reset : M Z := mret 0.
End host.
