(* ===== verification/Ptp.v ===== *)
(** * The camera filter

    [filter_ptp.c]: a filter for PTP cameras.  While a client previews, the
    filter asks the camera for frames on its own and keeps them in a ring buffer
    from which the client's requests are served; transaction ids are rewritten
    so that neither side notices.  The hooks run on the machine of the stub with
    the filters' own state beside it. *)
From S2P Require Import Prelude Kernel Wire Event Xfer Filters Stub StubTx StubRx.

(** ** Data *)

(** [enum ptp_filter_state] and [enum ptp_parser_state], with their numbers. *)
Inductive ptp_filter_state :=
  | ptpfs_init | ptpfs_bypassed | ptpfs_idle | ptpfs_command | ptpfs_active
  | ptpfs_busy | ptpfs_wait | ptpfs_drop | ptpfs_sleep | ptpfs_sleep_wait.
#[export] Instance ptp_filter_state_eq_dec : EqDecision ptp_filter_state.
Proof. solve_decision. Defined.

Definition ptpfs_num (s : ptp_filter_state) : Z :=
  match s with
  | ptpfs_init => 0 | ptpfs_bypassed => 1 | ptpfs_idle => 2 | ptpfs_command => 3
  | ptpfs_active => 4 | ptpfs_busy => 5 | ptpfs_wait => 6 | ptpfs_drop => 7
  | ptpfs_sleep => 8 | ptpfs_sleep_wait => 9
  end.
Definition at_least (a b : ptp_filter_state) : bool := ptpfs_num b <=? ptpfs_num a.

Inductive ptp_parser_state :=
  | ptpps_none | ptpps_data | ptpps_response | ptpps_command | ptpps_unkonwn
  | ptpps_wait_response.
#[export] Instance ptp_parser_state_eq_dec : EqDecision ptp_parser_state.
Proof. solve_decision. Defined.

(** [PTPUSBBulkHeader] of gphoto2's ptp.h, in the order of the CPU. *)
Record ptp_header := mkPtpHeader {
  ph_length : Z;
  ph_type : Z;
  ph_code : Z;
  ph_trans_id : Z
}.
#[export] Instance set_ph_length : Setter ph_length := fun v r => mkPtpHeader v (ph_type r) (ph_code r) (ph_trans_id r).
#[global] Arguments set_ph_length _ _ /.
#[export] Instance set_ph_type : Setter ph_type := fun v r => mkPtpHeader (ph_length r) v (ph_code r) (ph_trans_id r).
#[global] Arguments set_ph_type _ _ /.
#[export] Instance set_ph_code : Setter ph_code := fun v r => mkPtpHeader (ph_length r) (ph_type r) v (ph_trans_id r).
#[global] Arguments set_ph_code _ _ /.
#[export] Instance set_ph_trans_id : Setter ph_trans_id := fun v r => mkPtpHeader (ph_length r) (ph_type r) (ph_code r) v.
#[global] Arguments set_ph_trans_id _ _ /.


(** The constants of gphoto2's ptp.h the filter uses. *)
Definition PTP_USB_CONTAINER_COMMAND := 1.
Definition PTP_USB_CONTAINER_DATA := 2.
Definition PTP_USB_CONTAINER_RESPONSE := 3.
Definition PTP_OC_OpenSession := 4098.
Definition PTP_OC_CloseSession := 4099.
Definition PTP_OC_CANON_EOS_GetViewFinderData := 37203.
Definition PTP_VENDOR_CANON := 11.
Definition PTP_RC_OK := 8193.

(** [struct ptp_state_machine] *)
Record ptp_state_machine := mkMachine {
  sm_state : ptp_parser_state;
  sm_size : Z;
  sm_ptpdu : ptp_header
}.
#[export] Instance set_sm_state : Setter sm_state := fun v r => mkMachine v (sm_size r) (sm_ptpdu r).
#[global] Arguments set_sm_state _ _ /.
#[export] Instance set_sm_size : Setter sm_size := fun v r => mkMachine (sm_state r) v (sm_ptpdu r).
#[global] Arguments set_sm_size _ _ /.
#[export] Instance set_sm_ptpdu : Setter sm_ptpdu := fun v r => mkMachine (sm_state r) (sm_size r) v.
#[global] Arguments set_sm_ptpdu _ _ /.


(** Which of the filter's four machines a [struct ptp_state_machine *] is. *)
Inductive machine := m_tx | m_rx | m_self | m_send.
#[export] Instance machine_eq_dec : EqDecision machine.
Proof. solve_decision. Defined.

(** [PTPDeviceInfo]: the members the filter fills. *)
Record ptp_device_info := mkInfo {
  StandardVersion : Z;
  VendorExtensionID : Z;
  VendorExtensionVersion : Z
}.
#[export] Instance set_StandardVersion : Setter StandardVersion := fun v r => mkInfo v (VendorExtensionID r) (VendorExtensionVersion r).
#[global] Arguments set_StandardVersion _ _ /.
#[export] Instance set_VendorExtensionID : Setter VendorExtensionID := fun v r => mkInfo (StandardVersion r) v (VendorExtensionVersion r).
#[global] Arguments set_VendorExtensionID _ _ /.
#[export] Instance set_VendorExtensionVersion : Setter VendorExtensionVersion := fun v r => mkInfo (StandardVersion r) (VendorExtensionID r) v.
#[global] Arguments set_VendorExtensionVersion _ _ /.


(** [struct ptp_filter]; the queues hold addresses of [stub_priv]s, and
    [frame_serving_urb] is NULL when [None]. *)
Record ptp_filter := mkPtp {
  pf_state : ptp_filter_state;
  pf_info : ptp_device_info;
  pf_trigger_pdu : usbip_header;
  pf_trigger_ptpdu : option ptr;
  pf_trigger_jiffies : Z;
  pf_frame_count : Z;
  pf_frame_serving : bool;
  pf_in_pipe : Z;
  pf_out_pipe : Z;
  pf_out_pipe_size : Z;
  pf_frame_buffer : option ptr;
  pf_frame_head : Z;
  pf_frame_tail : Z;
  pf_frame_length : Z;
  pf_frame_pdu_end : bool;
  pf_frame_rx_length : Z;
  pf_frame_rx_pdu_end : bool;
  pf_frame_buffer_size : Z;
  pf_frame_rx_tail : Z;
  pf_frame_rx_tail2 : Z;
  pf_client_queue : list positive;
  pf_request_queue : list positive;
  pf_free_list : list positive;
  pf_busy_queue : list positive;
  pf_trans_id : Z;
  pf_rx_trans_id : Z;
  pf_frame_serving_urb : option positive;
  pf_tx : ptp_state_machine;
  pf_rx : ptp_state_machine;
  pf_self : ptp_state_machine;
  pf_send : ptp_state_machine
}.
#[export] Instance set_pf_state : Setter pf_state := fun v r => mkPtp v (pf_info r) (pf_trigger_pdu r) (pf_trigger_ptpdu r) (pf_trigger_jiffies r) (pf_frame_count r) (pf_frame_serving r) (pf_in_pipe r) (pf_out_pipe r) (pf_out_pipe_size r) (pf_frame_buffer r) (pf_frame_head r) (pf_frame_tail r) (pf_frame_length r) (pf_frame_pdu_end r) (pf_frame_rx_length r) (pf_frame_rx_pdu_end r) (pf_frame_buffer_size r) (pf_frame_rx_tail r) (pf_frame_rx_tail2 r) (pf_client_queue r) (pf_request_queue r) (pf_free_list r) (pf_busy_queue r) (pf_trans_id r) (pf_rx_trans_id r) (pf_frame_serving_urb r) (pf_tx r) (pf_rx r) (pf_self r) (pf_send r).
#[global] Arguments set_pf_state _ _ /.
#[export] Instance set_pf_info : Setter pf_info := fun v r => mkPtp (pf_state r) v (pf_trigger_pdu r) (pf_trigger_ptpdu r) (pf_trigger_jiffies r) (pf_frame_count r) (pf_frame_serving r) (pf_in_pipe r) (pf_out_pipe r) (pf_out_pipe_size r) (pf_frame_buffer r) (pf_frame_head r) (pf_frame_tail r) (pf_frame_length r) (pf_frame_pdu_end r) (pf_frame_rx_length r) (pf_frame_rx_pdu_end r) (pf_frame_buffer_size r) (pf_frame_rx_tail r) (pf_frame_rx_tail2 r) (pf_client_queue r) (pf_request_queue r) (pf_free_list r) (pf_busy_queue r) (pf_trans_id r) (pf_rx_trans_id r) (pf_frame_serving_urb r) (pf_tx r) (pf_rx r) (pf_self r) (pf_send r).
#[global] Arguments set_pf_info _ _ /.
#[export] Instance set_pf_trigger_pdu : Setter pf_trigger_pdu := fun v r => mkPtp (pf_state r) (pf_info r) v (pf_trigger_ptpdu r) (pf_trigger_jiffies r) (pf_frame_count r) (pf_frame_serving r) (pf_in_pipe r) (pf_out_pipe r) (pf_out_pipe_size r) (pf_frame_buffer r) (pf_frame_head r) (pf_frame_tail r) (pf_frame_length r) (pf_frame_pdu_end r) (pf_frame_rx_length r) (pf_frame_rx_pdu_end r) (pf_frame_buffer_size r) (pf_frame_rx_tail r) (pf_frame_rx_tail2 r) (pf_client_queue r) (pf_request_queue r) (pf_free_list r) (pf_busy_queue r) (pf_trans_id r) (pf_rx_trans_id r) (pf_frame_serving_urb r) (pf_tx r) (pf_rx r) (pf_self r) (pf_send r).
#[global] Arguments set_pf_trigger_pdu _ _ /.
#[export] Instance set_pf_trigger_ptpdu : Setter pf_trigger_ptpdu := fun v r => mkPtp (pf_state r) (pf_info r) (pf_trigger_pdu r) v (pf_trigger_jiffies r) (pf_frame_count r) (pf_frame_serving r) (pf_in_pipe r) (pf_out_pipe r) (pf_out_pipe_size r) (pf_frame_buffer r) (pf_frame_head r) (pf_frame_tail r) (pf_frame_length r) (pf_frame_pdu_end r) (pf_frame_rx_length r) (pf_frame_rx_pdu_end r) (pf_frame_buffer_size r) (pf_frame_rx_tail r) (pf_frame_rx_tail2 r) (pf_client_queue r) (pf_request_queue r) (pf_free_list r) (pf_busy_queue r) (pf_trans_id r) (pf_rx_trans_id r) (pf_frame_serving_urb r) (pf_tx r) (pf_rx r) (pf_self r) (pf_send r).
#[global] Arguments set_pf_trigger_ptpdu _ _ /.
#[export] Instance set_pf_trigger_jiffies : Setter pf_trigger_jiffies := fun v r => mkPtp (pf_state r) (pf_info r) (pf_trigger_pdu r) (pf_trigger_ptpdu r) v (pf_frame_count r) (pf_frame_serving r) (pf_in_pipe r) (pf_out_pipe r) (pf_out_pipe_size r) (pf_frame_buffer r) (pf_frame_head r) (pf_frame_tail r) (pf_frame_length r) (pf_frame_pdu_end r) (pf_frame_rx_length r) (pf_frame_rx_pdu_end r) (pf_frame_buffer_size r) (pf_frame_rx_tail r) (pf_frame_rx_tail2 r) (pf_client_queue r) (pf_request_queue r) (pf_free_list r) (pf_busy_queue r) (pf_trans_id r) (pf_rx_trans_id r) (pf_frame_serving_urb r) (pf_tx r) (pf_rx r) (pf_self r) (pf_send r).
#[global] Arguments set_pf_trigger_jiffies _ _ /.
#[export] Instance set_pf_frame_count : Setter pf_frame_count := fun v r => mkPtp (pf_state r) (pf_info r) (pf_trigger_pdu r) (pf_trigger_ptpdu r) (pf_trigger_jiffies r) v (pf_frame_serving r) (pf_in_pipe r) (pf_out_pipe r) (pf_out_pipe_size r) (pf_frame_buffer r) (pf_frame_head r) (pf_frame_tail r) (pf_frame_length r) (pf_frame_pdu_end r) (pf_frame_rx_length r) (pf_frame_rx_pdu_end r) (pf_frame_buffer_size r) (pf_frame_rx_tail r) (pf_frame_rx_tail2 r) (pf_client_queue r) (pf_request_queue r) (pf_free_list r) (pf_busy_queue r) (pf_trans_id r) (pf_rx_trans_id r) (pf_frame_serving_urb r) (pf_tx r) (pf_rx r) (pf_self r) (pf_send r).
#[global] Arguments set_pf_frame_count _ _ /.
#[export] Instance set_pf_frame_serving : Setter pf_frame_serving := fun v r => mkPtp (pf_state r) (pf_info r) (pf_trigger_pdu r) (pf_trigger_ptpdu r) (pf_trigger_jiffies r) (pf_frame_count r) v (pf_in_pipe r) (pf_out_pipe r) (pf_out_pipe_size r) (pf_frame_buffer r) (pf_frame_head r) (pf_frame_tail r) (pf_frame_length r) (pf_frame_pdu_end r) (pf_frame_rx_length r) (pf_frame_rx_pdu_end r) (pf_frame_buffer_size r) (pf_frame_rx_tail r) (pf_frame_rx_tail2 r) (pf_client_queue r) (pf_request_queue r) (pf_free_list r) (pf_busy_queue r) (pf_trans_id r) (pf_rx_trans_id r) (pf_frame_serving_urb r) (pf_tx r) (pf_rx r) (pf_self r) (pf_send r).
#[global] Arguments set_pf_frame_serving _ _ /.
#[export] Instance set_pf_in_pipe : Setter pf_in_pipe := fun v r => mkPtp (pf_state r) (pf_info r) (pf_trigger_pdu r) (pf_trigger_ptpdu r) (pf_trigger_jiffies r) (pf_frame_count r) (pf_frame_serving r) v (pf_out_pipe r) (pf_out_pipe_size r) (pf_frame_buffer r) (pf_frame_head r) (pf_frame_tail r) (pf_frame_length r) (pf_frame_pdu_end r) (pf_frame_rx_length r) (pf_frame_rx_pdu_end r) (pf_frame_buffer_size r) (pf_frame_rx_tail r) (pf_frame_rx_tail2 r) (pf_client_queue r) (pf_request_queue r) (pf_free_list r) (pf_busy_queue r) (pf_trans_id r) (pf_rx_trans_id r) (pf_frame_serving_urb r) (pf_tx r) (pf_rx r) (pf_self r) (pf_send r).
#[global] Arguments set_pf_in_pipe _ _ /.
#[export] Instance set_pf_out_pipe : Setter pf_out_pipe := fun v r => mkPtp (pf_state r) (pf_info r) (pf_trigger_pdu r) (pf_trigger_ptpdu r) (pf_trigger_jiffies r) (pf_frame_count r) (pf_frame_serving r) (pf_in_pipe r) v (pf_out_pipe_size r) (pf_frame_buffer r) (pf_frame_head r) (pf_frame_tail r) (pf_frame_length r) (pf_frame_pdu_end r) (pf_frame_rx_length r) (pf_frame_rx_pdu_end r) (pf_frame_buffer_size r) (pf_frame_rx_tail r) (pf_frame_rx_tail2 r) (pf_client_queue r) (pf_request_queue r) (pf_free_list r) (pf_busy_queue r) (pf_trans_id r) (pf_rx_trans_id r) (pf_frame_serving_urb r) (pf_tx r) (pf_rx r) (pf_self r) (pf_send r).
#[global] Arguments set_pf_out_pipe _ _ /.
#[export] Instance set_pf_out_pipe_size : Setter pf_out_pipe_size := fun v r => mkPtp (pf_state r) (pf_info r) (pf_trigger_pdu r) (pf_trigger_ptpdu r) (pf_trigger_jiffies r) (pf_frame_count r) (pf_frame_serving r) (pf_in_pipe r) (pf_out_pipe r) v (pf_frame_buffer r) (pf_frame_head r) (pf_frame_tail r) (pf_frame_length r) (pf_frame_pdu_end r) (pf_frame_rx_length r) (pf_frame_rx_pdu_end r) (pf_frame_buffer_size r) (pf_frame_rx_tail r) (pf_frame_rx_tail2 r) (pf_client_queue r) (pf_request_queue r) (pf_free_list r) (pf_busy_queue r) (pf_trans_id r) (pf_rx_trans_id r) (pf_frame_serving_urb r) (pf_tx r) (pf_rx r) (pf_self r) (pf_send r).
#[global] Arguments set_pf_out_pipe_size _ _ /.
#[export] Instance set_pf_frame_buffer : Setter pf_frame_buffer := fun v r => mkPtp (pf_state r) (pf_info r) (pf_trigger_pdu r) (pf_trigger_ptpdu r) (pf_trigger_jiffies r) (pf_frame_count r) (pf_frame_serving r) (pf_in_pipe r) (pf_out_pipe r) (pf_out_pipe_size r) v (pf_frame_head r) (pf_frame_tail r) (pf_frame_length r) (pf_frame_pdu_end r) (pf_frame_rx_length r) (pf_frame_rx_pdu_end r) (pf_frame_buffer_size r) (pf_frame_rx_tail r) (pf_frame_rx_tail2 r) (pf_client_queue r) (pf_request_queue r) (pf_free_list r) (pf_busy_queue r) (pf_trans_id r) (pf_rx_trans_id r) (pf_frame_serving_urb r) (pf_tx r) (pf_rx r) (pf_self r) (pf_send r).
#[global] Arguments set_pf_frame_buffer _ _ /.
#[export] Instance set_pf_frame_head : Setter pf_frame_head := fun v r => mkPtp (pf_state r) (pf_info r) (pf_trigger_pdu r) (pf_trigger_ptpdu r) (pf_trigger_jiffies r) (pf_frame_count r) (pf_frame_serving r) (pf_in_pipe r) (pf_out_pipe r) (pf_out_pipe_size r) (pf_frame_buffer r) v (pf_frame_tail r) (pf_frame_length r) (pf_frame_pdu_end r) (pf_frame_rx_length r) (pf_frame_rx_pdu_end r) (pf_frame_buffer_size r) (pf_frame_rx_tail r) (pf_frame_rx_tail2 r) (pf_client_queue r) (pf_request_queue r) (pf_free_list r) (pf_busy_queue r) (pf_trans_id r) (pf_rx_trans_id r) (pf_frame_serving_urb r) (pf_tx r) (pf_rx r) (pf_self r) (pf_send r).
#[global] Arguments set_pf_frame_head _ _ /.
#[export] Instance set_pf_frame_tail : Setter pf_frame_tail := fun v r => mkPtp (pf_state r) (pf_info r) (pf_trigger_pdu r) (pf_trigger_ptpdu r) (pf_trigger_jiffies r) (pf_frame_count r) (pf_frame_serving r) (pf_in_pipe r) (pf_out_pipe r) (pf_out_pipe_size r) (pf_frame_buffer r) (pf_frame_head r) v (pf_frame_length r) (pf_frame_pdu_end r) (pf_frame_rx_length r) (pf_frame_rx_pdu_end r) (pf_frame_buffer_size r) (pf_frame_rx_tail r) (pf_frame_rx_tail2 r) (pf_client_queue r) (pf_request_queue r) (pf_free_list r) (pf_busy_queue r) (pf_trans_id r) (pf_rx_trans_id r) (pf_frame_serving_urb r) (pf_tx r) (pf_rx r) (pf_self r) (pf_send r).
#[global] Arguments set_pf_frame_tail _ _ /.
#[export] Instance set_pf_frame_length : Setter pf_frame_length := fun v r => mkPtp (pf_state r) (pf_info r) (pf_trigger_pdu r) (pf_trigger_ptpdu r) (pf_trigger_jiffies r) (pf_frame_count r) (pf_frame_serving r) (pf_in_pipe r) (pf_out_pipe r) (pf_out_pipe_size r) (pf_frame_buffer r) (pf_frame_head r) (pf_frame_tail r) v (pf_frame_pdu_end r) (pf_frame_rx_length r) (pf_frame_rx_pdu_end r) (pf_frame_buffer_size r) (pf_frame_rx_tail r) (pf_frame_rx_tail2 r) (pf_client_queue r) (pf_request_queue r) (pf_free_list r) (pf_busy_queue r) (pf_trans_id r) (pf_rx_trans_id r) (pf_frame_serving_urb r) (pf_tx r) (pf_rx r) (pf_self r) (pf_send r).
#[global] Arguments set_pf_frame_length _ _ /.
#[export] Instance set_pf_frame_pdu_end : Setter pf_frame_pdu_end := fun v r => mkPtp (pf_state r) (pf_info r) (pf_trigger_pdu r) (pf_trigger_ptpdu r) (pf_trigger_jiffies r) (pf_frame_count r) (pf_frame_serving r) (pf_in_pipe r) (pf_out_pipe r) (pf_out_pipe_size r) (pf_frame_buffer r) (pf_frame_head r) (pf_frame_tail r) (pf_frame_length r) v (pf_frame_rx_length r) (pf_frame_rx_pdu_end r) (pf_frame_buffer_size r) (pf_frame_rx_tail r) (pf_frame_rx_tail2 r) (pf_client_queue r) (pf_request_queue r) (pf_free_list r) (pf_busy_queue r) (pf_trans_id r) (pf_rx_trans_id r) (pf_frame_serving_urb r) (pf_tx r) (pf_rx r) (pf_self r) (pf_send r).
#[global] Arguments set_pf_frame_pdu_end _ _ /.
#[export] Instance set_pf_frame_rx_length : Setter pf_frame_rx_length := fun v r => mkPtp (pf_state r) (pf_info r) (pf_trigger_pdu r) (pf_trigger_ptpdu r) (pf_trigger_jiffies r) (pf_frame_count r) (pf_frame_serving r) (pf_in_pipe r) (pf_out_pipe r) (pf_out_pipe_size r) (pf_frame_buffer r) (pf_frame_head r) (pf_frame_tail r) (pf_frame_length r) (pf_frame_pdu_end r) v (pf_frame_rx_pdu_end r) (pf_frame_buffer_size r) (pf_frame_rx_tail r) (pf_frame_rx_tail2 r) (pf_client_queue r) (pf_request_queue r) (pf_free_list r) (pf_busy_queue r) (pf_trans_id r) (pf_rx_trans_id r) (pf_frame_serving_urb r) (pf_tx r) (pf_rx r) (pf_self r) (pf_send r).
#[global] Arguments set_pf_frame_rx_length _ _ /.
#[export] Instance set_pf_frame_rx_pdu_end : Setter pf_frame_rx_pdu_end := fun v r => mkPtp (pf_state r) (pf_info r) (pf_trigger_pdu r) (pf_trigger_ptpdu r) (pf_trigger_jiffies r) (pf_frame_count r) (pf_frame_serving r) (pf_in_pipe r) (pf_out_pipe r) (pf_out_pipe_size r) (pf_frame_buffer r) (pf_frame_head r) (pf_frame_tail r) (pf_frame_length r) (pf_frame_pdu_end r) (pf_frame_rx_length r) v (pf_frame_buffer_size r) (pf_frame_rx_tail r) (pf_frame_rx_tail2 r) (pf_client_queue r) (pf_request_queue r) (pf_free_list r) (pf_busy_queue r) (pf_trans_id r) (pf_rx_trans_id r) (pf_frame_serving_urb r) (pf_tx r) (pf_rx r) (pf_self r) (pf_send r).
#[global] Arguments set_pf_frame_rx_pdu_end _ _ /.
#[export] Instance set_pf_frame_buffer_size : Setter pf_frame_buffer_size := fun v r => mkPtp (pf_state r) (pf_info r) (pf_trigger_pdu r) (pf_trigger_ptpdu r) (pf_trigger_jiffies r) (pf_frame_count r) (pf_frame_serving r) (pf_in_pipe r) (pf_out_pipe r) (pf_out_pipe_size r) (pf_frame_buffer r) (pf_frame_head r) (pf_frame_tail r) (pf_frame_length r) (pf_frame_pdu_end r) (pf_frame_rx_length r) (pf_frame_rx_pdu_end r) v (pf_frame_rx_tail r) (pf_frame_rx_tail2 r) (pf_client_queue r) (pf_request_queue r) (pf_free_list r) (pf_busy_queue r) (pf_trans_id r) (pf_rx_trans_id r) (pf_frame_serving_urb r) (pf_tx r) (pf_rx r) (pf_self r) (pf_send r).
#[global] Arguments set_pf_frame_buffer_size _ _ /.
#[export] Instance set_pf_frame_rx_tail : Setter pf_frame_rx_tail := fun v r => mkPtp (pf_state r) (pf_info r) (pf_trigger_pdu r) (pf_trigger_ptpdu r) (pf_trigger_jiffies r) (pf_frame_count r) (pf_frame_serving r) (pf_in_pipe r) (pf_out_pipe r) (pf_out_pipe_size r) (pf_frame_buffer r) (pf_frame_head r) (pf_frame_tail r) (pf_frame_length r) (pf_frame_pdu_end r) (pf_frame_rx_length r) (pf_frame_rx_pdu_end r) (pf_frame_buffer_size r) v (pf_frame_rx_tail2 r) (pf_client_queue r) (pf_request_queue r) (pf_free_list r) (pf_busy_queue r) (pf_trans_id r) (pf_rx_trans_id r) (pf_frame_serving_urb r) (pf_tx r) (pf_rx r) (pf_self r) (pf_send r).
#[global] Arguments set_pf_frame_rx_tail _ _ /.
#[export] Instance set_pf_frame_rx_tail2 : Setter pf_frame_rx_tail2 := fun v r => mkPtp (pf_state r) (pf_info r) (pf_trigger_pdu r) (pf_trigger_ptpdu r) (pf_trigger_jiffies r) (pf_frame_count r) (pf_frame_serving r) (pf_in_pipe r) (pf_out_pipe r) (pf_out_pipe_size r) (pf_frame_buffer r) (pf_frame_head r) (pf_frame_tail r) (pf_frame_length r) (pf_frame_pdu_end r) (pf_frame_rx_length r) (pf_frame_rx_pdu_end r) (pf_frame_buffer_size r) (pf_frame_rx_tail r) v (pf_client_queue r) (pf_request_queue r) (pf_free_list r) (pf_busy_queue r) (pf_trans_id r) (pf_rx_trans_id r) (pf_frame_serving_urb r) (pf_tx r) (pf_rx r) (pf_self r) (pf_send r).
#[global] Arguments set_pf_frame_rx_tail2 _ _ /.
#[export] Instance set_pf_client_queue : Setter pf_client_queue := fun v r => mkPtp (pf_state r) (pf_info r) (pf_trigger_pdu r) (pf_trigger_ptpdu r) (pf_trigger_jiffies r) (pf_frame_count r) (pf_frame_serving r) (pf_in_pipe r) (pf_out_pipe r) (pf_out_pipe_size r) (pf_frame_buffer r) (pf_frame_head r) (pf_frame_tail r) (pf_frame_length r) (pf_frame_pdu_end r) (pf_frame_rx_length r) (pf_frame_rx_pdu_end r) (pf_frame_buffer_size r) (pf_frame_rx_tail r) (pf_frame_rx_tail2 r) v (pf_request_queue r) (pf_free_list r) (pf_busy_queue r) (pf_trans_id r) (pf_rx_trans_id r) (pf_frame_serving_urb r) (pf_tx r) (pf_rx r) (pf_self r) (pf_send r).
#[global] Arguments set_pf_client_queue _ _ /.
#[export] Instance set_pf_request_queue : Setter pf_request_queue := fun v r => mkPtp (pf_state r) (pf_info r) (pf_trigger_pdu r) (pf_trigger_ptpdu r) (pf_trigger_jiffies r) (pf_frame_count r) (pf_frame_serving r) (pf_in_pipe r) (pf_out_pipe r) (pf_out_pipe_size r) (pf_frame_buffer r) (pf_frame_head r) (pf_frame_tail r) (pf_frame_length r) (pf_frame_pdu_end r) (pf_frame_rx_length r) (pf_frame_rx_pdu_end r) (pf_frame_buffer_size r) (pf_frame_rx_tail r) (pf_frame_rx_tail2 r) (pf_client_queue r) v (pf_free_list r) (pf_busy_queue r) (pf_trans_id r) (pf_rx_trans_id r) (pf_frame_serving_urb r) (pf_tx r) (pf_rx r) (pf_self r) (pf_send r).
#[global] Arguments set_pf_request_queue _ _ /.
#[export] Instance set_pf_free_list : Setter pf_free_list := fun v r => mkPtp (pf_state r) (pf_info r) (pf_trigger_pdu r) (pf_trigger_ptpdu r) (pf_trigger_jiffies r) (pf_frame_count r) (pf_frame_serving r) (pf_in_pipe r) (pf_out_pipe r) (pf_out_pipe_size r) (pf_frame_buffer r) (pf_frame_head r) (pf_frame_tail r) (pf_frame_length r) (pf_frame_pdu_end r) (pf_frame_rx_length r) (pf_frame_rx_pdu_end r) (pf_frame_buffer_size r) (pf_frame_rx_tail r) (pf_frame_rx_tail2 r) (pf_client_queue r) (pf_request_queue r) v (pf_busy_queue r) (pf_trans_id r) (pf_rx_trans_id r) (pf_frame_serving_urb r) (pf_tx r) (pf_rx r) (pf_self r) (pf_send r).
#[global] Arguments set_pf_free_list _ _ /.
#[export] Instance set_pf_busy_queue : Setter pf_busy_queue := fun v r => mkPtp (pf_state r) (pf_info r) (pf_trigger_pdu r) (pf_trigger_ptpdu r) (pf_trigger_jiffies r) (pf_frame_count r) (pf_frame_serving r) (pf_in_pipe r) (pf_out_pipe r) (pf_out_pipe_size r) (pf_frame_buffer r) (pf_frame_head r) (pf_frame_tail r) (pf_frame_length r) (pf_frame_pdu_end r) (pf_frame_rx_length r) (pf_frame_rx_pdu_end r) (pf_frame_buffer_size r) (pf_frame_rx_tail r) (pf_frame_rx_tail2 r) (pf_client_queue r) (pf_request_queue r) (pf_free_list r) v (pf_trans_id r) (pf_rx_trans_id r) (pf_frame_serving_urb r) (pf_tx r) (pf_rx r) (pf_self r) (pf_send r).
#[global] Arguments set_pf_busy_queue _ _ /.
#[export] Instance set_pf_trans_id : Setter pf_trans_id := fun v r => mkPtp (pf_state r) (pf_info r) (pf_trigger_pdu r) (pf_trigger_ptpdu r) (pf_trigger_jiffies r) (pf_frame_count r) (pf_frame_serving r) (pf_in_pipe r) (pf_out_pipe r) (pf_out_pipe_size r) (pf_frame_buffer r) (pf_frame_head r) (pf_frame_tail r) (pf_frame_length r) (pf_frame_pdu_end r) (pf_frame_rx_length r) (pf_frame_rx_pdu_end r) (pf_frame_buffer_size r) (pf_frame_rx_tail r) (pf_frame_rx_tail2 r) (pf_client_queue r) (pf_request_queue r) (pf_free_list r) (pf_busy_queue r) v (pf_rx_trans_id r) (pf_frame_serving_urb r) (pf_tx r) (pf_rx r) (pf_self r) (pf_send r).
#[global] Arguments set_pf_trans_id _ _ /.
#[export] Instance set_pf_rx_trans_id : Setter pf_rx_trans_id := fun v r => mkPtp (pf_state r) (pf_info r) (pf_trigger_pdu r) (pf_trigger_ptpdu r) (pf_trigger_jiffies r) (pf_frame_count r) (pf_frame_serving r) (pf_in_pipe r) (pf_out_pipe r) (pf_out_pipe_size r) (pf_frame_buffer r) (pf_frame_head r) (pf_frame_tail r) (pf_frame_length r) (pf_frame_pdu_end r) (pf_frame_rx_length r) (pf_frame_rx_pdu_end r) (pf_frame_buffer_size r) (pf_frame_rx_tail r) (pf_frame_rx_tail2 r) (pf_client_queue r) (pf_request_queue r) (pf_free_list r) (pf_busy_queue r) (pf_trans_id r) v (pf_frame_serving_urb r) (pf_tx r) (pf_rx r) (pf_self r) (pf_send r).
#[global] Arguments set_pf_rx_trans_id _ _ /.
#[export] Instance set_pf_frame_serving_urb : Setter pf_frame_serving_urb := fun v r => mkPtp (pf_state r) (pf_info r) (pf_trigger_pdu r) (pf_trigger_ptpdu r) (pf_trigger_jiffies r) (pf_frame_count r) (pf_frame_serving r) (pf_in_pipe r) (pf_out_pipe r) (pf_out_pipe_size r) (pf_frame_buffer r) (pf_frame_head r) (pf_frame_tail r) (pf_frame_length r) (pf_frame_pdu_end r) (pf_frame_rx_length r) (pf_frame_rx_pdu_end r) (pf_frame_buffer_size r) (pf_frame_rx_tail r) (pf_frame_rx_tail2 r) (pf_client_queue r) (pf_request_queue r) (pf_free_list r) (pf_busy_queue r) (pf_trans_id r) (pf_rx_trans_id r) v (pf_tx r) (pf_rx r) (pf_self r) (pf_send r).
#[global] Arguments set_pf_frame_serving_urb _ _ /.
#[export] Instance set_pf_tx : Setter pf_tx := fun v r => mkPtp (pf_state r) (pf_info r) (pf_trigger_pdu r) (pf_trigger_ptpdu r) (pf_trigger_jiffies r) (pf_frame_count r) (pf_frame_serving r) (pf_in_pipe r) (pf_out_pipe r) (pf_out_pipe_size r) (pf_frame_buffer r) (pf_frame_head r) (pf_frame_tail r) (pf_frame_length r) (pf_frame_pdu_end r) (pf_frame_rx_length r) (pf_frame_rx_pdu_end r) (pf_frame_buffer_size r) (pf_frame_rx_tail r) (pf_frame_rx_tail2 r) (pf_client_queue r) (pf_request_queue r) (pf_free_list r) (pf_busy_queue r) (pf_trans_id r) (pf_rx_trans_id r) (pf_frame_serving_urb r) v (pf_rx r) (pf_self r) (pf_send r).
#[global] Arguments set_pf_tx _ _ /.
#[export] Instance set_pf_rx : Setter pf_rx := fun v r => mkPtp (pf_state r) (pf_info r) (pf_trigger_pdu r) (pf_trigger_ptpdu r) (pf_trigger_jiffies r) (pf_frame_count r) (pf_frame_serving r) (pf_in_pipe r) (pf_out_pipe r) (pf_out_pipe_size r) (pf_frame_buffer r) (pf_frame_head r) (pf_frame_tail r) (pf_frame_length r) (pf_frame_pdu_end r) (pf_frame_rx_length r) (pf_frame_rx_pdu_end r) (pf_frame_buffer_size r) (pf_frame_rx_tail r) (pf_frame_rx_tail2 r) (pf_client_queue r) (pf_request_queue r) (pf_free_list r) (pf_busy_queue r) (pf_trans_id r) (pf_rx_trans_id r) (pf_frame_serving_urb r) (pf_tx r) v (pf_self r) (pf_send r).
#[global] Arguments set_pf_rx _ _ /.
#[export] Instance set_pf_self : Setter pf_self := fun v r => mkPtp (pf_state r) (pf_info r) (pf_trigger_pdu r) (pf_trigger_ptpdu r) (pf_trigger_jiffies r) (pf_frame_count r) (pf_frame_serving r) (pf_in_pipe r) (pf_out_pipe r) (pf_out_pipe_size r) (pf_frame_buffer r) (pf_frame_head r) (pf_frame_tail r) (pf_frame_length r) (pf_frame_pdu_end r) (pf_frame_rx_length r) (pf_frame_rx_pdu_end r) (pf_frame_buffer_size r) (pf_frame_rx_tail r) (pf_frame_rx_tail2 r) (pf_client_queue r) (pf_request_queue r) (pf_free_list r) (pf_busy_queue r) (pf_trans_id r) (pf_rx_trans_id r) (pf_frame_serving_urb r) (pf_tx r) (pf_rx r) v (pf_send r).
#[global] Arguments set_pf_self _ _ /.
#[export] Instance set_pf_send : Setter pf_send := fun v r => mkPtp (pf_state r) (pf_info r) (pf_trigger_pdu r) (pf_trigger_ptpdu r) (pf_trigger_jiffies r) (pf_frame_count r) (pf_frame_serving r) (pf_in_pipe r) (pf_out_pipe r) (pf_out_pipe_size r) (pf_frame_buffer r) (pf_frame_head r) (pf_frame_tail r) (pf_frame_length r) (pf_frame_pdu_end r) (pf_frame_rx_length r) (pf_frame_rx_pdu_end r) (pf_frame_buffer_size r) (pf_frame_rx_tail r) (pf_frame_rx_tail2 r) (pf_client_queue r) (pf_request_queue r) (pf_free_list r) (pf_busy_queue r) (pf_trans_id r) (pf_rx_trans_id r) (pf_frame_serving_urb r) (pf_tx r) (pf_rx r) (pf_self r) v.
#[global] Arguments set_pf_send _ _ /.


Definition get_machine (m : machine) (f : ptp_filter) : ptp_state_machine :=
  match m with m_tx => pf_tx f | m_rx => pf_rx f | m_self => pf_self f | m_send => pf_send f end.
Definition put_machine (m : machine) (x : ptp_state_machine) (f : ptp_filter) : ptp_filter :=
  match m with
  | m_tx => f <| pf_tx := x |> | m_rx => f <| pf_rx := x |>
  | m_self => f <| pf_self := x |> | m_send => f <| pf_send := x |>
  end.

(** What [kzalloc] and the initialisation in [ptp_probe] leave. *)
Definition machine_zero := mkMachine ptpps_none 0 (mkPtpHeader 0 0 0 0).
Definition ptp_filter_zero : ptp_filter :=
  mkPtp ptpfs_init (mkInfo 0 0 0) header_zero None 0 0 false 0 0 0 None 0 0 0 false 0 false 0 0 0
    [] [] [] [] 0 0 None machine_zero machine_zero machine_zero machine_zero.

(** The stub device and the filters attached to it, by address. *)
Record ptp_sys := mkPtpSys {
  ps_sdev : stub_device;
  ps_filters : gmap positive ptp_filter
}.
#[export] Instance set_ps_sdev : Setter ps_sdev := fun v r => mkPtpSys v (ps_filters r).
#[global] Arguments set_ps_sdev _ _ /.
#[export] Instance set_ps_filters : Setter ps_filters := fun v r => mkPtpSys (ps_sdev r) v.
#[global] Arguments set_ps_filters _ _ /.


#[export] Program Instance ptp_has_ud : HasUd ptp_sys := {|
  the_ud s := sd_ud (ps_sdev s);
  put_ud u s := s <| ps_sdev := put_ud u (ps_sdev s) |>;
  ud_owner := 0
|}.
Solve All Obligations with by intros; repeat match goal with s : ptp_sys |- _ => destruct s as [[] ?] end.

(** The module parameters, and the rate of the clock. *)
Class PtpParams := { usbip_ptp_fps : Z; usbip_ptp_buffer_count : Z; HZ : Z }.

(** As [ptp_init] sets it. *)
Definition frame_jiffies `{PtpParams} : Z :=
  let fps := if usbip_ptp_fps =? 0 then 10 else usbip_ptp_fps in
  let j := HZ / fps in if j =? 0 then 1 else j.

(** *** Byte order of PTP *)
Section le.
Context `{Arch}.
Definition cpu_to_le32 (x : Z) : Z := if big_endian then bswap32 x else x.

(** The header [ptpdu] points to, converted with [le32_to_cpu], [le16_to_cpu]. *)
Definition ptp_header_of (l : list Z) : ptp_header :=
  mkPtpHeader (of_le (take 4 l)) (of_le (take 2 (drop 4 l))) (of_le (take 2 (drop 6 l)))
    (of_le (take 4 (drop 8 l))).
End le.
Definition sizeof_ptp_header : Z := 12.

(** *** The ring buffer *)

Definition ptp_framebuf_full_size : Z := 1024 * 1024.
Definition ptp_framebuf_align (pt : Z) : Z :=
  if Z.land pt 63 =? 0 then pt else Z.shiftl (Z.shiftr pt 6 + 1) 6.
Definition ptp_framebuf_to_end_count (head tail size : Z) : Z :=
  if tail <=? head then head - tail else size - tail.
Definition ptp_framebuf_to_end_space (head tail size : Z) : Z :=
  if tail <=? head then size - head else tail - head.
Definition ptp_framebuf_space (head tail size : Z) : Z :=
  if tail <=? head then size - head + tail else tail - head.
(** The comparison is unsigned. *)
Definition ptp_framebuf_nospace (head tail : Z) (f : ptp_filter) : bool :=
  u32 (ptp_framebuf_space head tail (pf_frame_buffer_size f)) <=? pf_out_pipe_size f.

(** The supported models: vendor, product, and what [GetDeviceInfo] would say. *)
Definition models : list (Z * Z * ptp_device_info) := [(1193, 12859, mkInfo 0 PTP_VENDOR_CANON 0)].

(** ** The filter's state *)
Section ptp.
Context `{Env} `{Arch} `{UsbPipes} `{PtpParams}.
Notation M := (M ptp_sys).

(** Code of the stub.  What the stub links into its queues, or frees, is no
    longer in a queue of a filter. *)
Definition held (sd : stub_device) (p : positive) : bool :=
  bool_decide (is_Some (sd_privs sd !! p)) &&
  negb (bool_decide (p ∈ sd_priv_init sd ++ sd_priv_tx sd ++ sd_priv_free sd)).
Definition drop_moved (sd : stub_device) (f : ptp_filter) : ptp_filter :=
  f <| pf_client_queue := List.filter (held sd) (pf_client_queue f) |>
    <| pf_request_queue := List.filter (held sd) (pf_request_queue f) |>
    <| pf_free_list := List.filter (held sd) (pf_free_list f) |>
    <| pf_busy_queue := List.filter (held sd) (pf_busy_queue f) |>.
Definition on_sdev {A} (m : Kernel.M stub_device A) : M A := fun s k =>
  match m (ps_sdev s) k with
  | Ok (a, sd, k') => Ok (a, mkPtpSys sd (drop_moved sd <$> ps_filters s), k')
  | Crash b => Crash b
  end.

(** The filter at address [flt]. *)
Variable flt : positive.

Definition the_filter : M ptp_filter :=
  fs ← gets ps_filters; of_option UseAfterFree (fs !! flt).
Definition set_filter (g : ptp_filter -> ptp_filter) : M unit :=
  f ← the_filter; modify (fun s => s <| ps_filters := <[flt := g f]> (ps_filters s) |>).

Definition lock_filter : M unit := spin_lock (LockPtp flt).
Definition unlock_filter : M unit := spin_unlock (LockPtp flt).

(** *** Queues *)

Inductive queue := q_client | q_request | q_free | q_busy | q_priv_init.

(** [list_del(&priv->list)] *)
Definition unlink_everywhere (p : positive) : M unit :=
  modify (fun s => s <| ps_sdev := unlink_priv p (ps_sdev s) |>);;
  set_filter (fun f =>
    f <| pf_client_queue := remove_id p (pf_client_queue f) |>
      <| pf_request_queue := remove_id p (pf_request_queue f) |>
      <| pf_free_list := remove_id p (pf_free_list f) |>
      <| pf_busy_queue := remove_id p (pf_busy_queue f) |>).

Definition list_move_tail (p : positive) (q : queue) : M unit :=
  unlink_everywhere p;;
  match q with
  | q_client => set_filter (fun f => f <| pf_client_queue := pf_client_queue f ++ [p] |>)
  | q_request => set_filter (fun f => f <| pf_request_queue := pf_request_queue f ++ [p] |>)
  | q_free => set_filter (fun f => f <| pf_free_list := pf_free_list f ++ [p] |>)
  | q_busy => set_filter (fun f => f <| pf_busy_queue := pf_busy_queue f ++ [p] |>)
  | q_priv_init =>
      modify (fun s => let sd := ps_sdev s in
        s <| ps_sdev := sd <| sd_priv_init := sd_priv_init sd ++ [p] |> |>)
  end.

Definition ptp_list_move (p : positive) (q : queue) : M unit :=
  spin_lock LOCK_PRIV;; list_move_tail p q;; spin_unlock LOCK_PRIV.

(** [priv->urb] *)
Definition urb_of (p : positive) : M positive :=
  ps ← gets (fun s => sd_privs (ps_sdev s));
  priv ← of_option UseAfterFree (ps !! p);
  deref (sp_urb priv).

(** *** State changes *)

(** Frame requests waiting in the request queue go back to the free ones. *)
Fixpoint free_commands (l : list positive) : M unit :=
  match l with
  | [] => mret tt
  | p :: l' =>
      u ← urb_of p;
      r ← get_urb u;
      (if bool_decide (urb_complete r = ptp_cmd_complete_fn) then list_move_tail p q_free
       else mret tt);;
      free_commands l'
  end.

Definition del_timer : M unit := ext_do (CTimer false 0).
Definition mod_timer (expires : Z) : M unit := ext_do (CTimer true expires).

Definition ptp_change_state (lock : bool) (state : ptp_filter_state) : M unit :=
  when_ lock lock_filter;;
  f ← the_filter;
  (if negb (at_least state ptpfs_active) && at_least (pf_state f) ptpfs_active then del_timer
   else if bool_decide (state = ptpfs_sleep) then
     free_commands (pf_request_queue f);; del_timer
   else mret tt);;
  set_filter (fun f => f <| pf_state := state |>);;
  when_ lock unlock_filter.

(** [ptp_bypass] and its variants, up to the return value. *)
Definition ptp_bypass : M unit := ptp_change_state false ptpfs_bypassed;; unlock_filter.
Definition ptp_bypass1 : M unit := lock_filter;; ptp_bypass.
Definition ptp_bypass4 (p : positive) : M unit := list_move_tail p q_free;; ptp_bypass.

(** Whether the URB's buffer holds a request for a preview frame. *)
Definition ptp_check_preview (u : positive) : M bool :=
  r ← get_urb u;
  f ← the_filter;
  if VendorExtensionID (pf_info f) =? PTP_VENDOR_CANON then
    b ← deref (urb_transfer_buffer r);
    code ← load_bytes (ptr_add b 6) 2;
    mret (of_le code =? PTP_OC_CANON_EOS_GetViewFinderData)
  else mret false.

(** *** Following the stream *)

Definition set_machine (m : machine) (g : ptp_state_machine -> ptp_state_machine) : M unit :=
  set_filter (fun f => put_machine m (g (get_machine m f)) f).

(** The lock is taken for a new session and not released. *)
Definition ptp_check_new_session (m : machine) : M unit :=
  if bool_decide (m <> m_rx) then mret tt
  else
    f ← the_filter;
    let h := sm_ptpdu (pf_rx f) in
    if ph_type h =? PTP_USB_CONTAINER_COMMAND then
      if (ph_code h =? PTP_OC_OpenSession) || (ph_code h =? PTP_OC_CloseSession) then
        lock_filter;;
        when_ (ph_code h =? PTP_OC_OpenSession) (set_filter (fun f => f <| pf_trans_id := 0 |>));;
        ptp_change_state false ptpfs_idle
      else mret tt
    else mret tt.

(** [ptpdu->trans_id = x] for the header at [data]. *)
Definition put_trans_id (data : ptr) (x : Z) : M unit := store_bytes (ptr_add data 8) (word_bytes x).

(** The header at [data]; [false] when its type is unknown. *)
Definition ptp_parse_header (m : machine) (data : ptr) : M bool :=
  l ← load_bytes data sizeof_ptp_header;
  set_machine m (fun x => x <| sm_ptpdu := ptp_header_of l |>);;
  ptp_check_new_session m;;
  f ← the_filter;
  match m with
  | m_rx =>
      set_filter (fun f => f <| pf_rx_trans_id := word_of (drop 8 l) |>);;
      put_trans_id data (cpu_to_le32 (pf_trans_id f))
  | m_tx => put_trans_id data (pf_rx_trans_id f)
  | m_send => put_trans_id data (cpu_to_le32 (pf_trans_id f))
  | m_self => mret tt
  end;;
  set_machine m (fun x => x <| sm_size := sizeof_ptp_header |>);;
  let type := ph_type (ptp_header_of l) in
  if type =? PTP_USB_CONTAINER_COMMAND then
    set_machine m (fun x => x <| sm_state := ptpps_command |>);; mret true
  else if type =? PTP_USB_CONTAINER_RESPONSE then
    set_machine m (fun x => x <| sm_state := ptpps_response |>);; mret true
  else if type =? PTP_USB_CONTAINER_DATA then
    set_machine m (fun x => x <| sm_state := ptpps_data |>);; mret true
  else
    set_machine m (fun x => x <| sm_state := ptpps_unkonwn |>);;
    ptp_bypass1;; mret false.

(** The header, if one is due: what is left after it, [None] to give up. *)
Definition ptp_parse_due (m : machine) (data : option ptr) (length : Z)
    : M (option (option ptr * Z)) :=
  f ← the_filter;
  match sm_state (get_machine m f) with
  | ptpps_wait_response | ptpps_none =>
      if length <? sizeof_ptp_header then ptp_bypass1;; mret None
      else
        ptpdu ← deref data;
        ok ← ptp_parse_header m ptpdu;
        if ok : bool then
          mret (Some (Some (ptr_add ptpdu sizeof_ptp_header), length - sizeof_ptp_header))
        else mret None
  | _ => mret (Some (data, length))
  end.

(** A phase ends; whether it was a response. *)
Definition ptp_phase_done (m : machine) (u : positive) : M bool :=
  f ← the_filter;
  if bool_decide (sm_state (get_machine m f) = ptpps_response) then
    set_machine m (fun x => x <| sm_state := ptpps_none |>);;
    (if bool_decide (m <> m_rx) && bool_decide (pf_frame_serving_urb f <> Some u) then
       set_filter (fun f => f <| pf_trans_id := u32 (pf_trans_id f + 1) |>)
     else mret tt);;
    mret true
  else set_machine m (fun x => x <| sm_state := ptpps_wait_response |>);; mret false.

(** Lengths and sizes are [unsigned]; each round but the first consumes a
    header. *)
Fixpoint ptp_parse_loop (fuel : nat) (m : machine) (u : positive) (data : option ptr) (length : Z)
    (done : bool) : M bool :=
  match fuel with
  | O => crash OutOfFuel
  | S fuel' =>
      if length =? 0 then mret done
      else
        due ← ptp_parse_due m data length;
        match due with
        | None => mret false
        | Some (data, length) =>
            f ← the_filter;
            let x := get_machine m f in
            if u32 (length + sm_size x) <? ph_length (sm_ptpdu x) then
              set_machine m (fun x => x <| sm_size := u32 (sm_size x + length) |>);; mret done
            else
              let offset := u32 (ph_length (sm_ptpdu x) - sm_size x) in
              response ← ptp_phase_done m u;
              ptp_parse_loop fuel' m u ((fun d => ptr_add d offset) <$> data) (u32 (length - offset))
                (response || done)
        end
  end.

Definition ptp_parse (m : machine) (u : positive) : M bool :=
  r ← get_urb u;
  let length := if usb_pipein (urb_pipe r) then urb_actual_length r
                else urb_transfer_buffer_length r in
  ptp_parse_loop (S (S (Z.to_nat length))) m u (urb_transfer_buffer r) length false.

(** *** Asking the device for frames *)

(** Hand a request to the device; the lock is released meanwhile. *)
Definition ptp_submit_urb (pending : bool) (p u : positive) : M bool :=
  (if pending then
     r ← get_urb u;
     if bool_decide (urb_complete r <> ptp_cmd_complete_fn) &&
        bool_decide (urb_complete r <> ptp_data_complete_fn)
     then ptp_list_move p q_priv_init
     else list_move_tail p q_busy
   else mret tt);;
  modify_urb u (fun r => r <| urb_actual_length := 0 |> <| urb_status := 0 |>);;
  unlock_filter;;
  r ← get_urb u;
  (if usb_pipeout (urb_pipe r) then ptp_parse m_send u;; mret tt else mret tt);;
  on_sdev (stub_submit_urb u);;
  lock_filter;;
  mret true.

(** [if(!pending) ptp_list_move(&priv->list,&filter->request_queue)] *)
Definition keep_pending (pending : bool) (p : positive) : M unit :=
  if pending then mret tt else ptp_list_move p q_request.

(** A command, from the client or of the filter's own. *)
Definition ptp_produce_out (pending : bool) (p u : positive) (head tail : Z) : M bool :=
  preview ← ptp_check_preview u;
  f ← the_filter;
  if preview : bool then
    ok ← (if bool_decide (pf_state f = ptpfs_sleep) then
            ptp_change_state false ptpfs_active;; mret true
          else mret (bool_decide (pf_state f = ptpfs_active) && negb (ptp_framebuf_nospace head tail f)));
    if negb ok then keep_pending pending p;; mret false
    else
      set_filter (fun f =>
        (if pf_frame_rx_tail f >? 0 then f <| pf_frame_rx_tail2 := pf_frame_rx_tail f |> else f)
          <| pf_frame_rx_tail := head |>);;
      ptp_change_state false ptpfs_busy;;
      ptp_submit_urb pending p u
  else
    match pf_state f with
    | ptpfs_idle => ptp_change_state false ptpfs_command;; ptp_submit_urb pending p u
    | ptpfs_sleep => ptp_change_state false ptpfs_sleep_wait;; ptp_submit_urb pending p u
    | ptpfs_active => ptp_change_state false ptpfs_wait;; ptp_submit_urb pending p u
    | _ => keep_pending pending p;; mret true
    end.

(** Where to put a frame that is going to be dropped: the new head. *)
Fixpoint ptp_drop_place (fuel : nat) (u : positive) (tail : Z) : M Z :=
  match fuel with
  | O => crash OutOfFuel
  | S fuel' =>
      f ← the_filter;
      let rx_tail := pf_frame_rx_tail f in
      head ← (if rx_tail <=? tail then
                set_filter (fun f => f <| pf_frame_head := rx_tail |>);; mret rx_tail
              else if ptp_framebuf_full_size - rx_tail >? tail then
                set_filter (fun f => f <| pf_frame_head := rx_tail |>
                                       <| pf_frame_buffer_size := ptp_framebuf_full_size |>);;
                mret rx_tail
              else set_filter (fun f => f <| pf_frame_head := 0 |>);; mret 0);
      f ← the_filter;
      let len := u32 (ptp_framebuf_to_end_space head tail (pf_frame_buffer_size f)) in
      modify_urb u (fun r => r <| urb_transfer_buffer_length := len |>);;
      if (0 <=? pf_frame_rx_tail2 f) && (pf_frame_count f >? 1) &&
         (len <? u32 (Z.shiftl (pf_out_pipe_size f) 5))
      then
        set_filter (fun f => f <| pf_frame_rx_tail := pf_frame_rx_tail2 f |>
                               <| pf_frame_rx_tail2 := -1 |>);;
        ptp_drop_place fuel' u tail
      else mret head
  end.

(** [_length / filter->out_pipe_size * filter->out_pipe_size] *)
Definition ptp_transfer_length (len : Z) : M Z :=
  f ← the_filter;
  if pf_out_pipe_size f =? 0 then crash DivByZero
  else mret (len / pf_out_pipe_size f * pf_out_pipe_size f).

(** Room in the ring buffer for the next data: where, and how much. *)
Definition ptp_make_room (head tail : Z) : M (Z * Z) :=
  f ← the_filter;
  let len := u32 (ptp_framebuf_to_end_space head tail (pf_frame_buffer_size f)) in
  if (len <? pf_out_pipe_size f) && (tail <? head) then
    if pf_out_pipe_size f <=? u32 (ptp_framebuf_full_size - head) then
      set_filter (fun f => f <| pf_frame_buffer_size := ptp_framebuf_full_size |>);;
      mret (head, u32 (ptp_framebuf_full_size - head))
    else if negb (tail =? 0) then
      set_filter (fun f => f <| pf_frame_buffer_size := head |>);;
      mret (0, u32 tail)
    else mret (head, len)
  else mret (head, len).

(** The filter's own read of frame data. *)
Definition ptp_produce_data (pending : bool) (p u : positive) (head tail : Z) : M bool :=
  '(head, len) ← ptp_make_room head tail;
  modify_urb u (fun r => r <| urb_transfer_buffer_length := len |>);;
  f ← the_filter;
  full ← (if len <? pf_out_pipe_size f then
            if pf_frame_rx_tail f <? 0 then keep_pending pending p;; mret true
            else ptp_change_state false ptpfs_drop;; mret false
          else mret false);
  if full : bool then mret false
  else
    f ← the_filter;
    head ← (if bool_decide (pf_state f = ptpfs_drop) then ptp_drop_place 2 u tail else mret head);
    r ← get_urb u;
    len ← ptp_transfer_length (urb_transfer_buffer_length r);
    f ← the_filter;
    modify_urb u (fun r =>
      r <| urb_transfer_buffer := (fun b => ptr_add b head) <$> pf_frame_buffer f |>
        <| urb_transfer_buffer_length := len |>);;
    if len =? 0 then ptp_change_state false ptpfs_bypassed;; mret false
    else ptp_submit_urb pending p u.

(** Called with the lock held; [priv] is NULL when [None].  Whether the
    request was taken care of. *)
Definition ptp_produce (priv : option positive) : M bool :=
  f ← the_filter;
  let head := pf_frame_head f in
  let tail := pf_frame_tail f in
  let pending := bool_decide (priv = None) in
  match (match priv with Some p => Some p | None => hd_error (pf_request_queue f) end) with
  | None => mret false
  | Some p =>
      u ← urb_of p;
      r ← get_urb u;
      if usb_pipeout (urb_pipe r) then ptp_produce_out pending p u head tail
      else if bool_decide (urb_complete r <> ptp_data_complete_fn) then
        if bool_decide (pf_state f <> ptpfs_busy) && bool_decide (pf_state f <> ptpfs_drop) then
          if pending then ptp_submit_urb pending p u else mret false
        else keep_pending pending p;; mret true
      else ptp_produce_data pending p u head tail
  end.

(** *** Serving the client *)

(** [urb->complete(urb)] for an URB of the client.  Its handler is
    [stub_complete], which shows it to the filters again; [on_tx] stands for the
    drivers' hooks. *)
Definition stub_complete_via (on_tx : positive -> M Z) (u : positive) : M unit :=
  r ← get_urb u;
  p ← deref (urb_context r);
  ps ← gets (fun s => sd_privs (ps_sdev s));
  _ ← of_option UseAfterFree (ps !! p);
  ret ← on_tx u;
  on_sdev (stub_complete_tail u p ret).

Definition ptp_complete_urb (on_tx : positive -> M Z) (u : positive) : M unit :=
  set_filter (fun f => f <| pf_frame_serving_urb := Some u |>);;
  modify_urb u (fun r => r <| urb_status := 0 |>);;
  r ← get_urb u;
  (if bool_decide (urb_complete r = stub_complete_fn) then stub_complete_via on_tx u
   else crash BugOn);;
  set_filter (fun f => f <| pf_frame_serving_urb := None |>).

(** The start of a PDU at the tail of the ring buffer; [false] when it is not
    there yet or is not to be served, [None] when the filter gives up. *)
Definition ptp_consume_header (u : positive) (tail length : Z) : M (option bool) :=
  f ← the_filter;
  stop ← (if tail =? pf_frame_rx_tail2 f then
            set_filter (fun f => f <| pf_frame_rx_tail2 := -1 |>);; mret false
          else if tail =? pf_frame_rx_tail f then
            if bool_decide (pf_state f = ptpfs_drop) then mret true
            else set_filter (fun f => f <| pf_frame_rx_tail := -1 |>);; mret false
          else mret false);
  if stop : bool then mret (Some false)
  else if wrap 64 length <? sizeof_ptp_header then mret (Some false)
  else
    b ← deref (pf_frame_buffer f);
    l ← load_bytes (ptr_add b tail) sizeof_ptp_header;
    set_filter (fun f => f <| pf_frame_pdu_end :=
                  ph_type (ptp_header_of l) =? PTP_USB_CONTAINER_RESPONSE |>);;
    r ← get_urb u;
    if negb (urb_actual_length r =? 0) then ptp_bypass;; mret None
    else
      set_filter (fun f => f <| pf_frame_length := ph_length (ptp_header_of l) |>);;
      if ph_length (ptp_header_of l) <? sizeof_ptp_header then ptp_bypass;; mret None
      else mret (Some true).

(** [memcpy] to the URB, [memset] of what was read. *)
Definition ptp_copy_frame (u : positive) (tail copy_length : Z) : M unit :=
  f ← the_filter;
  r ← get_urb u;
  src ← deref (pf_frame_buffer f);
  dst ← deref (urb_transfer_buffer r);
  data ← load_bytes (ptr_add src tail) copy_length;
  store_bytes (ptr_add dst (urb_actual_length r)) data;;
  store_bytes (ptr_add src tail) (replicate (Z.to_nat copy_length) 255);;
  set_filter (fun f => f <| pf_frame_length := u32 (pf_frame_length f - copy_length) |>);;
  modify_urb u (fun r => r <| urb_actual_length := u32 (urb_actual_length r + copy_length) |>).

(** The tail moves on; at the end of a PDU to the next aligned place. *)
Definition ptp_advance_tail (tail copy_length : Z) : M unit :=
  f ← the_filter;
  tail' ← (if pf_frame_buffer_size f =? 0 then crash DivByZero
           else mret (Z.rem (tail + copy_length) (pf_frame_buffer_size f)));
  when_ (tail' <? tail) (set_filter (fun f => f <| pf_frame_buffer_size := ptp_framebuf_full_size |>));;
  if pf_frame_length f =? 0 then
    when_ (pf_frame_pdu_end f) (set_filter (fun f =>
      f <| pf_frame_serving := false |> <| pf_frame_count := pf_frame_count f - 1 |>));;
    set_filter (fun f => f <| pf_frame_tail := ptp_framebuf_align tail' |>)
  else set_filter (fun f => f <| pf_frame_tail := tail' |>).

Definition min_copy (r : urb) (length frame_length : Z) : Z :=
  let c := s32 (urb_transfer_buffer_length r - urb_actual_length r) in
  let c := if c >? length then length else c in
  if u32 c >? frame_length then s32 frame_length else c.

(** The request that is to be served next, and whether it was waiting. *)
Definition next_client (priv : option positive) (pending : bool) : M (option (positive * bool)) :=
  match priv with
  | Some p => mret (Some (p, pending))
  | None => f ← the_filter; mret ((fun p => (p, true)) <$> hd_error (pf_client_queue f))
  end.

(** [if(!pending && priv) ptp_list_move(&priv->list,&filter->client_queue)] *)
Definition keep_client (pending : bool) (p : positive) : M unit :=
  if pending then mret tt else ptp_list_move p q_client.

Fixpoint ptp_consume_loop (on_tx : positive -> M Z) (fuel : nat) (priv : option positive)
    (pending ret : bool) : M bool :=
  match fuel with
  | O => crash OutOfFuel
  | S fuel' =>
      f ← the_filter;
      if negb (at_least (pf_state f) ptpfs_active) then
        set_filter (fun f => f <| pf_frame_serving := false |>);; mret ret
      else
        next ← next_client priv pending;
        match next with
        | None => mret ret
        | Some (p, pending) =>
            u ← urb_of p;
            let tail := pf_frame_tail f in
            let length := ptp_framebuf_to_end_count (pf_frame_head f) tail (pf_frame_buffer_size f) in
            go ← (if pf_frame_length f =? 0 then ptp_consume_header u tail length
                  else mret (Some true));
            match go with
            | None => mret false
            | Some false => keep_client pending p;; mret true
            | Some true =>
                r ← get_urb u;
                f ← the_filter;
                let copy_length := min_copy r length (pf_frame_length f) in
                if copy_length =? 0 then keep_client pending p;; mret true
                else
                  ptp_copy_frame u tail copy_length;;
                  ptp_advance_tail tail copy_length;;
                  f ← the_filter;
                  r ← get_urb u;
                  priv ← (if (pf_frame_length f =? 0)
                             || (urb_actual_length r =? urb_transfer_buffer_length r) then
                            (if pending then ptp_list_move p q_priv_init else mret tt);;
                            unlock_filter;;
                            ptp_complete_urb on_tx u;;
                            lock_filter;;
                            mret None
                          else mret (Some p));
                  ptp_produce None;;
                  ptp_consume_loop on_tx fuel' priv pending true
            end
        end
  end.

(** Called with the lock held.  Each round moves the tail: there are at most as
    many as bytes in the ring buffer. *)
Definition ptp_consume (on_tx : positive -> M Z) (priv : option positive) : M bool :=
  ptp_consume_loop on_tx (S (Z.to_nat ptp_framebuf_full_size)) priv false false.

(** *** Completions and the timer *)

Definition jiffies : M Z := ext_ret CJiffies.

(** The header at the start of a PDU read from the device; whether to go on. *)
Definition ptp_data_header (p u : positive) : M bool :=
  f ← the_filter;
  if negb (pf_frame_rx_length f =? 0) then mret true
  else
    r ← get_urb u;
    if urb_actual_length r <? sizeof_ptp_header then ptp_bypass4 p;; mret false
    else
      b ← deref (urb_transfer_buffer r);
      l ← load_bytes b sizeof_ptp_header;
      set_filter (fun f => f <| pf_frame_rx_length := ph_length (ptp_header_of l) |>);;
      if ph_length (ptp_header_of l) <? sizeof_ptp_header then ptp_bypass4 p;; mret false
      else
        set_filter (fun f => f <| pf_frame_rx_pdu_end :=
                      ph_type (ptp_header_of l) =? PTP_USB_CONTAINER_RESPONSE |>);;
        mret true.

(** The last PDU of a frame has arrived; the new head. *)
Definition ptp_frame_done (p : positive) (head tail : Z) : M Z :=
  list_move_tail p q_free;;
  f ← the_filter;
  if bool_decide (pf_state f = ptpfs_drop) then
    let head := pf_frame_rx_tail f in
    when_ (tail <=? head) (set_filter (fun f => f <| pf_frame_buffer_size := ptp_framebuf_full_size |>));;
    ptp_change_state false ptpfs_sleep;;
    mret head
  else
    set_filter (fun f => f <| pf_frame_count := pf_frame_count f + 1 |>);;
    f ← the_filter;
    (if usbip_ptp_buffer_count <=? u32 (pf_frame_count f) then ptp_change_state false ptpfs_sleep
     else if negb (ph_code (sm_ptpdu (pf_self f)) =? PTP_RC_OK) then ptp_change_state false ptpfs_sleep
     else
       ptp_change_state false ptpfs_active;;
       j ← jiffies;
       (if pf_trigger_jiffies f <? j then
          j ← jiffies;
          set_filter (fun f => f <| pf_trigger_jiffies := wrap 64 (j + 1) |>)
        else mret tt);;
       f ← the_filter;
       mod_timer (pf_trigger_jiffies f));;
    mret head.

Definition ptp_data_received (on_tx : positive -> M Z) (p u : positive) : M unit :=
  r ← get_urb u;
  if negb (urb_status r =? 0) then lock_filter;; list_move_tail p q_free;; ptp_bypass
  else
    ptp_parse m_self u;;
    lock_filter;;
    f ← the_filter;
    let head := pf_frame_head f in
    let tail := pf_frame_tail f in
    if bool_decide (pf_state f <> ptpfs_busy) && bool_decide (pf_state f <> ptpfs_drop) then
      ptp_bypass4 p
    else
      go ← ptp_data_header p u;
      if negb go then mret tt
      else
        set_filter (fun f => f <| pf_frame_rx_length :=
                      u32 (pf_frame_rx_length f - urb_actual_length r) |>);;
        f ← the_filter;
        head ← (if bool_decide (pf_state f <> ptpfs_drop) then
                  if pf_frame_buffer_size f =? 0 then crash DivByZero
                  else mret (s32 (u32 (head + urb_actual_length r) mod u32 (pf_frame_buffer_size f)))
                else mret head);
        next ← (if pf_frame_rx_length f =? 0 then
                  let head := ptp_framebuf_align head in
                  if pf_frame_rx_pdu_end f then
                    head ← ptp_frame_done p head tail; mret (head, None)
                  else mret (head, Some p)
                else mret (head, Some p));
        set_filter (fun f => f <| pf_frame_head := next.1 |>);;
        ptp_produce next.2;;
        ptp_consume on_tx None;;
        unlock_filter.

(** The frame request was sent: read the frame. *)
Definition ptp_cmd_sent (p u : positive) : M unit :=
  lock_filter;;
  f ← the_filter;
  r ← get_urb u;
  if negb (urb_status r =? 0) || negb (at_least (pf_state f) ptpfs_active) then ptp_bypass4 p
  else
    set_filter (fun f => f <| pf_frame_rx_length := 0 |>);;
    len ← ptp_transfer_length
            (u32 (ptp_framebuf_to_end_space (pf_frame_head f) (pf_frame_tail f) (pf_frame_buffer_size f)));
    modify_urb u (fun r =>
      r <| urb_transfer_buffer := (fun b => ptr_add b (pf_frame_head f)) <$> pf_frame_buffer f |>
        <| urb_complete := ptp_data_complete_fn |>
        <| urb_actual_length := 0 |> <| urb_status := 0 |>
        <| urb_pipe := pf_in_pipe f |>
        <| urb_transfer_buffer_length := len |>);;
    if len =? 0 then ptp_bypass
    else unlock_filter;; on_sdev (stub_submit_urb u);; mret tt.

Definition ptp_timer : M unit :=
  lock_filter;;
  f ← the_filter;
  if negb (at_least (pf_state f) ptpfs_active) ||
     bool_decide (pf_state f ∈ [ptpfs_drop; ptpfs_sleep; ptpfs_sleep_wait])
  then unlock_filter
  else
    (match pf_free_list f with
     | [] => mret tt
     | p :: _ =>
         u ← urb_of p;
         ptpdu ← deref (pf_trigger_ptpdu f);
         len ← load_bytes ptpdu 4;
         modify_urb u (fun r =>
           r <| urb_complete := ptp_cmd_complete_fn |>
             <| urb_transfer_buffer := Some ptpdu |>
             <| urb_transfer_buffer_length := of_le len |>
             <| urb_pipe := pf_out_pipe f |>);;
         set_filter (fun f => f <| pf_trigger_jiffies := wrap 64 (pf_trigger_jiffies f + frame_jiffies) |>);;
         list_move_tail p q_busy;;
         ptp_produce (Some p);; mret tt
     end);;
    unlock_filter.

(** *** The hooks *)

Definition ptp_on_tx (u : positive) : M Z :=
  f ← the_filter;
  r ← get_urb u;
  if bool_decide (pf_state f = ptpfs_bypassed) || negb (usb_pipebulk (urb_pipe r)) then mret 0
  else if negb (urb_status r =? 0) then ptp_bypass1;; mret 0
  else
    done ← ptp_parse m_tx u;
    if usb_pipeout (urb_pipe r) then mret 0
    else
      f ← the_filter;
      if bool_decide (pf_state f = ptpfs_init) then mret 0
      else if negb done then mret 0
      else
        match pf_state f with
        | ptpfs_wait => ptp_change_state true ptpfs_active
        | ptpfs_sleep_wait => ptp_change_state true ptpfs_sleep
        | ptpfs_command => ptp_change_state true ptpfs_idle
        | _ => mret tt
        end;;
        lock_filter;;
        ptp_produce None;;
        unlock_filter;;
        mret 0.

(** The pipes of the device, from the first URBs. *)
Definition ptp_learn_pipes (pdu : usbip_header) (u : positive) : M unit :=
  r ← get_urb u;
  f ← the_filter;
  when_ ((pf_in_pipe f =? 0) && usb_pipein (urb_pipe r))
    (set_filter (fun f => f <| pf_in_pipe := urb_pipe r |>));;
  if (pf_out_pipe f =? 0) && usb_pipeout (urb_pipe r) then
    sd ← gets ps_sdev;
    dev ← get_udev (sd_udev sd);
    e ← of_option OutOfBounds (dev_ep_out dev !! Z.to_nat (Z.land (ep (h_base pdu)) 127));
    e ← deref e;
    set_filter (fun f => f <| pf_out_pipe_size := ep_wMaxPacketSize e |> <| pf_out_pipe := urb_pipe r |>)
  else mret tt.

(** [PTP_FREE_URB_COUNT] URBs for frame requests. *)
Fixpoint ptp_build_urbs (n : nat) : M bool :=
  match n with
  | O => mret true
  | S n' =>
      f ← the_filter;
      u ← on_sdev (stub_build_urb (pf_trigger_pdu f) (pf_trigger_ptpdu f));
      match u with
      | None => ptp_bypass1;; mret false
      | Some u =>
          r ← get_urb u;
          p ← deref (urb_context r);
          on_sdev (x ← get_priv p; put_priv p (x <| sp_priv := Z.pos flt |>));;
          ptp_list_move p q_free;;
          ptp_build_urbs n'
      end
  end.

(** The frame buffer, a copy of the command and the URBs, the first time;
    whether they are there. *)
Definition ptp_prepare (u : positive) (ptpdu : ptr) : M bool :=
  f ← the_filter;
  if bool_decide (pf_frame_buffer f <> None) then mret true
  else
    buf ← kzalloc ptp_framebuf_full_size;
    match buf with
    | None => ptp_bypass1;; mret false
    | Some b =>
        set_filter (fun f => f <| pf_frame_buffer := Some b |>);;
        store_bytes b (replicate (Z.to_nat ptp_framebuf_full_size) 253);;
        set_filter (fun f => f <| pf_frame_buffer_size := ptp_framebuf_full_size |>);;
        r ← get_urb u;
        len ← load_bytes ptpdu 4;
        if negb (urb_transfer_buffer_length r =? of_le len) then ptp_bypass1;; mret false
        else
          data ← load_bytes ptpdu (urb_transfer_buffer_length r);
          copy ← on_sdev (kmemdup data);
          set_filter (fun f => f <| pf_trigger_ptpdu := copy |>);;
          if bool_decide (copy = None) then ptp_bypass1;; mret false
          else ptp_build_urbs 2
    end.

(** The client wants a frame while the filter is not asking for any; called
    with the lock held. *)
Definition ptp_stream_on (on_tx : positive -> M Z) (u : positive) (ptpdu : ptr) : M Z :=
  set_filter (fun f => f <| pf_frame_serving := true |>);;
  ptp_change_state false ptpfs_active;;
  modify_urb u (fun r => r <| urb_actual_length := urb_transfer_buffer_length r |>);;
  f ← the_filter;
  early ← (if pf_frame_count f =? 0 then mret false
           else j ← jiffies; mret (pf_trigger_jiffies f >? j));
  if early : bool then
    mod_timer (pf_trigger_jiffies f);;
    unlock_filter;;
    ptp_complete_urb on_tx u;;
    mret 1
  else
    j ← jiffies;
    set_filter (fun f => f <| pf_trigger_jiffies := j |>);;
    unlock_filter;;
    ptp_complete_urb on_tx u;;
    ok ← ptp_prepare u ptpdu;
    if negb ok then mret 0 else ptp_timer;; mret 1.

(** A command of the client; called with the lock held. *)
Definition ptp_command (on_tx : positive -> M Z) (pdu : usbip_header) (p u : positive) : M Z :=
  r ← get_urb u;
  preview ← ptp_check_preview u;
  f ← the_filter;
  if preview : bool then
    ptpdu ← deref (urb_transfer_buffer r);
    match pf_state f with
    | ptpfs_idle =>
        set_filter (fun f =>
          f <| pf_frame_count := 0 |> <| pf_frame_rx_tail := -1 |> <| pf_frame_rx_tail2 := -1 |>
            <| pf_frame_head := 0 |> <| pf_frame_tail := 0 |> <| pf_frame_length := 0 |>
            <| pf_trigger_pdu := pdu |>);;
        ptp_stream_on on_tx u ptpdu
    | ptpfs_sleep => ptp_stream_on on_tx u ptpdu
    | _ =>
        if negb (at_least (pf_state f) ptpfs_active) || pf_frame_serving f then ptp_bypass;; mret 0
        else
          set_filter (fun f => f <| pf_frame_serving := true |>);;
          unlock_filter;;
          modify_urb u (fun r => r <| urb_actual_length := urb_transfer_buffer_length r |>);;
          ptp_complete_urb on_tx u;;
          mret 1
    end
  else
    match pf_state f with
    | ptpfs_active => ptp_change_state false ptpfs_wait;; unlock_filter;; mret 0
    | ptpfs_sleep => ptp_change_state false ptpfs_sleep_wait;; unlock_filter;; mret 0
    | ptpfs_idle => ptp_change_state false ptpfs_command;; unlock_filter;; mret 0
    | ptpfs_drop | ptpfs_busy => ptp_list_move p q_request;; unlock_filter;; mret 1
    | _ => ptp_bypass;; mret 0
    end.

Definition ptp_on_rx (on_tx : positive -> M Z) (pdu : usbip_header) (u : positive) : M Z :=
  f ← the_filter;
  r ← get_urb u;
  if bool_decide (pf_state f = ptpfs_bypassed) || negb (usb_pipebulk (urb_pipe r)) then mret 0
  else
    p ← deref (urb_context r);
    ptp_learn_pipes pdu u;;
    if usb_pipein (urb_pipe r) then
      lock_filter;;
      f ← the_filter;
      ret ← (if pf_frame_serving f then ptp_consume on_tx (Some p)
             else if at_least (pf_state f) ptpfs_active then ptp_produce (Some p)
             else mret false);
      unlock_filter;;
      mret (if ret : bool then 1 else 0)
    else
      ptp_parse m_rx u;;
      f ← the_filter;
      if bool_decide (sm_state (pf_rx f) <> ptpps_wait_response) ||
         negb (ph_type (sm_ptpdu (pf_rx f)) =? PTP_USB_CONTAINER_COMMAND)
      then mret 0
      else lock_filter;; ptp_command on_tx pdu p u.

(** *** Attaching and removing *)

(** [stub_free_priv_and_urb] for each request of the free list. *)
Fixpoint ptp_free_urbs (l : list positive) : M unit :=
  match l with
  | [] => mret tt
  | p :: l' => on_sdev (stub_free_priv_and_urb p);; ptp_free_urbs l'
  end.

Definition ptp_remove : M unit :=
  ptp_change_state true ptpfs_idle;;
  f ← the_filter;
  kfree (pf_frame_buffer f);;
  kfree (pf_trigger_ptpdu f);;
  f ← the_filter;
  ptp_free_urbs (pf_free_list f);;
  modify (fun s => s <| ps_filters := delete flt (ps_filters s) |>).
End ptp.

(** ** The driver *)
Section ptp_driver.
Context `{Env} `{Arch} `{UsbPipes} `{PtpParams}.
Notation M := (M ptp_sys).

Fixpoint find_model (vendor product : Z) (l : list (Z * Z * ptp_device_info)) : option ptp_device_info :=
  match l with
  | [] => None
  | (v, p, info) :: l' =>
      if (v =? vendor) && (p =? product) then Some info else find_model vendor product l'
  end.

(** The address of the filter, 0 when the device is not supported. *)
Definition ptp_probe (interface : Z) : M Z :=
  s ← get;
  if bool_decide (ud_side (the_ud s) <> USBIP_STUB) then mret 0
  else
    dev ← get_udev (sd_udev (ps_sdev s));
    match find_model (dev_idVendor dev) (dev_idProduct dev) models with
    | None => mret 0
    | Some info =>
        r ← ext_ret (CMalloc 512);
        if r =? 0 then crash NullDeref
        else
          flt ← kgets k_next;
          kmodify (fun k => k <| k_next := Pos.succ flt |>);;
          modify (fun s => s <| ps_filters := <[flt := ptp_filter_zero <| pf_info := info |>]> (ps_filters s) |>);;
          ptp_change_state flt false ptpfs_idle;;
          mret (Z.pos flt)
    end.

(** [ufilter->priv] *)
Definition filter_priv (f : positive) : M positive :=
  x ← get_filter f;
  if f_priv x <=? 0 then crash NullDeref else mret (Z.to_pos (f_priv x)).

(** The address of [ptp_driver.list]. *)
Definition ptp_driver_list : positive := 2%positive.

(** While an URB of the client completes only the [on_tx] hooks are called. *)
Definition ptp_tx_drivers : FilterDrivers ptp_sys :=
  ({[ptp_driver_list := mkDriver None None (Some (fun f u => flt ← filter_priv f; ptp_on_tx flt u)) None]}
   : gmap positive (usbip_filter_driver ptp_sys)).
Definition ptp_complete_on_tx : positive -> M Z :=
  @usbip_filter_on_tx ptp_sys ptp_has_ud ptp_tx_drivers.

(** [struct usbip_filter_driver ptp_driver] *)
Definition ptp_driver : usbip_filter_driver ptp_sys := {|
  drv_probe := Some ptp_probe;
  drv_remove := Some (fun f => flt ← filter_priv f; ptp_remove flt);
  drv_on_tx := Some (fun f u => flt ← filter_priv f; ptp_on_tx flt u);
  drv_on_rx := Some (fun f pdu u => flt ← filter_priv f; ptp_on_rx flt ptp_complete_on_tx pdu u)
|}.
Definition ptp_drivers : FilterDrivers ptp_sys :=
  ({[ptp_driver_list := ptp_driver]} : gmap positive (usbip_filter_driver ptp_sys)).

(** The filter and the request of an URB of the filter's own. *)
Definition own_urb (u : positive) : M (positive * positive) :=
  r ← get_urb u;
  p ← deref (urb_context r);
  ps ← gets (fun s => sd_privs (ps_sdev s));
  priv ← of_option UseAfterFree (ps !! p);
  if sp_priv priv <=? 0 then crash NullDeref else mret (Z.to_pos (sp_priv priv), p).
Definition ptp_data_complete (u : positive) : M unit :=
  '(flt, p) ← own_urb u; ptp_data_received flt ptp_complete_on_tx p u.
Definition ptp_cmd_complete (u : positive) : M unit :=
  '(flt, p) ← own_urb u; ptp_cmd_sent flt p u.

Definition ptp_init : M Z := usbip_filter_register ptp_driver_list;; mret 0.
Definition ptp_exit : M unit := usbip_filter_unregister ptp_driver_list.
End ptp_driver.
