(* ===== verification/Vhci.v ===== *)
(** * The virtual host controller

    The data of [vhci.h] and the root hub of [vhci_hcd.c]: eight ports, each
    with a device that may be connected to a remote one, and the pseudo status
    registers the USB core reads and writes through hub requests. *)
From S2P Require Import Prelude Kernel Wire Event Xfer StubRx.

Definition VHCI_NPORTS : nat := 8.

(** [enum usb_device_speed] *)
Definition USB_SPEED_UNKNOWN := 0.
Definition USB_SPEED_LOW := 1.
Definition USB_SPEED_FULL := 2.
Definition USB_SPEED_HIGH := 3.
Definition USB_SPEED_WIRELESS := 4.

Record vhci_priv := mkVhciPriv {
  vp_seqnum : Z;
  vp_vdev : nat;
  vp_urb : positive
}.
#[export] Instance set_vp_seqnum : Setter vp_seqnum := fun v r => mkVhciPriv v (vp_vdev r) (vp_urb r).
#[global] Arguments set_vp_seqnum _ _ /.
#[export] Instance set_vp_vdev : Setter vp_vdev := fun v r => mkVhciPriv (vp_seqnum r) v (vp_urb r).
#[global] Arguments set_vp_vdev _ _ /.
#[export] Instance set_vp_urb : Setter vp_urb := fun v r => mkVhciPriv (vp_seqnum r) (vp_vdev r) v.
#[global] Arguments set_vp_urb _ _ /.


Record vhci_unlink := mkVhciUnlink {
  vu_seqnum : Z;
  vu_unlink_seqnum : Z
}.
#[export] Instance set_vu_seqnum : Setter vu_seqnum := fun v r => mkVhciUnlink v (vu_unlink_seqnum r).
#[global] Arguments set_vu_seqnum _ _ /.
#[export] Instance set_vu_unlink_seqnum : Setter vu_unlink_seqnum := fun v r => mkVhciUnlink (vu_seqnum r) v.
#[global] Arguments set_vu_unlink_seqnum _ _ /.


Record vhci_device := mkVdev {
  vd_udev : option positive;
  vd_devid : Z;
  vd_speed : Z;
  vd_rhport : Z;
  vd_ud : usbip_device;
  vd_priv_tx : list positive;
  vd_priv_rx : list positive;
  vd_unlink_tx : list vhci_unlink;
  vd_unlink_rx : list vhci_unlink
}.
#[export] Instance set_vd_udev : Setter vd_udev := fun v r => mkVdev v (vd_devid r) (vd_speed r) (vd_rhport r) (vd_ud r) (vd_priv_tx r) (vd_priv_rx r) (vd_unlink_tx r) (vd_unlink_rx r).
#[global] Arguments set_vd_udev _ _ /.
#[export] Instance set_vd_devid : Setter vd_devid := fun v r => mkVdev (vd_udev r) v (vd_speed r) (vd_rhport r) (vd_ud r) (vd_priv_tx r) (vd_priv_rx r) (vd_unlink_tx r) (vd_unlink_rx r).
#[global] Arguments set_vd_devid _ _ /.
#[export] Instance set_vd_speed : Setter vd_speed := fun v r => mkVdev (vd_udev r) (vd_devid r) v (vd_rhport r) (vd_ud r) (vd_priv_tx r) (vd_priv_rx r) (vd_unlink_tx r) (vd_unlink_rx r).
#[global] Arguments set_vd_speed _ _ /.
#[export] Instance set_vd_rhport : Setter vd_rhport := fun v r => mkVdev (vd_udev r) (vd_devid r) (vd_speed r) v (vd_ud r) (vd_priv_tx r) (vd_priv_rx r) (vd_unlink_tx r) (vd_unlink_rx r).
#[global] Arguments set_vd_rhport _ _ /.
#[export] Instance set_vd_ud : Setter vd_ud := fun v r => mkVdev (vd_udev r) (vd_devid r) (vd_speed r) (vd_rhport r) v (vd_priv_tx r) (vd_priv_rx r) (vd_unlink_tx r) (vd_unlink_rx r).
#[global] Arguments set_vd_ud _ _ /.
#[export] Instance set_vd_priv_tx : Setter vd_priv_tx := fun v r => mkVdev (vd_udev r) (vd_devid r) (vd_speed r) (vd_rhport r) (vd_ud r) v (vd_priv_rx r) (vd_unlink_tx r) (vd_unlink_rx r).
#[global] Arguments set_vd_priv_tx _ _ /.
#[export] Instance set_vd_priv_rx : Setter vd_priv_rx := fun v r => mkVdev (vd_udev r) (vd_devid r) (vd_speed r) (vd_rhport r) (vd_ud r) (vd_priv_tx r) v (vd_unlink_tx r) (vd_unlink_rx r).
#[global] Arguments set_vd_priv_rx _ _ /.
#[export] Instance set_vd_unlink_tx : Setter vd_unlink_tx := fun v r => mkVdev (vd_udev r) (vd_devid r) (vd_speed r) (vd_rhport r) (vd_ud r) (vd_priv_tx r) (vd_priv_rx r) v (vd_unlink_rx r).
#[global] Arguments set_vd_unlink_tx _ _ /.
#[export] Instance set_vd_unlink_rx : Setter vd_unlink_rx := fun v r => mkVdev (vd_udev r) (vd_devid r) (vd_speed r) (vd_rhport r) (vd_ud r) (vd_priv_tx r) (vd_priv_rx r) (vd_unlink_tx r) v.
#[global] Arguments set_vd_unlink_rx _ _ /.


(** [struct vhci_hcd], with the [vhci_priv]s by address and the two members
    of [struct usb_hcd] the driver uses. *)
Record vhci_hcd := mkVhci {
  hc_port_status : list Z;
  hc_resuming : bool;
  hc_re_timeout : Z;
  hc_seqnum : Z;
  hc_vdev : list vhci_device;
  hc_privs : gmap positive vhci_priv;
  hc_hw_accessible : bool;
  hc_suspended : bool
}.
#[export] Instance set_hc_port_status : Setter hc_port_status := fun v r => mkVhci v (hc_resuming r) (hc_re_timeout r) (hc_seqnum r) (hc_vdev r) (hc_privs r) (hc_hw_accessible r) (hc_suspended r).
#[global] Arguments set_hc_port_status _ _ /.
#[export] Instance set_hc_resuming : Setter hc_resuming := fun v r => mkVhci (hc_port_status r) v (hc_re_timeout r) (hc_seqnum r) (hc_vdev r) (hc_privs r) (hc_hw_accessible r) (hc_suspended r).
#[global] Arguments set_hc_resuming _ _ /.
#[export] Instance set_hc_re_timeout : Setter hc_re_timeout := fun v r => mkVhci (hc_port_status r) (hc_resuming r) v (hc_seqnum r) (hc_vdev r) (hc_privs r) (hc_hw_accessible r) (hc_suspended r).
#[global] Arguments set_hc_re_timeout _ _ /.
#[export] Instance set_hc_seqnum : Setter hc_seqnum := fun v r => mkVhci (hc_port_status r) (hc_resuming r) (hc_re_timeout r) v (hc_vdev r) (hc_privs r) (hc_hw_accessible r) (hc_suspended r).
#[global] Arguments set_hc_seqnum _ _ /.
#[export] Instance set_hc_vdev : Setter hc_vdev := fun v r => mkVhci (hc_port_status r) (hc_resuming r) (hc_re_timeout r) (hc_seqnum r) v (hc_privs r) (hc_hw_accessible r) (hc_suspended r).
#[global] Arguments set_hc_vdev _ _ /.
#[export] Instance set_hc_privs : Setter hc_privs := fun v r => mkVhci (hc_port_status r) (hc_resuming r) (hc_re_timeout r) (hc_seqnum r) (hc_vdev r) v (hc_hw_accessible r) (hc_suspended r).
#[global] Arguments set_hc_privs _ _ /.
#[export] Instance set_hc_hw_accessible : Setter hc_hw_accessible := fun v r => mkVhci (hc_port_status r) (hc_resuming r) (hc_re_timeout r) (hc_seqnum r) (hc_vdev r) (hc_privs r) v (hc_suspended r).
#[global] Arguments set_hc_hw_accessible _ _ /.
#[export] Instance set_hc_suspended : Setter hc_suspended := fun v r => mkVhci (hc_port_status r) (hc_resuming r) (hc_re_timeout r) (hc_seqnum r) (hc_vdev r) (hc_privs r) (hc_hw_accessible r) v.
#[global] Arguments set_hc_suspended _ _ /.


#[export] Program Instance vhci_has_ud : HasUd vhci_device := {|
  the_ud := vd_ud;
  put_ud u s := s <| vd_ud := u |>;
  ud_owner := 1
|}.
Solve All Obligations with by intros; repeat match goal with s : vhci_device |- _ => destruct s end.

(** Time: the tick rate is the kernel's configuration. *)
Class Jiffies := msecs_to_jiffies : Z -> Z.

(** [time_after(a, b)] on [unsigned long]. *)
Definition time_after (a b : Z) : bool := s64 (b - a) <? 0.

Section vdev.
Notation M := (M vhci_hcd).

(** Code acting on the device of one port, [port_to_vdev(port)]. *)
Definition on_vdev {A} (port : nat) (m : Kernel.M vhci_device A) : M A := fun h k =>
  match hc_vdev h !! port with
  | None => Crash OutOfBounds
  | Some s =>
      match m s k with
      | Ok (a, s', k') => Ok (a, h <| hc_vdev := <[port := s']> (hc_vdev h) |>, k')
      | Crash b => Crash b
      end
  end.

Definition get_port_vdev (port : nat) : M vhci_device := on_vdev port get.

Definition get_vpriv (p : positive) : M vhci_priv :=
  ps ← gets hc_privs; of_option UseAfterFree (ps !! p).
Definition free_vpriv (p : positive) : M unit :=
  _ ← get_vpriv p;
  modify (fun h => h <| hc_privs := delete p (hc_privs h) |>).

(** [list_del(&priv->list)] *)
Definition unlink_vpriv (port : nat) (p : positive) : M unit :=
  on_vdev port (modify (fun v =>
    v <| vd_priv_tx := remove_id p (vd_priv_tx v) |>
      <| vd_priv_rx := remove_id p (vd_priv_rx v) |>)).

(** [atomic_inc_return] on a 32-bit counter, stored in an [unsigned long]. *)
Definition next_seqnum `{Env} : M Z :=
  modify (fun h => h <| hc_seqnum := s32 (hc_seqnum h + 1) |>);;
  n ← gets hc_seqnum;
  mret (u64 n).

(** The array element [i], an index computed as an [int]. *)
Definition get_port_status (rhport : Z) : M Z :=
  if rhport <? 0 then crash OutOfBounds
  else ps ← gets hc_port_status; of_option OutOfBounds (ps !! Z.to_nat rhport).
Definition set_port_status (rhport v : Z) : M unit :=
  _ ← get_port_status rhport;
  modify (fun h => h <| hc_port_status :=
    <[Z.to_nat rhport := u32 v]> (hc_port_status h) |>).
End vdev.

(** ** The root hub *)

Definition USB_PORT_STAT_CONNECTION := 1.
Definition USB_PORT_STAT_ENABLE := 2.
Definition USB_PORT_STAT_SUSPEND := 4.
Definition USB_PORT_STAT_LOW_SPEED := 512.
Definition USB_PORT_STAT_HIGH_SPEED := 1024.
Definition USB_PORT_STAT_C_CONNECTION := 1.
Definition USB_PORT_STAT_C_ENABLE := 2.
Definition USB_PORT_STAT_C_SUSPEND := 4.
Definition USB_PORT_STAT_C_OVERCURRENT := 8.
Definition USB_PORT_STAT_C_RESET := 16.
Definition USB_PORT_FEAT_SUSPEND := 2.
Definition USB_PORT_FEAT_POWER := 8.
Definition USB_PORT_FEAT_C_CONNECTION := 16.
Definition USB_PORT_FEAT_C_SUSPEND := 18.
Definition USB_PORT_FEAT_C_RESET := 20.

Definition ClearHubFeature := 8193.
Definition ClearPortFeature := 8961.
Definition GetHubDescriptor := 40966.
Definition GetHubStatus := 40960.
Definition GetPortStatus := 41728.
Definition SetHubFeature := 8195.
Definition SetPortFeature := 8963.

Definition PORT_C_MASK : Z :=
  Z.shiftl (Z.lor USB_PORT_STAT_C_CONNECTION
    (Z.lor USB_PORT_STAT_C_ENABLE (Z.lor USB_PORT_STAT_C_SUSPEND
      (Z.lor USB_PORT_STAT_C_OVERCURRENT USB_PORT_STAT_C_RESET)))) 16.

(** [1 << n] on a 32-bit [int]. *)
Definition bit (n : Z) : Z := Z.shiftl 1 n.

(** Set and clear bits of a 32-bit register. *)
Definition set_bits (x m : Z) : Z := Z.lor x m.
Definition clear_bits (x m : Z) : Z := Z.land x (Z.lnot m).

Definition speed_bits (speed : Z) : Z :=
  if speed =? USB_SPEED_HIGH then USB_PORT_STAT_HIGH_SPEED
  else if speed =? USB_SPEED_LOW then USB_PORT_STAT_LOW_SPEED
  else 0.

Section root_hub.
Context `{Env} `{Arch} `{Jiffies}.
Notation M := (M vhci_hcd).

Definition update_port (rhport : Z) (f : Z -> Z) : M unit :=
  v ← get_port_status rhport; set_port_status rhport (f v).

Definition rh_port_connect (rhport speed : Z) : M unit :=
  spin_lock LockController;;
  update_port rhport (fun v =>
    set_bits v (Z.lor USB_PORT_STAT_CONNECTION (bit USB_PORT_FEAT_C_CONNECTION)));;
  update_port rhport (fun v => set_bits v (speed_bits speed));;
  spin_unlock LockController;;
  ext_do CPollRhStatus.

Definition rh_port_disconnect (rhport : Z) : M unit :=
  spin_lock LockController;;
  update_port rhport (fun v => clear_bits v USB_PORT_STAT_CONNECTION);;
  update_port rhport (fun v => set_bits v (bit USB_PORT_FEAT_C_CONNECTION));;
  spin_unlock LockController;;
  ext_do CPollRhStatus.

(** The bitmap of changed ports, from port [rhport] on: bit [rhport + 1]. *)
Fixpoint changed_ports (rhport : Z) (ps : list Z) (buf : list Z) : list Z * bool :=
  match ps with
  | [] => (buf, false)
  | p :: ps' =>
      if has_bits p PORT_C_MASK then
        let i := Z.to_nat ((rhport + 1) / 8) in
        let buf := alter (fun b => Z.lor b (bit ((rhport + 1) mod 8))) i buf in
        ((changed_ports (rhport + 1) ps' buf).1, true)
      else changed_ports (rhport + 1) ps' buf
  end.

(** The number of bytes, or 0, and the buffer. *)
Definition vhci_hub_status : M (Z * list Z) :=
  let retval := (Z.of_nat VHCI_NPORTS + 1 + 7) / 8 in
  let buf := replicate (Z.to_nat retval) 0 in
  spin_lock LockController;;
  h ← get;
  if negb (hc_hw_accessible h) then
    spin_unlock LockController;; mret (0, buf)
  else
    let '(buf, changed) := changed_ports 0 (hc_port_status h) buf in
    (if hc_suspended h && changed then ext_do CResumeRootHub else mret tt);;
    spin_unlock LockController;;
    mret (if changed : bool then retval else 0, buf).

(** The bytes of [struct usb_hub_descriptor] the driver fills in. *)
Definition hub_descriptor : list Z :=
  [9; 41; Z.of_nat VHCI_NPORTS; 1; 0; 0; 0; 255; 255].

Definition jiffies : M Z := ext_ret CJiffies.

(** A shift count of 32 or more is undefined. *)
Definition shift_bit (wValue : Z) : M Z :=
  if wValue <? 32 then mret (bit wValue) else crash BadShift.

Definition clear_port_feature (wValue rhport : Z) : M unit :=
  if wValue =? USB_PORT_FEAT_SUSPEND then
    v ← get_port_status rhport;
    if has_bits v USB_PORT_STAT_SUSPEND then
      now ← jiffies;
      modify (fun h => h <| hc_resuming := true |>
                         <| hc_re_timeout := u64 (now + msecs_to_jiffies 20) |>)
    else mret tt
  else if wValue =? USB_PORT_FEAT_POWER then
    set_port_status rhport 0;;
    modify (fun h => h <| hc_resuming := false |>)
  else
    (if wValue =? USB_PORT_FEAT_C_RESET then
       _ ← get_port_status rhport;
       v ← get_port_vdev (Z.to_nat rhport);
       update_port rhport (fun x => set_bits x (speed_bits (vd_speed v)))
     else mret tt);;
    m ← shift_bit wValue;
    update_port rhport (fun x => clear_bits x m).

(** The reply bytes: status and change halves, little-endian. *)
Definition get_port_status_reply (rhport : Z) : M (list Z) :=
  h ← get;
  (if hc_resuming h then
     now ← jiffies;
     if time_after now (hc_re_timeout h) then
       update_port rhport (fun x => set_bits x (bit USB_PORT_FEAT_C_SUSPEND));;
       update_port rhport (fun x => clear_bits x (bit USB_PORT_FEAT_SUSPEND));;
       modify (fun h => h <| hc_resuming := false |> <| hc_re_timeout := 0 |>)
     else mret tt
   else mret tt);;
  x ← get_port_status rhport;
  (if has_bits x (bit USB_PORT_FEAT_RESET) then
     now ← jiffies;
     h ← get;
     if time_after now (hc_re_timeout h) then
       update_port rhport (fun x => set_bits x (bit USB_PORT_FEAT_C_RESET));;
       update_port rhport (fun x => clear_bits x (bit USB_PORT_FEAT_RESET));;
       modify (fun h => h <| hc_re_timeout := 0 |>);;
       v ← get_port_vdev (Z.to_nat rhport);
       if bool_decide (ud_status (vd_ud v) = VDEV_ST_NOTASSIGNED) then
         update_port rhport (fun x => set_bits x USB_PORT_STAT_ENABLE)
       else mret tt
     else mret tt
   else mret tt);;
  x ← get_port_status rhport;
  mret (le_bytes 4 x).

Definition set_port_feature (wValue rhport : Z) : M unit :=
  if wValue =? USB_PORT_FEAT_SUSPEND then mret tt
  else
    (if wValue =? USB_PORT_FEAT_RESET then
       x ← get_port_status rhport;
       (if has_bits x USB_PORT_STAT_ENABLE then
          update_port rhport (fun x =>
            clear_bits x (Z.lor USB_PORT_STAT_ENABLE
              (Z.lor USB_PORT_STAT_LOW_SPEED USB_PORT_STAT_HIGH_SPEED)))
        else mret tt);;
       now ← jiffies;
       modify (fun h => h <| hc_re_timeout := u64 (now + msecs_to_jiffies 50) |>)
     else mret tt);;
    m ← shift_bit wValue;
    update_port rhport (fun x => set_bits x m).

(** The result and, for the requests that read, the bytes of [buf]. *)
Definition vhci_hub_control (typeReq wValue wIndex : Z) : M (Z * list Z) :=
  h ← get;
  if negb (hc_hw_accessible h) then mret (- ETIMEDOUT, [])
  else
    let rhport := Z.land wIndex 255 - 1 in
    spin_lock LockController;;
    r ← (if typeReq =? ClearHubFeature then mret (0, [])
         else if typeReq =? ClearPortFeature then
           clear_port_feature wValue rhport;; mret (0, [])
         else if typeReq =? GetHubDescriptor then mret (0, hub_descriptor)
         else if typeReq =? GetHubStatus then mret (0, [0; 0; 0; 0])
         else if typeReq =? GetPortStatus then
           let retval := if (wIndex >? Z.of_nat VHCI_NPORTS) || (wIndex <? 1)
                         then - EPIPE else 0 in
           out ← get_port_status_reply rhport;
           mret (retval, out)
         else if typeReq =? SetHubFeature then mret (- EPIPE, [])
         else if typeReq =? SetPortFeature then
           set_port_feature wValue rhport;; mret (0, [])
         else mret (- EPIPE, []));
    spin_unlock LockController;;
    mret r.

Definition vhci_get_frame_number : M Z := mret 0.

Definition vhci_bus_suspend : M Z :=
  spin_lock LockController;;
  modify (fun h => h <| hc_suspended := true |>);;
  spin_unlock LockController;;
  mret 0.

Definition vhci_bus_resume : M Z :=
  spin_lock LockController;;
  h ← get;
  rc ← (if negb (hc_hw_accessible h) then mret (- ESHUTDOWN)
        else modify (fun h => h <| hc_suspended := false |>);; mret 0);
  spin_unlock LockController;;
  mret rc.

Definition connected_ports (ps : list Z) : Z :=
  Z.of_nat (length (filter (fun p => has_bits p USB_PORT_STAT_CONNECTION = true) ps)).

Definition vhci_hcd_suspend : M Z :=
  spin_lock LockController;;
  h ← get;
  let connected := connected_ports (hc_port_status h) in
  spin_unlock LockController;;
  if connected >? 0 then mret (- EBUSY)
  else modify (fun h => h <| hc_hw_accessible := false |>);; mret 0.

Definition vhci_hcd_resume : M Z :=
  modify (fun h => h <| hc_hw_accessible := true |>);;
  ext_do CPollRhStatus;;
  mret 0.
End root_hub.
