(* ===== verification/VhciRx.v ===== *)
(** * The controller's receiver

    [vhci_rx.c]: results of submissions and unlinks arrive from the server;
    the URB each belongs to is looked up by sequence number and given back to
    the USB core.  The code acts on the device of one port. *)
From S2P Require Import Prelude Kernel Wire Event Xfer Vhci.

Definition LOCK_VPRIV := LockPriv 1.

Section vhci_rx.
Context `{Env} `{Arch} `{UsbPipes}.
Variable port : nat.
Notation M := (M vhci_hcd).

(** The first [vhci_priv] of the queue with this sequence number. *)
Fixpoint find_vpriv (privs : gmap positive vhci_priv) (sq : Z) (q : list positive)
    : option (positive * vhci_priv) :=
  match q with
  | [] => None
  | p :: q' =>
      match privs !! p with
      | Some x => if vp_seqnum x =? sq then Some (p, x) else find_vpriv privs sq q'
      | None => None
      end
  end.

(** Called with [priv_lock] held.  The sequence number is a [__u32]. *)
Definition pickup_urb_and_free_priv (sq : Z) : M (option positive) :=
  v ← get_port_vdev port;
  privs ← gets hc_privs;
  match find_vpriv privs sq (vd_priv_rx v) with
  | None => mret None
  | Some (p, x) =>
      _ ← get_urb (vp_urb x);
      unlink_vpriv port p;;
      free_vpriv p;;
      modify_urb (vp_urb x) (fun r => r <| urb_hcpriv := None |>);;
      mret (Some (vp_urb x))
  end.

(** Unlink the URB from its endpoint and hand it to its driver. *)
Definition unlink_and_giveback (u : positive) : M unit :=
  spin_lock LockController;;
  ext_do (CUnlinkUrbFromEp u);;
  spin_unlock LockController;;
  r ← get_urb u;
  ext_do (CGivebackUrb u (urb_status r)).

Definition vhci_recv_ret_submit (pdu : usbip_header) : M unit :=
  spin_lock LOCK_VPRIV;;
  urb ← pickup_urb_and_free_priv (seqnum (h_base pdu));
  spin_unlock LOCK_VPRIV;;
  match urb with
  | None => on_vdev port (usbip_event_add VDEV_EVENT_ERROR_TCP)
  | Some u =>
      modify_urb u (fun r => (usbip_pack_pdu pdu r USBIP_RET_SUBMIT false).2);;
      ret ← on_vdev port (usbip_recv_xbuff u);
      if ret <? 0 then mret tt
      else
        ret ← on_vdev port (usbip_recv_iso u);
        if ret <? 0 then mret tt
        else
          on_vdev port (usbip_pad_iso u);;
          unlink_and_giveback u
  end.

Fixpoint take_unlink (sq : Z) (q : list vhci_unlink) : option (vhci_unlink * list vhci_unlink) :=
  match q with
  | [] => None
  | x :: q' =>
      if vu_seqnum x =? sq then Some (x, q')
      else match take_unlink sq q' with
           | Some (y, q'') => Some (y, x :: q'')
           | None => None
           end
  end.

Definition dequeue_pending_unlink (pdu : usbip_header) : M (option vhci_unlink) :=
  spin_lock LOCK_VPRIV;;
  v ← get_port_vdev port;
  match take_unlink (seqnum (h_base pdu)) (vd_unlink_rx v) with
  | Some (x, q) =>
      on_vdev port (modify (fun v => v <| vd_unlink_rx := q |>));;
      spin_unlock LOCK_VPRIV;;
      mret (Some x)
  | None => spin_unlock LOCK_VPRIV;; mret None
  end.

Definition vhci_recv_ret_unlink (pdu : usbip_header) : M unit :=
  unlink ← dequeue_pending_unlink pdu;
  match unlink with
  | None => mret tt
  | Some x =>
      spin_lock LOCK_VPRIV;;
      urb ← pickup_urb_and_free_priv (u32 (vu_unlink_seqnum x));
      spin_unlock LOCK_VPRIV;;
      match urb with
      | None => mret tt
      | Some u =>
          modify_urb u (fun r => r <| urb_status := ru_status (u_ret_unlink (h_u pdu)) |>);;
          unlink_and_giveback u
      end
  end.

(** Despite its name, it looks at [priv_rx]. *)
Definition vhci_priv_tx_empty : M bool :=
  spin_lock LOCK_VPRIV;;
  v ← get_port_vdev port;
  let empty := bool_decide (vd_priv_rx v = []) in
  spin_unlock LOCK_VPRIV;;
  mret empty.

Definition vhci_recv_header : M (Z * usbip_header) :=
  p ← alloc_block (replicate (Z.to_nat sizeof_header) 0);
  ret ← on_vdev port (sock ← gets (fun v => ud_tcp_socket (vd_ud v));
                      usbip_recv sock (Some p) sizeof_header);
  mem ← load_bytes p sizeof_header;
  kfree (Some p);;
  mret (ret, header_of_mem mem).

Definition vhci_rx_pdu : M unit :=
  '(ret, pdu) ← vhci_recv_header;
  if ret <? 0 then
    (if ret =? - EAGAIN then
       empty ← vhci_priv_tx_empty;
       if empty : bool then mret tt
       else on_vdev port (usbip_event_add VDEV_EVENT_ERROR_TCP)
     else on_vdev port (usbip_event_add VDEV_EVENT_ERROR_TCP))
  else if ret =? 0 then on_vdev port (usbip_event_add VDEV_EVENT_DOWN)
  else if negb (ret =? sizeof_header) then
    on_vdev port (usbip_event_add VDEV_EVENT_ERROR_TCP)
  else
    let pdu := usbip_header_correct_endian pdu false in
    if command (h_base pdu) =? USBIP_RET_SUBMIT then vhci_recv_ret_submit pdu
    else if command (h_base pdu) =? USBIP_RET_UNLINK then vhci_recv_ret_unlink pdu
    else on_vdev port (usbip_event_add VDEV_EVENT_ERROR_TCP).

(** [fuel] bounds the iterations of a thread that only stops when asked. *)
Fixpoint vhci_rx_loop (fuel : nat) : M Z :=
  match fuel with
  | O => crash OutOfFuel
  | S fuel' =>
      stop ← ext_ret CShouldStop;
      if negb (stop =? 0) then mret 0
      else
        happened ← on_vdev port usbip_event_happened;
        if happened : bool then mret 0
        else vhci_rx_pdu;; vhci_rx_loop fuel'
  end.
End vhci_rx.
