(* ===== verification/VhciTx.v ===== *)
(** * The controller's transmitter

    [vhci_tx.c]: the thread that sends the URBs and unlink requests queued on
    one port to the server. *)
From S2P Require Import Prelude Kernel Wire Event Xfer Vhci VhciRx.

Section vhci_tx.
Context `{Env} `{Arch} `{UsbPipes}.
Variable port : nat.
Notation M := (M vhci_hcd).

Definition setup_cmd_submit_pdu (pdup : usbip_header) (u : positive) : M usbip_header :=
  r ← get_urb u;
  p ← deref (urb_hcpriv r);
  priv ← get_vpriv p;
  vdev ← get_port_vdev (vp_vdev priv);
  let base := (h_base pdup)
    <| command := USBIP_CMD_SUBMIT |>
    <| seqnum := u32 (vp_seqnum priv) |>
    <| devid := vd_devid vdev |>
    <| direction := if usb_pipein (urb_pipe r) then USBIP_DIR_IN else USBIP_DIR_OUT |>
    <| ep := usb_pipeendpoint (urb_pipe r) |> in
  let pdup := (usbip_pack_pdu (pdup <| h_base := base |>) r USBIP_CMD_SUBMIT true).1 in
  match urb_setup_packet r with
  | None => mret pdup
  | Some s =>
      setup ← load_bytes s 8;
      mret (pdup <| h_u := (h_u pdup) <| w_setup := setup |> |>)
  end.

Definition dequeue_from_priv_tx : M (option positive) :=
  spin_lock LOCK_VPRIV;;
  v ← get_port_vdev port;
  match vd_priv_tx v with
  | p :: _ =>
      unlink_vpriv port p;;
      on_vdev port (modify (fun v => v <| vd_priv_rx := vd_priv_rx v ++ [p] |>));;
      spin_unlock LOCK_VPRIV;; mret (Some p)
  | [] => spin_unlock LOCK_VPRIV;; mret None
  end.

(** One iteration of the sending loop for the dequeued [p]; [None] on failure. *)
Definition vhci_send_one_cmd_submit (p : positive) : M (option Z) :=
  priv ← get_vpriv p;
  let u := vp_urb priv in
  r ← get_urb u;
  pdu_header ← setup_cmd_submit_pdu header_zero u;
  let pdu_header := usbip_header_correct_endian pdu_header true in
  data ← (if negb (usb_pipein (urb_pipe r)) && (urb_transfer_buffer_length r >? 0) then
            b ← deref (urb_transfer_buffer r);
            load_bytes b (urb_transfer_buffer_length r)
          else mret []);
  iso ← (if usb_pipetype (urb_pipe r) =? PIPE_ISOCHRONOUS then
           i ← on_vdev port (usbip_alloc_iso_desc_pdu u); mret (Some i)
         else mret None);
  match iso with
  | Some None => on_vdev port (usbip_event_add SDEV_EVENT_ERROR_MALLOC);; mret None
  | _ =>
      let iso_buffer := i ← iso; i ← i; Some (fst i) in
      let iso_len := default 0 (i ← iso; i ← i; Some (snd i)) in
      iso_data ← match iso_buffer with
                 | Some b => load_bytes b iso_len
                 | None => mret []
                 end;
      let txsize := sizeof_header + Z.of_nat (length data) + iso_len in
      v ← get_port_vdev port;
      sock ← deref (ud_tcp_socket (vd_ud v));
      ret ← ext_ret (CSendmsg sock (header_to_mem pdu_header ++ data ++ iso_data) txsize);
      kfree iso_buffer;;
      if negb (ret =? txsize) then
        on_vdev port (usbip_event_add VDEV_EVENT_ERROR_TCP);; mret None
      else mret (Some txsize)
  end.

Fixpoint vhci_send_cmd_submit_loop (fuel : nat) (total_size : Z) : M Z :=
  match fuel with
  | O => crash OutOfFuel
  | S fuel' =>
      p ← dequeue_from_priv_tx;
      match p with
      | None => mret (s32 total_size)
      | Some p =>
          sent ← vhci_send_one_cmd_submit p;
          match sent with
          | None => mret (-1)
          | Some txsize => vhci_send_cmd_submit_loop fuel' (total_size + txsize)
          end
      end
  end.
Definition vhci_send_cmd_submit : M Z :=
  v ← get_port_vdev port;
  vhci_send_cmd_submit_loop (S (length (vd_priv_tx v))) 0.

Definition dequeue_from_unlink_tx : M (option vhci_unlink) :=
  spin_lock LOCK_VPRIV;;
  v ← get_port_vdev port;
  match vd_unlink_tx v with
  | x :: q =>
      on_vdev port (modify (fun v => v <| vd_unlink_tx := q |>
                                       <| vd_unlink_rx := vd_unlink_rx v ++ [x] |>));;
      spin_unlock LOCK_VPRIV;; mret (Some x)
  | [] => spin_unlock LOCK_VPRIV;; mret None
  end.

Definition setup_cmd_unlink_pdu (vdevid : Z) (x : vhci_unlink) : usbip_header :=
  header_zero
    <| h_base := (h_base header_zero)
         <| command := USBIP_CMD_UNLINK |>
         <| seqnum := u32 (vu_seqnum x) |>
         <| devid := vdevid |>
         <| ep := 0 |> |>
    <| h_u := put_cmd_unlink (mkCmdUnlink (u32 (vu_unlink_seqnum x))) (h_u header_zero) |>.

Fixpoint vhci_send_cmd_unlink_loop (fuel : nat) (total_size : Z) : M Z :=
  match fuel with
  | O => crash OutOfFuel
  | S fuel' =>
      x ← dequeue_from_unlink_tx;
      match x with
      | None => mret (s32 total_size)
      | Some x =>
          v ← get_port_vdev port;
          let pdu_header :=
            usbip_header_correct_endian (setup_cmd_unlink_pdu (vd_devid v) x) true in
          sock ← deref (ud_tcp_socket (vd_ud v));
          ret ← ext_ret (CSendmsg sock (header_to_mem pdu_header) sizeof_header);
          if negb (ret =? sizeof_header) then
            on_vdev port (usbip_event_add VDEV_EVENT_ERROR_TCP);; mret (-1)
          else vhci_send_cmd_unlink_loop fuel' (total_size + sizeof_header)
      end
  end.
Definition vhci_send_cmd_unlink : M Z :=
  v ← get_port_vdev port;
  vhci_send_cmd_unlink_loop (S (length (vd_unlink_tx v))) 0.

(** [fuel] bounds the iterations of a thread that only stops when asked. *)
Fixpoint vhci_tx_loop (fuel : nat) : M Z :=
  match fuel with
  | O => crash OutOfFuel
  | S fuel' =>
      stop ← ext_ret CShouldStop;
      if negb (stop =? 0) then mret 0
      else
        r ← vhci_send_cmd_submit;
        if r <? 0 then mret 0
        else
          r ← vhci_send_cmd_unlink;
          if r <? 0 then mret 0
          else ext_do (CWaitEvent Q_TX);; vhci_tx_loop fuel'
  end.
End vhci_tx.
