(* ===== verification/VhciHcd.v ===== *)
(** * The host controller's operations

    The part of [vhci_hcd.c] below the root hub: the USB core enqueues and
    dequeues URBs; connections are shut down, reset and initialised. *)
From S2P Require Import Prelude Kernel Wire Event Xfer StubRx Vhci VhciRx.

Section vhci_hcd.
Context `{Env} `{Arch} `{UsbPipes} `{Jiffies}.
Notation M := (M vhci_hcd).

(** The first port whose device is [udev]. *)
Fixpoint get_vdev_from (i : nat) (vs : list vhci_device) (udev : positive) : option nat :=
  match vs with
  | [] => None
  | v :: vs' => if decide (vd_udev v = Some udev) then Some i
                else get_vdev_from (S i) vs' udev
  end.
Definition get_vdev (udev : option positive) : M (option nat) :=
  match udev with
  | None => mret None
  | Some d => h ← get; mret (get_vdev_from 0 (hc_vdev h) d)
  end.

Definition vhci_tx_urb (u : positive) : M unit :=
  r ← get_urb u;
  vdev ← get_vdev (urb_dev r);
  match vdev with
  | None => mret tt
  | Some port =>
      a ← ext_ret (CMalloc 40);
      if a =? 0 then on_vdev port (usbip_event_add VDEV_EVENT_ERROR_MALLOC)
      else
        spin_lock LOCK_VPRIV;;
        p ← kgets k_next;
        kmodify (fun k => k <| k_next := Pos.succ p |>);;
        sq ← next_seqnum;
        modify (fun h => h <| hc_privs := <[p := mkVhciPriv sq port u]> (hc_privs h) |>);;
        modify_urb u (fun r => r <| urb_hcpriv := Some p |>);;
        on_vdev port (modify (fun v => v <| vd_priv_tx := vd_priv_tx v ++ [p] |>));;
        ext_do (CWakeUp Q_TX);;
        spin_unlock LOCK_VPRIV
  end.

(** [if (vdev->udev) usb_put_dev(vdev->udev); vdev->udev = usb_get_dev(dev);] *)
Definition replace_udev (port : nat) (d : positive) : M unit :=
  v ← get_port_vdev port;
  match vd_udev v with Some d' => ext_do (CPutDev d') | None => mret tt end;;
  ext_do (CGetDev d);;
  on_vdev port (modify (fun v => v <| vd_udev := Some d |>)).

Definition urb_status_of (u : positive) : M Z := r ← get_urb u; mret (urb_status r).

(** The exits of the enqueue routine. *)
Definition enqueue_out (u : positive) : M Z :=
  vhci_tx_urb u;; spin_unlock LockController;; mret 0.
Definition enqueue_no_need_unlink (u : positive) (ret : Z) : M Z :=
  spin_unlock LockController;;
  st ← urb_status_of u;
  ext_do (CGivebackUrb u st);;
  mret ret.
Definition enqueue_no_need_xmit (u : positive) (ret : Z) : M Z :=
  ext_do (CUnlinkUrbFromEp u);; enqueue_no_need_unlink u ret.

Definition vhci_urb_enqueue (u : positive) : M Z :=
  r ← get_urb u;
  d ← deref (urb_dev r);
  dev ← get_udev d;
  if bool_decide (urb_transfer_buffer r = None) && negb (urb_transfer_buffer_length r =? 0)
  then crash BugOn
  else
    spin_lock LockController;;
    if negb (urb_status r =? - EINPROGRESS) then
      spin_unlock LockController;; mret (urb_status r)
    else
      port ← (if dev_portnum dev <? 1 then crash OutOfBounds
              else mret (Z.to_nat (dev_portnum dev - 1)));
      status ← on_vdev port (spin_lock (LockUd ud_owner);;
                             gets (fun v => ud_status (vd_ud v)));
      if bool_decide (status = VDEV_ST_NULL) || bool_decide (status = VDEV_ST_ERROR) then
        spin_unlock (LockUd 1);; spin_unlock LockController;; mret (- ENODEV)
      else
        spin_unlock (LockUd 1);;
        ret ← ext_ret (CLinkUrbToEp u);
        if negb (ret =? 0) then enqueue_no_need_unlink u ret
        else if usb_pipedevice (urb_pipe r) =? 0 then
          match urb_setup_packet r with
          | None => enqueue_no_need_xmit u (- EINVAL)
          | Some s =>
              if negb (usb_pipetype (urb_pipe r) =? PIPE_CONTROL) then
                enqueue_no_need_xmit u (- EINVAL)
              else
                mem ← load_bytes s 8;
                let ctrlreq := ctrlrequest_of_mem mem in
                if bRequest ctrlreq =? USB_REQ_SET_ADDRESS then
                  replace_udev port d;;
                  on_vdev port (spin_lock (LockUd ud_owner);;
                    modify_ud (fun ud => ud <| ud_status := VDEV_ST_USED |>);;
                    spin_unlock (LockUd ud_owner));;
                  st ← urb_status_of u;
                  (if st =? - EINPROGRESS then
                     modify_urb u (fun r => r <| urb_status := 0 |>)
                   else mret tt);;
                  enqueue_no_need_xmit u 0
                else if bRequest ctrlreq =? USB_REQ_GET_DESCRIPTOR then
                  replace_udev port d;;
                  enqueue_out u
                else enqueue_no_need_xmit u (- EINVAL)
          end
        else enqueue_out u.

Definition vhci_urb_dequeue (u : positive) (status : Z) : M Z :=
  spin_lock LockController;;
  r ← get_urb u;
  match urb_hcpriv r with
  | None => spin_unlock LockController;; mret 0
  | Some p =>
      ret ← ext_ret (CCheckUnlinkUrb u status);
      if negb (ret =? 0) then spin_unlock LockController;; mret ret
      else
        priv ← get_vpriv p;
        let port := vp_vdev priv in
        v ← get_port_vdev port;
        match ud_tcp_socket (vd_ud v) with
        | None =>
            spin_lock LOCK_VPRIV;;
            unlink_vpriv port p;;
            free_vpriv p;;
            modify_urb u (fun r => r <| urb_hcpriv := None |>);;
            spin_unlock LOCK_VPRIV;;
            ext_do (CUnlinkUrbFromEp u);;
            spin_unlock LockController;;
            st ← urb_status_of u;
            ext_do (CGivebackUrb u st);;
            spin_lock LockController;;
            spin_unlock LockController;;
            mret 0
        | Some _ =>
            spin_lock LOCK_VPRIV;;
            a ← ext_ret (CMalloc 40);
            if a =? 0 then
              spin_unlock LOCK_VPRIV;;
              spin_unlock LockController;;
              on_vdev port (usbip_event_add VDEV_EVENT_ERROR_MALLOC);;
              mret (- ENOMEM)
            else
              sq ← next_seqnum;
              on_vdev port (modify (fun v =>
                v <| vd_unlink_tx := vd_unlink_tx v ++ [mkVhciUnlink sq (vp_seqnum priv)] |>));;
              ext_do (CWakeUp Q_TX);;
              spin_unlock LOCK_VPRIV;;
              spin_unlock LockController;;
              mret 0
        end
  end.

(** Called with both locks held; it drops them around each giveback. *)
Fixpoint unlink_rx_cleanup (fuel : nat) (port : nat) : M unit :=
  match fuel with
  | O => crash OutOfFuel
  | S fuel' =>
      v ← get_port_vdev port;
      match vd_unlink_rx v with
      | [] => mret tt
      | x :: q =>
          urb ← pickup_urb_and_free_priv port (u32 (vu_unlink_seqnum x));
          match urb with
          | None => on_vdev port (modify (fun v => v <| vd_unlink_rx := q |>))
          | Some u =>
              modify_urb u (fun r => r <| urb_status := - ENODEV |>);;
              ext_do (CUnlinkUrbFromEp u);;
              on_vdev port (modify (fun v => v <| vd_unlink_rx := q |>));;
              spin_unlock LOCK_VPRIV;;
              spin_unlock LockController;;
              st ← urb_status_of u;
              ext_do (CGivebackUrb u st);;
              spin_lock LockController;;
              spin_lock LOCK_VPRIV
          end;;
          unlink_rx_cleanup fuel' port
      end
  end.

Definition vhci_device_unlink_cleanup (port : nat) : M unit :=
  spin_lock LockController;;
  spin_lock LOCK_VPRIV;;
  on_vdev port (modify (fun v => v <| vd_unlink_tx := [] |>));;
  v ← get_port_vdev port;
  unlink_rx_cleanup (S (length (vd_unlink_rx v))) port;;
  spin_unlock LOCK_VPRIV;;
  spin_unlock LockController.

(** The connection part of the shutdown, on the device alone. *)
Definition stop_connection : Kernel.M vhci_device unit :=
  ud ← gets vd_ud;
  match ud_tcp_socket ud with Some s => ext_do (CSockShutdown s) | None => mret tt end;;
  (if bool_decide (ud_tcp_rx ud = NoThread) then mret tt
   else kthread_stop T_RX (ud_tcp_rx ud);;
        modify_ud (fun ud => ud <| ud_tcp_rx := NoThread |>));;
  (if bool_decide (ud_tcp_tx ud = NoThread) then mret tt
   else kthread_stop T_TX (ud_tcp_tx ud);;
        modify_ud (fun ud => ud <| ud_tcp_tx := NoThread |>));;
  match ud_tcp_socket ud with
  | Some s => ext_do (CFput s);; modify_ud (fun ud => ud <| ud_tcp_socket := None |>)
  | None => mret tt
  end.

Definition vhci_shutdown_connection (port : nat) : M unit :=
  on_vdev port stop_connection;;
  vhci_device_unlink_cleanup port;;
  v ← get_port_vdev port;
  rh_port_disconnect (vd_rhport v).

Definition vhci_device_reset : Kernel.M vhci_device unit :=
  spin_lock (LockUd ud_owner);;
  modify (fun v => v <| vd_speed := 0 |> <| vd_devid := 0 |>);;
  v ← get;
  match vd_udev v with Some d => ext_do (CPutDev d) | None => mret tt end;;
  modify (fun v => v <| vd_udev := None |>);;
  match ud_tcp_socket (vd_ud v) with
  | Some s => ext_do (CFput s);; modify_ud (fun ud => ud <| ud_tcp_socket := None |>)
  | None => mret tt
  end;;
  modify_ud (fun ud => ud <| ud_status := VDEV_ST_NULL |>);;
  spin_unlock (LockUd ud_owner).

Definition vhci_device_unusable : Kernel.M vhci_device unit :=
  spin_lock (LockUd ud_owner);;
  modify_ud (fun ud => ud <| ud_status := VDEV_ST_ERROR |>);;
  spin_unlock (LockUd ud_owner).

(** The device's event bits live in the port; the handler runs on the
    controller because the shutdown gives back URBs and changes the hub. *)
Definition vhci_event_handler_body (port : nat) : M bool :=
  b ← on_vdev port (event_test USBIP_EH_SHUTDOWN);
  when_ b (vhci_shutdown_connection port;; on_vdev port (event_clear USBIP_EH_SHUTDOWN));;
  b ← on_vdev port (event_test USBIP_EH_RESET);
  when_ b (on_vdev port vhci_device_reset;; on_vdev port (event_clear USBIP_EH_RESET));;
  b ← on_vdev port (event_test USBIP_EH_UNUSABLE);
  when_ b (on_vdev port vhci_device_unusable;; on_vdev port (event_clear USBIP_EH_UNUSABLE));;
  on_vdev port (event_test USBIP_EH_BYE).

Fixpoint vhci_event_handler (fuel : nat) (port : nat) : M Z :=
  match fuel with
  | O => crash OutOfFuel
  | S fuel' =>
      happened ← on_vdev port usbip_event_happened;
      if happened : bool then
        bye ← vhci_event_handler_body port;
        if bye : bool then mret (-1) else vhci_event_handler fuel' port
      else mret 0
  end.

(** [memset] and initialisation; the rhport is set by the caller. *)
Definition vhci_device_init (port : nat) : M unit :=
  a ← kgets k_next;
  kmodify (fun k => k <| k_next := Pos.succ a |>
                      <| k_nodes := <[a := (a, a)]> (k_nodes k) |>);;
  on_vdev port (
    modify (fun _ => mkVdev None 0 0 0
      (mkUd USBIP_VHCI VDEV_ST_NULL None NoThread NoThread 0 NoThread a ∅) [] [] [] []);;
    usbip_start_eh;; mret tt).

Fixpoint vhci_start_loop (rhport n : nat) : M unit :=
  match n with
  | O => mret tt
  | S n' =>
      vhci_device_init rhport;;
      on_vdev rhport (modify (fun v => v <| vd_rhport := Z.of_nat rhport |>));;
      vhci_start_loop (S rhport) n'
  end.

Definition vhci_start : M Z :=
  vhci_start_loop 0 VHCI_NPORTS;;
  modify (fun h => h <| hc_seqnum := 0 |>);;
  ext_ret (CCreateFile 3).

Fixpoint vhci_stop_loop (rhport n : nat) : M unit :=
  match n with
  | O => mret tt
  | S n' =>
      on_vdev rhport (usbip_event_add VDEV_EVENT_REMOVED);;
      (r ← ext_ret (CSchedule T_EH);
       if r =? 0 then mret tt else vhci_event_handler 2 rhport;; mret tt);;
      on_vdev rhport (usbip_stop_eh false);;
      vhci_stop_loop (S rhport) n'
  end.
Definition vhci_stop : M unit :=
  ext_do (CRemoveFile 3);; vhci_stop_loop 0 VHCI_NPORTS.
End vhci_hcd.
