(* ===== verification/VhciModule.v ===== *)
(** * The host controller as a platform device

    The beginning and the end of [vhci_hcd.c]: the module registers a driver and
    its one device with the platform bus; the driver's [probe] creates the host
    controller and adds it to the USB core, which starts it, and [remove] takes it
    away again, whereby the core stops it.  The core and the bus are the
    environment. *)
From S2P Require Import Prelude Kernel Wire Event Xfer StubRx Vhci VhciRx VhciHcd.

Local Open Scope Z_scope.

(** The private memory of a controller just created, which is zero; the ports are
    initialised by [vhci_start] before anything reads them. *)
Definition vdev_new : vhci_device :=
  mkVdev None 0 0 0 (mkUd USBIP_STUB SDEV_ST_AVAILABLE None NoThread NoThread 0 NoThread 1 ∅) [] [] [] [].
Definition hcd_new : vhci_hcd :=
  mkVhci (replicate VHCI_NPORTS 0) false 0 0 (replicate VHCI_NPORTS vdev_new) ∅ false false.

(** The controller the platform device carries while it lives, [has_tt] of it, and
    whether [the_controller] points to it. *)
Record vhci_module := mkModule {
  mo_hcd : option vhci_hcd;
  mo_has_tt : bool;
  mo_the_controller : bool
}.
#[export] Instance set_mo_hcd : Setter mo_hcd := fun v r => mkModule v (mo_has_tt r) (mo_the_controller r).
#[global] Arguments set_mo_hcd _ _ /.
#[export] Instance set_mo_has_tt : Setter mo_has_tt := fun v r => mkModule (mo_hcd r) v (mo_the_controller r).
#[global] Arguments set_mo_has_tt _ _ /.
#[export] Instance set_mo_the_controller : Setter mo_the_controller := fun v r => mkModule (mo_hcd r) (mo_has_tt r) v.
#[global] Arguments set_mo_the_controller _ _ /.


Section vhci_module.
Context `{Env} `{Arch} `{UsbPipes} `{Jiffies}.
Notation M := (M vhci_module).

(** Code of the driver on the controller. *)
Definition on_hcd {A} (m : Kernel.M vhci_hcd A) : M A := fun s k =>
  match mo_hcd s with
  | None => Crash NullDeref
  | Some h =>
      match m h k with
      | Ok (a, h', k') => Ok (a, s <| mo_hcd := Some h' |>, k')
      | Crash b => Crash b
      end
  end.

(** *** The USB core *)

Definition usb_create_hcd : M bool :=
  r ← ext_ret (CHcd HcdCreate);
  if r =? 0 then mret false
  else modify (fun s => s <| mo_hcd := Some hcd_new |> <| mo_has_tt := false |>);; mret true.
(** The last reference: the memory is freed. *)
Definition usb_put_hcd : M unit :=
  ext_do (CHcd HcdPut);;
  modify (fun s => s <| mo_hcd := None |>).
(** The core may fail before it calls [start] (the answer then is alone), or after
    it, and then calls [stop]; a failure of [start] is its result. *)
Definition usb_add_hcd : M Z :=
  '(ret, started) ← ext (CHcd HcdAdd);
  match started with
  | [] => mret ret
  | _ =>
      on_hcd (modify (fun h => h <| hc_hw_accessible := true |>));;
      r ← on_hcd vhci_start;
      if negb (r =? 0) then mret r
      else if negb (ret =? 0) then on_hcd vhci_stop;; mret ret
      else mret 0
  end.
Definition usb_remove_hcd : M unit :=
  ext_do (CHcd HcdRemove);;
  on_hcd vhci_stop.

(** *** The driver *)

Definition vhci_hcd_probe (dma_mask : bool) : M Z :=
  if dma_mask then mret (- EINVAL)
  else
    created ← usb_create_hcd;
    if negb (created : bool) then mret (- ENOMEM)
    else
      modify (fun s => s <| mo_has_tt := true |> <| mo_the_controller := true |>);;
      ret ← usb_add_hcd;
      if negb (ret =? 0) then
        usb_put_hcd;;
        modify (fun s => s <| mo_the_controller := false |>);;
        mret ret
      else mret 0.

Definition vhci_hcd_remove : M Z :=
  s ← get;
  match mo_hcd s with
  | None => mret 0
  | Some _ =>
      usb_remove_hcd;;
      usb_put_hcd;;
      modify (fun s => s <| mo_the_controller := false |>);;
      mret 0
  end.

(** *** The module *)

Definition vhci_hcd_init : M Z :=
  disabled ← ext_ret (CHcd UsbDisabled);
  if negb (disabled =? 0) then mret (- ENODEV)
  else
    ret ← ext_ret (CHcd PlatformDriverRegister);
    if ret <? 0 then mret ret
    else
      ret ← ext_ret (CHcd PlatformDeviceRegister);
      if ret <? 0 then ext_do (CHcd PlatformDriverUnregister);; mret ret
      else mret ret.
Definition vhci_hcd_exit : M unit :=
  ext_do (CHcd PlatformDeviceUnregister);;
  ext_do (CHcd PlatformDriverUnregister).
End vhci_module.
