(* ===== verification/VhciSysfs.v ===== *)
(** * The controller's sysfs files

    [vhci_sysfs.c]: user space reads the state of the ports, attaches a remote
    device by writing a port, a connected socket, the device's id and its
    speed, and detaches it. *)
From S2P Require Import Prelude CLib Kernel Wire Event Xfer Vhci.

(** How the kernel prints a pointer and what it names a device. *)
Class SysfsNames := {
  fmt_ptr : Z -> list Z;
  dev_name : positive -> list Z
}.

Section vhci_sysfs.
Context `{Env} `{Arch} `{Jiffies} `{SysfsNames}.
Notation M := (M vhci_hcd).

(** "prt sta spd bus dev socket           local_busid\n" *)
Definition status_header : list Z :=
  [112; 114; 116; 32; 115; 116; 97; 32; 115; 112; 100; 32; 98; 117; 115; 32;
   100; 101; 118; 32; 115; 111; 99; 107; 101; 116; 32; 32; 32; 32; 32; 32; 32;
   32; 32; 32; 32; 108; 111; 99; 97; 108; 95; 98; 117; 115; 105; 100; 10].

(** "000 000 000 0000000000000000 0-0" *)
Definition status_unused : list Z :=
  replicate 3 48 ++ [32] ++ replicate 3 48 ++ [32] ++ replicate 3 48 ++ [32] ++
  replicate 16 48 ++ [32] ++ [48; 45; 48].

Definition status_line (i : nat) : Kernel.M vhci_device (list Z) :=
  spin_lock (LockUd ud_owner);;
  v ← get;
  let st := ud_status (vd_ud v) in
  let head := pad0 3 (print_u (Z.of_nat i)) ++ [32] ++ pad0 3 (print_u (status_num st)) ++ [32] in
  tail ← (if bool_decide (st = VDEV_ST_USED) then
            d ← deref (vd_udev v);
            mret (pad0 3 (print_u (vd_speed v)) ++ [32] ++ pad0 8 (print_x (vd_devid v)) ++ [32]
                  ++ fmt_ptr (default 0 (ud_tcp_socket (vd_ud v))) ++ [32] ++ dev_name d)
          else mret status_unused);
  spin_unlock (LockUd ud_owner);;
  mret (head ++ tail ++ [10]).

Fixpoint status_lines (i n : nat) : M (list Z) :=
  match n with
  | O => mret []
  | S n' =>
      line ← on_vdev i (status_line i);
      rest ← status_lines (S i) n';
      mret (line ++ rest)
  end.

Definition show_status : M (list Z) :=
  spin_lock LockController;;
  lines ← status_lines 0 VHCI_NPORTS;
  spin_unlock LockController;;
  mret (status_header ++ lines).

Definition vhci_port_disconnect (rhport : nat) : M Z :=
  spin_lock LockController;;
  status ← on_vdev rhport (spin_lock (LockUd ud_owner);;
                           gets (fun v => ud_status (vd_ud v)));
  if bool_decide (status = VDEV_ST_NULL) then
    spin_unlock (LockUd 1);; spin_unlock LockController;; mret (- EINVAL)
  else
    spin_unlock (LockUd 1);;
    spin_unlock LockController;;
    on_vdev rhport (usbip_event_add VDEV_EVENT_DOWN);;
    mret 0.

Definition store_detach (buf : list Z) (count : Z) : M Z :=
  let rhport := nth 0 (scan_us 1 buf) 0 in
  if rhport >=? Z.of_nat VHCI_NPORTS then mret (- EINVAL)
  else
    err ← vhci_port_disconnect (Z.to_nat rhport);
    mret (if err <? 0 then - EINVAL else count).

Definition valid_args (rhport speed : Z) : Z :=
  if rhport >=? Z.of_nat VHCI_NPORTS then - EINVAL
  else if (speed =? USB_SPEED_LOW) || (speed =? USB_SPEED_FULL)
          || (speed =? USB_SPEED_HIGH) || (speed =? USB_SPEED_WIRELESS) then 0
  else - EINVAL.

Definition store_attach (buf : list Z) (count : Z) : M Z :=
  let args := scan_us 4 buf in
  let rhport := nth 0 args 0 in
  let sockfd := s32 (nth 1 args 0) in
  let devid := nth 2 args 0 in
  let speed := nth 3 args 0 in
  if valid_args rhport speed <? 0 then mret (- EINVAL)
  else
    let port := Z.to_nat rhport in
    socket ← on_vdev port (sockfd_to_socket (u32 sockfd));
    match socket with
    | None => mret (- EINVAL)
    | Some s =>
        spin_lock LockController;;
        status ← on_vdev port (spin_lock (LockUd ud_owner);;
                               gets (fun v => ud_status (vd_ud v)));
        if bool_decide (status <> VDEV_ST_NULL) then
          spin_unlock (LockUd 1);;
          spin_unlock LockController;;
          ext_do (CFput s);;
          mret (- EINVAL)
        else
          on_vdev port (
            modify (fun v => v <| vd_devid := devid |> <| vd_speed := speed |>);;
            modify_ud (fun ud => ud <| ud_tcp_socket := Some s |>
                                    <| ud_status := VDEV_ST_NOTASSIGNED |>));;
          spin_unlock (LockUd 1);;
          spin_unlock LockController;;
          on_vdev port (
            rx ← kthread_run T_RX;
            modify_ud (fun ud => ud <| ud_tcp_rx := rx |>);;
            tx ← kthread_run T_TX;
            modify_ud (fun ud => ud <| ud_tcp_tx := tx |>));;
          rh_port_connect rhport speed;;
          mret count
    end.
End vhci_sysfs.
