(* ===== verification/NetWire.v ===== *)
(** * The messages of the user-space tools

    [libsrc/usbip_struct.h] and the packing routines of [src/usbip_network.c]:
    the records the tools and the daemon exchange before a connection is handed
    to the kernel.  A record is packed in place, sent as the memory it occupies,
    received into memory and unpacked in place; [NetStruct] is what the rest of
    the tools rely on: between machines of any byte order nothing changes. *)
From S2P Require Import Prelude Wire Kernel.

Definition is_u16 (x : Z) : Prop := 0 <= x < 2 ^ 16.

Definition USBIP_VERSION := 273.

Definition OP_REQUEST := 32768.
Definition OP_REPLY := 0.
Definition OP_UNSPEC := 0.
Definition OP_DEVINFO := 2.
Definition OP_REQ_DEVINFO := 32770.
Definition OP_IMPORT := 3.
Definition OP_REQ_IMPORT := 32771.
Definition OP_REP_IMPORT := 3.
Definition OP_CRYPKEY := 4.
Definition OP_REQ_CRYPKEY := 32772.
Definition OP_DEVLIST := 5.
Definition OP_REQ_DEVLIST := 32773.
Definition OP_REP_DEVLIST := 5.
Definition ST_OK := 0.
Definition ST_NA := 1.

Definition SYSFS_PATH_MAX : nat := 256.
Definition SYSFS_BUS_ID_SIZE : nat := 32.

(** ** Records *)

Record op_common := mkOp {
  op_version : Z;
  op_code : Z;
  op_status : Z
}.

Record usbip_usb_interface := mkUif {
  bInterfaceClass : Z;
  bInterfaceSubClass : Z;
  bInterfaceProtocol : Z;
  uif_padding : Z
}.

Record usbip_usb_device := mkUusb {
  uu_path : list Z;
  uu_busid : list Z;
  uu_busnum : Z;
  uu_devnum : Z;
  uu_speed : Z;
  uu_idVendor : Z;
  uu_idProduct : Z;
  uu_bcdDevice : Z;
  uu_bDeviceClass : Z;
  uu_bDeviceSubClass : Z;
  uu_bDeviceProtocol : Z;
  uu_bConfigurationValue : Z;
  uu_bNumConfigurations : Z;
  uu_bNumInterfaces : Z
}.

Record op_import_request := mkImportReq { req_busid : list Z }.
Record op_import_reply := mkImportRep { rep_udev : usbip_usb_device }.
Record op_devlist_reply := mkDevlistRep { rep_ndev : Z }.

(** ** Memory *)

(** Read the next [n] bytes of a structure. *)
Definition take_next (n : nat) (l : list Z) : list Z * list Z := (take n l, drop n l).

Lemma take_next_app n a l : length a = n -> take_next n (a ++ l) = (a, l).
Proof. intros <-. unfold take_next. by rewrite take_app_length, drop_app_length. Qed.
Lemma take_next_all n a : length a = n -> take_next n a = (a, []).
Proof. intros H. rewrite <- (app_nil_r a) at 1. by apply take_next_app. Qed.

Section memory.
Context `{Arch}.

Definition half_bytes (x : Z) : list Z := if big_endian then be_bytes 2 x else le_bytes 2 x.
Definition half_of (l : list Z) : Z := if big_endian then of_be l else of_le l.

(** [htons] and [htonl]; [ntohs] and [ntohl] are the same functions. *)
Definition htons (x : Z) : Z := if big_endian then x else of_le (be_bytes 2 x).
Definition htonl (x : Z) : Z := cpu_to_be32 x.

Definition usbip_net_pack_uint32_t (pack : bool) (num : Z) : Z :=
  if pack then htonl num else be32_to_cpu num.
Definition usbip_net_pack_uint16_t (pack : bool) (num : Z) : Z :=
  if pack then htons num else htons num.

Definition usbip_net_pack_usb_device (pack : bool) (udev : usbip_usb_device) : usbip_usb_device :=
  mkUusb (uu_path udev) (uu_busid udev)
    (usbip_net_pack_uint32_t pack (uu_busnum udev))
    (usbip_net_pack_uint32_t pack (uu_devnum udev))
    (usbip_net_pack_uint32_t pack (uu_speed udev))
    (usbip_net_pack_uint16_t pack (uu_idVendor udev))
    (usbip_net_pack_uint16_t pack (uu_idProduct udev))
    (usbip_net_pack_uint16_t pack (uu_bcdDevice udev))
    (uu_bDeviceClass udev) (uu_bDeviceSubClass udev) (uu_bDeviceProtocol udev)
    (uu_bConfigurationValue udev) (uu_bNumConfigurations udev) (uu_bNumInterfaces udev).

Definition usbip_net_pack_usb_interface (pack : bool) (udev : usbip_usb_interface)
    : usbip_usb_interface := udev.

Definition PACK_OP_COMMON (pack : bool) (op : op_common) : op_common :=
  mkOp (usbip_net_pack_uint16_t pack (op_version op))
       (usbip_net_pack_uint16_t pack (op_code op))
       (usbip_net_pack_uint32_t pack (op_status op)).
Definition PACK_OP_IMPORT_REQUEST (pack : bool) (r : op_import_request) : op_import_request := r.
Definition PACK_OP_IMPORT_REPLY (pack : bool) (r : op_import_reply) : op_import_reply :=
  mkImportRep (usbip_net_pack_usb_device pack (rep_udev r)).
Definition PACK_OP_DEVLIST_REPLY (pack : bool) (r : op_devlist_reply) : op_devlist_reply :=
  mkDevlistRep (usbip_net_pack_uint32_t pack (rep_ndev r)).

(** The packed structures in memory. *)
Definition op_common_to_mem (op : op_common) : list Z :=
  half_bytes (op_version op) ++ half_bytes (op_code op) ++ word_bytes (op_status op).
Definition op_common_of_mem (l : list Z) : op_common :=
  let '(v, l) := take_next 2 l in let '(c, l) := take_next 2 l in let '(s, _) := take_next 4 l in
  mkOp (half_of v) (half_of c) (word_of s).

Definition usb_device_to_mem (d : usbip_usb_device) : list Z :=
  uu_path d ++ uu_busid d ++ word_bytes (uu_busnum d) ++ word_bytes (uu_devnum d) ++
  word_bytes (uu_speed d) ++ half_bytes (uu_idVendor d) ++ half_bytes (uu_idProduct d) ++
  half_bytes (uu_bcdDevice d) ++
  [uu_bDeviceClass d; uu_bDeviceSubClass d; uu_bDeviceProtocol d;
   uu_bConfigurationValue d; uu_bNumConfigurations d; uu_bNumInterfaces d].
Definition usb_device_of_mem (l : list Z) : usbip_usb_device :=
  let '(path, l) := take_next SYSFS_PATH_MAX l in let '(busid, l) := take_next SYSFS_BUS_ID_SIZE l in
  let '(busnum, l) := take_next 4 l in let '(devnum, l) := take_next 4 l in let '(speed, l) := take_next 4 l in
  let '(vendor, l) := take_next 2 l in let '(product, l) := take_next 2 l in let '(bcd, l) := take_next 2 l in
  mkUusb path busid (word_of busnum) (word_of devnum) (word_of speed)
    (half_of vendor) (half_of product) (half_of bcd)
    (nth 0 l 0) (nth 1 l 0) (nth 2 l 0) (nth 3 l 0) (nth 4 l 0) (nth 5 l 0).

Definition usb_interface_to_mem (i : usbip_usb_interface) : list Z :=
  [bInterfaceClass i; bInterfaceSubClass i; bInterfaceProtocol i; uif_padding i].
Definition usb_interface_of_mem (l : list Z) : usbip_usb_interface :=
  mkUif (nth 0 l 0) (nth 1 l 0) (nth 2 l 0) (nth 3 l 0).
End memory.

(** ** The interface *)

(** What user space promises of a message type: packed by the sender it is
    [ns_bytes] in memory, whatever its byte order, and a receiver that unpacks
    these bytes has the message again. *)
Class NetStruct (A : Type) := {
  ns_size : nat;
  ns_pack : Arch -> bool -> A -> A;
  ns_to_mem : Arch -> A -> list Z;
  ns_of_mem : Arch -> list Z -> A;
  ns_bytes : A -> list Z;
  ns_wf : A -> Prop;
  ns_length x : ns_wf x -> length (ns_bytes x) = ns_size;
  ns_send a x : ns_wf x -> ns_to_mem a (ns_pack a true x) = ns_bytes x;
  ns_recv a x : ns_wf x -> ns_pack a false (ns_of_mem a (ns_bytes x)) = x
}.

Section members.
Context `{Arch}.

Lemma half_bytes_htons x : is_u16 x -> half_bytes (htons x) = be_bytes 2 x.
Proof.
  intros Hx. unfold half_bytes, htons. destruct big_endian; [done|].
  rewrite <- (length_be_bytes 2 x) at 1. apply le_bytes_of_le, bytes_reverse, le_bytes_bytes.
Qed.

Lemma htons_half_of x : is_u16 x -> htons (half_of (be_bytes 2 x)) = x.
Proof.
  intros Hx. unfold half_of, htons. destruct big_endian.
  - rewrite of_be_be_bytes. apply Z.mod_small. exact Hx.
  - unfold be_bytes at 1.
    rewrite <- (length_be_bytes 2 x) at 1.
    rewrite le_bytes_of_le by apply bytes_reverse, le_bytes_bytes.
    unfold be_bytes. rewrite reverse_involutive, of_le_le_bytes. apply Z.mod_small. exact Hx.
Qed.

Lemma length_half_bytes x : length (half_bytes x) = 2%nat.
Proof. unfold half_bytes. destruct big_endian; [apply length_be_bytes|apply length_le_bytes]. Qed.
End members.

(** ** The message types *)

Definition op_common_wf (op : op_common) : Prop :=
  is_u16 (op_version op) /\ is_u16 (op_code op) /\ is_u32 (op_status op).
#[export] Program Instance net_op_common : NetStruct op_common := {|
  ns_size := 8;
  ns_pack a := @PACK_OP_COMMON a;
  ns_to_mem a := @op_common_to_mem a;
  ns_of_mem a := @op_common_of_mem a;
  ns_bytes op := be_bytes 2 (op_version op) ++ be_bytes 2 (op_code op) ++ be_bytes 4 (op_status op);
  ns_wf := op_common_wf
|}.
Next Obligation. intros [v c s] _. by rewrite !length_app, !length_be_bytes. Qed.
Next Obligation.
  intros a [v c s] (Hv & Hc & Hs). unfold op_common_to_mem, PACK_OP_COMMON, htonl. cbn.
  by rewrite !half_bytes_htons, word_bytes_cpu_to_be32.
Qed.
Next Obligation.
  intros a [v c s] (Hv & Hc & Hs). unfold op_common_of_mem. cbn [op_version op_code op_status] in *.
  rewrite !take_next_app, take_next_all by (apply length_be_bytes). unfold PACK_OP_COMMON. cbn [op_version op_code op_status usbip_net_pack_uint16_t usbip_net_pack_uint32_t].
  by rewrite !htons_half_of, be32_to_cpu_word_of.
Qed.

Definition usb_device_wf (d : usbip_usb_device) : Prop :=
  length (uu_path d) = SYSFS_PATH_MAX /\ length (uu_busid d) = SYSFS_BUS_ID_SIZE /\
  is_u32 (uu_busnum d) /\ is_u32 (uu_devnum d) /\ is_u32 (uu_speed d) /\
  is_u16 (uu_idVendor d) /\ is_u16 (uu_idProduct d) /\ is_u16 (uu_bcdDevice d).

(** The 312 bytes of a device. *)
Definition usb_device_bytes (d : usbip_usb_device) : list Z :=
  uu_path d ++ uu_busid d ++ be_bytes 4 (uu_busnum d) ++ be_bytes 4 (uu_devnum d) ++
  be_bytes 4 (uu_speed d) ++ be_bytes 2 (uu_idVendor d) ++ be_bytes 2 (uu_idProduct d) ++
  be_bytes 2 (uu_bcdDevice d) ++
  [uu_bDeviceClass d; uu_bDeviceSubClass d; uu_bDeviceProtocol d;
   uu_bConfigurationValue d; uu_bNumConfigurations d; uu_bNumInterfaces d].

#[export] Program Instance net_usb_device : NetStruct usbip_usb_device := {|
  ns_size := 312;
  ns_pack a := @usbip_net_pack_usb_device a;
  ns_to_mem a := @usb_device_to_mem a;
  ns_of_mem a := @usb_device_of_mem a;
  ns_bytes := usb_device_bytes;
  ns_wf := usb_device_wf
|}.
Next Obligation.
  intros d (Hp & Hb & _). unfold usb_device_bytes.
  by rewrite !length_app, !length_be_bytes, Hp, Hb.
Qed.
Next Obligation.
  intros a d (Hp & Hb & H1 & H2 & H3 & H4 & H5 & H6).
  unfold usb_device_to_mem, usbip_net_pack_usb_device, usb_device_bytes, htonl. cbn.
  by rewrite !half_bytes_htons, !word_bytes_cpu_to_be32.
Qed.
Next Obligation.
  intros a [path busid n1 n2 n3 h1 h2 h3 b1 b2 b3 b4 b5 b6] (Hp & Hb & H1 & H2 & H3 & H4 & H5 & H6).
  unfold usb_device_of_mem, usb_device_bytes. cbn [uu_path uu_busid uu_busnum uu_devnum uu_speed
    uu_idVendor uu_idProduct uu_bcdDevice] in *.
  rewrite !take_next_app by (done || apply length_be_bytes). unfold usbip_net_pack_usb_device.
  cbn [uu_busnum uu_devnum uu_speed uu_idVendor uu_idProduct uu_bcdDevice uu_path uu_busid
    usbip_net_pack_uint16_t usbip_net_pack_uint32_t].
  by rewrite !htons_half_of, !be32_to_cpu_word_of.
Qed.

#[export] Program Instance net_usb_interface : NetStruct usbip_usb_interface := {|
  ns_size := 4;
  ns_pack a := @usbip_net_pack_usb_interface;
  ns_to_mem a := usb_interface_to_mem;
  ns_of_mem a := usb_interface_of_mem;
  ns_bytes := usb_interface_to_mem;
  ns_wf _ := True
|}.
Solve All Obligations with by intros; try done; repeat match goal with i : usbip_usb_interface |- _ => destruct i end.

#[export] Program Instance net_import_request : NetStruct op_import_request := {|
  ns_size := SYSFS_BUS_ID_SIZE;
  ns_pack a := PACK_OP_IMPORT_REQUEST;
  ns_to_mem a := req_busid;
  ns_of_mem a := mkImportReq;
  ns_bytes := req_busid;
  ns_wf r := length (req_busid r) = SYSFS_BUS_ID_SIZE
|}.
Solve All Obligations with by intros; try done; repeat match goal with r : op_import_request |- _ => destruct r end.

#[export] Program Instance net_import_reply : NetStruct op_import_reply := {|
  ns_size := 312;
  ns_pack a := @PACK_OP_IMPORT_REPLY a;
  ns_to_mem a r := @usb_device_to_mem a (rep_udev r);
  ns_of_mem a l := mkImportRep (@usb_device_of_mem a l);
  ns_bytes r := usb_device_bytes (rep_udev r);
  ns_wf r := usb_device_wf (rep_udev r)
|}.
Next Obligation. intros r Hr. exact (ns_length (rep_udev r) Hr). Qed.
Next Obligation. intros a r Hr. exact (ns_send a (rep_udev r) Hr). Qed.
Next Obligation.
  intros a [d] Hr. unfold PACK_OP_IMPORT_REPLY. cbn. f_equal. exact (ns_recv a d Hr).
Qed.

#[export] Program Instance net_devlist_reply : NetStruct op_devlist_reply := {|
  ns_size := 4;
  ns_pack a := @PACK_OP_DEVLIST_REPLY a;
  ns_to_mem a r := @word_bytes a (rep_ndev r);
  ns_of_mem a l := mkDevlistRep (@word_of a l);
  ns_bytes r := be_bytes 4 (rep_ndev r);
  ns_wf r := is_u32 (rep_ndev r)
|}.
Next Obligation. intros r _. apply length_be_bytes. Qed.
Next Obligation. intros a r Hr. by apply word_bytes_cpu_to_be32. Qed.
Next Obligation.
  intros a [n] Hr. unfold PACK_OP_DEVLIST_REPLY. cbn. f_equal. by apply be32_to_cpu_word_of.
Qed.
