(* ===== verification/Net.v ===== *)
(** * The user-space network layer

    [src/usbip_network.c]: whole messages over a stream socket.  The programs
    are written in the same monad as the drivers; of the machine they only use
    the trace, their system and library calls are the [U...] events. *)
From S2P Require Import Prelude Kernel Wire NetWire.

Definition SOCKOPT_REUSEADDR := 1.
Definition SOCKOPT_NODELAY := 2.
Definition SOCKOPT_KEEPALIVE := 3.
Definition EAI_SYSTEM := -11.

Section net.
Context `{Env} `{Arch} {St : Type}.
Notation M := (M St).

(** [buff] is what is left of the buffer; the bytes behind it that were
    transferred are [moved].  More bytes than asked for are never transferred. *)
Fixpoint usbip_net_xmit_loop (fuel : nat) (sockfd : Z) (moved buff : list Z) (sending : bool)
    (total : Z) : M (Z * list Z) :=
  match fuel with
  | O => crash OutOfFuel
  | S fuel' =>
      let bufflen := Z.of_nat (length buff) in
      '(nbytes, data) ← ext (if sending then USend sockfd buff bufflen else URecv sockfd bufflen);
      if nbytes <=? 0 then mret (-1, moved ++ buff)
      else if bufflen <? nbytes then crash OutOfBounds
      else
        let n := Z.to_nat nbytes in
        let moved := moved ++ (if sending then take n buff else take n data) in
        let buff := drop n buff in
        let total := total + nbytes in
        if 0 <? Z.of_nat (length buff) then
          usbip_net_xmit_loop fuel' sockfd moved buff sending total
        else mret (total, moved)
  end.

(** The result and the buffer. *)
Definition usbip_net_xmit (sockfd : Z) (buff : list Z) (sending : bool) : M (Z * list Z) :=
  match buff with
  | [] => mret (0, [])
  | _ => usbip_net_xmit_loop (length buff) sockfd [] buff sending 0
  end.

Definition usbip_net_recv (sockfd : Z) (buff : list Z) : M (Z * list Z) :=
  usbip_net_xmit sockfd buff false.
Definition usbip_net_send (sockfd : Z) (buff : list Z) : M Z :=
  '(rc, _) ← usbip_net_xmit sockfd buff true; mret rc.

(** [memset] of a structure of [n] bytes. *)
Definition zeroed (n : nat) : list Z := replicate n 0.

Definition usbip_net_send_op_common (sockfd code status : Z) : M Z :=
  let op := PACK_OP_COMMON true (mkOp (wrap 16 USBIP_VERSION) (wrap 16 code) status) in
  rc ← usbip_net_send sockfd (op_common_to_mem op);
  if rc <? 0 then mret (-1) else mret 0.

(** The result and [*code]. *)
Definition usbip_net_recv_op_common (sockfd code : Z) : M (Z * Z) :=
  '(rc, mem) ← usbip_net_recv sockfd (zeroed 8);
  if rc <? 0 then mret (-1, code)
  else
    let op := PACK_OP_COMMON false (op_common_of_mem mem) in
    if negb (op_version op =? USBIP_VERSION) then mret (-1, code)
    else if negb (code =? OP_UNSPEC) && negb (op_code op =? code) then mret (-1, code)
    else if negb (op_status op =? ST_OK) then mret (-1, code)
    else mret (0, op_code op).

Definition usbip_net_set_reuseaddr (sockfd : Z) : M Z := ext_ret (USetsockopt sockfd SOCKOPT_REUSEADDR).
Definition usbip_net_set_nodelay (sockfd : Z) : M Z := ext_ret (USetsockopt sockfd SOCKOPT_NODELAY).
Definition usbip_net_set_keepalive (sockfd : Z) : M Z := ext_ret (USetsockopt sockfd SOCKOPT_KEEPALIVE).

(** The first address that takes a connection. *)
Fixpoint connect_addresses (res : list Z) : M (option Z) :=
  match res with
  | [] => mret None
  | rp :: res' =>
      sockfd ← ext_ret (USocket rp);
      if sockfd <? 0 then connect_addresses res'
      else
        usbip_net_set_nodelay sockfd;;
        usbip_net_set_keepalive sockfd;;
        rc ← ext_ret (UConnect sockfd rp);
        if rc =? 0 then mret (Some sockfd)
        else ext_do (UClose sockfd);; connect_addresses res'
  end.

Definition usbip_net_tcp_connect (hostname service : list Z) : M Z :=
  '(ret, res) ← ext (UGetaddrinfo hostname service);
  if ret <? 0 then mret ret
  else
    rp ← connect_addresses res;
    mret (default EAI_SYSTEM rp).
End net.
