(* ===== verification/Names.v ===== *)
(** * Names of vendors, products and classes

    [userspace/libsrc/names.c]: the tables of names the tools print, filled from
    the file usb.ids.  Five hash tables of chained entries; every entry lies in
    memory of a pool, which is freed as a whole.  A walk of a chain reads the
    memory of the entries it passes. *)
From Stdlib Require Import String.
From S2P Require Import Prelude CLib Kernel.

Local Open Scope Z_scope.

Definition HASH1 := 16.
Definition HASH2 := 2.
Definition HASHSZ : nat := 16.

(** At most 28 rounds: the first mask goes from bit 31 down to bit 4. *)
Fixpoint hash_loop (n : nat) (mask1 mask2 num : Z) : Z :=
  match n with
  | O => num
  | S n' =>
      if HASH1 <=? mask1 then
        hash_loop n' (Z.shiftr mask1 1) (Z.shiftr mask2 1)
          (if has_bits num mask1 then Z.lxor num mask2 else num)
      else num
  end.
Definition hashnum (num : Z) : Z :=
  Z.land (hash_loop 32 (u32 (Z.shiftl HASH1 27)) (u32 (Z.shiftl HASH2 27)) num) (Z.of_nat HASHSZ - 1).

(** The keys of the tables, as the hash function gets them. *)
Definition product_num (vendorid productid : Z) : Z := Z.lor (u32 (Z.shiftl vendorid 16)) productid.
Definition subclass_num (classid subclassid : Z) : Z := Z.lor (Z.shiftl classid 8) subclassid.
Definition protocol_num (classid subclassid protocolid : Z) : Z :=
  Z.lor (Z.lor (Z.shiftl classid 16) (Z.shiftl subclassid 8)) protocolid.

(** ** The tables *)

Record entry (K : Type) := mkEntry { en_key : K; en_name : list Z; en_mem : ptr }.
Arguments mkEntry {K}.
Arguments en_key {K}.
Arguments en_name {K}.
Arguments en_mem {K}.
Notation table K := (list (list (entry K))).

Record names := mkNames {
  nm_vendors : table Z;
  nm_products : table (Z * Z);
  nm_classes : table Z;
  nm_subclasses : table (Z * Z);
  nm_protocols : table (Z * Z * Z);
  nm_pool : list (ptr * ptr)
}.
#[export] Instance set_nm_vendors : Setter nm_vendors := fun v r => mkNames v (nm_products r) (nm_classes r) (nm_subclasses r) (nm_protocols r) (nm_pool r).
#[global] Arguments set_nm_vendors _ _ /.
#[export] Instance set_nm_products : Setter nm_products := fun v r => mkNames (nm_vendors r) v (nm_classes r) (nm_subclasses r) (nm_protocols r) (nm_pool r).
#[global] Arguments set_nm_products _ _ /.
#[export] Instance set_nm_classes : Setter nm_classes := fun v r => mkNames (nm_vendors r) (nm_products r) v (nm_subclasses r) (nm_protocols r) (nm_pool r).
#[global] Arguments set_nm_classes _ _ /.
#[export] Instance set_nm_subclasses : Setter nm_subclasses := fun v r => mkNames (nm_vendors r) (nm_products r) (nm_classes r) v (nm_protocols r) (nm_pool r).
#[global] Arguments set_nm_subclasses _ _ /.
#[export] Instance set_nm_protocols : Setter nm_protocols := fun v r => mkNames (nm_vendors r) (nm_products r) (nm_classes r) (nm_subclasses r) v (nm_pool r).
#[global] Arguments set_nm_protocols _ _ /.
#[export] Instance set_nm_pool : Setter nm_pool := fun v r => mkNames (nm_vendors r) (nm_products r) (nm_classes r) (nm_subclasses r) (nm_protocols r) v.
#[global] Arguments set_nm_pool _ _ /.


Definition empty_table {K} : table K := replicate HASHSZ [].
Definition names_zero : names :=
  mkNames empty_table empty_table empty_table empty_table empty_table [].

Section names.
Context `{Env}.
Notation M := (M names).

(** The memory of an entry is read. *)
Definition touch (p : ptr) : M unit := fun s k =>
  match k_heap k !! p.1 with Some _ => Ok (tt, s, k) | None => Crash UseAfterFree end.

Definition my_malloc (size : Z) : M (option ptr) :=
  r ← ext_ret UCalloc;
  if r =? 0 then mret None
  else
    node ← alloc_block (replicate 16 0);
    r ← ext_ret UCalloc;
    if r =? 0 then mret None
    else
      mem ← alloc_block (replicate (Z.to_nat size) 0);
      modify (fun s => s <| nm_pool := (node, mem) :: nm_pool s |>);;
      mret (Some mem).

(** The list of the pool is freed and kept. *)
Fixpoint free_pool (pool : list (ptr * ptr)) : M unit :=
  match pool with
  | [] => mret tt
  | (node, mem) :: pool' => kfree (Some mem);; kfree (Some node);; free_pool pool'
  end.
Definition names_free : M unit := s ← get; free_pool (nm_pool s).

(** *** One table *)
Section table.
Context {K : Type} `{EqDecision K}.
Variable f : names -> table K.
Context `{!Setter f}.

Fixpoint find_entry (key : K) (l : list (entry K)) : M (option (list Z)) :=
  match l with
  | [] => mret None
  | e :: l' =>
      touch (en_mem e);;
      if decide (en_key e = key) then mret (Some (en_name e)) else find_entry key l'
  end.
Definition bucket (h : Z) : M (list (entry K)) :=
  t ← gets f; of_option OutOfBounds (t !! Z.to_nat h).

Definition names_lookup (h : Z) (key : K) : M (option (list Z)) :=
  l ← bucket h; find_entry key l.
Definition new_entry (h : Z) (key : K) (name : list Z) : M Z :=
  l ← bucket h;
  found ← find_entry key l;
  match found with
  | Some _ => mret (-1)
  | None =>
      mem ← my_malloc (16 + Z.of_nat (length name));
      match mem with
      | None => mret (-1)
      | Some p =>
          modify (fun s => s <| f := alter (cons (mkEntry key name p)) (Z.to_nat h) (f s) |>);;
          mret 0
      end
  end.
End table.

Definition names_vendor (vendorid : Z) : M (option (list Z)) :=
  names_lookup nm_vendors (hashnum vendorid) vendorid.
Definition names_product (vendorid productid : Z) : M (option (list Z)) :=
  names_lookup nm_products (hashnum (product_num vendorid productid)) (vendorid, productid).
Definition names_class (classid : Z) : M (option (list Z)) :=
  names_lookup nm_classes (hashnum classid) classid.
Definition names_subclass (classid subclassid : Z) : M (option (list Z)) :=
  names_lookup nm_subclasses (hashnum (subclass_num classid subclassid)) (classid, subclassid).
Definition names_protocol (classid subclassid protocolid : Z) : M (option (list Z)) :=
  names_lookup nm_protocols (hashnum (protocol_num classid subclassid protocolid))
    (classid, subclassid, protocolid).

Definition new_vendor (name : list Z) (vendorid : Z) : M Z :=
  new_entry nm_vendors (hashnum vendorid) vendorid name.
Definition new_product (name : list Z) (vendorid productid : Z) : M Z :=
  new_entry nm_products (hashnum (product_num vendorid productid)) (vendorid, productid) name.
Definition new_class (name : list Z) (classid : Z) : M Z :=
  new_entry nm_classes (hashnum classid) classid name.
Definition new_subclass (name : list Z) (classid subclassid : Z) : M Z :=
  new_entry nm_subclasses (hashnum (subclass_num classid subclassid)) (classid, subclassid) name.
Definition new_protocol (name : list Z) (classid subclassid protocolid : Z) : M Z :=
  new_entry nm_protocols (hashnum (protocol_num classid subclassid protocolid))
    (classid, subclassid, protocolid) name.

(** ** The file *)

(** [fgets] into a buffer of [S n]: up to [n] characters or the end of a line. *)
Fixpoint fgets (n : nat) (s : list Z) : list Z * list Z :=
  match n, s with
  | S n', c :: s' =>
      if c =? chr_newline then ([c], s')
      else let (line, rest) := fgets n' s' in (c :: line, rest)
  | _, _ => ([], s)
  end.

Fixpoint up_to (c : Z) (s : list Z) : list Z :=
  match s with
  | x :: s' => if x =? c then [] else x :: up_to c s'
  | [] => []
  end.
Definition trim (line : list Z) : list Z := up_to chr_newline (up_to 13 (c_str line)).

(** What the sections above a line were: -1 for none. *)
Record last := mkLast {
  la_vendor : Z;
  la_class : Z;
  la_subclass : Z;
  la_hut : Z;
  la_lang : Z
}.
Definition last_none : last := mkLast (-1) (-1) (-1) (-1) (-1).

Definition starts (p : list Z) (buf : list Z) : bool := bool_decide (take (length p) buf = p).
Definition hex_at (n : nat) (buf : list Z) : bool := is_hex (nth n buf 0).
Definition space_at (n : nat) (buf : list Z) : bool := is_space (nth n buf 0).

(** [strtoul(cp, &cp, 16)] into an [unsigned int], and the blanks behind. *)
Definition number (cp : list Z) : Z * list Z :=
  match scan_x_all cp with
  | Some (v, rest) => (u32 (Z.min v (2 ^ 64 - 1)), skip_spaces rest)
  | None => (0, skip_spaces cp)
  end.

Definition parse_class (buf : list Z) (la : last) : M last :=
  let cp := skip_spaces (drop 2 buf) in
  if negb (hex_at 0 cp) then mret la
  else
    let '(u, cp) := number cp in
    match cp with
    | [] => mret la
    | _ => new_class cp (u8 u);; mret (mkLast (-1) (s32 u) (-1) (-1) (-1))
    end.
Definition parse_vendor (buf : list Z) (la : last) : M last :=
  let '(u, cp) := number buf in
  match cp with
  | [] => mret la
  | _ => new_vendor cp (u16 u);; mret (mkLast (s32 u) (-1) (-1) (-1) (-1))
  end.
Definition parse_product (buf : list Z) (la : last) : M last :=
  let '(u, cp) := number (drop 1 buf) in
  match cp with
  | [] => mret la
  | _ =>
      if negb (la_vendor la =? -1) then
        new_product cp (u16 (la_vendor la)) (u16 u);; mret la
      else if negb (la_class la =? -1) then
        new_subclass cp (u8 (la_class la)) (u8 u);;
        mret (mkLast (la_vendor la) (la_class la) (s32 u) (la_hut la) (la_lang la))
      else mret la
  end.
Definition parse_protocol (buf : list Z) (la : last) : M last :=
  let '(u, cp) := number (drop 2 buf) in
  match cp with
  | [] => mret la
  | _ =>
      if negb (la_class la =? -1) && negb (la_subclass la =? -1) then
        new_protocol cp (u8 (la_class la)) (u8 (la_subclass la)) (u8 u);; mret la
      else mret la
  end.

(** One line of the file, its end removed. *)
Definition parse_line (buf : list Z) (la : last) : M last :=
  match buf with
  | [] => mret la
  | c :: _ =>
      if c =? 35 then mret la
      else if starts (text "PHYSDES ") buf then mret la
      else if starts (text "PHY ") buf then mret la
      else if starts (text "BIAS ") buf then mret la
      else if starts (text "L ") buf then mret (mkLast (-1) (-1) (-1) (-1) 1)
      else if starts (text "C ") buf then parse_class buf la
      else if starts (text "AT") buf && space_at 2 buf then mret la
      else if starts (text "HCC") buf && space_at 3 buf then mret la
      else if hex_at 0 buf then parse_vendor buf la
      else if (c =? 9) && hex_at 1 buf then parse_product buf la
      else if (c =? 9) && (nth 1 buf 0 =? 9) && hex_at 2 buf then parse_protocol buf la
      else if starts (text "HID ") buf then mret la
      else if starts (text "HUT ") buf then mret (mkLast (-1) (-1) (-1) 1 (-1))
      else mret la
  end.

(** The rest of the file; every round takes at least one character. *)
Fixpoint parse (fuel : nat) (file : list Z) (la : last) : M unit :=
  match fuel with
  | O => crash OutOfFuel
  | S fuel' =>
      match fgets 511 file with
      | ([], _) => mret tt
      | (line, rest) =>
          la ← parse_line (trim line) la;
          parse fuel' rest la
      end
  end.

(** [fopen] answers the file's contents. *)
Definition names_init (n : list Z) : M Z :=
  '(f, file) ← ext (UFopen n);
  if f =? 0 then ext_ret UErrno
  else
    parse (S (length file)) file last_none;;
    ext_do UFclose;;
    mret 0.
End names.
