(* ===== verification/Sysfs.v ===== *)
(** * Reading devices from sysfs

    [libsrc/usbip_common.c]: the attribute files of a USB device and of its
    interfaces become the records the tools exchange.  The library that walks
    sysfs is a parameter: what a look-up returns may depend on the calls made. *)
From Stdlib Require Import String.
From S2P Require Import Prelude CLib Kernel Wire NetWire.

Local Open Scope Z_scope.

(** [struct sysfs_device] *)
Record sysfs_device := mkSysfsDev {
  sf_path : list Z;
  sf_name : list Z;
  sf_bus_id : list Z;
  sf_driver_name : list Z
}.

Class Sysfs := {
  sysfs_open_device : list call -> list Z -> list Z -> option sysfs_device;
  sysfs_open_device_path : list call -> list Z -> option sysfs_device;
  sysfs_get_device_parent : list call -> sysfs_device -> option sysfs_device;
  (* the devices of a driver, by bus and driver name; [None]: no such list *)
  sysfs_open_driver : list call -> list Z -> list Z -> bool;
  sysfs_get_driver_devices : list call -> list Z -> list Z -> option (list sysfs_device);
  (* a device's attribute with its value *)
  sysfs_get_device_attr : list call -> sysfs_device -> list Z -> option (list Z);
  sysfs_get_driver_attr : list call -> list Z -> list Z -> list Z -> bool;
  (* the mount point, if sysfs is mounted *)
  sysfs_get_mnt_path : list call -> option (list Z);
  (* the classes, the devices of a class and where their [device] links point *)
  sysfs_class_names : list call -> option (list (list Z));
  sysfs_class_devices : list call -> list Z -> option (option (list (list Z)));
  sysfs_get_link : list call -> list Z -> option (list Z)
}.

Definition slash : list Z := text "/".
Definition bus_usb : list Z := text "usb".

Section reading.
Context `{Env} `{Sysfs} {St : Type}.
Notation M := (M St).

(** A look-up at the present moment. *)
Definition lookup {A} (f : list call -> A) : M A := tr ← kgets k_trace; mret (f tr).

Definition attr_path (path name : list Z) : list Z :=
  snprintf SYSFS_PATH_MAX (path ++ slash ++ name).

(** [num] is 0 unless the attribute can be opened, read and scanned. *)
Definition read_attr_value (dev : sysfs_device) (name : list Z)
    (format : list Z -> option (Z * list Z)) : M Z :=
  let path := attr_path (sf_path dev) name in
  attr ← ext_ret (UOpenAttr path);
  if attr =? 0 then mret 0
  else
    '(ret, value) ← ext (UReadAttr path);
    if ret <? 0 then mret 0
    else mret (match format value with Some (num, _) => s32 num | None => 0 end).

Definition USB_SPEED_UNKNOWN := 0.
Definition speed_strings : list (Z * list Z) :=
  [(0, text "unknown"); (1, text "1.5"); (2, text "12"); (3, text "480")].

(** The descriptions of speeds and of states; [find_desc] is the common search. *)
Fixpoint find_desc (tbl : list (Z * list Z)) (num : Z) (default : list Z) : list Z :=
  match tbl with
  | [] => default
  | (n, desc) :: tbl' => if n =? num then desc else find_desc tbl' num default
  end.
Definition speed_descs : list (Z * list Z) :=
  [(0, text "Unknown Speed"); (1, text "Low Speed(1.5Mbps)"); (2, text "Full Speed(12Mbps)");
   (3, text "High Speed(480Mbps)")].
Definition portst_strings : list (Z * list Z) :=
  [(1, text "Device Available"); (2, text "Device in Use"); (3, text "Device Error");
   (4, text "Port Available"); (5, text "Port Initializing"); (6, text "Port in Use");
   (7, text "Port Error")].
Definition usbip_status_string (status : Z) : list Z :=
  find_desc portst_strings status (text "Unknown Status").
Definition usbip_speed_string (num : Z) : list Z :=
  find_desc speed_descs num (text "Unknown Speed").

(** The first entry with this text. *)
Fixpoint speed_of (tbl : list (Z * list Z)) (speed : list Z) : Z :=
  match tbl with
  | [] => USB_SPEED_UNKNOWN
  | (num, s) :: tbl' => if bool_decide (speed = s) then num else speed_of tbl' speed
  end.

(** The buffer [speed] is not initialised: if the file cannot be read or holds
    no word, its contents are undefined. *)
Definition read_attr_speed (dev : sysfs_device) : M Z :=
  let path := attr_path (sf_path dev) (text "speed") in
  attr ← ext_ret (UOpenAttr path);
  if attr =? 0 then mret 0
  else
    '(ret, value) ← ext (UReadAttr path);
    if ret <? 0 then crash Uninit
    else match scan_s value with
         | None => crash Uninit
         | Some (speed, _) =>
             if (100 <=? length speed)%nat then crash OutOfBounds
             else mret (speed_of speed_strings speed)
         end.

(** [sscanf(name, "%u-%u", ...)]: the bus number. *)
Definition read_usb_device (sdev : sysfs_device) : M usbip_usb_device :=
  cls ← read_attr_value sdev (text "bDeviceClass") (scan_x 2);
  sub ← read_attr_value sdev (text "bDeviceSubClass") (scan_x 2);
  proto ← read_attr_value sdev (text "bDeviceProtocol") (scan_x 2);
  vendor ← read_attr_value sdev (text "idVendor") (scan_x 4);
  product ← read_attr_value sdev (text "idProduct") (scan_x 4);
  bcd ← read_attr_value sdev (text "bcdDevice") (scan_x 4);
  conf ← read_attr_value sdev (text "bConfigurationValue") (scan_x 2);
  nconf ← read_attr_value sdev (text "bNumConfigurations") (scan_x 2);
  nintf ← read_attr_value sdev (text "bNumInterfaces") (scan_x 2);
  devnum ← read_attr_value sdev (text "devnum") scan_d;
  speed ← read_attr_speed sdev;
  match scan_u (sf_name sdev) with
  | None => crash Uninit
  | Some (busnum, _) =>
      mret (mkUusb (strncpy SYSFS_PATH_MAX (sf_path sdev)) (strncpy SYSFS_BUS_ID_SIZE (sf_name sdev))
              busnum (u8 devnum) speed (wrap 16 vendor) (wrap 16 product) (wrap 16 bcd)
              (u8 cls) (u8 sub) (u8 proto) (u8 conf) (u8 nconf) (u8 nintf))
  end.

(** [%s:%d.%d] of a bus id, the configuration and an interface. *)
Definition interface_name (busid : list Z) (conf i : Z) : list Z :=
  busid ++ text ":" ++ print_d conf ++ text "." ++ print_d i.

(** The result and [*uinf]; [sprintf] is not told the size of its buffer. *)
Definition read_usb_interface (udev : usbip_usb_device) (i : Z) (uinf : usbip_usb_interface)
    : M (Z * usbip_usb_interface) :=
  let busid := interface_name (c_str (uu_busid udev)) (uu_bConfigurationValue udev) i in
  if (SYSFS_BUS_ID_SIZE <=? length busid)%nat then crash OutOfBounds
  else
    sif ← lookup (fun tr => sysfs_open_device tr bus_usb busid);
    match sif with
    | None => mret (-1, uinf)
    | Some sif =>
        cls ← read_attr_value sif (text "bInterfaceClass") (scan_x 2);
        sub ← read_attr_value sif (text "bInterfaceSubClass") (scan_x 2);
        proto ← read_attr_value sif (text "bInterfaceProtocol") (scan_x 2);
        mret (0, mkUif (u8 cls) (u8 sub) (u8 proto) (uif_padding uinf))
    end.
End reading.
