(* ===== verification/HostDriver.v ===== *)
(** * The exported devices

    [libsrc/usbip_host_driver.c]: the devices bound to the host driver, and
    handing a connection to one of them. *)
From Stdlib Require Import String.
From S2P Require Import Prelude CLib Kernel Wire NetWire Sysfs.

Local Open Scope Z_scope.

(** The numbers of [enum usbip_device_status] user space looks at. *)
Definition UST_SDEV_AVAILABLE := 1.
Definition UST_VDEV_NULL := 4.
Definition UST_VDEV_NOTASSIGNED := 5.

Record usbip_exported_device := mkEdev {
  ed_status : Z;
  ed_udev : usbip_usb_device;
  ed_uinf : list usbip_usb_interface
}.

(** [*host_driver]; [None] is the null pointer. *)
Record usbip_host_driver := mkHostDriver {
  hd_ndevs : Z;
  hd_edev_list : list usbip_exported_device
}.

Definition host_drv : list Z := text "usbip-host".
Definition SYSFS_OPEN_RETRIES : nat := 100.
Definition ENOENT_ := 2.

Section host_driver.
Context `{Env} `{Sysfs}.
Notation S_ := (option usbip_host_driver).
Notation M := (M S_).

Definition intf_attr (udev : usbip_usb_device) (name : list Z) : list Z :=
  snprintf SYSFS_PATH_MAX (c_str (uu_path udev) ++ slash ++
    interface_name (c_str (uu_busid udev)) (uu_bConfigurationValue udev) 0 ++ slash ++ name).

(** Polls until the file is there; [stat] answers 0 or the error number. *)
Fixpoint wait_for_attr (retries : nat) (path : list Z) : M bool :=
  match retries with
  | O => mret true
  | S retries' =>
      errno ← ext_ret (UStat path);
      if errno =? 0 then mret true
      else if negb (errno =? ENOENT_) then mret false
      else wait_for_attr retries' path
  end.

Definition read_attr_usbip_status (udev : usbip_usb_device) : M Z :=
  let path := intf_attr udev (text "usbip_status") in
  ready ← wait_for_attr SYSFS_OPEN_RETRIES path;
  if negb ready then mret (-1)
  else
    attr ← ext_ret (UOpenAttr path);
    if attr =? 0 then mret (-1)
    else
      '(rc, value) ← ext (UReadAttr path);
      if negb (rc =? 0) then mret (-1) else mret (atoi value).

(** Fills [uinf[i..]]; a failure leaves the entry as [realloc] gave it. *)
Fixpoint read_interfaces (udev : usbip_usb_device) (i : Z) (uinf : list usbip_usb_interface)
    : M (list usbip_usb_interface) :=
  match uinf with
  | [] => mret []
  | x :: uinf' =>
      '(_, x') ← read_usb_interface udev i x;
      rest ← read_interfaces udev (i + 1) uinf';
      mret (x' :: rest)
  end.

(** The memory [realloc] returns for the interfaces is given by the environment. *)
Definition usbip_exported_device_new (sdevpath : list Z) : M (option usbip_exported_device) :=
  edev ← ext_ret UCalloc;
  if edev =? 0 then mret None
  else
    sudev ← lookup (fun tr => sysfs_open_device_path tr sdevpath);
    match sudev with
    | None => mret None
    | Some sudev =>
        udev ← read_usb_device sudev;
        status ← read_attr_usbip_status udev;
        if status <? 0 then mret None
        else
          '(edev, junk) ← ext UCalloc;
          if edev =? 0 then mret None
          else
            let uinf := map (fun i => mkUif (nth (4 * i) junk 0) (nth (4 * i + 1) junk 0)
                                        (nth (4 * i + 2) junk 0) (nth (4 * i + 3) junk 0))
                            (seq 0 (Z.to_nat (uu_bNumInterfaces udev))) in
            uinf ← read_interfaces udev 0 uinf;
            mret (Some (mkEdev status udev uinf))
    end.

(** 1 if no device of the list has the bus id. *)
Fixpoint check_new (dlist : list sysfs_device) (target : sysfs_device) : bool :=
  match dlist with
  | [] => true
  | dev :: dlist' =>
      if strncmp_eq SYSFS_BUS_ID_SIZE (sf_bus_id dev) (sf_bus_id target) then false
      else check_new dlist' target
  end.

(** The distinct parents of the interfaces, the last first. *)
Fixpoint collect_devices (suintf_list sudev_list : list sysfs_device) : M (list sysfs_device) :=
  match suintf_list with
  | [] => mret sudev_list
  | suintf :: suintf_list' =>
      sudev ← lookup (fun tr => sysfs_get_device_parent tr suintf);
      match sudev with
      | None => collect_devices suintf_list' sudev_list
      | Some sudev =>
          collect_devices suintf_list' (if check_new sudev_list sudev then sudev :: sudev_list
                                        else sudev_list)
      end
  end.

Definition push_edev (edev : usbip_exported_device) : M unit :=
  hd ← get;
  hd ← deref hd;
  modify (fun _ => Some (mkHostDriver (hd_ndevs hd + 1) (edev :: hd_edev_list hd))).

Fixpoint add_exported_devices (sudev_list : list sysfs_device) : M unit :=
  match sudev_list with
  | [] => mret tt
  | sudev :: sudev_list' =>
      edev ← usbip_exported_device_new (sf_path sudev);
      match edev with Some edev => push_edev edev | None => mret tt end;;
      add_exported_devices sudev_list'
  end.

Definition refresh_exported_devices : M Z :=
  suintf_list ← lookup (fun tr => sysfs_get_driver_devices tr bus_usb host_drv);
  match suintf_list with
  | None => mret 0
  | Some suintf_list =>
      sudev_list ← collect_devices suintf_list [];
      add_exported_devices sudev_list;;
      mret 0
  end.

(** [dlist_new_with_delete]: 0 is a failed allocation. *)
Definition new_edev_list : M Z := ext_ret UCalloc.

Definition usbip_host_driver_open : M Z :=
  p ← ext_ret UCalloc;
  if p =? 0 then modify (fun _ => None);; mret (-1)
  else
    modify (fun _ => Some (mkHostDriver 0 []));;
    l ← new_edev_list;
    if l =? 0 then modify (fun _ => None);; mret (-1)
    else
      mnt ← lookup sysfs_get_mnt_path;
      drv ← lookup (fun tr => sysfs_open_driver tr bus_usb host_drv);
      if bool_decide (mnt = None) || negb drv then modify (fun _ => None);; mret (-1)
      else
        rc ← refresh_exported_devices;
        if rc <? 0 then modify (fun _ => None);; mret (-1) else mret 0.

Definition usbip_host_driver_close : M unit := modify (fun _ => None).

Definition usbip_host_refresh_device_list : M Z :=
  hd ← get;
  _ ← deref hd;
  modify (fun _ => Some (mkHostDriver 0 []));;
  l ← new_edev_list;
  if l =? 0 then mret (-1)
  else
    rc ← refresh_exported_devices;
    if rc <? 0 then mret (-1) else mret 0.

Definition usbip_host_export_device (edev : usbip_exported_device) (sockfd : Z) : M Z :=
  if negb (ed_status edev =? UST_SDEV_AVAILABLE) then mret (-1)
  else
    let path := intf_attr (ed_udev edev) (text "usbip_sockfd") in
    attr ← ext_ret (UOpenAttr path);
    if attr =? 0 then mret (-1)
    else
      let sockfd_buff := snprintf 30 (print_d sockfd ++ [chr_newline]) in
      ext_ret (UWriteAttr path sockfd_buff (Z.of_nat (length sockfd_buff))).

Definition usbip_host_get_device (num : Z) : M (option usbip_exported_device) :=
  hd ← get;
  hd ← deref hd;
  mret (if num <? 0 then None else hd_edev_list hd !! Z.to_nat num).
End host_driver.
