(* ===== verification/Usbipd.v ===== *)
(** * The daemon

    [src/usbipd.c]: one request per connection, answered with the list of
    exported devices or by handing the connection to the host driver; and the
    loop that accepts connections and serves each in a process of its own. *)
From Stdlib Require Import String.
From S2P Require Import Prelude CLib Kernel Wire NetWire Net Sysfs HostDriver.

Local Open Scope Z_scope.

Section usbipd.
Context `{Env} `{Arch} `{Sysfs}.
Notation M := (M (option usbip_host_driver)).

Definition edevs : M (list usbip_exported_device) :=
  hd ← get; hd ← deref hd; mret (hd_edev_list hd).

(** The first exported device with the bus id. *)
Fixpoint find_edev (busid : list Z) (l : list usbip_exported_device) : option usbip_exported_device :=
  match l with
  | [] => None
  | edev :: l' =>
      if strncmp_eq SYSFS_BUS_ID_SIZE busid (uu_busid (ed_udev edev)) then Some edev
      else find_edev busid l'
  end.

Definition recv_request_import (sockfd : Z) : M Z :=
  '(rc, mem) ← usbip_net_recv sockfd (zeroed SYSFS_BUS_ID_SIZE);
  if rc <? 0 then mret (-1)
  else
    let req := PACK_OP_IMPORT_REQUEST false (mkImportReq mem) in
    l ← edevs;
    let found := find_edev (req_busid req) l in
    error ← match found with
            | Some edev =>
                usbip_net_set_nodelay sockfd;;
                rc ← usbip_host_export_device edev sockfd;
                mret (rc <? 0)
            | None => mret true
            end;
    rc ← usbip_net_send_op_common sockfd OP_REP_IMPORT (if error : bool then ST_NA else ST_OK);
    if rc <? 0 then mret (-1)
    else
      match (if error : bool then None else found) with
      | None => mret (-1)
      | Some edev =>
          let pdu_udev := usbip_net_pack_usb_device true (ed_udev edev) in
          rc ← usbip_net_send sockfd (usb_device_to_mem pdu_udev);
          if rc <? 0 then mret (-1) else mret 0
      end.

(** [false] when something could not be sent. *)
Fixpoint send_interfaces (connfd : Z) (uinf : list usbip_usb_interface) : M bool :=
  match uinf with
  | [] => mret true
  | x :: uinf' =>
      rc ← usbip_net_send connfd (usb_interface_to_mem (usbip_net_pack_usb_interface true x));
      if rc <? 0 then mret false else send_interfaces connfd uinf'
  end.
Fixpoint send_devices (connfd : Z) (l : list usbip_exported_device) : M bool :=
  match l with
  | [] => mret true
  | edev :: l' =>
      rc ← usbip_net_send connfd (usb_device_to_mem (usbip_net_pack_usb_device true (ed_udev edev)));
      if rc <? 0 then mret false
      else
        (* [edev->uinf[i]] for [i < bNumInterfaces] *)
        if (length (ed_uinf edev) <? Z.to_nat (uu_bNumInterfaces (ed_udev edev)))%nat
        then crash OutOfBounds
        else
          ok ← send_interfaces connfd
                 (take (Z.to_nat (uu_bNumInterfaces (ed_udev edev))) (ed_uinf edev));
          if ok : bool then send_devices connfd l' else mret false
  end.

Definition send_reply_devlist (connfd : Z) : M Z :=
  l ← edevs;
  let reply := mkDevlistRep (u32 (Z.of_nat (length l))) in
  rc ← usbip_net_send_op_common connfd OP_REP_DEVLIST ST_OK;
  if rc <? 0 then mret (-1)
  else
    let reply := PACK_OP_DEVLIST_REPLY true reply in
    rc ← usbip_net_send connfd (word_bytes (rep_ndev reply));
    if rc <? 0 then mret (-1)
    else
      l ← edevs;
      ok ← send_devices connfd l;
      mret (if ok : bool then 0 else -1).

(** The request has no members: nothing is received. *)
Definition recv_request_devlist (connfd : Z) : M Z :=
  '(rc, _) ← usbip_net_recv connfd [];
  if rc <? 0 then mret (-1)
  else
    rc ← send_reply_devlist connfd;
    mret (if rc <? 0 then -1 else 0).

Definition recv_pdu (connfd : Z) : M Z :=
  '(ret, code) ← usbip_net_recv_op_common connfd OP_UNSPEC;
  if ret <? 0 then mret (-1)
  else
    ret ← usbip_host_refresh_device_list;
    if ret <? 0 then mret (-1)
    else if code =? OP_REQ_DEVLIST then recv_request_devlist connfd
    else if code =? OP_REQ_IMPORT then recv_request_import connfd
    else mret (-1).

(** ** Connections *)

Definition MAXSOCKFD : nat := 20.
Definition FD_SETSIZE := 1024.

(** Without libwrap: a name that cannot be found is only logged. *)
Definition do_accept (listenfd : Z) : M Z :=
  connfd ← ext_ret (UAccept listenfd);
  mret (if connfd <? 0 then -1 else connfd).

(** The child serves the connection and exits; [fork] answers 0 in it.  The
    second result tells whether this process ends here. *)
Definition process_request (listenfd : Z) : M (Z * bool) :=
  connfd ← do_accept listenfd;
  if connfd <? 0 then mret (-1, false)
  else
    childpid ← ext_ret UFork;
    if childpid =? 0 then
      ext_do (UClose listenfd);;
      recv_pdu connfd;;
      mret (0, true)
    else
      ext_do (UClose connfd);; mret (0, false).

(** A socket for the address, listening; [None] if one step fails. *)
Definition listen_addrinfo (ai : Z) : M (option Z) :=
  fd ← ext_ret (USocket ai);
  if fd <? 0 then mret None
  else
    usbip_net_set_reuseaddr fd;;
    usbip_net_set_nodelay fd;;
    if fd >=? FD_SETSIZE then ext_do (UClose fd);; mret None
    else
      ret ← ext_ret (UBind fd ai);
      if ret <? 0 then ext_do (UClose fd);; mret None
      else
        ret ← ext_ret (UListen fd);
        if ret <? 0 then ext_do (UClose fd);; mret None else mret (Some fd).

Fixpoint listen_loop (ais sockfdlist : list Z) : M (list Z) :=
  match ais with
  | [] => mret sockfdlist
  | ai :: ais' =>
      if (MAXSOCKFD <=? length sockfdlist)%nat then mret sockfdlist
      else
        fd ← listen_addrinfo ai;
        listen_loop ais' (sockfdlist ++ match fd with Some fd => [fd] | None => [] end)
  end.

(** The number of sockets, or -1, and the sockets. *)
Definition listen_all_addrinfo (ai_head : list Z) : M (Z * list Z) :=
  sockfdlist ← listen_loop ai_head [];
  mret (match sockfdlist with [] => -1 | _ => Z.of_nat (length sockfdlist) end, sockfdlist).

Definition usbip_port_string : list Z := text "3240".

Definition do_getaddrinfo : M (option (list Z)) :=
  '(rc, ai_head) ← ext (UGetaddrinfo [] usbip_port_string);
  mret (if rc =? 0 then Some ai_head else None).

(** The sockets that are ready are served in turn; the result tells whether
    this process is a child that is done. *)
Fixpoint serve_ready (ready : list Z) (sockfdlist : list Z) : M bool :=
  match sockfdlist with
  | [] => mret false
  | fd :: sockfdlist' =>
      if bool_decide (fd ∈ ready) then
        '(_, exited) ← process_request fd;
        if exited : bool then mret true else serve_ready ready sockfdlist'
      else serve_ready ready sockfdlist'
  end.

(** [ppoll] answers a negative number when interrupted by a signal; [fuel]
    bounds the iterations of a loop that only ends then. *)
Fixpoint main_loop (fuel : nat) (sockfdlist : list Z) : M bool :=
  match fuel with
  | O => crash OutOfFuel
  | S fuel' =>
      '(r, ready) ← ext (UPoll sockfdlist);
      if r <? 0 then mret false
      else
        exited ← (if negb (r =? 0) then serve_ready ready sockfdlist else mret false);
        if exited : bool then mret true else main_loop fuel' sockfdlist
  end.

(** Signal handlers are not modelled; [calloc] of the table is not checked. *)
Definition do_standalone_mode (fuel : nat) (daemonize : bool) : M Z :=
  rc ← usbip_host_driver_open;
  if negb (rc =? 0) then mret (-1)
  else
    rc ← (if daemonize then ext_ret UDaemon else mret 0);
    if rc <? 0 then usbip_host_driver_close;; mret (-1)
    else
      ai_head ← do_getaddrinfo;
      match ai_head with
      | None => usbip_host_driver_close;; mret (-1)
      | Some ai_head =>
          '(nsockfd, sockfdlist) ← listen_all_addrinfo ai_head;
          if nsockfd <=? 0 then usbip_host_driver_close;; mret (-1)
          else
            fds ← ext_ret UCalloc;
            if fds =? 0 then crash NullDeref
            else
              exited ← main_loop fuel sockfdlist;
              (if exited : bool then mret tt else usbip_host_driver_close);;
              mret 0
      end.
End usbipd.
