(* ===== verification/VhciDriver.v ===== *)
(** * The controller driver of user space

    [libsrc/vhci_driver.c]: the ports of the virtual host controller as its
    [status] file describes them, and the commands written to [attach] and
    [detach]. *)
From Stdlib Require Import String.
From S2P Require Import Prelude CLib Kernel Wire NetWire Sysfs HostDriver.

Local Open Scope Z_scope.

Definition MAXNPORT : nat := 128.

Record usbip_class_device := mkCdev { cd_class_path : list Z; cd_dev_path : list Z }.

Record usbip_imported_device := mkIdev {
  id_port : Z;
  id_status : Z;
  id_devid : Z;
  id_busnum : Z;
  id_devnum : Z;
  id_cdev_list : list usbip_class_device;
  id_udev : option usbip_usb_device
}.
Definition idev_zero : usbip_imported_device := mkIdev 0 0 0 0 0 [] None.

(** [*vhci_driver]; the device of the controller stays open with it. *)
Record usbip_vhci_driver := mkVhciDriver {
  dr_hc_device : sysfs_device;
  dr_cdev_list : list usbip_class_device;
  dr_nports : Z;
  dr_idev : list usbip_imported_device
}.
#[export] Instance set_dr_cdev_list : Setter dr_cdev_list :=
  fun v r => mkVhciDriver (dr_hc_device r) v (dr_nports r) (dr_idev r).
#[global] Arguments set_dr_cdev_list _ _ /.
#[export] Instance set_dr_nports : Setter dr_nports :=
  fun v r => mkVhciDriver (dr_hc_device r) (dr_cdev_list r) v (dr_idev r).
#[global] Arguments set_dr_nports _ _ /.
#[export] Instance set_dr_idev : Setter dr_idev :=
  fun v r => mkVhciDriver (dr_hc_device r) (dr_cdev_list r) (dr_nports r) v.
#[global] Arguments set_dr_idev _ _ /.

Definition vhci_drv : list Z := text "vhci_hcd".
Definition bus_platform : list Z := text "platform".

Section vhci_driver.
Context `{Env} `{Sysfs}.
Notation M := (M (option usbip_vhci_driver)).

Definition the_driver : M usbip_vhci_driver := d ← get; deref d.
Definition modify_driver (f : usbip_vhci_driver -> usbip_vhci_driver) : M unit :=
  d ← the_driver; modify (fun _ => Some (f d)).

(** [!strncmp(cdev->dev_path, path, strlen(path))] *)
Definition below (path : list Z) (cdev : usbip_class_device) : bool :=
  strncmp_eq (length (c_str path)) (cd_dev_path cdev) path.

(** Copies of the class devices below the path, the last first; [false]
    when memory runs out. *)
Fixpoint copy_cdevs (path : list Z) (cdevs acc : list usbip_class_device)
    : M (list usbip_class_device * bool) :=
  match cdevs with
  | [] => mret (acc, true)
  | cdev :: cdevs' =>
      if below path cdev then
        p ← ext_ret UCalloc;
        if p =? 0 then mret (acc, false) else copy_cdevs path cdevs' (cdev :: acc)
      else copy_cdevs path cdevs' acc
  end.

(** The bus id is that of the line, or was left uninitialised by [sscanf].
    The entry, and whether it is complete. *)
Definition imported_device_init (idev : usbip_imported_device) (busid : option (list Z))
    : M (usbip_imported_device * bool) :=
  match busid with
  | None => crash Uninit
  | Some busid =>
      sudev ← lookup (fun tr => sysfs_open_device tr bus_usb busid);
      match sudev with
      | None => mret (idev, false)
      | Some sudev =>
          udev ← read_usb_device sudev;
          d ← the_driver;
          '(cdevs, ok) ← copy_cdevs (uu_path udev) (dr_cdev_list d) (id_cdev_list idev);
          mret (mkIdev (id_port idev) (id_status idev) (id_devid idev)
                  (id_busnum idev) (id_devnum idev) cdevs (Some udev), ok)
      end
  end.

Record status_line := mkStatusLine {
  sl_port : Z;
  sl_status : Z;
  sl_speed : Z;
  sl_devid : Z;
  sl_socket : Z;
  sl_lbusid : option (list Z)
}.

(** [sscanf(c, "%d %d %d %x %lx %s\n", ...)], [None] for a count below five. *)
Definition scan_status_line (c : list Z) : option status_line :=
  match scan_d c with
  | None => None
  | Some (port, c) =>
  match scan_d c with
  | None => None
  | Some (status, c) =>
  match scan_d c with
  | None => None
  | Some (speed, c) =>
  match scan_x_all c with
  | None => None
  | Some (devid, c) =>
  match scan_x_all c with
  | None => None
  | Some (socket, c) =>
      Some (mkStatusLine port status speed (s32 devid) (u64 socket)
              (match scan_s c with Some (w, _) => Some w | None => None end))
  end end end end end.

(** What a line says of its port; the bus id is copied into 32 bytes. *)
Definition idev_of_line (l : status_line) (idev : usbip_imported_device) : usbip_imported_device :=
  mkIdev (u8 (sl_port l)) (u32 (sl_status l)) (u32 (sl_devid l))
    (u8 (Z.shiftr (sl_devid l) 16)) (u8 (Z.land (sl_devid l) 65535)) [] (id_udev idev).

Definition parse_status_line (l : status_line) : M Z :=
  if (match sl_lbusid l with Some w => (SYSFS_BUS_ID_SIZE <=? length w)%nat | None => false end)
  then crash OutOfBounds
  else if (sl_port l <? 0) || (Z.of_nat MAXNPORT <=? sl_port l) then crash OutOfBounds
  else
    let i := Z.to_nat (sl_port l) in
    d ← the_driver;
    idev ← of_option OutOfBounds (dr_idev d !! i);
    let idev := idev_of_line l idev in
    modify_driver (fun d => d <| dr_idev := <[i := idev]> (dr_idev d) |>);;
    p ← ext_ret UCalloc;
    if p =? 0 then mret (-1)
    else if negb (id_status idev =? UST_VDEV_NULL) && negb (id_status idev =? UST_VDEV_NOTASSIGNED)
    then
      '(idev, ok) ← imported_device_init idev (sl_lbusid l);
      modify_driver (fun d => d <| dr_idev := <[i := idev]> (dr_idev d) |>);;
      mret (if ok : bool then 0 else -1)
    else mret 0.

(** [fuel] is the length of the text: every round consumes a line. *)
Fixpoint parse_status_lines (fuel : nat) (c : list Z) : M Z :=
  match fuel with
  | O => crash OutOfFuel
  | S fuel' =>
      match c with
      | [] => mret 0
      | _ =>
          match scan_status_line c with
          | None => crash BugOn
          | Some l =>
              ret ← parse_status_line l;
              if ret <? 0 then mret (-1)
              else
                match after_chr chr_newline c with
                | None => mret 0
                | Some c' => parse_status_lines fuel' c'
                end
          end
      end
  end.

Definition parse_status (value : list Z) : M Z :=
  d ← the_driver;
  if Z.of_nat MAXNPORT <? dr_nports d then crash OutOfBounds
  else
    modify_driver (fun d => d <| dr_idev :=
      replicate (Z.to_nat (dr_nports d)) idev_zero ++ drop (Z.to_nat (dr_nports d)) (dr_idev d) |>);;
    match after_chr chr_newline value with
    | None => mret (-1)
    | Some c => parse_status_lines (S (length c)) c
    end.

(** *** Class devices *)
Definition check_usbip_device (cdev_path : list Z) : M Z :=
  let class_path := attr_path cdev_path (text "device") in
  dev_path ← lookup (fun tr => sysfs_get_link tr class_path);
  d ← the_driver;
  match dev_path with
  | None => mret 0
  | Some dev_path =>
      let hc := c_str (sf_path (dr_hc_device d)) in
      if strncmp_eq (length hc) dev_path hc then
        p ← ext_ret UCalloc;
        if p =? 0 then mret (-1)
        else
          modify_driver (fun d => d <| dr_cdev_list :=
            mkCdev (strncpy SYSFS_PATH_MAX class_path) (strncpy SYSFS_PATH_MAX dev_path)
            :: dr_cdev_list d |>);;
          mret 0
      else mret 0
  end.

Fixpoint check_usbip_devices (cdevs : list (list Z)) : M Z :=
  match cdevs with
  | [] => mret 0
  | cdev :: cdevs' =>
      ret ← check_usbip_device cdev;
      if ret <? 0 then mret ret else check_usbip_devices cdevs'
  end.

Definition search_class_for_usbip_device (cname : list Z) : M Z :=
  class ← lookup (fun tr => sysfs_class_devices tr cname);
  match class with
  | None => mret (-1)
  | Some None => mret 0
  | Some (Some cdevs) => check_usbip_devices cdevs
  end.

Fixpoint search_classes (cnames : list (list Z)) : M Z :=
  match cnames with
  | [] => mret 0
  | cname :: cnames' =>
      ret ← search_class_for_usbip_device cname;
      if ret <? 0 then mret (-1) else search_classes cnames'
  end.

Definition refresh_class_device_list : M Z :=
  mnt ← lookup sysfs_get_mnt_path;
  cnames ← lookup sysfs_class_names;
  match mnt, cnames with
  | Some _, Some cnames =>
      ret ← search_classes cnames;
      if ret <? 0 then mret (-1)
      else
        ret ← search_class_for_usbip_device (text "block");
        if ret <? 0 then mret (-1) else mret 0
  | _, _ => mret (-1)
  end.

Definition status_attr : M (option (list Z)) :=
  d ← the_driver;
  lookup (fun tr => sysfs_get_device_attr tr (dr_hc_device d) (text "status")).

Definition refresh_imported_device_list : M Z :=
  value ← status_attr;
  match value with None => mret (-1) | Some value => parse_status value end.

(** The number of lines that end, behind the header. *)
Fixpoint count_lines (fuel : nat) (c : list Z) (nports : Z) : Z :=
  match fuel with
  | O => nports
  | S fuel' =>
      match c with
      | [] => nports
      | _ => match after_chr chr_newline c with
             | None => nports
             | Some c' => count_lines fuel' c' (nports + 1)
             end
      end
  end.

Definition get_nports : M Z :=
  value ← status_attr;
  mret (match value with
        | None => -1
        | Some value =>
            match after_chr chr_newline value with
            | None => 0
            | Some c => count_lines (S (length c)) c 0
            end
        end).

(** The last device of the driver is taken. *)
Definition get_hc_busid : M (option (list Z)) :=
  drv ← lookup (fun tr => sysfs_open_driver tr bus_platform vhci_drv);
  devs ← lookup (fun tr => sysfs_get_driver_devices tr bus_platform vhci_drv);
  mret (if negb drv then None
        else match devs with
             | None => None
             | Some devs => match last devs with
                            | Some d => Some (strncpy SYSFS_BUS_ID_SIZE (sf_bus_id d))
                            | None => None
                            end
             end).

Definition close_driver : M Z := modify (fun _ => None);; mret (-1).

Definition usbip_vhci_driver_open : M Z :=
  p ← ext_ret UCalloc;
  if p =? 0 then close_driver
  else
    mnt ← lookup sysfs_get_mnt_path;
    hc_busid ← get_hc_busid;
    match mnt, hc_busid with
    | Some _, Some hc_busid =>
        hc ← lookup (fun tr => sysfs_open_device tr bus_platform (c_str hc_busid));
        match hc with
        | None => close_driver
        | Some hc =>
            modify (fun _ => Some (mkVhciDriver hc [] 0 (replicate MAXNPORT idev_zero)));;
            n ← get_nports;
            modify_driver (fun d => d <| dr_nports := n |>);;
            l ← ext_ret UCalloc;
            if l =? 0 then close_driver
            else
              ret ← refresh_class_device_list;
              if negb (ret =? 0) then close_driver
              else
                ret ← refresh_imported_device_list;
                if negb (ret =? 0) then close_driver else mret 0
        end
    | _, _ => close_driver
    end.

Definition usbip_vhci_driver_close : M unit := modify (fun _ => None).

(** The first port in state [VDEV_ST_NULL]. *)
Fixpoint free_port_from (i : Z) (n : nat) (idevs : list usbip_imported_device) : M Z :=
  match n with
  | O => mret (-1)
  | S n' =>
      match idevs with
      | [] => crash OutOfBounds
      | idev :: idevs' =>
          if id_status idev =? UST_VDEV_NULL then mret i else free_port_from (i + 1) n' idevs'
      end
  end.
Definition usbip_vhci_get_free_port : M Z :=
  d ← the_driver;
  free_port_from 0 (Z.to_nat (dr_nports d)) (dr_idev d).

(** "%u %u %u %u" *)
Definition attach_command (port sockfd devid speed : Z) : list Z :=
  print_u port ++ [chr_space] ++ print_u (u32 sockfd) ++ [chr_space] ++
  print_u devid ++ [chr_space] ++ print_u speed.

(** An attribute of the controller is written by its name. *)
Definition write_hc_attr (name buff : list Z) : M Z :=
  d ← the_driver;
  attr ← lookup (fun tr => sysfs_get_device_attr tr (dr_hc_device d) name);
  match attr with
  | None => mret (-1)
  | Some _ =>
      ret ← ext_ret (UWriteAttr (attr_path (sf_path (dr_hc_device d)) name) buff
                       (Z.of_nat (length buff)));
      mret (if ret <? 0 then -1 else 0)
  end.

Definition usbip_vhci_attach_device2 (port sockfd devid speed : Z) : M Z :=
  write_hc_attr (text "attach") (snprintf 200 (attach_command (u8 port) sockfd (u32 devid) (u32 speed))).

Definition get_devid (busnum devnum : Z) : Z := Z.lor (Z.shiftl (u8 busnum) 16) (u8 devnum).

Definition usbip_vhci_attach_device (port sockfd busnum devnum speed : Z) : M Z :=
  usbip_vhci_attach_device2 port sockfd (get_devid busnum devnum) speed.

Definition usbip_vhci_detach_device (port : Z) : M Z :=
  write_hc_attr (text "detach") (snprintf 200 (print_u (u8 port))).

Definition usbip_vhci_refresh_device_list : M Z :=
  _ ← the_driver;
  l ← ext_ret UCalloc;
  modify_driver (fun d => d <| dr_cdev_list := [] |>);;
  if l =? 0 then mret (-1)
  else
    ret ← refresh_class_device_list;
    if negb (ret =? 0) then mret (-1)
    else
      ret ← refresh_imported_device_list;
      if negb (ret =? 0) then mret (-1) else mret 0.
End vhci_driver.
