(* ===== verification/Tools.v ===== *)
(** * The user-space commands

    [src/usbip_attach.c], [usbip_detach.c], [usbip_list.c], [usbip_bind.c],
    [usbip_unbind.c] and [utils.c]: importing a device of another host, listing
    what it exports, and choosing which local devices are exported. *)
From Stdlib Require Import String.
From S2P Require Import Prelude CLib Kernel Wire NetWire Net Sysfs HostDriver Usbipd VhciDriver.

Local Open Scope Z_scope.

(** ** Attaching *)

Section attach.
Context `{Env} `{Arch} `{Sysfs}.
Notation M := (M (option usbip_vhci_driver)).

Definition vhci_state_path : list Z := text "/var/run/vhci_hcd".
Definition PATH_MAX : nat := 4096.
Definition EEXIST := 17.
Definition port_file (rhport : Z) : list Z :=
  snprintf PATH_MAX (vhci_state_path ++ text "/port" ++ print_d rhport).

(** [mkdir] answers 0 or the error number, [stat] 0 for a directory. *)
Definition record_connection (host port busid : list Z) (rhport : Z) : M Z :=
  errno ← ext_ret (UMkdir vhci_state_path);
  ok ← (if errno =? 0 then mret true
        else if negb (errno =? EEXIST) then mret false
        else r ← ext_ret (UStat vhci_state_path); mret (r =? 0));
  if negb ok then mret (-1)
  else
    fd ← ext_ret (UCreate (port_file rhport));
    if fd <? 0 then mret (-1)
    else
      let buff := snprintf 100 (host ++ [chr_space] ++ port ++ [chr_space] ++ busid ++ [chr_newline]) in
      ret ← ext_ret (UWrite fd buff);
      ext_do (UClose fd);;
      mret (if ret =? Z.of_nat (length buff) then 0 else -1).

Definition import_device (sockfd : Z) (udev : usbip_usb_device) : M Z :=
  rc ← usbip_vhci_driver_open;
  if rc <? 0 then mret (-1)
  else
    port ← usbip_vhci_get_free_port;
    if port <? 0 then usbip_vhci_driver_close;; mret (-1)
    else
      rc ← usbip_vhci_attach_device port sockfd (uu_busnum udev) (uu_devnum udev) (uu_speed udev);
      usbip_vhci_driver_close;;
      mret (if rc <? 0 then -1 else port).

(** [strncpy(request.busid, busid, SYSFS_BUS_ID_SIZE-1)] into zeroed memory. *)
Definition import_request (busid : list Z) : op_import_request :=
  PACK_OP_IMPORT_REQUEST false (mkImportReq (strncpy (SYSFS_BUS_ID_SIZE - 1) busid ++ [0])).

Definition query_import_device (sockfd : Z) (busid : list Z) : M Z :=
  rc ← usbip_net_send_op_common sockfd OP_REQ_IMPORT 0;
  if rc <? 0 then mret (-1)
  else
    rc ← usbip_net_send sockfd (req_busid (import_request busid));
    if rc <? 0 then mret (-1)
    else
      '(rc, _) ← usbip_net_recv_op_common sockfd OP_REP_IMPORT;
      if rc <? 0 then mret (-1)
      else
        '(rc, mem) ← usbip_net_recv sockfd (zeroed 312);
        if rc <? 0 then mret (-1)
        else
          let reply := PACK_OP_IMPORT_REPLY false (mkImportRep (usb_device_of_mem mem)) in
          if negb (strncmp_eq SYSFS_BUS_ID_SIZE (uu_busid (rep_udev reply)) busid) then mret (-1)
          else import_device sockfd (rep_udev reply).

(** On failure the socket is not closed. *)
Definition attach_device (host busid : list Z) : M Z :=
  sockfd ← usbip_net_tcp_connect host usbip_port_string;
  if sockfd <? 0 then mret (-1)
  else
    rhport ← query_import_device sockfd busid;
    if rhport <? 0 then mret (-1)
    else
      ext_do (UClose sockfd);;
      rc ← record_connection host usbip_port_string busid rhport;
      mret (if rc <? 0 then -1 else 0).

(** ** Detaching *)
Definition detach_port (port : list Z) : M Z :=
  if negb (forallb is_digit port) then mret (-1)
  else
    let portnum := u8 (atoi port) in
    ext_do (URemove (port_file portnum));;
    ext_do (URemove vhci_state_path);;
    ret ← usbip_vhci_driver_open;
    if ret <? 0 then mret (-1)
    else
      ret ← usbip_vhci_detach_device portnum;
      if ret <? 0 then mret (-1)
      else usbip_vhci_driver_close;; mret ret.
End attach.

(** ** Listing *)

Section list_remote.
Context `{Env} `{Arch} {St : Type}.
Notation M := (M St).

(** The interfaces of a device; [None] when one does not arrive. *)
Fixpoint recv_interfaces (sockfd : Z) (n : nat) : M (option (list usbip_usb_interface)) :=
  match n with
  | O => mret (Some [])
  | S n' =>
      '(rc, mem) ← usbip_net_recv sockfd (zeroed 4);
      if rc <? 0 then mret None
      else
        let uintf := usbip_net_pack_usb_interface false (usb_interface_of_mem mem) in
        rest ← recv_interfaces sockfd n';
        mret (match rest with Some l => Some (uintf :: l) | None => None end)
  end.

Fixpoint recv_devices (sockfd : Z) (n : nat)
    : M (option (list (usbip_usb_device * list usbip_usb_interface))) :=
  match n with
  | O => mret (Some [])
  | S n' =>
      '(rc, mem) ← usbip_net_recv sockfd (zeroed 312);
      if rc <? 0 then mret None
      else
        let udev := usbip_net_pack_usb_device false (usb_device_of_mem mem) in
        uinf ← recv_interfaces sockfd (Z.to_nat (uu_bNumInterfaces udev));
        match uinf with
        | None => mret None
        | Some uinf =>
            rest ← recv_devices sockfd n';
            mret (match rest with Some l => Some ((udev, uinf) :: l) | None => None end)
        end
  end.

(** The result and what is printed: the devices with their interfaces. *)
Definition get_exported_devices (sockfd : Z)
    : M (Z * list (usbip_usb_device * list usbip_usb_interface)) :=
  rc ← usbip_net_send_op_common sockfd OP_REQ_DEVLIST 0;
  if rc <? 0 then mret (-1, [])
  else
    '(rc, _) ← usbip_net_recv_op_common sockfd OP_REP_DEVLIST;
    if rc <? 0 then mret (-1, [])
    else
      '(rc, mem) ← usbip_net_recv sockfd (zeroed 4);
      if rc <? 0 then mret (-1, [])
      else
        let reply := PACK_OP_DEVLIST_REPLY false (mkDevlistRep (word_of mem)) in
        if rep_ndev reply =? 0 then mret (0, [])
        else
          devs ← recv_devices sockfd (Z.to_nat (rep_ndev reply));
          mret (match devs with Some l => (0, l) | None => (-1, []) end).

Definition list_exported_devices (host : list Z)
    : M (Z * list (usbip_usb_device * list usbip_usb_interface)) :=
  sockfd ← usbip_net_tcp_connect host usbip_port_string;
  if sockfd <? 0 then mret (-1, [])
  else
    '(rc, devs) ← get_exported_devices sockfd;
    if rc <? 0 then mret (-1, devs)
    else ext_do (UClose sockfd);; mret (0, devs).
End list_remote.

(** ** Binding local devices *)

Section bind.
Context `{Env} `{Sysfs} {St : Type}.
Notation M := (M St).

Definition host_drv_attr (mnt name : list Z) : list Z :=
  snprintf SYSFS_PATH_MAX (mnt ++ text "/bus/usb/drivers/" ++ host_drv ++ slash ++ name).

(** "add %s" or "del %s"; the whole buffer is written. *)
Definition match_busid_command (busid : list Z) (add : bool) : list Z :=
  let verb := if add then text "add " else text "del " in
  let s := snprintf (SYSFS_BUS_ID_SIZE + 4) (verb ++ busid) in
  s ++ [0].

(** The bytes behind the terminator are what the stack held. *)
Definition modify_match_busid (busid : list Z) (add : bool) : M Z :=
  if (SYSFS_BUS_ID_SIZE - 1 <? strnlen SYSFS_BUS_ID_SIZE busid)%nat then mret (-1)
  else
    mnt ← lookup sysfs_get_mnt_path;
    match mnt with
    | None => mret (-1)
    | Some mnt =>
        let path := host_drv_attr mnt (text "match_busid") in
        attr ← ext_ret (UOpenAttr path);
        if attr =? 0 then mret (-1)
        else
          '(_, junk) ← ext UStack;
          let s := match_busid_command busid add in
          let buff := take (SYSFS_BUS_ID_SIZE + 4) (s ++ junk) in
          rc ← ext_ret (UWriteAttr path buff (Z.of_nat (SYSFS_BUS_ID_SIZE + 4)));
          mret (if rc <? 0 then -1 else 0)
    end.

Inductive unbind_status := UNBIND_ST_OK | UNBIND_ST_USBIP_HOST | UNBIND_ST_FAILED.

(** "%s:%.1s.%d" *)
Definition intf_busid (busid conf : list Z) (i : Z) : list Z :=
  snprintf SYSFS_BUS_ID_SIZE (busid ++ text ":" ++ take 1 (c_str conf) ++ text "." ++ print_d i).

Definition SYSFS_NAME_LEN : nat := 64.

(** The [i]th interface: the new status, or [None] when the loop is left. *)
Definition unbind_interface (busid conf : list Z) (i : Z) (status : unbind_status)
    : M (option unbind_status) :=
  intf ← lookup (fun tr => sysfs_open_device tr bus_usb (intf_busid busid conf i));
  match intf with
  | None => mret None
  | Some intf =>
      let drv := sf_driver_name intf in
      if strncmp_eq SYSFS_NAME_LEN (text "unknown") drv then mret (Some status)
      else if strncmp_eq SYSFS_NAME_LEN host_drv drv then mret (Some UNBIND_ST_USBIP_HOST)
      else
        ok ← lookup (fun tr => sysfs_open_driver tr bus_usb drv);
        attr ← lookup (fun tr => sysfs_get_driver_attr tr bus_usb drv (text "unbind"));
        if negb ok || negb attr then mret None
        else
          (* the attribute is named by its driver *)
          rc ← ext_ret (UWriteAttr (text "drivers/" ++ drv ++ text "/unbind") (sf_bus_id intf)
                          (Z.of_nat SYSFS_BUS_ID_SIZE));
          mret (Some (if rc <? 0 then UNBIND_ST_FAILED else status))
  end.

Fixpoint unbind_interfaces (busid conf : list Z) (i : Z) (n : nat) (status : unbind_status)
    : M unbind_status :=
  match n with
  | O => mret status
  | S n' =>
      st ← unbind_interface busid conf i status;
      match st with
      | None => mret UNBIND_ST_FAILED
      | Some st => unbind_interfaces busid conf (i + 1) n' st
      end
  end.

(** A device that cannot be opened is an error of its own, -1. *)
Definition unbind_other (busid : list Z) : M (option unbind_status) :=
  dev ← lookup (fun tr => sysfs_open_device tr bus_usb busid);
  match dev with
  | None => mret None
  | Some dev =>
      conf ← lookup (fun tr => sysfs_get_device_attr tr dev (text "bConfigurationValue"));
      cls ← lookup (fun tr => sysfs_get_device_attr tr dev (text "bDeviceClass"));
      num ← lookup (fun tr => sysfs_get_device_attr tr dev (text "bNumInterfaces"));
      match conf, cls, num with
      | Some conf, Some cls, Some num =>
          if strncmp_eq (length cls) cls (text "09") then mret (Some UNBIND_ST_FAILED)
          else st ← unbind_interfaces busid conf 0 (Z.to_nat (atoi num)) UNBIND_ST_OK;
               mret (Some st)
      | _, _, _ => mret (Some UNBIND_ST_FAILED)
      end
  end.

Fixpoint bind_interfaces (path busid conf : list Z) (i : Z) (n : nat) (failed : bool) : M bool :=
  match n with
  | O => mret failed
  | S n' =>
      rc ← ext_ret (UWriteAttr path (intf_busid busid conf i) (Z.of_nat SYSFS_BUS_ID_SIZE));
      bind_interfaces path busid conf (i + 1) n' (if rc <? 0 then true else failed)
  end.

Definition bind_usbip (busid : list Z) : M Z :=
  mnt ← lookup sysfs_get_mnt_path;
  match mnt with
  | None => mret (-1)
  | Some mnt =>
      let path := host_drv_attr mnt (text "bind") in
      attr ← ext_ret (UOpenAttr path);
      if attr =? 0 then mret (-1)
      else
        dev ← lookup (fun tr => sysfs_open_device tr bus_usb busid);
        match dev with
        | None => mret (-1)
        | Some dev =>
            conf ← lookup (fun tr => sysfs_get_device_attr tr dev (text "bConfigurationValue"));
            num ← lookup (fun tr => sysfs_get_device_attr tr dev (text "bNumInterfaces"));
            match conf, num with
            | Some conf, Some num =>
                failed ← bind_interfaces path busid conf 0 (Z.to_nat (atoi num)) false;
                mret (if failed : bool then -1 else 0)
            | _, _ => mret (-1)
            end
        end
  end.

(** A device that could not be opened ([None]) is bound nevertheless. *)
Definition bind_device (busid : list Z) : M Z :=
  rc ← unbind_other busid;
  match rc with
  | Some UNBIND_ST_FAILED | Some UNBIND_ST_USBIP_HOST => mret (-1)
  | _ =>
      rc ← modify_match_busid busid true;
      if rc <? 0 then mret (-1)
      else
        rc ← bind_usbip busid;
        if rc <? 0 then modify_match_busid busid false;; mret (-1) else mret 0
  end.

(** An interface of the device that is bound to the host driver. *)
Fixpoint verified (busid : list Z) (devlist : list sysfs_device) : bool :=
  match devlist with
  | [] => false
  | dev :: devlist' =>
      if strncmp_eq (length busid) busid (sf_name dev) &&
         strncmp_eq (length host_drv) (sf_driver_name dev) host_drv
      then true else verified busid devlist'
  end.

(** Only the first character of the value is copied; [len] bytes are written. *)
Definition unbind_device (busid : list Z) : M Z :=
  drv ← lookup (fun tr => sysfs_open_driver tr bus_usb host_drv);
  devlist ← lookup (fun tr => sysfs_get_driver_devices tr bus_usb host_drv);
  if negb drv then mret (-1)
  else match devlist with
  | None => mret (-1)
  | Some devlist =>
      if negb (verified busid devlist) then mret (-1)
      else
        mnt ← lookup sysfs_get_mnt_path;
        match mnt with
        | None => mret (-1)
        | Some mnt =>
            let path := snprintf SYSFS_PATH_MAX (mnt ++ text "/bus/usb/devices/" ++ busid ++
                                                  text "/bConfigurationValue") in
            attr ← ext_ret (UOpenAttr path);
            if attr =? 0 then mret (-1)
            else
              '(ret, value) ← ext (UReadAttr path);
              if ret <? 0 then mret (-1)
              else
                '(p, junk) ← ext UCalloc;
                (if p =? 0 then crash NullDeref
                 else if (length value =? 0)%nat then crash OutOfBounds else mret tt);;
                let val := take (length value) (take 1 value ++ junk) in
                rc ← modify_match_busid busid false;
                if rc <? 0 then mret (-1)
                else
                  attr ← ext_ret (UOpenAttr path);
                  if attr =? 0 then mret (-1)
                  else
                    rc ← ext_ret (UWriteAttr path val (Z.of_nat (length value)));
                    mret (if rc <? 0 then -1 else 0)
        end
  end.
End bind.
