(* ===== verification/Commands.v ===== *)
(** * The command line

    [usbip.c] and the functions of [usbip_attach.c], [usbip_detach.c],
    [usbip_list.c], [usbip_bind.c] and [usbip_unbind.c] that take options; the local
    list; the options of [usbipd.c]; and the names [libsrc/usbip_common.c] prints.
    [getopt_long] is the library's: an option list is the sequence of its answers, an
    option's letter with its argument.  What goes to the standard output is kept as
    text, messages to the standard error are left out. *)
From Stdlib Require Import String.
From S2P Require Import Prelude CLib Kernel Wire NetWire Net Names Sysfs HostDriver Usbipd VhciDriver Tools.

Local Open Scope Z_scope.

(** The bus of the sysfs library: whether it can be opened, and its devices. *)
Class SysfsBus := {
  sysfs_open_bus : list call -> list Z -> bool;
  sysfs_get_bus_devices : list call -> list Z -> option (list sysfs_device)
}.
(** Set when the programs are configured. *)
Class Package := {
  package_string : list Z;
  usbids_file : list Z
}.

Notation option_t := (string * list Z)%type.

(** The state of one run of a command: the tables of names, the driver, the output. *)
Record tool := mkTool {
  tl_names : names;
  tl_vhci : option usbip_vhci_driver;
  tl_out : list Z
}.
#[export] Instance set_tl_names : Setter tl_names := fun v r => mkTool v (tl_vhci r) (tl_out r).
#[global] Arguments set_tl_names _ _ /.
#[export] Instance set_tl_vhci : Setter tl_vhci := fun v r => mkTool (tl_names r) v (tl_out r).
#[global] Arguments set_tl_vhci _ _ /.
#[export] Instance set_tl_out : Setter tl_out := fun v r => mkTool (tl_names r) (tl_vhci r) v.
#[global] Arguments set_tl_out _ _ /.

Definition tool_start : tool := mkTool names_zero None [].

Definition newline : list Z := [chr_newline].
Definition line (s : string) : list Z := text s ++ newline.

(** ** Names *)

Section names.
Context `{Env}.
Notation M := (M names).

Definition usbip_names_init (f : list Z) : M Z := names_init f.
Definition usbip_names_free : M unit := names_free.

Definition product_text (vend prod : list Z) (vendor product : Z) : list Z :=
  vend ++ text " : " ++ prod ++ text " (" ++ pad0 4 (print_x vendor) ++ text ":" ++
  pad0 4 (print_x product) ++ text ")".
Definition usbip_names_get_product (size : nat) (vendor product : Z) : M (list Z) :=
  prod ← names_product vendor product;
  vend ← names_vendor vendor;
  mret (snprintf size (product_text (default (text "unknown vendor") vend)
                         (default (text "unknown product") prod) vendor product)).

Definition codes_text (class subclass protocol : Z) : list Z :=
  text " (" ++ pad0 2 (print_x class) ++ text "/" ++ pad0 2 (print_x subclass) ++ text "/" ++
  pad0 2 (print_x protocol) ++ text ")".
Definition class_text (c s p : list Z) (class subclass protocol : Z) : list Z :=
  c ++ text " / " ++ s ++ text " / " ++ p ++ codes_text class subclass protocol.
Definition usbip_names_get_class (size : nat) (class subclass protocol : Z) : M (list Z) :=
  if (class =? 0) && (subclass =? 0) && (protocol =? 0) then
    mret (snprintf size (text "(Defined at Interface level)" ++ codes_text class subclass protocol))
  else
    p ← names_protocol class subclass protocol;
    s ← names_subclass class subclass;
    c ← names_class class;
    mret (snprintf size (class_text (default (text "unknown class") c) (default (text "unknown subclass") s)
                           (default (text "unknown protocol") p) class subclass protocol)).
End names.

(** ** The local devices *)

(** [strcmp(a, b) <= 0] *)
Fixpoint strcmp_le (a b : list Z) : bool :=
  match a, b with
  | [], _ => true
  | _, [] => false
  | x :: a', y :: b' => if x <? y then true else if y <? x then false else strcmp_le a' b'
  end.
(** [devcmp] compares the devices as strings: a device begins with its name. *)
Definition devcmp (a b : sysfs_device) : bool := strcmp_le (sf_name a) (sf_name b).
Fixpoint insert_device (d : sysfs_device) (l : list sysfs_device) : list sysfs_device :=
  match l with
  | [] => [d]
  | e :: l' => if devcmp d e then d :: l else e :: insert_device d l'
  end.
Definition sort_devices (l : list sysfs_device) : list sysfs_device := foldr insert_device [] l.

(** [strtol(value, NULL, 16)] as the 16-bit argument it becomes. *)
Definition hex16 (value : list Z) : Z :=
  match scan_x_all value with Some (v, _) => u16 v | None => 0 end.

Definition print_device (busid vendor product : list Z) (parsable : bool) : list Z :=
  let ids := take 4 (c_str vendor) ++ text ":" ++ take 4 (c_str product) in
  if parsable then text "busid=" ++ busid ++ text "#usbid=" ++ ids ++ text "#"
  else text " - busid " ++ busid ++ text " (" ++ ids ++ text ")" ++ newline.
Definition print_product_name (product_name : list Z) (parsable : bool) : list Z :=
  if parsable then [] else text "   " ++ product_name ++ newline.
Definition print_interface (busid driver : list Z) (parsable : bool) : list Z :=
  if parsable then busid ++ text "=" ++ driver ++ text "#"
  else replicate 9 chr_space ++ busid ++ text " -> " ++ driver ++ newline.

Section tool.
Context `{Env} `{Arch} `{Sysfs} `{SysfsBus} `{Package}.
Notation M := (M tool).

Definition on_names {A} (m : Kernel.M names A) : M A := fun s k =>
  match m (tl_names s) k with
  | Ok (a, n, k') => Ok (a, s <| tl_names := n |>, k')
  | Crash b => Crash b
  end.
Definition on_vhci {A} (m : Kernel.M (option usbip_vhci_driver) A) : M A := fun s k =>
  match m (tl_vhci s) k with
  | Ok (a, v, k') => Ok (a, s <| tl_vhci := v |>, k')
  | Crash b => Crash b
  end.
Definition printf (t : list Z) : M unit := modify (fun s => s <| tl_out := tl_out s ++ t |>).

(** Neither an interface nor a root hub. *)
Definition is_device (tr : list call) (dev : sysfs_device) : bool :=
  match sysfs_get_device_attr tr dev (text "devpath") with
  | Some devpath => negb (nth 0 devpath 0 =? 48)
  | None => false
  end.

Fixpoint list_interfaces (parsable : bool) (busid conf : list Z) (i : Z) (n : nat) : M bool :=
  match n with
  | O => mret true
  | S n' =>
      let name := intf_busid busid conf i in
      intf ← lookup (fun tr => sysfs_open_device tr bus_usb name);
      match intf with
      | None => mret false
      | Some intf =>
          printf (print_interface name (sf_driver_name intf) parsable);;
          list_interfaces parsable busid conf (i + 1) n'
      end
  end.

Definition list_device (parsable : bool) (dev : sysfs_device) : M bool :=
  idVendor ← lookup (fun tr => sysfs_get_device_attr tr dev (text "idVendor"));
  idProduct ← lookup (fun tr => sysfs_get_device_attr tr dev (text "idProduct"));
  bConfValue ← lookup (fun tr => sysfs_get_device_attr tr dev (text "bConfigurationValue"));
  bNumIntfs ← lookup (fun tr => sysfs_get_device_attr tr dev (text "bNumInterfaces"));
  match idVendor, idProduct, bConfValue, bNumIntfs with
  | Some v, Some p, Some conf, Some num =>
      product_name ← on_names (usbip_names_get_product 128 (hex16 v) (hex16 p));
      printf (print_device (sf_bus_id dev) v p parsable);;
      printf (print_product_name product_name parsable);;
      ok ← list_interfaces parsable (sf_bus_id dev) conf 0 (Z.to_nat (atoi num));
      if ok : bool then printf newline;; mret true else mret false
  | _, _, _, _ => mret false
  end.

Fixpoint list_each (parsable : bool) (devlist : list sysfs_device) : M bool :=
  match devlist with
  | [] => mret true
  | dev :: devlist' =>
      ok ← list_device parsable dev;
      if ok : bool then list_each parsable devlist' else mret false
  end.

Definition local_header : list Z := line "Local USB devices" ++ line "=================".
Definition list_devices (parsable : bool) : M Z :=
  ubus ← lookup (fun tr => sysfs_open_bus tr bus_usb);
  if negb (ubus : bool) then mret (-1)
  else
    devlist ← lookup (fun tr => sysfs_get_bus_devices tr bus_usb);
    match devlist with
    | None => mret (-1)
    | Some devlist =>
        devlist ← lookup (fun tr => sort_devices (List.filter (is_device tr) devlist));
        (if parsable then mret tt else printf local_header);;
        ok ← list_each parsable devlist;
        mret (if ok : bool then 0 else -1)
    end.

(** ** The devices of another machine *)

Definition field (name value : list Z) : list Z := pad_left 11 chr_space name ++ text ": " ++ value ++ newline.

Fixpoint print_interfaces (j : Z) (uinf : list usbip_usb_interface) : M unit :=
  match uinf with
  | [] => mret tt
  | x :: uinf' =>
      class_name ← on_names (usbip_names_get_class 100 (bInterfaceClass x) (bInterfaceSubClass x)
                               (bInterfaceProtocol x));
      printf (field [] (pad_left 2 chr_space (print_d j) ++ text " - " ++ class_name));;
      print_interfaces (j + 1) uinf'
  end.
Fixpoint print_devices (devs : list (usbip_usb_device * list usbip_usb_interface)) : M unit :=
  match devs with
  | [] => mret tt
  | (udev, uinf) :: devs' =>
      product_name ← on_names (usbip_names_get_product 100 (uu_idVendor udev) (uu_idProduct udev));
      class_name ← on_names (usbip_names_get_class 100 (uu_bDeviceClass udev) (uu_bDeviceSubClass udev)
                               (uu_bDeviceProtocol udev));
      printf (field (c_str (uu_busid udev)) product_name);;
      printf (field [] (c_str (uu_path udev)));;
      printf (field [] class_name);;
      print_interfaces 0 uinf;;
      printf newline;;
      print_devices devs'
  end.
(** Printed when the list has arrived as a whole; of a list that is cut off the
    code prints the beginning. *)
Definition list_remote (host : list Z) : M Z :=
  '(rc, devs) ← list_exported_devices host;
  match devs with
  | [] => mret rc
  | _ =>
      printf (line "Exportable USB devices" ++ line "======================" ++ text " - " ++ host ++ newline);;
      print_devices devs;;
      mret rc
  end.

(** ** Commands *)

Definition usage (t : list Z) : M unit := printf (text "usage: " ++ t).
Definition usbip_attach_usage : M unit :=
  usage (line "usbip attach <args>" ++
         line "    -r, --remote=<host>      The machine with exported USB devices" ++
         line "    -b, --busid=<busid>    Busid of the device on <host>").
Definition usbip_detach_usage : M unit :=
  usage (line "usbip detach <args>" ++ line "    -p, --port=<port>    vhci_hcd port the device is on").
Definition usbip_list_usage : M unit :=
  usage (line "usbip list [-p|--parsable] <args>" ++
         line "    -p, --parsable         Parsable list format" ++
         line "    -r, --remote=<host>    List the exportable USB devices on <host>" ++
         line "    -l, --local            List the local USB devices").
Definition usbip_bind_usage : M unit :=
  usage (line "usbip bind <args>" ++
         line "    -b, --busid=<busid>    Bind usbip-host.ko to device on <busid>").
Definition usbip_unbind_usage : M unit :=
  usage (line "usbip unbind <args>" ++
         line "    -b, --busid=<busid>    Unbind usbip-host.ko from device on <busid>").

(** The host and the bus id given last; [None]: an option that is none. *)
Fixpoint attach_options (opts : list option_t) (host busid : option (list Z))
    : option (option (list Z) * option (list Z)) :=
  match opts with
  | [] => Some (host, busid)
  | (c, optarg) :: opts' =>
      if String.eqb c "r" then attach_options opts' (Some optarg) busid
      else if String.eqb c "b" then attach_options opts' host (Some optarg)
      else None
  end.
Definition usbip_attach (opts : list option_t) : M Z :=
  match attach_options opts None None with
  | Some (Some host, Some busid) => on_vhci (attach_device host busid)
  | _ => usbip_attach_usage;; mret (-1)
  end.

Definition usbip_detach (opts : list option_t) : M Z :=
  match opts with
  | (c, optarg) :: _ =>
      if String.eqb c "p" then on_vhci (detach_port optarg) else usbip_detach_usage;; mret (-1)
  | [] => usbip_detach_usage;; mret (-1)
  end.
Definition usbip_bind (opts : list option_t) : M Z :=
  match opts with
  | (c, optarg) :: _ => if String.eqb c "b" then bind_device optarg else usbip_bind_usage;; mret (-1)
  | [] => usbip_bind_usage;; mret (-1)
  end.
Definition usbip_unbind (opts : list option_t) : M Z :=
  match opts with
  | (c, optarg) :: _ => if String.eqb c "b" then unbind_device optarg else usbip_unbind_usage;; mret (-1)
  | [] => usbip_unbind_usage;; mret (-1)
  end.

(** The first option that says what to list decides. *)
Fixpoint list_options (opts : list option_t) (parsable : bool) : M Z :=
  match opts with
  | [] => usbip_list_usage;; mret (-1)
  | (c, optarg) :: opts' =>
      if String.eqb c "p" then list_options opts' true
      else if String.eqb c "r" then list_remote optarg
      else if String.eqb c "l" then list_devices parsable
      else usbip_list_usage;; mret (-1)
  end.
Definition usbip_list (opts : list option_t) : M Z :=
  on_names (usbip_names_init usbids_file);;
  ret ← list_options opts false;
  on_names usbip_names_free;;
  mret ret.

(** ** The dispatcher *)

Inductive command := c_help | c_version | c_attach | c_detach | c_list | c_bind | c_unbind.
Definition cmds : list (list Z * command) :=
  [(text "help", c_help); (text "version", c_version); (text "attach", c_attach);
   (text "detach", c_detach); (text "list", c_list); (text "bind", c_bind); (text "unbind", c_unbind)].
Definition cmd_help (c : command) : option (list Z) :=
  match c with
  | c_help | c_version => None
  | c_attach => Some (text "Attach a remote USB device")
  | c_detach => Some (text "Detach a remote USB device")
  | c_list => Some (text "List exportable or local USB devices")
  | c_bind => Some (text "Bind device to usbip-host.ko")
  | c_unbind => Some (text "Unbind device from usbip-host.ko")
  end.
Definition cmd_usage (c : command) : option (M unit) :=
  match c with
  | c_help | c_version => None
  | c_attach => Some usbip_attach_usage
  | c_detach => Some usbip_detach_usage
  | c_list => Some usbip_list_usage
  | c_bind => Some usbip_bind_usage
  | c_unbind => Some usbip_unbind_usage
  end.
Definition find_command (name : list Z) : option command :=
  snd <$> List.find (fun c => bool_decide (c.1 = name)) cmds.

Definition usbip_usage : M unit :=
  printf (text "usage: " ++ line "usbip [--debug] [--log] [version]" ++
          line "             [help] <command> <args>").
(** "%-10s" *)
Definition pad_right (width : nat) (s : list Z) : list Z := s ++ replicate (width - length s) chr_space.
Definition help_line (c : list Z * command) : list Z :=
  match cmd_help c.2 with
  | Some help => text "  " ++ pad_right 10 c.1 ++ text " " ++ help ++ newline
  | None => []
  end.

(** The words behind the command; a command without usage is unknown to it. *)
Definition usbip_help (words : list (list Z)) : M Z :=
  let general := usbip_usage;; printf (newline ++ (cmds ≫= help_line) ++ newline) in
  match words with
  | [] => general;; mret 0
  | w :: _ =>
      match (c ← find_command w; cmd_usage c) with
      | Some u => u;; mret 0
      | None => general;; mret (-1)
      end
  end.
Definition usbip_version : M Z := printf (text "usbip (" ++ package_string ++ text ")" ++ newline);; mret 0.

(** What was typed: the options of [usbip], the command if there is one, the words
    behind it, and what [getopt_long] answers for them with the command's options. *)
Record cmdline := mkCmdline {
  cl_opts : list string;
  cl_cmd : option (list Z);
  cl_words : list (list Z);
  cl_args : list option_t
}.

Definition run_command (c : command) (cl : cmdline) : M Z :=
  match c with
  | c_help => usbip_help (cl_words cl)
  | c_version => usbip_version
  | c_attach => usbip_attach (cl_args cl)
  | c_detach => usbip_detach (cl_args cl)
  | c_list => usbip_list (cl_args cl)
  | c_bind => usbip_bind (cl_args cl)
  | c_unbind => usbip_unbind (cl_args cl)
  end.

Definition exit_status (rc : Z) : Z := if -1 <? rc then 0 else 1.

(** [-d] and [--log] only choose where messages go. *)
Definition main (cl : cmdline) : M Z :=
  let known := forallb (fun o => String.eqb o "d" || String.eqb o "l") (cl_opts cl) in
  if negb known then
    printf (line "usbip: invalid option");; usbip_usage;; mret (exit_status (-1))
  else
    match (w ← cl_cmd cl; find_command w) with
    | Some c => rc ← run_command c cl; mret (exit_status rc)
    | None => usbip_help [];; mret (exit_status (-1))
    end.
End tool.

(** ** The daemon's options *)

Section daemon.
Context `{Env} `{Arch} `{Sysfs}.
Notation M := (M (option usbip_host_driver)).

Inductive daemon_cmd := cmd_standalone_mode | cmd_help_d | cmd_version_d.

(** The command and whether to become a daemon; [None]: an unknown option. *)
Fixpoint daemon_options (opts : list string) (cmd : daemon_cmd) (daemonize : bool)
    : option (daemon_cmd * bool) :=
  match opts with
  | [] => Some (cmd, daemonize)
  | o :: opts' =>
      if String.eqb o "D" then daemon_options opts' cmd true
      else if String.eqb o "d" then daemon_options opts' cmd daemonize
      else if String.eqb o "h" then daemon_options opts' cmd_help_d daemonize
      else if String.eqb o "v" then daemon_options opts' cmd_version_d daemonize
      else None
  end.

(** The line that prints the sizes of two records, which names a type that does
    not exist, is left out, and so is the text of the help. *)
Definition daemon_main (fuel : nat) (opts : list string) : M Z :=
  match daemon_options opts cmd_standalone_mode false with
  | None => mret (exit_status (-1))
  | Some (cmd_standalone_mode, daemonize) =>
      rc ← do_standalone_mode fuel daemonize; mret (exit_status rc)
  | Some _ => mret (exit_status 0)
  end.
End daemon.
