(* ===== verification/EventProps.v ===== *)
(** * The event handler's contract

    Rules for the operations of [Event], and what the handler thread does with
    a set of pending events: shutdown, reset and the unusable mark, in this
    order and each at most once, then it stops on [USBIP_EH_BYE]. *)
From S2P Require Import Prelude Kernel Event.

(** Taking a lock and releasing it leaves the set of locks as it was. *)
Lemma remove_id_relock (l : lock) ls : l ∉ ls -> remove_id l (l :: ls) = ls.
Proof. intros. by rewrite remove_id_cons_eq, remove_id_notin. Qed.

Lemma kernel_eta_locks k : mkKernel (k_heap k) (k_urbs k) (k_udevs k) (k_nodes k)
  (k_locks k) (k_trace k) (k_next k) = k.
Proof. by destruct k. Qed.
#[export] Hint Rewrite kernel_eta_locks : wp.

(** Run a critical section whose lock is free. *)
Lemma wp_locked {S A} (l : lock) (m : M S A) (Q : A -> S -> kernel -> Prop) s k :
  l ∉ k_locks k ->
  wp m (fun a s' k' => l ∈ k_locks k' /\
        Q a s' (k' <| k_locks := remove_id l (k_locks k') |>)) s
     (k <| k_locks := l :: k_locks k |>) ->
  wp (spin_lock l;; a ← m; spin_unlock l;; mret a) Q s k.
Proof.
  intros Hl Hm. rewrite wp_bind, wp_spin_lock. split; [done|].
  rewrite wp_bind. eapply wp_mono; [exact Hm|]. cbn. intros a s' k' [Hin HQ].
  rewrite wp_bind, wp_spin_unlock. by rewrite wp_ret.
Qed.

Section rules.
Context `{Env} {St : Type} `{HasUd St}.

Lemma wp_modify_ud f (Q : unit -> St -> kernel -> Prop) s k :
  wp (modify_ud f) Q s k <-> Q tt (put_ud (f (the_ud s)) s) k.
Proof. done. Qed.

Definition add_event (e : Z) (s : St) : St :=
  put_ud ((the_ud s) <| ud_event := Z.lor (ud_event (the_ud s)) e |>) s.

(** Adding an event takes the lock, sets the bits and wakes the handler. *)
Lemma wp_usbip_event_add e (Q : unit -> St -> kernel -> Prop) s k :
  LockUd ud_owner ∉ k_locks k ->
  wp (usbip_event_add e) Q s k <->
  Q tt (add_event e s) (k <| k_trace := CWakeUp Q_EH :: k_trace k |>).
Proof.
  intros Hl. unfold usbip_event_add. rewrite wp_bind, wp_spin_lock.
  rewrite wp_bind, wp_modify_ud, wp_bind, wp_ext_do, wp_spin_unlock. cbn.
  rewrite remove_id_relock by done. unfold add_event. cbn.
  split; [by intros [_ [_ ?]]|]. intros. split_and!; [done|set_solver|done].
Qed.

Lemma wp_usbip_event_happened (Q : bool -> St -> kernel -> Prop) s k :
  LockUd ud_owner ∉ k_locks k ->
  wp usbip_event_happened Q s k <-> Q (negb (ud_event (the_ud s) =? 0)) s k.
Proof.
  intros Hl. unfold usbip_event_happened. cbv zeta.
  rewrite wp_bind, wp_spin_lock, wp_bind, wp_gets, wp_bind, wp_spin_unlock, wp_ret.
  cbn. rewrite remove_id_relock, kernel_eta_locks by done.
  split; [by intros [_ [_ ?]]|]. intros. split_and!; [done|set_solver|done].
Qed.

Lemma wp_event_test m (Q : bool -> St -> kernel -> Prop) s k :
  wp (event_test m) Q s k <-> Q (has_bits (ud_event (the_ud s)) m) s k.
Proof. done. Qed.

Definition cleared (m : Z) (s : St) : St :=
  put_ud ((the_ud s) <| ud_event := Z.land (ud_event (the_ud s)) (Z.lnot m) |>) s.

Lemma wp_event_clear m (Q : unit -> St -> kernel -> Prop) s k :
  wp (event_clear m) Q s k <-> Q tt (cleared m s) k.
Proof. done. Qed.

Lemma event_add_event e s :
  ud_event (the_ud (add_event e s)) = Z.lor (ud_event (the_ud s)) e.
Proof. unfold add_event. by rewrite the_put_ud. Qed.

Lemma event_cleared m s :
  ud_event (the_ud (cleared m s)) = Z.land (ud_event (the_ud s)) (Z.lnot m).
Proof. unfold cleared. by rewrite the_put_ud. Qed.

(** One stage of the handler: if an event of [m] is pending, the operation
    runs and the event is cleared; otherwise nothing happens. *)
Definition stage (m : Z) (op : M St unit) (s : St) (k : kernel) (s' : St) (k' : kernel) : Prop :=
  if has_bits (ud_event (the_ud s)) m then
    exists s1, op s k = Ok (tt, s1, k') /\ s' = cleared m s1 /\
               ud_event (the_ud s1) = ud_event (the_ud s)
  else s' = s /\ k' = k.

Lemma stage_event m op s k s' k' :
  stage m op s k s' k' ->
  ud_event (the_ud s') = if has_bits (ud_event (the_ud s)) m
                         then Z.land (ud_event (the_ud s)) (Z.lnot m)
                         else ud_event (the_ud s).
Proof.
  unfold stage. case_if.
  - intros (s1 & _ & -> & He). by rewrite event_cleared, He.
  - by intros [-> _].
Qed.

Lemma wp_stage m op s k s' k' (Q : unit -> St -> kernel -> Prop) :
  stage m op s k s' k' -> Q tt s' k' ->
  wp (when_ (has_bits (ud_event (the_ud s)) m) (op;; event_clear m)) Q s k.
Proof.
  unfold stage, when_. case_if.
  - intros (s1 & Hop & -> & _) HQ. rewrite wp_bind. unfold wp at 1. by rewrite Hop.
  - by intros [-> ->] HQ.
Qed.

(** The defined events occupy the four low bits. *)
Lemma event_range_cases e :
  0 <= e < 16 ->
  e = 0 \/ e = 1 \/ e = 2 \/ e = 3 \/ e = 4 \/ e = 5 \/ e = 6 \/ e = 7 \/ e = 8
    \/ e = 9 \/ e = 10 \/ e = 11 \/ e = 12 \/ e = 13 \/ e = 14 \/ e = 15.
Proof. lia. Qed.

Lemma events_cleared e :
  0 <= e < 16 ->
  let clear m x := if has_bits x m then Z.land x (Z.lnot m) else x in
  clear USBIP_EH_UNUSABLE (clear USBIP_EH_RESET (clear USBIP_EH_SHUTDOWN e))
  = Z.land e USBIP_EH_BYE.
Proof.
  intros Hc%event_range_cases.
  repeat destruct Hc as [->|Hc]; subst; done.
Qed.

Lemma reset_after_shutdown e :
  0 <= e < 16 ->
  has_bits (Z.land e (Z.lnot USBIP_EH_SHUTDOWN)) USBIP_EH_RESET = has_bits e USBIP_EH_RESET.
Proof. intros Hc%event_range_cases. repeat destruct Hc as [->|Hc]; subst; done. Qed.

Lemma unusable_after_reset e :
  0 <= e < 16 ->
  let clear m x := if has_bits x m then Z.land x (Z.lnot m) else x in
  has_bits (clear USBIP_EH_RESET (clear USBIP_EH_SHUTDOWN e)) USBIP_EH_UNUSABLE
  = has_bits e USBIP_EH_UNUSABLE.
Proof. intros Hc%event_range_cases. repeat destruct Hc as [->|Hc]; subst; done. Qed.

Lemma has_bits_land e m : has_bits (Z.land e m) m = has_bits e m.
Proof. unfold has_bits. by rewrite <- Z.land_assoc, Z.land_diag. Qed.

Lemma wp_event_handler_body ops s k s1 k1 s2 k2 s3 k3 :
  0 <= ud_event (the_ud s) < 16 ->
  stage USBIP_EH_SHUTDOWN (eh_shutdown ops) s k s1 k1 ->
  stage USBIP_EH_RESET (eh_reset ops) s1 k1 s2 k2 ->
  stage USBIP_EH_UNUSABLE (eh_unusable ops) s2 k2 s3 k3 ->
  wp (event_handler_body ops)
    (fun bye s' k' => bye = has_bits (ud_event (the_ud s)) USBIP_EH_BYE /\
       s' = s3 /\ k' = k3 /\
       ud_event (the_ud s3) = Z.land (ud_event (the_ud s)) USBIP_EH_BYE) s k.
Proof.
  intros He H1 H2 H3.
  assert (ud_event (the_ud s3) = Z.land (ud_event (the_ud s)) USBIP_EH_BYE) as He3.
  { rewrite (stage_event _ _ _ _ _ _ H3), (stage_event _ _ _ _ _ _ H2),
      (stage_event _ _ _ _ _ _ H1). by apply events_cleared. }
  unfold event_handler_body.
  do 3 (rewrite wp_bind, wp_event_test, wp_bind; eapply wp_stage; [eassumption|]).
  rewrite wp_event_test, He3, has_bits_land. done.
Qed.

(** *** Closing a connection *)

(** The calls, latest first. *)
Definition thread_calls (name : Z) (t : thread) : list call :=
  match t with Thread => [CKthreadStop name] | _ => [] end.
Definition shutdown_calls (ud : usbip_device) : list call :=
  match ud_tcp_socket ud with Some s => [CFput s] | None => [] end ++
  thread_calls T_TX (ud_tcp_tx ud) ++ thread_calls T_RX (ud_tcp_rx ud) ++
  match ud_tcp_socket ud with Some s => [CSockShutdown s] | None => [] end.

Definition disconnected (ud : usbip_device) : usbip_device :=
  ud <| ud_tcp_socket := None |> <| ud_tcp_rx := NoThread |> <| ud_tcp_tx := NoThread |>.

Definition traced (cs : list call) (k : kernel) : kernel := k <| k_trace := cs ++ k_trace k |>.

Lemma traced_nil k : traced [] k = k.
Proof. by destruct k. Qed.
Lemma traced_traced cs cs' k : traced cs (traced cs' k) = traced (cs ++ cs') k.
Proof. unfold traced. cbn. by rewrite app_assoc. Qed.

(** Stopping a thread if there is one. *)
Lemma stop_thread_ok name t f s k :
  t <> ThreadErr -> (t = NoThread -> f (the_ud s) = the_ud s) ->
  (if bool_decide (t = NoThread) then mret tt
   else kthread_stop name t;; modify_ud f) s k =
  Ok (tt, put_ud (f (the_ud s)) s, traced (thread_calls name t) k).
Proof.
  intros Ht Hf. destruct t; [| |done].
  - rewrite bool_decide_eq_true_2, Hf, put_the_ud by done. by rewrite traced_nil.
  - by rewrite bool_decide_eq_false_2.
Qed.

Lemma opt_socket_ok (sock : option Z) (call_of : Z -> call) (s : St) k :
  match sock with Some x => ext_do (call_of x) | None => mret tt end s k =
  Ok (tt, s, traced match sock with Some x => [call_of x] | None => [] end k).
Proof. destruct sock; [done|by rewrite traced_nil]. Qed.

Lemma close_socket_ok sock (s : St) k :
  (sock = None -> ud_tcp_socket (the_ud s) = None) ->
  match sock with
  | Some x => ext_do (CFput x);; modify_ud (fun ud => ud <| ud_tcp_socket := None |>)
  | None => mret tt
  end s k =
  Ok (tt, put_ud ((the_ud s) <| ud_tcp_socket := None |>) s,
      traced match sock with Some x => [CFput x] | None => [] end k).
Proof.
  intros Hs. destruct sock; [done|]. rewrite traced_nil. specialize (Hs eq_refl).
  assert (forall ud : usbip_device, ud_tcp_socket ud = None ->
    ud <| ud_tcp_socket := None |> = ud) as Hud by (intros [] E; cbn in *; by rewrite E).
  by rewrite Hud, put_the_ud.
Qed.
End rules.

Lemma event_handler_runs {St} `{HasUd St} (fuel : nat) (ops : eh_ops St)
    s k s1 k1 s2 k2 s3 k3 :
  0 < ud_event (the_ud s) < 16 ->
  LockUd ud_owner ∉ k_locks k -> LockUd ud_owner ∉ k_locks k3 ->
  stage USBIP_EH_SHUTDOWN (eh_shutdown ops) s k s1 k1 ->
  stage USBIP_EH_RESET (eh_reset ops) s1 k1 s2 k2 ->
  stage USBIP_EH_UNUSABLE (eh_unusable ops) s2 k2 s3 k3 ->
  let bye := has_bits (ud_event (the_ud s)) USBIP_EH_BYE in
  event_handler (S (S fuel)) ops s k = Ok (if bye then -1 else 0, s3, k3) /\
  ud_event (the_ud s3) = if bye then USBIP_EH_BYE else 0.
Proof.
  intros He Hl Hl3 H1 H2 H3 bye.
  assert (0 <= ud_event (the_ud s) < 16) as He' by lia.
  pose proof (wp_event_handler_body ops s k s1 k1 s2 k2 s3 k3 He' H1 H2 H3) as Hb.
  assert (Z.land (ud_event (the_ud s)) USBIP_EH_BYE = if bye then USBIP_EH_BYE else 0) as Hland.
  { subst bye. pose proof (event_range_cases _ He') as Hc.
    repeat destruct Hc as [->|Hc]; try rewrite Hc; done. }
  assert (wp (event_handler (S (S fuel)) ops)
    (fun r s' k' => r = (if bye then -1 else 0) /\ s' = s3 /\ k' = k3 /\
       ud_event (the_ud s3) = if bye then USBIP_EH_BYE else 0) s k) as Hwp.
  { cbn [event_handler]. rewrite wp_bind, wp_usbip_event_happened by done.
    destruct (ud_event (the_ud s) =? 0) eqn:E0; bool_to_prop; [lia|]. cbn [negb].
    rewrite wp_bind. eapply wp_mono; [exact Hb|].
    intros b s' k' (-> & -> & -> & Hev). fold bye. rewrite Hland in Hev.
    destruct bye; [done|].
    rewrite wp_bind, wp_usbip_event_happened by done. rewrite Hev. done. }
  apply wp_ok in Hwp as (r & s' & k' & Hr & -> & -> & -> & Hev). by rewrite Hr.
Qed.

(** With events pending, one round of the handler runs the shutdown, then
    the reset, then the unusable operation, each exactly when its event is
    pending; the handler then stops: with -1 if [USBIP_EH_BYE] was pending and
    0 otherwise, and no other event is left.  Two iterations always suffice. *)
Theorem event_handler_round {St} `{HasUd St} (fuel : nat) (ops : eh_ops St)
    s k s1 k1 s2 k2 s3 k3 :
  0 < ud_event (the_ud s) < 16 ->
  LockUd ud_owner ∉ k_locks k -> LockUd ud_owner ∉ k_locks k3 ->
  stage USBIP_EH_SHUTDOWN (eh_shutdown ops) s k s1 k1 ->
  stage USBIP_EH_RESET (eh_reset ops) s1 k1 s2 k2 ->
  stage USBIP_EH_UNUSABLE (eh_unusable ops) s2 k2 s3 k3 ->
  let bye := has_bits (ud_event (the_ud s)) USBIP_EH_BYE in
  event_handler (S (S fuel)) ops s k = Ok (if bye then -1 else 0, s3, k3) /\
  ud_event (the_ud s3) = if bye then USBIP_EH_BYE else 0.
Proof. intros. by apply (event_handler_runs fuel ops s k s1 k1 s2 k2). Qed.

(** A device on its own, with operations that only leave a mark in the trace. *)
#[export] Program Instance ud_self : HasUd usbip_device := {|
  the_ud := fun s => s;
  put_ud := fun u _ => u;
  ud_owner := 0
|}.
Solve All Obligations with done.

Definition quiet_env : Env := fun _ _ => (0, []).
Definition sample_kernel : kernel := mkKernel ∅ ∅ ∅ ∅ [] [] 10.
Definition sample_ud (e : Z) : usbip_device :=
  mkUd USBIP_STUB SDEV_ST_USED None NoThread NoThread e Thread 9 ∅.
Definition sample_ops : eh_ops usbip_device :=
  mkEhOps (@ext_do _ quiet_env (CSockShutdown 1)) (@ext_do _ quiet_env CResetDevice)
    (@ext_do _ quiet_env CUnlockDevice).

Lemma event_handler_round_witness :
  exists s3 k3,
    @event_handler _ ud_self 2 sample_ops (sample_ud SDEV_EVENT_REMOVED) sample_kernel
      = Ok (-1, s3, k3) /\
    k_trace k3 = [CResetDevice; CSockShutdown 1].
Proof.
  eexists _, _. split.
  - refine (proj1 (@event_handler_round _ ud_self 0 sample_ops
      (sample_ud SDEV_EVENT_REMOVED) sample_kernel _ _ _ _ _ _ _ _ _ _ _ _)).
    + done.
    + cbn. set_solver.
    + shelve.
    + cbn. eexists. split_and!; reflexivity.
    + cbn. eexists. split_and!; reflexivity.
    + cbn. split; reflexivity.
    Unshelve. cbn. set_solver.
  - reflexivity.
Defined.
