(* ===== verification/Exec.v ===== *)
(** * Running driver code

    Equations for the calls every operation makes, as results of runs, and the
    tactic that steps through a run with them. *)
From S2P Require Import Prelude Kernel Event EventProps.

Section exec.
Context {St : Type}.

Lemma spin_lock_ok l (s : St) k :
  l ∉ k_locks k -> spin_lock l s k = Ok (tt, s, k <| k_locks := l :: k_locks k |>).
Proof. intros. unfold spin_lock. by rewrite decide_False. Qed.

Lemma spin_unlock_ok l ls (s : St) k :
  k_locks k = l :: ls -> l ∉ ls -> spin_unlock l s k = Ok (tt, s, k <| k_locks := ls |>).
Proof.
  intros Hk Hl. unfold spin_unlock. rewrite Hk, decide_True by set_solver.
  by rewrite remove_id_relock.
Qed.

Lemma get_urb_ok u r (s : St) k : k_urbs k !! u = Some r -> get_urb u s k = Ok (r, s, k).
Proof. intros E. unfold get_urb. by rewrite E. Qed.

Lemma put_urb_ok u r r0 (s : St) k :
  k_urbs k !! u = Some r0 -> put_urb u r s k = Ok (tt, s, k <| k_urbs := <[u := r]> (k_urbs k) |>).
Proof. intros E. unfold put_urb. by rewrite E. Qed.

Lemma modify_urb_ok u f r (s : St) k :
  k_urbs k !! u = Some r ->
  modify_urb u f s k = Ok (tt, s, k <| k_urbs := <[u := f r]> (k_urbs k) |>).
Proof.
  intros E. unfold modify_urb. erewrite bind_ok by (apply get_urb_ok; exact E).
  by eapply put_urb_ok.
Qed.

Lemma deref_ok {A} (a : A) (o : option A) (s : St) k :
  o = Some a -> deref o s k = Ok (a, s, k).
Proof. by intros ->. Qed.

Lemma of_option_ok {A} b (a : A) (o : option A) (s : St) k :
  o = Some a -> of_option b o s k = Ok (a, s, k).
Proof. by intros ->. Qed.

Lemma get_udev_ok d dev (s : St) k :
  k_udevs k !! d = Some dev -> get_udev d s k = Ok (dev, s, k).
Proof. intros E. unfold get_udev. erewrite bind_ok by reflexivity. by apply of_option_ok. Qed.

Lemma load_bytes_ok p n blk (s : St) k :
  k_heap k !! p.1 = Some blk -> 0 <= p.2 -> 0 <= n -> p.2 + n <= Z.of_nat (length blk) ->
  load_bytes p n s k = Ok (take (Z.to_nat n) (drop (Z.to_nat p.2) blk), s, k).
Proof.
  intros E ???. unfold load_bytes. rewrite E.
  destruct (_ && _ && _) eqn:Eb; [done|].
  apply andb_false_iff in Eb as [[?|?]%andb_false_iff|?]; bool_to_prop; lia.
Qed.

Lemma run_of_wp {A} (m : M St A) a s s' k k' :
  wp m (fun a1 s1 k1 => a1 = a /\ s1 = s' /\ k1 = k') s k -> m s k = Ok (a, s', k').
Proof. intros (a1 & s1 & k1 & -> & -> & -> & ->)%wp_ok. done. Qed.

Lemma event_add_ok `{Env} `{HasUd St} e (s : St) k :
  LockUd ud_owner ∉ k_locks k ->
  usbip_event_add e s k = Ok (tt, add_event e s, traced [CWakeUp Q_EH] k).
Proof. intros. apply run_of_wp. by rewrite wp_usbip_event_add. Qed.

Lemma event_happened_ok `{HasUd St} (s : St) k :
  LockUd ud_owner ∉ k_locks k ->
  usbip_event_happened s k = Ok (negb (ud_event (the_ud s) =? 0), s, k).
Proof. intros. apply run_of_wp. by rewrite wp_usbip_event_happened. Qed.

(** A call to the environment. *)
Lemma ext_ret_ok `{Env} c (s : St) k :
  ext_ret c s k = Ok ((env_answer (k_trace k) c).1, s, traced [c] k).
Proof. done. Qed.
Lemma ext_do_ok `{Env} c (s : St) k : ext_do c s k = Ok (tt, s, traced [c] k).
Proof. done. Qed.
End exec.

Lemma relock_eta ls k : k_locks k = ls -> k <| k_locks := ls |> = k.
Proof. intros <-. by destruct k. Qed.

(** Discharge the side condition of a step: a lock that is free, a known look-up. *)
Ltac exec_side :=
  cbn [k_locks k_urbs k_heap k_udevs k_trace set_field set_k_locks set_k_trace set_k_urbs
       set_k_heap traced];
  first [ done | eassumption | set_solver ].

(** One step of a run: the equation of the first call, then its continuation. *)
Ltac exec_step :=
  first
    [ erewrite bind_ok by (apply spin_lock_ok; exec_side)
    | erewrite bind_ok by (eapply spin_unlock_ok; [reflexivity|exec_side])
    | erewrite bind_ok by (eapply get_urb_ok; exec_side)
    | erewrite bind_ok by (eapply modify_urb_ok; exec_side)
    | erewrite bind_ok by (eapply get_udev_ok; exec_side)
    | erewrite bind_ok by (eapply deref_ok; exec_side)
    | erewrite bind_ok by (apply event_add_ok; exec_side)
    | erewrite bind_ok by (apply event_happened_ok; exec_side)
    | erewrite bind_ok by reflexivity ];
  cbv beta iota.
