(* ===== verification/XferProps.v ===== *)
(** * What the transfer routines deliver

    Receiving is independent of how the connection splits its byte stream;
    the transfer buffer is filled or the failure is reported; and a server
    that reports more data than was asked for overruns the client's buffer. *)
From S2P Require Import Prelude Kernel Wire Event EventProps Xfer.

(** ** Byte streams *)

(** From the trace [tr] on, receptions on [sock] deliver [stream] in order. *)
Definition delivers `{Env} (sock : Z) (tr : list call) (stream : list Z) : Prop :=
  forall data tr', Received sock tr data tr' -> data `prefix_of` stream.

(** An environment that hands out [stream] at most [chunk] bytes at a time,
    grants every allocation and answers 1 to every other call. *)
Fixpoint delivered (chunk : Z) (stream : list Z) (tr : list call) : Z :=
  match tr with
  | [] => 0
  | CRecvmsg _ n :: tr' =>
      let d := delivered chunk stream tr' in
      d + Z.max 0 (Z.min (Z.min n chunk) (Z.of_nat (length stream) - d))
  | _ :: tr' => delivered chunk stream tr'
  end.
Definition stream_env (chunk : Z) (stream : list Z) : Env := fun tr c =>
  match c with
  | CRecvmsg _ n =>
      let d := delivered chunk stream tr in
      let m := Z.max 0 (Z.min (Z.min n chunk) (Z.of_nat (length stream) - d)) in
      (m, take (Z.to_nat m) (drop (Z.to_nat d) stream))
  | _ => (1, [])
  end.

Lemma delivered_range chunk stream tr :
  0 <= delivered chunk stream tr <= Z.of_nat (length stream).
Proof. induction tr as [|[] tr IH]; cbn; lia. Qed.

Lemma stream_env_ok chunk stream : @recvmsg_ok (stream_env chunk stream).
Proof.
  intros tr sock size Hs. cbn. pose proof (delivered_range chunk stream tr).
  split; [lia|]. intros. rewrite length_take, length_drop. lia.
Qed.

Lemma stream_env_received chunk stream sock tr data tr' :
  @Received (stream_env chunk stream) sock tr data tr' ->
  data = take (length data) (drop (Z.to_nat (delivered chunk stream tr)) stream).
Proof.
  induction 1 as [| |tr size data tr' Hs Hr _ IH]; [done|done|].
  cbn in Hr, IH |- *. pose proof (delivered_range chunk stream tr) as Hd.
  set (d := delivered chunk stream tr) in *.
  set (m := Z.max 0 (Z.min (Z.min size chunk) (Z.of_nat (length stream) - d))) in *.
  rewrite length_app, length_take, length_drop.
  replace (Z.to_nat m `min` (length stream - Z.to_nat d))%nat with (Z.to_nat m) by lia.
  rewrite <- (take_drop (Z.to_nat m) (drop (Z.to_nat d) stream)) at 2.
  rewrite take_app_ge by (rewrite length_take, length_drop; lia).
  rewrite length_take, length_drop.
  replace (Z.to_nat m `min` (length stream - Z.to_nat d))%nat with (Z.to_nat m) by lia.
  f_equal. rewrite drop_drop, IH at 1. f_equal; [lia|]. f_equal. lia.
Qed.

Lemma stream_env_delivers chunk stream sock tr :
  delivered chunk stream tr = 0 -> @delivers (stream_env chunk stream) sock tr stream.
Proof.
  intros H0 data tr' HR. apply stream_env_received in HR. rewrite H0, drop_0 in HR.
  rewrite HR. apply prefix_take.
Qed.

Lemma prefix_take_length {A} (l l' : list A) : l `prefix_of` l' -> l = take (length l) l'.
Proof. intros [r ->]. by rewrite take_app_length. Qed.

(** C14: a receive of [size] bytes into memory that can hold them terminates
    without touching any other memory.  It succeeds exactly when it has stored
    the next [size] bytes of the connection's stream, however the connection
    split them; otherwise what it stored is a proper part of them and it
    returns a result that is not positive. *)
Theorem usbip_recv_stream `{Env} {St : Type} sock (buf : ptr) size blk stream (s : St) k :
  recvmsg_ok -> delivers sock (k_trace k) stream -> 0 < size ->
  k_heap k !! buf.1 = Some blk -> 0 <= buf.2 -> buf.2 + size <= Z.of_nat (length blk) ->
  exists ret n tr',
    usbip_recv (Some sock) (Some buf) size s k =
      Ok (ret, s, k <| k_heap := <[buf.1 := splice blk (Z.to_nat buf.2) (take n stream)]> (k_heap k) |>
                    <| k_trace := tr' |>) /\
    Received sock (k_trace k) (take n stream) tr' /\
    ((ret = size /\ Z.of_nat n = size /\ (n <= length stream)%nat) \/
     (ret <= 0 /\ Z.of_nat n < size)).
Proof.
  intros Hok Hd Hs Hb Ho Hl.
  pose proof (wp_usbip_recv sock buf size blk s k Hok Hs Hb Ho Hl) as Hwp.
  apply wp_ok in Hwp as (ret & s' & k' & Hrun & -> & data & tr' & HR & -> & Hret).
  pose proof (prefix_take_length _ _ (Hd _ _ HR)) as Hp.
  exists ret, (length data), tr'. rewrite <- Hp. split_and!; [done|done|].
  pose proof (prefix_length _ _ (Hd _ _ HR)).
  destruct Hret as [[-> ?]|[??]]; [left|right]; auto.
Qed.

(** ** What stretches of a trace read *)

Definition no_recv (tr : list call) : Prop :=
  Forall (fun c => match c with CRecvmsg _ _ => False | _ => True end) tr.

(** What reading [size] bytes of data that returned [ret] took from the stream. *)
Definition fetched `{Env} (sock size ret : Z) (stream : list Z) (tr tr' : list call) : Prop :=
  exists n, Reads sock tr (take n stream) tr' /\ (n <= length stream)%nat /\
    if 0 <? size
    then (ret = size /\ Z.of_nat n = size) \/
         (ret <= 0 /\ Z.of_nat n < size /\ Stalled sock tr (take n stream))
    else n = 0%nat.

Lemma no_recv_Reads `{Env} sock tr tr0 : no_recv tr -> Reads sock tr0 [] (tr ++ tr0).
Proof.
  induction 1 as [|c tr Hc _ IH]; [constructor|]. cbn.
  apply (Reads_trans sock _ [] _ [] _ IH). eapply Reads_other; [|constructor].
  by intros size ->.
Qed.

Lemma fetched_before `{Env} sock size ret stream tr0 tr tr' :
  no_recv tr0 -> fetched sock size ret stream (tr0 ++ tr) tr' -> fetched sock size ret stream tr tr'.
Proof.
  intros Hnr (n & HR & Hn & Hout). exists n. split; [|split; [done|]].
  - by apply (Reads_trans sock _ [] _ _ _ (no_recv_Reads sock _ _ Hnr)).
  - case_if; [|done]. destruct Hout as [?|(? & ? & tr1 & m & HR1 & Hst)]; [by left|right].
    split_and!; [done|done|]. exists tr1, m. split; [|done].
    by apply (Reads_trans sock _ [] _ _ _ (no_recv_Reads sock _ _ Hnr)).
Qed.

Lemma fetched_after `{Env} sock size ret stream tr tr' tr0 :
  no_recv tr0 -> fetched sock size ret stream tr tr' -> fetched sock size ret stream tr (tr0 ++ tr').
Proof.
  intros Hnr (n & HR & Hout). exists n. split; [|done].
  rewrite <- (app_nil_r (take n stream)). by eapply Reads_trans, no_recv_Reads.
Qed.

(** Receiving into a fresh block, as for a header. *)
Lemma recv_fresh_run `{Env} {St : Type} sock size stream (s : St) k :
  recvmsg_ok -> delivers sock (k_trace k) stream -> 0 < size ->
  let zeros := replicate (Z.to_nat size) 0 in
  let with_block mem := <[k_next k := mem]> (k_heap k) in
  exists n tr' ret mem, Received sock (k_trace k) (take n stream) tr' /\
    usbip_recv (Some sock) (Some (k_next k, 0)) size s
      (k <| k_heap := with_block zeros |> <| k_next := Pos.succ (k_next k) |>) =
      Ok (ret, s, k <| k_heap := with_block mem |> <| k_trace := tr' |>
                    <| k_next := Pos.succ (k_next k) |>) /\
    length mem = Z.to_nat size /\
    ((ret = size /\ n = Z.to_nat size /\ mem = take n stream /\ (n <= length stream)%nat) \/
     (ret <= 0 /\ Z.of_nat n < size /\ Stalled sock (k_trace k) (take n stream))).
Proof.
  intros Hok Hd Hs zeros with_block. set (b := k_next k).
  set (k1 := k <| k_heap := with_block zeros |> <| k_next := Pos.succ b |>).
  pose proof (wp_usbip_recv_stalled sock (b, 0) size zeros s k1 Hok Hs) as Hwp.
  cbn [fst snd] in Hwp.
  apply wp_ok in Hwp as (ret & s' & k' & Hrun & -> & data & tr' & HR & -> & Hret);
    [|apply lookup_insert_eq|done|unfold zeros; rewrite length_replicate; lia].
  change (k_trace k1) with (k_trace k) in *.
  pose proof (prefix_take_length _ _ (Hd _ _ HR)) as Hp. pose proof (prefix_length _ _ (Hd _ _ HR)) as Hpl.
  assert (length zeros = Z.to_nat size) as Hz by apply length_replicate.
  exists (length data), tr', ret, (splice zeros 0 data). rewrite <- Hp. split; [done|]. split.
  { refine (eq_trans Hrun _). do 2 f_equal. unfold k1, with_block. cbn. by rewrite insert_insert_eq. }
  split; [rewrite length_splice; lia|].
  destruct Hret as [[-> Hn]|(Hr & Hn & Hst)]; [left|by right].
  split_and!; [done|lia| |done]. apply splice_all. lia.
Qed.

(** A kernel whose heap is one block. *)
Definition one_block (l : list Z) : kernel :=
  sample_kernel <| k_heap := <[1%positive := l]> ∅ |>.

Lemma usbip_recv_stream_witness :
  exists ret n tr',
    @usbip_recv (stream_env 2 [1;2;3;4;5;6]) unit (Some 7) (Some (1%positive, 1)) 5 tt
      (one_block [0;0;0;0;0;0;0])
    = Ok (ret, tt, (one_block [0;1;2;3;4;5;0]) <| k_trace := tr' |>) /\
    ret = 5 /\ n = 5%nat.
Proof.
  destruct (@usbip_recv_stream (stream_env 2 [1;2;3;4;5;6]) unit 7 (1%positive, 1) 5
    [0;0;0;0;0;0;0] [1;2;3;4;5;6] tt
    (one_block [0;0;0;0;0;0;0])
    (stream_env_ok 2 _) (stream_env_delivers 2 [1;2;3;4;5;6] 7 [] eq_refl) ltac:(lia) eq_refl ltac:(cbn; lia)
    ltac:(cbn; lia)) as (ret & n & tr' & Hrun & _ & [(-> & Hn & _)|[Hr Hn]]).
  - assert (n = 5%nat) as -> by lia. exists 5, 5%nat, tr'. split; [exact Hrun|done].
  - exfalso. vm_compute in Hrun. injection Hrun as <- _ _. lia.
Defined.

(** ** Transfer buffers *)

Section xbuff.
Context `{Env} `{UsbPipes} {St : Type} `{HasUd St}.

(** Whether data follows the header for this URB, and how much. *)
Definition xbuff_size (side : usbip_side) (r : urb) : Z :=
  match side with
  | USBIP_STUB => if usb_pipein (urb_pipe r) then 0 else s32 (urb_transfer_buffer_length r)
  | USBIP_VHCI => if usb_pipeout (urb_pipe r) then 0 else s32 (urb_actual_length r)
  end.

(** What a failed reception that returned [ret] makes of the result. *)
Definition xbuff_error (side : usbip_side) (ret : Z) : Z :=
  match side with USBIP_STUB => ret | USBIP_VHCI => - EPIPE end.

Lemma recv_xbuff_unfold u r s k :
  k_urbs k !! u = Some r ->
  usbip_recv_xbuff u s k =
    (let size := xbuff_size (ud_side (the_ud s)) r in
     if size >? 0 then
       (ret ← usbip_recv (ud_tcp_socket (the_ud s)) (urb_transfer_buffer r) size;
        if ret =? size then mret ret
        else usbip_event_add (Z.lor USBIP_EH_SHUTDOWN USBIP_EH_RESET);;
             mret (xbuff_error (ud_side (the_ud s)) ret)) s k
     else Ok (0, s, k)).
Proof.
  intros Hu. unfold usbip_recv_xbuff, xbuff_size, get_urb.
  unfold mbind, M_bind, gets at 1. rewrite Hu.
  destruct (ud_side (the_ud s)) eqn:Hside; cbn.
  - destruct (usb_pipeout (urb_pipe r)); [done|].
    destruct (s32 (urb_actual_length r) >? 0); [|done]. cbn.
    destruct (usbip_recv _ _ _ s k) as [[[ret s'] k']|]; [|done].
    destruct (ret =? _); done.
  - destruct (usb_pipein (urb_pipe r)); [done|].
    destruct (s32 (urb_transfer_buffer_length r) >? 0); [|done]. cbn.
    destruct (usbip_recv _ _ _ s k) as [[[ret s'] k']|]; [|done].
    destruct (ret =? _); done.
Qed.
End xbuff.

(** C15: the data that follows a header fills the URB's transfer buffer: the
    requested length on the exporting side for OUT, the reported length on the
    importing side for IN, nothing otherwise.  On success the buffer starts
    with the next bytes of the stream; on failure the connection is shut down
    by an event, and the importing side returns -EPIPE. *)
Theorem recv_xbuff_correct `{Env} `{UsbPipes} {St} `{HasUd St}
    u r b blk sock stream (s : St) k :
  let side := ud_side (the_ud s) in
  let size := xbuff_size side r in
  recvmsg_ok -> delivers sock (k_trace k) stream -> LockUd ud_owner ∉ k_locks k ->
  ud_tcp_socket (the_ud s) = Some sock ->
  k_urbs k !! u = Some r -> urb_transfer_buffer r = Some (b, 0) ->
  k_heap k !! b = Some blk -> size <= Z.of_nat (length blk) ->
  exists ret n s' tr',
    usbip_recv_xbuff u s k =
      Ok (ret, s', k <| k_heap := <[b := splice blk 0 (take n stream)]> (k_heap k) |>
                     <| k_trace := tr' |>) /\
    ((0 < size /\ ret = size /\ Z.of_nat n = size /\ (n <= length stream)%nat /\ s' = s) \/
     (size <= 0 /\ ret = 0 /\ n = 0%nat /\ s' = s /\ tr' = k_trace k) \/
     (0 < size /\ Z.of_nat n < size /\ s' = add_event SDEV_EVENT_ERROR_TCP s /\
      exists failed, failed <= 0 /\ ret = xbuff_error side failed)).
Proof.
  intros side size Hok Hd Hlk Hsock Hu Hbuf Hb Hl.
  pose proof (recv_xbuff_unfold u r s k Hu) as ->. cbv zeta. fold side. fold size.
  rewrite Z.gtb_ltb. destruct (0 <? size) eqn:Hs; bool_to_prop.
  2: { exists 0, 0%nat, s, (k_trace k). rewrite take_0, splice_nil, insert_id by done.
       split; [by destruct k|]. right; left. auto. }
  rewrite Hsock, Hbuf.
  pose proof (wp_usbip_recv sock (b, 0) size blk s k Hok Hs Hb ltac:(done) ltac:(cbn; lia)) as Hwp.
  apply wp_ok in Hwp as (ret & s' & k' & Hrun & -> & data & tr' & HR & -> & Hret).
  pose proof (prefix_take_length _ _ (Hd _ _ HR)) as Hp.
  pose proof (prefix_length _ _ (Hd _ _ HR)) as Hpl. change (Z.to_nat (b, 0).2) with 0%nat in Hrun.
  destruct Hret as [[-> Hlen]|[Hr Hlen]].
  - exists size, (length data), s, tr'. rewrite <- Hp.
    split; [|left; auto]. erewrite bind_ok by exact Hrun. by rewrite Z.eqb_refl.
  - exists (xbuff_error side ret), (length data), (add_event SDEV_EVENT_ERROR_TCP s),
      (CWakeUp Q_EH :: tr'). rewrite <- Hp.
    split; [|right; right; eauto 8]. erewrite bind_ok by exact Hrun.
    destruct (ret =? size) eqn:E; bool_to_prop; [lia|].
    assert (wp (usbip_event_add (Z.lor USBIP_EH_SHUTDOWN USBIP_EH_RESET);;
                mret (xbuff_error side ret))
      (fun a s' k' => a = xbuff_error side ret /\ s' = add_event SDEV_EVENT_ERROR_TCP s /\
         k' = k <| k_heap := <[b := splice blk 0 data]> (k_heap k) |>
                <| k_trace := CWakeUp Q_EH :: tr' |>) s
      (k <| k_heap := <[b := splice blk 0 data]> (k_heap k) |> <| k_trace := tr' |>)) as Hwp.
    { rewrite wp_bind, wp_usbip_event_add by done. by rewrite wp_ret. }
    apply wp_ok in Hwp as (a & s' & k' & Hrun' & -> & -> & ->). exact Hrun'.
Qed.

(** Without isochronous packets there are no descriptors. *)
Lemma recv_iso_skip `{Env} `{Arch} `{UsbPipes} {St} `{HasUd St} u r (s : St) k :
  k_urbs k !! u = Some r -> usb_pipeisoc (urb_pipe r) = false ->
  usbip_recv_iso u s k = Ok (0, s, k).
Proof.
  intros Hu Hi. unfold usbip_recv_iso. erewrite bind_ok by (unfold get_urb; by rewrite Hu). cbv zeta.
  by rewrite Hi.
Qed.

Lemma pad_iso_skip `{UsbPipes} {St} u r (s : St) k :
  k_urbs k !! u = Some r -> usb_pipeisoc (urb_pipe r) = false ->
  usbip_pad_iso u s k = Ok (tt, s, k).
Proof.
  intros Hu Hi. unfold usbip_pad_iso. erewrite bind_ok by (unfold get_urb; by rewrite Hu). cbv zeta.
  by rewrite Hi.
Qed.

(** The peer answers the next receive of [size] bytes with [data], all of it. *)
Definition answers_all `{Env} (sock size : Z) (data : list Z) (k : kernel) : Prop :=
  env_answer (k_trace k) (CRecvmsg sock size) = (size, data) /\ Z.of_nat (length data) = size.

(** the reported length of a reply is not compared with the length of the
    buffer: a server that answers with more data than was asked for makes the
    client write behind the end of its transfer buffer. *)
Theorem recv_xbuff_overflow `{Env} `{UsbPipes} {St} `{HasUd St}
    u r b blk sock data (s : St) k :
  ud_side (the_ud s) = USBIP_VHCI -> ud_tcp_socket (the_ud s) = Some sock ->
  k_urbs k !! u = Some r -> usb_pipein (urb_pipe r) = true ->
  urb_transfer_buffer r = Some (b, 0) -> k_heap k !! b = Some blk ->
  Z.of_nat (length blk) < s32 (urb_actual_length r) ->
  answers_all sock (s32 (urb_actual_length r)) data k ->
  usbip_recv_xbuff u s k = Crash OutOfBounds.
Proof.
  intros Hside Hsock Hu Hin Hbuf Hb Hl [Hans Hlen].
  pose proof (recv_xbuff_unfold u r s k Hu) as ->. cbv zeta.
  unfold xbuff_size, usb_pipeout. rewrite Hside, Hin, Hsock, Hbuf. cbn [negb].
  set (size := s32 (urb_actual_length r)) in *.
  destruct (size >? 0) eqn:E; [|rewrite Z.gtb_ltb in E; bool_to_prop; lia].
  rewrite Z.gtb_ltb in E. bool_to_prop. unfold usbip_recv.
  destruct (size =? 0) eqn:E0; bool_to_prop; [lia|].
  unfold mbind, M_bind. cbn [usbip_recv_loop]. unfold mbind, M_bind, ext at 1.
  rewrite Hans. cbn [fst snd]. destruct (size <=? 0) eqn:E1; bool_to_prop; [lia|].
  unfold store_bytes. cbn. rewrite Hb, Hlen. cbn.
  rewrite Z.add_0_l. destruct (size <=? Z.of_nat (length blk)) eqn:E2; bool_to_prop; [lia|done].
Qed.

(** A bulk IN URB of the importing side: 4 bytes asked for, 6 reported. *)
Definition sample_vhci_ud : usbip_device :=
  mkUd USBIP_VHCI VDEV_ST_USED (Some 7) Thread Thread 0 Thread 9 ∅.
Definition sample_in_urb (len : Z) : urb :=
  (urb_zero 0) <| urb_pipe := @usb_mkpipe linux_pipes PIPE_BULK true 5 1 |>
    <| urb_transfer_buffer := Some (1%positive, 0) |>
    <| urb_transfer_buffer_length := 4 |> <| urb_actual_length := len |>.
Definition sample_xbuff_kernel (len : Z) : kernel :=
  (one_block [0; 0; 0; 0]) <| k_urbs := <[2%positive := sample_in_urb len]> ∅ |>.

Lemma recv_xbuff_correct_witness :
  exists ret n s' tr',
    @usbip_recv_xbuff (stream_env 3 [10; 11; 12; 13]) linux_pipes _ ud_self 2%positive
      sample_vhci_ud (sample_xbuff_kernel 4) =
      Ok (ret, s', (sample_xbuff_kernel 4)
                     <| k_heap := <[1%positive := [10; 11; 12; 13]]> ∅ |> <| k_trace := tr' |>) /\
    ret = 4 /\ n = 4%nat.
Proof.
  destruct (@recv_xbuff_correct (stream_env 3 [10; 11; 12; 13]) linux_pipes _ ud_self
    2%positive (sample_in_urb 4) 1%positive [0; 0; 0; 0] 7 [10; 11; 12; 13]
    sample_vhci_ud (sample_xbuff_kernel 4)) as (ret & n & s' & tr' & Hrun & Hret).
  - apply stream_env_ok.
  - apply stream_env_delivers. reflexivity.
  - cbn. set_solver.
  - reflexivity.
  - reflexivity.
  - reflexivity.
  - reflexivity.
  - vm_compute. discriminate.
  - assert (n = 4%nat /\ ret = 4) as [-> ->].
    { vm_compute in Hrun. injection Hrun as <- _ _ _.
      destruct Hret as [(_ & _ & Hn & _)|[(Hs & _)|(_ & _ & _ & f & Hf & Hr)]].
      - change (Z.of_nat n = 4) in Hn. lia.
      - vm_compute in Hs. by destruct Hs.
      - vm_compute in Hr. discriminate. }
    exists 4, 4%nat, s', tr'. split; [exact Hrun|done].
Defined.

Lemma recv_xbuff_overflow_witness :
  @usbip_recv_xbuff (stream_env 10 [10; 11; 12; 13; 14; 15]) linux_pipes _ ud_self 2%positive
    sample_vhci_ud (sample_xbuff_kernel 6) = Crash OutOfBounds.
Proof.
  apply (@recv_xbuff_overflow (stream_env 10 [10; 11; 12; 13; 14; 15]) linux_pipes _ ud_self
    2%positive (sample_in_urb 6) 1%positive [0; 0; 0; 0] 7 [10; 11; 12; 13; 14; 15]);
    vm_compute; try split; reflexivity.
Defined.
