(* ===== verification/IsoProps.v ===== *)
(** * Isochronous transfers end to end

    The packet descriptors and the data of an isochronous URB travel without
    the padding between the packets.  The descriptors the sender allocates are
    read back by the receiver, and the receiver's padding routine puts each
    packet's data where the sender had it. *)
From S2P Require Import Prelude Kernel Wire Event EventProps Xfer XferProps Stub StubTx Filters.

(** ** Descriptors *)

(** A descriptor as it travels. *)
Definition iso_of_ui (d : usb_iso_packet) : usbip_iso_packet_descriptor :=
  mkIso (ui_offset d) (ui_length d) (ui_actual_length d) (u32 (ui_status d)).

Definition uiso_wf (d : usb_iso_packet) : Prop :=
  is_u32 (ui_offset d) /\ is_u32 (ui_length d) /\ is_u32 (ui_actual_length d) /\
  is_s32 (ui_status d).

Definition iso_wire (ds : list usb_iso_packet) : list Z :=
  mjoin ((fun d => iso_wire_bytes (iso_of_ui d)) <$> ds).

(** The sum of the packets' lengths. *)
Definition sum_actual (ds : list usb_iso_packet) : Z :=
  foldr (fun d t => ui_actual_length d + t) 0 ds.

#[global] Arguments sum_actual : simpl never.

Lemma sum_actual_cons d ds : sum_actual (d :: ds) = ui_actual_length d + sum_actual ds.
Proof. done. Qed.

Lemma iso_of_ui_wf d : uiso_wf d -> iso_wf (iso_of_ui d).
Proof.
  intros (? & ? & ? & ?). unfold iso_wf, iso_of_ui; cbn.
  repeat apply Forall_cons_2; auto with usbip.
Qed.

Lemma iso_wire_cons d ds : iso_wire (d :: ds) = iso_wire_bytes (iso_of_ui d) ++ iso_wire ds.
Proof. done. Qed.

Lemma length_iso_wire ds : length (iso_wire ds) = (16 * length ds)%nat.
Proof.
  induction ds as [|d ds IH]; [done|].
  rewrite iso_wire_cons, length_app, length_iso_wire_bytes, IH. cbn [length]. lia.
Qed.

Lemma iso_wire_drop ds i : drop (16 * i) (iso_wire ds) = iso_wire (drop i ds).
Proof.
  revert i; induction ds as [|d ds IH]; intros i; [by destruct i|].
  destruct i as [|i]; [by rewrite Nat.mul_0_r|].
  rewrite iso_wire_cons. cbn [drop].
  rewrite drop_app_ge, length_iso_wire_bytes by (rewrite length_iso_wire_bytes; lia).
  replace (16 * S i - 16)%nat with (16 * i)%nat by lia. apply IH.
Qed.

Lemma iso_wire_slice ds i d :
  ds !! i = Some d ->
  drop (16 * i) (iso_wire ds) = iso_wire_bytes (iso_of_ui d) ++ iso_wire (drop (S i) ds).
Proof. intros Hd. by rewrite iso_wire_drop, (drop_S _ _ _ Hd). Qed.

Lemma take_splice blk off data :
  (off + length data <= length blk)%nat ->
  take (off + length data) (splice blk off data) = take off blk ++ data.
Proof.
  intros. unfold splice. rewrite app_assoc, take_app_le.
  - apply take_ge. rewrite length_app, length_take. lia.
  - rewrite length_app, length_take. lia.
Qed.

Lemma take_S_insert {A} i (x : A) l :
  (i < length l)%nat -> take (S i) (<[i:=x]> l) = take i l ++ [x].
Proof.
  revert l; induction i as [|i IH]; intros [|y l] Hl; cbn in *; try lia; [done|].
  f_equal. apply IH. lia.
Qed.

Section descriptors.
Context `{Arch} `{Env} {St : Type}.

Lemma pack_iso_wire d :
  uiso_wf d ->
  iso_to_mem (usbip_iso_packet_correct_endian (usbip_pack_iso (mkIso 0 0 0 0) d true).1 true)
  = iso_wire_bytes (iso_of_ui d).
Proof. intros Hd. apply (iso_to_mem_wire (iso_of_ui d)), iso_of_ui_wf, Hd. Qed.

Lemma unpack_iso_wire d d0 l :
  uiso_wf d ->
  (usbip_pack_iso (usbip_iso_packet_correct_endian
     (iso_of_mem (iso_wire_bytes (iso_of_ui d) ++ l)) false) d0 false).2 = d.
Proof.
  intros Hd. rewrite iso_receive by by apply iso_of_ui_wf.
  destruct Hd as (? & ? & ? & Hs). destruct d as [o len al st]. cbn.
  autorewrite with usbip_simp. by rewrite s32_id.
Qed.

Lemma wp_fill_iso_pdu b ds i n blk (Q : unit -> St -> kernel -> Prop) s k :
  Forall uiso_wf ds -> (i + n)%nat = length ds -> k_heap k !! b = Some blk ->
  length blk = (16 * length ds)%nat ->
  Q tt s (k <| k_heap := <[b := take (16 * i) blk ++ iso_wire (drop i ds)]> (k_heap k) |>) ->
  wp (fill_iso_pdu (b, 0) ds (Z.of_nat i) n) Q s k.
Proof.
  intros Hwf. revert i blk k. induction n as [|n IH]; intros i blk k Hn Hb Hlen HQ; cbn [fill_iso_pdu].
  - rewrite wp_ret. rewrite drop_ge in HQ by lia. rewrite app_nil_r, take_ge in HQ by lia.
    rewrite insert_id in HQ by done. by destruct k.
  - destruct (lookup_lt_is_Some_2 ds i ltac:(lia)) as [d Hd].
    rewrite wp_bind, wp_of_option. exists d. split; [by rewrite Nat2Z.id|].
    pose proof (pack_iso_wire d (proj1 (Forall_lookup _ _) Hwf _ _ Hd)) as Hw.
    destruct (usbip_pack_iso (mkIso 0 0 0 0) d true) as [p ?]. cbn [fst] in Hw.
    unfold sizeof_iso. rewrite wp_bind, wp_store_bytes, Hw. cbn [ptr_add fst snd].
    pose proof (length_iso_wire_bytes (iso_of_ui d)) as Hlw.
    exists blk. split_and!; [done|lia|lia|].
    replace (Z.to_nat (0 + Z.of_nat i * 16)) with (16 * i)%nat by lia.
    replace (Z.of_nat i + 1) with (Z.of_nat (S i)) by lia.
    eapply IH; cbn -[iso_wire_bytes Nat.mul]; [lia|by rewrite lookup_insert_eq|rewrite length_splice; lia|].
    rewrite insert_insert_eq.
    replace (16 * S i)%nat with (16 * i + length (iso_wire_bytes (iso_of_ui d)))%nat by lia.
    rewrite take_splice by lia. rewrite (drop_S _ _ _ Hd), iso_wire_cons, app_assoc in HQ.
    exact HQ.
Qed.

Lemma s32_add_s32 a b : s32 (s32 a + b) = s32 (a + b).
Proof. int_lia. Qed.

Lemma wp_unpack_iso_loop b ds u r i n total (Q : Z -> St -> kernel -> Prop) s k :
  Forall uiso_wf ds -> (i + n)%nat = length ds -> k_heap k !! b = Some (iso_wire ds) ->
  k_urbs k !! u = Some r -> (length ds <= length (urb_iso_frame_desc r))%nat -> is_s32 total ->
  Q (s32 (total + sum_actual (drop i ds))) s
    (k <| k_urbs := <[u := r <| urb_iso_frame_desc :=
       take i (urb_iso_frame_desc r) ++ drop i ds ++
       drop (length ds) (urb_iso_frame_desc r) |>]> (k_urbs k) |>) ->
  wp (unpack_iso_loop (b, 0) u (Z.of_nat i) n total) Q s k.
Proof.
  intros Hwf. revert i total r k.
  induction n as [|n IH]; intros i total r k Hn Hb Hu Hlen Ht HQ; cbn [unpack_iso_loop].
  - rewrite wp_ret. rewrite (drop_ge ds i) in HQ by lia. cbn in HQ.
    rewrite Z.add_0_r, s32_id in HQ by done.
    replace (length ds) with i in HQ by lia. rewrite take_drop in HQ.
    replace (r <| urb_iso_frame_desc := urb_iso_frame_desc r |>) with r in HQ by by destruct r.
    cbn in HQ. destruct r; cbn in HQ. rewrite insert_id in HQ by done. by destruct k.
  - destruct (lookup_lt_is_Some_2 ds i ltac:(lia)) as [d Hd].
    destruct (lookup_lt_is_Some_2 (urb_iso_frame_desc r) i ltac:(lia)) as [d0 Hd0].
    unfold sizeof_iso. rewrite wp_bind, wp_load_bytes. cbn [ptr_add fst snd].
    exists (iso_wire ds). rewrite length_iso_wire. split_and!; [done|lia|lia|lia|].
    rewrite wp_bind, wp_get_urb. exists r. split; [done|].
    rewrite wp_bind, wp_of_option. exists d0. split; [by rewrite Nat2Z.id|].
    replace (Z.to_nat (0 + Z.of_nat i * 16)) with (16 * i)%nat by lia.
    rewrite (iso_wire_slice _ _ _ Hd). change (Z.to_nat 16) with 16%nat.
    rewrite take_app_length' by (by rewrite length_iso_wire_bytes).
    pose proof (unpack_iso_wire d d0 [] (proj1 (Forall_lookup _ _) Hwf _ _ Hd)) as Hp.
    rewrite app_nil_r in Hp. destruct (usbip_pack_iso _ d0 false) as [? d1]. cbn [snd] in Hp. subst d1.
    rewrite wp_bind, wp_put_urb. split; [eauto|]. rewrite Nat2Z.id.
    replace (Z.of_nat i + 1) with (Z.of_nat (S i)) by lia.
    eapply (IH (S i)); [lia|done|apply lookup_insert_eq| | |]; cbn -[take drop].
    + by rewrite length_insert.
    + auto with usbip.
    + rewrite insert_insert_eq, s32_add_s32.
      replace (total + ui_actual_length d + sum_actual (drop (S i) ds))
        with (total + sum_actual (drop i ds)) by (rewrite (drop_S _ _ _ Hd), sum_actual_cons; lia).
      rewrite (take_S_insert _ d) by lia. rewrite drop_insert_lt by lia.
      rewrite <- (app_assoc _ [d]). cbn [app]. rewrite (drop_S _ _ _ Hd) in HQ |- *. exact HQ.
Qed.
End descriptors.

(** The heap an allocation of [n] zero bytes leaves. *)
Definition allocated (n : Z) (blk : list Z) (k : kernel) : kernel :=
  k <| k_trace := CMalloc n :: k_trace k |>
    <| k_heap := <[k_next k := blk]> (k_heap k) |>
    <| k_next := Pos.succ (k_next k) |>.

Lemma kzalloc_ok `{Env} {S} n (s : S) k :
  0 <= n -> (env_answer (k_trace k) (CMalloc n)).1 <> 0 ->
  kzalloc n s k = Ok (Some (k_next k, 0), s, allocated n (replicate (Z.to_nat n) 0) k).
Proof.
  intros Hn Ha. unfold kzalloc.
  erewrite bind_ok by reflexivity. destruct (n <? 0) eqn:E; bool_to_prop; [lia|].
  rewrite (proj2 (Z.eqb_neq _ _) Ha). done.
Qed.

Lemma alloc_iso_desc_run `{Arch} `{Env} {St : Type} u r (s : St) k :
  let ds := urb_iso_frame_desc r in
  let size := 16 * Z.of_nat (length ds) in
  k_urbs k !! u = Some r -> urb_number_of_packets r = Z.of_nat (length ds) ->
  size < 2 ^ 63 -> Forall uiso_wf ds -> (env_answer (k_trace k) (CMalloc size)).1 <> 0 ->
  usbip_alloc_iso_desc_pdu u s k =
    Ok (Some ((k_next k, 0), size), s, allocated size (iso_wire ds) k).
Proof.
  intros ds size Hu Hnp Hlt Hwf Ha. unfold usbip_alloc_iso_desc_pdu.
  erewrite bind_ok by (unfold get_urb; by rewrite Hu). cbv zeta.
  rewrite Hnp. unfold sizeof_iso. fold ds.
  replace (s64 (Z.of_nat (length ds) * 16)) with size by (subst size; int_lia).
  erewrite bind_ok by (apply kzalloc_ok; [lia|done]). cbv iota.
  rewrite Nat2Z.id.
  assert (wp (fill_iso_pdu (k_next k, 0) ds (Z.of_nat 0) (length ds))
    (fun _ s' k' => s' = s /\ k' = allocated size (iso_wire ds) k)
    s (allocated size (replicate (Z.to_nat size) 0) k)) as Hwp.
  { eapply wp_fill_iso_pdu; [done|done|apply lookup_insert_eq| |].
    - rewrite length_replicate. lia.
    - split; [done|]. unfold allocated. cbn -[replicate]. by rewrite insert_insert_eq. }
  apply wp_ok in Hwp as ([] & s' & k' & Hrun & -> & ->).
  by erewrite bind_ok by exact Hrun.
Qed.

(** The descriptors sent for an isochronous URB are, packet by packet, the
    protocol's 16-byte encoding, in a fresh block, on machines of either byte
    order; their size is what the caller is told. *)
Theorem alloc_iso_desc_pdu_format `{Arch} `{Env} {St : Type} u r (s : St) k :
  let ds := urb_iso_frame_desc r in
  let size := 16 * Z.of_nat (length ds) in
  k_urbs k !! u = Some r -> urb_number_of_packets r = Z.of_nat (length ds) ->
  size < 2 ^ 63 -> Forall uiso_wf ds -> (env_answer (k_trace k) (CMalloc size)).1 <> 0 ->
  usbip_alloc_iso_desc_pdu u s k =
    Ok (Some ((k_next k, 0), size), s, allocated size (iso_wire ds) k).
Proof. intros. by apply alloc_iso_desc_run. Qed.

(** What a failed reception makes of the result: an event and -EPIPE. *)
Lemma wp_event_error_tcp `{Env} {St} `{HasUd St} (Q : unit -> St -> kernel -> Prop) s k :
  LockUd ud_owner ∉ k_locks k ->
  wp event_error_tcp Q s k <->
  Q tt (add_event SDEV_EVENT_ERROR_TCP s) (k <| k_trace := CWakeUp Q_EH :: k_trace k |>).
Proof.
  intros Hl. unfold event_error_tcp. rewrite wp_bind, wp_gets.
  destruct (ud_side (the_ud s)); by rewrite wp_usbip_event_add.
Qed.

(** Receiving the descriptors of an isochronous URB terminates and frees
    the block it receives into.  If the whole encoding of [ds] arrives, the
    URB's descriptors become [ds], and the result says whether their actual
    lengths add up to the URB's actual length; otherwise the URB keeps its
    descriptors.  Both failures shut the connection down by an event. *)
Theorem recv_iso_correct `{Arch} `{Env} `{UsbPipes} {St} `{HasUd St}
    u r sock ds rest (s : St) k :
  let size := 16 * Z.of_nat (length ds) in
  recvmsg_ok -> delivers sock (CMalloc size :: k_trace k) (iso_wire ds ++ rest) ->
  LockUd ud_owner ∉ k_locks k -> k_heap k !! k_next k = None ->
  ud_tcp_socket (the_ud s) = Some sock ->
  k_urbs k !! u = Some r -> usb_pipeisoc (urb_pipe r) = true ->
  urb_number_of_packets r = Z.of_nat (length ds) -> 0 < size < 2 ^ 31 ->
  length (urb_iso_frame_desc r) = length ds -> Forall uiso_wf ds ->
  (env_answer (k_trace k) (CMalloc size)).1 <> 0 ->
  exists ret s' k',
    usbip_recv_iso u s k = Ok (ret, s', k') /\ k_heap k' = k_heap k /\ k_locks k' = k_locks k /\
    let filled := <[u := r <| urb_iso_frame_desc := ds |>]> (k_urbs k) in
    (ret = size /\ s' = s /\ k_urbs k' = filled /\
       u32 (sum_actual ds) = urb_actual_length r \/
     ret = - EPIPE /\ s' = add_event SDEV_EVENT_ERROR_TCP s /\
       ((k_urbs k' = filled /\ u32 (sum_actual ds) <> urb_actual_length r) \/
        k_urbs k' = k_urbs k)).
Proof.
  intros size Hok Hd Hlk Hfresh Hsock Hu Hiso Hnp Hsz Hdl Hwf Ha.
  set (k0 := allocated size (replicate (Z.to_nat size) 0) k).
  assert (k_heap k0 !! k_next k = Some (replicate (Z.to_nat size) 0)) as Hb by apply lookup_insert_eq.
  pose proof (wp_usbip_recv sock (k_next k, 0) size _ s k0 Hok ltac:(lia) Hb ltac:(done)
    ltac:(cbn; rewrite length_replicate; lia)) as Hwp.
  apply wp_ok in Hwp as (ret & s' & k' & Hrun & -> & data & tr' & HR & -> & Hret).
  pose proof (prefix_take_length _ _ (Hd _ _ HR)) as Hp.
  change (Z.to_nat (k_next k, 0).2) with 0%nat in Hrun.
  apply wp_ok. unfold usbip_recv_iso. rewrite wp_bind, wp_get_urb. exists r. split; [done|].
  cbv zeta. rewrite Hiso, Hnp. unfold sizeof_iso. cbn [negb].
  replace (s32 (Z.of_nat (length ds) * 16)) with size by (subst size; int_lia).
  destruct (Z.of_nat (length ds) =? 0) eqn:E0; bool_to_prop; [lia|].
  rewrite wp_bind, (wp_run (kzalloc size)) by (apply kzalloc_ok; [lia|done]). cbv iota. fold k0.
  rewrite wp_bind, wp_gets, wp_bind, Hsock, (wp_run (usbip_recv _ _ _)) by exact Hrun.
  assert (delete (k_next k) (k_heap k) = k_heap k) as Hdel by by apply delete_id.
  destruct Hret as [[-> Hlen]|[Hr Hlen]].
  - rewrite Z.eqb_refl. cbn [negb]. rewrite Nat2Z.id.
    replace (length data) with (length (iso_wire ds)) in Hp by (rewrite length_iso_wire; lia).
    rewrite take_app_length in Hp. subst data.
    rewrite splice_all by (rewrite length_replicate; lia).
    rewrite wp_bind. change 0 with (Z.of_nat 0) at 2.
    eapply (wp_unpack_iso_loop _ ds u r 0); [done|done|apply lookup_insert_eq|done|lia|done|].
    cbn -[iso_wire sum_actual drop take].
    rewrite wp_bind. eapply wp_kfree; [apply lookup_insert_eq|]. cbn.
    rewrite wp_bind, wp_get_urb. eexists. split; [apply lookup_insert_eq|].
    rewrite drop_0, take_0, Z.add_0_l, u32_s32. cbn [set_field set_urb_iso_frame_desc urb_actual_length].
    rewrite (drop_ge (urb_iso_frame_desc r)), app_nil_r, app_nil_l by lia.
    rewrite delete_insert_eq. destruct (u32 (sum_actual ds) =? urb_actual_length r) eqn:E; bool_to_prop; cbn [negb].
    + rewrite wp_ret. cbn. rewrite delete_insert_eq, Hdel. split_and!; auto.
    + rewrite wp_bind, wp_event_error_tcp by done. rewrite wp_ret. cbn.
      rewrite delete_insert_eq, Hdel. split_and!; auto 8.
  - destruct (ret =? size) eqn:E; bool_to_prop; [lia|]. cbn [negb].
    rewrite wp_bind. eapply wp_kfree; [apply lookup_insert_eq|].
    rewrite wp_bind, wp_event_error_tcp by done. rewrite wp_ret. cbn.
    rewrite !delete_insert_eq, Hdel. split_and!; auto 8.
Qed.

(** ** Data without the padding *)

Definition slice (blk : list Z) (off n : Z) : list Z :=
  take (Z.to_nat n) (drop (Z.to_nat off) blk).

(** The data of the packets, one behind the other. *)
Definition packed (blk : list Z) (ds : list usb_iso_packet) : list Z :=
  mjoin ((fun d => slice blk (ui_offset d) (ui_actual_length d)) <$> ds).

Lemma packed_cons blk d ds :
  packed blk (d :: ds) = slice blk (ui_offset d) (ui_actual_length d) ++ packed blk ds.
Proof. done. Qed.

(** The packets lie in order and apart from position [from] to [len]. *)
Fixpoint ordered (from : Z) (ds : list usb_iso_packet) (len : Z) : Prop :=
  match ds with
  | [] => from <= len
  | d :: ds' => from <= ui_offset d /\ 0 <= ui_actual_length d /\
                ordered (ui_offset d + ui_actual_length d) ds' len
  end.

Definition layout (ds : list usb_iso_packet) (len : Z) : Prop :=
  ordered 0 ds len /\ match ds with d :: _ => ui_offset d = 0 | [] => True end.

Lemma ordered_weaken from from' ds len : from' <= from -> ordered from ds len -> ordered from' ds len.
Proof. destruct ds; cbn; intros; intuition lia. Qed.

Lemma ordered_bounds from ds len : ordered from ds len -> from + sum_actual ds <= len /\ 0 <= sum_actual ds.
Proof.
  revert from; induction ds as [|d ds IH]; intros from; cbn [ordered].
  - unfold sum_actual; cbn; lia.
  - intros (? & ? & Ho). apply IH in Ho. rewrite sum_actual_cons. lia.
Qed.

(** Each packet starts no earlier than its packed position, and ends where
    enough room is left for the later packets. *)
Lemma ordered_lookup from ds len i d :
  ordered from ds len -> ds !! i = Some d ->
  from + sum_actual (take i ds) <= ui_offset d /\ 0 <= ui_actual_length d /\
  0 <= sum_actual (take i ds) /\
  ordered (ui_offset d + ui_actual_length d) (drop (S i) ds) len.
Proof.
  revert from i; induction ds as [|d0 ds IH]; intros from i Ho Hd; [done|].
  destruct Ho as (H1 & H2 & H3). destruct i as [|i]; cbn in Hd.
  - injection Hd as ->. change (take 0 (d :: ds)) with (@nil usb_iso_packet).
    change (sum_actual []) with 0. split_and!; [lia|lia|lia|done].
  - apply (IH _ _ H3) in Hd as (? & ? & ? & ?). change (take (S i) (d0 :: ds)) with (d0 :: take i ds).
    rewrite sum_actual_cons. split_and!; [lia|lia|lia|done].
Qed.

Lemma sum_actual_take_S ds i d :
  ds !! i = Some d -> sum_actual (take (S i) ds) = sum_actual (take i ds) + ui_actual_length d.
Proof.
  revert i; induction ds as [|d0 ds IH]; intros [|i] Hd; try done; cbn in Hd.
  - injection Hd as ->. change (take 1 (d :: ds)) with [d]. rewrite sum_actual_cons.
    change (take 0 (d :: ds)) with (@nil usb_iso_packet). change (sum_actual []) with 0. lia.
  - change (take (S ?n) (d0 :: ds)) with (d0 :: take n ds). rewrite !sum_actual_cons, (IH _ Hd). lia.
Qed.

Lemma sum_actual_take_nonneg from ds len i : ordered from ds len -> 0 <= sum_actual (take i ds).
Proof.
  revert from i; induction ds as [|d ds IH]; intros from [|i] Ho; try done.
  destruct Ho as (_ & H2 & H3). change (take (S i) (d :: ds)) with (d :: take i ds).
  rewrite sum_actual_cons. specialize (IH _ i H3). lia.
Qed.

Lemma sum_actual_take_mono from ds len i j :
  ordered from ds len -> (j <= i)%nat -> sum_actual (take j ds) <= sum_actual (take i ds).
Proof.
  intros Ho. revert from i Ho j.
  induction ds as [|d ds IH]; intros from i Ho j Hij; [by rewrite !take_nil|].
  destruct j as [|j]; [by eapply sum_actual_take_nonneg|]. destruct i as [|i]; [lia|].
  destruct Ho as (_ & _ & H3).
  change (take (S j) (d :: ds)) with (d :: take j ds).
  change (take (S i) (d :: ds)) with (d :: take i ds). rewrite !sum_actual_cons.
  pose proof (IH _ i H3 j ltac:(lia)). lia.
Qed.

Lemma length_slice blk off n :
  0 <= off -> 0 <= n -> off + n <= Z.of_nat (length blk) -> length (slice blk off n) = Z.to_nat n.
Proof. intros. unfold slice. rewrite length_take, length_drop. lia. Qed.

Lemma slice_splice_before blk off data o n :
  0 <= o -> 0 <= n -> o + n <= Z.of_nat off -> (off <= length blk)%nat ->
  slice (splice blk off data) o n = slice blk o n.
Proof.
  intros. unfold slice, splice.
  rewrite drop_app_le by (rewrite length_take; lia).
  rewrite take_app_le by (rewrite length_drop, length_take; lia).
  rewrite !take_drop_commute, take_take. do 2 f_equal. lia.
Qed.

Lemma slice_splice_after blk off data o n :
  0 <= o -> 0 <= n -> Z.of_nat off + Z.of_nat (length data) <= o -> (off <= length blk)%nat ->
  slice (splice blk off data) o n = slice blk o n.
Proof.
  intros. unfold slice, splice. f_equal.
  rewrite app_assoc, drop_app_ge by (rewrite length_app, length_take; lia).
  rewrite drop_drop, length_app, length_take. f_equal. lia.
Qed.

Lemma slice_splice_same blk off data o n :
  o = Z.of_nat off -> n = Z.of_nat (length data) -> (off <= length blk)%nat ->
  slice (splice blk off data) o n = data.
Proof.
  intros -> -> ?. unfold slice, splice. rewrite !Nat2Z.id.
  rewrite drop_app_ge by (rewrite length_take; lia).
  rewrite length_take. replace (off - off `min` length blk)%nat with 0%nat by lia.
  rewrite drop_0. by apply take_app_length'.
Qed.

(** What the sender gathers for an IN transfer. *)
Lemma iso_iov_packed b ds blk (s : stub_device) k :
  k_heap k !! b = Some blk ->
  (forall i d, ds !! i = Some d -> 0 <= ui_offset d /\ 0 <= ui_actual_length d /\
               ui_offset d + ui_actual_length d <= Z.of_nat (length blk)) ->
  iso_iov (Some (b, 0)) ds 0 (length ds) s k = Ok (packed blk ds, s, k).
Proof.
  intros Hb Hr.
  assert (forall n i, (i + n)%nat = length ds ->
    wp (iso_iov (Some (b, 0)) ds i n)
      (fun out s' k' => out = packed blk (drop i ds) /\ s' = s /\ k' = k) s k) as Hwp.
  { induction n as [|n IH]; intros i Hi; cbn [iso_iov].
    - rewrite wp_ret, drop_ge by lia. done.
    - destruct (lookup_lt_is_Some_2 ds i ltac:(lia)) as [d Hd].
      destruct (Hr _ _ Hd) as (? & ? & ?).
      rewrite wp_bind, wp_of_option. exists d. split; [done|].
      rewrite (drop_S _ _ _ Hd). rewrite packed_cons, wp_bind.
      assert (forall (Q : list Z -> stub_device -> kernel -> Prop),
        Q (slice blk (ui_offset d) (ui_actual_length d)) s k ->
        wp (if ui_actual_length d =? 0 then mret []
            else b' ← deref (Some (b, 0)); load_bytes (ptr_add b' (ui_offset d)) (ui_actual_length d))
          Q s k) as Hload.
      { intros Q HQ. case_if; bool_to_prop.
        - rewrite wp_ret. unfold slice in HQ. by rewrite Etest in HQ.
        - unfold deref. rewrite wp_bind, wp_of_option. eexists; split; [done|].
          rewrite wp_load_bytes. cbn [ptr_add fst snd]. exists blk. split_and!; [done|lia|lia|lia|].
          by rewrite Z.add_0_l. }
      apply Hload. rewrite wp_bind. eapply wp_mono; [apply IH; lia|].
      cbn. intros out s' k' (-> & -> & ->). done. }
  pose proof (Hwp (length ds) 0%nat ltac:(lia)) as H0.
  apply wp_ok in H0 as (out & s' & k' & -> & -> & -> & ->). done.
Qed.

Section padding.
Context `{Env} `{UsbPipes} {St : Type}.

(** Moving packets [i], ..., 1 to their offsets: the packets up to [i] are
    still packed, the later ones already in place. *)
Lemma wp_pad_iso_loop u r b data i blk (Q : unit -> St -> kernel -> Prop) s k :
  let ds := urb_iso_frame_desc r in
  let off i := sum_actual (take i ds) in
  k_urbs k !! u = Some r -> urb_transfer_buffer r = Some (b, 0) -> (i < length ds)%nat ->
  layout ds (Z.of_nat (length blk)) -> sum_actual ds < 2 ^ 31 ->
  k_heap k !! b = Some blk ->
  (forall j d, (j <= i)%nat -> ds !! j = Some d -> slice blk (off j) (ui_actual_length d) = data j) ->
  (forall j d, (i < j)%nat -> ds !! j = Some d ->
     slice blk (ui_offset d) (ui_actual_length d) = data j) ->
  (forall blk', length blk' = length blk ->
     (forall j d, ds !! j = Some d -> slice blk' (ui_offset d) (ui_actual_length d) = data j) ->
     Q tt s (k <| k_heap := <[b := blk']> (k_heap k) |>)) ->
  wp (pad_iso_loop u i (off (S i))) Q s k.
Proof.
  intros ds off Hu Hbuf Hi [Ho Hfst] Hsum. revert blk k Hu Hi Ho.
  induction i as [|i IH]; intros blk k Hu Hi Ho Hb Hpk Hpl HQ; cbn [pad_iso_loop].
  - rewrite wp_ret. specialize (HQ blk eq_refl).
    rewrite insert_id in HQ by done. destruct k; cbn in *. apply HQ.
    intros [|j] d Hd; [|apply Hpl; [lia|done]].
    rewrite <- (Hpk 0%nat d) by (lia || done). f_equal. fold ds in Hfst, Hd.
    destruct ds; [done|]. injection Hd as ->. rewrite Hfst. done.
  - destruct (lookup_lt_is_Some_2 ds (S i) Hi) as [d Hd].
    destruct (ordered_lookup _ _ _ _ _ Ho Hd) as (H1 & H2 & H3 & H4).
    pose proof (ordered_bounds _ _ _ H4) as H5. fold (off (S i)) in H1, H3.
    pose proof (ordered_bounds _ _ _ Ho) as H6.
    assert (off (S i) + ui_actual_length d = off (S (S i))) as Hoff
      by (subst off; cbv beta; by rewrite (sum_actual_take_S _ _ _ Hd)).
    rewrite wp_bind, wp_get_urb. exists r. split; [done|]. fold ds.
    rewrite wp_bind, wp_of_option. exists d. split; [done|]. unfold deref.
    rewrite wp_bind, wp_of_option. exists (b, 0). split; [done|]. cbv zeta.
    assert (off (S (S i)) <= sum_actual ds) as Hlt.
    { replace (sum_actual ds) with (sum_actual (take (length ds) ds)) by (by rewrite take_ge).
      eapply sum_actual_take_mono; [exact Ho|lia]. }
    replace (s32 (off (S (S i)) - ui_actual_length d)) with (off (S i)) by int_lia.
    rewrite wp_bind, wp_load_bytes. cbn [ptr_add fst snd]. rewrite Z.add_0_l.
    exists blk. split_and!; [done|lia|lia|lia|].
    fold (slice blk (off (S i)) (ui_actual_length d)). rewrite (Hpk (S i) d ltac:(lia) Hd).
    assert (Z.of_nat (length (data (S i))) = ui_actual_length d) as Hdl.
    { rewrite <- (Hpk (S i) d ltac:(lia) Hd), length_slice; lia. }
    rewrite wp_bind, wp_store_bytes. cbn [ptr_add fst snd]. rewrite Z.add_0_l.
    exists blk. split_and!; [done|lia|lia|].
    set (blk1 := splice blk (Z.to_nat (ui_offset d)) (data (S i))).
    assert (length blk1 = length blk) as Hl1 by (apply length_splice; lia).
    apply (IH blk1); [done|lia|by rewrite Hl1|apply lookup_insert_eq| | |].
    + intros j dj Hj Hdj. rewrite <- (Hpk j dj ltac:(lia) Hdj).
      destruct (ordered_lookup _ _ _ _ _ Ho Hdj) as (? & ? & ? & ?).
      assert (off (S j) <= off (S i)) as Hmono
        by (eapply sum_actual_take_mono; [exact Ho|lia]).
      pose proof (sum_actual_take_S _ _ _ Hdj). fold (off j) in *. fold (off (S j)) in *.
      apply slice_splice_before; lia.
    + intros j dj Hj Hdj. destruct (decide (j = S i)) as [->|Hne].
      * rewrite Hd in Hdj. injection Hdj as <-. apply slice_splice_same; lia.
      * rewrite <- (Hpl j dj ltac:(lia) Hdj).
        assert (drop (S (S i)) ds !! (j - S (S i))%nat = Some dj) as Hdj'
          by (rewrite lookup_drop; by replace (S (S i) + (j - S (S i)))%nat with j by lia).
        destruct (ordered_lookup _ _ _ _ _ H4 Hdj') as (? & ? & ? & ?).
        apply slice_splice_after; lia.
    + intros blk' Hl' Hs. cbn. rewrite insert_insert_eq. apply HQ; [lia|done].
Qed.
End padding.

Lemma length_packed full from ds :
  0 <= from -> ordered from ds (Z.of_nat (length full)) ->
  Z.of_nat (length (packed full ds)) = sum_actual ds.
Proof.
  revert from; induction ds as [|d ds IH]; intros from Hf Ho; [done|].
  destruct Ho as (H1 & H2 & H3). pose proof (ordered_bounds _ _ _ H3).
  rewrite packed_cons.
  rewrite length_app, length_slice, sum_actual_cons by lia.
  assert (0 <= ui_offset d + ui_actual_length d) as Hf' by lia.
  pose proof (IH _ Hf' H3). lia.
Qed.

Lemma slice_packed full from ds rest i d :
  0 <= from -> ordered from ds (Z.of_nat (length full)) -> ds !! i = Some d ->
  slice (packed full ds ++ rest) (sum_actual (take i ds)) (ui_actual_length d) =
  slice full (ui_offset d) (ui_actual_length d).
Proof.
  revert from i. induction ds as [|d0 ds IH]; intros from i Hf Ho Hd; [done|].
  destruct Ho as (H1 & H2 & H3). pose proof (ordered_bounds _ _ _ H3).
  rewrite packed_cons.
  pose proof (length_slice full (ui_offset d0) (ui_actual_length d0) ltac:(lia) ltac:(lia) ltac:(lia)) as Hl.
  rewrite <- app_assoc. destruct i as [|i]; cbn in Hd.
  - injection Hd as ->. change (take 0 (d :: ds)) with (@nil usb_iso_packet).
    unfold slice at 1. change (Z.to_nat (sum_actual [])) with 0%nat.
    rewrite drop_0. by apply take_app_length'.
  - assert (0 <= ui_offset d0 + ui_actual_length d0) as Hf' by lia.
    rewrite <- (IH _ i Hf' H3 Hd).
    pose proof (sum_actual_take_nonneg _ _ _ i H3).
    change (take (S i) (d0 :: ds)) with (d0 :: take i ds). rewrite sum_actual_cons.
    unfold slice at 1 3. f_equal.
    rewrite drop_app_ge by lia. f_equal. lia.
Qed.

(** A layout that fills the buffer, or has no data, needs no move. *)
Lemma layout_packed from ds len i d :
  ordered from ds len -> sum_actual ds = len - from -> ds !! i = Some d ->
  ui_offset d = from + sum_actual (take i ds).
Proof.
  revert from i; induction ds as [|d0 ds IH]; intros from i Ho Hs Hd; [done|].
  destruct Ho as (H1 & H2 & H3). pose proof (ordered_bounds _ _ _ H3).
  rewrite sum_actual_cons in Hs. destruct i as [|i]; cbn in Hd.
  - injection Hd as ->. change (take 0 (d :: ds)) with (@nil usb_iso_packet).
    change (sum_actual []) with 0. lia.
  - change (take (S i) (d0 :: ds)) with (d0 :: take i ds). rewrite sum_actual_cons.
    rewrite (IH (ui_offset d0 + ui_actual_length d0) i H3 ltac:(lia) Hd). lia.
Qed.

Lemma sum_actual_zero from ds len i d :
  ordered from ds len -> sum_actual ds = 0 -> ds !! i = Some d -> ui_actual_length d = 0.
Proof.
  revert from i; induction ds as [|d0 ds IH]; intros from i Ho Hs Hd; [done|].
  destruct Ho as (H1 & H2 & H3). pose proof (ordered_bounds _ _ _ H3).
  rewrite sum_actual_cons in Hs. destruct i as [|i]; cbn in Hd.
  - injection Hd as ->. lia.
  - apply (IH _ i H3 ltac:(lia) Hd).
Qed.

(** Restoring the padding of packed data, on every path of the routine. *)
Lemma pad_iso_restores `{UsbPipes} {St : Type} u r b sent blk rest (s : St) k :
  let ds := urb_iso_frame_desc r in
  layout ds (Z.of_nat (length blk)) -> length blk = length sent ->
  k_urbs k !! u = Some r -> urb_transfer_buffer r = Some (b, 0) ->
  usb_pipeisoc (urb_pipe r) = true ->
  urb_number_of_packets r = Z.of_nat (length ds) ->
  urb_actual_length r = sum_actual ds -> sum_actual ds < 2 ^ 31 ->
  urb_transfer_buffer_length r = Z.of_nat (length blk) ->
  k_heap k !! b = Some blk -> blk = packed sent ds ++ rest ->
  exists blk',
    usbip_pad_iso u s k = Ok (tt, s, k <| k_heap := <[b := blk']> (k_heap k) |>) /\
    length blk' = length blk /\
    forall j d, ds !! j = Some d ->
      slice blk' (ui_offset d) (ui_actual_length d) = slice sent (ui_offset d) (ui_actual_length d).
Proof.
  intros ds Hlay Hlen Hu Hbuf Hiso Hnp Hal Hsum Htl Hb Hblk.
  pose proof Hlay as [Ho _]. pose proof (ordered_bounds _ _ _ Ho) as Hbd.
  assert (forall j d, ds !! j = Some d ->
    slice blk (sum_actual (take j ds)) (ui_actual_length d) =
    slice sent (ui_offset d) (ui_actual_length d)) as Hpk.
  { intros j d Hd. rewrite Hblk. apply (slice_packed _ 0); [done|by rewrite <- Hlen|done]. }
  assert (<[b := blk]> (k_heap k) = k_heap k) as Hid by by apply insert_id.
  unfold usbip_pad_iso. erewrite bind_ok by (unfold get_urb; by rewrite Hu). cbv zeta.
  rewrite Hiso, Hnp, Hal, Htl. cbn [negb].
  destruct ((Z.of_nat (length ds) =? 0) || (sum_actual ds =? 0)) eqn:E.
  { exists blk. rewrite Hid. split_and!; [by destruct k|done|]. intros j d Hd.
    rewrite <- (Hpk j d Hd). apply orb_true_iff in E as [E|E]; bool_to_prop.
    - apply lookup_lt_Some in Hd. lia.
    - rewrite (sum_actual_zero _ _ _ _ _ Ho E Hd). unfold slice. by rewrite !take_0. }
  apply orb_false_iff in E as [E1 E2]; bool_to_prop.
  destruct (sum_actual ds =? Z.of_nat (length blk)) eqn:E; bool_to_prop.
  { exists blk. rewrite Hid. split_and!; [by destruct k|done|]. intros j d Hd.
    rewrite <- (Hpk j d Hd). f_equal.
    rewrite (layout_packed _ _ _ _ _ Ho ltac:(lia) Hd). lia. }
  set (data := fun j => match ds !! j with
    Some d => slice sent (ui_offset d) (ui_actual_length d) | None => [] end).
  assert (wp (pad_iso_loop u (length ds - 1) (sum_actual (take (S (length ds - 1)) ds)))
    (fun _ s' k' => s' = s /\ exists blk', k' = k <| k_heap := <[b := blk']> (k_heap k) |> /\
       length blk' = length blk /\ forall j d, ds !! j = Some d ->
       slice blk' (ui_offset d) (ui_actual_length d) = data j) s k) as Hwp.
  { eapply (wp_pad_iso_loop u r b data (length ds - 1) blk); eauto; fold ds.
    - lia.
    - intros j d _ Hd. rewrite (Hpk j d Hd). subst data. cbv beta. by rewrite Hd.
    - intros j d Hj Hd. apply lookup_lt_Some in Hd. lia. }
  replace (S (length ds - 1)) with (length ds) in Hwp by lia.
  rewrite (take_ge ds) in Hwp by done.
  replace (s32 (sum_actual ds)) with (sum_actual ds) by (symmetry; int_lia).
  replace (Z.to_nat (Z.of_nat (length ds) - 1)) with (length ds - 1)%nat by lia.
  apply wp_ok in Hwp as ([] & s' & k' & Hrun & -> & blk' & -> & Hl & Hs).
  exists blk'. split_and!; [exact Hrun|done|]. intros j d Hd. rewrite (Hs j d Hd).
  subst data. cbv beta. by rewrite Hd.
Qed.

(** C37: an isochronous IN transfer arrives as it was: what the exporting side
    gathers from its buffer, packet after packet, and the importing side
    receives at the start of its own buffer, is moved by the padding routine
    so that every packet's data lies at the packet's offset again.  The shared
    layout keeps the packets in order and apart, inside both buffers. *)
Theorem iso_data_roundtrip `{UsbPipes} {St : Type}
    u r b bs sent blk (sd : stub_device) (s : St) ks k :
  let ds := urb_iso_frame_desc r in
  (* the exporting side *)
  k_heap ks !! bs = Some sent -> layout ds (Z.of_nat (length sent)) ->
  (* the importing side *)
  k_urbs k !! u = Some r -> urb_transfer_buffer r = Some (b, 0) ->
  usb_pipeisoc (urb_pipe r) = true ->
  urb_number_of_packets r = Z.of_nat (length ds) ->
  urb_actual_length r = sum_actual ds -> sum_actual ds < 2 ^ 31 ->
  urb_transfer_buffer_length r = Z.of_nat (length blk) -> length blk = length sent ->
  k_heap k !! b = Some blk ->
  exists data blk',
    iso_iov (Some (bs, 0)) ds 0 (length ds) sd ks = Ok (data, sd, ks) /\
    Z.of_nat (length data) = urb_actual_length r /\
    (data `prefix_of` blk ->
     usbip_pad_iso u s k = Ok (tt, s, k <| k_heap := <[b := blk']> (k_heap k) |>) /\
     length blk' = length blk /\
     forall j d, ds !! j = Some d ->
       slice blk' (ui_offset d) (ui_actual_length d) =
       slice sent (ui_offset d) (ui_actual_length d)).
Proof.
  intros ds Hbs Hlay Hu Hbuf Hiso Hnp Hal Hsum Htl Hlen Hb. pose proof Hlay as [Ho _].
  assert (forall i d, ds !! i = Some d -> 0 <= ui_offset d /\ 0 <= ui_actual_length d /\
    ui_offset d + ui_actual_length d <= Z.of_nat (length sent)) as Hr.
  { intros i d Hd. destruct (ordered_lookup _ _ _ _ _ Ho Hd) as (? & ? & ? & Ho').
    pose proof (ordered_bounds _ _ _ Ho'). lia. }
  pose proof (iso_iov_packed bs ds sent sd ks Hbs Hr) as Hsend.
  destruct (decide (packed sent ds `prefix_of` blk)) as [[rest Hp]|Hn].
  - edestruct (pad_iso_restores u r b sent blk rest s k) as (blk' & Hrun & Hl & Hs); eauto.
    { fold ds. by rewrite Hlen. }
    exists (packed sent ds), blk'. split_and!; [done| |auto].
    rewrite Hal. by apply (length_packed _ 0).
  - exists (packed sent ds), []. split_and!; [done| |done].
    rewrite Hal. by apply (length_packed _ 0).
Qed.

(** ** Sample transfer *)

Definition sample_ds : list usb_iso_packet := [mkUsbIso 0 4 2 0; mkUsbIso 4 4 3 (-18)].
Definition sample_iso_urb : urb :=
  (urb_zero 2) <| urb_pipe := @usb_mkpipe linux_pipes PIPE_ISOCHRONOUS true 5 1 |>
    <| urb_number_of_packets := 2 |> <| urb_actual_length := 5 |>
    <| urb_transfer_buffer := Some (1%positive, 0) |> <| urb_transfer_buffer_length := 8 |>.
Definition sample_iso_kernel (blk : list Z) (r : urb) : kernel :=
  (one_block blk) <| k_urbs := <[2%positive := r]> ∅ |>.

Lemma sample_ds_wf : Forall uiso_wf sample_ds.
Proof. repeat constructor; done. Qed.

Lemma alloc_iso_desc_pdu_format_witness :
  exists k',
    @usbip_alloc_iso_desc_pdu (stream_env 1 []) true unit 2%positive tt
      (sample_iso_kernel [] (sample_iso_urb <| urb_iso_frame_desc := sample_ds |>)) =
      Ok (Some ((10%positive, 0), 32), tt, k') /\
    k_heap k' !! 10%positive =
      Some [0;0;0;0; 0;0;0;4; 0;0;0;2; 0;0;0;0;
            0;0;0;4; 0;0;0;4; 0;0;0;3; 255;255;255;238].
Proof.
  eexists. split.
  - refine (@alloc_iso_desc_pdu_format true (stream_env 1 []) unit 2%positive
      (sample_iso_urb <| urb_iso_frame_desc := sample_ds |>) tt
      (sample_iso_kernel [] (sample_iso_urb <| urb_iso_frame_desc := sample_ds |>))
      eq_refl eq_refl _ sample_ds_wf _); cbn; lia.
  - vm_compute. reflexivity.
Defined.

Lemma recv_iso_correct_witness :
  exists ret s' k',
    @usbip_recv_iso (stream_env 7 (iso_wire sample_ds)) false linux_pipes _ ud_self 2%positive
      sample_vhci_ud (sample_iso_kernel [] sample_iso_urb) = Ok (ret, s', k') /\
    ret = 32 /\ (urb_iso_frame_desc <$> k_urbs k' !! 2%positive) = Some sample_ds.
Proof.
  destruct (@recv_iso_correct false (stream_env 7 (iso_wire sample_ds)) linux_pipes _ ud_self
    2%positive sample_iso_urb 7 sample_ds [] sample_vhci_ud (sample_iso_kernel [] sample_iso_urb))
    as (ret & s' & k' & Hrun & _ & _ & Hret).
  - apply stream_env_ok.
  - rewrite app_nil_r. apply stream_env_delivers. reflexivity.
  - cbn. set_solver.
  - reflexivity.
  - reflexivity.
  - reflexivity.
  - reflexivity.
  - reflexivity.
  - split; reflexivity.
  - reflexivity.
  - apply sample_ds_wf.
  - discriminate.
  - exists ret, s', k'. split; [exact Hrun|].
    destruct Hret as [(-> & _ & Hk & _)|(-> & _)].
    + split; [reflexivity|]. rewrite Hk. reflexivity.
    + vm_compute in Hrun. discriminate.
Defined.

Lemma iso_data_roundtrip_witness :
  exists blk',
    @usbip_pad_iso linux_pipes unit 2%positive tt
      (sample_iso_kernel [1; 2; 5; 6; 7; 0; 0; 0] (sample_iso_urb <| urb_iso_frame_desc := sample_ds |>))
    = Ok (tt, tt, sample_iso_kernel blk' (sample_iso_urb <| urb_iso_frame_desc := sample_ds |>)) /\
    slice blk' 4 3 = [5; 6; 7].
Proof.
  destruct (@iso_data_roundtrip linux_pipes unit 2%positive
    (sample_iso_urb <| urb_iso_frame_desc := sample_ds |>) 1%positive 1%positive
    [1; 2; 3; 4; 5; 6; 7; 8] [1; 2; 5; 6; 7; 0; 0; 0]
    (mkStubDevice 1 sample_vhci_ud 0 ∅ [] [] [] [] []) tt (one_block [1; 2; 3; 4; 5; 6; 7; 8])
    (sample_iso_kernel [1; 2; 5; 6; 7; 0; 0; 0] (sample_iso_urb <| urb_iso_frame_desc := sample_ds |>)))
    as (data & blk' & Hsend & _ & Hpad).
  - reflexivity.
  - split; [|reflexivity]. cbn. lia.
  - reflexivity.
  - reflexivity.
  - reflexivity.
  - reflexivity.
  - reflexivity.
  - reflexivity.
  - reflexivity.
  - reflexivity.
  - reflexivity.
  - vm_compute in Hsend. injection Hsend as <-.
    destruct Hpad as (Hrun & _ & Hs); [by exists [0; 0; 0]|].
    exists blk'. split; [exact Hrun|]. apply (Hs 1%nat (mkUsbIso 4 4 3 (-18)) eq_refl).
Defined.
