(* ===== verification/ListProps.v ===== *)
(** * Circular lists

    The kernel's circular lists represent sequences of addresses: what the
    list operations of [Filters] do to a sequence, and that walking a list is
    walking its sequence. *)
From S2P Require Import Prelude Kernel Filters.

(** ** Circular lists and sequences *)

Notation nodes := (gmap positive (positive * positive)).

Definition nxt (ns : nodes) (a : positive) : option positive := fst <$> ns !! a.
Definition prv (ns : nodes) (a : positive) : option positive := snd <$> ns !! a.

(** [a] and [b] are neighbours. *)
Definition dlink (ns : nodes) (a b : positive) : Prop :=
  nxt ns a = Some b /\ prv ns b = Some a.

(** The links from [a] through [l] to [b]. *)
Fixpoint path (ns : nodes) (a : positive) (l : list positive) (b : positive) : Prop :=
  match l with
  | [] => dlink ns a b
  | x :: l' => dlink ns a x /\ path ns x l' b
  end.

(** The list at [head] holds the sequence [l]. *)
Definition is_list (ns : nodes) (head : positive) (l : list positive) : Prop :=
  NoDup (head :: l) /\ path ns head l head.

Lemma path_app ns a l1 x l2 b :
  path ns a (l1 ++ x :: l2) b <-> path ns a l1 x /\ path ns x l2 b.
Proof. revert a; induction l1; intros; cbn; [done|]. rewrite IHl1. tauto. Qed.

Lemma path_mono ns ns' a l b :
  path ns a l b ->
  (forall x, x ∈ a :: l -> nxt ns' x = nxt ns x) ->
  (forall x, x ∈ l ++ [b] -> prv ns' x = prv ns x) -> path ns' a l b.
Proof.
  revert a; induction l as [|x l IH]; intros a; cbn; intros Hp Hn Hpr.
  - destruct Hp. split; [rewrite Hn|rewrite Hpr]; set_solver.
  - destruct Hp as [[H1 H2] H3]. split.
    + split; [rewrite Hn|rewrite Hpr]; set_solver.
    + apply IH; [done|set_solver|set_solver].
Qed.

Lemma nxt_is_Some ns a b : nxt ns a = Some b -> is_Some (ns !! a).
Proof. intros (p & Hp & _)%fmap_Some. eauto. Qed.
Lemma prv_is_Some ns a b : prv ns a = Some b -> is_Some (ns !! a).
Proof. intros (p & Hp & _)%fmap_Some. eauto. Qed.

Lemma path_elem ns a l b x : path ns a l b -> x ∈ a :: l -> is_Some (ns !! x).
Proof.
  revert a; induction l as [|y l IH]; intros a; cbn; intros Hp Hx.
  - destruct Hp as [Hn _]. apply list_elem_of_singleton in Hx as ->. by eapply nxt_is_Some.
  - destruct Hp as [[Hn _] Hp]. apply elem_of_cons in Hx as [->|Hx].
    + by eapply nxt_is_Some.
    + by apply (IH y).
Qed.

(** The steps of the list operations. *)
Section steps.
Context {St : Type}.
Implicit Types (s : St).

Lemma list_next_ok n b s k :
  nxt (k_nodes k) n = Some b -> list_next n s k = Ok (b, s, k).
Proof.
  intros Hn. unfold list_next, node, nxt in *. destruct (k_nodes k !! n) as [[]|] eqn:E; [|done].
  injection Hn as ->. unfold mbind, M_bind, kgets. by rewrite E.
Qed.

Lemma list_prev_ok n b s k :
  prv (k_nodes k) n = Some b -> list_prev n s k = Ok (b, s, k).
Proof.
  intros Hn. unfold list_prev, node, prv in *. destruct (k_nodes k !! n) as [[]|] eqn:E; [|done].
  injection Hn as ->. unfold mbind, M_bind, kgets. by rewrite E.
Qed.

Definition with_nodes (k : kernel) (ns : nodes) : kernel := k <| k_nodes := ns |>.

Definition upd_next (n x : positive) (ns : nodes) : nodes := alter (fun p => (x, p.2)) n ns.
Definition upd_prev (n x : positive) (ns : nodes) : nodes := alter (fun p => (p.1, x)) n ns.

Lemma set_next_ok n x s k :
  is_Some (k_nodes k !! n) -> set_next n x s k = Ok (tt, s, with_nodes k (upd_next n x (k_nodes k))).
Proof.
  intros [[a b] Hn]. unfold set_next, node, set_node, mbind, M_bind, kgets, upd_next.
  rewrite Hn. cbn. unfold kmodify, with_nodes. do 2 f_equal. cbn. f_equal.
  apply map_eq. intros i. destruct (decide (i = n)) as [->|Hi].
  - by rewrite lookup_insert_eq, lookup_alter_eq, Hn.
  - by rewrite lookup_insert_ne, lookup_alter_ne by done.
Qed.

Lemma set_prev_ok n x s k :
  is_Some (k_nodes k !! n) -> set_prev n x s k = Ok (tt, s, with_nodes k (upd_prev n x (k_nodes k))).
Proof.
  intros [[a b] Hn]. unfold set_prev, node, set_node, mbind, M_bind, kgets, upd_prev.
  rewrite Hn. cbn. unfold kmodify, with_nodes. do 2 f_equal. cbn. f_equal.
  apply map_eq. intros i. destruct (decide (i = n)) as [->|Hi].
  - by rewrite lookup_insert_eq, lookup_alter_eq, Hn.
  - by rewrite lookup_insert_ne, lookup_alter_ne by done.
Qed.
End steps.

Lemma nxt_upd_next n x ns m :
  is_Some (ns !! n) -> nxt (upd_next n x ns) m = if decide (m = n) then Some x else nxt ns m.
Proof.
  intros [p Hp]. unfold nxt, upd_next. case_decide; subst.
  - by rewrite lookup_alter_eq, Hp.
  - by rewrite lookup_alter_ne.
Qed.
Lemma nxt_upd_prev n x ns m : nxt (upd_prev n x ns) m = nxt ns m.
Proof.
  unfold nxt, upd_prev. destruct (decide (m = n)) as [->|].
  - rewrite lookup_alter_eq. by destruct (ns !! n).
  - by rewrite lookup_alter_ne.
Qed.
Lemma prv_upd_prev n x ns m :
  is_Some (ns !! n) -> prv (upd_prev n x ns) m = if decide (m = n) then Some x else prv ns m.
Proof.
  intros [p Hp]. unfold prv, upd_prev. case_decide; subst.
  - by rewrite lookup_alter_eq, Hp.
  - by rewrite lookup_alter_ne.
Qed.
Lemma prv_upd_next n x ns m : prv (upd_next n x ns) m = prv ns m.
Proof.
  unfold prv, upd_next. destruct (decide (m = n)) as [->|].
  - rewrite lookup_alter_eq. by destruct (ns !! n).
  - by rewrite lookup_alter_ne.
Qed.
Lemma is_Some_upd_next n x ns m : is_Some (upd_next n x ns !! m) <-> is_Some (ns !! m).
Proof. unfold upd_next. by rewrite lookup_alter_is_Some. Qed.
Lemma is_Some_upd_prev n x ns m : is_Some (upd_prev n x ns !! m) <-> is_Some (ns !! m).
Proof. unfold upd_prev. by rewrite lookup_alter_is_Some. Qed.

Lemma nxt_delete n ns m : m <> n -> nxt (delete n ns) m = nxt ns m.
Proof. intros. unfold nxt. by rewrite lookup_delete_ne. Qed.
Lemma prv_delete n ns m : m <> n -> prv (delete n ns) m = prv ns m.
Proof. intros. unfold prv. by rewrite lookup_delete_ne. Qed.

Ltac node_exists := repeat (rewrite is_Some_upd_prev || rewrite is_Some_upd_next); done.
Ltac links :=
  repeat first
    [ rewrite nxt_upd_prev | rewrite prv_upd_next | rewrite nxt_upd_next by node_exists
    | rewrite prv_upd_prev by node_exists ].

Section lists.
Context {St : Type}.
Implicit Types (s : St).

Lemma list_add_between_ok new p n s k :
  is_Some (k_nodes k !! new) -> is_Some (k_nodes k !! p) -> is_Some (k_nodes k !! n) ->
  list_add_between new p n s k =
    Ok (tt, s, with_nodes k (upd_next p new (upd_prev new p (upd_next new n
                              (upd_prev n new (k_nodes k)))))).
Proof.
  intros Hnew Hp Hn. unfold list_add_between.
  erewrite bind_ok by (by apply set_prev_ok).
  erewrite bind_ok by (apply set_next_ok; cbn; by rewrite is_Some_upd_prev).
  erewrite bind_ok by (apply set_prev_ok; cbn; by rewrite is_Some_upd_next, is_Some_upd_prev).
  rewrite set_next_ok; [done|].
  cbn. by rewrite is_Some_upd_prev, is_Some_upd_next, is_Some_upd_prev.
Qed.

(** The last node of the list, the head when it is empty. *)
Lemma path_last ns a l b :
  path ns a l b ->
  exists z, prv ns b = Some z /\ nxt ns z = Some b /\
    ((l = [] /\ z = a) \/ exists l0, l = l0 ++ [z] /\ path ns a l0 z).
Proof.
  destruct l as [|x l _] using rev_ind; intros Hp.
  - exists a. destruct Hp. auto.
  - apply path_app in Hp as [H1 [H2 H3]]. exists x. split_and!; [done|done|]. right. eauto.
Qed.

Lemma list_add_tail_spec new head l s k :
  is_list (k_nodes k) head l -> new ∉ head :: l -> is_Some (k_nodes k !! new) ->
  exists ns', list_add_tail new head s k = Ok (tt, s, with_nodes k ns') /\
    is_list ns' head (l ++ [new]) /\
    forall m, m ∉ head :: l ++ [new] -> nxt ns' m = nxt (k_nodes k) m /\ prv ns' m = prv (k_nodes k) m.
Proof.
  intros [Hnd Hp] Hnew Hs. destruct (path_last _ _ _ _ Hp) as (z & Hz & Hzn & Hl).
  pose proof (prv_is_Some _ _ _ Hz) as Hsh. pose proof (nxt_is_Some _ _ _ Hzn) as Hsz.
  eexists. split; [|split].
  - unfold list_add_tail. erewrite bind_ok by (by apply list_prev_ok).
    by apply list_add_between_ok.
  - assert (z ∈ head :: l) as Hzin by (destruct Hl as [[-> ->]|(l0 & -> & _)]; set_solver).
    assert (z <> new) as Hzne by set_solver. assert (head <> new) as Hhne by set_solver.
    split.
    { rewrite app_comm_cons. apply NoDup_app. split_and!; [done|set_solver|apply NoDup_singleton]. }
    rewrite path_app. split.
    + destruct Hl as [[-> ->]|(l0 & -> & Hp0)].
      * split; links; repeat case_decide; done.
      * apply path_app. apply NoDup_cons in Hnd as [Hh [Hnd1 [Hnd2 _]]%NoDup_app]. split.
        -- eapply path_mono; [exact Hp0| |]; intros x Hx; links; repeat case_decide; set_solver.
        -- split; links; repeat case_decide; done.
    + split; links; repeat case_decide; congruence.
  - intros m Hm. assert (z ∈ head :: l) as Hzin by (destruct Hl as [[-> ->]|(l0 & -> & _)]; set_solver).
    links. repeat case_decide; set_solver.
Qed.

(** The first node of the list, the end when it is empty. *)
Lemma path_first ns a l b :
  path ns a l b ->
  exists y, nxt ns a = Some y /\ prv ns y = Some a /\
    ((l = [] /\ y = b) \/ exists l0, l = y :: l0 /\ path ns y l0 b).
Proof.
  destruct l as [|y l]; cbn.
  - intros []. exists b. auto.
  - intros [[] ?]. exists y. eauto 8.
Qed.

Lemma list_del_spec x head l1 l2 s k :
  is_list (k_nodes k) head (l1 ++ x :: l2) ->
  exists ns', list_del x s k = Ok (tt, s, with_nodes k ns') /\
    is_list ns' head (l1 ++ l2) /\
    forall m, m ∉ head :: l1 ++ x :: l2 ->
      nxt ns' m = nxt (k_nodes k) m /\ prv ns' m = prv (k_nodes k) m.
Proof.
  intros [Hnd [Hp1 Hp2]%path_app].
  destruct (path_last _ _ _ _ Hp1) as (z & Hz & Hzn & Hl1).
  destruct (path_first _ _ _ _ Hp2) as (y & Hy & Hyp & Hl2).
  assert (is_Some (k_nodes k !! z) /\ is_Some (k_nodes k !! y)) as [Hsz Hsy]
    by eauto using nxt_is_Some, prv_is_Some.
  assert (z ∈ head :: l1) as Hzin by (destruct Hl1 as [[-> ->]|(? & -> & _)]; set_solver).
  assert (y ∈ head :: l2) as Hyin by (destruct Hl2 as [[-> ->]|(? & -> & _)]; set_solver).
  pose proof Hnd as [Hhead [Hnd1 [Hdis [Hx Hnd2]%NoDup_cons]]%NoDup_app]%NoDup_cons.
  assert (x <> z /\ x <> y /\ x <> head) as (Hxz & Hxy & Hxh) by set_solver.
  exists (delete x (upd_next z y (upd_prev y z (k_nodes k)))). split; [|split].
  - unfold list_del. assert (node x s k = Ok ((y, z), s, k)) as Hnode.
    { unfold nxt in Hy. unfold prv in Hz. unfold node, mbind, M_bind, kgets. cbn.
      destruct (k_nodes k !! x) as [[]|]; cbn in *; [by simplify_eq|done]. }
    erewrite bind_ok by exact Hnode. cbn [fst snd].
    erewrite bind_ok by (by apply set_prev_ok).
    erewrite bind_ok by (apply set_next_ok; cbn; by rewrite is_Some_upd_prev). done.
  - split.
    { apply NoDup_cons. split; [set_solver|]. apply NoDup_app. split_and!; [done|set_solver|done]. }
    destruct Hl1 as [[-> ->]|(l10 & -> & Hp1')], Hl2 as [[-> ->]|(l20 & -> & Hp2')]; cbn [app].
    + split; rewrite ?nxt_delete, ?prv_delete by done; links; repeat case_decide; done.
    + split; [split; rewrite ?nxt_delete, ?prv_delete by done; links; repeat case_decide; done|].
      apply NoDup_cons in Hnd2 as [Hy1 Hnd3].
      eapply path_mono; [exact Hp2'| |]; intros m Hm; rewrite ?nxt_delete, ?prv_delete by set_solver;
        links; repeat case_decide; set_solver.
    + rewrite app_nil_r. apply path_app. split.
      * apply NoDup_app in Hnd1 as (Hnd10 & Hd10 & _).
        eapply path_mono; [exact Hp1'| |]; intros m Hm; rewrite ?nxt_delete, ?prv_delete by set_solver;
        links; repeat case_decide; set_solver.
      * split; rewrite ?nxt_delete, ?prv_delete by done; links; repeat case_decide; done.
    + rewrite <- app_assoc. cbn [app]. rewrite path_app. cbn [path].
      apply NoDup_app in Hnd1 as (Hnd10 & Hd10 & _). apply NoDup_cons in Hnd2 as [Hy1 Hnd3].
      split_and!.
      * eapply path_mono; [exact Hp1'| |]; intros m Hm; rewrite ?nxt_delete, ?prv_delete by set_solver;
        links; repeat case_decide; set_solver.
      * split; rewrite ?nxt_delete, ?prv_delete by done; links; repeat case_decide; done.
      * eapply path_mono; [exact Hp2'| |]; intros m Hm; rewrite ?nxt_delete, ?prv_delete by set_solver;
        links; repeat case_decide; set_solver.
  - intros m Hm. rewrite nxt_delete, prv_delete by set_solver. links.
    repeat case_decide; set_solver.
Qed.

(** ** Walks *)

Fixpoint walk (body : positive -> M St bool) (l : list positive) : M St unit :=
  match l with
  | [] => mret tt
  | x :: l' => stop ← body x; if stop : bool then mret tt else walk body l'
  end.

Fixpoint walk_safe {A} (body : positive -> A -> M St (A * bool)) (l : list positive) (acc : A)
    : M St A :=
  match l with
  | [] => mret acc
  | x :: l' => r ← body x acc; if r.2 : bool then mret r.1 else walk_safe body l' r.1
  end.

Lemma is_list_next ns head l1 x l2 :
  is_list ns head (l1 ++ x :: l2) -> nxt ns x = Some (hd head l2) /\ x <> head.
Proof.
  intros [Hnd [_ Hp]%path_app]. split; [|intros ->; apply NoDup_cons in Hnd; set_solver].
  destruct l2; cbn in Hp |- *; [by destruct Hp|by destruct Hp as [[]]].
Qed.

Lemma is_list_first ns head l : is_list ns head l -> nxt ns head = Some (hd head l).
Proof. intros [_ Hp]. destruct l; cbn in *; [by destruct Hp|by destruct Hp as [[]]]. Qed.

Lemma is_list_length ns head l : is_list ns head l -> (S (length l) <= size ns)%nat.
Proof.
  intros [Hnd Hp]. change (S (length l)) with (length (head :: l)).
  rewrite <- (size_list_to_set (C := gset positive)) by done. rewrite <- size_dom.
  apply subseteq_size. intros x Hx%elem_of_list_to_set. apply elem_of_dom.
  by eapply path_elem.
Qed.

Lemma for_each_walk head l body s k :
  is_list (k_nodes k) head l ->
  (forall x s1 k1 s2 k2, x ∈ l -> is_list (k_nodes k1) head l ->
     body x s1 k1 = Ok (false, s2, k2) -> is_list (k_nodes k2) head l) ->
  list_for_each head body s k = walk body l s k.
Proof.
  intros Hl Hbody.
  assert (forall l2 l1 fuel s1 k1, l = l1 ++ l2 -> (length l2 < fuel)%nat ->
    is_list (k_nodes k1) head l ->
    list_for_each_loop fuel head (hd head l2) body s1 k1 = walk body l2 s1 k1) as Hloop.
  { induction l2 as [|x l2 IH]; intros l1 fuel s1 k1 -> Hf Hl1;
      (destruct fuel as [|fuel]; [cbn in Hf; lia|]); cbn.
    - by rewrite decide_True.
    - destruct (is_list_next _ _ _ _ _ Hl1) as [Hn Hx]. rewrite decide_False by done.
      unfold mbind, M_bind. destruct (body x s1 k1) as [[[[] s2] k2]|] eqn:E; [done| |done].
      assert (is_list (k_nodes k2) head (l1 ++ x :: l2)) as Hl2
        by (eapply Hbody; [|exact Hl1|exact E]; set_solver).
      rewrite (list_next_ok x (hd head l2)) by by eapply is_list_next.
      apply (IH (l1 ++ [x])); [by rewrite <- app_assoc|cbn in Hf; lia|done]. }
  pose proof (is_list_length _ _ _ Hl).
  unfold list_for_each, node_count. erewrite bind_ok by reflexivity.
  erewrite bind_ok by (apply list_next_ok, is_list_first, Hl).
  apply (Hloop l []); [done|lia|done].
Qed.

Lemma for_each_safe_walk {A} head l (body : positive -> A -> M St (A * bool)) acc s k :
  is_list (k_nodes k) head l ->
  (forall x acc s1 k1 a s2 k2, x ∈ l -> is_list (k_nodes k1) head l ->
     body x acc s1 k1 = Ok ((a, false), s2, k2) -> is_list (k_nodes k2) head l) ->
  list_for_each_safe head acc body s k = walk_safe body l acc s k.
Proof.
  intros Hl Hbody.
  assert (forall l2 l1 fuel acc s1 k1, l = l1 ++ l2 -> (length l2 < fuel)%nat ->
    is_list (k_nodes k1) head l ->
    list_for_each_safe_loop fuel head (hd head l2) acc body s1 k1 = walk_safe body l2 acc s1 k1) as Hloop.
  { induction l2 as [|x l2 IH]; intros l1 fuel acc0 s1 k1 -> Hf Hl1;
      (destruct fuel as [|fuel]; [cbn in Hf; lia|]); cbn.
    - by rewrite decide_True.
    - destruct (is_list_next _ _ _ _ _ Hl1) as [Hn Hx]. rewrite decide_False by done.
      erewrite bind_ok by by apply list_next_ok.
      unfold mbind, M_bind. destruct (body x acc0 s1 k1) as [[[[a []] s2] k2]|] eqn:E; [done| |done].
      apply (IH (l1 ++ [x])); [by rewrite <- app_assoc|cbn in Hf; lia|].
      eapply Hbody; [|exact Hl1|exact E]; set_solver. }
  pose proof (is_list_length _ _ _ Hl).
  unfold list_for_each_safe, node_count. erewrite bind_ok by reflexivity.
  erewrite bind_ok by (apply list_next_ok, is_list_first, Hl).
  apply (Hloop l []); [done|lia|done].
Qed.
End lists.
