(* ===== verification/FilterProps.v ===== *)
(** * Filter hooks

    Registration, the order of the filters' callbacks, and what probing and
    removing filters do not do although their names say so. *)
From S2P Require Import Prelude Kernel Wire Event EventProps XferProps Filters ListProps.

(** ** The hooks *)

Lemma locked_run {S A} (l : lock) (m : M S A) s k a s' k' :
  l ∉ k_locks k -> m s (k <| k_locks := l :: k_locks k |>) = Ok (a, s', k') ->
  k_locks k' = l :: k_locks k ->
  (spin_lock l;; a ← m; spin_unlock l;; mret a) s k =
    Ok (a, s', k' <| k_locks := k_locks k |>).
Proof.
  intros Hl Hm Hk. erewrite bind_ok by (unfold spin_lock; by rewrite decide_False).
  erewrite bind_ok by exact Hm. unfold mbind, M_bind, spin_unlock.
  rewrite decide_True by (rewrite Hk; set_solver). by rewrite Hk, remove_id_relock.
Qed.

(** The filter drivers registered so far, in order. *)
Definition registered (k : kernel) (l : list positive) : Prop :=
  is_list (k_nodes k) usbip_filters_list l.

(** Registering a filter driver appends it to the global list, and nothing
    else of the kernel changes. *)
Theorem filter_register_appends {St : Type} drv l (s : St) k :
  registered k l -> drv ∉ usbip_filters_list :: l ->
  is_Some (k_nodes k !! drv) -> LockDrivers ∉ k_locks k ->
  exists ns', usbip_filter_register drv s k = Ok (tt, s, with_nodes k ns') /\
    registered (with_nodes k ns') (l ++ [drv]).
Proof.
  intros Hl Hd Hs Hlk. set (k0 := k <| k_locks := LockDrivers :: k_locks k |>).
  destruct (list_add_tail_spec drv usbip_filters_list l s k0 Hl Hd Hs) as (ns' & Hrun & Hl' & _).
  exists ns'. split; [|done]. unfold usbip_filter_register.
  erewrite bind_ok by (unfold spin_lock; by rewrite decide_False). fold k0.
  erewrite bind_ok by exact Hrun. unfold spin_unlock. cbn.
  rewrite decide_True by set_solver. rewrite remove_id_relock by done. by destruct k.
Qed.

(** Unregistering a driver takes exactly it out of the global list. *)
Theorem filter_unregister_removes {St : Type} drv l1 l2 (s : St) k :
  registered k (l1 ++ drv :: l2) -> LockDrivers ∉ k_locks k ->
  exists ns', usbip_filter_unregister drv s k = Ok (tt, s, with_nodes k ns') /\
    registered (with_nodes k ns') (l1 ++ l2).
Proof.
  intros Hl Hlk. set (k0 := k <| k_locks := LockDrivers :: k_locks k |>).
  destruct (list_del_spec drv usbip_filters_list l1 l2 s k0 Hl) as (ns' & Hrun & Hl' & _).
  exists ns'. split; [|done]. unfold usbip_filter_unregister.
  erewrite bind_ok by (unfold spin_lock; by rewrite decide_False). fold k0.
  set (body := fun pos => if decide (pos = drv) then list_del pos;; mret true else mret false).
  assert (walk body (l1 ++ drv :: l2) s k0 = Ok (tt, s, with_nodes k0 ns')) as Hwalk.
  { assert (drv ∉ l1) as Hn.
    { destruct Hl as [Hnd _]. apply NoDup_cons in Hnd as [_ [_ [Hd _]]%NoDup_app]. set_solver. }
    clear Hl Hl'. induction l1 as [|x l1 IH]; cbn [app walk].
    - rewrite (bind_ok _ _ _ _ true s (with_nodes k0 ns')); [done|]. subst body; cbv beta.
      rewrite decide_True by done. by erewrite bind_ok by exact Hrun.
    - apply not_elem_of_cons in Hn as [Hx Hn].
      rewrite (bind_ok _ _ _ _ false s k0); [exact (IH Hn)|]. subst body; cbv beta.
      by rewrite decide_False by (intros ->; done). }
  erewrite bind_ok.
  2: { rewrite (for_each_walk _ (l1 ++ drv :: l2)); [exact Hwalk|done|].
       intros x s1 k1 s2 k2 _ Hl1. subst body; cbv beta. case_decide.
       - unfold mbind, M_bind. destruct (list_del x s1 k1) as [[[]]|]; done.
       - by intros [= -> ->]. }
  unfold spin_unlock. cbn. rewrite decide_True by set_solver.
  rewrite remove_id_relock by done. by destruct k.
Qed.

Section hooks.
Context `{Env} {St : Type} `{HasUd St} `{FilterDrivers St}.

(** The filters' callbacks, in order, until one returns a nonzero value. *)
Fixpoint first_hook (hook : usbip_filter_driver St -> option (positive -> M St Z))
    (l : list positive) : M St Z :=
  match l with
  | [] => mret 0
  | f :: l' =>
      filter ← get_filter f;
      d ← get_driver (f_drv filter);
      match hook d with
      | None => first_hook hook l'
      | Some h => ret ← h f; if ret =? 0 then first_hook hook l' else mret ret
      end
  end.

Definition hook_body (hook : usbip_filter_driver St -> option (positive -> M St Z))
    (pos : positive) (ret : Z) : M St (Z * bool) :=
  filter ← get_filter pos;
  d ← get_driver (f_drv filter);
  match hook d with
  | None => mret (ret, false)
  | Some h => ret ← h pos; mret (ret, negb (ret =? 0))
  end.

Lemma walk_hooks hook l s k :
  walk_safe (hook_body hook) l 0 s k = first_hook hook l s k.
Proof.
  revert s k; induction l as [|f l IH]; intros s k; [done|]. cbn [walk_safe first_hook].
  unfold hook_body, mbind, M_bind.
  destruct (get_filter f s k) as [[[fl s1] k1]|]; [|done].
  destruct (get_driver (f_drv fl) s1 k1) as [[[d s2] k2]|]; [|done].
  destruct (hook d) as [h|]; [|apply IH].
  destruct (h f s2 k2) as [[[ret s3] k3]|]; [|done]. cbn.
  destruct (ret =? 0) eqn:E; bool_to_prop; cbn; [|done]. subst. apply IH.
Qed.

Lemma hook_body_nodes (P : kernel -> Prop) hook f ret s k a s' k' :
  (forall p d h s k a s' k', filter_drivers !! p = Some d -> hook d = Some h -> P k ->
     h f s k = Ok (a, s', k') -> P k') ->
  P k -> hook_body hook f ret s k = Ok (a, s', k') -> P k'.
Proof.
  intros Hh HP. unfold hook_body, mbind, M_bind.
  destruct (get_filter f s k) as [[[fl s1] k1]|] eqn:E1; [|done].
  assert (k1 = k) as ->.
  { unfold get_filter, mbind, M_bind, gets in E1.
    destruct (_ !! f); cbn in E1; [by injection E1|done]. }
  destruct (get_driver (f_drv fl) s1 k) as [[[d s2] k2]|] eqn:E2; [|done].
  assert (k2 = k) as ->.
  { unfold get_driver in E2. destruct (_ !! f_drv fl); cbn in E2; [by injection E2|done]. }
  assert (filter_drivers !! f_drv fl = Some d) as Hd.
  { unfold get_driver in E2. destruct (_ !! f_drv fl); cbn in E2; [by injection E2 as ->|done]. }
  destruct (hook d) as [h|] eqn:Ed; [|by intros [= _ _ ->]].
  destruct (h f s2 k) as [[[ret' s3] k3]|] eqn:E3; [|done].
  intros [= _ _ ->]. by eapply Hh.
Qed.

Lemma list_for_each_safe_ext {A} head (acc : A) body body' (s : St) k :
  (forall x acc s k, body x acc s k = body' x acc s k) ->
  list_for_each_safe head acc body s k = list_for_each_safe head acc body' s k.
Proof.
  intros He.
  assert (forall fuel pos acc s k, list_for_each_safe_loop fuel head pos acc body s k =
          list_for_each_safe_loop fuel head pos acc body' s k) as Hl.
  { induction fuel as [|fuel IH]; intros pos acc0 s0 k0; cbn; [done|]. case_decide; [done|].
    unfold mbind, M_bind. destruct (list_next pos s0 k0) as [[[n s1] k1]|]; [|done].
    rewrite He. destruct (body' pos acc0 s1 k1) as [[[[a b] s2] k2]|]; [|done]. cbn.
    destruct b; [done|apply IH]. }
  unfold list_for_each_safe, mbind, M_bind. destruct (node_count s k) as [[[n s1] k1]|]; [|done].
  destruct (list_next head s1 k1) as [[[m s2] k2]|]; [|done]. apply Hl.
Qed.

Lemma on_hooks hook body l s k :
  (forall x acc s k, body x acc s k = hook_body hook x acc s k) ->
  let k0 := k <| k_locks := LockUdFilter ud_owner :: k_locks k |> in
  is_list (k_nodes k) (ud_filters (the_ud s)) l -> LockUdFilter ud_owner ∉ k_locks k ->
  (forall p d h f s k a s' k', filter_drivers !! p = Some d -> hook d = Some h ->
     h f s k = Ok (a, s', k') -> k_nodes k' = k_nodes k) ->
  (spin_lock (LockUdFilter ud_owner);;
   filters ← gets (fun s => ud_filters (the_ud s));
   ret ← list_for_each_safe filters 0 body;
   spin_unlock (LockUdFilter ud_owner);;
   mret ret) s k =
  (ret ← first_hook hook l; spin_unlock (LockUdFilter ud_owner);; mret ret) s k0.
Proof.
  intros Hbd k0 Hl Hlk Hh. erewrite bind_ok by (unfold spin_lock; by rewrite decide_False).
  fold k0. erewrite bind_ok by reflexivity. cbv beta.
  assert (list_for_each_safe (ud_filters (the_ud s)) 0 body s k0 =
          first_hook hook l s k0) as Hw.
  { rewrite (list_for_each_safe_ext _ _ _ (hook_body hook)) by done.
    rewrite (for_each_safe_walk _ l); [apply walk_hooks|done|].
    intros x acc s1 k1 a s2 k2 _ Hl1 Hb.
    refine (hook_body_nodes (fun k => is_list (k_nodes k) _ l) _ _ _ _ _ _ _ _ _ Hl1 Hb).
    intros p d h s3 k3 a3 s4 k4 Hp Hd Hl3 Hrun. by rewrite (Hh _ _ _ _ _ _ _ _ _ Hp Hd Hrun). }
  unfold mbind at 1 3, M_bind. by rewrite Hw.
Qed.
End hooks.

(** With no filter attached every URB passes. *)
Definition no_filters {St} `{HasUd St} (s : St) (k : kernel) : Prop :=
  is_list (k_nodes k) (ud_filters (the_ud s)) [] /\ LockUdFilter ud_owner ∉ k_locks k.

Lemma no_filters_pass {St} `{HasUd St} `{FilterDrivers St} pdu u (s : St) k :
  no_filters s k ->
  usbip_filter_on_rx pdu u s k = Ok (0, s, k) /\ usbip_filter_on_tx u s k = Ok (0, s, k).
Proof.
  intros [Hl Hlk].
  assert (forall body, (spin_lock (LockUdFilter ud_owner);;
     filters ← gets (fun s => ud_filters (the_ud s));
     ret ← list_for_each_safe filters 0 body;
     spin_unlock (LockUdFilter ud_owner);; mret ret) s k = Ok (0, s, k)) as Hrun.
  { intros body. erewrite bind_ok by (unfold spin_lock; by rewrite decide_False).
    erewrite bind_ok by reflexivity. cbv beta.
    erewrite bind_ok by (rewrite (for_each_safe_walk _ []); [reflexivity|exact Hl|];
      intros x acc s1 k1 a s2 k2 Hx; by apply not_elem_of_nil in Hx).
    unfold mbind, M_bind, spin_unlock. rewrite decide_True by (cbn; set_solver). cbn.
    rewrite remove_id_relock by done. by destruct k. }
  split; apply Hrun.
Qed.

(** The hooks see the filters attached to the device in order, under the
    device's filter lock, and stop at the first that claims the URB; with no
    filter attached an URB passes and nothing changes. *)
Theorem filter_hooks_order {St} `{HasUd St} `{FilterDrivers St} pdu u l (s : St) k :
  let k0 := k <| k_locks := LockUdFilter ud_owner :: k_locks k |> in
  let on_rx d := (fun h f => h f pdu u) <$> drv_on_rx d in
  let on_tx d := (fun h f => h f u) <$> drv_on_tx d in
  let unlocked (m : M St Z) := ret ← m; spin_unlock (LockUdFilter ud_owner);; mret ret in
  is_list (k_nodes k) (ud_filters (the_ud s)) l -> LockUdFilter ud_owner ∉ k_locks k ->
  (forall p d h f s k a s' k', filter_drivers !! p = Some d ->
     on_rx d = Some h \/ on_tx d = Some h -> h f s k = Ok (a, s', k') -> k_nodes k' = k_nodes k) ->
  usbip_filter_on_rx pdu u s k = unlocked (first_hook on_rx l) s k0 /\
  usbip_filter_on_tx u s k = unlocked (first_hook on_tx l) s k0 /\
  (l = [] -> usbip_filter_on_rx pdu u s k = Ok (0, s, k) /\
             usbip_filter_on_tx u s k = Ok (0, s, k)).
Proof.
  intros k0 on_rx on_tx unlocked Hl Hlk Hh.
  assert (usbip_filter_on_rx pdu u s k = unlocked (first_hook on_rx l) s k0) as Hrx.
  { unfold unlocked, k0. erewrite <- on_hooks; [reflexivity| |done|done|].
    - intros x acc s1 k1. unfold hook_body, mbind, M_bind.
      destruct (get_filter x s1 k1) as [[[fl s2] k2]|]; [|done].
      destruct (get_driver (f_drv fl) s2 k2) as [[[d s3] k3]|]; [|done].
      unfold on_rx. by destruct (drv_on_rx d).
    - eauto. }
  assert (usbip_filter_on_tx u s k = unlocked (first_hook on_tx l) s k0) as Htx.
  { unfold unlocked, k0. erewrite <- on_hooks; [reflexivity| |done|done|].
    - intros x acc s1 k1. unfold hook_body, mbind, M_bind.
      destruct (get_filter x s1 k1) as [[[fl s2] k2]|]; [|done].
      destruct (get_driver (f_drv fl) s2 k2) as [[[d s3] k3]|]; [|done].
      unfold on_tx. by destruct (drv_on_tx d).
    - eauto. }
  assert (l = [] -> forall hook, unlocked (first_hook hook l) s k0 = Ok (0, s, k)) as Hnil.
  { intros -> hook. unfold unlocked. cbn [first_hook]. erewrite bind_ok by reflexivity.
    unfold mbind, M_bind, spin_unlock. rewrite decide_True by (cbn; set_solver). cbn.
    rewrite remove_id_relock by done. by destruct k. }
  split_and!; [done|done|]. intros ->. by rewrite Hrx, Htx, !Hnil.
Qed.

(** ** What the hooks do not do *)

Lemma list_for_each_single {St} head d body (s s' : St) k k' :
  is_list (k_nodes k) head [d] -> body d s k = Ok (false, s', k') ->
  is_list (k_nodes k') head [d] -> list_for_each head body s k = Ok (tt, s', k').
Proof.
  intros Hl Hb Hl'. pose proof (is_list_length _ _ _ Hl) as Hsz. cbn in Hsz.
  unfold list_for_each, node_count. erewrite bind_ok by reflexivity.
  erewrite bind_ok by (apply list_next_ok, is_list_first, Hl). cbn [hd].
  destruct (size (k_nodes k)) as [|[|n]]; [lia|lia|].
  destruct (is_list_next _ _ [] _ _ Hl) as [_ Hne].
  destruct (is_list_next _ _ [] _ _ Hl') as [Hn _].
  cbn [list_for_each_loop]. rewrite decide_False by done.
  erewrite bind_ok by exact Hb. cbv iota. erewrite bind_ok by (apply list_next_ok, Hn).
  cbn. by rewrite decide_True.
Qed.

Lemma is_list_frame ns ns' head l :
  is_list ns head l ->
  (forall m, m ∈ head :: l -> nxt ns' m = nxt ns m /\ prv ns' m = prv ns m) -> is_list ns' head l.
Proof.
  intros [Hnd Hp] Hf. split; [done|].
  eapply path_mono; [exact Hp| |]; intros m Hm; apply Hf; set_solver.
Qed.

Lemma is_list_rotate ns a b : is_list ns a [b] -> is_list ns b [a].
Proof.
  intros [Hnd [H1 H2]]. split; [|done].
  apply NoDup_cons in Hnd as [Hn _]. apply NoDup_cons. split; [set_solver|apply NoDup_singleton].
Qed.

Lemma alloc_filter_ok `{Env} {St} (s : St) k :
  (env_answer (k_trace k) (CMalloc 40)).1 <> 0 ->
  alloc_filter s k = Ok (Some (k_next k), s,
    k <| k_trace := CMalloc 40 :: k_trace k |> <| k_next := Pos.succ (k_next k) |>).
Proof.
  intros Ha. unfold alloc_filter. erewrite bind_ok by reflexivity.
  by rewrite (proj2 (Z.eqb_neq _ _) Ha).
Qed.

(** attaching a filter passes the list and the new entry to [list_add_tail]
    in the wrong order: whatever filters the device had, after a probe only
    the new one is reachable from its list, and the hooks see no other. *)
Theorem filter_probe_forgets `{Env} {St} `{HasUd St} `{FilterDrivers St}
    d drv probe priv intf l (s : St) k :
  let head := ud_filters (the_ud s) in
  let a := k_next k in
  registered k [d] -> is_list (k_nodes k) head l ->
  (forall m, m ∈ [usbip_filters_list; d] -> m ∉ [head; a]) ->
  k_nodes k !! a = None -> LockDrivers ∉ k_locks k -> LockUdFilter ud_owner ∉ k_locks k ->
  filter_drivers !! d = Some drv -> drv_probe drv = Some probe ->
  (forall s k, probe intf s k = Ok (priv, s, k)) -> priv <> 0 ->
  (env_answer (k_trace k) (CMalloc 40)).1 <> 0 ->
  exists s' k', usbip_filter_probe intf s k = Ok (tt, s', k') /\
    ud_filters (the_ud s') = head /\ is_list (k_nodes k') head [a] /\
    ud_filter_objs (the_ud s') !! a = Some (mkFilter d priv).
Proof.
  intros head a Hd Hl Hdis Hfresh HL1 HL2 Hdrv Hpr Hprobe Hpriv Hmal.
  set (k1 := k <| k_locks := LockDrivers :: LockUdFilter ud_owner :: k_locks k |>).
  set (k2 := k1 <| k_trace := CMalloc 40 :: k_trace k |> <| k_next := Pos.succ a |>
                <| k_nodes := <[a := (a, a)]> (k_nodes k) |>).
  set (s2 := put_ud ((the_ud s) <| ud_filter_objs :=
    partial_alter (fun _ => Some (mkFilter d priv)) a (ud_filter_objs (the_ud s)) |>) s).
  assert (head <> a) as Hha.
  { intros E. destruct Hl as [_ Hp]. eapply (path_elem _ _ _ _ head) in Hp; [|set_solver].
    rewrite E, Hfresh in Hp. by destruct Hp. }
  assert (is_list (k_nodes k2) a []) as Ha.
  { split; [apply NoDup_singleton|]. split; unfold nxt, prv; cbn; by rewrite lookup_insert_eq. }
  assert (is_Some (k_nodes k2 !! head)) as Hh.
  { cbn. rewrite lookup_insert_ne by done. destruct Hl as [_ Hp].
    eapply path_elem; [exact Hp|set_solver]. }
  destruct (list_add_tail_spec head a [] s2 k2 Ha ltac:(set_solver) Hh) as (ns' & Hadd & Hns & Hfr).
  exists s2, (k2 <| k_nodes := ns' |> <| k_locks := k_locks k |>).
  assert (is_list ns' usbip_filters_list [d]) as Hd'.
  { eapply is_list_frame; [exact Hd|]. intros m Hm. specialize (Hdis m Hm).
    destruct (Hfr m ltac:(set_solver)) as [-> ->].
    unfold nxt, prv. cbn. by rewrite lookup_insert_ne by set_solver. }
  split; [|split; [|split]].
  - unfold usbip_filter_probe.
    erewrite bind_ok by (unfold spin_lock; by rewrite decide_False).
    erewrite bind_ok by (unfold spin_lock; rewrite decide_False; [done|set_solver]).
    match goal with |- context [(_ ≫= _) s ?x] => change x with k1 end.
    rewrite (bind_ok _ _ s k1 tt s2 (with_nodes k2 ns')).
    2: { apply (list_for_each_single _ d); [exact Hd| |exact Hd'].
         erewrite bind_ok by (unfold get_driver; by rewrite Hdrv). rewrite Hpr.
         erewrite bind_ok by apply Hprobe. rewrite (proj2 (Z.eqb_neq _ _) Hpriv).
         erewrite bind_ok by (by apply alloc_filter_ok). cbv iota.
         erewrite bind_ok by reflexivity. erewrite bind_ok by reflexivity.
         erewrite bind_ok by reflexivity.
         erewrite bind_ok; [reflexivity|]. rewrite the_put_ud. exact Hadd. }
    unfold mbind, M_bind, spin_unlock. rewrite decide_True by set_solver. cbn.
    rewrite decide_True; rewrite remove_id_relock by set_solver; [|set_solver].
    by rewrite remove_id_relock.
  - unfold s2. by rewrite the_put_ud.
  - by apply is_list_rotate.
  - unfold s2. rewrite the_put_ud. cbn. by rewrite lookup_partial_alter_eq.
Qed.

Definition filters_gone {St} `{HasUd St} (l : list positive) (s : St) : St :=
  put_ud ((the_ud s) <| ud_filter_objs := foldr delete (ud_filter_objs (the_ud s)) l |>) s.

Lemma put_filter_none {St} `{HasUd St} f (s : St) k :
  put_filter f None s k = Ok (tt, put_ud ((the_ud s) <| ud_filter_objs := delete f (ud_filter_objs (the_ud s)) |>) s, k).
Proof. done. Qed.

Lemma foldr_delete_comm {A} (f : positive) l (m : gmap positive A) :
  foldr delete (delete f m) l = foldr delete m (f :: l).
Proof.
  induction l as [|x l IH]; [done|]. cbn [foldr] in *. rewrite IH. apply delete_delete.
Qed.

(** The loop body of the removal, for a driver that is not NULL. *)
Definition remove_body {St} `{HasUd St} `{FilterDrivers St} (d : positive)
    (pos : positive) (_ : unit) : M St (unit * bool) :=
  filter ← get_filter pos;
  if bool_decide (Some d = None) && bool_decide (Some d <> Some (f_drv filter)) then
    mret (tt, false)
  else
    d ← deref (Some d); d ← get_driver d;
    match drv_remove d with Some remove => remove pos | None => mret tt end;;
    list_del pos;;
    put_filter pos None;;
    mret (tt, false).

Lemma remove_body_ok {St} `{HasUd St} `{FilterDrivers St} d drv f fl (s : St) k k' :
  filter_drivers !! d = Some drv -> drv_remove drv = None ->
  ud_filter_objs (the_ud s) !! f = Some fl -> list_del f s k = Ok (tt, s, k') ->
  remove_body d f tt s k = Ok ((tt, false), filters_gone [f] s, k').
Proof.
  intros Hd Hr Hf Hdel. unfold remove_body.
  erewrite bind_ok by (unfold get_filter; erewrite bind_ok by reflexivity; by rewrite Hf).
  rewrite bool_decide_eq_false_2 by done. cbn [andb].
  erewrite bind_ok by reflexivity.
  erewrite bind_ok by (unfold get_driver; by rewrite Hd). rewrite Hr.
  erewrite bind_ok by reflexivity. erewrite bind_ok by exact Hdel.
  by erewrite bind_ok by apply put_filter_none.
Qed.

Lemma filters_gone_nil {St} `{HasUd St} (s : St) : filters_gone [] s = s.
Proof.
  unfold filters_gone.
  transitivity (put_ud (the_ud s) s); [f_equal; cbn; by destruct (the_ud s)|apply put_the_ud].
Qed.

Lemma filters_gone_cons {St} `{HasUd St} f l (s : St) :
  filters_gone l (filters_gone [f] s) = filters_gone (f :: l) s.
Proof.
  unfold filters_gone. rewrite the_put_ud, put_put_ud. f_equal. cbn [set_field set_ud_filter_objs].
  f_equal. apply foldr_delete_comm.
Qed.

Lemma remove_loop {St} `{HasUd St} `{FilterDrivers St} d drv head l (s : St) k fuel :
  filter_drivers !! d = Some drv -> drv_remove drv = None ->
  (length l < fuel)%nat -> is_list (k_nodes k) head l ->
  (forall f, f ∈ l -> is_Some (ud_filter_objs (the_ud s) !! f)) ->
  exists ns', list_for_each_safe_loop fuel head (hd head l) tt (remove_body d) s k =
      Ok (tt, filters_gone l s, with_nodes k ns') /\ is_list ns' head [].
Proof.
  intros Hd Hr. revert s k fuel.
  induction l as [|f l IH]; intros s k [|fuel] Hf Hl Ho; try (cbn in Hf; lia);
    cbn [hd list_for_each_safe_loop].
  - exists (k_nodes k). rewrite decide_True, filters_gone_nil by done. by destruct k.
  - destruct (is_list_next _ _ [] _ _ Hl) as [Hn Hx].
    destruct (list_del_spec f head [] l s k Hl) as (ns' & Hdel & Hl' & _).
    destruct (Ho f ltac:(set_solver)) as [fl Hfl].
    destruct (IH (filters_gone [f] s) (with_nodes k ns') fuel) as (ns2 & Hrun & Hl2);
      [cbn in Hf; lia|done| |].
    { intros f' Hf'. unfold filters_gone. rewrite the_put_ud. cbn.
      destruct Hl as [[_ [Hnf _]%NoDup_cons]%NoDup_cons _].
      rewrite lookup_delete_ne by set_solver. apply Ho. set_solver. }
    exists ns2. split; [|done]. rewrite decide_False by done.
    erewrite bind_ok by (by apply list_next_ok).
    erewrite bind_ok by (by eapply remove_body_ok). cbn [fst snd].
    by rewrite Hrun, filters_gone_cons.
Qed.

(** The condition of the removal is inverted: called with no driver, as on
    disconnect, it removes no filter at all; called with a driver, it removes
    every filter of the device, those of other drivers included. *)
Theorem filter_remove_inverted {St} `{HasUd St} `{FilterDrivers St} d drv l (s : St) k :
  is_list (k_nodes k) (ud_filters (the_ud s)) l -> LockUdFilter ud_owner ∉ k_locks k ->
  (forall f, f ∈ l -> is_Some (ud_filter_objs (the_ud s) !! f)) ->
  filter_drivers !! d = Some drv -> drv_remove drv = None ->
  usbip_filter_remove None s k = Ok (tt, s, k) /\
  exists ns', usbip_filter_remove (Some d) s k = Ok (tt, filters_gone l s, with_nodes k ns') /\
    is_list ns' (ud_filters (the_ud s)) [].
Proof.
  intros Hl Hlk Ho Hd Hr. set (k0 := k <| k_locks := LockUdFilter ud_owner :: k_locks k |>).
  set (head := ud_filters (the_ud s)) in *.
  assert (is_list (k_nodes k0) head l) as Hl0 by exact Hl.
  split; unfold usbip_filter_remove;
    (erewrite bind_ok by (unfold spin_lock; by rewrite decide_False)); fold k0;
    (erewrite bind_ok by reflexivity); fold head.
  - rewrite (bind_ok _ _ s k0 tt s k0).
    { unfold spin_unlock. cbn. rewrite decide_True, remove_id_relock by set_solver. by destruct k. }
    rewrite (for_each_safe_walk _ l); [|done|].
    + clear Hl Hl0. induction l as [|f l IH]; [done|]. cbn [walk_safe].
      destruct (Ho f ltac:(set_solver)) as [fl Hf].
      rewrite (bind_ok _ _ s k0 (tt, false) s k0); [apply IH; intros; apply Ho; set_solver|].
      erewrite bind_ok by (unfold get_filter; erewrite bind_ok by reflexivity; by rewrite Hf).
      done.
    + intros x acc s1 k1 [] s2 k2 _ Hl1. unfold get_filter, mbind, M_bind. cbn.
      destruct (ud_filter_objs (the_ud s1) !! x); [|done]. cbn. by intros [= -> ->].
  - pose proof (is_list_length _ _ _ Hl) as Hsz.
    destruct (remove_loop d drv head l s k0 (S (size (k_nodes k))) Hd Hr) as (ns' & Hrun & Hl');
      [lia|done|done|].
    exists ns'. split; [|done].
    rewrite (bind_ok _ _ s k0 tt (filters_gone l s) (with_nodes k0 ns')).
    { unfold spin_unlock. cbn. rewrite decide_True, remove_id_relock by set_solver. by destruct k. }
    unfold list_for_each_safe, node_count. erewrite bind_ok by reflexivity.
    erewrite bind_ok by (apply list_next_ok, is_list_first, Hl0). exact Hrun.
Qed.

(** ** Samples *)

Definition claiming_driver : usbip_filter_driver usbip_device :=
  mkDriver (Some (fun _ => mret 5)) None None (Some (fun f _ _ => mret (Zpos f))).
Definition one_driver : FilterDrivers usbip_device :=
  ({[ 2%positive := claiming_driver ]} : gmap positive (usbip_filter_driver usbip_device)).

(** Two filters, 20 and 21, are attached at the head 9; driver 2 is registered
    at the global list. *)
Definition filter_kernel : kernel :=
  sample_kernel <| k_nodes := list_to_map
    [(1, (2, 2)); (2, (1, 1)); (9, (20, 21)); (20, (21, 9)); (21, (9, 20)); (3, (3, 3))]%positive |>
    <| k_next := 30%positive |>.
Definition filter_ud : usbip_device :=
  (sample_ud 0) <| ud_filter_objs := list_to_map [(20, mkFilter 2 5); (21, mkFilter 2 5)]%positive |>.

Ltac solve_list :=
  split; [repeat (apply NoDup_cons; split; [set_solver|]); apply NoDup_nil_2 | cbn; repeat split].

Lemma drivers_list : is_list (k_nodes filter_kernel) usbip_filters_list [2%positive].
Proof. solve_list. Qed.
Lemma filters_list : is_list (k_nodes filter_kernel) 9%positive [20; 21]%positive.
Proof. solve_list. Qed.

Lemma filter_register_appends_witness :
  exists ns', @usbip_filter_register unit 3%positive tt filter_kernel
      = Ok (tt, tt, with_nodes filter_kernel ns') /\
    is_list ns' usbip_filters_list [2; 3]%positive.
Proof.
  apply (@filter_register_appends unit 3%positive [2%positive] tt filter_kernel).
  - apply drivers_list.
  - set_solver.
  - eexists. reflexivity.
  - cbn. set_solver.
Defined.

Lemma filter_unregister_removes_witness :
  exists ns', @usbip_filter_unregister unit 2%positive tt filter_kernel
      = Ok (tt, tt, with_nodes filter_kernel ns') /\ is_list ns' usbip_filters_list [].
Proof.
  apply (@filter_unregister_removes unit 2%positive [] [] tt filter_kernel).
  - apply drivers_list.
  - cbn. set_solver.
Defined.

Lemma filter_hooks_order_witness :
  exists k', @usbip_filter_on_rx _ ud_self one_driver header_zero 4%positive filter_ud filter_kernel
    = Ok (20, filter_ud, k').
Proof.
  eexists.
  refine (eq_trans (proj1 (@filter_hooks_order _ ud_self one_driver header_zero 4%positive
    [20; 21]%positive filter_ud filter_kernel filters_list _ _)) _).
  - cbn. set_solver.
  - intros p d h f s k a s' k' Hp Hh Hrun. unfold filter_drivers, one_driver in Hp. apply lookup_singleton_Some in Hp as [_ <-].
    destruct Hh as [Hh|Hh]; cbn in Hh; [|discriminate].
    injection Hh as <-. by injection Hrun as _ _ ->.
  - vm_compute. reflexivity.
Defined.

Lemma filter_probe_forgets_witness :
  exists s' k', @usbip_filter_probe (fun _ _ => (1, [])) _ ud_self one_driver 0 filter_ud filter_kernel
      = Ok (tt, s', k') /\
    is_list (k_nodes k') 9%positive [30%positive].
Proof.
  destruct (@filter_probe_forgets (fun _ _ => (1, [])) _ ud_self one_driver 2%positive
    claiming_driver (fun _ => mret 5) 5 0 [20; 21]%positive filter_ud filter_kernel)
    as (s' & k' & Hrun & _ & Hl & _).
  - apply drivers_list.
  - apply filters_list.
  - cbn. intros m Hm. set_solver.
  - reflexivity.
  - cbn. set_solver.
  - cbn. set_solver.
  - reflexivity.
  - reflexivity.
  - intros s k. reflexivity.
  - discriminate.
  - discriminate.
  - exists s', k'. split; [exact Hrun|exact Hl].
Defined.

Lemma filter_remove_inverted_witness :
  @usbip_filter_remove _ ud_self one_driver None filter_ud filter_kernel
    = Ok (tt, filter_ud, filter_kernel).
Proof.
  refine (proj1 (@filter_remove_inverted _ ud_self one_driver 2%positive claiming_driver
    [20; 21]%positive filter_ud filter_kernel filters_list _ _ eq_refl eq_refl)).
  - cbn. set_solver.
  - intros f Hf. apply elem_of_cons in Hf as [->|Hf]; [eexists; reflexivity|].
    apply list_elem_of_singleton in Hf as ->. eexists; reflexivity.
Defined.
