(* ===== verification/StubProps.v ===== *)
(** * The life of a request on the exporting side

    Every request owns its [stub_priv], its URB and the URB's memory.  Here:
    what the release of a connection frees, that it frees everything and
    nothing else, and what the event handler makes of a closed connection. *)
From S2P Require Import Prelude Kernel Wire Event EventProps Xfer XferProps Filters.
From S2P Require Import Stub StubTx StubMain StubDev.

(** ** Ownership *)

Definition heap : Type := gmap positive (list Z).
(** The objects the requests of a device are made of. *)
Definition store : Type := gmap positive stub_priv * gmap positive urb * gmap positive (list Z).

(** Give back a block: NULL is ignored, anything but the start of a live block
    is not owned. *)
Definition release_ptr (p : option ptr) (h : gmap positive (list Z))
    : option (gmap positive (list Z)) :=
  match p with
  | None => Some h
  | Some (b, off) => _ ← h !! b; if off =? 0 then Some (delete b h) else None
  end.

(** Give back one request: its [stub_priv], its URB and the URB's two blocks. *)
Definition release1 (p : positive) (st : store) : option (positive * store) :=
  let '(privs, urbs, h) := st in
  x ← privs !! p;
  u ← sp_urb x;
  r ← urbs !! u;
  h ← release_ptr (urb_transfer_buffer r) h;
  h ← release_ptr (urb_setup_packet r) h;
  Some (u, (delete p privs, delete u urbs, h)).

(** Give back the requests of a list; the URBs in order, and what is left. *)
Fixpoint release (ps : list positive) (st : store) : option (list positive * store) :=
  match ps with
  | [] => Some ([], st)
  | p :: ps' =>
      '(u, st) ← release1 p st;
      '(us, st) ← release ps' st;
      Some (u :: us, st)
  end.

Definition queued (sd : stub_device) : list positive :=
  sd_priv_init sd ++ sd_priv_tx sd ++ sd_priv_free sd.

#[local] Arguments queued : simpl never.

Definition store_of (sd : stub_device) (k : kernel) : store := (sd_privs sd, k_urbs k, k_heap k).

(** The requests of the device are in exactly one queue each, and each owns
    its objects: all can be given back. *)
Definition stub_wf (sd : stub_device) (k : kernel) : Prop :=
  NoDup (queued sd) /\ is_Some (release (queued sd) (store_of sd k)).

Section cleanup.
Context `{Env}.

Lemma kfree_release {S} p h' (s : S) k :
  release_ptr p (k_heap k) = Some h' -> kfree p s k = Ok (tt, s, k <| k_heap := h' |>).
Proof.
  destruct p as [[b off]|]; cbn; [|intros [= <-]; by destruct k].
  destruct (k_heap k !! b); cbn; [|done]. destruct (off =? 0); [|done]. by intros [= <-].
Qed.

Definition no_requests (privs : gmap positive stub_priv) (sd : stub_device) : stub_device :=
  sd <| sd_privs := privs |> <| sd_priv_init := [] |> <| sd_priv_tx := [] |> <| sd_priv_free := [] |>.

Lemma stub_priv_pop_empty sd k :
  queued sd = [] -> LockPriv 0 ∉ k_locks k -> stub_priv_pop sd k = Ok (None, sd, k).
Proof.
  unfold queued. intros [Hi [Ht Hf]%app_eq_nil]%app_eq_nil Hl. unfold stub_priv_pop.
  erewrite bind_ok by (unfold spin_lock; by rewrite decide_False).
  unfold stub_priv_pop_from_listhead, mbind, M_bind, gets. rewrite Hi; cbn. rewrite Ht; cbn.
  rewrite Hf; cbn. unfold spin_unlock; cbn. rewrite decide_True by set_solver.
  rewrite remove_id_relock by done. by destruct k.
Qed.

Lemma stub_priv_pop_first sd k p ps :
  queued sd = p :: ps -> NoDup (queued sd) -> LockPriv 0 ∉ k_locks k ->
  stub_priv_pop sd k = Ok (Some p, unlink_priv p sd, k) /\ queued (unlink_priv p sd) = ps.
Proof.
  intros Hq Hnd Hl. split.
  - unfold stub_priv_pop. erewrite bind_ok by (unfold spin_lock; by rewrite decide_False).
    unfold stub_priv_pop_from_listhead, mbind, M_bind, gets. unfold queued in Hq.
    destruct (sd_priv_init sd) as [|x i] eqn:Ei; cbn in Hq |- *.
    + destruct (sd_priv_tx sd) as [|y t] eqn:Et; cbn in Hq |- *.
      * destruct (sd_priv_free sd) as [|z f] eqn:Ef; cbn in Hq |- *; [done|].
        simplify_eq. cbn. unfold spin_unlock; cbn. rewrite decide_True by set_solver.
        rewrite remove_id_relock by done. by destruct k.
      * simplify_eq. cbn. unfold spin_unlock; cbn. rewrite decide_True by set_solver.
        rewrite remove_id_relock by done. by destruct k.
    + simplify_eq. cbn. unfold spin_unlock; cbn. rewrite decide_True by set_solver.
      rewrite remove_id_relock by done. by destruct k.
  - rewrite Hq in Hnd. unfold queued in *. cbn.
    assert (forall l1 l2, remove_id p (l1 ++ l2) = remove_id p l1 ++ remove_id p l2) as Happ
      by (intros; apply filter_app).
    rewrite <- !Happ, Hq. by apply remove_id_head.
Qed.

Lemma cleanup_urb_release p u sd k privs urbs h :
  release1 p (store_of sd k) = Some (u, (privs, urbs, h)) ->
  cleanup_urb p sd k =
    Ok (tt, sd <| sd_privs := privs |>,
        k <| k_trace := CKillUrb u :: k_trace k |> <| k_urbs := urbs |> <| k_heap := h |>).
Proof.
  unfold release1, store_of. intros Hr.
  destruct (sd_privs sd !! p) as [x|] eqn:Hp; [|done]. cbn in Hr.
  destruct (sp_urb x) as [u'|] eqn:Hu; [|done]. cbn in Hr.
  destruct (k_urbs k !! u') as [r|] eqn:Hr'; [|done]. cbn in Hr.
  destruct (release_ptr (urb_transfer_buffer r) (k_heap k)) as [h1|] eqn:H1; [|done]. cbn in Hr.
  destruct (release_ptr (urb_setup_packet r) h1) as [h2|] eqn:H2; [|done]. cbn in Hr.
  injection Hr as -> <- <- <-.
  unfold cleanup_urb, get_priv. erewrite bind_ok by (erewrite bind_ok by reflexivity; by rewrite Hp).
  rewrite Hu. erewrite bind_ok by reflexivity.
  unfold free_priv, get_priv.
  erewrite bind_ok by (erewrite bind_ok by (erewrite bind_ok by reflexivity; by rewrite Hp); done).
  erewrite bind_ok by reflexivity.
  erewrite bind_ok by (unfold get_urb; cbn; by rewrite Hr').
  erewrite bind_ok by (apply kfree_release; exact H1).
  erewrite bind_ok by (apply kfree_release; exact H2).
  unfold usb_free_urb. cbn. by rewrite Hr'.
Qed.

Definition kills (us : list positive) : list call := reverse (CKillUrb <$> us).
#[local] Arguments kills : simpl never.

Lemma kills_cons u us : kills (u :: us) = kills us ++ [CKillUrb u].
Proof. unfold kills. by rewrite fmap_cons, reverse_cons. Qed.

Lemma cleanup_loop_release fuel sd k us privs urbs h :
  NoDup (queued sd) -> release (queued sd) (store_of sd k) = Some (us, (privs, urbs, h)) ->
  (length (queued sd) < fuel)%nat -> LockPriv 0 ∉ k_locks k ->
  cleanup_urbs_loop fuel sd k =
    Ok (tt, no_requests privs sd,
        k <| k_trace := kills us ++ k_trace k |> <| k_urbs := urbs |> <| k_heap := h |>).
Proof.
  revert sd k us. induction fuel as [|fuel IH]; intros sd k us Hnd Hr Hf Hl; [lia|].
  cbn [cleanup_urbs_loop]. destruct (queued sd) as [|p ps] eqn:Hq.
  - erewrite bind_ok by (by apply stub_priv_pop_empty). cbn in Hr. injection Hr as <- <- <- <-.
    unfold queued in Hq. apply app_eq_nil in Hq as [Hi [Ht Hfr]%app_eq_nil].
    destruct sd, k; cbn in *; by subst.
  - cbn [release] in Hr.
    destruct (release1 p (store_of sd k)) as [[u [[privs1 urbs1] h1]]|] eqn:H1; [|done].
    cbn in Hr. destruct (release ps (privs1, urbs1, h1)) as [[us' st']|] eqn:H2; [|done].
    cbn in Hr. injection Hr as <- ->. rewrite <- Hq in Hnd.
    destruct (stub_priv_pop_first sd k p ps Hq Hnd Hl) as [Hpop Hq'].
    erewrite bind_ok by exact Hpop. cbv beta iota. erewrite bind_ok by (apply cleanup_urb_release; exact H1).
    rewrite (IH _ _ us'); cbn.
    + do 2 f_equal. destruct sd, k; cbn. rewrite kills_cons, <- app_assoc. done.
    + change (queued _) with (queued (unlink_priv p sd)). rewrite Hq'.
      rewrite Hq in Hnd. by apply NoDup_cons in Hnd as [_ ?].
    + change (queued _) with (queued (unlink_priv p sd)). by rewrite Hq'.
    + change (queued _) with (queued (unlink_priv p sd)). rewrite Hq'. cbn in Hf. lia.
    + done.
Qed.

Lemma cleanup_urbs_release sd k us privs urbs h :
  NoDup (queued sd) -> release (queued sd) (store_of sd k) = Some (us, (privs, urbs, h)) ->
  LockPriv 0 ∉ k_locks k ->
  stub_device_cleanup_urbs sd k =
    Ok (tt, no_requests privs sd,
        k <| k_trace := kills us ++ k_trace k |> <| k_urbs := urbs |> <| k_heap := h |>).
Proof.
  intros Hnd Hr Hl. unfold stub_device_cleanup_urbs. erewrite bind_ok by reflexivity.
  apply cleanup_loop_release; [done|done| |done].
  unfold queued. rewrite !length_app. lia.
Qed.

(** ** Shutdown *)

(** The device after a shutdown, given what the release left of its requests. *)
Definition shut_down (privs : gmap positive stub_priv) (sd : stub_device) : stub_device :=
  (no_requests privs sd) <| sd_ud := disconnected (sd_ud sd) |>
    <| sd_unlink_tx := [] |> <| sd_unlink_free := [] |>.

#[local] Arguments stub_device_cleanup_urbs : simpl never.

Lemma stub_shutdown_run sd k us privs urbs h :
  stub_wf sd k -> release (queued sd) (store_of sd k) = Some (us, (privs, urbs, h)) ->
  ud_tcp_rx (sd_ud sd) <> ThreadErr -> ud_tcp_tx (sd_ud sd) <> ThreadErr ->
  LockPriv 0 ∉ k_locks k ->
  stub_shutdown_connection sd k =
    Ok (tt, shut_down privs sd,
        k <| k_trace := kills us ++ shutdown_calls (sd_ud sd) ++ k_trace k |>
          <| k_urbs := urbs |> <| k_heap := h |>).
Proof.
  intros [Hnd _] Hr Hrx Htx Hl.
  unfold stub_shutdown_connection. erewrite bind_ok by reflexivity. cbv beta.
  erewrite bind_ok by apply opt_socket_ok.
  erewrite bind_ok by (apply stop_thread_ok; [done|]; intros E; cbn; destruct (sd_ud sd); cbn in *; by rewrite E).
  erewrite bind_ok by (apply stop_thread_ok; [done|]; intros E; cbn; destruct (sd_ud sd); cbn in *; by rewrite E).
  erewrite bind_ok by (apply close_socket_ok; intros E; cbn; by rewrite E).
  rewrite !traced_traced.
  erewrite bind_ok by (apply (cleanup_urbs_release _ _ us privs urbs h); done).
  erewrite bind_ok by (unfold spin_lock; by rewrite decide_False).
  erewrite bind_ok by reflexivity. unfold spin_unlock. cbn.
  rewrite decide_True, remove_id_relock by set_solver.
  do 2 f_equal. f_equal. unfold shutdown_calls. by rewrite <- !app_assoc.
Qed.
End cleanup.

(** ** The event handler of an exported device *)
Section events.
Context `{Env}.

Definition with_status (st : usbip_status) (sd : stub_device) : stub_device :=
  sd <| sd_ud := (sd_ud sd) <| ud_status := st |> |>.

(** What a reset attempted after the calls [tr] leads to. *)
Definition reset_status (tr : list call) : usbip_status :=
  if (env_answer tr CLockForReset).1 <? 0 then SDEV_ST_ERROR
  else if (env_answer (CLockForReset :: tr) CResetDevice).1 =? 0 then SDEV_ST_AVAILABLE
  else SDEV_ST_ERROR.
Definition reset_calls (tr : list call) : list call :=
  if (env_answer tr CLockForReset).1 <? 0 then [CLockForReset]
  else [CUnlockDevice; CResetDevice; CLockForReset].

Lemma set_status_locked st sd k :
  LockUd 0 ∉ k_locks k ->
  (spin_lock (LockUd ud_owner);; set_status st;; spin_unlock (LockUd ud_owner)) sd k =
    Ok (tt, with_status st sd, k).
Proof.
  intros Hl. erewrite bind_ok by (unfold spin_lock; by rewrite decide_False).
  erewrite bind_ok by reflexivity. unfold spin_unlock. cbn.
  rewrite decide_True, remove_id_relock by set_solver. by destruct k.
Qed.

Lemma stub_device_reset_run sd k :
  LockUd 0 ∉ k_locks k ->
  stub_device_reset sd k =
    Ok (tt, with_status (reset_status (k_trace k)) sd, traced (reset_calls (k_trace k)) k).
Proof.
  intros Hl. unfold stub_device_reset, reset_status, reset_calls.
  erewrite bind_ok by reflexivity. cbv beta. case_if; [by rewrite set_status_locked|].
  erewrite bind_ok by reflexivity. erewrite bind_ok by reflexivity. cbn [fst snd].
  erewrite <- (set_status_locked _ sd (traced [CUnlockDevice; CResetDevice; CLockForReset] k)) by done.
  cbn. by destruct (_ =? 0).
Qed.

(** The status the handler leaves for the events [e]. *)
Definition status_after (e : Z) (tr : list call) (st : usbip_status) : usbip_status :=
  if has_bits e USBIP_EH_UNUSABLE then SDEV_ST_ERROR
  else if has_bits e USBIP_EH_RESET then reset_status tr
  else st.
End events.

(** When the connection of an exported device is shut down, every URB still
    in a queue is killed, and exactly the requests, URBs and buffers the queues
    own are freed: nothing leaks and nothing else is touched.  The threads are
    stopped before the socket is closed, and both before the URBs are killed. *)
Theorem stub_shutdown_frees `{Env} sd k us privs urbs h :
  stub_wf sd k -> release (queued sd) (store_of sd k) = Some (us, (privs, urbs, h)) ->
  ud_tcp_rx (sd_ud sd) <> ThreadErr -> ud_tcp_tx (sd_ud sd) <> ThreadErr ->
  LockPriv 0 ∉ k_locks k ->
  exists sd', stub_shutdown_connection sd k =
    Ok (tt, sd', k <| k_trace := kills us ++ shutdown_calls (sd_ud sd) ++ k_trace k |>
                   <| k_urbs := urbs |> <| k_heap := h |>) /\
    queued sd' = [] /\ sd_privs sd' = privs /\ sd_unlink_tx sd' = [] /\ sd_unlink_free sd' = [] /\
    ud_tcp_socket (sd_ud sd') = None /\ ud_status (sd_ud sd') = ud_status (sd_ud sd).
Proof.
  intros. exists (shut_down privs sd). split; [by apply stub_shutdown_run|done].
Qed.

(** C9: Whatever events are pending for the shutdown of an exported device whose
    threads were started, if any, and whose queued requests own their URBs and
    memory, one round of the handler ends with the device disconnected: it shuts the
    socket down, stops the threads, closes the socket and kills the URB of every
    queued request, in this order, each once; it frees exactly these requests and
    leaves the right status: in error when the device is unusable or cannot be
    reset, available again after a reset, so that a new connection can be accepted.
    (What [StubCrash] shows of a thread that could not be started and of a request
    without an URB is left out.) *)
Theorem stub_events_handled `{Env} fuel sd k us privs urbs h :
  let e := ud_event (sd_ud sd) in
  0 < e < 16 -> has_bits e USBIP_EH_SHUTDOWN = true ->
  stub_wf sd k -> release (queued sd) (store_of sd k) = Some (us, (privs, urbs, h)) ->
  ud_tcp_rx (sd_ud sd) <> ThreadErr -> ud_tcp_tx (sd_ud sd) <> ThreadErr ->
  LockPriv 0 ∉ k_locks k -> LockUd 0 ∉ k_locks k ->
  let tr := kills us ++ shutdown_calls (sd_ud sd) ++ k_trace k in
  exists sd' k', event_handler (S (S fuel)) stub_eh_ops sd k =
      Ok (if has_bits e USBIP_EH_BYE then -1 else 0, sd', k') /\
    queued sd' = [] /\ store_of sd' k' = (privs, urbs, h) /\ k_locks k' = k_locks k /\
    ud_tcp_socket (sd_ud sd') = None /\ ud_tcp_rx (sd_ud sd') = NoThread /\
    ud_tcp_tx (sd_ud sd') = NoThread /\
    ud_status (sd_ud sd') = status_after e tr (ud_status (sd_ud sd)) /\
    ud_event (sd_ud sd') = (if has_bits e USBIP_EH_BYE then USBIP_EH_BYE else 0) /\
    k_trace k' = (if has_bits e USBIP_EH_RESET then reset_calls tr else []) ++ tr.
Proof.
  intros e He Hsh Hwf Hr Hrx Htx Hl1 Hl2 tr.
  set (k1 := k <| k_trace := tr |> <| k_urbs := urbs |> <| k_heap := h |>).
  set (sd1 := cleared USBIP_EH_SHUTDOWN (shut_down privs sd)).
  assert (stage USBIP_EH_SHUTDOWN (eh_shutdown stub_eh_ops) sd k sd1 k1) as H1.
  { unfold stage. cbn [the_ud stub_has_ud]. fold e. rewrite Hsh. exists (shut_down privs sd).
    split_and!; [|done|done]. by apply stub_shutdown_run. }
  assert (exists sd2 k2, stage USBIP_EH_RESET (eh_reset stub_eh_ops) sd1 k1 sd2 k2 /\
    queued sd2 = [] /\ store_of sd2 k2 = (privs, urbs, h) /\ k_locks k2 = k_locks k /\
    disconnected (sd_ud sd2) = sd_ud sd2 /\
    ud_status (sd_ud sd2) = (if has_bits e USBIP_EH_RESET then reset_status tr
                            else ud_status (sd_ud sd)) /\
    k_trace k2 = (if has_bits e USBIP_EH_RESET then reset_calls tr else []) ++ tr)
    as (sd2 & k2 & H2 & Hq2 & Hs2 & Hk2 & Hd2 & Hst2 & Ht2).
  { assert (has_bits (ud_event (the_ud sd1)) USBIP_EH_RESET = has_bits e USBIP_EH_RESET) as Hb.
    { unfold sd1. rewrite event_cleared. apply reset_after_shutdown. cbn. fold e. lia. }
    unfold stage. rewrite Hb. case_if.
    - eexists _, _. split; [eexists; split_and!; [by apply stub_device_reset_run|done|done]|].
      done.
    - exists sd1, k1. done. }
  assert (exists sd3 k3, stage USBIP_EH_UNUSABLE (eh_unusable stub_eh_ops) sd2 k2 sd3 k3 /\
    queued sd3 = [] /\ store_of sd3 k3 = (privs, urbs, h) /\ k_locks k3 = k_locks k /\
    disconnected (sd_ud sd3) = sd_ud sd3 /\
    ud_status (sd_ud sd3) = status_after e tr (ud_status (sd_ud sd)) /\ k_trace k3 = k_trace k2)
    as (sd3 & k3 & H3 & Hq3 & Hs3 & Hk3 & Hd3 & Hst3 & Ht3).
  { assert (has_bits (ud_event (the_ud sd2)) USBIP_EH_UNUSABLE = has_bits e USBIP_EH_UNUSABLE) as Hb.
    { rewrite (stage_event _ _ _ _ _ _ H2), (stage_event _ _ _ _ _ _ H1).
      apply unusable_after_reset. cbn. fold e. lia. }
    unfold stage, status_after. rewrite Hb. case_if.
    - eexists _, _. split; [eexists; split_and!; [apply set_status_locked; by rewrite Hk2|done|done]|].
      split_and!; [done|done|done| |done|done]. cbn. rewrite <- Hd2. done.
    - exists sd2, k2. done. }
  destruct (event_handler_runs fuel stub_eh_ops sd k sd1 k1 sd2 k2 sd3 k3) as [Hrun Hev];
    [done|done|by rewrite Hk3|done|done|done|].
  exists sd3, k3. split_and!; [exact Hrun|done|done|done| | | |done|exact Hev|by rewrite Ht3];
    rewrite <- Hd3; done.
Qed.

(** ** A device with two requests *)

(** Request 11, in flight, sends 3 bytes; request 12 is completed and read 2. *)
Definition sample_out_urb : urb :=
  (urb_zero 0) <| urb_pipe := @usb_mkpipe linux_pipes PIPE_BULK false 5 2 |>
    <| urb_transfer_buffer := Some (31%positive, 0) |> <| urb_setup_packet := Some (32%positive, 0) |>
    <| urb_transfer_buffer_length := 3 |> <| urb_context := Some 11%positive |>
    <| urb_complete := stub_complete_fn |> <| urb_status := - EINPROGRESS |>.
Definition sample_done_urb : urb :=
  (urb_zero 0) <| urb_pipe := @usb_mkpipe linux_pipes PIPE_BULK true 5 1 |>
    <| urb_transfer_buffer := Some (33%positive, 0) |> <| urb_setup_packet := Some (34%positive, 0) |>
    <| urb_transfer_buffer_length := 4 |> <| urb_actual_length := 2 |>
    <| urb_context := Some 12%positive |> <| urb_complete := stub_complete_fn |>.

Definition sample_sdev_ud (e : Z) : usbip_device :=
  mkUd USBIP_STUB SDEV_ST_USED (Some 7) Thread Thread e Thread 9 ∅.
Definition sample_sdev (e : Z) : stub_device :=
  mkStubDevice 1 (sample_sdev_ud e) 65538
    (list_to_map [(11, mkStubPriv 101 (Some 21) 0 false);
                  (12, mkStubPriv 102 (Some 22) 0 false)]%positive)
    [11%positive] [12%positive] [] [mkStubUnlink 103 0] [].
Definition sample_stub_kernel : kernel :=
  sample_kernel
    <| k_urbs := list_to_map [(21, sample_out_urb); (22, sample_done_urb)]%positive |>
    <| k_heap := list_to_map [(31%positive, [1; 2; 3]); (32%positive, replicate 8 0);
                              (33%positive, [4; 5; 0; 0]); (34%positive, replicate 8 0)] |>
    <| k_nodes := list_to_map [(9, (9, 9))]%positive |>
    <| k_next := 50%positive |>.

Lemma sample_stub_wf e : stub_wf (sample_sdev e) sample_stub_kernel.
Proof.
  split; [|eexists; vm_compute; reflexivity].
  repeat (apply NoDup_cons; split; [set_solver|]). apply NoDup_nil_2.
Qed.

Lemma stub_shutdown_frees_witness :
  exists sd', @stub_shutdown_connection quiet_env (sample_sdev 5) sample_stub_kernel =
    Ok (tt, sd', sample_stub_kernel
      <| k_trace := [CKillUrb 22; CKillUrb 21; CFput 7; CKthreadStop T_TX; CKthreadStop T_RX;
                     CSockShutdown 7] |> <| k_urbs := ∅ |> <| k_heap := ∅ |>) /\
    queued sd' = [] /\ sd_privs sd' = ∅.
Proof.
  destruct (@stub_shutdown_frees quiet_env (sample_sdev 5) sample_stub_kernel [21; 22]%positive
    ∅ ∅ ∅) as (sd' & Hrun & Hq & Hp & _).
  - apply sample_stub_wf.
  - vm_compute. reflexivity.
  - discriminate.
  - discriminate.
  - cbn. set_solver.
  - exists sd'. split; [exact Hrun|]. split; [exact Hq|exact Hp].
Defined.

(** The device resets: the environment answers 0. *)
Lemma stub_events_handled_witness :
  exists sd' k', @event_handler _ stub_has_ud 2 (@stub_eh_ops quiet_env)
      (sample_sdev SDEV_EVENT_DOWN) sample_stub_kernel = Ok (0, sd', k') /\
    queued sd' = [] /\ ud_status (sd_ud sd') = SDEV_ST_AVAILABLE /\
    k_trace k' = [CUnlockDevice; CResetDevice; CLockForReset; CKillUrb 22; CKillUrb 21; CFput 7;
                  CKthreadStop T_TX; CKthreadStop T_RX; CSockShutdown 7].
Proof.
  destruct (@stub_events_handled quiet_env 0 (sample_sdev SDEV_EVENT_DOWN) sample_stub_kernel
    [21; 22]%positive ∅ ∅ ∅) as (sd' & k' & Hrun & Hq & _ & _ & _ & _ & _ & Hst & _ & Ht).
  - vm_compute. split; reflexivity.
  - reflexivity.
  - apply sample_stub_wf.
  - vm_compute. reflexivity.
  - discriminate.
  - discriminate.
  - cbn. set_solver.
  - cbn. set_solver.
  - exists sd', k'. split; [exact Hrun|]. split; [exact Hq|]. split; [rewrite Hst; reflexivity|].
    rewrite Ht. reflexivity.
Defined.
