(* ===== verification/StubReqProps.v ===== *)
(** * Requests of an exported device, one operation at a time

    Releasing requests does not depend on their order; completion, unlinking
    and the rejection of bad requests keep the ownership invariant. *)
From S2P Require Import Prelude Kernel Wire Event EventProps Exec Xfer XferProps Filters FilterProps.
From S2P Require Import Stub StubTx StubRx StubMain StubDev StubProps.

(** ** Releasing in another order *)

Lemma release_ptr_swap p q h h1 h2 :
  release_ptr p h = Some h1 -> release_ptr q h1 = Some h2 ->
  exists h1', release_ptr q h = Some h1' /\ release_ptr p h1' = Some h2.
Proof.
  destruct p as [[b o]|], q as [[b' o']|]; cbn; intros Hp Hq;
    [|simplify_eq; eauto..].
  destruct (h !! b) as [x|] eqn:Eb; cbn in Hp; [|done].
  destruct (o =? 0); [|done]. simplify_eq.
  destruct (delete b h !! b') as [y|] eqn:Eb'; cbn in Hq; [|done].
  destruct (o' =? 0); [|done]. simplify_eq.
  apply lookup_delete_Some in Eb' as [Hne Eb']. rewrite Eb'. cbn.
  eexists; split; [done|]. rewrite lookup_delete_ne by done. rewrite Eb. cbn.
  by rewrite delete_delete.
Qed.

(** What a request gives back, as one block list. *)
Lemma release1_inv p st u st' :
  release1 p st = Some (u, st') ->
  exists x r h1 h2, st.1.1 !! p = Some x /\ sp_urb x = Some u /\ st.1.2 !! u = Some r /\
    release_ptr (urb_transfer_buffer r) st.2 = Some h1 /\
    release_ptr (urb_setup_packet r) h1 = Some h2 /\
    st' = (delete p st.1.1, delete u st.1.2, h2).
Proof.
  destruct st as [[privs urbs] h]. unfold release1. cbn [fst snd].
  destruct (privs !! p) as [x|] eqn:Ex; cbn; [|done].
  destruct (sp_urb x) as [u'|] eqn:Eu; cbn; [|done].
  destruct (urbs !! u') as [r|] eqn:Er; cbn; [|done].
  destruct (release_ptr (urb_transfer_buffer r) h) as [h1|] eqn:H1; cbn; [|done].
  destruct (release_ptr (urb_setup_packet r) h1) as [h2|] eqn:H2; cbn; [|done].
  intros [= <- <-]. by exists x, r, h1, h2.
Qed.

Lemma release1_intro p privs urbs h x u r h1 h2 :
  privs !! p = Some x -> sp_urb x = Some u -> urbs !! u = Some r ->
  release_ptr (urb_transfer_buffer r) h = Some h1 ->
  release_ptr (urb_setup_packet r) h1 = Some h2 ->
  release1 p (privs, urbs, h) = Some (u, (delete p privs, delete u urbs, h2)).
Proof.
  intros Hp Hu Hr H1 H2. unfold release1. rewrite Hp. cbn. rewrite Hu. cbn. rewrite Hr. cbn.
  rewrite H1. cbn. by rewrite H2.
Qed.

Lemma release1_swap p q u v st st1 st2 :
  release1 p st = Some (u, st1) -> release1 q st1 = Some (v, st2) ->
  exists st1', release1 q st = Some (v, st1') /\ release1 p st1' = Some (u, st2).
Proof.
  intros (x & r & h1 & h2 & Hp & Hu & Hr & H1 & H2 & ->)%release1_inv.
  intros (y & t & g1 & g2 & Hq & Hv & Ht & G1 & G2 & ->)%release1_inv.
  destruct st as [[privs urbs] h]. cbn in *.
  apply lookup_delete_Some in Hq as [Hpq Hq]. apply lookup_delete_Some in Ht as [Huv Ht].
  destruct (release_ptr_swap _ _ _ _ _ H2 G1) as (a & A1 & A2).
  destruct (release_ptr_swap _ _ _ _ _ H1 A1) as (b & B1 & B2).
  destruct (release_ptr_swap _ _ _ _ _ A2 G2) as (c & C1 & C2).
  destruct (release_ptr_swap _ _ _ _ _ B2 C1) as (d & D1 & D2).
  eexists. split; [eapply release1_intro; eassumption|].
  erewrite release1_intro; [|by apply lookup_delete_Some; eauto|eassumption
    |by apply lookup_delete_Some; eauto|eassumption|eassumption].
  by rewrite (delete_delete privs), (delete_delete urbs).
Qed.

(** The order of the requests does not matter. *)
Lemma release_perm ps ps' st us st' :
  ps ≡ₚ ps' -> release ps st = Some (us, st') ->
  exists us', us ≡ₚ us' /\ release ps' st = Some (us', st').
Proof.
  intros Hp. revert st us st'. induction Hp as [|p l l' Hl IH|p q l|l1 l2 l3 H1 IH1 H2 IH2];
    intros st us st'.
  - intros [= <- <-]. by exists [].
  - cbn. destruct (release1 p st) as [[u st1]|]; cbn; [|done].
    destruct (release l st1) as [[us1 st2]|] eqn:E; cbn; [|done]. intros [= <- <-].
    apply IH in E as (us' & Hus & ->). exists (u :: us'). cbn. split; [by constructor|done].
  - cbn. destruct (release1 q st) as [[u st1]|] eqn:E1; cbn; [|done].
    destruct (release1 p st1) as [[v st2]|] eqn:E2; cbn; [|done].
    destruct (release l st2) as [[us1 st3]|] eqn:E3; cbn; [|done]. intros [= <- <-].
    destruct (release1_swap _ _ _ _ _ _ _ E1 E2) as (st1' & F1 & F2).
    exists (v :: u :: us1). split; [constructor|].
    rewrite F1. cbn. rewrite F2. cbn. by rewrite E3.
  - intros E. apply IH1 in E as (us1 & Hus1 & E). apply IH2 in E as (us2 & Hus2 & E).
    exists us2. split; [by etrans|done].
Qed.

Lemma release_app ps qs st us st' :
  release (ps ++ qs) st = Some (us, st') ->
  exists us1 st1 us2, release ps st = Some (us1, st1) /\ release qs st1 = Some (us2, st').
Proof.
  revert st us. induction ps as [|p ps IH]; intros st us Hr; [by exists [], st, us|].
  cbn [release app] in *. destruct (release1 p st) as [[u st1]|]; [|done].
  cbn [mbind option_bind] in *. destruct (release (ps ++ qs) st1) as [[us' st2]|] eqn:E; [|done].
  cbn in Hr. injection Hr as <- ->. apply IH in E as (us1 & st3 & us2 & -> & E).
  by exists (u :: us1), st3, us2.
Qed.

Lemma perm_remove_id {A} `{EqDecision A} (x : A) l :
  NoDup l -> x ∈ l -> l ≡ₚ x :: remove_id x l.
Proof.
  intros Hnd Hx. apply list_elem_of_split in Hx as (l1 & l2 & ->).
  apply NoDup_app in Hnd as (_ & Hd & [Hn _]%NoDup_cons).
  unfold remove_id. rewrite filter_app, filter_cons_False by (by intros []).
  change (filter _ ?l) with (remove_id x l).
  rewrite !remove_id_notin; [|done|intros Hin; apply (Hd x Hin); set_solver].
  by rewrite Permutation_middle.
Qed.

(** A queued request owns its objects, and the others do not need them. *)
Lemma stub_wf_request sd k p :
  stub_wf sd k -> p ∈ queued sd ->
  exists u st' us st'', release1 p (store_of sd k) = Some (u, st') /\
    release (remove_id p (queued sd)) st' = Some (us, st'').
Proof.
  intros [Hnd [[us0 st0] Hr]] Hp.
  destruct (release_perm _ _ _ _ _ (perm_remove_id p _ Hnd Hp) Hr) as (us' & _ & Hr').
  cbn [release] in Hr'. destruct (release1 p (store_of sd k)) as [[u st']|] eqn:E1; [|done]. cbn in Hr'.
  destruct (release _ st') as [[us st'']|] eqn:E2; [|done]. by exists u, st', us, st''.
Qed.

Lemma queued_unlink_priv p sd : queued (unlink_priv p sd) = remove_id p (queued sd).
Proof. unfold queued, remove_id. cbn. by rewrite !filter_app. Qed.

Lemma stub_free_priv_and_urb_run p u privs urbs h sd k :
  release1 p (store_of sd k) = Some (u, (privs, urbs, h)) ->
  stub_free_priv_and_urb p sd k =
    Ok (tt, unlink_priv p sd <| sd_privs := privs |>,
        k <| k_urbs := urbs |> <| k_heap := h |>).
Proof.
  intros (x & r & h1 & h2 & Hp & Hu & Hr & H1 & H2 & [= -> -> ->])%release1_inv. cbn in *.
  destruct (release_ptr_swap _ _ _ _ _ H1 H2) as (g & G1 & G2).
  assert (forall sd', sd_privs sd' = sd_privs sd -> forall k, get_priv p sd' k = Ok (x, sd', k)) as Hg.
  { intros sd' Hs k'. unfold get_priv. erewrite bind_ok by reflexivity. rewrite Hs. by rewrite Hp. }
  unfold stub_free_priv_and_urb. erewrite bind_ok by by apply Hg.
  erewrite bind_ok by (by apply deref_ok). erewrite bind_ok by (by apply get_urb_ok).
  erewrite bind_ok by (apply kfree_release; exact G1).
  erewrite bind_ok by (apply kfree_release; exact G2).
  erewrite bind_ok by reflexivity.
  erewrite bind_ok by (unfold free_priv; erewrite bind_ok by (by apply Hg); reflexivity).
  unfold usb_free_urb. cbn. by rewrite Hr.
Qed.

(** ** Completion *)

(** The reply to an unlink, or the event raised for want of memory. *)
Definition reply_unlink `{Env} (sq status : Z) (sd sd' : stub_device) (tr : list call) : Prop :=
  if (env_answer tr (CMalloc 40)).1 =? 0
  then sd_ud sd' = sd_ud (add_event VDEV_EVENT_ERROR_MALLOC sd) /\ sd_unlink_tx sd' = sd_unlink_tx sd
  else sd_ud sd' = sd_ud sd /\ sd_unlink_tx sd' = sd_unlink_tx sd ++ [mkStubUnlink sq status].

Lemma stub_enqueue_ret_unlink_run `{Env} sq status sd k :
  LockUd 0 ∉ k_locks k ->
  exists sd' tr, stub_enqueue_ret_unlink sq status sd k = Ok (tt, sd', traced tr k) /\
    reply_unlink sq status sd sd' (k_trace k) /\
    queued sd' = queued sd /\ sd_privs sd' = sd_privs sd /\
    (forall p, unlink_priv p sd' = unlink_priv p sd <| sd_ud := sd_ud sd' |>
                                     <| sd_unlink_tx := sd_unlink_tx sd' |>).
Proof.
  intros Hl. unfold stub_enqueue_ret_unlink, reply_unlink.
  erewrite bind_ok by apply ext_ret_ok. case_if.
  - eexists _, _. split; [rewrite event_add_ok, traced_traced by done; reflexivity|]. done.
  - eexists _, [_]. split; [reflexivity|]. done.
Qed.

(** The invariant after one request is gone. *)
Lemma stub_wf_released sd k p u st' sd' k' :
  stub_wf sd k -> p ∈ queued sd -> release1 p (store_of sd k) = Some (u, st') ->
  queued sd' = remove_id p (queued sd) -> store_of sd' k' = st' -> stub_wf sd' k'.
Proof.
  intros Hwf Hp Hr Hq Hs. destruct (stub_wf_request sd k p Hwf Hp) as (u1 & st1 & us & st2 & E1 & E2).
  simplify_eq. split; rewrite Hq; [|by exists (us, st2)].
  apply NoDup_remove_id. apply Hwf.
Qed.

(** The invariant only depends on which requests are queued. *)
Lemma stub_wf_moved sd k sd' k' :
  stub_wf sd k -> queued sd ≡ₚ queued sd' -> store_of sd' k' = store_of sd k -> stub_wf sd' k'.
Proof.
  intros [Hnd [[us st] Hr]] Hp Hs.
  destruct (release_perm _ _ _ _ _ Hp Hr) as (us' & _ & Hr').
  split; [by rewrite <- Hp|]. exists (us', st). by rewrite Hs.
Qed.

Lemma get_priv_ok p x sd k : sd_privs sd !! p = Some x -> get_priv p sd k = Ok (x, sd, k).
Proof. intros E. unfold get_priv. erewrite bind_ok by reflexivity. by rewrite E. Qed.

(** The request [p] is queued and its URB is [u]. *)
Definition request (p u : positive) (x : stub_priv) (r : urb) (sd : stub_device) (k : kernel) : Prop :=
  p ∈ queued sd /\ sd_privs sd !! p = Some x /\ sp_urb x = Some u /\
  k_urbs k !! u = Some r /\ urb_context r = Some p.

(** What the completion of [u] makes of its request. *)
Definition completed `{Env} (p u : positive) (x : stub_priv) (r : urb) sd k sd' k' : Prop :=
  if urb_status r =? - ENOENT then sd' = sd /\ k' = k
  else if sp_unlinking x then
    queued sd' = remove_id p (queued sd) /\
    release1 p (store_of sd k) = Some (u, store_of sd' k') /\
    reply_unlink (u32 (sp_seqnum x)) (u32 (urb_status r)) sd sd' (k_trace k)
  else
    sd_priv_init sd' = remove_id p (sd_priv_init sd) /\
    sd_priv_tx sd' = remove_id p (sd_priv_tx sd) ++ [p] /\
    sd_priv_free sd' = remove_id p (sd_priv_free sd) /\
    store_of sd' k' = store_of sd k /\ sd_unlink_tx sd' = sd_unlink_tx sd /\ sd_ud sd' = sd_ud sd.

Lemma completed_wf `{Env} p u x r sd k sd' k' :
  stub_wf sd k -> request p u x r sd k -> completed p u x r sd k sd' k' -> stub_wf sd' k'.
Proof.
  intros Hwf (Hq & Hx & Hu & Hr & Hc). unfold completed. case_if; [by intros [-> ->]|]. case_if.
  - intros (Hq' & Hs & _). by eapply stub_wf_released.
  - intros (Hi & Ht & Hf & Hs & _). eapply stub_wf_moved; [done| |done].
    rewrite (perm_remove_id p (queued sd)) by (done || apply Hwf).
    unfold queued, remove_id in *. rewrite !filter_app, Hi, Ht, Hf. solve_Permutation.
Qed.

Lemma stub_complete_run `{Env} `{FilterDrivers stub_device} p u x r sd k :
  stub_wf sd k -> request p u x r sd k -> usbip_filter_on_tx u sd k = Ok (0, sd, k) ->
  LockPriv 0 ∉ k_locks k -> LockUd 0 ∉ k_locks k ->
  exists sd' k', stub_complete u sd k = Ok (tt, sd', k') /\ k_locks k' = k_locks k /\
    completed p u x r sd k sd' k'.
Proof.
  intros Hwf (Hq & Hx & Hu & Hr & Hc) Hf Hl1 Hl2. unfold stub_complete, stub_complete_tail, completed.
  exec_step. exec_step. erewrite bind_ok by (apply get_priv_ok; exact Hx).
  erewrite bind_ok by exact Hf. exec_step.
  case_if; [by exists sd, k|]. cbn [negb Z.eqb]. exec_step.
  erewrite bind_ok by (apply get_priv_ok; exact Hx). case_if.
  - set (k1 := k <| k_locks := LOCK_PRIV :: k_locks k |>).
    destruct (stub_enqueue_ret_unlink_run (u32 (sp_seqnum x)) (u32 (urb_status r)) sd k1)
      as (sd1 & tr & Hrun & Hrep & Hq1 & Hp1 & Hun); [cbn; set_solver|].
    destruct (stub_wf_request sd k p Hwf Hq) as (u' & [[privs urbs] h] & us & st'' & E1 & _).
    assert (u' = u) as ->.
    { apply release1_inv in E1 as (x' & r' & ? & ? & Hx' & Hu' & _). cbn in Hx'. by simplify_eq. }
    erewrite bind_ok.
    2:{ erewrite bind_ok by exact Hrun. eapply stub_free_priv_and_urb_run.
        unfold store_of. rewrite Hp1. exact E1. }
    cbv beta iota. exec_step. eexists _, _. split; [reflexivity|].
    split; [by cbn|]. split_and!; [|by rewrite E1|].
    + rewrite <- Hq1. exact (queued_unlink_priv p sd1).
    + unfold reply_unlink in *. exact Hrep.
  - erewrite bind_ok by reflexivity. exec_step. eexists _, _.
    split; [reflexivity|]. split; [done|]. done.
Qed.

(** C4: the completion of a request answers it exactly once.  A killed URB is
    left to its killer; the completion of an unlinked request frees the request,
    its URB and its memory and queues the reply to the unlink, with the URB's
    status; any other completion moves the request to the end of the reply
    queue.  Every request stays in one queue and keeps its objects. *)
Theorem stub_complete_answers `{Env} `{FilterDrivers stub_device} p u x r sd k :
  stub_wf sd k -> request p u x r sd k -> usbip_filter_on_tx u sd k = Ok (0, sd, k) ->
  LockPriv 0 ∉ k_locks k -> LockUd 0 ∉ k_locks k ->
  exists sd' k', stub_complete u sd k = Ok (tt, sd', k') /\ k_locks k' = k_locks k /\
    completed p u x r sd k sd' k' /\ stub_wf sd' k'.
Proof.
  intros Hwf Hreq Hf Hl1 Hl2.
  destruct (stub_complete_run p u x r sd k Hwf Hreq Hf Hl1 Hl2) as (sd' & k' & Hrun & Hl & Hc).
  exists sd', k'. split_and!; [done|done|done|]. by eapply completed_wf.
Qed.

(** ** Unlinking *)

(** The USB core finishes an URB with a status. *)
Definition finished (u : positive) (r : urb) (st : Z) (k : kernel) : kernel :=
  k <| k_urbs := <[u := r <| urb_status := st |>]> (k_urbs k) |>.

Definition marked (p : positive) (x : stub_priv) (sq : Z) (sd : stub_device) : stub_device :=
  sd <| sd_privs := <[p := x <| sp_unlinking := true |> <| sp_seqnum := sq |>]> (sd_privs sd) |>.

Lemma stub_recv_unlink_found `{Env} pdu p u x r sd k :
  find_seqnum (sd_privs sd) (cu_seqnum (u_cmd_unlink (h_u pdu))) (sd_priv_init sd) = Some p ->
  request p u x r sd k -> LockPriv 0 ∉ k_locks k ->
  stub_recv_cmd_unlink pdu sd k =
    Ok (0, marked p x (seqnum (h_base pdu)) sd, traced [CUnlinkUrb u] k).
Proof.
  intros Hf (Hq & Hx & Hu & Hr & Hc) Hl. unfold stub_recv_cmd_unlink. exec_step. exec_step.
  rewrite Hf. erewrite bind_ok by (apply get_priv_ok; exact Hx). exec_step.
  erewrite bind_ok by reflexivity. exec_step. cbn. by destruct k.
Qed.

Lemma stub_recv_unlink_missing `{Env} pdu sd k :
  find_seqnum (sd_privs sd) (cu_seqnum (u_cmd_unlink (h_u pdu))) (sd_priv_init sd) = None ->
  LockPriv 0 ∉ k_locks k -> LockUd 0 ∉ k_locks k ->
  exists sd' tr, stub_recv_cmd_unlink pdu sd k = Ok (0, sd', traced tr k) /\
    reply_unlink (seqnum (h_base pdu)) 0 sd sd' (k_trace k) /\
    queued sd' = queued sd /\ sd_privs sd' = sd_privs sd.
Proof.
  intros Hf Hl1 Hl2. unfold stub_recv_cmd_unlink. exec_step. exec_step. rewrite Hf.
  set (k1 := k <| k_locks := LOCK_PRIV :: k_locks k |>).
  destruct (stub_enqueue_ret_unlink_run (seqnum (h_base pdu)) 0 sd k1)
    as (sd1 & tr & Hrun & Hrep & Hq1 & Hp1 & _); [cbn; set_solver|].
  erewrite bind_ok by exact Hrun. exec_step. exists sd1, tr. split; [|done].
  unfold k1, traced. cbn. by destruct k.
Qed.

(** An URB that changes in what it does not own keeps its request. *)
Lemma release_ext ps privs privs' urbs urbs' h us st :
  (forall p, sp_urb <$> privs !! p = sp_urb <$> privs' !! p) ->
  (forall u, (fun r => (urb_transfer_buffer r, urb_setup_packet r)) <$> urbs !! u =
             (fun r => (urb_transfer_buffer r, urb_setup_packet r)) <$> urbs' !! u) ->
  release ps (privs, urbs, h) = Some (us, st) ->
  exists st', release ps (privs', urbs', h) = Some (us, st') /\ st'.2 = st.2.
Proof.
  revert privs privs' urbs urbs' h us. induction ps as [|p ps IH]; intros privs privs' urbs urbs' h us Hp Hu.
  { intros [= <- <-]. by eexists. }
  cbn [release]. destruct (release1 p (privs, urbs, h)) as [[u st1]|] eqn:E1; [|done].
  cbn [mbind option_bind]. apply release1_inv in E1 as (x & r & h1 & h2 & Hx & Hxu & Hr & H1 & H2 & ->). cbn [fst snd] in *.
  specialize (Hp p) as Hpp. rewrite Hx in Hpp. symmetry in Hpp.
  apply fmap_Some in Hpp as (x' & Hx' & Hxx). specialize (Hu u) as Huu. rewrite Hr in Huu.
  symmetry in Huu. apply fmap_Some in Huu as (r' & Hr' & [= Hb Hs]).
  assert (release1 p (privs', urbs', h) = Some (u, (delete p privs', delete u urbs', h2))) as E1.
  { eapply (release1_intro _ _ _ _ x' u r' h1); [done|congruence|done|congruence|congruence]. }
  rewrite E1. cbn [mbind option_bind]. destruct (release ps (delete p privs, _, _)) as [[us1 st2]|] eqn:E2; [|done].
  cbn [mbind option_bind].
  intros [= <- <-].
  eapply IH in E2 as (st' & E2 & Hst); [rewrite E2; by eexists| |].
  - intros q. destruct (decide (p = q)) as [->|]; [by rewrite !lookup_delete_eq|by rewrite !lookup_delete_ne].
  - intros q. destruct (decide (u = q)) as [->|]; [by rewrite !lookup_delete_eq|by rewrite !lookup_delete_ne].
Qed.

Lemma stub_wf_ext sd k sd' k' :
  stub_wf sd k -> queued sd' = queued sd -> k_heap k' = k_heap k ->
  (forall p, sp_urb <$> sd_privs sd !! p = sp_urb <$> sd_privs sd' !! p) ->
  (forall u, (fun r => (urb_transfer_buffer r, urb_setup_packet r)) <$> k_urbs k !! u =
             (fun r => (urb_transfer_buffer r, urb_setup_packet r)) <$> k_urbs k' !! u) ->
  stub_wf sd' k'.
Proof.
  intros [Hnd [[us st] Hr]] Hq Hh Hp Hu. split; rewrite Hq; [done|].
  destruct (release_ext _ _ _ _ _ _ _ _ Hp Hu Hr) as (st' & Hr' & _).
  exists (us, st'). unfold store_of. by rewrite Hh.
Qed.

Lemma marked_wf p x sq u r st sd k tr :
  stub_wf sd k -> request p u x r sd k ->
  stub_wf (marked p x sq sd) (finished u r st (traced tr k)).
Proof.
  intros Hwf (Hq & Hx & Hu & Hr & Hc). eapply stub_wf_ext; [done|done|done| |]; cbn.
  - intros q. destruct (decide (p = q)) as [<-|]; [by rewrite lookup_insert_eq, Hx|].
    by rewrite lookup_insert_ne.
  - intros v. destruct (decide (u = v)) as [<-|]; [by rewrite lookup_insert_eq, Hr|].
    by rewrite lookup_insert_ne.
Qed.

(** C35: a request to unlink is answered exactly once.  If its target is in
    flight, its URB is unlinked and nothing is sent yet; when the USB core then
    finishes the URB, whatever its status [st] but [-ENOENT], the reply carries
    the number of the unlink request and [st], and the target is gone without a
    reply of its own.  If it is not in flight (completed, or never seen) the
    reply is queued at once with status 0 and no request is touched. *)
Theorem unlink_answered `{Env} `{FilterDrivers stub_device} pdu sd k :
  let target := find_seqnum (sd_privs sd) (cu_seqnum (u_cmd_unlink (h_u pdu))) (sd_priv_init sd) in
  let sq := seqnum (h_base pdu) in
  stub_wf sd k -> no_filters sd k -> is_u32 sq ->
  LockPriv 0 ∉ k_locks k -> LockUd 0 ∉ k_locks k ->
  match target with
  | Some p => forall u x r st, request p u x r sd k -> st <> - ENOENT ->
      exists sd1 k1 sd2 k2, stub_recv_cmd_unlink pdu sd k = Ok (0, sd1, k1) /\
        k1 = traced [CUnlinkUrb u] k /\ sd_unlink_tx sd1 = sd_unlink_tx sd /\
        queued sd1 = queued sd /\
        stub_complete u sd1 (finished u r st k1) = Ok (tt, sd2, k2) /\
        reply_unlink sq (u32 st) sd1 sd2 (k_trace k1) /\
        queued sd2 = remove_id p (queued sd) /\ k_locks k2 = k_locks k /\ stub_wf sd2 k2
  | None => exists sd1 tr, stub_recv_cmd_unlink pdu sd k = Ok (0, sd1, traced tr k) /\
      reply_unlink sq 0 sd sd1 (k_trace k) /\ queued sd1 = queued sd /\ sd_privs sd1 = sd_privs sd
  end.
Proof.
  intros target sq Hwf Hnf Hsq Hl1 Hl2. destruct target as [p|] eqn:Et.
  2: { by apply stub_recv_unlink_missing. }
  intros u x r st Hreq Hst.
  set (sd1 := marked p x sq sd). set (k1 := traced [CUnlinkUrb u] k).
  set (x1 := x <| sp_unlinking := true |> <| sp_seqnum := sq |>).
  assert (request p u x1 (r <| urb_status := st |>) sd1 (finished u r st k1)) as Hreq1.
  { destruct Hreq as (Hq & Hx & Hu & Hr & Hc). split_and!; [done| |done| |done];
      cbn; by rewrite lookup_insert_eq. }
  assert (stub_wf sd1 (finished u r st k1)) as Hwf1 by by apply marked_wf.
  destruct (stub_complete_run p u x1 (r <| urb_status := st |>) sd1 (finished u r st k1))
    as (sd2 & k2 & Hrun & Hl & Hc); [done|done| |done|done|].
  { refine (proj2 (no_filters_pass header_zero _ _ _ _)). done. }
  exists sd1, k1, sd2, k2. split; [by eapply stub_recv_unlink_found|].
  split_and!; [done|done|done|exact Hrun| | |exact Hl|by eapply completed_wf];
    revert Hc; unfold completed; cbn;
    destruct (st =? - ENOENT) eqn:E; bool_to_prop; try done; intros (Hq & _ & Hrep); [|exact Hq].
  rewrite (u32_id sq Hsq) in Hrep. exact Hrep.
Qed.

(** ** Requests that are refused *)

(** A request the device must not obey: not for it, or it is not connected. *)
Definition acceptable (pdu : usbip_header) (sd : stub_device) : bool :=
  (devid (h_base pdu) =? sd_devid sd) && bool_decide (ud_status (sd_ud sd) = SDEV_ST_USED).

Lemma valid_request_run `{Env} pdu sd k :
  LockUd 0 ∉ k_locks k -> valid_request pdu sd k = Ok (acceptable pdu sd, sd, k).
Proof.
  intros Hl. unfold valid_request, acceptable. exec_step.
  destruct (devid (h_base pdu) =? sd_devid sd); [|done]. cbn [andb].
  exec_step. exec_step. exec_step. by destruct k.
Qed.

Lemma correct_endian_base_receive `{Arch} (h : usbip_header) :
  Forall is_u32 (header_words h) -> length (w_setup (h_u h)) = 8%nat ->
  h_base (usbip_header_correct_endian (header_of_mem (wire_bytes h)) false) = h_base h.
Proof.
  intros Hw Hs. rewrite header_of_mem_wire by done. header_open h.
  unfold usbip_header_correct_endian. cbv zeta.
  cbn -[be_bytes be32_to_cpu word_of Z.eqb orb]. word_simp.
  repeat case_if; cbn -[be_bytes be32_to_cpu word_of Z.eqb]; by word_simp.
Qed.

(** Reading the received header out of its block, which is then gone. *)
Lemma recv_header_rest `{Arch} {St : Type} (ret : Z) (b : positive) tr (mem : list Z) (s : St) (k : kernel) :
  k_heap k !! b = None -> length mem = 48%nat ->
  (mem ← load_bytes (b, 0) sizeof_header; kfree (Some (b, 0));; mret (ret, header_of_mem mem)
    : M St (Z * usbip_header)) s
    (k <| k_heap := <[b := mem]> (k_heap k) |> <| k_trace := tr |> <| k_next := Pos.succ b |>) =
  Ok ((ret, header_of_mem mem), s, k <| k_trace := tr |> <| k_next := Pos.succ b |>).
Proof.
  intros Hfresh Hmem. erewrite bind_ok.
  2: { apply load_bytes_ok with (blk := mem);
         [cbn; by rewrite lookup_insert_eq|done|done|by rewrite Hmem]. }
  cbv beta. erewrite bind_ok by (unfold kfree; cbn; rewrite lookup_insert_eq; reflexivity).
  cbv beta. rewrite drop_0. change (Z.to_nat sizeof_header) with 48%nat.
  rewrite take_ge by lia. cbn. by rewrite delete_insert_id by done.
Qed.

(** Receiving a header: a block on the stack for the time of the call. *)
Lemma recv_header_run `{Env} `{Arch} sock h rest sd k :
  recvmsg_ok -> delivers sock (k_trace k) (wire_bytes h ++ rest) ->
  length (w_setup (h_u h)) = 8%nat -> ud_tcp_socket (sd_ud sd) = Some sock ->
  k_heap k !! k_next k = None ->
  exists n tr' ret mem, Received sock (k_trace k) (take n (wire_bytes h ++ rest)) tr' /\
    recv_header sd k = Ok ((ret, header_of_mem mem), sd,
      k <| k_trace := tr' |> <| k_next := Pos.succ (k_next k) |>) /\
    ((ret = sizeof_header /\ n = 48%nat /\ mem = wire_bytes h) \/
     (ret <> sizeof_header /\ (n < 48)%nat /\
      Stalled sock (k_trace k) (take n (wire_bytes h ++ rest)))).
Proof.
  intros Hok Hd Hs Hsock Hfresh. set (stream := wire_bytes h ++ rest) in *.
  assert (length (wire_bytes h) = 48%nat) as Hlen by (unfold wire_bytes; by rewrite length_app, Hs).
  destruct (recv_fresh_run sock sizeof_header stream sd k Hok Hd eq_refl)
    as (n & tr' & ret & mem & HR & Hrun & Hmem & Hret).
  exists n, tr', ret, mem. split; [exact HR|]. split.
  - unfold recv_header. erewrite bind_ok by reflexivity.
    erewrite bind_ok by reflexivity. cbv beta. rewrite Hsock.
    erewrite bind_ok by exact Hrun. by apply recv_header_rest.
  - destruct Hret as [(-> & -> & -> & _)|(Hr & Hn & Hst)]; [left|right].
    + change (Z.to_nat sizeof_header) with 48%nat. split_and!; [done|done|].
      unfold stream. by rewrite take_app_le, take_ge by lia.
    + change sizeof_header with 48 in *. split_and!; [lia|lia|exact Hst].
Qed.

Definition refused (h : usbip_header) (sd : stub_device) : bool :=
  negb (acceptable h sd) ||
  negb ((command (h_base h) =? USBIP_CMD_SUBMIT) || (command (h_base h) =? USBIP_CMD_UNLINK)).

(** What the receiver does with a complete header [h]. *)
Definition dispatch `{Env} `{Arch} `{UsbPipes} `{FilterDrivers stub_device}
    (h : usbip_header) : M stub_device unit :=
  if command (h_base h) =? USBIP_CMD_UNLINK then stub_recv_cmd_unlink h;; mret tt
  else stub_recv_cmd_submit h.

(** Receiving a request, and what made it stop if it did. *)
Lemma stub_rx_pdu_run `{Env} `{Arch} `{UsbPipes} `{FilterDrivers stub_device}
    sock h rest sd k :
  recvmsg_ok -> delivers sock (k_trace k) (wire_bytes h ++ rest) ->
  Forall is_u32 (header_words h) -> length (w_setup (h_u h)) = 8%nat ->
  (refused h sd = false -> header_wf h) ->
  ud_tcp_socket (sd_ud sd) = Some sock -> k_heap k !! k_next k = None ->
  LockUd 0 ∉ k_locks k ->
  exists n tr', let k1 := k <| k_trace := tr' |> <| k_next := Pos.succ (k_next k) |> in
    Received sock (k_trace k) (take n (wire_bytes h ++ rest)) tr' /\
    ((n < 48)%nat /\ Stalled sock (k_trace k) (take n (wire_bytes h ++ rest)) \/ n = 48%nat) /\
    if (n <? 48)%nat || refused h sd
    then stub_rx_pdu sd k = Ok (tt, add_event SDEV_EVENT_ERROR_TCP sd, traced [CWakeUp Q_EH] k1)
    else stub_rx_pdu sd k = dispatch h sd k1.
Proof.
  intros Hok Hd Hw Hs Hwf Hsock Hfresh Hl.
  destruct (recv_header_run sock h rest sd k Hok Hd Hs Hsock Hfresh)
    as (n & tr' & ret & mem & HR & Hrun & Hret).
  exists n, tr'. cbv zeta. set (k1 := _ <| k_next := _ |>). split; [done|].
  assert (LockUd 0 ∉ k_locks k1) as Hl1 by done.
  unfold stub_rx_pdu. erewrite bind_ok by exact Hrun. cbv beta iota. fold k1.
  destruct Hret as [(-> & -> & ->)|(Hne & Hn & Hst)].
  2: { rewrite (proj2 (Nat.ltb_lt _ _) Hn), (proj2 (Z.eqb_neq _ _) Hne). cbn [orb negb].
       split; [by left|]. by apply event_add_ok. }
  split; [by right|]. change (48 <? 48)%nat with false. rewrite Z.eqb_refl. cbn [orb negb].
  pose proof (correct_endian_base_receive h Hw Hs) as Hb.
  set (pdu := usbip_header_correct_endian _ _) in *.
  erewrite bind_ok by by apply valid_request_run.
  assert (acceptable pdu sd = acceptable h sd) as -> by (unfold acceptable; by rewrite Hb).
  cbv beta. rewrite Hb. destruct (refused h sd) eqn:Er.
  - unfold refused in Er. destruct (acceptable h sd); cbn [negb orb] in Er |- *; [|by apply event_add_ok].
    apply negb_true_iff, orb_false_iff in Er as [E1 E2]. rewrite E1, E2. by apply event_add_ok.
  - assert (pdu = h) as -> by (by apply correct_endian_receive, Hwf).
    unfold refused in Er. apply orb_false_iff in Er as [E1%negb_false_iff E2%negb_false_iff].
    rewrite E1. unfold dispatch.
    destruct (command (h_base h) =? USBIP_CMD_UNLINK); [done|].
    rewrite orb_false_r in E2. by rewrite E2.
Qed.

(** One header is read from the connection.  If it does not arrive whole,
    names another device, finds the device not in use, or is no request, the
    connection is shut down by an event and nothing else changes; otherwise the
    request is handled with the very header the client encoded, on machines of
    either byte order. *)
Theorem stub_rx_dispatch `{Env} `{Arch} `{UsbPipes} `{FilterDrivers stub_device}
    sock h rest sd k :
  recvmsg_ok -> delivers sock (k_trace k) (wire_bytes h ++ rest) ->
  Forall is_u32 (header_words h) -> length (w_setup (h_u h)) = 8%nat ->
  (refused h sd = false -> header_wf h) ->
  ud_tcp_socket (sd_ud sd) = Some sock -> k_heap k !! k_next k = None ->
  LockUd 0 ∉ k_locks k ->
  exists n tr', let k1 := k <| k_trace := tr' |> <| k_next := Pos.succ (k_next k) |> in
    Received sock (k_trace k) (take n (wire_bytes h ++ rest)) tr' /\
    ((n < 48)%nat \/ n = 48%nat) /\
    if (n <? 48)%nat || refused h sd
    then stub_rx_pdu sd k = Ok (tt, add_event SDEV_EVENT_ERROR_TCP sd, traced [CWakeUp Q_EH] k1)
    else stub_rx_pdu sd k = dispatch h sd k1.
Proof.
  intros Hok Hd Hw Hs Hwf Hsock Hfresh Hl.
  destruct (stub_rx_pdu_run sock h rest sd k Hok Hd Hw Hs Hwf Hsock Hfresh Hl)
    as (n & tr' & HR & Hn & Hrun).
  exists n, tr'. split; [exact HR|]. split; [|exact Hrun]. destruct Hn as [[Hn _]|Hn]; auto.
Qed.

(** ** The sample device *)

Definition no_drivers : FilterDrivers stub_device :=
  (∅ : gmap positive (usbip_filter_driver stub_device)).

Definition stream_quiet : Env := stream_env 7 [].

Lemma sample_no_filters e : no_filters (sample_sdev e) sample_stub_kernel.
Proof.
  split; [|cbn; set_solver]. split; [apply NoDup_singleton|]. by vm_compute.
Qed.

Definition sample_priv : stub_priv := mkStubPriv 101 (Some 21%positive) 0 false.

Lemma sample_request e :
  request 11 21 sample_priv sample_out_urb
    (sample_sdev e) sample_stub_kernel.
Proof. split_and!; [unfold queued; cbn; set_solver|reflexivity..]. Qed.

(** Request 11 completes: it is queued behind request 12. *)
Lemma stub_complete_answers_witness :
  exists sd' k', @stub_complete quiet_env no_drivers 21 (sample_sdev 0) sample_stub_kernel
      = Ok (tt, sd', k') /\
    sd_priv_init sd' = [] /\ sd_priv_tx sd' = [12; 11]%positive /\ stub_wf sd' k'.
Proof.
  destruct (@stub_complete_answers quiet_env no_drivers 11 21 sample_priv sample_out_urb
    (sample_sdev 0)
    sample_stub_kernel) as (sd' & k' & Hrun & _ & Hc & Hwf).
  - apply sample_stub_wf.
  - apply sample_request.
  - refine (proj2 (no_filters_pass header_zero 21 (sample_sdev 0) sample_stub_kernel _)).
    apply sample_no_filters.
  - cbn. set_solver.
  - cbn. set_solver.
  - exists sd', k'. split; [exact Hrun|].
    assert (sd_priv_init sd' = [] /\ sd_priv_tx sd' = [12; 11]%positive) as [Hi Ht].
    { vm_compute in Hrun. injection Hrun as <- _. split; reflexivity. }
    split_and!; [exact Hi|exact Ht|exact Hwf].
Defined.

Definition sample_unlink_pdu (target : Z) : usbip_header :=
  mkHeader (mkBasic USBIP_CMD_UNLINK 140 65538 USBIP_DIR_OUT 0)
    (mkUnion target 0 0 0 0 (replicate 8 0)).

(** Request 101 is in flight; the USB core reports [-ECONNRESET]. *)
Lemma unlink_answered_witness :
  exists sd1 k1 sd2 k2,
    @stub_recv_cmd_unlink stream_quiet (sample_unlink_pdu 101) (sample_sdev 0) sample_stub_kernel
      = Ok (0, sd1, k1) /\
    @stub_complete stream_quiet no_drivers 21 sd1 (finished 21 sample_out_urb (- ECONNRESET) k1)
      = Ok (tt, sd2, k2) /\
    sd_unlink_tx sd2 = [mkStubUnlink 103 0; mkStubUnlink 140 (2 ^ 32 - ECONNRESET)] /\
    stub_wf sd2 k2.
Proof.
  pose proof (@unlink_answered stream_quiet no_drivers (sample_unlink_pdu 101) (sample_sdev 0)
    sample_stub_kernel (sample_stub_wf 0) (sample_no_filters 0) ltac:(by vm_compute)
    ltac:(cbn; set_solver) ltac:(cbn; set_solver)) as Hw.
  destruct (Hw 21%positive sample_priv sample_out_urb (- ECONNRESET) (sample_request 0) ltac:(by vm_compute))
    as (sd1 & k1 & sd2 & k2 & H1 & -> & Ht & _ & H2 & [_ Hrep] & _ & _ & Hwf).
  eexists sd1, _, sd2, k2. split_and!; [exact H1|exact H2| |exact Hwf].
  rewrite Hrep, Ht. reflexivity.
Defined.

(** An unlink arrives in pieces of seven bytes on a big-endian machine. *)
Lemma stub_rx_dispatch_witness :
  let env := stream_env 7 (wire_bytes (sample_unlink_pdu 101)) in
  exists tr' k1, @stub_rx_pdu env true linux_pipes no_drivers (sample_sdev 0) sample_stub_kernel
      = @dispatch env true linux_pipes no_drivers (sample_unlink_pdu 101) (sample_sdev 0) k1 /\
    k_trace k1 = tr' /\ length tr' = 7%nat.
Proof.
  intros env.
  destruct (@stub_rx_dispatch env true linux_pipes no_drivers 7 (sample_unlink_pdu 101) []
    (sample_sdev 0) sample_stub_kernel) as (n & tr' & _ & Hn & Hrun).
  - apply stream_env_ok.
  - rewrite app_nil_r. apply stream_env_delivers. reflexivity.
  - apply (bool_decide_unpack _). by vm_compute.
  - reflexivity.
  - intros _. split_and!; [apply (bool_decide_unpack _); by vm_compute|reflexivity|reflexivity|].
    intros _. split_and!; reflexivity.
  - reflexivity.
  - reflexivity.
  - cbn. set_solver.
  - assert (n = 48%nat) as ->.
    { destruct Hn as [Hn|Hn]; [exfalso|exact Hn].
      rewrite (proj2 (Nat.ltb_lt _ _) Hn) in Hrun. vm_compute in Hrun. discriminate. }
    eexists tr', _. split_and!; [exact Hrun|reflexivity|].
    vm_compute in Hrun. injection Hrun as <-. reflexivity.
Defined.
