(* ===== verification/StubTxProps.v ===== *)
(** * The replies of an exported device

    What the transmitter puts on the wire for each completed request and each
    unlink, in which order, and what it frees once everything is sent. *)
From S2P Require Import Prelude Kernel Wire Event EventProps Exec Xfer XferProps IsoProps.
From S2P Require Import Filters Stub StubTx StubMain StubProps StubReqProps.

(** ** One reply *)

(** The header of the reply to request [sq]. *)
Definition ret_header (sq : Z) (r : urb) : usbip_header :=
  mkHeader (mkBasic USBIP_RET_SUBMIT sq 0 0 0)
    (mkUnion (u32 (urb_status r)) (urb_actual_length r) (u32 (urb_start_frame r))
       (u32 (urb_number_of_packets r)) (u32 (urb_error_count r)) (replicate 8 0)).

Lemma ret_header_wf sq r : is_u32 sq -> urb_wf r -> header_wf (ret_header sq r).
Proof.
  intros Hsq (? & ? & ? & ? & ? & ? & ? & ?). split_and!; [|done|done|by intros [?|?]].
  unfold header_words, ret_header. cbn.
  repeat apply Forall_cons_2; auto with usbip; done.
Qed.

Lemma length_ret_header sq r : length (wire_bytes (ret_header sq r)) = 48%nat.
Proof. done. Qed.

Section replies.
Context `{UsbPipes}.

Definition block_of (h : gmap positive (list Z)) (p : option ptr) : list Z :=
  match p with Some (b, _) => default [] (h !! b) | None => [] end.

(** The data of the reply: what an IN transfer read. *)
Definition reply_data (r : urb) (h : gmap positive (list Z)) : list Z :=
  if usb_pipein (urb_pipe r) then
    let blk := block_of h (urb_transfer_buffer r) in
    if usb_pipeisoc (urb_pipe r) then packed blk (urb_iso_frame_desc r)
    else take (Z.to_nat (urb_actual_length r)) blk
  else [].

Definition reply_isos (r : urb) : list Z :=
  if usb_pipeisoc (urb_pipe r) then iso_wire (urb_iso_frame_desc r) else [].

Definition reply_msg (x : stub_priv) (r : urb) (h : gmap positive (list Z)) : list Z :=
  wire_bytes (ret_header (u32 (sp_seqnum x)) r) ++ reply_data r h ++ reply_isos r.

(** The results a host controller reports: within the buffer, packet by packet. *)
Definition sendable (r : urb) (h : gmap positive (list Z)) : Prop :=
  urb_wf r /\ 
  (usb_pipein (urb_pipe r) = true ->
     exists b blk, urb_transfer_buffer r = Some (b, 0) /\ h !! b = Some blk /\
       urb_actual_length r <= Z.of_nat (length blk) /\
       (usb_pipeisoc (urb_pipe r) = true ->
        sum_actual (urb_iso_frame_desc r) = urb_actual_length r /\
        forall i d, urb_iso_frame_desc r !! i = Some d ->
          0 <= ui_offset d /\ 0 <= ui_actual_length d /\
          ui_offset d + ui_actual_length d <= Z.of_nat (length blk))) /\
  (usb_pipeisoc (urb_pipe r) = true ->
     urb_number_of_packets r = Z.of_nat (length (urb_iso_frame_desc r)) /\
     Forall uiso_wf (urb_iso_frame_desc r)).

Lemma iso_iov_len_sum ds n i (sd : stub_device) k :
  (i + n)%nat = length ds -> iso_iov_len ds i n sd k = Ok (sum_actual (drop i ds), sd, k).
Proof.
  revert i. induction n as [|n IH]; intros i Hi; cbn [iso_iov_len].
  - rewrite drop_ge by lia. done.
  - destruct (lookup_lt_is_Some_2 ds i ltac:(lia)) as [d Hd].
    erewrite bind_ok by (by apply of_option_ok).
    erewrite bind_ok by (apply IH; lia). by rewrite (drop_S _ _ _ Hd).
Qed.

Lemma ret_submit_data_run u r (sd : stub_device) k :
  k_urbs k !! u = Some r -> sendable r (k_heap k) ->
  ret_submit_data u sd k = Ok (Some (reply_data r (k_heap k)), sd, k).
Proof.
  intros Hu (Hwf & Hin & Hiso). unfold ret_submit_data, reply_data.
  erewrite bind_ok by (by apply get_urb_ok).
  change (usb_pipetype (urb_pipe r) =? PIPE_ISOCHRONOUS) with (usb_pipeisoc (urb_pipe r)).
  destruct (usb_pipein (urb_pipe r)); [|done]. destruct Hin as (b & blk & Hb & Hblk & Hlen & Hp); [done|].
  destruct Hwf as (_ & _ & Hal & _). unfold is_u32 in Hal. rewrite Hb. cbn [block_of]. rewrite Hblk.
  cbn [default]. destruct (usb_pipeisoc (urb_pipe r)); cbn [negb andb].
  - destruct Hp as [Hsum Hr]; [done|]. destruct Hiso as [Hnp _]; [done|]. rewrite Hnp, Nat2Z.id.
    erewrite bind_ok by (by apply iso_iov_len_sum). rewrite drop_0, Hsum, Z.eqb_refl. cbn [negb].
    by erewrite bind_ok by (eapply iso_iov_packed; done).
  - rewrite Z.gtb_ltb. case_if; bool_to_prop.
    + erewrite bind_ok by reflexivity.
      erewrite bind_ok by (apply load_bytes_ok with (blk := blk); [done|done|lia|cbn; lia]).
      done.
    + replace (urb_actual_length r) with 0 by lia. done.
Qed.

Lemma length_reply_isos r :
  Z.of_nat (length (reply_isos r)) =
    if usb_pipeisoc (urb_pipe r) then 16 * Z.of_nat (length (urb_iso_frame_desc r)) else 0.
Proof. unfold reply_isos. case_if; [rewrite length_iso_wire; lia|done]. Qed.
End replies.

Lemma setup_ret_submit_run p u x r (sd : stub_device) k :
  request p u x r sd k -> urb_wf r ->
  setup_ret_submit_pdu header_zero u sd k = Ok (ret_header (u32 (sp_seqnum x)) r, sd, k).
Proof.
  intros (_ & Hx & _ & Hu & Hc) (? & ? & Hal & ? & ? & ? & ? & ?). unfold setup_ret_submit_pdu.
  erewrite bind_ok by (by apply get_urb_ok). erewrite bind_ok by (by apply deref_ok).
  erewrite bind_ok by (by apply get_priv_ok). unfold ret_header. cbn. unfold put_ret_submit. cbn.
  autorewrite with usbip_simp. by rewrite (u32_id (urb_actual_length r)).
Qed.

(** *** Sending it *)

(** The messages handed to the socket, latest first. *)
Definition sent (tr : list call) : list (list Z) :=
  omap (fun c => match c with CSendmsg _ data _ => Some data | _ => None end) tr.

#[global] Arguments sent : simpl never.

(** Names not yet given out are not in use. *)
Definition fresh_heap (k : kernel) : Prop :=
  forall b, (k_next k <= b)%positive -> k_heap k !! b = None.

(** Only the trace and the next name differ, and [msgs] were sent. *)
Definition sending (msgs : list (list Z)) (k k' : kernel) : Prop :=
  exists tr n, k' = k <| k_trace := tr |> <| k_next := n |> /\ (k_next k <= n)%positive /\
    sent tr = reverse msgs ++ sent (k_trace k).

Definition mallocs_ok `{Env} : Prop := forall tr n, (env_answer tr (CMalloc n)).1 <> 0.

Lemma sending_trans m1 m2 k1 k2 k3 :
  sending m1 k1 k2 -> sending m2 k2 k3 -> sending (m1 ++ m2) k1 k3.
Proof.
  intros (tr & n & -> & Hn & Hs) (tr' & n' & -> & Hn' & Hs'). exists tr', n'. cbn in *.
  split_and!; [done|lia|]. by rewrite Hs', Hs, reverse_app, app_assoc.
Qed.

Lemma sending_fresh msgs k k' : sending msgs k k' -> fresh_heap k -> fresh_heap k'.
Proof. intros (tr & n & -> & Hn & _) Hf b Hb. cbn in *. apply Hf. lia. Qed.

Section send.
Context `{Env} `{Arch} `{UsbPipes} `{FilterDrivers stub_device}.

Lemma stub_send_one_run p u x r sock sd k :
  request p u x r sd k -> sendable r (k_heap k) -> mallocs_ok -> fresh_heap k ->
  ud_tcp_socket (sd_ud sd) = Some sock -> LockUd 0 ∉ k_locks k ->
  let msg := reply_msg x r (k_heap k) in
  exists k', sending [msg] k k' /\
    (stub_send_one_ret_submit p sd k = Ok (Some (Z.of_nat (length msg)), sd, k') \/
     stub_send_one_ret_submit p sd k = Ok (None, add_event SDEV_EVENT_ERROR_TCP sd, k')).
Proof.
  intros Hreq Hs Hmal Hfresh Hsock Hl msg. pose proof Hreq as (Hq & Hx & Hxu & Hu & Hc).
  pose proof Hs as (Hwf & Hin & Hiso).
  set (isoc := usb_pipeisoc (urb_pipe r)) in *.
  set (iov := (if isoc then 2 + urb_number_of_packets r else 2) * 16).
  assert (0 <= iov) as Hiov.
  { unfold iov. destruct isoc; [|lia]. destruct Hiso as [-> _]; [done|lia]. }
  set (k1 := allocated iov (replicate (Z.to_nat iov) 0) k).
  assert (k_heap k !! k_next k = None) as Hn1 by (apply Hfresh; lia).
  assert (forall b blk, k_heap k !! b = Some blk -> k_heap k1 !! b = Some blk) as Hk1.
  { intros b blk Hb. unfold k1, allocated. cbn -[replicate].
    by rewrite lookup_insert_ne by congruence. }
  assert (sendable r (k_heap k1)) as Hs1.
  { refine (conj Hwf (conj _ Hiso)). intros E. destruct (Hin E) as (b & blk & Hb & Hblk & Hrest).
    exists b, blk. split; [done|]. split; [by apply Hk1|done]. }
  assert (reply_data r (k_heap k1) = reply_data r (k_heap k)) as Hdata.
  { unfold reply_data. destruct (usb_pipein (urb_pipe r)) eqn:E; [|done].
    destruct (Hin eq_refl) as (b & blk & Hb & Hblk & _). rewrite Hb. cbn [block_of].
    by rewrite (Hk1 b blk Hblk), Hblk. }
  unfold stub_send_one_ret_submit.
  erewrite bind_ok by (by apply get_priv_ok). rewrite Hxu.
  erewrite bind_ok by reflexivity. erewrite bind_ok by (by apply get_urb_ok). cbv zeta.
  change (usb_pipetype (urb_pipe r) =? PIPE_ISOCHRONOUS) with isoc. fold iov.
  erewrite bind_ok by (apply kzalloc_ok; [done|apply Hmal]). cbv iota. fold k1.
  erewrite bind_ok by (eapply setup_ret_submit_run; done). cbv beta.
  erewrite bind_ok by (apply ret_submit_data_run; done). cbv iota. rewrite Hdata.
  assert (header_to_mem (usbip_header_correct_endian (ret_header (u32 (sp_seqnum x)) r) true) =
          wire_bytes (ret_header (u32 (sp_seqnum x)) r)) as Hhdr
    by (apply header_to_mem_wire, ret_header_wf; auto with usbip).
  assert (Z.of_nat (length msg) = sizeof_header + Z.of_nat (length (reply_data r (k_heap k))) +
            (if isoc then 16 * Z.of_nat (length (urb_iso_frame_desc r)) else 0)) as Hlen.
  { unfold msg, reply_msg. rewrite !length_app, !Nat2Z.inj_add, length_reply_isos, length_ret_header.
    fold isoc. unfold sizeof_header. lia. }
  assert (msg = wire_bytes (ret_header (u32 (sp_seqnum x)) r) ++ reply_data r (k_heap k) ++
            (if isoc then iso_wire (urb_iso_frame_desc r) else [])) as Hmsg by done.
  destruct isoc eqn:Eiso.
  - destruct Hiso as [Hnp Hdwf]; [done|]. set (ds := urb_iso_frame_desc r) in *.
    set (size := 16 * Z.of_nat (length ds)) in *.
    assert (size < 2 ^ 63) by (destruct Hwf as (_&_&_&_&_&Hnps&_); unfold is_s32 in Hnps; subst size; lia).
    assert (0 <= size) as Hsize0 by (subst size; lia).
    set (k2 := allocated size (iso_wire ds) k1).
    erewrite bind_ok.
    2: { erewrite bind_ok by (apply alloc_iso_desc_run; [exact Hu|done|done|done|apply Hmal]).
         reflexivity. }
    fold ds size k2. cbv beta iota. cbn [mbind option_bind fst snd default from_option]. unfold id.
    erewrite bind_ok.
    2: { apply load_bytes_ok with (blk := iso_wire ds); [apply lookup_insert_eq|done|done|].
         rewrite length_iso_wire. cbn [snd]. subst size; lia. }
    cbv beta. rewrite drop_0. rewrite take_ge by (rewrite length_iso_wire; subst size; lia).
    erewrite bind_ok by reflexivity. cbv beta. rewrite Hsock. erewrite bind_ok by reflexivity.
    rewrite Hhdr, <- Hmsg, <- Hlen.
    erewrite bind_ok by apply ext_ret_ok.
    assert (k_next k <> Pos.succ (k_next k)) as Hne by lia.
    assert (k_heap k !! Pos.succ (k_next k) = None) as Hn2 by (apply Hfresh; lia).
    assert (release_ptr (Some (k_next k, 0)) (k_heap k2) = Some (delete (k_next k) (k_heap k2))) as F1.
    { unfold k2, k1, allocated. cbn -[iso_wire replicate].
      by rewrite lookup_insert_ne, lookup_insert_eq by done. }
    assert (release_ptr (Some (k_next k1, 0)) (delete (k_next k) (k_heap k2)) = Some (k_heap k)) as F2.
    { unfold k2, k1, allocated. cbn -[iso_wire replicate].
      rewrite lookup_delete_ne, lookup_insert_eq by done. cbn.
      rewrite delete_insert_ne by done. rewrite !delete_insert_eq. f_equal.
      rewrite (delete_id _ (k_next k)) by done. by rewrite delete_id. }
    case_if.
    + eexists. split; [|right; erewrite bind_ok by (apply kfree_release; exact F1);
        erewrite bind_ok by (apply kfree_release; exact F2);
        by erewrite bind_ok by by apply event_add_ok].
      eexists _, _. split; [reflexivity|]. cbn. split; [lia|done].
    + eexists. split; [|left; erewrite bind_ok by (apply kfree_release; exact F1);
        by erewrite bind_ok by (apply kfree_release; exact F2)].
      eexists _, _. split; [reflexivity|]. cbn. split; [lia|done].
  - erewrite bind_ok by reflexivity. cbv beta iota. cbn [mbind option_bind fst snd default from_option].
    erewrite bind_ok by reflexivity.
    erewrite bind_ok by reflexivity. cbv beta. rewrite Hsock. erewrite bind_ok by reflexivity.
    rewrite Hhdr, <- Hmsg, <- Hlen.
    erewrite bind_ok by apply ext_ret_ok.
    assert (release_ptr (Some (k_next k, 0)) (k_heap k1) = Some (k_heap k)) as F1.
    { unfold k1, allocated. cbn -[replicate]. rewrite lookup_insert_eq. cbn.
      by rewrite delete_insert_id. }
    case_if.
    + eexists. split; [|right; erewrite bind_ok by (apply kfree_release; exact F1);
        erewrite bind_ok by reflexivity;
        by erewrite bind_ok by by apply event_add_ok].
      eexists _, _. split; [reflexivity|]. cbn. split; [lia|done].
    + eexists. split; [|left; by erewrite bind_ok by (apply kfree_release; exact F1)].
      eexists _, _. split; [reflexivity|]. cbn. split; [lia|done].
Qed.

(** ** All replies *)

(** The requests [ps] are queued, with these numbers and URBs, ready to be sent. *)
Definition ready (sd : stub_device) (k : kernel) (ps : list positive) (msgs : list (list Z)) : Prop :=
  Forall2 (fun p msg => exists u x r, request p u x r sd k /\ sendable r (k_heap k) /\
             msg = reply_msg x r (k_heap k)) ps msgs.

(** The device after [done] of its replies were taken from the queue. *)
Definition moved (taken rest : list positive) (sd : stub_device) : stub_device :=
  sd <| sd_priv_tx := rest |> <| sd_priv_free := sd_priv_free sd ++ taken |>.

Lemma unlink_first sd p ps :
  NoDup (queued sd) -> sd_priv_tx sd = p :: ps ->
  unlink_priv p sd = sd <| sd_priv_tx := ps |>.
Proof.
  intros Hnd Ht. unfold queued in Hnd. rewrite Ht in Hnd.
  apply NoDup_app in Hnd as (_ & Hi & Hnd).
  change (NoDup (p :: (ps ++ sd_priv_free sd))) in Hnd. apply NoDup_cons in Hnd as [Hnp _].
  assert (p ∉ sd_priv_init sd) by (intros Hin; apply (Hi p Hin); set_solver).
  unfold unlink_priv. rewrite Ht, remove_id_cons_eq.
  rewrite !remove_id_notin by set_solver. by destruct sd.
Qed.

Lemma dequeue_from_priv_tx_run sd k :
  NoDup (queued sd) -> LockPriv 0 ∉ k_locks k ->
  dequeue_from_priv_tx sd k =
    match sd_priv_tx sd with
    | [] => Ok (None, sd, k)
    | p :: ps => Ok (Some p, moved [p] ps sd, k)
    end.
Proof.
  intros Hnd Hl. unfold dequeue_from_priv_tx. exec_step. exec_step.
  destruct (sd_priv_tx sd) as [|p ps] eqn:Ht.
  - exec_step. by destruct k.
  - unfold move_to_free. erewrite bind_ok by reflexivity. cbv beta zeta.
    rewrite (unlink_first sd p ps) by done. exec_step. by destruct k.
Qed.

Lemma moved_queued sd p ps :
  sd_priv_tx sd = p :: ps -> queued sd ≡ₚ queued (moved [p] ps sd).
Proof. intros Ht. unfold queued, moved. cbn. rewrite Ht. solve_Permutation. Qed.

Lemma ready_ext sd sd' k k' ps msgs :
  ready sd k ps msgs -> queued sd ≡ₚ queued sd' -> sd_privs sd' = sd_privs sd ->
  k_urbs k' = k_urbs k -> k_heap k' = k_heap k -> ready sd' k' ps msgs.
Proof.
  intros Hr Hq Hp Hu Hh. eapply Forall2_impl; [exact Hr|]. intros p msg (u & x & r & Hreq & Hs & ->).
  exists u, x, r. rewrite Hh. split; [|done]. destruct Hreq as (E1 & E2 & E3 & E4 & E5).
  split_and!; [by rewrite <- Hq|by rewrite Hp|done|by rewrite Hu|done].
Qed.

(** How far the loop comes: all replies, or up to one the socket did not take. *)
Lemma stub_send_loop_run sock msgs fuel sd k total :
  NoDup (queued sd) -> ready sd k (sd_priv_tx sd) msgs -> (length msgs < fuel)%nat ->
  mallocs_ok -> fresh_heap k -> ud_tcp_socket (sd_ud sd) = Some sock ->
  LockPriv 0 ∉ k_locks k -> LockUd 0 ∉ k_locks k ->
  exists k', (sending msgs k k' /\
      stub_send_ret_submit_loop fuel total sd k =
        Ok (Some (total + Z.of_nat (length (mjoin msgs))), moved (sd_priv_tx sd) [] sd, k')) \/
    (exists m, (0 < m <= length msgs)%nat /\ sending (take m msgs) k k' /\
      stub_send_ret_submit_loop fuel total sd k =
        Ok (None, add_event SDEV_EVENT_ERROR_TCP
                    (moved (take m (sd_priv_tx sd)) (drop m (sd_priv_tx sd)) sd), k')).
Proof.
  revert sd k total msgs. induction fuel as [|fuel IH]; intros sd k total msgs Hnd Hr Hf Hmal Hfr Hsock Hl1 Hl2; [lia|].
  cbn [stub_send_ret_submit_loop].
  unfold mbind, M_bind. rewrite dequeue_from_priv_tx_run by done.
  destruct (sd_priv_tx sd) as [|p ps] eqn:Ht.
  - apply Forall2_nil_inv_l in Hr as ->. exists k. left. split.
    + exists (k_trace k), (k_next k). split; [by destruct k|]. split; [lia|done].
    + cbn. rewrite Z.add_0_r. unfold moved. rewrite app_nil_r. destruct sd; cbn in *. by subst.
  - pose proof Hr as Hr0.
    apply Forall2_cons_inv_l in Hr as (msg & msgs' & (u & x & r & Hreq & Hs & Hmsg) & Hr & ->).
    set (sd1 := moved [p] ps sd).
    pose proof (moved_queued sd p ps Ht) as Hq. fold sd1 in Hq.
    assert (request p u x r sd1 k) as Hreq1.
    { destruct Hreq as (E3 & E4 & E5 & E6 & E7). split_and!; [by rewrite <- Hq|done..]. }
    destruct (stub_send_one_run p u x r sock sd1 k Hreq1 Hs Hmal Hfr Hsock Hl2)
      as (k1 & Hk1 & [Hrun|Hrun]); rewrite <- Hmsg in *; rewrite Hrun.
    + assert (ready sd1 k1 ps msgs') as Hr1.
      { destruct Hk1 as (tr & n & -> & _). by eapply ready_ext. }
      destruct (IH sd1 k1 (total + Z.of_nat (length msg)) msgs') as (k2 & Hk2).
      * by rewrite <- Hq.
      * exact Hr1.
      * cbn in Hf. lia.
      * done.
      * by eapply sending_fresh.
      * done.
      * by destruct Hk1 as (tr & n & -> & _).
      * by destruct Hk1 as (tr & n & -> & _).
      * exists k2. destruct Hk2 as [[Hk2 Hrun2]|(m & Hm & Hk2 & Hrun2)]; [left|right].
        -- split; [by eapply (sending_trans [msg])|]. rewrite Hrun2. unfold sd1, moved. cbn -[Z.add].
           rewrite length_app, Nat2Z.inj_add, <- app_assoc, Z.add_assoc. done.
        -- exists (S m). cbn [length take drop]. split; [lia|].
           split; [by eapply (sending_trans [msg])|]. rewrite Hrun2. unfold sd1, moved, add_event. cbn.
           by rewrite <- app_assoc.
    + exists k1. right. exists 1%nat. cbn [length take drop]. split; [lia|]. done.
Qed.
End send.

(** Freeing what was sent. *)
Lemma for_each_free q sd k us privs urbs h :
  NoDup (queued sd) -> sd_priv_free sd = q ->
  release q (store_of sd k) = Some (us, (privs, urbs, h)) ->
  for_each q stub_free_priv_and_urb sd k =
    Ok (tt, sd <| sd_priv_free := [] |> <| sd_privs := privs |>,
        k <| k_urbs := urbs |> <| k_heap := h |>).
Proof.
  revert sd k us. induction q as [|p q IH]; intros sd k us Hnd Hq Hr.
  - cbn in Hr. injection Hr as <- <- <- <-. cbn [for_each]. destruct sd, k; cbn in *; by subst.
  - cbn [release] in Hr. destruct (release1 p (store_of sd k)) as [[u [[privs1 urbs1] h1]]|] eqn:E1; [|done].
    cbn in Hr. destruct (release q (privs1, urbs1, h1)) as [[us1 st]|] eqn:E2; [|done].
    cbn in Hr. injection Hr as <- ->. cbn [for_each].
    erewrite bind_ok by (eapply stub_free_priv_and_urb_run; exact E1). cbv beta.
    assert (unlink_priv p sd = sd <| sd_priv_free := q |>) as Hu.
    { unfold queued in Hnd. rewrite Hq in Hnd.
      apply NoDup_app in Hnd as (_ & Hi & Hnd). apply NoDup_app in Hnd as (_ & Ht & Hnd).
      apply NoDup_cons in Hnd as [Hn _].
      assert (p ∉ sd_priv_init sd) by (intros Hin; apply (Hi p Hin); set_solver).
      assert (p ∉ sd_priv_tx sd) by (intros Hin; apply (Ht p Hin); set_solver).
      unfold unlink_priv. rewrite Hq, remove_id_cons_eq.
      rewrite !remove_id_notin by done. by destruct sd. }
    change (unlink_priv p (sd <| sd_privs := privs1 |>))
      with ((unlink_priv p sd) <| sd_privs := privs1 |>). rewrite Hu.
    rewrite (IH _ _ us1); [|..|exact E2].
    + cbn. do 2 f_equal. 
    + unfold queued in *. cbn. rewrite Hq in Hnd. rewrite app_assoc in Hnd |- *.
      apply NoDup_app in Hnd as (Hnd & Hd & [_ Hnq]%NoDup_cons).
      apply NoDup_app. split_and!; [done| |done]. intros x Hx Hin. apply (Hd x Hx). set_solver.
    + done.
Qed.

(** A round of replies. *)
Lemma stub_replies_run `{Env} `{Arch} `{UsbPipes} sock msgs sd k :
  stub_wf sd k -> ready sd k (sd_priv_tx sd) msgs -> mallocs_ok -> fresh_heap k ->
  ud_tcp_socket (sd_ud sd) = Some sock -> LockPriv 0 ∉ k_locks k -> LockUd 0 ∉ k_locks k ->
  exists m ret sd' k', stub_send_ret_submit sd k = Ok (ret, sd', k') /\ stub_wf sd' k' /\
    k_locks k' = k_locks k /\ sd_priv_init sd' = sd_priv_init sd /\
    sent (k_trace k') = reverse (take m msgs) ++ sent (k_trace k) /\
    ((m = length msgs /\ ret = s32 (Z.of_nat (length (mjoin msgs))) /\
      sd_priv_tx sd' = [] /\ sd_priv_free sd' = [] /\ sd_ud sd' = sd_ud sd /\
      exists us, release (sd_priv_free sd ++ sd_priv_tx sd) (store_of sd k)
                   = Some (us, store_of sd' k')) \/
     ((0 < m <= length msgs)%nat /\ ret = -1 /\ store_of sd' k' = store_of sd k /\
      sd_priv_tx sd' = drop m (sd_priv_tx sd) /\
      sd_priv_free sd' = sd_priv_free sd ++ take m (sd_priv_tx sd) /\
      sd_ud sd' = sd_ud (add_event SDEV_EVENT_ERROR_TCP sd))).
Proof.
  intros Hwf Hr Hmal Hfr Hsock Hl1 Hl2. pose proof Hwf as [Hnd [[us st] Hrel]].
  pose proof (Forall2_length _ _ _ Hr) as Hlen.
  destruct (stub_send_loop_run sock msgs (S (length (sd_priv_tx sd))) sd k 0 Hnd Hr)
    as (k1 & Hk1); [lia|done..|].
  unfold stub_send_ret_submit. erewrite bind_ok by reflexivity. cbv beta.
  destruct Hk1 as [[(tr & n & -> & Hn & Hs) Hrun]|(m & Hm & (tr & n & -> & Hn & Hs) & Hrun)];
    erewrite bind_ok by exact Hrun; cbv beta iota.
  - set (sd1 := moved (sd_priv_tx sd) [] sd).
    assert (queued sd ≡ₚ sd_priv_free sd1 ++ sd_priv_init sd) as Hp
      by (unfold queued, sd1, moved; cbn; solve_Permutation).
    assert (queued sd ≡ₚ queued sd1) as Hp'
      by (rewrite Hp; unfold queued, sd1, moved; cbn; solve_Permutation).
    destruct (release_perm _ _ _ _ _ Hp Hrel) as (us' & _ & Hrel').
    set (k2 := k <| k_trace := tr |> <| k_next := n |> <| k_locks := LockPriv 0 :: k_locks k |>).
    apply release_app in Hrel' as (us1 & [[privs urbs] h] & us2 & R1 & R2).
    exec_step. fold k2. exec_step.
    erewrite bind_ok.
    2: { apply (for_each_free _ _ _ us1 privs urbs h); [|reflexivity|exact R1].
         rewrite <- Hp'. exact Hnd. }
    cbv beta. exec_step. eexists (length msgs), _, _, _.
    split; [reflexivity|].
    assert (queued (sd1 <| sd_priv_free := [] |> <| sd_privs := privs |>) = sd_priv_init sd) as Hqi
      by (unfold queued; cbn; by rewrite app_nil_r).
    split; [split; rewrite Hqi; [|by exists (us2, st)]|].
    { unfold queued in Hnd. by apply NoDup_app in Hnd as [? _]. }
    split; [done|]. split; [done|]. split; [by rewrite take_ge by done|].
    left. split_and!; [done|done|done|done|done|]. exists us1. exact R1.
  - set (sd1 := moved (take m (sd_priv_tx sd)) (drop m (sd_priv_tx sd)) sd).
    eexists m, _, _, _. split; [reflexivity|].
    split.
    { eapply stub_wf_moved; [exact Hwf| |done]. unfold queued, add_event, sd1, moved. cbn.
      rewrite <- (take_drop m (sd_priv_tx sd)) at 1. solve_Permutation. }
    split; [done|]. split; [done|]. split; [done|]. right. done.
Qed.

(** C34: a round of the transmitter sends the replies of the completed requests
    in the order of their completion, each once: header, data and descriptors
    in the protocol's format.  If the connection takes them all, the requests
    are freed, and nothing else; otherwise the connection is shut down by an
    event and the requests stay, those sent apart from those not sent. *)
Theorem stub_replies_sent `{Env} `{Arch} `{UsbPipes} sock msgs sd k :
  stub_wf sd k -> ready sd k (sd_priv_tx sd) msgs -> mallocs_ok -> fresh_heap k ->
  ud_tcp_socket (sd_ud sd) = Some sock -> LockPriv 0 ∉ k_locks k -> LockUd 0 ∉ k_locks k ->
  exists m ret sd' k', stub_send_ret_submit sd k = Ok (ret, sd', k') /\ stub_wf sd' k' /\
    k_locks k' = k_locks k /\ sd_priv_init sd' = sd_priv_init sd /\
    sent (k_trace k') = reverse (take m msgs) ++ sent (k_trace k) /\
    ((m = length msgs /\ ret = s32 (Z.of_nat (length (mjoin msgs))) /\
      sd_priv_tx sd' = [] /\ sd_priv_free sd' = [] /\ sd_ud sd' = sd_ud sd /\
      exists us, release (sd_priv_free sd ++ sd_priv_tx sd) (store_of sd k)
                   = Some (us, store_of sd' k')) \/
     ((0 < m <= length msgs)%nat /\ ret = -1 /\ store_of sd' k' = store_of sd k /\
      sd_priv_tx sd' = drop m (sd_priv_tx sd) /\
      sd_priv_free sd' = sd_priv_free sd ++ take m (sd_priv_tx sd) /\
      sd_ud sd' = sd_ud (add_event SDEV_EVENT_ERROR_TCP sd))).
Proof. apply stub_replies_run. Qed.

(** ** Replies to unlinks *)

Definition ret_unlink_header (x : stub_unlink) : usbip_header :=
  mkHeader (mkBasic USBIP_RET_UNLINK (u32 (su_seqnum x)) 0 0 0)
    (mkUnion (u32 (su_status x)) 0 0 0 0 (replicate 8 0)).

Lemma ret_unlink_wire `{Arch} x :
  header_to_mem (usbip_header_correct_endian (setup_ret_unlink_pdu header_zero x) true)
  = wire_bytes (ret_unlink_header x).
Proof.
  replace (setup_ret_unlink_pdu header_zero x) with (ret_unlink_header x).
  - apply header_to_mem_wire. split_and!; [|done|done|done].
    unfold header_words, ret_unlink_header. cbn.
    repeat apply Forall_cons_2; auto with usbip; done.
  - unfold setup_ret_unlink_pdu, ret_unlink_header, put_ret_unlink. cbn.
    by autorewrite with usbip_simp.
Qed.

Definition unlinks_moved (taken rest : list stub_unlink) (sd : stub_device) : stub_device :=
  sd <| sd_unlink_tx := rest |> <| sd_unlink_free := sd_unlink_free sd ++ taken |>.

Lemma dequeue_from_unlink_tx_run sd k :
  LockPriv 0 ∉ k_locks k ->
  dequeue_from_unlink_tx sd k =
    match sd_unlink_tx sd with
    | [] => Ok (None, sd, k)
    | x :: xs => Ok (Some x, unlinks_moved [x] xs sd, k)
    end.
Proof.
  intros Hl. unfold dequeue_from_unlink_tx. exec_step. exec_step.
  destruct (sd_unlink_tx sd) as [|x xs]; [exec_step|].
  - by destruct k.
  - erewrite bind_ok by reflexivity. exec_step. by destruct k.
Qed.

Lemma stub_unlink_loop_run `{Env} `{Arch} sock fuel sd k total :
  (length (sd_unlink_tx sd) < fuel)%nat -> ud_tcp_socket (sd_ud sd) = Some sock ->
  LockPriv 0 ∉ k_locks k -> LockUd 0 ∉ k_locks k ->
  let msgs := (fun x => wire_bytes (ret_unlink_header x)) <$> sd_unlink_tx sd in
  exists k', (sending msgs k k' /\
      stub_send_ret_unlink_loop fuel total sd k =
        Ok (Some (total + 48 * Z.of_nat (length msgs)), unlinks_moved (sd_unlink_tx sd) [] sd, k')) \/
    (exists m, (0 < m <= length msgs)%nat /\ sending (take m msgs) k k' /\
      stub_send_ret_unlink_loop fuel total sd k =
        Ok (None, add_event SDEV_EVENT_ERROR_TCP
              (unlinks_moved (take m (sd_unlink_tx sd)) (drop m (sd_unlink_tx sd)) sd), k')).
Proof.
  revert sd k total. induction fuel as [|fuel IH]; intros sd k total Hf Hsock Hl1 Hl2 msgs; [lia|].
  cbn [stub_send_ret_unlink_loop]. pose proof (dequeue_from_unlink_tx_run sd k Hl1) as Hdq.
  subst msgs. destruct (sd_unlink_tx sd) as [|x xs] eqn:Ht; cbn [fmap list_fmap];
    erewrite bind_ok by exact Hdq; cbv beta iota.
  - exists k. left. split.
    + exists (k_trace k), (k_next k). split; [by destruct k|]. split; [lia|done].
    + cbn. rewrite Z.add_0_r. unfold unlinks_moved. rewrite app_nil_r. destruct sd; cbn in *. by subst.
  - set (sd1 := unlinks_moved [x] xs sd). set (msg := wire_bytes (ret_unlink_header x)).
    cbv zeta. rewrite ret_unlink_wire. fold msg sd1. erewrite bind_ok by reflexivity. cbv beta.
    change (ud_tcp_socket (sd_ud sd1)) with (ud_tcp_socket (sd_ud sd)). rewrite Hsock.
    erewrite bind_ok by reflexivity. erewrite bind_ok by apply ext_ret_ok. cbv beta.
    set (k1 := traced [CSendmsg sock msg sizeof_header] k).
    assert (sending [msg] k k1) as Hk1 by (exists (k_trace k1), (k_next k); split_and!; [done|lia|done]).
    case_if.
    + exists (traced [CWakeUp Q_EH] k1). right. exists 1%nat. cbn [length take drop].
      split; [lia|]. split; [exists (k_trace (traced [CWakeUp Q_EH] k1)), (k_next k); split; [reflexivity|]; split; [cbn; lia|by cbn]|].
      by erewrite bind_ok by by apply event_add_ok.
    + destruct (IH sd1 k1 (total + sizeof_header)) as (k2 & Hk2); [cbn in Hf |- *; lia|done..|].
      change (sd_unlink_tx sd1) with xs in Hk2.
      exists k2. destruct Hk2 as [[Hk2 Hrun2]|(m & Hm & Hk2 & Hrun2)]; [left|right].
      * split; [by eapply (sending_trans [msg])|]. rewrite Hrun2. unfold sd1, unlinks_moved. cbn -[Z.add Z.mul Z.of_nat].
        rewrite <- app_assoc. do 4 f_equal. rewrite Nat2Z.inj_succ. unfold sizeof_header. lia.
      * exists (S m). cbn [length take drop] in *. split; [lia|].
        split; [by eapply (sending_trans [msg])|]. rewrite Hrun2.
        unfold sd1, unlinks_moved, add_event. cbn. by rewrite <- app_assoc.
Qed.

(** the replies to unlinks are sent in order, each once and 48 bytes long,
    with the unlink's number and status.  If the connection takes them all,
    both queues end up empty; otherwise it is shut down by an event and exactly
    those not sent are still in the queue. *)
Theorem stub_unlinks_sent `{Env} `{Arch} sock sd k :
  ud_tcp_socket (sd_ud sd) = Some sock -> LockPriv 0 ∉ k_locks k -> LockUd 0 ∉ k_locks k ->
  let msgs := (fun x => wire_bytes (ret_unlink_header x)) <$> sd_unlink_tx sd in
  exists m ret sd' k', stub_send_ret_unlink sd k = Ok (ret, sd', k') /\
    sent (k_trace k') = reverse (take m msgs) ++ sent (k_trace k) /\
    store_of sd' k' = store_of sd k /\ queued sd' = queued sd /\ k_locks k' = k_locks k /\
    ((m = length msgs /\ ret = s32 (48 * Z.of_nat m) /\
      sd_unlink_tx sd' = [] /\ sd_unlink_free sd' = [] /\ sd_ud sd' = sd_ud sd) \/
     ((0 < m <= length msgs)%nat /\ ret = -1 /\ sd_unlink_tx sd' = drop m (sd_unlink_tx sd) /\
      sd_unlink_free sd' = sd_unlink_free sd ++ take m (sd_unlink_tx sd) /\
      sd_ud sd' = sd_ud (add_event SDEV_EVENT_ERROR_TCP sd))).
Proof.
  intros Hsock Hl1 Hl2 msgs.
  destruct (stub_unlink_loop_run sock (S (length (sd_unlink_tx sd))) sd k 0)
    as (k1 & Hk1); [lia|done..|]. fold msgs in Hk1.
  unfold stub_send_ret_unlink. erewrite bind_ok by reflexivity. cbv beta.
  destruct Hk1 as [[(tr & n & -> & Hn & Hs) Hrun]|(m & Hm & (tr & n & -> & Hn & Hs) & Hrun)];
    erewrite bind_ok by exact Hrun; cbv beta iota.
  - exec_step. erewrite bind_ok by reflexivity. exec_step.
    eexists (length msgs), _, _, _. split; [reflexivity|].
    split_and!; [by rewrite take_ge by done|done|done|done|]. left. by rewrite Z.add_0_l.
  - eexists m, _, _, _. split; [reflexivity|]. split_and!; [done|done|done|done|]. right. done.
Qed.

(** ** Sample *)

(** A connection that takes every message but those longer than [limit]. *)
Definition send_env (limit : Z) : Env := fun _ c =>
  match c with
  | CSendmsg _ _ n => (if n <=? limit then n else -1, [])
  | _ => (1, [])
  end.

Definition sample_done_priv : stub_priv := mkStubPriv 102 (Some 22%positive) 0 false.

Lemma sample_ready e :
  @ready linux_pipes (sample_sdev e) sample_stub_kernel [12%positive]
    [@reply_msg linux_pipes sample_done_priv sample_done_urb (k_heap sample_stub_kernel)].
Proof.
  apply Forall2_cons. split; [|by apply Forall2_nil].
  exists 22%positive, sample_done_priv, sample_done_urb. split; [|split; [|done]].
  - split_and!; [unfold queued; cbn; set_solver|reflexivity..].
  - split; [unfold urb_wf, is_u32, is_s32; cbn; lia|]. split; [|discriminate].
    intros _. exists 33%positive, [4; 5; 0; 0].
    split; [reflexivity|]. split; [reflexivity|]. split; [by vm_compute|discriminate].
Qed.

Lemma sample_fresh_heap : fresh_heap sample_stub_kernel.
Proof.
  intros b Hb. change (k_next sample_stub_kernel) with 50%positive in Hb.
  cbn -[replicate]. by rewrite !lookup_insert_ne by lia.
Qed.

(** The two bytes the URB read are sent behind the header; its memory is freed. *)
Lemma stub_replies_sent_witness :
  exists sd' k', @stub_send_ret_submit (send_env 100) false linux_pipes (sample_sdev 0)
      sample_stub_kernel = Ok (50, sd', k') /\
    sent (k_trace k') = [wire_bytes (ret_header 102 sample_done_urb) ++ [4; 5]] /\
    sd_priv_tx sd' = [] /\ dom (k_heap k') = {[31; 32]}%positive.
Proof.
  destruct (@stub_replies_sent (send_env 100) false linux_pipes 7
    [@reply_msg linux_pipes sample_done_priv sample_done_urb (k_heap sample_stub_kernel)]
    (sample_sdev 0) sample_stub_kernel)
    as (m & ret & sd' & k' & Hrun & _ & _ & _ & Hs & Hout).
  - apply sample_stub_wf.
  - apply sample_ready.
  - intros tr n. discriminate.
  - apply sample_fresh_heap.
  - reflexivity.
  - cbn. set_solver.
  - cbn. set_solver.
  - assert (ret = 50) as ->.
    { vm_compute in Hrun. by injection Hrun as <- _ _. }
    destruct Hout as [(-> & _ & Ht & _)|(_ & ? & _)]; [|done].
    exists sd', k'. split; [exact Hrun|]. split; [rewrite Hs; by vm_compute|].
    split; [exact Ht|]. vm_compute in Hrun. injection Hrun as _ <-. by vm_compute.
Defined.

(** The connection takes nothing: the reply to the unlink stays accounted for. *)
Lemma stub_unlinks_sent_witness :
  exists sd' k', @stub_send_ret_unlink (send_env 10) true (sample_sdev 0) sample_stub_kernel
      = Ok (-1, sd', k') /\
    sent (k_trace k') = [wire_bytes (ret_unlink_header (mkStubUnlink 103 0))] /\
    ud_event (sd_ud sd') = SDEV_EVENT_ERROR_TCP.
Proof.
  destruct (@stub_unlinks_sent (send_env 10) true 7 (sample_sdev 0) sample_stub_kernel)
    as (m & ret & sd' & k' & Hrun & Hs & _ & _ & _ & Hout).
  - reflexivity.
  - cbn. set_solver.
  - cbn. set_solver.
  - assert (ret = -1) as -> by (vm_compute in Hrun; by injection Hrun as <- _ _).
    destruct Hout as [(-> & Hr & _)|([H0 H1] & _ & _ & _ & Hud)]; [by vm_compute in Hr|].
    assert (m = 1%nat) as -> by (cbn in H1; lia).
    exists sd', k'. split; [exact Hrun|]. split; [rewrite Hs; by vm_compute|].
    rewrite Hud. reflexivity.
Defined.
