(* ===== verification/StubRxProps.v ===== *)
(** * Building an URB for a request

    The endpoint a request names, the control requests the device must not see
    as they are, the flags an endpoint allows, and the URB that is submitted. *)
From S2P Require Import Prelude Kernel Wire Event EventProps Exec Xfer XferProps Filters FilterProps.
From S2P Require Import Stub StubTx StubRx StubMain StubDev StubProps StubReqProps IsoProps.

(** ** The endpoint *)

(** The endpoint a request names, by its number or its address, which has the
    direction in bit 7: the arrays have sixteen entries each. *)
Definition endpoint_of (dev : usb_device) (epnum dir : Z) : option endpoint :=
  mjoin ((if dir =? USBIP_DIR_IN then dev_ep_in dev else dev_ep_out dev) !! Z.to_nat (Z.land epnum 127)).
Definition ep_address (n : Z) : Prop := 0 <= n < 256 /\ Z.land n 127 < 16.

(** The pipe's type for a descriptor's type: the two number them differently. *)
Definition pipe_type (xfertype : Z) : Z :=
  if xfertype =? USB_ENDPOINT_XFER_CONTROL then PIPE_CONTROL
  else if xfertype =? USB_ENDPOINT_XFER_BULK then PIPE_BULK
  else if xfertype =? USB_ENDPOINT_XFER_INT then PIPE_INTERRUPT
  else PIPE_ISOCHRONOUS.

Definition dev_wf (dev : usb_device) : Prop :=
  0 <= dev_devnum dev < 128 /\ length (dev_ep_in dev) = 16%nat /\
  length (dev_ep_out dev) = 16%nat.

Lemma land_127 n : Z.land n 127 = n mod 128.
Proof. change 127 with (Z.ones 7). by rewrite Z.land_ones by lia. Qed.

Lemma ep_address_mod n : ep_address n -> n mod 16 = Z.land n 127.
Proof. unfold ep_address. rewrite land_127. intros. Z.div_mod_to_equations. lia. Qed.

Lemma ep_number_address n : 0 <= n < 16 -> ep_address n.
Proof. intros. split; [lia|]. rewrite land_127, Z.mod_small; lia. Qed.

Lemma get_pipe_run `{UsbPipes} epnum dir dev e sd (k : kernel) :
  k_udevs k !! sd_udev sd = Some dev -> endpoint_of dev epnum dir = Some e -> 0 <= ep_xfertype e < 4 ->
  get_pipe epnum dir sd k =
    Ok (usb_mkpipe (pipe_type (ep_xfertype e)) (negb (dir =? USBIP_DIR_OUT))
          (dev_devnum dev) epnum, sd, k).
Proof.
  intros Hd He Ht. unfold get_pipe. erewrite bind_ok by reflexivity.
  erewrite bind_ok by (by apply get_udev_ok).
  unfold endpoint_of in He. destruct (_ !! Z.to_nat (Z.land epnum 127)) as [o|] eqn:Ho; [|done].
  cbn in He. subst o. erewrite bind_ok by reflexivity. cbv beta iota zeta.
  unfold pipe_type, USB_ENDPOINT_XFER_CONTROL, USB_ENDPOINT_XFER_BULK, USB_ENDPOINT_XFER_INT,
    USB_ENDPOINT_XFER_ISOC.
  repeat case_if; bool_to_prop; done || lia.
Qed.

(** A request for an endpoint the device has gets that endpoint's pipe: its
    number, direction and transfer type.  The number is taken from the network
    and only masked to seven bits: for an endpoint that is not there the driver
    stops the machine, and from sixteen on it reads outside the endpoint array. *)
Theorem get_pipe_correct `{UsbPipes} `{!UsbPipesOk} epnum dir dev sd k :
  k_udevs k !! sd_udev sd = Some dev -> dev_wf dev ->
  0 <= epnum < 256 -> dir = USBIP_DIR_IN \/ dir = USBIP_DIR_OUT ->
  if Z.land epnum 127 <? 16 then
    match endpoint_of dev epnum dir with
    | Some e => 0 <= ep_xfertype e < 4 -> exists pipe,
        get_pipe epnum dir sd k = Ok (pipe, sd, k) /\
        usb_pipeendpoint pipe = Z.land epnum 127 /\ usb_pipedevice pipe = dev_devnum dev /\
        usb_pipein pipe = (dir =? USBIP_DIR_IN) /\
        usb_pipetype pipe = pipe_type (ep_xfertype e)
    | None => get_pipe epnum dir sd k = Crash BugOn
    end
  else get_pipe epnum dir sd k = Crash OutOfBounds.
Proof.
  intros Hd (Hdn & Hin & Hout) Hn Hdir.
  assert (length (if dir =? USBIP_DIR_IN then dev_ep_in dev else dev_ep_out dev) = 16%nat) as Hlen
    by (by case_if).
  assert (forall t, 0 <= pipe_type t < 4) as Hpt.
  { intros t. unfold pipe_type, PIPE_CONTROL, PIPE_BULK, PIPE_INTERRUPT, PIPE_ISOCHRONOUS.
    repeat case_if; lia. }
  case_if; bool_to_prop.
  - destruct (endpoint_of dev epnum dir) as [e|] eqn:He.
    + intros Ht. eexists. split; [by eapply get_pipe_run|].
      rewrite pipeendpoint_mk, pipedevice_mk, pipein_mk, pipetype_mk by auto with lia.
      split_and!; [by apply ep_address_mod|done| |done]. by destruct Hdir as [-> | ->].
    + unfold get_pipe. erewrite bind_ok by reflexivity.
      erewrite bind_ok by (by apply get_udev_ok).
      destruct (lookup_lt_is_Some_2 (if dir =? USBIP_DIR_IN then dev_ep_in dev else dev_ep_out dev)
        (Z.to_nat (Z.land epnum 127))) as [o Ho]; [lia|].
      unfold endpoint_of in He. rewrite Ho in He. cbn in He. subst o.
      by erewrite bind_ok by (apply of_option_ok; exact Ho).
  - unfold get_pipe. erewrite bind_ok by reflexivity.
    erewrite bind_ok by (by apply get_udev_ok).
    rewrite (lookup_ge_None_2 _ (Z.to_nat (Z.land epnum 127))) by lia. done.
Qed.

(** ** Transfer flags *)

(** Which flag bits may stay, bit by bit: the DMA mapping (2), interrupt (7),
    buffer ownership (8) and direction (9) bits always, the others by endpoint
    type and direction. *)
Definition permitted (xfertype : Z) (is_out : bool) (n : Z) : bool :=
  (n =? 2) || (n =? 7) || (n =? 8) || (n =? 9)
  || (n =? 1) && (xfertype =? USB_ENDPOINT_XFER_ISOC)
  || (n =? 6) && (xfertype =? USB_ENDPOINT_XFER_BULK) && is_out
  || (n =? 5) && ((xfertype =? USB_ENDPOINT_XFER_BULK) || (xfertype =? USB_ENDPOINT_XFER_CONTROL))
  || (n =? 0) && negb is_out && negb (xfertype =? USB_ENDPOINT_XFER_ISOC).

Lemma testbit_small x n : 0 <= x < 2 ^ 10 -> 10 <= n -> Z.testbit x n = false.
Proof.
  intros Hx Hn. rewrite Z.testbit_odd, Z.shiftr_div_pow2 by lia.
  rewrite Z.div_small; [done|]. split; [lia|].
  apply Z.lt_le_trans with (2 ^ 10); [lia|]. apply Z.pow_le_mono_r; lia.
Qed.

(** A boolean property of the numbers below a bound is checked by evaluation. *)
Lemma all_below (m : nat) (P : Z -> bool) (Q : Z -> Prop) :
  forallb P (seqZ 0 (Z.of_nat m)) = true -> (forall n, P n = true -> Q n) ->
  forall n, 0 <= n -> n < Z.of_nat m -> Q n.
Proof.
  rewrite forallb_forall. intros HP HQ n Hn Hm. apply HQ, HP, list_elem_of_In, elem_of_seqZ. lia.
Qed.

Lemma allowed_flags_bits xfertype is_out n :
  0 <= n -> Z.testbit (allowed_flags xfertype is_out) n = permitted xfertype is_out n.
Proof.
  intros Hn. assert (0 <= allowed_flags xfertype is_out < 2 ^ 10) as Hr.
  { unfold allowed_flags. destruct (xfertype =? USB_ENDPOINT_XFER_ISOC),
      (xfertype =? USB_ENDPOINT_XFER_BULK), (xfertype =? USB_ENDPOINT_XFER_CONTROL), is_out;
      vm_compute; intuition discriminate. }
  destruct (Z.lt_ge_cases n 10) as [Hl|Hl].
  - revert n Hn Hl. apply (all_below 10 (fun n => eqb (Z.testbit (allowed_flags xfertype is_out) n)
      (permitted xfertype is_out n))); [|intros; by apply eqb_prop].
    unfold allowed_flags, permitted.
    destruct (xfertype =? USB_ENDPOINT_XFER_ISOC) eqn:E1,
      (xfertype =? USB_ENDPOINT_XFER_BULK) eqn:E2, (xfertype =? USB_ENDPOINT_XFER_CONTROL) eqn:E3,
      is_out; try reflexivity; exfalso; bool_to_prop; subst; discriminate.
  - rewrite testbit_small by done. unfold permitted.
    repeat match goal with |- context [n =? ?m] =>
      rewrite (proj2 (Z.eqb_neq n m)) by lia end. done.
Qed.

(** The direction the policy goes by: of the endpoint, or of the control request. *)
Definition flag_dir (e : endpoint) (setup : list Z) : bool :=
  if ep_xfertype e =? USB_ENDPOINT_XFER_CONTROL
  then (Z.land (nth 0 setup 0) 128 =? 0) || (of_le (take 2 (drop 6 setup)) =? 0)
  else ep_dir_out e.

(** The URB's endpoint, if the USB core would accept it. *)
Definition urb_endpoint `{UsbPipes} (r : urb) (dev : usb_device) : option endpoint :=
  mjoin ((if usb_pipein (urb_pipe r) then dev_ep_in dev else dev_ep_out dev)
           !! Z.to_nat (usb_pipeendpoint (urb_pipe r))).

(** An URB as [stub_build_urb] fills it in, with its setup packet. *)
Definition built (d : positive) (b : positive) (setup : list Z) (r : urb) (k : kernel) : Prop :=
  urb_hcpriv r = None /\ urb_complete r <> complete_null /\ urb_dev r = Some d /\
  urb_setup_packet r = Some (b, 0) /\ k_heap k !! b = Some setup /\ length setup = 8%nat /\
  bytes setup.

Lemma half_of_zero `{Arch} a b :
  is_byte a -> is_byte b -> (half_of [a; b] =? 0) = (of_le [a; b] =? 0).
Proof.
  unfold is_byte, half_of. intros. destruct big_endian; [|done]. unfold of_be. cbn.
  destruct (_ =? 0) eqn:E, (a + _ =? 0) eqn:E2; bool_to_prop; [done|lia|lia|done].
Qed.

Lemma setup_request_run `{Arch} d b setup r (sd : stub_device) k :
  built d b setup r k -> setup_request r sd k = Ok (ctrlrequest_of_mem setup, sd, k).
Proof.
  intros (_ & _ & _ & Hs & Hb & Hl & _). unfold setup_request. rewrite Hs.
  erewrite bind_ok by reflexivity.
  erewrite bind_ok by (apply load_bytes_ok with (blk := setup); [done|done|done|cbn; lia]).
  cbn [snd]. change (Z.to_nat 0) with 0%nat. rewrite drop_0, take_ge by lia. done.
Qed.

(** What the masking makes of the flags. *)
Definition masked `{UsbPipes} (dev : usb_device) (setup : list Z) (r : urb) : Z :=
  if dev_state dev <? USB_STATE_UNAUTHENTICATED then urb_transfer_flags r
  else match urb_endpoint r dev with
       | Some e => Z.land (urb_transfer_flags r) (allowed_flags (ep_xfertype e) (flag_dir e setup))
       | None => urb_transfer_flags r
       end.

Lemma masking_run `{Arch} `{UsbPipes} u d b setup r dev (sd : stub_device) k :
  k_urbs k !! u = Some r -> built d b setup r k -> k_udevs k !! d = Some dev -> dev_wf dev ->
  0 <= usb_pipeendpoint (urb_pipe r) < 16 ->
  masking_bogus_flags u sd k =
    Ok (tt, sd, k <| k_urbs := <[u := r <| urb_transfer_flags := masked dev setup r |>]> (k_urbs k) |>).
Proof.
  intros Hu Hbuilt Hd (_ & Hin & Hout) Hn. pose proof Hbuilt as (Hp & Hc & Hdev & Hs & Hb & Hl & Hby).
  assert (r <| urb_transfer_flags := urb_transfer_flags r |> = r) as Hid by by destruct r.
  assert (k <| k_urbs := <[u := r]> (k_urbs k) |> = k) as Hk.
  { rewrite insert_id by done. by destruct k. }
  unfold masking_bogus_flags, masked. erewrite bind_ok by (by apply get_urb_ok).
  rewrite bool_decide_eq_false_2, bool_decide_eq_false_2 by naive_solver. cbn [orb].
  rewrite Hdev. erewrite bind_ok by (by apply get_udev_ok).
  case_if; [by rewrite Hid, Hk|]. unfold urb_endpoint.
  assert (is_Some ((if usb_pipein (urb_pipe r) then dev_ep_in dev else dev_ep_out dev)
            !! Z.to_nat (usb_pipeendpoint (urb_pipe r)))) as [o Ho]
    by (apply lookup_lt_is_Some_2; case_if; lia).
  rewrite Ho. erewrite bind_ok by reflexivity. cbv beta. cbn [mjoin option_join].
  destruct o as [e|]; [|by rewrite Hid, Hk]. cbv zeta. rewrite Hs. unfold flag_dir.
  destruct (ep_xfertype e =? USB_ENDPOINT_XFER_CONTROL).
  - erewrite bind_ok.
    2: { erewrite bind_ok by (by eapply setup_request_run). reflexivity. }
    cbv beta iota. unfold ctrlrequest_of_mem. cbn [bRequestType wLength].
    destruct setup as [|s0 [|s1 [|s2 [|s3 [|s4 [|s5 [|s6 [|s7 [|]]]]]]]]]; try discriminate Hl.
    cbn [nth take drop]. unfold bytes in Hby. rewrite !Forall_cons in Hby.
    destruct Hby as (_&_&_&_&_&_&?&?&_). rewrite half_of_zero by done.
    by eapply put_urb_ok.
  - erewrite bind_ok by reflexivity. cbv beta iota. by eapply put_urb_ok.
Qed.

(** An URB reaches the host controller only with the flags its endpoint
    allows: the driver clears every flag bit the policy does not permit for the
    endpoint's type and direction, and changes nothing else.  The direction of
    a control transfer is that of its setup packet, on machines of either byte
    order.  (The endpoint's device must be past the unauthenticated state.) *)
Theorem masking_enforces_policy `{Arch} `{UsbPipes} u d b setup r dev e (sd : stub_device) k :
  k_urbs k !! u = Some r -> built d b setup r k -> k_udevs k !! d = Some dev -> dev_wf dev ->
  0 <= usb_pipeendpoint (urb_pipe r) < 16 -> urb_endpoint r dev = Some e ->
  USB_STATE_UNAUTHENTICATED <= dev_state dev ->
  exists flags, masking_bogus_flags u sd k =
      Ok (tt, sd, k <| k_urbs := <[u := r <| urb_transfer_flags := flags |>]> (k_urbs k) |>) /\
    forall n, 0 <= n -> Z.testbit flags n =
      Z.testbit (urb_transfer_flags r) n && permitted (ep_xfertype e) (flag_dir e setup) n.
Proof.
  intros Hu Hb Hd Hwf Hn He Hst. eexists. split; [by eapply masking_run|].
  intros n Hn0. unfold masked. rewrite (proj2 (Z.ltb_ge _ _) Hst), He.
  by rewrite Z.land_spec, allowed_flags_bits.
Qed.

(** ** Control requests with a special meaning *)

Definition le16 (l : list Z) (i : nat) : Z := nth i l 0 + 256 * nth (S i) l 0.

(** The calls, latest first, for the setup packet [s]: clearing a halt and
    setting an interface go through the USB core, setting a configuration is
    left out, and a port reset resets the device if it can be locked. *)
Definition special_calls `{Env} `{UsbPipes} (d : positive) (devnum : Z) (s : list Z)
    (tr : list call) : list call :=
  let req t q := (nth 0 s 0 =? t) && (nth 1 s 0 =? q) in
  if req 2 1 && (le16 s 2 =? 0) then
    [CClearHalt (Some d) (usb_mkpipe PIPE_CONTROL (negb (Z.land (le16 s 4) 128 =? 0))
                            devnum (Z.land (le16 s 4) 15))]
  else if req 1 11 then [CSetInterface (Some d) (le16 s 4) (le16 s 2)]
  else if req 35 3 && (le16 s 2 =? 4) then
    if (env_answer tr CLockForReset).1 <? 0 then [CLockForReset]
    else [CUnlockDevice; CResetDevice; CLockForReset]
  else [].

Lemma le16_half `{Arch} a b : is_byte a -> is_byte b -> le16_to_cpu (half_of [a; b]) = a + 256 * b.
Proof.
  unfold is_byte, le16_to_cpu, half_of. intros. destruct big_endian; [|cbn; lia].
  unfold of_be, be_bytes. cbn. Z.div_mod_to_equations. lia.
Qed.

Ltac open_setup setup Hl Hby :=
  destruct setup as [|?s0 [|?s1 [|?s2 [|?s3 [|?s4 [|?s5 [|?s6 [|?s7 [|]]]]]]]]]; try discriminate Hl;
  unfold bytes in Hby; rewrite !Forall_cons in Hby; destruct Hby as (?&?&?&?&?&?&?&?&_).

Lemma tweak_run `{Env} `{Arch} `{UsbPipes}
    u d b setup r dev p x (sd : stub_device) k :
  k_urbs k !! u = Some r -> built d b setup r k -> k_udevs k !! d = Some dev ->
  urb_context r = Some p -> sd_privs sd !! p = Some x ->
  tweak_special_requests u sd k =
    Ok (tt, sd, traced (if usb_pipetype (urb_pipe r) =? PIPE_CONTROL
                        then special_calls d (dev_devnum dev) setup (k_trace k) else []) k).
Proof.
  intros Hu Hbuilt Hd Hc Hx. pose proof Hbuilt as (_ & _ & Hdev & Hs & _ & Hl & Hby).
  unfold tweak_special_requests. erewrite bind_ok by (by apply get_urb_ok). rewrite Hs.
  destruct (usb_pipetype (urb_pipe r) =? PIPE_CONTROL); cbn [negb]; [|by rewrite traced_nil].
  erewrite bind_ok by (by eapply setup_request_run). cbv beta.
  set (req := ctrlrequest_of_mem setup).
  assert (bRequestType req = nth 0 setup 0 /\ bRequest req = nth 1 setup 0 /\
          (wValue req =? 0) = (le16 setup 2 =? 0) /\ le16_to_cpu (wValue req) = le16 setup 2 /\
          le16_to_cpu (wIndex req) = le16 setup 4) as (E0 & E1 & E2 & E3 & E4).
  { subst req. open_setup setup Hl Hby. unfold ctrlrequest_of_mem, le16. cbn [bRequestType bRequest wValue
      wIndex nth take drop]. rewrite !le16_half by done. split_and!; [done|done| |done|done].
    rewrite half_of_zero by done. cbn. do 2 f_equal. lia. }
  unfold is_clear_halt_cmd, is_set_interface_cmd, is_set_configuration_cmd, is_reset_device_cmd,
    USB_REQ_CLEAR_FEATURE, USB_RECIP_ENDPOINT, USB_ENDPOINT_HALT, USB_REQ_SET_INTERFACE,
    USB_RECIP_INTERFACE, USB_REQ_SET_CONFIGURATION, USB_RECIP_DEVICE, USB_REQ_SET_FEATURE,
    USB_RT_PORT, USB_PORT_FEAT_RESET, special_calls.
  rewrite E0, E1, E2, E3, !(andb_comm (nth 1 setup 0 =? _)).
  destruct ((nth 0 setup 0 =? 2) && (nth 1 setup 0 =? 1) && (le16 setup 2 =? 0)).
  { unfold tweak_clear_halt_cmd. erewrite bind_ok.
    2: { erewrite bind_ok by (by apply get_urb_ok).
         erewrite bind_ok by (by eapply setup_request_run). cbv zeta beta.
         erewrite bind_ok by (by apply deref_ok). erewrite bind_ok by (by apply get_udev_ok).
         fold req. rewrite E4, Hdev. apply ext_ret_ok. }
    done. }
  destruct ((nth 0 setup 0 =? 1) && (nth 1 setup 0 =? 11)).
  { unfold tweak_set_interface_cmd. erewrite bind_ok.
    2: { erewrite bind_ok by (by apply get_urb_ok).
         erewrite bind_ok by (by eapply setup_request_run). cbv zeta beta.
         fold req. rewrite E3, E4, Hdev. apply ext_ret_ok. }
    done. }
  destruct ((nth 0 setup 0 =? 0) && (nth 1 setup 0 =? 9)) eqn:E9.
  { unfold tweak_set_configuration_cmd. erewrite bind_ok.
    2: { erewrite bind_ok by (by apply get_urb_ok).
         by erewrite bind_ok by (by eapply setup_request_run). }
    bool_to_prop. rewrite H2. by rewrite traced_nil. }
  destruct ((nth 0 setup 0 =? 35) && (nth 1 setup 0 =? 3) && (le16 setup 2 =? 4));
    [|by rewrite traced_nil].
  unfold tweak_reset_device_cmd. erewrite bind_ok.
  2: { erewrite bind_ok by (by apply get_urb_ok). erewrite bind_ok by (by apply deref_ok).
       erewrite bind_ok by (by apply get_priv_ok). erewrite bind_ok by apply ext_ret_ok. cbv beta.
       instantiate (1 := traced (if (env_answer (k_trace k) CLockForReset).1 <? 0 then [CLockForReset]
         else [CUnlockDevice; CResetDevice; CLockForReset]) k). instantiate (1 := sd).
       instantiate (1 := 0). by case_if. }
  done.
Qed.

(** a control request that would go behind the USB core's back is carried
    out through the core as well: which calls are made depends only on the
    setup packet's bytes, on machines of either byte order, and nothing but
    these calls happens. *)
Theorem tweak_special_requests_calls `{Env} `{Arch} `{UsbPipes}
    u d b setup r dev p x (sd : stub_device) k :
  k_urbs k !! u = Some r -> built d b setup r k -> k_udevs k !! d = Some dev ->
  urb_context r = Some p -> sd_privs sd !! p = Some x ->
  tweak_special_requests u sd k =
    Ok (tt, sd, traced (if usb_pipetype (urb_pipe r) =? PIPE_CONTROL
                        then special_calls d (dev_devnum dev) setup (k_trace k) else []) k).
Proof. intros. by eapply tweak_run. Qed.

(** ** Building and submitting *)

(** Names not yet given out are not in use. *)
Definition fresh_names (sd : stub_device) (k : kernel) : Prop :=
  forall n, (k_next k <= n)%positive ->
    k_heap k !! n = None /\ k_urbs k !! n = None /\ sd_privs sd !! n = None.

Definition allocs_ok `{Env} : Prop :=
  forall tr n, (env_answer tr (CMalloc n)).1 <> 0 /\ (env_answer tr (CAllocUrb n)).1 <> 0.

Lemma stub_priv_alloc_run `{Env} pdu sd k :
  (forall tr n, (env_answer tr (CMalloc n)).1 <> 0) -> LockPriv 0 ∉ k_locks k ->
  stub_priv_alloc pdu sd k =
    Ok (Some (k_next k),
        sd <| sd_privs := <[k_next k := mkStubPriv (seqnum (h_base pdu)) None 0 false]> (sd_privs sd) |>
           <| sd_priv_init := sd_priv_init sd ++ [k_next k] |>,
        traced [CMalloc 64] k <| k_next := Pos.succ (k_next k) |>).
Proof.
  intros Ha Hl. unfold stub_priv_alloc. exec_step.
  erewrite bind_ok by apply ext_ret_ok. cbv beta.
  rewrite (proj2 (Z.eqb_neq _ _) (Ha _ 64)).
  do 4 (erewrite bind_ok by reflexivity; cbv beta). exec_step. cbn. by destruct k.
Qed.

Lemma usb_alloc_urb_ok `{Env} {S} n (s : S) k :
  allocs_ok ->
  usb_alloc_urb n s k =
    Ok (Some (k_next k), s, traced [CAllocUrb n] k
      <| k_urbs := <[k_next k := urb_zero (Z.to_nat n)]> (k_urbs k) |>
      <| k_next := Pos.succ (k_next k) |>).
Proof.
  intros Ha. unfold usb_alloc_urb, mbind, M_bind. rewrite ext_ret_ok.
  by rewrite (proj2 (Z.eqb_neq _ _) (proj2 (Ha _ n))).
Qed.

Lemma kmemdup_ok `{Env} (data : list Z) (sd : stub_device) k :
  allocs_ok ->
  kmemdup data sd k = Ok (Some (k_next k, 0), sd, allocated (Z.of_nat (length data)) data k).
Proof.
  intros Ha. unfold kmemdup.
  erewrite bind_ok by (apply kzalloc_ok; [lia|apply Ha]). cbv iota.
  erewrite bind_ok.
  2: { unfold store_bytes. cbn -[replicate]. rewrite lookup_insert_eq, length_replicate, Nat2Z.id.
       rewrite (proj2 (Z.leb_le _ _)) by lia. reflexivity. }
  cbv beta. change (Z.to_nat 0) with 0%nat. rewrite splice_all by by rewrite length_replicate.
  unfold allocated. cbn -[replicate]. by rewrite insert_insert_eq.
Qed.

Lemma stub_wf_added sd k sd' k' p u :
  stub_wf sd k -> sd_privs sd !! p = None -> queued sd' ≡ₚ p :: queued sd ->
  release1 p (store_of sd' k') = Some (u, store_of sd k) -> stub_wf sd' k'.
Proof.
  intros Hwf Hp Hq Hr. pose proof Hwf as [Hnd [[us st] Hrel]].
  assert (release (p :: queued sd) (store_of sd' k') = Some (u :: us, st)) as Hrel'.
  { cbn [release]. rewrite Hr. cbn. by rewrite Hrel. }
  symmetry in Hq. destruct (release_perm _ _ _ _ _ Hq Hrel') as (us' & _ & Hrel2).
  split; [|by exists (us', st)]. rewrite <- Hq. apply NoDup_cons. split; [|done].
  intros Hin. destruct (stub_wf_request sd k p Hwf Hin) as (v & st1 & us1 & st2 & E1 & _).
  apply release1_inv in E1 as (x & _ & _ & _ & Hx & _). cbn in Hx. congruence.
Qed.

(** The URBs handed to the host controller, latest first. *)
Definition submitted (tr : list call) : list positive :=
  omap (fun c => match c with CSubmitUrb u => Some u | _ => None end) tr.

Section build.
Context `{Env} `{Arch} `{UsbPipes}.

(** The objects of the new request, named one after the other: the request, its
    URB, its buffer if it has one, and its setup packet. *)
Variable pdu : usbip_header.
Let cmd := u_cmd_submit (h_u pdu).
Definition has_buffer : bool := cs_transfer_buffer_length (u_cmd_submit (h_u pdu)) >? 0.
Definition new_urb (k : kernel) : positive := Pos.succ (k_next k).
Definition new_buffer (k : kernel) : positive := Pos.succ (new_urb k).
Definition new_setup (k : kernel) : positive :=
  if has_buffer then Pos.succ (new_buffer k) else new_buffer k.

(** The URB as the request describes it. *)
Definition described_urb (pipe : Z) (d : positive) (k : kernel) : urb :=
  (usbip_pack_pdu pdu
     ((urb_zero 0) <| urb_transfer_buffer := if has_buffer then Some (new_buffer k, 0) else None |>
                   <| urb_setup_packet := Some (new_setup k, 0) |>
                   <| urb_context := Some (k_next k) |> <| urb_dev := Some d |>
                   <| urb_pipe := pipe |> <| urb_complete := stub_complete_fn |>)
     USBIP_CMD_SUBMIT false).2.

Definition new_priv (k : kernel) : stub_priv :=
  mkStubPriv (seqnum (h_base pdu)) (Some (new_urb k)) 0 false.
Definition with_request (k : kernel) (sd : stub_device) : stub_device :=
  sd <| sd_privs := <[k_next k := new_priv k]> (sd_privs sd) |>
     <| sd_priv_init := sd_priv_init sd ++ [k_next k] |>.

(** The kernel with the request's objects, the buffer holding [blk]. *)
Definition with_objects (r : urb) (blk : list Z) (tr : list call) (k : kernel) : kernel :=
  k <| k_heap := <[new_setup k := cs_setup cmd]>
                   (if has_buffer then <[new_buffer k := blk]> (k_heap k) else k_heap k) |>
    <| k_urbs := <[new_urb k := r]> (k_urbs k) |>
    <| k_trace := tr |> <| k_next := Pos.succ (new_setup k) |>.

(** Receiving the data, and the last corrections. *)
Definition receive_and_correct (u : positive) : M stub_device (option positive) :=
  received ← (ret ← usbip_recv_xbuff u;
              if ret <? 0 then mret false
              else ret ← usbip_recv_iso u; mret (negb (ret <? 0)));
  if negb received then mret None
  else tweak_special_requests u;; masking_bogus_flags u;; mret (Some u).

Lemma stub_build_urb_fills pipe sd k :
  get_pipe (ep (h_base pdu)) (direction (h_base pdu)) sd k = Ok (pipe, sd, k) ->
  usb_pipeisoc pipe = false -> allocs_ok -> LockPriv 0 ∉ k_locks k ->
  exists tr, submitted tr = [] /\ no_recv tr /\
    stub_build_urb pdu None sd k =
      receive_and_correct (new_urb k) (with_request k sd)
        (with_objects (described_urb pipe (sd_udev sd) k)
           (replicate (Z.to_nat (cs_transfer_buffer_length cmd)) 0) (tr ++ k_trace k) k).
Proof.
  intros Hp Hiso Ha Hl. unfold stub_build_urb. fold cmd.
  erewrite bind_ok by reflexivity. cbv beta. erewrite bind_ok by exact Hp. cbv beta. rewrite Hiso.
  erewrite bind_ok by (apply stub_priv_alloc_run; [intros; apply Ha|done]). cbv beta iota.
  erewrite bind_ok by (by apply usb_alloc_urb_ok). cbv beta.
  erewrite bind_ok by (apply get_priv_ok, lookup_insert_eq). cbv beta.
  erewrite bind_ok by reflexivity. cbv beta iota.
  set (p := k_next k). set (u := Pos.succ p).
  change (k_next (traced [CMalloc 64] k <| k_next := u |>)) with u.
  set (tr1 := CAllocUrb 0 :: CMalloc 64 :: k_trace k).
  assert (with_request k sd = sd
    <| sd_privs := <[p := new_priv k]> (<[p := mkStubPriv (seqnum (h_base pdu)) None 0 false]> (sd_privs sd)) |>
    <| sd_priv_init := sd_priv_init sd ++ [p] |>) as Hsd
    by (unfold with_request; by rewrite insert_insert_eq).
  unfold with_objects, described_urb, new_setup.
  change (cs_transfer_buffer_length cmd >? 0) with has_buffer.
  destruct has_buffer eqn:Eb.
  - unfold has_buffer in Eb. fold cmd in Eb. rewrite Z.gtb_ltb in Eb. bool_to_prop.
    erewrite bind_ok.
    2: { erewrite bind_ok by (apply kzalloc_ok; [lia|apply Ha]). cbv beta.
         erewrite bind_ok by (eapply modify_urb_ok; apply lookup_insert_eq). reflexivity. }
    cbv beta. rewrite bool_decide_eq_true_2 by done. cbn [negb].
    erewrite bind_ok by (by apply kmemdup_ok). cbv beta.
    erewrite bind_ok by (eapply modify_urb_ok; apply lookup_insert_eq). cbv beta iota.
    erewrite bind_ok by (eapply modify_urb_ok; apply lookup_insert_eq). cbv beta iota.
    erewrite bind_ok by (eapply modify_urb_ok; apply lookup_insert_eq). cbv beta iota.
    eexists [CMalloc _; CMalloc _; CAllocUrb 0; CMalloc 64]. split; [reflexivity|]. split; [by repeat constructor|].
    rewrite Hsd. unfold receive_and_correct. f_equal.
    unfold allocated, traced. cbn -[replicate urb_zero usbip_pack_pdu].
    rewrite !insert_insert_eq. reflexivity.
  - erewrite bind_ok by reflexivity. cbv beta. cbn [negb].
    erewrite bind_ok by (by apply kmemdup_ok). cbv beta.
    erewrite bind_ok by (eapply modify_urb_ok; apply lookup_insert_eq). cbv beta iota.
    erewrite bind_ok by (eapply modify_urb_ok; apply lookup_insert_eq). cbv beta iota.
    erewrite bind_ok by (eapply modify_urb_ok; apply lookup_insert_eq). cbv beta iota.
    eexists [CMalloc _; CAllocUrb 0; CMalloc 64]. split; [reflexivity|]. split; [by repeat constructor|].
    rewrite Hsd. unfold receive_and_correct. f_equal.
    unfold allocated, traced. cbn -[replicate urb_zero usbip_pack_pdu].
    rewrite !insert_insert_eq. reflexivity.
Qed.
End build.

Section submit.
Context `{Env} `{Arch} `{UsbPipes} `{!UsbPipesOk} `{FilterDrivers stub_device}.

(** The connection delivers [stream] next, whatever else is called first. *)
Definition delivers_next (sock : Z) (tr : list call) (stream : list Z) : Prop :=
  forall tr', no_recv tr' -> delivers sock (tr' ++ tr) stream.

(** How many bytes of data follow the header. *)
Definition out_size (pdu : usbip_header) : Z :=
  if direction (h_base pdu) =? USBIP_DIR_IN then 0
  else cs_transfer_buffer_length (u_cmd_submit (h_u pdu)).

Lemma has_shutdown x : has_bits (Z.lor x SDEV_EVENT_ERROR_TCP) USBIP_EH_SHUTDOWN = true.
Proof.
  unfold has_bits. rewrite Z.land_lor_distr_l. change (Z.land SDEV_EVENT_ERROR_TCP _) with 1.
  apply negb_true_iff, Z.eqb_neq. intros [_ ?]%Z.lor_eq_0_iff. done.
Qed.

Lemma with_objects_lookup pdu r blk tr k :
  k_urbs (with_objects pdu r blk tr k) !! new_urb k = Some r.
Proof. apply lookup_insert_eq. Qed.

(** The corrections, on the URB as described. *)
Lemma correct_run pdu pipe dev sd sd' k blk tr :
  let r := described_urb pdu pipe (sd_udev sd) k in
  let setup := w_setup (h_u pdu) in
  k_udevs k !! sd_udev sd = Some dev -> dev_wf dev ->
  0 <= usb_pipeendpoint pipe < 16 -> length setup = 8%nat -> bytes setup ->
  sd_privs sd' !! k_next k = Some (new_priv pdu k) ->
  exists tr', (submitted tr' = [] /\ no_recv tr') /\
    (tweak_special_requests (new_urb k);; masking_bogus_flags (new_urb k);;
     mret (Some (new_urb k))) sd' (with_objects pdu r blk tr k) =
    Ok (Some (new_urb k), sd',
        with_objects pdu (r <| urb_transfer_flags := masked dev setup r |>) blk (tr' ++ tr) k).
Proof.
  intros r setup Hd Hwf Hn Hl Hby Hx.
  assert (built (sd_udev sd) (new_setup pdu k) setup r (with_objects pdu r blk tr k)) as Hb.
  { split_and!; [done|discriminate|done|done| |done|done]. apply lookup_insert_eq. }
  set (k1 := with_objects pdu r blk tr k) in *.
  set (calls := if usb_pipetype (urb_pipe r) =? PIPE_CONTROL
                then special_calls (sd_udev sd) (dev_devnum dev) setup (k_trace k1) else []).
  exists calls. split.
  { unfold calls, special_calls. repeat case_if; (split; [done|by repeat constructor]). }
  erewrite bind_ok.
  2: { eapply tweak_run; [apply with_objects_lookup|exact Hb|exact Hd|reflexivity|exact Hx]. }
  fold calls. cbv beta. erewrite bind_ok.
  2: { eapply masking_run; [apply with_objects_lookup| |exact Hd|done|done].
       destruct Hb as (?&?&?&?&?&?&?). by split_and!. }
  cbv beta. do 2 f_equal. unfold with_objects, traced, k1. cbn. by rewrite insert_insert_eq.
Qed.

(** Receiving the data: the buffer is filled, or the event is raised. *)
Lemma receive_data_run pdu pipe sock stream sd sd' k tr :
  let r := described_urb pdu pipe (sd_udev sd) k in
  let size := out_size pdu in
  let zeros := replicate (Z.to_nat (cs_transfer_buffer_length (u_cmd_submit (h_u pdu)))) 0 in
  usb_pipein pipe = (direction (h_base pdu) =? USBIP_DIR_IN) -> recvmsg_ok ->
  delivers sock tr stream -> ud_side (sd_ud sd') = USBIP_STUB ->
  ud_tcp_socket (sd_ud sd') = Some sock -> LockUd 0 ∉ k_locks k ->
  exists ret blk tr',
    usbip_recv_xbuff (new_urb k) sd' (with_objects pdu r zeros tr k) =
      Ok (ret, if (0 <? size) && negb (ret =? size) then add_event SDEV_EVENT_ERROR_TCP sd' else sd',
          with_objects pdu r blk tr' k) /\
    (submitted tr' = submitted tr /\ fetched sock size ret stream tr tr') /\
    ((size <= 0 /\ ret = 0 /\ blk = zeros) \/
     (0 < size /\ ret = size /\ blk = take (Z.to_nat size) stream /\ size <= Z.of_nat (length stream)) \/
     (0 < size /\ ret <= 0)).
Proof.
  intros r size zeros Hin Hok Hd Hside Hsock Hl.
  set (tbl := cs_transfer_buffer_length (u_cmd_submit (h_u pdu))) in *.
  assert (is_s32 tbl) as Htbl by apply s32_range.
  assert (s32 (urb_transfer_buffer_length r) = tbl) as Hrl.
  { unfold r, described_urb, usbip_pack_pdu, usbip_pack_cmd_submit. cbn.
    autorewrite with usbip_simp. done. }
  assert (usb_pipein (urb_pipe r) = (direction (h_base pdu) =? USBIP_DIR_IN)) as Hpin by exact Hin.
  rewrite (recv_xbuff_unfold (new_urb k) r) by apply with_objects_lookup.
  change (the_ud sd') with (sd_ud sd'). rewrite Hside. cbv zeta.
  change (xbuff_size USBIP_STUB r) with
    (if usb_pipein (urb_pipe r) then 0 else s32 (urb_transfer_buffer_length r)).
  rewrite Hpin, Hrl. fold tbl in size. change (if direction (h_base pdu) =? USBIP_DIR_IN then 0 else tbl) with size.
  rewrite Z.gtb_ltb. destruct (0 <? size) eqn:E; bool_to_prop.
  2: { exists 0, zeros, tr. split; [done|]. split; [split; [done|]|by left].
       exists 0%nat. rewrite (proj2 (Z.ltb_ge _ _) E). split; [constructor|split; [lia|done]]. }
  assert (size = tbl) as Hst by (unfold size, out_size in *; fold tbl in E |- *; case_if; lia).
  assert (has_buffer pdu = true) as Hhb
    by (unfold has_buffer; fold tbl; rewrite Z.gtb_ltb; apply Z.ltb_lt; lia).
  assert (urb_transfer_buffer r = Some (new_buffer k, 0)) as Hbuf
    by (unfold r, described_urb; rewrite Hhb; done).
  assert (new_setup pdu k <> new_buffer k) as Hne by (unfold new_setup; rewrite Hhb; lia).
  set (k1 := with_objects pdu r zeros tr k).
  assert (k_heap k1 !! new_buffer k = Some zeros) as Hh.
  { unfold k1, with_objects. rewrite Hhb. cbn -[zeros].
    by rewrite lookup_insert_ne, lookup_insert_eq by done. }
  assert (Z.of_nat (length zeros) = size) as Hzl
    by (unfold zeros; rewrite length_replicate; lia).
  rewrite Hsock, Hbuf.
  pose proof (wp_usbip_recv_stalled sock (new_buffer k, 0) size zeros sd' k1 Hok E Hh) as Hwp.
  apply wp_ok in Hwp as (ret & s' & k' & Hrun & -> & data & tr' & HR & -> & Hret); [|done|cbn; lia].
  change (k_trace k1) with tr in HR. pose proof (prefix_take_length _ _ (Hd _ _ HR)) as Hp.
  pose proof (prefix_length _ _ (Hd _ _ HR)) as Hpl.
  assert (submitted tr' = submitted tr) as Hsub.
  { clear -HR. induction HR; [done|done|]. rewrite IHHR. done. }
  assert (k1 <| k_heap := <[new_buffer k := splice zeros 0 data]> (k_heap k1) |> <| k_trace := tr' |> =
          with_objects pdu r (splice zeros 0 data) tr' k) as Hk.
  { unfold k1, with_objects. rewrite Hhb. cbn -[zeros].
    by rewrite insert_insert_ne, insert_insert_eq by done. }
  erewrite bind_ok by exact Hrun. cbv beta. cbn [fst snd].
  change (Z.to_nat 0) with 0%nat. rewrite Hk.
  destruct (ret =? size) eqn:Er; bool_to_prop; cbn [negb andb].
  - exists ret, (splice zeros 0 data), tr'. split; [by rewrite Er, Z.eqb_refl|].
    split; [split; [done|]|].
    { exists (length data). rewrite <- Hp, (proj2 (Z.ltb_lt _ _) E).
      split_and!; [by apply Received_Reads|done|]. left. split; [done|lia]. }
    right. left. split_and!; [done|done| |lia].
    rewrite splice_all by lia. rewrite Hp. f_equal. lia.
  - exists ret, (splice zeros 0 data), (CWakeUp Q_EH :: tr').
    erewrite bind_ok by by apply event_add_ok. rewrite (proj2 (Z.eqb_neq _ _) Er).
    split; [done|]. split; [split; [done|]|right; right; split; [done|lia]].
    apply (fetched_after _ _ _ _ _ _ [CWakeUp Q_EH]); [by repeat constructor|].
    exists (length data). rewrite <- Hp, (proj2 (Z.ltb_lt _ _) E).
    split_and!; [by apply Received_Reads|done|]. right.
    destruct Hret as [[? _]|(? & ? & ?)]; [done|by split_and!].
Qed.

Lemma with_request_queued pdu sd k : queued (with_request pdu k sd) ≡ₚ k_next k :: queued sd.
Proof. unfold queued, with_request. cbn. solve_Permutation. Qed.

(** The new request owns exactly the new objects. *)
Lemma with_objects_release pdu pipe d flags blk tr sd sd' k :
  fresh_names sd k -> sd_privs sd' = sd_privs (with_request pdu k sd) ->
  let r := (described_urb pdu pipe d k) <| urb_transfer_flags := flags |> in
  release1 (k_next k) (store_of sd' (with_objects pdu r blk tr k)) =
    Some (new_urb k, store_of sd k).
Proof.
  intros Hfr Hp r. destruct (Hfr (k_next k)) as (_ & _ & F1); [lia|].
  destruct (Hfr (new_urb k)) as (_ & F2 & _); [unfold new_urb; lia|].
  destruct (Hfr (new_buffer k)) as (F3 & _ & _); [unfold new_buffer, new_urb; lia|].
  destruct (Hfr (Pos.succ (new_buffer k))) as (F4 & _ & _); [unfold new_buffer, new_urb; lia|].
  assert (Pos.succ (new_buffer k) <> new_buffer k) as Hne by lia.
  assert (urb_transfer_buffer r = if has_buffer pdu then Some (new_buffer k, 0) else None) as Hb by done.
  assert (urb_setup_packet r = Some (new_setup pdu k, 0)) as Hs by done.
  unfold store_of. rewrite Hp. cbn [with_request sd_privs set_field set_sd_privs set_sd_priv_init].
  set (hp := k_heap (with_objects pdu r blk tr k)).
  assert (exists h1, release_ptr (urb_transfer_buffer r) hp = Some h1 /\
            release_ptr (urb_setup_packet r) h1 = Some (k_heap k)) as (h1 & R1 & R2).
  { rewrite Hb, Hs. unfold hp, with_objects, new_setup. destruct (has_buffer pdu); cbn.
    - rewrite lookup_insert_ne, lookup_insert_eq by done. cbn. eexists. split; [done|].
      rewrite lookup_delete_ne, lookup_insert_eq by done. cbn.
      rewrite delete_insert_ne by done. rewrite !delete_insert_eq.
      by rewrite (delete_id _ (new_buffer k)), delete_id by done.
    - eexists. split; [done|]. rewrite lookup_insert_eq. cbn.
      by rewrite delete_insert_id. }
  erewrite release1_intro; [|apply lookup_insert_eq|reflexivity|apply lookup_insert_eq|exact R1|exact R2].
  unfold with_objects. cbn. by rewrite !delete_insert_id.
Qed.

(** Handing the URB over: nothing else happens, unless the core refuses it. *)
Lemma submit_tail pdu u sd k :
  no_filters sd k -> LockUd 0 ∉ k_locks k ->
  exists tr', (submitted tr' = [u] /\ no_recv tr') /\
    (ret ← usbip_filter_on_rx pdu u;
     if negb (ret =? 0) then mret tt else stub_submit_urb u;; mret tt) sd k =
    Ok (tt, if (env_answer (k_trace k) (CSubmitUrb u)).1 =? 0 then sd
            else add_event SDEV_EVENT_ERROR_SUBMIT sd, traced tr' k).
Proof.
  intros Hnf Hl.
  assert (exists tr', (submitted tr' = [u] /\ no_recv tr') /\
    (stub_submit_urb u;; mret tt) sd k = Ok (tt, if (env_answer (k_trace k) (CSubmitUrb u)).1 =? 0
       then sd else add_event SDEV_EVENT_ERROR_SUBMIT sd, traced tr' k)) as Hs.
  { unfold stub_submit_urb. case_if.
    - exists [CSubmitUrb u]. split; [split; [done|by repeat constructor]|]. erewrite bind_ok; [done|].
      erewrite bind_ok by apply ext_ret_ok. cbv beta. rewrite Etest. done.
    - exists [CWakeUp Q_EH; CSubmitUrb u]. split; [split; [done|by repeat constructor]|]. erewrite bind_ok; [done|].
      erewrite bind_ok by apply ext_ret_ok. cbv beta. rewrite Etest.
      by erewrite bind_ok by by apply event_add_ok. }
  destruct Hs as (tr' & Ht & Hrun). exists tr'. split; [done|].
  erewrite bind_ok by (refine (proj1 (no_filters_pass pdu u sd k Hnf))). exact Hrun.
Qed.

(** Receiving and correcting together. *)
Lemma receive_and_correct_run pdu pipe sock stream dev sd sd' k tr :
  let r := described_urb pdu pipe (sd_udev sd) k in
  let r' := r <| urb_transfer_flags := masked dev (w_setup (h_u pdu)) r |> in
  let size := out_size pdu in
  let zeros := replicate (Z.to_nat (cs_transfer_buffer_length (u_cmd_submit (h_u pdu)))) 0 in
  usb_pipein pipe = (direction (h_base pdu) =? USBIP_DIR_IN) -> usb_pipeisoc pipe = false ->
  0 <= usb_pipeendpoint pipe < 16 -> recvmsg_ok -> delivers sock tr stream ->
  k_udevs k !! sd_udev sd = Some dev -> dev_wf dev ->
  length (w_setup (h_u pdu)) = 8%nat -> bytes (w_setup (h_u pdu)) ->
  ud_side (sd_ud sd') = USBIP_STUB -> ud_tcp_socket (sd_ud sd') = Some sock ->
  sd_privs sd' !! k_next k = Some (new_priv pdu k) -> LockUd 0 ∉ k_locks k ->
  exists ret blk tr',
    receive_and_correct (new_urb k) sd' (with_objects pdu r zeros tr k) =
      Ok (if ret <? 0 then None else Some (new_urb k),
          if (0 <? size) && negb (ret =? size) then add_event SDEV_EVENT_ERROR_TCP sd' else sd',
          with_objects pdu (if ret <? 0 then r else r') blk tr' k) /\
    (submitted tr' = submitted tr /\ fetched sock size ret stream tr tr') /\
    ((size <= 0 /\ ret = 0 /\ blk = zeros) \/
     (0 < size /\ ret = size /\ blk = take (Z.to_nat size) stream /\ size <= Z.of_nat (length stream)) \/
     (0 < size /\ ret <= 0)).
Proof.
  intros r r' size zeros Hin Hiso Hpe Hok Hd Hdev Hwf Hl8 Hby Hside Hsock Hx Hl.
  destruct (receive_data_run pdu pipe sock stream sd sd' k tr Hin Hok Hd Hside Hsock Hl)
    as (ret & blk & tr1 & Hrecv & [Ht1 Hf1] & Hret). fold r size zeros in Hrecv, Hf1, Hret.
  set (sd2 := if (0 <? size) && negb (ret =? size) then _ else sd') in *.
  assert (sd_privs sd2 = sd_privs sd') as Hp2 by (unfold sd2; by case_if).
  unfold receive_and_correct. destruct (ret <? 0) eqn:E.
  - exists ret, blk, tr1. split; [|done]. rewrite E.
    erewrite bind_ok; [|erewrite bind_ok by exact Hrecv; cbv beta; rewrite E; reflexivity]. done.
  - destruct (correct_run pdu pipe dev sd sd2 k blk tr1 Hdev Hwf Hpe Hl8 Hby) as (tr2 & [Ht2 Hq2] & Hrun).
    { by rewrite Hp2. }
    fold r r' in Hrun. exists ret, blk, (tr2 ++ tr1). rewrite E. split.
    + erewrite bind_ok.
      2: { erewrite bind_ok by exact Hrecv. cbv beta. rewrite E.
           by erewrite bind_ok by (eapply recv_iso_skip; [apply with_objects_lookup|exact Hiso]). }
      exact Hrun.
    + split; [|done]. split; [|by apply fetched_after].
      unfold submitted in *. by rewrite omap_app, Ht2.
Qed.

(** The core took the URB, or it can refuse it and the connection is shut down. *)
Definition core_took (u : positive) (sd sd' : stub_device) : Prop :=
  sd' = sd \/
  (sd' = add_event SDEV_EVENT_ERROR_SUBMIT sd /\
   exists tr, (env_answer tr (CSubmitUrb u)).1 <> 0).
End submit.

(** A submission, with what was read of its data. *)
Lemma stub_submit_run `{Env} `{Arch} `{UsbPipes} `{!UsbPipesOk} `{FilterDrivers stub_device}
    pdu dev e sock stream sd k :
  k_udevs k !! sd_udev sd = Some dev -> dev_wf dev -> ep_address (ep (h_base pdu)) ->
  direction (h_base pdu) = USBIP_DIR_IN \/ direction (h_base pdu) = USBIP_DIR_OUT ->
  endpoint_of dev (ep (h_base pdu)) (direction (h_base pdu)) = Some e ->
  0 <= ep_xfertype e < 4 -> ep_xfertype e <> USB_ENDPOINT_XFER_ISOC ->
  length (w_setup (h_u pdu)) = 8%nat -> bytes (w_setup (h_u pdu)) ->
  allocs_ok -> recvmsg_ok -> delivers_next sock (k_trace k) stream ->
  ud_side (sd_ud sd) = USBIP_STUB -> ud_tcp_socket (sd_ud sd) = Some sock ->
  stub_wf sd k -> fresh_names sd k -> no_filters sd k ->
  LockPriv 0 ∉ k_locks k -> LockUd 0 ∉ k_locks k ->
  let u := new_urb k in
  let pipe := usb_mkpipe (pipe_type (ep_xfertype e)) (direction (h_base pdu) =? USBIP_DIR_IN)
                (dev_devnum dev) (ep (h_base pdu)) in
  let r := described_urb pdu pipe (sd_udev sd) k in
  let r' := r <| urb_transfer_flags := masked dev (w_setup (h_u pdu)) r |> in
  let size := out_size pdu in
  exists ret blk tr sd',
    let k' := with_objects pdu (if ret <? 0 then r else r') blk tr k in
    stub_recv_cmd_submit pdu sd k = Ok (tt, sd', k') /\ stub_wf sd' k' /\
    queued sd' ≡ₚ k_next k :: queued sd /\ sd_priv_init sd' = sd_priv_init sd ++ [k_next k] /\
    sd_privs sd' = <[k_next k := new_priv pdu k]> (sd_privs sd) /\
    (submitted tr = (if ret <? 0 then [] else [u]) ++ submitted (k_trace k) /\
     fetched sock size ret stream (k_trace k) tr) /\
    ((size <= 0 /\ ret = 0 /\ blk = replicate (Z.to_nat (cs_transfer_buffer_length (u_cmd_submit (h_u pdu)))) 0 /\
      core_took u (with_request pdu k sd) sd') \/
     (0 < size /\ ret = size /\ blk = take (Z.to_nat size) stream /\
      size <= Z.of_nat (length stream) /\
      core_took u (with_request pdu k sd) sd') \/
     (0 < size /\ ret <= 0 /\
      core_took u (add_event SDEV_EVENT_ERROR_TCP (with_request pdu k sd)) sd')).
Proof.
  intros Hd Hwfd Hep Hdir He Ht Hni Hl8 Hby Ha Hok Hdel Hside Hsock Hwf Hfr Hnf Hl1 Hl2 u pipe r r' size.
  assert (forall t, 0 <= pipe_type t < 4) as Hpt.
  { intros t. unfold pipe_type, PIPE_CONTROL, PIPE_BULK, PIPE_INTERRUPT, PIPE_ISOCHRONOUS.
    repeat case_if; lia. }
  assert (get_pipe (ep (h_base pdu)) (direction (h_base pdu)) sd k = Ok (pipe, sd, k)) as Hpipe.
  { rewrite (get_pipe_run _ _ dev e) by (done || lia). unfold pipe.
    by destruct Hdir as [-> | ->]. }
  pose proof (proj1 Hwfd) as Hdn. pose proof (proj1 Hep) as Hep'.
  assert (usb_pipeisoc pipe = false) as Hiso.
  { unfold usb_pipeisoc, pipe. rewrite pipetype_mk by auto. apply Z.eqb_neq.
    unfold pipe_type, USB_ENDPOINT_XFER_CONTROL, USB_ENDPOINT_XFER_BULK, USB_ENDPOINT_XFER_INT,
      USB_ENDPOINT_XFER_ISOC, PIPE_CONTROL, PIPE_BULK, PIPE_INTERRUPT, PIPE_ISOCHRONOUS in *.
    repeat case_if; bool_to_prop; lia. }
  assert (usb_pipein pipe = (direction (h_base pdu) =? USBIP_DIR_IN)) as Hin
    by (unfold pipe; by rewrite pipein_mk).
  assert (0 <= usb_pipeendpoint pipe < 16) as Hpe by (unfold pipe; rewrite pipeendpoint_mk by auto; by apply Z.mod_pos_bound).
  destruct (stub_build_urb_fills pdu pipe sd k Hpipe Hiso Ha Hl1) as (tr0 & Ht0 & Hq0 & Hbuild).
  set (sd1 := with_request pdu k sd) in *.
  destruct (receive_and_correct_run pdu pipe sock stream dev sd sd1 k (tr0 ++ k_trace k))
    as (ret & blk & tr1 & Hrun & [Ht1 Hf1] & Hret); [done..|apply Hdel, Hq0|done|done|done|done|done|done| |done|].
  { apply lookup_insert_eq. }
  fold size r r' in Hrun, Hf1, Hret.
  apply fetched_before in Hf1; [|done].
  set (sd2 := if (0 <? size) && negb (ret =? size) then _ else sd1) in *.
  pose proof (eq_trans Hbuild Hrun) as Hrun'. clear Hrun. rename Hrun' into Hrun.
  assert (submitted (tr0 ++ k_trace k) = submitted (k_trace k)) as Ht0'
    by (unfold submitted in *; by rewrite omap_app, Ht0).
  rewrite Ht0' in Ht1. clear Hbuild Ht0 Ht0' Hq0.
  assert (forall sd', core_took u sd2 sd' ->
    queued sd' ≡ₚ k_next k :: queued sd /\ sd_priv_init sd' = sd_priv_init sd ++ [k_next k] /\
    sd_privs sd' = <[k_next k := new_priv pdu k]> (sd_privs sd)) as Hfacts.
  { intros sd' Hev.
    assert (sd_privs sd' = sd_privs sd1 /\ queued sd' = queued sd1 /\ sd_priv_init sd' = sd_priv_init sd1)
      as (-> & -> & ->) by (destruct Hev as [-> | [-> _]]; unfold sd2; by case_if).
    split_and!; [apply with_request_queued|done|done]. }
  assert (forall sd' flags blk tr, core_took u sd2 sd' ->
    stub_wf sd' (with_objects pdu (r <| urb_transfer_flags := flags |>) blk tr k)) as Hwf'.
  { intros sd' flags blk0 tr Hev. destruct (Hfacts sd' Hev) as (Hq & _ & Hp).
    apply (stub_wf_added sd k sd' _ (k_next k) u Hwf); [by apply Hfr|done|].
    by apply with_objects_release. }
  assert (forall sd', core_took u sd2 sd' ->
    (size <= 0 /\ ret = 0 /\ blk = replicate (Z.to_nat (cs_transfer_buffer_length (u_cmd_submit (h_u pdu)))) 0 /\
      core_took u sd1 sd') \/
    (0 < size /\ ret = size /\ blk = take (Z.to_nat size) stream /\
      size <= Z.of_nat (length stream) /\ core_took u sd1 sd') \/
    (0 < size /\ ret <= 0 /\
      core_took u (add_event SDEV_EVENT_ERROR_TCP sd1) sd')) as Hout.
  { intros sd' Hev. unfold sd2 in Hev.
    destruct Hret as [(Hs & -> & ->)|[(Hs & -> & -> & Hlen)|[Hs Hr]]].
    - rewrite (proj2 (Z.ltb_ge _ _) Hs) in Hev. by left.
    - rewrite Z.eqb_refl, andb_false_r in Hev. right. by left.
    - rewrite (proj2 (Z.ltb_lt _ _) Hs), (proj2 (Z.eqb_neq _ _)) in Hev by lia. right. by right. }
  destruct (ret <? 0) eqn:E.
  - exists ret, blk, tr1, sd2. rewrite E. assert (core_took u sd2 sd2) as Hev by by left.
    destruct (Hfacts sd2 Hev) as (Hq & Hi & Hp). split_and!; [|by apply (Hwf' sd2 (urb_transfer_flags r))|..|by apply Hout]; try done.
    unfold stub_recv_cmd_submit. by erewrite bind_ok by exact Hrun.
  - destruct (submit_tail pdu u sd2 (with_objects pdu r' blk tr1 k)) as (tr2 & [Ht2 Hq2] & Htail).
    { unfold sd2. by case_if. }
    { done. }
    set (sd3 := if _ =? 0 then sd2 else _) in Htail.
    exists ret, blk, (tr2 ++ tr1), sd3. rewrite E.
    assert (core_took u sd2 sd3) as Hev by (unfold sd3; case_if; [by left|right; bool_to_prop; eauto]).
    destruct (Hfacts sd3 Hev) as (Hq & Hi & Hp).
    split_and!; [|by apply Hwf'|done|done|done| | |by apply Hout].
    + unfold stub_recv_cmd_submit. erewrite bind_ok by exact Hrun. exact Htail.
    + unfold submitted in *. by rewrite omap_app, Ht2, Ht1.
    + by apply fetched_after.
Qed.

(** C13: a submission becomes a request of its own: an URB for the endpoint
    asked for, as the header describes it but for the flags the endpoint does
    not allow, with a buffer and a setup packet that nobody else owns.  It is
    queued, its data is received, and the URB is handed to the host controller
    once, unless receiving failed with an error.  [ret] is what receiving the
    data returned: a connection closed in the middle returns 0, and the URB is
    then submitted with what arrived (after the shutdown event).
    For a non-isochronous endpoint, named by number or address, without filters or failing allocations. *)
Theorem stub_submit_request `{Env} `{Arch} `{UsbPipes} `{!UsbPipesOk} `{FilterDrivers stub_device}
    pdu dev e sock stream sd k :
  k_udevs k !! sd_udev sd = Some dev -> dev_wf dev -> ep_address (ep (h_base pdu)) ->
  direction (h_base pdu) = USBIP_DIR_IN \/ direction (h_base pdu) = USBIP_DIR_OUT ->
  endpoint_of dev (ep (h_base pdu)) (direction (h_base pdu)) = Some e ->
  0 <= ep_xfertype e < 4 -> ep_xfertype e <> USB_ENDPOINT_XFER_ISOC ->
  length (w_setup (h_u pdu)) = 8%nat -> bytes (w_setup (h_u pdu)) ->
  allocs_ok -> recvmsg_ok -> delivers_next sock (k_trace k) stream ->
  ud_side (sd_ud sd) = USBIP_STUB -> ud_tcp_socket (sd_ud sd) = Some sock ->
  stub_wf sd k -> fresh_names sd k -> no_filters sd k ->
  LockPriv 0 ∉ k_locks k -> LockUd 0 ∉ k_locks k ->
  let u := new_urb k in
  let pipe := usb_mkpipe (pipe_type (ep_xfertype e)) (direction (h_base pdu) =? USBIP_DIR_IN)
                (dev_devnum dev) (ep (h_base pdu)) in
  let r := described_urb pdu pipe (sd_udev sd) k in
  let r' := r <| urb_transfer_flags := masked dev (w_setup (h_u pdu)) r |> in
  let size := out_size pdu in
  exists ret blk tr sd',
    let k' := with_objects pdu (if ret <? 0 then r else r') blk tr k in
    stub_recv_cmd_submit pdu sd k = Ok (tt, sd', k') /\ stub_wf sd' k' /\
    queued sd' ≡ₚ k_next k :: queued sd /\ sd_priv_init sd' = sd_priv_init sd ++ [k_next k] /\
    sd_privs sd' = <[k_next k := new_priv pdu k]> (sd_privs sd) /\
    submitted tr = (if ret <? 0 then [] else [u]) ++ submitted (k_trace k) /\
    ((size <= 0 /\ ret = 0 /\ blk = replicate (Z.to_nat (cs_transfer_buffer_length (u_cmd_submit (h_u pdu)))) 0 /\
      core_took u (with_request pdu k sd) sd') \/
     (0 < size /\ ret = size /\ blk = take (Z.to_nat size) stream /\
      size <= Z.of_nat (length stream) /\
      core_took u (with_request pdu k sd) sd') \/
     (0 < size /\ ret <= 0 /\
      core_took u (add_event SDEV_EVENT_ERROR_TCP (with_request pdu k sd)) sd')).
Proof.
  intros. destruct (stub_submit_run pdu dev e sock stream sd k)
    as (ret & blk & tr & sd' & Hrun & Hwf & Hq & Hi & Hp & [Hs _] & Hout); [done..|].
  by exists ret, blk, tr, sd'.
Qed.

(** ** Samples *)

(** A configured device: control endpoint 0, bulk IN 1 and bulk OUT 2. *)
Definition sample_ep0 : endpoint := mkEp USB_ENDPOINT_XFER_CONTROL true 64.
Definition sample_usb_dev : usb_device :=
  mkUdev 5 1 7 1 false 0 0 0 0 0
    (Some sample_ep0 :: Some (mkEp USB_ENDPOINT_XFER_BULK false 512) :: replicate 14 None)
    (Some sample_ep0 :: None :: Some (mkEp USB_ENDPOINT_XFER_BULK true 512) :: replicate 13 None).
Definition sample_rx_kernel : kernel :=
  sample_stub_kernel <| k_udevs := {[ 1%positive := sample_usb_dev ]} |>.

Lemma sample_dev_wf : dev_wf sample_usb_dev.
Proof. split; [cbn; lia|]. split; reflexivity. Qed.

Lemma get_pipe_correct_witness :
  (exists pipe, @get_pipe linux_pipes 2 USBIP_DIR_OUT (sample_sdev 0) sample_rx_kernel =
      Ok (pipe, sample_sdev 0, sample_rx_kernel) /\ @usb_pipetype linux_pipes pipe = PIPE_BULK) /\
  @get_pipe linux_pipes 3 USBIP_DIR_OUT (sample_sdev 0) sample_rx_kernel = Crash BugOn /\
  @get_pipe linux_pipes 77 USBIP_DIR_IN (sample_sdev 0) sample_rx_kernel = Crash OutOfBounds.
Proof.
  pose proof (fun n d => @get_pipe_correct linux_pipes linux_pipes_ok n d sample_usb_dev
    (sample_sdev 0) sample_rx_kernel eq_refl sample_dev_wf) as Hp.
  split; [|split].
  - destruct (Hp 2 USBIP_DIR_OUT ltac:(lia) ltac:(by right) ltac:(vm_compute; intuition discriminate))
      as (pipe & Hrun & _ & _ & _ & Ht).
    exists pipe. split; [exact Hrun|exact Ht].
  - exact (Hp 3 USBIP_DIR_OUT ltac:(lia) ltac:(by right)).
  - exact (Hp 77 USBIP_DIR_IN ltac:(lia) ltac:(by left)).
Defined.

(** A control URB of the sample device with the setup packet [setup] and every flag. *)
Definition sample_ctrl_urb (pipe : Z) : urb :=
  sample_out_urb <| urb_pipe := pipe |> <| urb_dev := Some 1%positive |>
    <| urb_transfer_flags := 1023 |>.
Definition sample_ctrl_kernel (pipe : Z) (setup : list Z) : kernel :=
  sample_rx_kernel <| k_urbs := <[21%positive := sample_ctrl_urb pipe]> (k_urbs sample_rx_kernel) |>
    <| k_heap := <[32%positive := setup]> (k_heap sample_rx_kernel) |>.

Lemma sample_built pipe setup :
  length setup = 8%nat -> bytes setup ->
  built 1 32 setup (sample_ctrl_urb pipe) (sample_ctrl_kernel pipe setup).
Proof. intros Hl Hb. split_and!; [done|discriminate|done|done| |done|done]. apply lookup_insert_eq. Qed.

(** On bulk OUT endpoint 2 everything but SHORT_NOT_OK (1) and ISO_ASAP (2) stays. *)
Lemma masking_enforces_policy_witness :
  let pipe := @usb_mkpipe linux_pipes PIPE_BULK false 5 2 in
  let k := sample_ctrl_kernel pipe (replicate 8 0) in
  exists flags, @masking_bogus_flags true linux_pipes 21 (sample_sdev 0) k =
      Ok (tt, sample_sdev 0, k <| k_urbs := <[21%positive :=
        (sample_ctrl_urb pipe) <| urb_transfer_flags := flags |>]> (k_urbs k) |>) /\
    Z.testbit flags 0 = false /\ Z.testbit flags 1 = false /\ Z.testbit flags 6 = true.
Proof.
  intros pipe k.
  destruct (@masking_enforces_policy true linux_pipes 21 1 32 (replicate 8 0) (sample_ctrl_urb pipe)
    sample_usb_dev (mkEp USB_ENDPOINT_XFER_BULK true 512) (sample_sdev 0) k) as (flags & Hrun & Hf).
  - apply lookup_insert_eq.
  - apply sample_built; [reflexivity|]. apply (bool_decide_unpack _). by vm_compute.
  - reflexivity.
  - apply sample_dev_wf.
  - vm_compute. intuition discriminate.
  - reflexivity.
  - vm_compute. discriminate.
  - exists flags. split; [exact Hrun|]. rewrite !Hf by lia. split_and!; reflexivity.
Defined.

(** Set interface 2 to alternate setting 1. *)
Lemma tweak_special_requests_calls_witness :
  let pipe := @usb_mkpipe linux_pipes PIPE_CONTROL false 5 0 in
  let k := sample_ctrl_kernel pipe [1; 11; 1; 0; 2; 0; 0; 0] in
  @tweak_special_requests quiet_env true linux_pipes 21 (sample_sdev 0) k =
    Ok (tt, sample_sdev 0, traced [CSetInterface (Some 1%positive) 2 1] k).
Proof.
  intros pipe k.
  refine (@tweak_special_requests_calls quiet_env true linux_pipes 21 1 32
    [1; 11; 1; 0; 2; 0; 0; 0] (sample_ctrl_urb pipe) sample_usb_dev 11 sample_priv
    (sample_sdev 0) k _ _ _ _ _).
  - apply lookup_insert_eq.
  - apply sample_built; [reflexivity|]. apply (bool_decide_unpack _). by vm_compute.
  - reflexivity.
  - reflexivity.
  - reflexivity.
Defined.

Lemma delivered_no_recv chunk stream tr tr' :
  no_recv tr' -> delivered chunk stream (tr' ++ tr) = delivered chunk stream tr.
Proof. induction 1 as [|c tr' Hc _ IH]; [done|]. by destruct c. Qed.

Lemma stream_env_delivers_next chunk stream sock tr :
  delivered chunk stream tr = 0 ->
  @delivers_next (stream_env chunk stream) sock tr stream.
Proof. intros H0 tr' Ht. apply stream_env_delivers. by rewrite delivered_no_recv. Qed.

(** Three bytes for bulk OUT endpoint 2. *)
Definition sample_submit_pdu : usbip_header :=
  mkHeader (mkBasic USBIP_CMD_SUBMIT 200 65538 USBIP_DIR_OUT 2)
    (mkUnion 3 3 0 0 0 (replicate 8 0)).

Lemma sample_fresh_names e : fresh_names (sample_sdev e) sample_rx_kernel.
Proof.
  intros b Hb. change (k_next sample_rx_kernel) with 50%positive in Hb.
  cbn -[replicate]. by rewrite !lookup_insert_ne by lia.
Qed.

Lemma stub_submit_request_witness :
  exists sd' k', @stub_recv_cmd_submit (stream_env 2 [7; 8; 9]) false linux_pipes no_drivers
      sample_submit_pdu (sample_sdev 0) sample_rx_kernel = Ok (tt, sd', k') /\
    stub_wf sd' k' /\ submitted (k_trace k') = [51%positive].
Proof.
  destruct (@stub_submit_request (stream_env 2 [7; 8; 9]) false linux_pipes linux_pipes_ok no_drivers
    sample_submit_pdu sample_usb_dev (mkEp USB_ENDPOINT_XFER_BULK true 512) 7 [7; 8; 9]
    (sample_sdev 0) sample_rx_kernel) as (ret & blk & tr & sd' & Hrun & Hwf & _ & _ & _ & Hsub & Hout).
  - reflexivity.
  - apply sample_dev_wf.
  - by apply ep_number_address.
  - by right.
  - reflexivity.
  - vm_compute. intuition discriminate.
  - discriminate.
  - reflexivity.
  - apply (bool_decide_unpack _). by vm_compute.
  - intros tr n. split; discriminate.
  - apply stream_env_ok.
  - by apply stream_env_delivers_next.
  - reflexivity.
  - reflexivity.
  - apply (stub_wf_ext _ _ _ _ (sample_stub_wf 0)); reflexivity.
  - apply sample_fresh_names.
  - exact (sample_no_filters 0).
  - cbn. set_solver.
  - cbn. set_solver.
  - eexists sd', _. split; [exact Hrun|]. split; [exact Hwf|].
    destruct (ret <? 0) eqn:E; [exfalso|exact Hsub].
    apply (f_equal (fun x => match x with Ok (_, _, k) => submitted (k_trace k) | _ => [] end)) in Hrun.
    cbn [with_objects k_trace set_field set_k_next set_k_trace] in Hrun. rewrite Hsub in Hrun.
    vm_compute in Hrun. discriminate Hrun.
Defined.
