(* ===== verification/StubCrash.v ===== *)
(** * What the error handling of the exporting side does not survive

    A request is queued before its URB is allocated.  When that allocation fails the
    driver raises an event and leaves the request as it is: the event handler, which
    gives back every queued request, takes the missing URB for one.  A thread that
    could not be started is stopped as well. *)
From S2P Require Import Prelude Kernel Wire Event EventProps Exec Xfer Filters.
From S2P Require Import Stub StubTx StubRx StubMain StubDev StubProps StubReqProps StubRxProps.

Section crash.
Context `{Env}.

(** Something happened to the connection, and the handler can look at it. *)
Definition pending (sd : stub_device) (k : kernel) : Prop :=
  0 < ud_event (sd_ud sd) < 16 /\ has_bits (ud_event (sd_ud sd)) USBIP_EH_SHUTDOWN = true /\
  LockUd 0 ∉ k_locks k.

(** A crash of the shutdown is one of the handler. *)
Lemma handler_crashes fuel sd k b :
  pending sd k -> stub_shutdown_connection sd k = Crash b ->
  event_handler (S fuel) stub_eh_ops sd k = Crash b.
Proof.
  intros (He & Hsh & Hl) Hc. cbn [event_handler].
  erewrite bind_ok by (by apply event_happened_ok). cbn [the_ud stub_has_ud].
  rewrite (proj2 (Z.eqb_neq _ 0)) by lia. cbn [negb]. apply bind_crash.
  unfold event_handler_body. erewrite bind_ok by reflexivity. cbn [the_ud stub_has_ud]. rewrite Hsh.
  apply bind_crash. cbn [when_]. by apply bind_crash.
Qed.

Lemma stop_error_crashes name f (sd : stub_device) k :
  (if bool_decide (ThreadErr = NoThread) then mret tt
   else kthread_stop name ThreadErr;; modify_ud f) sd k = Crash UseAfterFree.
Proof. by rewrite bool_decide_eq_false_2. Qed.

(** A thread that was never started is stopped like one that runs. *)
Theorem failed_thread_crashes fuel sd k :
  pending sd k -> ud_tcp_rx (sd_ud sd) = ThreadErr \/ ud_tcp_tx (sd_ud sd) = ThreadErr ->
  event_handler (S fuel) stub_eh_ops sd k = Crash UseAfterFree.
Proof.
  intros Hp Herr. apply handler_crashes; [done|]. unfold stub_shutdown_connection.
  erewrite bind_ok by reflexivity. cbv beta. erewrite bind_ok by apply opt_socket_ok.
  destruct (decide (ud_tcp_rx (sd_ud sd) = ThreadErr)) as [->|Hrx].
  { apply bind_crash, stop_error_crashes. }
  destruct Herr as [?|Htx]; [done|].
  erewrite bind_ok by (apply stop_thread_ok; [done|]; intros E; cbn; destruct (sd_ud sd); cbn in *; by rewrite E).
  rewrite Htx. apply bind_crash, stop_error_crashes.
Qed.

(** A request more does not hinder giving back others. *)
Lemma release_beside ps p x privs urbs h us privs' urbs' h' :
  p ∉ ps -> release ps (privs, urbs, h) = Some (us, (privs', urbs', h')) ->
  release ps (<[p := x]> privs, urbs, h) = Some (us, (<[p := x]> privs', urbs', h')).
Proof.
  revert privs urbs h us. induction ps as [|q ps IH]; intros privs urbs h us Hp; cbn [release].
  - by intros [= <- <- <- <-].
  - apply not_elem_of_cons in Hp as [Hne Hp].
    destruct (release1 q (privs, urbs, h)) as [[u st]|] eqn:E1; [|done]. cbn [mbind option_bind].
    destruct (release ps st) as [[us1 st1]|] eqn:E2; [|done]. cbn [mbind option_bind]. intros [= <- ->].
    apply release1_inv in E1 as (y & r & h1 & h2 & Hy & Hu & Hr & H1 & H2 & ->). cbn [fst snd] in *.
    rewrite (release1_intro q (<[p := x]> privs) urbs h y u r h1 h2); [|by rewrite lookup_insert_ne|done..].
    cbn [mbind option_bind]. rewrite delete_insert_ne by done. by rewrite (IH _ _ _ _ Hp E2).
Qed.

(** The queues are emptied up to the request without an URB. *)
Lemma cleanup_loop_crashes fuel before p after x sd k us st :
  queued sd = before ++ p :: after -> NoDup (queued sd) ->
  release before (store_of sd k) = Some (us, st) -> sd_privs sd !! p = Some x -> sp_urb x = None ->
  (length before < fuel)%nat -> LockPriv 0 ∉ k_locks k ->
  cleanup_urbs_loop fuel sd k = Crash NullDeref.
Proof.
  revert before sd k us. induction fuel as [|fuel IH]; intros before sd k us Hq Hnd Hr Hp Hx Hf Hl; [lia|].
  cbn [cleanup_urbs_loop]. destruct before as [|q before]; cbn [app] in Hq.
  - destruct (stub_priv_pop_first sd k p after Hq Hnd Hl) as [Hpop _].
    erewrite bind_ok by exact Hpop. cbv beta iota. apply bind_crash.
    unfold cleanup_urb, get_priv. erewrite bind_ok by (erewrite bind_ok by reflexivity; cbn; by rewrite Hp).
    rewrite Hx. erewrite bind_ok by reflexivity. unfold free_priv, get_priv.
    erewrite bind_ok by (erewrite bind_ok by (erewrite bind_ok by reflexivity; cbn; by rewrite Hp); reflexivity).
    done.
  - destruct (stub_priv_pop_first sd k q (before ++ p :: after) Hq Hnd Hl) as [Hpop Hq'].
    erewrite bind_ok by exact Hpop. cbv beta iota. cbn [release] in Hr.
    destruct (release1 q (store_of sd k)) as [[u [[privs1 urbs1] h1]]|] eqn:E1; [|done]. cbn in Hr.
    destruct (release before (privs1, urbs1, h1)) as [[us1 st1]|] eqn:E2; [|done]. cbn in Hr.
    injection Hr as <- ->. erewrite bind_ok by (apply cleanup_urb_release; exact E1). cbv beta.
    rewrite Hq in Hnd. apply NoDup_cons in Hnd as [Hnq Hnd].
    apply (IH before _ _ us1); [exact Hq'| |exact E2| |done|cbn in Hf; lia|done].
    + change (queued _) with (queued (unlink_priv q sd)). by rewrite Hq'.
    + apply release1_inv in E1 as (y & r & h2 & h3 & _ & _ & _ & _ & _ & [= -> _ _]). cbn.
      rewrite lookup_delete_ne; [done|]. intros ->. apply Hnq, elem_of_app. right. by left.
Qed.

Lemma shutdown_null_crashes before p after x sd k us st :
  queued sd = before ++ p :: after -> NoDup (queued sd) ->
  release before (store_of sd k) = Some (us, st) -> sd_privs sd !! p = Some x -> sp_urb x = None ->
  ud_tcp_rx (sd_ud sd) <> ThreadErr -> ud_tcp_tx (sd_ud sd) <> ThreadErr -> LockPriv 0 ∉ k_locks k ->
  stub_shutdown_connection sd k = Crash NullDeref.
Proof.
  intros Hq Hnd Hr Hp Hx Hrx Htx Hl.
  unfold stub_shutdown_connection. erewrite bind_ok by reflexivity. cbv beta.
  erewrite bind_ok by apply opt_socket_ok.
  erewrite bind_ok by (apply stop_thread_ok; [done|]; intros E; cbn; destruct (sd_ud sd); cbn in *; by rewrite E).
  erewrite bind_ok by (apply stop_thread_ok; [done|]; intros E; cbn; destruct (sd_ud sd); cbn in *; by rewrite E).
  erewrite bind_ok by (apply close_socket_ok; intros E; cbn; by rewrite E).
  rewrite !traced_traced. apply bind_crash. unfold stub_device_cleanup_urbs. erewrite bind_ok by reflexivity.
  apply (cleanup_loop_crashes _ before p after x _ _ us st); try done.
  apply (f_equal length) in Hq. unfold queued in Hq. rewrite !length_app in Hq. cbn in Hq |- *. lia.
Qed.

(** There is memory, but none for an URB. *)
Definition no_urb_left : Prop :=
  forall tr n, (env_answer tr (CMalloc n)).1 <> 0 /\ (env_answer tr (CAllocUrb n)).1 = 0.

(** The request of [pdu], without an URB. *)
Definition unfinished (pdu : usbip_header) : stub_priv := mkStubPriv (seqnum (h_base pdu)) None 0 false.
Definition with_unfinished (pdu : usbip_header) (k : kernel) (sd : stub_device) : stub_device :=
  add_event SDEV_EVENT_ERROR_MALLOC
    (sd <| sd_privs := <[k_next k := unfinished pdu]> (sd_privs sd) |>
        <| sd_priv_init := sd_priv_init sd ++ [k_next k] |>).

Lemma stub_submit_unfinished `{Arch} `{UsbPipes} `{FilterDrivers stub_device} pdu dev e sd k :
  k_udevs k !! sd_udev sd = Some dev ->
  endpoint_of dev (ep (h_base pdu)) (direction (h_base pdu)) = Some e -> 0 <= ep_xfertype e < 4 ->
  no_urb_left -> LockPriv 0 ∉ k_locks k -> LockUd 0 ∉ k_locks k ->
  exists tr, stub_recv_cmd_submit pdu sd k =
    Ok (tt, with_unfinished pdu k sd, traced tr k <| k_next := Pos.succ (k_next k) |>).
Proof.
  intros Hd He Ht Hno Hl1 Hl2. eexists. unfold stub_recv_cmd_submit. erewrite bind_ok.
  2:{ unfold stub_build_urb. erewrite bind_ok by reflexivity. cbv beta zeta.
      erewrite bind_ok by (by eapply get_pipe_run). cbv beta.
      erewrite bind_ok by (apply stub_priv_alloc_run; [intros; apply Hno|done]). cbv beta iota.
      erewrite bind_ok.
      2:{ unfold usb_alloc_urb, mbind, M_bind. rewrite ext_ret_ok.
          rewrite (proj2 (Hno _ _)). reflexivity. }
      cbv beta. erewrite bind_ok.
      2:{ unfold get_priv. erewrite bind_ok by reflexivity. cbn. rewrite lookup_insert_eq. reflexivity. }
      erewrite bind_ok by reflexivity. cbv beta iota.
      erewrite bind_ok by (by apply event_add_ok). reflexivity. }
  unfold with_unfinished. cbv beta iota. unfold mret, M_ret. rewrite !traced_traced. do 3 f_equal.
  cbn. by rewrite insert_insert_eq.
Qed.
End crash.

(** The event raised for the missing URB shuts the connection down. *)
Lemma malloc_event_pending sd k :
  0 <= ud_event (sd_ud sd) < 16 -> LockUd 0 ∉ k_locks k ->
  pending (add_event SDEV_EVENT_ERROR_MALLOC sd) k.
Proof.
  intros Hc%event_range_cases Hl. unfold pending.
  change (ud_event (sd_ud (add_event SDEV_EVENT_ERROR_MALLOC sd)))
    with (Z.lor (ud_event (sd_ud sd)) SDEV_EVENT_ERROR_MALLOC).
  repeat destruct Hc as [->|Hc]; try (rewrite Hc); done.
Qed.

(** C32: A submission for which there is memory, but not for its URB, stops the
    machine.  The request is queued without an URB, nothing of its data is taken
    from the connection and the memory error is raised; the event handler, which is
    to close the connection for it, crashes when it comes to that request, however
    many others are queued. *)
Theorem urb_shortage_crashes `{Env} `{Arch} `{UsbPipes} `{FilterDrivers stub_device} fuel pdu dev e sd k :
  k_udevs k !! sd_udev sd = Some dev ->
  endpoint_of dev (ep (h_base pdu)) (direction (h_base pdu)) = Some e -> 0 <= ep_xfertype e < 4 ->
  no_urb_left -> stub_wf sd k -> fresh_names sd k -> 0 <= ud_event (sd_ud sd) < 16 ->
  ud_tcp_rx (sd_ud sd) <> ThreadErr -> ud_tcp_tx (sd_ud sd) <> ThreadErr ->
  LockPriv 0 ∉ k_locks k -> LockUd 0 ∉ k_locks k ->
  exists sd' k', stub_recv_cmd_submit pdu sd k = Ok (tt, sd', k') /\
    sd' = with_unfinished pdu k sd /\ k_heap k' = k_heap k /\ k_urbs k' = k_urbs k /\
    event_handler (S fuel) stub_eh_ops sd' k' = Crash NullDeref.
Proof.
  intros Hd He Ht Hno [Hnd [[us st] Hrel]] Hfr Hev Hrx Htx Hl1 Hl2.
  destruct (stub_submit_unfinished pdu dev e sd k) as [tr Hrun]; [done..|].
  eexists _, _. split; [exact Hrun|]. split; [done|]. split; [done|]. split; [done|].
  apply handler_crashes; [by apply malloc_event_pending|].
  assert (k_next k ∉ queued sd) as Hfresh.
  { intros Hin. destruct (stub_wf_request sd k (k_next k)) as (v & st1 & us1 & st2 & E1 & _);
      [by split; [|by exists (us, st)]|done|].
    apply release1_inv in E1 as (x & _ & _ & _ & Hx & _). cbn in Hx.
    destruct (Hfr (k_next k)) as (_ & _ & Hp); [lia|]. congruence. }
  unfold queued in Hrel, Hnd, Hfresh.
  apply release_app in Hrel as (us1 & [[privs' urbs'] h'] & us2 & Hrel & _).
  apply not_elem_of_app in Hfresh as [Hf1 Hf2].
  apply (shutdown_null_crashes (sd_priv_init sd) (k_next k) (sd_priv_tx sd ++ sd_priv_free sd) (unfinished pdu)
    _ _ us1 (<[k_next k := unfinished pdu]> privs', urbs', h')); try done.
  - unfold queued. cbn. by rewrite <- app_assoc.
  - unfold queued. cbn. rewrite <- app_assoc. cbn [app]. rewrite <- Permutation_middle.
    apply NoDup_cons. split; [by apply not_elem_of_app|done].
  - by apply release_beside.
  - cbn. apply lookup_insert_eq.
Qed.

(** ** Sample: a third request, for which no URB is left *)

Definition short_env : Env := fun _ c => match c with CMalloc _ => (1, []) | _ => (0, []) end.

Lemma urb_shortage_crashes_witness :
  exists sd' k', @stub_recv_cmd_submit short_env false linux_pipes no_drivers sample_submit_pdu
      (sample_sdev 0) sample_rx_kernel = Ok (tt, sd', k') /\
    queued sd' = [11; 50; 12]%positive /\
    @event_handler _ stub_has_ud 2 (@stub_eh_ops short_env) sd' k' = Crash NullDeref.
Proof.
  destruct (@urb_shortage_crashes short_env false linux_pipes no_drivers 1 sample_submit_pdu sample_usb_dev
    (mkEp USB_ENDPOINT_XFER_BULK true 512) (sample_sdev 0) sample_rx_kernel)
    as (sd' & k' & Hrun & -> & _ & _ & Hcrash).
  - reflexivity.
  - reflexivity.
  - vm_compute. intuition discriminate.
  - intros tr n. split; [discriminate|reflexivity].
  - apply (stub_wf_ext _ _ _ _ (sample_stub_wf 0)); reflexivity.
  - apply sample_fresh_names.
  - cbn. lia.
  - discriminate.
  - discriminate.
  - cbn. set_solver.
  - cbn. set_solver.
  - eexists _, k'. split; [exact Hrun|]. split; [reflexivity|exact Hcrash].
Defined.
