(* ===== verification/StubHostProps.v ===== *)
(** * The host driver's table of bus ids, and attaching a connection

    The table refines a set of at most sixteen bus ids; the sysfs files change
    it and hand connections to devices. *)
From S2P Require Import Prelude CLib Kernel Event EventProps Exec Xfer Stub StubTx StubRx StubMain StubDev StubProps.

(** ** Bus ids *)

(** The bus id in a buffer: its text, at most 32 characters. *)
Definition bid (s : list Z) : list Z := take BUSID_SIZE (c_str s).

Lemma strncmp_eq_iff n a b :
  strncmp_eq n a b = true <-> take n (c_str a) = take n (c_str b).
Proof.
  revert a b. induction n as [|n IH]; intros a b; cbn [strncmp_eq]; [done|].
  destruct a as [|x a], b as [|y b]; cbn [hd tl c_str].
  - done.
  - destruct (0 =? y) eqn:E; cbn [negb]; bool_to_prop; [by subst|].
    rewrite (proj2 (Z.eqb_neq y 0)) by lia. done.
  - destruct (x =? 0) eqn:E; cbn [negb]; bool_to_prop; [by subst|done].
  - destruct (x =? y) eqn:E; cbn [negb]; bool_to_prop.
    + subst. destruct (y =? 0); [done|]. cbn [take]. rewrite IH. split; [by intros ->|by intros [= ->]].
    + split; [done|]. destruct (x =? 0) eqn:E1, (y =? 0) eqn:E2; bool_to_prop; cbn [take]; try done; [lia|].
      by intros [= ? _].
Qed.

Lemma strncmp_eq_bid a b : strncmp_eq BUSID_SIZE a b = bool_decide (bid a = bid b).
Proof.
  case_bool_decide as E; [by apply strncmp_eq_iff|].
  apply not_true_iff_false. by rewrite strncmp_eq_iff.
Qed.

Lemma take_c_str_strncpy n s : take n (c_str (strncpy n s)) = take n (c_str s).
Proof. apply strncmp_eq_iff, strncmp_eq_strncpy. Qed.

Lemma bid_strncpy s : bid (strncpy BUSID_SIZE s) = bid s.
Proof. apply take_c_str_strncpy. Qed.

Lemma name_used_bid b : name_used b = bool_decide (bid (b_name b) <> []).
Proof.
  unfold name_used, bid. destruct (b_name b) as [|x l]; [done|]. cbn [hd c_str].
  destruct (x =? 0); cbn [negb]; [done|]. symmetry. by apply bool_decide_eq_true_2.
Qed.

(** The ids in use. *)
Definition ids (t : list bus_id_priv) : list (list Z) :=
  (fun b => bid (b_name b)) <$> filter (fun b => name_used b = true) t.

Lemma ids_cons b t :
  ids (b :: t) = if name_used b then bid (b_name b) :: ids t else ids t.
Proof.
  unfold ids. destruct (name_used b) eqn:E.
  - by rewrite filter_cons_True by done.
  - by rewrite filter_cons_False by (by rewrite E).
Qed.

Lemma get_busid_idx_from_spec i t s :
  bid s <> [] ->
  (get_busid_idx_from i t s = -1 /\ bid s ∉ ids t) \/
  (exists n b, get_busid_idx_from i t s = i + Z.of_nat n /\ t !! n = Some b /\
     name_used b = true /\ bid (b_name b) = bid s /\
     ids t = ids (take n t) ++ bid s :: ids (drop (S n) t)).
Proof.
  intros Hs. revert i. induction t as [|b t IH]; intros i; cbn [get_busid_idx_from].
  - left. split; [done|]. apply not_elem_of_nil.
  - rewrite strncmp_eq_bid, ids_cons. destruct (name_used b) eqn:Eu; cbn [andb].
    + case_bool_decide as E.
      * right. exists 0%nat, b. rewrite <- E. cbn. rewrite drop_0. split_and!; try done. lia.
      * destruct (IH (i + 1)) as [[Hi Hn]|(n & b' & Hi & Hb & Hu & He & Hids)].
        -- left. split; [done|]. apply not_elem_of_cons. by split.
        -- right. exists (S n), b'. cbn [take drop lookup list_lookup]. rewrite ids_cons, Eu, Hids.
           split_and!; try done. lia.
    + destruct (IH (i + 1)) as [[Hi Hn]|(n & b' & Hi & Hb & Hu & He & Hids)]; [by left|].
      right. exists (S n), b'. cbn [take drop lookup list_lookup]. rewrite ids_cons, Eu.
      split_and!; try done. lia.
Qed.

Lemma add_to_table_spec t s :
  bid s <> [] ->
  match add_to_table t s with
  | Some t' => ids t' ≡ₚ bid s :: ids t /\ length t' = length t /\ (length (ids t) < length t)%nat
  | None => length (ids t) = length t
  end.
Proof.
  intros Hs. induction t as [|b t IH]; [done|]. cbn [add_to_table]. rewrite ids_cons.
  destruct (name_used b) eqn:Eu; cbn [negb].
  - destruct (add_to_table t s) as [t'|].
    + destruct IH as (IH1 & IH2 & IH3). rewrite ids_cons, Eu, IH1. cbn. split; [constructor|]. lia.
    + cbn. by rewrite IH.
  - rewrite ids_cons.
    match goal with |- context [?x :: t] => set (b' := x) end.
    assert (b_name b' = strncpy BUSID_SIZE s) as Hn by (unfold b'; by case_if).
    rewrite name_used_bid, Hn, bid_strncpy, bool_decide_eq_true_2 by done.
    split; [done|]. split; [done|]. cbn.
    assert (length (ids t) <= length t)%nat; [|lia].
    unfold ids. rewrite length_fmap. apply length_filter.
Qed.

(** ** The operations *)

Definition with_table (t : list bus_id_priv) (h : host) : host := h <| h_busid_table := t |>.

Lemma get_busid_priv_run s h k :
  LockBusidTable ∉ k_locks k ->
  get_busid_priv s h k =
    Ok (let i := get_busid_idx (h_busid_table h) s in
        if i >=? 0 then Some (Z.to_nat i) else None, h, k).
Proof.
  intros Hl. unfold get_busid_priv. exec_step. exec_step. exec_step. by destruct k.
Qed.

Lemma busid_add_run s h k :
  let t := h_busid_table h in
  bid s <> [] -> NoDup (ids t) -> LockBusidTable ∉ k_locks k ->
  (exists o, get_busid_priv s h k = Ok (o, h, k) /\
    match o with
    | Some i => exists b, t !! i = Some b /\ bid (b_name b) = bid s
    | None => bid s ∉ ids t
    end) /\
  exists r t', add_match_busid s h k = Ok (r, with_table t' h, k) /\ NoDup (ids t') /\
    ((bid s ∈ ids t /\ r = 0 /\ t' = t) \/
     (bid s ∉ ids t /\ (length (ids t) < length t)%nat /\ r = 0 /\ length t' = length t /\
        ids t' ≡ₚ bid s :: ids t) \/
     (bid s ∉ ids t /\ length (ids t) = length t /\ r = -1 /\ t' = t)).
Proof.
  intros t Hs Hnd Hl. assert (h = with_table t h) as Hh by (by destruct h).
  destruct (get_busid_idx_from_spec 0 t s Hs) as [[Hi Hn]|(n & b & Hi & Hb & Hu & He & Hids)];
    (split; [eexists; split; [by apply get_busid_priv_run|]|]);
    change (get_busid_idx (h_busid_table h) s) with (get_busid_idx_from 0 t s).
  - by rewrite Hi.
  - pose proof (add_to_table_spec t s Hs) as Hadd. unfold add_match_busid. exec_step. exec_step.
    change (get_busid_idx (h_busid_table h) s) with (get_busid_idx_from 0 t s). rewrite Hi.
    change (-1 >=? 0) with false. cbv iota. fold t.
    destruct (add_to_table t s) as [t'|].
    + destruct Hadd as (Hp & Hlen & Hroom). erewrite bind_ok by reflexivity. exec_step.
      exists 0, t'. split; [by destruct k|]. split; [by rewrite Hp; apply NoDup_cons|].
      right. left. done.
    + exec_step. exists (-1), t. split; [rewrite <- Hh; by destruct k|]. split; [done|].
      right. right. done.
  - rewrite Hi. cbv zeta. destruct (0 + Z.of_nat n >=? 0) eqn:E; [|rewrite Z.geb_leb in E; bool_to_prop; lia].
    exists b. split; [|done]. by replace (Z.to_nat (0 + Z.of_nat n)) with n by lia.
  - unfold add_match_busid. exec_step. exec_step.
    change (get_busid_idx (h_busid_table h) s) with (get_busid_idx_from 0 t s). rewrite Hi.
    destruct (0 + Z.of_nat n >=? 0) eqn:E; [|rewrite Z.geb_leb in E; bool_to_prop; lia].
    exec_step. exists 0, t. split; [rewrite <- Hh; by destruct k|]. split; [done|].
    left. split; [|done]. rewrite Hids. apply elem_of_app. right. left.
Qed.

(** The table of bus ids is a set of at most sixteen names.  Adding a name
    makes it (once) a member, and it is then found, in the entry that bears it;
    a name is found exactly if it is a member; adding to a full table fails and
    changes nothing. *)
Theorem busid_add_refines s h k :
  let t := h_busid_table h in
  bid s <> [] -> NoDup (ids t) -> LockBusidTable ∉ k_locks k ->
  (exists o, get_busid_priv s h k = Ok (o, h, k) /\
    match o with
    | Some i => exists b, t !! i = Some b /\ bid (b_name b) = bid s
    | None => bid s ∉ ids t
    end) /\
  exists r t', add_match_busid s h k = Ok (r, with_table t' h, k) /\ NoDup (ids t') /\
    ((bid s ∈ ids t /\ r = 0 /\ t' = t) \/
     (bid s ∉ ids t /\ (length (ids t) < length t)%nat /\ r = 0 /\ length t' = length t /\
        ids t' ≡ₚ bid s :: ids t) \/
     (bid s ∉ ids t /\ length (ids t) = length t /\ r = -1 /\ t' = t)).
Proof. intros. by apply busid_add_run. Qed.

Lemma ids_app t1 t2 : ids (t1 ++ t2) = ids t1 ++ ids t2.
Proof. unfold ids. by rewrite filter_app, fmap_app. Qed.

Lemma alter_split (f : bus_id_priv -> bus_id_priv) n t b :
  t !! n = Some b -> alter f n t = take n t ++ f b :: drop (S n) t.
Proof.
  revert n. induction t as [|c t IH]; intros [|n] Hb; cbn in *; try done.
  - injection Hb as ->. by rewrite drop_0.
  - f_equal. by apply IH.
Qed.

Lemma busid_del_run s h k :
  let t := h_busid_table h in
  bid s <> [] -> NoDup (ids t) -> LockBusidTable ∉ k_locks k ->
  exists r t', del_match_busid s h k = Ok (r, with_table t' h, k) /\ NoDup (ids t') /\
    ((bid s ∉ ids t /\ r = -1 /\ t' = t) \/
     (bid s ∈ ids t /\ r = 0 /\ exists i b, t !! i = Some b /\ bid (b_name b) = bid s /\
       ((b_status b = STUB_BUSID_OTHER /\ ids t ≡ₚ bid s :: ids t') \/
        (b_status b = STUB_BUSID_ADDED /\ t' = t) \/
        (b_status b <> STUB_BUSID_OTHER /\ b_status b <> STUB_BUSID_ADDED /\
         t' = <[i := b <| b_status := STUB_BUSID_REMOV |>]> t /\ ids t' = ids t)))).
Proof.
  intros t Hs Hnd Hl. assert (h = with_table t h) as Hh by (by destruct h).
  unfold del_match_busid. exec_step. exec_step. cbv zeta. fold t.
  change (get_busid_idx t s) with (get_busid_idx_from 0 t s).
  destruct (get_busid_idx_from_spec 0 t s Hs) as [[-> Hn]|(n & b & -> & Hb & Hu & He & Hids)].
  - change (-1 <? 0) with true. cbv iota. exec_step. exists (-1), t.
    split; [rewrite <- Hh; by destruct k|]. split; [done|]. by left.
  - destruct (0 + Z.of_nat n <? 0) eqn:E; bool_to_prop; [lia|].
    assert (bid s ∈ ids t) as Hin by (rewrite Hids; apply elem_of_app; right; left).
    erewrite bind_ok by reflexivity. exec_step.
    replace (Z.to_nat (0 + Z.of_nat n)) with n by lia.
    pose proof (alter_split del_entry n t b Hb) as Halt.
    exists 0, (alter del_entry n t). split; [by destruct k|].
    assert (ids (alter del_entry n t) = ids (take n t) ++ ids (del_entry b :: drop (S n) t)) as Hids'
      by (by rewrite Halt, ids_app).
    rewrite ids_cons in Hids'.
    destruct (b_status b =? STUB_BUSID_OTHER) eqn:Eo.
    + assert (name_used (del_entry b) = false) as Hf by (unfold del_entry; rewrite Eo; cbn; by rewrite Eo).
      rewrite Hf in Hids'. bool_to_prop.
      assert (ids t ≡ₚ bid s :: ids (alter del_entry n t)) as Hp
        by (rewrite Hids, Hids'; by rewrite Permutation_middle).
      split; [by rewrite Hp in Hnd; apply NoDup_cons in Hnd as [_ ?]|]. right. split; [done|]. split; [done|].
      exists n, b. split_and!; [done|done|]. by left.
    + destruct (b_status b =? STUB_BUSID_ADDED) eqn:Ea.
      * assert (del_entry b = b) as Hd by (unfold del_entry; rewrite Eo; cbv zeta; by rewrite Eo, Ea).
        assert (alter del_entry n t = t) as -> by (rewrite Halt, Hd; by apply take_drop_middle).
        split; [done|]. right. split; [done|]. split; [done|]. exists n, b. bool_to_prop.
        split_and!; [done|done|]. right. by left.
      * assert (del_entry b = b <| b_status := STUB_BUSID_REMOV |>) as Hd
          by (unfold del_entry; rewrite Eo; cbv zeta; by rewrite Eo, Ea).
        assert (ids (alter del_entry n t) = ids t) as Hsame.
        { rewrite Hids', Hids, Hd. change (name_used _) with (name_used b). rewrite Hu.
          by rewrite <- He. }
        split; [by rewrite Hsame|]. right. split; [done|]. split; [done|]. exists n, b. bool_to_prop.
        split_and!; [done|done|]. right. right. split_and!; [done|done| |done].
        rewrite Halt, Hd, insert_take_drop; [done|]. by eapply lookup_lt_Some.
Qed.

(** Deleting a name that is not in the table fails.  Deleting a member
    succeeds, but it only leaves the table when its device is of no interest any
    more; the entry of a grabbed or removed device is marked as removed, and for
    a name that was just added nothing happens at all: it stays a member and the
    driver will grab its device. *)
Theorem busid_del_effect s h k :
  let t := h_busid_table h in
  bid s <> [] -> NoDup (ids t) -> LockBusidTable ∉ k_locks k ->
  exists r t', del_match_busid s h k = Ok (r, with_table t' h, k) /\ NoDup (ids t') /\
    ((bid s ∉ ids t /\ r = -1 /\ t' = t) \/
     (bid s ∈ ids t /\ r = 0 /\ exists i b, t !! i = Some b /\ bid (b_name b) = bid s /\
       ((b_status b = STUB_BUSID_OTHER /\ ids t ≡ₚ bid s :: ids t') \/
        (b_status b = STUB_BUSID_ADDED /\ t' = t) \/
        (b_status b <> STUB_BUSID_OTHER /\ b_status b <> STUB_BUSID_ADDED /\
         t' = <[i := b <| b_status := STUB_BUSID_REMOV |>]> t /\ ids t' = ids t)))).
Proof. intros. by apply busid_del_run. Qed.

(** ** The file [match_busid] *)

(** The text of a write: a verb of four characters and a bus id. *)
Definition verb_of (buf : list Z) (verb : list Z) : bool := strncmp_eq 4 buf verb.
Definition operand (buf : list Z) : list Z := drop 4 buf.

(** writing to [match_busid] adds or deletes the bus id after the verb, and
    tells the writer about every failure: a text too short or without verb, a
    name that does not fit, a full table, an unknown name.  No failure changes
    the table. *)
Theorem store_match_busid_results buf count h k :
  let t := h_busid_table h in
  bid (operand buf) <> [] -> NoDup (ids t) -> LockBusidTable ∉ k_locks k ->
  exists r t', store_match_busid buf count h k = Ok (r, with_table t' h, k) /\ NoDup (ids t') /\
    if (count <? 5) || negb (strnlen BUSID_SIZE (operand buf) <? BUSID_SIZE)%nat
    then r = - EINVAL /\ t' = t
    else if verb_of buf str_add then
      (r = count /\ bid (operand buf) ∈ ids t') \/
      (r = - ENOMEM /\ t' = t /\ length (ids t) = length t)
    else if verb_of buf str_del then
      (r = count /\ bid (operand buf) ∈ ids t) \/ (r = - ENODEV /\ t' = t /\ bid (operand buf) ∉ ids t)
    else r = - EINVAL /\ t' = t.
Proof.
  intros t Hs Hnd Hl. assert (h = with_table t h) as Hh by (by destruct h).
  unfold store_match_busid. fold (operand buf).
  destruct (count <? 5); cbn [orb]; [by exists (- EINVAL), t; rewrite <- Hh|]. cbv zeta.
  destruct (strnlen BUSID_SIZE (operand buf) <? BUSID_SIZE)%nat; cbn [negb];
    [|by exists (- EINVAL), t; rewrite <- Hh].
  fold (verb_of buf str_add) (verb_of buf str_del).
  assert (bid (strncpy BUSID_SIZE (operand buf)) <> []) as Hs' by by rewrite bid_strncpy.
  destruct (verb_of buf str_add).
  - destruct (busid_add_run _ h k Hs' Hnd Hl) as (_ & r & t' & Hrun & Hnd' & Hr).
    rewrite bid_strncpy in Hr. erewrite bind_ok by exact Hrun. cbv beta.
    destruct Hr as [(Hin & -> & ->)|[(Hn & _ & -> & _ & Hp)|(Hn & Hlen & -> & ->)]];
      eexists _, _; (split; [reflexivity|]); (split; [done|]); [left|left|right]; split; try done.
    rewrite Hp. left.
  - destruct (verb_of buf str_del); [|by exists (- EINVAL), t; rewrite <- Hh].
    destruct (busid_del_run _ h k Hs' Hnd Hl) as (r & t' & Hrun & Hnd' & Hr).
    rewrite bid_strncpy in Hr. erewrite bind_ok by exact Hrun. cbv beta.
    eexists _, _. split; [reflexivity|]. split; [done|].
    destruct Hr as [(Hn & -> & ->)|(Hin & -> & _)]; [by right|by left].
Qed.

(** ** Handing a connection to a device *)
Section sockfd.
Context `{Env}.

(** What looking up the socket behind a descriptor calls, latest first, and finds. *)
Definition file_of (fd : Z) (tr : list call) : Z := (env_answer tr (CFget fd)).1.
Definition is_socket (fd : Z) (tr : list call) : bool :=
  negb (file_of fd tr =? 0) &&
  negb ((env_answer (CFget fd :: tr) (CIsSocket (file_of fd tr))).1 =? 0).
Definition lookup_calls (fd : Z) (tr : list call) : list call :=
  let file := file_of fd tr in
  if file =? 0 then [CFget fd]
  else (if is_socket fd tr then [] else [CFput file]) ++ [CIsSocket file; CFget fd].

Lemma sockfd_to_socket_run {St} fd (s : St) k :
  sockfd_to_socket fd s k =
    Ok (if is_socket fd (k_trace k) then Some (file_of fd (k_trace k)) else None, s,
        traced (lookup_calls fd (k_trace k)) k).
Proof.
  unfold sockfd_to_socket, is_socket, lookup_calls, is_socket. erewrite bind_ok by apply ext_ret_ok.
  cbv beta. fold (file_of fd (k_trace k)). destruct (file_of fd (k_trace k) =? 0) eqn:E; [done|].
  erewrite bind_ok by apply ext_ret_ok. cbv beta. cbn [negb andb].
  change (k_trace (traced [CFget fd] k)) with (CFget fd :: k_trace k).
  destruct ((env_answer (CFget fd :: k_trace k) (CIsSocket (file_of fd (k_trace k)))).1 =? 0); done.
Qed.

(** What starting a thread yields: an error pointer is kept as it is. *)
Definition started (name : Z) (tr : list call) : thread :=
  if (env_answer tr (CKthreadRun name)).1 =? 0 then ThreadErr else Thread.

(** The device with the connection [s] it was given. *)
Definition connected (s : Z) (tr : list call) (sd : stub_device) : stub_device :=
  sd <| sd_ud := (sd_ud sd) <| ud_tcp_socket := Some s |> <| ud_tcp_rx := started T_RX tr |>
                            <| ud_tcp_tx := started T_TX (CKthreadRun T_RX :: tr) |>
                            <| ud_status := SDEV_ST_USED |> |>.
End sockfd.

(** a device takes a connection only when it is available, and only if the
    descriptor is a socket: it is then in use, with the socket and its two
    threads; a refused descriptor is given back.  Writing -1 disconnects a device
    in use, by an event.  Everything else is refused without any effect.
    (A thread that could not be started is not noticed.) *)
Theorem store_sockfd_results `{Env} fd count sd k :
  LockUd 0 ∉ k_locks k ->
  let st := ud_status (sd_ud sd) in
  store_sockfd_sdev fd count sd k =
    if fd =? -1 then
      if bool_decide (st = SDEV_ST_USED)
      then Ok (count, add_event SDEV_EVENT_DOWN sd, traced [CWakeUp Q_EH] k)
      else Ok (- EINVAL, sd, k)
    else if bool_decide (st = SDEV_ST_AVAILABLE) then
      let tr := lookup_calls fd (k_trace k) ++ k_trace k in
      if is_socket fd (k_trace k)
      then Ok (count, connected (file_of fd (k_trace k)) tr sd,
               traced (CKthreadRun T_TX :: CKthreadRun T_RX :: lookup_calls fd (k_trace k)) k)
      else Ok (- EINVAL, sd, traced (lookup_calls fd (k_trace k)) k)
    else Ok (- EINVAL, sd, k).
Proof.
  intros Hl st. unfold store_sockfd_sdev. fold st. destruct (fd =? -1); cbn [negb].
  - exec_step. exec_step. fold st. destruct (decide (st = SDEV_ST_USED)) as [E|E].
    + rewrite (bool_decide_eq_false_2 (st <> _)), bool_decide_eq_true_2 by (done || naive_solver).
      exec_step. erewrite bind_ok by by apply event_add_ok. by destruct k.
    + rewrite (bool_decide_eq_true_2 (st <> _)), bool_decide_eq_false_2 by done.
      exec_step. by destruct k.
  - exec_step. exec_step. fold st. destruct (decide (st = SDEV_ST_AVAILABLE)) as [E|E].
    + rewrite (bool_decide_eq_false_2 (st <> _)), bool_decide_eq_true_2 by (done || naive_solver).
      erewrite bind_ok by apply sockfd_to_socket_run. cbv beta zeta.
      change (k_trace (k <| k_locks := LockUd ud_owner :: k_locks k |>)) with (k_trace k).
      destruct (is_socket fd (k_trace k)).
      * do 6 (exec_step). exec_step. erewrite bind_ok by reflexivity. exec_step. by destruct k.
      * exec_step. by destruct k.
    + rewrite (bool_decide_eq_true_2 (st <> _)), bool_decide_eq_false_2 by done.
      exec_step. by destruct k.
Qed.

(** ** Samples *)

Definition nul_text (l : list Z) : list Z := l ++ [0].
Definition sample_busid : list Z := [49; 45; 50].
Definition empty_host : host := mkHost (replicate MAX_BUSID busid_zero) ∅ ∅.
Definition one_id_host : host :=
  with_table ((busid_zero <| b_name := strncpy BUSID_SIZE sample_busid |>
                 <| b_status := STUB_BUSID_ADDED |>) :: replicate 15 busid_zero) empty_host.

Lemma ids_empty : ids (h_busid_table empty_host) = [].
Proof. reflexivity. Qed.
Lemma ids_one : ids (h_busid_table one_id_host) = [sample_busid].
Proof. reflexivity. Qed.

Lemma busid_add_refines_witness :
  exists t', add_match_busid sample_busid empty_host sample_kernel =
      Ok (0, with_table t' empty_host, sample_kernel) /\ ids t' ≡ₚ [sample_busid].
Proof.
  destruct (busid_add_refines sample_busid empty_host sample_kernel)
    as (_ & r & t' & Hrun & _ & Hr).
  - discriminate.
  - rewrite ids_empty. apply NoDup_nil_2.
  - cbn. set_solver.
  - rewrite ids_empty in Hr.
    destruct Hr as [(Hin & _)|[(_ & _ & -> & _ & Hp)|(_ & Hlen & _)]];
      [by apply not_elem_of_nil in Hin| |discriminate Hlen].
    exists t'. split; [exact Hrun|exact Hp].
Defined.

(** Deleting the name just added reports success and keeps it. *)
Lemma busid_del_effect_witness :
  exists t', del_match_busid sample_busid one_id_host sample_kernel =
      Ok (0, with_table t' one_id_host, sample_kernel) /\ t' = h_busid_table one_id_host.
Proof.
  destruct (busid_del_effect sample_busid one_id_host sample_kernel) as (r & t' & Hrun & _ & Hr).
  - discriminate.
  - rewrite ids_one. apply NoDup_singleton.
  - cbn. set_solver.
  - assert (r = 0) as -> by (vm_compute in Hrun; by injection Hrun as <- _).
    exists t'. split; [exact Hrun|].
    apply (f_equal (fun x => match x with Ok (_, h, _) => h_busid_table h | _ => [] end)) in Hrun.
    cbn [with_table h_busid_table set_field set_h_busid_table] in Hrun. rewrite <- Hrun. reflexivity.
Defined.

(** "add 1-2" *)
Lemma store_match_busid_results_witness :
  exists t', store_match_busid (str_add ++ nul_text sample_busid) 7 empty_host sample_kernel =
      Ok (7, with_table t' empty_host, sample_kernel) /\ sample_busid ∈ ids t'.
Proof.
  destruct (store_match_busid_results (str_add ++ nul_text sample_busid) 7 empty_host sample_kernel)
    as (r & t' & Hrun & _ & Hr).
  - discriminate.
  - rewrite ids_empty. apply NoDup_nil_2.
  - cbn. set_solver.
  - destruct Hr as [[-> Hin]|(_ & _ & Hlen)]; [|discriminate Hlen].
    exists t'. split; [exact Hrun|exact Hin].
Defined.

(** Every call succeeds: descriptor 3 is the socket 1. *)
Definition yes_env : Env := fun _ _ => (1, []).
Lemma store_sockfd_results_witness :
  exists sd', @store_sockfd_sdev yes_env 3 2 (with_status SDEV_ST_AVAILABLE (sample_sdev 0)) sample_kernel =
      Ok (2, sd', traced [CKthreadRun T_TX; CKthreadRun T_RX; CIsSocket 1; CFget 3] sample_kernel) /\
    ud_status (sd_ud sd') = SDEV_ST_USED /\ ud_tcp_socket (sd_ud sd') = Some 1.
Proof.
  eexists. split; [|split].
  - refine (@store_sockfd_results yes_env 3 2 (with_status SDEV_ST_AVAILABLE (sample_sdev 0))
      sample_kernel _). cbn. set_solver.
  - reflexivity.
  - reflexivity.
Defined.
