(* ===== verification/VhciProps.v ===== *)
(** * The life of a request on the importing side

    An URB the USB core enqueues becomes a [vhci_priv] with a sequence number;
    it is given back once, when its result or the result of its unlink arrives,
    or when it is dequeued without a connection. *)
From S2P Require Import Prelude Kernel Wire Event EventProps Exec Xfer XferProps StubRx.
From S2P Require Import Vhci VhciRx VhciTx VhciHcd.

(** ** Code on one port *)

Definition set_vdev (port : nat) (v : vhci_device) (h : vhci_hcd) : vhci_hcd :=
  h <| hc_vdev := <[port := v]> (hc_vdev h) |>.

Lemma on_vdev_ok {A} port (m : Kernel.M vhci_device A) v a v' h k k' :
  hc_vdev h !! port = Some v -> m v k = Ok (a, v', k') ->
  on_vdev port m h k = Ok (a, set_vdev port v' h, k').
Proof. intros Hv Hm. unfold on_vdev. by rewrite Hv, Hm. Qed.

Lemma set_vdev_same port v h : hc_vdev h !! port = Some v -> set_vdev port v h = h.
Proof. intros Hv. unfold set_vdev. rewrite list_insert_id by done. by destruct h. Qed.

Lemma set_vdev_lookup port v v0 h :
  hc_vdev h !! port = Some v0 -> hc_vdev (set_vdev port v h) !! port = Some v.
Proof.
  intros Hv. unfold set_vdev. cbn. apply list_lookup_insert_eq. by eapply lookup_lt_Some.
Qed.

Lemma set_vdev_twice port v v' h : set_vdev port v (set_vdev port v' h) = set_vdev port v h.
Proof. unfold set_vdev. cbn. by rewrite list_insert_insert_eq. Qed.

Lemma get_port_vdev_ok port v h k :
  hc_vdev h !! port = Some v -> get_port_vdev port h k = Ok (v, h, k).
Proof.
  intros Hv. unfold get_port_vdev. erewrite on_vdev_ok by (done || reflexivity).
  by rewrite set_vdev_same.
Qed.

Lemma get_vpriv_ok p x h (k : kernel) :
  hc_privs h !! p = Some x -> get_vpriv p h k = Ok (x, h, k).
Proof. intros E. unfold get_vpriv. erewrite bind_ok by reflexivity. by rewrite E. Qed.

(** ** Requests *)

(** The requests of a port: not yet sent, then waiting for their result. *)
Definition requests (v : vhci_device) : list positive := vd_priv_tx v ++ vd_priv_rx v.

Definition owns (h : vhci_hcd) (k : kernel) (port : nat) (p : positive) : Prop :=
  exists x r, hc_privs h !! p = Some x /\ vp_vdev x = port /\
    k_urbs k !! vp_urb x = Some r /\ urb_hcpriv r = Some p.

(** Every request is queued once, knows its URB and is known to it. *)
Definition vhci_wf (port : nat) (v : vhci_device) (h : vhci_hcd) (k : kernel) : Prop :=
  hc_vdev h !! port = Some v /\ NoDup (requests v) /\ Forall (owns h k port) (requests v).

Lemma remove_id_app {A} `{EqDecision A} (x : A) l1 l2 :
  remove_id x (l1 ++ l2) = remove_id x l1 ++ remove_id x l2.
Proof. apply filter_app. Qed.

(** Two requests have different URBs. *)
Lemma owns_urb_inj h k port p q x y :
  owns h k port p -> owns h k port q -> hc_privs h !! p = Some x -> hc_privs h !! q = Some y ->
  vp_urb x = vp_urb y -> p = q.
Proof.
  intros (x' & r & Hx' & _ & Hr & Hp) (y' & s & Hy' & _ & Hs & Hq) Hx Hy Hu.
  rewrite Hx in Hx'. injection Hx' as <-. rewrite Hy in Hy'. injection Hy' as <-.
  rewrite Hu in Hr. congruence.
Qed.

(** What taking request [p] with URB [u] out of the books leaves. *)
Definition without (port : nat) (p : positive) (v : vhci_device) (h : vhci_hcd) : vhci_hcd :=
  set_vdev port (v <| vd_priv_tx := remove_id p (vd_priv_tx v) |>
                   <| vd_priv_rx := remove_id p (vd_priv_rx v) |>) h
    <| hc_privs := delete p (hc_privs h) |>.
Definition detached (u : positive) (r : urb) (k : kernel) : kernel :=
  k <| k_urbs := <[u := r <| urb_hcpriv := None |>]> (k_urbs k) |>.

Lemma pickup_found port sq p x r v h k :
  hc_vdev h !! port = Some v -> find_vpriv (hc_privs h) sq (vd_priv_rx v) = Some (p, x) ->
  hc_privs h !! p = Some x -> k_urbs k !! vp_urb x = Some r ->
  pickup_urb_and_free_priv port sq h k =
    Ok (Some (vp_urb x), without port p v h, detached (vp_urb x) r k).
Proof.
  intros Hv Hf Hx Hr. unfold pickup_urb_and_free_priv.
  erewrite bind_ok by by apply get_port_vdev_ok. cbv beta. erewrite bind_ok by reflexivity. cbv beta.
  rewrite Hf. erewrite bind_ok by by apply get_urb_ok. cbv beta.
  erewrite bind_ok by (unfold unlink_vpriv; by eapply on_vdev_ok). cbv beta.
  erewrite bind_ok.
  2: { unfold free_vpriv. erewrite bind_ok by (apply get_vpriv_ok; exact Hx). reflexivity. }
  cbv beta. erewrite bind_ok by by eapply modify_urb_ok. done.
Qed.

Lemma pickup_missing port sq v h k :
  hc_vdev h !! port = Some v -> find_vpriv (hc_privs h) sq (vd_priv_rx v) = None ->
  pickup_urb_and_free_priv port sq h k = Ok (None, h, k).
Proof.
  intros Hv Hf. unfold pickup_urb_and_free_priv.
  erewrite bind_ok by by apply get_port_vdev_ok. cbv beta. erewrite bind_ok by reflexivity. cbv beta.
  by rewrite Hf.
Qed.

Lemma find_vpriv_in privs sq q p x :
  find_vpriv privs sq q = Some (p, x) -> p ∈ q /\ privs !! p = Some x /\ vp_seqnum x = sq.
Proof.
  induction q as [|y q IH]; cbn; [done|]. destruct (privs !! y) as [z|] eqn:Ey; [|done].
  destruct (vp_seqnum z =? sq) eqn:E; bool_to_prop.
  - intros [= <- <-]. split_and!; [left|done|done].
  - intros (Hin & ? & ?)%IH. split_and!; [by right|done|done].
Qed.

Lemma without_wf port p x r v h k :
  vhci_wf port v h k -> p ∈ requests v -> hc_privs h !! p = Some x ->
  k_urbs k !! vp_urb x = Some r ->
  vhci_wf port (v <| vd_priv_tx := remove_id p (vd_priv_tx v) |>
                  <| vd_priv_rx := remove_id p (vd_priv_rx v) |>)
    (without port p v h) (detached (vp_urb x) r k).
Proof.
  intros (Hv & Hnd & Hown) Hp Hx Hr.
  assert (requests (v <| vd_priv_tx := remove_id p (vd_priv_tx v) |>
                  <| vd_priv_rx := remove_id p (vd_priv_rx v) |>) = remove_id p (requests v)) as Hq
    by (unfold requests; cbn; by rewrite remove_id_app).
  split; [by eapply (set_vdev_lookup port _ v)|]. rewrite Hq. split; [by apply NoDup_remove_id|].
  apply Forall_forall. intros q [Hne Hin]%elem_of_remove_id.
  rewrite Forall_forall in Hown. destruct (Hown q Hin) as (y & s & Hy & Hyp & Hs & Hqs).
  exists y, s. cbn. rewrite lookup_delete_ne by done. split_and!; [done|done| |done].
  rewrite lookup_insert_ne; [done|]. intros Hu. apply Hne.
  symmetry. by eapply (owns_urb_inj h k port p q x y (Hown p Hp) (Hown q Hin)).
Qed.

(** ** Results of submissions *)

(** The URBs handed back to their drivers with their status, latest first. *)
Definition givebacks (tr : list call) : list (positive * Z) :=
  omap (fun c => match c with CGivebackUrb u st => Some (u, st) | _ => None end) tr.
#[global] Arguments givebacks : simpl never.

Lemma givebacks_received `{Env} sock tr data tr' :
  Received sock tr data tr' -> givebacks tr' = givebacks tr.
Proof. induction 1 as [| |tr size data tr' Hs Hr _ IH]; [done|done|]. by rewrite IH. Qed.

(** The port with an event added. *)
Definition port_event (port : nat) (e : Z) (v : vhci_device) (h : vhci_hcd) : vhci_hcd :=
  set_vdev port (add_event e v) h.

Lemma port_event_add_ok `{Env} port e v h k :
  hc_vdev h !! port = Some v -> LockUd 1 ∉ k_locks k ->
  on_vdev port (usbip_event_add e) h k = Ok (tt, port_event port e v h, traced [CWakeUp Q_EH] k).
Proof. intros Hv Hl. eapply on_vdev_ok; [done|]. by apply event_add_ok. Qed.

Lemma port_event_wf port e v h k tr :
  vhci_wf port v h k -> vhci_wf port (add_event e v) (port_event port e v h) (traced tr k).
Proof.
  intros (Hv & Hnd & Hown). split; [by eapply set_vdev_lookup|]. split; [done|]. exact Hown.
Qed.

Lemma unlink_and_giveback_run `{Env} u r (h : vhci_hcd) k :
  k_urbs k !! u = Some r -> LockController ∉ k_locks k ->
  unlink_and_giveback u h k =
    Ok (tt, h, traced [CGivebackUrb u (urb_status r); CUnlinkUrbFromEp u] k).
Proof.
  intros Hu Hl. unfold unlink_and_giveback. exec_step. exec_step. exec_step.
  erewrite bind_ok by (apply get_urb_ok; exact Hu). cbv beta. by destruct k.
Qed.

Section ret_submit.
Context `{Env} `{Arch} `{UsbPipes}.

(** The URB with its result, no longer attached to a request. *)
Definition resulting (pdu : usbip_header) (r : urb) : urb :=
  (usbip_pack_pdu pdu (r <| urb_hcpriv := None |>) USBIP_RET_SUBMIT false).2.

(** How many bytes of data follow the header of the result. *)
Definition in_size (pdu : usbip_header) (r : urb) : Z :=
  if usb_pipein (urb_pipe r) then s32 (urb_actual_length (resulting pdu r)) else 0.

(** The kernel after the reception of [n] bytes for the URB. *)
Definition filled (pdu : usbip_header) (u : positive) (r : urb) (size : Z) (b : positive)
    (blk : list Z) (tr : list call) (k : kernel) : kernel :=
  k <| k_urbs := <[u := resulting pdu r]> (k_urbs k) |>
    <| k_heap := if 0 <? size then <[b := blk]> (k_heap k) else k_heap k |>
    <| k_trace := tr |>.

Lemma recv_in_data_run pdu u r b blk sock stream (v : vhci_device) k :
  let size := in_size pdu r in
  (0 < size -> urb_transfer_buffer r = Some (b, 0) /\ k_heap k !! b = Some blk /\
               size <= Z.of_nat (length blk)) ->
  recvmsg_ok -> delivers sock (k_trace k) stream -> k_urbs k !! u = Some (resulting pdu r) ->
  ud_side (vd_ud v) = USBIP_VHCI -> ud_tcp_socket (vd_ud v) = Some sock -> LockUd 1 ∉ k_locks k ->
  exists (ok : bool) n tr,
    usbip_recv_xbuff u v k =
      Ok (if ok then Z.max 0 size else - EPIPE,
          if ok then v else add_event VDEV_EVENT_ERROR_TCP v,
          filled pdu u r size b (splice blk 0 (take n stream)) tr k) /\
    givebacks tr = givebacks (k_trace k) /\
    if ok then Z.of_nat n = Z.max 0 size /\ (n <= length stream)%nat /\
               Reads sock (k_trace k) (take n stream) tr
    else 0 < size /\ Z.of_nat n < size /\ Stalled sock (k_trace k) (take n stream).
Proof.
  intros size Hbuf Hok Hd Hu Hside Hsock Hl.
  assert (urb_pipe (resulting pdu r) = urb_pipe r) as Hpipe by done.
  assert (urb_transfer_buffer (resulting pdu r) = urb_transfer_buffer r) as Htb by done.
  assert (k <| k_urbs := <[u := resulting pdu r]> (k_urbs k) |> = k) as Hid
    by (rewrite insert_id by done; by destruct k).
  rewrite (recv_xbuff_unfold u (resulting pdu r)) by done.
  change (the_ud v) with (vd_ud v). rewrite Hside, Hsock. cbv zeta.
  assert (xbuff_size USBIP_VHCI (resulting pdu r) = size) as Hsz.
  { unfold xbuff_size, size, in_size, usb_pipeout. rewrite Hpipe. by destruct (usb_pipein (urb_pipe r)). }
  rewrite Hsz, Z.gtb_ltb. unfold filled. destruct (0 <? size) eqn:E; bool_to_prop.
  2: { exists true, 0%nat, (k_trace k). rewrite Z.max_l by lia. split; [|split_and!; [done|done|lia|constructor]].
       do 2 f_equal. rewrite insert_id by done. by destruct k. }
  destruct (Hbuf E) as (Hb & Hblk & Hlen). rewrite Htb, Hb.
  pose proof (wp_usbip_recv_stalled sock (b, 0) size blk v k Hok E Hblk) as Hwp.
  apply wp_ok in Hwp as (ret & s' & k' & Hrun & -> & data & tr & HR & -> & Hret); [|done|done].
  pose proof (prefix_take_length _ _ (Hd _ _ HR)) as Hp.
  pose proof (prefix_length _ _ (Hd _ _ HR)) as Hpl.
  erewrite bind_ok by exact Hrun. cbv beta. cbn [fst snd]. change (Z.to_nat 0) with 0%nat.
  rewrite Z.max_r by lia. rewrite (insert_id (k_urbs k)) by done.
  pose proof (givebacks_received _ _ _ _ HR) as Hg.
  destruct (ret =? size) eqn:Er; bool_to_prop.
  - exists true, (length data), tr. rewrite <- Hp, Er. split; [by destruct k|].
    split_and!; [done|lia|done|by apply Received_Reads].
  - exists false, (length data), (CWakeUp Q_EH :: tr). rewrite <- Hp.
    erewrite bind_ok by by apply event_add_ok. split; [by destruct k|].
    destruct Hret as [[? _]|(_ & ? & ?)]; [done|]. by split_and!.
Qed.
End ret_submit.

(** The port without request [p]. *)
Definition dropped (p : positive) (v : vhci_device) : vhci_device :=
  v <| vd_priv_tx := remove_id p (vd_priv_tx v) |> <| vd_priv_rx := remove_id p (vd_priv_rx v) |>.

Lemma without_vdev port p v h :
  hc_vdev h !! port = Some v -> hc_vdev (without port p v h) !! port = Some (dropped p v).
Proof. intros Hv. by eapply (set_vdev_lookup port _ v). Qed.

(** The controller after a result came in: the request is gone, and an event
    is raised if its data did not come. *)
Definition after_result (ok : bool) (port : nat) (p : positive) (v : vhci_device) (h : vhci_hcd)
    : vhci_hcd :=
  if ok then without port p v h
  else port_event port VDEV_EVENT_ERROR_TCP (dropped p v) (without port p v h).

(** What the result of a submission does, to a request waiting for it or none. *)
Definition ret_submit_spec `{Env} `{Arch} `{UsbPipes} port pdu stream v h k : Prop :=
  match find_vpriv (hc_privs h) (seqnum (h_base pdu)) (vd_priv_rx v) with
  | None => vhci_recv_ret_submit port pdu h k =
      Ok (tt, port_event port VDEV_EVENT_ERROR_TCP v h, traced [CWakeUp Q_EH] k)
  | Some (p, x) => forall r b blk, let u := vp_urb x in let size := in_size pdu r in
      k_urbs k !! u = Some r -> usb_pipeisoc (urb_pipe r) = false ->
      (0 < size -> urb_transfer_buffer r = Some (b, 0) /\ k_heap k !! b = Some blk /\
                   size <= Z.of_nat (length blk)) ->
      exists (ok : bool) n tr v', let k' := filled pdu u r size b (splice blk 0 (take n stream)) tr k in
        vhci_recv_ret_submit port pdu h k = Ok (tt, after_result ok port p v h, k') /\
        vhci_wf port v' (after_result ok port p v h) k' /\ requests v' = remove_id p (requests v) /\
        givebacks tr = (if ok then [(u, rs_status (u_ret_submit (h_u pdu)))] else []) ++
                       givebacks (k_trace k) /\
        if ok then Z.of_nat n = Z.max 0 size /\ (n <= length stream)%nat
        else 0 < size /\ Z.of_nat n < size
  end.

(** The result of request [p], and what was read of its data. *)
Lemma ret_submit_found `{Env} `{Arch} `{UsbPipes} port pdu sock stream v h k p x r b blk :
  vhci_wf port v h k -> recvmsg_ok -> delivers sock (k_trace k) stream ->
  ud_side (vd_ud v) = USBIP_VHCI -> ud_tcp_socket (vd_ud v) = Some sock ->
  LockPriv 1 ∉ k_locks k -> LockUd 1 ∉ k_locks k -> LockController ∉ k_locks k ->
  find_vpriv (hc_privs h) (seqnum (h_base pdu)) (vd_priv_rx v) = Some (p, x) ->
  let u := vp_urb x in let size := in_size pdu r in
  k_urbs k !! u = Some r -> usb_pipeisoc (urb_pipe r) = false ->
  (0 < size -> urb_transfer_buffer r = Some (b, 0) /\ k_heap k !! b = Some blk /\
               size <= Z.of_nat (length blk)) ->
  exists (ok : bool) n tr v', let k' := filled pdu u r size b (splice blk 0 (take n stream)) tr k in
    vhci_recv_ret_submit port pdu h k = Ok (tt, after_result ok port p v h, k') /\
    vhci_wf port v' (after_result ok port p v h) k' /\ requests v' = remove_id p (requests v) /\
    givebacks tr = (if ok then [(u, rs_status (u_ret_submit (h_u pdu)))] else []) ++
                   givebacks (k_trace k) /\
    if ok then Z.of_nat n = Z.max 0 size /\ (n <= length stream)%nat /\
               Reads sock (k_trace k) (take n stream) tr
    else 0 < size /\ Z.of_nat n < size /\ Stalled sock (k_trace k) (take n stream).
Proof.
  intros Hwf Hok Hd Hside Hsock Hl1 Hl2 Hl3 Hf u size Hu Hiso Hbuf. pose proof Hwf as (Hv & Hnd & Hown).
  unfold vhci_recv_ret_submit.
  destruct (find_vpriv_in _ _ _ _ _ Hf) as (Hin & Hx & Hsq).
  assert (p ∈ requests v) as Hreq by (unfold requests; set_solver).
  exec_step. erewrite bind_ok by (by eapply pickup_found). cbv beta. exec_step. fold u.
  pose proof (without_wf port p x r v h k Hwf Hreq Hx Hu) as Hwf1.
  pose proof (without_vdev port p v h Hv) as Hv1.
  set (k1 := detached u r k).
  replace (detached u r (k <| k_locks := LOCK_VPRIV :: k_locks k |>) <| k_locks := k_locks k |>)
    with k1 by (unfold k1, detached; cbn; done).
  erewrite bind_ok by (eapply modify_urb_ok; apply lookup_insert_eq). cbv beta.
  set (k2 := k1 <| k_urbs := <[u := resulting pdu r]> (k_urbs k1) |>).
  change (k1 <| k_urbs := _ |>) with k2.
  destruct (recv_in_data_run pdu u r b blk sock stream (dropped p v) k2)
    as (ok & n & tr & Hrun & Hg & Hret); [exact Hbuf|done|done|apply lookup_insert_eq|done|done|done|].
  fold size in Hrun, Hret.
  erewrite bind_ok by (eapply on_vdev_ok; [exact Hv1|exact Hrun]). cbv beta.
  set (k3 := filled pdu u r size b (splice blk 0 (take n stream)) tr k2) in *.
  assert (k3 = filled pdu u r size b (splice blk 0 (take n stream)) tr k) as Hk3.
  { unfold k3, filled, k2, k1, detached. cbn. by rewrite !insert_insert_eq. }
  assert (k_urbs k3 !! u = Some (resulting pdu r)) as Hu3 by apply lookup_insert_eq.
  assert (forall tr', vhci_wf port (dropped p v) (without port p v h) (filled pdu u r size b
            (splice blk 0 (take n stream)) tr' k)) as Hwf3.
  { intros tr'. destruct Hwf1 as (_ & Hnd1 & Hown1). split; [done|]. split; [done|].
    eapply Forall_impl; [exact Hown1|]. intros q (y & s & Hy & Hyp & Hs & Hqs).
    exists y, s. split_and!; [done|done| |done]. unfold filled, detached in *. cbn in Hs |- *.
    destruct (decide (u = vp_urb y)) as [E|]; [|by rewrite lookup_insert_ne in Hs |- *].
    exfalso. rewrite <- E, lookup_insert_eq in Hs. injection Hs as <-. done. }
  assert (requests (dropped p v) = remove_id p (requests v)) as Hq
    by (unfold requests, dropped; cbn; by rewrite remove_id_app).
  destruct ok.
  - exists true, n, (CGivebackUrb u (urb_status (resulting pdu r)) :: CUnlinkUrbFromEp u :: tr), (dropped p v).
    cbv zeta. cbn [after_result].
    destruct (Z.max 0 size <? 0) eqn:E; bool_to_prop; [lia|].
    rewrite set_vdev_same by done.
    erewrite bind_ok.
    2: { eapply on_vdev_ok; [exact Hv1|]. by eapply recv_iso_skip. }
    cbv beta. change (0 <? 0) with false. cbv iota. rewrite set_vdev_same by done.
    erewrite bind_ok.
    2: { eapply on_vdev_ok; [exact Hv1|]. by eapply pad_iso_skip. }
    cbv beta. rewrite set_vdev_same by done.
    split; [erewrite unlink_and_giveback_run by (try exact Hu3; exact Hl3); by rewrite Hk3|].
    split; [apply Hwf3|]. split; [done|].
    change (k_trace k2) with (k_trace k) in *. split; [by rewrite <- Hg|].
    destruct Hret as (? & ? & HR). split_and!; [done|done|]. rewrite <- (app_nil_r (take n stream)).
    eapply Reads_trans; [exact HR|]. by apply (no_recv_Reads sock [_; _]); repeat constructor.
  - exists false, n, tr, (add_event VDEV_EVENT_ERROR_TCP (dropped p v)). cbv zeta. cbn [after_result].
    change (- EPIPE <? 0) with true. cbv iota. rewrite <- Hk3.
    split; [done|]. split; [|done].
    destruct (Hwf3 tr) as (_ & Hnd3 & Hown3). rewrite <- Hk3 in Hown3.
    split; [by eapply set_vdev_lookup|]. split; [done|exact Hown3].
Qed.

Lemma ret_submit_run `{Env} `{Arch} `{UsbPipes} port pdu sock stream v h k :
  vhci_wf port v h k -> recvmsg_ok -> delivers sock (k_trace k) stream ->
  ud_side (vd_ud v) = USBIP_VHCI -> ud_tcp_socket (vd_ud v) = Some sock ->
  LockPriv 1 ∉ k_locks k -> LockUd 1 ∉ k_locks k -> LockController ∉ k_locks k ->
  ret_submit_spec port pdu stream v h k.
Proof.
  unfold ret_submit_spec.
  intros Hwf Hok Hd Hside Hsock Hl1 Hl2 Hl3. pose proof Hwf as (Hv & Hnd & Hown).
  destruct (find_vpriv _ _ _) as [[p x]|] eqn:Hf.
  2: { unfold vhci_recv_ret_submit. exec_step. erewrite bind_ok by (by eapply pickup_missing). cbv beta. exec_step.
       erewrite port_event_add_ok by done. by destruct k. }
  intros r b blk Hu Hiso Hbuf.
  destruct (ret_submit_found port pdu sock stream v h k p x r b blk)
    as (ok & n & tr & v' & Hrun & Hwf' & Hq & Hg & Hret); [done..|].
  exists ok, n, tr, v'. split_and!; try done. destruct ok; intuition.
Qed.

(** C5: the result of a submission completes the URB with its number, and no
    other: the URB gets the result's status, lengths and data and is given back
    once, and its request is forgotten.  A result nobody waits for only raises
    an event.  If the data does not arrive whole the event is raised too, but
    the URB has left the books and is not given back: its driver never hears of
    it.  (For non-isochronous URBs whose buffer holds what the result reports.) *)
Theorem ret_submit_completes `{Env} `{Arch} `{UsbPipes} port pdu sock stream v h k :
  vhci_wf port v h k -> recvmsg_ok -> delivers sock (k_trace k) stream ->
  ud_side (vd_ud v) = USBIP_VHCI -> ud_tcp_socket (vd_ud v) = Some sock ->
  LockPriv 1 ∉ k_locks k -> LockUd 1 ∉ k_locks k -> LockController ∉ k_locks k ->
  ret_submit_spec port pdu stream v h k.
Proof. apply ret_submit_run. Qed.

(** ** Results of unlinks *)

Lemma dequeue_pending_unlink_run port pdu v h k :
  hc_vdev h !! port = Some v -> LockPriv 1 ∉ k_locks k ->
  dequeue_pending_unlink port pdu h k =
    match take_unlink (seqnum (h_base pdu)) (vd_unlink_rx v) with
    | Some (y, q) => Ok (Some y, set_vdev port (v <| vd_unlink_rx := q |>) h, k)
    | None => Ok (None, h, k)
    end.
Proof.
  intros Hv Hl. unfold dequeue_pending_unlink. exec_step.
  erewrite bind_ok by by apply get_port_vdev_ok. cbv beta.
  destruct (take_unlink _ _) as [[y q]|].
  - erewrite bind_ok by (by eapply on_vdev_ok). exec_step. by destruct k.
  - exec_step. by destruct k.
Qed.

(** What the result of an unlink does. *)
Definition ret_unlink_spec `{Env} port pdu v h k : Prop :=
  match take_unlink (seqnum (h_base pdu)) (vd_unlink_rx v) with
  | None => vhci_recv_ret_unlink port pdu h k = Ok (tt, h, k)
  | Some (y, q) =>
      let v1 := v <| vd_unlink_rx := q |> in let h1 := set_vdev port v1 h in
      match find_vpriv (hc_privs h) (u32 (vu_unlink_seqnum y)) (vd_priv_rx v) with
      | None => vhci_recv_ret_unlink port pdu h k = Ok (tt, h1, k)
      | Some (p, x) => forall r, k_urbs k !! vp_urb x = Some r ->
          let st := ru_status (u_ret_unlink (h_u pdu)) in
          exists k', vhci_recv_ret_unlink port pdu h k = Ok (tt, without port p v1 h1, k') /\
            k_urbs k' = <[vp_urb x := r <| urb_hcpriv := None |> <| urb_status := st |>]> (k_urbs k) /\
            k_trace k' = CGivebackUrb (vp_urb x) st :: CUnlinkUrbFromEp (vp_urb x) :: k_trace k /\
            vhci_wf port (dropped p v1) (without port p v1 h1) k'
      end
  end.

Lemma ret_unlink_run `{Env} port pdu v h k :
  vhci_wf port v h k ->
  LockPriv 1 ∉ k_locks k -> LockController ∉ k_locks k ->
  ret_unlink_spec port pdu v h k.
Proof.
  unfold ret_unlink_spec.
  intros Hwf Hl1 Hl2. pose proof Hwf as (Hv & Hnd & Hown). unfold vhci_recv_ret_unlink.
  pose proof (dequeue_pending_unlink_run port pdu v h k Hv Hl1) as Hdq.
  destruct (take_unlink _ _) as [[y q]|]; erewrite bind_ok by exact Hdq; cbv beta iota; [|done].
  set (v1 := v <| vd_unlink_rx := q |>). set (h1 := set_vdev port v1 h). cbv zeta.
  assert (hc_vdev h1 !! port = Some v1) as Hv1 by by eapply set_vdev_lookup.
  assert (vhci_wf port v1 h1 k) as Hwf1 by (split; [done|]; by split).
  destruct (find_vpriv _ _ _) as [[p x]|] eqn:Hf.
  2: { exec_step. erewrite bind_ok by (by eapply (pickup_missing port _ v1)). cbv beta. exec_step.
       by destruct k. }
  intros r Hr. destruct (find_vpriv_in _ _ _ _ _ Hf) as (Hin & Hx & _).
  assert (p ∈ requests v1) as Hreq by (unfold requests; cbn; set_solver).
  exec_step. erewrite bind_ok by (by eapply (pickup_found port _ p x r v1)). cbv beta. exec_step.
  set (k1 := detached (vp_urb x) r k).
  replace (detached (vp_urb x) r (k <| k_locks := LOCK_VPRIV :: k_locks k |>) <| k_locks := k_locks k |>)
    with k1 by done.
  erewrite bind_ok by (eapply modify_urb_ok; apply lookup_insert_eq). cbv beta.
  set (r1 := r <| urb_hcpriv := None |> <| urb_status := ru_status (u_ret_unlink (h_u pdu)) |>).
  eexists. split; [erewrite unlink_and_giveback_run; [reflexivity|apply lookup_insert_eq|done]|].
  split; [unfold traced, k1, detached; cbn; by rewrite insert_insert_eq|]. split; [done|].
  destruct (without_wf port p x r v1 h1 k Hwf1 Hreq Hx Hr) as (Hv2 & Hnd2 & Hown2).
  split; [done|]. split; [done|]. eapply Forall_impl; [exact Hown2|].
  intros z (w & s & Hw & Hwp & Hs & Hz). exists w, s. split_and!; [done|done| |done].
  unfold traced, detached, k1 in *. cbn in Hs |- *.
  destruct (decide (vp_urb x = vp_urb w)) as [E|]; [|by rewrite lookup_insert_ne].
  exfalso. rewrite <- E, lookup_insert_eq in Hs. by injection Hs as <-.
Qed.

(** C38: the result of an unlink is matched with the unlink that is waiting for
    it, which is forgotten.  If the URB to unlink is still waiting for its own
    result, it is given back once with the status the server reports and its
    request is forgotten; if its result came first, nothing else happens.  A
    result no unlink is waiting for is ignored. *)
Theorem ret_unlink_completes `{Env} port pdu v h k :
  vhci_wf port v h k ->
  LockPriv 1 ∉ k_locks k -> LockController ∉ k_locks k ->
  ret_unlink_spec port pdu v h k.
Proof. apply ret_unlink_run. Qed.

(** ** Enqueueing and dequeueing *)

(** The sequence number the controller gives next, as the driver keeps it. *)
Definition seqnum_next (h : vhci_hcd) : Z := u64 (s32 (hc_seqnum h + 1)).

(** The controller with a new request [p] for [u] at the end of the send queue. *)
Definition with_vpriv (port : nat) (p u : positive) (v : vhci_device) (h : vhci_hcd) : vhci_hcd :=
  set_vdev port (v <| vd_priv_tx := vd_priv_tx v ++ [p] |>) h
    <| hc_privs := <[p := mkVhciPriv (seqnum_next h) port u]> (hc_privs h) |>
    <| hc_seqnum := s32 (hc_seqnum h + 1) |>.

Lemma vhci_tx_urb_run `{Env} u r d port v h k :
  k_urbs k !! u = Some r -> urb_dev r = Some d ->
  get_vdev_from 0 (hc_vdev h) d = Some port -> hc_vdev h !! port = Some v ->
  (env_answer (k_trace k) (CMalloc 40)).1 <> 0 -> LockPriv 1 ∉ k_locks k ->
  vhci_tx_urb u h k =
    Ok (tt, with_vpriv port (k_next k) u v h,
        k <| k_urbs := <[u := r <| urb_hcpriv := Some (k_next k) |>]> (k_urbs k) |>
          <| k_next := Pos.succ (k_next k) |> <| k_trace := CWakeUp Q_TX :: CMalloc 40 :: k_trace k |>).
Proof.
  intros Hu Hd Hg Hv Ha Hl. unfold vhci_tx_urb. erewrite bind_ok by by apply get_urb_ok. cbv beta.
  rewrite Hd. erewrite bind_ok by (unfold get_vdev; erewrite bind_ok by reflexivity; by rewrite Hg).
  cbv beta iota. erewrite bind_ok by apply ext_ret_ok. cbv beta.
  rewrite (proj2 (Z.eqb_neq _ _) Ha). exec_step.
  do 2 (erewrite bind_ok by reflexivity; cbv beta).
  erewrite bind_ok by (unfold next_seqnum; do 2 (erewrite bind_ok by reflexivity; cbv beta); reflexivity).
  cbv beta. erewrite bind_ok by reflexivity. cbv beta.
  erewrite bind_ok by (eapply modify_urb_ok; exact Hu). cbv beta.
  erewrite bind_ok by (eapply on_vdev_ok; [exact Hv|reflexivity]). cbv beta.
  exec_step. unfold spin_unlock. cbn. rewrite decide_True, remove_id_relock by set_solver. done.
Qed.

Lemma with_vpriv_wf port p u r v h k tr n :
  vhci_wf port v h k -> k_urbs k !! u = Some r -> urb_hcpriv r = None ->
  hc_privs h !! p = None ->
  vhci_wf port (v <| vd_priv_tx := vd_priv_tx v ++ [p] |>) (with_vpriv port p u v h)
    (k <| k_urbs := <[u := r <| urb_hcpriv := Some p |>]> (k_urbs k) |> <| k_next := n |>
       <| k_trace := tr |>).
Proof.
  intros (Hv & Hnd & Hown) Hu Hhc Hp.
  assert (requests (v <| vd_priv_tx := vd_priv_tx v ++ [p] |>) ≡ₚ p :: requests v) as Hq
    by (unfold requests; cbn; solve_Permutation).
  assert (forall q, q ∈ requests v -> owns h k port q) as Hown' by by apply Forall_forall.
  split; [by eapply set_vdev_lookup|]. rewrite Hq. split.
  - apply NoDup_cons. split; [|done]. intros (x & _ & Hx & _)%Hown'. congruence.
  - apply Forall_cons. split.
    + exists (mkVhciPriv (seqnum_next h) port u), (r <| urb_hcpriv := Some p |>). cbn.
      by rewrite !lookup_insert_eq.
    + eapply Forall_impl; [exact Hown|]. intros q (x & s & Hx & Hxp & Hs & Hqs).
      exists x, s. cbn. rewrite lookup_insert_ne by congruence. split_and!; [done|done| |done].
      rewrite lookup_insert_ne; [done|]. intros E. rewrite <- E in Hs. congruence.
Qed.

(** What enqueueing an URB does. *)
Definition enqueue_spec `{Env} `{Arch} `{UsbPipes} port u r v h k : Prop :=
  let st := ud_status (vd_ud v) in
  let link := (env_answer (k_trace k) (CLinkUrbToEp u)).1 in
  if negb (urb_status r =? - EINPROGRESS) then
    vhci_urb_enqueue u h k = Ok (urb_status r, h, k)
  else if bool_decide (st = VDEV_ST_NULL) || bool_decide (st = VDEV_ST_ERROR) then
    vhci_urb_enqueue u h k = Ok (- ENODEV, h, k)
  else if negb (link =? 0) then
    vhci_urb_enqueue u h k =
      Ok (link, h, traced [CGivebackUrb u (urb_status r); CLinkUrbToEp u] k)
  else exists k' v', vhci_urb_enqueue u h k = Ok (0, with_vpriv port (k_next k) u v h, k') /\
    vhci_wf port v' (with_vpriv port (k_next k) u v h) k' /\
    vd_priv_tx v' = vd_priv_tx v ++ [k_next k] /\ vd_priv_rx v' = vd_priv_rx v /\
    k_urbs k' = <[u := r <| urb_hcpriv := Some (k_next k) |>]> (k_urbs k) /\
    k_trace k' = [CWakeUp Q_TX; CMalloc 40; CLinkUrbToEp u] ++ k_trace k.

Lemma urb_enqueue_run `{Env} `{Arch} `{UsbPipes} u r d dev v h k :
  let port := Z.to_nat (dev_portnum dev - 1) in
  k_urbs k !! u = Some r -> urb_dev r = Some d -> k_udevs k !! d = Some dev ->
  (urb_transfer_buffer r <> None \/ urb_transfer_buffer_length r = 0) -> 1 <= dev_portnum dev ->
  vhci_wf port v h k -> usb_pipedevice (urb_pipe r) <> 0 -> urb_hcpriv r = None ->
  get_vdev_from 0 (hc_vdev h) d = Some port -> hc_privs h !! k_next k = None ->
  (forall tr, (env_answer tr (CMalloc 40)).1 <> 0) ->
  LockController ∉ k_locks k -> LockUd 1 ∉ k_locks k -> LockPriv 1 ∉ k_locks k ->
  enqueue_spec port u r v h k.
Proof.
  intros port Hu Hd Hdev Hbuf Hpn Hwf Hpd Hhc Hg Hfr Ha Hl1 Hl2 Hl3. unfold enqueue_spec.
  set (st := ud_status (vd_ud v)). set (link := (env_answer (k_trace k) (CLinkUrbToEp u)).1).
  pose proof Hwf as (Hv & _ & _).
  assert (bool_decide (urb_transfer_buffer r = None) && negb (urb_transfer_buffer_length r =? 0) = false) as Hbug.
  { destruct Hbuf as [Hb| ->]; [by rewrite bool_decide_eq_false_2|by rewrite andb_false_r]. }
  assert (vhci_urb_enqueue u h k = vhci_urb_enqueue u h k) as Hrun by done.
  unfold vhci_urb_enqueue in Hrun at 2. revert Hrun. 
  erewrite bind_ok by by apply get_urb_ok. cbv beta. rewrite Hd. erewrite bind_ok by reflexivity. cbv beta.
  erewrite bind_ok by by apply get_udev_ok. cbv beta. rewrite Hbug. exec_step.
  destruct (urb_status r =? - EINPROGRESS); cbn [negb].
  2: { exec_step. intros ->. by destruct k. }
  destruct (dev_portnum dev <? 1) eqn:Epn; bool_to_prop; [lia|]. fold port.
  erewrite bind_ok by reflexivity. cbv beta.
  erewrite bind_ok by (eapply on_vdev_ok; [exact Hv|]; exec_step; reflexivity). cbv beta.
  rewrite set_vdev_same by done. fold st.
  destruct (bool_decide (st = VDEV_ST_NULL) || bool_decide (st = VDEV_ST_ERROR)).
  { exec_step. exec_step. intros ->. by destruct k. }
  exec_step. erewrite bind_ok by apply ext_ret_ok. cbv beta.
  cbn [k_trace k_locks set_field set_k_locks]. fold link.
  match goal with |- context [traced [CLinkUrbToEp u] ?x] => set (k1 := traced [CLinkUrbToEp u] x) end.
  assert (k_urbs k1 !! u = Some r) as Hu1 by done.
  destruct (negb (link =? 0)).
  - unfold enqueue_no_need_unlink. exec_step.
    erewrite bind_ok by (unfold urb_status_of; by erewrite bind_ok by by apply get_urb_ok). cbv beta.
    erewrite bind_ok by apply ext_do_ok. intros ->. by destruct k.
  - rewrite (proj2 (Z.eqb_neq _ _) Hpd). unfold enqueue_out. intros ->.
    pose proof (with_vpriv_wf port (k_next k) u r v h (traced [CLinkUrbToEp u] k)
      (CWakeUp Q_TX :: CMalloc 40 :: CLinkUrbToEp u :: k_trace k) (Pos.succ (k_next k))) as Hwf1.
    erewrite bind_ok.
    2: { eapply (vhci_tx_urb_run u r d port v h k1); [done|done|done|done|apply Ha|]. cbn. set_solver. }
    cbv beta. exec_step. eexists _, _. split; [reflexivity|].
    split; [|split; [|split; [|split; [reflexivity|reflexivity]]]].
    + apply Hwf1; [exact Hwf|done|done|done].
    + reflexivity.
    + reflexivity.
Qed.

(** C33: an URB for an addressed device is queued once, at the end of its port's
    send queue, with the next sequence number, and the transmitter is woken; an
    URB already cancelled, or for a port without connection, is refused without
    any effect.  But an URB that cannot be linked to its endpoint is given back
    and refused with an error as well: its driver learns about it twice. *)
Theorem urb_enqueue_results `{Env} `{Arch} `{UsbPipes} u r d dev v h k :
  let port := Z.to_nat (dev_portnum dev - 1) in
  k_urbs k !! u = Some r -> urb_dev r = Some d -> k_udevs k !! d = Some dev ->
  (urb_transfer_buffer r <> None \/ urb_transfer_buffer_length r = 0) -> 1 <= dev_portnum dev ->
  vhci_wf port v h k -> usb_pipedevice (urb_pipe r) <> 0 -> urb_hcpriv r = None ->
  get_vdev_from 0 (hc_vdev h) d = Some port -> hc_privs h !! k_next k = None ->
  (forall tr, (env_answer tr (CMalloc 40)).1 <> 0) ->
  LockController ∉ k_locks k -> LockUd 1 ∉ k_locks k -> LockPriv 1 ∉ k_locks k ->
  enqueue_spec port u r v h k.
Proof. apply urb_enqueue_run. Qed.

(** The controller with an unlink of request [x] queued. *)
Definition with_unlink (port : nat) (x : vhci_priv) (v : vhci_device) (h : vhci_hcd) : vhci_hcd :=
  set_vdev port (v <| vd_unlink_tx := vd_unlink_tx v ++ [mkVhciUnlink (seqnum_next h) (vp_seqnum x)] |>) h
    <| hc_seqnum := s32 (hc_seqnum h + 1) |>.

(** What dequeueing an URB does. *)
Definition dequeue_spec `{Env} port u st r v h k : Prop :=
  let check := (env_answer (k_trace k) (CCheckUnlinkUrb u st)).1 in
  let tr := CCheckUnlinkUrb u st :: k_trace k in
  match urb_hcpriv r with
  | None => vhci_urb_dequeue u st h k = Ok (0, h, k)
  | Some p => forall x, p ∈ requests v -> hc_privs h !! p = Some x -> vp_urb x = u ->
      if negb (check =? 0) then
        vhci_urb_dequeue u st h k = Ok (check, h, traced [CCheckUnlinkUrb u st] k)
      else match ud_tcp_socket (vd_ud v) with
      | None => exists k', vhci_urb_dequeue u st h k = Ok (0, without port p v h, k') /\
          k_urbs k' = <[u := r <| urb_hcpriv := None |>]> (k_urbs k) /\
          k_trace k' = CGivebackUrb u (urb_status r) :: CUnlinkUrbFromEp u :: tr /\
          vhci_wf port (dropped p v) (without port p v h) k'
      | Some _ => 
          if (env_answer tr (CMalloc 40)).1 =? 0 then
            vhci_urb_dequeue u st h k = Ok (- ENOMEM, port_event port VDEV_EVENT_ERROR_MALLOC v h,
              traced [CWakeUp Q_EH; CMalloc 40; CCheckUnlinkUrb u st] k)
          else vhci_urb_dequeue u st h k = Ok (0, with_unlink port x v h,
              traced [CWakeUp Q_TX; CMalloc 40; CCheckUnlinkUrb u st] k)
      end
  end.

Lemma urb_dequeue_run `{Env} u st r v h k port :
  k_urbs k !! u = Some r -> vhci_wf port v h k ->
  LockController ∉ k_locks k -> LockPriv 1 ∉ k_locks k -> LockUd 1 ∉ k_locks k ->
  dequeue_spec port u st r v h k.
Proof.
  intros Hu Hwf Hl1 Hl2 Hl3. unfold dequeue_spec. set (check := (env_answer (k_trace k) (CCheckUnlinkUrb u st)).1).
  set (tr := CCheckUnlinkUrb u st :: k_trace k). pose proof Hwf as (Hv & Hnd & Hown).
  assert (vhci_urb_dequeue u st h k = vhci_urb_dequeue u st h k) as Hrun by done.
  unfold vhci_urb_dequeue in Hrun at 2. revert Hrun. exec_step. exec_step.
  destruct (urb_hcpriv r) as [p|] eqn:Hhc; [|exec_step; intros ->; by destruct k].
  intros Hrun x Hp Hx Hxu. revert Hrun. erewrite bind_ok by apply ext_ret_ok. cbv beta.
  change (k_trace (k <| k_locks := LockController :: k_locks k |>)) with (k_trace k). fold check.
  destruct (negb (check =? 0)); [exec_step; intros ->; by destruct k|].
  assert (vp_vdev x = port) as Hxp.
  { rewrite Forall_forall in Hown. destruct (Hown p Hp) as (y & s & Hy & Hyp & _). congruence. }
  erewrite bind_ok by by apply get_vpriv_ok. cbv beta zeta. rewrite Hxp.
  erewrite bind_ok by by apply get_port_vdev_ok. cbv beta.
  destruct (ud_tcp_socket (vd_ud v)) as [sock|].
  - exec_step. erewrite bind_ok by apply ext_ret_ok. cbv beta.
    match goal with |- context [env_answer (k_trace ?y) _] => change (k_trace y) with tr end.
    destruct (_ =? 0).
    + do 2 exec_step. erewrite bind_ok by (by apply port_event_add_ok). cbv beta. intros ->. by destruct k.
    + erewrite bind_ok by (unfold next_seqnum; do 2 (erewrite bind_ok by reflexivity; cbv beta); reflexivity).
      cbv beta. erewrite bind_ok by (by eapply on_vdev_ok). cbv beta. do 2 exec_step.
      exec_step. intros ->. by destruct k.
  - exec_step. erewrite bind_ok by (by eapply on_vdev_ok). cbv beta.
    erewrite bind_ok.
    2: { unfold free_vpriv. erewrite bind_ok by (by apply get_vpriv_ok). reflexivity. }
    cbv beta. rewrite <- Hxu in *. do 4 exec_step.
    erewrite bind_ok.
    2: { unfold urb_status_of. erewrite bind_ok by (eapply get_urb_ok; apply lookup_insert_eq). reflexivity. }
    cbv beta. exec_step. erewrite bind_ok by (apply spin_lock_ok; exact Hl1). cbv beta.
    erewrite bind_ok by (apply (spin_unlock_ok _ (k_locks k)); [done|exact Hl1]). cbv beta. intros ->.
    exists (traced [CGivebackUrb (vp_urb x) (urb_status r); CUnlinkUrbFromEp (vp_urb x); CCheckUnlinkUrb (vp_urb x) st]
      (detached (vp_urb x) r k)).
    split; [by destruct k|]. split; [done|]. split; [unfold tr; by rewrite <- Hxu|].
    exact (without_wf port p x r v h k Hwf Hp Hx Hu).
Qed.

(** C36: dequeueing an URB.  One that is not queued, or that the USB core does not
    let go, is left alone.  Without a connection the request is forgotten and the
    URB given back at once; with one an unlink is queued for the server, under
    the next sequence number and naming the URB's own, and the URB stays until
    the answer.  Without memory for the unlink the connection is shut down. *)
Theorem urb_dequeue_results `{Env} u st r v h k port :
  k_urbs k !! u = Some r -> vhci_wf port v h k ->
  LockController ∉ k_locks k -> LockPriv 1 ∉ k_locks k -> LockUd 1 ∉ k_locks k ->
  dequeue_spec port u st r v h k.
Proof. apply urb_dequeue_run. Qed.

(** ** Samples *)

(** Port 0 is connected to a device; request 41 for URB 2 waits for its result
    and its cancellation was asked for. *)
Definition sample_vdev : vhci_device :=
  mkVdev (Some 1%positive) 65538 USB_SPEED_HIGH 0 sample_vhci_ud [] [41%positive] []
    [mkVhciUnlink 12 11].
Definition idle_vdev (port : Z) : vhci_device :=
  mkVdev None 0 0 port (mkUd USBIP_VHCI VDEV_ST_NULL None NoThread NoThread 0 NoThread 9 ∅) [] [] [] [].
Definition sample_vhci : vhci_hcd :=
  mkVhci (replicate 8 256) false 0 12 (sample_vdev :: map idle_vdev [1; 2; 3; 4; 5; 6; 7])
    {[ 41%positive := mkVhciPriv 11 0 2 ]} true false.
Definition sample_vhci_urb : urb :=
  (sample_in_urb 0) <| urb_dev := Some 1%positive |> <| urb_hcpriv := Some 41%positive |>
    <| urb_status := - EINPROGRESS |>.
Definition sample_vhci_kernel : kernel :=
  (one_block [0; 0; 0; 0]) <| k_next := 50%positive |>
    <| k_urbs := <[2%positive := sample_vhci_urb]>
                   {[ 3%positive := sample_vhci_urb <| urb_hcpriv := None |> ]} |>.

Lemma sample_vhci_wf : vhci_wf 0 sample_vdev sample_vhci sample_vhci_kernel.
Proof.
  split; [done|]. split; [apply (bool_decide_unpack _); by vm_compute|].
  repeat constructor. eexists _, _. split_and!; reflexivity.
Qed.

(** A result: [n] bytes for request 11, or the answer to unlink 12. *)
Definition sample_ret_pdu (cmd sq n : Z) : usbip_header :=
  mkHeader (mkBasic cmd sq 0 0 0) (mkUnion 0 n 0 0 0 (replicate 8 0)).

Lemma ret_submit_completes_witness :
  exists n tr v', let h' := without 0 41 sample_vdev sample_vhci in
    @vhci_recv_ret_submit (stream_env 3 [10; 11; 12; 13]) false linux_pipes 0
      (sample_ret_pdu USBIP_RET_SUBMIT 11 4) sample_vhci sample_vhci_kernel =
      Ok (tt, h', filled (sample_ret_pdu USBIP_RET_SUBMIT 11 4) 2 sample_vhci_urb 4 1
                    (splice [0; 0; 0; 0] 0 (take n [10; 11; 12; 13])) tr sample_vhci_kernel) /\
    n = 4%nat /\ requests v' = [] /\ givebacks tr = [(2%positive, 0)].
Proof.
  pose proof (@ret_submit_completes (stream_env 3 [10; 11; 12; 13]) false linux_pipes 0
    (sample_ret_pdu USBIP_RET_SUBMIT 11 4) 7 [10; 11; 12; 13] sample_vdev sample_vhci sample_vhci_kernel
    sample_vhci_wf (stream_env_ok _ _) (stream_env_delivers 3 [10; 11; 12; 13] 7 [] eq_refl) eq_refl eq_refl
    (not_elem_of_nil _) (not_elem_of_nil _) (not_elem_of_nil _)
    sample_vhci_urb 1%positive [0; 0; 0; 0] eq_refl eq_refl
    ltac:(intros _; split; [done|]; split; [done|]; by vm_compute))
    as (ok & n & tr & v' & Hrun & _ & Hq & Hg & Hn).
  destruct ok.
  - exists n, tr, v'. split; [exact Hrun|]. destruct Hn as [Hn _].
    split; [apply Nat2Z.inj; rewrite Hn; by vm_compute|]. split; [exact Hq|]. exact Hg.
  - exfalso. apply (f_equal (fun x => match x with Ok (_, _, k) => givebacks (k_trace k) | _ => [] end)) in Hrun.
    vm_compute in Hrun. vm_compute in Hg. congruence.
Defined.

Definition vhci_env : Env := fun _ c => match c with CMalloc _ => (1, []) | _ => (0, []) end.

Lemma ret_unlink_completes_witness :
  exists h' k', @vhci_recv_ret_unlink vhci_env 0 (sample_ret_pdu USBIP_RET_UNLINK 12 0)
      sample_vhci sample_vhci_kernel = Ok (tt, h', k') /\
    (exists v', vhci_wf 0 v' h' k' /\ requests v' = [] /\ vd_unlink_rx v' = []) /\
    givebacks (k_trace k') = [(2%positive, 0)].
Proof.
  destruct (@ret_unlink_completes vhci_env 0 (sample_ret_pdu USBIP_RET_UNLINK 12 0) sample_vdev
    sample_vhci sample_vhci_kernel sample_vhci_wf (not_elem_of_nil _) (not_elem_of_nil _)
    sample_vhci_urb eq_refl) as (k' & Hrun & _ & Ht & Hwf).
  eexists _, k'. split; [exact Hrun|]. split.
  - eexists. split; [exact Hwf|]. by split.
  - rewrite Ht. reflexivity.
Defined.

Definition sample_addressed : usb_device :=
  mkUdev 5 1 7 1 true 0 0 0 0 0 (replicate 16 None) (replicate 16 None).
Definition sample_hcd_kernel : kernel :=
  sample_vhci_kernel <| k_udevs := {[ 1%positive := sample_addressed ]} |>.

Lemma urb_enqueue_results_witness :
  exists k' v', @vhci_urb_enqueue vhci_env false linux_pipes 3 sample_vhci sample_hcd_kernel =
      Ok (0, with_vpriv 0 50 3 sample_vdev sample_vhci, k') /\
    vhci_wf 0 v' (with_vpriv 0 50 3 sample_vdev sample_vhci) k' /\ requests v' = [50; 41]%positive.
Proof.
  destruct (@urb_enqueue_results vhci_env false linux_pipes 3 (sample_vhci_urb <| urb_hcpriv := None |>) 1
    sample_addressed sample_vdev sample_vhci sample_hcd_kernel) as (k' & v' & Hrun & Hwf & Htx & Hrx & _);
    [reflexivity|reflexivity|reflexivity|by left|cbn; lia|exact sample_vhci_wf|by vm_compute|done|done
    |done|done|apply not_elem_of_nil|apply not_elem_of_nil|apply not_elem_of_nil|].
  exists k', v'. split; [exact Hrun|]. split; [exact Hwf|]. unfold requests. by rewrite Htx, Hrx.
Defined.

Lemma urb_dequeue_results_witness :
  @vhci_urb_dequeue vhci_env 2 (- ECONNRESET) sample_vhci sample_hcd_kernel =
    Ok (0, with_unlink 0 (mkVhciPriv 11 0 2) sample_vdev sample_vhci,
        traced [CWakeUp Q_TX; CMalloc 40; CCheckUnlinkUrb 2 (- ECONNRESET)] sample_hcd_kernel).
Proof.
  exact (@urb_dequeue_results vhci_env 2 (- ECONNRESET) sample_vhci_urb sample_vdev sample_vhci
    sample_hcd_kernel 0 eq_refl sample_vhci_wf (not_elem_of_nil _) (not_elem_of_nil _) (not_elem_of_nil _)
    (mkVhciPriv 11 0 2) ltac:(by left) eq_refl eq_refl).
Defined.
