(* ===== verification/VhciModuleProps.v ===== *)
(** * The controller appears whole or not at all

    When the platform device is probed, either the USB core has a controller whose
    eight ports are all free, or nothing is left of it. *)
From S2P Require Import Prelude Kernel Wire Event EventProps Exec Xfer StubRx Vhci VhciRx VhciHcd VhciProps VhciModule.

Local Open Scope Z_scope.

(** A port nobody has attached anything to. *)
Definition port_free (i : nat) (v : vhci_device) : Prop :=
  vd_rhport v = Z.of_nat i /\ vd_udev v = None /\ ud_status (vd_ud v) = VDEV_ST_NULL /\
  ud_tcp_socket (vd_ud v) = None /\ ud_event (vd_ud v) = 0 /\
  vd_priv_tx v = [] /\ vd_priv_rx v = [] /\ vd_unlink_tx v = [] /\ vd_unlink_rx v = [].

Definition controller_idle (h : vhci_hcd) : Prop :=
  length (hc_vdev h) = VHCI_NPORTS /\ (forall i v, hc_vdev h !! i = Some v -> port_free i v) /\
  hc_port_status h = replicate VHCI_NPORTS 0 /\ hc_privs h = ∅ /\ hc_seqnum h = 0 /\
  hc_hw_accessible h = true.

Section module.
Context `{Env} `{Arch} `{UsbPipes} `{Jiffies}.

(** The result of adding tells whether the controller was started. *)
Definition core_ok : Prop := forall tr,
  let '(ret, started) := env_answer tr (CHcd HcdAdd) in started = [] <-> ret <> 0.

Lemma start_eh_ok (v : vhci_device) k :
  exists r t k', usbip_start_eh v k =
    Ok (r, v <| vd_ud := (vd_ud v) <| ud_event := 0 |> <| ud_eh := t |> |>, k').
Proof.
  unfold usbip_start_eh. erewrite bind_ok by reflexivity.
  erewrite bind_ok by (unfold kthread_run; erewrite bind_ok by apply ext_ret_ok; reflexivity).
  erewrite bind_ok by reflexivity.
  destruct (_ =? 0); eexists _, _, _; reflexivity.
Qed.

Lemma start_port_ok i v h k :
  hc_vdev h !! i = Some v ->
  exists v' k', (vhci_device_init i;;
      on_vdev i (modify (fun v => v <| vd_rhport := Z.of_nat i |>))) h k = Ok (tt, set_vdev i v' h, k') /\
    port_free i v'.
Proof.
  intros Hv.
  assert (exists v2 k2, vhci_device_init i h k = Ok (tt, set_vdev i v2 h, k2) /\
    port_free i (v2 <| vd_rhport := Z.of_nat i |>)) as (v2 & k2 & Hi & Hf).
  { unfold vhci_device_init. do 2 erewrite bind_ok by reflexivity.
    match goal with |- context [on_vdev i (modify (fun _ => ?x);; _) h ?k1] =>
      destruct (start_eh_ok x k1) as (r & t & k2 & Hrun); exists (x <| vd_ud := (vd_ud x) <| ud_event := 0 |> <| ud_eh := t |> |>), k2 end.
    split; [|by repeat split]. eapply on_vdev_ok; [done|].
    erewrite bind_ok by reflexivity. erewrite bind_ok by exact Hrun. reflexivity. }
  erewrite bind_ok by exact Hi. eexists _, _. split; [|exact Hf].
  erewrite on_vdev_ok; [|by eapply set_vdev_lookup|reflexivity]. by rewrite set_vdev_twice.
Qed.

Lemma start_loop_ok n : forall i h k,
  (i + n)%nat = length (hc_vdev h) ->
  (forall j v, (j < i)%nat -> hc_vdev h !! j = Some v -> port_free j v) ->
  exists vs k', vhci_start_loop i n h k = Ok (tt, h <| hc_vdev := vs |>, k') /\
    length vs = length (hc_vdev h) /\ forall j v, vs !! j = Some v -> port_free j v.
Proof.
  induction n as [|n IH]; intros i h k Hn Hf.
  - exists (hc_vdev h), k. split; [by destruct h|]. split; [done|]. intros j v Hj. apply Hf; [|done].
    apply lookup_lt_Some in Hj. lia.
  - destruct (lookup_lt_is_Some_2 (hc_vdev h) i) as [v Hv]; [lia|].
    destruct (start_port_ok i v h k Hv) as (v' & k1 & Hrun & Hv').
    destruct (bind_inv _ _ _ _ _ Hrun) as ([] & h0 & k0 & Hr1 & Hr2).
    destruct (IH (S i) (set_vdev i v' h) k1) as (vs & k2 & Hrun2 & Hl & Hfree).
    + unfold set_vdev. cbn. rewrite length_insert. lia.
    + intros j w Hj Hw. unfold set_vdev in Hw. cbn in Hw.
      destruct (decide (j = i)) as [->|Hne].
      * rewrite list_lookup_insert_eq in Hw by lia. by injection Hw as <-.
      * rewrite list_lookup_insert_ne in Hw by done. apply Hf; [lia|done].
    + exists vs, k2. split; [|split; [|done]].
      * cbn [vhci_start_loop]. erewrite bind_ok by exact Hr1. erewrite bind_ok by exact Hr2. exact Hrun2.
      * rewrite Hl. unfold set_vdev. cbn. by rewrite length_insert.
Qed.

Lemma vhci_start_ok h k :
  h = hcd_new <| hc_hw_accessible := true |> ->
  exists r h' k', vhci_start h k = Ok (r, h', k') /\ controller_idle h'.
Proof.
  intros ->.
  assert (forall j v, (j < 0)%nat -> hc_vdev (hcd_new <| hc_hw_accessible := true |>) !! j = Some v ->
    port_free j v) as Hnone by (intros; lia).
  destruct (start_loop_ok VHCI_NPORTS 0 (hcd_new <| hc_hw_accessible := true |>) k ltac:(by vm_compute) Hnone)
    as (vs & k1 & Hrun & Hl & Hf).
  unfold vhci_start. erewrite bind_ok by exact Hrun. erewrite bind_ok by reflexivity.
  eexists _, _, _. split; [apply ext_ret_ok|].
  split; [exact Hl|]. split; [exact Hf|]. done.
Qed.

Lemma on_hcd_ok {A} (m : Kernel.M vhci_hcd A) a h h' s k k' :
  mo_hcd s = Some h -> m h k = Ok (a, h', k') ->
  on_hcd m s k = Ok (a, s <| mo_hcd := Some h' |>, k').
Proof. intros Hh Hm. unfold on_hcd. by rewrite Hh, Hm. Qed.

(** A controller just created is added: started and idle, or not added. *)
Lemma usb_add_hcd_ok s k :
  core_ok -> mo_hcd s = Some hcd_new ->
  exists ret h k', usb_add_hcd s k = Ok (ret, s <| mo_hcd := Some h |>, k') /\
    (ret = 0 -> controller_idle h).
Proof.
  intros Hc Hs. unfold usb_add_hcd. pose proof (Hc (k_trace k)) as Hans.
  destruct (env_answer (k_trace k) (CHcd HcdAdd)) as [ret started] eqn:E.
  erewrite bind_ok by (unfold ext; rewrite E; reflexivity). cbv beta iota. destruct started as [|x started].
  - exists ret, hcd_new. eexists. split; [|intros ->; by destruct (proj1 Hans eq_refl)].
    rewrite <- Hs. by destruct s.
  - assert (ret = 0) as -> by (destruct (decide (ret = 0)) as [|Hr]; [done|by apply Hans in Hr]).
    erewrite bind_ok by (by eapply on_hcd_ok).
    destruct (vhci_start_ok _ (traced [CHcd HcdAdd] k) eq_refl) as (r & h & k1 & Hrun & Hi).
    erewrite bind_ok by (eapply on_hcd_ok; [reflexivity|exact Hrun]).
    exists r, h. destruct (r =? 0) eqn:Er; cbn [negb].
    + apply Z.eqb_eq in Er as ->. eexists. split; [reflexivity|done].
    + eexists. split; [reflexivity|]. intros ->. done.
Qed.

(** When the platform device is probed, memory for a controller being available,
    the result is 0 and the core has a controller of eight free ports, or an error
    and neither the controller nor the pointer to it is left.  Removing it leaves
    what a failed probe leaves. *)
Theorem probe_all_or_nothing s k :
  core_ok -> (env_answer (k_trace k) (CHcd HcdCreate)).1 <> 0 -> mo_the_controller s = false ->
  exists ret s' k', vhci_hcd_probe false s k = Ok (ret, s', k') /\
    (ret = 0 -> mo_the_controller s' = true /\ exists h, mo_hcd s' = Some h /\ controller_idle h) /\
    (ret <> 0 -> mo_the_controller s' = false /\ mo_hcd s' = None).
Proof.
  intros Hc Hmem Hs. apply Z.eqb_neq in Hmem. unfold vhci_hcd_probe. cbv iota.
  erewrite bind_ok by (unfold usb_create_hcd; erewrite bind_ok by apply ext_ret_ok; rewrite Hmem; reflexivity).
  cbv beta iota. cbn [negb]. erewrite bind_ok by reflexivity.
  match goal with |- context [(usb_add_hcd ≫= _) ?s1 ?k1] =>
    destruct (usb_add_hcd_ok s1 k1 Hc eq_refl) as (ret & h & k2 & Hrun & Hi) end.
  erewrite bind_ok by exact Hrun. destruct (ret =? 0) eqn:Er; cbn [negb].
  - apply Z.eqb_eq in Er as ->. eexists _, _, _. split; [reflexivity|]. split; [|done].
    intros _. split; [done|]. exists h. auto.
  - apply Z.eqb_neq in Er. eexists _, _, _. split; [reflexivity|]. by split.
Qed.
End module.
