(* ===== verification/VhciTxProps.v ===== *)
(** * The requests on the wire

    What the controller's transmitter sends for each queued URB and each queued
    unlink, in which order, and where it leaves what it sent. *)
From S2P Require Import Prelude Kernel Wire Event EventProps Exec Xfer XferProps IsoProps.
From S2P Require Import Filters Stub StubTx StubMain StubProps StubReqProps StubTxProps.
From S2P Require Import Vhci VhciRx VhciTx VhciProps.

(** ** One submission *)

Section submission.
Context `{UsbPipes}.

(** The setup packet of an URB, zeros if there is none. *)
Definition setup_bytes (r : urb) (h : gmap positive (list Z)) : list Z :=
  match urb_setup_packet r with
  | Some (b, _) => take 8 (default [] (h !! b))
  | None => replicate 8 0
  end.

(** The header of request [x] of the device [vdevid]. *)
Definition cmd_header (x : vhci_priv) (vdevid : Z) (r : urb) (setup : list Z) : usbip_header :=
  mkHeader
    (mkBasic USBIP_CMD_SUBMIT (u32 (vp_seqnum x)) vdevid
       (if usb_pipein (urb_pipe r) then USBIP_DIR_IN else USBIP_DIR_OUT)
       (usb_pipeendpoint (urb_pipe r)))
    (mkUnion (tweak_transfer_flags (urb_transfer_flags r)) (urb_transfer_buffer_length r)
       (u32 (urb_start_frame r)) (u32 (urb_number_of_packets r)) (u32 (urb_interval r)) setup).

(** The data of a submission: what an OUT transfer writes. *)
Definition cmd_data (r : urb) (h : gmap positive (list Z)) : list Z :=
  if usb_pipein (urb_pipe r) then []
  else take (Z.to_nat (urb_transfer_buffer_length r)) (block_of h (urb_transfer_buffer r)).

Definition cmd_msg (x : vhci_priv) (vdevid : Z) (r : urb) (h : gmap positive (list Z)) : list Z :=
  wire_bytes (cmd_header x vdevid r (setup_bytes r h)) ++ cmd_data r h ++ reply_isos r.

(** An URB whose memory is there. *)
Definition submittable (r : urb) (h : gmap positive (list Z)) : Prop :=
  urb_wf r /\ is_u32 (usb_pipeendpoint (urb_pipe r)) /\
  (usb_pipein (urb_pipe r) = false -> 0 < urb_transfer_buffer_length r ->
   exists b blk, urb_transfer_buffer r = Some (b, 0) /\ h !! b = Some blk /\
     urb_transfer_buffer_length r <= Z.of_nat (length blk)) /\
  (forall s, urb_setup_packet r = Some s ->
   exists b blk, s = (b, 0) /\ h !! b = Some blk /\ (8 <= length blk)%nat) /\
  (usb_pipeisoc (urb_pipe r) = true ->
   urb_number_of_packets r = Z.of_nat (length (urb_iso_frame_desc r)) /\
   Forall uiso_wf (urb_iso_frame_desc r)).

Lemma setup_bytes_length r h : submittable r h -> length (setup_bytes r h) = 8%nat.
Proof.
  intros (_ & _ & _ & Hs & _). unfold setup_bytes.
  destruct (urb_setup_packet r) as [s|]; [|done].
  destruct (Hs s eq_refl) as (b & blk & -> & -> & Hl). cbn [default from_option].
  unfold id. rewrite length_take. lia.
Qed.

Lemma tweak_flags_u32 f : is_u32 f -> is_u32 (tweak_transfer_flags f).
Proof.
  intros Hf. unfold tweak_transfer_flags. set (m := Z.lnot URB_NO_TRANSFER_DMA_MAP).
  assert (Z.land f m = Z.land f m mod 2 ^ 32) as ->; [|by apply Z.mod_pos_bound].
  rewrite <- Z.land_ones by lia. rewrite <- Z.land_assoc, (Z.land_comm m), Z.land_assoc.
  rewrite Z.land_ones by lia. by rewrite (Z.mod_small f).
Qed.

Lemma cmd_header_wf x vdevid r h :
  is_u32 vdevid -> submittable r h -> header_wf (cmd_header x vdevid r (setup_bytes r h)).
Proof.
  intros Hd Hs. pose proof (setup_bytes_length r h Hs) as Hl.
  destruct Hs as ((Hf & Hb & _) & He & _). split_and!; [|done|done|by intros [?|?]].
  unfold header_words, cmd_header. cbn [h_base h_u command seqnum devid direction ep w0 w1 w2 w3 w4].
  pose proof (tweak_flags_u32 _ Hf).
  repeat apply Forall_cons_2; auto with usbip; try done. by destruct (usb_pipein _).
Qed.

Lemma length_cmd_header x vdevid r setup :
  length setup = 8%nat -> length (wire_bytes (cmd_header x vdevid r setup)) = 48%nat.
Proof. intros Hl. unfold wire_bytes. rewrite length_app. cbn [w_setup h_u cmd_header]. by rewrite Hl. Qed.
End submission.

Section transmit.
Context `{Env} `{Arch} `{UsbPipes}.

(** Request [p] of the port, known as [x], for the URB [r]. *)
Definition vrequest (port : nat) (p : positive) (x : vhci_priv) (r : urb) (h : vhci_hcd) (k : kernel) : Prop :=
  hc_privs h !! p = Some x /\ vp_vdev x = port /\ k_urbs k !! vp_urb x = Some r /\ urb_hcpriv r = Some p.

Lemma setup_cmd_submit_run port p x r v h k :
  vrequest port p x r h k -> hc_vdev h !! port = Some v -> submittable r (k_heap k) ->
  setup_cmd_submit_pdu header_zero (vp_urb x) h k =
    Ok (cmd_header x (vd_devid v) r (setup_bytes r (k_heap k)), h, k).
Proof.
  intros (Hx & Hp & Hu & Hc) Hv Hs. pose proof Hs as ((Hf & Hb & _) & _ & _ & Hsetup & _).
  unfold setup_cmd_submit_pdu. erewrite bind_ok by (by apply get_urb_ok). cbv beta. rewrite Hc.
  erewrite bind_ok by reflexivity. cbv beta. erewrite bind_ok by (by apply get_vpriv_ok). cbv beta.
  rewrite Hp. erewrite bind_ok by (by apply get_port_vdev_ok). cbv beta zeta.
  unfold setup_bytes, cmd_header. destruct (urb_setup_packet r) as [s|].
  - destruct (Hsetup s eq_refl) as (b & blk & -> & Hblk & Hl8). rewrite Hblk.
    erewrite bind_ok by (apply load_bytes_ok with (blk := blk); [done|done|lia|cbn; lia]).
    unfold usbip_pack_pdu, usbip_pack_cmd_submit, put_cmd_submit, u_cmd_submit. cbn.
    autorewrite with usbip_simp. by rewrite (u32_id (urb_transfer_buffer_length r)).
  - unfold usbip_pack_pdu, usbip_pack_cmd_submit, put_cmd_submit, u_cmd_submit. cbn.
    autorewrite with usbip_simp. by rewrite (u32_id (urb_transfer_buffer_length r)).
Qed.

Lemma out_data_run r (h : vhci_hcd) k :
  submittable r (k_heap k) ->
  (if negb (usb_pipein (urb_pipe r)) && (urb_transfer_buffer_length r >? 0) then
     b ← deref (urb_transfer_buffer r); load_bytes b (urb_transfer_buffer_length r)
   else mret []) h k = Ok (cmd_data r (k_heap k), h, k).
Proof.
  intros (Hwf & _ & Hout & _). destruct Hwf as (_ & Hlen & _). unfold cmd_data, is_u32 in *.
  destruct (usb_pipein (urb_pipe r)); cbn [negb andb]; [done|]. rewrite Z.gtb_ltb. case_if; bool_to_prop.
  - destruct (Hout eq_refl Etest) as (b & blk & Hb & Hblk & Hl). rewrite Hb. cbn [block_of].
    rewrite Hblk. erewrite bind_ok by reflexivity.
    by erewrite load_bytes_ok by (done || (cbn; lia)).
  - by replace (urb_transfer_buffer_length r) with 0 by lia.
Qed.

(** Memory in use stays as it is while a message is prepared. *)
Lemma submittable_same r h1 h2 :
  submittable r h1 -> (forall b blk, h1 !! b = Some blk -> h2 !! b = Some blk) ->
  submittable r h2 /\ setup_bytes r h2 = setup_bytes r h1 /\ cmd_data r h2 = cmd_data r h1.
Proof.
  intros (Hwf & He & Hout & Hset & Hiso) Hsub. split; [|split].
  - split_and!; [done|done| | |done].
    + intros Hi Hp. destruct (Hout Hi Hp) as (b & blk & ? & ? & ?). exists b, blk. auto.
    + intros s Hs. destruct (Hset s Hs) as (b & blk & ? & ? & ?). exists b, blk. auto.
  - unfold setup_bytes. destruct (urb_setup_packet r) as [s|]; [|done].
    destruct (Hset s eq_refl) as (b & blk & -> & Hb & _). by rewrite (Hsub b blk Hb), Hb.
  - unfold cmd_data. destruct (usb_pipein (urb_pipe r)); [done|].
    destruct Hwf as (_ & Hlen & _). destruct (decide (0 < urb_transfer_buffer_length r)) as [Hpos|Hz].
    + destruct (Hout eq_refl Hpos) as (b & blk & -> & Hb & _). cbn [block_of].
      by rewrite (Hsub b blk Hb), Hb.
    + unfold is_u32 in Hlen. by replace (urb_transfer_buffer_length r) with 0 by lia.
Qed.

(** *** Sending it *)

(** As [sending], and no URB is given back. *)
Definition vsending (msgs : list (list Z)) (k k' : kernel) : Prop :=
  sending msgs k k' /\ givebacks (k_trace k') = givebacks (k_trace k).

Lemma vsending_traced msgs tr k :
  sent tr = reverse msgs -> givebacks tr = [] -> vsending msgs k (traced tr k).
Proof.
  intros Hs Hg. split.
  - exists (tr ++ k_trace k), (k_next k). split; [by destruct k|]. split; [lia|].
    unfold sent in *. by rewrite omap_app, Hs.
  - unfold givebacks in *. cbn. by rewrite omap_app, Hg.
Qed.

Lemma vsending_trans m1 m2 k1 k2 k3 :
  vsending m1 k1 k2 -> vsending m2 k2 k3 -> vsending (m1 ++ m2) k1 k3.
Proof. intros [S1 G1] [S2 G2]. split; [by eapply sending_trans|congruence]. Qed.

Lemma vsending_refl k : vsending [] k k.
Proof. split; [|done]. exists (k_trace k), (k_next k). split; [by destruct k|]. split; [lia|done]. Qed.

Lemma vhci_send_one_run port p x r v sock h k :
  vrequest port p x r h k -> hc_vdev h !! port = Some v -> submittable r (k_heap k) ->
  is_u32 (vd_devid v) -> mallocs_ok -> fresh_heap k -> ud_tcp_socket (vd_ud v) = Some sock ->
  LockUd 1 ∉ k_locks k ->
  let msg := cmd_msg x (vd_devid v) r (k_heap k) in
  exists k', vsending [msg] k k' /\
    (vhci_send_one_cmd_submit port p h k = Ok (Some (Z.of_nat (length msg)), h, k') \/
     vhci_send_one_cmd_submit port p h k = Ok (None, port_event port VDEV_EVENT_ERROR_TCP v h, k')).
Proof.
  intros Hreq Hv Hs Hd Hmal Hfresh Hsock Hl msg. pose proof Hreq as (Hx & Hp & Hu & Hc).
  pose proof Hs as (Hwf & _ & _ & _ & Hiso). pose proof (setup_bytes_length r _ Hs) as Hl8.
  set (isoc := usb_pipeisoc (urb_pipe r)) in *. set (ds := urb_iso_frame_desc r) in *.
  set (hdr := cmd_header x (vd_devid v) r (setup_bytes r (k_heap k))) in *.
  set (data := cmd_data r (k_heap k)) in *.
  assert (header_to_mem (usbip_header_correct_endian hdr true) = wire_bytes hdr) as Hhdr
    by (by apply header_to_mem_wire, cmd_header_wf).
  assert (msg = wire_bytes hdr ++ data ++ (if isoc then iso_wire ds else [])) as Hmsg by done.
  assert (Z.of_nat (length msg) = sizeof_header + Z.of_nat (length data) +
            (if isoc then 16 * Z.of_nat (length ds) else 0)) as Hlen.
  { pose proof (length_cmd_header x (vd_devid v) r _ Hl8) as Hlh. fold hdr in Hlh.
    pose proof (length_reply_isos r) as Hli. fold isoc ds in Hli.
    unfold msg, cmd_msg. fold hdr data. rewrite !length_app, Hlh.
    unfold sizeof_header. lia. }
  unfold vhci_send_one_cmd_submit. erewrite bind_ok by (by apply get_vpriv_ok). cbv beta zeta.
  erewrite bind_ok by (by apply get_urb_ok). cbv beta.
  erewrite bind_ok by (by eapply setup_cmd_submit_run). cbv beta. fold hdr.
  erewrite bind_ok by (by apply out_data_run). cbv beta. fold data.
  change (usb_pipetype (urb_pipe r) =? PIPE_ISOCHRONOUS) with isoc. destruct isoc.
  - destruct Hiso as [Hnp Hdwf]; [done|]. set (size := 16 * Z.of_nat (length ds)) in *.
    assert (0 <= size < 2 ^ 63) as Hsize
      by (destruct Hwf as (_&_&_&_&_&Hnps&_); unfold is_s32 in Hnps; subst size; fold ds in Hnp; lia).
    set (k2 := allocated size (iso_wire ds) k).
    erewrite bind_ok.
    2: { erewrite bind_ok; [reflexivity|]. eapply on_vdev_ok; [exact Hv|].
         apply alloc_iso_desc_run; [exact Hu|done|apply Hsize|done|apply Hmal]. }
    rewrite set_vdev_same by done. fold ds size k2. cbv beta iota.
    cbn [mbind option_bind fst snd default from_option]. unfold id.
    erewrite bind_ok.
    2: { apply load_bytes_ok with (blk := iso_wire ds);
           [apply lookup_insert_eq|cbn; lia|apply Hsize|].
         rewrite length_iso_wire. cbn [snd]. subst size; lia. }
    cbv beta. rewrite drop_0. rewrite take_ge by (rewrite length_iso_wire; subst size; lia).
    erewrite bind_ok by (by apply get_port_vdev_ok). cbv beta. rewrite Hsock.
    erewrite bind_ok by reflexivity. cbv beta. rewrite Hhdr, <- Hmsg, <- Hlen.
    erewrite bind_ok by apply ext_ret_ok. cbv beta.
    assert (release_ptr (Some (k_next k, 0)) (k_heap k2) = Some (k_heap k)) as F1.
    { unfold k2, allocated. cbn -[iso_wire]. rewrite lookup_insert_eq. cbn.
      by rewrite delete_insert_id by (apply Hfresh; lia). }
    case_if.
    + eexists. split; [|right; erewrite bind_ok by (apply kfree_release; exact F1);
        by erewrite bind_ok by (by apply port_event_add_ok)].
      split; [|done]. eexists _, _. split; [reflexivity|]. cbn. split; [lia|done].
    + eexists. split; [|left; by erewrite bind_ok by (apply kfree_release; exact F1)].
      split; [|done]. eexists _, _. split; [reflexivity|]. cbn. split; [lia|done].
  - erewrite bind_ok by reflexivity. cbv beta iota.
    cbn [mbind option_bind fst snd default from_option].
    erewrite bind_ok by reflexivity. cbv beta. erewrite bind_ok by (by apply get_port_vdev_ok). cbv beta.
    rewrite Hsock. erewrite bind_ok by reflexivity. cbv beta. rewrite Hhdr, <- Hmsg, <- Hlen.
    erewrite bind_ok by apply ext_ret_ok. cbv beta. erewrite bind_ok by reflexivity. cbv beta.
    case_if.
    + eexists. split; [|right; by erewrite bind_ok by (by apply port_event_add_ok)].
      by apply (vsending_traced [msg] [CWakeUp Q_EH; CSendmsg sock msg (Z.of_nat (length msg))] k).
    + eexists. split; [|left; reflexivity].
      by apply (vsending_traced [msg] [CSendmsg sock msg (Z.of_nat (length msg))] k).
Qed.

(** ** All submissions *)

(** The port after [taken] of its requests were sent. *)
Definition vmoved (taken rest : list positive) (v : vhci_device) : vhci_device :=
  v <| vd_priv_tx := rest |> <| vd_priv_rx := vd_priv_rx v ++ taken |>.

Lemma vdequeue_run port v h k :
  hc_vdev h !! port = Some v -> NoDup (requests v) -> LockPriv 1 ∉ k_locks k ->
  VhciTx.dequeue_from_priv_tx port h k =
    match vd_priv_tx v with
    | [] => Ok (None, h, k)
    | p :: ps => Ok (Some p, set_vdev port (vmoved [p] ps v) h, k)
    end.
Proof.
  intros Hv Hnd Hl. unfold VhciTx.dequeue_from_priv_tx. exec_step.
  erewrite bind_ok by by apply get_port_vdev_ok. cbv beta.
  destruct (vd_priv_tx v) as [|p ps] eqn:Ht; [exec_step; by destruct k|].
  unfold requests in Hnd. rewrite Ht in Hnd. apply NoDup_cons in Hnd as [Hp _].
  erewrite bind_ok by (unfold unlink_vpriv; by eapply on_vdev_ok). cbv beta.
  erewrite bind_ok by (eapply on_vdev_ok; [by eapply set_vdev_lookup|reflexivity]). cbv beta.
  rewrite set_vdev_twice, Ht, remove_id_cons_eq. cbn [vd_priv_rx vd_priv_tx].
  exec_step. rewrite !remove_id_notin by set_solver.
  unfold vmoved. by destruct k.
Qed.

(** The queued requests [ps] with the messages that carry them. *)
Definition vready (port : nat) (v : vhci_device) (h : vhci_hcd) (k : kernel) (ps : list positive)
    (msgs : list (list Z)) : Prop :=
  Forall2 (fun p msg => exists x r, vrequest port p x r h k /\ submittable r (k_heap k) /\
             msg = cmd_msg x (vd_devid v) r (k_heap k)) ps msgs.

Lemma vready_ext port v v' h h' k k' ps msgs :
  vready port v h k ps msgs -> vd_devid v' = vd_devid v -> hc_privs h' = hc_privs h ->
  k_urbs k' = k_urbs k -> k_heap k' = k_heap k -> vready port v' h' k' ps msgs.
Proof.
  intros Hr Hd Hp Hu Hh. eapply Forall2_impl; [exact Hr|]. intros p msg (x & r & Hreq & Hs & ->).
  exists x, r. unfold vrequest. by rewrite Hd, Hp, Hu, Hh.
Qed.

Lemma vmoved_requests p ps v : vd_priv_tx v = p :: ps -> requests v ≡ₚ requests (vmoved [p] ps v).
Proof. intros Ht. unfold requests, vmoved. cbn. rewrite Ht. solve_Permutation. Qed.

(** How far the loop comes: all requests, or up to one the socket did not take. *)
Lemma vhci_send_loop_run port sock msgs fuel v h k total :
  hc_vdev h !! port = Some v -> NoDup (requests v) -> vready port v h k (vd_priv_tx v) msgs ->
  (length msgs < fuel)%nat -> is_u32 (vd_devid v) -> mallocs_ok -> fresh_heap k ->
  ud_tcp_socket (vd_ud v) = Some sock -> LockPriv 1 ∉ k_locks k -> LockUd 1 ∉ k_locks k ->
  exists k', (vsending msgs k k' /\
      vhci_send_cmd_submit_loop port fuel total h k =
        Ok (s32 (total + Z.of_nat (length (mjoin msgs))), set_vdev port (vmoved (vd_priv_tx v) [] v) h, k')) \/
    (exists m, (0 < m <= length msgs)%nat /\ vsending (take m msgs) k k' /\
      let v' := vmoved (take m (vd_priv_tx v)) (drop m (vd_priv_tx v)) v in
      vhci_send_cmd_submit_loop port fuel total h k =
        Ok (-1, set_vdev port (add_event VDEV_EVENT_ERROR_TCP v') h, k')).
Proof.
  revert v h k total msgs. induction fuel as [|fuel IH];
    intros v h k total msgs Hv Hnd Hr Hf Hd Hmal Hfr Hsock Hl1 Hl2; [lia|].
  cbn [vhci_send_cmd_submit_loop]. pose proof (vdequeue_run port v h k Hv Hnd Hl1) as Hdq.
  destruct (vd_priv_tx v) as [|p ps] eqn:Ht; erewrite bind_ok by exact Hdq; cbv beta iota.
  - apply Forall2_nil_inv_l in Hr as ->. exists k. left. split.
    + apply vsending_refl.
    + cbn [mjoin list_join length]. rewrite Z.add_0_r.
      assert (vmoved [] [] v = v) as -> by (unfold vmoved; rewrite app_nil_r; destruct v; cbn in *; by subst).
      by rewrite set_vdev_same.
  - apply Forall2_cons_inv_l in Hr as (msg & msgs' & (x & r & Hreq & Hs & Hmsg) & Hr & ->).
    set (v1 := vmoved [p] ps v). set (h1 := set_vdev port v1 h).
    assert (hc_vdev h1 !! port = Some v1) as Hv1 by by eapply set_vdev_lookup.
    pose proof (vmoved_requests p ps v Ht) as Hq. fold v1 in Hq.
    destruct (vhci_send_one_run port p x r v1 sock h1 k Hreq Hv1 Hs Hd Hmal Hfr Hsock Hl2)
      as (k1 & Hk1 & [Hrun|Hrun]); change (vd_devid v1) with (vd_devid v) in *; rewrite <- Hmsg in *;
      erewrite bind_ok by exact Hrun; cbv beta iota.
    + assert (vready port v1 h1 k1 ps msgs') as Hr1.
      { destruct Hk1 as [(tr & n & -> & _) _]. by eapply vready_ext. }
      assert (k_locks k1 = k_locks k) as Hlk by (by destruct Hk1 as [(tr & n & -> & _) _]).
      destruct (IH v1 h1 k1 (total + Z.of_nat (length msg)) msgs') as (k2 & Hk2);
        [done|by rewrite <- Hq|exact Hr1|cbn in Hf; lia|done|done|by eapply sending_fresh; [apply Hk1|]|done
        |by rewrite Hlk|by rewrite Hlk|].
      change (vd_priv_tx v1) with ps in Hk2. exists k2.
      destruct Hk2 as [[Hk2 Hrun2]|(m & Hm & Hk2 & Hrun2)]; [left|right].
      * split; [by eapply (vsending_trans [msg])|]. rewrite Hrun2. unfold h1. rewrite set_vdev_twice.
        unfold v1, vmoved. cbn -[Z.add]. rewrite length_app, Nat2Z.inj_add, <- app_assoc, Z.add_assoc. done.
      * exists (S m). cbn [length take drop]. split; [lia|].
        split; [by eapply (vsending_trans [msg])|]. cbv zeta in *. rewrite Hrun2. unfold h1.
        rewrite set_vdev_twice. unfold v1, vmoved, add_event. cbn. by rewrite <- app_assoc.
    + exists k1. right. exists 1%nat. cbn [length take drop]. split; [lia|]. split; [done|].
      unfold port_event, h1. by rewrite set_vdev_twice.
Qed.
End transmit.

Lemma vmoved_wf port m v v' h k k' :
  vhci_wf port v h k -> vd_priv_tx v' = drop m (vd_priv_tx v) ->
  vd_priv_rx v' = vd_priv_rx v ++ take m (vd_priv_tx v) -> k_urbs k' = k_urbs k ->
  vhci_wf port v' (set_vdev port v' h) k' /\ requests v' ≡ₚ requests v.
Proof.
  intros (Hv & Hnd & Hown) Ht Hr Hu.
  assert (requests v' ≡ₚ requests v) as Hq.
  { unfold requests. rewrite Ht, Hr. rewrite <- (take_drop m (vd_priv_tx v)) at 3. solve_Permutation. }
  split; [|done]. split; [by eapply set_vdev_lookup|]. rewrite Hq. split; [done|].
  eapply Forall_impl; [exact Hown|]. intros p (x & r & H1 & H2 & H3 & H4).
  exists x, r. by rewrite Hu.
Qed.

(** A round: the first [m] requests were handed to the socket. *)
Lemma submissions_run `{Env} `{Arch} `{UsbPipes} port sock msgs v h k :
  vhci_wf port v h k -> vready port v h k (vd_priv_tx v) msgs -> is_u32 (vd_devid v) ->
  mallocs_ok -> fresh_heap k -> ud_tcp_socket (vd_ud v) = Some sock ->
  LockPriv 1 ∉ k_locks k -> LockUd 1 ∉ k_locks k ->
  exists m ret v' k', vhci_send_cmd_submit port h k = Ok (ret, set_vdev port v' h, k') /\
    vsending (take m msgs) k k' /\
    vd_priv_tx v' = drop m (vd_priv_tx v) /\ vd_priv_rx v' = vd_priv_rx v ++ take m (vd_priv_tx v) /\
    ((m = length msgs /\ ret = s32 (Z.of_nat (length (mjoin msgs))) /\ vd_ud v' = vd_ud v) \/
     ((0 < m <= length msgs)%nat /\ ret = -1 /\
      vd_ud v' = vd_ud (add_event VDEV_EVENT_ERROR_TCP v))).
Proof.
  intros Hwf Hr Hd Hmal Hfr Hsock Hl1 Hl2. pose proof Hwf as (Hv & Hnd & Hown).
  pose proof (Forall2_length _ _ _ Hr) as Hlen.
  destruct (vhci_send_loop_run port sock msgs (S (length (vd_priv_tx v))) v h k 0 Hv Hnd Hr)
    as (k1 & Hk1); [lia|done..|].
  unfold vhci_send_cmd_submit. erewrite bind_ok by (by apply get_port_vdev_ok). cbv beta.
  destruct Hk1 as [[Hs Hrun]|(m & Hm & Hs & Hrun)]; cbv zeta in Hrun; rewrite Hrun.
  - exists (length msgs), (s32 (Z.of_nat (length (mjoin msgs)))), (vmoved (vd_priv_tx v) [] v), k1.
    split; [done|]. rewrite take_ge by done. split; [exact Hs|].
    split; [by rewrite drop_ge by lia|]. split; [by rewrite take_ge by lia|]. by left.
  - eexists m, (-1), _, k1. split; [reflexivity|]. split; [exact Hs|]. split; [done|]. split; [done|]. by right.
Qed.

Lemma vsending_same msgs k k' : vsending msgs k k' ->
  k_locks k' = k_locks k /\ k_heap k' = k_heap k /\ k_urbs k' = k_urbs k /\
  sent (k_trace k') = reverse msgs ++ sent (k_trace k).
Proof. by intros [(tr & n & -> & _ & Hs) _]. Qed.

(** C23: a round of the transmitter sends the queued submissions in the order of
    their queueing, each once: the header with the sequence number, the device,
    the endpoint and the URB's parameters, then the data of an OUT transfer, which
    is its whole buffer, and the isochronous descriptors, all in network byte
    order.  (Of an isochronous transfer usbip_protocol.txt sends the data without
    the padding between the packets: the code sends the padding too.)  What was
    handed to the socket waits for its result from then on; if the socket does not take a
    message, the connection is shut down by an event and exactly those behind it
    are still queued. *)
Theorem submissions_sent `{Env} `{Arch} `{UsbPipes} port sock msgs v h k :
  vhci_wf port v h k -> vready port v h k (vd_priv_tx v) msgs -> is_u32 (vd_devid v) ->
  mallocs_ok -> fresh_heap k -> ud_tcp_socket (vd_ud v) = Some sock ->
  LockPriv 1 ∉ k_locks k -> LockUd 1 ∉ k_locks k ->
  exists m ret v' k', vhci_send_cmd_submit port h k = Ok (ret, set_vdev port v' h, k') /\
    vhci_wf port v' (set_vdev port v' h) k' /\ requests v' ≡ₚ requests v /\
    vd_priv_tx v' = drop m (vd_priv_tx v) /\ vd_priv_rx v' = vd_priv_rx v ++ take m (vd_priv_tx v) /\
    k_locks k' = k_locks k /\ k_heap k' = k_heap k /\ k_urbs k' = k_urbs k /\
    sent (k_trace k') = reverse (take m msgs) ++ sent (k_trace k) /\
    ((m = length msgs /\ ret = s32 (Z.of_nat (length (mjoin msgs))) /\ vd_ud v' = vd_ud v) \/
     ((0 < m <= length msgs)%nat /\ ret = -1 /\
      vd_ud v' = vd_ud (add_event VDEV_EVENT_ERROR_TCP v))).
Proof.
  intros Hwf Hr Hd Hmal Hfr Hsock Hl1 Hl2.
  destruct (submissions_run port sock msgs v h k) as (m & ret & v' & k' & Hrun & Hs & Ht & Hrx & Hout);
    [done..|].
  destruct (vsending_same _ _ _ Hs) as (E1 & E2 & E3 & E4).
  destruct (vmoved_wf port m v v' h k k' Hwf Ht Hrx E3) as [Hw Hq].
  exists m, ret, v', k'. by split_and!.
Qed.

(** ** Unlinks *)

(** The header of an unlink of the device [vdevid]. *)
Definition cmd_unlink_header (vdevid : Z) (x : vhci_unlink) : usbip_header :=
  mkHeader (mkBasic USBIP_CMD_UNLINK (u32 (vu_seqnum x)) vdevid 0 0)
    (mkUnion (u32 (vu_unlink_seqnum x)) 0 0 0 0 (replicate 8 0)).

Lemma cmd_unlink_wire `{Arch} vdevid x :
  is_u32 vdevid ->
  header_to_mem (usbip_header_correct_endian (setup_cmd_unlink_pdu vdevid x) true)
  = wire_bytes (cmd_unlink_header vdevid x).
Proof.
  intros Hd. replace (setup_cmd_unlink_pdu vdevid x) with (cmd_unlink_header vdevid x) by done.
  apply header_to_mem_wire. split_and!; [|done|done|done].
  unfold header_words, cmd_unlink_header. cbn. repeat apply Forall_cons_2; auto with usbip; done.
Qed.

Definition vunlinks_moved (taken rest : list vhci_unlink) (v : vhci_device) : vhci_device :=
  v <| vd_unlink_tx := rest |> <| vd_unlink_rx := vd_unlink_rx v ++ taken |>.

Lemma vdequeue_unlink_run `{Env} port v h k :
  hc_vdev h !! port = Some v -> LockPriv 1 ∉ k_locks k ->
  VhciTx.dequeue_from_unlink_tx port h k =
    match vd_unlink_tx v with
    | [] => Ok (None, h, k)
    | x :: xs => Ok (Some x, set_vdev port (vunlinks_moved [x] xs v) h, k)
    end.
Proof.
  intros Hv Hl. unfold VhciTx.dequeue_from_unlink_tx. exec_step.
  erewrite bind_ok by by apply get_port_vdev_ok. cbv beta.
  destruct (vd_unlink_tx v) as [|x xs]; [exec_step; by destruct k|].
  erewrite bind_ok by (by eapply on_vdev_ok). cbv beta. exec_step. by destruct k.
Qed.

Lemma vhci_unlink_loop_run `{Env} `{Arch} port sock fuel v h k total :
  hc_vdev h !! port = Some v -> (length (vd_unlink_tx v) < fuel)%nat -> is_u32 (vd_devid v) ->
  ud_tcp_socket (vd_ud v) = Some sock -> LockPriv 1 ∉ k_locks k -> LockUd 1 ∉ k_locks k ->
  let msgs := (fun x => wire_bytes (cmd_unlink_header (vd_devid v) x)) <$> vd_unlink_tx v in
  exists k', (vsending msgs k k' /\
      vhci_send_cmd_unlink_loop port fuel total h k =
        Ok (s32 (total + 48 * Z.of_nat (length msgs)), set_vdev port (vunlinks_moved (vd_unlink_tx v) [] v) h, k')) \/
    (exists m, (0 < m <= length msgs)%nat /\ vsending (take m msgs) k k' /\
      let v' := vunlinks_moved (take m (vd_unlink_tx v)) (drop m (vd_unlink_tx v)) v in
      vhci_send_cmd_unlink_loop port fuel total h k =
        Ok (-1, set_vdev port (add_event VDEV_EVENT_ERROR_TCP v') h, k')).
Proof.
  revert v h k total. induction fuel as [|fuel IH]; intros v h k total Hv Hf Hd Hsock Hl1 Hl2 msgs; [lia|].
  cbn [vhci_send_cmd_unlink_loop]. pose proof (vdequeue_unlink_run port v h k Hv Hl1) as Hdq.
  subst msgs. destruct (vd_unlink_tx v) as [|x xs] eqn:Ht; cbn [fmap list_fmap];
    erewrite bind_ok by exact Hdq; cbv beta iota.
  - exists k. left. split.
    { apply vsending_refl. }
    cbn [length]. rewrite Z.mul_0_r, Z.add_0_r.
    assert (vunlinks_moved [] [] v = v) as ->
      by (unfold vunlinks_moved; rewrite app_nil_r; destruct v; cbn in *; by subst).
    by rewrite set_vdev_same.
  - set (v1 := vunlinks_moved [x] xs v). set (h1 := set_vdev port v1 h).
    set (msg := wire_bytes (cmd_unlink_header (vd_devid v) x)).
    assert (hc_vdev h1 !! port = Some v1) as Hv1 by by eapply set_vdev_lookup.
    erewrite bind_ok by (by apply get_port_vdev_ok). cbv beta zeta.
    rewrite cmd_unlink_wire by done. change (vd_devid v1) with (vd_devid v). fold msg.
    change (ud_tcp_socket (vd_ud v1)) with (ud_tcp_socket (vd_ud v)). rewrite Hsock.
    erewrite bind_ok by reflexivity. cbv beta. erewrite bind_ok by apply ext_ret_ok. cbv beta.
    set (k1 := traced [CSendmsg sock msg sizeof_header] k).
    assert (vsending [msg] k k1) as Hk1 by by apply (vsending_traced [msg] [CSendmsg sock msg sizeof_header] k).
    case_if.
    + exists (traced [CWakeUp Q_EH; CSendmsg sock msg sizeof_header] k). right. exists 1%nat.
      cbn [length take drop]. split; [lia|]. split; [by apply (vsending_traced [msg])|].
      erewrite bind_ok by (by apply port_event_add_ok). cbv beta zeta. unfold port_event, h1.
      by rewrite set_vdev_twice.
    + destruct (IH v1 h1 k1 (total + sizeof_header)) as (k2 & Hk2); [done|cbn in Hf |- *; lia|done..|].
      change (vd_unlink_tx v1) with xs in Hk2. change (vd_devid v1) with (vd_devid v) in Hk2.
      exists k2. destruct Hk2 as [[Hk2 Hrun2]|(m & Hm & Hk2 & Hrun2)]; [left|right].
      * split; [by eapply (vsending_trans [msg])|]. rewrite Hrun2. unfold h1. rewrite set_vdev_twice.
        unfold v1, vunlinks_moved. cbn -[Z.add Z.mul Z.of_nat].
        rewrite <- app_assoc. do 4 f_equal. rewrite Nat2Z.inj_succ. unfold sizeof_header. lia.
      * exists (S m). cbn [length take drop] in *. split; [lia|].
        split; [by eapply (vsending_trans [msg])|]. cbv zeta in *. rewrite Hrun2. unfold h1.
        rewrite set_vdev_twice. unfold v1, vunlinks_moved, add_event. cbn. by rewrite <- app_assoc.
Qed.

Lemma unlink_requests_run `{Env} `{Arch} port sock v h k :
  hc_vdev h !! port = Some v -> is_u32 (vd_devid v) -> ud_tcp_socket (vd_ud v) = Some sock ->
  LockPriv 1 ∉ k_locks k -> LockUd 1 ∉ k_locks k ->
  let msgs := (fun x => wire_bytes (cmd_unlink_header (vd_devid v) x)) <$> vd_unlink_tx v in
  exists m ret v' k', vhci_send_cmd_unlink port h k = Ok (ret, set_vdev port v' h, k') /\
    vsending (take m msgs) k k' /\ vd_unlink_tx v' = drop m (vd_unlink_tx v) /\
    vd_unlink_rx v' = vd_unlink_rx v ++ take m (vd_unlink_tx v) /\ requests v' = requests v /\
    ((m = length msgs /\ ret = s32 (48 * Z.of_nat m) /\ vd_ud v' = vd_ud v) \/
     ((0 < m <= length msgs)%nat /\ ret = -1 /\
      vd_ud v' = vd_ud (add_event VDEV_EVENT_ERROR_TCP v))).
Proof.
  intros Hv Hd Hsock Hl1 Hl2 msgs.
  destruct (vhci_unlink_loop_run port sock (S (length (vd_unlink_tx v))) v h k 0 Hv)
    as (k1 & Hk1); [lia|done..|]. fold msgs in Hk1.
  unfold vhci_send_cmd_unlink. erewrite bind_ok by (by apply get_port_vdev_ok). cbv beta.
  assert (length msgs = length (vd_unlink_tx v)) as Hlen by apply length_fmap.
  destruct Hk1 as [[Hs Hrun]|(m & Hm & Hs & Hrun)]; cbv zeta in Hrun; rewrite Hrun.
  - exists (length (vd_unlink_tx v)), (s32 (0 + 48 * Z.of_nat (length msgs))),
      (vunlinks_moved (vd_unlink_tx v) [] v), k1.
    split; [done|]. rewrite take_ge by lia. split; [exact Hs|].
    rewrite drop_ge, (take_ge (vd_unlink_tx v)) by done. split_and!; [done..|].
    left. by rewrite Z.add_0_l, Hlen.
  - eexists m, (-1), _, k1. split; [reflexivity|]. split_and!; [exact Hs|done..|]. by right.
Qed.

(** Queued unlinks are sent in order, each once, 48 bytes that carry the
    unlink's own number and that of the request to unlink; from then on the
    unlink waits for its answer.  If the socket does not take one, the
    connection is shut down by an event and those behind it stay queued. *)
Theorem unlink_requests_sent `{Env} `{Arch} port sock v h k :
  hc_vdev h !! port = Some v -> is_u32 (vd_devid v) -> ud_tcp_socket (vd_ud v) = Some sock ->
  LockPriv 1 ∉ k_locks k -> LockUd 1 ∉ k_locks k ->
  let msgs := (fun x => wire_bytes (cmd_unlink_header (vd_devid v) x)) <$> vd_unlink_tx v in
  exists m ret v' k', vhci_send_cmd_unlink port h k = Ok (ret, set_vdev port v' h, k') /\
    vd_unlink_tx v' = drop m (vd_unlink_tx v) /\
    vd_unlink_rx v' = vd_unlink_rx v ++ take m (vd_unlink_tx v) /\ requests v' = requests v /\
    k_urbs k' = k_urbs k /\ k_heap k' = k_heap k /\ k_locks k' = k_locks k /\
    sent (k_trace k') = reverse (take m msgs) ++ sent (k_trace k) /\
    ((m = length msgs /\ ret = s32 (48 * Z.of_nat m) /\ vd_ud v' = vd_ud v) \/
     ((0 < m <= length msgs)%nat /\ ret = -1 /\
      vd_ud v' = vd_ud (add_event VDEV_EVENT_ERROR_TCP v))).
Proof.
  intros Hv Hd Hsock Hl1 Hl2 msgs.
  destruct (unlink_requests_run port sock v h k) as (m & ret & v' & k' & Hrun & Hs & Ht & Hrx & Hq & Hout);
    [done..|].
  destruct (vsending_same _ _ _ Hs) as (E1 & E2 & E3 & E4).
  exists m, ret, v', k'. by split_and!.
Qed.

(** ** Sample *)

(** An OUT URB of three bytes waits to be sent, and an unlink of request 11. *)
Definition tx_vdev : vhci_device :=
  sample_vdev <| vd_priv_tx := [41%positive] |> <| vd_priv_rx := [] |>
    <| vd_unlink_tx := [mkVhciUnlink 12 11] |> <| vd_unlink_rx := [] |>.
Definition tx_vhci : vhci_hcd := set_vdev 0 tx_vdev sample_vhci.
Definition tx_urb : urb :=
  (urb_zero 0) <| urb_pipe := @usb_mkpipe linux_pipes PIPE_BULK false 5 2 |>
    <| urb_transfer_buffer := Some (1%positive, 0) |> <| urb_transfer_buffer_length := 3 |>
    <| urb_hcpriv := Some 41%positive |>.
Definition tx_kernel : kernel :=
  (one_block [7; 8; 9]) <| k_next := 50%positive |> <| k_urbs := {[ 2%positive := tx_urb ]} |>.
Definition tx_priv : vhci_priv := mkVhciPriv 11 0 2.

Lemma tx_wf : vhci_wf 0 tx_vdev tx_vhci tx_kernel.
Proof.
  split; [done|]. split; [apply (bool_decide_unpack _); by vm_compute|].
  repeat constructor. eexists _, _. split_and!; reflexivity.
Qed.

Lemma tx_ready :
  @vready linux_pipes 0 tx_vdev tx_vhci tx_kernel [41%positive]
    [@cmd_msg linux_pipes tx_priv 65538 tx_urb (k_heap tx_kernel)].
Proof.
  apply Forall2_cons. split; [|by apply Forall2_nil]. exists tx_priv, tx_urb.
  split; [by split_and!|]. split; [|done].
  split; [unfold urb_wf, is_u32, is_s32; cbn; lia|]. split; [by vm_compute|].
  split; [|split; [discriminate|discriminate]]. intros _ _. exists 1%positive, [7; 8; 9].
  split_and!; [done|done|by vm_compute].
Qed.

Lemma tx_fresh : fresh_heap tx_kernel.
Proof.
  intros b Hb. change (k_next tx_kernel) with 50%positive in Hb.
  cbn. by rewrite lookup_insert_ne by lia.
Qed.

Lemma submissions_sent_witness :
  exists h' k', @vhci_send_cmd_submit (send_env 100) true linux_pipes 0 tx_vhci tx_kernel = Ok (51, h', k') /\
    sent (k_trace k') = [be_bytes 4 1 ++ be_bytes 4 11 ++ be_bytes 4 65538 ++ be_bytes 4 0 ++ be_bytes 4 2 ++
      be_bytes 4 0 ++ be_bytes 4 3 ++ replicate 12 0 ++ replicate 8 0 ++ [7; 8; 9]].
Proof.
  destruct (@submissions_sent (send_env 100) true linux_pipes 0 7
    [@cmd_msg linux_pipes tx_priv 65538 tx_urb (k_heap tx_kernel)] tx_vdev tx_vhci tx_kernel)
    as (m & ret & v' & k' & Hrun & _ & _ & _ & _ & _ & _ & _ & Hs & Hout).
  - apply tx_wf.
  - apply tx_ready.
  - unfold is_u32. cbn. lia.
  - intros tr n. discriminate.
  - apply tx_fresh.
  - reflexivity.
  - cbn. set_solver.
  - cbn. set_solver.
  - assert (ret = 51) as -> by (vm_compute in Hrun; by injection Hrun as <- _ _).
    destruct Hout as [(-> & _)|(_ & ? & _)]; [|done].
    exists (set_vdev 0 v' tx_vhci), k'. split; [exact Hrun|]. rewrite Hs. by vm_compute.
Defined.

Lemma unlink_requests_sent_witness :
  exists h' k', @vhci_send_cmd_unlink (send_env 10) false 0 tx_vhci tx_kernel = Ok (-1, h', k') /\
    sent (k_trace k') = [wire_bytes (cmd_unlink_header 65538 (mkVhciUnlink 12 11))].
Proof.
  destruct (@unlink_requests_sent (send_env 10) false 0 7 tx_vdev tx_vhci tx_kernel eq_refl)
    as (m & ret & v' & k' & Hrun & _ & _ & _ & _ & _ & _ & Hs & Hout).
  - unfold is_u32. cbn. lia.
  - reflexivity.
  - cbn. set_solver.
  - cbn. set_solver.
  - assert (ret = -1) as -> by (vm_compute in Hrun; by injection Hrun as <- _ _).
    destruct Hout as [(-> & Hr & _)|([Hm0 Hm1] & _)]; [by vm_compute in Hr|].
    assert (m = 1%nat) as -> by (cbn in Hm1; lia).
    exists (set_vdev 0 v' tx_vhci), k'. split; [exact Hrun|]. rewrite Hs. by vm_compute.
Defined.
