(* ===== verification/VhciInv.v ===== *)
(** * No request is lost, none is completed twice

    The controller as a transition system: the USB core enqueues and dequeues
    URBs, the transmitter sends, results arrive.  In every reachable state the
    URBs accepted so far are those given back, those in flight, and those whose
    data the connection failed to deliver. *)
From S2P Require Import Prelude Kernel Wire Event EventProps Exec Xfer XferProps.
From S2P Require Import StubTxProps Vhci VhciRx VhciTx VhciHcd VhciProps VhciTxProps.

(** ** The accounts *)

(** The URBs in flight on a port, and those given back so far. *)
Definition inflight (v : vhci_device) (h : vhci_hcd) : list positive :=
  omap (fun p => vp_urb <$> hc_privs h !! p) (requests v).
Definition completed (k : kernel) : list positive := (givebacks (k_trace k)).*1.

Lemma requests_split port p v h k :
  vhci_wf port v h k -> p ∈ requests v -> requests v ≡ₚ p :: remove_id p (requests v).
Proof.
  intros (_ & Hnd & _) Hp. apply NoDup_Permutation; [done| |].
  - apply NoDup_cons. split; [|by apply NoDup_remove_id]. by intros [? _]%elem_of_remove_id.
  - intros q. rewrite elem_of_cons, elem_of_remove_id. destruct (decide (q = p)); naive_solver.
Qed.

Lemma omap_ext_in {A B} (f g : A -> option B) (l : list A) :
  (forall x, x ∈ l -> f x = g x) -> omap f l = omap g l.
Proof.
  induction l as [|x l IH]; intros Hfg; [done|]. cbn. rewrite (Hfg x) by left.
  rewrite IH by (intros y Hy; apply Hfg; by right). done.
Qed.

Lemma inflight_dropped port p x v v' h h' k :
  vhci_wf port v h k -> p ∈ requests v -> hc_privs h !! p = Some x ->
  requests v' = remove_id p (requests v) -> hc_privs h' = delete p (hc_privs h) ->
  inflight v h ≡ₚ vp_urb x :: inflight v' h'.
Proof.
  intros Hwf Hp Hx Hq Hps. unfold inflight. rewrite Hq, Hps.
  rewrite (requests_split port p v h k) at 1 by done. cbn. rewrite Hx. cbn. f_equiv.
  erewrite omap_ext_in; [done|]. intros q [Hne _]%elem_of_remove_id. by rewrite lookup_delete_ne by done.
Qed.

Lemma inflight_added port p u v h k :
  vhci_wf port v h k -> hc_privs h !! p = None ->
  forall v', requests v' ≡ₚ p :: requests v ->
  inflight v' (with_vpriv port p u v h) ≡ₚ u :: inflight v h.
Proof.
  intros (_ & _ & Hown) Hp v' Hq. unfold inflight. rewrite Hq. cbn. rewrite lookup_insert_eq. cbn.
  f_equiv. erewrite omap_ext_in; [done|]. intros q Hin.
  rewrite Forall_forall in Hown. destruct (Hown q Hin) as (y & _ & Hy & _).
  rewrite lookup_insert_ne by congruence. done.
Qed.

Lemma inflight_same v v' h h' :
  requests v' ≡ₚ requests v -> hc_privs h' = hc_privs h -> inflight v' h' ≡ₚ inflight v h.
Proof. intros Hq Hp. unfold inflight. by rewrite Hq, Hp. Qed.

(** ** The system *)

(** A controller, the machine, and the URBs accepted so far. *)
Record vsystem := mkVsys { vs_hcd : vhci_hcd; vs_kernel : kernel; vs_taken : list positive }.

Section system.
Context `{Env} `{Arch} `{UsbPipes}.
Variable port : nat.

(** Locks are free between operations. *)
Definition unlocked (k : kernel) : Prop :=
  LockController ∉ k_locks k /\ LockUd 1 ∉ k_locks k /\ LockPriv 1 ∉ k_locks k.

(** What the USB core guarantees of an URB it enqueues: it is in progress, not
    yet anyone's, for an addressed device behind this port; it can be linked to
    its endpoint, and there is memory. *)
Definition may_enqueue (u : positive) (v : vhci_device) (h : vhci_hcd) (k : kernel) : Prop :=
  exists r d dev, k_urbs k !! u = Some r /\ urb_dev r = Some d /\ k_udevs k !! d = Some dev /\
    (urb_transfer_buffer r <> None \/ urb_transfer_buffer_length r = 0) /\ 1 <= dev_portnum dev /\
    port = Z.to_nat (dev_portnum dev - 1) /\ usb_pipedevice (urb_pipe r) <> 0 /\
    urb_hcpriv r = None /\ urb_status r <> 0 /\ get_vdev_from 0 (hc_vdev h) d = Some port /\
    hc_privs h !! k_next k = None /\ (forall tr, (env_answer tr (CMalloc 40)).1 <> 0) /\
    (env_answer (k_trace k) (CLinkUrbToEp u)).1 = 0.

(** An URB it dequeues, if it is still the controller's, is in flight here. *)
Definition may_dequeue (u : positive) (v : vhci_device) (h : vhci_hcd) (k : kernel) : Prop :=
  exists r, k_urbs k !! u = Some r /\ forall p, urb_hcpriv r = Some p ->
    exists x, p ∈ requests v /\ hc_privs h !! p = Some x /\ vp_urb x = u.

(** A result for a non-isochronous URB whose buffer holds what is reported. *)
Definition may_receive (pdu : usbip_header) (v : vhci_device) (h : vhci_hcd) (k : kernel) : Prop :=
  (exists sock stream, delivers sock (k_trace k) stream /\ ud_tcp_socket (vd_ud v) = Some sock) /\
  recvmsg_ok /\ ud_side (vd_ud v) = USBIP_VHCI /\
  forall p x, find_vpriv (hc_privs h) (seqnum (h_base pdu)) (vd_priv_rx v) = Some (p, x) ->
    exists r b blk, k_urbs k !! vp_urb x = Some r /\ usb_pipeisoc (urb_pipe r) = false /\
      (0 < in_size pdu r -> urb_transfer_buffer r = Some (b, 0) /\ k_heap k !! b = Some blk /\
                            in_size pdu r <= Z.of_nat (length blk)).

(** The messages of the queued requests can be built. *)
Definition may_send (v : vhci_device) (h : vhci_hcd) (k : kernel) : Prop :=
  (exists sock, ud_tcp_socket (vd_ud v) = Some sock) /\ is_u32 (vd_devid v) /\ mallocs_ok /\
  fresh_heap k /\ exists msgs, vready port v h k (vd_priv_tx v) msgs.

Inductive vstep : vsystem -> vsystem -> Prop :=
  | vstep_enqueue u v h k ret h' k' T :
      hc_vdev h !! port = Some v -> unlocked k -> may_enqueue u v h k ->
      vhci_urb_enqueue u h k = Ok (ret, h', k') ->
      vstep (mkVsys h k T) (mkVsys h' k' (if ret =? 0 then u :: T else T))
  | vstep_dequeue u st v h k ret h' k' T :
      hc_vdev h !! port = Some v -> unlocked k -> may_dequeue u v h k ->
      vhci_urb_dequeue u st h k = Ok (ret, h', k') ->
      vstep (mkVsys h k T) (mkVsys h' k' T)
  | vstep_send v h k ret h' k' T :
      hc_vdev h !! port = Some v -> unlocked k -> may_send v h k ->
      vhci_send_cmd_submit port h k = Ok (ret, h', k') ->
      vstep (mkVsys h k T) (mkVsys h' k' T)
  | vstep_send_unlinks v h k ret h' k' T :
      hc_vdev h !! port = Some v -> unlocked k -> may_send v h k ->
      vhci_send_cmd_unlink port h k = Ok (ret, h', k') ->
      vstep (mkVsys h k T) (mkVsys h' k' T)
  | vstep_ret_submit pdu v h k h' k' T :
      hc_vdev h !! port = Some v -> unlocked k -> may_receive pdu v h k ->
      vhci_recv_ret_submit port pdu h k = Ok (tt, h', k') ->
      vstep (mkVsys h k T) (mkVsys h' k' T)
  | vstep_ret_unlink pdu v h k h' k' T :
      hc_vdev h !! port = Some v -> unlocked k ->
      vhci_recv_ret_unlink port pdu h k = Ok (tt, h', k') ->
      vstep (mkVsys h k T) (mkVsys h' k' T).

(** Every request is well formed and every accepted URB accounted for; URBs are
    only missing when the connection was found broken. *)
Definition vinv (s : vsystem) : Prop :=
  exists v lost, vhci_wf port v (vs_hcd s) (vs_kernel s) /\
    vs_taken s ≡ₚ completed (vs_kernel s) ++ inflight v (vs_hcd s) ++ lost /\
    (lost <> [] -> ud_event (vd_ud v) <> 0).

(** ** Every step keeps the accounts *)

Lemma enqueue_keeps u v h k ret h' k' T :
  vinv (mkVsys h k T) -> hc_vdev h !! port = Some v -> unlocked k -> may_enqueue u v h k ->
  vhci_urb_enqueue u h k = Ok (ret, h', k') ->
  vinv (mkVsys h' k' (if ret =? 0 then u :: T else T)).
Proof.
  intros (v0 & lost & Hwf & HT & Hev) Hv (Hl1 & Hl2 & Hl3)
    (r & d & dev & Hu & Hd & Hdev & Hbuf & Hpn & Hport & Hpd & Hhc & Hst & Hg & Hfr & Ha & Hlink) Hrun.
  cbn [vs_hcd vs_kernel vs_taken] in *.
  assert (v0 = v) as -> by (destruct Hwf; congruence).
  pose proof (urb_enqueue_run u r d dev v h k Hu Hd Hdev Hbuf Hpn) as Hspec. cbv zeta in Hspec.
  rewrite <- Hport in Hspec. specialize (Hspec Hwf Hpd Hhc Hg Hfr Ha Hl1 Hl2 Hl3).
  unfold enqueue_spec in Hspec. rewrite Hlink, Hrun in Hspec.
  destruct (negb (urb_status r =? - EINPROGRESS)).
  { injection Hspec as -> -> ->. rewrite (proj2 (Z.eqb_neq _ 0) Hst). by exists v, lost. }
  destruct (_ || _).
  { injection Hspec as -> -> ->. by exists v, lost. }
  change (negb (0 =? 0)) with false in Hspec. cbv iota in Hspec.
  destruct Hspec as (k1 & v' & [= -> -> ->] & Hwf' & Htx & Hrx & _ & Htr).
  exists v', lost. split; [exact Hwf'|]. cbn [vs_hcd vs_kernel vs_taken Z.eqb].
  assert (vd_ud v' = vd_ud v) as Hud.
  { destruct Hwf' as (Hv' & _). destruct Hwf as (Hv0 & _).
    change (hc_vdev (with_vpriv port (k_next k) u v h)) with
      (hc_vdev (set_vdev port (v <| vd_priv_tx := vd_priv_tx v ++ [k_next k] |>) h)) in Hv'.
    rewrite (set_vdev_lookup port _ v h Hv) in Hv'. by injection Hv' as <-. }
  split; [|by rewrite Hud].
  assert (completed k1 = completed k) as -> by (unfold completed; by rewrite Htr).
  rewrite (inflight_added port (k_next k) u v h k Hwf Hfr v'), HT; [solve_Permutation|].
  unfold requests. rewrite Htx, Hrx. solve_Permutation.
Qed.

Lemma dequeue_keeps u st v h k ret h' k' T :
  vinv (mkVsys h k T) -> hc_vdev h !! port = Some v -> unlocked k -> may_dequeue u v h k ->
  vhci_urb_dequeue u st h k = Ok (ret, h', k') -> vinv (mkVsys h' k' T).
Proof.
  intros (v0 & lost & Hwf & HT & Hev) Hv (Hl1 & Hl2 & Hl3) (r & Hu & Hown) Hrun.
  cbn [vs_hcd vs_kernel vs_taken] in *. assert (v0 = v) as -> by (destruct Hwf; congruence).
  pose proof (urb_dequeue_run u st r v h k port Hu Hwf Hl1 Hl3 Hl2) as Hspec. unfold dequeue_spec in Hspec.
  rewrite Hrun in Hspec. destruct (urb_hcpriv r) as [p|].
  2: { injection Hspec as -> -> ->. by exists v, lost. }
  destruct (Hown p eq_refl) as (x & Hp & Hx & Hxu). specialize (Hspec x Hp Hx Hxu).
  destruct (negb _).
  { injection Hspec as -> -> ->. exists v, lost. split; [|done]. exact Hwf. }
  destruct (ud_tcp_socket (vd_ud v)) as [sock|].
  - destruct (_ =? 0); injection Hspec as -> -> ->.
    + exists (add_event VDEV_EVENT_ERROR_MALLOC v), lost. split; [by apply port_event_wf|].
      split; [exact HT|]. intros _. by intros [_ ?]%Z.lor_eq_0_iff.
    + exists (v <| vd_unlink_tx := vd_unlink_tx v ++ [mkVhciUnlink (seqnum_next h) (vp_seqnum x)] |>), lost.
      split; [|by split]. destruct Hwf as (_ & Hnd & Hpr).
      split; [by eapply (set_vdev_lookup port _ v)|]. by split.
  - destruct Hspec as (k1 & [= -> -> ->] & _ & Htr & Hwf').
    exists (dropped p v), lost. split; [exact Hwf'|]. split; [|exact Hev].
    cbn [vs_hcd vs_kernel vs_taken].
    assert (completed k1 = u :: completed k) as -> by (unfold completed; by rewrite Htr).
    rewrite HT, (inflight_dropped port p x v (dropped p v) h (without port p v h) k Hwf Hp Hx), Hxu;
      [solve_Permutation| |done].
    unfold requests, dropped. cbn. by rewrite remove_id_app.
Qed.

Lemma round_events (P P' Q Q' : Prop) v v' :
  (P /\ P' /\ vd_ud v' = vd_ud v) \/
  (Q /\ Q' /\ vd_ud v' = vd_ud (add_event VDEV_EVENT_ERROR_TCP v)) ->
  ud_event (vd_ud v) <> 0 -> ud_event (vd_ud v') <> 0.
Proof. intros [(_ & _ & ->)|(_ & _ & ->)]; [done|]. intros _. by intros [_ ?]%Z.lor_eq_0_iff. Qed.

Lemma send_keeps v h k ret h' k' T :
  vinv (mkVsys h k T) -> hc_vdev h !! port = Some v -> unlocked k -> may_send v h k ->
  vhci_send_cmd_submit port h k = Ok (ret, h', k') \/ vhci_send_cmd_unlink port h k = Ok (ret, h', k') ->
  vinv (mkVsys h' k' T).
Proof.
  intros (v0 & lost & Hwf & HT & Hev) Hv (Hl1 & Hl2 & Hl3) ([sock Hsock] & Hd & Hmal & Hfr & [msgs Hr]) Hrun.
  cbn [vs_hcd vs_kernel vs_taken] in *. assert (v0 = v) as -> by (destruct Hwf; congruence).
  assert (exists v', h' = set_vdev port v' h /\ vhci_wf port v' h' k' /\ requests v' ≡ₚ requests v /\
    completed k' = completed k /\ (ud_event (vd_ud v) <> 0 -> ud_event (vd_ud v') <> 0))
    as (v' & -> & Hwf' & Hq & Hc & Hud).
  { destruct Hrun as [Hrun|Hrun].
    - destruct (submissions_run port sock msgs v h k Hwf Hr Hd Hmal Hfr Hsock Hl3 Hl2)
        as (m & ret' & v' & k1 & Hrun' & Hs & Ht & Hrx & Hout).
      rewrite Hrun in Hrun'. injection Hrun' as -> -> ->.
      destruct (vsending_same _ _ _ Hs) as (_ & _ & E3 & _).
      destruct (vmoved_wf port m v v' h k k1 Hwf Ht Hrx E3) as [Hw Hq].
      exists v'. split; [done|]. split; [exact Hw|]. split; [exact Hq|].
      split; [unfold completed; by rewrite (proj2 Hs)|]. eapply round_events, Hout.
    - destruct (unlink_requests_run port sock v h k Hv Hd Hsock Hl3 Hl2)
        as (m & ret' & v' & k1 & Hrun' & Hs & _ & _ & Hq & Hout).
      rewrite Hrun in Hrun'. injection Hrun' as -> -> ->.
      destruct (vsending_same _ _ _ Hs) as (_ & _ & E3 & _).
      exists v'. split; [done|]. split.
      { destruct Hwf as (_ & Hnd & Hown). split; [by eapply set_vdev_lookup|]. rewrite Hq.
        split; [done|]. eapply Forall_impl; [exact Hown|]. intros p (x & r & G1 & G2 & G3 & G4).
        exists x, r. by rewrite E3. }
      split; [by rewrite Hq|]. split; [unfold completed; by rewrite (proj2 Hs)|]. eapply round_events, Hout. }
  exists v', lost. split; [exact Hwf'|]. split; [|auto]. cbn [vs_hcd vs_kernel vs_taken].
  rewrite Hc, HT. by rewrite (inflight_same v v' h (set_vdev port v' h)).
Qed.

Lemma ret_submit_keeps pdu v h k h' k' T :
  vinv (mkVsys h k T) -> hc_vdev h !! port = Some v -> unlocked k -> may_receive pdu v h k ->
  vhci_recv_ret_submit port pdu h k = Ok (tt, h', k') -> vinv (mkVsys h' k' T).
Proof.
  intros (v0 & lost & Hwf & HT & Hev) Hv (Hl1 & Hl2 & Hl3)
    ((sock & stream & Hdel & Hsock) & Hok & Hside & Hbuf) Hrun.
  cbn [vs_hcd vs_kernel vs_taken] in *. assert (v0 = v) as -> by (destruct Hwf; congruence).
  pose proof (ret_submit_run port pdu sock stream v h k Hwf Hok Hdel Hside Hsock Hl3 Hl2 Hl1) as Hspec.
  unfold ret_submit_spec in Hspec. rewrite Hrun in Hspec.
  destruct (find_vpriv _ _ _) as [[p x]|] eqn:Hf.
  2: { injection Hspec as -> ->. exists (add_event VDEV_EVENT_ERROR_TCP v), lost.
       split; [by apply port_event_wf|]. split; [exact HT|]. intros _. by intros [_ ?]%Z.lor_eq_0_iff. }
  destruct (Hbuf p x eq_refl) as (r & b & blk & Hu & Hiso & Hsz).
  destruct (find_vpriv_in _ _ _ _ _ Hf) as (Hin & Hx & _).
  assert (p ∈ requests v) as Hp by (unfold requests; set_solver).
  destruct (Hspec r b blk Hu Hiso Hsz) as (ok & n & tr & v' & [= -> ->] & Hwf' & Hq & Hg & _).
  pose proof (inflight_dropped port p x v v' h (after_result ok port p v h) k Hwf Hp Hx Hq) as Hfl.
  assert (hc_privs (after_result ok port p v h) = delete p (hc_privs h)) as Hps by (by destruct ok).
  specialize (Hfl Hps).
  assert (ud_event (vd_ud v') = (if ok then ud_event (vd_ud v)
    else ud_event (vd_ud (add_event VDEV_EVENT_ERROR_TCP v)))) as Hud.
  { destruct Hwf' as (Hv' & _). pose proof (without_vdev port p v h Hv) as Hwo. destruct ok.
    - cbn [after_result] in Hv'. rewrite Hwo in Hv'. by injection Hv' as <-.
    - unfold after_result, port_event in Hv'. rewrite (set_vdev_lookup port _ _ _ Hwo) in Hv'.
      by injection Hv' as <-. }
  unfold completed in *. cbn [vs_hcd vs_kernel vs_taken]. destruct ok.
  - exists v', lost. split; [exact Hwf'|]. cbn [vs_hcd vs_kernel vs_taken].
    split; [|by rewrite Hud]. unfold completed. cbn [filled k_trace set_field set_k_trace].
    rewrite Hg, fmap_app, HT, Hfl. cbn. solve_Permutation.
  - exists v', (vp_urb x :: lost). split; [exact Hwf'|]. cbn [vs_hcd vs_kernel vs_taken].
    split; [|rewrite Hud; intros _; by intros [_ ?]%Z.lor_eq_0_iff].
    unfold completed. cbn [filled k_trace set_field set_k_trace].
    rewrite Hg, fmap_app, HT, Hfl. cbn. solve_Permutation.
Qed.

Lemma ret_unlink_keeps pdu v h k h' k' T :
  vinv (mkVsys h k T) -> hc_vdev h !! port = Some v -> unlocked k ->
  vhci_recv_ret_unlink port pdu h k = Ok (tt, h', k') -> vinv (mkVsys h' k' T).
Proof.
  intros (v0 & lost & Hwf & HT & Hev) Hv (Hl1 & Hl2 & Hl3) Hrun.
  cbn [vs_hcd vs_kernel vs_taken] in *. assert (v0 = v) as -> by (destruct Hwf; congruence).
  pose proof (ret_unlink_run port pdu v h k Hwf Hl3 Hl1) as Hspec. unfold ret_unlink_spec in Hspec.
  rewrite Hrun in Hspec. destruct (take_unlink _ _) as [[y q]|].
  2: { injection Hspec as -> ->. by exists v, lost. }
  cbv zeta in Hspec. set (v1 := v <| vd_unlink_rx := q |>) in *.
  assert (vhci_wf port v1 (set_vdev port v1 h) k) as Hwf1.
  { destruct Hwf as (_ & Hnd & Hown). split; [by eapply set_vdev_lookup|]. by split. }
  destruct (find_vpriv _ _ _) as [[p x]|] eqn:Hf.
  2: { injection Hspec as -> ->. by exists v1, lost. }
  destruct (find_vpriv_in _ _ _ _ _ Hf) as (Hin & Hx & _).
  assert (p ∈ requests v) as Hp by (unfold requests; set_solver).
  destruct Hwf as (_ & _ & Hown). pose proof Hown as Hown0. rewrite Forall_forall in Hown.
  destruct (Hown p Hp) as (x' & r & Hx' & _ & Hu & _). rewrite Hx in Hx'. injection Hx' as <-.
  destruct (Hspec r Hu) as (k1 & [= -> ->] & _ & Htr & Hwf').
  exists (dropped p v1), lost. split; [exact Hwf'|]. split; [|exact Hev].
  cbn [vs_hcd vs_kernel vs_taken].
  assert (completed k1 = vp_urb x :: completed k) as -> by (unfold completed; by rewrite Htr).
  rewrite HT. change (inflight v h) with (inflight v1 (set_vdev port v1 h)).
  rewrite (inflight_dropped port p x v1 (dropped p v1) (set_vdev port v1 h)
    (without port p v1 (set_vdev port v1 h)) k Hwf1 Hp Hx); [solve_Permutation| |done].
  unfold requests, dropped. cbn. by rewrite remove_id_app.
Qed.

Lemma vstep_keeps s s' : vstep s s' -> vinv s -> vinv s'.
Proof.
  destruct 1; intros Hinv.
  - by eapply enqueue_keeps.
  - by eapply dequeue_keeps.
  - eapply send_keeps; eauto.
  - eapply send_keeps; eauto.
  - by eapply ret_submit_keeps.
  - by eapply ret_unlink_keeps.
Qed.
End system.

(** C6: no request is lost and none is completed twice.  Whatever the order in
    which URBs are enqueued and dequeued, requests and unlinks are sent and
    results arrive, the URBs the controller has accepted are exactly those it
    gave back, once each, those in flight, and, only after an event that shuts
    the connection down, those whose data did not arrive. *)
Theorem requests_conserved `{Env} `{Arch} `{UsbPipes} port v h k s :
  hc_vdev h !! port = Some v -> requests v = [] -> givebacks (k_trace k) = [] ->
  rtc (vstep port) (mkVsys h k []) s ->
  exists v' lost, vhci_wf port v' (vs_hcd s) (vs_kernel s) /\
    vs_taken s ≡ₚ completed (vs_kernel s) ++ inflight v' (vs_hcd s) ++ lost /\
    (lost <> [] -> ud_event (vd_ud v') <> 0).
Proof.
  intros Hv Hq Hg Hsteps. change (vinv port s).
  assert (vinv port (mkVsys h k [])) as Hinv.
  { exists v, []. cbn [vs_hcd vs_kernel vs_taken]. split; [|split; [|done]].
    - split; [done|]. rewrite Hq. split; [apply NoDup_nil_2|by apply Forall_nil].
    - unfold completed, inflight. by rewrite Hg, Hq. }
  clear Hv Hq Hg. induction Hsteps as [|s1 s2 s3 Hstep _ IH]; [done|].
  apply IH. by eapply vstep_keeps.
Qed.

(** ** Sample: an URB is enqueued, sent and completed *)

(** Memory, endpoints and the connection are at hand; nothing is received. *)
Definition inv_env : Env := fun _ c =>
  match c with
  | CMalloc _ => (1, [])
  | CSendmsg _ _ n => (n, [])
  | _ => (0, [])
  end.

Definition inv_vdev : vhci_device :=
  sample_vdev <| vd_priv_rx := [] |> <| vd_unlink_rx := [] |>.
Definition inv_vhci : vhci_hcd := set_vdev 0 inv_vdev sample_vhci <| hc_privs := ∅ |>.
Definition inv_urb : urb :=
  tx_urb <| urb_hcpriv := None |> <| urb_dev := Some 1%positive |> <| urb_status := - EINPROGRESS |>.
Definition inv_kernel : kernel :=
  tx_kernel <| k_urbs := {[ 2%positive := inv_urb ]} |> <| k_udevs := {[ 1%positive := sample_addressed ]} |>.

Definition state_of (m : res (Z * vhci_hcd * kernel)) : vhci_hcd * kernel :=
  match m with Ok (_, h, k) => (h, k) | Crash _ => (inv_vhci, inv_kernel) end.
Definition inv1 := state_of (@vhci_urb_enqueue inv_env true linux_pipes 2 inv_vhci inv_kernel).
Definition inv2 := state_of (@vhci_send_cmd_submit inv_env true linux_pipes 0 inv1.1 inv1.2).
Definition inv3 := state_of
  match @vhci_recv_ret_submit inv_env true linux_pipes 0 (sample_ret_pdu USBIP_RET_SUBMIT 13 3) inv2.1 inv2.2 with
  | Ok (_, h, k) => Ok (0, h, k)
  | Crash b => Crash b
  end.

Lemma inv_env_recv : @recvmsg_ok inv_env.
Proof. intros tr sock n Hn. cbn. lia. Qed.

Lemma inv_env_delivers sock tr : @delivers inv_env sock tr [].
Proof. intros data tr' HR. destruct HR as [| |? ? ? ? ? Hpos]; [done|done|]. cbn in Hpos. lia. Qed.

(** A closed fact about the sample states, by evaluation. *)
Ltac sample_fact := vm_compute; reflexivity.

Lemma inv_step1 : @vstep inv_env true linux_pipes 0 (mkVsys inv_vhci inv_kernel []) (mkVsys inv1.1 inv1.2 [2%positive]).
Proof.
  refine (@vstep_enqueue inv_env true linux_pipes 0 2 inv_vdev inv_vhci inv_kernel 0 inv1.1 inv1.2 [] eq_refl _ _ _).
  - split_and!; apply not_elem_of_nil.
  - exists inv_urb, 1%positive, sample_addressed. split_and!; first [by left | sample_fact | vm_compute; discriminate | idtac].
  - sample_fact.
Qed.

Lemma inv_vdev1 : hc_vdev inv1.1 !! 0%nat = Some (inv_vdev <| vd_priv_tx := [50%positive] |> <| vd_unlink_tx := [] |>).
Proof. sample_fact. Qed.

Lemma inv_fresh : fresh_heap inv1.2.
Proof.
  intros b Hb. assert (k_next inv1.2 = 51%positive) as Hn by sample_fact. rewrite Hn in Hb.
  assert (k_heap inv1.2 = {[1%positive := [7; 8; 9]]}) as -> by sample_fact.
  assert (1%positive <> b) as Hne by lia. by rewrite lookup_singleton_ne.
Qed.

Lemma inv_ready : @vready linux_pipes 0 (inv_vdev <| vd_priv_tx := [50%positive] |> <| vd_unlink_tx := [] |>)
  inv1.1 inv1.2 [50%positive]
  [@cmd_msg linux_pipes (mkVhciPriv 13 0 2) 65538 (inv_urb <| urb_hcpriv := Some 50%positive |>) {[1%positive := [7; 8; 9]]}].
Proof.
  assert (k_heap inv1.2 = {[1%positive := [7; 8; 9]]}) as Hh by sample_fact.
  apply Forall2_cons. split; [|by apply Forall2_nil].
  exists (mkVhciPriv 13 0 2), (inv_urb <| urb_hcpriv := Some 50%positive |>). rewrite Hh.
  split; [split_and!; sample_fact|]. split; [|reflexivity].
  split; [split_and!; by vm_compute|]. split; [by vm_compute|].
  split; [|split; [discriminate|discriminate]]. intros _ _. exists 1%positive, [7; 8; 9].
  split_and!; [done|done|by vm_compute].
Qed.

(** No lock is held in a state, by evaluation. *)
Lemma unlocked_nil k : k_locks k = [] -> unlocked k.
Proof. intros E. unfold unlocked. rewrite E. split_and!; apply not_elem_of_nil. Qed.

Lemma inv_step2 : @vstep inv_env true linux_pipes 0 (mkVsys inv1.1 inv1.2 [2%positive]) (mkVsys inv2.1 inv2.2 [2%positive]).
Proof.
  apply (@vstep_send inv_env true linux_pipes 0 _ inv1.1 inv1.2 51 inv2.1 inv2.2 [2%positive] inv_vdev1).
  - apply unlocked_nil. sample_fact.
  - split; [by exists 7|]. split; [unfold is_u32; cbn; lia|]. split; [intros tr n; discriminate|].
    split; [apply inv_fresh|]. eexists. apply inv_ready.
  - sample_fact.
Qed.

Lemma inv_vdev2 : hc_vdev inv2.1 !! 0%nat =
  Some (inv_vdev <| vd_priv_tx := [] |> <| vd_priv_rx := [50%positive] |> <| vd_unlink_tx := [] |>).
Proof. sample_fact. Qed.

Lemma inv_step3 : @vstep inv_env true linux_pipes 0 (mkVsys inv2.1 inv2.2 [2%positive]) (mkVsys inv3.1 inv3.2 [2%positive]).
Proof.
  apply (@vstep_ret_submit inv_env true linux_pipes 0 (sample_ret_pdu USBIP_RET_SUBMIT 13 3) _
    inv2.1 inv2.2 inv3.1 inv3.2 [2%positive] inv_vdev2).
  - apply unlocked_nil. sample_fact.
  - split; [exists 7, []; split; [apply inv_env_delivers|done]|]. split; [apply inv_env_recv|].
    split; [done|]. intros p x Hf.
    assert (p = 50%positive /\ x = mkVhciPriv 13 0 2) as [-> ->] by (vm_compute in Hf; by injection Hf as <- <-).
    exists (inv_urb <| urb_hcpriv := Some 50%positive |>), 1%positive, [].
    split; [sample_fact|]. split; [sample_fact|]. intros Hpos. vm_compute in Hpos. discriminate Hpos.
  - sample_fact.
Qed.

Lemma requests_conserved_witness :
  rtc (@vstep inv_env true linux_pipes 0) (mkVsys inv_vhci inv_kernel []) (mkVsys inv3.1 inv3.2 [2%positive]) /\
  exists v' lost, @vhci_wf 0 v' inv3.1 inv3.2 /\ [2%positive] ≡ₚ completed inv3.2 ++ inflight v' inv3.1 ++ lost /\
    (lost <> [] -> ud_event (vd_ud v') <> 0).
Proof.
  assert (rtc (@vstep inv_env true linux_pipes 0) (mkVsys inv_vhci inv_kernel []) (mkVsys inv3.1 inv3.2 [2%positive]))
    as Hsteps.
  { eapply rtc_l; [apply inv_step1|]. eapply rtc_l; [apply inv_step2|]. eapply rtc_l; [apply inv_step3|apply rtc_refl]. }
  split; [exact Hsteps|].
  exact (@requests_conserved inv_env true linux_pipes 0 inv_vdev inv_vhci inv_kernel
    (mkVsys inv3.1 inv3.2 [2%positive]) eq_refl eq_refl eq_refl Hsteps).
Defined.
