(* ===== verification/Delivery.v ===== *)
(** * From the controller to the exporter

    The two drivers together: what the controller's transmitter writes to its
    end of a connection, the exporter's receiving thread turns into URBs.  The
    connection is a stream of bytes that may be cut anywhere. *)
From S2P Require Import Prelude Kernel Wire Event EventProps Exec Xfer XferProps IsoProps.
From S2P Require Import Filters FilterProps Stub StubTx StubRx StubMain StubDev StubProps StubReqProps StubTxProps StubRxProps.
From S2P Require Import Vhci VhciRx VhciTx VhciProps VhciTxProps.

(** ** Streams *)

Section streams.
Context `{Env}.

(** From the trace [tr] on, whatever is called, the receptions on [sock] deliver
    bytes of [stream] in order: what a stream socket promises. *)
Definition streams (sock : Z) (tr : list call) (stream : list Z) : Prop :=
  forall data tr', Reads sock tr data tr' -> data `prefix_of` stream.

(** All of [stream] comes through: no reception fails before its end. *)
Definition lossless (sock : Z) (tr : list call) (stream : list Z) : Prop :=
  forall data, Stalled sock tr data -> (length stream <= length data)%nat.

Lemma streams_delivers sock tr stream : streams sock tr stream -> delivers sock tr stream.
Proof. intros Hs data tr' HR. by eapply Hs, Received_Reads. Qed.

Lemma streams_after sock tr tr' data rest :
  streams sock tr (data ++ rest) -> Reads sock tr data tr' -> streams sock tr' rest.
Proof. intros Hs HR d tr'' Hd. apply (prefix_app_inv data), (Hs _ tr''). by eapply Reads_trans. Qed.

Lemma streams_no_recv sock tr tr0 stream :
  no_recv tr -> streams sock tr0 stream -> streams sock (tr ++ tr0) stream.
Proof. intros Hn Hs. by apply (streams_after sock tr0 _ []), no_recv_Reads. Qed.

Lemma streams_delivers_next sock tr stream :
  streams sock tr stream -> delivers_next sock tr stream.
Proof. intros Hs tr' Hn. by apply streams_delivers, streams_no_recv. Qed.

Lemma lossless_after sock tr tr' data rest :
  lossless sock tr (data ++ rest) -> Reads sock tr data tr' -> lossless sock tr' rest.
Proof.
  intros Hl HR d (tr2 & size & Hd & Hst). pose proof (Hl (data ++ d)) as Hc.
  rewrite !length_app in Hc. enough (length data + length rest <= length data + length d)%nat by lia.
  apply Hc. exists tr2, size. split; [by eapply Reads_trans|done].
Qed.

Lemma lossless_no_recv sock tr tr0 stream :
  no_recv tr -> lossless sock tr0 stream -> lossless sock (tr ++ tr0) stream.
Proof. intros Hn Hs. by apply (lossless_after sock tr0 _ []), no_recv_Reads. Qed.

Lemma stalled_after sock tr tr' data d :
  Reads sock tr data tr' -> Stalled sock tr' d -> Stalled sock tr (data ++ d).
Proof.
  intros HR (tr2 & size & Hd & Hst). exists tr2, size. split; [by eapply Reads_trans|done].
Qed.

Lemma lossless_stalled sock tr n stream :
  lossless sock tr stream -> Stalled sock tr (take n stream) -> (length stream <= n)%nat.
Proof. intros Hl Hs%Hl. rewrite length_take in Hs. lia. Qed.
End streams.

(** An environment whose socket [sock] delivers [stream], at most [chunk] bytes at
    a time; URBs are accepted, no thread is stopped, memory is granted. *)
Fixpoint delivered_on (sock chunk : Z) (stream : list Z) (tr : list call) : Z :=
  match tr with
  | [] => 0
  | CRecvmsg s n :: tr' =>
      let d := delivered_on sock chunk stream tr' in
      if s =? sock then d + Z.max 0 (Z.min (Z.min n chunk) (Z.of_nat (length stream) - d)) else d
  | _ :: tr' => delivered_on sock chunk stream tr'
  end.
Definition sock_env (sock chunk : Z) (stream : list Z) : Env := fun tr c =>
  match c with
  | CRecvmsg s n =>
      if s =? sock then
        let d := delivered_on sock chunk stream tr in
        let m := Z.max 0 (Z.min (Z.min n chunk) (Z.of_nat (length stream) - d)) in
        (m, take (Z.to_nat m) (drop (Z.to_nat d) stream))
      else (0, [])
  | CSubmitUrb _ | CShouldStop => (0, [])
  | _ => (1, [])
  end.

Section sock_env.
Variables (sock chunk : Z) (stream : list Z).
Notation pos := (delivered_on sock chunk stream).
#[local] Instance the_env : Env := sock_env sock chunk stream.

Lemma delivered_on_range tr : 0 <= pos tr <= Z.of_nat (length stream).
Proof. induction tr as [|[] tr IH]; cbn; try lia. case_if; lia. Qed.

Lemma sock_env_ok : recvmsg_ok.
Proof.
  intros tr s size Hs. cbn. pose proof (delivered_on_range tr). case_if; [|cbn; lia].
  split; [lia|]. intros. rewrite length_take, length_drop. lia.
Qed.

Lemma sock_env_nonneg tr s size : 0 <= (env_answer tr (CRecvmsg s size)).1.
Proof. cbn. case_if; cbn; lia. Qed.

(** What is read moves the position in the stream by its length. *)
Lemma sock_env_reads tr data tr' :
  Reads sock tr data tr' ->
  pos tr' = pos tr + Z.of_nat (length data) /\
  data = take (length data) (drop (Z.to_nat (pos tr)) stream).
Proof.
  induction 1 as [tr|c tr data tr' Hc _ [IH1 IH2]|tr size data tr' Hs Hr _ [IH1 IH2]]; [cbn; split; [lia|done]| |].
  - assert (pos (c :: tr) = pos tr) as E; [|by rewrite E in IH1, IH2].
    destruct c; cbn; try done. case_if; bool_to_prop; [|done]. subst.
    specialize (Hc size eq_refl). cbn in Hc. rewrite Z.eqb_refl in Hc. cbn in Hc. lia.
  - pose proof (delivered_on_range tr) as Hd. cbn in Hr, IH1, IH2 |- *. rewrite Z.eqb_refl in *. cbn in Hr |- *.
    set (d := pos tr) in *.
    set (m := Z.max 0 (Z.min (Z.min size chunk) (Z.of_nat (length stream) - d))) in *.
    set (got := take (Z.to_nat m) (drop (Z.to_nat d) stream)).
    assert (length got = Z.to_nat m) as Hg
      by (unfold got; rewrite length_take, length_drop; lia).
    rewrite length_app, Hg. split; [lia|].
    rewrite <- (take_drop (Z.to_nat m) (drop (Z.to_nat d) stream)) at 1. fold got.
    rewrite take_app_ge by lia. rewrite Hg. f_equal. rewrite drop_drop, IH2 at 1.
    f_equal; [lia|]. f_equal. lia.
Qed.

Lemma sock_env_streams tr : pos tr = 0 -> streams sock tr stream.
Proof.
  intros Hz data tr' [_ Hd]%sock_env_reads. rewrite Hd, Hz, drop_0. apply prefix_take.
Qed.

Lemma sock_env_lossless tr : 0 < chunk -> pos tr = 0 -> lossless sock tr stream.
Proof.
  intros Hch Hz data (tr' & size & [Hp _]%sock_env_reads & Hs & Hst). cbn in Hst.
  rewrite Z.eqb_refl in Hst. cbn in Hst. lia.
Qed.
End sock_env.

(** ** The receiving thread *)

Section serve.
Context `{Env} `{Arch} `{UsbPipes} `{!UsbPipesOk} `{FilterDrivers stub_device}.

(** A request and the data that follows it. *)
Notation request := (usbip_header * list Z)%type.
Definition request_bytes (req : request) : list Z := wire_bytes req.1 ++ req.2.

(** A submission to an endpoint that the device [dev], exported as [id], has. *)
Definition good_request (dev : usb_device) (id : Z) (req : request) : Prop :=
  let '(h, data) := req in
  header_wf h /\ command (h_base h) = USBIP_CMD_SUBMIT /\ devid (h_base h) = id /\
  ep_address (ep (h_base h)) /\
  (direction (h_base h) = USBIP_DIR_IN \/ direction (h_base h) = USBIP_DIR_OUT) /\
  (exists e, endpoint_of dev (ep (h_base h)) (direction (h_base h)) = Some e /\
     0 <= ep_xfertype e < 4 /\ ep_xfertype e <> USB_ENDPOINT_XFER_ISOC) /\
  bytes (w_setup (h_u h)) /\ Z.of_nat (length data) = Z.max 0 (out_size h).

Definition request_pipe (dev : usb_device) (h : usbip_header) : Z :=
  match endpoint_of dev (ep (h_base h)) (direction (h_base h)) with
  | Some e => usb_mkpipe (pipe_type (ep_xfertype e)) (direction (h_base h) =? USBIP_DIR_IN)
                (dev_devnum dev) (ep (h_base h))
  | None => 0
  end.

(** Request [req] is known as [p], with the URB [u] as the header describes it and
    the data in its buffer. *)
Definition arrived (dev : usb_device) (sd : stub_device) (k : kernel) (req : request)
    (p u : positive) : Prop :=
  let '(h, data) := req in
  let len := cs_transfer_buffer_length (u_cmd_submit (h_u h)) in
  sd_privs sd !! p = Some (mkStubPriv (seqnum (h_base h)) (Some u) 0 false) /\
  exists r s, k_urbs k !! u = Some r /\ urb_context r = Some p /\ urb_dev r = Some (sd_udev sd) /\
    urb_pipe r = request_pipe dev h /\
    urb_transfer_flags r = masked dev (w_setup (h_u h)) (r <| urb_transfer_flags := w0 (h_u h) |>) /\
    urb_transfer_buffer_length r = w1 (h_u h) /\
    urb_start_frame r = s32 (w2 (h_u h)) /\ urb_interval r = s32 (w4 (h_u h)) /\
    urb_setup_packet r = Some (s, 0) /\ k_heap k !! s = Some (w_setup (h_u h)) /\
    (0 < len -> exists b, urb_transfer_buffer r = Some (b, 0) /\
       k_heap k !! b = Some (if direction (h_base h) =? USBIP_DIR_IN
                             then replicate (Z.to_nat len) 0 else data)).

(** The exporter in the middle of a connection. *)
Record serving (sock id : Z) (dev : usb_device) (sd : stub_device) (k : kernel) : Prop := {
  sv_devid : sd_devid sd = id;
  sv_status : ud_status (sd_ud sd) = SDEV_ST_USED;
  sv_side : ud_side (sd_ud sd) = USBIP_STUB;
  sv_sock : ud_tcp_socket (sd_ud sd) = Some sock;
  sv_dev : k_udevs k !! sd_udev sd = Some dev;
  sv_dev_wf : dev_wf dev;
  sv_wf : stub_wf sd k;
  sv_fresh : fresh_names sd k;
  sv_filters : no_filters sd k;
  sv_priv : LockPriv 0 ∉ k_locks k;
  sv_ud : LockUd 0 ∉ k_locks k
}.

(** Objects are added; those that were there stay as they are. *)
Definition extends (sd : stub_device) (k : kernel) (sd' : stub_device) (k' : kernel) : Prop :=
  (k_next k <= k_next k')%positive /\ sd_udev sd' = sd_udev sd /\
  forall n, (n < k_next k)%positive ->
    sd_privs sd' !! n = sd_privs sd !! n /\ k_urbs k' !! n = k_urbs k !! n /\
    k_heap k' !! n = k_heap k !! n.

Lemma extends_refl sd k : extends sd k sd k.
Proof. split; [lia|]. by split. Qed.

Lemma extends_traced cs sd k : extends sd k sd (traced cs k).
Proof. split; [cbn; lia|]. by split. Qed.

Lemma extends_trans sd1 k1 sd2 k2 sd3 k3 :
  extends sd1 k1 sd2 k2 -> extends sd2 k2 sd3 k3 -> extends sd1 k1 sd3 k3.
Proof.
  intros (N1 & U1 & E1) (N2 & U2 & E2). split; [lia|]. split; [congruence|]. intros n Hn.
  destruct (E1 n Hn) as (A1 & A2 & A3), (E2 n ltac:(lia)) as (B1 & B2 & B3). by split_and!; etrans.
Qed.

Lemma arrived_extends dev sd k sd' k' req p u :
  fresh_names sd k -> extends sd k sd' k' -> arrived dev sd k req p u -> arrived dev sd' k' req p u.
Proof.
  intros Hf (_ & Hud & He). destruct req as [h data].
  assert (forall n x, sd_privs sd !! n = Some x -> sd_privs sd' !! n = Some x) as Hp.
  { intros n x Hx. destruct (decide (n < k_next k)%positive) as [Hn|Hn].
    - by rewrite (proj1 (He n Hn)).
    - destruct (Hf n ltac:(lia)) as (_ & _ & Hf3). congruence. }
  assert (forall n x, k_urbs k !! n = Some x -> k_urbs k' !! n = Some x) as Hu.
  { intros n x Hx. destruct (decide (n < k_next k)%positive) as [Hn|Hn].
    - by rewrite (proj1 (proj2 (He n Hn))).
    - destruct (Hf n ltac:(lia)) as (_ & Hf2 & _). congruence. }
  assert (forall n x, k_heap k !! n = Some x -> k_heap k' !! n = Some x) as Hh.
  { intros n x Hx. destruct (decide (n < k_next k)%positive) as [Hn|Hn].
    - by rewrite (proj2 (proj2 (He n Hn))).
    - destruct (Hf n ltac:(lia)) as (Hf1 & _). congruence. }
  intros (Hx & r & s & Hr & ? & ? & ? & ? & ? & ? & ? & ? & Hs & Hbuf).
  split; [by apply Hp|]. exists r, s. rewrite Hud. split_and!; auto.
  intros Hl. destruct (Hbuf Hl) as (b & Hb & Hd). exists b. auto.
Qed.

Lemma serving_traced sock id dev cs sd k :
  serving sock id dev sd k -> serving sock id dev sd (traced cs k).
Proof. intros []. by split. Qed.

Lemma serving_event sock id dev e sd k :
  serving sock id dev sd k -> serving sock id dev (add_event e sd) k.
Proof. intros []. by split. Qed.

Lemma event_added e x : e <> 0 -> Z.lor x e <> 0.
Proof. by intros He [_ ?]%Z.lor_eq_0_iff. Qed.

Lemma arrived_objects dev h data blk tr sd sd' k :
  let r := described_urb h (request_pipe dev h) (sd_udev sd) k in
  let len := cs_transfer_buffer_length (u_cmd_submit (h_u h)) in
  header_wf h -> sd_privs sd' = <[k_next k := new_priv h k]> (sd_privs sd) ->
  sd_udev sd' = sd_udev sd ->
  (0 < len -> blk = if direction (h_base h) =? USBIP_DIR_IN
                    then replicate (Z.to_nat len) 0 else data) ->
  arrived dev sd' (with_objects h (r <| urb_transfer_flags := masked dev (w_setup (h_u h)) r |>) blk tr k)
    (h, data) (k_next k) (new_urb k).
Proof.
  intros r len (Hw & _) Hp Hu Hblk. split; [by rewrite Hp, lookup_insert_eq|].
  eexists _, (new_setup h k). split; [apply lookup_insert_eq|]. rewrite Hu.
  assert (is_u32 (w1 (h_u h))) as Hw1 by (apply (proj1 (Forall_forall _ _) Hw); set_solver).
  assert (u32 (s32 (w1 (h_u h))) = w1 (h_u h)) as E1 by (autorewrite with usbip_simp; by apply u32_id).
  unfold with_objects. split_and!; try done.
  - by apply lookup_insert_eq.
  - intros Hl. specialize (Hblk Hl).
    assert (has_buffer h = true) as Hb by (unfold has_buffer; fold len; lia).
    exists (new_buffer k). unfold r, described_urb. cbn. rewrite Hb. split; [done|].
    rewrite lookup_insert_ne by (unfold new_setup; rewrite Hb; lia). by rewrite lookup_insert_eq, Hblk.
Qed.

(** The connection broke inside [req]: nothing of it is left, or a request with
    incomplete data, and the event handler is called. *)
Definition cut (sock : Z) (req : list Z) (sd : stub_device) (k : kernel) (sd' : stub_device)
    (k' : kernel) : Prop :=
  exists part us n, sd_priv_init sd' = sd_priv_init sd ++ part /\
    submitted (k_trace k') = us ++ submitted (k_trace k) /\
    (length us <= length part <= 1)%nat /\ ud_event (sd_ud sd') <> 0 /\
    (n < length req)%nat /\ Stalled sock (k_trace k) (take n req).

(** All of it arrived; the core can still refuse it. *)
Definition complete (sock : Z) (dev : usb_device) (req : request) (sd : stub_device) (k : kernel)
    (sd' : stub_device) (k' : kernel) : Prop :=
  exists p u, sd_priv_init sd' = sd_priv_init sd ++ [p] /\
    submitted (k_trace k') = u :: submitted (k_trace k) /\
    arrived dev sd' k' req p u /\ Reads sock (k_trace k) (request_bytes req) (k_trace k') /\
    (ud_event (sd_ud sd') = ud_event (sd_ud sd) \/
     exists tr, (env_answer tr (CSubmitUrb u)).1 <> 0).

Lemma serving_objects sock id dev h r blk tr sd sd' k :
  serving sock id dev sd k -> stub_wf sd' (with_objects h r blk tr k) ->
  sd_privs sd' = <[k_next k := new_priv h k]> (sd_privs sd) -> 
  (sd' = with_request h k sd \/ exists e, sd' = add_event e (with_request h k sd)) ->
  serving sock id dev sd' (with_objects h r blk tr k) /\ extends sd k sd' (with_objects h r blk tr k).
Proof.
  intros [] Hwf Hp Hsd.
  assert (new_setup h k = new_buffer k \/ new_setup h k = Pos.succ (new_buffer k)) as Hset
    by (unfold new_setup; case_match; auto).
  assert (forall n, (n < k_next k)%positive \/ (Pos.succ (new_setup h k) <= n)%positive ->
    sd_privs sd' !! n = sd_privs sd !! n /\
    k_urbs (with_objects h r blk tr k) !! n = k_urbs k !! n /\
    k_heap (with_objects h r blk tr k) !! n = k_heap k !! n) as Hsame.
  { intros n Hn. unfold new_buffer, new_urb in *. rewrite Hp.
    unfold with_objects, new_buffer, new_urb. cbn.
    rewrite !lookup_insert_ne by lia. split_and!; [done..|].
    destruct (has_buffer h); [|done]. by rewrite lookup_insert_ne by lia. }
  assert (k_next k <= k_next (with_objects h r blk tr k))%positive as Hnext
    by (cbn; unfold new_buffer, new_urb in *; lia).
  assert (sd_devid sd' = sd_devid sd /\ sd_udev sd' = sd_udev sd /\
    ud_status (sd_ud sd') = ud_status (sd_ud sd) /\ ud_side (sd_ud sd') = ud_side (sd_ud sd) /\
    ud_tcp_socket (sd_ud sd') = ud_tcp_socket (sd_ud sd) /\
    ud_filters (sd_ud sd') = ud_filters (sd_ud sd)) as (E1 & E2 & E3 & E4 & E5 & E6)
    by (by destruct Hsd as [-> | [e ->]]).
  split.
  - split; rewrite ?E1, ?E2, ?E3, ?E4, ?E5; try done.
    + intros n Hn. destruct (Hsame n) as (-> & -> & ->); [by right|]. apply sv_fresh0. lia.
    + unfold no_filters in *. cbn [the_ud stub_has_ud] in *. by rewrite E6.
  - split; [done|]. split; [done|]. intros n Hn. apply Hsame. by left.
Qed.

Lemma serve_submit sock id dev h data rest sd k :
  serving sock id dev sd k -> good_request dev id (h, data) -> recvmsg_ok -> allocs_ok ->
  streams sock (k_trace k) (data ++ rest) ->
  exists sd' k', stub_recv_cmd_submit h sd k = Ok (tt, sd', k') /\ extends sd k sd' k' /\
    serving sock id dev sd' k' /\
    ((exists p u, sd_priv_init sd' = sd_priv_init sd ++ [p] /\
        submitted (k_trace k') = u :: submitted (k_trace k) /\
        arrived dev sd' k' (h, data) p u /\ Reads sock (k_trace k) data (k_trace k') /\
        (ud_event (sd_ud sd') = ud_event (sd_ud sd) \/
         exists tr, (env_answer tr (CSubmitUrb u)).1 <> 0)) \/
     cut sock data sd k sd' k').
Proof.
  intros Hs Hg Hok Ha Hst. pose proof Hs as [].
  pose proof Hg as (Hw & _ & Hid & Hep & Hdir & (e & He & Ht & Hni) & Hby & Hlen).
  assert (request_pipe dev h = usb_mkpipe (pipe_type (ep_xfertype e))
    (direction (h_base h) =? USBIP_DIR_IN) (dev_devnum dev) (ep (h_base h))) as Hpipe
    by (unfold request_pipe; by rewrite He).
  destruct (stub_submit_run h dev e sock (data ++ rest) sd k)
    as (ret & blk & tr & sd' & Hrun & Hwf & Hq & Hi & Hp & [Hsub (n & HR & Hn & Hf)] & Hout); try done.
  { apply Hw. }
  { by apply streams_delivers_next. }
  rewrite <- Hpipe in *. eexists sd', _. split; [exact Hrun|].
  destruct (serving_objects sock id dev h _ blk tr sd sd' k Hs Hwf Hp) as [Hs' Hx].
  { destruct Hout as [(_&_&_&[->|[-> _]])|[(_&_&_&_&[->|[-> _]])|(_&_&[->|[-> _]])]]; eauto.
    right. eexists (Z.lor _ _). unfold add_event. cbn. by rewrite Z.lor_assoc. }
  split; [exact Hx|]. split; [exact Hs'|].
  change (k_trace (with_objects h _ blk tr k)) with tr.
  assert (direction (h_base h) <> USBIP_DIR_IN ->
    out_size h = cs_transfer_buffer_length (u_cmd_submit (h_u h))) as Hsize.
  { intros Hne. unfold out_size. by rewrite (proj2 (Z.eqb_neq _ _) Hne). }
  assert (forall d, core_took (new_urb k) d sd' -> ud_event (sd_ud d) = ud_event (sd_ud sd) ->
    ud_event (sd_ud sd') = ud_event (sd_ud sd) \/
    exists tr, (env_answer tr (CSubmitUrb (new_urb k))).1 <> 0) as Hev.
  { intros d [->|[_ ?]] E; auto. }
  assert (0 <= ret -> blk = (if direction (h_base h) =? USBIP_DIR_IN then replicate (Z.to_nat
      (cs_transfer_buffer_length (u_cmd_submit (h_u h)))) 0 else data) \/
      cs_transfer_buffer_length (u_cmd_submit (h_u h)) <= 0 ->
    sd_udev sd' = sd_udev sd ->
    arrived dev sd' (with_objects h (if ret <? 0 then described_urb h (request_pipe dev h) (sd_udev sd) k
      else (described_urb h (request_pipe dev h) (sd_udev sd) k) <| urb_transfer_flags :=
        masked dev (w_setup (h_u h)) (described_urb h (request_pipe dev h) (sd_udev sd) k) |>) blk tr k)
      (h, data) (k_next k) (new_urb k)) as Harr.
  { intros Hr Hblk Hud. rewrite (proj2 (Z.ltb_ge _ _) Hr).
    apply arrived_objects; [done..|]. intros Hl. destruct Hblk; [done|lia]. }
  destruct Hout as [(Hz & -> & -> & Ht')|[(Hpos & -> & -> & Hle & Ht')|(Hpos & Hr & Ht')]].
  - left. exists (k_next k), (new_urb k).
    assert (data = []) as Hnil by (apply length_zero_iff_nil; lia).
    rewrite (proj2 (Z.ltb_ge _ _) Hz) in Hf. subst n data.
    split_and!; [done|done| |done|by eapply Hev].
    apply Harr; [done| |apply Hx]. destruct (direction (h_base h) =? USBIP_DIR_IN) eqn:Ed; [by left|right].
    bool_to_prop. rewrite <- Hsize by done. lia.
  - left. exists (k_next k), (new_urb k). rewrite (proj2 (Z.ltb_lt _ _) Hpos) in Hf.
    assert (take (Z.to_nat (out_size h)) (data ++ rest) = data) as Hd
      by (rewrite take_app_le by lia; apply take_ge; lia).
    assert (Z.to_nat (out_size h) = n) as Hn' by lia. rewrite Hd in *.
    rewrite (proj2 (Z.ltb_ge (out_size h) 0)) in Hsub by lia.
    split_and!; [done|done| |by rewrite <- Hn', Hd in HR|by eapply Hev].
    apply Harr; [lia| |apply Hx]. left.
    destruct (direction (h_base h) =? USBIP_DIR_IN) eqn:Ed; [|done].
    unfold out_size in Hpos. rewrite Ed in Hpos. lia.
  - right. rewrite (proj2 (Z.ltb_lt _ _) Hpos) in Hf.
    destruct Hf as [[? _]|(_ & Hlt & Hst')]; [lia|].
    exists [k_next k], (if ret <? 0 then [] else [new_urb k]), n.
    rewrite take_app_le in Hst' by lia. split_and!; [done|done|case_if; cbn; lia|cbn; lia| |lia|done].
    destruct Ht' as [->|[-> _]]; by apply event_added.
Qed.

Lemma serve_one sock id dev h data rest sd k :
  serving sock id dev sd k -> good_request dev id (h, data) -> recvmsg_ok -> allocs_ok ->
  streams sock (k_trace k) (request_bytes (h, data) ++ rest) ->
  exists sd' k', stub_rx_pdu sd k = Ok (tt, sd', k') /\ extends sd k sd' k' /\
    serving sock id dev sd' k' /\
    (complete sock dev (h, data) sd k sd' k' \/ cut sock (request_bytes (h, data)) sd k sd' k').
Proof.
  intros Hs Hg Hok Ha Hst. pose proof Hs as [].
  pose proof Hg as (Hw & Hcmd & Hid & _).
  unfold request_bytes in *. cbn [fst snd] in *. rewrite <- app_assoc in Hst.
  assert (refused h sd = false) as Href.
  { unfold refused, acceptable. rewrite Hid, Hcmd, sv_devid0, Z.eqb_refl.
    by rewrite bool_decide_eq_true_2. }
  assert (length (wire_bytes h) = 48%nat) as Hl48
    by (unfold wire_bytes; rewrite length_app, (proj1 (proj2 Hw)); done).
  destruct (stub_rx_pdu_run sock h (data ++ rest) sd k) as (n & tr' & HR & Hn & Hrun); try done;
    [by apply streams_delivers|apply Hw|apply Hw|by apply sv_fresh0; lia|].
  rewrite Href, orb_false_r in Hrun. set (k1 := k <| k_trace := tr' |> <| k_next := _ |>) in *.
  assert (serving sock id dev sd k1) as Hs1.
  { split; try done. intros m Hm. apply sv_fresh0. cbn in Hm. lia. }
  assert (extends sd k sd k1) as Hx1 by (split; [cbn; lia|]; by split).
  assert (submitted tr' = submitted (k_trace k)) as Hsub1 by (clear -HR; induction HR; done).
  apply Received_Reads in HR. destruct Hn as [[Hlt Hstall]| ->].
  - rewrite (proj2 (Nat.ltb_lt _ _) Hlt) in Hrun. eexists _, _. split; [exact Hrun|].
    split; [done|]. split; [by apply serving_event, serving_traced|]. right.
    exists [], [], n. rewrite !app_nil_r. rewrite take_app_le in Hstall by lia.
    split_and!; [done|done|cbn; lia|cbn; lia|by apply event_added|rewrite length_app; lia|].
    by rewrite take_app_le by lia.
  - change (48 <? 48)%nat with false in Hrun.
    rewrite take_app_le, take_ge in HR by lia.
    destruct (serve_submit sock id dev h data rest sd k1) as (sd' & k' & Hrun' & Hx & Hs' & Hout); try done.
    { by eapply streams_after. }
    exists sd', k'. split.
    { rewrite Hrun. unfold dispatch. by rewrite Hcmd. }
    split; [by eapply extends_trans|]. split; [done|].
    destruct Hout as [(p & u & E1 & E2 & Harr & HR2 & Hev)|(part & us & n & E1 & E2 & E3 & E4 & E5 & Hst2)].
    + left. exists p, u. split_and!; [done|by rewrite E2, <- Hsub1|done| |done].
      by eapply Reads_trans.
    + right. exists part, us, (48 + n)%nat. split_and!; [done|by rewrite E2, <- Hsub1|lia|lia|done| |].
      * rewrite length_app. lia.
      * rewrite take_app_ge by lia. rewrite Hl48. replace (48 + n - 48)%nat with n by lia.
        by eapply stalled_after.
Qed.
(** One turn of the thread. *)
Lemma rx_loop_turn sock id dev fuel sd k :
  serving sock id dev sd k ->
  stub_rx_loop (S fuel) sd k =
    let k1 := traced [CShouldStop] k in
    if negb ((env_answer (k_trace k) CShouldStop).1 =? 0) || negb (ud_event (sd_ud sd) =? 0)
    then Ok (0, sd, k1) else (stub_rx_pdu;; stub_rx_loop fuel) sd k1.
Proof.
  intros []. cbn [stub_rx_loop]. erewrite bind_ok by apply ext_ret_ok. cbv beta zeta.
  destruct (negb (_ =? 0)); [done|]. cbn [orb].
  erewrite bind_ok by (by apply event_happened_ok). cbn [the_ud stub_has_ud].
  by destruct (negb (ud_event (sd_ud sd) =? 0)).
Qed.

(** The end of the stream: the connection is shut down and the thread returns. *)
Lemma rx_loop_end sock id dev fuel sd k :
  serving sock id dev sd k -> streams sock (k_trace k) [] -> recvmsg_ok ->
  exists sd' k', stub_rx_loop (S (S fuel)) sd k = Ok (0, sd', k') /\ extends sd k sd' k' /\
    serving sock id dev sd' k' /\ sd_priv_init sd' = sd_priv_init sd /\
    submitted (k_trace k') = submitted (k_trace k).
Proof.
  intros Hs Hst Hok. rewrite (rx_loop_turn sock id dev) by done. cbv zeta.
  destruct (_ || _).
  { exists sd, (traced [CShouldStop] k). split; [done|]. split; [apply extends_traced|].
    split; [by apply serving_traced|done]. }
  set (k1 := traced [CShouldStop] k).
  assert (serving sock id dev sd k1) as Hs1 by by apply serving_traced. pose proof Hs1 as [].
  assert (streams sock (k_trace k1) []) as Hst1 by (apply (streams_no_recv sock [_]); [by repeat constructor|done]).
  assert (refused header_zero sd = true) as Href by apply orb_true_r.
  destruct (stub_rx_pdu_run sock header_zero [] sd k1) as (n & tr' & HR & _ & Hrun); try done.

  { intros d tr' Hd. apply Received_Reads, Hst1 in Hd. apply prefix_nil_inv in Hd as ->. apply prefix_nil. }
  { apply (bool_decide_unpack _). by vm_compute. }
  { intros Hf. congruence. }
  { apply sv_fresh0. cbn. lia. }
  rewrite Href, orb_true_r in Hrun. set (k2 := k1 <| k_trace := tr' |> <| k_next := _ |>) in *.
  assert (submitted tr' = submitted (k_trace k1)) as Hsub by (clear -HR; induction HR; done).
  assert (serving sock id dev (add_event SDEV_EVENT_ERROR_TCP sd) (traced [CWakeUp Q_EH] k2)) as Hs2.
  { apply serving_event, serving_traced. split; try done. intros m Hm. apply sv_fresh0. cbn in Hm |- *. lia. }
  erewrite bind_ok by exact Hrun. rewrite (rx_loop_turn sock id dev) by done. cbv zeta.
  rewrite (proj2 (Z.eqb_neq (ud_event _) _)), orb_true_r by by apply event_added.
  eexists _, _. split; [reflexivity|]. split; [split; [cbn; lia|by split]|].
  split; [by apply serving_traced|]. by split.
Qed.

(** No thread is asked to stop, and the core refuses no URB. *)
Definition undisturbed : Prop :=
  (forall tr, (env_answer tr CShouldStop).1 = 0) /\
  (forall tr u, (env_answer tr (CSubmitUrb u)).1 = 0).

Definition outcome (sock id : Z) (dev : usb_device) (reqs : list request) (sd : stub_device)
    (k : kernel) (sd' : stub_device) (k' : kernel) : Prop :=
  exists pus part us,
    Forall2 (fun req pu => arrived dev sd' k' req pu.1 pu.2) (take (length pus) reqs) pus /\
    sd_priv_init sd' = sd_priv_init sd ++ pus.*1 ++ part /\
    submitted (k_trace k') = us ++ reverse pus.*2 ++ submitted (k_trace k) /\
    (length us <= length part <= 1)%nat /\
    (lossless sock (k_trace k) (mjoin (request_bytes <$> reqs)) -> undisturbed ->
     ud_event (sd_ud sd) = 0 -> length pus = length reqs /\ part = []).

Lemma serve_all sock id dev reqs sd k fuel :
  (length reqs + 1 < fuel)%nat -> serving sock id dev sd k ->
  Forall (good_request dev id) reqs -> recvmsg_ok -> allocs_ok ->
  streams sock (k_trace k) (mjoin (request_bytes <$> reqs)) ->
  exists sd' k', stub_rx_loop fuel sd k = Ok (0, sd', k') /\ extends sd k sd' k' /\
    serving sock id dev sd' k' /\ outcome sock id dev reqs sd k sd' k'.
Proof.
  intros Hfuel Hs Hg Hok Ha Hst. revert sd k fuel Hfuel Hs Hst.
  induction Hg as [|[h data] reqs Hreq Hg IH]; intros sd k fuel Hfuel Hs Hst.
  - destruct fuel as [|[|fuel]]; [cbn in Hfuel; lia..|].
    destruct (rx_loop_end sock id dev fuel sd k) as (sd' & k' & Hrun & Hx & Hs' & Hi & Hsub); [done..|].
    exists sd', k'. split; [done|]. split; [done|]. split; [done|]. exists [], [], [].
    rewrite Hi, Hsub. rewrite !app_nil_r. split_and!; [constructor|done|done|cbn; lia|cbn; lia|done].
  - destruct fuel as [|fuel]; [lia|]. rewrite (rx_loop_turn sock id dev) by done. cbv zeta.
    set (k1 := traced [CShouldStop] k).
    assert (serving sock id dev sd k1) as Hs1 by by apply serving_traced.
    assert (extends sd k sd k1) as Hx1 by apply extends_traced.
    destruct (_ || _) eqn:Estop.
    { exists sd, k1. split; [done|]. split; [done|]. split; [done|]. exists [], [], [].
      rewrite !app_nil_r. split_and!; [constructor|done|done|cbn; lia|cbn; lia|].
      intros _ [Hns _] He. rewrite Hns, He in Estop. done. }
    assert (no_recv [CShouldStop]) as Hnr by by repeat constructor.
    cbn [fmap list_fmap mjoin list_join] in Hst.
    destruct (serve_one sock id dev h data (mjoin (request_bytes <$> reqs)) sd k1)
      as (sd2 & k2 & Hrun & Hx2 & Hs2 & Hout); [done..|by apply (streams_no_recv sock [_])|].
    erewrite bind_ok by exact Hrun. pose proof Hs2 as [].
    destruct Hout as [(p & u & E1 & E2 & Harr & HR & Hev)|(part & us & n & E1 & E2 & E3 & E4 & E5 & Hstall)].
    + destruct (IH sd2 k2 fuel) as (sd' & k' & Hrun' & Hx' & Hs' & Hout); [cbn in Hfuel; lia|done| |].
      { eapply streams_after; [|exact HR]. by apply (streams_no_recv sock [_]). }
      exists sd', k'. split; [done|]. split; [by eapply extends_trans, extends_trans|]. split; [done|].
      destruct Hout as (pus & part & us & Hall & Hi & Hsub & Hlen & Hfin).
      exists ((p, u) :: pus), part, us. cbn [length take fmap list_fmap].
      split_and!.
      * constructor; [|done]. by eapply arrived_extends.
      * rewrite Hi, E1. by rewrite <- app_assoc.
      * rewrite Hsub, E2. rewrite reverse_cons, <- app_assoc. done.
      * apply Hlen.
      * apply Hlen.
      * intros Hl Hu He. destruct Hfin as [-> ->]; [|done| |done].
        { eapply lossless_after; [|exact HR]. by apply (lossless_no_recv sock [_]). }
        destruct Hev as [-> |[tr Hr]]; [done|]. by rewrite (proj2 Hu) in Hr.
    + destruct fuel as [|fuel]; [cbn in Hfuel; lia|].
      rewrite (rx_loop_turn sock id dev), (proj2 (Z.eqb_neq _ _) E4), orb_true_r by done. cbv zeta.
      exists sd2, (traced [CShouldStop] k2). split; [done|]. split; [by eapply extends_trans, extends_trans, extends_traced|].
      split; [by apply serving_traced|]. exists [], part, us.
      split_and!; [constructor|done|done|lia|lia|].
      intros Hl. apply (lossless_no_recv sock [CShouldStop]) in Hl; [|done].
      cbn [fmap list_fmap mjoin list_join] in Hl.
      assert (Stalled sock (k_trace k1) (take n (request_bytes (h, data) ++ mjoin (request_bytes <$> reqs))))
        as Hs3 by (by rewrite take_app_le by lia).
      apply (lossless_stalled _ _ _ _ Hl) in Hs3. rewrite length_app in Hs3. lia.
Qed.
End serve.

(** ** Both ends *)

Section both_ends.
Context `{UsbPipes} `{!UsbPipesOk} `{FilterDrivers stub_device}.
Context (client exporter : Env) (client_arch exporter_arch : Arch).

(** Request [p] of the controller's port carries the URB [r] for an endpoint of the
    exported device; what it sends is [req]. *)
Definition issues (dev : usb_device) (port : nat) (v : vhci_device) (hc : vhci_hcd) (kc : kernel)
    (p : positive) (req : usbip_header * list Z) : Prop :=
  exists x r e, let dir := if usb_pipein (urb_pipe r) then USBIP_DIR_IN else USBIP_DIR_OUT in
    vrequest port p x r hc kc /\ submittable r (k_heap kc) /\ usb_pipeisoc (urb_pipe r) = false /\
    urb_transfer_buffer_length r < 2 ^ 31 /\ 0 <= usb_pipeendpoint (urb_pipe r) < 16 /\
    endpoint_of dev (usb_pipeendpoint (urb_pipe r)) dir = Some e /\
    0 <= ep_xfertype e < 4 /\ ep_xfertype e <> USB_ENDPOINT_XFER_ISOC /\
    bytes (setup_bytes r (k_heap kc)) /\
    req = (cmd_header x (vd_devid v) r (setup_bytes r (k_heap kc)), cmd_data r (k_heap kc)).

(** The exporter's request [q] with the URB [u] is the client's request [p]: its
    number, endpoint and parameters, but for flags the endpoint does not allow; its
    setup packet, and its data in a buffer of the same size. *)
Definition mirrors (dev : usb_device) (port : nat) (hc : vhci_hcd) (kc : kernel)
    (sd : stub_device) (k : kernel) (p q u : positive) : Prop :=
  exists x r r' s, vrequest port p x r hc kc /\
    sd_privs sd !! q = Some (mkStubPriv (u32 (vp_seqnum x)) (Some u) 0 false) /\
    k_urbs k !! u = Some r' /\ urb_context r' = Some q /\ urb_dev r' = Some (sd_udev sd) /\
    usb_pipedevice (urb_pipe r') = dev_devnum dev /\
    usb_pipeendpoint (urb_pipe r') = usb_pipeendpoint (urb_pipe r) /\
    usb_pipein (urb_pipe r') = usb_pipein (urb_pipe r) /\
    urb_transfer_flags r' = masked dev (setup_bytes r (k_heap kc))
      (r' <| urb_transfer_flags := tweak_transfer_flags (urb_transfer_flags r) |>) /\
    urb_transfer_buffer_length r' = urb_transfer_buffer_length r /\
    urb_start_frame r' = urb_start_frame r /\ urb_interval r' = urb_interval r /\
    urb_setup_packet r' = Some (s, 0) /\ k_heap k !! s = Some (setup_bytes r (k_heap kc)) /\
    (0 < urb_transfer_buffer_length r -> exists b, urb_transfer_buffer r' = Some (b, 0) /\
       k_heap k !! b = Some (if usb_pipein (urb_pipe r)
                             then replicate (Z.to_nat (urb_transfer_buffer_length r)) 0
                             else cmd_data r (k_heap kc))).

Lemma issued_good dev port v hc kc p req :
  is_u32 (vd_devid v) -> issues dev port v hc kc p req -> good_request dev (vd_devid v) req.
Proof.
  intros Hd (x & r & e & _ & Hs & Hiso & Hlen & Hep & He & Ht & Hni & Hby & ->).
  split_and!; try done; [by apply cmd_header_wf|apply (ep_number_address _ Hep)..|cbn; case_match; auto|by exists e|].
  pose proof Hs as ((_ & Hl & _) & _ & Hout & _). unfold is_u32 in Hl.
  unfold out_size, cmd_data, cmd_header, u_cmd_submit. cbn -[Z.max].
  destruct (usb_pipein (urb_pipe r)) eqn:Ein; [done|]. cbn -[Z.max].
  rewrite s32_id by (unfold is_s32; lia). rewrite length_take.
  destruct (decide (0 < urb_transfer_buffer_length r)) as [Hpos|]; [|lia].
  destruct (Hout eq_refl Hpos) as (b & blk & -> & Hblk & Hb). cbn [block_of]. rewrite Hblk. cbn. lia.
Qed.

Lemma issued_ready dev port v hc kc ps reqs :
  Forall2 (issues dev port v hc kc) ps reqs ->
  vready port v hc kc ps (request_bytes <$> reqs).
Proof.
  intros Hall. apply Forall2_fmap_r. eapply Forall2_impl; [exact Hall|].
  intros p req (x & r & e & Hr & Hs & Hiso & _ & _ & _ & _ & _ & _ & ->). exists x, r.
  split; [done|]. split; [done|]. unfold cmd_msg, reply_isos, request_bytes.
  by rewrite Hiso, app_nil_r.
Qed.

Lemma arrived_mirrors dev port v hc kc sd k p req q u :
  k_udevs k !! sd_udev sd = Some dev -> dev_wf dev ->
  issues dev port v hc kc p req -> arrived dev sd k req q u ->
  mirrors dev port hc kc sd k p q u.
Proof.
  intros Hdev (Hdn & _) (x & r & e & Hr & Hs & Hiso & Hlen & Hep & He & Ht & Hni & Hby & ->).
  intros (Hp & r' & s & Hu & Hctx & Hud & Hpipe & Hfl & Hl & Hsf & Hiv & Hsp & Hset & Hbuf).
  pose proof Hs as ((_ & Hl32 & _ & _ & Hs1 & _ & Hs2 & _) & _).
  exists x, r, r', s.
  assert (0 <= pipe_type (ep_xfertype e) < 4) as Hpt.
  { unfold pipe_type, PIPE_CONTROL, PIPE_BULK, PIPE_INTERRUPT, PIPE_ISOCHRONOUS. repeat case_if; lia. }
  assert (urb_pipe r' = usb_mkpipe (pipe_type (ep_xfertype e)) (usb_pipein (urb_pipe r))
    (dev_devnum dev) (usb_pipeendpoint (urb_pipe r))) as Hpipe'.
  { rewrite Hpipe. unfold request_pipe, cmd_header. cbn. rewrite He. f_equal. by destruct (usb_pipein _). }
  cbn in Hp, Hfl, Hl, Hsf, Hiv, Hset, Hbuf. unfold is_u32 in Hl32.
  split_and!; try done.
  - by rewrite Hpipe', pipedevice_mk by auto with lia.
  - rewrite Hpipe', pipeendpoint_mk by auto with lia. by apply Z.mod_small.
  - by rewrite Hpipe', pipein_mk by auto with lia.
  - rewrite Hsf. autorewrite with usbip_simp. by apply s32_id.
  - rewrite Hiv. autorewrite with usbip_simp. by apply s32_id.
  - intros Hpos. unfold u_cmd_submit in Hbuf. cbn in Hbuf.
    rewrite s32_id in Hbuf by (unfold is_s32; lia).
    destruct (Hbuf Hpos) as (b & Hb & Hh). exists b. split; [done|]. rewrite Hh.
    by destruct (usb_pipein (urb_pipe r)).
Qed.

End both_ends.

(** C1: what the controller's transmitter sends in a round, the exporter's
    receiving thread takes from the connection: it returns when the connection
    ends, and until then every request whose message came through has become a
    request of the exporter, in the order of the client's queue, with an URB for
    the same endpoint, of the same parameters, setup packet and data, handed to
    the core once.  At most one more was begun.  If the connection loses nothing
    and no URB is refused, all of them arrive.  The machines may differ in byte
    order. *)
Theorem requests_cross `{UsbPipes} `{!UsbPipesOk} `{FilterDrivers stub_device}
    (client exporter : Env) (client_arch exporter_arch : Arch)
    dev port csock esock reqs v hc kc :
  vhci_wf port v hc kc -> Forall2 (issues dev port v hc kc) (vd_priv_tx v) reqs ->
  is_u32 (vd_devid v) -> @mallocs_ok client -> fresh_heap kc ->
  ud_tcp_socket (vd_ud v) = Some csock ->
  LockPriv 1 ∉ k_locks kc -> LockUd 1 ∉ k_locks kc ->
  exists ret hc' kc' msgs, @vhci_send_cmd_submit client client_arch _ port hc kc = Ok (ret, hc', kc') /\
    sent (k_trace kc') = reverse msgs ++ sent (k_trace kc) /\
    (ret <> -1 -> length msgs = length (vd_priv_tx v)) /\
    forall sd k fuel,
      @serving esock (vd_devid v) dev sd k -> @recvmsg_ok exporter -> @allocs_ok exporter ->
      @streams exporter esock (k_trace k) (mjoin msgs) -> (length msgs + 1 < fuel)%nat ->
      exists sd' k' arrivals partial us,
        @stub_rx_loop exporter exporter_arch _ _ fuel sd k = Ok (0, sd', k') /\
        serving esock (vd_devid v) dev sd' k' /\
        Forall2 (fun p qu => mirrors dev port hc kc sd' k' p qu.1 qu.2)
          (take (length arrivals) (vd_priv_tx v)) arrivals /\
        sd_priv_init sd' = sd_priv_init sd ++ arrivals.*1 ++ partial /\
        submitted (k_trace k') = us ++ reverse arrivals.*2 ++ submitted (k_trace k) /\
        (length us <= length partial <= 1)%nat /\
        (@lossless exporter esock (k_trace k) (mjoin msgs) -> @undisturbed exporter ->
         ud_event (sd_ud sd) = 0 -> length arrivals = length msgs /\ partial = []).
Proof.
  intros Hwf Hall Hd Hmal Hfr Hsock Hl1 Hl2.
  pose proof (issued_ready dev port v hc kc _ _ Hall) as Hready.
  pose proof (Forall2_length _ _ _ Hall) as Hlen.
  destruct (@submissions_run client client_arch _ port csock (request_bytes <$> reqs) v hc kc)
    as (m & ret & v' & kc' & Hrun & Hs & _ & _ & Hout); [done..|].
  destruct (vsending_same _ _ _ Hs) as (_ & _ & _ & Hsent).
  exists ret, (set_vdev port v' hc), kc', (take m (request_bytes <$> reqs)).
  split; [done|]. split; [done|]. split.
  { intros Hr. destruct Hout as [(-> & _)|(_ & ? & _)]; [|done].
    rewrite take_ge by done. by rewrite length_fmap. }
  rewrite <- fmap_take. intros sd k fuel Hsrv Hok Ha Hst Hfuel. rewrite length_fmap in Hfuel |- *.
  set (reqs' := take m reqs) in *.
  assert (Forall2 (issues dev port v hc kc) (take m (vd_priv_tx v)) reqs') as Hall' by by apply Forall2_take.
  destruct (@serve_all exporter exporter_arch _ _ _ esock (vd_devid v) dev reqs' sd k fuel)
    as (sd' & k' & Hloop & _ & Hsrv' & pus & part & us & Harr & Hi & Hsub & Hpart & Hfin); [done|done| |done..|].
  { clear -Hall' Hd. induction Hall'; constructor; [by eapply issued_good|done]. }
  exists sd', k', pus, part, us. split_and!; try done; try apply Hpart.
  assert (length pus <= length reqs')%nat as Hple.
  { apply Forall2_length in Harr. rewrite length_take in Harr. lia. }
  apply (Forall2_take _ _ _ (length pus)) in Hall'.
  unfold reqs' in Hple. rewrite length_take in Hple. rewrite take_take in Hall'.
  replace (length pus `min` m)%nat with (length pus) in Hall' by lia.
  eapply Forall2_trans; [|exact Hall'|exact Harr].
  intros p req [q u]. cbn. destruct Hsrv'. by eapply arrived_mirrors.
Qed.

(** ** Sample: three bytes for the exported device's bulk OUT endpoint 2, from a
    big-endian client to a little-endian exporter, in pieces of five bytes *)

Definition crossing_bytes : list Z := @cmd_msg linux_pipes tx_priv 65538 tx_urb (k_heap tx_kernel).
Definition crossing_env : Env := sock_env 7 5 crossing_bytes.

Lemma sample_issues :
  @issues linux_pipes sample_usb_dev 0 tx_vdev tx_vhci tx_kernel 41
    (@cmd_header linux_pipes tx_priv 65538 tx_urb (replicate 8 0), [7; 8; 9]).
Proof.
  exists tx_priv, tx_urb, (mkEp USB_ENDPOINT_XFER_BULK true 512).
  pose proof tx_ready as Hr. apply Forall2_cons in Hr as [(x & r & (Hx & Hp & Hu & Hc) & Hs & _) _].
  assert (x = tx_priv) as -> by (vm_compute in Hx; by injection Hx as <-).
  assert (r = tx_urb) as -> by (vm_compute in Hu; by injection Hu as <-).
  split; [by split_and!|]. split; [done|].
  split_and!; try done; vm_compute; (discriminate || intuition discriminate || reflexivity || idtac).
  repeat constructor; discriminate.
Qed.

Lemma sample_serving : serving 7 65538 sample_usb_dev (sample_sdev 0) sample_rx_kernel.
Proof.
  split; try done.
  - apply (stub_wf_ext _ _ _ _ (sample_stub_wf 0)); reflexivity.
  - apply sample_fresh_names.
  - exact (sample_no_filters 0).
  - cbn. set_solver.
  - cbn. set_solver.
Qed.

Lemma requests_cross_witness :
  exists hc' kc' sd' k' q u,
    @vhci_send_cmd_submit (send_env 100) true linux_pipes 0 tx_vhci tx_kernel = Ok (51, hc', kc') /\
    @stub_rx_loop crossing_env false linux_pipes no_drivers 3 (sample_sdev 0) sample_rx_kernel
      = Ok (0, sd', k') /\
    @mirrors linux_pipes sample_usb_dev 0 tx_vhci tx_kernel sd' k' 41 q u /\
    submitted (k_trace k') = [u].
Proof.
  destruct (@requests_cross linux_pipes linux_pipes_ok no_drivers (send_env 100) crossing_env true false
    sample_usb_dev 0 7 7 [(@cmd_header linux_pipes tx_priv 65538 tx_urb (replicate 8 0), [7; 8; 9])]
    tx_vdev tx_vhci tx_kernel) as (ret & hc' & kc' & msgs & Hrun & Hsent & _ & Hcross).
  - apply tx_wf.
  - constructor; [apply sample_issues|constructor].
  - unfold is_u32. cbn. lia.
  - intros tr n. discriminate.
  - apply tx_fresh.
  - reflexivity.
  - cbn. set_solver.
  - cbn. set_solver.
  - assert (ret = 51 /\ sent (k_trace kc') = [crossing_bytes]) as [-> Hs].
    { vm_compute in Hrun. injection Hrun as <- _ <-. split; by vm_compute. }
    assert (msgs = [crossing_bytes]) as ->.
    { apply (inj reverse). rewrite Hs in Hsent. change (sent (k_trace tx_kernel)) with (@nil (list Z)) in Hsent.
      by rewrite app_nil_r in Hsent. }
    destruct (Hcross (sample_sdev 0) sample_rx_kernel 3%nat)
      as (sd' & k' & arrivals & partial & us & Hloop & _ & Hall & _ & Hsub & Hus & Hfin).
    + apply sample_serving.
    + apply sock_env_ok.
    + intros tr n. split; discriminate.
    + cbn [mjoin list_join]. rewrite app_nil_r. by apply sock_env_streams.
    + cbn. lia.
    + destruct Hfin as [Hlen ->].
      * cbn [mjoin list_join]. rewrite app_nil_r. by apply sock_env_lossless.
      * split; reflexivity.
      * reflexivity.
      * destruct arrivals as [|[q u] [|]]; try discriminate Hlen.
        exists hc', kc', sd', k', q, u. split; [exact Hrun|]. split; [exact Hloop|].
        split; [by inversion Hall|]. destruct us; [exact Hsub|cbn in Hus; lia].
Defined.
