(* ===== verification/Results.v ===== *)
(** * From the exporter back to the controller

    What the exporter's transmitter writes, the controller's receiving thread
    turns into completions: each URB gets its status, lengths and data and is
    given back once. *)
From S2P Require Import Prelude Kernel Wire Event EventProps Exec Xfer XferProps IsoProps.
From S2P Require Import Filters FilterProps Stub StubTx StubRx StubMain StubDev StubProps StubReqProps StubTxProps StubRxProps.
From S2P Require Import Vhci VhciRx VhciTx VhciProps VhciTxProps Delivery.

(** A reception that fails returns what the socket answered. *)
Lemma recv_loop_error `{Env} {St : Type} fuel sock buf size total (s : St) k ret s' k' :
  usbip_recv_loop fuel sock buf size total s k = Ok (ret, s', k') -> 0 <= total -> ret <= 0 ->
  exists tr n, ret = (env_answer tr (CRecvmsg sock n)).1.
Proof.
  revert s buf size total k. induction fuel as [|fuel IH]; intros s buf size total k Hrun Ht Hr; [done|].
  cbn [usbip_recv_loop] in Hrun. unfold mbind at 1, M_bind, ext in Hrun.
  set (a := env_answer _ _) in Hrun. destruct (a.1 <=? 0) eqn:E; bool_to_prop.
  - injection Hrun as <- _ _. by eexists _, _.
  - unfold mbind, M_bind in Hrun. destruct (store_bytes _ _ _ _) as [[[? s1] k1]|]; [|done].
    destruct (_ >? 0); [eapply IH; [exact Hrun|lia|done]|]. injection Hrun as <- _ _. lia.
Qed.

Section awaiting.
Context `{Env} `{Arch} `{UsbPipes}.

(** The controller's end of a connection. *)
Record awaiting (sock : Z) (port : nat) (v : vhci_device) (h : vhci_hcd) (k : kernel) : Prop := {
  aw_wf : vhci_wf port v h k;
  aw_side : ud_side (vd_ud v) = USBIP_VHCI;
  aw_sock : ud_tcp_socket (vd_ud v) = Some sock;
  aw_fresh : fresh_heap k;
  aw_priv : LockPriv 1 ∉ k_locks k;
  aw_ud : LockUd 1 ∉ k_locks k;
  aw_controller : LockController ∉ k_locks k
}.

(** No reception times out. *)
Definition no_timeout (sock : Z) : Prop :=
  forall tr n, (env_answer tr (CRecvmsg sock n)).1 <> - EAGAIN.

(** A result on its way: the request and URB it is for, with the buffer the URB
    has and what that holds, and the header and data that come. *)
Record result := mkResult {
  re_req : positive;
  re_urb : positive;
  re_old : urb;
  re_buf : positive;
  re_mem : list Z;
  re_hdr : usbip_header;
  re_data : list Z
}.
Definition result_bytes (e : result) : list Z := wire_bytes (re_hdr e) ++ re_data e.
Definition re_size (e : result) : Z := in_size (re_hdr e) (re_old e).
Definition re_status (e : result) : Z := rs_status (u_ret_submit (h_u (re_hdr e))).

(** It is for a request that waits, and fits its URB's buffer. *)
Definition expected (v : vhci_device) (h : vhci_hcd) (k : kernel) (e : result) : Prop :=
  header_wf (re_hdr e) /\ command (h_base (re_hdr e)) = USBIP_RET_SUBMIT /\
  (exists x, find_vpriv (hc_privs h) (seqnum (h_base (re_hdr e))) (vd_priv_rx v) = Some (re_req e, x) /\
     vp_urb x = re_urb e) /\
  k_urbs k !! re_urb e = Some (re_old e) /\ usb_pipeisoc (urb_pipe (re_old e)) = false /\
  Z.of_nat (length (re_data e)) = Z.max 0 (re_size e) /\
  (re_data e <> [] -> urb_transfer_buffer (re_old e) = Some (re_buf e, 0) /\
     k_heap k !! re_buf e = Some (re_mem e) /\ (length (re_data e) <= length (re_mem e))%nat).

(** What has become of the URB. *)
Definition returned (k : kernel) (e : result) : Prop :=
  k_urbs k !! re_urb e = Some (resulting (re_hdr e) (re_old e)) /\
  (re_data e <> [] -> k_heap k !! re_buf e = Some (splice (re_mem e) 0 (re_data e))).

(** Results for different requests, with buffers of their own. *)
Fixpoint apart (es : list result) : Prop :=
  match es with
  | [] => True
  | e :: es' =>
      Forall (fun e' => re_req e' <> re_req e /\ re_urb e' <> re_urb e /\
        (re_data e <> [] -> re_data e' <> [] -> re_buf e' <> re_buf e)) es' /\ apart es'
  end.

(** Only the URB and the buffer of [e] may differ. *)
Definition untouched (e : result) (k k' : kernel) : Prop :=
  (forall u, u <> re_urb e -> k_urbs k' !! u = k_urbs k !! u) /\
  (forall b blk, (re_data e <> [] -> b <> re_buf e) -> k_heap k !! b = Some blk ->
     k_heap k' !! b = Some blk).

Lemma find_vpriv_without privs sq q p p' x :
  find_vpriv privs sq q = Some (p, x) -> p <> p' ->
  find_vpriv (delete p' privs) sq (remove_id p' q) = Some (p, x).
Proof.
  intros Hf Hne. induction q as [|y q IH]; [done|]. cbn [find_vpriv] in Hf.
  destruct (privs !! y) as [z|] eqn:Ey; [|done].
  destruct (decide (y = p')) as [->|Hy].
  - rewrite remove_id_cons_eq. apply IH. destruct (vp_seqnum z =? sq); [congruence|done].
  - rewrite remove_id_cons_ne by done. cbn [find_vpriv]. rewrite lookup_delete_ne, Ey by done.
    destruct (vp_seqnum z =? sq); [done|by apply IH].
Qed.

(** A result that waits is not disturbed by another that came. *)
Lemma expected_after e e' v h k v' h' k' :
  expected v h k e' -> untouched e k k' ->
  re_req e' <> re_req e /\ re_urb e' <> re_urb e /\
    (re_data e <> [] -> re_data e' <> [] -> re_buf e' <> re_buf e) ->
  vd_priv_rx v' = remove_id (re_req e) (vd_priv_rx v) ->
  hc_privs h' = delete (re_req e) (hc_privs h) -> expected v' h' k' e'.
Proof.
  intros (? & ? & (x & Hf & Hx) & Hu & ? & ? & Hb) [Hus Hbs] (Hr & Hur & Hbuf) Hv Hp.
  split_and!; try done.
  - exists x. rewrite Hp, Hv. split; [by apply find_vpriv_without|done].
  - by rewrite Hus.
  - intros Hne. destruct (Hb Hne) as (? & ? & ?). split_and!; [done| |done]. apply Hbs; auto.
Qed.

Lemma returned_after e e' k k' :
  returned k e -> untouched e' k k' ->
  re_urb e' <> re_urb e -> (re_data e <> [] -> re_data e' <> [] -> re_buf e' <> re_buf e) ->
  returned k' e.
Proof.
  intros [Hu Hb] [Hus Hbs] Hne Hbuf. split; [by rewrite Hus by congruence|].
  intros Hd. apply Hbs; [|by apply Hb]. intros Hd' Heq. by apply (Hbuf Hd Hd').
Qed.
Lemma vhci_header_run sock port stream v h k :
  awaiting sock port v h k -> recvmsg_ok -> streams sock (k_trace k) stream ->
  exists n tr ret mem, Reads sock (k_trace k) (take n stream) tr /\ givebacks tr = givebacks (k_trace k) /\
    vhci_recv_header port h k = Ok ((ret, header_of_mem mem), h,
      k <| k_trace := tr |> <| k_next := Pos.succ (k_next k) |>) /\
    ((ret = sizeof_header /\ n = 48%nat /\ mem = take 48 stream /\ (48 <= length stream)%nat) \/
     (ret <= 0 /\ (n < 48)%nat /\ Stalled sock (k_trace k) (take n stream) /\
      exists tr' m, ret = (env_answer tr' (CRecvmsg sock m)).1)).
Proof.
  intros [] Hok Hst. pose proof aw_wf0 as (Hv & _).
  destruct (recv_fresh_run sock sizeof_header stream v k Hok (streams_delivers _ _ _ Hst) eq_refl)
    as (n & tr & ret & mem & HR & Hrun & Hmem & Hret).
  exists n, tr, ret, mem. split; [by apply Received_Reads|]. split; [by eapply givebacks_received|]. split.
  - unfold vhci_recv_header. erewrite bind_ok by reflexivity.
    erewrite bind_ok.
    2: { eapply on_vdev_ok; [exact Hv|]. erewrite bind_ok by reflexivity. cbv beta. rewrite aw_sock0.
         exact Hrun. }
    cbv beta. rewrite set_vdev_same by done. apply recv_header_rest; [|done]. apply aw_fresh0. lia.
  - destruct Hret as [(-> & -> & -> & ?)|(Hr & Hn & Hs)]; [by left|right].
    change sizeof_header with 48 in *. split_and!; [done|lia|done|].
    unfold usbip_recv in Hrun. destruct (_ =? 0) eqn:E; [done|]. by eapply recv_loop_error.
Qed.

(** Receiving a result's header; one that does not come whole shuts the connection down. *)
Lemma vhci_header_split sock port stream v h k :
  awaiting sock port v h k -> recvmsg_ok -> no_timeout sock -> streams sock (k_trace k) stream ->
  exists n tr, Reads sock (k_trace k) (take n stream) tr /\ givebacks tr = givebacks (k_trace k) /\
    let k1 := k <| k_trace := tr |> <| k_next := Pos.succ (k_next k) |> in
    ((n = 48%nat /\ (48 <= length stream)%nat /\ forall rh rest, header_wf rh ->
        command (h_base rh) = USBIP_RET_SUBMIT -> stream = wire_bytes rh ++ rest ->
        vhci_rx_pdu port h k = vhci_recv_ret_submit port rh h k1) \/
     ((n < 48)%nat /\ Stalled sock (k_trace k) (take n stream) /\ exists e, e <> 0 /\
        vhci_rx_pdu port h k = Ok (tt, port_event port e v h, traced [CWakeUp Q_EH] k1))).
Proof.
  intros Haw Hok Hnt Hst. pose proof Haw as []. pose proof aw_wf0 as (Hv & _).
  destruct (vhci_header_run sock port stream v h k Haw Hok Hst)
    as (n & tr & ret & mem & HR & Hg & Hrun & Hret).
  exists n, tr. split; [done|]. split; [done|]. intros k1.
  assert (forall e, on_vdev port (usbip_event_add e) h k1 =
    Ok (tt, port_event port e v h, traced [CWakeUp Q_EH] k1)) as Hev by (intros; by apply port_event_add_ok).
  destruct Hret as [(-> & -> & -> & Hlen)|(Hr & Hn & Hs & tr' & m & Hans)]; [left|right].
  - split; [done|]. split; [done|]. intros rh rest Hw Hcmd ->.
    assert (length (wire_bytes rh) = 48%nat) as Hl48
      by (unfold wire_bytes; rewrite length_app, (proj1 (proj2 Hw)); done).
    unfold vhci_rx_pdu. erewrite bind_ok by exact Hrun. cbv beta iota.
    rewrite take_app_le, take_ge by lia. rewrite correct_endian_receive by done.
    by rewrite Hcmd.
  - split; [done|]. split; [done|]. unfold vhci_rx_pdu.
    destruct (decide (ret = 0)) as [->|Hne].
    + exists VDEV_EVENT_DOWN. split; [done|]. erewrite bind_ok by exact Hrun. apply Hev.
    + exists VDEV_EVENT_ERROR_TCP. split; [done|]. erewrite bind_ok by exact Hrun. cbv beta iota.
      rewrite (proj2 (Z.ltb_lt _ _)) by lia. rewrite (proj2 (Z.eqb_neq _ (- EAGAIN))); [apply Hev|].
      rewrite Hans. apply Hnt.
Qed.
Lemma awaiting_next sock port v h k tr :
  awaiting sock port v h k ->
  awaiting sock port v h (k <| k_trace := tr |> <| k_next := Pos.succ (k_next k) |>).
Proof. intros []. split; try done. intros b Hb. apply aw_fresh0. cbn in Hb. lia. Qed.

Lemma awaiting_event sock port e v h k tr :
  awaiting sock port v h k -> awaiting sock port (add_event e v) (port_event port e v h) (traced tr k).
Proof. intros []. split; try done. by apply port_event_wf. Qed.

(** The result came whole. *)
Definition result_came (sock : Z) (e : result) (v : vhci_device) (k : kernel)
    (v' : vhci_device) (h h' : vhci_hcd) (k' : kernel) : Prop :=
  returned k' e /\ givebacks (k_trace k') = (re_urb e, re_status e) :: givebacks (k_trace k) /\
  Reads sock (k_trace k) (result_bytes e) (k_trace k') /\ v' = dropped (re_req e) v /\
  hc_privs h' = delete (re_req e) (hc_privs h).

(** The connection broke before: nothing is given back. *)
Definition result_cut (sock : Z) (e : result) (k : kernel) (v' : vhci_device) (k' : kernel) : Prop :=
  exists n, (n < length (result_bytes e))%nat /\ Stalled sock (k_trace k) (take n (result_bytes e)) /\
    givebacks (k_trace k') = givebacks (k_trace k) /\ ud_event (vd_ud v') <> 0.

Lemma filled_untouched e blk tr k :
  (re_data e <> [] <-> 0 < re_size e) ->
  untouched e k (filled (re_hdr e) (re_urb e) (re_old e) (re_size e) (re_buf e) blk tr k).
Proof.
  intros Hne. split; [intros u Hu; unfold filled; cbn; by rewrite lookup_insert_ne|].
  intros b blk' Hb Hblk. unfold filled. cbn. destruct (0 <? re_size e) eqn:E; [|done]. bool_to_prop.
  rewrite lookup_insert_ne; [done|]. intros Heq. by apply Hb; [apply Hne|].
Qed.

Lemma recv_result sock port v h k e rest :
  awaiting sock port v h k -> expected v h k e -> recvmsg_ok ->
  streams sock (k_trace k) (re_data e ++ rest) ->
  exists v' h' k', vhci_recv_ret_submit port (re_hdr e) h k = Ok (tt, h', k') /\
    awaiting sock port v' h' k' /\ untouched e k k' /\
    ((returned k' e /\ givebacks (k_trace k') = (re_urb e, re_status e) :: givebacks (k_trace k) /\
      Reads sock (k_trace k) (re_data e) (k_trace k') /\ v' = dropped (re_req e) v /\
      hc_privs h' = delete (re_req e) (hc_privs h)) \/
     (exists n, (n < length (re_data e))%nat /\ Stalled sock (k_trace k) (take n (re_data e)) /\
        givebacks (k_trace k') = givebacks (k_trace k) /\ ud_event (vd_ud v') <> 0)).
Proof.
  intros Haw (Hw & Hcmd & (x & Hf & Hx) & Hu & Hiso & Hlen & Hbuf) Hok Hst. pose proof Haw as [].
  pose proof aw_wf0 as (Hv & _).
  assert (re_data e <> [] <-> 0 < re_size e) as Hne.
  { destruct (re_data e); cbn in Hlen; [|split; [lia|done]]. split; [done|lia]. }
  destruct (ret_submit_found port (re_hdr e) sock (re_data e ++ rest) v h k (re_req e) x (re_old e)
    (re_buf e) (re_mem e)) as (ok & n & tr & v' & Hrun & Hwf' & _ & Hg & Hret);
    try done; [by apply streams_delivers|by rewrite Hx| |].
  { intros Hpos. destruct (Hbuf (proj2 Hne Hpos)) as (? & ? & ?).
    fold (re_size e) in Hpos |- *. split_and!; [done|done|lia]. }
  rewrite Hx in *. fold (re_size e) (re_status e) in *. cbv zeta in *.
  set (k' := filled _ _ _ _ _ _ _ _) in *.
  exists v', (after_result ok port (re_req e) v h), k'. split; [done|].
  assert (untouched e k k') as Hun by by apply filled_untouched.
  assert (fresh_heap k') as Hfr'.
  { intros b Hb. unfold k', filled. cbn. destruct (0 <? re_size e) eqn:E; [|by apply aw_fresh0].
    bool_to_prop. destruct (Hbuf (proj2 Hne E)) as (_ & Hh & _).
    rewrite lookup_insert_ne; [by apply aw_fresh0|]. intros <-. rewrite aw_fresh0 in Hh; [done|].
    cbn in Hb. lia. }
  assert (v' = if ok then dropped (re_req e) v else add_event VDEV_EVENT_ERROR_TCP (dropped (re_req e) v)) as Hv'.
  { destruct Hwf' as (Hv1 & _). pose proof (without_vdev port (re_req e) v h Hv) as Hv2.
    destruct ok; cbn [after_result] in Hv1; [congruence|].
    unfold port_event in Hv1. rewrite (set_vdev_lookup port _ _ _ Hv2) in Hv1. congruence. }
  split; [split; try done; rewrite Hv'; by destruct ok|]. split; [done|].
  destruct ok; [left|right].
  - destruct Hret as (Hn & Hnl & HR). assert (n = length (re_data e)) as -> by lia.
    rewrite take_app_length in *. split_and!; try done. split; [apply lookup_insert_eq|].
    intros Hd%Hne. unfold k', filled. cbn. rewrite (proj2 (Z.ltb_lt _ _) Hd). by rewrite lookup_insert_eq, take_app_length.
  - destruct Hret as (Hpos & Hn & Hstall). exists n. rewrite take_app_le in Hstall by lia.
    split_and!; [lia|done|done|]. rewrite Hv'. by apply event_added.
Qed.

Lemma result_one sock port v h k e rest :
  awaiting sock port v h k -> expected v h k e -> recvmsg_ok -> no_timeout sock ->
  streams sock (k_trace k) (result_bytes e ++ rest) ->
  exists v' h' k', vhci_rx_pdu port h k = Ok (tt, h', k') /\
    awaiting sock port v' h' k' /\ untouched e k k' /\
    (result_came sock e v k v' h h' k' \/ result_cut sock e k v' k').
Proof.
  intros Haw Hex Hok Hnt Hst. pose proof Hex as (Hw & Hcmd & _).
  destruct (vhci_header_split sock port _ v h k Haw Hok Hnt Hst) as (n & tr & HR & Hg & Hout).
  unfold result_bytes in *. rewrite <- app_assoc in *.
  assert (length (wire_bytes (re_hdr e)) = 48%nat) as Hl48
    by (unfold wire_bytes; rewrite length_app, (proj1 (proj2 Hw)); done).
  cbv zeta in Hout. set (k1 := k <| k_trace := tr |> <| k_next := _ |>) in *.
  assert (awaiting sock port v h k1) as Haw1 by by apply awaiting_next.
  destruct Hout as [(-> & _ & Hrun)|(Hn & Hstall & ev & Hev & Hrun)].
  - rewrite (Hrun _ _ Hw Hcmd eq_refl). rewrite take_app_le, take_ge in HR by lia.
    destruct (recv_result sock port v h k1 e rest) as (v' & h' & k' & Hrun' & Haw' & Hun & Hres);
      [done|done|done|by eapply streams_after|].
    exists v', h', k'. split; [done|]. split; [done|]. split; [done|].
    change (k_trace k1) with tr in Hres.
    destruct Hres as [(Hr & Hg' & HR' & Hv' & Hh')|(n & Hn & Hs & Hg' & Hev)]; [left|right].
    + split; [done|]. rewrite Hg', Hg. split; [done|]. split; [by eapply Reads_trans|done].
    + exists (48 + n)%nat. unfold result_bytes. rewrite length_app. split; [lia|].
      rewrite take_app_ge by lia. rewrite Hl48. replace (48 + n - 48)%nat with n by lia.
      split; [by eapply stalled_after|]. by rewrite Hg', Hg.
  - eexists _, _, _. split; [exact Hrun|]. split; [by apply awaiting_event|]. split; [done|]. right.
    exists n. unfold result_bytes. rewrite take_app_le in Hstall |- * by lia. rewrite length_app.
    split_and!; [lia|done|done|by apply event_added].
Qed.
(** *** The receiving thread *)

Lemma vhci_rx_loop_turn sock port fuel v h k :
  awaiting sock port v h k ->
  vhci_rx_loop port (S fuel) h k =
    let k1 := traced [CShouldStop] k in
    if negb ((env_answer (k_trace k) CShouldStop).1 =? 0) || negb (ud_event (vd_ud v) =? 0)
    then Ok (0, h, k1) else (vhci_rx_pdu port;; vhci_rx_loop port fuel) h k1.
Proof.
  intros []. pose proof aw_wf0 as (Hv & _). cbn [vhci_rx_loop].
  erewrite bind_ok by apply ext_ret_ok. cbv beta zeta.
  destruct (negb (_ =? 0)); [done|]. cbn [orb].
  erewrite bind_ok by (eapply on_vdev_ok; [exact Hv|by apply event_happened_ok]).
  rewrite set_vdev_same by done. cbn. by destruct (negb (ud_event (vd_ud v) =? 0)).
Qed.

Lemma awaiting_traced sock port v h k tr : awaiting sock port v h k -> awaiting sock port v h (traced tr k).
Proof. intros []. by split. Qed.

(** Results other than [e]'s leave what [e] brought. *)
Definition elsewhere (e e' : result) : Prop :=
  re_urb e' <> re_urb e /\ (re_data e <> [] -> re_data e' <> [] -> re_buf e' <> re_buf e).

Definition results_outcome (sock : Z) (port : nat) (es : list result) (v : vhci_device)
    (h : vhci_hcd) (k : kernel) (v' : vhci_device) (h' : vhci_hcd) (k' : kernel) : Prop :=
  awaiting sock port v' h' k' /\
  (forall e, Forall (elsewhere e) es -> returned k e -> returned k' e) /\
  exists j, Forall (returned k') (take j es) /\
    givebacks (k_trace k') =
      reverse ((fun e => (re_urb e, re_status e)) <$> take j es) ++ givebacks (k_trace k) /\
    (lossless sock (k_trace k) (mjoin (result_bytes <$> es)) ->
     (forall tr, (env_answer tr CShouldStop).1 = 0) -> ud_event (vd_ud v) = 0 ->
     (length es <= j)%nat).

Lemma results_stopped sock port es v h k v' h' k' :
  awaiting sock port v' h' k' ->
  (forall e, Forall (elsewhere e) es -> returned k e -> returned k' e) ->
  givebacks (k_trace k') = givebacks (k_trace k) ->
  (lossless sock (k_trace k) (mjoin (result_bytes <$> es)) ->
   (forall tr, (env_answer tr CShouldStop).1 = 0) -> ud_event (vd_ud v) = 0 -> es = []) ->
  results_outcome sock port es v h k v' h' k'.
Proof.
  intros Haw Hr Hg Hfin. split; [done|]. split; [done|]. exists 0%nat. split; [constructor|].
  split; [done|]. intros. by rewrite Hfin.
Qed.

Lemma results_all sock port es v h k fuel :
  (length es + 1 < fuel)%nat -> awaiting sock port v h k -> Forall (expected v h k) es -> apart es ->
  recvmsg_ok -> no_timeout sock -> streams sock (k_trace k) (mjoin (result_bytes <$> es)) ->
  exists v' h' k', vhci_rx_loop port fuel h k = Ok (0, h', k') /\
    results_outcome sock port es v h k v' h' k'.
Proof.
  intros Hfuel Haw Hex Hap Hok Hnt Hst.
  revert v h k fuel Hfuel Haw Hex Hst. induction es as [|e es IH]; intros v h k fuel Hfuel Haw Hex Hst;
    (destruct fuel as [|[|fuel]]; [cbn in Hfuel; lia..|]);
    rewrite (vhci_rx_loop_turn sock port _ v) by done; cbv zeta; set (k1 := traced [CShouldStop] k);
    (assert (awaiting sock port v h k1) as Haw1 by by apply awaiting_traced);
    (destruct (_ || _) eqn:Estop;
      [exists v, h, k1; split; [done|]; apply results_stopped; [done|done|done|];
       intros _ Hs He; by rewrite Hs, He in Estop|]).
  - destruct (vhci_header_split sock port [] v h k1) as (n & tr & _ & Hg & Hout); [done..| |].
    { apply (streams_no_recv sock [CShouldStop]); [by repeat constructor|done]. }
    destruct Hout as [(_ & Hlen & _)|(_ & _ & ev & Hev & Hrun)]; [cbn in Hlen; lia|].
    erewrite bind_ok by exact Hrun.
    rewrite (vhci_rx_loop_turn sock port _ (add_event ev v)) by (by apply awaiting_event, awaiting_next).
    rewrite (proj2 (Z.eqb_neq (ud_event (vd_ud _)) 0)), orb_true_r by by apply event_added. cbv zeta.
    eexists _, _, _. split; [reflexivity|].
    apply results_stopped; [by apply awaiting_traced, awaiting_event, awaiting_next|done|done|done].
  - apply Forall_cons in Hex as [He Hex]. destruct Hap as [Hfst Hap].
    cbn [fmap list_fmap mjoin list_join] in Hst.
    assert (streams sock (k_trace k1) (result_bytes e ++ mjoin (result_bytes <$> es))) as Hst1
      by (apply (streams_no_recv sock [_]); [by repeat constructor|done]).
    destruct (result_one sock port v h k1 e (mjoin (result_bytes <$> es)))
      as (v2 & h2 & k2 & Hrun & Haw2 & Hun & Hres); [done..|].
    assert (untouched e k k2) as Hun0 by done.
    erewrite bind_ok by exact Hrun.
    assert (forall d, elsewhere d e -> returned k d -> returned k2 d) as Hkeep.
    { intros d [Hu Hb] Hd. by eapply returned_after. }
    destruct Hres as [(Hret & Hg & HR & -> & Hps)|(n & Hn & Hstall & Hg & Hev)].
    + destruct (IH Hap (dropped (re_req e) v) h2 k2 (S fuel)) as (v' & h' & k' & Hloop & Haw' & Hk & j & Hj & Hgj & Hfin);
        [cbn in Hfuel; lia|done| |by eapply streams_after|].
      { apply Forall_forall. intros e' Hin. rewrite Forall_forall in Hex, Hfst.
        eapply expected_after; [by apply Hex|done|by apply Hfst|done|done]. }
      exists v', h', k'. split; [done|]. split; [done|]. split.
      { intros d [Hd Hds]%Forall_cons Hr. by apply Hk, Hkeep. }
      exists (S j). cbn [take fmap list_fmap]. split.
      { constructor; [|done]. apply Hk; [|done]. eapply Forall_impl; [exact Hfst|].
        intros e' (_ & Hu & Hb). by split. }
      split; [by rewrite Hgj, Hg, reverse_cons, <- app_assoc|].
      intros Hl Hs0 Hev0. cbn. apply le_n_S, Hfin; [|done|done].
      eapply lossless_after; [|exact HR].
      by apply (lossless_no_recv sock [CShouldStop]); [repeat constructor|].
    + rewrite (vhci_rx_loop_turn sock port _ v2), (proj2 (Z.eqb_neq _ _) Hev), orb_true_r by done. cbv zeta.
      eexists v2, h2, _. split; [reflexivity|].
      apply results_stopped; [by apply awaiting_traced| |done|].
      * intros d [Hd _]%Forall_cons Hr. by apply (Hkeep d).
      * intros Hl. apply (lossless_no_recv sock [CShouldStop]) in Hl; [|by repeat constructor].
        cbn [fmap list_fmap mjoin list_join] in Hl.
        assert (Stalled sock (k_trace k1) (take n (result_bytes e ++ mjoin (result_bytes <$> es)))) as Hs3
          by (by rewrite take_app_le by lia).
        apply (lossless_stalled _ _ _ _ Hl) in Hs3. rewrite length_app in Hs3. lia.
Qed.
End awaiting.

(** ** Both ends *)

Section both_ends.
Context `{UsbPipes}.

(** [e] is the exporter's answer to its completed request [q], and fits the
    client's URB for the request of this number. *)
Definition answers (sd : stub_device) (ke : kernel) (v : vhci_device) (hc : vhci_hcd) (kc : kernel)
    (q : positive) (e : result) : Prop :=
  exists u x r, request q u x r sd ke /\ sendable r (k_heap ke) /\
    usb_pipeisoc (urb_pipe r) = false /\ urb_actual_length r < 2 ^ 31 /\
    re_hdr e = ret_header (u32 (sp_seqnum x)) r /\ re_data e = reply_data r (k_heap ke) /\
    (exists y, find_vpriv (hc_privs hc) (u32 (sp_seqnum x)) (vd_priv_rx v) = Some (re_req e, y) /\
       vp_urb y = re_urb e) /\
    k_urbs kc !! re_urb e = Some (re_old e) /\ usb_pipeisoc (urb_pipe (re_old e)) = false /\
    usb_pipein (urb_pipe (re_old e)) = usb_pipein (urb_pipe r) /\
    (usb_pipein (urb_pipe r) = true -> 0 < urb_actual_length r ->
     urb_transfer_buffer (re_old e) = Some (re_buf e, 0) /\ k_heap kc !! re_buf e = Some (re_mem e) /\
     urb_actual_length r <= Z.of_nat (length (re_mem e))).

(** The client's URB has the result of the exporter's: status, lengths, and the data
    of an IN transfer at the beginning of its buffer. *)
Definition completed_as (sd : stub_device) (ke : kernel) (kc : kernel) (q : positive) (e : result) : Prop :=
  exists u x r r', request q u x r sd ke /\ k_urbs kc !! re_urb e = Some r' /\
    urb_hcpriv r' = None /\ urb_status r' = urb_status r /\
    urb_actual_length r' = urb_actual_length r /\ urb_start_frame r' = urb_start_frame r /\
    urb_error_count r' = urb_error_count r /\
    urb_transfer_buffer r' = urb_transfer_buffer (re_old e) /\
    (usb_pipein (urb_pipe r) = true -> 0 < urb_actual_length r ->
     k_heap kc !! re_buf e = Some (splice (re_mem e) 0
       (take (Z.to_nat (urb_actual_length r)) (block_of (k_heap ke) (urb_transfer_buffer r))))).

Lemma reply_data_length r h :
  sendable r h -> usb_pipeisoc (urb_pipe r) = false ->
  Z.of_nat (length (reply_data r h)) = if usb_pipein (urb_pipe r) then urb_actual_length r else 0.
Proof.
  intros ((_ & _ & Hal & _) & Hin & _) Hiso. unfold reply_data, is_u32 in *. rewrite Hiso.
  destruct (usb_pipein (urb_pipe r)); [|done]. destruct (Hin eq_refl) as (b & blk & -> & Hblk & Hl & _).
  cbn [block_of]. rewrite Hblk. cbn. rewrite length_take. lia.
Qed.

Lemma answers_expected sd ke v hc kc q e :
  answers sd ke v hc kc q e -> expected v hc kc e.
Proof.
  intros (u & x & r & Hreq & Hs & Hiso & Hal & Hh & Hd & Hf & Hu & Hiso' & Hin & Hbuf).
  pose proof Hs as (Hwf & _). pose proof Hwf as (_ & _ & Ha32 & _). unfold is_u32 in Ha32.
  pose proof (reply_data_length r (k_heap ke) Hs Hiso) as Hlen. rewrite <- Hd in Hlen.
  split_and!; try done; rewrite ?Hh.
  - apply ret_header_wf; [auto with usbip|done].
  - done.
  - done.
  - rewrite Hlen. unfold re_size, in_size. rewrite Hin. destruct (usb_pipein (urb_pipe r)); [|done].
    rewrite Hh. unfold resulting, ret_header, usbip_pack_pdu, usbip_pack_ret_submit, u_ret_submit. cbn -[Z.max].
    autorewrite with usbip_simp. rewrite s32_id by (unfold is_s32; lia). lia.
  - intros Hne. assert (0 < length (re_data e))%nat as Hpos by (destruct (re_data e); [done|cbn; lia]).
    destruct (usb_pipein (urb_pipe r)); [|lia].
    destruct (Hbuf eq_refl) as (? & ? & ?); [lia|]. split_and!; [done|done|lia].
Qed.

Lemma answers_bytes sd ke v hc kc q e :
  answers sd ke v hc kc q e ->
  exists u x r, request q u x r sd ke /\ sendable r (k_heap ke) /\
    result_bytes e = reply_msg x r (k_heap ke).
Proof.
  intros (u & x & r & Hreq & Hs & Hiso & Hal & Hh & Hd & _). exists u, x, r.
  split; [done|]. split; [done|]. unfold result_bytes, reply_msg, reply_isos.
  by rewrite Hh, Hd, Hiso, app_nil_r.
Qed.

Lemma returned_completed sd ke v hc kc kc' q e :
  answers sd ke v hc kc q e -> returned kc' e -> completed_as sd ke kc' q e.
Proof.
  intros (u & x & r & Hreq & Hs & Hiso & Hal & Hh & Hd & _) [Hu Hb].
  pose proof Hs as ((_ & _ & Ha & Hst & Hsf & _ & _ & Hec) & _). pose proof Ha as Ha32. unfold is_u32 in Ha32.
  pose proof (reply_data_length r (k_heap ke) Hs Hiso) as Hlen.
  exists u, x, r, (resulting (re_hdr e) (re_old e)). split; [done|]. split; [done|]. rewrite Hh.
  unfold resulting, ret_header, usbip_pack_pdu, usbip_pack_ret_submit, u_ret_submit. cbn.
  autorewrite with usbip_simp. rewrite !s32_id by (done || (unfold is_s32; lia)).
  split_and!; try done.
  - by apply u32_id.
  - intros Hin Hpos. rewrite Hb.
    + rewrite Hd. unfold reply_data. by rewrite Hin, Hiso.
    + intros Hnil. rewrite <- Hd, Hnil, Hin in Hlen. cbn in Hlen. lia.
Qed.
End both_ends.

(** C2: what the exporter's transmitter sends in a round, the controller's
    receiving thread takes from the connection: it returns when the connection
    ends, and until then every URB whose result came through was given back once,
    in the order of the replies, with the status, lengths and data the exporter's
    URB had.  If the connection loses nothing, all are.  The machines may differ
    in byte order. *)
Theorem results_cross `{UsbPipes}
    (client exporter : Env) (client_arch exporter_arch : Arch)
    port csock esock es sd ke v hc kc :
  stub_wf sd ke -> Forall2 (answers sd ke v hc kc) (sd_priv_tx sd) es -> apart es ->
  @mallocs_ok exporter -> fresh_heap ke -> ud_tcp_socket (sd_ud sd) = Some esock ->
  LockPriv 0 ∉ k_locks ke -> LockUd 0 ∉ k_locks ke ->
  awaiting csock port v hc kc -> @recvmsg_ok client -> @no_timeout client csock ->
  exists ret sd' ke' msgs, @stub_send_ret_submit exporter exporter_arch _ sd ke = Ok (ret, sd', ke') /\
    sent (k_trace ke') = reverse msgs ++ sent (k_trace ke) /\
    (ret <> -1 -> length msgs = length (sd_priv_tx sd)) /\
    forall fuel, @streams client csock (k_trace kc) (mjoin msgs) -> (length msgs + 1 < fuel)%nat ->
      exists v' hc' kc' j,
        @vhci_rx_loop client client_arch _ port fuel hc kc = Ok (0, hc', kc') /\
        awaiting csock port v' hc' kc' /\
        Forall2 (completed_as sd ke kc') (take j (sd_priv_tx sd)) (take j es) /\
        givebacks (k_trace kc') =
          reverse ((fun e => (re_urb e, re_status e)) <$> take j es) ++ givebacks (k_trace kc) /\
        (@lossless client csock (k_trace kc) (mjoin msgs) ->
         (forall tr, (@env_answer client tr CShouldStop).1 = 0) -> ud_event (vd_ud v) = 0 ->
         (length msgs <= j)%nat).
Proof.
  intros Hwf Hall Hap Hmal Hfr Hsock Hl1 Hl2 Haw Hok Hnt.
  assert (ready sd ke (sd_priv_tx sd) (result_bytes <$> es)) as Hready.
  { apply Forall2_fmap_r. eapply Forall2_impl; [exact Hall|]. intros q e Ha. cbn.
    by eapply answers_bytes. }
  pose proof (Forall2_length _ _ _ Hall) as Hlen.
  destruct (@stub_replies_run exporter exporter_arch _ esock (result_bytes <$> es) sd ke)
    as (m & ret & sd' & ke' & Hrun & _ & _ & _ & Hs & Hout); [done..|].
  exists ret, sd', ke', (take m (result_bytes <$> es)). split; [done|]. split; [done|]. split.
  { intros Hr. destruct Hout as [(-> & _)|(_ & ? & _)]; [|done].
    rewrite take_ge by done. by rewrite length_fmap. }
  rewrite <- fmap_take. intros fuel Hst Hfuel. rewrite length_fmap in Hfuel |- *.
  assert (Forall (expected v hc kc) (take m es)) as Hex.
  { apply Forall_take. clear -Hall. induction Hall; constructor; [by eapply answers_expected|done]. }
  assert (apart (take m es)) as Hap'.
  { clear -Hap. revert m. induction es as [|e es IH]; intros [|m]; try done.
    destruct Hap as [Hf Hap]. split; [by apply Forall_take|by apply IH]. }
  destruct (@results_all client client_arch _ csock port (take m es) v hc kc fuel)
    as (v' & hc' & kc' & Hloop & Haw' & _ & j & Hj & Hg & Hfin); [done..|].
  rewrite take_take in Hj, Hg. exists v', hc', kc', (j `min` m)%nat.
  split; [done|]. split; [done|]. split; [|split; [done|]].
  - apply (Forall2_take _ _ _ (j `min` m)) in Hall. revert Hj. clear -Hall. revert Hall.
    generalize (take (j `min` m) (sd_priv_tx sd)), (take (j `min` m) es). intros qs ds Hall.
    induction Hall as [|q e qs ds Ha _ IH]; intros Hj; [constructor|].
    apply Forall_cons in Hj as [He Hj]. constructor; [by eapply returned_completed|by apply IH].
  - intros Hl Hs0 He. specialize (Hfin Hl Hs0 He). rewrite length_take in Hfin |- *. lia.
Qed.

(** ** Sample: the exporter read two bytes for the client's request 11 *)

Definition back_priv : stub_priv := mkStubPriv 11 (Some 22%positive) 0 false.
Definition back_sdev : stub_device :=
  (sample_sdev 0) <| sd_privs := <[12%positive := back_priv]> (sd_privs (sample_sdev 0)) |>.
Definition back_bytes : list Z := wire_bytes (ret_header 11 sample_done_urb) ++ [4; 5].
Definition back_env : Env := sock_env 7 5 back_bytes.
Definition back_result : result :=
  mkResult 41 2 sample_vhci_urb 1 [0; 0; 0; 0] (ret_header 11 sample_done_urb) [4; 5].

Lemma back_wf : stub_wf back_sdev sample_stub_kernel.
Proof.
  split; [|eexists; vm_compute; reflexivity].
  repeat (apply NoDup_cons; split; [set_solver|]). apply NoDup_nil_2.
Qed.

Lemma back_answers :
  @answers linux_pipes back_sdev sample_stub_kernel sample_vdev sample_vhci sample_vhci_kernel 12 back_result.
Proof.
  exists 22%positive, back_priv, sample_done_urb.
  pose proof (sample_ready 0) as Hr. apply Forall2_cons in Hr as [(u & x & r & (_ & Hx & Hu & Hr & _) & Hs & _) _].
  assert (r = sample_done_urb) as ->.
  { vm_compute in Hx. injection Hx as <-. injection Hu as <-. vm_compute in Hr. by injection Hr as <-. }
  split; [split_and!; [unfold queued; cbn; set_solver|reflexivity..]|]. split; [exact Hs|].
  split; [reflexivity|]. split; [by vm_compute|]. split; [reflexivity|]. split; [by vm_compute|].
  split; [eexists; split; [vm_compute; reflexivity|reflexivity]|].
  split_and!; try reflexivity. intros _ _. split_and!; [reflexivity..|by vm_compute].
Qed.

Lemma back_awaiting : awaiting 7 0 sample_vdev sample_vhci sample_vhci_kernel.
Proof.
  split; try done.
  - apply sample_vhci_wf.
  - intros b Hb. change (k_next sample_vhci_kernel) with 50%positive in Hb.
    cbn. by rewrite lookup_insert_ne by lia.
  - cbn. set_solver.
  - cbn. set_solver.
  - cbn. set_solver.
Qed.

Lemma results_cross_witness :
  exists sd' ke' hc' kc',
    @stub_send_ret_submit (send_env 100) true linux_pipes back_sdev sample_stub_kernel = Ok (50, sd', ke') /\
    @vhci_rx_loop back_env false linux_pipes 0 3 sample_vhci sample_vhci_kernel = Ok (0, hc', kc') /\
    @completed_as linux_pipes back_sdev sample_stub_kernel kc' 12 back_result /\
    givebacks (k_trace kc') = [(2%positive, 0)].
Proof.
  destruct (@results_cross linux_pipes back_env (send_env 100) false true 0 7 7 [back_result] back_sdev
    sample_stub_kernel sample_vdev sample_vhci sample_vhci_kernel) as (ret & sd' & ke' & msgs & Hrun & Hsent & _ & Hback).
  - apply back_wf.
  - constructor; [apply back_answers|constructor].
  - by repeat constructor.
  - intros tr n. discriminate.
  - apply sample_fresh_heap.
  - reflexivity.
  - cbn. set_solver.
  - cbn. set_solver.
  - apply back_awaiting.
  - apply sock_env_ok.
  - intros tr n Ht. pose proof (sock_env_nonneg 7 5 back_bytes tr 7 n) as Hn.
    assert (0 <= - EAGAIN) as Hneg by (rewrite <- Ht; exact Hn). by vm_compute in Hneg.
  - assert (ret = 50 /\ sent (k_trace ke') = [back_bytes]) as [-> Hs].
    { vm_compute in Hrun. injection Hrun as <- _ <-. split; by vm_compute. }
    assert (msgs = [back_bytes]) as ->.
    { apply (inj reverse). rewrite Hs in Hsent.
      change (sent (k_trace sample_stub_kernel)) with (@nil (list Z)) in Hsent.
      by rewrite app_nil_r in Hsent. }
    destruct (Hback 3%nat) as (v' & hc' & kc' & j & Hloop & _ & Hall & Hg & Hfin).
    + cbn [mjoin list_join]. rewrite app_nil_r. by apply sock_env_streams.
    + cbn. lia.
    + assert (1 <= j)%nat as Hj.
      { apply Hfin; [|reflexivity|reflexivity].
        cbn [mjoin list_join]. rewrite app_nil_r. by apply sock_env_lossless. }
      destruct j as [|j]; [lia|]. exists sd', ke', hc', kc'.
      split; [exact Hrun|]. split; [exact Hloop|].
      replace (take (S j) (sd_priv_tx back_sdev)) with [12%positive] in Hall by (cbn; by rewrite take_nil).
      replace (take (S j) [back_result]) with [back_result] in Hall, Hg by (cbn; by rewrite take_nil).
      split; [by inversion Hall|exact Hg].
Defined.
