(* ===== verification/NetProps.v ===== *)
(** * The contract of the network layer

    Over a connection that delivers what the other end sends, a message sent is
    received whole, between machines of any byte order. *)
From S2P Require Import Prelude Kernel Wire EventProps Exec NetWire Net.

(** ** Connections *)

Section connection.
Context `{Env}.

(** The bytes received from and sent to [fd] so far. *)
Fixpoint received (fd : Z) (tr : list call) : list Z :=
  match tr with
  | [] => []
  | c :: tr' =>
      received fd tr' ++
      match c with
      | URecv fd' n => if fd' =? fd then take (Z.to_nat (env_answer tr' c).1) (env_answer tr' c).2 else []
      | _ => []
      end
  end.
Fixpoint sent_to (fd : Z) (tr : list call) : list Z :=
  match tr with
  | [] => []
  | c :: tr' =>
      sent_to fd tr' ++
      match c with
      | USend fd' data n => if fd' =? fd then take (Z.to_nat (env_answer tr' c).1) data else []
      | _ => []
      end
  end.

(** The other end sends [stream] and nothing else: a reception returns the next
    bytes, at least one, and fails at the end. *)
Definition peer_sends (fd : Z) (stream : list Z) : Prop := forall tr n rest,
  stream = received fd tr ++ rest -> 0 < n ->
  let a := env_answer tr (URecv fd n) in
  a.1 <= n /\ a.1 <= Z.of_nat (length rest) /\ (0 < a.1 -> a.2 = take (Z.to_nat a.1) rest) /\
  (rest <> [] -> 0 < a.1).

(** The connection takes what is sent, at least a byte at a time. *)
Definition peer_reads (fd : Z) : Prop := forall tr data n,
  0 < n -> 0 < (env_answer tr (USend fd data n)).1 <= n.

(** Calls on one socket. *)
Definition on_socket (fd : Z) (c : call) : Prop :=
  match c with URecv fd' _ | USend fd' _ _ | USetsockopt fd' _ => fd' = fd | _ => False end.

(** The state of a connection: what is still to come, and what was sent. *)
Record conn (fd : Z) (rest out : list Z) (tr : list call) : Prop := {
  conn_peer : exists stream, peer_sends fd stream /\ stream = received fd tr ++ rest;
  conn_reads : peer_reads fd;
  conn_out : sent_to fd tr = out
}.

(** [k'] is [k] after more calls on [fd]. *)
Definition talked (fd : Z) (k k' : kernel) : Prop :=
  exists tr, k' = traced tr k /\ Forall (on_socket fd) tr.
End connection.

Section net_runs.
Context `{Env} {St : Type}.

Lemma talked_refl fd k : talked fd k k.
Proof. exists []. split; [by destruct k|constructor]. Qed.
Lemma talked_step fd c k : on_socket fd c -> talked fd k (traced [c] k).
Proof. intros Hc. exists [c]. split; [done|]. by repeat constructor. Qed.
Lemma talked_trans fd k1 k2 k3 : talked fd k1 k2 -> talked fd k2 k3 -> talked fd k1 k3.
Proof.
  intros (t1 & -> & H1) (t2 & -> & H2). exists (t2 ++ t1). split.
  - unfold traced. destruct k1; cbn. by rewrite app_assoc.
  - by apply Forall_app.
Qed.

(** A reception on a connection. *)
Lemma conn_recv fd n rest out tr :
  conn fd rest out tr -> 0 < n ->
  let a := env_answer tr (URecv fd n) in let m := Z.to_nat a.1 in
  a.1 <= n /\ a.1 <= Z.of_nat (length rest) /\ (rest <> [] -> 0 < a.1) /\
  (0 < a.1 -> take m a.2 = take m rest) /\ conn fd (drop m rest) out (URecv fd n :: tr).
Proof.
  intros [(stream & Hp & Hs) Hr Ho] Hn a m. destruct (Hp tr n rest Hs Hn) as (H1 & H2 & H3 & H4).
  fold a in H1, H2, H3, H4.
  assert (take m a.2 = take m rest) as Ht.
  { destruct (Z.lt_ge_cases 0 a.1) as [Hpos|Hneg].
    - rewrite (H3 Hpos). unfold m. by rewrite take_take, Nat.min_id.
    - unfold m. by replace (Z.to_nat a.1) with 0%nat by lia. }
  split_and!; [done|done|done|by intros _|]. split; [|done|].
  - exists stream. split; [done|]. cbn. rewrite Z.eqb_refl. fold a. fold m.
    by rewrite Ht, <- app_assoc, take_drop.
  - cbn. by rewrite app_nil_r.
Qed.

(** A transmission on a connection. *)
Lemma conn_send fd data rest out tr :
  conn fd rest out tr -> 0 < Z.of_nat (length data) ->
  let n := Z.of_nat (length data) in let a := env_answer tr (USend fd data n) in
  0 < a.1 <= n /\ conn fd rest (out ++ take (Z.to_nat a.1) data) (USend fd data n :: tr).
Proof.
  intros [(stream & Hp & Hs) Hr Ho] Hn n a. split; [by apply Hr|]. split; [|done|].
  - exists stream. split; [done|]. cbn. by rewrite app_nil_r.
  - cbn. by rewrite Z.eqb_refl, Ho.
Qed.

Lemma conn_other fd c rest out tr :
  match c with URecv fd' _ | USend fd' _ _ => fd' <> fd | _ => True end ->
  conn fd rest out tr -> conn fd rest out (c :: tr).
Proof.
  intros Hc [(stream & Hp & Hs) Hr Ho].
  assert (received fd (c :: tr) = received fd tr /\ sent_to fd (c :: tr) = sent_to fd tr) as [E1 E2].
  { destruct c; cbn; rewrite ?app_nil_r; try done; rewrite (proj2 (Z.eqb_neq _ _) Hc), app_nil_r; done. }
  split; [|done|by rewrite E2]. exists stream. by rewrite E1.
Qed.

Lemma recv_loop_run fuel fd moved buff total d rest out (s : St) k :
  (length buff <= fuel)%nat -> buff <> [] -> length d = length buff ->
  conn fd (d ++ rest) out (k_trace k) ->
  exists k', usbip_net_xmit_loop fuel fd moved buff false total s k =
      Ok ((total + Z.of_nat (length d), moved ++ d), s, k') /\
    conn fd rest out (k_trace k') /\ talked fd k k'.
Proof.
  revert moved buff total d k. induction fuel as [|fuel IH]; intros moved buff total d k Hf Hb Hd Hc.
  { destruct buff; [done|cbn in Hf; lia]. }
  assert (0 < Z.of_nat (length buff)) as Hpos by (destruct buff; [done|cbn; lia]).
  destruct (conn_recv fd _ _ _ _ Hc Hpos) as (H1 & H2 & H3 & H4 & H5).
  cbn [usbip_net_xmit_loop]. cbv zeta. erewrite bind_ok by reflexivity. cbv beta iota.
  set (a := env_answer (k_trace k) (URecv fd (Z.of_nat (length buff)))) in *.
  set (m := Z.to_nat a.1) in *. destruct a as [nb data]. cbn [fst snd] in *.
  assert (0 < nb) as Hnb by (apply H3; destruct d; [destruct buff; done|done]).
  destruct (nb <=? 0) eqn:E1; bool_to_prop; [lia|].
  destruct (_ <? nb) eqn:E2; bool_to_prop; [lia|].
  assert (m <= length d)%nat as Hm by lia.
  change (Z.to_nat nb) with m.
  rewrite (H4 Hnb), take_app_le by done. rewrite drop_app_le in H5 by done.
  rewrite length_drop.
  destruct (_ <? _) eqn:E3; bool_to_prop.
  - edestruct (IH (moved ++ take m d) (drop m buff) (total + nb) (drop m d)
      (traced [URecv fd (Z.of_nat (length buff))] k)) as (k' & Hrun & Hc' & Ht).
    + rewrite length_drop. lia.
    + intros E. apply (f_equal length) in E. rewrite length_drop in E. cbn in E. lia.
    + rewrite !length_drop. lia.
    + exact H5.
    + exists k'. split; [|split; [exact Hc'|]].
      * etransitivity; [exact Hrun|]. rewrite <- app_assoc, take_drop, length_drop.
        do 3 f_equal. f_equal. lia.
      * eapply talked_trans; [|exact Ht]. by apply talked_step.
  - assert (m = length d) as Em by lia.
    eexists. split; [|split].
    + rewrite firstn_all2 by lia. unfold mret, M_ret. do 3 f_equal. f_equal. lia.
    + rewrite Em, drop_all in H5. exact H5.
    + by apply (talked_step fd (URecv fd (Z.of_nat (length buff)))).
Qed.

Lemma recv_run fd buff d rest out (s : St) k :
  length d = length buff -> conn fd (d ++ rest) out (k_trace k) ->
  exists k', usbip_net_recv fd buff s k = Ok ((Z.of_nat (length d), d), s, k') /\
    conn fd rest out (k_trace k') /\ talked fd k k'.
Proof.
  intros Hd Hc. unfold usbip_net_recv, usbip_net_xmit. destruct buff as [|x buff].
  - destruct d; [|done]. exists k. split; [done|]. split; [done|apply talked_refl].
  - by apply (recv_loop_run _ fd [] (x :: buff) 0 d).
Qed.

(** A message cut short is not taken for one. *)
Lemma recv_loop_short fuel fd moved buff total rest out (s : St) k :
  (length buff <= fuel)%nat -> (length rest < length buff)%nat -> conn fd rest out (k_trace k) ->
  exists mem k', usbip_net_xmit_loop fuel fd moved buff false total s k = Ok ((-1, mem), s, k') /\
    talked fd k k' /\ sent_to fd (k_trace k') = out.
Proof.
  revert moved buff total rest k. induction fuel as [|fuel IH]; intros moved buff total rest k Hf Hl Hc; [lia|].
  assert (0 < Z.of_nat (length buff)) as Hpos by lia.
  destruct (conn_recv fd _ _ _ _ Hc Hpos) as (H1 & H2 & H3 & H4 & H5).
  cbn [usbip_net_xmit_loop]. cbv zeta. erewrite bind_ok by reflexivity. cbv beta iota.
  set (a := env_answer (k_trace k) (URecv fd (Z.of_nat (length buff)))) in *.
  set (m := Z.to_nat a.1) in *. destruct a as [nb data]. cbn [fst snd] in *.
  destruct (nb <=? 0) eqn:E1; bool_to_prop.
  - eexists _, _. split; [reflexivity|]. split; [|apply (conn_out _ _ _ _ H5)].
    by apply (talked_step fd (URecv fd (Z.of_nat (length buff)))).
  - destruct (_ <? nb) eqn:E2; bool_to_prop; [lia|]. change (Z.to_nat nb) with m.
    rewrite length_drop. destruct (_ <? _) eqn:E3; bool_to_prop; [|lia].
    edestruct (IH (moved ++ take m data) (drop m buff) (total + nb) (drop m rest)
      (traced [URecv fd (Z.of_nat (length buff))] k)) as (mem & k' & Hrun & Ht & Ho).
    + rewrite length_drop. lia.
    + rewrite !length_drop. lia.
    + exact H5.
    + exists mem, k'. split; [exact Hrun|]. split; [|done].
      eapply talked_trans; [|exact Ht]. by apply talked_step.
Qed.

Lemma recv_short fd buff rest out (s : St) k :
  (length rest < length buff)%nat -> conn fd rest out (k_trace k) ->
  exists mem k', usbip_net_recv fd buff s k = Ok ((-1, mem), s, k') /\
    talked fd k k' /\ sent_to fd (k_trace k') = out.
Proof.
  intros Hl Hc. unfold usbip_net_recv, usbip_net_xmit. destruct buff as [|x buff]; [cbn in Hl; lia|].
  by eapply recv_loop_short.
Qed.

Lemma send_loop_run fuel fd moved buff total rest out (s : St) k :
  (length buff <= fuel)%nat -> buff <> [] -> conn fd rest out (k_trace k) ->
  exists mem k', usbip_net_xmit_loop fuel fd moved buff true total s k =
      Ok ((total + Z.of_nat (length buff), mem), s, k') /\
    conn fd rest (out ++ buff) (k_trace k') /\ talked fd k k'.
Proof.
  revert moved buff total out k. induction fuel as [|fuel IH]; intros moved buff total out k Hf Hb Hc.
  { destruct buff; [done|cbn in Hf; lia]. }
  assert (0 < Z.of_nat (length buff)) as Hpos by (destruct buff; [done|cbn; lia]).
  destruct (conn_send fd buff _ _ _ Hc Hpos) as [[H1 H2] H3].
  cbn [usbip_net_xmit_loop]. cbv zeta. erewrite bind_ok by reflexivity. cbv beta iota.
  set (a := env_answer (k_trace k) (USend fd buff (Z.of_nat (length buff)))) in *.
  set (m := Z.to_nat a.1) in *. destruct a as [nb data]. cbn [fst snd] in *.
  destruct (nb <=? 0) eqn:E1; bool_to_prop; [lia|].
  destruct (_ <? nb) eqn:E2; bool_to_prop; [lia|]. change (Z.to_nat nb) with m.
  rewrite length_drop. destruct (_ <? _) eqn:E3; bool_to_prop.
  - edestruct (IH (moved ++ take m buff) (drop m buff) (total + nb) (out ++ take m buff)
      (traced [USend fd buff (Z.of_nat (length buff))] k)) as (mem & k' & Hrun & Hc' & Ht).
    + rewrite length_drop. lia.
    + intros E. apply (f_equal length) in E. rewrite length_drop in E. cbn in E. lia.
    + exact H3.
    + exists mem, k'. split; [|split].
      * etransitivity; [exact Hrun|]. rewrite length_drop. do 4 f_equal. lia.
      * by rewrite <- app_assoc, take_drop in Hc'.
      * eapply talked_trans; [|exact Ht]. by apply talked_step.
  - assert (m = length buff) as Em by lia. rewrite Em, firstn_all in H3.
    eexists _, (traced [USend fd buff (Z.of_nat (length buff))] k). split; [|split; [exact H3|]].
    + unfold mret, M_ret. do 4 f_equal. lia.
    + by apply (talked_step fd (USend fd buff (Z.of_nat (length buff)))).
Qed.

Lemma send_run fd data rest out (s : St) k :
  conn fd rest out (k_trace k) ->
  exists k', usbip_net_send fd data s k = Ok (Z.of_nat (length data), s, k') /\
    conn fd rest (out ++ data) (k_trace k') /\ talked fd k k'.
Proof.
  intros Hc. unfold usbip_net_send, usbip_net_xmit. destruct data as [|x data].
  - exists k. rewrite app_nil_r. split; [done|]. split; [done|apply talked_refl].
  - destruct (send_loop_run (length (x :: data)) fd [] (x :: data) 0 rest out s k) as (mem & k' & Hrun & Hk);
      [done|done|done|].
    exists k'. erewrite bind_ok by exact Hrun. by split.
Qed.

Lemma nodelay_run fd rest out (s : St) k :
  conn fd rest out (k_trace k) ->
  exists rc k', usbip_net_set_nodelay fd s k = Ok (rc, s, k') /\
    conn fd rest out (k_trace k') /\ talked fd k k'.
Proof.
  intros Hc. eexists _, _. split; [reflexivity|]. split; [by apply conn_other|].
  by apply (talked_step fd (USetsockopt fd SOCKOPT_NODELAY)).
Qed.

(** ** Messages *)
Section messages.
Context `{Arch}.

Lemma recv_struct_run {A} `{NetStruct A} (x : A) fd rest out (s : St) k :
  ns_wf x -> conn fd (ns_bytes x ++ rest) out (k_trace k) ->
  exists mem k', usbip_net_recv fd (zeroed ns_size) s k = Ok ((Z.of_nat ns_size, mem), s, k') /\
    ns_pack _ false (ns_of_mem _ mem) = x /\ conn fd rest out (k_trace k') /\ talked fd k k'.
Proof.
  intros Hx Hc. pose proof (ns_length x Hx) as Hl.
  destruct (recv_run fd (zeroed ns_size) (ns_bytes x) rest out s k) as (k' & Hrun & Hk).
  - unfold zeroed. by rewrite length_replicate.
  - done.
  - exists (ns_bytes x), k'. rewrite <- Hl at 2. split; [done|]. split; [by apply ns_recv|done].
Qed.

Lemma send_struct_run {A} `{NetStruct A} (x : A) fd rest out (s : St) k :
  ns_wf x -> conn fd rest out (k_trace k) ->
  exists k', usbip_net_send fd (ns_to_mem _ (ns_pack _ true x)) s k = Ok (Z.of_nat ns_size, s, k') /\
    conn fd rest (out ++ ns_bytes x) (k_trace k') /\ talked fd k k'.
Proof.
  intros Hx Hc. rewrite ns_send by done. rewrite <- (ns_length x Hx). by apply send_run.
Qed.

Definition op_header (code status : Z) : op_common := mkOp USBIP_VERSION code status.

Lemma op_header_wf code status : is_u16 code -> is_u32 status -> ns_wf (op_header code status).
Proof. intros. split; [unfold is_u16, op_header, USBIP_VERSION; cbn; lia|]. by split. Qed.

Lemma send_op_common_run code status fd rest out (s : St) k :
  is_u16 code -> is_u32 status -> conn fd rest out (k_trace k) ->
  exists k', usbip_net_send_op_common fd code status s k = Ok (0, s, k') /\
    conn fd rest (out ++ ns_bytes (op_header code status)) (k_trace k') /\ talked fd k k'.
Proof.
  intros Hc Hs Hcn. unfold usbip_net_send_op_common.
  destruct (send_struct_run (op_header code status) fd rest out s k (op_header_wf _ _ Hc Hs) Hcn)
    as (k' & Hrun & Hk).
  exists k'. split; [|exact Hk]. replace (wrap 16 code) with code by (symmetry; by apply Z.mod_small).
  erewrite bind_ok by exact Hrun. done.
Qed.

(** What is read of a header: the expected code with status 0 is taken, any
    other header of this version is refused. *)
Lemma recv_op_common_run op code fd rest out (s : St) k :
  ns_wf op -> conn fd (ns_bytes op ++ rest) out (k_trace k) ->
  exists k', usbip_net_recv_op_common fd code s k =
      Ok (if (op_version op =? USBIP_VERSION) && ((code =? OP_UNSPEC) || (op_code op =? code)) &&
             (op_status op =? ST_OK)
          then (0, op_code op) else (-1, code), s, k') /\
    conn fd rest out (k_trace k') /\ talked fd k k'.
Proof.
  intros Hop Hcn. unfold usbip_net_recv_op_common.
  destruct (recv_struct_run op fd rest out s k Hop Hcn) as (mem & k' & Hrun & Hx & Hk).
  exists k'. split; [|exact Hk]. erewrite bind_ok by exact Hrun. cbv beta iota. rewrite (proj2 (Z.ltb_ge _ _)) by (cbn; lia).
  cbv zeta. change (PACK_OP_COMMON false (op_common_of_mem mem)) with (ns_pack (A:=op_common) _ false (ns_of_mem _ mem)).
  rewrite Hx. destruct (op_version op =? USBIP_VERSION), (code =? OP_UNSPEC), (op_code op =? code),
    (op_status op =? ST_OK); done.
Qed.
End messages.
End net_runs.
