(* ===== verification/ToolProps.v ===== *)
(** * What the user-space programs promise each other

    The daemon and the commands talk over a connection, and to the kernel
    through attribute files; what one writes the other reads. *)
From Stdlib Require Import String.
From S2P Require Import Prelude CLib Kernel Wire EventProps Exec NetWire Net NetProps.
From S2P Require Import Sysfs HostDriver Usbipd VhciDriver Tools.

Local Open Scope Z_scope.

#[local] Arguments strncmp_eq : simpl never.
#[local] Arguments strncpy : simpl never.
#[local] Arguments strnlen : simpl never.

(** ** Code that does not touch the network *)

Definition off_network (c : call) : Prop :=
  match c with USend _ _ _ | URecv _ _ => False | _ => True end.

Section silent.
Context `{Env} {St : Type}.

(** Only calls other than transmissions and receptions are made, and nothing
    else of the machine is used. *)
Definition silent {A} (m : M St A) : Prop := forall s k a s' k',
  m s k = Ok (a, s', k') -> exists tr, k' = traced tr k /\ Forall off_network tr.

Lemma silent_ret {A} (a : A) : silent (mret a : M St A).
Proof. intros s k a' s' k' [= <- <- <-]. exists []. split; [by destruct k|constructor]. Qed.

Lemma silent_bind {A B} (m : M St A) (f : A -> M St B) :
  silent m -> (forall a, silent (f a)) -> silent (m ≫= f).
Proof.
  intros Hm Hf s k b s2 k2. unfold mbind, M_bind.
  destruct (m s k) as [[[a s1] k1]|] eqn:E; [|done]. intros Hrun.
  destruct (Hm _ _ _ _ _ E) as (t1 & -> & H1). destruct (Hf _ _ _ _ _ _ Hrun) as (t2 & -> & H2).
  exists (t2 ++ t1). split; [|by apply Forall_app].
  unfold traced. destruct k; cbn. by rewrite app_assoc.
Qed.

Lemma silent_crash {A} b : silent (crash b : M St A).
Proof. intros s k a s' k' [=]. Qed.
Lemma silent_of_option {A} b (o : option A) : silent (of_option b o : M St A).
Proof. destruct o; [apply silent_ret|apply silent_crash]. Qed.
Lemma silent_get : silent (get : M St St).
Proof. intros s k a s' k' [= <- <- <-]. exists []. split; [by destruct k|constructor]. Qed.
Lemma silent_modify f : silent (modify f : M St unit).
Proof. intros s k a s' k' [= <- <- <-]. exists []. split; [by destruct k|constructor]. Qed.
Lemma silent_kgets {A} (f : kernel -> A) : silent (kgets f : M St A).
Proof. intros s k a s' k' [= <- <- <-]. exists []. split; [by destruct k|constructor]. Qed.
Lemma silent_ext c : off_network c -> silent (ext c : M St _).
Proof. intros Hc s k a s' k' [= <- <- <-]. exists [c]. split; [done|]. by repeat constructor. Qed.
Lemma silent_ext_ret c : off_network c -> silent (ext_ret c : M St _).
Proof. intros Hc. apply silent_bind; [by apply silent_ext|]. intros. apply silent_ret. Qed.
Lemma silent_ext_do c : off_network c -> silent (ext_do c : M St _).
Proof. intros Hc. apply silent_bind; [by apply silent_ext|]. intros. apply silent_ret. Qed.

Lemma conn_silent fd rest out tr tr0 :
  Forall off_network tr -> conn fd rest out tr0 -> conn fd rest out (tr ++ tr0).
Proof.
  induction 1 as [|c tr Hc _ IH]; cbn; [done|]. intros Hconn.
  apply conn_other; [by destruct c|by apply IH].
Qed.
End silent.

Create HintDb silent.
#[export] Hint Resolve silent_ret silent_crash silent_of_option silent_get silent_modify
  silent_kgets : silent.
#[export] Hint Extern 1 (silent (ext _)) => apply silent_ext; exact I : silent.
#[export] Hint Extern 1 (silent (ext_ret _)) => apply silent_ext_ret; exact I : silent.
#[export] Hint Extern 1 (silent (ext_do _)) => apply silent_ext_do; exact I : silent.

(** Follow the code: binds, branches, known calls. *)
Ltac silent_auto :=
  repeat first
    [ progress intros
    | solve [auto with silent]
    | apply silent_bind
    | lazymatch goal with
      | |- silent (let _ := _ in _) => cbv zeta
      | |- silent (match ?x with _ => _ end) => destruct x
      | |- silent ((match ?x with _ => _ end) _) => destruct x
      end ].

Section silent_code.
Context `{Env} `{Sysfs}.

Lemma silent_lookup {St A} (f : list call -> A) : silent (lookup f : M St A).
Proof. unfold lookup. silent_auto. Qed.
#[local] Hint Resolve silent_lookup : silent.

Lemma silent_read_attr_value {St} dev name f : silent (read_attr_value dev name f : M St Z).
Proof. unfold read_attr_value. silent_auto. Qed.
Lemma silent_read_attr_speed {St} dev : silent (read_attr_speed dev : M St Z).
Proof. unfold read_attr_speed. silent_auto. Qed.
#[local] Hint Resolve silent_read_attr_value silent_read_attr_speed : silent.

Lemma silent_read_usb_device {St} dev : silent (read_usb_device dev : M St _).
Proof. unfold read_usb_device. silent_auto. Qed.
Lemma silent_read_usb_interface {St} udev i x : silent (read_usb_interface udev i x : M St _).
Proof. unfold read_usb_interface. silent_auto. Qed.
#[local] Hint Resolve silent_read_usb_device silent_read_usb_interface : silent.

Lemma silent_wait_for_attr n path : silent (wait_for_attr n path).
Proof. induction n; cbn [wait_for_attr]; silent_auto. Qed.
#[local] Hint Resolve silent_wait_for_attr : silent.
Lemma silent_read_attr_usbip_status udev : silent (read_attr_usbip_status udev).
Proof. unfold read_attr_usbip_status. silent_auto. Qed.
Lemma silent_read_interfaces udev i l : silent (read_interfaces udev i l).
Proof. revert i. induction l; intros i; cbn [read_interfaces]; silent_auto. Qed.
#[local] Hint Resolve silent_read_attr_usbip_status silent_read_interfaces : silent.
Lemma silent_exported_device_new path : silent (usbip_exported_device_new path).
Proof. unfold usbip_exported_device_new. silent_auto. Qed.
Lemma silent_collect_devices l acc : silent (collect_devices l acc).
Proof. revert acc. induction l; intros acc; cbn [collect_devices]; silent_auto. Qed.
Lemma silent_push_edev e : silent (push_edev e).
Proof. unfold push_edev, deref. silent_auto. Qed.
#[local] Hint Resolve silent_exported_device_new silent_collect_devices silent_push_edev : silent.
Lemma silent_add_exported_devices l : silent (add_exported_devices l).
Proof. induction l; cbn [add_exported_devices]; silent_auto. Qed.
#[local] Hint Resolve silent_add_exported_devices : silent.
Lemma silent_refresh : silent usbip_host_refresh_device_list.
Proof. unfold usbip_host_refresh_device_list, refresh_exported_devices, new_edev_list, deref. silent_auto. Qed.
Lemma silent_export edev fd : silent (usbip_host_export_device edev fd).
Proof. unfold usbip_host_export_device. silent_auto. Qed.
End silent_code.

(** ** The list of devices *)

(** What is sent of a device, and the whole answer. *)
Definition device_message (edev : usbip_exported_device) : list Z :=
  ns_bytes (ed_udev edev) ++ mjoin (ns_bytes <$> ed_uinf edev).
Definition devlist_answer (l : list usbip_exported_device) : list Z :=
  ns_bytes (op_header OP_REP_DEVLIST ST_OK) ++ ns_bytes (mkDevlistRep (Z.of_nat (length l))) ++
  mjoin (device_message <$> l).

(** A device as the host driver lists it: one entry per interface. *)
Definition edev_wf (edev : usbip_exported_device) : Prop :=
  ns_wf (ed_udev edev) /\ uu_bNumInterfaces (ed_udev edev) = Z.of_nat (length (ed_uinf edev)).

Lemma uif_wf (x : usbip_usb_interface) : ns_wf x.
Proof. exact I. Qed.

Section devlist.
Context `{Env} `{Arch}.

Lemma send_interfaces_run fd l rest out s k :
  conn fd rest out (k_trace k) ->
  exists k', send_interfaces fd l s k = Ok (true, s, k') /\
    conn fd rest (out ++ mjoin (ns_bytes <$> l)) (k_trace k') /\ talked fd k k'.
Proof.
  revert out k. induction l as [|x l IH]; intros out k Hc; cbn [send_interfaces fmap list_fmap mjoin list_join].
  - exists k. rewrite app_nil_r. split; [done|]. split; [done|apply talked_refl].
  - destruct (send_struct_run x fd rest out s k (uif_wf x) Hc) as (k1 & Hrun & Hc1 & Ht1).
    destruct (IH _ _ Hc1) as (k2 & Hrun2 & Hc2 & Ht2).
    exists k2. rewrite <- app_assoc in Hc2. split; [|split; [exact Hc2|by eapply talked_trans]].
    erewrite bind_ok by exact Hrun. exact Hrun2.
Qed.

Lemma send_devices_run fd l rest out s k :
  Forall edev_wf l -> conn fd rest out (k_trace k) ->
  exists k', send_devices fd l s k = Ok (true, s, k') /\
    conn fd rest (out ++ mjoin (device_message <$> l)) (k_trace k') /\ talked fd k k'.
Proof.
  intros Hl. revert out k. induction Hl as [|x l [Hx Hn] _ IH]; intros out k Hc;
    cbn [send_devices fmap list_fmap mjoin list_join].
  - exists k. rewrite app_nil_r. split; [done|]. split; [done|apply talked_refl].
  - destruct (send_struct_run (ed_udev x) fd rest out s k Hx Hc) as (k1 & Hrun & Hc1 & Ht1).
    destruct (send_interfaces_run fd (ed_uinf x) rest _ s k1 Hc1) as (k2 & Hrun2 & Hc2 & Ht2).
    destruct (IH _ _ Hc2) as (k3 & Hrun3 & Hc3 & Ht3).
    exists k3. unfold device_message at 1. rewrite <- !app_assoc in *. split; [|split; [exact Hc3|]].
    + erewrite bind_ok by exact Hrun. cbv beta. change (Z.of_nat ns_size <? 0) with false. cbv iota.
      rewrite Hn, Nat2Z.id, Nat.ltb_irrefl, firstn_all.
      erewrite bind_ok by exact Hrun2. exact Hrun3.
    + eapply talked_trans; [exact Ht1|]. by eapply talked_trans.
Qed.

Lemma recv_interfaces_run {St} fd l rest out (s : St) k :
  conn fd (mjoin (ns_bytes <$> l) ++ rest) out (k_trace k) ->
  exists k', recv_interfaces fd (length l) s k = Ok (Some l, s, k') /\
    conn fd rest out (k_trace k') /\ talked fd k k'.
Proof.
  revert k. induction l as [|x l IH]; intros k Hc;
    cbn [recv_interfaces fmap list_fmap mjoin list_join length] in *.
  - exists k. split; [done|]. split; [done|apply talked_refl].
  - rewrite <- app_assoc in Hc.
    destruct (recv_struct_run x fd _ out s k (uif_wf x) Hc) as (mem & k1 & Hrun & Hx & Hc1 & Ht1).
    destruct (IH _ Hc1) as (k2 & Hrun2 & Hc2 & Ht2).
    exists k2. split; [|split; [exact Hc2|by eapply talked_trans]].
    erewrite bind_ok by exact Hrun. cbv beta iota. change (Z.of_nat ns_size <? 0) with false. cbv iota zeta.
    erewrite bind_ok by exact Hrun2. cbv beta iota. by rewrite <- Hx.
Qed.

Lemma recv_devices_run {St} fd l rest out (s : St) k :
  Forall edev_wf l -> conn fd (mjoin (device_message <$> l) ++ rest) out (k_trace k) ->
  exists k', recv_devices fd (length l) s k = Ok (Some (map (fun e => (ed_udev e, ed_uinf e)) l), s, k') /\
    conn fd rest out (k_trace k') /\ talked fd k k'.
Proof.
  intros Hl. revert k. induction Hl as [|x l [Hx Hn] _ IH]; intros k Hc;
    cbn [recv_devices fmap list_fmap mjoin list_join length] in *.
  - exists k. split; [done|]. split; [done|apply talked_refl].
  - unfold device_message in Hc at 1. rewrite <- !app_assoc in Hc.
    destruct (recv_struct_run (ed_udev x) fd _ out s k Hx Hc) as (mem & k1 & Hrun & Hm & Hc1 & Ht1).
    destruct (recv_interfaces_run fd (ed_uinf x) _ out s k1 Hc1) as (k2 & Hrun2 & Hc2 & Ht2).
    destruct (IH _ Hc2) as (k3 & Hrun3 & Hc3 & Ht3).
    exists k3. split; [|split; [exact Hc3|]].
    + erewrite bind_ok by exact Hrun. cbv beta iota. change (Z.of_nat ns_size <? 0) with false. cbv iota zeta.
      change (usbip_net_pack_usb_device false (usb_device_of_mem mem))
        with (ns_pack (A:=usbip_usb_device) _ false (ns_of_mem _ mem)). rewrite Hm, Hn, Nat2Z.id.
      erewrite bind_ok by exact Hrun2. cbv beta iota. erewrite bind_ok by exact Hrun3. done.
    + eapply talked_trans; [exact Ht1|]. by eapply talked_trans.
Qed.
End devlist.

Lemma req_devlist_u16 : is_u16 OP_REQ_DEVLIST. Proof. done. Qed.
Lemma rep_devlist_u16 : is_u16 OP_REP_DEVLIST. Proof. done. Qed.
Lemma req_import_u16 : is_u16 OP_REQ_IMPORT. Proof. done. Qed.
Lemma rep_import_u16 : is_u16 OP_REP_IMPORT. Proof. done. Qed.
Lemma ok_u32 : is_u32 ST_OK. Proof. done. Qed.
Lemma na_u32 : is_u32 ST_NA. Proof. done. Qed.

Lemma ndev_wf {A} (l : list A) :
  Z.of_nat (length l) < 2 ^ 32 -> ns_wf (mkDevlistRep (Z.of_nat (length l))).
Proof. intros Hl. split; [apply Nat2Z.is_nonneg|exact Hl]. Qed.

(** ** The daemon's answers *)

Section daemon.
Context `{Env} `{Arch} `{Sysfs}.

(** Looking the devices up again finds [hd], whenever that happens while the
    request is served. *)
Definition finds_devices (fd : Z) (hd0 hd : usbip_host_driver) (k : kernel) : Prop :=
  forall k1, talked fd k k1 ->
    exists k2, usbip_host_refresh_device_list (Some hd0) k1 = Ok (0, Some hd, k2).

(** A request is read, the devices are looked up, and it is served. *)
Lemma recv_pdu_run code fd hd0 hd rest k :
  is_u16 code -> finds_devices fd hd0 hd k ->
  conn fd (ns_bytes (op_header code 0) ++ rest) [] (k_trace k) ->
  exists k1, conn fd rest [] (k_trace k1) /\
    recv_pdu fd (Some hd0) k =
      (if code =? OP_REQ_DEVLIST then recv_request_devlist fd
       else if code =? OP_REQ_IMPORT then recv_request_import fd else mret (-1)) (Some hd) k1.
Proof.
  intros Hcode Hf Hc. unfold recv_pdu.
  destruct (recv_op_common_run (op_header code 0) OP_UNSPEC fd rest [] (Some hd0) k) as (k1 & Hrun & Hc1 & Ht);
    [by apply op_header_wf|done|].
  destruct (Hf k1 Ht) as (k2 & Hr). exists k2. split.
  - destruct (silent_refresh _ _ _ _ _ Hr) as (tr & -> & Htr). by apply conn_silent.
  - change (usbip_net_recv_op_common fd OP_UNSPEC (Some hd0) k = Ok ((0, code), Some hd0, k1)) in Hrun.
    erewrite bind_ok by exact Hrun. cbv beta iota. change (0 <? 0) with false. cbv iota.
    erewrite bind_ok by exact Hr. done.
Qed.

Lemma devlist_served_run fd rest l n k :
  Forall edev_wf l -> Z.of_nat (length l) < 2 ^ 32 -> conn fd rest [] (k_trace k) ->
  let s := Some (mkHostDriver n l) in
  exists k', recv_request_devlist fd s k = Ok (0, s, k') /\
    conn fd rest (devlist_answer l) (k_trace k').
Proof.
  intros Hl Hn Hc s. unfold recv_request_devlist, send_reply_devlist.
  assert (u32 (Z.of_nat (length l)) = Z.of_nat (length l)) as Hu by (apply Z.mod_small; lia).
  erewrite bind_ok by reflexivity. cbv beta iota. change (0 <? 0) with false. cbv iota.
  destruct (send_op_common_run OP_REP_DEVLIST ST_OK fd rest [] s k) as (k1 & Hrun1 & Hc1 & _); [done|done|done|].
  destruct (send_struct_run (mkDevlistRep (Z.of_nat (length l))) fd rest _ s k1 (ndev_wf l Hn) Hc1)
    as (k2 & Hrun2 & Hc2 & _).
  destruct (send_devices_run fd l rest _ s k2 Hl Hc2) as (k3 & Hrun3 & Hc3 & _).
  exists k3. split; [|by rewrite <- !app_assoc in Hc3].
  erewrite bind_ok.
  2: { erewrite bind_ok by reflexivity. cbv beta zeta. cbn [hd_edev_list]. rewrite Hu.
       erewrite bind_ok by exact Hrun1. cbv beta. change (0 <? 0) with false. cbv iota.
       erewrite bind_ok by exact Hrun2. cbv beta. change (Z.of_nat ns_size <? 0) with false. cbv iota.
       erewrite bind_ok by reflexivity. cbv beta. erewrite bind_ok by exact Hrun3. reflexivity. }
  done.
Qed.
End daemon.

Section client.
Context `{Env} `{Arch} {St : Type}.

Lemma devlist_read_run fd rest l (s : St) k :
  Forall edev_wf l -> Z.of_nat (length l) < 2 ^ 32 -> conn fd (devlist_answer l ++ rest) [] (k_trace k) ->
  exists k', get_exported_devices fd s k = Ok ((0, map (fun e => (ed_udev e, ed_uinf e)) l), s, k') /\
    conn fd rest (ns_bytes (op_header OP_REQ_DEVLIST 0)) (k_trace k').
Proof.
  intros Hl Hn Hc. unfold get_exported_devices, devlist_answer in *. rewrite <- !app_assoc in Hc.
  destruct (send_op_common_run _ _ _ _ _ s k req_devlist_u16 ok_u32 Hc) as (k1 & Hrun1 & Hc1 & _).
  destruct (recv_op_common_run _ OP_REP_DEVLIST _ _ _ s k1 (op_header_wf _ _ rep_devlist_u16 ok_u32) Hc1)
    as (k2 & Hrun2 & Hc2 & _).
  destruct (recv_struct_run (mkDevlistRep (Z.of_nat (length l))) fd _ _ s k2 (ndev_wf l Hn) Hc2)
    as (mem & k3 & Hrun3 & Hm & Hc3 & _).
  destruct (recv_devices_run fd l rest _ s k3 Hl Hc3) as (k4 & Hrun4 & Hc4 & _).
  erewrite bind_ok by exact Hrun1. cbv beta. change (0 <? 0) with false. cbv iota.
  erewrite bind_ok by exact Hrun2. cbv beta iota. change (0 <? 0) with false. cbv iota.
  erewrite bind_ok by exact Hrun3. cbv beta iota. change (Z.of_nat ns_size <? 0) with false. cbv iota zeta.
  change (PACK_OP_DEVLIST_REPLY false (mkDevlistRep (word_of mem)))
    with (ns_pack (A:=op_devlist_reply) _ false (ns_of_mem _ mem)). rewrite Hm. cbn [rep_ndev].
  destruct (Z.of_nat (length l) =? 0) eqn:E; bool_to_prop.
  - destruct l; [|done]. exists k3. split; [done|]. exact Hc3.
  - rewrite Nat2Z.id. exists k4. split; [|exact Hc4]. erewrite bind_ok by exact Hrun4. done.
Qed.
End client.

(** C22: [usbip list] prints the devices the daemon exports.  The daemon answers
    the very request the command sends, with every device and its interfaces;
    the command reads from the answer the list the daemon has: between machines
    of any byte order, however the connection splits the messages. *)
Theorem devlist_exchange (E1 : Env) (A1 : Arch) `{Sysfs} fd1 rest1 hd0 hd k1 :
  Forall edev_wf (hd_edev_list hd) -> Z.of_nat (length (hd_edev_list hd)) < 2 ^ 32 ->
  finds_devices fd1 hd0 hd k1 ->
  conn fd1 (ns_bytes (op_header OP_REQ_DEVLIST 0) ++ rest1) [] (k_trace k1) ->
  exists k1', recv_pdu fd1 (Some hd0) k1 = Ok (0, Some hd, k1') /\
    let answer := sent_to fd1 (k_trace k1') in
    forall (E2 : Env) (A2 : Arch) St fd2 rest2 k2 (s2 : St),
      @conn E2 fd2 (answer ++ rest2) [] (k_trace k2) ->
      exists k2', @get_exported_devices E2 A2 St fd2 s2 k2 =
          Ok ((0, map (fun e => (ed_udev e, ed_uinf e)) (hd_edev_list hd)), s2, k2') /\
        @sent_to E2 fd2 (k_trace k2') = ns_bytes (op_header OP_REQ_DEVLIST 0).
Proof.
  intros Hl Hn Hf Hc. destruct hd as [n l]. cbn [hd_edev_list] in *.
  destruct (recv_pdu_run OP_REQ_DEVLIST fd1 hd0 (mkHostDriver n l) rest1 k1) as (k & Hk & Hrun);
    [done|done|done|].
  destruct (devlist_served_run fd1 rest1 l n k Hl Hn Hk) as (k1' & Hrun1 & Hc1).
  exists k1'. split; [by rewrite Hrun|]. cbv zeta. intros E2 A2 St fd2 rest2 k2 s2 Hc2.
  rewrite (conn_out _ _ _ _ Hc1) in Hc2.
  destruct (@devlist_read_run E2 A2 St fd2 rest2 l s2 k2 Hl Hn Hc2) as (k2' & Hrun2 & Hc2').
  exists k2'. split; [exact Hrun2|]. exact (@conn_out E2 _ _ _ _ Hc2').
Qed.

(** ** Importing a device *)

Definition import_wire (busid : list Z) : list Z :=
  ns_bytes (op_header OP_REQ_IMPORT 0) ++ ns_bytes (import_request busid).
Definition import_answer (o : option usbip_exported_device) : list Z :=
  match o with
  | Some edev => ns_bytes (op_header OP_REP_IMPORT ST_OK) ++ ns_bytes (ed_udev edev)
  | None => ns_bytes (op_header OP_REP_IMPORT ST_NA)
  end.

(** The available device was given the connection, through its attribute. *)
Definition handed_over (fd : Z) (edev : usbip_exported_device) (tr : list call) : Prop :=
  ed_status edev = UST_SDEV_AVAILABLE /\ exists len,
    UWriteAttr (intf_attr (ed_udev edev) (text "usbip_sockfd"))
      (snprintf 30 (print_d fd ++ [chr_newline])) len ∈ tr.

Lemma handed_over_talked `{Env} fd edev k k' :
  talked fd k k' -> handed_over fd edev (k_trace k) -> handed_over fd edev (k_trace k').
Proof.
  intros (tr & -> & _) (Hs & len & Hin). split; [done|]. exists len. apply elem_of_app. by right.
Qed.

Lemma import_request_length busid : ns_wf (import_request busid).
Proof.
  change (length (strncpy (SYSFS_BUS_ID_SIZE - 1) busid ++ [0]) = SYSFS_BUS_ID_SIZE).
  by rewrite length_app, length_strncpy.
Qed.

Lemma import_request_text busid :
  (strnlen SYSFS_BUS_ID_SIZE busid < SYSFS_BUS_ID_SIZE)%nat ->
  req_busid (import_request busid) = strncpy SYSFS_BUS_ID_SIZE busid.
Proof. intros Hl. by apply strncpy_terminated. Qed.

Lemma import_reply_wf d : ns_wf d -> ns_wf (mkImportRep d).
Proof. done. Qed.

Lemma find_edev_in busid l edev :
  find_edev busid l = Some edev ->
  edev ∈ l /\ strncmp_eq SYSFS_BUS_ID_SIZE busid (uu_busid (ed_udev edev)) = true.
Proof.
  induction l as [|e l IH]; [done|]. cbn [find_edev]. case_if.
  - intros [= <-]. split; [left|exact Etest].
  - intros [Hin ?]%IH. split; [by right|done].
Qed.

Section import.
Context `{Env} `{Arch} `{Sysfs}.

Lemma export_run edev fd s k :
  exists rc k', usbip_host_export_device edev fd s k = Ok (rc, s, k') /\
    (0 <= rc -> handed_over fd edev (k_trace k')).
Proof.
  unfold usbip_host_export_device. destruct (ed_status edev =? UST_SDEV_AVAILABLE) eqn:E; cbn [negb].
  2: { eexists _, _. split; [reflexivity|]. lia. }
  bool_to_prop. erewrite bind_ok by apply ext_ret_ok. cbv beta.
  destruct (_ =? 0); [eexists _, _; split; [reflexivity|]; lia|].
  eexists _, _. split; [apply ext_ret_ok|]. intros _. split; [done|]. eexists. left.
Qed.

(** What the daemon does with the request: the device found was handed the
    connection, or could not be, or there is none. *)
Definition import_outcome (fd : Z) (busid : list Z) (hd : usbip_host_driver) (k' : kernel) (ret : Z)
    (o : option usbip_exported_device) : Prop :=
  match o with
  | Some edev => find_edev (req_busid (import_request busid)) (hd_edev_list hd) = Some edev /\
                 handed_over fd edev (k_trace k') /\ ret = 0
  | None => ret = -1 /\ forall edev,
      find_edev (req_busid (import_request busid)) (hd_edev_list hd) = Some edev ->
      exists rc k1 k2, usbip_host_export_device edev fd (Some hd) k1 = Ok (rc, Some hd, k2) /\ rc < 0
  end.

Lemma import_served_run fd busid rest hd k :
  Forall (fun e => ns_wf (ed_udev e)) (hd_edev_list hd) ->
  conn fd (ns_bytes (import_request busid) ++ rest) [] (k_trace k) ->
  exists ret o k', recv_request_import fd (Some hd) k = Ok (ret, Some hd, k') /\
    conn fd rest (import_answer o) (k_trace k') /\ import_outcome fd busid hd k' ret o.
Proof.
  intros Hwf Hc. unfold recv_request_import.
  destruct (recv_struct_run (import_request busid) fd rest [] (Some hd) k (import_request_length busid) Hc)
    as (mem & k1 & Hrun1 & Hm & Hc1 & _).
  erewrite bind_ok by exact Hrun1. cbv beta iota. change (Z.of_nat ns_size <? 0) with false. cbv iota zeta.
  change (PACK_OP_IMPORT_REQUEST false (mkImportReq mem))
    with (ns_pack (A:=op_import_request) _ false (ns_of_mem _ mem)). rewrite Hm.
  erewrite bind_ok by reflexivity. cbv beta. unfold import_outcome.
  destruct (find_edev _ _) as [edev|] eqn:Hfind.
  - destruct (nodelay_run fd rest [] (Some hd) k1 Hc1) as (rc0 & k2 & Hrun2 & Hc2 & _).
    destruct (export_run edev fd (Some hd) k2) as (rc & k3 & Hrun3 & Hho).
    destruct (silent_export _ _ _ _ _ _ _ Hrun3) as (tr & Ek3 & Htr).
    assert (conn fd rest [] (k_trace k3)) as Hc3 by (rewrite Ek3; by apply conn_silent).
    erewrite bind_ok.
    2: { erewrite bind_ok by exact Hrun2. cbv beta. erewrite bind_ok by exact Hrun3. reflexivity. }
    cbv beta. destruct (rc <? 0) eqn:E; bool_to_prop.
    + destruct (send_op_common_run _ _ fd rest [] (Some hd) k3 rep_import_u16 na_u32 Hc3) as (k4 & Hrun4 & Hc4 & _).
      exists (-1), None, k4. erewrite bind_ok by exact Hrun4. split; [done|]. split; [exact Hc4|].
      split; [done|]. intros e [= <-]. by exists rc, k2, k3.
    + destruct (send_op_common_run _ _ fd rest [] (Some hd) k3 rep_import_u16 ok_u32 Hc3) as (k4 & Hrun4 & Hc4 & Ht4).
      assert (ns_wf (ed_udev edev)) as Hd.
      { rewrite Forall_forall in Hwf. by apply Hwf, (find_edev_in _ _ _ Hfind). }
      destruct (send_struct_run (ed_udev edev) fd rest _ (Some hd) k4 Hd Hc4) as (k5 & Hrun5 & Hc5 & Ht5).
      exists 0, (Some edev), k5. split; [|split; [exact Hc5|]].
      * erewrite bind_ok by exact Hrun4. cbv beta. change (0 <? 0) with false. cbv iota zeta.
        erewrite bind_ok by exact Hrun5. done.
      * split; [done|]. split; [|done]. eapply handed_over_talked; [exact Ht5|].
        eapply handed_over_talked; [exact Ht4|]. auto.
  - destruct (send_op_common_run _ _ fd rest [] (Some hd) k1 rep_import_u16 na_u32 Hc1) as (k4 & Hrun4 & Hc4 & _).
    exists (-1), None, k4. erewrite bind_ok by reflexivity. cbv beta. erewrite bind_ok by exact Hrun4.
    split; [done|]. split; [exact Hc4|]. done.
Qed.

Lemma import_read_run fd busid o rest (s : option usbip_vhci_driver) k :
  match o with
  | Some edev => ns_wf (ed_udev edev) /\
                 strncmp_eq SYSFS_BUS_ID_SIZE (uu_busid (ed_udev edev)) busid = true
  | None => True
  end ->
  conn fd (import_answer o ++ rest) [] (k_trace k) ->
  exists k', conn fd rest (import_wire busid) (k_trace k') /\
    query_import_device fd busid s k =
      match o with
      | Some edev => import_device fd (ed_udev edev) s k'
      | None => Ok (-1, s, k')
      end.
Proof.
  intros Ho Hc. unfold query_import_device, import_wire.
  destruct (send_op_common_run _ _ _ _ _ s k req_import_u16 ok_u32 Hc) as (k1 & Hrun1 & Hc1 & _).
  destruct (send_struct_run _ _ _ _ s k1 (import_request_length busid) Hc1) as (k2 & Hrun2 & Hc2 & _).
  change ([] ++ ns_bytes (op_header OP_REQ_IMPORT ST_OK)) with (ns_bytes (op_header OP_REQ_IMPORT 0)) in Hc2.
  destruct o as [edev|]; unfold import_answer in Hc2; rewrite <- ?app_assoc in Hc2.
  - destruct Ho as [Hd Hcmp].
    destruct (recv_op_common_run _ OP_REP_IMPORT _ _ _ s k2 (op_header_wf _ _ rep_import_u16 ok_u32) Hc2)
      as (k3 & Hrun3 & Hc3 & _).
    destruct (recv_struct_run (mkImportRep (ed_udev edev)) fd rest _ s k3 (import_reply_wf _ Hd) Hc3) as (mem & k4 & Hrun4 & Hm & Hc4 & _).
    exists k4. split; [exact Hc4|].
    erewrite bind_ok by exact Hrun1. cbv beta. change (0 <? 0) with false. cbv iota.
    erewrite bind_ok by exact Hrun2. cbv beta. change (Z.of_nat ns_size <? 0) with false. cbv iota.
    erewrite bind_ok by exact Hrun3. cbv beta iota. change (0 <? 0) with false. cbv iota.
    erewrite bind_ok by exact Hrun4. cbv beta iota. change (Z.of_nat ns_size <? 0) with false. cbv iota zeta.
    change (PACK_OP_IMPORT_REPLY false (mkImportRep (usb_device_of_mem mem)))
      with (ns_pack (A:=op_import_reply) _ false (ns_of_mem _ mem)). rewrite Hm. cbn [rep_udev].
    by rewrite Hcmp.
  - destruct (recv_op_common_run _ OP_REP_IMPORT _ _ _ s k2 (op_header_wf _ _ rep_import_u16 na_u32) Hc2)
      as (k3 & Hrun3 & Hc3 & _).
    exists k3. split; [exact Hc3|].
    erewrite bind_ok by exact Hrun1. cbv beta. change (0 <? 0) with false. cbv iota.
    erewrite bind_ok by exact Hrun2. cbv beta. change (Z.of_nat ns_size <? 0) with false. cbv iota.
    erewrite bind_ok by exact Hrun3. done.
Qed.
End import.

(** C10: importing a device.  The daemon answers the very request the command
    sends: if it exports a device of that bus id that is available, it hands
    the connection to that device and describes it; else it answers with an
    error.  The command then goes on to attach exactly the device that was
    handed the connection, or fails. *)
Theorem import_exchange (E1 : Env) (A1 : Arch) (S1 : Sysfs) fd1 busid rest1 hd0 hd k1 :
  Forall (fun e => ns_wf (ed_udev e)) (hd_edev_list hd) ->
  (strnlen SYSFS_BUS_ID_SIZE busid < SYSFS_BUS_ID_SIZE)%nat ->
  finds_devices fd1 hd0 hd k1 -> conn fd1 (import_wire busid ++ rest1) [] (k_trace k1) ->
  exists ret o k1', recv_pdu fd1 (Some hd0) k1 = Ok (ret, Some hd, k1') /\
    import_outcome fd1 busid hd k1' ret o /\
    let answer := sent_to fd1 (k_trace k1') in
    forall (E2 : Env) (A2 : Arch) (S2 : Sysfs) fd2 rest2 k2 s2,
      @conn E2 fd2 (answer ++ rest2) [] (k_trace k2) ->
      exists k2', @sent_to E2 fd2 (k_trace k2') = import_wire busid /\
        @query_import_device E2 A2 S2 fd2 busid s2 k2 =
          match o with
          | Some edev => @import_device E2 S2 fd2 (ed_udev edev) s2 k2'
          | None => Ok (-1, s2, k2')
          end.
Proof.
  intros Hwf Hbid Hf Hc. unfold import_wire in Hc. rewrite <- app_assoc in Hc.
  destruct (recv_pdu_run OP_REQ_IMPORT fd1 hd0 hd _ k1 req_import_u16 Hf Hc) as (k & Hk & Hrun).
  destruct (import_served_run fd1 busid rest1 hd k Hwf Hk) as (ret & o & k1' & Hrun1 & Hc1 & Hout).
  exists ret, o, k1'. split; [by rewrite Hrun|]. split; [exact Hout|].
  cbv zeta. intros E2 A2 S2 fd2 rest2 k2 s2 Hc2.
  rewrite (conn_out _ _ _ _ Hc1) in Hc2.
  assert (match o with
          | Some edev => ns_wf (ed_udev edev) /\
                         strncmp_eq SYSFS_BUS_ID_SIZE (uu_busid (ed_udev edev)) busid = true
          | None => True end) as Ho.
  { destruct o as [edev|]; [|done]. destruct Hout as (Hfind & _ & _).
    rewrite import_request_text in Hfind by done. destruct (find_edev_in _ _ _ Hfind) as [Hin E].
    rewrite Forall_forall in Hwf. split; [by apply Hwf|]. rewrite strncmp_eq_sym.
    eapply strncmp_eq_trans; [rewrite strncmp_eq_sym; apply strncmp_eq_strncpy|exact E]. }
  destruct (@import_read_run E2 A2 S2 fd2 busid o rest2 s2 k2 Ho Hc2) as (k2' & Hc2' & Hrun2).
  exists k2'. split; [exact (@conn_out E2 _ _ _ _ Hc2')|exact Hrun2].
Qed.

(** ** Samples *)

(** A connection on which [stream] arrives, at most [chunk] bytes at a time, on
    a machine whose attribute files all read "1". *)
Fixpoint taken (chunk : Z) (stream : list Z) (fd : Z) (tr : list call) : Z :=
  match tr with
  | [] => 0
  | c :: tr' =>
      let d := taken chunk stream fd tr' in
      match c with
      | URecv fd' n => if fd' =? fd then d + Z.max 0 (Z.min (Z.min n chunk) (Z.of_nat (length stream) - d))
                       else d
      | _ => d
      end
  end.
Definition net_env (chunk : Z) (stream : list Z) : Env := fun tr c =>
  match c with
  | URecv fd n =>
      let d := taken chunk stream fd tr in
      let m := Z.max 0 (Z.min (Z.min n chunk) (Z.of_nat (length stream) - d)) in
      (m, take (Z.to_nat m) (drop (Z.to_nat d) stream))
  | USend _ _ n => (Z.min n chunk, [])
  | UReadAttr _ => (0, text "1")
  | UStat _ => (0, [])
  | _ => (1, [])
  end.

Lemma taken_received chunk stream fd tr :
  0 <= taken chunk stream fd tr <= Z.of_nat (length stream) /\
  Z.of_nat (length (@received (net_env chunk stream) fd tr)) = taken chunk stream fd tr.
Proof.
  induction tr as [|c tr [IH1 IH2]]; [cbn; lia|]. cbn [taken received]. rewrite length_app, Nat2Z.inj_add, IH2.
  destruct c; cbn [length]; try lia. destruct (_ =? _) eqn:E; cbn [length]; [|lia].
  bool_to_prop. subst. cbn [net_env env_answer fst snd]. rewrite !length_take, length_drop. lia.
Qed.

Lemma net_env_conn chunk stream fd : 0 < chunk -> @conn (net_env chunk stream) fd stream [] [].
Proof.
  intros Hc. split; [|intros tr data n Hn; cbn; lia|done]. exists stream. split; [|done].
  intros tr n rest Hs Hn. destruct (taken_received chunk stream fd tr) as [H1 H2].
  cbn [net_env env_answer fst snd]. set (d := taken chunk stream fd tr) in *.
  assert (drop (Z.to_nat d) stream = rest) as ->.
  { rewrite Hs, <- H2, Nat2Z.id. apply drop_app_length. }
  assert (Z.of_nat (length stream) - d = Z.of_nat (length rest)) as -> by (rewrite Hs at 1; rewrite length_app; lia).
  split; [lia|]. split; [lia|]. split; [done|]. intros Hr. destruct rest; [done|]. cbn [length]. lia.
Qed.

Definition sample_sf : sysfs_device := mkSysfsDev (text "/sys/1-1") (text "1-1") (text "1-1") (text "usb").
(** One device, bound to the driver of the host. *)
Definition sample_sysfs : Sysfs :=
  {| sysfs_open_device _ _ _ := Some sample_sf;
     sysfs_open_device_path _ _ := Some sample_sf; sysfs_get_device_parent _ _ := Some sample_sf;
     sysfs_open_driver _ _ _ := true; sysfs_get_driver_devices _ _ _ := Some [sample_sf];
     sysfs_get_device_attr _ _ _ := None; sysfs_get_driver_attr _ _ _ _ := false;
     sysfs_get_mnt_path _ := None; sysfs_class_names _ := None; sysfs_class_devices _ _ := None;
     sysfs_get_link _ _ := None |}.
Definition sample_edev : usbip_exported_device :=
  mkEdev UST_SDEV_AVAILABLE
    (mkUusb (strncpy SYSFS_PATH_MAX (text "/sys/1-1")) (strncpy SYSFS_BUS_ID_SIZE (text "1-1"))
       1 1 0 1 1 1 1 1 1 1 1 1)
    [mkUif 1 1 1 0].
Definition sample_hd : usbip_host_driver := mkHostDriver 1 [sample_edev].

Lemma sample_finds chunk stream hd0 k :
  @finds_devices (net_env chunk stream) sample_sysfs 3 hd0 sample_hd k.
Proof. intros k1 _. eexists. lazy. reflexivity. Qed.

Lemma sample_edev_wf : edev_wf sample_edev.
Proof. split; [|done]. split_and!; done. Qed.

Definition sample_machine : kernel := mkKernel ∅ ∅ ∅ ∅ [] [] 1.

Lemma devlist_exchange_witness :
  exists k1' k2' answer,
    @recv_pdu (net_env 5 (ns_bytes (op_header OP_REQ_DEVLIST 0) ++ [])) true sample_sysfs 3
      (Some sample_hd) sample_machine = Ok (0, Some sample_hd, k1') /\
    @get_exported_devices (net_env 7 (answer ++ [])) false unit 4 tt sample_machine =
      Ok ((0, [(ed_udev sample_edev, ed_uinf sample_edev)]), tt, k2').
Proof.
  destruct (@devlist_exchange (net_env 5 (ns_bytes (op_header OP_REQ_DEVLIST 0) ++ [])) true sample_sysfs 3 []
    sample_hd sample_hd sample_machine (Forall_cons_2 _ _ _ sample_edev_wf (Forall_nil_2 _)) eq_refl
    (sample_finds _ _ _ _) (net_env_conn 5 _ 3 eq_refl)) as (k1' & Hrun & Hclient).
  destruct (Hclient _ false unit 4 [] sample_machine tt (net_env_conn 7 _ 4 eq_refl)) as (k2' & Hrun2 & _).
  exists k1', k2'. eexists. split; [exact Hrun|exact Hrun2].
Defined.

Lemma import_exchange_witness :
  exists k1' k2' answer,
    @recv_pdu (net_env 5 (import_wire (text "1-1") ++ [])) true sample_sysfs 3
      (Some sample_hd) sample_machine = Ok (0, Some sample_hd, k1') /\
    handed_over 3 sample_edev (k_trace k1') /\
    @query_import_device (net_env 7 (answer ++ [])) false sample_sysfs 4 (text "1-1") None sample_machine =
      @import_device (net_env 7 (answer ++ [])) sample_sysfs 4 (ed_udev sample_edev) None k2'.
Proof.
  destruct (@import_exchange (net_env 5 (import_wire (text "1-1") ++ [])) true sample_sysfs 3 (text "1-1") []
    sample_hd sample_hd sample_machine (Forall_cons_2 (fun e => ns_wf (ed_udev e)) sample_edev [] (proj1 sample_edev_wf) (Forall_nil_2 _))
    ltac:(apply (bool_decide_unpack _); by vm_compute)
    (sample_finds _ _ _ _) (net_env_conn 5 _ 3 eq_refl)) as (ret & o & k1' & Hrun & Hout & Hclient).
  destruct o as [edev|].
  - destruct Hout as (Hfind & Hover & ->). injection Hfind as <-.
    destruct (Hclient _ false sample_sysfs 4 [] sample_machine None (net_env_conn 7 _ 4 eq_refl)) as (k2' & _ & Hrun2).
    exists k1', k2'. eexists. split; [exact Hrun|]. split; [exact Hover|exact Hrun2].
  - exfalso. destruct Hout as [_ Hno]. destruct (Hno sample_edev eq_refl) as (rc & k2 & k3 & Hexp & Hrc).
    revert Hexp. lazy. intros [= <- _]. done.
Defined.
