(* ===== verification/AttachProps.v ===== *)
(** * Attaching and the ports

    What user space writes to the controller's [attach] file, and what the
    controller makes of it. *)
From Stdlib Require Import String.
From S2P Require Import Prelude CLib Kernel Wire Event EventProps Exec Xfer.
From S2P Require Import Vhci VhciHcd VhciSysfs VhciProps StubHostProps.
From S2P Require Import NetWire Sysfs HostDriver VhciDriver ToolProps.

Local Open Scope Z_scope.

(** ** Numbers as text *)

Lemma length_print_base b fuel x : (length (print_base b fuel x) <= fuel)%nat.
Proof.
  revert x. induction fuel as [|fuel IH]; intros x; cbn [print_base]; [cbn; lia|].
  case_if; [cbn; lia|]. rewrite length_app. specialize (IH (x / b)). cbn. lia.
Qed.

Lemma scan_us_S n s v rest : scan_u s = Some (v, rest) -> scan_us (S n) s = v :: scan_us n rest.
Proof. intros E. cbn [scan_us]. by rewrite E. Qed.

Lemma scan_u_print_space x rest :
  is_u32 x -> scan_u (print_u x ++ chr_space :: rest) = Some (x, chr_space :: rest).
Proof. intros Hx. by apply scan_u_print. Qed.

(** The four numbers of the command are read back, and nothing is cut off. *)
Lemma attach_command_scanned port sockfd devid speed :
  is_u32 port -> is_u32 devid -> is_u32 speed ->
  snprintf 200 (attach_command port sockfd devid speed) = attach_command port sockfd devid speed /\
  scan_us 4 (attach_command port sockfd devid speed) = [port; u32 sockfd; devid; speed].
Proof.
  intros Hp Hd Hs. pose proof (u32_range sockfd) as Hf. split.
  - unfold snprintf. apply take_ge. unfold attach_command, print_u. rewrite !length_app.
    pose proof (length_print_base 10 20 port). pose proof (length_print_base 10 20 (u32 sockfd)).
    pose proof (length_print_base 10 20 devid). pose proof (length_print_base 10 20 speed). cbn [length]. lia.
  - unfold attach_command. cbn [app].
    rewrite (scan_us_S _ _ port _ (scan_u_print_space _ _ Hp)).
    rewrite (scan_us_S _ _ (u32 sockfd) (chr_space :: print_u devid ++ chr_space :: print_u speed)).
    2: { rewrite scan_u_space. by apply scan_u_print_space. }
    rewrite (scan_us_S _ _ devid (chr_space :: print_u speed)).
    2: { rewrite scan_u_space. by apply scan_u_print_space. }
    rewrite (scan_us_S _ _ speed []); [done|]. rewrite scan_u_space, <- (app_nil_r (print_u speed)).
    by apply scan_u_print.
Qed.

(** ** Attaching *)

(** A port just connected. *)
Definition attached (sock devid speed : Z) (tr : list call) `{Env} (v : vhci_device) : vhci_device :=
  v <| vd_devid := devid |> <| vd_speed := speed |>
    <| vd_ud := (vd_ud v) <| ud_tcp_socket := Some sock |> <| ud_status := VDEV_ST_NOTASSIGNED |>
         <| ud_tcp_rx := started T_RX tr |> <| ud_tcp_tx := started T_TX (CKthreadRun T_RX :: tr) |> |>.

(** The register of a port a device was connected to. *)
Definition status_connected (speed w : Z) : Z :=
  u32 (set_bits (u32 (set_bits w (Z.lor USB_PORT_STAT_CONNECTION (bit USB_PORT_FEAT_C_CONNECTION))))
         (speed_bits speed)).

Lemma update_port_run f port w h (k : kernel) :
  hc_port_status h !! port = Some w ->
  update_port (Z.of_nat port) f h k =
    Ok (tt, h <| hc_port_status := <[port := u32 (f w)]> (hc_port_status h) |>, k).
Proof.
  intros Hw. unfold update_port, set_port_status.
  assert (forall A (g : Z -> Kernel.M vhci_hcd A),
    (get_port_status (Z.of_nat port) ≫= g) h k = g w h k) as Hget.
  { intros A g. unfold get_port_status. rewrite (proj2 (Z.ltb_ge _ 0)) by lia.
    unfold mbind, M_bind, gets. by rewrite Nat2Z.id, Hw. }
  rewrite Hget. rewrite Hget. by rewrite Nat2Z.id.
Qed.

Lemma rh_port_connect_run `{Env} port speed w h k :
  hc_port_status h !! port = Some w -> LockController ∉ k_locks k ->
  rh_port_connect (Z.of_nat port) speed h k =
    Ok (tt, h <| hc_port_status := <[port := status_connected speed w]> (hc_port_status h) |>,
        traced [CPollRhStatus] k).
Proof.
  intros Hw Hl. unfold rh_port_connect. exec_step.
  erewrite bind_ok by (by apply update_port_run). cbv beta.
  erewrite bind_ok by (apply update_port_run; apply list_lookup_insert_eq; by eapply lookup_lt_Some).
  cbv beta. exec_step. unfold ext_do. erewrite bind_ok by reflexivity. cbn. rewrite list_insert_insert_eq.
  by destruct k.
Qed.

Definition valid_speed (speed : Z) : bool :=
  (speed =? USB_SPEED_LOW) || (speed =? USB_SPEED_FULL) || (speed =? USB_SPEED_HIGH)
  || (speed =? USB_SPEED_WIRELESS).

(** What the controller does with a request to attach. *)
Definition attach_result `{Env} (port : nat) (fd devid speed count w : Z) (v : vhci_device)
    (h : vhci_hcd) (k : kernel) : res (Z * vhci_hcd * kernel) :=
  let tr := lookup_calls fd (k_trace k) in
  if negb (valid_speed speed) then Ok (- EINVAL, h, k)
  else if negb (is_socket fd (k_trace k)) then Ok (- EINVAL, h, traced tr k)
  else if bool_decide (ud_status (vd_ud v) = VDEV_ST_NULL) then
    Ok (count,
        set_vdev port (attached (file_of fd (k_trace k)) devid speed (tr ++ k_trace k) v)
          (h <| hc_port_status := <[port := status_connected speed w]> (hc_port_status h) |>),
        traced (CPollRhStatus :: CKthreadRun T_TX :: CKthreadRun T_RX :: tr) k)
  else Ok (- EINVAL, h, traced (CFput (file_of fd (k_trace k)) :: tr) k).

Lemma store_attach_run `{Env} port fd devid speed count v w h k :
  (port < VHCI_NPORTS)%nat -> 0 <= fd < 2 ^ 31 -> is_u32 devid -> is_u32 speed ->
  hc_vdev h !! port = Some v -> hc_port_status h !! port = Some w ->
  LockController ∉ k_locks k -> LockUd 1 ∉ k_locks k ->
  store_attach (attach_command (Z.of_nat port) fd devid speed) count h k =
    attach_result port fd devid speed count w v h k.
Proof.
  intros Hp Hfd Hd Hs Hv Hw Hl1 Hl2. unfold store_attach. cbv zeta.
  assert (is_u32 (Z.of_nat port)) as Hp32 by (unfold is_u32, VHCI_NPORTS in *; lia).
  destruct (attach_command_scanned _ fd _ _ Hp32 Hd Hs) as [_ ->].
  assert (u32 (s32 (u32 fd)) = fd) as Hfd'.
  { rewrite u32_s32, u32_u32. apply u32_id. unfold is_u32. lia. }
  cbn [nth]. rewrite Nat2Z.id, Hfd'. unfold valid_args, attach_result.
  rewrite Z.geb_leb, (proj2 (Z.leb_gt _ _)) by lia. fold (valid_speed speed).
  destruct (valid_speed speed); cbn [negb]; [|done]. change (0 <? 0) with false. cbv iota.
  erewrite bind_ok by (eapply on_vdev_ok; [exact Hv|apply sockfd_to_socket_run]). cbv beta.
  rewrite set_vdev_same by done. destruct (is_socket fd (k_trace k)); cbn [negb]; [|done].
  exec_step. erewrite bind_ok by (eapply on_vdev_ok; [exact Hv|exec_step; reflexivity]). cbv beta.
  rewrite set_vdev_same by done.
  destruct (decide (ud_status (vd_ud v) = VDEV_ST_NULL)) as [E|E].
  - rewrite bool_decide_eq_false_2 by naive_solver. rewrite (bool_decide_eq_true_2 _ E).
    erewrite bind_ok by (by eapply on_vdev_ok). cbv beta. do 2 exec_step.
    erewrite bind_ok by (eapply on_vdev_ok; [by eapply set_vdev_lookup|reflexivity]). cbv beta.
    erewrite bind_ok by (eapply rh_port_connect_run; [exact Hw|exact Hl1]). cbv beta.
    unfold mret, M_ret. rewrite set_vdev_twice. by destruct k.
  - rewrite bool_decide_eq_true_2 by done. rewrite (bool_decide_eq_false_2 _ E).
    do 2 exec_step. erewrite bind_ok by apply ext_do_ok. by destruct k.
Qed.

(** The device id of a bus and a device number. *)
Lemma get_devid_range busnum devnum : 0 <= get_devid busnum devnum < 2 ^ 24.
Proof.
  unfold get_devid, u8, wrap. change (2 ^ 8) with 256.
  pose proof (Z.mod_pos_bound busnum 256 ltac:(lia)) as Hb.
  pose proof (Z.mod_pos_bound devnum 256 ltac:(lia)) as Hd.
  rewrite Z.shiftl_mul_pow2 by lia. change (2 ^ 16) with 65536.
  pose proof (Z.add_lor_land (busnum mod 256 * 65536) (devnum mod 256)).
  assert (0 <= Z.land (busnum mod 256 * 65536) (devnum mod 256)) by (apply Z.land_nonneg; lia).
  assert (0 <= Z.lor (busnum mod 256 * 65536) (devnum mod 256)) by (apply Z.lor_nonneg; lia).
  lia.
Qed.

(** C21: the command to attach a device that user space writes is what the
    controller acts on: the port, connection, device id and speed it names.
    The port takes the connection if it is free, the speed is one of USB's and
    the descriptor is a socket: it then has socket and threads, waits for its
    address, and its register shows the connection and the speed.  In every
    other case the controller reports an error and is as it was, and a file it
    looked up is put back. *)
Theorem attach_reaches_kernel (E1 E2 : Env) `{Sysfs} d attr port fd busnum devnum speed v w h ku k :
  sysfs_get_device_attr (k_trace ku) (dr_hc_device d) (text "attach") = Some attr ->
  (port < VHCI_NPORTS)%nat -> 0 <= fd < 2 ^ 31 -> is_u32 speed ->
  hc_vdev h !! port = Some v -> hc_port_status h !! port = Some w ->
  LockController ∉ k_locks k -> LockUd 1 ∉ k_locks k ->
  exists path command, let c := UWriteAttr path command (Z.of_nat (length command)) in
    @usbip_vhci_attach_device E1 _ (Z.of_nat port) fd busnum devnum speed (Some d) ku =
      Ok (if (@env_answer E1 (k_trace ku) c).1 <? 0 then -1 else 0, Some d, traced [c] ku) /\
    @store_attach E2 command (Z.of_nat (length command)) h k =
      @attach_result E2 port fd (get_devid busnum devnum) speed (Z.of_nat (length command)) w v h k.
Proof.
  intros Hattr Hp Hfd Hs Hv Hw Hl1 Hl2. pose proof (get_devid_range busnum devnum) as Hd.
  assert (is_u32 (get_devid busnum devnum)) as Hd32 by (unfold is_u32; lia).
  assert (is_u32 (Z.of_nat port)) as Hp32 by (unfold is_u32, VHCI_NPORTS in *; lia).
  destruct (attach_command_scanned _ fd _ _ Hp32 Hd32 Hs) as [Hcut _].
  exists (attr_path (sf_path (dr_hc_device d)) (text "attach")),
    (attach_command (Z.of_nat port) fd (get_devid busnum devnum) speed).
  cbv zeta. split; [|by apply (@store_attach_run E2)].
  unfold usbip_vhci_attach_device, usbip_vhci_attach_device2, write_hc_attr.
  erewrite bind_ok by reflexivity. cbv beta. erewrite bind_ok by reflexivity. cbv beta. rewrite Hattr.
  assert (u8 (Z.of_nat port) = Z.of_nat port) as -> by (apply Z.mod_small; unfold VHCI_NPORTS in *; lia).
  rewrite (u32_id _ Hd32), (u32_id _ Hs), Hcut.
  erewrite bind_ok by apply ext_ret_ok. cbv beta. by destruct (_ <? 0).
Qed.

(** *** Sample: attaching a device to port 1 *)

Definition attach_sysfs : Sysfs :=
  {| sysfs_open_device _ _ _ := None;
     sysfs_open_device_path _ _ := None; sysfs_get_device_parent _ _ := None;
     sysfs_open_driver _ _ _ := true; sysfs_get_driver_devices _ _ _ := None;
     sysfs_get_device_attr _ _ _ := Some []; sysfs_get_driver_attr _ _ _ _ := false;
     sysfs_get_mnt_path _ := None; sysfs_class_names _ := None; sysfs_class_devices _ _ := None;
     sysfs_get_link _ _ := None |}.
Definition attach_driver : usbip_vhci_driver :=
  mkVhciDriver (mkSysfsDev (text "/sys/vhci_hcd") (text "vhci_hcd") (text "vhci_hcd") (text "vhci_hcd")) [] 8 [].

Lemma attach_reaches_kernel_witness : exists path command k',
  @usbip_vhci_attach_device yes_env attach_sysfs 1 5 1 2 USB_SPEED_HIGH (Some attach_driver) sample_vhci_kernel =
    Ok (0, Some attach_driver, traced [UWriteAttr path command (Z.of_nat (length command))] sample_vhci_kernel) /\
  exists h', @store_attach yes_env command (Z.of_nat (length command)) sample_vhci sample_vhci_kernel =
    Ok (Z.of_nat (length command), h', k') /\
  (ud_status ∘ vd_ud <$> hc_vdev h' !! 1%nat) = Some VDEV_ST_NOTASSIGNED.
Proof.
  destruct (@attach_reaches_kernel yes_env yes_env attach_sysfs attach_driver [] 1 5 1 2 USB_SPEED_HIGH
    (idle_vdev 1) 256 sample_vhci sample_vhci_kernel sample_vhci_kernel eq_refl
    ltac:(unfold VHCI_NPORTS; lia) ltac:(lia) ltac:(unfold is_u32, USB_SPEED_HIGH; lia) eq_refl eq_refl
    (not_elem_of_nil _) (not_elem_of_nil _)) as (path & command & Hrun & Hattach).
  exists path, command. eexists. split; [exact Hrun|]. eexists. split; [exact Hattach|]. by vm_compute.
Defined.
