(* ===== verification/StatusProps.v ===== *)
(** * The status file

    The text the controller prints of its ports, read back by the library of
    user space. *)
From Stdlib Require Import String.
From S2P Require Import Prelude CLib FormatProps Kernel Wire Event EventProps Exec Xfer.
From S2P Require Import Vhci VhciHcd VhciSysfs VhciProps.
From S2P Require Import NetWire Sysfs HostDriver VhciDriver ToolProps.

Local Open Scope Z_scope.

(** ** A line of the file *)

(** How names and pointers look: a pointer is a hexadecimal number, perhaps
    behind spaces; a device's name is a word of less than 32 characters. *)
Class SysfsNamesOk `{SysfsNames} : Prop := {
  fmt_ptr_ok p : exists sp n x, fmt_ptr p = replicate sp 32 ++ pad0 n (print_x x) /\
    0 <= x < 16 ^ 16 /\ (2 <= n)%nat;
  dev_name_ok d : word (dev_name d) /\ dev_name d <> [] /\ (length (dev_name d) < SYSFS_BUS_ID_SIZE)%nat
}.

(** A port in one of its four states; a used one has its device. *)
Definition port_ok (v : vhci_device) : Prop :=
  (ud_status (vd_ud v) = VDEV_ST_NULL \/ ud_status (vd_ud v) = VDEV_ST_NOTASSIGNED \/
   ud_status (vd_ud v) = VDEV_ST_ERROR \/ ud_status (vd_ud v) = VDEV_ST_USED /\ exists d, vd_udev v = Some d) /\
  0 <= vd_speed v < 2 ^ 31 /\ is_u32 (vd_devid v).

Section lines.
Context `{SysfsNames}.

Definition port_text (v : vhci_device) : list Z :=
  match ud_status (vd_ud v), vd_udev v with
  | VDEV_ST_USED, Some d =>
      pad0 3 (print_u (vd_speed v)) ++ [32] ++ pad0 8 (print_x (vd_devid v)) ++ [32] ++
      fmt_ptr (default 0 (ud_tcp_socket (vd_ud v))) ++ [32] ++ dev_name d
  | _, _ => status_unused
  end.
Definition line_text (i : nat) (v : vhci_device) : list Z :=
  pad0 3 (print_u (Z.of_nat i)) ++ [32] ++ pad0 3 (print_u (status_num (ud_status (vd_ud v)))) ++ [32] ++
  port_text v ++ [chr_newline].
Fixpoint lines_text (i : nat) (vs : list vhci_device) : list Z :=
  match vs with [] => [] | v :: vs' => line_text i v ++ lines_text (S i) vs' end.

Lemma status_line_run i v k :
  port_ok v -> LockUd 1 ∉ k_locks k ->
  VhciSysfs.status_line i v k = Ok (line_text i v, v, k).
Proof.
  intros [Hst _] Hl. unfold VhciSysfs.status_line, line_text, port_text. exec_step. exec_step.
  destruct Hst as [E|[E|[E|[E [d Hd]]]]]; rewrite E.
  4: rewrite Hd. all: cbn [bool_decide decide].
  1,2,3: rewrite bool_decide_eq_false_2 by done.
  4: rewrite bool_decide_eq_true_2 by done.
  all: erewrite bind_ok by reflexivity; cbv beta; exec_step; destruct k; cbn;
    unfold mret, M_ret; by rewrite <- ?app_assoc.
Qed.

Lemma status_lines_run i n h k :
  (forall j v, hc_vdev h !! j = Some v -> port_ok v) -> (i + n = length (hc_vdev h))%nat ->
  LockUd 1 ∉ k_locks k ->
  status_lines i n h k = Ok (lines_text i (drop i (hc_vdev h)), h, k).
Proof.
  intros Hok. revert i. induction n as [|n IH]; intros i Hi Hl; cbn [status_lines].
  - rewrite drop_ge by lia. done.
  - destruct (lookup_lt_is_Some_2 (hc_vdev h) i ltac:(lia)) as [v Hv].
    erewrite bind_ok by (eapply on_vdev_ok; [exact Hv|by apply status_line_run; [eapply Hok|]]).
    cbv beta. rewrite set_vdev_same by done. erewrite bind_ok by (apply IH; [lia|done]).
    cbv beta. by rewrite (drop_S _ _ _ Hv).
Qed.

Lemma show_status_run h k :
  (forall j v, hc_vdev h !! j = Some v -> port_ok v) -> length (hc_vdev h) = VHCI_NPORTS ->
  LockController ∉ k_locks k -> LockUd 1 ∉ k_locks k ->
  VhciSysfs.show_status h k = Ok (status_header ++ lines_text 0 (hc_vdev h), h, k).
Proof.
  intros Hok Hlen Hl1 Hl2. unfold VhciSysfs.show_status. exec_step.
  erewrite bind_ok by (apply status_lines_run; [exact Hok|done|cbn; set_solver]). cbv beta.
  exec_step. by destruct k.
Qed.

(** What a line says when it is scanned. *)
Definition scanned (i : nat) (v : vhci_device) (l : VhciDriver.status_line) : Prop :=
  sl_port l = Z.of_nat i /\ sl_status l = status_num (ud_status (vd_ud v)) /\
  match ud_status (vd_ud v), vd_udev v with
  | VDEV_ST_USED, Some d => sl_devid l = s32 (vd_devid v) /\ sl_lbusid l = Some (dev_name d)
  | _, _ => sl_lbusid l = Some (replicate 16 48)
  end.
End lines.

Section reading_lines.
Context `{SysfsNamesOk}.

Lemma no_newline_app l1 l2 : no_newline l1 -> no_newline l2 -> no_newline (l1 ++ l2).
Proof. apply Forall_app_2. Qed.
Lemma no_newline_u n x : 0 <= x -> no_newline (pad0 n (print_u x)).
Proof. intros Hx. by apply hexs_no_newline, digits_hexs, digits_pad. Qed.
Lemma no_newline_x n x : 0 <= x -> no_newline (pad0 n (print_x x)).
Proof.
  intros Hx. apply hexs_no_newline. unfold pad0, pad_left. apply Forall_app_2; [by apply Forall_replicate|].
  by apply print_x_hexs.
Qed.
Lemma no_newline_blank : no_newline [32].
Proof. by repeat constructor. Qed.

Lemma port_text_no_newline v : port_ok v -> no_newline (port_text v).
Proof.
  intros (Hst & Hs & Hd). unfold port_text.
  destruct Hst as [E|[E|[E|[E [d Hv]]]]]; rewrite E; [apply (bool_decide_unpack _); by vm_compute..|].
  rewrite Hv. destruct (fmt_ptr_ok (default 0 (ud_tcp_socket (vd_ud v)))) as (sp & n & x & -> & Hx & _).
  destruct (dev_name_ok d) as (Hw & _ & _).
  assert (0 <= vd_devid v) by (unfold is_u32 in *; lia).
  apply no_newline_app; [apply no_newline_u; lia|]. apply no_newline_app; [apply no_newline_blank|].
  apply no_newline_app; [by apply no_newline_x|]. apply no_newline_app; [apply no_newline_blank|].
  apply no_newline_app; [apply no_newline_app; [by apply Forall_replicate|apply no_newline_x; lia]|].
  apply no_newline_app; [apply no_newline_blank|by apply word_no_newline].
Qed.

Lemma line_ends i v rest :
  port_ok v -> after_chr chr_newline (line_text i v ++ rest) = Some rest.
Proof.
  intros Hok. unfold line_text. rewrite <- !app_assoc. cbn [app].
  replace (pad0 3 (print_u (Z.of_nat i)) ++ 32 :: pad0 3 (print_u (status_num (ud_status (vd_ud v)))) ++
           32 :: port_text v ++ chr_newline :: rest)
    with ((pad0 3 (print_u (Z.of_nat i)) ++ [32] ++ pad0 3 (print_u (status_num (ud_status (vd_ud v)))) ++
           [32] ++ port_text v) ++ chr_newline :: rest) by (rewrite <- !app_assoc; done).
  apply after_newline.
  apply no_newline_app; [apply no_newline_u; lia|]. apply no_newline_app; [apply no_newline_blank|].
  apply no_newline_app; [apply no_newline_u; by destruct (ud_status (vd_ud v))|].
  apply no_newline_app; [apply no_newline_blank|by apply port_text_no_newline].
Qed.

Lemma status_num_range st : 0 <= status_num st < 2 ^ 31.
Proof. by destruct st. Qed.

(** Five conversions in a row. *)
Lemma scan_line_steps a b c x y w e rest (s0 s1 s2 s3 s4 : list Z) :
  scan_d s0 = Some (a, s1) -> scan_d s1 = Some (b, s2) -> scan_d s2 = Some (c, s3) ->
  scan_x_all s3 = Some (x, s4) -> scan_x_all s4 = Some (y, 32 :: w ++ e :: rest) ->
  word w -> w <> [] -> is_space e = true ->
  scan_status_line s0 = Some (mkStatusLine a b c (s32 x) (u64 y) (Some w)).
Proof.
  intros G0 G1 G2 G3 G4 Hw Hne He. unfold scan_status_line.
  by rewrite G0, G1, G2, G3, G4, scan_s_word.
Qed.

Lemma scan_line i v rest :
  (i < VHCI_NPORTS)%nat -> port_ok v ->
  exists l, scan_status_line (line_text i v ++ rest) = Some l /\ scanned i v l.
Proof.
  intros Hi (Hst & Hs & Hd). unfold scanned.
  pose proof (status_num_range (ud_status (vd_ud v))) as Hn.
  assert (0 <= Z.of_nat i < 2 ^ 31) as Hi31 by (unfold VHCI_NPORTS in *; lia).
  set (tail := port_text v ++ [chr_newline] ++ rest).
  assert (scan_d (line_text i v ++ rest) =
    Some (Z.of_nat i, 32 :: pad0 3 (print_u (status_num (ud_status (vd_ud v)))) ++ 32 :: tail)) as HL0.
  { unfold line_text. rewrite <- !app_assoc. cbn [app]. by apply scan_d_pad. }
  assert (scan_d (32 :: pad0 3 (print_u (status_num (ud_status (vd_ud v)))) ++ 32 :: tail) =
    Some (status_num (ud_status (vd_ud v)), 32 :: tail)) as HL1.
  { rewrite scan_d_space. by apply scan_d_pad. }
  assert ((exists d, ud_status (vd_ud v) = VDEV_ST_USED /\ vd_udev v = Some d) \/
          port_text v = status_unused /\ ud_status (vd_ud v) <> VDEV_ST_USED) as [[d [E Hv]]|[Ht Hne]].
  { unfold port_text. destruct Hst as [E|[E|[E|[E [d Hv]]]]]; rewrite E; [by right..|].
    left. by exists d. }
  - rewrite E, Hv. destruct (dev_name_ok d) as (Hw & Hwn & _).
    destruct (fmt_ptr_ok (default 0 (ud_tcp_socket (vd_ud v)))) as (sp & n & x & Hp & Hx & Hn2).
    assert (tail = pad0 3 (print_u (vd_speed v)) ++ 32 :: pad0 8 (print_x (vd_devid v)) ++ 32 ::
      replicate sp 32 ++ pad0 n (print_x x) ++ 32 :: dev_name d ++ chr_newline :: rest) as Htail.
    { unfold tail, port_text. rewrite E, Hv, Hp. rewrite <- !app_assoc. done. }
    eexists. split.
    + eapply scan_line_steps; [exact HL0|exact HL1| | | |exact Hw|exact Hwn|].
      * rewrite scan_d_space, Htail. by apply scan_d_pad.
      * unfold scan_x_all. rewrite scan_x_space. apply scan_x_pad; [|lia|done|cbn; lia].
        unfold is_u32 in Hd. cbn. lia.
      * unfold scan_x_all. rewrite scan_x_space, scan_x_spaces.
        apply scan_x_pad; [done|done|done|]. cbn [length]. rewrite !length_app. lia.
      * done.
    + by rewrite E.
  - assert (tail = pad0 3 (print_u 0) ++ 32 :: pad0 3 (print_x 0) ++ 32 ::
      pad0 3 (print_x 0) ++ 32 :: replicate 16 48 ++ 32 :: [48; 45; 48] ++ chr_newline :: rest) as Htail.
    { unfold tail. rewrite Ht. reflexivity. }
    eexists. split.
    + eapply scan_line_steps; [exact HL0|exact HL1| | | | | |].
      * rewrite scan_d_space, Htail. by apply scan_d_pad.
      * unfold scan_x_all. rewrite scan_x_space. apply scan_x_pad; [done|lia|done|cbn; lia].
      * unfold scan_x_all. rewrite scan_x_space. apply scan_x_pad; [done|lia|done|cbn; lia].
      * apply (bool_decide_unpack _). by vm_compute.
      * done.
      * done.
    + split; [done|]. split; [done|]. by destruct (ud_status (vd_ud v)).
Qed.
End reading_lines.

(** ** Parsing *)

Section parsing.
Context `{Env} `{SysfsNamesOk} `{Sysfs}.

(** The device behind a bus id can be found and read, at any time. *)
Definition readable (busid : list Z) : Prop :=
  forall (s : option usbip_vhci_driver) k, exists sf udev k',
    sysfs_open_device (k_trace k) bus_usb busid = Some sf /\ read_usb_device sf s k = Ok (udev, s, k').

Definition memory_left : Prop := forall tr, (env_answer tr UCalloc).1 <> 0.

(** What user space knows of a port. *)
Definition shows (i : nat) (v : vhci_device) (idev : usbip_imported_device) : Prop :=
  id_port idev = Z.of_nat i /\ id_status idev = status_num (ud_status (vd_ud v)) /\
  (ud_status (vd_ud v) = VDEV_ST_USED ->
   id_devid idev = vd_devid v /\ id_busnum idev = u8 (Z.shiftr (vd_devid v) 16) /\
   id_devnum idev = u8 (vd_devid v) /\ exists udev, id_udev idev = Some udev).

Lemma copy_cdevs_run path cdevs acc s k :
  memory_left -> exists acc' k', copy_cdevs path cdevs acc s k = Ok ((acc', true), s, k').
Proof.
  intros Hm. revert acc k. induction cdevs as [|c cdevs IH]; intros acc k; cbn [copy_cdevs].
  - by eexists _, _.
  - destruct (below path c); [|apply IH].
    destruct (IH (c :: acc) (traced [UCalloc] k)) as (acc' & k' & Hrun). exists acc', k'.
    erewrite bind_ok by apply ext_ret_ok. cbv beta. by rewrite (proj2 (Z.eqb_neq _ 0)).
Qed.

Lemma imported_device_init_run idev busid d k :
  memory_left -> readable busid ->
  exists cdevs udev k', imported_device_init idev (Some busid) (Some d) k =
    Ok ((mkIdev (id_port idev) (id_status idev) (id_devid idev) (id_busnum idev) (id_devnum idev)
           cdevs (Some udev), true), Some d, k').
Proof.
  intros Hm Hr. destruct (Hr (Some d) k) as (sf & udev & k1 & Hopen & Hread).
  destruct (copy_cdevs_run (uu_path udev) (dr_cdev_list d) (id_cdev_list idev) (Some d) k1 Hm)
    as (cdevs & k2 & Hcopy).
  exists cdevs, udev, k2. unfold imported_device_init, lookup, the_driver.
  erewrite bind_ok by reflexivity. cbv beta. rewrite Hopen. erewrite bind_ok by exact Hread. cbv beta.
  erewrite bind_ok by reflexivity. cbv beta. by erewrite bind_ok by exact Hcopy.
Qed.

Lemma devid_parts x :
  u8 (Z.shiftr (s32 x) 16) = u8 (Z.shiftr x 16) /\ u8 (Z.land (s32 x) 65535) = u8 x.
Proof.
  rewrite !Z.shiftr_div_pow2 by lia. change 65535 with (Z.ones 16). rewrite Z.land_ones by lia.
  change (2 ^ 16) with 65536. split; int_lia.
Qed.

Definition bus_ids_readable (v : vhci_device) : Prop :=
  forall d, ud_status (vd_ud v) = VDEV_ST_USED -> vd_udev v = Some d -> readable (dev_name d).

(** What is done once the line is scanned. *)
Definition complete_entry (i : nat) (idev : usbip_imported_device) (busid : list Z)
    : M (option usbip_vhci_driver) Z :=
  if negb (id_status idev =? UST_VDEV_NULL) && negb (id_status idev =? UST_VDEV_NOTASSIGNED) then
    '(idev, ok) ← imported_device_init idev (Some busid);
    modify_driver (fun d => d <| dr_idev := <[i := idev]> (dr_idev d) |>);;
    mret (if ok : bool then 0 else -1)
  else mret 0.

Lemma parse_status_line_start i l e busid d k :
  memory_left -> (i < MAXNPORT)%nat -> dr_idev d !! i = Some e ->
  sl_port l = Z.of_nat i -> sl_lbusid l = Some busid -> (length busid < SYSFS_BUS_ID_SIZE)%nat ->
  parse_status_line l (Some d) k =
    complete_entry i (idev_of_line l e) busid
      (Some (d <| dr_idev := <[i := idev_of_line l e]> (dr_idev d) |>)) (traced [UCalloc] k).
Proof.
  intros Hm Hi He Hport Hw Hl. assert (Z.of_nat i < 128) by (unfold MAXNPORT in *; lia).
  unfold parse_status_line. rewrite Hw, Hport.
  rewrite (proj2 (Nat.leb_gt _ _) Hl). rewrite (proj2 (Z.ltb_ge _ 0)) by lia.
  rewrite (proj2 (Z.leb_gt _ _)) by (change (Z.of_nat MAXNPORT) with 128; lia). cbn [orb].
  unfold the_driver at 1. erewrite bind_ok by reflexivity. cbv beta zeta. rewrite Nat2Z.id.
  erewrite bind_ok by (apply of_option_ok; exact He). cbv beta. erewrite bind_ok by reflexivity. cbv beta.
  erewrite bind_ok by apply ext_ret_ok. cbv beta. by rewrite (proj2 (Z.eqb_neq _ 0)) by apply Hm.
Qed.

Lemma complete_used i idev busid d k :
  memory_left -> readable busid -> id_status idev = status_num VDEV_ST_USED ->
  exists cdevs udev k', complete_entry i idev busid (Some d) k =
    Ok (0, Some (d <| dr_idev := <[i := mkIdev (id_port idev) (id_status idev) (id_devid idev)
       (id_busnum idev) (id_devnum idev) cdevs (Some udev)]> (dr_idev d) |>), k').
Proof.
  intros Hm Hr Hs. destruct (imported_device_init_run idev busid d k Hm Hr) as (cdevs & udev & k' & Hinit).
  exists cdevs, udev, k'. unfold complete_entry.
  replace (_ && _) with true by (by rewrite Hs).
  erewrite bind_ok by exact Hinit. reflexivity.
Qed.

Lemma parse_status_line_run i v l d k :
  memory_left -> (i < MAXNPORT)%nat -> length (dr_idev d) = MAXNPORT ->
  port_ok v -> ud_status (vd_ud v) <> VDEV_ST_ERROR -> bus_ids_readable v -> scanned i v l ->
  exists idev k', shows i v idev /\ parse_status_line l (Some d) k =
    Ok (0, Some (d <| dr_idev := <[i := idev]> (dr_idev d) |>), k').
Proof.
  intros Hm Hi Hlen (Hst & _ & Hd) Hne Hread (Hport & Hstat & Hrest).
  destruct (lookup_lt_is_Some_2 (dr_idev d) i ltac:(lia)) as [e0 He0].
  assert (id_port (idev_of_line l e0) = Z.of_nat i) as Hep.
  { cbn. rewrite Hport. apply Z.mod_small. unfold MAXNPORT in *. lia. }
  assert (id_status (idev_of_line l e0) = status_num (ud_status (vd_ud v))) as Hes.
  { cbn. rewrite Hstat. by destruct (ud_status (vd_ud v)). }
  assert ((exists dev, ud_status (vd_ud v) = VDEV_ST_USED /\ vd_udev v = Some dev) \/
          (ud_status (vd_ud v) = VDEV_ST_NULL \/ ud_status (vd_ud v) = VDEV_ST_NOTASSIGNED) /\
          sl_lbusid l = Some (replicate 16 48)) as [(dev & E & Hv)|[E Hbus]].
  { destruct Hst as [E|[E|[E|[E [dev Hv]]]]]; rewrite ?E in Hrest, Hne |- *; [right; auto..|done|left; by exists dev]. }
  - rewrite E, Hv in Hrest. destruct Hrest as [Hdev Hbus]. destruct (dev_name_ok dev) as (_ & _ & Hnl).
    rewrite E in Hes. rewrite (parse_status_line_start i l e0 (dev_name dev)) by done.
    destruct (complete_used i _ (dev_name dev) (d <| dr_idev := <[i := idev_of_line l e0]> (dr_idev d) |>)
      (traced [UCalloc] k) Hm (Hread _ E Hv) Hes) as (cdevs & udev & k' & Hrun).
    eexists _, k'. split; [|rewrite Hrun; cbn; by rewrite list_insert_insert_eq].
    split; [exact Hep|]. split; [by rewrite E|]. intros _. cbn [idev_of_line id_devid id_busnum id_devnum id_udev].
    rewrite Hdev. destruct (devid_parts (vd_devid v)) as [-> ->]. rewrite u32_s32, (u32_id _ Hd).
    split; [done|]. split; [done|]. split; [done|]. by eexists.
  - rewrite (parse_status_line_start i l e0 (replicate 16 48)); [|done..|].
    2: { cbn. unfold SYSFS_BUS_ID_SIZE. lia. }
    exists (idev_of_line l e0), (traced [UCalloc] k). split.
    + split; [exact Hep|]. split; [exact Hes|]. by destruct E as [-> | ->].
    + unfold complete_entry. rewrite Hes. by destruct E as [-> | ->].
Qed.

(** No device has the bus id of sixteen zeros that the controller prints for a port
    not in use. *)
Definition zeros_unknown : Prop := forall tr, sysfs_open_device tr bus_usb (replicate 16 48) = None.

Lemma imported_device_init_unknown idev s k :
  zeros_unknown -> imported_device_init idev (Some (replicate 16 48)) s k = Ok ((idev, false), s, k).
Proof.
  intros Hz. unfold imported_device_init, lookup. erewrite bind_ok by reflexivity. cbv beta. by rewrite Hz.
Qed.

(** A port in error ends the reading: its bus id is looked up. *)
Lemma parse_status_line_error i v l d k :
  memory_left -> zeros_unknown -> (i < MAXNPORT)%nat -> length (dr_idev d) = MAXNPORT ->
  ud_status (vd_ud v) = VDEV_ST_ERROR -> scanned i v l ->
  exists d' k', parse_status_line l (Some d) k = Ok (-1, Some d', k').
Proof.
  intros Hm Hz Hi Hlen E (Hport & Hstat & Hrest). rewrite E in Hrest, Hstat.
  destruct (lookup_lt_is_Some_2 (dr_idev d) i ltac:(lia)) as [e0 He0].
  rewrite (parse_status_line_start i l e0 (replicate 16 48)); [|done..|].
  2: { cbn. unfold SYSFS_BUS_ID_SIZE. lia. }
  assert (id_status (idev_of_line l e0) = status_num VDEV_ST_ERROR) as Hes by (cbn; by rewrite Hstat).
  unfold complete_entry. replace (_ && _) with true by (by rewrite Hes).
  eexists _, _. erewrite bind_ok by (by apply imported_device_init_unknown). reflexivity.
Qed.

(** ** The whole file *)

Lemma line_nonempty i v rest : exists c l, line_text i v ++ rest = c :: l.
Proof.
  unfold line_text. pose proof (pad_nonempty 3 (Z.of_nat i)) as Hn.
  destruct (pad0 3 (print_u (Z.of_nat i))) as [|c l]; [done|]. by eexists _, _.
Qed.

Lemma parse_lines_run fuel i vs d k :
  memory_left -> (length vs < fuel)%nat -> (i + length vs <= VHCI_NPORTS)%nat ->
  length (dr_idev d) = MAXNPORT -> Forall port_ok vs -> Forall bus_ids_readable vs ->
  Forall (fun v => ud_status (vd_ud v) <> VDEV_ST_ERROR) vs ->
  exists d' k', parse_status_lines fuel (lines_text i vs) (Some d) k = Ok (0, Some d', k') /\
    dr_nports d' = dr_nports d /\ length (dr_idev d') = MAXNPORT /\
    (forall j, (j < i)%nat -> dr_idev d' !! j = dr_idev d !! j) /\
    (forall j v, vs !! j = Some v -> exists idev, dr_idev d' !! (i + j)%nat = Some idev /\ shows (i + j) v idev).
Proof.
  intros Hm. revert i vs d k. induction fuel as [|fuel IH]; intros i vs d k Hf Hi Hlen Hok Hr Hne; [lia|].
  destruct vs as [|v vs]; cbn [lines_text length] in *.
  { exists d, k. repeat split; done. }
  apply Forall_cons in Hok as [Hv Hok]. apply Forall_cons in Hr as [Hrv Hr].
  apply Forall_cons in Hne as [Hnv Hne].
  destruct (scan_line i v (lines_text (S i) vs) ltac:(lia) Hv) as (l & Hscan & Hl).
  destruct (parse_status_line_run i v l d k Hm) as (e & k1 & He & Hrun);
    [unfold VHCI_NPORTS, MAXNPORT in *; lia|done..|].
  destruct (IH (S i) vs (d <| dr_idev := <[i := e]> (dr_idev d) |>) k1) as (d' & k2 & Hrun2 & Hn & Hlen2 & Hlow & Hhigh);
    [lia|lia|cbn; by rewrite length_insert|done|done|done|].
  exists d', k2. split.
  { pose proof (line_ends i v (lines_text (S i) vs) Hv) as Hend.
    destruct (line_nonempty i v (lines_text (S i) vs)) as (c & t & Ht). rewrite Ht in *.
    cbn [parse_status_lines]. rewrite Hscan. erewrite bind_ok by exact Hrun. cbv beta.
    change (0 <? 0) with false. cbv iota. by rewrite Hend. }
  split; [done|]. split; [done|]. split.
  - intros j Hj. rewrite Hlow by lia. cbn. by rewrite list_lookup_insert_ne by lia.
  - intros [|j] w Hw.
    + cbn in Hw. simplify_eq. rewrite Nat.add_0_r. exists e. split; [|done].
      rewrite Hlow by lia. cbn. apply list_lookup_insert_eq. unfold VHCI_NPORTS, MAXNPORT in *. lia.
    + replace (i + S j)%nat with (S i + j)%nat by lia. by apply Hhigh.
Qed.

Lemma parse_lines_error fuel i vs d k :
  memory_left -> zeros_unknown -> (length vs < fuel)%nat -> (i + length vs <= VHCI_NPORTS)%nat ->
  length (dr_idev d) = MAXNPORT -> Forall port_ok vs -> Forall bus_ids_readable vs ->
  Exists (fun v => ud_status (vd_ud v) = VDEV_ST_ERROR) vs ->
  exists d' k', parse_status_lines fuel (lines_text i vs) (Some d) k = Ok (-1, Some d', k').
Proof.
  intros Hm Hz. revert i vs d k. induction fuel as [|fuel IH]; intros i vs d k Hf Hi Hlen Hok Hr Herr; [lia|].
  destruct vs as [|v vs]; cbn [lines_text length] in *; [by inversion Herr|].
  apply Forall_cons in Hok as [Hv Hok]. apply Forall_cons in Hr as [Hrv Hr].
  destruct (scan_line i v (lines_text (S i) vs) ltac:(lia) Hv) as (l & Hscan & Hl).
  pose proof (line_ends i v (lines_text (S i) vs) Hv) as Hend.
  destruct (line_nonempty i v (lines_text (S i) vs)) as (c & t & Ht). rewrite Ht in *.
  cbn [parse_status_lines]. rewrite Hscan.
  destruct (decide (ud_status (vd_ud v) = VDEV_ST_ERROR)) as [E|E].
  - destruct (parse_status_line_error i v l d k Hm Hz) as (d' & k' & Hrun);
      [unfold VHCI_NPORTS, MAXNPORT in *; lia|done..|].
    exists d', k'. by erewrite bind_ok by exact Hrun.
  - destruct (parse_status_line_run i v l d k Hm) as (e & k1 & _ & Hrun);
      [unfold VHCI_NPORTS, MAXNPORT in *; lia|done..|].
    erewrite bind_ok by exact Hrun. cbv beta. change (0 <? 0) with false. cbv iota. rewrite Hend.
    apply IH; [lia|lia|cbn; by rewrite length_insert|done|done|].
    by apply Exists_cons in Herr as [?|?].
Qed.

Lemma length_lines_text i vs : (length vs <= length (lines_text i vs))%nat.
Proof.
  revert i. induction vs as [|v vs IH]; intros i; cbn [lines_text length]; [lia|].
  destruct (line_nonempty i v []) as (c & l & Hl). rewrite app_nil_r in Hl. rewrite Hl.
  specialize (IH (S i)). cbn [app length]. rewrite length_app. lia.
Qed.

Lemma count_lines_run fuel i vs n :
  (length vs < fuel)%nat -> Forall port_ok vs ->
  count_lines fuel (lines_text i vs) n = n + Z.of_nat (length vs).
Proof.
  revert i vs n. induction fuel as [|fuel IH]; intros i vs n Hf Hok; [lia|].
  destruct vs as [|v vs]; cbn [lines_text length] in *; [cbn; lia|].
  apply Forall_cons in Hok as [Hv Hok]. pose proof (line_ends i v (lines_text (S i) vs) Hv) as Hend.
  destruct (line_nonempty i v (lines_text (S i) vs)) as (c & t & Ht). rewrite Ht in *.
  cbn [count_lines]. rewrite Hend, IH by (done || lia). lia.
Qed.

Lemma header_ends rest : after_chr chr_newline (status_header ++ rest) = Some rest.
Proof. reflexivity. Qed.

(** Reading the attribute, and the table that is filled. *)
Lemma read_attr {A} d ku value (g : option (list Z) -> Kernel.M (option usbip_vhci_driver) A) :
  sysfs_get_device_attr (k_trace ku) (dr_hc_device d) (text "status") = Some value ->
  (status_attr ≫= g) (Some d) ku = g (Some value) (Some d) ku.
Proof.
  intros Hattr. unfold status_attr. erewrite bind_ok by (erewrite bind_ok by reflexivity; reflexivity).
  cbv beta. by rewrite Hattr.
Qed.

Lemma refresh_starts d ku lines :
  sysfs_get_device_attr (k_trace ku) (dr_hc_device d) (text "status") = Some (status_header ++ lines) ->
  dr_nports d = Z.of_nat VHCI_NPORTS ->
  refresh_imported_device_list (Some d) ku =
  parse_status_lines (S (length lines)) lines
    (Some (d <| dr_idev := replicate VHCI_NPORTS idev_zero ++ drop VHCI_NPORTS (dr_idev d) |>)) ku.
Proof.
  intros Hattr Hn. unfold refresh_imported_device_list. rewrite (read_attr _ _ _ _ Hattr). unfold parse_status.
  erewrite bind_ok by reflexivity. cbv beta. rewrite Hn. change (Z.of_nat MAXNPORT <? _) with false.
  cbv iota. erewrite bind_ok by reflexivity. cbv beta. by rewrite header_ends, Hn, Nat2Z.id.
Qed.

(** *** The free port *)

Fixpoint first_free (i : Z) (vs : list vhci_device) : Z :=
  match vs with
  | [] => -1
  | v :: vs' => if bool_decide (ud_status (vd_ud v) = VDEV_ST_NULL) then i else first_free (i + 1) vs'
  end.

Lemma free_port_run i vs idevs (s : option usbip_vhci_driver) k j :
  (forall n v, vs !! n = Some v -> exists idev, idevs !! n = Some idev /\ shows (j + n) v idev) ->
  free_port_from i (length vs) idevs s k = Ok (first_free i vs, s, k).
Proof.
  revert i j idevs. induction vs as [|v vs IH]; intros i j idevs Hall; [done|].
  destruct (Hall 0%nat v eq_refl) as (e & He & _ & Hs & _). destruct idevs as [|e' idevs]; [done|].
  cbn in He. simplify_eq. cbn [length free_port_from first_free]. rewrite Hs.
  replace (status_num (ud_status (vd_ud v)) =? UST_VDEV_NULL)
    with (bool_decide (ud_status (vd_ud v) = VDEV_ST_NULL)) by (by destruct (ud_status (vd_ud v))).
  destruct (bool_decide _); [done|]. apply (IH (i + 1) (S j)). intros n w Hw.
  destruct (Hall (S n) w Hw) as (f & Hf & Hsh). exists f. split; [done|].
  by replace (S j + n)%nat with (j + S n)%nat by lia.
Qed.
End parsing.

(** C11: Reading the status file changes nothing, and from its text the driver
    library counts the ports.  While no port is in error and the devices of those in
    use can be read from sysfs, what user space sees of
    them is what the controller has: the library fills its table with the state of
    every port and, for one in use, its bus and device numbers, and finds the first
    free port, if any.  As soon as one port is in error it can read none: looking up
    the bus id of sixteen zeros printed for that port fails. *)
Theorem status_read_back (E : Env) `{SysfsNamesOk} `{Sysfs} h k d ku :
  (forall i v, hc_vdev h !! i = Some v -> port_ok v /\ bus_ids_readable v) ->
  length (hc_vdev h) = VHCI_NPORTS -> LockController ∉ k_locks k -> LockUd 1 ∉ k_locks k ->
  memory_left -> dr_nports d = Z.of_nat VHCI_NPORTS -> length (dr_idev d) = MAXNPORT ->
  exists value, VhciSysfs.show_status h k = Ok (value, h, k) /\
    (sysfs_get_device_attr (k_trace ku) (dr_hc_device d) (text "status") = Some value ->
     get_nports (Some d) ku = Ok (Z.of_nat VHCI_NPORTS, Some d, ku) /\
     (Forall (fun v => ud_status (vd_ud v) <> VDEV_ST_ERROR) (hc_vdev h) ->
      exists d' ku', refresh_imported_device_list (Some d) ku = Ok (0, Some d', ku') /\
       (forall i v, hc_vdev h !! i = Some v ->
          exists idev, dr_idev d' !! i = Some idev /\ shows i v idev) /\
       usbip_vhci_get_free_port (Some d') ku' = Ok (first_free 0 (hc_vdev h), Some d', ku')) /\
     (zeros_unknown -> Exists (fun v => ud_status (vd_ud v) = VDEV_ST_ERROR) (hc_vdev h) ->
      exists d' ku', refresh_imported_device_list (Some d) ku = Ok (-1, Some d', ku'))).
Proof.
  intros Hok Hlen Hl1 Hl2 Hm Hn Hidev. exists (status_header ++ lines_text 0 (hc_vdev h)).
  assert (Forall port_ok (hc_vdev h)) as Hports by (apply Forall_lookup; intros i v Hv; by apply (Hok i v)).
  assert (Forall bus_ids_readable (hc_vdev h)) as Hread by (apply Forall_lookup; intros i v Hv; by apply (Hok i v)).
  split; [apply show_status_run; try done; intros j v Hv; by apply (Hok j v)|]. intros Hattr.
  pose proof (length_lines_text 0 (hc_vdev h)) as Htext. split.
  { unfold get_nports. rewrite (read_attr _ _ _ _ Hattr), header_ends, count_lines_run by (done || lia).
    by rewrite Hlen. }
  rewrite (refresh_starts d ku _ Hattr Hn). set (d1 := d <| dr_idev := _ |>).
  assert (length (dr_idev d1) = MAXNPORT) as Hlen1.
  { cbn [d1 dr_idev set_dr_idev set_field].
    rewrite length_app, length_replicate, length_drop, Hidev. unfold VHCI_NPORTS, MAXNPORT. lia. }
  split; [intros Hne|intros Hz Herr; apply parse_lines_error; try done; lia].
  destruct (parse_lines_run (S (length (lines_text 0 (hc_vdev h)))) 0 (hc_vdev h) d1 ku Hm)
    as (d' & ku' & Hrun & Hn' & _ & _ & Hall); [lia|lia|done..|].
  exists d', ku'. split; [exact Hrun|]. split; [exact Hall|].
  unfold usbip_vhci_get_free_port. erewrite bind_ok by reflexivity. cbv beta.
  rewrite Hn'. change (dr_nports d1) with (dr_nports d). rewrite Hn, Nat2Z.id, <- Hlen.
  by apply (free_port_run 0 _ _ _ _ 0).
Qed.

(** *** Sample: one port in use *)

Definition status_env : Env := fun _ c =>
  match c with
  | UCalloc | UOpenAttr _ => (1, [])
  | UReadAttr _ => (2, text "12")
  | _ => (0, [])
  end.
Definition status_names : SysfsNames :=
  {| fmt_ptr p := pad0 16 (print_x (u32 p)); dev_name _ := text "1-1" |}.
Definition status_device : sysfs_device := mkSysfsDev (text "/sys/1-1") (text "1-1") (text "1-1") (text "usb").
Definition status_sysfs (value : list Z) : Sysfs :=
  {| sysfs_open_device _ _ _ := Some status_device;
     sysfs_open_device_path _ _ := None; sysfs_get_device_parent _ _ := None;
     sysfs_open_driver _ _ _ := false; sysfs_get_driver_devices _ _ _ := None;
     sysfs_get_device_attr _ _ _ := Some value; sysfs_get_driver_attr _ _ _ _ := false;
     sysfs_get_mnt_path _ := None; sysfs_class_names _ := None; sysfs_class_devices _ _ := None;
     sysfs_get_link _ _ := None |}.
Definition status_driver : usbip_vhci_driver :=
  mkVhciDriver status_device [] 8 (replicate MAXNPORT idev_zero).

Lemma status_names_ok : @SysfsNamesOk status_names.
Proof.
  split.
  - intros p. exists 0%nat, 16%nat, (u32 p). split; [done|]. split; [|lia].
    pose proof (u32_range p). unfold is_u32 in *. lia.
  - intros d. split; [apply (bool_decide_unpack _); by vm_compute|]. split; [done|].
    apply (bool_decide_unpack _). by vm_compute.
Qed.

Lemma status_readable value busid : @readable status_env (status_sysfs value) busid.
Proof. intros s k. exists status_device. eexists _, _. split; [reflexivity|]. lazy. reflexivity. Qed.

Lemma status_memory : @memory_left status_env.
Proof. by intros tr. Qed.

Lemma sample_ports_ok value i v : hc_vdev sample_vhci !! i = Some v ->
  port_ok v /\ @bus_ids_readable status_env status_names (status_sysfs value) v.
Proof.
  intros Hv. split; [|intros d _ _; apply status_readable].
  assert (Forall port_ok (hc_vdev sample_vhci)) as Hall.
  { apply Forall_cons. split.
    - split; [right; right; right; split; [reflexivity|by eexists]|]. unfold is_u32. cbn. unfold USB_SPEED_HIGH. lia.
    - apply Forall_map, Forall_forall. intros n _. split; [by left|]. unfold is_u32. cbn. lia. }
  rewrite Forall_forall in Hall. apply Hall. by eapply list_elem_of_lookup_2.
Qed.

(** The same with the port in error, on a machine without a device 0000000000000000. *)
Definition error_vdev : vhci_device :=
  sample_vdev <| vd_ud := (vd_ud sample_vdev) <| ud_status := VDEV_ST_ERROR |> |>.
Definition error_vhci : vhci_hcd := set_vdev 0 error_vdev sample_vhci.
Definition error_sysfs (value : list Z) : Sysfs :=
  {| sysfs_open_device _ _ b := if decide (b = replicate 16 48) then None else Some status_device;
     sysfs_open_device_path _ _ := None; sysfs_get_device_parent _ _ := None;
     sysfs_open_driver _ _ _ := false; sysfs_get_driver_devices _ _ _ := None;
     sysfs_get_device_attr _ _ _ := Some value; sysfs_get_driver_attr _ _ _ _ := false;
     sysfs_get_mnt_path _ := None; sysfs_class_names _ := None; sysfs_class_devices _ _ := None;
     sysfs_get_link _ _ := None |}.

Lemma error_ports_ok value i v : hc_vdev error_vhci !! i = Some v ->
  port_ok v /\ @bus_ids_readable status_env status_names (error_sysfs value) v.
Proof.
  intros Hv.
  assert (Forall (fun v => port_ok v /\ ud_status (vd_ud v) <> VDEV_ST_USED) (hc_vdev error_vhci)) as Hall.
  { apply Forall_cons. split.
    - split; [|done]. split; [right; right; by left|]. unfold is_u32. cbn. unfold USB_SPEED_HIGH. lia.
    - apply Forall_map, Forall_forall. intros n _. split; [|done]. split; [by left|]. unfold is_u32. cbn. lia. }
  rewrite Forall_forall in Hall. destruct (Hall v) as [Hok Hne]; [by eapply list_elem_of_lookup_2|].
  split; [done|]. intros d Hu. by destruct Hne.
Qed.

Lemma status_read_back_witness :
  let value := status_header ++ @lines_text status_names 0 (hc_vdev sample_vhci) in
  exists d' ku', @refresh_imported_device_list status_env (status_sysfs value)
      (Some status_driver) sample_vhci_kernel = Ok (0, Some d', ku') /\
    (exists idev, dr_idev d' !! 0%nat = Some idev /\ shows 0 sample_vdev idev) /\
    @usbip_vhci_get_free_port (Some d') ku' = Ok (1, Some d', ku') /\
    exists shown d2 ku2, @VhciSysfs.show_status status_names error_vhci sample_vhci_kernel =
        Ok (shown, error_vhci, sample_vhci_kernel) /\
      @refresh_imported_device_list status_env (error_sysfs shown) (Some status_driver) sample_vhci_kernel =
        Ok (-1, Some d2, ku2).
Proof.
  cbv zeta. set (value := _ ++ _).
  destruct (@status_read_back status_env status_names status_names_ok (status_sysfs value) sample_vhci
    sample_vhci_kernel status_driver sample_vhci_kernel (sample_ports_ok value) eq_refl
    (not_elem_of_nil _) (not_elem_of_nil _) status_memory eq_refl eq_refl) as (value' & Hshow & Hrest).
  assert (value' = value) as -> by (apply (bool_decide_unpack _); revert Hshow; vm_compute; by intros [= <-]).
  destruct (Hrest eq_refl) as (_ & Hfine & _).
  destruct Hfine as (d' & ku' & Hrun & Hall & Hfree); [repeat (constructor; [discriminate|]); constructor|].
  exists d', ku'. split; [exact Hrun|]. split; [exact (Hall 0%nat sample_vdev eq_refl)|].
  split; [exact Hfree|].
  set (shown := status_header ++ @lines_text status_names 0 (hc_vdev error_vhci)).
  destruct (@status_read_back status_env status_names status_names_ok (error_sysfs shown) error_vhci
    sample_vhci_kernel status_driver sample_vhci_kernel (error_ports_ok shown) eq_refl
    (not_elem_of_nil _) (not_elem_of_nil _) status_memory eq_refl eq_refl) as (shown' & Hshow2 & Hrest2).
  assert (shown' = shown) as -> by (apply (bool_decide_unpack _); revert Hshow2; vm_compute; by intros [= <-]).
  destruct (Hrest2 eq_refl) as (_ & _ & Herr).
  destruct Herr as (d2 & ku2 & Hrun2); [by intros tr|by constructor|].
  exists shown, d2, ku2. split; [exact Hshow2|exact Hrun2].
Defined.
