(* ===== verification/PtpProps.v ===== *)
(** * The camera filter: following the stream

    How the filter's parser takes the PDUs of an URB apart, whichever way they
    are spread over URBs, and which transaction ids it writes. *)
From S2P Require Import Prelude Kernel Wire Event EventProps Exec Xfer XferProps Filters Stub StubTx StubRx StubProps StubHostProps Ptp.

(** ** Memory and the filter's state *)

(** The filter's state, and one block, replaced. *)
Definition upd (flt : positive) (f : ptp_filter) (s : ptp_sys) : ptp_sys :=
  s <| ps_filters := <[flt := f]> (ps_filters s) |>.
Definition put_block (b : positive) (blk : list Z) (k : kernel) : kernel :=
  k <| k_heap := <[b := blk]> (k_heap k) |>.

Lemma upd_eta flt f s : ps_filters s !! flt = Some f -> upd flt f s = s.
Proof. intros Hf. unfold upd. destruct s. cbn in *. by rewrite insert_id. Qed.
Lemma put_block_eta b blk k : k_heap k !! b = Some blk -> put_block b blk k = k.
Proof. intros Hb. unfold put_block. destruct k. cbn in *. by rewrite insert_id. Qed.

Lemma the_filter_ok flt f s k : the_filter flt (upd flt f s) k = Ok (f, upd flt f s, k).
Proof.
  unfold the_filter. erewrite bind_ok by reflexivity. cbn. by rewrite lookup_insert_eq.
Qed.
Lemma set_filter_ok flt f g s k : set_filter flt g (upd flt f s) k = Ok (tt, upd flt (g f) s, k).
Proof.
  unfold set_filter. erewrite bind_ok by apply the_filter_ok. unfold modify, upd. cbn.
  by rewrite insert_insert_eq.
Qed.

Lemma get_put_machine m x f : get_machine m (put_machine m x f) = x.
Proof. by destruct m. Qed.
Lemma put_put_machine m x y f : put_machine m x (put_machine m y f) = put_machine m x f.
Proof. by destruct m. Qed.
Lemma put_machine_trans_id m x f : pf_trans_id (put_machine m x f) = pf_trans_id f.
Proof. by destruct m. Qed.
Lemma put_machine_rx_trans_id m x f : pf_rx_trans_id (put_machine m x f) = pf_rx_trans_id f.
Proof. by destruct m. Qed.
Lemma put_machine_serving m x f : pf_frame_serving_urb (put_machine m x f) = pf_frame_serving_urb f.
Proof. by destruct m. Qed.
#[export] Hint Rewrite get_put_machine put_put_machine put_machine_trans_id put_machine_rx_trans_id
  put_machine_serving : ptp_simp.

Lemma set_machine_ok flt m g f s k :
  set_machine flt m g (upd flt f s) k = Ok (tt, upd flt (put_machine m (g (get_machine m f)) f) s, k).
Proof. exact (set_filter_ok flt f (fun f => put_machine m (g (get_machine m f)) f) s k). Qed.

(** Reading and writing inside a block of known parts. *)
Lemma load_part {St} b off n pre mid post (s : St) k :
  off = Z.of_nat (length pre) -> n = Z.of_nat (length mid) ->
  load_bytes (b, off) n s (put_block b (pre ++ mid ++ post) k) =
    Ok (mid, s, put_block b (pre ++ mid ++ post) k).
Proof.
  intros -> ->. erewrite load_bytes_ok; [|apply lookup_insert_eq|cbn; lia|lia|cbn; rewrite !length_app; lia].
  cbn [snd]. by rewrite !Nat2Z.id, drop_app_length, take_app_length.
Qed.

Lemma store_part {St} b off pre mid mid' post (s : St) k :
  off = Z.of_nat (length pre) -> length mid' = length mid ->
  store_bytes (b, off) mid' s (put_block b (pre ++ mid ++ post) k) =
    Ok (tt, s, put_block b (pre ++ mid' ++ post) k).
Proof.
  intros -> Hl. unfold store_bytes, put_block. cbn. rewrite lookup_insert_eq.
  rewrite (proj2 (Z.leb_le _ _)) by lia. rewrite (proj2 (Z.leb_le _ _)) by (rewrite !length_app; lia).
  cbn. rewrite insert_insert_eq, Nat2Z.id. unfold splice.
  rewrite take_app_length, <- drop_drop, drop_app_length, Hl, drop_app_length. done.
Qed.

(** ** PDUs *)

(** A PDU as it is on the wire; the id is kept as bytes. *)
Record pdu := mkPdu { pd_type : Z; pd_code : Z; pd_tid : list Z; pd_payload : list Z }.

Definition pdu_length (p : pdu) : Z := 12 + Z.of_nat (length (pd_payload p)).
Definition pdu_start (p : pdu) : list Z :=
  le_bytes 4 (pdu_length p) ++ le_bytes 2 (pd_type p) ++ le_bytes 2 (pd_code p).
Definition pdu_bytes (p : pdu) : list Z := pdu_start p ++ pd_tid p ++ pd_payload p.

Definition pdu_wf (p : pdu) : Prop :=
  pd_type p ∈ [PTP_USB_CONTAINER_COMMAND; PTP_USB_CONTAINER_DATA; PTP_USB_CONTAINER_RESPONSE] /\
  0 <= pd_code p < 2 ^ 16 /\ bytes (pd_tid p) /\ length (pd_tid p) = 4%nat /\ pdu_length p < 2 ^ 32.

Definition pdu_header (p : pdu) : ptp_header :=
  mkPtpHeader (pdu_length p) (pd_type p) (pd_code p) (of_le (pd_tid p)).

Lemma length_pdu_start p : length (pdu_start p) = 8%nat.
Proof. unfold pdu_start. rewrite !length_app, !length_le_bytes. done. Qed.

Lemma length_pdu_bytes p : pdu_wf p -> Z.of_nat (length (pdu_bytes p)) = pdu_length p.
Proof.
  intros (_ & _ & _ & Ht & _). unfold pdu_bytes, pdu_length.
  rewrite !length_app, length_pdu_start, Ht. lia.
Qed.

Lemma of_le_start n x l : 0 <= x < 256 ^ Z.of_nat n -> of_le (take n (le_bytes n x ++ l)) = x.
Proof.
  intros Hx. rewrite take_app_le by (rewrite length_le_bytes; lia).
  rewrite take_ge by (rewrite length_le_bytes; lia). by rewrite of_le_le_bytes, Z.mod_small.
Qed.

Lemma header_of_pdu p : pdu_wf p -> ptp_header_of (pdu_start p ++ pd_tid p) = pdu_header p.
Proof.
  intros (Hty & Hc & Htb & Ht & Hl). unfold ptp_header_of, pdu_header, pdu_start.
  assert (0 <= pdu_length p) by (unfold pdu_length; lia).
  assert (0 <= pd_type p < 256 ^ Z.of_nat 2) as Hr.
  { rewrite !elem_of_cons, elem_of_nil in Hty.
    unfold PTP_USB_CONTAINER_COMMAND, PTP_USB_CONTAINER_DATA, PTP_USB_CONTAINER_RESPONSE in Hty. lia. }
  f_equal.
  - rewrite <- !app_assoc. by apply of_le_start.
  - rewrite <- !app_assoc, (drop_app_length' _ _ 4) by by rewrite length_le_bytes.
    by apply of_le_start.
  - rewrite <- !app_assoc, app_assoc, (drop_app_length' _ _ 6) by by rewrite length_app, !length_le_bytes.
    by apply of_le_start.
  - rewrite (drop_app_length' _ _ 8) by by rewrite !length_app, !length_le_bytes.
    by rewrite take_ge by lia.
Qed.

(** ** One header *)

Section parse.
Context `{Env} `{Arch} `{UsbPipes}.
Variable flt : positive.

Lemma word_bytes_le32 x : word_bytes (cpu_to_le32 x) = le_bytes 4 x.
Proof.
  unfold word_bytes, cpu_to_le32. destruct big_endian; [|done]. unfold be_bytes at 1, bswap32.
  rewrite <- (length_be_bytes 4 x) at 1. rewrite le_bytes_of_le by apply bytes_reverse, le_bytes_bytes.
  apply reverse_involutive.
Qed.

(** The id a machine writes into the header of [p]. *)
Definition new_tid (m : machine) (f : ptp_filter) (p : pdu) : list Z :=
  match m with
  | m_rx | m_send => le_bytes 4 (pf_trans_id f)
  | m_tx => word_bytes (pf_rx_trans_id f)
  | m_self => pd_tid p
  end.
Definition retag (m : machine) (f : ptp_filter) (p : pdu) : pdu :=
  mkPdu (pd_type p) (pd_code p) (new_tid m f p) (pd_payload p).

Definition phase (p : pdu) : ptp_parser_state :=
  if pd_type p =? PTP_USB_CONTAINER_COMMAND then ptpps_command
  else if pd_type p =? PTP_USB_CONTAINER_RESPONSE then ptpps_response else ptpps_data.

(** The filter after the header of [p], and after the end of its phase. *)
Definition saved_tid (m : machine) (p : pdu) (f : ptp_filter) : ptp_filter :=
  match m with m_rx => f <| pf_rx_trans_id := word_of (pd_tid p) |> | _ => f end.
Definition started (m : machine) (p : pdu) (f : ptp_filter) : ptp_filter :=
  put_machine m (mkMachine (phase p) 12 (pdu_header p)) (saved_tid m p f).
Definition counted (m : machine) (u : positive) (f : ptp_filter) : ptp_filter :=
  if bool_decide (m <> m_rx) && bool_decide (pf_frame_serving_urb f <> Some u)
  then f <| pf_trans_id := u32 (pf_trans_id f + 1) |> else f.
Definition phase_over (m : machine) (u : positive) (f : ptp_filter) : ptp_filter :=
  let x := get_machine m f in
  if bool_decide (sm_state x = ptpps_response)
  then counted m u (put_machine m (x <| sm_state := ptpps_none |>) f)
  else put_machine m (x <| sm_state := ptpps_wait_response |>) f.

(** A command of the client that opens or closes a session. *)
Definition session (m : machine) (p : pdu) : Prop :=
  m = m_rx /\ pd_type p = PTP_USB_CONTAINER_COMMAND /\
  (pd_code p = PTP_OC_OpenSession \/ pd_code p = PTP_OC_CloseSession).

Lemma no_session_header m h f s k :
  ~ (m = m_rx /\ ph_type h = PTP_USB_CONTAINER_COMMAND /\
     (ph_code h = PTP_OC_OpenSession \/ ph_code h = PTP_OC_CloseSession)) ->
  sm_ptpdu (get_machine m f) = h ->
  ptp_check_new_session flt m (upd flt f s) k = Ok (tt, upd flt f s, k).
Proof.
  intros Hn Hm. unfold ptp_check_new_session. case_bool_decide as Hr; [done|].
  assert (m = m_rx) as -> by by destruct (decide (m = m_rx)).
  erewrite bind_ok by apply the_filter_ok. cbv beta zeta. cbn in Hm. rewrite Hm.
  repeat case_if; bool_to_prop; try done. destruct Hn. split_and!; [done|done|].
  rewrite <- !Z.eqb_eq. by apply orb_true_iff.
Qed.

Lemma no_new_session m p f s k :
  ~ session m p -> sm_ptpdu (get_machine m f) = pdu_header p ->
  ptp_check_new_session flt m (upd flt f s) k = Ok (tt, upd flt f s, k).
Proof. intros Hn. by apply no_session_header. Qed.

(** A header with the bytes [start] and the id [tid]; [fc] and [k'] are what the
    check for a new session leaves. *)
Definition started_at (m : machine) (h : ptp_header) (tid : list Z) (f : ptp_filter) : ptp_filter :=
  let st := if ph_type h =? PTP_USB_CONTAINER_COMMAND then ptpps_command
            else if ph_type h =? PTP_USB_CONTAINER_RESPONSE then ptpps_response else ptpps_data in
  put_machine m (mkMachine st 12 h)
    (match m with m_rx => f <| pf_rx_trans_id := word_of tid |> | _ => f end).

Lemma parse_header_gen m start p f fc b off pre post s k k' :
  let h := ptp_header_of (start ++ pd_tid p) in
  length start = 8%nat -> length (pd_tid p) = 4%nat ->
  ph_type h ∈ [PTP_USB_CONTAINER_COMMAND; PTP_USB_CONTAINER_DATA; PTP_USB_CONTAINER_RESPONSE] ->
  off = Z.of_nat (length pre) ->
  let x := (get_machine m f) <| sm_ptpdu := h |> in
  let blk := pre ++ start ++ pd_tid p ++ post in
  ptp_check_new_session flt m (upd flt (put_machine m x f) s) (put_block b blk k) =
    Ok (tt, upd flt (put_machine m x fc) s, put_block b blk k') ->
  ptp_parse_header flt m (b, off) (upd flt f s) (put_block b blk k) =
    Ok (true, upd flt (started_at m h (pd_tid p) fc) s,
        put_block b (pre ++ start ++ new_tid m fc p ++ post) k').
Proof.
  intros h Hs8 Ht Hty Hoff x blk Hses. unfold ptp_parse_header. unfold blk at 1. rewrite (app_assoc start).
  erewrite bind_ok.
  2: { apply load_part; [done|]. by rewrite length_app, Hs8, Ht. }
  cbv beta. fold h. erewrite bind_ok by apply set_machine_ok. cbv beta. rewrite <- (app_assoc start).
  fold x blk. erewrite bind_ok by exact Hses. cbv beta.
  erewrite bind_ok by apply the_filter_ok. cbv beta.
  set (k1 := put_block b (pre ++ start ++ new_tid m fc p ++ post) k').
  set (sv := match m with m_rx => fc <| pf_rx_trans_id := word_of (pd_tid p) |> | _ => fc end).
  erewrite (bind_ok _ _ _ _ tt (upd flt (put_machine m x sv) s) k1).
  2: { assert (forall tid (s : ptp_sys), length tid = 4%nat ->
         store_bytes (ptr_add (b, off) 8) tid s (put_block b blk k') =
         Ok (tt, s, put_block b (pre ++ start ++ tid ++ post) k')) as Hst.
       { intros tid s' Hl. unfold blk. rewrite !(app_assoc pre). apply store_part; [|lia].
         rewrite length_app, Hs8, Hoff. cbn. lia. }
       destruct m; unfold put_trans_id, k1, new_tid, sv.
       - apply Hst, length_word_bytes.
       - erewrite bind_ok by apply set_filter_ok. cbv beta. rewrite put_machine_trans_id, word_bytes_le32.
         rewrite (drop_app_length' _ _ 8) by by rewrite Hs8. apply Hst, length_le_bytes.
       - done.
       - rewrite put_machine_trans_id, word_bytes_le32. apply Hst, length_le_bytes. }
  cbv beta. erewrite bind_ok by apply set_machine_ok. cbv beta zeta. autorewrite with ptp_simp.
  rewrite !elem_of_cons, elem_of_nil in Hty. unfold started_at. fold sv.
  destruct Hty as [E|[E|[E|[]]]]; rewrite E in *;
    cbn [Z.eqb Pos.eqb PTP_USB_CONTAINER_COMMAND PTP_USB_CONTAINER_DATA PTP_USB_CONTAINER_RESPONSE] in *;
    (erewrite bind_ok by apply set_machine_ok); autorewrite with ptp_simp; done.
Qed.

Lemma parse_header_run m p f b off pre post s k :
  pdu_wf p -> ~ session m p -> off = Z.of_nat (length pre) ->
  ptp_parse_header flt m (b, off) (upd flt f s) (put_block b (pre ++ pdu_start p ++ pd_tid p ++ post) k) =
    Ok (true, upd flt (started m p f) s,
        put_block b (pre ++ pdu_start p ++ new_tid m f p ++ post) k).
Proof.
  intros Hwf Hn Hoff. pose proof (header_of_pdu p Hwf) as Hh. pose proof Hwf as (Hty & _ & _ & Ht & _).
  rewrite (parse_header_gen m (pdu_start p) p f f b off pre post s k k);
    [|apply length_pdu_start|done|by rewrite Hh|done|].
  - rewrite Hh. done.
  - apply (no_new_session m p); [exact Hn|]. by rewrite Hh, get_put_machine.
Qed.

(** ** All of an URB *)

Definition between (x : ptp_state_machine) : Prop :=
  sm_state x = ptpps_none \/ sm_state x = ptpps_wait_response.

Lemma get_machine_counted m m' u f : get_machine m (counted m' u f) = get_machine m f.
Proof. unfold counted. case_match; by destruct m. Qed.

Lemma phase_over_between m u f : between (get_machine m (phase_over m u f)).
Proof.
  unfold phase_over. case_bool_decide; [rewrite get_machine_counted|]; rewrite get_put_machine;
    [by left|by right].
Qed.

Lemma phase_done_run m u f s k :
  ptp_phase_done flt m u (upd flt f s) k =
    Ok (bool_decide (sm_state (get_machine m f) = ptpps_response), upd flt (phase_over m u f) s, k).
Proof.
  unfold ptp_phase_done, phase_over. erewrite bind_ok by apply the_filter_ok. cbv beta zeta.
  case_bool_decide.
  - erewrite bind_ok by apply set_machine_ok. cbv beta. unfold counted.
    rewrite put_machine_serving. destruct (_ && _); [|done].
    by erewrite bind_ok by (apply (set_filter_ok flt _ (fun f => f <| pf_trans_id := u32 (pf_trans_id f + 1) |>))).
  - by erewrite bind_ok by apply set_machine_ok.
Qed.

(** One round, given what is left after the header if one was due. *)
Lemma parse_round fuel m u data len done data' len' f f' s k k' :
  len <> 0 -> ptp_parse_due flt m data len (upd flt f s) k = Ok (Some (data', len'), upd flt f' s, k') ->
  let x := get_machine m f' in
  0 <= len' -> 0 <= sm_size x -> sm_size x + len' < 2 ^ 32 ->
  ptp_parse_loop flt (S fuel) m u data len done (upd flt f s) k =
    if sm_size x + len' <? ph_length (sm_ptpdu x) then
      Ok (done, upd flt (put_machine m (x <| sm_size := sm_size x + len' |>) f') s, k')
    else
      let offset := u32 (ph_length (sm_ptpdu x) - sm_size x) in
      ptp_parse_loop flt fuel m u ((fun d => ptr_add d offset) <$> data') (u32 (len' - offset))
        (bool_decide (sm_state x = ptpps_response) || done) (upd flt (phase_over m u f') s) k'.
Proof.
  intros Hl Hd x Hl' Hsz Hov. cbn [ptp_parse_loop]. rewrite (proj2 (Z.eqb_neq len 0)) by done.
  rewrite (bind_ok _ _ _ _ _ _ _ Hd). cbv beta iota.
  erewrite bind_ok by apply the_filter_ok. cbv beta zeta. fold x.
  rewrite (u32_id (len' + sm_size x)) by (unfold is_u32; lia). rewrite (Z.add_comm len').
  case_if.
  - erewrite bind_ok by apply set_machine_ok. cbv beta. fold x. by rewrite u32_id by (unfold is_u32; lia).
  - by erewrite bind_ok by apply phase_done_run.
Qed.

Lemma parse_due_phase m data len f s k :
  ~ between (get_machine m f) ->
  ptp_parse_due flt m data len (upd flt f s) k = Ok (Some (data, len), upd flt f s, k).
Proof.
  intros Hx. unfold ptp_parse_due. erewrite bind_ok by apply the_filter_ok. cbv beta.
  destruct (sm_state (get_machine m f)) eqn:E; try done; destruct Hx; unfold between; auto.
Qed.

(** The header of the next PDU, with [n] bytes of its payload there. *)
Lemma parse_due_pdu m f p b off pre post len s k :
  between (get_machine m f) -> pdu_wf p -> ~ session m p -> off = Z.of_nat (length pre) -> 12 <= len ->
  ptp_parse_due flt m (Some (b, off)) len (upd flt f s)
      (put_block b (pre ++ pdu_start p ++ pd_tid p ++ post) k) =
    Ok (Some (Some (b, off + 12), len - 12), upd flt (started m p f) s,
        put_block b (pre ++ pdu_start p ++ new_tid m f p ++ post) k).
Proof.
  intros Hb Hwf Hn Hoff Hlen. unfold ptp_parse_due. erewrite bind_ok by apply the_filter_ok. cbv beta.
  rewrite (proj2 (Z.ltb_ge len sizeof_ptp_header)) by done.
  destruct Hb as [-> | ->]; (erewrite bind_ok by reflexivity); cbv beta;
    (erewrite bind_ok by by apply parse_header_run); done.
Qed.

Lemma started_phase m p f : pdu_wf p -> ~ between (get_machine m (started m p f)).
Proof.
  intros Hwf. unfold started, between. rewrite get_put_machine. cbn. unfold phase. repeat case_if; naive_solver.
Qed.

(** What a list of PDUs leaves in memory and in the filter. *)
Definition after_pdu (m : machine) (u : positive) (p : pdu) (f : ptp_filter) : ptp_filter :=
  phase_over m u (started m p f).
Fixpoint tagged (m : machine) (u : positive) (f : ptp_filter) (ps : list pdu) : list Z :=
  match ps with
  | [] => []
  | p :: ps' => pdu_bytes (retag m f p) ++ tagged m u (after_pdu m u p f) ps'
  end.
Definition after_pdus (m : machine) (u : positive) (ps : list pdu) (f : ptp_filter) : ptp_filter :=
  foldl (fun f p => after_pdu m u p f) f ps.
Definition is_response (p : pdu) : bool := pd_type p =? PTP_USB_CONTAINER_RESPONSE.

Lemma started_response m p f : pdu_wf p ->
  bool_decide (sm_state (get_machine m (started m p f)) = ptpps_response) = is_response p.
Proof.
  intros (Hty & _). unfold started, is_response. rewrite get_put_machine. cbn [sm_state]. unfold phase.
  rewrite !elem_of_cons, elem_of_nil in Hty. by destruct Hty as [-> |[-> |[-> |[]]]].
Qed.

(** The rest of the URB: the last PDU may be continued in the next one. *)
Definition partial (q : pdu) (n : nat) : pdu := mkPdu (pd_type q) (pd_code q) (pd_tid q) (take n (pd_payload q)).
Definition tail_bytes (tl : option (pdu * nat)) : list Z :=
  match tl with Some (q, n) => pdu_start q ++ pd_tid q ++ take n (pd_payload q) | None => [] end.
Definition tail_tagged (m : machine) (f : ptp_filter) (tl : option (pdu * nat)) : list Z :=
  match tl with Some (q, n) => pdu_start q ++ new_tid m f q ++ take n (pd_payload q) | None => [] end.
Definition tail_wf (m : machine) (tl : option (pdu * nat)) : Prop :=
  match tl with
  | Some (q, n) => pdu_wf q /\ ~ session m q /\ (n < length (pd_payload q))%nat
  | None => True
  end.
Definition after_tail (m : machine) (tl : option (pdu * nat)) (f : ptp_filter) : ptp_filter :=
  match tl with
  | Some (q, n) =>
      put_machine m (mkMachine (phase q) (12 + Z.of_nat n) (pdu_header q)) (saved_tid m q f)
  | None => f
  end.

Lemma parse_tail fuel m u f b off pre tl post done s k :
  between (get_machine m f) -> tail_wf m tl -> off = Z.of_nat (length pre) ->
  ptp_parse_loop flt (S fuel) m u (Some (b, off)) (Z.of_nat (length (tail_bytes tl))) done (upd flt f s)
      (put_block b (pre ++ tail_bytes tl ++ post) k) =
    Ok (done, upd flt (after_tail m tl f) s, put_block b (pre ++ tail_tagged m f tl ++ post) k).
Proof.
  intros Hb Htl Hoff. destruct tl as [[q n]|]; [|done]. destruct Htl as (Hwf & Hn & Hlt).
  pose proof Hwf as (_ & _ & _ & Ht & Hmax). unfold pdu_length in Hmax.
  assert (length (tail_bytes (Some (q, n))) = 12 + n)%nat as ->.
  { cbn [tail_bytes]. rewrite !length_app, length_pdu_start, Ht, length_take. lia. }
  cbn [tail_bytes tail_tagged]. rewrite <- !app_assoc.
  assert (get_machine m (started m q f) = mkMachine (phase q) 12 (pdu_header q)) as Hx
    by (unfold started; apply get_put_machine).
  erewrite parse_round; [|lia|apply parse_due_pdu; [done..|lia]|lia|rewrite Hx; cbn [sm_size]; lia|rewrite Hx; cbn [sm_size]; lia].
  rewrite Hx. cbn [sm_size sm_ptpdu pdu_header ph_length]. unfold pdu_length.
  rewrite (proj2 (Z.ltb_lt _ _)) by lia. do 3 f_equal. unfold started. rewrite put_put_machine.
  f_equal. cbn [after_tail]. f_equal. unfold set_field, set_sm_size. cbn. f_equal. lia.
Qed.

Lemma parse_pdus ps : forall fuel m u f b off pre tl post done s k,
  between (get_machine m f) -> Forall pdu_wf ps -> Forall (fun p => ~ session m p) ps -> tail_wf m tl ->
  off = Z.of_nat (length pre) ->
  let body := mjoin (pdu_bytes <$> ps) in
  (length body < fuel)%nat -> Z.of_nat (length (body ++ tail_bytes tl)) < 2 ^ 32 ->
  let f1 := after_pdus m u ps f in
  ptp_parse_loop flt fuel m u (Some (b, off)) (Z.of_nat (length (body ++ tail_bytes tl))) done (upd flt f s)
      (put_block b (pre ++ body ++ tail_bytes tl ++ post) k) =
    Ok (existsb is_response ps || done, upd flt (after_tail m tl f1) s,
        put_block b (pre ++ tagged m u f ps ++ tail_tagged m f1 tl ++ post) k).
Proof.
  induction ps as [|p ps IH]; intros fuel m u f b off pre tl post done s k Hb Hwf Hn Htl Hoff body Hf Hmax f1.
  { destruct fuel as [|fuel]; [cbn in Hf; lia|]. by apply parse_tail. }
  apply Forall_cons in Hwf as [Hp Hwf]. apply Forall_cons in Hn as [Hnp Hn].
  pose proof Hp as (_ & _ & _ & Ht & Hlp). pose proof (length_pdu_bytes p Hp) as Hlen.
  set (body' := mjoin (pdu_bytes <$> ps)). assert (body = pdu_bytes p ++ body') as Hbody by done.
  rewrite Hbody in *. clearbody body. clear Hbody. rewrite <- !app_assoc in *. rewrite !length_app in *.
  destruct fuel as [|fuel]; [lia|].
  assert (get_machine m (started m p f) = mkMachine (phase p) 12 (pdu_header p)) as Hx
    by (unfold started; apply get_put_machine).
  unfold pdu_length in Hlen, Hlp. unfold pdu_bytes at 2. rewrite <- !app_assoc.
  erewrite parse_round; [|lia|apply parse_due_pdu; [done..|lia]|lia|rewrite Hx; cbn [sm_size]; lia|rewrite Hx; cbn [sm_size]; lia].
  rewrite Hx. cbn [sm_size sm_ptpdu pdu_header ph_length sm_state]. unfold pdu_length.
  rewrite (proj2 (Z.ltb_ge _ _)) by lia. cbv zeta. rewrite (u32_id (_ - 12)) by (unfold is_u32; lia).
  rewrite u32_id by (unfold is_u32; lia). cbn [fmap option_fmap option_map]. unfold ptr_add. cbn [fst snd].
  cbn [existsb]. rewrite <- (started_response m p f Hp), Hx. cbn [sm_state].
  set (pre' := pre ++ pdu_bytes (retag m f p)).
  assert (length (new_tid m f p) = 4%nat) as Hnt.
  { destruct m; cbn [new_tid]; rewrite ?length_le_bytes, ?length_word_bytes; done. }
  replace (pre ++ pdu_start p ++ new_tid m f p ++ pd_payload p ++ body' ++ tail_bytes tl ++ post)
    with (pre' ++ body' ++ tail_bytes tl ++ post) by (unfold pre', pdu_bytes; by rewrite <- !app_assoc).
  replace (Z.of_nat _ - 12 - (12 + Z.of_nat (length (pd_payload p)) - 12)) with (Z.of_nat (length (body' ++ tail_bytes tl))) by (rewrite length_app; lia).
  subst body'. rewrite (IH fuel m u (phase_over m u (started m p f)));
    [|apply phase_over_between|done..| | |].
  - f_equal. f_equal; [f_equal|].
    + by rewrite orb_assoc, (orb_comm (existsb _ _)).
    + unfold pre'. cbn [tagged]. by rewrite <- !app_assoc.
  - unfold pre', pdu_bytes. rewrite !length_app, length_pdu_start. cbn [retag pd_tid pd_payload].
    rewrite Hnt. lia.
  - lia.
  - rewrite length_app. lia.
Qed.
End parse.

(** ** An URB of the stream *)

(** The bytes of an URB the parser looks at. *)
Definition urb_data_length `{UsbPipes} (r : urb) : Z :=
  if usb_pipein (urb_pipe r) then urb_actual_length r else urb_transfer_buffer_length r.

(** The rest of a PDU that began in an URB before, if one is due. *)
Definition lead_ok (x : ptp_state_machine) (lead : list Z) : Prop :=
  (between x /\ lead = []) \/
  (~ between x /\ lead <> [] /\ 0 <= sm_size x /\
   ph_length (sm_ptpdu x) = sm_size x + Z.of_nat (length lead)).
Definition after_lead (m : machine) (u : positive) (lead : list Z) (f : ptp_filter) : ptp_filter :=
  match lead with [] => f | _ => phase_over m u f end.
Definition lead_response (m : machine) (f : ptp_filter) (lead : list Z) : bool :=
  match lead with [] => false | _ => bool_decide (sm_state (get_machine m f) = ptpps_response) end.

Lemma parse_stream_run `{Env} `{Arch} `{UsbPipes} flt m u r b lead ps tl post f s k :
  k_urbs k !! u = Some r -> urb_transfer_buffer r = Some (b, 0) ->
  let body := mjoin (pdu_bytes <$> ps) in
  urb_data_length r = Z.of_nat (length (lead ++ body ++ tail_bytes tl)) ->
  0 <= sm_size (get_machine m f) -> sm_size (get_machine m f) + urb_data_length r < 2 ^ 32 ->
  k_heap k !! b = Some (lead ++ body ++ tail_bytes tl ++ post) ->
  ps_filters s !! flt = Some f -> lead_ok (get_machine m f) lead ->
  Forall pdu_wf ps -> Forall (fun p => ~ session m p) ps -> tail_wf m tl ->
  let f0 := after_lead m u lead f in
  let f1 := after_pdus m u ps f0 in
  ptp_parse flt m u s k =
    Ok (lead_response m f lead || existsb is_response ps, upd flt (after_tail m tl f1) s,
        put_block b (lead ++ tagged m u f0 ps ++ tail_tagged m f1 tl ++ post) k).
Proof.
  intros Hu Hbuf body Hlen Hsz Hmax Hb Hf Hlead Hwf Hn Htl f0 f1. unfold ptp_parse.
  erewrite bind_ok by by apply get_urb_ok. cbv beta zeta. fold (urb_data_length r). rewrite Hbuf, Hlen in *.
  rewrite <- (upd_eta flt f s Hf), <- (put_block_eta b _ k Hb) at 1. rewrite !length_app in *.
  destruct Hlead as [[Hbt ->]|(Hbt & Hne & Hs0 & Hph)].
  - replace (Z.of_nat _) with (Z.of_nat (length (body ++ tail_bytes tl))) by (rewrite length_app; cbn; lia).
    rewrite (parse_pdus flt ps _ m u f b 0 []); try done; [|fold body; rewrite length_app; lia..].
    rewrite orb_false_r. done.
  - destruct lead as [|l0 lead']; [done|]. set (lead := l0 :: lead') in *.
    assert (0 < length lead)%nat by (subst lead; cbn; lia).
    erewrite parse_round; [|lia|by apply parse_due_phase|lia|lia|lia].
    rewrite Hph. rewrite (proj2 (Z.ltb_ge _ _)) by lia. cbv zeta.
    rewrite (u32_id (_ + _ - _)) by (unfold is_u32; lia). rewrite u32_id by (unfold is_u32; lia).
    cbn [fmap option_fmap option_map]. unfold ptr_add. cbn [fst snd].
    replace (Z.of_nat (length lead + (length body + length (tail_bytes tl))) -
             (sm_size (get_machine m f) + Z.of_nat (length lead) - sm_size (get_machine m f)))
      with (Z.of_nat (length (body ++ tail_bytes tl))) by (rewrite length_app; lia).
    rewrite (parse_pdus flt ps _ m u (phase_over m u f) b _ lead); try done;
      [|apply phase_over_between|lia|fold body; lia|fold body; rewrite length_app; lia].
    by rewrite orb_false_r, orb_comm.
Qed.

(** C26: an URB that holds the rest of a PDU, whole PDUs and the beginning of
    another is taken apart exactly so, however many there are: the parser
    terminates, rewrites the transaction ids of exactly the headers in it and no
    other byte, counts a transaction for each response, reports whether there was
    one, and is ready for the next URB of the stream. *)
Theorem ptp_parse_stream `{Env} `{Arch} `{UsbPipes} flt m u r b lead ps tl post f s k :
  k_urbs k !! u = Some r -> urb_transfer_buffer r = Some (b, 0) ->
  let body := mjoin (pdu_bytes <$> ps) in
  urb_data_length r = Z.of_nat (length (lead ++ body ++ tail_bytes tl)) ->
  0 <= sm_size (get_machine m f) -> sm_size (get_machine m f) + urb_data_length r < 2 ^ 32 ->
  k_heap k !! b = Some (lead ++ body ++ tail_bytes tl ++ post) ->
  ps_filters s !! flt = Some f -> lead_ok (get_machine m f) lead ->
  Forall pdu_wf ps -> Forall (fun p => ~ session m p) ps -> tail_wf m tl ->
  let f0 := after_lead m u lead f in
  let f1 := after_pdus m u ps f0 in
  ptp_parse flt m u s k =
    Ok (lead_response m f lead || existsb is_response ps, upd flt (after_tail m tl f1) s,
        put_block b (lead ++ tagged m u f0 ps ++ tail_tagged m f1 tl ++ post) k).
Proof. apply parse_stream_run. Qed.

(** ** Sample *)

(** A camera on port 2; URB 21 belongs to the request 11 of the stub. *)
Definition sample_params : PtpParams := {| usbip_ptp_fps := 10; usbip_ptp_buffer_count := 3; HZ := 250 |}.
Definition ptp_idle : ptp_filter :=
  ptp_filter_zero <| pf_state := ptpfs_idle |> <| pf_info := mkInfo 0 PTP_VENDOR_CANON 0 |>
    <| pf_out_pipe := 7 |> <| pf_out_pipe_size := 512 |> <| pf_trans_id := 40 |>.
Definition sample_sys (f : ptp_filter) : ptp_sys := mkPtpSys (sample_sdev 0) {[5%positive := f]}.
Definition bulk_urb (dir_in : bool) (len : Z) : urb :=
  (urb_zero 0) <| urb_pipe := @usb_mkpipe linux_pipes PIPE_BULK dir_in 5 2 |>
    <| urb_transfer_buffer := Some (1%positive, 0) |> <| urb_transfer_buffer_length := len |>
    <| urb_actual_length := len |> <| urb_context := Some 11%positive |> <| urb_complete := stub_complete_fn |>.
Definition ptp_kernel (dir_in : bool) (data : list Z) : kernel :=
  (one_block data) <| k_urbs := {[21%positive := bulk_urb dir_in (Z.of_nat (length data))]} |>.

(** The last two bytes of a data phase, the response, and part of another PDU. *)
Definition sample_response : pdu := mkPdu PTP_USB_CONTAINER_RESPONSE PTP_RC_OK [9; 0; 0; 0] [].
Definition sample_data : pdu := mkPdu PTP_USB_CONTAINER_DATA 4097 [9; 0; 0; 0] [1; 2; 3; 4].
Definition in_data : ptp_filter :=
  ptp_idle <| pf_tx := mkMachine ptpps_data 14 (pdu_header sample_data) |> <| pf_rx_trans_id := 77 |>.

Definition split_kernel : kernel :=
  ptp_kernel true ([3; 4] ++ pdu_bytes sample_response ++ take 14 (pdu_bytes sample_data)).

Lemma sample_pdus_wf : pdu_wf sample_response /\ pdu_wf sample_data.
Proof.
  split; (split; [set_solver|]); split_and!; try by vm_compute.
  all: repeat constructor; by vm_compute.
Qed.

Lemma ptp_parse_stream_witness :
  exists s', @ptp_parse yes_env false linux_pipes 5 m_tx 21 (sample_sys in_data) split_kernel =
    Ok (true, s', put_block 1 ([3; 4] ++ [12; 0; 0; 0; 3; 0; 1; 32; 77; 0; 0; 0] ++
                               [16; 0; 0; 0; 2; 0; 1; 16; 77; 0; 0; 0; 1; 2]) split_kernel).
Proof.
  destruct sample_pdus_wf as [W1 W2].
  eexists. refine (eq_trans (@ptp_parse_stream yes_env false linux_pipes 5 m_tx 21
    (bulk_urb true 28) 1 [3; 4] [sample_response] (Some (sample_data, 2%nat)) []
    in_data (sample_sys in_data) split_kernel eq_refl eq_refl _ _ _ _ eq_refl _ _ _ _) _).
  - by vm_compute.
  - by vm_compute.
  - by vm_compute.
  - by vm_compute.
  - right. split; [by intros [?|?]|]. by vm_compute.
  - by apply Forall_singleton.
  - apply Forall_singleton. by intros [? _].
  - split; [done|]. split; [by intros [? _]|]. vm_compute. lia.
  - reflexivity.
Defined.
