(* ===== verification/PtpHookProps.v ===== *)
(** * The camera filter: the hooks

    The client never sees the transaction ids the filter uses; where the filter
    puts the frames it asks for; and the inputs that make it stop the machine. *)
From S2P Require Import Prelude Kernel Wire Event EventProps Exec Xfer XferProps ListProps.
From S2P Require Import Filters FilterProps Stub StubTx StubRx StubProps StubHostProps Ptp PtpProps.

(** ** State changes *)

Section changes.
Context `{Env} `{Arch} `{UsbPipes} `{PtpParams}.
Variable flt : positive.

Lemma lock_filter_run (s : ptp_sys) k :
  LockPtp flt ∉ k_locks k -> lock_filter flt s k = Ok (tt, s, k <| k_locks := LockPtp flt :: k_locks k |>).
Proof. apply spin_lock_ok. Qed.

Lemma unlock_filter_run (s : ptp_sys) k :
  LockPtp flt ∉ k_locks k -> unlock_filter flt s (k <| k_locks := LockPtp flt :: k_locks k |>) = Ok (tt, s, k).
Proof.
  intros Hl. unfold unlock_filter, spin_unlock. cbn. rewrite decide_True, remove_id_relock by set_solver.
  by destruct k.
Qed.

(** A change between states of the same kind. *)
Lemma change_state_run st f s k :
  st <> ptpfs_sleep -> at_least st ptpfs_active = true \/ at_least (pf_state f) ptpfs_active = false ->
  ptp_change_state flt false st (upd flt f s) k = Ok (tt, upd flt (f <| pf_state := st |>) s, k).
Proof.
  intros Hs Hc. unfold ptp_change_state. erewrite bind_ok by reflexivity. cbv beta.
  erewrite bind_ok by apply the_filter_ok. cbv beta.
  assert (negb (at_least st ptpfs_active) && at_least (pf_state f) ptpfs_active = false) as ->
    by (destruct Hc as [-> | ->]; [done|by rewrite andb_false_r]).
  rewrite bool_decide_false by done. erewrite bind_ok by reflexivity. cbv beta.
  by erewrite bind_ok by (apply (set_filter_ok flt f (fun f => f <| pf_state := st |>))).
Qed.

Lemma change_state_locked_run st f s k :
  st <> ptpfs_sleep -> at_least st ptpfs_active = true \/ at_least (pf_state f) ptpfs_active = false ->
  LockPtp flt ∉ k_locks k ->
  ptp_change_state flt true st (upd flt f s) k = Ok (tt, upd flt (f <| pf_state := st |>) s, k).
Proof.
  intros Hs Hc Hl. unfold ptp_change_state, when_. erewrite bind_ok by by apply lock_filter_run. cbv beta.
  erewrite bind_ok by apply the_filter_ok. cbv beta.
  assert (negb (at_least st ptpfs_active) && at_least (pf_state f) ptpfs_active = false) as ->
    by (destruct Hc as [-> | ->]; [done|by rewrite andb_false_r]).
  rewrite bool_decide_false by done. erewrite bind_ok by reflexivity. cbv beta.
  erewrite bind_ok by (apply (set_filter_ok flt f (fun f => f <| pf_state := st |>))). cbv beta.
  by apply unlock_filter_run.
Qed.

(** ** Transaction ids *)

(** A filter that knows its pipes and has nothing to do. *)
Definition idle_filter (f : ptp_filter) : Prop :=
  pf_state f = ptpfs_idle /\ between (pf_rx f) /\ between (pf_tx f) /\
  0 <= sm_size (pf_rx f) < 2 ^ 31 /\ 0 <= sm_size (pf_tx f) < 2 ^ 31 /\
  pf_request_queue f = [] /\ pf_out_pipe f <> 0 /\ pf_frame_serving_urb f = None.

(** An URB whose whole data is the PDU [p]. *)
Definition carries (u : positive) (r : urb) (p : pdu) (post : list Z) (k : kernel) : Prop :=
  k_urbs k !! u = Some r /\ usb_pipebulk (urb_pipe r) = true /\ urb_data_length r = pdu_length p /\
  exists b, urb_transfer_buffer r = Some (b, 0) /\ k_heap k !! b = Some (pdu_bytes p ++ post).

(** The same with another id. *)
Definition with_tid (tid : list Z) (p : pdu) : pdu := mkPdu (pd_type p) (pd_code p) tid (pd_payload p).

Lemma parse_one m u r p post b f s k :
  k_urbs k !! u = Some r -> urb_data_length r = pdu_length p -> urb_transfer_buffer r = Some (b, 0) ->
  k_heap k !! b = Some (pdu_bytes p ++ post) -> pdu_wf p -> ~ session m p ->
  between (get_machine m f) -> 0 <= sm_size (get_machine m f) < 2 ^ 31 -> pdu_length p < 2 ^ 31 ->
  ptp_parse flt m u (upd flt f s) k =
    Ok (is_response p, upd flt (after_pdu m u p f) s, put_block b (pdu_bytes (retag m f p) ++ post) k).
Proof.
  intros Hu Hl Hb Hblk Hp Hn Hbt Hsz Hl31. pose proof (length_pdu_bytes p Hp) as Hlen.
  rewrite (parse_stream_run flt m u r b [] [p] None post f (upd flt f s) k); cbn [fmap list_fmap mjoin list_join].
  - cbn [lead_response existsb after_lead after_pdus foldl after_tail tagged tail_tagged app].
    rewrite !app_nil_r, orb_false_r. unfold upd. cbn. by rewrite insert_insert_eq.
  - done.
  - done.
  - cbn [tail_bytes app]. by rewrite !app_nil_r, Hl, Hlen.
  - lia.
  - rewrite Hl. lia.
  - cbn [tail_bytes app]. by rewrite !app_nil_r.
  - apply lookup_insert_eq.
  - by left.
  - by apply Forall_singleton.
  - by apply Forall_singleton.
  - done.
Qed.

Lemma check_preview_run u r p b post f s k :
  k_urbs k !! u = Some r -> urb_transfer_buffer r = Some (b, 0) -> pdu_wf p ->
  k_heap k !! b = Some (pdu_bytes p ++ post) ->
  ptp_check_preview flt u (upd flt f s) k =
    Ok ((VendorExtensionID (pf_info f) =? PTP_VENDOR_CANON) && (pd_code p =? PTP_OC_CANON_EOS_GetViewFinderData),
        upd flt f s, k).
Proof.
  intros Hu Hb (_ & Hc & _) Hblk. unfold ptp_check_preview.
  erewrite bind_ok by by apply get_urb_ok. cbv beta. erewrite bind_ok by apply the_filter_ok. cbv beta.
  destruct (_ =? PTP_VENDOR_CANON); [|done]. rewrite Hb. erewrite bind_ok by reflexivity. cbv beta.
  rewrite <- (put_block_eta b _ k Hblk). unfold pdu_bytes, pdu_start. rewrite <- !app_assoc.
  rewrite (app_assoc (le_bytes 4 _)).
  erewrite bind_ok; [|apply load_part; [by rewrite length_app, !length_le_bytes|by rewrite length_le_bytes]].
  cbv beta. rewrite of_le_le_bytes, Z.mod_small by (cbn; lia). done.
Qed.
End changes.

Lemma word_bytes_word_of `{Arch} l : bytes l -> length l = 4%nat -> word_bytes (word_of l) = l.
Proof.
  intros Hb Hl. unfold word_bytes, word_of. rewrite <- Hl. destruct big_endian.
  - by apply be_bytes_of_be.
  - by apply le_bytes_of_le.
Qed.

(** A command of the client other than for sessions and frames. *)
Definition plain_command (f : ptp_filter) (p : pdu) : Prop :=
  pdu_wf p /\ pd_type p = PTP_USB_CONTAINER_COMMAND /\ pdu_length p < 2 ^ 31 /\
  pd_code p <> PTP_OC_OpenSession /\ pd_code p <> PTP_OC_CloseSession /\
  pd_code p <> PTP_OC_CANON_EOS_GetViewFinderData.

(** The filter while such a command is with the device. *)
Definition command_sent `{Arch} (u : positive) (p : pdu) (f : ptp_filter) : ptp_filter :=
  (after_pdu m_rx u p f) <| pf_state := ptpfs_command |>.

Section ids.
Context `{Env} `{Arch} `{UsbPipes} `{PtpParams}.
Variables (flt : positive) (on_tx : positive -> M ptp_sys Z).

Lemma after_pdu_rx u p f :
  pd_type p = PTP_USB_CONTAINER_COMMAND ->
  after_pdu m_rx u p f = f <| pf_rx_trans_id := word_of (pd_tid p) |>
    <| pf_rx := mkMachine ptpps_wait_response 12 (pdu_header p) |>.
Proof. intros Hty. unfold after_pdu, phase_over, started, phase. rewrite Hty. done. Qed.

(** The hook for an URB to the device, once the pipes are known. *)
Lemma on_rx_out u r hdr c f s k :
  k_urbs k !! u = Some r -> usb_pipebulk (urb_pipe r) = true -> usb_pipein (urb_pipe r) = false ->
  urb_context r = Some c -> pf_state f <> ptpfs_bypassed -> pf_out_pipe f <> 0 ->
  ptp_on_rx flt on_tx hdr u (upd flt f s) k =
    (ptp_parse flt m_rx u;;
     f ← the_filter flt;
     if bool_decide (sm_state (pf_rx f) <> ptpps_wait_response) ||
        negb (ph_type (sm_ptpdu (pf_rx f)) =? PTP_USB_CONTAINER_COMMAND)
     then mret 0
     else lock_filter flt;; ptp_command flt on_tx hdr c u) (upd flt f s) k.
Proof.
  intros Hu Hbulk Hin Hctx Hst Hop. unfold ptp_on_rx. erewrite bind_ok by apply the_filter_ok. cbv beta.
  erewrite bind_ok by by apply get_urb_ok. cbv beta. rewrite Hbulk, bool_decide_false by done. cbn [orb negb].
  rewrite Hctx. erewrite bind_ok by reflexivity. cbv beta. rewrite Hin.
  erewrite bind_ok; [reflexivity|].
  unfold ptp_learn_pipes. erewrite bind_ok by by apply get_urb_ok. cbv beta.
  erewrite bind_ok by apply the_filter_ok. cbv beta. rewrite Hin, andb_false_r.
  erewrite bind_ok by reflexivity. cbv beta. by rewrite (proj2 (Z.eqb_neq _ _) Hop).
Qed.

Lemma command_passed u r p post hdr c f s k :
  idle_filter f -> plain_command f p -> carries u r p post k -> usb_pipein (urb_pipe r) = false ->
  urb_context r = Some c -> LockPtp flt ∉ k_locks k ->
  exists b, urb_transfer_buffer r = Some (b, 0) /\
    ptp_on_rx flt on_tx hdr u (upd flt f s) k =
      Ok (0, upd flt (command_sent u p f) s,
          put_block b (pdu_bytes (with_tid (le_bytes 4 (pf_trans_id f)) p) ++ post) k).
Proof.
  intros (Hst & Hrx & _ & Hsz & _ & _ & Hop & _) (Hp & Hty & Hl31 & Hno & Hnc & Hnv)
    (Hu & Hbulk & Hl & b & Hb & Hblk) Hin Hctx Hlk.
  exists b. split; [done|]. rewrite (on_rx_out u r hdr c f s k) by (done || by rewrite Hst).
  assert (~ session m_rx p) as Hns by by intros (_ & _ & [?|?]).
  erewrite bind_ok by by eapply (parse_one flt m_rx). cbv beta.
  erewrite bind_ok by apply the_filter_ok. cbv beta. rewrite (after_pdu_rx u p f Hty).
  set (f1 := f <| pf_rx_trans_id := word_of (pd_tid p) |>
    <| pf_rx := mkMachine ptpps_wait_response 12 (pdu_header p) |>).
  change (pf_rx f1) with (mkMachine ptpps_wait_response 12 (pdu_header p)).
  cbn [sm_state sm_ptpdu pdu_header ph_type]. rewrite Hty.
  rewrite bool_decide_false by naive_solver. cbn [orb negb Z.eqb Pos.eqb PTP_USB_CONTAINER_COMMAND].
  set (p1 := retag m_rx f p). set (k1 := put_block b (pdu_bytes p1 ++ post) k).
  erewrite bind_ok by (by apply lock_filter_run). cbv beta. unfold ptp_command.
  erewrite bind_ok by (by apply get_urb_ok). cbv beta.
  assert (pdu_wf p1) as Hp1.
  { destruct Hp as (G1 & G2 & _ & _ & G3).
    exact (conj G1 (conj G2 (conj (le_bytes_bytes 4 _) (conj (length_le_bytes 4 _) G3)))). }
  erewrite bind_ok.
  2: { apply (check_preview_run flt u r p1 b post); [exact Hu|exact Hb|exact Hp1|]. apply lookup_insert_eq. }
  cbv beta. change (pd_code p1) with (pd_code p). rewrite (proj2 (Z.eqb_neq _ _) Hnv), andb_false_r.
  erewrite bind_ok by apply the_filter_ok. cbv beta iota.
  change (pf_state f1) with (pf_state f). rewrite Hst. cbv iota.
  erewrite bind_ok by (apply change_state_run; [done|right; change (pf_state f1) with (pf_state f); by rewrite Hst]).
  cbv beta. erewrite bind_ok by (by apply unlock_filter_run). cbv beta.
  unfold command_sent. rewrite (after_pdu_rx u p f Hty). done.
Qed.

Lemma response_returned u r p post f s k :
  pf_state f = ptpfs_command -> between (pf_tx f) -> 0 <= sm_size (pf_tx f) < 2 ^ 31 ->
  pf_request_queue f = [] -> pf_frame_serving_urb f <> Some u ->
  pdu_wf p -> pd_type p = PTP_USB_CONTAINER_RESPONSE -> pdu_length p < 2 ^ 31 ->
  carries u r p post k -> usb_pipein (urb_pipe r) = true -> urb_status r = 0 -> LockPtp flt ∉ k_locks k ->
  exists b, urb_transfer_buffer r = Some (b, 0) /\
    ptp_on_tx flt u (upd flt f s) k =
      Ok (0, upd flt ((after_pdu m_tx u p f) <| pf_state := ptpfs_idle |>) s,
          put_block b (pdu_bytes (with_tid (word_bytes (pf_rx_trans_id f)) p) ++ post) k).
Proof.
  intros Hst Htx Hsz Hq Hserv Hp Hty Hl31 (Hu & Hbulk & Hl & b & Hb & Hblk) Hin Hok Hlk.
  exists b. split; [done|]. unfold ptp_on_tx. erewrite bind_ok by apply the_filter_ok. cbv beta.
  erewrite bind_ok by by apply get_urb_ok. cbv beta. rewrite Hst, Hbulk, Hok, bool_decide_false by done. cbn [orb negb Z.eqb].
  assert (~ session m_tx p) as Hns by by intros (? & _).
  erewrite bind_ok by by eapply (parse_one flt m_tx). cbv beta. unfold usb_pipeout. rewrite Hin. cbn [negb].
  erewrite bind_ok by apply the_filter_ok. cbv beta.
  assert (pf_state (after_pdu m_tx u p f) = ptpfs_command /\ pf_request_queue (after_pdu m_tx u p f) = []) as [E1 E2].
  { unfold after_pdu, phase_over, started, phase, counted. rewrite Hty. cbn.
    destruct (bool_decide _ && _); done. }
  rewrite E1, bool_decide_false by done. unfold is_response. rewrite Hty. cbn [Z.eqb Pos.eqb PTP_USB_CONTAINER_RESPONSE negb].
  erewrite bind_ok by (apply change_state_locked_run; [done|right; by rewrite E1|done]). cbv beta.
  erewrite bind_ok by (by apply lock_filter_run). cbv beta.
  erewrite bind_ok.
  2: { unfold ptp_produce. erewrite bind_ok by apply the_filter_ok. cbv beta zeta.
       match goal with |- context [pf_request_queue ?x] => assert (pf_request_queue x = []) as -> by exact E2 end.
       reflexivity. }
  cbv beta. by erewrite bind_ok by (by apply unlock_filter_run).
Qed.
End ids.

(** C27: the client keeps its own transaction ids.  A command it sends while the
    filter is idle reaches the device with the filter's next id, and the response
    comes back with the id of the client, whatever id the device put there; the
    filter is idle again and has counted one transaction. *)
Theorem client_ids_kept `{Env} `{Arch} `{UsbPipes} `{PtpParams} flt on_tx u r p post hdr c f s k :
  idle_filter f -> ps_filters s !! flt = Some f -> plain_command f p -> carries u r p post k ->
  usb_pipein (urb_pipe r) = false -> urb_context r = Some c -> LockPtp flt ∉ k_locks k ->
  exists f1 s1 k1, ptp_on_rx flt on_tx hdr u s k = Ok (0, s1, k1) /\ ps_filters s1 !! flt = Some f1 /\
    carries u r (with_tid (le_bytes 4 (pf_trans_id f)) p) post k1 /\ pf_state f1 = ptpfs_command /\
    forall u2 r2 q post2 s2 k2,
      ps_filters s2 !! flt = Some f1 -> pdu_wf q -> pd_type q = PTP_USB_CONTAINER_RESPONSE ->
      pdu_length q < 2 ^ 31 -> carries u2 r2 q post2 k2 -> usb_pipein (urb_pipe r2) = true ->
      urb_status r2 = 0 -> LockPtp flt ∉ k_locks k2 ->
      exists f3 s3 k3, ptp_on_tx flt u2 s2 k2 = Ok (0, s3, k3) /\ ps_filters s3 !! flt = Some f3 /\
        carries u2 r2 (with_tid (pd_tid p) q) post2 k3 /\ pf_state f3 = ptpfs_idle /\
        pf_trans_id f3 = u32 (pf_trans_id f + 1).
Proof.
  intros Hidle Hf Hp Hc Hin Hctx Hlk.
  destruct (command_passed flt on_tx u r p post hdr c f s k) as (b & Hb & Hrun); try done.
  rewrite (upd_eta flt f s Hf) in Hrun. destruct Hidle as (_ & _ & Htx & _ & Hsz & Hq & _ & Hserv).
  destruct Hc as (Hu & Hbulk & Hl & _). pose proof Hp as (Hpw & Hty & _).
  eexists (command_sent u p f), _, _. split; [exact Hrun|]. split; [apply lookup_insert_eq|].
  split; [split_and!; [done|done|done|exists b; split; [done|apply lookup_insert_eq]]|]. split; [done|].
  intros u2 r2 q post2 s2 k2 Hf2 Hq2 Hty2 Hl2 Hc2 Hin2 Hok2 Hlk2.
  assert (command_sent u p f = f <| pf_rx_trans_id := word_of (pd_tid p) |>
    <| pf_rx := mkMachine ptpps_wait_response 12 (pdu_header p) |> <| pf_state := ptpfs_command |>) as Hcs
    by (unfold command_sent; by rewrite (after_pdu_rx u p f Hty)).
  rewrite Hcs in *. match type of Hcs with _ = ?x => set (f1 := x) in * end.
  destruct (response_returned flt u2 r2 q post2 f1 s2 k2 eq_refl Htx Hsz Hq) as (b2 & Hb2 & Hrun2); try done.
  { change (pf_frame_serving_urb f1) with (pf_frame_serving_urb f). by rewrite Hserv. }
  rewrite (upd_eta flt _ s2 Hf2) in Hrun2. destruct Hc2 as (Hu2 & Hbulk2 & Hlq & _).
  eexists _, _, _. split; [exact Hrun2|]. split; [apply lookup_insert_eq|].
  split; [split_and!; [done|done|done|exists b2; split; [done|]]|].
  { destruct Hpw as (_ & _ & Hbt & Hbl & _). change (pf_rx_trans_id f1) with (word_of (pd_tid p)).
    rewrite word_bytes_word_of by done. apply lookup_insert_eq. }
  split; [done|]. unfold after_pdu, phase_over, started, phase. rewrite Hty2. cbn. unfold counted. cbn. by rewrite Hserv.
Qed.

(** ** Inputs that stop the machine *)

Lemma u32_neg x : - 2 ^ 32 <= x < 0 -> u32 x = x + 2 ^ 32.
Proof.
  intros Hx. unfold u32, wrap. rewrite <- (Z.mod_add x 1 (2 ^ 32)) by lia.
  rewrite Z.mod_small by lia. lia.
Qed.

Section stops.
Context `{Env} `{Arch} `{UsbPipes} `{PtpParams}.
Variable flt : positive.

(** The filter after the check for a new session: the lock is held. *)
Definition new_session (p : pdu) (f : ptp_filter) : ptp_filter :=
  (if pd_code p =? PTP_OC_OpenSession then f <| pf_trans_id := 0 |> else f) <| pf_state := ptpfs_idle |>.

Lemma check_session_run p f s k :
  session m_rx p -> pf_state f = ptpfs_idle -> LockPtp flt ∉ k_locks k ->
  let x := (pf_rx f) <| sm_ptpdu := pdu_header p |> in
  ptp_check_new_session flt m_rx (upd flt (put_machine m_rx x f) s) k =
    Ok (tt, upd flt (put_machine m_rx x (new_session p f)) s, k <| k_locks := LockPtp flt :: k_locks k |>).
Proof.
  intros (_ & Hty & Hc) Hst Hl x. unfold ptp_check_new_session. rewrite bool_decide_false by naive_solver.
  erewrite bind_ok by apply the_filter_ok. cbv beta zeta.
  change (sm_ptpdu (pf_rx (put_machine m_rx x f))) with (pdu_header p). cbn [pdu_header ph_type ph_code].
  rewrite Hty, Z.eqb_refl.
  assert ((pd_code p =? PTP_OC_OpenSession) || (pd_code p =? PTP_OC_CloseSession) = true) as ->
    by (destruct Hc as [-> | ->]; done).
  erewrite bind_ok by by apply lock_filter_run. cbv beta. unfold new_session.
  destruct (pd_code p =? PTP_OC_OpenSession); unfold when_.
  - erewrite bind_ok by (apply (set_filter_ok flt _ (fun f => f <| pf_trans_id := 0 |>))). cbv beta.
    rewrite change_state_run; [reflexivity|done|right; cbn; by rewrite Hst].
  - erewrite bind_ok by reflexivity. cbv beta.
    rewrite change_state_run; [reflexivity|done|right; cbn; by rewrite Hst].
Qed.

Lemma parse_session_run u r p post b f s k :
  k_urbs k !! u = Some r -> urb_data_length r = pdu_length p -> urb_transfer_buffer r = Some (b, 0) ->
  k_heap k !! b = Some (pdu_bytes p ++ post) -> pdu_wf p -> session m_rx p -> pf_state f = ptpfs_idle ->
  between (pf_rx f) -> LockPtp flt ∉ k_locks k ->
  exists k1, ptp_parse flt m_rx u (upd flt f s) k =
      Ok (false, upd flt (after_pdu m_rx u p (new_session p f)) s, k1) /\
    k_locks k1 = LockPtp flt :: k_locks k.
Proof.
  intros Hu Hlen Hb Hblk Hp Hses Hst Hbt Hl. pose proof Hp as (Hty & _ & _ & Ht & Hmax).
  pose proof (header_of_pdu p Hp) as Hh. unfold pdu_length in Hmax.
  unfold ptp_parse. erewrite bind_ok by by apply get_urb_ok. cbv beta zeta. fold (urb_data_length r).
  rewrite Hlen, Hb. rewrite <- (put_block_eta b _ k Hblk). unfold pdu_bytes. rewrite <- !app_assoc.
  set (blk := pdu_start p ++ pd_tid p ++ pd_payload p ++ post).
  set (k' := k <| k_locks := LockPtp flt :: k_locks k |>).
  assert (ptp_check_new_session flt m_rx (upd flt (put_machine m_rx ((pf_rx f) <| sm_ptpdu := pdu_header p |>) f) s)
     (put_block b blk k) = Ok (tt, upd flt (put_machine m_rx ((pf_rx f) <| sm_ptpdu := pdu_header p |>) (new_session p f)) s,
     put_block b blk k')) as Hchk by by apply check_session_run.
  pose proof (parse_header_gen flt m_rx (pdu_start p) p f (new_session p f) b 0 [] (pd_payload p ++ post) s k k') as Hgen.
  cbv zeta in Hgen. rewrite Hh in Hgen. specialize (Hgen (length_pdu_start p) Ht Hty eq_refl Hchk).
  cbn [app] in Hgen. fold blk in Hgen.
  set (f1 := started_at m_rx (pdu_header p) (pd_tid p) (new_session p f)) in *.
  match type of Hgen with _ = Ok (_, _, ?kk) => set (k1 := kk) in * end.
  exists k1. split; [|done]. pose proof Hses as (_ & Hty' & _).
  assert (get_machine m_rx f1 = mkMachine ptpps_command 12 (pdu_header p)) as Hx.
  { unfold f1, started_at. cbn [pdu_header ph_type]. rewrite Hty'. done. }
  assert (ptp_parse_due flt m_rx (Some (b, 0)) (pdu_length p) (upd flt f s) (put_block b blk k) =
    Ok (Some (Some (b, 12), pdu_length p - 12), upd flt f1 s, k1)) as Hdue.
  { unfold ptp_parse_due. erewrite bind_ok by apply the_filter_ok. cbv beta.
    rewrite (proj2 (Z.ltb_ge _ _)) by (unfold pdu_length, sizeof_ptp_header; lia).
    destruct Hbt as [E|E]; cbn [get_machine]; rewrite E; (erewrite bind_ok by reflexivity); cbv beta;
      (erewrite bind_ok by exact Hgen); reflexivity. }
  erewrite parse_round; [|unfold pdu_length; lia|exact Hdue|unfold pdu_length; lia
    |rewrite Hx; cbn [sm_size]; lia|rewrite Hx; cbn [sm_size]; unfold pdu_length; lia].
  rewrite Hx. cbn [sm_size sm_ptpdu pdu_header ph_length sm_state].
  unfold pdu_length. rewrite (proj2 (Z.ltb_ge _ _)) by lia. cbv zeta.
  rewrite (u32_id (12 + Z.of_nat (length (pd_payload p)) - 12)) by (unfold is_u32; lia).
  replace (12 + Z.of_nat (length (pd_payload p)) - 12 - (12 + Z.of_nat (length (pd_payload p)) - 12)) with 0 by lia.
  unfold f1, after_pdu, started, started_at, saved_tid. cbn [pdu_header ph_type]. unfold phase. by rewrite Hty'.
Qed.

(** A PDU that says it is shorter than its header. *)
Lemma short_pdu_run m u r b start tid post f s k :
  k_urbs k !! u = Some r -> urb_transfer_buffer r = Some (b, 0) ->
  k_heap k !! b = Some (start ++ tid ++ post) -> length start = 8%nat -> length tid = 4%nat ->
  let h := ptp_header_of (start ++ tid) in
  ph_type h ∈ [PTP_USB_CONTAINER_COMMAND; PTP_USB_CONTAINER_DATA; PTP_USB_CONTAINER_RESPONSE] ->
  ~ (m = m_rx /\ ph_type h = PTP_USB_CONTAINER_COMMAND /\
     (ph_code h = PTP_OC_OpenSession \/ ph_code h = PTP_OC_CloseSession)) ->
  0 <= ph_length h < 12 -> 12 + ph_length h <= urb_data_length r < 2 ^ 31 ->
  Z.of_nat (length (start ++ tid ++ post)) < 2 ^ 32 -> between (get_machine m f) ->
  ptp_parse flt m u (upd flt f s) k = Crash OutOfBounds.
Proof.
  intros Hu Hb Hblk Hs8 Ht h Hty Hns Hshort Hlen Hsmall Hbt. set (len := urb_data_length r) in *.
  unfold ptp_parse. erewrite bind_ok by by apply get_urb_ok. cbv beta zeta. fold (urb_data_length r). fold len.
  rewrite Hb. rewrite <- (put_block_eta b _ k Hblk).
  pose proof (parse_header_gen flt m start (mkPdu 0 0 tid []) f f b 0 [] post s k k) as Hgen.
  cbv zeta in Hgen. cbn [pd_tid app] in Hgen. fold h in Hgen. specialize (Hgen Hs8 Ht Hty eq_refl).
  specialize (Hgen ltac:(apply (no_session_header flt m h); [exact Hns|by rewrite get_put_machine])).
  set (f1 := started_at m h tid f) in *. set (blk := start ++ new_tid m f (mkPdu 0 0 tid []) ++ post) in *.
  assert (ptp_parse_due flt m (Some (b, 0)) len (upd flt f s) (put_block b (start ++ tid ++ post) k) =
    Ok (Some (Some (b, 12), len - 12), upd flt f1 s, put_block b blk k)) as Hdue.
  { unfold ptp_parse_due. erewrite bind_ok by apply the_filter_ok. cbv beta.
    rewrite (proj2 (Z.ltb_ge _ _)) by (unfold sizeof_ptp_header; lia).
    destruct Hbt as [E|E]; rewrite E; (erewrite bind_ok by reflexivity); cbv beta;
      (erewrite bind_ok by exact Hgen); reflexivity. }
  assert (sm_size (get_machine m f1) = 12 /\ sm_ptpdu (get_machine m f1) = h) as [Hx1 Hx2]
    by (unfold f1, started_at; by rewrite get_put_machine).
  erewrite parse_round; [|lia|exact Hdue|lia|rewrite Hx1; lia|rewrite Hx1; lia]. rewrite Hx1, Hx2.
  rewrite (proj2 (Z.ltb_ge _ _)) by lia. cbv zeta.
  rewrite (u32_neg (ph_length h - 12)) by lia. rewrite u32_neg by lia.
  replace (len - 12 - (ph_length h - 12 + 2 ^ 32) + 2 ^ 32) with (len - ph_length h) by lia.
  destruct (Z.to_nat len) as [|n] eqn:En; [lia|]. cbn [ptp_parse_loop].
  rewrite (proj2 (Z.eqb_neq (len - ph_length h) 0)) by lia. apply bind_crash.
  unfold ptp_parse_due. erewrite bind_ok by apply the_filter_ok. cbv beta.
  rewrite (proj2 (Z.ltb_ge _ _)) by (unfold sizeof_ptp_header; lia).
  assert (length blk = length (start ++ tid ++ post)) as Hlb.
  { unfold blk. rewrite !length_app. do 2 f_equal. rewrite Ht.
    destruct m; cbn [new_tid pd_tid]; rewrite ?length_le_bytes, ?length_word_bytes; done. }
  destruct (phase_over_between m u f1) as [-> | ->]; cbn [fmap option_fmap option_map];
    (erewrite bind_ok by reflexivity); cbv beta; do 2 apply bind_crash;
    unfold load_bytes, ptr_add; cbn [fst snd put_block k_heap set_field set_k_heap];
    rewrite lookup_insert_eq, Hlb, andb_comm; rewrite (proj2 (Z.leb_gt _ _));
    [done|unfold sizeof_ptp_header; lia|done|unfold sizeof_ptp_header; lia].
Qed.
End stops.

(** Opening or closing a session deadlocks.  When a command of the client is
    OpenSession or CloseSession, the parser takes the filter's lock and does not
    release it; the hook then takes it again. *)
Theorem session_deadlocks `{Env} `{Arch} `{UsbPipes} `{PtpParams} flt on_tx u r p post hdr c f s k :
  idle_filter f -> ps_filters s !! flt = Some f -> pdu_wf p -> session m_rx p -> carries u r p post k ->
  usb_pipein (urb_pipe r) = false -> urb_context r = Some c -> LockPtp flt ∉ k_locks k ->
  ptp_on_rx flt on_tx hdr u s k = Crash Deadlock.
Proof.
  intros (Hst & Hrx & _ & _ & _ & _ & Hop & _) Hf Hp Hses (Hu & Hbulk & Hl & b & Hb & Hblk) Hin Hctx Hlk.
  rewrite <- (upd_eta flt f s Hf). rewrite (on_rx_out flt on_tx u r hdr c f s k) by (done || by rewrite Hst).
  destruct (parse_session_run flt u r p post b f s k) as (k1 & Hrun & Hk1); try done.
  erewrite bind_ok by exact Hrun. cbv beta. erewrite bind_ok by apply the_filter_ok. cbv beta.
  destruct Hses as (_ & Hty & _). rewrite (after_pdu_rx u p _ Hty).
  match goal with |- context [sm_state (pf_rx ?x)] =>
    change (pf_rx x) with (mkMachine ptpps_wait_response 12 (pdu_header p)) end.
  cbn [sm_state sm_ptpdu pdu_header ph_type]. rewrite Hty, bool_decide_false by naive_solver.
  cbn [orb negb Z.eqb Pos.eqb PTP_USB_CONTAINER_COMMAND].
  apply bind_crash. unfold lock_filter, spin_lock. by rewrite decide_True by (rewrite Hk1; left).
Qed.

(** A PDU whose length is less than that of its header, with twelve more
    bytes behind it, makes the parser read far outside the URB's buffer,
    whichever direction it came from. *)
Theorem short_pdu_overruns `{Env} `{Arch} `{UsbPipes} flt m u r b start tid post f s k :
  ps_filters s !! flt = Some f -> between (get_machine m f) ->
  k_urbs k !! u = Some r -> urb_transfer_buffer r = Some (b, 0) ->
  k_heap k !! b = Some (start ++ tid ++ post) -> length start = 8%nat -> length tid = 4%nat ->
  let h := ptp_header_of (start ++ tid) in
  ph_type h ∈ [PTP_USB_CONTAINER_COMMAND; PTP_USB_CONTAINER_DATA; PTP_USB_CONTAINER_RESPONSE] ->
  ~ (m = m_rx /\ ph_type h = PTP_USB_CONTAINER_COMMAND /\
     (ph_code h = PTP_OC_OpenSession \/ ph_code h = PTP_OC_CloseSession)) ->
  0 <= ph_length h < 12 -> 12 + ph_length h <= urb_data_length r < 2 ^ 31 ->
  Z.of_nat (length (start ++ tid ++ post)) < 2 ^ 32 ->
  ptp_parse flt m u s k = Crash OutOfBounds.
Proof. intros Hf. rewrite <- (upd_eta flt f s Hf). intros. by eapply short_pdu_run. Qed.

(** ** Frames while the hooks run *)

(** The filter is attached first to the device. *)
Definition attached (n flt : positive) (s : ptp_sys) (k : kernel) : Prop :=
  (exists l, is_list (k_nodes k) (ud_filters (the_ud s)) (n :: l)) /\
  ud_filter_objs (the_ud s) !! n = Some (mkFilter ptp_driver_list (Z.pos flt)).

Section preview.
Context `{Env} `{Arch} `{UsbPipes} `{PtpParams}.

Lemma filter_priv_run n flt s k :
  ud_filter_objs (the_ud s) !! n = Some (mkFilter ptp_driver_list (Z.pos flt)) ->
  filter_priv n s k = Ok (flt, s, k).
Proof.
  intros Hn. unfold filter_priv. erewrite bind_ok.
  2: { unfold get_filter. erewrite bind_ok by reflexivity. cbv beta. rewrite Hn. reflexivity. }
  reflexivity.
Qed.

(** Completing an URB of the client under the lock of the filters. *)
Lemma complete_deadlocks flt u r c f s k :
  k_urbs k !! u = Some r -> urb_complete r = stub_complete_fn -> urb_context r = Some c ->
  is_Some (sd_privs (ps_sdev s) !! c) -> LockUdFilter 0 ∈ k_locks k ->
  ptp_complete_urb flt ptp_complete_on_tx u (upd flt f s) k = Crash Deadlock.
Proof.
  intros Hu Hc Hctx [x Hx] Hl. unfold ptp_complete_urb.
  erewrite bind_ok by apply set_filter_ok. cbv beta.
  erewrite bind_ok by by apply modify_urb_ok. cbv beta.
  erewrite bind_ok by (apply get_urb_ok, lookup_insert_eq). cbv beta. apply bind_crash.
  rewrite bool_decide_true by done. unfold stub_complete_via.
  erewrite bind_ok by (apply get_urb_ok, lookup_insert_eq). cbv beta.
  erewrite bind_ok by (by apply deref_ok). cbv beta. erewrite bind_ok by reflexivity. cbv beta.
  erewrite bind_ok by (apply of_option_ok; exact Hx). cbv beta. apply bind_crash.
  unfold ptp_complete_on_tx, usbip_filter_on_tx. apply bind_crash. unfold spin_lock. by rewrite decide_True.
Qed.

Lemma preview_under_lock flt u r p post hdr c f s k :
  idle_filter f -> VendorExtensionID (pf_info f) = PTP_VENDOR_CANON ->
  pdu_wf p -> pd_type p = PTP_USB_CONTAINER_COMMAND -> pd_code p = PTP_OC_CANON_EOS_GetViewFinderData ->
  pdu_length p < 2 ^ 31 -> carries u r p post k -> usb_pipein (urb_pipe r) = false ->
  urb_context r = Some c -> urb_complete r = stub_complete_fn -> is_Some (sd_privs (ps_sdev s) !! c) ->
  LockPtp flt ∉ k_locks k -> LockUdFilter 0 ∈ k_locks k ->
  ptp_on_rx flt ptp_complete_on_tx hdr u (upd flt f s) k = Crash Deadlock.
Proof.
  intros (Hst & Hrx & _ & Hsz & _ & _ & Hop & _) Hv Hp Hty Hcode Hl31 (Hu & Hbulk & Hl & b & Hb & Hblk)
    Hin Hctx Hcf Hpriv Hlk Hlf.
  rewrite (on_rx_out flt ptp_complete_on_tx u r hdr c f s k) by (done || by rewrite Hst).
  assert (~ session m_rx p) as Hns by (intros (_ & _ & [E|E]); rewrite Hcode in E; discriminate E).
  erewrite bind_ok by by eapply (parse_one flt m_rx). cbv beta.
  erewrite bind_ok by apply the_filter_ok. cbv beta. rewrite (after_pdu_rx u p f Hty).
  set (f1 := f <| pf_rx_trans_id := word_of (pd_tid p) |>
    <| pf_rx := mkMachine ptpps_wait_response 12 (pdu_header p) |>).
  change (pf_rx f1) with (mkMachine ptpps_wait_response 12 (pdu_header p)).
  cbn [sm_state sm_ptpdu pdu_header ph_type]. rewrite Hty, bool_decide_false by naive_solver.
  cbn [orb negb Z.eqb Pos.eqb PTP_USB_CONTAINER_COMMAND].
  set (p1 := retag m_rx f p). set (k1 := put_block b (pdu_bytes p1 ++ post) k).
  erewrite bind_ok by (by apply lock_filter_run). cbv beta. unfold ptp_command.
  erewrite bind_ok by (by apply get_urb_ok). cbv beta.
  assert (pdu_wf p1) as Hp1.
  { destruct Hp as (G1 & G2 & _ & _ & G3).
    exact (conj G1 (conj G2 (conj (le_bytes_bytes 4 _) (conj (length_le_bytes 4 _) G3)))). }
  erewrite bind_ok.
  2: { apply (check_preview_run flt u r p1 b post); [exact Hu|exact Hb|exact Hp1|]. apply lookup_insert_eq. }
  cbv beta. change (pd_code p1) with (pd_code p). change (pf_info f1) with (pf_info f).
  rewrite Hv, Hcode, !Z.eqb_refl. cbn [andb].
  erewrite bind_ok by apply the_filter_ok. cbv beta iota. rewrite Hb.
  erewrite bind_ok by reflexivity. cbv beta. change (pf_state f1) with (pf_state f). rewrite Hst. cbv iota.
  erewrite bind_ok by apply set_filter_ok. cbv beta. unfold ptp_stream_on.
  erewrite bind_ok by apply set_filter_ok. cbv beta.
  erewrite bind_ok by (apply change_state_run; [done|by left]). cbv beta.
  erewrite bind_ok by (by apply modify_urb_ok). cbv beta.
  erewrite bind_ok by apply the_filter_ok. cbv beta.
  erewrite bind_ok by reflexivity. cbv beta iota.
  erewrite bind_ok by reflexivity. cbv beta.
  erewrite bind_ok by apply set_filter_ok. cbv beta.
  erewrite bind_ok.
  2: { unfold unlock_filter, spin_unlock. cbn [k_locks traced set_field set_k_locks set_k_trace set_k_urbs].
       rewrite decide_True by left. reflexivity. }
  cbv beta. apply bind_crash. eapply complete_deadlocks.
  - apply lookup_insert_eq.
  - exact Hcf.
  - exact Hctx.
  - exact Hpriv.
  - apply elem_of_remove_id. split; [done|by right].
Qed.
End preview.

(** serving frames deadlocks.  The stub shows an URB of the client to its
    filters under the lock of the filter list; when it asks for a preview frame
    the filter completes it at once, which shows it to the filters again and
    takes the same lock. *)
Theorem preview_deadlocks `{Env} `{Arch} `{UsbPipes} `{PtpParams} n flt u r p post hdr c f s k :
  attached n flt s k -> idle_filter f -> ps_filters s !! flt = Some f ->
  VendorExtensionID (pf_info f) = PTP_VENDOR_CANON ->
  pdu_wf p -> pd_type p = PTP_USB_CONTAINER_COMMAND -> pd_code p = PTP_OC_CANON_EOS_GetViewFinderData ->
  pdu_length p < 2 ^ 31 -> carries u r p post k -> usb_pipein (urb_pipe r) = false ->
  urb_context r = Some c -> urb_complete r = stub_complete_fn -> is_Some (sd_privs (ps_sdev s) !! c) ->
  LockPtp flt ∉ k_locks k -> LockUdFilter 0 ∉ k_locks k ->
  @usbip_filter_on_rx ptp_sys ptp_has_ud ptp_drivers hdr u s k = Crash Deadlock.
Proof.
  intros [[l Hlist] Hobj] Hidle Hf Hv Hp Hty Hcode Hl31 Hcar Hin Hctx Hcf Hpriv Hlk Hlf.
  pose proof Hlist as [Hnd Hpath]. apply NoDup_cons in Hnd as [Hne _]. apply not_elem_of_cons in Hne as [Hne _].
  assert (is_Some (nxt (k_nodes k) n)) as [n' Hn'].
  { destruct (path_elem _ _ _ _ n Hpath) as [q Hq]; [set_solver|]. unfold nxt. rewrite Hq. by eexists. }
  destruct Hpath as [[Hnext _] _].
  unfold usbip_filter_on_rx. erewrite bind_ok by by apply spin_lock_ok. cbv beta.
  erewrite bind_ok by reflexivity. cbv beta. apply bind_crash. unfold list_for_each_safe.
  erewrite bind_ok by reflexivity. cbv beta. erewrite bind_ok by (by apply list_next_ok). cbv beta.
  cbn [list_for_each_safe_loop]. rewrite decide_False by done.
  erewrite bind_ok by (by apply list_next_ok). cbv beta. apply bind_crash.
  erewrite bind_ok.
  2: { unfold get_filter. erewrite bind_ok by reflexivity. cbv beta. rewrite Hobj. reflexivity. }
  cbv beta. erewrite bind_ok.
  2: { unfold get_driver, filter_drivers, ptp_drivers. rewrite lookup_singleton_eq. reflexivity. }
  cbv beta. cbn [drv_on_rx ptp_driver]. apply bind_crash.
  erewrite bind_ok by by apply filter_priv_run. cbv beta.
  rewrite <- (upd_eta flt f s Hf). eapply preview_under_lock; try done.
  - cbn. intros [?|?]%elem_of_cons; done.
  - cbn. by left.
Qed.

(** ** Samples *)

(** A command of the client with the given code. *)
Definition sample_command (code : Z) : pdu := mkPdu PTP_USB_CONTAINER_COMMAND code [9; 0; 0; 0] [1; 0; 0; 0].
Definition command_kernel (code : Z) : kernel := ptp_kernel false (pdu_bytes (sample_command code)).

Lemma ptp_idle_ok : idle_filter ptp_idle.
Proof. split_and!; try done; by left. Qed.

Lemma sample_command_wf code : 0 <= code < 2 ^ 16 -> pdu_wf (sample_command code).
Proof.
  intros Hc. split; [set_solver|]. split; [done|]. split; [|by vm_compute].
  repeat constructor; by vm_compute.
Qed.

Lemma sample_carries code :
  @carries linux_pipes 21 (bulk_urb false 16) (sample_command code) [] (command_kernel code).
Proof.
  split_and!; [by vm_compute|by vm_compute|by vm_compute|]. exists 1%positive. split; [done|].
  rewrite app_nil_r. reflexivity.
Qed.

Lemma sample_unlocked (l : lock) code : l ∉ k_locks (command_kernel code).
Proof. apply not_elem_of_nil. Qed.

(** GetDeviceInfo goes to the device as transaction 40. *)
Lemma client_ids_kept_witness :
  exists s1 k1, @ptp_on_rx yes_env false linux_pipes sample_params 5 (fun _ => mret 0) header_zero 21
      (sample_sys ptp_idle) (command_kernel 4097) = Ok (0, s1, k1) /\
    k_heap k1 !! 1%positive = Some [16; 0; 0; 0; 1; 0; 1; 16; 40; 0; 0; 0; 1; 0; 0; 0].
Proof.
  destruct (@client_ids_kept yes_env false linux_pipes sample_params 5 (fun _ => mret 0) 21 (bulk_urb false 16)
    (sample_command 4097) [] header_zero 11 ptp_idle (sample_sys ptp_idle) (command_kernel 4097))
    as (f1 & s1 & k1 & Hrun & _ & (_ & _ & _ & b & Hb & Hblk) & _).
  - apply ptp_idle_ok.
  - reflexivity.
  - split; [by apply sample_command_wf|]. by vm_compute.
  - apply sample_carries.
  - by vm_compute.
  - reflexivity.
  - apply sample_unlocked.
  - exists s1, k1. split; [exact Hrun|]. injection Hb as <-. rewrite Hblk. by vm_compute.
Defined.

Lemma session_deadlocks_witness :
  @ptp_on_rx yes_env false linux_pipes sample_params 5 (fun _ => mret 0) header_zero 21
    (sample_sys ptp_idle) (command_kernel PTP_OC_OpenSession) = Crash Deadlock.
Proof.
  refine (@session_deadlocks yes_env false linux_pipes sample_params 5 (fun _ => mret 0) 21 (bulk_urb false 16)
    (sample_command PTP_OC_OpenSession) [] header_zero 11 ptp_idle (sample_sys ptp_idle) _ _ eq_refl _ _ _ _ eq_refl _).
  - apply ptp_idle_ok.
  - by apply sample_command_wf.
  - split_and!; [done|done|by left].
  - apply sample_carries.
  - by vm_compute.
  - apply sample_unlocked.
Defined.

(** The filter is the only one in the list at address 9. *)
Definition attached_sys : ptp_sys :=
  put_ud ((sample_sdev_ud 0) <| ud_filter_objs := {[6%positive := mkFilter ptp_driver_list 5]} |>) (sample_sys ptp_idle).
Definition attached_kernel : kernel :=
  (command_kernel PTP_OC_CANON_EOS_GetViewFinderData)
    <| k_nodes := list_to_map [(9, (6, 6)); (6, (9, 9))]%positive |>.

Lemma preview_deadlocks_witness :
  @usbip_filter_on_rx ptp_sys ptp_has_ud (@ptp_drivers yes_env false linux_pipes sample_params) header_zero 21
    attached_sys attached_kernel = Crash Deadlock.
Proof.
  refine (@preview_deadlocks yes_env false linux_pipes sample_params 6 5 21 (bulk_urb false 16)
    (sample_command PTP_OC_CANON_EOS_GetViewFinderData) [] header_zero 11 ptp_idle attached_sys attached_kernel
    _ _ eq_refl eq_refl _ eq_refl eq_refl _ _ _ eq_refl eq_refl _ _ _).
  - split; [|reflexivity]. exists []. split; [apply (bool_decide_unpack _); by vm_compute|by vm_compute].
  - apply ptp_idle_ok.
  - by apply sample_command_wf.
  - by vm_compute.
  - destruct (sample_carries PTP_OC_CANON_EOS_GetViewFinderData) as (C1 & C2 & C3 & b & C4 & C5).
    split_and!; [exact C1|exact C2|exact C3|exists b; by split].
  - by vm_compute.
  - eexists. by vm_compute.
  - apply not_elem_of_nil.
  - apply not_elem_of_nil.
Defined.
