(* ===== verification/PtpRing.v ===== *)
(** * The camera filter: the ring buffer

    Wherever the consumer is and however little room is left, what the filter
    asks the device for lands inside the frame buffer. *)
From S2P Require Import Prelude Kernel Wire Event EventProps Exec Xfer XferProps.
From S2P Require Import Filters Stub StubTx StubRx StubProps StubHostProps Ptp PtpProps PtpHookProps.

(** The positions are in range; a frame is only dropped while its start is
    known. *)
Definition ring_ok (f : ptp_filter) : Prop :=
  0 < pf_out_pipe_size f < 2 ^ 16 /\ 0 <= pf_frame_buffer_size f <= ptp_framebuf_full_size /\
  0 <= pf_frame_head f <= pf_frame_buffer_size f /\ 0 <= pf_frame_tail f <= pf_frame_buffer_size f /\
  -1 <= pf_frame_rx_tail f <= ptp_framebuf_full_size /\
  -1 <= pf_frame_rx_tail2 f <= ptp_framebuf_full_size /\
  (pf_state f = ptpfs_drop -> 0 <= pf_frame_rx_tail f).

(** [len] bytes at [off] of the frame buffer. *)
Definition in_buffer (off len : Z) : Prop := 0 <= off /\ 0 <= len /\ off + len <= ptp_framebuf_full_size.

Lemma full_size_eq : ptp_framebuf_full_size = 1048576.
Proof. done. Qed.

Lemma to_end_space_in head tail size :
  0 <= head <= size -> 0 <= tail <= size -> size <= ptp_framebuf_full_size ->
  u32 (ptp_framebuf_to_end_space head tail size) = ptp_framebuf_to_end_space head tail size /\
  in_buffer head (ptp_framebuf_to_end_space head tail size).
Proof.
  intros Hh Ht Hs. rewrite full_size_eq in Hs. unfold in_buffer, ptp_framebuf_to_end_space. rewrite full_size_eq.
  case_if; bool_to_prop; rewrite ?u32_id by (unfold is_u32; lia); lia.
Qed.

(** The URBs handed to the device. *)
Definition submits (tr : list call) : list positive :=
  omap (fun c => match c with CSubmitUrb u => Some u | _ => None end) tr.

Section ring.
Context `{Env} `{Arch} `{UsbPipes} `{PtpParams}.
Variable flt : positive.

Lemma make_room_run f s k :
  ring_ok f ->
  exists h len size, let f' := f <| pf_frame_buffer_size := size |> in
    ptp_make_room flt (pf_frame_head f) (pf_frame_tail f) (upd flt f s) k = Ok ((h, len), upd flt f' s, k) /\
    in_buffer h len /\ ring_ok f'.
Proof.
  intros (Hp & Hs & Hh & Ht & Hr & Hr2 & Hd). set (head := pf_frame_head f) in *. set (tail := pf_frame_tail f) in *.
  destruct (to_end_space_in head tail (pf_frame_buffer_size f) Hh Ht) as [Hu Hin]; [lia|].
  unfold ptp_make_room. erewrite bind_ok by apply the_filter_ok. cbv beta zeta. rewrite Hu.
  assert (f <| pf_frame_buffer_size := pf_frame_buffer_size f |> = f) as Heta by by destruct f.
  assert (forall z, 0 <= z <= ptp_framebuf_full_size -> head <= z -> tail <= z ->
    ring_ok (f <| pf_frame_buffer_size := z |>)) as Hok.
  { intros z Hz Hhz Htz. split_and!; try done; cbn; fold head tail; lia. }
  rewrite full_size_eq in *.
  case_if; [|exists head, (ptp_framebuf_to_end_space head tail (pf_frame_buffer_size f)), (pf_frame_buffer_size f);
             rewrite Heta; split; [done|]; split; [done|]; rewrite <- Heta; apply Hok; lia].
  apply andb_true_iff in Etest as [_ Hlt]. bool_to_prop. rewrite u32_id by (unfold is_u32; lia). case_if; bool_to_prop.
  - exists head, (1048576 - head), 1048576. erewrite bind_ok by apply set_filter_ok.
    split; [done|]. split; [unfold in_buffer; rewrite full_size_eq; lia|]. apply Hok; lia.
  - destruct (negb _); [|exists head, (ptp_framebuf_to_end_space head tail (pf_frame_buffer_size f)), (pf_frame_buffer_size f);
      rewrite Heta; split; [done|]; split; [done|]; rewrite <- Heta; apply Hok; lia].
    exists 0, tail, head. erewrite bind_ok by apply set_filter_ok. rewrite u32_id by (unfold is_u32; lia).
    split; [done|]. split; [unfold in_buffer; rewrite full_size_eq; lia|]. apply Hok; lia.
Qed.

(** One placement of a frame to be dropped. *)
Definition placed (f : ptp_filter) (tail : Z) : ptp_filter * Z :=
  let rx := pf_frame_rx_tail f in
  if rx <=? tail then (f <| pf_frame_head := rx |>, rx)
  else if ptp_framebuf_full_size - rx >? tail then
    (f <| pf_frame_head := rx |> <| pf_frame_buffer_size := ptp_framebuf_full_size |>, rx)
  else (f <| pf_frame_head := 0 |>, 0).

Lemma placed_in f tail :
  0 <= pf_frame_rx_tail f <= ptp_framebuf_full_size -> 0 <= tail <= pf_frame_buffer_size f ->
  pf_frame_buffer_size f <= ptp_framebuf_full_size ->
  let f1 := (placed f tail).1 in
  let len := ptp_framebuf_to_end_space (placed f tail).2 tail (pf_frame_buffer_size f1) in
  u32 len = len /\ in_buffer (placed f tail).2 len /\ tail <= pf_frame_buffer_size f1 <= ptp_framebuf_full_size.
Proof.
  intros Hr Ht Hs. unfold placed. rewrite Z.gtb_ltb. case_if; bool_to_prop; [|case_if; bool_to_prop]; cbn [fst snd].
  - split; [|split; [|cbn; lia]]; apply to_end_space_in; cbn; lia.
  - split; [|split; [|cbn; rewrite full_size_eq in *; lia]]; apply to_end_space_in; cbn; lia.
  - split; [|split; [|cbn; lia]]; apply to_end_space_in; cbn; lia.
Qed.

Definition sized (u : positive) (r : urb) (len : Z) (k : kernel) : kernel :=
  k <| k_urbs := <[u := r <| urb_transfer_buffer_length := len |>]> (k_urbs k) |>.

Lemma drop_place_step fuel u r tail f s k :
  k_urbs k !! u = Some r -> 0 <= pf_frame_rx_tail f <= ptp_framebuf_full_size ->
  0 <= tail <= pf_frame_buffer_size f -> pf_frame_buffer_size f <= ptp_framebuf_full_size ->
  let f1 := (placed f tail).1 in
  let len := ptp_framebuf_to_end_space (placed f tail).2 tail (pf_frame_buffer_size f1) in
  ptp_drop_place flt (S fuel) u tail (upd flt f s) k =
    if (0 <=? pf_frame_rx_tail2 f) && (pf_frame_count f >? 1) && (len <? u32 (Z.shiftl (pf_out_pipe_size f) 5))
    then ptp_drop_place flt fuel u tail
           (upd flt (f1 <| pf_frame_rx_tail := pf_frame_rx_tail2 f |> <| pf_frame_rx_tail2 := -1 |>) s)
           (sized u r len k)
    else Ok ((placed f tail).2, upd flt f1 s, sized u r len k).
Proof.
  intros Hu Hr Ht Hs f1 len. destruct (placed_in f tail Hr Ht Hs) as (Hlen & _). fold f1 len in Hlen.
  cbn [ptp_drop_place]. erewrite bind_ok by apply the_filter_ok. cbv beta zeta.
  erewrite (bind_ok _ _ _ _ (placed f tail).2 (upd flt f1 s) k).
  2: { unfold f1, placed. case_if; [|case_if]; by erewrite bind_ok by apply set_filter_ok. }
  cbv beta. erewrite bind_ok by apply the_filter_ok. cbv beta. fold len. rewrite Hlen.
  erewrite bind_ok by by apply modify_urb_ok. cbv beta.
  assert (pf_frame_rx_tail2 f1 = pf_frame_rx_tail2 f /\ pf_frame_count f1 = pf_frame_count f /\
          pf_out_pipe_size f1 = pf_out_pipe_size f) as (-> & -> & ->)
    by (unfold f1, placed; case_if; [|case_if]; done).
  case_if; [|done]. erewrite bind_ok by apply set_filter_ok. cbv beta.
  assert (pf_frame_rx_tail2 f1 = pf_frame_rx_tail2 f) as -> by (unfold f1, placed; case_if; [|case_if]; done).
  done.
Qed.

Lemma placed_rest f tail :
  let f1 := (placed f tail).1 in
  pf_frame_buffer f1 = pf_frame_buffer f /\ pf_out_pipe_size f1 = pf_out_pipe_size f /\ pf_state f1 = pf_state f.
Proof. unfold placed. case_if; [|case_if]; done. Qed.

(** Two placements are enough. *)
Lemma drop_place_run u r tail f s k :
  k_urbs k !! u = Some r -> ring_ok f -> tail = pf_frame_tail f -> 0 <= pf_frame_rx_tail f ->
  exists h f' len, ptp_drop_place flt 2 u tail (upd flt f s) k = Ok (h, upd flt f' s, sized u r len k) /\
    in_buffer h len /\ pf_frame_buffer f' = pf_frame_buffer f /\ pf_out_pipe_size f' = pf_out_pipe_size f.
Proof.
  intros Hu (Hp & Hs & Hh & Ht & Hr & Hr2 & Hd) -> Hr0. set (tail := pf_frame_tail f) in *.
  destruct (placed_in f tail) as (Hlen & Hin & Hsz); [lia..|].
  destruct (placed_rest f tail) as (R1 & R2 & _).
  rewrite (drop_place_step 1 u r) by (done || lia). case_if; [|by eexists _, _, _].
  apply andb_true_iff in Etest as [[Hr20 _]%andb_true_iff _]. bool_to_prop.
  set (f2 := (placed f tail).1 <| pf_frame_rx_tail := pf_frame_rx_tail2 f |> <| pf_frame_rx_tail2 := -1 |>).
  destruct (placed_in f2 tail) as (Hlen2 & Hin2 & _); [cbn; lia..|].
  destruct (placed_rest f2 tail) as (R3 & R4 & _).
  set (len1 := ptp_framebuf_to_end_space _ _ _).
  rewrite (drop_place_step 0 u (r <| urb_transfer_buffer_length := len1 |>));
    [|apply lookup_insert_eq|cbn; lia..]. cbn [pf_frame_rx_tail2 f2 set_field set_pf_frame_rx_tail2 andb Z.leb].
  eexists _, _, _. split; [|split; [exact Hin2|by rewrite R3, R4]].
  unfold sized. cbn. by rewrite insert_insert_eq.
Qed.

(** *** Handing an URB to the device *)

Lemma unlink_everywhere_run p f s k :
  exists f' s', unlink_everywhere flt p (upd flt f s) k = Ok (tt, upd flt f' s', k).
Proof.
  unfold unlink_everywhere. erewrite bind_ok by reflexivity. cbv beta.
  eexists _, (s <| ps_sdev := unlink_priv p (ps_sdev s) |>).
  exact (set_filter_ok flt f _ (s <| ps_sdev := unlink_priv p (ps_sdev s) |>) k).
Qed.

Lemma list_move_run p q f s k :
  q <> q_priv_init -> exists f' s', list_move_tail flt p q (upd flt f s) k = Ok (tt, upd flt f' s', k).
Proof.
  intros Hq. unfold list_move_tail. destruct (unlink_everywhere_run p f s k) as (f1 & s1 & E).
  erewrite bind_ok by exact E. cbv beta.
  destruct q; [| | | |done]; eexists _, s1; apply set_filter_ok.
Qed.

Lemma keep_pending_run pending p f s k :
  LockPriv 0 ∉ k_locks k ->
  exists f' s', keep_pending flt pending p (upd flt f s) k = Ok (tt, upd flt f' s', k).
Proof.
  intros Hl. destruct pending; [by exists f, s|]. unfold keep_pending, ptp_list_move, LOCK_PRIV.
  erewrite bind_ok by by apply spin_lock_ok. cbv beta.
  destruct (list_move_run p q_request f s (k <| k_locks := LockPriv 0 :: k_locks k |>)) as (f' & s' & E); [done|].
  exists f', s'. erewrite bind_ok by exact E. cbv beta. erewrite spin_unlock_ok by done. by destruct k.
Qed.

Lemma submit_run u sd k :
  LockUd 0 ∉ k_locks k ->
  exists ret sd' tr, stub_submit_urb u sd k = Ok (ret, sd', traced tr k) /\ submits tr = [u].
Proof.
  intros Hl. unfold stub_submit_urb. erewrite bind_ok by apply ext_ret_ok. cbv beta.
  destruct (_ =? 0).
  - eexists _, sd, [CSubmitUrb u]. split; [by erewrite bind_ok by reflexivity|done].
  - eexists _, _, [CWakeUp Q_EH; CSubmitUrb u]. split; [|done].
    by erewrite bind_ok by by apply event_add_ok.
Qed.

(** The filter's own read, handed to the device. *)
Definition restarted (r : urb) : urb := r <| urb_actual_length := 0 |> <| urb_status := 0 |>.

Lemma submit_in_run pending p u r f s k ls :
  k_urbs k !! u = Some r -> usb_pipein (urb_pipe r) = true -> urb_complete r = ptp_data_complete_fn ->
  k_locks k = LockPtp flt :: ls -> LockPtp flt ∉ ls -> LockUd 0 ∉ ls ->
  exists s' k' tr, ptp_submit_urb flt pending p u (upd flt f s) k = Ok (true, s', k') /\
    k_urbs k' !! u = Some (restarted r) /\ k_trace k' = tr ++ k_trace k /\ submits tr = [u] /\
    k_locks k' = k_locks k.
Proof.
  intros Hu Hin Hc Hlk Hl Hud. unfold ptp_submit_urb.
  assert (exists f1 s1, (if pending then
     r ← get_urb u;
     if bool_decide (urb_complete r <> ptp_cmd_complete_fn) &&
        bool_decide (urb_complete r <> ptp_data_complete_fn)
     then ptp_list_move flt p q_priv_init
     else list_move_tail flt p q_busy
   else mret tt) (upd flt f s) k = Ok (tt, upd flt f1 s1, k)) as (f1 & s1 & E1).
  { destruct pending; [|by exists f, s]. erewrite bind_ok by by apply get_urb_ok. cbv beta.
    rewrite Hc, andb_comm, bool_decide_false by naive_solver. by apply list_move_run. }
  erewrite bind_ok by exact E1. cbv beta. erewrite bind_ok by by apply modify_urb_ok. cbv beta.
  fold (restarted r). set (k1 := k <| k_urbs := <[u:=restarted r]> (k_urbs k) |>).
  erewrite bind_ok by (apply (spin_unlock_ok (LockPtp flt) ls); done). cbv beta.
  erewrite bind_ok by (apply get_urb_ok, lookup_insert_eq). cbv beta.
  change (usb_pipeout (urb_pipe (restarted r))) with (negb (usb_pipein (urb_pipe r))). rewrite Hin.
  erewrite bind_ok by reflexivity. cbv beta.
  destruct (submit_run u (ps_sdev s1) (k1 <| k_locks := ls |>)) as (ret & sd & tr & E2 & Htr); [done|].
  erewrite bind_ok.
  2: { unfold on_sdev. change (ps_sdev (upd flt f1 s1)) with (ps_sdev s1). rewrite E2. reflexivity. }
  cbv beta. erewrite bind_ok by by apply spin_lock_ok. eexists _, _, tr.
  split; [reflexivity|]. split; [apply lookup_insert_eq|]. split_and!; [done|done|]. cbn. by rewrite Hlk.
Qed.

(** Giving up cancels the timer, at most. *)
Lemma change_bypassed_run f s k :
  exists tr, ptp_change_state flt false ptpfs_bypassed (upd flt f s) k =
      Ok (tt, upd flt (f <| pf_state := ptpfs_bypassed |>) s, traced tr k) /\
    (tr = [] \/ tr = [CTimer false 0]).
Proof.
  destruct (at_least (pf_state f) ptpfs_active) eqn:E.
  - exists [CTimer false 0]. split; [|by right]. unfold ptp_change_state.
    erewrite bind_ok by reflexivity. cbv beta. erewrite bind_ok by apply the_filter_ok. cbv beta.
    rewrite E. cbn [at_least negb andb]. unfold del_timer. erewrite bind_ok by apply ext_do_ok. cbv beta.
    by erewrite bind_ok by (apply (set_filter_ok flt f (fun f => f <| pf_state := ptpfs_bypassed |>))).
  - exists []. split; [|by left]. rewrite change_state_run; [by destruct k|done|by right].
Qed.

(** *** Reading a frame *)

Definition own_read (u : positive) (r : urb) (k : kernel) : Prop :=
  k_urbs k !! u = Some r /\ usb_pipein (urb_pipe r) = true /\ urb_complete r = ptp_data_complete_fn.

(** What asking for data comes to: one read handed to the device, or nothing. *)
Definition read_spec (u b : positive) (psize : Z) (k : kernel) (ret : bool) (k' : kernel) : Prop :=
  exists tr, k_locks k' = k_locks k /\ k_trace k' = tr ++ k_trace k /\
    if ret then
      submits tr = [u] /\ exists r' off, own_read u r' k' /\ urb_transfer_buffer r' = Some (b, off) /\
        in_buffer off (urb_transfer_buffer_length r') /\ 0 < urb_transfer_buffer_length r' /\
        (psize | urb_transfer_buffer_length r')
    else tr = [] \/ tr = [CTimer false 0].

(** The URB gets its place [h] in the buffer, where there are [len] bytes. *)
Lemma place_and_submit pending p u r b f h len s k ls :
  own_read u r k -> 0 < pf_out_pipe_size f -> pf_frame_buffer f = Some (b, 0) ->
  in_buffer h len -> urb_transfer_buffer_length r = len ->
  k_locks k = LockPtp flt :: ls -> LockPtp flt ∉ ls -> LockUd 0 ∉ ls ->
  exists ret s' k',
    (r ← get_urb u;
     len ← ptp_transfer_length flt (urb_transfer_buffer_length r);
     f ← the_filter flt;
     modify_urb u (fun r =>
       r <| urb_transfer_buffer := (fun b => ptr_add b h) <$> pf_frame_buffer f |>
         <| urb_transfer_buffer_length := len |>);;
     if len =? 0 then ptp_change_state flt false ptpfs_bypassed;; mret false
     else ptp_submit_urb flt pending p u) (upd flt f s) k = Ok (ret, s', k') /\
    read_spec u b (pf_out_pipe_size f) k ret k'.
Proof.
  intros (Hu & Hin & Hc) Hp Hfb (B1 & B2 & B3) Hlen Hlk Hl Hud.
  erewrite bind_ok by by apply get_urb_ok. cbv beta. rewrite Hlen. erewrite bind_ok.
  2: { unfold ptp_transfer_length. erewrite bind_ok by apply the_filter_ok. cbv beta.
       rewrite (proj2 (Z.eqb_neq _ _)) by lia. reflexivity. }
  cbv beta. erewrite bind_ok by apply the_filter_ok. cbv beta. rewrite Hfb.
  cbn [fmap option_fmap option_map]. unfold ptr_add. cbn [fst snd].
  set (m := len / pf_out_pipe_size f * pf_out_pipe_size f).
  assert (0 <= m <= len) as Hm.
  { split; [apply Z.mul_nonneg_nonneg; [apply Z.div_pos|]; lia|].
    subst m. rewrite Z.mul_comm. apply Z.mul_div_le. lia. }
  erewrite bind_ok by by apply modify_urb_ok. cbv beta.
  set (k3 := k <| k_urbs := _ |>). case_if; bool_to_prop.
  - destruct (change_bypassed_run f s k3) as (tr & E & Htr). erewrite bind_ok by exact E.
    exists false, (upd flt (f <| pf_state := ptpfs_bypassed |>) s), (traced tr k3). split; [done|]. by exists tr.
  - destruct (submit_in_run pending p u _ f s k3 ls (lookup_insert_eq _ _ _))
      as (s' & k' & tr & E & Hu' & Htr & Hsub & Hlk'); [done..|].
    exists true, s', k'. split; [exact E|]. exists tr. split; [by rewrite Hlk'|]. split; [by rewrite Htr|].
    split; [done|]. eexists _, h. split; [split; [exact Hu'|done]|]. cbn. split; [by rewrite Z.add_0_l|].
    fold m. split; [unfold in_buffer; lia|]. split; [lia|]. apply Z.divide_factor_r.
Qed.

Lemma produce_data_run pending p u r b f s k ls :
  ring_ok f -> pf_frame_buffer f = Some (b, 0) -> own_read u r k ->
  k_locks k = LockPtp flt :: ls -> LockPtp flt ∉ ls -> LockUd 0 ∉ ls -> LockPriv 0 ∉ ls ->
  exists ret s' k',
    ptp_produce_data flt pending p u (pf_frame_head f) (pf_frame_tail f) (upd flt f s) k = Ok (ret, s', k') /\
    read_spec u b (pf_out_pipe_size f) k ret k'.
Proof.
  intros Hok Hfb (Hu & Hin & Hc) Hlk Hl Hud Hpl. unfold ptp_produce_data.
  destruct (make_room_run f s k Hok) as (h & len & size & Hroom & Hin1 & Hok1).
  erewrite bind_ok by exact Hroom. cbv beta iota. set (f1 := f <| pf_frame_buffer_size := size |>) in *.
  erewrite bind_ok by by apply modify_urb_ok. cbv beta. fold (sized u r len k).
  erewrite bind_ok by apply the_filter_ok. cbv beta.
  assert (forall l, own_read u (r <| urb_transfer_buffer_length := l |>) (sized u r l k)) as Hsized
    by (intros l; split_and!; [apply lookup_insert_eq|done|done]).
  assert (forall f2 st, ring_ok f2 -> 0 <= pf_frame_rx_tail f2 ->
    f2 = f1 <| pf_state := st |> -> exists ret s' k',
    (head ← ptp_drop_place flt 2 u (pf_frame_tail f);
     r ← get_urb u;
     len ← ptp_transfer_length flt (urb_transfer_buffer_length r);
     f ← the_filter flt;
     modify_urb u (fun r =>
       r <| urb_transfer_buffer := (fun b => ptr_add b head) <$> pf_frame_buffer f |>
         <| urb_transfer_buffer_length := len |>);;
     if len =? 0 then ptp_change_state flt false ptpfs_bypassed;; mret false
     else ptp_submit_urb flt pending p u) (upd flt f2 s) (sized u r len k) = Ok (ret, s', k') /\
    read_spec u b (pf_out_pipe_size f) k ret k') as Hdrop.
  { intros f2 st Hok2 Hrx ->. destruct Hok as (Hp & _).
    edestruct (drop_place_run u) as (h2 & f3 & len2 & E & Hin2 & R1 & R2);
      [apply (Hsized len)|exact Hok2|reflexivity|exact Hrx|].
    erewrite bind_ok by exact E. cbv beta.
    assert (sized u (r <| urb_transfer_buffer_length := len |>) len2 (sized u r len k) = sized u r len2 k) as ->
      by (unfold sized; cbn; by rewrite insert_insert_eq).
    change (pf_out_pipe_size f) with (pf_out_pipe_size (f1 <| pf_state := st |>)). rewrite <- R2.
    eapply (place_and_submit pending p u _ b f3 h2 len2 s (sized u r len2 k) ls);
      [apply Hsized|rewrite R2; apply Hp|by rewrite R1|done..]. }
  destruct (len <? pf_out_pipe_size f1).
  - destruct (pf_frame_rx_tail f1 <? 0) eqn:Er; bool_to_prop.
    + destruct (keep_pending_run pending p f1 s (sized u r len k)) as (f2 & s2 & E); [cbn; rewrite Hlk; set_solver|].
      erewrite bind_ok by (erewrite bind_ok by exact E; reflexivity). cbv beta iota.
      exists false, (upd flt f2 s2), (sized u r len k). split; [done|]. exists []. split_and!; [done|done|by left].
    + erewrite bind_ok.
      2: { erewrite bind_ok by (apply change_state_run; [done|by left]). reflexivity. }
      cbv beta iota. erewrite bind_ok by apply the_filter_ok. cbv beta.
      rewrite bool_decide_true by done. eapply Hdrop; [|exact Er|reflexivity].
      destruct Hok1 as (G1&G2&G3&G4&G5&G6&_). exact (conj G1 (conj G2 (conj G3 (conj G4 (conj G5 (conj G6 (fun _ => Er))))))).
  - erewrite bind_ok by reflexivity. cbv beta iota. erewrite bind_ok by apply the_filter_ok. cbv beta.
    case_bool_decide as Hd.
    + apply (Hdrop f1 (pf_state f1)); [exact Hok1|by apply Hok1|by destruct f].
    + erewrite bind_ok by reflexivity. cbv beta. destruct Hok as (Hp & _).
      eapply (place_and_submit pending p u _ b f1 h len s (sized u r len k) ls); [apply Hsized|apply Hp|done..].
Qed.
End ring.

(** C28: what the filter reads from the device stays inside the frame buffer.
    Asked for the next piece of a frame, the filter hands the device at most one
    URB, whose buffer is a non-empty whole number of packets inside the frame
    buffer, wherever the consumer is, whether the frame is kept or dropped; it
    terminates, holds its lock, and otherwise only waits or gives up. *)
Theorem frame_reads_in_buffer `{Env} `{Arch} `{UsbPipes} `{PtpParams} flt p x u r b f s k ls :
  ps_filters s !! flt = Some f -> ring_ok f -> pf_frame_buffer f = Some (b, 0) ->
  sd_privs (ps_sdev s) !! p = Some x -> sp_urb x = Some u -> own_read u r k ->
  k_locks k = LockPtp flt :: ls -> LockPtp flt ∉ ls -> LockUd 0 ∉ ls -> LockPriv 0 ∉ ls ->
  exists ret s' k', ptp_produce flt (Some p) s k = Ok (ret, s', k') /\
    read_spec u b (pf_out_pipe_size f) k ret k'.
Proof.
  intros Hf Hok Hfb Hx Hxu Hr Hlk Hl Hud Hpl. pose proof Hr as (Hu & Hin & Hc).
  rewrite <- (upd_eta flt f s Hf). unfold ptp_produce. erewrite bind_ok by apply the_filter_ok. cbv beta zeta iota.
  erewrite bind_ok.
  2: { unfold urb_of. erewrite bind_ok by reflexivity. cbv beta.
       erewrite bind_ok by (apply of_option_ok; exact Hx). cbv beta. by apply deref_ok. }
  cbv beta. erewrite bind_ok by by apply get_urb_ok. cbv beta.
  unfold usb_pipeout. rewrite Hin, Hc. cbn [negb]. rewrite bool_decide_false by naive_solver.
  by eapply produce_data_run.
Qed.

(** ** Sample *)

(** A frame is being read; the consumer is far behind. *)
Definition ptp_reading : ptp_filter :=
  ptp_idle <| pf_state := ptpfs_busy |> <| pf_frame_buffer := Some (1%positive, 0) |>
    <| pf_frame_buffer_size := ptp_framebuf_full_size |> <| pf_frame_head := 1048000 |>
    <| pf_frame_tail := 1024 |> <| pf_frame_rx_tail := 512 |> <| pf_frame_rx_tail2 := -1 |>.
Definition read_kernel : kernel :=
  sample_kernel <| k_locks := [LockPtp 5] |>
    <| k_urbs := {[21%positive := (bulk_urb true 0) <| urb_complete := ptp_data_complete_fn |>]} |>.

(** The buffer's end is left to the consumer and the frame goes on at its start. *)
Lemma frame_reads_in_buffer_witness :
  exists s' k' r' off, @ptp_produce yes_env false linux_pipes 5 (Some 11%positive) (sample_sys ptp_reading) read_kernel =
      Ok (true, s', k') /\ @own_read linux_pipes 21 r' k' /\ urb_transfer_buffer r' = Some (1%positive, off) /\
    in_buffer off (urb_transfer_buffer_length r') /\ 0 < urb_transfer_buffer_length r'.
Proof.
  destruct (@frame_reads_in_buffer yes_env false linux_pipes sample_params 5 11
    (mkStubPriv 101 (Some 21%positive) 0 false) 21 ((bulk_urb true 0) <| urb_complete := ptp_data_complete_fn |>) 1
    ptp_reading (sample_sys ptp_reading) read_kernel [])
    as (ret & s' & k' & Hrun & tr & _ & Htr & Hspec).
  - reflexivity.
  - split_and!; try by vm_compute.
  - reflexivity.
  - reflexivity.
  - reflexivity.
  - by split_and!.
  - reflexivity.
  - apply not_elem_of_nil.
  - apply not_elem_of_nil.
  - apply not_elem_of_nil.
  - assert (ret = true) as -> by (vm_compute in Hrun; by injection Hrun as <- _ _).
    destruct Hspec as (_ & r' & off & H1 & H2 & H3 & H4 & _). exists s', k', r', off. by split_and!.
Defined.
