(* ===== verification/Client.v ===== *)
(** * The client library: sessions, works and buffers

    [userspace/client/client.c], first half.  The library runs an event loop on
    a thread of its own; everything a program asks for is a [work_t] in a queue
    that the loop's thread takes from.  Works, devices, URBs and waiting threads
    are objects of the session, named by address; what is freed goes to the
    session's free lists and is used again.  The event-loop library is the
    environment: its functions are [UvXxx] calls, its callbacks are operations
    of the model ([ClientDev]), in any order.  A buffer handed to it is a
    [place].  The members of [dev->connect] and [dev->recv], a union in C, are
    fields of their own: a device never uses the first after the second. *)
From S2P Require Import Prelude Kernel Wire NetWire.

(** ** Numbers of the libraries *)

Definition USBIP_PORT := 3240.
Definition USBIP_VERSION_NUM := 273.
Definition DEVICE_BLOCK_SIZE := 32.

(** Error codes of the event-loop library. *)
Class UvErrors := {
  UV_ECANCELED : Z;
  UV_ETIMEDOUT : Z;
  UV_EIO : Z;
  UV_EINVAL : Z;
  UV_EBUSY : Z
}.

Definition devs_closed := 0.
Definition devs_closing := 1.
Definition devs_restarting := 2.
Definition devs_opening := 3.
Definition devs_running := 4.

Inductive work_state_t := ws_pending | ws_busy | ws_done.
#[export] Instance work_state_t_eq_dec : EqDecision work_state_t.
Proof. solve_decision. Defined.

(** The functions a work's [cb] points to. *)
Inductive work_cb_t :=
  | work_abort_cb_fn | work_unref_cb_fn | session_start_cb_fn | device_loop_fn
  | device_open_cb_fn | device_close_cb_fn | device_urb_transfer_fn | device_info_req_cb_fn.

(** Where a protothread resumes: at its beginning or behind one of its yields. *)
Inductive lc_t :=
  | lc_init | lc_connected | lc_written | lc_header | lc_dropped | lc_data
  | lc_restart | lc_reply | lc_udev | lc_intf.

(** Memory the event loop reads into: the user's, or a member of an object. *)
Inductive place :=
  | place_null | place_user (p : ptr)
  | place_op_header (d : positive) | place_rpl_import (d : positive)
  | place_recv_header (d : positive) | place_recv_buf (d : positive)
  | place_req_header (r : positive) | place_req_reply (r : positive)
  | place_req_udev (r : positive) | place_req_intf (r : positive).

Record uv_buf_t := mkUvBuf { buf_base : place; buf_len : Z }.

(** A thread in [uv_cond_wait] on the condition of a [sync_t], if any. *)
Inductive sync_t := sync_idle | sync_waiting | sync_woken.

(** What the [data] member of a handle points to. *)
Inductive uv_data := data_work (w : positive) | data_device (d : positive).

Record work_t := mkWork {
  wk_ref_count : Z;
  (* [timer.data], which is the work itself when it is set *)
  wk_timer : bool;
  wk_timeout : Z;
  wk_sync : option positive;
  wk_state : work_state_t;
  wk_ret : Z;
  wk_data : option positive;
  wk_cb : work_cb_t;
  (* the union of [int status] and [ssize_t nread] *)
  wk_nread : Z;
  wk_buf : uv_buf_t;
  wk_reading : bool;
  wk_user_cb : bool;
  wk_user_data : Z
}.
#[export] Instance set_wk_ref_count : Setter wk_ref_count := fun v r => mkWork v (wk_timer r) (wk_timeout r) (wk_sync r) (wk_state r) (wk_ret r) (wk_data r) (wk_cb r) (wk_nread r) (wk_buf r) (wk_reading r) (wk_user_cb r) (wk_user_data r).
#[global] Arguments set_wk_ref_count _ _ /.
#[export] Instance set_wk_timer : Setter wk_timer := fun v r => mkWork (wk_ref_count r) v (wk_timeout r) (wk_sync r) (wk_state r) (wk_ret r) (wk_data r) (wk_cb r) (wk_nread r) (wk_buf r) (wk_reading r) (wk_user_cb r) (wk_user_data r).
#[global] Arguments set_wk_timer _ _ /.
#[export] Instance set_wk_timeout : Setter wk_timeout := fun v r => mkWork (wk_ref_count r) (wk_timer r) v (wk_sync r) (wk_state r) (wk_ret r) (wk_data r) (wk_cb r) (wk_nread r) (wk_buf r) (wk_reading r) (wk_user_cb r) (wk_user_data r).
#[global] Arguments set_wk_timeout _ _ /.
#[export] Instance set_wk_sync : Setter wk_sync := fun v r => mkWork (wk_ref_count r) (wk_timer r) (wk_timeout r) v (wk_state r) (wk_ret r) (wk_data r) (wk_cb r) (wk_nread r) (wk_buf r) (wk_reading r) (wk_user_cb r) (wk_user_data r).
#[global] Arguments set_wk_sync _ _ /.
#[export] Instance set_wk_state : Setter wk_state := fun v r => mkWork (wk_ref_count r) (wk_timer r) (wk_timeout r) (wk_sync r) v (wk_ret r) (wk_data r) (wk_cb r) (wk_nread r) (wk_buf r) (wk_reading r) (wk_user_cb r) (wk_user_data r).
#[global] Arguments set_wk_state _ _ /.
#[export] Instance set_wk_ret : Setter wk_ret := fun v r => mkWork (wk_ref_count r) (wk_timer r) (wk_timeout r) (wk_sync r) (wk_state r) v (wk_data r) (wk_cb r) (wk_nread r) (wk_buf r) (wk_reading r) (wk_user_cb r) (wk_user_data r).
#[global] Arguments set_wk_ret _ _ /.
#[export] Instance set_wk_data : Setter wk_data := fun v r => mkWork (wk_ref_count r) (wk_timer r) (wk_timeout r) (wk_sync r) (wk_state r) (wk_ret r) v (wk_cb r) (wk_nread r) (wk_buf r) (wk_reading r) (wk_user_cb r) (wk_user_data r).
#[global] Arguments set_wk_data _ _ /.
#[export] Instance set_wk_cb : Setter wk_cb := fun v r => mkWork (wk_ref_count r) (wk_timer r) (wk_timeout r) (wk_sync r) (wk_state r) (wk_ret r) (wk_data r) v (wk_nread r) (wk_buf r) (wk_reading r) (wk_user_cb r) (wk_user_data r).
#[global] Arguments set_wk_cb _ _ /.
#[export] Instance set_wk_nread : Setter wk_nread := fun v r => mkWork (wk_ref_count r) (wk_timer r) (wk_timeout r) (wk_sync r) (wk_state r) (wk_ret r) (wk_data r) (wk_cb r) v (wk_buf r) (wk_reading r) (wk_user_cb r) (wk_user_data r).
#[global] Arguments set_wk_nread _ _ /.
#[export] Instance set_wk_buf : Setter wk_buf := fun v r => mkWork (wk_ref_count r) (wk_timer r) (wk_timeout r) (wk_sync r) (wk_state r) (wk_ret r) (wk_data r) (wk_cb r) (wk_nread r) v (wk_reading r) (wk_user_cb r) (wk_user_data r).
#[global] Arguments set_wk_buf _ _ /.
#[export] Instance set_wk_reading : Setter wk_reading := fun v r => mkWork (wk_ref_count r) (wk_timer r) (wk_timeout r) (wk_sync r) (wk_state r) (wk_ret r) (wk_data r) (wk_cb r) (wk_nread r) (wk_buf r) v (wk_user_cb r) (wk_user_data r).
#[global] Arguments set_wk_reading _ _ /.
#[export] Instance set_wk_user_cb : Setter wk_user_cb := fun v r => mkWork (wk_ref_count r) (wk_timer r) (wk_timeout r) (wk_sync r) (wk_state r) (wk_ret r) (wk_data r) (wk_cb r) (wk_nread r) (wk_buf r) (wk_reading r) v (wk_user_data r).
#[global] Arguments set_wk_user_cb _ _ /.
#[export] Instance set_wk_user_data : Setter wk_user_data := fun v r => mkWork (wk_ref_count r) (wk_timer r) (wk_timeout r) (wk_sync r) (wk_state r) (wk_ret r) (wk_data r) (wk_cb r) (wk_nread r) (wk_buf r) (wk_reading r) (wk_user_cb r) v.
#[global] Arguments set_wk_user_data _ _ /.


Record device_t := mkDevice {
  dv_pdev : positive;
  dv_socket_data : option uv_data;
  dv_addr : list Z;
  dv_port : Z;
  dv_devid : Z;
  dv_seqnum : Z;
  dv_pt : lc_t;
  dv_ref_count : Z;
  dv_state : Z;
  dv_max_retry : Z;
  dv_timer_data : option uv_data;
  dv_write_data : option positive;
  dv_connect_data : option positive;
  dv_op_header : list Z;
  dv_req_import : list Z;
  dv_rpl_import : list Z;
  dv_retry : Z;
  dv_recv_header : list Z;
  dv_recv_urb : option positive;
  dv_urb_list : list positive;
  dv_read_list : list positive
}.
#[export] Instance set_dv_pdev : Setter dv_pdev := fun v r => mkDevice v (dv_socket_data r) (dv_addr r) (dv_port r) (dv_devid r) (dv_seqnum r) (dv_pt r) (dv_ref_count r) (dv_state r) (dv_max_retry r) (dv_timer_data r) (dv_write_data r) (dv_connect_data r) (dv_op_header r) (dv_req_import r) (dv_rpl_import r) (dv_retry r) (dv_recv_header r) (dv_recv_urb r) (dv_urb_list r) (dv_read_list r).
#[global] Arguments set_dv_pdev _ _ /.
#[export] Instance set_dv_socket_data : Setter dv_socket_data := fun v r => mkDevice (dv_pdev r) v (dv_addr r) (dv_port r) (dv_devid r) (dv_seqnum r) (dv_pt r) (dv_ref_count r) (dv_state r) (dv_max_retry r) (dv_timer_data r) (dv_write_data r) (dv_connect_data r) (dv_op_header r) (dv_req_import r) (dv_rpl_import r) (dv_retry r) (dv_recv_header r) (dv_recv_urb r) (dv_urb_list r) (dv_read_list r).
#[global] Arguments set_dv_socket_data _ _ /.
#[export] Instance set_dv_addr : Setter dv_addr := fun v r => mkDevice (dv_pdev r) (dv_socket_data r) v (dv_port r) (dv_devid r) (dv_seqnum r) (dv_pt r) (dv_ref_count r) (dv_state r) (dv_max_retry r) (dv_timer_data r) (dv_write_data r) (dv_connect_data r) (dv_op_header r) (dv_req_import r) (dv_rpl_import r) (dv_retry r) (dv_recv_header r) (dv_recv_urb r) (dv_urb_list r) (dv_read_list r).
#[global] Arguments set_dv_addr _ _ /.
#[export] Instance set_dv_port : Setter dv_port := fun v r => mkDevice (dv_pdev r) (dv_socket_data r) (dv_addr r) v (dv_devid r) (dv_seqnum r) (dv_pt r) (dv_ref_count r) (dv_state r) (dv_max_retry r) (dv_timer_data r) (dv_write_data r) (dv_connect_data r) (dv_op_header r) (dv_req_import r) (dv_rpl_import r) (dv_retry r) (dv_recv_header r) (dv_recv_urb r) (dv_urb_list r) (dv_read_list r).
#[global] Arguments set_dv_port _ _ /.
#[export] Instance set_dv_devid : Setter dv_devid := fun v r => mkDevice (dv_pdev r) (dv_socket_data r) (dv_addr r) (dv_port r) v (dv_seqnum r) (dv_pt r) (dv_ref_count r) (dv_state r) (dv_max_retry r) (dv_timer_data r) (dv_write_data r) (dv_connect_data r) (dv_op_header r) (dv_req_import r) (dv_rpl_import r) (dv_retry r) (dv_recv_header r) (dv_recv_urb r) (dv_urb_list r) (dv_read_list r).
#[global] Arguments set_dv_devid _ _ /.
#[export] Instance set_dv_seqnum : Setter dv_seqnum := fun v r => mkDevice (dv_pdev r) (dv_socket_data r) (dv_addr r) (dv_port r) (dv_devid r) v (dv_pt r) (dv_ref_count r) (dv_state r) (dv_max_retry r) (dv_timer_data r) (dv_write_data r) (dv_connect_data r) (dv_op_header r) (dv_req_import r) (dv_rpl_import r) (dv_retry r) (dv_recv_header r) (dv_recv_urb r) (dv_urb_list r) (dv_read_list r).
#[global] Arguments set_dv_seqnum _ _ /.
#[export] Instance set_dv_pt : Setter dv_pt := fun v r => mkDevice (dv_pdev r) (dv_socket_data r) (dv_addr r) (dv_port r) (dv_devid r) (dv_seqnum r) v (dv_ref_count r) (dv_state r) (dv_max_retry r) (dv_timer_data r) (dv_write_data r) (dv_connect_data r) (dv_op_header r) (dv_req_import r) (dv_rpl_import r) (dv_retry r) (dv_recv_header r) (dv_recv_urb r) (dv_urb_list r) (dv_read_list r).
#[global] Arguments set_dv_pt _ _ /.
#[export] Instance set_dv_ref_count : Setter dv_ref_count := fun v r => mkDevice (dv_pdev r) (dv_socket_data r) (dv_addr r) (dv_port r) (dv_devid r) (dv_seqnum r) (dv_pt r) v (dv_state r) (dv_max_retry r) (dv_timer_data r) (dv_write_data r) (dv_connect_data r) (dv_op_header r) (dv_req_import r) (dv_rpl_import r) (dv_retry r) (dv_recv_header r) (dv_recv_urb r) (dv_urb_list r) (dv_read_list r).
#[global] Arguments set_dv_ref_count _ _ /.
#[export] Instance set_dv_state : Setter dv_state := fun v r => mkDevice (dv_pdev r) (dv_socket_data r) (dv_addr r) (dv_port r) (dv_devid r) (dv_seqnum r) (dv_pt r) (dv_ref_count r) v (dv_max_retry r) (dv_timer_data r) (dv_write_data r) (dv_connect_data r) (dv_op_header r) (dv_req_import r) (dv_rpl_import r) (dv_retry r) (dv_recv_header r) (dv_recv_urb r) (dv_urb_list r) (dv_read_list r).
#[global] Arguments set_dv_state _ _ /.
#[export] Instance set_dv_max_retry : Setter dv_max_retry := fun v r => mkDevice (dv_pdev r) (dv_socket_data r) (dv_addr r) (dv_port r) (dv_devid r) (dv_seqnum r) (dv_pt r) (dv_ref_count r) (dv_state r) v (dv_timer_data r) (dv_write_data r) (dv_connect_data r) (dv_op_header r) (dv_req_import r) (dv_rpl_import r) (dv_retry r) (dv_recv_header r) (dv_recv_urb r) (dv_urb_list r) (dv_read_list r).
#[global] Arguments set_dv_max_retry _ _ /.
#[export] Instance set_dv_timer_data : Setter dv_timer_data := fun v r => mkDevice (dv_pdev r) (dv_socket_data r) (dv_addr r) (dv_port r) (dv_devid r) (dv_seqnum r) (dv_pt r) (dv_ref_count r) (dv_state r) (dv_max_retry r) v (dv_write_data r) (dv_connect_data r) (dv_op_header r) (dv_req_import r) (dv_rpl_import r) (dv_retry r) (dv_recv_header r) (dv_recv_urb r) (dv_urb_list r) (dv_read_list r).
#[global] Arguments set_dv_timer_data _ _ /.
#[export] Instance set_dv_write_data : Setter dv_write_data := fun v r => mkDevice (dv_pdev r) (dv_socket_data r) (dv_addr r) (dv_port r) (dv_devid r) (dv_seqnum r) (dv_pt r) (dv_ref_count r) (dv_state r) (dv_max_retry r) (dv_timer_data r) v (dv_connect_data r) (dv_op_header r) (dv_req_import r) (dv_rpl_import r) (dv_retry r) (dv_recv_header r) (dv_recv_urb r) (dv_urb_list r) (dv_read_list r).
#[global] Arguments set_dv_write_data _ _ /.
#[export] Instance set_dv_connect_data : Setter dv_connect_data := fun v r => mkDevice (dv_pdev r) (dv_socket_data r) (dv_addr r) (dv_port r) (dv_devid r) (dv_seqnum r) (dv_pt r) (dv_ref_count r) (dv_state r) (dv_max_retry r) (dv_timer_data r) (dv_write_data r) v (dv_op_header r) (dv_req_import r) (dv_rpl_import r) (dv_retry r) (dv_recv_header r) (dv_recv_urb r) (dv_urb_list r) (dv_read_list r).
#[global] Arguments set_dv_connect_data _ _ /.
#[export] Instance set_dv_op_header : Setter dv_op_header := fun v r => mkDevice (dv_pdev r) (dv_socket_data r) (dv_addr r) (dv_port r) (dv_devid r) (dv_seqnum r) (dv_pt r) (dv_ref_count r) (dv_state r) (dv_max_retry r) (dv_timer_data r) (dv_write_data r) (dv_connect_data r) v (dv_req_import r) (dv_rpl_import r) (dv_retry r) (dv_recv_header r) (dv_recv_urb r) (dv_urb_list r) (dv_read_list r).
#[global] Arguments set_dv_op_header _ _ /.
#[export] Instance set_dv_req_import : Setter dv_req_import := fun v r => mkDevice (dv_pdev r) (dv_socket_data r) (dv_addr r) (dv_port r) (dv_devid r) (dv_seqnum r) (dv_pt r) (dv_ref_count r) (dv_state r) (dv_max_retry r) (dv_timer_data r) (dv_write_data r) (dv_connect_data r) (dv_op_header r) v (dv_rpl_import r) (dv_retry r) (dv_recv_header r) (dv_recv_urb r) (dv_urb_list r) (dv_read_list r).
#[global] Arguments set_dv_req_import _ _ /.
#[export] Instance set_dv_rpl_import : Setter dv_rpl_import := fun v r => mkDevice (dv_pdev r) (dv_socket_data r) (dv_addr r) (dv_port r) (dv_devid r) (dv_seqnum r) (dv_pt r) (dv_ref_count r) (dv_state r) (dv_max_retry r) (dv_timer_data r) (dv_write_data r) (dv_connect_data r) (dv_op_header r) (dv_req_import r) v (dv_retry r) (dv_recv_header r) (dv_recv_urb r) (dv_urb_list r) (dv_read_list r).
#[global] Arguments set_dv_rpl_import _ _ /.
#[export] Instance set_dv_retry : Setter dv_retry := fun v r => mkDevice (dv_pdev r) (dv_socket_data r) (dv_addr r) (dv_port r) (dv_devid r) (dv_seqnum r) (dv_pt r) (dv_ref_count r) (dv_state r) (dv_max_retry r) (dv_timer_data r) (dv_write_data r) (dv_connect_data r) (dv_op_header r) (dv_req_import r) (dv_rpl_import r) v (dv_recv_header r) (dv_recv_urb r) (dv_urb_list r) (dv_read_list r).
#[global] Arguments set_dv_retry _ _ /.
#[export] Instance set_dv_recv_header : Setter dv_recv_header := fun v r => mkDevice (dv_pdev r) (dv_socket_data r) (dv_addr r) (dv_port r) (dv_devid r) (dv_seqnum r) (dv_pt r) (dv_ref_count r) (dv_state r) (dv_max_retry r) (dv_timer_data r) (dv_write_data r) (dv_connect_data r) (dv_op_header r) (dv_req_import r) (dv_rpl_import r) (dv_retry r) v (dv_recv_urb r) (dv_urb_list r) (dv_read_list r).
#[global] Arguments set_dv_recv_header _ _ /.
#[export] Instance set_dv_recv_urb : Setter dv_recv_urb := fun v r => mkDevice (dv_pdev r) (dv_socket_data r) (dv_addr r) (dv_port r) (dv_devid r) (dv_seqnum r) (dv_pt r) (dv_ref_count r) (dv_state r) (dv_max_retry r) (dv_timer_data r) (dv_write_data r) (dv_connect_data r) (dv_op_header r) (dv_req_import r) (dv_rpl_import r) (dv_retry r) (dv_recv_header r) v (dv_urb_list r) (dv_read_list r).
#[global] Arguments set_dv_recv_urb _ _ /.
#[export] Instance set_dv_urb_list : Setter dv_urb_list := fun v r => mkDevice (dv_pdev r) (dv_socket_data r) (dv_addr r) (dv_port r) (dv_devid r) (dv_seqnum r) (dv_pt r) (dv_ref_count r) (dv_state r) (dv_max_retry r) (dv_timer_data r) (dv_write_data r) (dv_connect_data r) (dv_op_header r) (dv_req_import r) (dv_rpl_import r) (dv_retry r) (dv_recv_header r) (dv_recv_urb r) v (dv_read_list r).
#[global] Arguments set_dv_urb_list _ _ /.
#[export] Instance set_dv_read_list : Setter dv_read_list := fun v r => mkDevice (dv_pdev r) (dv_socket_data r) (dv_addr r) (dv_port r) (dv_devid r) (dv_seqnum r) (dv_pt r) (dv_ref_count r) (dv_state r) (dv_max_retry r) (dv_timer_data r) (dv_write_data r) (dv_connect_data r) (dv_op_header r) (dv_req_import r) (dv_rpl_import r) (dv_retry r) (dv_recv_header r) (dv_recv_urb r) (dv_urb_list r) v.
#[global] Arguments set_dv_read_list _ _ /.


Record urb_t := mkUrbT {
  ub_pt : lc_t;
  ub_work : option positive;
  ub_dev : positive;
  ub_header : usbip_header;
  ub_direction : Z;
  ub_seqnum : Z;
  ub_buf : uv_buf_t;
  ub_write_data : option positive;
  ub_ret : option positive
}.
#[export] Instance set_ub_pt : Setter ub_pt := fun v r => mkUrbT v (ub_work r) (ub_dev r) (ub_header r) (ub_direction r) (ub_seqnum r) (ub_buf r) (ub_write_data r) (ub_ret r).
#[global] Arguments set_ub_pt _ _ /.
#[export] Instance set_ub_work : Setter ub_work := fun v r => mkUrbT (ub_pt r) v (ub_dev r) (ub_header r) (ub_direction r) (ub_seqnum r) (ub_buf r) (ub_write_data r) (ub_ret r).
#[global] Arguments set_ub_work _ _ /.
#[export] Instance set_ub_dev : Setter ub_dev := fun v r => mkUrbT (ub_pt r) (ub_work r) v (ub_header r) (ub_direction r) (ub_seqnum r) (ub_buf r) (ub_write_data r) (ub_ret r).
#[global] Arguments set_ub_dev _ _ /.
#[export] Instance set_ub_header : Setter ub_header := fun v r => mkUrbT (ub_pt r) (ub_work r) (ub_dev r) v (ub_direction r) (ub_seqnum r) (ub_buf r) (ub_write_data r) (ub_ret r).
#[global] Arguments set_ub_header _ _ /.
#[export] Instance set_ub_direction : Setter ub_direction := fun v r => mkUrbT (ub_pt r) (ub_work r) (ub_dev r) (ub_header r) v (ub_seqnum r) (ub_buf r) (ub_write_data r) (ub_ret r).
#[global] Arguments set_ub_direction _ _ /.
#[export] Instance set_ub_seqnum : Setter ub_seqnum := fun v r => mkUrbT (ub_pt r) (ub_work r) (ub_dev r) (ub_header r) (ub_direction r) v (ub_buf r) (ub_write_data r) (ub_ret r).
#[global] Arguments set_ub_seqnum _ _ /.
#[export] Instance set_ub_buf : Setter ub_buf := fun v r => mkUrbT (ub_pt r) (ub_work r) (ub_dev r) (ub_header r) (ub_direction r) (ub_seqnum r) v (ub_write_data r) (ub_ret r).
#[global] Arguments set_ub_buf _ _ /.
#[export] Instance set_ub_write_data : Setter ub_write_data := fun v r => mkUrbT (ub_pt r) (ub_work r) (ub_dev r) (ub_header r) (ub_direction r) (ub_seqnum r) (ub_buf r) v (ub_ret r).
#[global] Arguments set_ub_write_data _ _ /.
#[export] Instance set_ub_ret : Setter ub_ret := fun v r => mkUrbT (ub_pt r) (ub_work r) (ub_dev r) (ub_header r) (ub_direction r) (ub_seqnum r) (ub_buf r) (ub_write_data r) v.
#[global] Arguments set_ub_ret _ _ /.


Record device_info_req_t := mkReq {
  rq_pt : lc_t;
  rq_addr : list Z;
  rq_port : Z;
  rq_udev : list Z;
  rq_intf : list Z;
  rq_ref_count : Z;
  rq_active : bool;
  rq_socket_data : option uv_data;
  rq_connect_data : option positive;
  rq_write_data : option positive;
  rq_header : list Z;
  rq_reply : list Z;
  rq_info : option positive;
  rq_count : Z;
  rq_pinfo : positive;
  rq_pcount : positive;
  rq_read_list : list positive
}.
#[export] Instance set_rq_pt : Setter rq_pt := fun v r => mkReq v (rq_addr r) (rq_port r) (rq_udev r) (rq_intf r) (rq_ref_count r) (rq_active r) (rq_socket_data r) (rq_connect_data r) (rq_write_data r) (rq_header r) (rq_reply r) (rq_info r) (rq_count r) (rq_pinfo r) (rq_pcount r) (rq_read_list r).
#[global] Arguments set_rq_pt _ _ /.
#[export] Instance set_rq_addr : Setter rq_addr := fun v r => mkReq (rq_pt r) v (rq_port r) (rq_udev r) (rq_intf r) (rq_ref_count r) (rq_active r) (rq_socket_data r) (rq_connect_data r) (rq_write_data r) (rq_header r) (rq_reply r) (rq_info r) (rq_count r) (rq_pinfo r) (rq_pcount r) (rq_read_list r).
#[global] Arguments set_rq_addr _ _ /.
#[export] Instance set_rq_port : Setter rq_port := fun v r => mkReq (rq_pt r) (rq_addr r) v (rq_udev r) (rq_intf r) (rq_ref_count r) (rq_active r) (rq_socket_data r) (rq_connect_data r) (rq_write_data r) (rq_header r) (rq_reply r) (rq_info r) (rq_count r) (rq_pinfo r) (rq_pcount r) (rq_read_list r).
#[global] Arguments set_rq_port _ _ /.
#[export] Instance set_rq_udev : Setter rq_udev := fun v r => mkReq (rq_pt r) (rq_addr r) (rq_port r) v (rq_intf r) (rq_ref_count r) (rq_active r) (rq_socket_data r) (rq_connect_data r) (rq_write_data r) (rq_header r) (rq_reply r) (rq_info r) (rq_count r) (rq_pinfo r) (rq_pcount r) (rq_read_list r).
#[global] Arguments set_rq_udev _ _ /.
#[export] Instance set_rq_intf : Setter rq_intf := fun v r => mkReq (rq_pt r) (rq_addr r) (rq_port r) (rq_udev r) v (rq_ref_count r) (rq_active r) (rq_socket_data r) (rq_connect_data r) (rq_write_data r) (rq_header r) (rq_reply r) (rq_info r) (rq_count r) (rq_pinfo r) (rq_pcount r) (rq_read_list r).
#[global] Arguments set_rq_intf _ _ /.
#[export] Instance set_rq_ref_count : Setter rq_ref_count := fun v r => mkReq (rq_pt r) (rq_addr r) (rq_port r) (rq_udev r) (rq_intf r) v (rq_active r) (rq_socket_data r) (rq_connect_data r) (rq_write_data r) (rq_header r) (rq_reply r) (rq_info r) (rq_count r) (rq_pinfo r) (rq_pcount r) (rq_read_list r).
#[global] Arguments set_rq_ref_count _ _ /.
#[export] Instance set_rq_active : Setter rq_active := fun v r => mkReq (rq_pt r) (rq_addr r) (rq_port r) (rq_udev r) (rq_intf r) (rq_ref_count r) v (rq_socket_data r) (rq_connect_data r) (rq_write_data r) (rq_header r) (rq_reply r) (rq_info r) (rq_count r) (rq_pinfo r) (rq_pcount r) (rq_read_list r).
#[global] Arguments set_rq_active _ _ /.
#[export] Instance set_rq_socket_data : Setter rq_socket_data := fun v r => mkReq (rq_pt r) (rq_addr r) (rq_port r) (rq_udev r) (rq_intf r) (rq_ref_count r) (rq_active r) v (rq_connect_data r) (rq_write_data r) (rq_header r) (rq_reply r) (rq_info r) (rq_count r) (rq_pinfo r) (rq_pcount r) (rq_read_list r).
#[global] Arguments set_rq_socket_data _ _ /.
#[export] Instance set_rq_connect_data : Setter rq_connect_data := fun v r => mkReq (rq_pt r) (rq_addr r) (rq_port r) (rq_udev r) (rq_intf r) (rq_ref_count r) (rq_active r) (rq_socket_data r) v (rq_write_data r) (rq_header r) (rq_reply r) (rq_info r) (rq_count r) (rq_pinfo r) (rq_pcount r) (rq_read_list r).
#[global] Arguments set_rq_connect_data _ _ /.
#[export] Instance set_rq_write_data : Setter rq_write_data := fun v r => mkReq (rq_pt r) (rq_addr r) (rq_port r) (rq_udev r) (rq_intf r) (rq_ref_count r) (rq_active r) (rq_socket_data r) (rq_connect_data r) v (rq_header r) (rq_reply r) (rq_info r) (rq_count r) (rq_pinfo r) (rq_pcount r) (rq_read_list r).
#[global] Arguments set_rq_write_data _ _ /.
#[export] Instance set_rq_header : Setter rq_header := fun v r => mkReq (rq_pt r) (rq_addr r) (rq_port r) (rq_udev r) (rq_intf r) (rq_ref_count r) (rq_active r) (rq_socket_data r) (rq_connect_data r) (rq_write_data r) v (rq_reply r) (rq_info r) (rq_count r) (rq_pinfo r) (rq_pcount r) (rq_read_list r).
#[global] Arguments set_rq_header _ _ /.
#[export] Instance set_rq_reply : Setter rq_reply := fun v r => mkReq (rq_pt r) (rq_addr r) (rq_port r) (rq_udev r) (rq_intf r) (rq_ref_count r) (rq_active r) (rq_socket_data r) (rq_connect_data r) (rq_write_data r) (rq_header r) v (rq_info r) (rq_count r) (rq_pinfo r) (rq_pcount r) (rq_read_list r).
#[global] Arguments set_rq_reply _ _ /.
#[export] Instance set_rq_info : Setter rq_info := fun v r => mkReq (rq_pt r) (rq_addr r) (rq_port r) (rq_udev r) (rq_intf r) (rq_ref_count r) (rq_active r) (rq_socket_data r) (rq_connect_data r) (rq_write_data r) (rq_header r) (rq_reply r) v (rq_count r) (rq_pinfo r) (rq_pcount r) (rq_read_list r).
#[global] Arguments set_rq_info _ _ /.
#[export] Instance set_rq_count : Setter rq_count := fun v r => mkReq (rq_pt r) (rq_addr r) (rq_port r) (rq_udev r) (rq_intf r) (rq_ref_count r) (rq_active r) (rq_socket_data r) (rq_connect_data r) (rq_write_data r) (rq_header r) (rq_reply r) (rq_info r) v (rq_pinfo r) (rq_pcount r) (rq_read_list r).
#[global] Arguments set_rq_count _ _ /.
#[export] Instance set_rq_pinfo : Setter rq_pinfo := fun v r => mkReq (rq_pt r) (rq_addr r) (rq_port r) (rq_udev r) (rq_intf r) (rq_ref_count r) (rq_active r) (rq_socket_data r) (rq_connect_data r) (rq_write_data r) (rq_header r) (rq_reply r) (rq_info r) (rq_count r) v (rq_pcount r) (rq_read_list r).
#[global] Arguments set_rq_pinfo _ _ /.
#[export] Instance set_rq_pcount : Setter rq_pcount := fun v r => mkReq (rq_pt r) (rq_addr r) (rq_port r) (rq_udev r) (rq_intf r) (rq_ref_count r) (rq_active r) (rq_socket_data r) (rq_connect_data r) (rq_write_data r) (rq_header r) (rq_reply r) (rq_info r) (rq_count r) (rq_pinfo r) v (rq_read_list r).
#[global] Arguments set_rq_pcount _ _ /.
#[export] Instance set_rq_read_list : Setter rq_read_list := fun v r => mkReq (rq_pt r) (rq_addr r) (rq_port r) (rq_udev r) (rq_intf r) (rq_ref_count r) (rq_active r) (rq_socket_data r) (rq_connect_data r) (rq_write_data r) (rq_header r) (rq_reply r) (rq_info r) (rq_count r) (rq_pinfo r) (rq_pcount r) v.
#[global] Arguments set_rq_read_list _ _ /.


Record device_interface_t := mkDevIntf {
  di_bInterfaceClass : Z;
  di_bInterfaceSubClass : Z;
  di_bInterfaceProtocol : Z
}.

Record device_info_t := mkDevInfo {
  di_busid : list Z;
  di_busnum : Z;
  di_devnum : Z;
  di_speed : Z;
  di_idVendor : Z;
  di_idProduct : Z;
  di_bcdDevice : Z;
  di_bDeviceClass : Z;
  di_bDeviceSubClass : Z;
  di_bDeviceProtocol : Z;
  di_bConfigurationValue : Z;
  di_bNumConfigurations : Z;
  di_bNumInterfaces : Z;
  di_interfaces : option positive
}.
#[export] Instance set_di_busid : Setter di_busid := fun v r => mkDevInfo v (di_busnum r) (di_devnum r) (di_speed r) (di_idVendor r) (di_idProduct r) (di_bcdDevice r) (di_bDeviceClass r) (di_bDeviceSubClass r) (di_bDeviceProtocol r) (di_bConfigurationValue r) (di_bNumConfigurations r) (di_bNumInterfaces r) (di_interfaces r).
#[global] Arguments set_di_busid _ _ /.
#[export] Instance set_di_busnum : Setter di_busnum := fun v r => mkDevInfo (di_busid r) v (di_devnum r) (di_speed r) (di_idVendor r) (di_idProduct r) (di_bcdDevice r) (di_bDeviceClass r) (di_bDeviceSubClass r) (di_bDeviceProtocol r) (di_bConfigurationValue r) (di_bNumConfigurations r) (di_bNumInterfaces r) (di_interfaces r).
#[global] Arguments set_di_busnum _ _ /.
#[export] Instance set_di_devnum : Setter di_devnum := fun v r => mkDevInfo (di_busid r) (di_busnum r) v (di_speed r) (di_idVendor r) (di_idProduct r) (di_bcdDevice r) (di_bDeviceClass r) (di_bDeviceSubClass r) (di_bDeviceProtocol r) (di_bConfigurationValue r) (di_bNumConfigurations r) (di_bNumInterfaces r) (di_interfaces r).
#[global] Arguments set_di_devnum _ _ /.
#[export] Instance set_di_speed : Setter di_speed := fun v r => mkDevInfo (di_busid r) (di_busnum r) (di_devnum r) v (di_idVendor r) (di_idProduct r) (di_bcdDevice r) (di_bDeviceClass r) (di_bDeviceSubClass r) (di_bDeviceProtocol r) (di_bConfigurationValue r) (di_bNumConfigurations r) (di_bNumInterfaces r) (di_interfaces r).
#[global] Arguments set_di_speed _ _ /.
#[export] Instance set_di_idVendor : Setter di_idVendor := fun v r => mkDevInfo (di_busid r) (di_busnum r) (di_devnum r) (di_speed r) v (di_idProduct r) (di_bcdDevice r) (di_bDeviceClass r) (di_bDeviceSubClass r) (di_bDeviceProtocol r) (di_bConfigurationValue r) (di_bNumConfigurations r) (di_bNumInterfaces r) (di_interfaces r).
#[global] Arguments set_di_idVendor _ _ /.
#[export] Instance set_di_idProduct : Setter di_idProduct := fun v r => mkDevInfo (di_busid r) (di_busnum r) (di_devnum r) (di_speed r) (di_idVendor r) v (di_bcdDevice r) (di_bDeviceClass r) (di_bDeviceSubClass r) (di_bDeviceProtocol r) (di_bConfigurationValue r) (di_bNumConfigurations r) (di_bNumInterfaces r) (di_interfaces r).
#[global] Arguments set_di_idProduct _ _ /.
#[export] Instance set_di_bcdDevice : Setter di_bcdDevice := fun v r => mkDevInfo (di_busid r) (di_busnum r) (di_devnum r) (di_speed r) (di_idVendor r) (di_idProduct r) v (di_bDeviceClass r) (di_bDeviceSubClass r) (di_bDeviceProtocol r) (di_bConfigurationValue r) (di_bNumConfigurations r) (di_bNumInterfaces r) (di_interfaces r).
#[global] Arguments set_di_bcdDevice _ _ /.
#[export] Instance set_di_bDeviceClass : Setter di_bDeviceClass := fun v r => mkDevInfo (di_busid r) (di_busnum r) (di_devnum r) (di_speed r) (di_idVendor r) (di_idProduct r) (di_bcdDevice r) v (di_bDeviceSubClass r) (di_bDeviceProtocol r) (di_bConfigurationValue r) (di_bNumConfigurations r) (di_bNumInterfaces r) (di_interfaces r).
#[global] Arguments set_di_bDeviceClass _ _ /.
#[export] Instance set_di_bDeviceSubClass : Setter di_bDeviceSubClass := fun v r => mkDevInfo (di_busid r) (di_busnum r) (di_devnum r) (di_speed r) (di_idVendor r) (di_idProduct r) (di_bcdDevice r) (di_bDeviceClass r) v (di_bDeviceProtocol r) (di_bConfigurationValue r) (di_bNumConfigurations r) (di_bNumInterfaces r) (di_interfaces r).
#[global] Arguments set_di_bDeviceSubClass _ _ /.
#[export] Instance set_di_bDeviceProtocol : Setter di_bDeviceProtocol := fun v r => mkDevInfo (di_busid r) (di_busnum r) (di_devnum r) (di_speed r) (di_idVendor r) (di_idProduct r) (di_bcdDevice r) (di_bDeviceClass r) (di_bDeviceSubClass r) v (di_bConfigurationValue r) (di_bNumConfigurations r) (di_bNumInterfaces r) (di_interfaces r).
#[global] Arguments set_di_bDeviceProtocol _ _ /.
#[export] Instance set_di_bConfigurationValue : Setter di_bConfigurationValue := fun v r => mkDevInfo (di_busid r) (di_busnum r) (di_devnum r) (di_speed r) (di_idVendor r) (di_idProduct r) (di_bcdDevice r) (di_bDeviceClass r) (di_bDeviceSubClass r) (di_bDeviceProtocol r) v (di_bNumConfigurations r) (di_bNumInterfaces r) (di_interfaces r).
#[global] Arguments set_di_bConfigurationValue _ _ /.
#[export] Instance set_di_bNumConfigurations : Setter di_bNumConfigurations := fun v r => mkDevInfo (di_busid r) (di_busnum r) (di_devnum r) (di_speed r) (di_idVendor r) (di_idProduct r) (di_bcdDevice r) (di_bDeviceClass r) (di_bDeviceSubClass r) (di_bDeviceProtocol r) (di_bConfigurationValue r) v (di_bNumInterfaces r) (di_interfaces r).
#[global] Arguments set_di_bNumConfigurations _ _ /.
#[export] Instance set_di_bNumInterfaces : Setter di_bNumInterfaces := fun v r => mkDevInfo (di_busid r) (di_busnum r) (di_devnum r) (di_speed r) (di_idVendor r) (di_idProduct r) (di_bcdDevice r) (di_bDeviceClass r) (di_bDeviceSubClass r) (di_bDeviceProtocol r) (di_bConfigurationValue r) (di_bNumConfigurations r) v (di_interfaces r).
#[global] Arguments set_di_bNumInterfaces _ _ /.
#[export] Instance set_di_interfaces : Setter di_interfaces := fun v r => mkDevInfo (di_busid r) (di_busnum r) (di_devnum r) (di_speed r) (di_idVendor r) (di_idProduct r) (di_bcdDevice r) (di_bDeviceClass r) (di_bDeviceSubClass r) (di_bDeviceProtocol r) (di_bConfigurationValue r) (di_bNumConfigurations r) (di_bNumInterfaces r) v.
#[global] Arguments set_di_interfaces _ _ /.


Record host_t := mkHost {
  ho_addr : list Z;
  ho_port : Z
}.
#[export] Instance set_ho_addr : Setter ho_addr := fun v r => mkHost v (ho_port r).
#[global] Arguments set_ho_addr _ _ /.
#[export] Instance set_ho_port : Setter ho_port := fun v r => mkHost (ho_addr r) v.
#[global] Arguments set_ho_port _ _ /.


(** [libusbip_job_t]: [job->work] is a variable of the program. *)
Record job_t := mkJob { jb_cb : bool; jb_data : Z; jb_work : positive }.

(** The session, and the memory shared with the program: arrays of device
    records ([ss_infos], [ss_intfs], [ss_hostarrays]) and variables ([ss_vars]). *)
Record session := mkSession {
  ss_works : gmap positive work_t;
  ss_syncs : gmap positive sync_t;
  ss_devices : gmap positive device_t;
  ss_urbs : gmap positive urb_t;
  ss_reqs : gmap positive device_info_req_t;
  ss_infos : gmap positive (list device_info_t);
  ss_intfs : gmap positive (list device_interface_t);
  ss_hostarrays : gmap positive (list host_t);
  ss_vars : gmap positive Z;
  ss_work_queue : list positive;
  ss_device_blocks : list positive;
  ss_free_sync_list : list positive;
  ss_free_device_list : list positive;
  ss_free_urb_list : list positive;
  ss_free_work_list : list positive;
  ss_host_list : list host_t;
  ss_host_count : Z;
  ss_active : bool;
  ss_loop : bool;
  ss_log_level : Z;
  ss_start_time : Z
}.
#[export] Instance set_ss_works : Setter ss_works := fun v r => mkSession v (ss_syncs r) (ss_devices r) (ss_urbs r) (ss_reqs r) (ss_infos r) (ss_intfs r) (ss_hostarrays r) (ss_vars r) (ss_work_queue r) (ss_device_blocks r) (ss_free_sync_list r) (ss_free_device_list r) (ss_free_urb_list r) (ss_free_work_list r) (ss_host_list r) (ss_host_count r) (ss_active r) (ss_loop r) (ss_log_level r) (ss_start_time r).
#[global] Arguments set_ss_works _ _ /.
#[export] Instance set_ss_syncs : Setter ss_syncs := fun v r => mkSession (ss_works r) v (ss_devices r) (ss_urbs r) (ss_reqs r) (ss_infos r) (ss_intfs r) (ss_hostarrays r) (ss_vars r) (ss_work_queue r) (ss_device_blocks r) (ss_free_sync_list r) (ss_free_device_list r) (ss_free_urb_list r) (ss_free_work_list r) (ss_host_list r) (ss_host_count r) (ss_active r) (ss_loop r) (ss_log_level r) (ss_start_time r).
#[global] Arguments set_ss_syncs _ _ /.
#[export] Instance set_ss_devices : Setter ss_devices := fun v r => mkSession (ss_works r) (ss_syncs r) v (ss_urbs r) (ss_reqs r) (ss_infos r) (ss_intfs r) (ss_hostarrays r) (ss_vars r) (ss_work_queue r) (ss_device_blocks r) (ss_free_sync_list r) (ss_free_device_list r) (ss_free_urb_list r) (ss_free_work_list r) (ss_host_list r) (ss_host_count r) (ss_active r) (ss_loop r) (ss_log_level r) (ss_start_time r).
#[global] Arguments set_ss_devices _ _ /.
#[export] Instance set_ss_urbs : Setter ss_urbs := fun v r => mkSession (ss_works r) (ss_syncs r) (ss_devices r) v (ss_reqs r) (ss_infos r) (ss_intfs r) (ss_hostarrays r) (ss_vars r) (ss_work_queue r) (ss_device_blocks r) (ss_free_sync_list r) (ss_free_device_list r) (ss_free_urb_list r) (ss_free_work_list r) (ss_host_list r) (ss_host_count r) (ss_active r) (ss_loop r) (ss_log_level r) (ss_start_time r).
#[global] Arguments set_ss_urbs _ _ /.
#[export] Instance set_ss_reqs : Setter ss_reqs := fun v r => mkSession (ss_works r) (ss_syncs r) (ss_devices r) (ss_urbs r) v (ss_infos r) (ss_intfs r) (ss_hostarrays r) (ss_vars r) (ss_work_queue r) (ss_device_blocks r) (ss_free_sync_list r) (ss_free_device_list r) (ss_free_urb_list r) (ss_free_work_list r) (ss_host_list r) (ss_host_count r) (ss_active r) (ss_loop r) (ss_log_level r) (ss_start_time r).
#[global] Arguments set_ss_reqs _ _ /.
#[export] Instance set_ss_infos : Setter ss_infos := fun v r => mkSession (ss_works r) (ss_syncs r) (ss_devices r) (ss_urbs r) (ss_reqs r) v (ss_intfs r) (ss_hostarrays r) (ss_vars r) (ss_work_queue r) (ss_device_blocks r) (ss_free_sync_list r) (ss_free_device_list r) (ss_free_urb_list r) (ss_free_work_list r) (ss_host_list r) (ss_host_count r) (ss_active r) (ss_loop r) (ss_log_level r) (ss_start_time r).
#[global] Arguments set_ss_infos _ _ /.
#[export] Instance set_ss_intfs : Setter ss_intfs := fun v r => mkSession (ss_works r) (ss_syncs r) (ss_devices r) (ss_urbs r) (ss_reqs r) (ss_infos r) v (ss_hostarrays r) (ss_vars r) (ss_work_queue r) (ss_device_blocks r) (ss_free_sync_list r) (ss_free_device_list r) (ss_free_urb_list r) (ss_free_work_list r) (ss_host_list r) (ss_host_count r) (ss_active r) (ss_loop r) (ss_log_level r) (ss_start_time r).
#[global] Arguments set_ss_intfs _ _ /.
#[export] Instance set_ss_hostarrays : Setter ss_hostarrays := fun v r => mkSession (ss_works r) (ss_syncs r) (ss_devices r) (ss_urbs r) (ss_reqs r) (ss_infos r) (ss_intfs r) v (ss_vars r) (ss_work_queue r) (ss_device_blocks r) (ss_free_sync_list r) (ss_free_device_list r) (ss_free_urb_list r) (ss_free_work_list r) (ss_host_list r) (ss_host_count r) (ss_active r) (ss_loop r) (ss_log_level r) (ss_start_time r).
#[global] Arguments set_ss_hostarrays _ _ /.
#[export] Instance set_ss_vars : Setter ss_vars := fun v r => mkSession (ss_works r) (ss_syncs r) (ss_devices r) (ss_urbs r) (ss_reqs r) (ss_infos r) (ss_intfs r) (ss_hostarrays r) v (ss_work_queue r) (ss_device_blocks r) (ss_free_sync_list r) (ss_free_device_list r) (ss_free_urb_list r) (ss_free_work_list r) (ss_host_list r) (ss_host_count r) (ss_active r) (ss_loop r) (ss_log_level r) (ss_start_time r).
#[global] Arguments set_ss_vars _ _ /.
#[export] Instance set_ss_work_queue : Setter ss_work_queue := fun v r => mkSession (ss_works r) (ss_syncs r) (ss_devices r) (ss_urbs r) (ss_reqs r) (ss_infos r) (ss_intfs r) (ss_hostarrays r) (ss_vars r) v (ss_device_blocks r) (ss_free_sync_list r) (ss_free_device_list r) (ss_free_urb_list r) (ss_free_work_list r) (ss_host_list r) (ss_host_count r) (ss_active r) (ss_loop r) (ss_log_level r) (ss_start_time r).
#[global] Arguments set_ss_work_queue _ _ /.
#[export] Instance set_ss_device_blocks : Setter ss_device_blocks := fun v r => mkSession (ss_works r) (ss_syncs r) (ss_devices r) (ss_urbs r) (ss_reqs r) (ss_infos r) (ss_intfs r) (ss_hostarrays r) (ss_vars r) (ss_work_queue r) v (ss_free_sync_list r) (ss_free_device_list r) (ss_free_urb_list r) (ss_free_work_list r) (ss_host_list r) (ss_host_count r) (ss_active r) (ss_loop r) (ss_log_level r) (ss_start_time r).
#[global] Arguments set_ss_device_blocks _ _ /.
#[export] Instance set_ss_free_sync_list : Setter ss_free_sync_list := fun v r => mkSession (ss_works r) (ss_syncs r) (ss_devices r) (ss_urbs r) (ss_reqs r) (ss_infos r) (ss_intfs r) (ss_hostarrays r) (ss_vars r) (ss_work_queue r) (ss_device_blocks r) v (ss_free_device_list r) (ss_free_urb_list r) (ss_free_work_list r) (ss_host_list r) (ss_host_count r) (ss_active r) (ss_loop r) (ss_log_level r) (ss_start_time r).
#[global] Arguments set_ss_free_sync_list _ _ /.
#[export] Instance set_ss_free_device_list : Setter ss_free_device_list := fun v r => mkSession (ss_works r) (ss_syncs r) (ss_devices r) (ss_urbs r) (ss_reqs r) (ss_infos r) (ss_intfs r) (ss_hostarrays r) (ss_vars r) (ss_work_queue r) (ss_device_blocks r) (ss_free_sync_list r) v (ss_free_urb_list r) (ss_free_work_list r) (ss_host_list r) (ss_host_count r) (ss_active r) (ss_loop r) (ss_log_level r) (ss_start_time r).
#[global] Arguments set_ss_free_device_list _ _ /.
#[export] Instance set_ss_free_urb_list : Setter ss_free_urb_list := fun v r => mkSession (ss_works r) (ss_syncs r) (ss_devices r) (ss_urbs r) (ss_reqs r) (ss_infos r) (ss_intfs r) (ss_hostarrays r) (ss_vars r) (ss_work_queue r) (ss_device_blocks r) (ss_free_sync_list r) (ss_free_device_list r) v (ss_free_work_list r) (ss_host_list r) (ss_host_count r) (ss_active r) (ss_loop r) (ss_log_level r) (ss_start_time r).
#[global] Arguments set_ss_free_urb_list _ _ /.
#[export] Instance set_ss_free_work_list : Setter ss_free_work_list := fun v r => mkSession (ss_works r) (ss_syncs r) (ss_devices r) (ss_urbs r) (ss_reqs r) (ss_infos r) (ss_intfs r) (ss_hostarrays r) (ss_vars r) (ss_work_queue r) (ss_device_blocks r) (ss_free_sync_list r) (ss_free_device_list r) (ss_free_urb_list r) v (ss_host_list r) (ss_host_count r) (ss_active r) (ss_loop r) (ss_log_level r) (ss_start_time r).
#[global] Arguments set_ss_free_work_list _ _ /.
#[export] Instance set_ss_host_list : Setter ss_host_list := fun v r => mkSession (ss_works r) (ss_syncs r) (ss_devices r) (ss_urbs r) (ss_reqs r) (ss_infos r) (ss_intfs r) (ss_hostarrays r) (ss_vars r) (ss_work_queue r) (ss_device_blocks r) (ss_free_sync_list r) (ss_free_device_list r) (ss_free_urb_list r) (ss_free_work_list r) v (ss_host_count r) (ss_active r) (ss_loop r) (ss_log_level r) (ss_start_time r).
#[global] Arguments set_ss_host_list _ _ /.
#[export] Instance set_ss_host_count : Setter ss_host_count := fun v r => mkSession (ss_works r) (ss_syncs r) (ss_devices r) (ss_urbs r) (ss_reqs r) (ss_infos r) (ss_intfs r) (ss_hostarrays r) (ss_vars r) (ss_work_queue r) (ss_device_blocks r) (ss_free_sync_list r) (ss_free_device_list r) (ss_free_urb_list r) (ss_free_work_list r) (ss_host_list r) v (ss_active r) (ss_loop r) (ss_log_level r) (ss_start_time r).
#[global] Arguments set_ss_host_count _ _ /.
#[export] Instance set_ss_active : Setter ss_active := fun v r => mkSession (ss_works r) (ss_syncs r) (ss_devices r) (ss_urbs r) (ss_reqs r) (ss_infos r) (ss_intfs r) (ss_hostarrays r) (ss_vars r) (ss_work_queue r) (ss_device_blocks r) (ss_free_sync_list r) (ss_free_device_list r) (ss_free_urb_list r) (ss_free_work_list r) (ss_host_list r) (ss_host_count r) v (ss_loop r) (ss_log_level r) (ss_start_time r).
#[global] Arguments set_ss_active _ _ /.
#[export] Instance set_ss_loop : Setter ss_loop := fun v r => mkSession (ss_works r) (ss_syncs r) (ss_devices r) (ss_urbs r) (ss_reqs r) (ss_infos r) (ss_intfs r) (ss_hostarrays r) (ss_vars r) (ss_work_queue r) (ss_device_blocks r) (ss_free_sync_list r) (ss_free_device_list r) (ss_free_urb_list r) (ss_free_work_list r) (ss_host_list r) (ss_host_count r) (ss_active r) v (ss_log_level r) (ss_start_time r).
#[global] Arguments set_ss_loop _ _ /.
#[export] Instance set_ss_log_level : Setter ss_log_level := fun v r => mkSession (ss_works r) (ss_syncs r) (ss_devices r) (ss_urbs r) (ss_reqs r) (ss_infos r) (ss_intfs r) (ss_hostarrays r) (ss_vars r) (ss_work_queue r) (ss_device_blocks r) (ss_free_sync_list r) (ss_free_device_list r) (ss_free_urb_list r) (ss_free_work_list r) (ss_host_list r) (ss_host_count r) (ss_active r) (ss_loop r) v (ss_start_time r).
#[global] Arguments set_ss_log_level _ _ /.
#[export] Instance set_ss_start_time : Setter ss_start_time := fun v r => mkSession (ss_works r) (ss_syncs r) (ss_devices r) (ss_urbs r) (ss_reqs r) (ss_infos r) (ss_intfs r) (ss_hostarrays r) (ss_vars r) (ss_work_queue r) (ss_device_blocks r) (ss_free_sync_list r) (ss_free_device_list r) (ss_free_urb_list r) (ss_free_work_list r) (ss_host_list r) (ss_host_count r) (ss_active r) (ss_loop r) (ss_log_level r) v.
#[global] Arguments set_ss_start_time _ _ /.


Definition uv_buf_zero := mkUvBuf place_null 0.
Definition work_zero : work_t :=
  mkWork 0 false 0 None ws_pending 0 None work_abort_cb_fn 0 uv_buf_zero false false 0.
Definition device_zero : device_t :=
  mkDevice 1 None [] 0 0 0 lc_init 0 devs_closed 0 None None None (replicate 8 0) (replicate 32 0)
    (replicate 312 0) 0 (replicate 48 0) None [] [].
Definition urb_zero_t : urb_t := mkUrbT lc_init None 1 header_zero 0 0 uv_buf_zero None None.
Definition req_zero : device_info_req_t :=
  mkReq lc_init [] 0 (replicate 312 0) (replicate 4 0) 0 false None None None (replicate 8 0)
    (replicate 4 0) None 0 1 1 [].
Definition device_info_zero : device_info_t :=
  mkDevInfo (replicate 32 0) 0 0 0 0 0 0 0 0 0 0 0 0 None.
Definition device_interface_zero : device_interface_t := mkDevIntf 0 0 0.
Definition session_zero : session :=
  mkSession ∅ ∅ ∅ ∅ ∅ ∅ ∅ ∅ ∅ [] [] [] [] [] [] [] 0 false false 0 0.

(** ** The union of [status] and [nread] *)
Section status.
Context `{Arch}.

Definition status_of (nread : Z) : Z := if big_endian then s32 (nread / 2 ^ 32) else s32 nread.
Definition put_status (status nread : Z) : Z :=
  if big_endian then s64 (status * 2 ^ 32 + u32 nread)
  else s64 (nread - u32 nread + u32 status).
End status.

(** ** Objects *)
Section objects.
Context `{Env}.
Notation M := (M session).

Definition look {A} (f : session -> gmap positive A) (i : positive) : M A :=
  m ← gets f; of_option UseAfterFree (m !! i).
Definition update {A} (f : session -> gmap positive A) `{!Setter f} (i : positive) (g : A -> A) : M unit :=
  x ← look f i;
  modify (fun s => s <| f := <[i := g x]> (f s) |>).
Definition create {A} (f : session -> gmap positive A) `{!Setter f} (i : positive) (x : A) : M unit :=
  modify (fun s => s <| f := <[i := x]> (f s) |>).

Definition uv (c : uv_call) : M unit := ext_do (UUv c).
Definition uv_ret (c : uv_call) : M Z := ext_ret (UUv c).

(** [malloc], whose result the library uses unchecked: the address of an object
    that takes [n] addresses. *)
Definition malloc_ (n : Z) : M positive :=
  r ← ext_ret UCalloc;
  if r =? 0 then crash NullDeref
  else
    a ← kgets k_next;
    kmodify (fun k => k <| k_next := (k_next k + Z.to_pos n)%positive |>);;
    mret a.

(** A write through a pointer to a variable of the program. *)
Definition store_var (p : positive) (v : Z) : M unit :=
  look ss_vars p;; modify (fun s => s <| ss_vars := <[p := v]> (ss_vars s) |>).

Definition device_of (o : option positive) : M positive := deref o.

(** *** Reading into a place *)

(** A write of [data] at [off] into a member of [n] bytes. *)
Definition splice_in (n off : Z) (mem data : list Z) : option (list Z) :=
  if (0 <=? off) && (off + Z.of_nat (length data) <=? n)
  then Some (splice mem (Z.to_nat off) data) else None.

Definition store_place (b : place) (off : Z) (data : list Z) : M unit :=
  match b with
  | place_null => crash NullDeref
  | place_user p => store_bytes (ptr_add p off) data
  | place_op_header d =>
      r ← look ss_devices d;
      m ← of_option OutOfBounds (splice_in 8 off (dv_op_header r) data);
      update ss_devices d (fun r => r <| dv_op_header := m |>)
  | place_rpl_import d =>
      r ← look ss_devices d;
      m ← of_option OutOfBounds (splice_in 312 off (dv_rpl_import r) data);
      update ss_devices d (fun r => r <| dv_rpl_import := m |>)
  | place_recv_header d =>
      r ← look ss_devices d;
      m ← of_option OutOfBounds (splice_in 48 off (dv_recv_header r) data);
      update ss_devices d (fun r => r <| dv_recv_header := m |>)
  | place_recv_buf d =>
      look ss_devices d;;
      (if (0 <=? off) && (off + Z.of_nat (length data) <=? 65536) then mret tt else crash OutOfBounds)
  | place_req_header q =>
      r ← look ss_reqs q;
      m ← of_option OutOfBounds (splice_in 8 off (rq_header r) data);
      update ss_reqs q (fun r => r <| rq_header := m |>)
  | place_req_reply q =>
      r ← look ss_reqs q;
      m ← of_option OutOfBounds (splice_in 4 off (rq_reply r) data);
      update ss_reqs q (fun r => r <| rq_reply := m |>)
  | place_req_udev q =>
      r ← look ss_reqs q;
      m ← of_option OutOfBounds (splice_in 312 off (rq_udev r) data);
      update ss_reqs q (fun r => r <| rq_udev := m |>)
  | place_req_intf q =>
      r ← look ss_reqs q;
      m ← of_option OutOfBounds (splice_in 4 off (rq_intf r) data);
      update ss_reqs q (fun r => r <| rq_intf := m |>)
  end.

(** The bytes a buffer handed to [uv_write] holds; only the user's memory is
    written from. *)
Definition load_buf (b : uv_buf_t) : M (list Z) :=
  match buf_base b with
  | place_user p => load_bytes p (buf_len b)
  | _ => crash NullDeref
  end.

(** *** References *)

Definition device_del (d : positive) : M unit :=
  spin_lock MutexMem;;
  modify (fun s => s <| ss_free_device_list := d :: ss_free_device_list s |>);;
  spin_unlock MutexMem.

Definition device_ref (d : positive) : M unit :=
  update ss_devices d (fun r => r <| dv_ref_count := dv_ref_count r + 1 |>).
Definition device_unref (d : positive) : M unit :=
  update ss_devices d (fun r => r <| dv_ref_count := dv_ref_count r - 1 |>);;
  r ← look ss_devices d;
  if dv_ref_count r <? 0 then crash BugOn
  else when_ (dv_ref_count r =? 0) (device_del d).

Definition urb_del (u : positive) : M unit :=
  spin_lock MutexMem;;
  modify (fun s => s <| ss_free_urb_list := u :: ss_free_urb_list s |>);;
  spin_unlock MutexMem.

Definition device_info_req_ref (q : positive) : M unit :=
  update ss_reqs q (fun r => r <| rq_ref_count := rq_ref_count r + 1 |>).
Definition device_info_req_unref (q : positive) : M unit :=
  update ss_reqs q (fun r => r <| rq_ref_count := rq_ref_count r - 1 |>);;
  r ← look ss_reqs q;
  if rq_ref_count r <? 0 then crash BugOn
  else when_ (rq_ref_count r =? 0) (modify (fun s => s <| ss_reqs := delete q (ss_reqs s) |>)).

Definition DEVICE_CLOSE (d : positive) : M unit :=
  r ← look ss_devices d;
  when_ (devs_opening <=? dv_state r)
    (update ss_devices d (fun r => r <| dv_state := devs_closing |>);;
     device_ref d;;
     uv (UvClose (UvSocket d) socket_close_cb_fn)).

Definition device_info_req_close (q : positive) : M unit :=
  r ← look ss_reqs q;
  when_ (rq_active r)
    (update ss_reqs q (fun r => r <| rq_active := false |>);;
     device_info_req_ref q;;
     uv (UvClose (UvReqSocket q) device_info_req_close_cb_fn)).

(** ** Works *)

Definition work_ref (w : positive) : M unit :=
  update ss_works w (fun r => r <| wk_ref_count := wk_ref_count r + 1 |>).

(** [work->cb(work, wa_destroy)]: the branch [wa_destroy] of each callback. *)
Definition device_loop_destroy (d : positive) : M unit :=
  DEVICE_CLOSE d;; device_unref d.
Definition device_open_destroy (d : positive) : M unit :=
  r ← look ss_devices d;
  match dv_timer_data r with
  | Some _ =>
      update ss_devices d (fun r => r <| dv_timer_data := Some (data_device d) |>);;
      uv (UvClose (UvDeviceTimer d) device_timer_close_cb_fn)
  | None => device_unref d
  end.
Definition urb_transfer_destroy (u : positive) : M unit :=
  r ← look ss_urbs u;
  urb_del u;;
  device_unref (ub_dev r).
Definition device_info_req_destroy (q : positive) : M unit :=
  r ← look ss_reqs q;
  (if rq_count r =? 0 then
     match rq_info r with
     | Some i => look ss_infos i;; modify (fun s => s <| ss_infos := delete i (ss_infos s) |>)
     | None => mret tt
     end
   else mret tt);;
  device_info_req_close q;;
  device_info_req_unref q.

Definition work_destroy (w : positive) : M unit :=
  r ← look ss_works w;
  match wk_cb r with
  | device_loop_fn => d ← deref (wk_data r); device_loop_destroy d
  | device_open_cb_fn => d ← deref (wk_data r); device_open_destroy d
  | device_urb_transfer_fn => u ← deref (wk_data r); urb_transfer_destroy u
  | device_info_req_cb_fn => q ← deref (wk_data r); device_info_req_destroy q
  | _ => mret tt
  end.

Definition work_del (w : positive) : M unit :=
  r ← look ss_works w;
  if wk_timer r then
    work_ref w;; uv (UvClose (UvWorkTimer w) timer_close_cb_fn)
  else
    work_destroy w;;
    spin_lock MutexMem;;
    match wk_sync r with
    | Some y => modify (fun s => s <| ss_free_sync_list := y :: ss_free_sync_list s |>)
    | None => mret tt
    end;;
    modify (fun s => s <| ss_free_work_list := w :: ss_free_work_list s |>);;
    spin_unlock MutexMem.

Definition work_unref (w : positive) : M unit :=
  update ss_works w (fun r => r <| wk_ref_count := wk_ref_count r - 1 |>);;
  r ← look ss_works w;
  if wk_ref_count r <? 0 then crash BugOn
  else when_ (wk_ref_count r =? 0) (work_del w).

Definition timer_close_cb (w : positive) : M unit :=
  update ss_works w (fun r => r <| wk_timer := false |>);;
  work_unref w.

(** [uv_cond_signal] wakes a thread that waits; there is none to remember it. *)
Definition cond_signal (y : positive) : M unit :=
  update ss_syncs y (fun c => match c with sync_idle => sync_idle | _ => sync_woken end).

Definition work_done (w : positive) : M unit :=
  r ← look ss_works w;
  when_ (wk_timer r) (uv (UvTimerStop (UvWorkTimer w)));;
  match wk_sync r with
  | Some y =>
      spin_lock (MutexSync y);;
      update ss_works w (fun r => r <| wk_state := ws_done |>);;
      cond_signal y;;
      spin_unlock (MutexSync y)
  | None => update ss_works w (fun r => r <| wk_state := ws_done |>)
  end;;
  r ← look ss_works w;
  when_ (wk_user_cb r) (uv (UvUserCallback (wk_user_data r) (wk_ret r)));;
  work_unref w.

Definition WORK_SET_ERR (w : positive) (e : Z) : M unit :=
  update ss_works w (fun r => if wk_ret r =? 0 then r <| wk_ret := - e |> else r).

(** *** New works *)

Definition pop_work : M positive :=
  free ← gets ss_free_work_list;
  match free with
  | [] => malloc_ 1
  | w :: rest => modify (fun s => s <| ss_free_work_list := rest |>);; mret w
  end.
Definition pop_sync : M positive :=
  free ← gets ss_free_sync_list;
  match free with
  | [] => y ← malloc_ 1; create ss_syncs y sync_idle;; mret y
  | y :: rest => modify (fun s => s <| ss_free_sync_list := rest |>);; mret y
  end.

Definition work_new_ (data : option positive) (cb : work_cb_t) (timeout : Z) (job : option job_t)
    : M (option positive) :=
  if (match job with Some j => negb (jb_cb j) | None => false end) then mret None
  else
    spin_lock MutexMem;;
    work ← pop_work;
    create ss_works work work_zero;;
    (if (match job with Some _ => false | None => true end) && (0 <=? timeout) then
       y ← pop_sync; update ss_works work (fun r => r <| wk_sync := Some y |>)
     else mret tt);;
    spin_unlock MutexMem;;
    update ss_works work (fun r =>
      r <| wk_data := data |> <| wk_cb := cb |> <| wk_state := ws_pending |>);;
    r ← look ss_works work;
    match job with
    | Some j =>
        update ss_works work (fun r => r <| wk_user_cb := jb_cb j |> <| wk_user_data := jb_data j |>);;
        store_var (jb_work j) (Zpos work);;
        work_ref work
    | None => when_ (match wk_sync r with Some _ => true | None => false end) (work_ref work)
    end;;
    update ss_works work (fun r => r <| wk_timeout := timeout |>);;
    work_ref work;;
    spin_lock MutexWork;;
    modify (fun s => s <| ss_work_queue := ss_work_queue s ++ [work] |>);;
    spin_unlock MutexWork;;
    uv UvAsyncSend;;
    mret (Some work).

Definition libusbip_work_abort (work : positive) : M Z :=
  work_new_ (Some work) work_abort_cb_fn (-1) None;; mret 0.
Definition libusbip_work_close (work : positive) : M unit :=
  work_new_ (Some work) work_unref_cb_fn (-1) None;; mret tt.

(** *** Waiting for a work

    [work_wait] blocks its thread in [uv_cond_wait]: [work_wait] is what it does
    before, [work_wait_wake] after it was woken; [None]: it blocks (again). *)
Definition cond_wait (y : positive) : M unit :=
  spin_unlock (MutexSync y);;
  update ss_syncs y (fun _ => sync_waiting).

Definition work_wait (w : positive) : M unit :=
  r ← look ss_works w;
  y ← deref (wk_sync r);
  spin_lock (MutexSync y);;
  cond_wait y.

Definition work_wait_wake (w : positive) : M (option Z) :=
  r ← look ss_works w;
  y ← deref (wk_sync r);
  update ss_syncs y (fun _ => sync_idle);;
  spin_lock (MutexSync y);;
  if decide (wk_state r = ws_done) then
    spin_unlock (MutexSync y);;
    r ← look ss_works w;
    libusbip_work_close w;;
    mret (Some (wk_ret r))
  else cond_wait y;; mret None.

(** The result of the call, or the work its thread now waits for. *)
Definition work_submit_ (data : option positive) (cb : work_cb_t) (timeout : Z) (job : option job_t)
    : M (Z + positive) :=
  work ← work_new_ data cb timeout job;
  match work with
  | None => mret (inl (-1))
  | Some w =>
      r ← look ss_works w;
      match wk_sync r with
      | Some _ => work_wait w;; mret (inr w)
      | None => mret (inl 0)
      end
  end.
End objects.
