(* ===== verification/ClientDev.v ===== *)
(** * The client library: devices, transfers and the event loop

    [userspace/client/client.c], second half.  Each [work_t]'s function is a
    protothread: it runs until it needs the other side, notes where it is
    ([lc_t]) and returns; the event loop calls it again.  A function's branches
    [wa_abort] and [wa_process] are [X_abort] and [X_process] ([wa_destroy] is in
    [Client]), its segments between two yields are definitions; the macros that
    leave the function take what follows as continuation.  What the functions
    return is not used by any caller and left out. *)
From Stdlib Require Import String.
From S2P Require Import Prelude CLib Kernel Wire NetWire Client.
Local Open Scope Z_scope.

(** The protothread a macro works on, and the object whose [read_list] the work
    is put in. *)
Inductive pt_of := pt_device (d : positive) | pt_urb (u : positive) | pt_req (q : positive).
Inductive reads_of := reads_device (d : positive) | reads_req (q : positive).

Section client.
Context `{Env} `{Arch} `{UvErrors}.
Notation M := (M session).

(** ** The macros of protothreads *)

Definition get_pt (p : pt_of) : M lc_t :=
  match p with
  | pt_device d => r ← look ss_devices d; mret (dv_pt r)
  | pt_urb u => r ← look ss_urbs u; mret (ub_pt r)
  | pt_req q => r ← look ss_reqs q; mret (rq_pt r)
  end.
Definition set_pt (p : pt_of) (l : lc_t) : M unit :=
  match p with
  | pt_device d => update ss_devices d (fun r => r <| dv_pt := l |>)
  | pt_urb u => update ss_urbs u (fun r => r <| ub_pt := l |>)
  | pt_req q => update ss_reqs q (fun r => r <| rq_pt := l |>)
  end.
Definition PT_INIT (p : pt_of) : M unit := set_pt p lc_init.

Definition set_read_list (o : reads_of) (f : list positive -> list positive) : M unit :=
  match o with
  | reads_device d => update ss_devices d (fun r => r <| dv_read_list := f (dv_read_list r) |>)
  | reads_req q => update ss_reqs q (fun r => r <| rq_read_list := f (rq_read_list r) |>)
  end.

(** [work->cb(work, wa_abort)]: the branch [wa_abort] of each callback. *)
Definition device_open_abort (w d : positive) : M unit :=
  r ← look ss_devices d;
  if dv_state r =? devs_restarting then
    update ss_devices d (fun r => r <| dv_state := devs_closed |>);;
    uv (UvTimerStop (UvDeviceTimer d));;
    work_done w
  else DEVICE_CLOSE d.
Definition work_abort_action (w : positive) : M unit :=
  r ← look ss_works w;
  match wk_cb r with
  | device_loop_fn => d ← deref (wk_data r); DEVICE_CLOSE d
  | device_open_cb_fn => d ← deref (wk_data r); device_open_abort w d
  | device_urb_transfer_fn => u ← deref (wk_data r); ur ← look ss_urbs u; DEVICE_CLOSE (ub_dev ur)
  | device_info_req_cb_fn => q ← deref (wk_data r); device_info_req_close q
  | _ => mret tt
  end.

Definition WORK_EXIT (w : positive) (p : pt_of) : M unit :=
  PT_INIT p;; work_done w.

Definition WORK_ABORT (w : positive) (p : pt_of) (ret : Z) : M unit :=
  update ss_works w (fun r => r <| wk_ret := ret |>);;
  work_abort_action w;;
  WORK_EXIT w p.

Definition WORK_ASYNC (w : positive) (p : pt_of) (c : uv_call) (next : M unit) : M unit :=
  ret ← uv_ret c;
  if negb (ret =? 0) then code ← uv_ret UvLastError; WORK_ABORT w p code
  else next.

Definition READ_DONE (w : positive) (o : reads_of) : M unit :=
  r ← look ss_works w;
  when_ (wk_reading r)
    (update ss_works w (fun r => r <| wk_reading := false |>);;
     set_read_list o (remove_id w)).

(** [WORK_YIELD] up to its [PT_YIELD], and behind it. *)
Definition WORK_YIELD (p : pt_of) (l : lc_t) : M unit := set_pt p l.
Definition WORK_RESUME (w : positive) (p : pt_of) (o : reads_of) (next : M unit) : M unit :=
  READ_DONE w o;;
  r ← look ss_works w;
  if negb (wk_ret r =? 0) then WORK_EXIT w p
  else if status_of (wk_nread r) <? 0 then code ← uv_ret UvLastError; WORK_ABORT w p code
  else next.

Definition READ_PREPARE (w : positive) (o : reads_of) (b : place) (size : Z) : M unit :=
  r ← look ss_works w;
  when_ (negb (wk_reading r))
    (set_read_list o (cons w);;
     update ss_works w (fun r => r <| wk_reading := true |>));;
  update ss_works w (fun r => r <| wk_nread := 0 |> <| wk_buf := mkUvBuf b (u64 size) |>).

Definition WORK_BEGIN (w : positive) (p : pt_of) (next : M unit) : M unit :=
  r ← look ss_works w;
  if negb (bool_decide (wk_state r = ws_busy)) || negb (wk_ret r =? 0) then
    WORK_SET_ERR w UV_ECANCELED;; WORK_EXIT w p
  else next.

(** The [switch] of the protothread finds no such label. *)
Definition PT_END (p : pt_of) : M unit := PT_INIT p.

(** ** Headers in memory

    [unpack_xxx(&dev->recv.header...)] and [pack_xxx] work in place. *)
Definition modify_recv_header (d : positive) (f : usbip_header -> usbip_header) : M unit :=
  update ss_devices d (fun r =>
    r <| dv_recv_header := header_to_mem (f (header_of_mem (dv_recv_header r))) |>).
Definition recv_header (d : positive) : M usbip_header :=
  r ← look ss_devices d; mret (header_of_mem (dv_recv_header r)).

Definition unpack_usbip_header_basic (h : usbip_header) : usbip_header :=
  h <| h_base := correct_endian_basic (h_base h) false |>.
Definition unpack_usbip_header_ret_submit (h : usbip_header) : usbip_header :=
  h <| h_u := put_ret_submit (correct_endian_ret_submit (u_ret_submit (h_u h)) false) (h_u h) |>.
Definition pack_usbip_header_cmd_submit (h : usbip_header) : usbip_header :=
  h <| h_u := put_cmd_submit (correct_endian_cmd_submit (u_cmd_submit (h_u h)) true) (h_u h) |>.
Definition pack_usbip_header_basic (h : usbip_header) : usbip_header :=
  h <| h_base := correct_endian_basic (h_base h) true |>.

(** ** The device's receiving loop *)

(** The first URB of the list that waits for this number. *)
Fixpoint find_urb_loop (urbs : list positive) (num : Z) : M (option positive) :=
  match urbs with
  | [] => mret None
  | u :: urbs' =>
      r ← look ss_urbs u;
      if (match ub_work r with None => true | Some _ => false end) || negb (ub_seqnum r =? num)
      then find_urb_loop urbs' num
      else mret (Some u)
  end.
Definition device_find_urb (d : positive) : M bool :=
  r ← look ss_devices d;
  found ← find_urb_loop (dv_urb_list r) (seqnum (h_base (header_of_mem (dv_recv_header r))));
  match found with
  | Some u => update ss_devices d (fun r => r <| dv_recv_urb := Some u |>);; mret true
  | None => mret false
  end.

(** The head of [while(1)]. *)
Definition device_loop_next (w d : positive) : M unit :=
  READ_PREPARE w (reads_device d) (place_recv_header d) sizeof_header;;
  WORK_YIELD (pt_device d) lc_header.

(** The head of [while(dev->recv.header.u.ret_submit.actual_length)]. *)
Definition device_loop_drop (w d : positive) : M unit :=
  h ← recv_header d;
  let actual_length := rs_actual_length (u_ret_submit (h_u h)) in
  if negb (actual_length =? 0) then
    (if u64 actual_length <? 65536 then
       READ_PREPARE w (reads_device d) (place_recv_buf d) actual_length
     else READ_PREPARE w (reads_device d) (place_recv_buf d) 65536);;
    WORK_YIELD (pt_device d) lc_dropped
  else device_loop_next w d.

(** [dev->recv.urb->ret] is written and its work is finished. *)
Definition device_loop_complete (w d : positive) (wrote : bool) : M unit :=
  r ← look ss_devices d;
  u ← deref (dv_recv_urb r);
  ur ← look ss_urbs u;
  (if wrote then
     ret ← deref (ub_ret ur);
     store_var ret (rs_actual_length (u_ret_submit (h_u (header_of_mem (dv_recv_header r)))))
   else mret tt);;
  uw ← deref (ub_work ur);
  work_done uw;;
  update ss_devices d (fun r => r <| dv_recv_urb := None |>);;
  device_loop_next w d.

(** A header has arrived. *)
Definition device_loop_header (w d : positive) : M unit :=
  modify_recv_header d unpack_usbip_header_basic;;
  h ← recv_header d;
  if command (h_base h) =? USBIP_RET_SUBMIT then
    modify_recv_header d unpack_usbip_header_ret_submit;;
    h ← recv_header d;
    let ret_submit := u_ret_submit (h_u h) in
    found ← device_find_urb d;
    if negb found then
      if (rs_status ret_submit =? 0) && (direction (h_base h) =? USBIP_DIR_IN)
      then device_loop_drop w d
      else device_loop_next w d
    else
      r ← look ss_devices d;
      u ← deref (dv_recv_urb r);
      update ss_urbs u (fun ur =>
        ur <| ub_header := (ub_header ur) <| h_u := put_ret_submit ret_submit (h_u (ub_header ur)) |> |>);;
      update ss_devices d (fun r => r <| dv_urb_list := remove_id u (dv_urb_list r) |>);;
      update ss_works w (fun r => r <| wk_nread := put_status (rs_status ret_submit) (wk_nread r) |>);;
      if negb (rs_status ret_submit =? 0) then
        WORK_SET_ERR w UV_EIO;;
        device_loop_complete w d false
      else
        ur ← look ss_urbs u;
        if ub_direction ur =? USBIP_DIR_IN then
          READ_PREPARE w (reads_device d) (buf_base (ub_buf ur)) (rs_actual_length ret_submit);;
          WORK_YIELD (pt_device d) lc_data
        else device_loop_complete w d true
  else WORK_ABORT w (pt_device d) UV_EINVAL.

(** A piece of a reply nobody waits for has arrived. *)
Definition device_loop_dropped (w d : positive) : M unit :=
  r ← look ss_works w;
  modify_recv_header d (fun h =>
    let c := u_ret_submit (h_u h) in
    h <| h_u := put_ret_submit (c <| rs_actual_length := s32 (rs_actual_length c - wk_nread r) |>)
                               (h_u h) |>);;
  device_loop_drop w d.

Definition device_loop_process (w d : positive) : M unit :=
  let p := pt_device d in
  l ← get_pt p;
  match l with
  | lc_init =>
      WORK_BEGIN w p (
        update ss_devices d (fun r => r <| dv_socket_data := Some (data_work w) |>);;
        WORK_ASYNC w p (UvReadStart (UvSocket d)) (device_loop_next w d))
  | lc_header => WORK_RESUME w p (reads_device d) (device_loop_header w d)
  | lc_dropped => WORK_RESUME w p (reads_device d) (device_loop_dropped w d)
  | lc_data => WORK_RESUME w p (reads_device d) (device_loop_complete w d true)
  | _ => PT_END p
  end.

(** ** Opening a device *)

(** Set [*hdr] to a request and pack it: its bytes. *)
Definition request_bytes (code : Z) : list Z :=
  op_common_to_mem (PACK_OP_COMMON true (mkOp USBIP_VERSION_NUM code 0)).

(** [CHECK_OP_REPLY] on the header received in [mem]; the unpacked header. *)
Definition CHECK_OP_REPLY (w : positive) (p : pt_of) (mem : list Z) (code : Z)
    (next : op_common -> M unit) : M unit :=
  let op := PACK_OP_COMMON false (op_common_of_mem mem) in
  if negb (op_version op =? USBIP_VERSION_NUM) then WORK_ABORT w p UV_EINVAL
  else if negb (op_code op =? code) then WORK_ABORT w p UV_EINVAL
  else next op.

Definition device_open_begin (w d : positive) : M unit :=
  let p := pt_device d in
  ret ← uv_ret (UvTcpInit (UvSocket d));
  if ret <? 0 then
    code ← uv_ret UvLastError;
    WORK_SET_ERR w code;; WORK_EXIT w p
  else
    update ss_devices d (fun r =>
      r <| dv_socket_data := Some (data_work w) |> <| dv_state := devs_opening |>
        <| dv_connect_data := Some w |>);;
    r ← look ss_devices d;
    WORK_ASYNC w p (UvTcpConnect (UvDevConnect d) (UvSocket d) (dv_addr r) (dv_port r))
      (WORK_YIELD p lc_connected).

Definition device_open_connected (w d : positive) : M unit :=
  let p := pt_device d in
  let op_header := request_bytes OP_REQ_IMPORT in
  update ss_devices d (fun r => r <| dv_write_data := Some w |> <| dv_op_header := op_header |>);;
  r ← look ss_devices d;
  WORK_ASYNC w p (UvReadStart (UvSocket d))
    (WORK_ASYNC w p (UvWrite (UvDevWrite d) (UvSocket d) (op_header ++ dv_req_import r))
       (WORK_YIELD p lc_written)).

Definition device_open_written (w d : positive) : M unit :=
  READ_PREPARE w (reads_device d) (place_op_header d) 8;;
  WORK_YIELD (pt_device d) lc_header.

Definition device_open_header (w d : positive) : M unit :=
  let p := pt_device d in
  r ← look ss_devices d;
  CHECK_OP_REPLY w p (dv_op_header r) OP_REP_IMPORT (fun op =>
    update ss_devices d (fun r => r <| dv_op_header := op_common_to_mem op |>);;
    if negb (op_status op =? ST_OK) then
      update ss_devices d (fun r => r <| dv_retry := dv_retry r + 1 |>);;
      r ← look ss_devices d;
      if dv_max_retry r <? dv_retry r then WORK_ABORT w p UV_EBUSY
      else if negb (dv_state r =? devs_opening) then crash BugOn
      else
        update ss_devices d (fun r => r <| dv_state := devs_closing |>);;
        uv (UvClose (UvSocket d) close_cb_fn);;
        WORK_YIELD p lc_restart
    else
      READ_PREPARE w (reads_device d) (place_rpl_import d) 312;;
      WORK_YIELD p lc_reply).

Definition device_open_restart (w d : positive) : M unit :=
  update ss_devices d (fun r => r <| dv_state := devs_restarting |>);;
  r ← look ss_devices d;
  match dv_timer_data r with
  | None =>
      uv (UvTimerInit (UvDeviceTimer d));;
      update ss_devices d (fun r => r <| dv_timer_data := Some (data_work w) |>)
  | Some _ => mret tt
  end;;
  uv (UvTimerStart (UvDeviceTimer d) timer_cb_fn 500);;
  PT_INIT (pt_device d).

Definition device_open_reply (w d : positive) : M unit :=
  let p := pt_device d in
  r ← look ss_devices d;
  let rpl := PACK_OP_IMPORT_REPLY false (mkImportRep (usb_device_of_mem (dv_rpl_import r))) in
  update ss_devices d (fun r => r <| dv_rpl_import := usb_device_to_mem (rep_udev rpl) |>);;
  if negb (strncmp_eq 32 (uu_busid (rep_udev rpl)) (dv_req_import r)) then
    WORK_ABORT w p UV_EINVAL
  else
    update ss_devices d (fun r => r <| dv_socket_data := None |>);;
    uv (UvReadStop (UvSocket d));;
    device_ref d;;
    work_new_ (Some d) device_loop_fn (-1) None;;
    update ss_works w (fun r => r <| wk_ret := 0 |>);;
    store_var (dv_pdev r) (Zpos d);;
    device_ref d;;
    WORK_EXIT w p.

Definition device_open_process (w d : positive) : M unit :=
  let p := pt_device d in let o := reads_device d in
  l ← get_pt p;
  match l with
  | lc_init => WORK_BEGIN w p (device_open_begin w d)
  | lc_connected => WORK_RESUME w p o (device_open_connected w d)
  | lc_written => WORK_RESUME w p o (device_open_written w d)
  | lc_header => WORK_RESUME w p o (device_open_header w d)
  | lc_restart => WORK_RESUME w p o (device_open_restart w d)
  | lc_reply => WORK_RESUME w p o (device_open_reply w d)
  | _ => PT_END p
  end.

(** ** A transfer *)

Definition device_urb_begin (w u : positive) : M unit :=
  let p := pt_urb u in
  ur ← look ss_urbs u;
  let d := ub_dev ur in
  r ← look ss_devices d;
  update ss_devices d (fun r => r <| dv_seqnum := u32 (dv_seqnum r + 1) |>);;
  update ss_urbs u (fun ur =>
    ur <| ub_seqnum := dv_seqnum r |> <| ub_direction := direction (h_base (ub_header ur)) |>
       <| ub_work := Some w |>
       <| ub_header := (ub_header ur) <| h_base :=
            (h_base (ub_header ur)) <| seqnum := dv_seqnum r |> <| devid := dv_devid r |> |> |>);;
  ur ← look ss_urbs u;
  if negb (command (h_base (ub_header ur)) =? USBIP_CMD_SUBMIT) then WORK_ABORT w p UV_EINVAL
  else
    let h := ub_header ur in
    let h := h <| h_u := put_cmd_submit
               ((u_cmd_submit (h_u h)) <| cs_transfer_buffer_length := s32 (buf_len (ub_buf ur)) |>)
               (h_u h) |> in
    let h := pack_usbip_header_basic (pack_usbip_header_cmd_submit h) in
    update ss_urbs u (fun ur => ur <| ub_header := h |>);;
    data ← (if negb (buf_len (ub_buf ur) =? 0) && (ub_direction ur =? USBIP_DIR_OUT)
            then load_buf (ub_buf ur) else mret []);
    update ss_urbs u (fun ur => ur <| ub_write_data := Some w |>);;
    WORK_ASYNC w p (UvWrite (UvUrbWrite u) (UvSocket d) (header_to_mem h ++ data))
      (WORK_YIELD p lc_written).

Definition device_urb_written (w u : positive) : M unit :=
  ur ← look ss_urbs u;
  update ss_devices (ub_dev ur) (fun r => r <| dv_urb_list := dv_urb_list r ++ [u] |>).

Definition device_urb_process (w u : positive) : M unit :=
  let p := pt_urb u in
  l ← get_pt p;
  ur ← look ss_urbs u;
  match l with
  | lc_init => WORK_BEGIN w p (device_urb_begin w u)
  | lc_written => WORK_RESUME w p (reads_device (ub_dev ur)) (device_urb_written w u)
  | _ => PT_END p
  end.

(** ** The list of a host's devices *)

Definition device_info_begin (w q : positive) : M unit :=
  let p := pt_req q in
  ret ← uv_ret (UvTcpInit (UvReqSocket q));
  if ret <? 0 then
    r ← look ss_works w;
    WORK_SET_ERR w (wk_ret r);; WORK_EXIT w p
  else
    update ss_reqs q (fun r =>
      r <| rq_active := true |> <| rq_socket_data := Some (data_work w) |>
        <| rq_connect_data := Some w |>);;
    r ← look ss_reqs q;
    WORK_ASYNC w p (UvTcpConnect (UvReqConnect q) (UvReqSocket q) (rq_addr r) (rq_port r))
      (WORK_YIELD p lc_connected).

Definition device_info_connected (w q : positive) : M unit :=
  let p := pt_req q in
  let header := request_bytes OP_REQ_DEVLIST in
  update ss_reqs q (fun r => r <| rq_write_data := Some w |> <| rq_header := header |>);;
  WORK_ASYNC w p (UvWrite (UvReqWrite q) (UvReqSocket q) header) (WORK_YIELD p lc_written).

Definition device_info_written (w q : positive) : M unit :=
  READ_PREPARE w (reads_req q) (place_req_header q) 8;;
  uv_ret (UvReadStart (UvReqSocket q));;
  WORK_YIELD (pt_req q) lc_header.

Definition device_info_header (w q : positive) : M unit :=
  let p := pt_req q in
  r ← look ss_reqs q;
  CHECK_OP_REPLY w p (rq_header r) OP_REP_DEVLIST (fun op =>
    update ss_reqs q (fun r => r <| rq_header := op_common_to_mem op |>);;
    if negb (op_status op =? ST_OK) then WORK_ABORT w p UV_EINVAL
    else
      READ_PREPARE w (reads_req q) (place_req_reply q) 4;;
      WORK_YIELD p lc_reply).

(** The head of the loop over devices, and what follows it. *)
Definition device_info_next (w q : positive) : M unit :=
  r ← look ss_reqs q;
  if rq_count r <? word_of (rq_reply r) then
    READ_PREPARE w (reads_req q) (place_req_udev q) 312;;
    WORK_YIELD (pt_req q) lc_udev
  else
    device_info_req_close q;;
    work_done w.

Definition device_info_reply (w q : positive) : M unit :=
  r ← look ss_reqs q;
  let reply := PACK_OP_DEVLIST_REPLY false (mkDevlistRep (word_of (rq_reply r))) in
  info ← malloc_ 1;
  create ss_infos info (replicate (Z.to_nat (rep_ndev reply)) device_info_zero);;
  update ss_reqs q (fun r => r <| rq_reply := word_bytes (rep_ndev reply) |> <| rq_info := Some info |>);;
  store_var (rq_pinfo r) (Zpos info);;
  device_info_next w q.

(** [info = &req->info[req->count]] and a write through it. *)
Definition update_info (q : positive) (f : device_info_t -> device_info_t) : M unit :=
  r ← look ss_reqs q;
  i ← deref (rq_info r);
  infos ← look ss_infos i;
  x ← of_option OutOfBounds (infos !! Z.to_nat (rq_count r));
  create ss_infos i (<[Z.to_nat (rq_count r) := f x]> infos).
Definition look_info (q : positive) : M device_info_t :=
  r ← look ss_reqs q;
  i ← deref (rq_info r);
  infos ← look ss_infos i;
  of_option OutOfBounds (infos !! Z.to_nat (rq_count r)).

(** The head of the loop over interfaces, and what follows it: the increments of
    the loop over devices. *)
Definition device_info_next_intf (w q : positive) : M unit :=
  info ← look_info q;
  r ← look ss_reqs q;
  if di_bNumInterfaces info <? uu_bNumInterfaces (usb_device_of_mem (rq_udev r)) then
    READ_PREPARE w (reads_req q) (place_req_intf q) 4;;
    WORK_YIELD (pt_req q) lc_intf
  else
    update ss_reqs q (fun r => r <| rq_count := u32 (rq_count r + 1) |>);;
    r ← look ss_reqs q;
    store_var (rq_pcount r) (rq_count r);;
    device_info_next w q.

Definition device_info_udev (w q : positive) : M unit :=
  r ← look ss_reqs q;
  let udev := usbip_net_pack_usb_device false (usb_device_of_mem (rq_udev r)) in
  update ss_reqs q (fun r => r <| rq_udev := usb_device_to_mem udev |>);;
  update_info q (fun info =>
    info <| di_busid := strncpy 31 (uu_busid udev) ++ drop 31 (di_busid info) |>
         <| di_busnum := uu_busnum udev |> <| di_devnum := uu_devnum udev |>
         <| di_speed := uu_speed udev |> <| di_idVendor := uu_idVendor udev |>
         <| di_idProduct := uu_idProduct udev |> <| di_bcdDevice := uu_bcdDevice udev |>
         <| di_bDeviceClass := uu_bDeviceClass udev |>
         <| di_bDeviceSubClass := uu_bDeviceSubClass udev |>
         <| di_bDeviceProtocol := uu_bDeviceProtocol udev |>
         <| di_bConfigurationValue := uu_bConfigurationValue udev |>
         <| di_bNumConfigurations := uu_bNumConfigurations udev |>);;
  intfs ← malloc_ 1;
  create ss_intfs intfs (replicate (Z.to_nat (uu_bNumInterfaces udev)) device_interface_zero);;
  update_info q (fun info => info <| di_interfaces := Some intfs |>);;
  device_info_next_intf w q.

Definition device_info_intf (w q : positive) : M unit :=
  r ← look ss_reqs q;
  let intf := usbip_net_pack_usb_interface false (usb_interface_of_mem (rq_intf r)) in
  info ← look_info q;
  i ← deref (di_interfaces info);
  intfs ← look ss_intfs i;
  of_option OutOfBounds (intfs !! Z.to_nat (di_bNumInterfaces info));;
  create ss_intfs i
    (<[Z.to_nat (di_bNumInterfaces info) :=
         mkDevIntf (bInterfaceClass intf) (bInterfaceSubClass intf) (bInterfaceProtocol intf)]> intfs);;
  update_info q (fun info => info <| di_bNumInterfaces := u8 (di_bNumInterfaces info + 1) |>);;
  device_info_next_intf w q.

Definition device_info_req_process (w q : positive) : M unit :=
  let p := pt_req q in let o := reads_req q in
  l ← get_pt p;
  match l with
  | lc_init => WORK_BEGIN w p (device_info_begin w q)
  | lc_connected => WORK_RESUME w p o (device_info_connected w q)
  | lc_written => WORK_RESUME w p o (device_info_written w q)
  | lc_header => WORK_RESUME w p o (device_info_header w q)
  | lc_reply => WORK_RESUME w p o (device_info_reply w q)
  | lc_udev => WORK_RESUME w p o (device_info_udev w q)
  | lc_intf => WORK_RESUME w p o (device_info_intf w q)
  | _ => PT_END p
  end.

(** ** The other works, and the event loop *)

Definition work_abort_process (w target : positive) : M unit :=
  WORK_SET_ERR target UV_ECANCELED;;
  r ← look ss_works target;
  when_ (bool_decide (wk_state r = ws_busy)) (work_abort_action target);;
  work_done w.
Definition work_unref_process (w target : positive) : M unit :=
  work_unref target;; work_done w.
Definition session_start_process : M unit :=
  now ← uv_ret UvNow; modify (fun s => s <| ss_start_time := now |>).
Definition device_close_process (w d : positive) : M unit :=
  DEVICE_CLOSE d;; work_done w;; device_unref d.

(** [work->cb(work, wa_process)] *)
Definition work_process (w : positive) : M unit :=
  r ← look ss_works w;
  match wk_cb r with
  | work_abort_cb_fn => t ← deref (wk_data r); work_abort_process w t
  | work_unref_cb_fn => t ← deref (wk_data r); work_unref_process w t
  | session_start_cb_fn => session_start_process
  | device_loop_fn => d ← deref (wk_data r); device_loop_process w d
  | device_open_cb_fn => d ← deref (wk_data r); device_open_process w d
  | device_close_cb_fn => d ← deref (wk_data r); device_close_process w d
  | device_urb_transfer_fn => u ← deref (wk_data r); device_urb_process w u
  | device_info_req_cb_fn => q ← deref (wk_data r); device_info_req_process w q
  end.

(** One round of [session_notify]: it takes the first work of the queue. *)
Definition session_notify_one : M bool :=
  spin_lock MutexWork;;
  q ← gets ss_work_queue;
  match q with
  | [] => spin_unlock MutexWork;; mret false
  | w :: rest =>
      modify (fun s => s <| ss_work_queue := rest |>);;
      spin_unlock MutexWork;;
      r ← look ss_works w;
      (if decide (wk_state r = ws_pending) then
         update ss_works w (fun r => r <| wk_state := ws_busy |>);;
         when_ (0 <? wk_timeout r)
           (uv (UvTimerInit (UvWorkTimer w));;
            update ss_works w (fun r => r <| wk_timer := true |>);;
            uv (UvTimerStart (UvWorkTimer w) timedout_cb_fn (wk_timeout r)))
       else mret tt);;
      work_process w;;
      mret true
  end.
Fixpoint session_notify (fuel : nat) : M unit :=
  match fuel with
  | O => crash OutOfFuel
  | S fuel' => more ← session_notify_one; if more : bool then session_notify fuel' else mret tt
  end.

(** *** What the event loop calls back *)

(** [handle->data] *)
Definition handle_data (h : uv_handle) : M (option uv_data) :=
  match h with
  | UvSocket d => r ← look ss_devices d; mret (dv_socket_data r)
  | UvReqSocket q => r ← look ss_reqs q; mret (rq_socket_data r)
  | UvWorkTimer w => r ← look ss_works w; mret (if wk_timer r then Some (data_work w) else None)
  | UvDeviceTimer d => r ← look ss_devices d; mret (dv_timer_data r)
  end.
Definition data_is_work (o : option uv_data) : M positive :=
  match o with
  | Some (data_work w) => mret w
  | _ => crash NullDeref
  end.
Definition request_data (r : uv_req) : M (option positive) :=
  match r with
  | UvDevConnect d => r ← look ss_devices d; mret (dv_connect_data r)
  | UvDevWrite d => r ← look ss_devices d; mret (dv_write_data r)
  | UvUrbWrite u => r ← look ss_urbs u; mret (ub_write_data r)
  | UvReqConnect q => r ← look ss_reqs q; mret (rq_connect_data r)
  | UvReqWrite q => r ← look ss_reqs q; mret (rq_write_data r)
  end.

Definition close_cb (h : uv_handle) : M unit :=
  data ← handle_data h; w ← data_is_work data; work_process w.

Definition timer_cb (h : uv_handle) (status : Z) : M unit :=
  data ← handle_data h; w ← data_is_work data;
  when_ (status =? 0) (work_process w).

(** The buffer offered: a place, an offset into it and a length. *)
Definition alloc_cb (h : uv_handle) : M (place * Z * Z) :=
  data ← handle_data h; w ← data_is_work data;
  r ← look ss_works w;
  mret (buf_base (wk_buf r), wk_nread r, u64 (buf_len (wk_buf r) - wk_nread r)).

Definition read_cb (h : uv_handle) (nread len : Z) : M unit :=
  data ← handle_data h; w ← data_is_work data;
  if nread <? 0 then
    update ss_works w (fun r => r <| wk_nread := nread |>);; work_process w
  else
    update ss_works w (fun r => r <| wk_nread := s64 (wk_nread r + nread) |>);;
    if u64 nread <? len then mret tt else work_process w.

(** Bytes arrive: the loop asks for a buffer, fills it and reports. *)
Definition uv_read (h : uv_handle) (data : list Z) : M unit :=
  '(b, off, len) ← alloc_cb h;
  store_place b off data;;
  read_cb h (Z.of_nat (length data)) len.

Definition write_cb (req : uv_req) (status : Z) : M unit :=
  data ← request_data req; w ← deref data;
  update ss_works w (fun r => r <| wk_nread := put_status status (wk_nread r) |>);;
  work_process w.
Definition connect_cb (req : uv_req) (status : Z) : M unit :=
  data ← request_data req; w ← deref data;
  update ss_works w (fun r => r <| wk_nread := put_status status (wk_nread r) |>);;
  work_process w.

Definition timedout_cb (w : positive) (status : Z) : M unit :=
  when_ (status =? 0) (WORK_SET_ERR w UV_ETIMEDOUT;; work_abort_action w).

Definition device_timer_close_cb (h : uv_handle) : M unit :=
  data ← handle_data h;
  match data with
  | Some (data_device d) => device_unref d
  | _ => crash NullDeref
  end.

(** Cancel the works of a read list: each must be reading. *)
Fixpoint cancel_reads (works : list positive) : M unit :=
  match works with
  | [] => mret tt
  | w :: works' =>
      r ← look ss_works w;
      if negb (wk_reading r) then crash BugOn
      else
        WORK_SET_ERR w UV_ECANCELED;;
        update ss_works w (fun r => r <| wk_nread := put_status (-1) (wk_nread r) |>);;
        work_process w;;
        cancel_reads works'
  end.
Fixpoint cancel_urbs (d : positive) (urbs : list positive) : M unit :=
  match urbs with
  | [] => mret tt
  | u :: urbs' =>
      update ss_devices d (fun r => r <| dv_urb_list := remove_id u (dv_urb_list r) |>);;
      ur ← look ss_urbs u;
      w ← deref (ub_work ur);
      WORK_SET_ERR w UV_ECANCELED;;
      work_done w;;
      cancel_urbs d urbs'
  end.

Definition socket_close_cb (d : positive) : M unit :=
  update ss_devices d (fun r => r <| dv_state := devs_closed |>);;
  r ← look ss_devices d;
  cancel_urbs d (dv_urb_list r);;
  r ← look ss_devices d;
  cancel_reads (dv_read_list r);;
  device_unref d.

Definition device_info_req_close_cb (q : positive) : M unit :=
  r ← look ss_reqs q;
  cancel_reads (rq_read_list r);;
  device_info_req_unref q.
End client.
