(* ===== verification/ClientApi.v ===== *)
(** * The client library: its interface

    [userspace/client/client.c], the functions declared in libusbip-client.h.
    All but the host lists queue a work and, without a callback, wait for it: the
    result is then the work their thread waits for ([work_submit_]). *)
From Stdlib Require Import String.
From S2P Require Import Prelude CLib Kernel Wire NetWire Client ClientDev.
Local Open Scope Z_scope.

Section api.
Context `{Env} `{Arch} `{UvErrors}.
Notation M := (M session).

Definition place_of (p : option ptr) : place :=
  match p with Some p => place_user p | None => place_null end.

(** ** Devices *)

(** The devices of a block, the last first. *)
Definition block_devices (b : positive) : list positive :=
  reverse ((fun i => (b + Pos.of_nat i - 1)%positive) <$> seq 1 (Z.to_nat DEVICE_BLOCK_SIZE)).

Definition pop_device : M positive :=
  free ← gets ss_free_device_list;
  (match free with
   | [] =>
       block ← malloc_ DEVICE_BLOCK_SIZE;
       modify (fun s => s <| ss_device_blocks := block :: ss_device_blocks s |>
                          <| ss_free_device_list := block_devices block |>)
   | _ => mret tt
   end);;
  free ← gets ss_free_device_list;
  match free with
  | d :: rest => modify (fun s => s <| ss_free_device_list := rest |>);; mret d
  | [] => crash NullDeref
  end.

Definition libusbip_device_open (pdev : positive) (addr : list Z) (port : Z) (busid : list Z)
    (busnum devnum retry timeout : Z) (job : option job_t) : M (Z + positive) :=
  spin_lock MutexMem;;
  dev ← pop_device;
  spin_unlock MutexMem;;
  let port := if port =? 0 then USBIP_PORT else port in
  create ss_devices dev (device_zero
    <| dv_req_import := strncpy 31 busid ++ [0] |> <| dv_max_retry := retry |>
    <| dv_devid := Z.lor (u32 (Z.shiftl busnum 16)) devnum |>
    <| dv_addr := addr |> <| dv_port := port |> <| dv_pdev := pdev |>);;
  device_ref dev;;
  work_submit_ (Some dev) device_open_cb_fn timeout job.

Definition libusbip_device_close (dev : positive) : M (Z + positive) :=
  work_submit_ (Some dev) device_close_cb_fn 0 None.

(** Is this the address of a device? *)
Definition libusbip_device_cast (dev : positive) : M (option positive) :=
  spin_lock MutexMem;;
  blocks ← gets ss_device_blocks;
  spin_unlock MutexMem;;
  mret (if existsb (fun b => (b <=? dev)%positive && (dev <? b + 32)%positive) blocks
        then Some dev else None).

(** ** Transfers *)

Definition urb_new (dev : positive) : M positive :=
  spin_lock MutexMem;;
  free ← gets ss_free_urb_list;
  u ← match free with
      | [] => malloc_ 1
      | u :: rest => modify (fun s => s <| ss_free_urb_list := rest |>);; mret u
      end;
  spin_unlock MutexMem;;
  create ss_urbs u (urb_zero_t <| ub_dev := dev |>);;
  mret u.

Definition libusbip_control_msg (dev : positive) (requesttype request value index : Z)
    (bytes : option ptr) (size : Z) (ret : positive) (timeout : Z) (job : option job_t)
    : M (Z + positive) :=
  u ← urb_new dev;
  let dir := if has_bits requesttype 128 then USBIP_DIR_IN else USBIP_DIR_OUT in
  let setup := [u8 requesttype; u8 request] ++ le_bytes 2 (u16 value) ++ le_bytes 2 (u16 index) ++
               le_bytes 2 (u16 size) in
  update ss_urbs u (fun ur =>
    ur <| ub_header := mkHeader (mkBasic USBIP_CMD_SUBMIT 0 0 dir 0)
                         ((h_u (ub_header ur)) <| w_setup := setup |>) |>
       <| ub_buf := mkUvBuf (place_of bytes) (u64 size) |> <| ub_ret := Some ret |>);;
  store_var ret (-1);;
  device_ref dev;;
  work_submit_ (Some u) device_urb_transfer_fn timeout job.

Definition libusbip_urb_transfer (dev : positive) (ep : Z) (data : option ptr) (size : Z)
    (ret : positive) (timeout : Z) (job : option job_t) : M (Z + positive) :=
  u ← urb_new dev;
  let dir := if has_bits ep 128 then USBIP_DIR_IN else USBIP_DIR_OUT in
  update ss_urbs u (fun ur =>
    ur <| ub_header := mkHeader (mkBasic USBIP_CMD_SUBMIT 0 0 dir (Z.land ep 255)) (h_u (ub_header ur)) |>
       <| ub_buf := mkUvBuf (place_of data) (u64 size) |> <| ub_ret := Some ret |>);;
  store_var ret (-1);;
  device_ref dev;;
  work_submit_ (Some u) device_urb_transfer_fn timeout job.

(** ** Hosts *)

Fixpoint add_hosts_loop (hosts : list host_t) : M unit :=
  match hosts with
  | [] => mret tt
  | h :: hosts' =>
      malloc_ 1;;
      modify (fun s => s <| ss_host_list := h :: ss_host_list s |>);;
      add_hosts_loop hosts'
  end.
Definition libusbip_add_hosts (hosts : list host_t) : M unit :=
  spin_lock MutexMem;;
  modify (fun s => s <| ss_host_count := ss_host_count s + Z.of_nat (length hosts) |>);;
  add_hosts_loop hosts;;
  spin_unlock MutexMem.

Definition same_host (a b : host_t) : bool :=
  (ho_port a =? ho_port b) && strncmp_eq 64 (ho_addr a) (ho_addr b).
Fixpoint remove_first (h : host_t) (l : list host_t) : option (list host_t) :=
  match l with
  | [] => None
  | x :: l' => if same_host h x then Some l' else cons x <$> remove_first h l'
  end.
Fixpoint remove_hosts_loop (hosts : list host_t) (ret : Z) : M Z :=
  match hosts with
  | [] => mret ret
  | h :: hosts' =>
      l ← gets ss_host_list;
      match remove_first h l with
      | Some l' =>
          modify (fun s => s <| ss_host_list := l' |> <| ss_host_count := ss_host_count s - 1 |>);;
          remove_hosts_loop hosts' 0
      | None => remove_hosts_loop hosts' ret
      end
  end.
Definition libusbip_remove_hosts (hosts : list host_t) : M Z :=
  spin_lock MutexMem;;
  ret ← remove_hosts_loop hosts (-1);
  spin_unlock MutexMem;;
  mret ret.

(** The array has room for [host_count] hosts. *)
Definition libusbip_find_hosts (phosts count : positive) (job : option job_t) : M Z :=
  match job with Some j => store_var (jb_work j) 0 | None => mret tt end;;
  spin_lock MutexMem;;
  hosts ← malloc_ 1;
  l ← gets ss_host_list;
  n ← gets ss_host_count;
  (if Z.of_nat (length l) <=? n then mret tt else crash OutOfBounds);;
  create ss_hostarrays hosts l;;
  spin_unlock MutexMem;;
  store_var phosts (Zpos hosts);;
  store_var count (Z.of_nat (length l));;
  mret 0.
Definition libusbip_free_hosts (hosts : positive) : M unit :=
  a ← gets (fun s => ss_hostarrays s !! hosts);
  of_option BadFree a;;
  modify (fun s => s <| ss_hostarrays := delete hosts (ss_hostarrays s) |>).

Definition libusbip_get_devices_info (host : host_t) (info count : option positive) (timeout : Z)
    (job : option job_t) : M (Z + positive) :=
  match info, count with
  | Some pinfo, Some pcount =>
      req ← malloc_ 1;
      let port := if ho_port host =? 0 then USBIP_PORT else ho_port host in
      create ss_reqs req (req_zero
        <| rq_addr := ho_addr host |> <| rq_port := port |>
        <| rq_pinfo := pinfo |> <| rq_pcount := pcount |>);;
      device_info_req_ref req;;
      work_submit_ (Some req) device_info_req_cb_fn timeout job
  | _, _ => mret (inl (-1))
  end.

(** [free(info->interfaces)], [count] times, then [free(info)]. *)
Definition free_interfaces (intfs : option positive) : M unit :=
  match intfs with
  | None => mret tt
  | Some i =>
      a ← gets (fun s => ss_intfs s !! i);
      of_option BadFree a;;
      modify (fun s => s <| ss_intfs := delete i (ss_intfs s) |>)
  end.
Fixpoint free_info_loop (count : nat) (info : positive) : M unit :=
  match count with
  | O => mret tt
  | S count' =>
      l ← look ss_infos info;
      x ← of_option OutOfBounds (head l);
      free_interfaces (di_interfaces x);;
      free_info_loop count' info
  end.
Definition libusbip_free_devices_info (info : positive) (count : Z) : M unit :=
  free_info_loop (Z.to_nat count) info;;
  a ← gets (fun s => ss_infos s !! info);
  of_option BadFree a;;
  modify (fun s => s <| ss_infos := delete info (ss_infos s) |>).

(** ** The session *)

Definition libusbip_set_debug (level : Z) : M unit :=
  modify (fun s => s <| ss_log_level := level |>).

Definition libusbip_exit : M unit :=
  active ← gets ss_active;
  when_ active
    (uv UvStop;; uv UvThreadJoin;; modify (fun s => s <| ss_active := false |>));;
  loop ← gets ss_loop;
  when_ loop (uv UvLoopDelete;; modify (fun s => s <| ss_loop := false |>));;
  blocks ← gets ss_device_blocks;
  modify (fun s =>
    s <| ss_devices := foldr delete (ss_devices s) (mjoin (block_devices <$> blocks)) |>
      <| ss_device_blocks := [] |> <| ss_host_list := [] |>).

(** [strchr(s, c) - s] *)
Fixpoint chr_index (c : Z) (s : list Z) : option Z :=
  match s with
  | [] => None
  | x :: s' => if x =? c then Some 0 else Z.succ <$> chr_index c s'
  end.
(** [s[i]] of a string without its terminator. *)
Definition char_at (s : list Z) (i : Z) : M Z :=
  if i <? Z.of_nat (length s) then of_option OutOfBounds (s !! Z.to_nat i)
  else if i =? Z.of_nat (length s) then mret 0 else crash OutOfBounds.

(** One host of LIBUSBIP_HOSTS: the length of its name, where [sscanf] reads its
    port from, and [tmp]. *)
Definition parse_host (hosts tmp : list Z) : M (Z * option (list Z) * list Z) :=
  match chr_index 59 hosts, chr_index 47 hosts with
  | Some e, Some p =>
      if p <? e then
        let n := e - p - 1 in
        if 20 <? n then crash OutOfBounds
        else
          let tmp := strncpy (Z.to_nat n) (drop (Z.to_nat p) hosts) ++ drop (Z.to_nat n) tmp in
          mret (u64 (p - 1), Some tmp, tmp)
      else mret (e, None, tmp)
  | Some e, None => mret (e, None, tmp)
  | None, Some p => mret (p, Some (drop (Z.to_nat p) hosts), tmp)
  | None, None => mret (Z.of_nat (length hosts), None, tmp)
  end.

(** The loop over LIBUSBIP_HOSTS, at [pos]. *)
Fixpoint init_hosts_loop (fuel : nat) (env : list Z) (pos : Z) (tmp : list Z) : M unit :=
  match fuel with
  | O => crash OutOfFuel
  | S fuel' =>
      let hosts := drop (Z.to_nat pos) env in
      '(len, port, tmp) ← parse_host hosts tmp;
      let number := match port with
                    | Some t => match scan_d t with Some (v, _) => v | None => 0 end
                    | None => 0
                    end in
      (if 64 <=? len then mret tt
       else
         let n := Z.to_nat len in
         libusbip_add_hosts [mkHost (strncpy n hosts ++ replicate (64 - n) 0) number]);;
      c ← char_at env (u64 (pos + len));
      if c =? 0 then mret tt
      else init_hosts_loop fuel' env (u64 (pos + len + 1)) tmp
  end.

Definition libusbip_init (fuel : nat) (level : Z) : M Z :=
  '(have_level, env_level) ← ext (UGetenv (text "LIBUSBIP_LOG_LEVEL"));
  '(have_hosts, hosts) ← ext (UGetenv (text "LIBUSBIP_HOSTS"));
  modify (fun s => s <| ss_log_level := if have_level =? 0 then level else atoi env_level |>);;
  (if have_hosts =? 0 then mret tt
   else '(_, tmp) ← ext UStack; init_hosts_loop fuel hosts 0 tmp);;
  modify (fun s =>
    s <| ss_device_blocks := [] |> <| ss_free_device_list := [] |> <| ss_free_urb_list := [] |>
      <| ss_free_sync_list := [] |> <| ss_free_work_list := [] |> <| ss_work_queue := [] |>);;
  loop ← uv_ret UvLoopNew;
  if loop =? 0 then libusbip_exit;; mret (-1)
  else
    modify (fun s => s <| ss_loop := true |>);;
    uv UvAsyncInit;;
    ret ← uv_ret UvThreadCreate;
    if negb (ret =? 0) then libusbip_exit;; mret (-1)
    else
      modify (fun s => s <| ss_active := true |>);;
      work_new_ None session_start_cb_fn (-1) None;;
      mret 0.
End api.
