(* ===== verification/Gadget.v ===== *)
(** * A remote device as a local gadget

    [userspace/client/gadgetfs/gadgetfs.c]: a program that presents a remote
    device to the machine its USB device port is plugged into.  The gadgetfs
    files are the environment; so are, seen from this program, the functions of
    the client library ([ULib] calls), the memory of whose results is a class
    ([LibAnswers]).  Every endpoint has a thread.  What a thread does between two
    points where it may have to wait is one definition ([ep_in_begin],
    [ep_in_wake], [ep_in_write], ...), so that any interleaving is a sequence of
    them; what the others do while one thread joins another is the class
    [Schedule].  Messages to the terminal are left out. *)
From Stdlib Require Import String.
From S2P Require Import Prelude CLib Kernel Wire NetWire Client.

Local Open Scope Z_scope.

(** ** Numbers of the USB headers *)

Definition USB_DIR_IN := 128.
Definition USB_RECIP_INTERFACE := 1.
Definition USB_REQ_GET_DESCRIPTOR := 6.
Definition USB_REQ_SET_CONFIGURATION := 9.
Definition USB_REQ_SET_INTERFACE := 11.
Definition USB_DT_DEVICE := 1.
Definition USB_DT_CONFIG := 2.
Definition USB_DT_INTERFACE := 4.
Definition USB_DT_ENDPOINT := 5.
Definition sizeof_config_descriptor := 9.
Definition sizeof_device_descriptor := 18.
Definition USB_CONFIG_ATT_ONE := 128.
Definition USB_CONFIG_ATT_SELFPOWER := 64.
Definition USB_SPEED_UNKNOWN := 0.
Definition USB_SPEED_HIGH := 3.
Definition GADGETFS_NOP := 0.
Definition GADGETFS_CONNECT := 1.
Definition GADGETFS_DISCONNECT := 2.
Definition GADGETFS_SETUP := 3.
Definition GADGETFS_SUSPEND := 4.
Definition sizeof_gadgetfs_event : nat := 12.
Definition NEVENT := 5.

Definition BUF_SIZE := 7 * 1024.

(** Whether [char] is signed. *)
Class PlainChar := char_signed : bool.

(** The arrays the client library returns. *)
Class LibAnswers := {
  lib_hosts : list call -> list host_t;
  lib_infos : list call -> host_t -> list device_info_t
}.

(** ** State *)

Record urb_s := mkUrbS {
  us_ep : Z;
  us_buf : list Z;
  us_length : Z;
  us_actual_length : Z;
  us_work : option Z
}.
#[export] Instance set_us_ep : Setter us_ep := fun v r => mkUrbS v (us_buf r) (us_length r) (us_actual_length r) (us_work r).
#[global] Arguments set_us_ep _ _ /.
#[export] Instance set_us_buf : Setter us_buf := fun v r => mkUrbS (us_ep r) v (us_length r) (us_actual_length r) (us_work r).
#[global] Arguments set_us_buf _ _ /.
#[export] Instance set_us_length : Setter us_length := fun v r => mkUrbS (us_ep r) (us_buf r) v (us_actual_length r) (us_work r).
#[global] Arguments set_us_length _ _ /.
#[export] Instance set_us_actual_length : Setter us_actual_length := fun v r => mkUrbS (us_ep r) (us_buf r) (us_length r) v (us_work r).
#[global] Arguments set_us_actual_length _ _ /.
#[export] Instance set_us_work : Setter us_work := fun v r => mkUrbS (us_ep r) (us_buf r) (us_length r) (us_actual_length r) v.
#[global] Arguments set_us_work _ _ /.


(** Where an endpoint's thread is: not created (or joined), about to start,
    waiting on the condition with the URB it may reuse, signalled, in [write] at
    an offset of an URB's data, in [read], or at its end. *)
Inductive ep_thread_t :=
  | th_none | th_start | th_wait (free_urb : option positive) | th_woken (free_urb : option positive)
  | th_write (u : positive) (off : Z) | th_read (u : positive) | th_done.
#[export] Instance ep_thread_t_eq_dec : EqDecision ep_thread_t.
Proof. solve_decision. Defined.

Record ep_s := mkEpS {
  es_init : bool;
  es_fd : Z;
  es_thread : ep_thread_t;
  es_interface : option ptr;
  es_desc : option ptr;
  es_urb_ready_list : list positive;
  es_stopping : bool
}.
#[export] Instance set_es_init : Setter es_init := fun v r => mkEpS v (es_fd r) (es_thread r) (es_interface r) (es_desc r) (es_urb_ready_list r) (es_stopping r).
#[global] Arguments set_es_init _ _ /.
#[export] Instance set_es_fd : Setter es_fd := fun v r => mkEpS (es_init r) v (es_thread r) (es_interface r) (es_desc r) (es_urb_ready_list r) (es_stopping r).
#[global] Arguments set_es_fd _ _ /.
#[export] Instance set_es_thread : Setter es_thread := fun v r => mkEpS (es_init r) (es_fd r) v (es_interface r) (es_desc r) (es_urb_ready_list r) (es_stopping r).
#[global] Arguments set_es_thread _ _ /.
#[export] Instance set_es_interface : Setter es_interface := fun v r => mkEpS (es_init r) (es_fd r) (es_thread r) v (es_desc r) (es_urb_ready_list r) (es_stopping r).
#[global] Arguments set_es_interface _ _ /.
#[export] Instance set_es_desc : Setter es_desc := fun v r => mkEpS (es_init r) (es_fd r) (es_thread r) (es_interface r) v (es_urb_ready_list r) (es_stopping r).
#[global] Arguments set_es_desc _ _ /.
#[export] Instance set_es_urb_ready_list : Setter es_urb_ready_list := fun v r => mkEpS (es_init r) (es_fd r) (es_thread r) (es_interface r) (es_desc r) v (es_stopping r).
#[global] Arguments set_es_urb_ready_list _ _ /.
#[export] Instance set_es_stopping : Setter es_stopping := fun v r => mkEpS (es_init r) (es_fd r) (es_thread r) (es_interface r) (es_desc r) (es_urb_ready_list r) v.
#[global] Arguments set_es_stopping _ _ /.


(** [struct context_s]; the URBs, which the code reaches by pointers, are a map. *)
Record context_t := mkContext {
  cx_speed : Z;
  cx_info : device_info_t;
  cx_host : host_t;
  cx_dev : option Z;
  cx_desc : option ptr;
  cx_config : option ptr;
  cx_fd : Z;
  cx_eps : list ep_s;
  cx_urb_free_list : list positive;
  cx_stopping : bool;
  cx_urbs : gmap positive urb_s
}.
#[export] Instance set_cx_speed : Setter cx_speed := fun v r => mkContext v (cx_info r) (cx_host r) (cx_dev r) (cx_desc r) (cx_config r) (cx_fd r) (cx_eps r) (cx_urb_free_list r) (cx_stopping r) (cx_urbs r).
#[global] Arguments set_cx_speed _ _ /.
#[export] Instance set_cx_info : Setter cx_info := fun v r => mkContext (cx_speed r) v (cx_host r) (cx_dev r) (cx_desc r) (cx_config r) (cx_fd r) (cx_eps r) (cx_urb_free_list r) (cx_stopping r) (cx_urbs r).
#[global] Arguments set_cx_info _ _ /.
#[export] Instance set_cx_host : Setter cx_host := fun v r => mkContext (cx_speed r) (cx_info r) v (cx_dev r) (cx_desc r) (cx_config r) (cx_fd r) (cx_eps r) (cx_urb_free_list r) (cx_stopping r) (cx_urbs r).
#[global] Arguments set_cx_host _ _ /.
#[export] Instance set_cx_dev : Setter cx_dev := fun v r => mkContext (cx_speed r) (cx_info r) (cx_host r) v (cx_desc r) (cx_config r) (cx_fd r) (cx_eps r) (cx_urb_free_list r) (cx_stopping r) (cx_urbs r).
#[global] Arguments set_cx_dev _ _ /.
#[export] Instance set_cx_desc : Setter cx_desc := fun v r => mkContext (cx_speed r) (cx_info r) (cx_host r) (cx_dev r) v (cx_config r) (cx_fd r) (cx_eps r) (cx_urb_free_list r) (cx_stopping r) (cx_urbs r).
#[global] Arguments set_cx_desc _ _ /.
#[export] Instance set_cx_config : Setter cx_config := fun v r => mkContext (cx_speed r) (cx_info r) (cx_host r) (cx_dev r) (cx_desc r) v (cx_fd r) (cx_eps r) (cx_urb_free_list r) (cx_stopping r) (cx_urbs r).
#[global] Arguments set_cx_config _ _ /.
#[export] Instance set_cx_fd : Setter cx_fd := fun v r => mkContext (cx_speed r) (cx_info r) (cx_host r) (cx_dev r) (cx_desc r) (cx_config r) v (cx_eps r) (cx_urb_free_list r) (cx_stopping r) (cx_urbs r).
#[global] Arguments set_cx_fd _ _ /.
#[export] Instance set_cx_eps : Setter cx_eps := fun v r => mkContext (cx_speed r) (cx_info r) (cx_host r) (cx_dev r) (cx_desc r) (cx_config r) (cx_fd r) v (cx_urb_free_list r) (cx_stopping r) (cx_urbs r).
#[global] Arguments set_cx_eps _ _ /.
#[export] Instance set_cx_urb_free_list : Setter cx_urb_free_list := fun v r => mkContext (cx_speed r) (cx_info r) (cx_host r) (cx_dev r) (cx_desc r) (cx_config r) (cx_fd r) (cx_eps r) v (cx_stopping r) (cx_urbs r).
#[global] Arguments set_cx_urb_free_list _ _ /.
#[export] Instance set_cx_stopping : Setter cx_stopping := fun v r => mkContext (cx_speed r) (cx_info r) (cx_host r) (cx_dev r) (cx_desc r) (cx_config r) (cx_fd r) (cx_eps r) (cx_urb_free_list r) v (cx_urbs r).
#[global] Arguments set_cx_stopping _ _ /.
#[export] Instance set_cx_urbs : Setter cx_urbs := fun v r => mkContext (cx_speed r) (cx_info r) (cx_host r) (cx_dev r) (cx_desc r) (cx_config r) (cx_fd r) (cx_eps r) (cx_urb_free_list r) (cx_stopping r) v.
#[global] Arguments set_cx_urbs _ _ /.


Definition urb_s_zero : urb_s := mkUrbS 0 (replicate (Z.to_nat BUF_SIZE) 0) 0 0 None.
Definition ep_s_zero : ep_s := mkEpS false 0 th_none None None [] false.
Definition host_zero : host_t := mkHost (replicate 64 0) 0.
Definition context_zero : context_t :=
  mkContext 0 device_info_zero host_zero None None None 0 (replicate 32 ep_s_zero) [] false ∅.

(** What the other threads do while one waits for the thread of an endpoint. *)
Class Schedule := others : Z -> M context_t unit.

Section gadget.
Context `{Env} `{Arch} `{PlainChar} `{LibAnswers} `{Schedule}.
Notation M := (M context_t).

Definition look_ep (i : Z) : M ep_s :=
  l ← gets cx_eps; of_option OutOfBounds (l !! Z.to_nat i).
Definition update_ep (i : Z) (f : ep_s -> ep_s) : M unit :=
  look_ep i;; modify (fun s => s <| cx_eps := alter f (Z.to_nat i) (cx_eps s) |>).
Definition look_urb (u : positive) : M urb_s :=
  m ← gets cx_urbs; of_option UseAfterFree (m !! u).
Definition update_urb (u : positive) (f : urb_s -> urb_s) : M unit :=
  r ← look_urb u; modify (fun s => s <| cx_urbs := <[u := f r]> (cx_urbs s) |>).

Definition byte_at (p : ptr) (off : Z) : M Z :=
  l ← load_bytes (ptr_add p off) 1; of_option OutOfBounds (head l).
Definition half_at (p : ptr) (off : Z) : M Z :=
  l ← load_bytes (ptr_add p off) 2; mret (of_le l).

(** ** Endpoints *)

Definition usb_endpoint_num (desc : ptr) : M Z :=
  a ← byte_at desc 2; mret (Z.land a 15).
Definition usb_endpoint_dir_in (desc : ptr) : M bool :=
  a ← byte_at desc 2; mret (has_bits a 128).
Definition usb_endpoint_type (desc : ptr) : M Z :=
  a ← byte_at desc 3; mret (Z.land a 3).

Definition ep_index (desc : ptr) : M Z :=
  n ← usb_endpoint_num desc;
  d ← usb_endpoint_dir_in desc;
  mret (n + (if d : bool then 16 else 0)).

(** [ep_to_ctx] finds the context from the endpoint's place among [eps], which
    its descriptor tells: the descriptor is read. *)
Definition ep_to_ctx (i : Z) : M unit :=
  e ← look_ep i;
  desc ← deref (es_desc e);
  ep_index desc;; mret tt.

Definition urb_free (u : positive) : M unit :=
  spin_lock MutexCtx;;
  modify (fun s => s <| cx_urb_free_list := u :: cx_urb_free_list s |>);;
  spin_unlock MutexCtx.

(** *** Stopping *)

(** [pthread_join] returns when the thread has ended, or at once when it is the
    caller ([me]); a schedule under which it never ends is a deadlock, and a
    thread that was not created or was joined before is not there to join. *)
Definition pthread_join (me : option Z) (i : Z) : M unit :=
  e ← look_ep i;
  if decide (es_thread e = th_none) then crash UseAfterFree
  else
    ext_do (UThreadJoin i);;
    if decide (me = Some i) then mret tt
    else
      others i;;
      e ← look_ep i;
      if decide (es_thread e = th_done) then update_ep i (fun e => e <| es_thread := th_none |>)
      else crash Deadlock.

(** The URBs of the ready list move to the free list, the first first. *)
Fixpoint free_ready (i : Z) (l : list positive) : M unit :=
  match l with
  | [] => mret tt
  | u :: l' =>
      update_ep i (fun e => e <| es_urb_ready_list := l' |>);;
      urb_free u;;
      free_ready i l'
  end.

Definition stop_ep (me : option Z) (i : Z) : M unit :=
  e ← look_ep i;
  if es_fd e <=? 0 then mret tt
  else
    spin_lock (MutexEp i);;
    update_ep i (fun e => e <| es_stopping := true |>);;
    spin_unlock (MutexEp i);;
    ext_do (UClose (es_fd e));;
    update_ep i (fun e => e <| es_fd := -1 |>);;
    pthread_join me i;;
    e ← look_ep i;
    free_ready i (es_urb_ready_list e).

Fixpoint stop_eps (me : option Z) (i : Z) (n : nat) : M unit :=
  match n with
  | O => mret tt
  | S n' => stop_ep me i;; stop_eps me (i + 1) n'
  end.

Definition stop_io (me : option Z) : M unit :=
  spin_lock MutexCtx;;
  s ← get;
  if cx_stopping s then spin_unlock MutexCtx
  else
    modify (fun s => s <| cx_stopping := true |>);;
    spin_unlock MutexCtx;;
    stop_eps me 0 32;;
    s ← get;
    dev ← deref (cx_dev s);
    ext_do (ULib (LibDeviceClose dev));;
    modify (fun s => s <| cx_dev := None |>);;
    spin_lock MutexCtx;;
    modify (fun s => s <| cx_stopping := false |>);;
    spin_unlock MutexCtx.

(** *** Transfers *)

(** The result of [libusbip_device_open]; the library stores the device. *)
Definition device_open : M Z :=
  s ← get;
  let info := cx_info s in
  '(ret, dev) ← ext (ULib (LibDeviceOpen (ho_addr (cx_host s)) (ho_port (cx_host s)) (di_busid info)
                        (di_busnum info) (di_devnum info) 3 5000));
  (if ret =? 0 then modify (fun s => s <| cx_dev := head dev |>) else mret tt);;
  mret ret.

(** [calloc], whose result is used unchecked. *)
Definition urb_calloc : M positive :=
  r ← ext_ret UCalloc;
  if r =? 0 then crash NullDeref
  else
    u ← kgets k_next;
    kmodify (fun k => k <| k_next := Pos.succ (k_next k) |>);;
    modify (fun s => s <| cx_urbs := <[u := urb_s_zero]> (cx_urbs s) |>);;
    mret u.

Definition urb_new (i : Z) : M positive :=
  spin_lock MutexCtx;;
  free ← gets cx_urb_free_list;
  u ← match free with
      | [] => urb_calloc
      | u :: rest => modify (fun s => s <| cx_urb_free_list := rest |>);; mret u
      end;
  spin_unlock MutexCtx;;
  update_urb u (fun r => r <| us_ep := i |> <| us_actual_length := 0 |> <| us_length := 0 |>
                           <| us_work := None |>);;
  mret u.

(** A call of [libusbip_urb_transfer] for [len] bytes of the URB's buffer; the
    library sets the length received to -1, the job's work is stored in the URB. *)
Definition transfer (me : option Z) (i : Z) (u : positive) (data : list Z) (len : Z) : M unit :=
  e ← look_ep i;
  desc ← deref (es_desc e);
  addr ← byte_at desc 2;
  type ← usb_endpoint_type desc;
  s ← get;
  dev ← deref (cx_dev s);
  update_urb u (fun r => r <| us_actual_length := -1 |>);;
  '(ret, work) ← ext (ULib (LibUrbTransfer dev addr type u data len 0));
  if negb (ret =? 0) then stop_io me
  else update_urb u (fun r => r <| us_work := head work |>).

Definition usbip_read (me : option Z) (i : Z) (urb : option positive) : M unit :=
  e ← look_ep i;
  if es_stopping e then mret tt
  else
    u ← match urb with Some u => mret u | None => urb_new i end;
    transfer me i u [] BUF_SIZE.

Definition usbip_write (me : option Z) (u : positive) : M unit :=
  r ← look_urb u;
  e ← look_ep (us_ep r);
  if es_stopping e then mret tt
  else transfer me (us_ep r) u (take (Z.to_nat (us_length r)) (us_buf r)) (us_length r).

(** [pthread_cond_signal]: a thread that waits is woken. *)
Definition ep_cond_signal (i : Z) : M unit :=
  update_ep i (fun e => match es_thread e with
                        | th_wait free => e <| es_thread := th_woken free |>
                        | _ => e
                        end).

(** The callback of a transfer, on the library's thread ([me] is none of the
    endpoints'). *)
Definition urb_done (u : positive) (ret : Z) : M unit :=
  r ← look_urb u;
  let i := us_ep r in
  ep_to_ctx i;;
  when_ (negb (ret =? 0)) (stop_io None);;
  r ← look_urb u;
  work ← deref (us_work r);
  ext_do (ULib (LibWorkClose work));;
  e ← look_ep i;
  desc ← deref (es_desc e);
  dir_in ← usb_endpoint_dir_in desc;
  kept ← (if negb (dir_in : bool) && negb (us_length r =? us_actual_length r) then
            stop_io None;; mret false
          else
            spin_lock (MutexEp i);;
            e ← look_ep i;
            kept ← (if es_stopping e then mret false
                    else
                      update_ep i (fun e => e <| es_urb_ready_list := es_urb_ready_list e ++ [u] |>);;
                      ep_cond_signal i;;
                      mret true);
            spin_unlock (MutexEp i);;
            mret kept);
  if kept : bool then mret tt else urb_free u.

(** ** The threads *)

Definition set_thread (i : Z) (t : ep_thread_t) : M unit :=
  update_ep i (fun e => e <| es_thread := t |>).
Definition pop_ready (i : Z) : M unit :=
  update_ep i (fun e => e <| es_urb_ready_list := tail (es_urb_ready_list e) |>).

(** The loop of [ep_in_thread] with the mutex held, up to the next point where
    the thread waits, writes or ends. *)
Definition ep_in_loop (i : Z) (free : option positive) : M unit :=
  e ← look_ep i;
  if es_stopping e then
    spin_unlock (MutexEp i);;
    match free with Some u => urb_free u | None => mret tt end;;
    set_thread i th_done
  else
    match es_urb_ready_list e with
    | [] => spin_unlock (MutexEp i);; set_thread i (th_wait free)
    | u :: _ =>
        pop_ready i;;
        usbip_read (Some i) i free;;
        spin_unlock (MutexEp i);;
        set_thread i (th_write u 0)
    end.

Definition ep_in_begin (i : Z) : M unit :=
  ep_to_ctx i;;
  spin_lock (MutexEp i);;
  usbip_read (Some i) i None;;
  ep_in_loop i None.
Definition ep_in_wake (i : Z) (free : option positive) : M unit :=
  spin_lock (MutexEp i);; ep_in_loop i free.
Definition ep_in_write (i : Z) (u : positive) (off : Z) : M unit :=
  r ← look_urb u;
  if off =? us_actual_length r then
    spin_lock (MutexEp i);; ep_in_loop i (Some u)
  else
    e ← look_ep i;
    (* [write] of [end - buf] bytes from the buffer, the count as an unsigned *)
    let count := u64 (us_actual_length r - off) in
    (if Z.of_nat (length (us_buf r)) <? off + count then crash OutOfBounds else mret tt);;
    ret ← ext_ret (UWrite (es_fd e) (take (Z.to_nat count) (drop (Z.to_nat off) (us_buf r))));
    if ret <? 0 then
      stop_io (Some i);; urb_free u;; set_thread i th_done
    else set_thread i (th_write u (off + ret)).

(** The loop of [ep_out_thread], likewise. *)
Definition ep_out_loop (i : Z) : M unit :=
  e ← look_ep i;
  if es_stopping e then spin_unlock (MutexEp i);; set_thread i th_done
  else
    match es_urb_ready_list e with
    | [] => spin_unlock (MutexEp i);; set_thread i (th_wait None)
    | u :: _ =>
        pop_ready i;;
        spin_unlock (MutexEp i);;
        set_thread i (th_read u)
    end.

Definition ep_out_begin (i : Z) : M unit :=
  ep_to_ctx i;;
  u ← urb_new i;
  update_ep i (fun e => e <| es_urb_ready_list := u :: es_urb_ready_list e |>);;
  spin_lock (MutexEp i);;
  ep_out_loop i.
Definition ep_out_wake (i : Z) : M unit :=
  spin_lock (MutexEp i);; ep_out_loop i.
Definition ep_out_read (i : Z) (u : positive) : M unit :=
  e ← look_ep i;
  '(ret, data) ← ext (URead (es_fd e) BUF_SIZE);
  update_urb u (fun r => r <| us_length := ret |>);;
  if ret <? 0 then
    stop_io (Some i);; urb_free u;; set_thread i th_done
  else
    (if BUF_SIZE <? Z.of_nat (length data) then crash OutOfBounds else mret tt);;
    update_urb u (fun r => r <| us_buf := splice (us_buf r) 0 data |>);;
    spin_lock (MutexEp i);;
    usbip_write (Some i) u;;
    ep_out_loop i.

(** One stretch of an endpoint's thread; a thread that waits does nothing. *)
Definition ep_thread_step (i : Z) : M unit :=
  e ← look_ep i;
  desc ← deref (es_desc e);
  dir_in ← usb_endpoint_dir_in desc;
  match es_thread e with
  | th_start => if dir_in : bool then ep_in_begin i else ep_out_begin i
  | th_woken free => if dir_in : bool then ep_in_wake i free else ep_out_wake i
  | th_write u off => ep_in_write i u off
  | th_read u => ep_out_read i u
  | th_none | th_wait _ | th_done => mret tt
  end.

(** ** Starting the endpoints *)

Definition ep_name (n : Z) (dir_in : bool) : list Z :=
  text "ep" ++ print_d n ++ (if dir_in then text "in" else text "out").

(** The result: whether starting failed. *)
Definition start_ep (me : option Z) (i : Z) : M bool :=
  e ← look_ep i;
  match es_desc e with
  | None => mret false
  | Some desc =>
      n ← usb_endpoint_num desc;
      dir_in ← usb_endpoint_dir_in desc;
      fd ← ext_ret (UOpen (ep_name n dir_in));
      update_ep i (fun e => e <| es_fd := fd |>);;
      if fd <? 0 then stop_io me;; mret true
      else
        len ← byte_at desc 0;
        d ← load_bytes desc len;
        s ← get;
        ret ← ext_ret (UWrite fd (word_bytes 1 ++ d ++ (if cx_speed s =? USB_SPEED_HIGH then d else [])));
        if ret <? 0 then stop_io me;; mret true
        else
          update_ep i (fun e => e <| es_stopping := false |>);;
          ext_do (UThreadCreate i);;
          set_thread i th_start;;
          mret false
  end.

Fixpoint start_eps (me : option Z) (i : Z) (n : nat) : M Z :=
  match n with
  | O => mret 0
  | S n' =>
      failed ← start_ep me i;
      if failed : bool then mret 1 else start_eps me (i + 1) n'
  end.

(** [device_open] returns 0 when it succeeds: the test is the wrong way round. *)
Definition start_io (me : option Z) : M Z :=
  s ← get;
  failed ← (match cx_dev s with
            | None => ret ← device_open; mret (ret =? 0)
            | Some _ => mret false
            end);
  if failed : bool then mret 1
  else
    modify (fun s => s <| cx_stopping := false |>);;
    start_eps me 0 32.

(** ** Descriptors *)

(** [libusbip_control_msg] on the calling thread: the variable [ret] it leaves,
    having stored what it received. *)
Definition control_msg (requesttype request value index : Z) (buf : option ptr) (size timeout : Z) : M Z :=
  s ← get;
  dev ← deref (cx_dev s);
  data ← (if has_bits requesttype USB_DIR_IN then mret []
          else if size =? 0 then mret []
          else p ← deref buf; load_bytes p size);
  '(ret, answer) ← ext (ULib (LibControlMsg dev requesttype request value index data size timeout));
  (if has_bits requesttype USB_DIR_IN then
     match answer with
     | [] => mret tt
     | _ => p ← deref buf; store_bytes p answer
     end
   else mret tt);;
  mret ret.

Definition get_descriptor (type index : Z) (buf : ptr) (size : Z) : M Z :=
  store_bytes buf (replicate (Z.to_nat size) 0);;
  control_msg USB_DIR_IN USB_REQ_GET_DESCRIPTOR (Z.shiftl type 8 + index) 0 (Some buf) size 1000.

(** [desc[i]] as the code's [char]. *)
Definition char_at (desc : ptr) (i : Z) : M Z :=
  b ← byte_at desc i; mret (if char_signed then swrap 8 b else b).

Inductive ep_config_state := STATE_SEEK | STATE_CONFIG.

Definition configure_ep (d : ptr) (current : option ptr) : M unit :=
  i ← ep_index d;
  update_ep i (fun e => e <| es_interface := current |> <| es_desc := Some d |>);;
  e ← look_ep i;
  if es_init e then mret tt
  else update_ep i (fun e => e <| es_urb_ready_list := [] |> <| es_init := true |>).

(** The loop: the rest of the configuration from offset [i] on. *)
Fixpoint ep_config_loop (fuel : nat) (desc : ptr) (length interface altsetting i : Z)
    (state : ep_config_state) (current : option ptr) (ret : Z) : M Z :=
  match fuel with
  | O => crash OutOfFuel
  | S fuel' =>
      if negb (i <? length) then mret ret
      else
        let d := ptr_add desc i in
        let next state current ret :=
          n ← char_at desc i;
          ep_config_loop fuel' desc length interface altsetting (i + n) state current ret in
        type ← byte_at d 1;
        let seek :=
          (* the interface number is read only if the type says so *)
          found ← (if type =? USB_DT_INTERFACE then
                     n ← byte_at d 2;
                     if negb (n =? interface) then mret false
                     else if altsetting <? 0 then mret true
                     else a ← byte_at d 3; mret (a =? altsetting)
                   else mret false);
          if found : bool then next STATE_CONFIG (Some d) 0 else next state current ret in
        match state with
        | STATE_CONFIG =>
            if type =? USB_DT_ENDPOINT then configure_ep d current;; next state current ret
            else if negb (type =? USB_DT_INTERFACE) then next state current ret
            else if 0 <=? altsetting then mret 0
            else seek
        | STATE_SEEK => seek
        end
  end.

Definition ep_config (fuel : nat) (interface altsetting : Z) : M Z :=
  s ← get;
  config ← deref (cx_config s);
  length ← half_at config 2;
  ep_config_loop fuel config length interface altsetting sizeof_config_descriptor STATE_SEEK None (-1).

(** ** Beginning *)

(** [malloc]: the memory holds anything. *)
Definition malloc_block (size : Z) : M (option ptr) :=
  '(r, junk) ← ext (CMalloc size);
  if r =? 0 then mret None
  else
    let n := Z.to_nat size in
    p ← alloc_block (take n (junk ++ replicate n 0)); mret (Some p).

Definition find_hosts : M (Z * list host_t) :=
  hosts ← kgets (fun k => lib_hosts (k_trace k));
  ret ← ext_ret (ULib (LibFindHosts 5000));
  mret (ret, hosts).
(** The result, the devices, and whether the pointer to them was set. *)
Definition get_devices_info (h : host_t) : M (Z * list device_info_t * bool) :=
  infos ← kgets (fun k => lib_infos (k_trace k) h);
  '(ret, set_) ← ext (ULib (LibGetDevicesInfo (ho_addr h) (ho_port h) 5000));
  mret (ret, infos, bool_decide (set_ <> [])).

(** Is this the device the user named, by its address or by its ids? *)
Definition wanted_device (info : option device_info_t) (idvendor idproduct : Z) (d : device_info_t) : bool :=
  match info with
  | Some x => (di_busnum d =? di_busnum x) && (di_devnum d =? di_devnum x) &&
              strncmp_eq 32 (di_busid d) (di_busid x)
  | None => (di_idVendor d =? idvendor) && (di_idProduct d =? idproduct)
  end.

(** Look for it on every host; [Some n]: an array of [n] devices is left.  A host
    that cannot be asked ends the search, with what the library left. *)
Fixpoint find_device (hosts : list host_t) (info : option device_info_t) (idvendor idproduct : Z)
    : M (option Z) :=
  match hosts with
  | [] => mret None
  | h :: hosts' =>
      '(ret, infos, found) ← get_devices_info h;
      if ret <? 0 then mret (if found : bool then Some (Z.of_nat (length infos)) else None)
      else
        match List.find (wanted_device info idvendor idproduct) infos with
        | Some d =>
            modify (fun s => s <| cx_info := d |> <| cx_host := h |>);;
            mret (Some (Z.of_nat (length infos)))
        | None =>
            ext_do (ULib (LibFreeDevicesInfo (Z.of_nat (length infos))));;
            find_device hosts' info idvendor idproduct
        end
  end.

(** The configuration of a full-speed device made up for a high-speed one. *)
Definition fs_config : list Z :=
  [sizeof_config_descriptor; USB_DT_CONFIG] ++ le_bytes 2 sizeof_config_descriptor ++
  [0; 3; 0; Z.lor USB_CONFIG_ATT_ONE USB_CONFIG_ATT_SELFPOWER; 1].

(** The part of [init] that reads the descriptors and hands them to gadgetfs. *)
Definition init_descriptors (fuel : nat) (name : list Z) : M Z :=
  tmp ← alloc_block (replicate 8 0);
  ret ← get_descriptor USB_DT_CONFIG 0 tmp 8;
  if ret <? 8 then mret (-1)
  else
    total ← half_at tmp 2;
    s ← get;
    let high := di_speed (cx_info s) =? USB_SPEED_HIGH in
    let length := total + 4 + sizeof_device_descriptor +
                  (if high then sizeof_config_descriptor else 0) in
    match cx_desc s with Some p => kfree (Some p) | None => mret tt end;;
    desc ← malloc_block length;
    modify (fun s => s <| cx_desc := desc |>);;
    match desc with
    | None => mret (-1)
    | Some base =>
        store_bytes base (word_bytes 0);;
        (if high then store_bytes (ptr_add base 4) fs_config else mret tt);;
        let desc := ptr_add base (4 + (if high then sizeof_config_descriptor else 0)) in
        length ← half_at tmp 2;
        ret ← get_descriptor USB_DT_CONFIG 0 desc length;
        if negb (ret =? length) then mret (-1)
        else
          modify (fun s => s <| cx_config := Some desc |>);;
          ep_config fuel 0 (-1);;
          let ddesc := ptr_add desc length in
          ret ← get_descriptor USB_DT_DEVICE 0 ddesc sizeof_device_descriptor;
          if u64 ret <? sizeof_device_descriptor then mret (-1)
          else
            n ← byte_at ddesc 17;
            (if 1 <? n then store_bytes (ptr_add ddesc 17) [1] else mret tt);;
            fd ← ext_ret (UOpen name);
            modify (fun s => s <| cx_fd := fd |>);;
            (* the variable tested is not the one that was set *)
            junk ← ext_ret UStack;
            if junk <? 0 then mret (-1)
            else
              let size := ddesc.2 + sizeof_device_descriptor - base.2 in
              d ← load_bytes base size;
              ret ← ext_ret (UWrite fd d);
              if negb (ret =? size) then mret (-1) else mret 0
    end.

Definition init (fuel : nat) (name : list Z) (host : option host_t) (info : option device_info_t)
    (idvendor idproduct : Z) : M Z :=
  modify (fun s => s <| cx_urb_free_list := [] |>);;
  ret ← ext_ret (ULib (LibInit 1));
  if ret <? 0 then mret (-1)
  else
    '(ret, hosts) ← (match host with
                     | None => find_hosts
                     | Some h => mret (0, [h])
                     end);
    if ret <? 0 then mret (-1)
    else
      found ← find_device hosts info idvendor idproduct;
      (match host with None => ext_do (ULib LibFreeHosts) | Some _ => mret tt end);;
      match found with
      | None => mret 1
      | Some n =>
          ext_do (ULib (LibFreeDevicesInfo n));;
          device_open;;
          s ← get;
          match cx_dev s with
          | None => mret (-1)
          | Some _ => init_descriptors fuel name
          end
      end.

(** ** Control requests *)

(** What happens at the label STALL. *)
Definition handle_stall (fd : Z) (to_host : bool) : M unit :=
  if to_host then ext_do (UWrite fd []) else ext_do (URead fd 0).

(** The memory of [buf] is not freed. *)
Definition handle_control (fuel : nat) (setup : list Z) : M unit :=
  let field n := nth n setup 0 in
  let requesttype := field 0%nat in
  let request := field 1%nat in
  let value := of_le [field 2%nat; field 3%nat] in
  let index := of_le [field 4%nat; field 5%nat] in
  let length := of_le [field 6%nat; field 7%nat] in
  let to_host := has_bits requesttype USB_DIR_IN in
  s ← get;
  let fd := cx_fd s in
  buf ← malloc_block length;
  ready ← (if negb (length =? 0) && negb to_host then
             '(ret, data) ← ext (URead fd length);
             match data with
             | [] => mret tt
             | _ => p ← deref buf; store_bytes p data
             end;;
             mret (ret =? length)
           else mret true);
  if negb (ready : bool) then handle_stall fd to_host
  else
    (* [None]: stall; [Some start] *)
    start ← (if request =? USB_REQ_SET_CONFIGURATION then
               if negb (requesttype =? 0) then mret None
               else
                 s ← get;
                 config ← deref (cx_config s);
                 v ← byte_at config 5;
                 if value =? v then mret (Some true)
                 else if value =? 0 then stop_io None;; mret (Some false)
                 else mret None
             else if request =? USB_REQ_SET_INTERFACE then
               if negb (requesttype =? USB_RECIP_INTERFACE) then mret None
               else
                 stop_io None;;
                 failed ← ep_config fuel index value;
                 mret (if failed =? 0 then Some true else None)
             else mret (Some false));
    match start with
    | None => handle_stall fd to_host
    | Some start =>
        ret ← control_msg requesttype request value index buf length 1000;
        if ret <? 0 then handle_stall fd to_host
        else
          ok ← (if to_host then
                  (* [length], a 16-bit number, is the answer's *)
                  let length := u16 ret in
                  data ← (if length =? 0 then mret []
                          else p ← deref buf; load_bytes p length);
                  ret ← ext_ret (UWrite fd data);
                  mret (ret =? length)
                else if length =? 0 then
                  ret ← ext_ret (UWrite fd []);
                  mret (negb (ret <? 0))
                else mret true);
          if negb (ok : bool) then handle_stall fd to_host
          else if start : bool then
            failed ← start_io None;
            if negb (failed =? 0) then handle_stall fd to_host else mret tt
          else mret tt
    end.

(** ** The main loop *)

Definition handle_event (fuel : nat) (event : list Z) : M unit :=
  let type := word_of (drop 8 event) in
  if type =? GADGETFS_CONNECT then
    modify (fun s => s <| cx_speed := word_of (take 4 event) |>)
  else if type =? GADGETFS_SETUP then handle_control fuel (take 8 event)
  else if type =? GADGETFS_DISCONNECT then
    modify (fun s => s <| cx_speed := USB_SPEED_UNKNOWN |>);;
    stop_io None
  else mret tt.

Fixpoint handle_events (fuel : nat) (n : nat) (events : list Z) : M unit :=
  match n with
  | O => mret tt
  | S n' =>
      handle_event fuel (take sizeof_gadgetfs_event events);;
      handle_events fuel n' (drop sizeof_gadgetfs_event events)
  end.

(** One round; whether there is another.  [connected] is reset every round, so
    nothing is stopped at the end. *)
Definition ep0_round (fuel : nat) (fd : Z) : M bool :=
  ret ← ext_ret (UPoll [fd]);
  if ret <? 0 then mret false
  else
    '(tmp, events) ← ext (URead fd (NEVENT * Z.of_nat sizeof_gadgetfs_event));
    if tmp <? 0 then
      errno ← ext_ret UErrno;
      if errno =? EAGAIN then ext_do (USleep 1);; mret true else mret false
    else
      handle_events fuel (Z.to_nat tmp / sizeof_gadgetfs_event) events;;
      mret true.

Fixpoint ep0_loop (rounds fuel : nat) (fd : Z) : M unit :=
  match rounds with
  | O => crash OutOfFuel
  | S rounds' =>
      more ← ep0_round fuel fd;
      if more : bool then ep0_loop rounds' fuel fd else mret tt
  end.
Definition ep0_thread (rounds fuel : nat) : M unit :=
  s ← get; ep0_loop rounds fuel (cx_fd s).

(** ** Options *)

Record options := mkOptions {
  op_devname : list Z;
  op_idvendor : Z;
  op_idproduct : Z;
  op_host : host_t;
  op_phost : bool;
  op_info : option device_info_t
}.

(** [sscanf(optarg, "%x:%x", ...) == 2] *)
Definition scan_ids (s : list Z) : option (Z * Z) :=
  match scan_x_all s with
  | Some (v, 58 :: rest) => match scan_x_all rest with
                            | Some (p, _) => Some (s32 v, s32 p)
                            | None => None
                            end
  | _ => None
  end.
(** [sscanf(optarg, "%d-%d:%s", ...) == 3] *)
Definition scan_address (s : list Z) : option (Z * Z * list Z) :=
  match scan_d s with
  | Some (b, 45 :: rest) =>
      match scan_d rest with
      | Some (d, 58 :: rest) => match scan_s rest with
                                | Some (w, _) => Some (b, d, w)
                                | None => None
                                end
      | _ => None
      end
  | _ => None
  end.

(** The next option and its argument; [None]: the usage is printed. *)
Definition take_option (o : string * list Z) (acc : options) : M (option options) :=
  let '(c, optarg) := o in
  let '(mkOptions name v p host ph info) := acc in
  if String.eqb c "n" then mret (Some (mkOptions optarg v p host ph info))
  else if String.eqb c "V" then
    mret ('(v, p) ← scan_ids optarg; Some (mkOptions name v p host ph info))
  else if String.eqb c "i" then
    mret (Some (mkOptions name v p (host <| ho_addr := strncpy 63 optarg ++ [0] |>) true info))
  else if String.eqb c "p" then mret (Some (mkOptions name v p (host <| ho_port := atoi optarg |>) ph info))
  else if String.eqb c "b" then
    match scan_address optarg with
    | None => mret None
    | Some (b, d, w) =>
        if (32 <=? length w)%nat then crash OutOfBounds
        else mret (Some (mkOptions name v p host ph
               (Some (device_info_zero <| di_busid := w |> <| di_busnum := u32 b |> <| di_devnum := u32 d |>))))
    end
  else if String.eqb c "v" then mret (Some acc)
  else mret None.
Fixpoint take_options (argv : list (string * list Z)) (acc : options) : M (option options) :=
  match argv with
  | [] => mret (Some acc)
  | o :: argv' =>
      acc ← take_option o acc;
      match acc with Some acc => take_options argv' acc | None => mret None end
  end.

Definition main (rounds fuel : nat) (argv : list (string * list Z)) : M Z :=
  o ← take_options argv (mkOptions (text "dwc_otg_pcd") 0 0 host_zero false None);
  match o with
  | None => mret 1
  | Some o =>
      ret ← ext_ret (UChdir (text "/dev/gadget"));
      if ret <? 0 then mret 1
      else
        ret ← init fuel (op_devname o) (if op_phost o then Some (op_host o) else None) (op_info o)
                   (op_idvendor o) (op_idproduct o);
        if negb (ret =? 0) then mret 1
        else ep0_thread rounds fuel;; mret 0
  end.
End gadget.
