(* ===== verification/ClientProps.v ===== *)
(** * The client library: running it

    Equations for the calls its functions make, and how the bytes of a
    connection reach a work that reads, however the connection splits them
    ([uv_stream]). *)
From S2P Require Import Prelude Kernel Wire EventProps Exec Client ClientDev.

(** ** States with an object replaced *)

Definition put_work (w : positive) (r : work_t) (s : session) : session :=
  s <| ss_works := <[w := r]> (ss_works s) |>.
Definition put_device (d : positive) (r : device_t) (s : session) : session :=
  s <| ss_devices := <[d := r]> (ss_devices s) |>.
Definition put_urbt (u : positive) (r : urb_t) (s : session) : session :=
  s <| ss_urbs := <[u := r]> (ss_urbs s) |>.
Definition put_req (q : positive) (r : device_info_req_t) (s : session) : session :=
  s <| ss_reqs := <[q := r]> (ss_reqs s) |>.
Definition put_var (p : positive) (v : Z) (s : session) : session :=
  s <| ss_vars := <[p := v]> (ss_vars s) |>.
#[global] Arguments put_work : simpl never.
#[global] Arguments put_device : simpl never.
#[global] Arguments put_urbt : simpl never.
#[global] Arguments put_req : simpl never.
#[global] Arguments put_var : simpl never.

(** ** Equations *)
Section exec.
Context `{Env}.
Implicit Types (s : session) (k : kernel).

Lemma Ok_eq {A} (a a' : A) s s' k k' :
  a = a' -> s = s' -> k = k' -> Ok (a, s, k) = Ok (a', s', k').
Proof. by intros -> -> ->. Qed.

Lemma bind_cong {A B} (m m' : M session A) (f : A -> M session B) s k s' k' :
  m s k = m' s' k' -> (m ≫= f) s k = (m' ≫= f) s' k'.
Proof. intros E. unfold mbind, M_bind. by rewrite E. Qed.

Lemma look_ok {A} (f : session -> gmap positive A) i x s k :
  f s !! i = Some x -> look f i s k = Ok (x, s, k).
Proof. intros E. unfold look. erewrite bind_ok by reflexivity. by apply of_option_ok. Qed.

Lemma update_ok {A} (f : session -> gmap positive A) `{!Setter f} i g x s k :
  f s !! i = Some x -> update f i g s k = Ok (tt, s <| f := <[i := g x]> (f s) |>, k).
Proof. intros E. unfold update. by erewrite bind_ok by (by apply look_ok). Qed.

Lemma uv_ok c s k : uv c s k = Ok (tt, s, traced [UUv c] k).
Proof. done. Qed.
Lemma uv_ret_ok c s k : uv_ret c s k = Ok ((env_answer (k_trace k) (UUv c)).1, s, traced [UUv c] k).
Proof. done. Qed.

Lemma when_uv_ok b c s k :
  when_ b (uv c) s k = Ok (tt, s, traced (if b then [UUv c] else []) k).
Proof. destruct b; [done|]. by rewrite traced_nil. Qed.

Lemma store_var_ok p v x s k :
  ss_vars s !! p = Some x ->
  store_var p v s k = Ok (tt, put_var p v s, k).
Proof. intros E. unfold store_var. by erewrite bind_ok by (by eapply look_ok). Qed.

Lemma update_work_ok w g r s k :
  ss_works s !! w = Some r -> update ss_works w g s k = Ok (tt, put_work w (g r) s, k).
Proof. apply (update_ok ss_works). Qed.
Lemma update_device_ok d g r s k :
  ss_devices s !! d = Some r -> update ss_devices d g s k = Ok (tt, put_device d (g r) s, k).
Proof. apply (update_ok ss_devices). Qed.
Lemma update_urb_ok u g r s k :
  ss_urbs s !! u = Some r -> update ss_urbs u g s k = Ok (tt, put_urbt u (g r) s, k).
Proof. apply (update_ok ss_urbs). Qed.
Lemma update_req_ok q g r s k :
  ss_reqs s !! q = Some r -> update ss_reqs q g s k = Ok (tt, put_req q (g r) s, k).
Proof. apply (update_ok ss_reqs). Qed.
End exec.

(** Reduce a field of a session that was updated. *)
Ltac map_cbn :=
  cbv [put_work put_device put_urbt put_req put_var];
  cbn [ss_works ss_syncs ss_devices ss_urbs ss_reqs ss_infos ss_intfs ss_hostarrays ss_vars
       ss_work_queue ss_device_blocks ss_free_sync_list ss_free_device_list ss_free_urb_list
       ss_free_work_list ss_host_list ss_host_count ss_active ss_loop ss_log_level ss_start_time
       set_field set_ss_works set_ss_syncs set_ss_devices set_ss_urbs set_ss_reqs set_ss_infos
       set_ss_intfs set_ss_vars set_ss_work_queue set_ss_free_work_list set_ss_free_urb_list
       set_ss_free_device_list set_ss_free_sync_list set_ss_host_list set_ss_host_count].

(** Reduce a field of an object that was updated. *)
Ltac obj_cbn :=
  cbn [wk_ref_count wk_timer wk_timeout wk_sync wk_state wk_ret wk_data wk_cb wk_nread
       wk_buf wk_reading wk_user_cb wk_user_data dv_pdev dv_socket_data dv_addr dv_port
       dv_devid dv_seqnum dv_pt dv_ref_count dv_state dv_max_retry dv_timer_data
       dv_write_data dv_connect_data dv_op_header dv_req_import dv_rpl_import dv_retry
       dv_recv_header dv_recv_urb dv_urb_list dv_read_list ub_pt ub_work ub_dev ub_header
       ub_direction ub_seqnum ub_buf ub_write_data ub_ret rq_pt rq_addr rq_port rq_udev
       rq_intf rq_ref_count rq_active rq_socket_data rq_connect_data rq_write_data rq_header
       rq_reply rq_info rq_count rq_pinfo rq_pcount rq_read_list di_bInterfaceClass
       di_bInterfaceSubClass di_bInterfaceProtocol di_busid di_busnum di_devnum di_speed
       di_idVendor di_idProduct di_bcdDevice di_bDeviceClass di_bDeviceSubClass
       di_bDeviceProtocol di_bConfigurationValue di_bNumConfigurations di_bNumInterfaces
       di_interfaces ho_addr ho_port set_wk_ref_count set_wk_timer set_wk_timeout
       set_wk_sync set_wk_state set_wk_ret set_wk_data set_wk_cb set_wk_nread set_wk_buf
       set_wk_reading set_wk_user_cb set_wk_user_data set_dv_pdev set_dv_socket_data
       set_dv_addr set_dv_port set_dv_devid set_dv_seqnum set_dv_pt set_dv_ref_count
       set_dv_state set_dv_max_retry set_dv_timer_data set_dv_write_data set_dv_connect_data
       set_dv_op_header set_dv_req_import set_dv_rpl_import set_dv_retry set_dv_recv_header
       set_dv_recv_urb set_dv_urb_list set_dv_read_list set_ub_pt set_ub_work set_ub_dev
       set_ub_header set_ub_direction set_ub_seqnum set_ub_buf set_ub_write_data set_ub_ret
       set_rq_pt set_rq_addr set_rq_port set_rq_udev set_rq_intf set_rq_ref_count
       set_rq_active set_rq_socket_data set_rq_connect_data set_rq_write_data set_rq_header
       set_rq_reply set_rq_info set_rq_count set_rq_pinfo set_rq_pcount set_rq_read_list
       set_di_busid set_di_busnum set_di_devnum set_di_speed set_di_idVendor
       set_di_idProduct set_di_bcdDevice set_di_bDeviceClass set_di_bDeviceSubClass
       set_di_bDeviceProtocol set_di_bConfigurationValue set_di_bNumConfigurations
       set_di_bNumInterfaces set_di_interfaces set_ho_addr set_ho_port set_field].

(** Look up an object in maps that were updated. *)
Ltac map_side :=
  map_cbn;
  repeat first
    [ rewrite lookup_insert_eq; reflexivity
    | rewrite lookup_insert_ne by (done || congruence)
    | eassumption ].

(** Sessions are equal when their fields are. *)
Lemma session_eq (s t : session) :
  ss_works s = ss_works t ->
  ss_syncs s = ss_syncs t ->
  ss_devices s = ss_devices t ->
  ss_urbs s = ss_urbs t ->
  ss_reqs s = ss_reqs t ->
  ss_infos s = ss_infos t ->
  ss_intfs s = ss_intfs t ->
  ss_hostarrays s = ss_hostarrays t ->
  ss_vars s = ss_vars t ->
  ss_work_queue s = ss_work_queue t ->
  ss_device_blocks s = ss_device_blocks t ->
  ss_free_sync_list s = ss_free_sync_list t ->
  ss_free_device_list s = ss_free_device_list t ->
  ss_free_urb_list s = ss_free_urb_list t ->
  ss_free_work_list s = ss_free_work_list t ->
  ss_host_list s = ss_host_list t ->
  ss_host_count s = ss_host_count t ->
  ss_active s = ss_active t ->
  ss_loop s = ss_loop t ->
  ss_log_level s = ss_log_level t ->
  ss_start_time s = ss_start_time t ->
  s = t.
Proof. destruct s, t. cbn. intros. f_equal; assumption. Qed.

(** Compare two sessions field by field; the fields that differ in form are left. *)
Ltac session_eq := apply session_eq; try reflexivity; map_cbn; rewrite ?insert_insert_eq.

(** The form states are kept in: works, devices, requests, URBs, variables from
    the outside, each object once. *)
Section put.
Implicit Types (s : session).
Lemma put_work_twice w r r' s : put_work w r (put_work w r' s) = put_work w r s.
Proof. session_eq; done. Qed.
Lemma put_work_same w r s : ss_works s !! w = Some r -> put_work w r s = s.
Proof. intros E. apply session_eq; try reflexivity. by apply insert_id. Qed.
Lemma put_device_twice d x x' s : put_device d x (put_device d x' s) = put_device d x s.
Proof. session_eq; done. Qed.
Lemma put_device_same d x s : ss_devices s !! d = Some x -> put_device d x s = s.
Proof. intros E. apply session_eq; try reflexivity. by apply insert_id. Qed.
Lemma put_req_twice q y y' s : put_req q y (put_req q y' s) = put_req q y s.
Proof. session_eq; done. Qed.
Lemma put_req_same q y s : ss_reqs s !! q = Some y -> put_req q y s = s.
Proof. intros E. apply session_eq; try reflexivity. by apply insert_id. Qed.
Lemma put_urbt_twice u z z' s : put_urbt u z (put_urbt u z' s) = put_urbt u z s.
Proof. session_eq; done. Qed.
Lemma put_urbt_same u z s : ss_urbs s !! u = Some z -> put_urbt u z s = s.
Proof. intros E. apply session_eq; try reflexivity. by apply insert_id. Qed.
Lemma put_var_twice p v v' s : put_var p v (put_var p v' s) = put_var p v s.
Proof. session_eq; done. Qed.
Lemma put_var_same p v s : ss_vars s !! p = Some v -> put_var p v s = s.
Proof. intros E. apply session_eq; try reflexivity. by apply insert_id. Qed.
Lemma put_device_work d x w r s :
  put_device d x (put_work w r s) = put_work w r (put_device d x s).
Proof. by apply session_eq. Qed.
Lemma put_req_work q y w r s :
  put_req q y (put_work w r s) = put_work w r (put_req q y s).
Proof. by apply session_eq. Qed.
Lemma put_urbt_work u z w r s :
  put_urbt u z (put_work w r s) = put_work w r (put_urbt u z s).
Proof. by apply session_eq. Qed.
Lemma put_var_work p v w r s :
  put_var p v (put_work w r s) = put_work w r (put_var p v s).
Proof. by apply session_eq. Qed.
Lemma put_req_device q y d x s :
  put_req q y (put_device d x s) = put_device d x (put_req q y s).
Proof. by apply session_eq. Qed.
Lemma put_urbt_device u z d x s :
  put_urbt u z (put_device d x s) = put_device d x (put_urbt u z s).
Proof. by apply session_eq. Qed.
Lemma put_var_device p v d x s :
  put_var p v (put_device d x s) = put_device d x (put_var p v s).
Proof. by apply session_eq. Qed.
Lemma put_urbt_req u z q y s :
  put_urbt u z (put_req q y s) = put_req q y (put_urbt u z s).
Proof. by apply session_eq. Qed.
Lemma put_var_req p v q y s :
  put_var p v (put_req q y s) = put_req q y (put_var p v s).
Proof. by apply session_eq. Qed.
Lemma put_var_urbt p v u z s :
  put_var p v (put_urbt u z s) = put_urbt u z (put_var p v s).
Proof. by apply session_eq. Qed.
End put.
#[export] Hint Rewrite put_work_twice put_device_twice put_req_twice put_urbt_twice put_var_twice put_device_work put_req_work put_urbt_work
  put_var_work put_req_device put_urbt_device put_var_device put_urbt_req put_var_req put_var_urbt : put.

(** One step of a run of the library. *)
Ltac cl_step :=
  cbv beta iota;
  first
    [ erewrite bind_ok by (eapply look_ok; map_side)
    | erewrite bind_ok by (first [eapply update_work_ok | eapply update_device_ok
                                 | eapply update_urb_ok | eapply update_req_ok]; map_side)
    | erewrite bind_ok by (eapply store_var_ok; map_side)
    | exec_step ];
  cbv beta iota; obj_cbn; autorewrite with put.

(** A memory that is filled from its beginning. *)
Definition filled (mem pre : list Z) : list Z := splice mem 0 pre.

Lemma splice_in_filled n mem pre c :
  Z.of_nat (length mem) = n -> (length pre + length c <= length mem)%nat ->
  splice_in n (Z.of_nat (length pre)) (filled mem pre) c = Some (filled mem (pre ++ c)).
Proof.
  intros Hn Hl. unfold splice_in, filled.
  destruct (_ && _) eqn:E; [|apply andb_false_iff in E as [?|?]; bool_to_prop; lia].
  f_equal. rewrite Nat2Z.id. by rewrite (splice_app mem 0).
Qed.
Lemma filled_all mem data : length data = length mem -> filled mem data = data.
Proof. apply splice_all. Qed.

(** ** Finishing a work *)
Section done.
Context `{Env}.
Implicit Types (s : session) (k : kernel).

Definition signal (y : option positive) (syncs : gmap positive sync_t) : gmap positive sync_t :=
  match y with
  | Some y => alter (fun c => match c with sync_idle => sync_idle | _ => sync_woken end) y syncs
  | None => syncs
  end.
(** The work's condition can be signalled. *)
Definition signalable (y : option positive) s k : Prop :=
  match y with Some y => is_Some (ss_syncs s !! y) /\ MutexSync y ∉ k_locks k | None => True end.

Definition finished (r : work_t) : work_t :=
  r <| wk_state := ws_done |> <| wk_ref_count := wk_ref_count r - 1 |>.
Definition finish_calls (w : positive) (r : work_t) : list call :=
  (if wk_user_cb r then [UUv (UvUserCallback (wk_user_data r) (wk_ret r))] else []) ++
  (if wk_timer r then [UUv (UvTimerStop (UvWorkTimer w))] else []).
Definition after_done (w : positive) (r : work_t) s : session :=
  put_work w (finished r) (s <| ss_syncs := signal (wk_sync r) (ss_syncs s) |>).

(** A work that somebody else refers to is finished: its condition is signalled,
    its user called once, and it stays. *)
Lemma work_done_ok w r s k :
  ss_works s !! w = Some r -> 2 <= wk_ref_count r -> signalable (wk_sync r) s k ->
  work_done w s k = Ok (tt, after_done w r s, traced (finish_calls w r) k).
Proof.
  intros Hw Href Hy. unfold work_done. cl_step.
  assert (forall s1 k1, ss_works s1 = <[w := r <| wk_state := ws_done |>]> (ss_works s) ->
    (r ← look ss_works w;
     when_ (wk_user_cb r) (uv (UvUserCallback (wk_user_data r) (wk_ret r)));;
     work_unref w) s1 k1 =
    Ok (tt, s1 <| ss_works := <[w := finished r]> (ss_works s) |>,
        traced (if wk_user_cb r then [UUv (UvUserCallback (wk_user_data r) (wk_ret r))] else []) k1))
    as Htail.
  { intros s1 k1 E. erewrite bind_ok by (apply look_ok; rewrite E; apply lookup_insert_eq).
    cbn [wk_user_cb wk_user_data wk_ret set_wk_state set_field].
    erewrite bind_ok by apply when_uv_ok.
    unfold work_unref.
    erewrite bind_ok by (apply update_ok; rewrite E; apply lookup_insert_eq).
    rewrite E, insert_insert_eq.
    erewrite bind_ok by (apply look_ok; cbn; apply lookup_insert_eq).
    cbn [wk_ref_count set_wk_ref_count set_wk_state set_field].
    destruct (_ <? 0) eqn:E1; bool_to_prop; [lia|].
    destruct (_ =? 0) eqn:E2; bool_to_prop; [lia|]. done. }
  erewrite bind_ok by apply when_uv_ok.
  unfold after_done, finish_calls. rewrite <- traced_traced.
  destruct (wk_sync r) as [y|] eqn:Ey; cbn [signalable signal] in *.
  - destruct Hy as [[c Hc] Hl].
    erewrite (bind_ok _ _ _ _ tt
      (s <| ss_syncs := alter (fun c => match c with sync_idle => sync_idle | _ => sync_woken end) y (ss_syncs s) |>
         <| ss_works := <[w := r <| wk_state := ws_done |>]> (ss_works s) |>)
      (traced (if wk_timer r then [UUv (UvTimerStop (UvWorkTimer w))] else []) k)).
    + by rewrite Htail.
    + exec_step. erewrite bind_ok by (by apply update_ok).
      unfold cond_signal. erewrite bind_ok by (apply update_ok; exact Hc).
      erewrite spin_unlock_ok by (reflexivity || done). apply Ok_eq; [done| |].
      * session_eq. symmetry. by apply alter_insert_eq || (apply map_eq; intros j; destruct (decide (j = y)) as [->|];
          [by rewrite lookup_alter_eq, lookup_insert_eq, Hc|by rewrite lookup_alter_ne, lookup_insert_ne by congruence]).
      * by destruct k.
  - erewrite bind_ok by (by apply update_ok). by rewrite Htail.
Qed.
End done.

(** ** A connection's bytes reach the reader *)
Section stream.
Context `{Env} `{Arch} `{UvErrors}.
Implicit Types (s : session) (k : kernel).

(** The bytes [data] arrive at a socket in pieces of at most the given sizes: the
    loop never reads more than the buffer it was offered holds.  The bytes left
    when the sizes are used up. *)
Fixpoint uv_stream (sizes : list nat) (h : uv_handle) (data : list Z) : M session (list Z) :=
  match data, sizes with
  | [], _ => mret []
  | _, [] => mret data
  | _, n :: sizes' =>
      '(_, _, len) ← alloc_cb h;
      let n := Nat.min (S n) (Z.to_nat len) in
      uv_read h (take n data);;
      uv_stream sizes' h (drop n data)
  end.

Lemma uv_stream_nil sizes h s k : uv_stream sizes h [] s k = Ok ([], s, k).
Proof. by destruct sizes. Qed.

(** The work [w] reads [size] bytes of [h] into [b]; [At pre] is the state in which
    the bytes [pre] are there, [after pre] the one in which the loop has reported them. *)
Record reads_into (h : uv_handle) (w : positive) (b : place) (size : nat)
    (At : list Z -> session * kernel) : Prop := {
  reads_work : forall pre, (length pre <= size)%nat ->
    exists r, ss_works (At pre).1 !! w = Some r /\ wk_buf r = mkUvBuf b (Z.of_nat size) /\
      wk_nread r = Z.of_nat (length pre);
  reads_handle : forall pre, (length pre <= size)%nat ->
    handle_data h (At pre).1 (At pre).2 = Ok (Some (data_work w), (At pre).1, (At pre).2);
  reads_size : Z.of_nat size < 2 ^ 63;
  reads_store : forall pre c, (length pre + length c <= size)%nat ->
    exists s1, store_place b (Z.of_nat (length pre)) c (At pre).1 (At pre).2 =
        Ok (tt, s1, (At (pre ++ c)).2) /\
      ss_works s1 = ss_works (At pre).1 /\
      handle_data h s1 (At (pre ++ c)).2 = Ok (Some (data_work w), s1, (At (pre ++ c)).2) /\
      (forall r, ss_works (At pre).1 !! w = Some r ->
         s1 <| ss_works := <[w := r <| wk_nread := Z.of_nat (length pre + length c) |>]> (ss_works s1) |> =
         (At (pre ++ c)).1)
}.

Lemma uv_read_piece h w b size At pre c :
  reads_into h w b size At -> (length pre < size)%nat -> (length pre + length c <= size)%nat ->
  uv_read h c (At pre).1 (At pre).2 =
  (if (length pre + length c <? size)%nat then mret tt else work_process w)
    (At (pre ++ c)).1 (At (pre ++ c)).2.
Proof.
  intros [Hwk Hh Hsz Hst] Hp Hc.
  destruct (Hwk pre ltac:(lia)) as (r & Hr & Hb & Hn).
  destruct (Hst pre c Hc) as (s1 & Hs1 & Hworks & Hh1 & Heq).
  assert (u64 (Z.of_nat size - Z.of_nat (length pre)) = Z.of_nat size - Z.of_nat (length pre)) as Hu
    by int_lia.
  unfold uv_read, alloc_cb. erewrite bind_ok.
  2:{ erewrite bind_ok by (apply Hh; lia). cbn [data_is_work].
      erewrite bind_ok by reflexivity. erewrite bind_ok by (eapply look_ok; exact Hr). reflexivity. }
  cbv beta iota. rewrite Hb, Hn. cbn [buf_base buf_len]. rewrite Hu.
  erewrite bind_ok by exact Hs1. unfold read_cb.
  erewrite bind_ok by exact Hh1. cbn [data_is_work]. erewrite bind_ok by reflexivity. cbv beta.
  destruct (Z.of_nat (length c) <? 0) eqn:E; bool_to_prop; [lia|].
  erewrite bind_ok by (apply update_ok; rewrite Hworks; exact Hr). cbn [set_field set_wk_nread].
  rewrite Hn. replace (s64 (Z.of_nat (length pre) + Z.of_nat (length c)))
    with (Z.of_nat (length pre + length c)) by int_lia.
  rewrite <- (Heq r Hr). rewrite Hworks.
  replace (u64 (Z.of_nat (length c))) with (Z.of_nat (length c)) by int_lia.
  destruct (_ <? _) eqn:E1; destruct (_ <? _)%nat eqn:E2; bool_to_prop; try done;
    [apply Nat.ltb_ge in E2|apply Nat.ltb_lt in E2]; lia.
Qed.

(** However the bytes are cut, the work is called when its buffer is full. *)
Lemma uv_stream_fills h w b size At data : reads_into h w b size At ->
  forall sizes pre rest, (length pre < size)%nat -> (length pre + length data = size)%nat ->
  (length data <= length sizes)%nat ->
  exists sizes', (length sizes <= length sizes' + length data)%nat /\
  uv_stream sizes h (data ++ rest) (At pre).1 (At pre).2 =
  (work_process w;; uv_stream sizes' h rest) (At (pre ++ data)).1 (At (pre ++ data)).2.
Proof.
  intros Hrd. induction data as [data IH] using (induction_ltof1 _ (@length Z)).
  intros sizes pre rest Hp Hl Hs. unfold ltof in IH.
  destruct data as [|x data']; [cbn in Hl; lia|]. set (data := x :: data') in *.
  destruct sizes as [|n sizes]; [cbn in Hs; lia|].
  destruct Hrd as [Hwk Hh Hsz Hst] eqn:Erd. destruct (Hwk pre ltac:(lia)) as (r & Hr & Hb & Hn).
  assert (u64 (Z.of_nat size - Z.of_nat (length pre)) = Z.of_nat size - Z.of_nat (length pre)) as Hu
    by int_lia.
  set (m := Nat.min (S n) (Z.to_nat (Z.of_nat size - Z.of_nat (length pre)))).
  assert (0 < m <= length data)%nat as Hm by (unfold m; lia).
  assert (uv_stream (n :: sizes) h (data ++ rest) (At pre).1 (At pre).2 =
    (uv_read h (take m data);; uv_stream sizes h (drop m data ++ rest)) (At pre).1 (At pre).2) as ->.
  { change (data ++ rest) with (x :: (data' ++ rest)). cbn [uv_stream].
    unfold alloc_cb. erewrite bind_ok.
    2:{ erewrite bind_ok by (apply Hh; lia). cbn [data_is_work].
        erewrite bind_ok by reflexivity. erewrite bind_ok by (eapply look_ok; exact Hr). reflexivity. }
    cbv beta iota zeta. rewrite Hb, Hn. cbn [buf_len]. rewrite Hu. fold m.
    change (x :: data' ++ rest) with (data ++ rest).
    rewrite take_app_le, drop_app_le by lia. done. }
  pose proof (uv_read_piece h w b size At pre (take m data) Hrd Hp) as Hpiece.
  rewrite length_take in Hpiece. specialize (Hpiece ltac:(lia)).
  unfold mbind, M_bind at 1. rewrite Hpiece.
  destruct (_ <? _)%nat eqn:E; [apply Nat.ltb_lt in E|apply Nat.ltb_ge in E].
  - cbn [mret M_ret]. cbv beta iota.
    destruct (IH (drop m data)) with (sizes := sizes) (pre := pre ++ take m data) (rest := rest)
      as (sizes' & Hs' & ->).
    + rewrite length_drop. lia.
    + rewrite length_app, length_take. lia.
    + rewrite length_app, length_take, length_drop. lia.
    + rewrite length_drop. assert (length data = S (length data')) by done. cbn in Hs. lia.
    + exists sizes'. rewrite length_drop in Hs'. split; [assert (length data = S (length data')) by done; cbn; lia|].
      rewrite <- app_assoc, take_drop. done.
  - assert (m = length data) as Em by lia. exists sizes. split; [assert (length data = S (length data')) by done; cbn; lia|].
    rewrite Em, firstn_all, drop_all. done.
Qed.
End stream.
