(* ===== verification/ClientReplyProps.v ===== *)
(** * The client library: results of transfers

    The receiving loop of a device ([device_loop]): what a reply does to the
    transfer that waits for it. *)
From S2P Require Import Prelude Kernel Wire EventProps Exec Client ClientDev ClientProps.

(** ** Headers in memory *)
Section header.
Context `{Arch}.

Lemma word_of_word_bytes x : is_u32 x -> word_of (word_bytes x) = x.
Proof.
  intros Hx. unfold word_of, word_bytes. destruct big_endian.
  - rewrite of_be_be_bytes. by apply Z.mod_small.
  - rewrite of_le_le_bytes. by apply Z.mod_small.
Qed.

Lemma header_of_to_mem h :
  Forall is_u32 (header_words h) -> length (w_setup (h_u h)) = 8%nat ->
  header_of_mem (header_to_mem h) = h.
Proof.
  intros Hw Hs. header_open h. unfold header_to_mem, header_words.
  cbn [fmap list_fmap mjoin list_join h_base h_u command seqnum devid direction ep
       w0 w1 w2 w3 w4 w_setup].
  rewrite app_nil_r, <- !app_assoc. unfold header_of_mem.
  rewrite !word_at_S, !word_at_0 by apply length_word_bytes.
  rewrite !word_of_word_bytes by done. do 2 f_equal.
  unfold word_bytes. by destruct big_endian.
Qed.

Lemma length_header_to_mem h : length (w_setup (h_u h)) = 8%nat -> length (header_to_mem h) = 48%nat.
Proof.
  intros Hs. unfold header_to_mem, header_words. cbn [fmap list_fmap mjoin list_join].
  rewrite !length_app, !length_word_bytes, Hs. done.
Qed.
Lemma length_wire_bytes h : length (w_setup (h_u h)) = 8%nat -> length (wire_bytes h) = 48%nat.
Proof.
  intros Hs. unfold wire_bytes, header_words. cbn [fmap list_fmap mjoin list_join].
  rewrite !length_app, !length_be_bytes, Hs. done.
Qed.

(** A header of the wire unpacked in two steps, its common part first. *)
Definition half_unpacked (h : usbip_header) : usbip_header :=
  unpack_usbip_header_basic (header_of_mem (wire_bytes h)).

Lemma half_unpacked_base h : header_wf h -> h_base (half_unpacked h) = h_base h.
Proof.
  intros (Hw & Hs & _). unfold half_unpacked, unpack_usbip_header_basic.
  rewrite header_of_mem_wire by done. header_open h.
  cbn -[be32_to_cpu word_of be_bytes]. word_simp. done.
Qed.
Lemma half_unpacked_mem h :
  header_wf h -> header_of_mem (header_to_mem (half_unpacked h)) = half_unpacked h.
Proof.
  intros Hwf. apply header_of_to_mem.
  - pose proof (half_unpacked_base h Hwf) as Eb. destruct Hwf as (Hw & Hs & _).
    unfold header_words. rewrite Eb. unfold half_unpacked, unpack_usbip_header_basic.
    rewrite header_of_mem_wire by done. header_open h.
    repeat (apply Forall_cons; split; [first [done | cbn -[word_of be_bytes]; auto with usbip]|]).
    by apply Forall_nil.
  - destruct Hwf as (_ & Hs & _). unfold half_unpacked. by rewrite header_of_mem_wire.
Qed.
Lemma unpack_ret_submit_all h :
  header_wf h -> command (h_base h) = USBIP_RET_SUBMIT ->
  unpack_usbip_header_ret_submit (half_unpacked h) = h.
Proof.
  intros Hwf Hc. pose proof (half_unpacked_base h Hwf) as Eb.
  rewrite <- (correct_endian_receive h Hwf) at 2. unfold usbip_header_correct_endian. cbv zeta.
  change ((header_of_mem (wire_bytes h)) <| h_base :=
    correct_endian_basic (h_base (header_of_mem (wire_bytes h))) false |>) with (half_unpacked h).
  rewrite Eb, Hc. done.
Qed.
End header.

(** ** The loop *)
Section reply.
Context `{Env} `{Arch} `{UvErrors}.
Implicit Types (s : session) (k : kernel).

(** The work [w] is the loop of the device [d] and waits for a header. *)
Definition at_header (w d : positive) (r : work_t) (dv : device_t) s : Prop :=
  (ss_works s !! w = Some r /\ ss_devices s !! d = Some dv) /\
  (wk_cb r = device_loop_fn /\ wk_data r = Some d /\ wk_ret r = 0 /\ wk_reading r = true /\
   wk_nread r = 0 /\ wk_buf r = mkUvBuf (place_recv_header d) sizeof_header) /\
  (dv_pt dv = lc_header /\ dv_socket_data dv = Some (data_work w) /\ dv_read_list dv = [w] /\
   length (dv_recv_header dv) = 48%nat).

(** [pre] of the header is there. *)
Definition header_part (w d : positive) (r : work_t) (dv : device_t) s k (pre : list Z)
    : session * kernel :=
  (put_work w (r <| wk_nread := Z.of_nat (length pre) |>)
     (put_device d (dv <| dv_recv_header := filled (dv_recv_header dv) pre |>) s), k).

Lemma header_part_nil w d r dv s k : at_header w d r dv s -> header_part w d r dv s k [] = (s, k).
Proof.
  intros ((Hw & Hd) & (_ & _ & _ & _ & Hn & _) & _). unfold header_part. f_equal.
  unfold filled. rewrite splice_nil.
  replace (dv <| dv_recv_header := _ |>) with dv by by destruct dv.
  replace (r <| wk_nread := _ |>) with r by (destruct r; cbn in *; by subst).
  by rewrite !put_device_same, put_work_same.
Qed.

Lemma header_reads w d r dv s k :
  at_header w d r dv s -> reads_into (UvSocket d) w (place_recv_header d) 48 (header_part w d r dv s k).
Proof.
  intros ((Hw & Hd) & (_ & _ & _ & _ & Hn & Hb) & _ & Hsd & _ & Hl). split.
  - intros pre Hp. eexists. split; [apply lookup_insert_eq|]. done.
  - intros pre Hp. cbn [handle_data header_part fst snd].
    erewrite bind_ok by (eapply look_ok; map_side). cbn. by rewrite Hsd.
  - done.
  - intros pre c Hc. cbn [store_place header_part fst snd]. eexists. split.
    + cl_step. erewrite bind_ok.
      2:{ apply of_option_ok. apply splice_in_filled; cbn; lia. }
      obj_cbn. eapply update_device_ok. map_side.
    + split; [done|]. split.
      * cbn [handle_data]. erewrite bind_ok by (eapply look_ok; map_side). cbn. by rewrite Hsd.
      * intros r0. map_cbn. rewrite lookup_insert_eq. intros [= <-].
        rewrite length_app. session_eq; done.
Qed.

Lemma status_nonneg n : 0 <= n < 2 ^ 31 -> (status_of n <? 0) = false.
Proof.
  intros Hn. apply Z.ltb_ge. unfold status_of. destruct big_endian.
  - rewrite Z.div_small by int_lia. done.
  - int_lia.
Qed.

(** A list of URBs in which [u] is the first that waits for the number [n]. *)
Definition first_waiting (urbs : list positive) (n : Z) (u : positive) s : Prop :=
  exists before after, urbs = before ++ u :: after /\
    Forall (fun v => exists r, ss_urbs s !! v = Some r /\ (ub_work r = None \/ ub_seqnum r <> n)) before.

Lemma find_urb_found urbs n u ur s k :
  first_waiting urbs n u s -> ss_urbs s !! u = Some ur ->
  is_Some (ub_work ur) -> ub_seqnum ur = n ->
  find_urb_loop urbs n s k = Ok (Some u, s, k).
Proof.
  intros (before & after & -> & Hb) Hu [uw Hw] Hn.
  induction Hb as [|v before (r & Hv & Hne) _ IH]; cbn [app find_urb_loop].
  - erewrite bind_ok by (eapply look_ok; exact Hu). by rewrite Hw, Hn, Z.eqb_refl.
  - erewrite bind_ok by (eapply look_ok; exact Hv).
    destruct (ub_work r); [|done]. destruct Hne as [?|Hne]; [done|].
    apply Z.eqb_neq in Hne. by rewrite Hne.
Qed.

(** What the data of a reply does to memory: it goes to the transfer's buffer. *)
Definition data_received (ur : urb_t) (h : usbip_header) (data : list Z) k k' : Prop :=
  if ub_direction ur =? USBIP_DIR_IN then
    exists b off blk, buf_base (ub_buf ur) = place_user (b, off) /\ k_heap k !! b = Some blk /\
      0 <= off /\ off + Z.of_nat (length data) <= Z.of_nat (length blk) /\
      data <> [] /\ w1 (h_u h) = Z.of_nat (length data) /\ Z.of_nat (length data) < 2 ^ 31 /\
      k' = k <| k_heap := <[b := splice blk (Z.to_nat off) data]> (k_heap k) |>
  else data = [] /\ k' = k.

(** The device and the transfer after the result [h] of the transfer [u]. *)
Definition device_answered (dv : device_t) (u : positive) (h : usbip_header) : device_t :=
  dv <| dv_recv_header := header_to_mem h |> <| dv_recv_urb := None |>
     <| dv_urb_list := remove_id u (dv_urb_list dv) |>.
Definition urb_answered (ur : urb_t) (h : usbip_header) : urb_t :=
  ur <| ub_header := (ub_header ur) <| h_u := put_ret_submit (u_ret_submit (h_u h)) (h_u (ub_header ur)) |> |>.
Definition answered (d u ret : positive) (dv : device_t) (ur : urb_t) (h : usbip_header) s : session :=
  put_device d (device_answered dv u h)
    (put_urbt u (urb_answered ur h) (put_var ret (s32 (w1 (h_u h))) s)).

(** Back at the head of the loop. *)
Lemma loop_next_ok w d r dv s k :
  ss_works s !! w = Some r -> ss_devices s !! d = Some dv ->
  wk_reading r = false -> dv_read_list dv = [] ->
  device_loop_next w d s k =
  Ok (tt, put_work w (r <| wk_reading := true |> <| wk_nread := 0 |>
                        <| wk_buf := mkUvBuf (place_recv_header d) sizeof_header |>)
            (put_device d (dv <| dv_read_list := [w] |> <| dv_pt := lc_header |>) s), k).
Proof.
  intros Hw Hd Hr Hl. unfold device_loop_next, READ_PREPARE.
  erewrite bind_ok.
  2:{ cl_step. rewrite Hr. cbn [negb when_].
      erewrite bind_ok.
      2:{ unfold set_read_list. cl_step. eapply update_work_ok. map_side. }
      obj_cbn. rewrite Hl. eapply update_work_ok. map_side. }
  unfold WORK_YIELD, set_pt. obj_cbn. autorewrite with put.
  erewrite update_device_ok by map_side. by autorewrite with put.
Qed.

(** The transfer [dev->recv.urb] is finished with its result. *)
Lemma loop_complete_ok w d u uw ret r dv ur ruw h v s k :
  ss_works s !! w = Some r -> ss_devices s !! d = Some dv -> ss_urbs s !! u = Some ur ->
  ss_works s !! uw = Some ruw -> ss_vars s !! ret = Some v -> w <> uw ->
  wk_reading r = false -> dv_read_list dv = [] -> dv_recv_urb dv = Some u ->
  header_of_mem (dv_recv_header dv) = h ->
  ub_ret ur = Some ret -> ub_work ur = Some uw -> 2 <= wk_ref_count ruw ->
  signalable (wk_sync ruw) s k ->
  device_loop_complete w d true s k =
  Ok (tt, after_done uw ruw
            (put_work w (r <| wk_reading := true |> <| wk_nread := 0 |>
                           <| wk_buf := mkUvBuf (place_recv_header d) sizeof_header |>)
               (put_device d (dv <| dv_recv_urb := None |> <| dv_read_list := [w] |>
                                 <| dv_pt := lc_header |>)
                  (put_var ret (s32 (w1 (h_u h))) s))),
      traced (finish_calls uw ruw) k).
Proof.
  intros Hw Hd Hu Huw Hv Hne Hr Hl Hru Hh Hret Hub Href Hsg. unfold device_loop_complete.
  cl_step. rewrite Hru. cl_step. cl_step.
  erewrite bind_ok.
  2:{ rewrite Hret. cl_step. rewrite Hh. eapply store_var_ok. map_side. }
  rewrite Hub. cl_step.
  erewrite bind_ok by (apply work_done_ok; [map_side|done|done]).
  cl_step.
  erewrite loop_next_ok; cycle 1.
  - unfold after_done. map_side.
  - cbn. apply lookup_insert_eq.
  - done.
  - done.
  - apply Ok_eq; [done| |done]. unfold after_done. session_eq; [|done]. by rewrite insert_insert_ne.
Qed.

(** Resuming a work that read, without an error. *)
Lemma resume_ok w d r dv p next s k :
  ss_works s !! w = Some r -> ss_devices s !! d = Some dv -> wk_reading r = true ->
  dv_read_list dv = [w] -> wk_ret r = 0 -> 0 <= wk_nread r < 2 ^ 31 ->
  WORK_RESUME w p (reads_device d) next s k =
  next (put_work w (r <| wk_reading := false |>) (put_device d (dv <| dv_read_list := [] |>) s)) k.
Proof.
  intros Hw Hd Hr Hl Hret Hn. unfold WORK_RESUME, READ_DONE. erewrite bind_ok.
  2:{ cl_step. rewrite Hr. cbn [when_]. cl_step. unfold set_read_list. eapply update_device_ok. map_side. }
  autorewrite with put. cl_step. obj_cbn. rewrite Hret. cbn [negb Z.eqb]. rewrite status_nonneg by done.
  rewrite Hl, remove_id_cons_eq. unfold remove_id. done.
Qed.

(** A result for the transfer [u] has arrived: what is noted of it, and what is
    done next. *)
Definition result_noted (w d u : positive) (r : work_t) (dv : device_t) (ur : urb_t)
    (h : usbip_header) s : session :=
  put_work w (r <| wk_reading := false |> <| wk_nread := put_status (s32 (w0 (h_u h))) 48 |>)
    (put_device d (dv <| dv_recv_header := header_to_mem h |> <| dv_recv_urb := Some u |>
                      <| dv_read_list := [] |>
                      <| dv_urb_list := remove_id u (dv_urb_list dv) |>)
       (put_urbt u (urb_answered ur h) s)).

Definition result_next (w d u : positive) (h : usbip_header) : M session unit :=
  if negb (s32 (w0 (h_u h)) =? 0) then
    WORK_SET_ERR w UV_EIO;; device_loop_complete w d false
  else
    ur ← look ss_urbs u;
    if ub_direction ur =? USBIP_DIR_IN then
      READ_PREPARE w (reads_device d) (buf_base (ub_buf ur)) (s32 (w1 (h_u h)));;
      WORK_YIELD (pt_device d) lc_data
    else device_loop_complete w d true.

Lemma result_header_ok w d u r dv ur h s k :
  at_header w d r dv s -> header_wf h -> command (h_base h) = USBIP_RET_SUBMIT ->
  first_waiting (dv_urb_list dv) (seqnum (h_base h)) u s ->
  ss_urbs s !! u = Some ur -> is_Some (ub_work ur) -> ub_seqnum ur = seqnum (h_base h) ->
  let p := header_part w d r dv s k (wire_bytes h) in
  work_process w p.1 p.2 = result_next w d u h (result_noted w d u r dv ur h s) k.
Proof.
  intros ((Hw & Hd) & (Hcb & Hdata & Hret & Hrd & Hn & Hbuf) & Hpt & Hsd & Hrl & Hlen) Hwf Hc Hfw Hu Huw Hseq p.
  pose proof Hwf as (Hwords & Hsetup & _).
  unfold work_process, p, header_part. cbn [fst snd]. rewrite length_wire_bytes by done.
  rewrite filled_all by (by rewrite length_wire_bytes).
  cl_step. rewrite Hcb, Hdata. cl_step. unfold device_loop_process, get_pt.
  erewrite bind_ok by (cl_step; reflexivity). obj_cbn. rewrite Hpt.
  erewrite resume_ok; [|map_side|map_side|done|done|done|done].
  unfold device_loop_header, modify_recv_header. cl_step.
  obj_cbn.
  fold (half_unpacked h). unfold recv_header.
  erewrite bind_ok by (cl_step; reflexivity). obj_cbn.
  rewrite half_unpacked_mem, half_unpacked_base, Hc by done. cbn [Z.eqb].
  change (USBIP_RET_SUBMIT =? USBIP_RET_SUBMIT) with true. cbv iota.
  cl_step. obj_cbn.
  rewrite half_unpacked_mem, unpack_ret_submit_all by done.
  erewrite bind_ok by (cl_step; reflexivity). obj_cbn.
  rewrite header_of_to_mem by done. cbv zeta. unfold device_find_urb. erewrite bind_ok.
  2:{ cl_step. obj_cbn.
      rewrite header_of_to_mem by done.
      erewrite bind_ok by (eapply find_urb_found; [exact Hfw|map_side|done|done]).
      cl_step. reflexivity. }
  cbn [negb]. cl_step. obj_cbn. cl_step. cl_step. cl_step. cl_step.
  unfold result_next, result_noted. destruct r, dv. cbn in Hcb, Hdata, Hpt. by subst.
Qed.

(** *** The data of a reply *)

Definition data_part (w : positive) (r : work_t) (b : positive) (off : Z) (blk : list Z) s k
    (pre : list Z) : session * kernel :=
  (put_work w (r <| wk_nread := Z.of_nat (length pre) |>) s,
   k <| k_heap := <[b := splice blk (Z.to_nat off) pre]> (k_heap k) |>).

Lemma data_reads w d r dv b off blk n s k :
  ss_works s !! w = Some r -> ss_devices s !! d = Some dv -> dv_socket_data dv = Some (data_work w) ->
  wk_buf r = mkUvBuf (place_user (b, off)) (Z.of_nat n) -> Z.of_nat n < 2 ^ 31 ->
  0 <= off -> off + Z.of_nat n <= Z.of_nat (length blk) ->
  reads_into (UvSocket d) w (place_user (b, off)) n (data_part w r b off blk s k).
Proof.
  intros Hw Hd Hsd Hb Hn Ho Hl. split.
  - intros pre Hp. eexists. split; [apply lookup_insert_eq|]. done.
  - intros pre Hp. cbn [handle_data data_part fst snd].
    erewrite bind_ok by (eapply look_ok; map_side). by rewrite Hsd.
  - lia.
  - intros pre c Hc. cbn [store_place data_part fst snd]. eexists. split.
    + unfold store_bytes, ptr_add. cbn [fst snd k_heap set_k_heap set_field]. rewrite lookup_insert_eq.
      rewrite length_splice by lia.
      destruct (_ && _) eqn:E; [|apply andb_false_iff in E as [?|?]; bool_to_prop; lia].
      apply Ok_eq; [done|reflexivity|]. cbn. rewrite insert_insert_eq.
      rewrite Z2Nat.inj_add, Nat2Z.id, splice_app by lia. done.
    + split; [done|]. split.
      * cbn [handle_data]. erewrite bind_ok by (eapply look_ok; map_side). by rewrite Hsd.
      * intros r0. map_cbn. rewrite lookup_insert_eq. intros [= <-].
        rewrite length_app. session_eq; done.
Qed.

(** The state once the reply has been handled. *)
Lemma answer_state w d u uw ret r dv ur ruw h n s :
  at_header w d r dv s -> w <> uw ->
  after_done uw ruw
    (put_work w (r <| wk_reading := false |> <| wk_nread := n |> <| wk_reading := true |>
                   <| wk_nread := 0 |> <| wk_buf := mkUvBuf (place_recv_header d) sizeof_header |>)
       (put_device d (dv <| dv_recv_header := header_to_mem h |> <| dv_recv_urb := Some u |>
                         <| dv_read_list := [] |> <| dv_urb_list := remove_id u (dv_urb_list dv) |>
                         <| dv_recv_urb := None |> <| dv_read_list := [w] |> <| dv_pt := lc_header |>)
          (put_var ret (s32 (w1 (h_u h))) (put_urbt u (urb_answered ur h) s)))) =
  after_done uw ruw (answered d u ret dv ur h s).
Proof.
  intros ((Hw & Hd) & (Hcb & Hdata & Hret & Hrd & Hn & Hbuf) & Hpt & Hsd & Hrl & Hlen) Hne.
  f_equal. replace (_ <| wk_buf := _ |>) with r
    by (destruct r; cbn in *; by subst).
  autorewrite with put. rewrite put_work_same by (map_side). unfold answered.
  f_equal. destruct dv. cbn in *. by subst.
Qed.

Lemma data_part_nil w r b off blk s k :
  ss_works s !! w = Some r -> wk_nread r = 0 -> k_heap k !! b = Some blk ->
  data_part w r b off blk s k [] = (s, k).
Proof.
  intros Hw Hn Hb. unfold data_part. rewrite splice_nil, insert_id by done.
  replace (r <| wk_nread := _ |>) with r by (destruct r; cbn in *; by subst).
  rewrite put_work_same by done. f_equal. by destruct k.
Qed.

(** The data is there. *)
Lemma data_complete_ok w d u uw ret r dv ur ruw h v s k :
  ss_works s !! w = Some r -> ss_devices s !! d = Some dv -> ss_urbs s !! u = Some ur ->
  wk_cb r = device_loop_fn -> wk_data r = Some d -> wk_ret r = 0 -> wk_reading r = true ->
  0 <= wk_nread r < 2 ^ 31 -> dv_pt dv = lc_data -> dv_read_list dv = [w] ->
  ss_works s !! uw = Some ruw -> ss_vars s !! ret = Some v -> w <> uw ->
  dv_recv_urb dv = Some u -> header_of_mem (dv_recv_header dv) = h ->
  ub_ret ur = Some ret -> ub_work ur = Some uw -> 2 <= wk_ref_count ruw ->
  signalable (wk_sync ruw) s k ->
  work_process w s k =
  Ok (tt, after_done uw ruw
            (put_work w (r <| wk_reading := false |> <| wk_reading := true |> <| wk_nread := 0 |>
                           <| wk_buf := mkUvBuf (place_recv_header d) sizeof_header |>)
               (put_device d (dv <| dv_read_list := [] |> <| dv_recv_urb := None |>
                                 <| dv_read_list := [w] |> <| dv_pt := lc_header |>)
                  (put_var ret (s32 (w1 (h_u h))) s))),
      traced (finish_calls uw ruw) k).
Proof.
  intros Hw Hd Hu Hcb Hdata Hret Hrd Hn Hpt Hrl Hruw Hv Hne Hru Hh Hr Huw Href Hsg.
  unfold work_process. cl_step. rewrite Hcb, Hdata. cl_step.
  unfold device_loop_process, get_pt. erewrite bind_ok by (cl_step; reflexivity). rewrite Hpt.
  erewrite resume_ok; [|map_side|map_side|done|done|done|done].
  erewrite (loop_complete_ok w d u uw ret _ _ ur ruw h v);
    [|map_side|map_side|map_side|map_side|map_side|done..].
  apply Ok_eq; [done| |done]. autorewrite with put. destruct r. cbn in Hcb, Hdata. by subst.
Qed.

(** The header of a result reaches [result_next]. *)
Lemma header_stream w d u r dv ur h rest sizes s k :
  at_header w d r dv s -> header_wf h -> command (h_base h) = USBIP_RET_SUBMIT ->
  first_waiting (dv_urb_list dv) (seqnum (h_base h)) u s ->
  ss_urbs s !! u = Some ur -> is_Some (ub_work ur) -> ub_seqnum ur = seqnum (h_base h) ->
  (48 <= length sizes)%nat ->
  exists sizes', (length sizes <= length sizes' + 48)%nat /\
  uv_stream sizes (UvSocket d) (wire_bytes h ++ rest) s k =
  (result_next w d u h;; uv_stream sizes' (UvSocket d) rest) (result_noted w d u r dv ur h s) k.
Proof.
  intros Hat Hwf Hc Hfw Hu Huw Hseq Hs. pose proof Hwf as (_ & Hsetup & _).
  pose proof (length_wire_bytes h Hsetup) as Hlen.
  destruct (uv_stream_fills _ _ _ _ _ (wire_bytes h) (header_reads w d r dv s k Hat) sizes [] rest)
    as (sizes' & Hs' & Hrun); rewrite ?Hlen; cbn [length]; try lia.
  rewrite (header_part_nil _ _ _ _ _ _ Hat) in Hrun. cbn [fst snd app] in Hrun.
  exists sizes'. split; [lia|]. rewrite Hrun. unfold mbind, M_bind at 1.
  by rewrite result_header_ok with (u := u) (ur := ur) by done.
Qed.

Lemma reply_run w d u uw ret r dv ur ruw h v data sizes s k k' :
  at_header w d r dv s -> header_wf h -> command (h_base h) = USBIP_RET_SUBMIT -> w0 (h_u h) = 0 ->
  first_waiting (dv_urb_list dv) (seqnum (h_base h)) u s ->
  ss_urbs s !! u = Some ur -> ub_work ur = Some uw -> ub_seqnum ur = seqnum (h_base h) ->
  ub_ret ur = Some ret -> ss_vars s !! ret = Some v ->
  ss_works s !! uw = Some ruw -> w <> uw -> 2 <= wk_ref_count ruw -> signalable (wk_sync ruw) s k ->
  data_received ur h data k k' -> (48 + length data <= length sizes)%nat ->
  uv_stream sizes (UvSocket d) (wire_bytes h ++ data) s k =
  Ok ([], after_done uw ruw (answered d u ret dv ur h s), traced (finish_calls uw ruw) k').
Proof.
  intros Hat Hwf Hc Hst Hfw Hu Huw Hseq Hret Hv Hruw Hne Href Hsg Hdata Hs.
  destruct (header_stream w d u r dv ur h data sizes s k) as (sizes' & Hs' & ->); try done; [lia|].
  pose proof Hwf as (Hwords & Hsetup & _). pose proof Hat as ((Hw & Hd) & (Hcb & Hwd & Hr0 & _) & _ & Hsd & _).
  assert (header_of_mem (header_to_mem h) = h) as Hmem by by apply header_of_to_mem.
  unfold result_next. rewrite Hst. change (s32 0 =? 0) with true. cbn [negb].
  unfold data_received in Hdata. unfold result_noted at 1.
  destruct (ub_direction ur =? USBIP_DIR_IN) eqn:Edir.
  - destruct Hdata as (b & off & blk & Hbuf & Hblk & Ho & Hl & Hnil & Hw1 & Hlt & ->).
    assert (s32 (w1 (h_u h)) = Z.of_nat (length data)) as Hn by (rewrite Hw1; int_lia).
    assert (u64 (Z.of_nat (length data)) = Z.of_nat (length data)) as Hn64 by int_lia.
    erewrite bind_ok.
    2:{ cl_step. unfold urb_answered. obj_cbn. rewrite Edir, Hbuf. erewrite bind_ok.
        2:{ unfold READ_PREPARE. cl_step. cbn [negb when_]. erewrite bind_ok.
            2:{ erewrite bind_ok by (unfold set_read_list; eapply update_device_ok; map_side).
                obj_cbn. eapply update_work_ok. map_side. }
            obj_cbn. eapply update_work_ok. map_side. }
        unfold WORK_YIELD, set_pt. obj_cbn. eapply update_device_ok. map_side. }
    cbv beta. autorewrite with put. rewrite Hn, Hn64. obj_cbn.
    match goal with |- uv_stream _ _ _ (put_work w ?r2 (put_device d ?dv2 ?s2)) k = _ =>
      set (r' := r2); set (dv' := dv2); set (s' := put_work w r' (put_device d dv' s2)) end.
    assert (ss_works s' !! w = Some r') as Hw' by (unfold s'; map_side).
    assert (ss_devices s' !! d = Some dv') as Hd' by (unfold s'; map_side).
    rewrite <- (app_nil_r data) at 1.
    destruct (uv_stream_fills _ _ _ _ _ data
      (data_reads w d r' dv' b off blk (length data) s' k Hw' Hd' Hsd eq_refl Hlt Ho Hl) sizes' [] [])
      as (sizes'' & _ & Hrun); [destruct data; [done|cbn; lia]|done|lia|].
    rewrite data_part_nil in Hrun by done. cbn [fst snd app] in Hrun. rewrite Hrun.
    unfold mbind, M_bind at 1. unfold data_part. cbn [fst snd].
    rewrite (data_complete_ok w d u uw ret (r' <| wk_nread := Z.of_nat (length data) |>) dv'
      (urb_answered ur h) ruw h v); unfold s';
      [|map_side|map_side|map_side|exact Hcb|exact Hwd|exact Hr0|reflexivity
       |cbn [wk_nread set_wk_nread set_field]; lia|reflexivity|reflexivity|map_side|map_side|done..].
    rewrite uv_stream_nil. cbv beta iota.
    rewrite <- (answer_state w d u uw ret r dv ur ruw h 0 s Hat Hne).
    apply Ok_eq; [done| |done]. autorewrite with put. done.
  - destruct Hdata as [-> ->].
    erewrite bind_ok.
    2:{ cl_step. unfold urb_answered. obj_cbn. rewrite Edir.
        eapply (loop_complete_ok w d u uw ret _ _ (urb_answered ur h) ruw h v);
          [map_side|map_side|map_side|map_side|map_side|done..]. }
    rewrite uv_stream_nil, <- (answer_state w d u uw ret r dv ur ruw h
      (put_status (s32 (w0 (h_u h))) 48) s Hat Hne).
    apply Ok_eq; [done| |done]. autorewrite with put. done.
Qed.

(** A result without data for a transfer that asked for some: the loop asks for none. *)
Definition stuck (w d u : positive) (r : work_t) (dv : device_t) (ur : urb_t)
    (h : usbip_header) s : session :=
  put_work w (r <| wk_nread := 0 |> <| wk_buf := mkUvBuf (buf_base (ub_buf ur)) 0 |>)
    (put_device d (dv <| dv_recv_header := header_to_mem h |> <| dv_recv_urb := Some u |>
                      <| dv_urb_list := remove_id u (dv_urb_list dv) |> <| dv_pt := lc_data |>)
       (put_urbt u (urb_answered ur h) s)).

Lemma empty_run w d u r dv ur h sizes s k :
  at_header w d r dv s -> header_wf h -> command (h_base h) = USBIP_RET_SUBMIT -> w0 (h_u h) = 0 ->
  w1 (h_u h) = 0 -> ub_direction ur = USBIP_DIR_IN ->
  first_waiting (dv_urb_list dv) (seqnum (h_base h)) u s ->
  ss_urbs s !! u = Some ur -> is_Some (ub_work ur) -> ub_seqnum ur = seqnum (h_base h) ->
  (48 <= length sizes)%nat ->
  uv_stream sizes (UvSocket d) (wire_bytes h) s k = Ok ([], stuck w d u r dv ur h s, k).
Proof.
  intros Hat Hwf Hc Hst Hlen0 Hdir Hfw Hu Huw Hseq Hs. rewrite <- (app_nil_r (wire_bytes h)).
  destruct (header_stream w d u r dv ur h [] sizes s k) as (sizes' & Hs' & ->); try done.
  pose proof Hat as ((Hw & Hd) & (Hcb & Hwd & Hr0 & Hrd & Hn & Hbuf) & Hpt & Hsd & Hrl & Hlen).
  unfold result_next. rewrite Hst, Hlen0. change (s32 0 =? 0) with true. change (s32 0) with 0. cbn [negb].
  unfold result_noted. erewrite bind_ok.
  2:{ cl_step. unfold urb_answered. obj_cbn. rewrite Hdir. change (USBIP_DIR_IN =? USBIP_DIR_IN) with true.
      cbv iota. erewrite bind_ok.
      2:{ unfold READ_PREPARE. cl_step. cbn [negb when_]. erewrite bind_ok.
          2:{ erewrite bind_ok by (unfold set_read_list; eapply update_device_ok; map_side).
              obj_cbn. eapply update_work_ok. map_side. }
          obj_cbn. eapply update_work_ok. map_side. }
      unfold WORK_YIELD, set_pt. obj_cbn. eapply update_device_ok. map_side. }
  rewrite uv_stream_nil. apply Ok_eq; [done| |done]. autorewrite with put. unfold stuck.
  destruct r, dv. cbn in Hcb, Hwd, Hr0, Hrd, Hn, Hbuf, Hpt, Hsd, Hrl. subst. session_eq; try done.
  destruct ur. cbn in Hdir. by subst.
Qed.

(** Handled, the loop waits for the next header. *)
Lemma at_header_answered w d u uw ret r dv ur ruw h s :
  at_header w d r dv s -> w <> uw -> length (w_setup (h_u h)) = 8%nat ->
  at_header w d r (device_answered dv u h) (after_done uw ruw (answered d u ret dv ur h s)).
Proof.
  intros ((Hw & Hd) & Hwork & Hpt & Hsd & Hrl & Hlen) Hne Hs. unfold after_done, answered.
  split; [split; map_side|]. split; [done|].
  repeat split; try done. cbn. by apply length_header_to_mem.
Qed.

(** A result with an error: the loop notes EIO, the transfer is finished without. *)
Definition failed (w d u : positive) (r : work_t) (dv : device_t) (ur : urb_t)
    (h : usbip_header) s : session :=
  put_work w (r <| wk_ret := - UV_EIO |>)
    (put_device d (device_answered dv u h) (put_urbt u (urb_answered ur h) s)).

Lemma failed_run w d u uw r dv ur ruw h sizes s k :
  at_header w d r dv s -> header_wf h -> command (h_base h) = USBIP_RET_SUBMIT -> w0 (h_u h) <> 0 ->
  first_waiting (dv_urb_list dv) (seqnum (h_base h)) u s ->
  ss_urbs s !! u = Some ur -> ub_work ur = Some uw -> ub_seqnum ur = seqnum (h_base h) ->
  ss_works s !! uw = Some ruw -> w <> uw -> 2 <= wk_ref_count ruw -> signalable (wk_sync ruw) s k ->
  (48 <= length sizes)%nat ->
  uv_stream sizes (UvSocket d) (wire_bytes h) s k =
  Ok ([], after_done uw ruw (failed w d u r dv ur h s), traced (finish_calls uw ruw) k).
Proof.
  intros Hat Hwf Hc Hst Hfw Hu Huw Hseq Hruw Hne Href Hsg Hs.
  rewrite <- (app_nil_r (wire_bytes h)).
  destruct (header_stream w d u r dv ur h [] sizes s k) as (sizes' & Hs' & ->); try done.
  pose proof Hwf as (Hwords & _). pose proof Hat as ((Hw & Hd) & (Hcb & Hwd & Hr0 & Hrd & Hn & Hbuf) & Hpt & Hsd & Hrl & Hlen).
  unfold result_next. destruct (s32 (w0 (h_u h)) =? 0) eqn:Est; cbn [negb].
  { exfalso. apply Hst. bool_to_prop. header_open h. int_lia. }
  unfold result_noted. erewrite bind_ok.
  2:{ unfold WORK_SET_ERR. erewrite bind_ok by (eapply update_work_ok; map_side). obj_cbn.
      rewrite Hr0. cbn [Z.eqb]. autorewrite with put.
      unfold device_loop_complete. cl_step. cl_step. cl_step. cl_step. unfold urb_answered. obj_cbn. rewrite Huw. cl_step.
      erewrite bind_ok by (apply work_done_ok; [map_side|done|done]).
      erewrite bind_ok by (eapply update_device_ok; unfold after_done; map_side).
      eapply loop_next_ok; [unfold after_done; map_side|map_side|done|done]. }
  rewrite uv_stream_nil. apply Ok_eq; [done| |done]. obj_cbn. unfold after_done, failed.
  destruct r, dv. cbn in Hcb, Hwd, Hr0, Hrd, Hn, Hbuf, Hpt, Hsd, Hrl. subst.
  session_eq; try done. { by rewrite (insert_insert_ne _ w uw), insert_insert_eq by done. }
  destruct ur. cbn in Huw. by subst.
Qed.

(** [d] has a receiving loop [w] that waits for a header. *)
Definition receiving (w d : positive) s : Prop := exists r dv, at_header w d r dv s.

(** [u] waits in [d]'s list for the result with the number [n]; its work [uw] is
    somebody else's too, its result goes to the variable [ret]. *)
Definition waiting (d u uw : positive) (ur : urb_t) (ruw : work_t) (ret : positive) (n : Z) s k : Prop :=
  (exists dv, ss_devices s !! d = Some dv /\ first_waiting (dv_urb_list dv) n u s) /\
  (ss_urbs s !! u = Some ur /\ ub_work ur = Some uw /\ ub_seqnum ur = n /\ ub_ret ur = Some ret) /\
  is_Some (ss_vars s !! ret) /\
  (ss_works s !! uw = Some ruw /\ 2 <= wk_ref_count ruw /\ signalable (wk_sync ruw) s k).

(** C7: However the connection cuts the stream, the successful result of a waiting
    transfer and its data, at least one byte for an IN transfer and no more than the
    memory behind the user's buffer, are taken off it exactly: the data is in the
    buffer, its length in the user's variable, the work finished with its callback
    called once, the transfer off the list, and the loop waits for the next header.
    A successful result of no bytes for an IN transfer does not finish it: the
    transfer is off the list, its work, the variable and memory are as before, no
    callback is called, and the loop has asked for the data, all zero bytes of it. *)
Theorem result_completes_transfer w d u uw ret ur ruw h sizes s k :
  receiving w d s -> waiting d u uw ur ruw ret (seqnum (h_base h)) s k -> w <> uw ->
  header_wf h -> command (h_base h) = USBIP_RET_SUBMIT -> w0 (h_u h) = 0 ->
  (forall data k', data_received ur h data k k' -> (48 + length data <= length sizes)%nat ->
   exists s' dv', uv_stream sizes (UvSocket d) (wire_bytes h ++ data) s k =
     Ok ([], s', traced (finish_calls uw ruw) k') /\
   receiving w d s' /\
   ss_devices s' !! d = Some dv' /\ u ∉ dv_urb_list dv' /\
   ss_works s' !! uw = Some (finished ruw) /\ ss_vars s' !! ret = Some (s32 (w1 (h_u h))) /\
   (forall p, p <> ret -> ss_vars s' !! p = ss_vars s !! p) /\
   (forall p, p <> uw -> ss_works s' !! p = ss_works s !! p)) /\
  (ub_direction ur = USBIP_DIR_IN -> w1 (h_u h) = 0 -> (48 <= length sizes)%nat ->
   exists s' dv' r, uv_stream sizes (UvSocket d) (wire_bytes h) s k = Ok ([], s', k) /\
   ss_works s' !! uw = Some ruw /\ ss_vars s' = ss_vars s /\
   ss_devices s' !! d = Some dv' /\ u ∉ dv_urb_list dv' /\ dv_pt dv' = lc_data /\
   ss_works s' !! w = Some r /\ wk_buf r = mkUvBuf (buf_base (ub_buf ur)) 0).
Proof.
  intros (r & dv & Hat) ((dv0 & Hdv & Hfw) & (Hu & Huw & Hseq & Hret) & [v Hv] & Hruw & Href & Hsg)
    Hne Hwf Hc Hst.
  pose proof Hat as ((Hw & Hd) & _). assert (dv0 = dv) as -> by congruence. split.
  - intros data k' Hdata Hs.
    exists (after_done uw ruw (answered d u ret dv ur h s)), (device_answered dv u h). split; [by eapply reply_run|].
    pose proof (at_header_answered w d u uw ret r dv ur ruw h s Hat Hne) as Hat'.
    split; [eexists _, _; apply Hat', Hwf|].
    unfold after_done, answered. split; [map_side|]. split.
    { cbn. rewrite elem_of_remove_id. naive_solver. }
    split; [map_side|]. split; [map_side|].
    split; intros p Hp; map_cbn; by rewrite lookup_insert_ne.
  - intros Hdir Hlen Hs. eexists (stuck w d u r dv ur h s), _, _.
    split; [by apply empty_run|]. unfold stuck. split; [map_side|]. split; [done|]. split; [map_side|].
    split; [cbn; rewrite elem_of_remove_id; naive_solver|]. split; [done|]. split; [map_side|done].
Qed.

(** C40: A result with an error finishes its transfer with no error of its own and
    leaves the user's variable alone; the loop only takes a note of it and waits for
    another header. *)
Theorem failed_result_noted w d u uw ret ur ruw h sizes s k :
  receiving w d s -> waiting d u uw ur ruw ret (seqnum (h_base h)) s k -> w <> uw ->
  header_wf h -> command (h_base h) = USBIP_RET_SUBMIT -> w0 (h_u h) <> 0 ->
  (48 <= length sizes)%nat ->
  exists s' r, uv_stream sizes (UvSocket d) (wire_bytes h) s k =
    Ok ([], s', traced (finish_calls uw ruw) k) /\
  ss_works s' !! uw = Some (finished ruw) /\ ss_vars s' = ss_vars s /\
  ss_works s !! w = Some r /\ ss_works s' !! w = Some (r <| wk_ret := - UV_EIO |>).
Proof.
  intros (r & dv & Hat) ((dv0 & Hdv & Hfw) & (Hu & Huw & Hseq & Hret) & _ & Hruw & Href & Hsg)
    Hne Hwf Hc Hst Hs.
  pose proof Hat as ((Hw & Hd) & _). assert (dv0 = dv) as -> by congruence.
  exists (after_done uw ruw (failed w d u r dv ur h s)), r.
  split; [by eapply failed_run|]. unfold after_done, failed.
  split; [map_side|]. split; [done|]. split; [done|]. map_side.
Qed.
End reply.

(** ** A device with one transfer *)

Definition quiet_env : Env := fun _ _ => (0, []).
Definition some_errors : UvErrors :=
  {| UV_ECANCELED := 125; UV_ETIMEDOUT := 110; UV_EIO := 5; UV_EINVAL := 22; UV_EBUSY := 16 |}.
Definition demo_loop : work_t :=
  work_zero <| wk_ref_count := 1 |> <| wk_state := ws_busy |> <| wk_data := Some 20%positive |>
    <| wk_cb := device_loop_fn |> <| wk_reading := true |>
    <| wk_buf := mkUvBuf (place_recv_header 20) sizeof_header |>.
Definition demo_work : work_t :=
  work_zero <| wk_ref_count := 2 |> <| wk_state := ws_busy |> <| wk_data := Some 30%positive |>
    <| wk_cb := device_urb_transfer_fn |> <| wk_user_cb := true |> <| wk_user_data := 7 |>.
Definition demo_device : device_t :=
  device_zero <| dv_socket_data := Some (data_work 10) |> <| dv_pt := lc_header |>
    <| dv_ref_count := 3 |> <| dv_state := devs_opening |> <| dv_urb_list := [30%positive] |>
    <| dv_read_list := [10%positive] |>.
Definition demo_urb : urb_t :=
  urb_zero_t <| ub_dev := 20%positive |> <| ub_work := Some 40%positive |> <| ub_seqnum := 4 |>
    <| ub_direction := USBIP_DIR_IN |> <| ub_buf := mkUvBuf (place_user (60%positive, 0)) 4 |>
    <| ub_ret := Some 50%positive |>.
Definition demo_session : session :=
  session_zero <| ss_works := {[10%positive := demo_loop; 40%positive := demo_work]} |>
    <| ss_devices := {[20%positive := demo_device]} |> <| ss_urbs := {[30%positive := demo_urb]} |>
    <| ss_vars := {[50%positive := -1]} |>.
Definition demo_kernel : kernel := mkKernel {[60%positive := [9; 9; 9; 9]]} ∅ ∅ ∅ [] [] 100%positive.
Definition demo_result (status n : Z) : usbip_header :=
  mkHeader (mkBasic USBIP_RET_SUBMIT 4 0 0 0) (mkUnion status n 0 0 0 (replicate 8 0)).

Lemma demo_receiving : receiving 10 20 demo_session.
Proof. by exists demo_loop, demo_device. Defined.
Lemma demo_waiting : waiting 20 30 40 demo_urb demo_work 50 4 demo_session demo_kernel.
Proof.
  split; [exists demo_device; split; [done|]; by exists [], []|]. by repeat split.
Defined.
Lemma demo_result_wf status n : is_u32 status -> is_u32 n -> header_wf (demo_result status n).
Proof.
  intros. split; [|split; [done|split; [done|by intros [?|?]]]].
  repeat (apply Forall_cons; split; [done|]). by apply Forall_nil.
Defined.

Lemma result_completes_transfer_witness :
  receiving 10 20 demo_session /\
  (exists s' dv', @uv_stream quiet_env false some_errors (replicate 51 0%nat) (UvSocket 20)
      (wire_bytes (demo_result 0 3) ++ [1; 2; 3]) demo_session demo_kernel =
    Ok ([], s', traced (finish_calls 40 demo_work)
                  (demo_kernel <| k_heap := {[60%positive := [1; 2; 3; 9]]} |>)) /\
    ss_vars s' !! 50%positive = Some 3 /\ ss_devices s' !! 20%positive = Some dv') /\
  exists s', @uv_stream quiet_env false some_errors (replicate 48 0%nat) (UvSocket 20)
      (wire_bytes (demo_result 0 0)) demo_session demo_kernel = Ok ([], s', demo_kernel) /\
    ss_works s' !! 40%positive = Some demo_work.
Proof.
  split; [exact demo_receiving|].
  split.
  - destruct (@result_completes_transfer quiet_env false some_errors 10 20 30 40 50 demo_urb demo_work
      (demo_result 0 3) (replicate 51 0%nat) demo_session demo_kernel) as [Hdone _];
      [exact demo_receiving|exact demo_waiting|done|by apply demo_result_wf|done|done|].
    destruct (Hdone [1; 2; 3] (demo_kernel <| k_heap := {[60%positive := [1; 2; 3; 9]]} |>))
      as (s' & dv' & Hrun & _ & Hd & _ & _ & Hv & _); [|cbn; lia|].
    + exists 60%positive, 0, [9; 9; 9; 9]. by repeat split.
    + exists s', dv'. split; [exact Hrun|]. split; [exact Hv|exact Hd].
  - destruct (@result_completes_transfer quiet_env false some_errors 10 20 30 40 50 demo_urb demo_work
      (demo_result 0 0) (replicate 48 0%nat) demo_session demo_kernel) as [_ Hempty];
      [exact demo_receiving|exact demo_waiting|done|by apply demo_result_wf|done|done|].
    destruct Hempty as (s' & dv' & r & Hrun & Hw & _); [done|done|cbn; lia|].
    exists s'. split; [exact Hrun|exact Hw].
Defined.

Lemma failed_result_noted_witness :
  receiving 10 20 demo_session /\
  exists s' r, @uv_stream quiet_env false some_errors (replicate 48 9%nat) (UvSocket 20)
      (wire_bytes (demo_result (2 ^ 32 - 32) 0)) demo_session demo_kernel =
    Ok ([], s', traced (finish_calls 40 demo_work) demo_kernel) /\
    ss_vars s' !! 50%positive = Some (-1) /\ ss_works s' !! 10%positive = Some r /\ wk_ret r = -5.
Proof.
  split; [exact demo_receiving|].
  destruct (@failed_result_noted quiet_env false some_errors 10 20 30 40 50 demo_urb demo_work
    (demo_result (2 ^ 32 - 32) 0) (replicate 48 9%nat) demo_session demo_kernel)
    as (s' & r & Hrun & _ & Hv & _ & Hr);
    [exact demo_receiving|exact demo_waiting|done|by apply demo_result_wf|done|done|cbn; lia|].
  exists s', (r <| wk_ret := -5 |>). rewrite Hv.
  split; [exact Hrun|]. split; [reflexivity|]. split; [exact Hr|reflexivity].
Defined.
