(* ===== verification/ClientOpenProps.v ===== *)
(** * The client library: opening a device

    [device_open_cb]: connecting, asking the daemon for the device, and what its
    answer does. *)
From S2P Require Import Prelude CLib Kernel Wire NetWire EventProps Exec Client ClientDev ClientProps ClientReplyProps.

Section open.
Context `{Env} `{Ar : Arch} `{UvErrors}.
Implicit Types (s : session) (k : kernel).

(** Initialising a socket, connecting, reading and writing can be started. *)
Definition network_up : Prop := forall tr c,
  match c with
  | UvTcpInit _ | UvTcpConnect _ _ _ _ | UvReadStart _ | UvWrite _ _ _ =>
      (env_answer tr (UUv c)).1 = 0
  | _ => True
  end.

Lemma async_ok w p c next s k :
  (env_answer (k_trace k) (UUv c)).1 = 0 -> WORK_ASYNC w p c next s k = next s (traced [UUv c] k).
Proof.
  intros E. unfold WORK_ASYNC. erewrite bind_ok by apply uv_ret_ok. by rewrite E.
Qed.

Lemma status_put st n : is_s32 st -> status_of (put_status st n) = st.
Proof. intros Hs. unfold status_of, put_status. destruct big_endian; int_lia. Qed.

(** Resuming a work that does not read. *)
Lemma resume_idle_ok w r p o next s k :
  ss_works s !! w = Some r -> wk_reading r = false -> wk_ret r = 0 -> 0 <= status_of (wk_nread r) ->
  WORK_RESUME w p o next s k = next s k.
Proof.
  intros Hw Hr Hret Hn. unfold WORK_RESUME, READ_DONE. erewrite bind_ok.
  2:{ cl_step. rewrite Hr. reflexivity. }
  cl_step. rewrite Hret. cbn [negb Z.eqb]. by destruct (_ <? 0) eqn:E; bool_to_prop; [lia|].
Qed.

(** The work [w] opens the device [d], from its beginning. *)
Definition opening (w d : positive) (r : work_t) (dv : device_t) s : Prop :=
  (ss_works s !! w = Some r /\ ss_devices s !! d = Some dv) /\
  (wk_cb r = device_open_cb_fn /\ wk_data r = Some d /\ wk_ret r = 0 /\ wk_reading r = false /\
   wk_state r = ws_busy) /\
  (dv_pt dv = lc_init /\ dv_read_list dv = []).

(** The request for a device, and what the other side reads. *)
Definition import_request (dv : device_t) : list Z := request_bytes OP_REQ_IMPORT ++ dv_req_import dv.

Lemma import_request_wire dv :
  length (dv_req_import dv) = SYSFS_BUS_ID_SIZE ->
  import_request dv = ns_bytes (mkOp USBIP_VERSION OP_REQ_IMPORT 0) ++ ns_bytes (mkImportReq (dv_req_import dv)).
Proof.
  intros Hl. unfold import_request, request_bytes. f_equal.
  exact (@ns_send op_common net_op_common Ar (mkOp USBIP_VERSION OP_REQ_IMPORT 0) ltac:(by repeat split)).
Qed.

(** Connected, the request written and the answer awaited. *)
Definition asked_work (d : positive) (r : work_t) : work_t :=
  r <| wk_nread := 0 |> <| wk_reading := true |> <| wk_buf := mkUvBuf (place_op_header d) 8 |>.
Definition asked_device (w : positive) (dv : device_t) : device_t :=
  dv <| dv_socket_data := Some (data_work w) |> <| dv_state := devs_opening |>
     <| dv_connect_data := Some w |> <| dv_write_data := Some w |>
     <| dv_op_header := request_bytes OP_REQ_IMPORT |> <| dv_pt := lc_header |>
     <| dv_read_list := [w] |>.
Definition ask_calls (d : positive) (dv : device_t) : list call :=
  [UUv (UvWrite (UvDevWrite d) (UvSocket d) (import_request dv)); UUv (UvReadStart (UvSocket d));
   UUv (UvTcpConnect (UvDevConnect d) (UvSocket d) (dv_addr dv) (dv_port dv)); UUv (UvTcpInit (UvSocket d))].

(** The loop reports that the connection stands and that the request is written. *)
Definition connects (d : positive) : M session unit :=
  connect_cb (UvDevConnect d) 0;; write_cb (UvDevWrite d) 0.

Lemma ask_run w d r dv s k :
  network_up -> opening w d r dv s ->
  (work_process w;; connects d) s k =
  Ok (tt, put_work w (asked_work d r) (put_device d (asked_device w dv) s), traced (ask_calls d dv) k).
Proof.
  intros Hup ((Hw & Hd) & (Hcb & Hwd & Hret & Hrd & Hst) & Hpt & Hrl).
  erewrite bind_ok.
  2:{ unfold work_process. cl_step. rewrite Hcb, Hwd. cl_step. unfold device_open_process, get_pt.
      erewrite bind_ok by (cl_step; reflexivity). rewrite Hpt.
      unfold WORK_BEGIN. cl_step. rewrite bool_decide_eq_true_2, Hret by done. cbn [negb Z.eqb orb].
      unfold device_open_begin. erewrite bind_ok by apply uv_ret_ok.
      rewrite (Hup _ (UvTcpInit (UvSocket d))). cbn [Z.ltb Z.compare]. cl_step. cl_step.
      rewrite async_ok by apply (Hup _ (UvTcpConnect _ _ _ _)).
      unfold WORK_YIELD, set_pt. eapply update_device_ok. map_side. }
  cbv beta. obj_cbn. autorewrite with put. unfold connects.
  erewrite bind_ok.
  2:{ unfold connect_cb, request_data. erewrite bind_ok by (cl_step; reflexivity).
      cl_step. cl_step. unfold work_process. cl_step. rewrite Hcb, Hwd. cl_step.
      unfold device_open_process, get_pt. erewrite bind_ok by (cl_step; reflexivity).
      cbv beta iota. erewrite resume_idle_ok; [|map_side|done|done|obj_cbn; rewrite status_put by done; lia].
      unfold device_open_connected. cl_step. cl_step.
      rewrite async_ok by apply (Hup _ (UvReadStart _)).
      rewrite async_ok by apply (Hup _ (UvWrite _ _ _)).
      unfold WORK_YIELD, set_pt. eapply update_device_ok. map_side. }
  cbv beta. obj_cbn. autorewrite with put.
  unfold write_cb, request_data. erewrite bind_ok by (cl_step; reflexivity).
  cl_step. cl_step. unfold work_process. cl_step. cl_step.
  unfold device_open_process, get_pt. erewrite bind_ok by (cl_step; reflexivity).
  cbv beta iota. erewrite resume_idle_ok; [|map_side|done|done|obj_cbn; rewrite status_put by done; lia].
  unfold device_open_written, READ_PREPARE, set_read_list, WORK_YIELD, set_pt. erewrite bind_ok.
  2:{ cl_step. rewrite Hrd. cbn [negb when_]. erewrite bind_ok by (cl_step; eapply update_work_ok; map_side).
      obj_cbn. eapply update_work_ok. map_side. }
  cbv beta. obj_cbn. autorewrite with put. erewrite update_device_ok by map_side. obj_cbn.
  autorewrite with put. rewrite Hrl. unfold asked_work, asked_device, ask_calls.
  rewrite !traced_traced. obj_cbn. by rewrite Hcb, Hwd, Hret.
Qed.

(** *** The header of the answer *)

Definition op_part (w d : positive) (r : work_t) (dv : device_t) s k (pre : list Z)
    : session * kernel :=
  (put_work w ((asked_work d r) <| wk_nread := Z.of_nat (length pre) |>)
     (put_device d ((asked_device w dv) <| dv_op_header := filled (request_bytes OP_REQ_IMPORT) pre |>) s), k).

Lemma length_request_bytes code : length (request_bytes code) = 8%nat.
Proof.
  unfold request_bytes, op_common_to_mem. by rewrite !length_app, !length_half_bytes, length_word_bytes.
Qed.

Lemma op_part_nil w d r dv s k :
  op_part w d r dv s k [] = (put_work w (asked_work d r) (put_device d (asked_device w dv) s), k).
Proof. unfold op_part, filled. rewrite splice_nil. unfold asked_work, asked_device. by obj_cbn. Qed.

Lemma op_header_reads w d r dv s k :
  reads_into (UvSocket d) w (place_op_header d) 8 (op_part w d r dv s k).
Proof.
  split.
  - intros pre Hp. eexists. split; [apply lookup_insert_eq|]. done.
  - intros pre Hp. cbn [handle_data op_part fst snd]. by erewrite bind_ok by (eapply look_ok; map_side).
  - done.
  - intros pre c Hc. cbn [store_place op_part fst snd]. eexists. split.
    + cl_step. unfold asked_device. obj_cbn. erewrite bind_ok.
      2:{ apply of_option_ok. apply splice_in_filled; rewrite ?length_request_bytes; lia. }
      obj_cbn. eapply update_device_ok. map_side.
    + split; [done|]. split.
      * cbn [handle_data]. by erewrite bind_ok by (eapply look_ok; map_side).
      * intros r0. map_cbn. rewrite lookup_insert_eq. intros [= <-].
        rewrite length_app. session_eq; done.
Qed.

(** The answer's header is there: the work that resumes, and its device. *)
Definition told_work (d : positive) (r : work_t) : work_t :=
  (asked_work d r) <| wk_nread := 8 |> <| wk_reading := false |>.
Definition told_device (w : positive) (dv : device_t) (op : op_common) : device_t :=
  (asked_device w dv) <| dv_op_header := ns_bytes op |> <| dv_read_list := [] |>.

Lemma op_header_stream w d r dv op rest sizes s k :
  wk_cb r = device_open_cb_fn -> wk_data r = Some d -> wk_ret r = 0 ->
  op_common_wf op -> (8 <= length sizes)%nat ->
  exists sizes', (length sizes <= length sizes' + 8)%nat /\
  uv_stream sizes (UvSocket d) (ns_bytes op ++ rest)
    (put_work w (asked_work d r) (put_device d (asked_device w dv) s)) k =
  (device_open_header w d;; uv_stream sizes' (UvSocket d) rest)
    (put_work w (told_work d r) (put_device d (told_device w dv op) s)) k.
Proof.
  intros Hcb Hwd Hret Hop Hs. pose proof (ns_length op Hop) as Hlen. change (ns_size) with 8%nat in Hlen.
  destruct (uv_stream_fills _ _ _ _ _ (ns_bytes op) (op_header_reads w d r dv s k) sizes [] rest)
    as (sizes' & Hs' & Hrun); rewrite ?Hlen; cbn [length]; try lia.
  rewrite op_part_nil in Hrun. cbn [fst snd app] in Hrun.
  exists sizes'. split; [lia|]. rewrite Hrun. apply bind_cong.
  unfold op_part. cbn [fst snd]. rewrite Hlen, filled_all by (by rewrite Hlen, length_request_bytes).
  unfold told_work, told_device, asked_work, asked_device. obj_cbn.
  unfold work_process. cl_step. rewrite Hcb, Hwd. cl_step.
  unfold device_open_process, get_pt. erewrite bind_ok by (cl_step; reflexivity).
  cbv beta iota.
  erewrite resume_ok; [|map_side|map_side|done|done|done|obj_cbn; lia].
  obj_cbn. by autorewrite with put.
Qed.

(** The daemon refuses the device. *)
Definition refusal (op : op_common) : Prop :=
  op_common_wf op /\ op_version op = USBIP_VERSION_NUM /\ op_code op = OP_REP_IMPORT /\
  op_status op <> ST_OK.

Definition refused_device (w : positive) (dv : device_t) (op : op_common) : device_t :=
  (told_device w dv op) <| dv_op_header := op_common_to_mem op |> <| dv_retry := dv_retry dv + 1 |>.

(** [CHECK_OP_REPLY] lets an answer pass. *)
Lemma check_reply_ok w p op code next s k :
  op_common_wf op -> op_version op = USBIP_VERSION_NUM -> op_code op = code ->
  CHECK_OP_REPLY w p (ns_bytes op) code next s k = next op s k.
Proof.
  intros Hop Hv Hc. unfold CHECK_OP_REPLY.
  pose proof (@ns_recv op_common net_op_common Ar op Hop) as E. cbn [ns_pack ns_of_mem net_op_common] in E.
  rewrite E, Hv, Hc, !Z.eqb_refl. done.
Qed.

Lemma refused_again w d r dv op s k :
  refusal op -> dv_retry dv + 1 <= dv_max_retry dv ->
  device_open_header w d (put_work w (told_work d r) (put_device d (told_device w dv op) s)) k =
  Ok (tt, put_work w (told_work d r)
            (put_device d ((refused_device w dv op) <| dv_state := devs_closing |> <| dv_pt := lc_restart |>) s),
      traced [UUv (UvClose (UvSocket d) close_cb_fn)] k).
Proof.
  intros (Hop & Hv & Hc & Hst) Hr.
  unfold refused_device, told_work, told_device, asked_work, asked_device. obj_cbn.
  unfold device_open_header. cl_step.
  rewrite check_reply_ok by done. cl_step. apply Z.eqb_neq in Hst. rewrite Hst. cbn [negb].
  cl_step. cl_step.
  destruct (_ <? _) eqn:E; bool_to_prop; [lia|]. cbn [negb Z.eqb].
  change (devs_opening =? devs_opening) with true. cbn [negb].
  cl_step. erewrite bind_ok by apply uv_ok. unfold WORK_YIELD, set_pt.
  erewrite update_device_ok by map_side. obj_cbn. by autorewrite with put.
Qed.

(** Refused too often, the work ends with an error and the connection is closed. *)
Definition given_up (w d : positive) (r : work_t) (dv : device_t) (op : op_common) s : session :=
  after_done w ((told_work d r) <| wk_ret := UV_EBUSY |>)
    (put_device d ((refused_device w dv op) <| dv_state := devs_closing |>
                     <| dv_ref_count := dv_ref_count dv + 1 |> <| dv_pt := lc_init |>) s).

Lemma refused_finally w d r dv op s k :
  refusal op -> dv_max_retry dv < dv_retry dv + 1 ->
  wk_cb r = device_open_cb_fn -> wk_data r = Some d -> 2 <= wk_ref_count r ->
  signalable (wk_sync r) s k ->
  device_open_header w d (put_work w (told_work d r) (put_device d (told_device w dv op) s)) k =
  Ok (tt, given_up w d r dv op s,
      traced (finish_calls w (r <| wk_ret := UV_EBUSY |>) ++
              [UUv (UvClose (UvSocket d) socket_close_cb_fn)]) k).
Proof.
  intros (Hop & Hv & Hc & Hst) Hr Hcb Hwd Href Hsg.
  unfold given_up, refused_device, told_work, told_device, asked_work, asked_device. obj_cbn.
  unfold device_open_header. cl_step.
  rewrite check_reply_ok by done. cl_step. apply Z.eqb_neq in Hst. rewrite Hst. cbn [negb].
  cl_step. cl_step. destruct (_ <? _) eqn:E; bool_to_prop; [|lia].
  unfold WORK_ABORT. cl_step. erewrite bind_ok.
  2:{ unfold work_abort_action. cl_step. rewrite Hcb, Hwd. cl_step. unfold device_open_abort.
      cl_step. change (devs_opening =? devs_restarting) with false. cbv iota.
      unfold DEVICE_CLOSE. cl_step. change (devs_opening <=? devs_opening) with true. cbn [when_].
      cl_step. erewrite bind_ok by (unfold device_ref; eapply update_device_ok; map_side).
      obj_cbn. apply uv_ok. }
  cbv beta. autorewrite with put. unfold WORK_EXIT, PT_INIT, set_pt. cl_step.
  erewrite work_done_ok; [|map_side|done|].
  2:{ revert Hsg. unfold signalable. by destruct (wk_sync r). }
  apply Ok_eq; [done| |].
  - unfold after_done. rewrite <- Hcb, <- Hwd. session_eq; try done.
  - by rewrite traced_traced.
Qed.

(** The socket closed and the timer fired, the work is called from its beginning. *)
Definition restarted_work (d : positive) (r : work_t) : work_t := told_work d r.
Definition restarted_device (w : positive) (dv : device_t) (op : op_common) : device_t :=
  (refused_device w dv op) <| dv_state := devs_restarting |> <| dv_pt := lc_init |>
    <| dv_timer_data := Some (data_work w) |>.
Definition restart_calls (d : positive) (dv : device_t) : list call :=
  UUv (UvTimerStart (UvDeviceTimer d) timer_cb_fn 500) ::
  match dv_timer_data dv with None => [UUv (UvTimerInit (UvDeviceTimer d))] | Some _ => [] end.

Lemma restart_run w d r dv op s k :
  wk_cb r = device_open_cb_fn -> wk_data r = Some d -> wk_ret r = 0 ->
  (dv_timer_data dv = None \/ dv_timer_data dv = Some (data_work w)) ->
  let s1 := put_work w (restarted_work d r) (put_device d (restarted_device w dv op) s) in
  (close_cb (UvSocket d);; timer_cb (UvDeviceTimer d) 0)
    (put_work w (told_work d r)
       (put_device d ((refused_device w dv op) <| dv_state := devs_closing |> <| dv_pt := lc_restart |>) s)) k =
  work_process w s1 (traced (restart_calls d dv) k).
Proof.
  intros Hcb Hwd Hret Ht s1. unfold s1, restarted_work, restarted_device, restart_calls.
  unfold refused_device, told_work, told_device, asked_work, asked_device. obj_cbn.
  assert (forall s k dv', ss_devices s !! d = Some dv' -> dv_timer_data dv' = dv_timer_data dv ->
    (match dv_timer_data dv with
     | None => uv (UvTimerInit (UvDeviceTimer d));;
               update ss_devices d (fun r => r <| dv_timer_data := Some (data_work w) |>)
     | Some _ => mret tt
     end) s k = Ok (tt, put_device d (dv' <| dv_timer_data := Some (data_work w) |>) s,
       traced (match dv_timer_data dv with
               | None => [UUv (UvTimerInit (UvDeviceTimer d))] | Some _ => [] end) k)) as Htimer.
  { intros s0 k0 dv' Hd' Et. destruct Ht as [E|E]; rewrite E.
    - erewrite bind_ok by apply uv_ok. by apply update_device_ok.
    - rewrite traced_nil. apply Ok_eq; [done| |done]. symmetry. apply put_device_same.
      rewrite Hd'. f_equal. rewrite E in Et. destruct dv'. cbn in Et. by subst. }
  erewrite bind_ok.
  2:{ unfold close_cb, handle_data. erewrite bind_ok by (cl_step; reflexivity).
      cbn [data_is_work]. erewrite bind_ok by reflexivity. cbv beta.
      unfold work_process. cl_step. rewrite Hcb, Hwd. cl_step.
      unfold device_open_process, get_pt. erewrite bind_ok by (cl_step; reflexivity). cbv beta iota.
      erewrite resume_idle_ok; [|map_side|done|done|obj_cbn; pose proof (status_nonneg 8); bool_to_prop; lia].
      unfold device_open_restart. cl_step. cl_step.
      erewrite bind_ok by (apply Htimer; [map_side|done]). cbv beta. autorewrite with put.
      erewrite bind_ok by apply uv_ok. unfold PT_INIT, set_pt. eapply update_device_ok. map_side. }
  cbv beta. obj_cbn. autorewrite with put.
  unfold timer_cb, handle_data. erewrite bind_ok by (cl_step; reflexivity).
  cbn [data_is_work]. erewrite bind_ok by reflexivity. cbv beta. cbn [Z.eqb when_].
  by rewrite traced_traced, <- Hcb, <- Hwd.
Qed.

(** *** Attempts *)

(** Attempts to get the device, each answered by one of [ops]: the first is started
    by [start], the others by the timer. *)
Fixpoint attempts (w d : positive) (sizes : list nat) (start : M session unit) (ops : list op_common)
    : M session unit :=
  match ops with
  | [] => mret tt
  | op :: ops' =>
      start;; connects d;;
      uv_stream sizes (UvSocket d) (ns_bytes op);;
      attempts w d sizes (close_cb (UvSocket d);; timer_cb (UvDeviceTimer d) 0) ops'
  end.

Definition is_connect (c : call) : bool :=
  match c with UUv (UvTcpConnect _ _ _ _) => true | _ => false end.
Definition connection_attempts (tr : list call) : nat := length (List.filter is_connect tr).

Lemma connection_attempts_app a b :
  connection_attempts (a ++ b) = (connection_attempts a + connection_attempts b)%nat.
Proof. unfold connection_attempts. by rewrite List.filter_app, length_app. Qed.
Lemma finish_no_connect w r : connection_attempts (finish_calls w r) = 0%nat.
Proof. unfold finish_calls. by destruct (wk_user_cb r), (wk_timer r). Qed.
Lemma restart_no_connect d dv : connection_attempts (restart_calls d dv) = 0%nat.
Proof. unfold restart_calls. by destruct (dv_timer_data dv). Qed.

(** One refused attempt. *)
Lemma attempt_run w d r dv op sizes s k :
  network_up -> opening w d r dv s -> op_common_wf op -> (8 <= length sizes)%nat ->
  exists sizes',
  (work_process w;; connects d;; uv_stream sizes (UvSocket d) (ns_bytes op)) s k =
  (device_open_header w d;; uv_stream sizes' (UvSocket d) [])
    (put_work w (told_work d r) (put_device d (told_device w dv op) s)) (traced (ask_calls d dv) k).
Proof.
  intros Hup Hop Hwf Hs. pose proof Hop as (_ & (Hcb & Hwd & Hret & _) & _).
  destruct (op_header_stream w d r dv op [] sizes s (traced (ask_calls d dv) k) Hcb Hwd Hret Hwf Hs)
    as (sizes' & _ & Hrun). exists sizes'. rewrite app_nil_r in Hrun. rewrite <- Hrun.
  pose proof (ask_run w d r dv s k Hup Hop) as Hask. revert Hask.
  unfold mbind, M_bind. destruct (work_process w s k) as [[[? s1] k1]|]; [|done]. by intros ->.
Qed.

(** The work after [n] refusals in a row: it goes on while retries are left. *)
Definition refused_times (w d : positive) (retry max : Z) s k k' (n : nat) : Prop :=
  exists r dv, ss_works s !! w = Some r /\ ss_devices s !! d = Some dv /\
    (if retry + Z.of_nat n <=? max then wk_state r = ws_busy /\ wk_ret r = 0
     else wk_state r = ws_done /\ wk_ret r = UV_EBUSY /\
          In (UUv (UvClose (UvSocket d) socket_close_cb_fn)) (k_trace k')) /\
    dv_state dv = devs_closing /\
    connection_attempts (k_trace k') = (n + connection_attempts (k_trace k))%nat.

Lemma attempts_refused w d sizes ops : (8 <= length sizes)%nat -> network_up -> Forall refusal ops ->
  forall r dv start s0 k0 s k, start s0 k0 = work_process w s k ->
  opening w d r dv s -> (dv_timer_data dv = None \/ dv_timer_data dv = Some (data_work w)) ->
  2 <= wk_ref_count r -> signalable (wk_sync r) s k -> ops <> [] ->
  dv_retry dv + Z.of_nat (length ops) <= dv_max_retry dv + 1 ->
  exists s' k', attempts w d sizes start ops s0 k0 = Ok (tt, s', k') /\
    refused_times w d (dv_retry dv) (dv_max_retry dv) s' k k' (length ops).
Proof.
  intros Hs Hup. induction 1 as [|op ops Hop Hops IH];
    intros r dv start s0 k0 s k Hstart Hopen Ht Href Hsg Hne Hmax; [done|]. clear Hne.
  pose proof Hopen as ((Hw & Hd) & (Hcb & Hwd & Hret & Hrd & Hst) & Hpt & Hrl).
  destruct (attempt_run w d r dv op sizes s k Hup Hopen (proj1 Hop) Hs) as (sizes' & Hrun).
  assert (attempts w d sizes start (op :: ops) s0 k0 =
    (device_open_header w d;; attempts w d sizes (close_cb (UvSocket d);; timer_cb (UvDeviceTimer d) 0) ops)
      (put_work w (told_work d r) (put_device d (told_device w dv op) s)) (traced (ask_calls d dv) k)) as ->.
  { cbn [attempts]. revert Hrun. unfold mbind, M_bind. rewrite Hstart.
    set (head := device_open_header _ _ _ _).
    destruct (work_process w s k) as [[[? s1] k1]|];
      [destruct (connects d s1 k1) as [[[? s3] k3]|]|];
      destruct head as [[[? s2] k2]|]; rewrite ?uv_stream_nil; intros Hrun; try rewrite Hrun; congruence. }
  cbn [length] in *.
  destruct (decide (dv_retry dv + 1 <= dv_max_retry dv)) as [Hmore|Hlast].
  - erewrite bind_ok by by apply refused_again.
    destruct ops as [|op' ops'].
    { cbn [attempts length]. eexists _, _. split; [reflexivity|].
      eexists _, _. split; [map_side|]. split; [map_side|].
      replace (_ <=? _) with true by (symmetry; apply Z.leb_le; lia).
      split; [done|]. split; [done|].
      cbn [traced k_trace set_k_trace set_field]. by rewrite !connection_attempts_app. }
    set (k1 := traced [UUv (UvClose (UvSocket d) close_cb_fn)] (traced (ask_calls d dv) k)).
    edestruct (IH (restarted_work d r) (restarted_device w dv op)) with (k0 := k1)
      (k := traced (restart_calls d dv) k1) as (s' & k' & Hr & Hn).
    + by apply restart_run.
    + split; [split; map_side|]. by repeat split.
    + by right.
    + done.
    + exact Hsg.
    + done.
    + change (dv_retry dv + 1 + Z.of_nat (length (op' :: ops')) <= dv_max_retry dv + 1). lia.
    + exists s', k'. split; [exact Hr|]. destruct Hn as (r' & dv' & Hw' & Hd' & Hn & Hstate & Hcount).
      exists r', dv'. split; [done|]. split; [done|]. split.
      * revert Hn. change (dv_retry (restarted_device w dv op)) with (dv_retry dv + 1).
        change (dv_max_retry (restarted_device w dv op)) with (dv_max_retry dv).
        by replace (dv_retry dv + 1 + Z.of_nat (length (op' :: ops')))
          with (dv_retry dv + Z.of_nat (S (length (op' :: ops')))) by lia.
      * split; [done|]. rewrite Hcount. cbn [traced k_trace set_k_trace set_field].
        unfold k1, traced; cbn [k_trace set_k_trace set_field].
        rewrite !connection_attempts_app, restart_no_connect.
        cbn [connection_attempts List.filter is_connect ask_calls length]. lia.
  - destruct ops as [|op' ops']; [|cbn in Hmax; lia].
    erewrite bind_ok by (apply refused_finally; [done|lia|done..]).
    cbn [attempts length]. eexists _, _. split; [reflexivity|]. unfold given_up, after_done.
    eexists _, _. split; [map_side|]. split; [map_side|].
    replace (_ <=? _) with false by (symmetry; apply Z.leb_gt; lia).
    cbn [traced k_trace set_k_trace set_field]. split.
    { split; [done|]. split; [done|]. rewrite !in_app_iff. cbn. auto. }
    split; [done|]. rewrite !connection_attempts_app, finish_no_connect. done.
Qed.

(** C25: Opening a device that the daemon refuses ends: as long as retries are left
    each refusal leads to one more connection; after [max_retry] retries the work
    is finished with EBUSY and the connection closed, so that there were at most
    [max_retry + 1] connections. *)
Theorem refusals_bounded w d r dv ops sizes s k :
  (8 <= length sizes)%nat -> network_up -> opening w d r dv s -> dv_timer_data dv = None ->
  2 <= wk_ref_count r -> signalable (wk_sync r) s k ->
  dv_retry dv = 0 -> 0 <= dv_max_retry dv ->
  Forall refusal ops -> (0 < length ops)%nat -> Z.of_nat (length ops) <= dv_max_retry dv + 1 ->
  exists s' k', attempts w d sizes (work_process w) ops s k = Ok (tt, s', k') /\
    refused_times w d 0 (dv_max_retry dv) s' k k' (length ops).
Proof.
  intros Hs Hup Hop Ht Href Hsg Hr Hm Hops Hn Hmax. rewrite <- Hr.
  apply (attempts_refused w d sizes ops Hs Hup Hops r dv _ s k s k eq_refl Hop (or_introl Ht) Href Hsg);
    [intros ->; cbn in Hn; lia|lia].
Qed.

(** *** The device is granted *)

(** The next work the session creates. *)
Definition next_work s k : positive :=
  match ss_free_work_list s with w :: _ => w | [] => k_next k end.
Definition memory_left : Prop := forall tr, (env_answer tr UCalloc).1 <> 0.

(** A work without a user is queued. *)
Definition queued_work (data : option positive) (cb : work_cb_t) : work_t :=
  work_zero <| wk_data := data |> <| wk_cb := cb |> <| wk_timeout := -1 |> <| wk_ref_count := 1 |>.

Lemma work_new_ok data cb s k :
  memory_left -> MutexMem ∉ k_locks k -> MutexWork ∉ k_locks k ->
  exists s' k', work_new_ data cb (-1) None s k = Ok (Some (next_work s k), s', k') /\
    ss_works s' = <[next_work s k := queued_work data cb]> (ss_works s) /\
    ss_work_queue s' = ss_work_queue s ++ [next_work s k] /\
    ss_devices s' = ss_devices s /\ ss_vars s' = ss_vars s /\ ss_syncs s' = ss_syncs s /\
    k_locks k' = k_locks k /\
    k_trace k' = UUv UvAsyncSend :: (match ss_free_work_list s with [] => [UCalloc] | _ => [] end) ++ k_trace k.
Proof.
  intros Hmem Hl1 Hl2. unfold work_new_. change (0 <=? -1) with false. cbn [andb].
  exec_step. erewrite bind_ok.
  2:{ instantiate (3 := next_work s k). unfold pop_work, next_work. erewrite bind_ok by reflexivity. cbv beta.
      instantiate (2 := s <| ss_free_work_list := tl (ss_free_work_list s) |>).
      instantiate (1 := (match ss_free_work_list s with
          [] => traced [UCalloc] k <| k_next := (k_next k + 1)%positive |> | _ => k end)
        <| k_locks := MutexMem :: k_locks k |>).
      destruct (ss_free_work_list s) as [|f rest] eqn:Ef; [|done].
      unfold malloc_. erewrite bind_ok by reflexivity.
      match goal with |- (if ?b then _ else _) _ _ = _ => destruct b eqn:Ea end.
      { exfalso. bool_to_prop. by apply (Hmem (k_trace k)). }
      unfold kgets, kmodify, mbind, M_bind, mret, M_ret. cbv beta iota.
      apply Ok_eq; [done| |done]. apply session_eq; try reflexivity. by rewrite Ef. }
  set (w := next_work s k). set (k1 := _ <| k_locks := _ |>).
  unfold create. erewrite bind_ok by reflexivity. erewrite bind_ok by reflexivity.
  erewrite bind_ok by (eapply spin_unlock_ok; [reflexivity|done]).
  erewrite bind_ok by (eapply update_work_ok; map_side).
  erewrite bind_ok by (eapply look_ok; map_side). obj_cbn. cbn [when_ work_zero].
  erewrite bind_ok by reflexivity.
  erewrite bind_ok by (eapply update_work_ok; map_side).
  erewrite bind_ok by (unfold work_ref; eapply update_work_ok; map_side).
  erewrite bind_ok by (apply spin_lock_ok; exact Hl2).
  erewrite bind_ok by reflexivity.
  erewrite bind_ok by (eapply spin_unlock_ok; [reflexivity|exact Hl2]).
  erewrite bind_ok by apply uv_ok. eexists _, _. split; [reflexivity|].
  split; [map_cbn; by rewrite !insert_insert_eq|].
  repeat split; try reflexivity.
  unfold k1. cbn [k_trace traced set_k_trace set_k_locks set_field].
  by destruct (ss_free_work_list s).
Qed.

Definition grant (op : op_common) : Prop :=
  op_common_wf op /\ op_version op = USBIP_VERSION_NUM /\ op_code op = OP_REP_IMPORT /\
  op_status op = ST_OK.

Definition granted_work (d : positive) (r : work_t) : work_t :=
  (told_work d r) <| wk_nread := 0 |> <| wk_reading := true |>
    <| wk_buf := mkUvBuf (place_rpl_import d) 312 |>.
Definition granted_device (w : positive) (dv : device_t) (op : op_common) : device_t :=
  (told_device w dv op) <| dv_op_header := op_common_to_mem op |> <| dv_read_list := [w] |>
    <| dv_pt := lc_reply |>.

Lemma granted_ok w d r dv op s k :
  grant op ->
  device_open_header w d (put_work w (told_work d r) (put_device d (told_device w dv op) s)) k =
  Ok (tt, put_work w (granted_work d r) (put_device d (granted_device w dv op) s), k).
Proof.
  intros (Hop & Hv & Hc & Hst).
  unfold granted_work, granted_device, told_work, told_device, asked_work, asked_device. obj_cbn.
  unfold device_open_header. cl_step. rewrite check_reply_ok by done. cl_step. rewrite Hst.
  cbn [negb Z.eqb ST_OK]. change (ST_OK =? ST_OK) with true. cbn [negb].
  unfold READ_PREPARE, set_read_list, WORK_YIELD, set_pt. erewrite bind_ok.
  2:{ cl_step. cbn [negb when_]. erewrite bind_ok by (cl_step; eapply update_work_ok; map_side).
      obj_cbn. eapply update_work_ok. map_side. }
  cbv beta. obj_cbn. autorewrite with put. erewrite update_device_ok by map_side. obj_cbn.
  by autorewrite with put.
Qed.

Definition reply_part (w d : positive) (r : work_t) (dv : device_t) (op : op_common) s k
    (pre : list Z) : session * kernel :=
  (put_work w ((granted_work d r) <| wk_nread := Z.of_nat (length pre) |>)
     (put_device d ((granted_device w dv op) <| dv_rpl_import := filled (dv_rpl_import dv) pre |>) s), k).

Lemma reply_part_nil w d r dv op s k :
  reply_part w d r dv op s k [] =
  (put_work w (granted_work d r) (put_device d (granted_device w dv op) s), k).
Proof.
  unfold reply_part, filled. rewrite splice_nil.
  unfold granted_work, granted_device, told_work, told_device, asked_work, asked_device. by obj_cbn.
Qed.

Lemma reply_reads w d r dv op s k :
  length (dv_rpl_import dv) = 312%nat ->
  reads_into (UvSocket d) w (place_rpl_import d) 312 (reply_part w d r dv op s k).
Proof.
  intros Hl. unfold reply_part, granted_work, granted_device, told_work, told_device, asked_work, asked_device.
  obj_cbn. split.
  - intros pre Hp. eexists. split; [apply lookup_insert_eq|]. done.
  - intros pre Hp. cbn [handle_data fst snd]. by erewrite bind_ok by (eapply look_ok; map_side).
  - done.
  - intros pre c Hc. cbn [store_place fst snd]. eexists. split.
    + cl_step. erewrite bind_ok.
      2:{ apply of_option_ok. apply splice_in_filled; rewrite ?Hl; lia. }
      obj_cbn. eapply update_device_ok. map_side.
    + split; [done|]. split.
      * cbn [handle_data]. by erewrite bind_ok by (eapply look_ok; map_side).
      * intros r0. map_cbn. rewrite lookup_insert_eq. intros [= <-].
        rewrite length_app. session_eq; done.
Qed.

(** The device belongs to the program, and its receiving loop is queued. *)
Definition opened (w d : positive) (r : work_t) (dv : device_t) s k s' k' : Prop :=
  ss_works s' !! w = Some ((granted_work d r) <| wk_nread := 312 |> <| wk_reading := false |>
                             <| wk_state := ws_done |> <| wk_ref_count := wk_ref_count r - 1 |>) /\
  ss_works s' !! next_work s k = Some (queued_work (Some d) device_loop_fn) /\
  ss_work_queue s' = ss_work_queue s ++ [next_work s k] /\
  ss_vars s' !! dv_pdev dv = Some (Zpos d) /\
  (exists dv', ss_devices s' !! d = Some dv' /\ dv_ref_count dv' = dv_ref_count dv + 2 /\
     dv_state dv' = devs_opening /\ dv_pt dv' = lc_init /\ dv_read_list dv' = [] /\
     dv_socket_data dv' = None) /\
  k_trace k' = finish_calls w r ++ UUv UvAsyncSend ::
    (match ss_free_work_list s with [] => [UCalloc] | _ => [] end) ++
    UUv (UvReadStop (UvSocket d)) :: k_trace k.

Lemma reply_taken w d r dv op udev s k :
  memory_left -> MutexMem ∉ k_locks k -> MutexWork ∉ k_locks k -> next_work s k <> w ->
  wk_cb r = device_open_cb_fn -> wk_data r = Some d -> wk_ret r = 0 -> 2 <= wk_ref_count r ->
  signalable (wk_sync r) s k -> is_Some (ss_vars s !! dv_pdev dv) ->
  length (dv_rpl_import dv) = 312%nat -> usb_device_wf udev ->
  strncmp_eq 32 (uu_busid udev) (dv_req_import dv) = true ->
  let p := reply_part w d r dv op s k (ns_bytes (mkImportRep udev)) in
  exists s' k', work_process w p.1 p.2 = Ok (tt, s', k') /\ opened w d r dv s k s' k'.
Proof.
  intros Hmem Hl1 Hl2 Hfresh Hcb Hwd Hret Href Hsg [v Hv] Hl Hwf Hid p.
  pose proof (@ns_length op_import_reply net_import_reply (mkImportRep udev) Hwf) as Hlen.
  change (@ns_size op_import_reply net_import_reply) with 312%nat in Hlen.
  unfold p, reply_part. cbn [fst snd]. rewrite Hlen, filled_all by (by rewrite Hlen).
  unfold opened, granted_work, granted_device, told_work, told_device, asked_work, asked_device. obj_cbn.
  unfold work_process. cl_step. rewrite Hcb, Hwd. cl_step. unfold device_open_process, get_pt.
  erewrite bind_ok by (cl_step; reflexivity). cbv beta iota.
  erewrite resume_ok; [|map_side|map_side|done|done|done|obj_cbn; lia].
  autorewrite with put. obj_cbn. unfold device_open_reply. cl_step.
  pose proof (@ns_recv op_import_reply net_import_reply Ar (mkImportRep udev) Hwf) as Erpl.
  cbn [ns_pack ns_of_mem net_import_reply] in Erpl. rewrite Erpl. cbn [rep_udev].
  cl_step. rewrite Hid. cbn [negb]. cl_step. erewrite bind_ok by apply uv_ok.
  erewrite bind_ok by (unfold device_ref; eapply update_device_ok; map_side).
  cbv beta. obj_cbn. autorewrite with put.
  match goal with |- context [put_work w ?a (put_device d ?b s)] => set (r1 := a); set (s1 := put_work w a (put_device d b s)) end.
  destruct (work_new_ok (Some d) device_loop_fn s1 (traced [UUv (UvReadStop (UvSocket d))] k) Hmem Hl1 Hl2)
    as (s2 & k2 & Hnew & Hw2 & Hq2 & Hd2 & Hv2 & Hy2 & Hlk & Htr).
  change (next_work s1 _) with (next_work s k) in *.
  assert (ss_works s2 !! w = Some r1) as Hs2w by (rewrite Hw2; unfold s1; map_side).
  match type of Hd2 with _ = ss_devices s1 => assert (exists b, ss_devices s2 !! d = Some b /\ ss_devices s1 !! d = Some b) as (dv2 & Hs2d & Hs1d) end.
  { rewrite Hd2. eexists. split; unfold s1; map_side. }
  unfold s1 in Hs1d. revert Hs1d. map_cbn. rewrite lookup_insert_eq. intros [= Edv2].
  erewrite bind_ok by exact Hnew. cbv beta.
  erewrite bind_ok by (eapply update_work_ok; exact Hs2w). cbv beta.
  erewrite bind_ok by (eapply store_var_ok; map_cbn; rewrite Hv2; exact Hv). cbv beta.
  erewrite bind_ok by (unfold device_ref; eapply update_device_ok; map_side).
  cbv beta. unfold WORK_EXIT, PT_INIT, set_pt.
  erewrite bind_ok by (eapply update_device_ok; map_side). cbv beta. obj_cbn. autorewrite with put.
  erewrite work_done_ok; [|map_side|done|].
  2:{ revert Hsg. unfold signalable. cbn [wk_sync r1 set_wk_ret set_field].
      destruct (wk_sync r) as [y|]; [|done]. map_cbn. rewrite Hy2, Hlk. done. }
  eexists _, _. split; [reflexivity|]. unfold after_done.
  split; [map_cbn; rewrite lookup_insert_eq, Hret; reflexivity|].
  split; [map_cbn; rewrite !lookup_insert_ne by congruence; rewrite Hw2; apply lookup_insert_eq|].
  split; [exact Hq2|]. split; [map_side|]. split.
  { eexists. split; [map_side|]. subst dv2. obj_cbn. repeat split. lia. }
  cbn [k_trace traced set_k_trace set_field]. rewrite Htr. cbn [k_trace traced set_k_trace set_field].
  unfold s1. map_cbn. unfold finish_calls, r1. obj_cbn. rewrite Hret, <- !app_assoc. done.
Qed.

Lemma import_run w d r dv op udev sizes s k :
  network_up -> memory_left -> opening w d r dv s -> 2 <= wk_ref_count r ->
  signalable (wk_sync r) s k -> MutexMem ∉ k_locks k -> MutexWork ∉ k_locks k ->
  next_work s k <> w -> is_Some (ss_vars s !! dv_pdev dv) -> length (dv_rpl_import dv) = 312%nat ->
  grant op -> usb_device_wf udev -> strncmp_eq 32 (uu_busid udev) (dv_req_import dv) = true ->
  (8 + 312 <= length sizes)%nat ->
  exists s' k',
    (work_process w;; connects d;;
     uv_stream sizes (UvSocket d) (ns_bytes op ++ ns_bytes (mkImportRep udev))) s k = Ok ([], s', k') /\
    opened w d r dv s (traced (ask_calls d dv) k) s' k'.
Proof.
  intros Hup Hmem Hopen Href Hsg Hl1 Hl2 Hfresh Hv Hl Hop Hwf Hid Hs.
  pose proof Hopen as ((Hw & Hd) & (Hcb & Hwd & Hret & _) & _).
  pose proof (@ns_length op_import_reply net_import_reply (mkImportRep udev) Hwf) as Hlen.
  change (@ns_size op_import_reply net_import_reply) with 312%nat in Hlen.
  set (k1 := traced (ask_calls d dv) k). set (rest := ns_bytes (mkImportRep udev)) in *.
  destruct (op_header_stream w d r dv op rest sizes s k1 Hcb Hwd Hret (proj1 Hop)) as (sizes1 & Hs1 & Hrun1); [lia|].
  destruct (uv_stream_fills _ _ _ _ _ rest (reply_reads w d r dv op s k1 Hl) sizes1 [] [])
    as (sizes2 & _ & Hrun2); [cbn; lia|rewrite Hlen; done|lia|].
  rewrite app_nil_r, reply_part_nil in Hrun2. cbn [fst snd app] in Hrun2.
  destruct (reply_taken w d r dv op udev s k1) as (s' & k' & Hrun3 & Ho); try done.
  exists s', k'. split; [|exact Ho].
  pose proof (ask_run w d r dv s k Hup Hopen) as Hask. fold k1 in Hask.
  transitivity (uv_stream sizes (UvSocket d) (ns_bytes op ++ rest)
    (put_work w (asked_work d r) (put_device d (asked_device w dv) s)) k1).
  { revert Hask. unfold mbind, M_bind. destruct (work_process w s k) as [[[? s1] k2]|]; [|done].
    by intros ->. }
  rewrite Hrun1. erewrite bind_ok by by apply granted_ok. rewrite Hrun2.
  erewrite bind_ok by exact Hrun3. by rewrite uv_stream_nil.
Qed.

(** C24: Opening a device: the request is the one the daemon reads, whatever the byte
    order; when it answers with the device, the program's variable holds the device,
    the work is finished without error, its callback called, and the device's
    receiving loop is queued with references of its own. *)
Theorem device_imported w d r dv op udev sizes s k :
  network_up -> memory_left -> opening w d r dv s -> 2 <= wk_ref_count r ->
  signalable (wk_sync r) s k -> MutexMem ∉ k_locks k -> MutexWork ∉ k_locks k ->
  next_work s k <> w -> is_Some (ss_vars s !! dv_pdev dv) -> length (dv_rpl_import dv) = 312%nat ->
  length (dv_req_import dv) = SYSFS_BUS_ID_SIZE ->
  grant op -> usb_device_wf udev -> strncmp_eq 32 (uu_busid udev) (dv_req_import dv) = true ->
  (8 + 312 <= length sizes)%nat ->
  import_request dv = ns_bytes (mkOp USBIP_VERSION OP_REQ_IMPORT 0) ++ ns_bytes (mkImportReq (dv_req_import dv)) /\
  exists s' k',
    (work_process w;; connects d;;
     uv_stream sizes (UvSocket d) (ns_bytes op ++ ns_bytes (mkImportRep udev))) s k = Ok ([], s', k') /\
    opened w d r dv s (traced (ask_calls d dv) k) s' k'.
Proof.
  intros. split; [by apply import_request_wire|]. by apply import_run.
Qed.
End open.

(** ** A device being opened *)

Definition up_env : Env := fun _ c => match c with UCalloc => (1, []) | _ => (0, []) end.
Definition demo_opener : work_t :=
  work_zero <| wk_ref_count := 2 |> <| wk_state := ws_busy |> <| wk_data := Some 20%positive |>
    <| wk_cb := device_open_cb_fn |> <| wk_user_cb := true |>.
Definition demo_closed : device_t :=
  device_zero <| dv_pdev := 50%positive |> <| dv_ref_count := 1 |> <| dv_max_retry := 1 |>
    <| dv_req_import := 49 :: 45 :: 49 :: replicate 29 0 |>.
Definition demo_opening : session :=
  session_zero <| ss_works := {[10%positive := demo_opener]} |>
    <| ss_devices := {[20%positive := demo_closed]} |> <| ss_vars := {[50%positive := 0]} |>.
Definition demo_udev : usbip_usb_device :=
  mkUusb (replicate 256 0) (49 :: 45 :: 49 :: replicate 29 0) 1 2 3 4 5 6 7 8 9 1 1 1.

Lemma up_env_network : @network_up up_env.
Proof. intros tr c. by destruct c. Defined.
Lemma up_env_memory : @memory_left up_env.
Proof. by intros tr. Defined.
Lemma demo_opening_ok : opening 10 20 demo_opener demo_closed demo_opening.
Proof. by repeat split. Defined.

Lemma refusals_bounded_witness :
  opening 10 20 demo_opener demo_closed demo_opening /\
  exists s' k', @attempts up_env false some_errors 10 20 (replicate 8 0%nat)
      (@work_process up_env false some_errors 10)
      [mkOp 273 3 1; mkOp 273 3 1] demo_opening demo_kernel = Ok (tt, s', k') /\
    connection_attempts (k_trace k') = 2%nat /\
    exists r, ss_works s' !! 10%positive = Some r /\ wk_ret r = 16.
Proof.
  split; [exact demo_opening_ok|].
  destruct (@refusals_bounded up_env false some_errors 10 20 demo_opener demo_closed
    [mkOp 273 3 1; mkOp 273 3 1] (replicate 8 0%nat) demo_opening demo_kernel)
    as (s' & k' & Hrun & r & dv & Hw & Hd & (Hst & Hret & _) & _ & Hc);
    [cbn; lia|exact up_env_network|exact demo_opening_ok|reflexivity|cbn; lia|done|done|cbn; lia
    |by repeat constructor|cbn; lia|cbn; lia|].
  exists s', k'. split; [exact Hrun|]. split; [exact Hc|]. exists r. split; [exact Hw|exact Hret].
Defined.

Lemma device_imported_witness :
  opening 10 20 demo_opener demo_closed demo_opening /\
  exists s' k', (@work_process up_env false some_errors 10;; @connects up_env false some_errors 20;;
      @uv_stream up_env false some_errors (replicate 320 99%nat) (UvSocket 20)
        (ns_bytes (mkOp 273 3 0) ++ ns_bytes (mkImportRep demo_udev))) demo_opening demo_kernel =
      Ok ([], s', k') /\
    ss_vars s' !! 50%positive = Some 20 /\ ss_work_queue s' = [100%positive].
Proof.
  split; [exact demo_opening_ok|].
  destruct (@device_imported up_env false some_errors 10 20 demo_opener demo_closed
    (mkOp 273 3 0) demo_udev (replicate 320 99%nat) demo_opening demo_kernel)
    as (_ & s' & k' & Hrun & _ & _ & Hq & Hv & _);
    [exact up_env_network|exact up_env_memory|exact demo_opening_ok|cbn; lia|done|apply not_elem_of_nil
    |apply not_elem_of_nil|done|by eexists|done|done|by repeat split|by repeat split|done|cbn; lia|].
  exists s', k'. split; [exact Hrun|]. split; [exact Hv|exact Hq].
Defined.
