(* ===== verification/ClientApiProps.v ===== *)
(** * The client library: sending transfers, hosts *)
From Stdlib Require Import String.
From S2P Require Import Prelude CLib Kernel Wire NetWire EventProps Exec Client ClientDev ClientApi ClientProps ClientReplyProps ClientOpenProps.
Local Open Scope Z_scope.

(** ** Sending *)
Section send.
Context `{Env} `{Ar : Arch} `{UvErrors}.
Implicit Types (s : session) (k : kernel).

(** The work [w] is to submit the transfer [u] to the device [d]. *)
Definition submitting (w u d : positive) (r : work_t) (ur : urb_t) (dv : device_t) s : Prop :=
  (ss_works s !! w = Some r /\ ss_urbs s !! u = Some ur /\ ss_devices s !! d = Some dv) /\
  (wk_cb r = device_urb_transfer_fn /\ wk_data r = Some u /\ wk_ret r = 0 /\ wk_reading r = false /\
   wk_state r = ws_busy) /\
  (ub_pt ur = lc_init /\ ub_dev ur = d /\ command (h_base (ub_header ur)) = USBIP_CMD_SUBMIT).

(** The header of the request, and the data sent behind it. *)
Definition submit_header (dv : device_t) (ur : urb_t) : usbip_header :=
  let h := ub_header ur in
  mkHeader (mkBasic USBIP_CMD_SUBMIT (dv_seqnum dv) (dv_devid dv) (direction (h_base h)) (ep (h_base h)))
    (mkUnion (w0 (h_u h)) (u32 (buf_len (ub_buf ur))) (w2 (h_u h)) (w3 (h_u h)) (w4 (h_u h))
       (w_setup (h_u h))).
Definition out_data (ur : urb_t) k (data : list Z) : Prop :=
  if negb (buf_len (ub_buf ur) =? 0) && (direction (h_base (ub_header ur)) =? USBIP_DIR_OUT) then
    exists b off blk, buf_base (ub_buf ur) = place_user (b, off) /\ k_heap k !! b = Some blk /\
      0 <= off /\ 0 <= buf_len (ub_buf ur) /\ off + buf_len (ub_buf ur) <= Z.of_nat (length blk) /\
      data = take (Z.to_nat (buf_len (ub_buf ur))) (drop (Z.to_nat off) blk)
  else data = [].

(** The transfer and the device once the request is written. *)
Definition sent_urb (w : positive) (dv : device_t) (ur : urb_t) (h : usbip_header) : urb_t :=
  ur <| ub_seqnum := dv_seqnum dv |> <| ub_direction := direction (h_base (ub_header ur)) |>
     <| ub_work := Some w |> <| ub_header := usbip_header_correct_endian h true |>
     <| ub_write_data := Some w |> <| ub_pt := lc_written |>.
Definition sent_device (u : positive) (dv : device_t) : device_t :=
  dv <| dv_seqnum := u32 (dv_seqnum dv + 1) |> <| dv_urb_list := dv_urb_list dv ++ [u] |>.

Lemma load_buf_ok ur k data s :
  out_data ur k data ->
  (if negb (buf_len (ub_buf ur) =? 0) && (direction (h_base (ub_header ur)) =? USBIP_DIR_OUT)
   then load_buf (ub_buf ur) else mret []) s k = Ok (data, s, k).
Proof.
  unfold out_data. case_if; [|by intros ->].
  intros (b & off & blk & Hb & Hk & Ho & Hn & Hl & ->). unfold load_buf. rewrite Hb.
  by eapply load_bytes_ok.
Qed.

Lemma transfer_submit_run w u d r ur dv data s k :
  submitting w u d r ur dv s -> header_wf (submit_header dv ur) -> out_data ur k data ->
  network_up ->
  (work_process w;; write_cb (UvUrbWrite u) 0) s k =
  Ok (tt, put_work w (r <| wk_nread := put_status 0 (wk_nread r) |>)
            (put_device d (sent_device u dv)
               (put_urbt u (sent_urb w dv ur (submit_header dv ur)) s)),
      traced [UUv (UvWrite (UvUrbWrite u) (UvSocket d) (wire_bytes (submit_header dv ur) ++ data))] k).
Proof.
  intros ((Hw & Hu & Hd) & (Hcb & Hwd & Hret & Hrd & Hst) & Hpt & Hud & Hc) Hwf Hdata Hup.
  pose proof (header_to_mem_wire _ Hwf) as Hmem.
  assert (forall h, h = submit_header dv ur ->
    pack_usbip_header_basic (pack_usbip_header_cmd_submit h) = usbip_header_correct_endian h true) as Hpack.
  { by intros h ->. }
  erewrite bind_ok.
  2:{ unfold work_process. cl_step. rewrite Hcb, Hwd. cl_step. unfold device_urb_process, get_pt.
      erewrite bind_ok by (cl_step; reflexivity). cl_step. rewrite Hpt. cbv iota.
      unfold WORK_BEGIN. cl_step. rewrite bool_decide_eq_true_2, Hret by done. cbn [negb Z.eqb orb].
      unfold device_urb_begin. cl_step. rewrite Hud. cl_step. cl_step. cl_step. cl_step.
      cbn [h_base command set_h_base set_command set_seqnum set_devid set_field]. rewrite Hc.
      change (USBIP_CMD_SUBMIT =? USBIP_CMD_SUBMIT) with true. cbn [negb]. cbv iota zeta. obj_cbn.
      match goal with |- context [pack_usbip_header_cmd_submit ?h] =>
        replace h with (submit_header dv ur); [|symmetry] end.
      2:{ destruct Hwf as (Hwords & _). unfold submit_header in *. revert Hwords Hc.
          destruct (ub_header ur) as [[c sq dvi di e] [v0 v1 v2 v3 v4 st]].
          unfold header_words. cbn [h_base h_u command seqnum devid direction ep w0 w1 w2 w3 w4 w_setup].
          intros Hwords ->. repeat (apply Forall_cons in Hwords as [? Hwords]).
          unfold put_cmd_submit, u_cmd_submit. cbn. by rewrite !u32_s32, (u32_id v2), (u32_id v3), (u32_id v4) by done. }
      rewrite (Hpack _ eq_refl), Hmem.
      cl_step. obj_cbn. erewrite bind_ok by by apply load_buf_ok. cl_step.
      rewrite async_ok by apply (Hup _ (UvWrite _ _ _)).
      unfold WORK_YIELD, set_pt. eapply update_urb_ok. map_side. }
  cbv beta. obj_cbn. autorewrite with put.
  unfold write_cb, request_data. erewrite bind_ok by (cl_step; reflexivity).
  cl_step. cl_step. unfold work_process. cl_step. rewrite Hcb, Hwd. cl_step.
  unfold device_urb_process, get_pt. erewrite bind_ok by (cl_step; reflexivity). cl_step. cbv iota.
  erewrite resume_idle_ok; [|map_side|done|done|obj_cbn; rewrite status_put by done; lia].
  unfold device_urb_written. cl_step. rewrite Hud. erewrite update_device_ok by map_side.
  obj_cbn. autorewrite with put. unfold sent_device, sent_urb. obj_cbn. by rewrite ?Hcb, ?Hwd, ?Hud.
Qed.

(** C12: Submitting a transfer writes, in one call, the 48 bytes of the protocol's
    request with the device's next number and, behind them, the data of an OUT
    transfer, whatever the byte order; once written, the transfer waits for the
    result with that number. *)
Theorem transfer_sent w u d r ur dv ret data s k :
  submitting w u d r ur dv s -> header_wf (submit_header dv ur) -> out_data ur k data ->
  network_up -> ub_ret ur = Some ret -> is_Some (ss_vars s !! ret) -> 2 <= wk_ref_count r ->
  signalable (wk_sync r) s k -> u ∉ dv_urb_list dv ->
  Forall (fun v => exists rv, ss_urbs s !! v = Some rv /\
            (ub_work rv = None \/ ub_seqnum rv <> dv_seqnum dv)) (dv_urb_list dv) ->
  exists s' ur' r', (work_process w;; write_cb (UvUrbWrite u) 0) s k =
    Ok (tt, s', traced [UUv (UvWrite (UvUrbWrite u) (UvSocket d)
                          (wire_bytes (submit_header dv ur) ++ data))] k) /\
    waiting d u w ur' r' ret (dv_seqnum dv) s'
      (traced [UUv (UvWrite (UvUrbWrite u) (UvSocket d)
                          (wire_bytes (submit_header dv ur) ++ data))] k) /\
    (exists dv', ss_devices s' !! d = Some dv' /\ dv_seqnum dv' = u32 (dv_seqnum dv + 1) /\
       dv_urb_list dv' = dv_urb_list dv ++ [u]).
Proof.
  intros Hsub Hwf Hdata Hup Hret Hv Href Hsg Hnot Hothers.
  eexists _, (sent_urb w dv ur (submit_header dv ur)), (r <| wk_nread := put_status 0 (wk_nread r) |>).
  split; [by apply transfer_submit_run|]. split.
  - split; [exists (sent_device u dv); split; [map_side|]|].
    { exists (dv_urb_list dv), []. split; [done|]. apply Forall_forall. intros v Hin.
      rewrite Forall_forall in Hothers. destruct (Hothers v Hin) as (rv & Hrv & Hne).
      exists rv. split; [|done]. map_cbn. rewrite lookup_insert_ne by (by intros ->). done. }
    split; [split; [map_side|by repeat split]|]. split; [done|].
    split; [map_side|]. by split.
  - exists (sent_device u dv). split; [map_side|done].
Qed.
End send.

(** ** Hosts *)
Section hosts.
Context `{Env} `{Ar : Arch} `{UvErrors}.
Implicit Types (s : session) (k : kernel).

(** A host is put at the front of the list. *)
Definition with_host (h : host_t) s : session :=
  s <| ss_host_count := ss_host_count s + 1 |> <| ss_host_list := h :: ss_host_list s |>.
Definition host_memory k : kernel :=
  k <| k_trace := UCalloc :: k_trace k |> <| k_next := (k_next k + 1)%positive |>.

Lemma add_host_ok h s k :
  memory_left -> MutexMem ∉ k_locks k ->
  libusbip_add_hosts [h] s k = Ok (tt, with_host h s, host_memory k).
Proof.
  intros Hmem Hl. unfold libusbip_add_hosts. exec_step. erewrite bind_ok by reflexivity. cbv beta.
  erewrite bind_ok.
  2:{ cbn [add_hosts_loop]. erewrite bind_ok.
      2:{ unfold malloc_. erewrite bind_ok by reflexivity.
          match goal with |- (if ?b then _ else _) _ _ = _ => destruct b eqn:Ea end.
          { exfalso. bool_to_prop. by apply (Hmem (k_trace k)). }
          reflexivity. }
      erewrite bind_ok by reflexivity. reflexivity. }
  erewrite spin_unlock_ok by (reflexivity || done). apply Ok_eq; [done|reflexivity|by destruct k].
Qed.

(** The text of a list of names, and the hosts it names. *)
Fixpoint host_text (names : list (list Z)) : list Z :=
  match names with
  | [] => []
  | [n] => n
  | n :: names' => n ++ 59 :: host_text names'
  end.
Definition host_name (n : list Z) : Prop :=
  59 ∉ n /\ 47 ∉ n /\ 0 ∉ n /\ (length n < 64)%nat.
Definition named_host (n : list Z) : host_t := mkHost (strncpy 64 n) 0.

Lemma chr_index_app c n rest :
  c ∉ n -> chr_index c (n ++ c :: rest) = Some (Z.of_nat (length n)).
Proof.
  induction n as [|x n IH]; intros Hc; cbn [chr_index app length].
  - by rewrite Z.eqb_refl.
  - apply not_elem_of_cons in Hc as [Hx Hc]. destruct (x =? c) eqn:E; bool_to_prop; [by subst|].
    rewrite IH by done. cbn. f_equal. lia.
Qed.
Lemma chr_index_none c n : c ∉ n -> chr_index c n = None.
Proof.
  induction n as [|x n IH]; intros Hc; cbn [chr_index]; [done|].
  apply not_elem_of_cons in Hc as [Hx Hc]. destruct (x =? c) eqn:E; bool_to_prop; [by subst|].
  by rewrite IH.
Qed.
Lemma host_text_no_slash names : Forall host_name names -> 47 ∉ host_text names.
Proof.
  induction 1 as [|n names (_ & Hs & _) Hn IH]; [apply not_elem_of_nil|].
  destruct names as [|n' names]; [done|]. cbn [host_text].
  rewrite not_elem_of_app, not_elem_of_cons. naive_solver.
Qed.
Lemma strncpy_name n rest m :
  0 ∉ n -> (length n <= m)%nat ->
  strncpy (length n) (n ++ rest) ++ replicate (m - length n) 0 = strncpy m n.
Proof.
  revert m. induction n as [|x n IH]; intros m Hz Hl; cbn [length app strncpy].
  - rewrite Nat.sub_0_r. by destruct m.
  - apply not_elem_of_cons in Hz as [Hx Hz]. destruct m as [|m]; [cbn in Hl; lia|]. cbn [strncpy hd tl].
    destruct (x =? 0) eqn:E; bool_to_prop; [by subst|]. cbn. f_equal. apply IH; [done|cbn in Hl; lia].
Qed.

(** One round of the loop: a name of [len] characters without a port. *)
Lemma host_round fuel env pos tmp n rest s k :
  memory_left -> MutexMem ∉ k_locks k -> host_name n -> 0 <= pos ->
  drop (Z.to_nat pos) env = n ++ rest -> Z.of_nat (length env) < 2 ^ 63 ->
  (Z.to_nat pos <= length env)%nat ->
  parse_host (n ++ rest) tmp = mret (Z.of_nat (length n), None, tmp) ->
  init_hosts_loop (S fuel) env pos tmp s k =
  (c ← char_at env (pos + Z.of_nat (length n));
   if c =? 0 then mret tt else init_hosts_loop fuel env (pos + Z.of_nat (length n) + 1) tmp)
    (with_host (named_host n) s) (host_memory k).
Proof.
  intros Hmem Hl (H59 & H47 & Hz & Hn) Hpos Hd Henv Hple Hparse.
  assert (Z.of_nat (Z.to_nat pos + length n) <= Z.of_nat (length env)) as Hlen.
  { apply (f_equal length) in Hd. rewrite length_drop, length_app in Hd. lia. }
  assert (u64 (pos + Z.of_nat (length n)) = pos + Z.of_nat (length n)) as E1 by int_lia.
  assert (u64 (pos + Z.of_nat (length n) + 1) = pos + Z.of_nat (length n) + 1) as E2 by int_lia.
  cbn [init_hosts_loop]. rewrite Hd, Hparse. erewrite bind_ok by reflexivity. cbv beta iota zeta.
  destruct (64 <=? Z.of_nat (length n)) eqn:E; bool_to_prop; [lia|].
  rewrite Nat2Z.id, strncpy_name by (done || lia).
  erewrite bind_ok by by apply add_host_ok. by rewrite E1, E2.
Qed.

Definition with_hosts (names : list (list Z)) s : session :=
  foldl (fun s n => with_host (named_host n) s) s names.

Lemma init_hosts_run names : Forall host_name names -> names <> [] ->
  forall fuel pre tmp s k, (length names <= fuel)%nat ->
  Z.of_nat (length (pre ++ host_text names)) < 2 ^ 63 ->
  memory_left -> MutexMem ∉ k_locks k ->
  init_hosts_loop fuel (pre ++ host_text names) (Z.of_nat (length pre)) tmp s k =
  Ok (tt, with_hosts names s, Nat.iter (length names) host_memory k).
Proof.
  intros Hnames Hne. induction Hnames as [|n names Hn Hnames IH]; [done|]. clear Hne.
  intros fuel pre tmp s k Hf Hlen Hmem Hl. pose proof Hn as (H59 & H47 & Hz & Hn64).
  destruct fuel as [|fuel]; [cbn in Hf; lia|].
  destruct names as [|n' names].
  - cbn [host_text] in *. erewrite (host_round fuel _ _ tmp n []); try done.
    + rewrite length_app in Hlen. unfold char_at. rewrite length_app.
      replace (_ <? _) with false by (symmetry; apply Z.ltb_ge; lia).
      replace (_ =? _) with true by (symmetry; apply Z.eqb_eq; lia).
      by erewrite bind_ok by reflexivity.
    + lia.
    + by rewrite Nat2Z.id, drop_app_length, app_nil_r.
    + rewrite Nat2Z.id, length_app. lia.
    + rewrite app_nil_r. unfold parse_host. by rewrite !chr_index_none.
  - set (text' := host_text (n' :: names)) in *.
    change (host_text (n :: n' :: names)) with (n ++ 59 :: text') in *.
    assert (47 ∉ n ++ 59 :: text') as Hslash.
    { apply (host_text_no_slash (n :: n' :: names)). by constructor. }
    erewrite (host_round fuel _ _ tmp n (59 :: text')); try done.
    + rewrite !length_app in Hlen. cbn [length] in Hlen. unfold char_at. rewrite !length_app. cbn [length].
      replace (_ <? _) with true by (symmetry; apply Z.ltb_lt; lia).
      erewrite bind_ok.
      2:{ apply of_option_ok. rewrite app_assoc, lookup_app_r by (rewrite length_app; lia).
          replace (_ - _)%nat with 0%nat by (rewrite length_app; lia). reflexivity. }
      cbn [Z.eqb Pos.eqb]. 
      replace (pre ++ n ++ 59 :: text') with ((pre ++ n ++ [59]) ++ text') by by rewrite <- !app_assoc.
      replace (Z.of_nat (length pre) + Z.of_nat (length n) + 1) with (Z.of_nat (length (pre ++ n ++ [59])))
        by (rewrite !length_app; cbn; lia).
      rewrite IH; try done.
      * cbn [length with_hosts foldl]. by rewrite (Nat.iter_succ_r (length (n' :: names))).
      * cbn in Hf |- *. lia.
      * rewrite !length_app. cbn [length]. lia.
    + lia.
    + by rewrite Nat2Z.id, drop_app_length.
    + rewrite Nat2Z.id, length_app. lia.
    + unfold parse_host. by rewrite chr_index_app, chr_index_none.
Qed.

(** Names of hosts separated by semicolons, none of them with a port: the loop
    over LIBUSBIP_HOSTS ends after one round per name and the session knows exactly
    these hosts besides those it knew, the last name first, with the default port. *)
Theorem hosts_parsed names tmp fuel s k :
  Forall host_name names -> names <> [] -> (length names <= fuel)%nat ->
  Z.of_nat (length (host_text names)) < 2 ^ 63 -> memory_left -> MutexMem ∉ k_locks k ->
  exists s' k', init_hosts_loop fuel (host_text names) 0 tmp s k = Ok (tt, s', k') /\
    ss_host_list s' = reverse (named_host <$> names) ++ ss_host_list s /\
    ss_host_count s' = ss_host_count s + Z.of_nat (length names) /\
    k_locks k' = k_locks k.
Proof.
  intros Hn Hne Hf Hlen Hmem Hl.
  exists (with_hosts names s), (Nat.iter (length names) host_memory k). split.
  { exact (init_hosts_run names Hn Hne fuel [] tmp s k Hf Hlen Hmem Hl). }
  assert (forall names s, ss_host_list (with_hosts names s) = reverse (named_host <$> names) ++ ss_host_list s /\
    ss_host_count (with_hosts names s) = ss_host_count s + Z.of_nat (length names)) as Hw.
  { clear. induction names as [|n names IH]; intros s; [split; [done|cbn; lia]|].
    cbn [with_hosts foldl fmap list_fmap]. destruct (IH (with_host (named_host n) s)) as [E1 E2].
    unfold with_hosts in E1, E2. rewrite E1, E2, reverse_cons, <- app_assoc. split; [done|cbn; lia]. }
  destruct (Hw names s). split; [done|]. split; [done|].
  clear. induction (length names); [done|]. cbn. done.
Qed.

(** A name with a port in front of another host: what the loop looks at. *)
Definition port_text (name port rest : list Z) : list Z := name ++ 47 :: port ++ 59 :: rest.

Lemma port_index name port rest :
  59 ∉ name -> 59 ∉ port -> 47 ∉ name ->
  chr_index 59 (port_text name port rest) = Some (Z.of_nat (length name + 1 + length port)) /\
  chr_index 47 (port_text name port rest) = Some (Z.of_nat (length name)).
Proof.
  intros Hn Hp Hs. unfold port_text. split.
  - replace (name ++ 47 :: port ++ 59 :: rest) with ((name ++ 47 :: port) ++ 59 :: rest)
      by by rewrite <- app_assoc.
    rewrite chr_index_app by (rewrite not_elem_of_app, not_elem_of_cons; naive_solver).
    do 2 f_equal. rewrite length_app. cbn. lia.
  - by rewrite chr_index_app.
Qed.

(** At the slash, [len] wraps around and the loop stays where it is. *)
Lemma hosts_stuck c name port rest : 59 ∉ port -> (length port <= 20)%nat -> c <> 0 ->
  let env := name ++ c :: port_text [] port rest in
  Z.of_nat (length env) < 2 ^ 63 ->
  forall fuel tmp s k,
  init_hosts_loop fuel env (Z.of_nat (S (length name))) tmp s k = Crash OutOfFuel.
Proof.
  intros Hp Hlp Hc env Henv. induction fuel as [|fuel IH]; intros tmp s k; [done|].
  destruct (port_index [] port rest) as [E59 E47]; try apply not_elem_of_nil; [done|].
  assert (drop (Z.to_nat (Z.of_nat (S (length name)))) env = port_text [] port rest) as Hd.
  { rewrite Nat2Z.id. unfold env. rewrite drop_app_ge by lia. by replace (_ - _)%nat with 1%nat by lia. }
  assert ((length name < length env)%nat) as Hle.
  { unfold env. rewrite length_app. cbn. lia. }
  cbn [init_hosts_loop]. rewrite Hd. unfold parse_host. rewrite E59, E47. cbn [length Nat.add].
  replace (_ <? _) with true by (symmetry; apply Z.ltb_lt; lia).
  replace (20 <? _) with false by (symmetry; apply Z.ltb_ge; lia).
  erewrite bind_ok by reflexivity. cbv beta iota zeta.
  change (u64 (Z.of_nat 0 - 1)) with (2 ^ 64 - 1). change (64 <=? 2 ^ 64 - 1) with true. cbv iota.
  erewrite bind_ok by reflexivity.
  replace (u64 (Z.of_nat (S (length name)) + (2 ^ 64 - 1))) with (Z.of_nat (length name)) by int_lia.
  replace (u64 (Z.of_nat (S (length name)) + (2 ^ 64 - 1) + 1)) with (Z.of_nat (S (length name))) by int_lia.
  unfold char_at. replace (_ <? _) with true by (symmetry; apply Z.ltb_lt; lia).
  erewrite bind_ok.
  2:{ apply of_option_ok. unfold env. rewrite Nat2Z.id, lookup_app_r, Nat.sub_diag by lia. reflexivity. }
  apply Z.eqb_neq in Hc. rewrite Hc. apply IH.
Qed.

(** A host with a port in front of another host makes the library hang: the
    loop over LIBUSBIP_HOSTS does not end, whatever the bound on its rounds. *)
Theorem host_with_port_hangs name c port rest fuel tmp s k :
  0 ∉ name -> 59 ∉ name -> 47 ∉ name -> c <> 0 -> c <> 59 -> c <> 47 -> (length name < 64)%nat ->
  59 ∉ port -> (length port <= 20)%nat ->
  Z.of_nat (length (port_text (name ++ [c]) port rest)) < 2 ^ 63 ->
  memory_left -> MutexMem ∉ k_locks k ->
  init_hosts_loop fuel (port_text (name ++ [c]) port rest) 0 tmp s k = Crash OutOfFuel.
Proof.
  intros Hz Hn Hs Hc H1 H2 Hln Hp Hlp Hlen Hmem Hl. destruct fuel as [|fuel]; [done|].
  assert (forall x, x <> c -> x ∉ name -> x ∉ name ++ [c]) as Hin.
  { intros x Hx Hx'. rewrite not_elem_of_app, list_elem_of_singleton. naive_solver. }
  destruct (port_index (name ++ [c]) port rest) as [E59 E47]; [by apply Hin|done|by apply Hin|].
  rewrite length_app in E59, E47. cbn [length] in E59, E47.
  cbn [init_hosts_loop]. unfold parse_host at 1. cbn [Z.to_nat]. rewrite drop_0, E59, E47.
  replace (_ <? _) with true by (symmetry; apply Z.ltb_lt; lia).
  replace (20 <? _) with false by (symmetry; apply Z.ltb_ge; lia).
  erewrite bind_ok by reflexivity. cbv beta iota zeta.
  replace (u64 (Z.of_nat (length name + 1) - 1)) with (Z.of_nat (length name)) by int_lia.
  replace (64 <=? _) with false by (symmetry; apply Z.leb_gt; lia).
  erewrite bind_ok by by apply add_host_ok.
  unfold port_text in *. rewrite <- app_assoc in *. cbn [app] in *. rewrite length_app in Hlen. cbn [length] in Hlen.
  replace (u64 (0 + Z.of_nat (length name))) with (Z.of_nat (length name)) by int_lia.
  replace (u64 (0 + Z.of_nat (length name) + 1)) with (Z.of_nat (S (length name))) by int_lia.
  unfold char_at at 1. rewrite length_app. cbn [length].
  replace (_ <? _) with true by (symmetry; apply Z.ltb_lt; lia).
  erewrite bind_ok.
  2:{ apply of_option_ok. rewrite Nat2Z.id, lookup_app_r, Nat.sub_diag by lia. reflexivity. }
  apply Z.eqb_neq in Hc. rewrite Hc. apply (hosts_stuck c name port rest); try done; [by apply Z.eqb_neq|].
  unfold port_text. rewrite length_app. cbn [length app]. lia.
Qed.
End hosts.

(** ** Releasing a list of devices *)
Section free.
Context `{Env}.

(** The array of the first device is freed once per device: with a second one it is
    freed twice. *)
Theorem free_info_twice info i x l count s k :
  ss_infos s !! info = Some (x :: l) -> di_interfaces x = Some i -> is_Some (ss_intfs s !! i) ->
  2 <= count -> libusbip_free_devices_info info count s k = Crash BadFree.
Proof.
  intros Hi Hx [a Ha] Hc. unfold libusbip_free_devices_info.
  replace (Z.to_nat count) with (S (S (Z.to_nat (count - 2)))) by lia. cbn [free_info_loop].
  apply bind_crash. cl_step. cbn [head]. erewrite bind_ok by reflexivity. cbv beta. rewrite Hx.
  erewrite bind_ok.
  2:{ cbn [free_interfaces]. erewrite bind_ok by reflexivity. cbv beta.
      erewrite bind_ok by (by apply of_option_ok). reflexivity. }
  cbv beta. erewrite bind_ok by (eapply look_ok; exact Hi). cbn [head].
  erewrite bind_ok by reflexivity. cbv beta. rewrite Hx. apply bind_crash. cbn [free_interfaces].
  erewrite bind_ok by reflexivity. cbv beta. cbn [ss_intfs set_ss_intfs set_field].
  by rewrite lookup_delete_eq.
Qed.
End free.

(** ** Examples *)

Definition demo_submit_work : work_t :=
  work_zero <| wk_ref_count := 2 |> <| wk_state := ws_busy |> <| wk_data := Some 30%positive |>
    <| wk_cb := device_urb_transfer_fn |> <| wk_user_cb := true |>.
Definition demo_out_urb : urb_t :=
  urb_zero_t <| ub_dev := 20%positive |> <| ub_buf := mkUvBuf (place_user (60%positive, 1)) 2 |>
    <| ub_ret := Some 50%positive |>
    <| ub_header := mkHeader (mkBasic USBIP_CMD_SUBMIT 0 0 USBIP_DIR_OUT 2)
                      (mkUnion 0 0 0 0 0 (replicate 8 0)) |>.
Definition demo_idle : device_t := demo_device <| dv_urb_list := [] |> <| dv_seqnum := 7 |> <| dv_devid := 65538 |>.
Definition demo_submit : session :=
  session_zero <| ss_works := {[40%positive := demo_submit_work]} |>
    <| ss_devices := {[20%positive := demo_idle]} |> <| ss_urbs := {[30%positive := demo_out_urb]} |>
    <| ss_vars := {[50%positive := -1]} |>.

Lemma demo_submitting : submitting 40 30 20 demo_submit_work demo_out_urb demo_idle demo_submit.
Proof. by repeat split. Defined.

Lemma transfer_sent_witness :
  submitting 40 30 20 demo_submit_work demo_out_urb demo_idle demo_submit /\
  exists s', (@work_process up_env false some_errors 40;;
              @write_cb up_env false some_errors (UvUrbWrite 30) 0) demo_submit demo_kernel =
    Ok (tt, s', traced [UUv (UvWrite (UvUrbWrite 30) (UvSocket 20)
      (be_bytes 4 1 ++ be_bytes 4 7 ++ be_bytes 4 65538 ++ be_bytes 4 0 ++ be_bytes 4 2 ++
       be_bytes 4 0 ++ be_bytes 4 2 ++ replicate 20 0 ++ [9; 9]))] demo_kernel).
Proof.
  split; [exact demo_submitting|].
  destruct (@transfer_sent up_env false some_errors 40 30 20 demo_submit_work demo_out_urb demo_idle 50
    [9; 9] demo_submit demo_kernel) as (s' & ur' & r' & Hrun & _);
    [exact demo_submitting| | |exact up_env_network|done|by eexists|cbn; lia|done|apply not_elem_of_nil
    |by apply Forall_nil|].
  - split; [|split; [done|split; [done|by intros [?|?]]]].
    repeat (apply Forall_cons; split; [done|]). by apply Forall_nil.
  - exists 60%positive, 1, [9; 9; 9; 9]. by repeat split.
  - exists s'. exact Hrun.
Defined.

Lemma hosts_parsed_witness :
  Forall host_name [text "ab"; text "c"] /\
  exists s' k', @init_hosts_loop up_env 2 (text "ab;c") 0 [] session_zero demo_kernel = Ok (tt, s', k') /\
    ss_host_list s' = [named_host (text "c"); named_host (text "ab")].
Proof.
  assert (Forall host_name [text "ab"; text "c"]) as Hn.
  { repeat (apply Forall_cons; split; [|]); [| |by apply Forall_nil];
      (repeat split; [by vm_compute; set_solver..|cbn; lia]). }
  split; [exact Hn|].
  destruct (@hosts_parsed up_env [text "ab"; text "c"] [] 2 session_zero demo_kernel)
    as (s' & k' & Hrun & Hl & _); [exact Hn|done|cbn; lia|done|exact up_env_memory|apply not_elem_of_nil|].
  exists s', k'. split; [exact Hrun|exact Hl].
Defined.

Lemma host_with_port_hangs_witness :
  memory_left (H := up_env) /\
  @init_hosts_loop up_env 1000 (text "ab/3240;c") 0 [] session_zero demo_kernel = Crash OutOfFuel.
Proof.
  split; [exact up_env_memory|].
  apply (@host_with_port_hangs up_env [97] 98 (text "3240") (text "c"));
    [by vm_compute; set_solver..|done|done|done|cbn; lia|by vm_compute; set_solver|cbn; lia|done
    |exact up_env_memory|apply not_elem_of_nil].
Defined.
