(* ===== verification/ClientCloseProps.v ===== *)
(** * The client library: the end of a connection, and waiting

    [socket_close_cb]: every transfer and the receiving loop of the device are
    finished.  [work_wait]: what a thread that waits for its work can miss. *)
From S2P Require Import Prelude Kernel Wire EventProps Exec Client ClientDev ClientProps ClientReplyProps ClientOpenProps.

Section close.
Context `{Env} `{Ar : Arch} `{UvErrors}.
Implicit Types (s : session) (k : kernel).

(** A work that is told of its cancellation: an earlier error stays. *)
Definition canceled (r : work_t) : work_t :=
  if wk_ret r =? 0 then r <| wk_ret := - UV_ECANCELED |> else r.

Lemma set_err_ok w r s k :
  ss_works s !! w = Some r ->
  WORK_SET_ERR w UV_ECANCELED s k = Ok (tt, put_work w (canceled r) s, k).
Proof. intros Hw. unfold WORK_SET_ERR. by apply update_work_ok. Qed.

Lemma canceled_fields r :
  wk_ref_count (canceled r) = wk_ref_count r /\ wk_sync (canceled r) = wk_sync r /\
  wk_timer (canceled r) = wk_timer r /\ wk_reading (canceled r) = wk_reading r /\
  wk_cb (canceled r) = wk_cb r /\ wk_data (canceled r) = wk_data r /\
  wk_user_cb (canceled r) = wk_user_cb r /\ wk_nread (canceled r) = wk_nread r.
Proof. unfold canceled. case_if; by repeat split. Qed.

(** The transfers [l] of a device, each with its work, of which somebody else holds
    a reference. *)
Definition pending (l : list (positive * positive)) s : Prop :=
  NoDup l.*2 /\
  forall u uw, (u, uw) ∈ l -> exists ur r, ss_urbs s !! u = Some ur /\ ub_work ur = Some uw /\
    ss_works s !! uw = Some r /\ 2 <= wk_ref_count r /\
    (forall y, wk_sync r = Some y -> is_Some (ss_syncs s !! y)).

(** The calls made when they are cancelled, the latest first. *)
Fixpoint cancel_calls (l : list (positive * positive)) s : list call :=
  match l with
  | [] => []
  | (_, uw) :: l' =>
      cancel_calls l' s ++
      match ss_works s !! uw with Some r => finish_calls uw (canceled r) | None => [] end
  end.

Definition cancelled_works (l : list (positive * positive)) s s' : Prop :=
  (forall u uw r, (u, uw) ∈ l -> ss_works s !! uw = Some r ->
     ss_works s' !! uw = Some (finished (canceled r))) /\
  (forall w, w ∉ l.*2 -> ss_works s' !! w = ss_works s !! w).

Lemma cancel_calls_ext l s s' :
  (forall w, w ∈ l.*2 -> ss_works s' !! w = ss_works s !! w) -> cancel_calls l s' = cancel_calls l s.
Proof.
  induction l as [|[u uw] l IH]; intros Hs; cbn [cancel_calls]; [done|].
  rewrite Hs by (cbn; set_solver). f_equal. apply IH. intros w Hw. apply Hs. cbn. set_solver.
Qed.

Lemma is_Some_signal y y' (m : gmap positive sync_t) : is_Some (m !! y) -> is_Some (signal y' m !! y).
Proof.
  intros [c Hc]. destruct y' as [y'|]; [|by eexists]. cbn [signal].
  destruct (decide (y = y')) as [->|Hne]; [rewrite lookup_alter_eq, Hc|rewrite lookup_alter_ne, Hc by congruence];
    by eexists.
Qed.

Lemma cancel_urbs_run d l : forall s k dv,
  ss_devices s !! d = Some dv -> pending l s -> k_locks k = [] ->
  exists s' k', cancel_urbs d l.*1 s k = Ok (tt, s', k') /\
    cancelled_works l s s' /\
    ss_devices s' !! d = Some (dv <| dv_urb_list := foldl (fun us u => remove_id u us) (dv_urb_list dv) l.*1 |>) /\
    ss_urbs s' = ss_urbs s /\ ss_free_work_list s' = ss_free_work_list s /\
    ss_free_device_list s' = ss_free_device_list s /\
    k' = traced (cancel_calls l s) k.
Proof.
  induction l as [|[u uw] l IH]; intros s k dv Hd [Hnd Hl] Hlk; cbn [cancel_urbs fmap list_fmap fst].
  - exists s, k. split; [done|]. split; [split; [set_solver|done]|]. cbn [foldl].
    replace (dv <| dv_urb_list := _ |>) with dv by by destruct dv. by rewrite traced_nil.
  - destruct (Hl u uw) as (ur & r & Hu & Hub & Hw & Href & Hsync); [set_solver|].
    destruct (canceled_fields r) as (Eref & Esync & _).
    cbn [fmap list_fmap snd] in Hnd. apply NoDup_cons in Hnd as [Hnin Hnd].
    cl_step. cl_step. rewrite Hub. cl_step.
    erewrite bind_ok by (apply set_err_ok; map_side).
    erewrite bind_ok.
    2:{ apply (work_done_ok uw (canceled r)); [map_side|by rewrite Eref|].
        rewrite Esync. unfold signalable. destruct (wk_sync r) as [y|] eqn:Ey; [|done].
        split; [map_cbn; by apply Hsync|]. rewrite Hlk. apply not_elem_of_nil. }
    cbv beta. autorewrite with put. set (s1 := after_done _ _ _).
    assert (forall w, w <> uw -> ss_works s1 !! w = ss_works s !! w) as Hother.
    { intros w Hne. unfold s1, after_done. map_cbn. by rewrite !lookup_insert_ne by congruence. }
    destruct (IH s1 (traced (finish_calls uw (canceled r)) k) (dv <| dv_urb_list := remove_id u (dv_urb_list dv) |>))
      as (s' & k' & Hrun & [Hc1 Hc2] & Hd' & Hu' & Hf' & Hfd' & Hk').
    + unfold s1, after_done. map_side.
    + split; [done|]. intros v vw Hin. destruct (Hl v vw) as (vr & rv & Hv & Hvb & Hvw & Hvref & Hvsync); [set_solver|].
      exists vr, rv. split; [done|]. split; [done|]. split.
      { rewrite Hother; [done|]. intros ->. apply Hnin. apply list_elem_of_fmap. by exists (v, uw). }
      split; [done|]. intros y Hy. unfold s1, after_done. map_cbn. apply is_Some_signal, Hvsync, Hy.
    + exact Hlk.
    + exists s', k'. split; [exact Hrun|]. split.
      { split.
        - intros v vw rv Hin Hvw. apply elem_of_cons in Hin as [[= -> ->]|Hin].
          + rewrite Hc2 by done. replace rv with r by congruence. unfold s1, after_done. map_side.
          + rewrite (Hc1 v vw rv); [done|done|]. rewrite Hother; [done|].
            intros ->. apply Hnin. apply list_elem_of_fmap. by exists (v, uw).
        - intros w Hw'. cbn in Hw'. rewrite Hc2, Hother; [done| |]; set_solver. }
      split; [rewrite Hd'; by destruct dv|]. split; [by rewrite Hu'|]. split; [by rewrite Hf'|].
      split; [by rewrite Hfd'|]. rewrite Hk', traced_traced. cbn [cancel_calls]. rewrite Hw.
      f_equal. f_equal. apply cancel_calls_ext. intros w Hin. apply Hother. intros ->. done.
Qed.

Lemma remove_all (us l : list positive) : foldl (fun us u => remove_id u us) l us = filter (fun u => u ∉ us) l.
Proof.
  revert l. induction us as [|u us IH]; intros l; cbn [foldl].
  - symmetry. induction l as [|x l IHl]; [done|]. rewrite filter_cons_True by set_solver. by f_equal.
  - rewrite IH. unfold remove_id. rewrite list_filter_filter. apply list_filter_iff. set_solver.
Qed.
Lemma remove_all_self (us : list positive) : foldl (fun us u => remove_id u us) us us = [].
Proof.
  rewrite remove_all. assert (forall l : list positive, l ⊆ us -> filter (fun u => u ∉ us) l = []) as Hf.
  { induction l as [|x l IH]; intros Hl; [done|]. rewrite filter_cons_False by set_solver. apply IH. set_solver. }
  by apply Hf.
Qed.

(** The loop waits somewhere for data. *)
Definition loop_reads (w d : positive) (r : work_t) (dv : device_t) s : Prop :=
  (ss_works s !! w = Some r /\ ss_devices s !! d = Some dv) /\
  (wk_cb r = device_loop_fn /\ wk_data r = Some d /\ wk_reading r = true /\ wk_ref_count r = 1 /\
   wk_sync r = None /\ wk_timer r = false /\ wk_user_cb r = false) /\
  (dv_pt dv = lc_header \/ dv_pt dv = lc_dropped \/ dv_pt dv = lc_data) /\
  dv_read_list dv = [w] /\ dv_state dv = devs_closed.

Lemma exit_loop w d p r dv next s k :
  UV_ECANCELED <> 0 -> p = pt_device d ->
  ss_works s !! w = Some r -> ss_devices s !! d = Some dv ->
  wk_cb r = device_loop_fn -> wk_data r = Some d -> wk_reading r = true -> wk_ref_count r = 1 ->
  wk_sync r = None -> wk_timer r = false -> wk_user_cb r = false -> wk_ret r <> 0 ->
  dv_read_list dv = [w] -> dv_state dv = devs_closed -> 2 <= dv_ref_count dv -> k_locks k = [] ->
  WORK_RESUME w p (reads_device d) next s k =
  Ok (tt, (put_work w (r <| wk_reading := false |> <| wk_state := ws_done |> <| wk_ref_count := 0 |>)
     (put_device d (dv <| dv_read_list := [] |> <| dv_pt := lc_init |>
                       <| dv_ref_count := dv_ref_count dv - 1 |>) s))
    <| ss_free_work_list := w :: ss_free_work_list s |>, k).
Proof.
  intros Hcan -> Hw Hd Hcb Hwd Hrd Href Hy Ht Hu Hret Hrl Hst Hdref Hlk. apply Z.eqb_neq in Hret.
  unfold WORK_RESUME, READ_DONE. erewrite bind_ok.
  2:{ cl_step. rewrite Hrd. cbn [when_]. cl_step. unfold set_read_list. eapply update_device_ok. map_side. }
  cbv beta. autorewrite with put. cl_step. rewrite Hret. cbn [negb].
  rewrite Hrl, remove_id_cons_eq. unfold remove_id. cbn [filter list_filter].
  unfold WORK_EXIT, PT_INIT, set_pt. cl_step.
  unfold work_done. cl_step. rewrite Ht, Hy. cbn [when_].
  erewrite bind_ok by reflexivity. cl_step. cl_step. rewrite Hu. cbn [when_].
  erewrite bind_ok by reflexivity. unfold work_unref. cl_step. cl_step. rewrite Href.
  change (1 - 1 <? 0) with false. change (1 - 1 =? 0) with true. cbn [when_].
  unfold work_del. cl_step. rewrite ?Ht. cbv iota. erewrite bind_ok.
  2:{ unfold work_destroy. cl_step. rewrite Hcb, Hwd. cl_step. unfold device_loop_destroy.
      erewrite bind_ok.
      2:{ unfold DEVICE_CLOSE. cl_step. rewrite Hst. change (devs_opening <=? devs_closed) with false. reflexivity. }
      unfold device_unref. cl_step. cl_step.
      destruct (dv_ref_count dv - 1 <? 0) eqn:E1; bool_to_prop; [lia|].
      destruct (dv_ref_count dv - 1 =? 0) eqn:E2; bool_to_prop; [lia|]. reflexivity. }
  cbv beta. autorewrite with put. erewrite bind_ok by (apply spin_lock_ok; rewrite Hlk; apply not_elem_of_nil).
  cbv beta iota. erewrite bind_ok by reflexivity. erewrite bind_ok by reflexivity.
  erewrite spin_unlock_ok by (reflexivity || (rewrite Hlk; apply not_elem_of_nil)).
  apply Ok_eq; [done| |by destruct k]. obj_cbn. rewrite ?Hcb, ?Hwd, ?Hst. reflexivity.
Qed.

Lemma device_unref_ok d dv s k :
  ss_devices s !! d = Some dv -> 1 <= dv_ref_count dv -> k_locks k = [] ->
  exists s', device_unref d s k = Ok (tt, s', k) /\
    ss_works s' = ss_works s /\ ss_free_work_list s' = ss_free_work_list s /\
    ss_devices s' = <[d := dv <| dv_ref_count := dv_ref_count dv - 1 |>]> (ss_devices s) /\
    ss_free_device_list s' =
      if dv_ref_count dv =? 1 then d :: ss_free_device_list s else ss_free_device_list s.
Proof.
  intros Hd Href Hlk. unfold device_unref. cl_step. cl_step.
  destruct (_ <? 0) eqn:E1; bool_to_prop; [lia|].
  destruct (dv_ref_count dv - 1 =? 0) eqn:E2; bool_to_prop; cbn [when_].
  - unfold device_del. erewrite bind_ok by (apply spin_lock_ok; rewrite Hlk; apply not_elem_of_nil).
    erewrite bind_ok by reflexivity.
    erewrite spin_unlock_ok by (reflexivity || (rewrite Hlk; apply not_elem_of_nil)).
    eexists. split; [apply Ok_eq; [done|reflexivity|by destruct k]|].
    split; [done|]. split; [done|]. split; [done|]. by replace (dv_ref_count dv =? 1) with true by (symmetry; apply Z.eqb_eq; lia).
  - eexists. split; [reflexivity|]. split; [done|]. split; [done|]. split; [done|].
    by replace (dv_ref_count dv =? 1) with false by (symmetry; apply Z.eqb_neq; lia).
Qed.

Lemma canceled_ret r : UV_ECANCELED <> 0 -> wk_ret (canceled r) <> 0.
Proof. intros Hc. unfold canceled. case_if; bool_to_prop; [cbn; lia|done]. Qed.

(** The loop is called once more, with an error, and ends. *)
Lemma cancel_loop w d r dv s k :
  UV_ECANCELED <> 0 -> loop_reads w d r dv s -> 2 <= dv_ref_count dv -> k_locks k = [] ->
  exists s' r', cancel_reads [w] s k = Ok (tt, s', k) /\
    (forall p, p <> w -> ss_works s' !! p = ss_works s !! p) /\
    ss_works s' !! w = Some r' /\ wk_state r' = ws_done /\ wk_ref_count r' = 0 /\
    wk_ret r' = wk_ret (canceled r) /\
    ss_free_work_list s' = w :: ss_free_work_list s /\
    ss_free_device_list s' = ss_free_device_list s /\
    ss_devices s' !! d = Some (dv <| dv_read_list := [] |> <| dv_pt := lc_init |>
                                  <| dv_ref_count := dv_ref_count dv - 1 |>).
Proof.
  intros Hcan ((Hw & Hd) & (Hcb & Hwd & Hrd & Href & Hy & Ht & Hu) & Hpt & Hrl & Hst) Hdref Hlk.
  destruct (canceled_fields r) as (Eref & Esync & Etimer & Eread & Ecb & Edata & Euser & Enread).
  cbn [cancel_reads]. cl_step. rewrite Hrd. cbn [negb].
  erewrite bind_ok by (apply set_err_ok; exact Hw). cl_step.
  eexists _, _. split.
  { erewrite bind_ok.
    2:{ unfold work_process. cl_step. rewrite Ecb, Hcb, Edata, Hwd. cl_step.
        unfold device_loop_process, get_pt. erewrite bind_ok by (cl_step; reflexivity).
        pose proof (canceled_ret r Hcan) as Hret.
        destruct Hpt as [E|[E|E]]; rewrite E; cbv iota;
          (erewrite exit_loop; [reflexivity|done|done|map_side|map_side|done|done|obj_cbn; congruence
            |obj_cbn; congruence|obj_cbn; congruence|obj_cbn; congruence|obj_cbn; congruence|done|done|done|done|done]). }
    reflexivity. }
  split; [intros p Hp; map_cbn; by rewrite !lookup_insert_ne by congruence|].
  split; [map_side|]. repeat split; try done. map_side.
Qed.

(** C8: The connection of a device is closed: every transfer that waited for a result
    is finished with ECANCELED unless it had an error before, and its user told once,
    in order; the receiving loop ends and its work and reference are released; nothing
    waits or reads any more, and the device is free when nobody else refers to it. *)
Theorem close_finishes_all w d r dv l s k :
  UV_ECANCELED <> 0 -> ss_devices s !! d = Some dv -> loop_reads w d r (dv <| dv_state := devs_closed |>)
    (put_device d (dv <| dv_state := devs_closed |>) s) ->
  dv_urb_list dv = l.*1 -> pending l s -> w ∉ l.*2 -> 2 <= dv_ref_count dv -> k_locks k = [] ->
  exists s' r' dv', socket_close_cb d s k = Ok (tt, s', traced (cancel_calls l s) k) /\
    (forall u uw ru, (u, uw) ∈ l -> ss_works s !! uw = Some ru ->
       ss_works s' !! uw = Some (finished (canceled ru))) /\
    ss_works s' !! w = Some r' /\ wk_state r' = ws_done /\ wk_ref_count r' = 0 /\
    wk_ret r' = wk_ret (canceled r) /\
    ss_devices s' !! d = Some dv' /\ dv_urb_list dv' = [] /\ dv_read_list dv' = [] /\
    dv_state dv' = devs_closed /\ dv_ref_count dv' = dv_ref_count dv - 2 /\
    ss_free_work_list s' = w :: ss_free_work_list s /\
    ss_free_device_list s' =
      if dv_ref_count dv =? 2 then d :: ss_free_device_list s else ss_free_device_list s.
Proof.
  intros Hcan Hd ((Hw & Hd0) & Hwork & Hpt & Hrl & Hst) Hul Hpend Hnin Hdref Hlk.
  set (dv0 := dv <| dv_state := devs_closed |>) in *. set (s0 := put_device d dv0 s) in *.
  unfold socket_close_cb. erewrite bind_ok by (eapply update_device_ok; exact Hd).
  cbv beta. fold dv0. fold s0. erewrite bind_ok by (eapply look_ok; exact Hd0).
  cbv beta. change (dv_urb_list dv0) with (dv_urb_list dv). rewrite Hul.
  destruct (cancel_urbs_run d l s0 k dv0 Hd0 Hpend Hlk) as (s1 & k1 & Hrun1 & [Hc1 Hc2] & Hd1 & Hu1 & Hf1 & Hfd1 & ->).
  change (dv_urb_list dv0) with (dv_urb_list dv) in Hd1. rewrite Hul, remove_all_self in Hd1.
  rewrite (cancel_calls_ext l s s0) in Hrun1 by done.
  set (k1 := traced (cancel_calls l s) k) in *.
  erewrite bind_ok by exact Hrun1. cbv beta. erewrite bind_ok by (eapply look_ok; exact Hd1). cbv beta.
  change (dv_read_list (dv0 <| dv_urb_list := [] |>)) with (dv_read_list dv0). rewrite Hrl.
  destruct (cancel_loop w d r (dv0 <| dv_urb_list := [] |>) s1 k1) as
    (s2 & r2 & Hrun2 & Hother & Hw2 & Hst2 & Href2 & Hret2 & Hfw2 & Hfd2 & Hd2); [done| |done|done|].
  { split; [split; [rewrite Hc2 by done; exact Hw|exact Hd1]|]. split; [exact Hwork|].
    split; [exact Hpt|]. by split. }
  erewrite bind_ok by exact Hrun2. cbv beta.
  destruct (device_unref_ok d _ s2 k1 Hd2) as (s3 & Hrun3 & Hw3 & Hf3 & Hd3 & Hfd3); [cbn; lia|done|].
  rewrite Hrun3. eexists s3, r2, _. split; [reflexivity|].
  split.
  { intros u uw ru Hin Hru. rewrite Hw3, Hother; [exact (Hc1 u uw ru Hin Hru)|].
    intros ->. apply Hnin, list_elem_of_fmap. by exists (u, w). }
  split; [by rewrite Hw3|]. split; [done|]. split; [done|]. split; [done|].
  split; [rewrite Hd3; apply lookup_insert_eq|]. split; [done|]. split; [done|]. split; [done|].
  split; [cbn; lia|]. split; [by rewrite Hf3, Hfw2, Hf1|].
  rewrite Hfd3, Hfd2, Hfd1. cbn [dv_ref_count set_dv_ref_count set_dv_pt set_dv_read_list set_dv_urb_list set_field].
  change (dv_ref_count dv0) with (dv_ref_count dv).
  change (ss_free_device_list s0) with (ss_free_device_list s).
  replace (dv_ref_count dv - 1 =? 1) with (dv_ref_count dv =? 2); [done|].
  apply eq_true_iff_eq. rewrite !Z.eqb_eq. lia.
Qed.

(** *** Waiting for a work *)

Lemma wait_ok w r y s k :
  ss_works s !! w = Some r -> wk_sync r = Some y -> is_Some (ss_syncs s !! y) -> k_locks k = [] ->
  work_wait w s k = Ok (tt, s <| ss_syncs := <[y := sync_waiting]> (ss_syncs s) |>, k).
Proof.
  intros Hw Hy [c Hc] Hlk. unfold work_wait. cl_step. rewrite Hy. cl_step.
  erewrite bind_ok by (apply spin_lock_ok; rewrite Hlk; apply not_elem_of_nil).
  unfold cond_wait. erewrite bind_ok by (eapply spin_unlock_ok; [reflexivity|rewrite Hlk; apply not_elem_of_nil]).
  erewrite update_ok by exact Hc. apply Ok_eq; [done|done|by destruct k].
Qed.

(** A woken thread whose work is finished takes its result and closes it. *)
Lemma wake_done w r y s k :
  memory_left -> ss_works s !! w = Some r -> wk_sync r = Some y -> wk_state r = ws_done ->
  is_Some (ss_syncs s !! y) -> k_locks k = [] -> next_work s k <> w ->
  exists s' k', work_wait_wake w s k = Ok (Some (wk_ret r), s', k') /\
    ss_work_queue s' = ss_work_queue s ++ [next_work s k] /\
    ss_works s' !! next_work s k = Some (queued_work (Some w) work_unref_cb_fn).
Proof.
  intros Hmem Hw Hy Hst [c Hc] Hlk Hne. unfold work_wait_wake. cl_step. rewrite Hy. cl_step.
  erewrite bind_ok by (eapply update_ok; exact Hc).
  erewrite bind_ok by (apply spin_lock_ok; rewrite Hlk; apply not_elem_of_nil). cbv beta.
  rewrite decide_True by done.
  erewrite bind_ok by (eapply spin_unlock_ok; [reflexivity|rewrite Hlk; apply not_elem_of_nil]).
  erewrite bind_ok by (eapply look_ok; exact Hw). cbv beta.
  set (s1 := s <| ss_syncs := _ |>). set (k1 := _ <| k_locks := k_locks k |>).
  assert (k1 = k) as -> by by destruct k.
  destruct (work_new_ok (Some w) work_unref_cb_fn s1 k Hmem) as (s2 & k2 & Hnew & Hw2 & Hq2 & _);
    [rewrite Hlk; apply not_elem_of_nil..|].
  change (next_work s1 k) with (next_work s k) in *.
  eexists s2, k2. split.
  { erewrite bind_ok; [reflexivity|]. unfold libusbip_work_close. by erewrite bind_ok by exact Hnew. }
  split; [exact Hq2|]. rewrite Hw2. apply lookup_insert_eq.
Qed.

(** A thread that waits for its work before it is finished is woken, takes the
    result and closes the work; one that the work's end overtakes, between queueing
    the work and waiting for it, stays blocked although the work is finished. *)
Theorem wakeup_only_if_waiting w r y s k :
  memory_left -> ss_works s !! w = Some r -> wk_sync r = Some y -> 2 <= wk_ref_count r ->
  is_Some (ss_syncs s !! y) -> k_locks k = [] -> next_work s k <> w ->
  (exists s' k', (work_wait w;; work_done w;; work_wait_wake w) s k = Ok (Some (wk_ret r), s', k') /\
     exists w', ss_work_queue s' = ss_work_queue s ++ [w'] /\
       ss_works s' !! w' = Some (queued_work (Some w) work_unref_cb_fn)) /\
  (exists s' k', (work_done w;; work_wait w) s k = Ok (tt, s', k') /\
     ss_syncs s' !! y = Some sync_waiting /\ ss_works s' !! w = Some (finished r)).
Proof.
  intros Hmem Hw Hy Href Hsy Hlk Hne. split.
  - erewrite bind_ok by by apply (wait_ok w r y). cbv beta.
    set (s1 := s <| ss_syncs := <[y := sync_waiting]> (ss_syncs s) |>).
    assert (ss_syncs s1 !! y = Some sync_waiting) as Hs1 by apply lookup_insert_eq.
    erewrite bind_ok.
    2:{ apply (work_done_ok w r); [exact Hw|done|]. rewrite Hy. split; [by eexists|].
        rewrite Hlk. apply not_elem_of_nil. }
    cbv beta. destruct (wake_done w (finished r) y (after_done w r s1) (traced (finish_calls w r) k))
      as (s' & k' & Hrun & Hq & Hw'); try done.
    + unfold after_done. map_side.
    + unfold after_done. map_cbn. rewrite Hy. apply is_Some_signal. by eexists.
    + exists s', k'. split; [exact Hrun|]. eexists. split; [exact Hq|exact Hw'].
  - erewrite bind_ok.
    2:{ apply (work_done_ok w r); [exact Hw|done|]. rewrite Hy. split; [done|].
        rewrite Hlk. apply not_elem_of_nil. }
    cbv beta. eexists _, _. split.
    { apply (wait_ok w (finished r) y); [unfold after_done; map_side|done| |done].
      unfold after_done. map_cbn. by apply is_Some_signal. }
    split; [apply lookup_insert_eq|]. unfold after_done. map_side.
Qed.
End close.

(** ** Examples *)

Lemma close_finishes_all_witness :
  loop_reads 10 20 demo_loop (demo_device <| dv_state := devs_closed |>)
    (put_device 20 (demo_device <| dv_state := devs_closed |>) demo_session) /\
  exists s' r', @socket_close_cb quiet_env false some_errors 20 demo_session demo_kernel =
    Ok (tt, s', traced [UUv (UvUserCallback 7 (-125))] demo_kernel) /\
    ss_works s' !! 40%positive = Some r' /\ wk_ret r' = -125.
Proof.
  assert (loop_reads 10 20 demo_loop (demo_device <| dv_state := devs_closed |>)
    (put_device 20 (demo_device <| dv_state := devs_closed |>) demo_session)) as Hl.
  { split; [by split|]. split; [by repeat split|]. split; [by left|]. by split. }
  split; [exact Hl|].
  destruct (@close_finishes_all quiet_env false some_errors 10 20 demo_loop demo_device
    [(30%positive, 40%positive)] demo_session demo_kernel)
    as (s' & r' & dv' & Hrun & Hworks & _); [done|done|exact Hl|done| | |cbn; lia|done|].
  - split; [by apply NoDup_singleton|]. intros u uw [= -> ->]%list_elem_of_singleton.
    exists demo_urb, demo_work. by repeat split.
  - by intros [= ?]%list_elem_of_singleton.
  - exists s'. eexists. split; [exact Hrun|]. split; [by apply (Hworks 30%positive); [apply list_elem_of_singleton|]|done].
Defined.

Definition demo_waiting_session : session :=
  session_zero <| ss_works := {[10%positive := work_zero <| wk_ref_count := 2 |> <| wk_sync := Some 11%positive |>]} |>
    <| ss_syncs := {[11%positive := sync_idle]} |>.
Lemma wakeup_only_if_waiting_witness :
  memory_left (H := up_env) /\
  exists s' k', (@work_done up_env 10;; work_wait 10) demo_waiting_session demo_kernel = Ok (tt, s', k') /\
    ss_syncs s' !! 11%positive = Some sync_waiting.
Proof.
  split; [exact up_env_memory|].
  destruct (@wakeup_only_if_waiting up_env 10
    (work_zero <| wk_ref_count := 2 |> <| wk_sync := Some 11%positive |>) 11 demo_waiting_session demo_kernel)
    as (_ & s' & k' & Hrun & Hs & _); [exact up_env_memory|done|done|cbn; lia|by eexists|done|done|].
  exists s', k'. split; [exact Hrun|exact Hs].
Defined.
