(* ===== verification/GadgetProps.v ===== *)
(** * The gadget: which endpoints a setting has

    [ep_config] walks over the descriptors of a configuration in memory; the
    endpoints it sets up are those the configuration lists for the alternate
    setting asked for. *)
From S2P Require Import Prelude Kernel Wire Exec Client Gadget.

(** ** A configuration *)

Definition dtype (d : list Z) : Z := nth 1 d 0.
Definition is_interface (d : list Z) : bool := dtype d =? USB_DT_INTERFACE.
Definition is_endpoint (d : list Z) : bool := dtype d =? USB_DT_ENDPOINT.
Definition is_alternate (n a : Z) (d : list Z) : bool :=
  is_interface d && (nth 2 d 0 =? n) && (nth 3 d 0 =? a).
Definition ep_number (d : list Z) : Z :=
  Z.land (nth 2 d 0) 15 + (if has_bits (nth 2 d 0) 128 then 16 else 0).

(** A descriptor tells its own length, which a signed [char] holds. *)
Definition descriptor (d : list Z) : Prop :=
  hd 0 d = Z.of_nat (length d) /\ (2 <= length d < 128)%nat /\
  (is_interface d = true \/ is_endpoint d = true -> (4 <= length d)%nat).

(** Descriptors with the places they are at. *)
Fixpoint placed (o : Z) (ds : list (list Z)) : list (Z * list Z) :=
  match ds with
  | [] => []
  | d :: ds' => (o, d) :: placed (o + Z.of_nat (length d)) ds'
  end.

(** The endpoints of a setting follow its interface descriptor, up to the next. *)
Fixpoint endpoints_of (l : list (Z * list Z)) : list (Z * list Z) :=
  match l with
  | [] => []
  | x :: l' => if is_interface x.2 then []
               else if is_endpoint x.2 then x :: endpoints_of l' else endpoints_of l'
  end.
Fixpoint find_alternate (n a : Z) (l : list (Z * list Z)) : option (Z * list (Z * list Z)) :=
  match l with
  | [] => None
  | x :: l' => if is_alternate n a x.2 then Some (x.1, endpoints_of l') else find_alternate n a l'
  end.

(** What is left in an endpoint that was configured: its interface and
    descriptor, and an empty list of URBs the first time. *)
Definition configured_ep (b : positive) (cur o : Z) (e : ep_s) : ep_s :=
  mkEpS true (es_fd e) (es_thread e) (Some (b, cur)) (Some (b, o))
    (if es_init e then es_urb_ready_list e else []) (es_stopping e).
Definition configure (b : positive) (cur : Z) (eps : list ep_s) (x : Z * list Z) : list ep_s :=
  alter (configured_ep b cur x.1) (Z.to_nat (ep_number x.2)) eps.

Lemma ep_number_range d : bytes d -> 0 <= ep_number d < 32.
Proof.
  intros Hd. unfold ep_number. assert (0 <= Z.land (nth 2 d 0) 15 < 16).
  { change 15 with (Z.ones 4). rewrite Z.land_ones by lia. apply Z.mod_pos_bound. lia. }
  case_if; lia.
Qed.

Lemma length_configures b cur l eps : length (foldl (configure b cur) eps l) = length eps.
Proof. revert eps. induction l as [|x l IH]; intros eps; [done|]. cbn [foldl]. rewrite IH. apply length_alter. Qed.

(** The last descriptor of an endpoint counts. *)
Lemma configures_lookup b cur l eps i e :
  Forall (fun x => 0 <= ep_number x.2) l -> eps !! i = Some e ->
  foldl (configure b cur) eps l !! i =
    Some match last (filter (fun x => ep_number x.2 = Z.of_nat i) l) with
         | Some x => configured_ep b cur x.1 e
         | None => e
         end.
Proof.
  intros Hl. revert e eps. induction Hl as [|x l Hx Hl IH]; intros e eps He; [done|].
  cbn [foldl]. rewrite filter_cons. unfold configure at 2. case_decide as E.
  - rewrite (IH (configured_ep b cur x.1 e)).
    + rewrite last_cons. by destruct (last _).
    + rewrite E, Nat2Z.id, list_lookup_alter_eq, He. done.
  - apply IH. rewrite list_lookup_alter_ne; [done|]. intros <-. apply E. lia.
Qed.

Lemma alter_cong (f g : ep_s -> ep_s) (i : nat) e (l : list ep_s) : l !! i = Some e -> f e = g e -> alter f i l = alter g i l.
Proof.
  intros He Hfg. apply list_eq. intros j. rewrite !list_lookup_alter. case_decide as E; [|done].
  subst. rewrite He. cbn. by rewrite Hfg.
Qed.

Lemma alter_alter (f g : ep_s -> ep_s) (i : nat) (l : list ep_s) :
  alter f i (alter g i l) = alter (fun e => f (g e)) i l.
Proof.
  apply list_eq. intros j. rewrite !list_lookup_alter. case_decide; [|done].
  rewrite decide_True by done. by destruct (l !! i).
Qed.

Lemma placed_bytes o ds : Forall bytes ds -> Forall (fun x => bytes x.2) (placed o ds).
Proof. intros Hds. revert o. induction Hds as [|d ds Hd Hds IH]; intros o; cbn; by constructor. Qed.

Lemma find_alternate_numbers n a l cur l' :
  Forall (fun x => bytes x.2) l -> find_alternate n a l = Some (cur, l') ->
  Forall (fun x => 0 <= ep_number x.2) l'.
Proof.
  assert (forall l, Forall (fun x => bytes x.2) l -> Forall (fun x => 0 <= ep_number x.2) (endpoints_of l)) as He.
  { induction 1 as [|x r Hx Hr IH]; cbn; [constructor|].
    destruct (is_interface x.2); [constructor|]. destruct (is_endpoint x.2); [|done].
    constructor; [|done]. apply ep_number_range, Hx. }
  induction 1 as [|x r Hx Hr IH]; cbn; [done|]. case_if; [|done]. intros [= _ <-]. by apply He.
Qed.

(** ** Reading descriptors *)
Section config.
Context `{Env} `{Arch} `{PlainChar} `{LibAnswers}.
Implicit Types (s : context_t) (k : kernel).

Lemma byte_at_ok b o i blk x s k :
  k_heap k !! b = Some blk -> 0 <= o + i -> blk !! Z.to_nat (o + i) = Some x ->
  byte_at (b, o) i s k = Ok (x, s, k).
Proof.
  intros Hb Ho Hx. unfold byte_at. pose proof (lookup_lt_Some _ _ _ Hx).
  erewrite bind_ok by (apply load_bytes_ok with (blk := blk); cbn; done || lia).
  cbn [ptr_add fst snd]. change (Z.to_nat 1) with 1%nat.
  rewrite (drop_S _ _ _ Hx). done.
Qed.

(** The bytes of the descriptor [d] at offset [o] of the block. *)
Definition found_at (b : positive) (o : Z) (d : list Z) k : Prop :=
  exists pre post, k_heap k !! b = Some (pre ++ d ++ post) /\ o = Z.of_nat (length pre).

Lemma found_byte b o d i s k :
  found_at b o d k -> (i < length d)%nat ->
  byte_at (b, o) (Z.of_nat i) s k = Ok (nth i d 0, s, k).
Proof.
  intros (pre & post & Hb & ->) Hi. eapply byte_at_ok; [exact Hb|lia|].
  rewrite lookup_app_r by lia. rewrite lookup_app_l by lia.
  replace (_ - _)%nat with i by lia. rewrite nth_lookup. destruct (lookup_lt_is_Some_2 d i Hi) as [x ->]. done.
Qed.

Lemma half_found b o d i s k :
  found_at b o d k -> (i + 2 <= length d)%nat ->
  half_at (b, o) (Z.of_nat i) s k = Ok (of_le (take 2 (drop i d)), s, k).
Proof.
  intros (pre & post & Hb & ->) Hi. unfold half_at.
  erewrite bind_ok by (apply load_bytes_ok with (blk := pre ++ d ++ post);
    [done|cbn; lia|lia|cbn; rewrite !length_app; lia]).
  cbn [ptr_add fst snd]. rewrite drop_app_ge, drop_app_le, take_app_le by (rewrite ?length_drop; lia).
  replace (_ - _)%nat with i by lia. done.
Qed.

Lemma found_next b o d l k :
  found_at b o (d ++ l) k -> found_at b o d k /\ found_at b (o + Z.of_nat (length d)) l k.
Proof.
  intros (pre & post & Hb & ->). rewrite <- app_assoc in Hb. split; [by eexists _, _|].
  exists (pre ++ d), post. rewrite <- app_assoc, length_app. split; [done|lia].
Qed.

Lemma char_at_descriptor b o d i s k :
  descriptor d -> found_at b (o + i) d k ->
  char_at (b, o) i s k = Ok (Z.of_nat (length d), s, k).
Proof.
  intros (Hd & Hl & _) Hf. unfold char_at. erewrite bind_ok.
  2:{ pose proof (found_byte b (o + i) d 0 s k Hf ltac:(lia)) as E. cbn [Z.of_nat] in E.
      unfold byte_at in *. unfold ptr_add in *. cbn [fst snd] in *. rewrite Z.add_0_r in E. exact E. }
  assert (nth 0 d 0 = Z.of_nat (length d)) as -> by (rewrite <- Hd; by destruct d).
  destruct char_signed; [|done]. replace (swrap 8 _) with (Z.of_nat (length d)); [done|]. int_lia.
Qed.

Lemma ep_index_ok b o d s k :
  is_endpoint d = true -> descriptor d -> found_at b o d k ->
  ep_index (b, o) s k = Ok (ep_number d, s, k).
Proof.
  intros He (_ & _ & Hl) Hf. specialize (Hl (or_intror He)).
  pose proof (fun s => found_byte b o d 2 s k Hf ltac:(lia)) as E. cbn [Z.of_nat] in E.
  unfold ep_index, usb_endpoint_num, usb_endpoint_dir_in.
  erewrite bind_ok; [|erewrite bind_ok by apply E; reflexivity].
  erewrite bind_ok; [|erewrite bind_ok by apply E; reflexivity]. done.
Qed.

Lemma look_ep_ok i e s k :
  0 <= i -> cx_eps s !! Z.to_nat i = Some e -> look_ep i s k = Ok (e, s, k).
Proof. intros _ He. unfold look_ep. erewrite bind_ok by reflexivity. by apply of_option_ok. Qed.

Lemma update_ep_ok i f e s k :
  0 <= i -> cx_eps s !! Z.to_nat i = Some e ->
  update_ep i f s k = Ok (tt, s <| cx_eps := alter f (Z.to_nat i) (cx_eps s) |>, k).
Proof. intros Hi He. unfold update_ep. by erewrite bind_ok by (by eapply look_ep_ok). Qed.

Lemma eps_eq l l' s k :
  l = l' -> Ok (tt, s <| cx_eps := l |>, k) = Ok (tt, s <| cx_eps := l' |>, k).
Proof. by intros ->. Qed.

Lemma configure_ep_ok b o cur d s k :
  is_endpoint d = true -> descriptor d -> bytes d -> found_at b o d k -> length (cx_eps s) = 32%nat ->
  configure_ep (b, o) (Some (b, cur)) s k =
    Ok (tt, s <| cx_eps := configure b cur (cx_eps s) (o, d) |>, k).
Proof.
  intros He Hd Hby Hf Hlen. pose proof (ep_number_range d Hby) as Hr.
  destruct (lookup_lt_is_Some_2 (cx_eps s) (Z.to_nat (ep_number d))) as [e Hlook]; [lia|].
  unfold configure_ep. erewrite bind_ok by by apply ep_index_ok.
  erewrite bind_ok by (eapply update_ep_ok; [lia|exact Hlook]).
  assert (forall f : ep_s -> ep_s, alter f (Z.to_nat (ep_number d)) (cx_eps s) !! Z.to_nat (ep_number d) = Some (f e)) as Ha.
  { intros f. by rewrite list_lookup_alter_eq, Hlook by done. }
  erewrite bind_ok by (eapply look_ep_ok; [lia|]; cbn; apply Ha). cbn [es_init set_field set_es_init set_es_interface set_es_desc].
  unfold configure. cbn [fst snd]. destruct (es_init e) eqn:Ei.
  - apply eps_eq. eapply alter_cong; [exact Hlook|]. unfold configured_ep. by rewrite Ei.
  - erewrite update_ep_ok; [|lia|cbn; apply Ha]. refine (eps_eq _ _ s k _).
    cbn [cx_eps set_field set_cx_eps]. rewrite alter_alter.
    eapply alter_cong; [exact Hlook|]. unfold configured_ep. by rewrite Ei.
Qed.

(** Once the setting is found, its endpoints are configured until the next
    interface or the end. *)
Lemma config_loop ds b o cur n a i fuel s k :
  Forall descriptor ds -> Forall bytes ds -> 0 <= a -> (length ds < fuel)%nat ->
  found_at b (o + i) (concat ds) k -> length (cx_eps s) = 32%nat ->
  ep_config_loop fuel (b, o) (i + Z.of_nat (length (concat ds))) n a i STATE_CONFIG (Some (b, cur)) 0 s k =
    Ok (0, s <| cx_eps := foldl (configure b cur) (cx_eps s) (endpoints_of (placed (o + i) ds)) |>, k).
Proof.
  intros Hds Hby Ha. revert fuel i s. induction ds as [|d ds IH]; intros [|fuel] i s Hfu Hf Hlen;
    [cbn in Hfu; lia| |cbn in Hfu; lia|]; cbn [ep_config_loop].
  { rewrite Z.add_0_r, Z.ltb_irrefl. cbn. f_equal. by destruct s. }
  apply Forall_cons in Hds as [Hd Hds]. apply Forall_cons in Hby as [Hbd Hby].
  pose proof Hd as (_ & Hl & _). cbn [concat] in *. rewrite length_app. cbn [length] in Hfu.
  apply found_next in Hf as [Hfd Hfn]. rewrite <- Z.add_assoc in Hfn.
  replace (i <? _) with true by (symmetry; apply Z.ltb_lt; lia). cbn [negb].
  pose proof (fun s => found_byte b (o + i) d 1 s k Hfd ltac:(lia)) as Hty. cbn [Z.of_nat] in Hty.
  unfold ptr_add at 1. cbn [fst snd]. erewrite bind_ok by apply Hty. cbn [placed endpoints_of fst snd].
  fold (dtype d). unfold is_interface at 1, is_endpoint at 1.
  assert (forall s, length (cx_eps s) = 32%nat ->
    (n0 ← char_at (b, o) i; ep_config_loop fuel (b, o) (i + Z.of_nat (length d + length (concat ds))) n a
       (i + n0) STATE_CONFIG (Some (b, cur)) 0) s k =
    Ok (0, s <| cx_eps := foldl (configure b cur) (cx_eps s)
          (endpoints_of (placed (o + i + Z.of_nat (length d)) ds)) |>, k)) as Hnext.
  { intros s1 Hlen1. erewrite bind_ok by by apply char_at_descriptor.
    replace (i + Z.of_nat (length d + length (concat ds))) with
      (i + Z.of_nat (length d) + Z.of_nat (length (concat ds))) by lia.
    rewrite IH by (done || lia). by rewrite Z.add_assoc. }
  destruct (dtype d =? USB_DT_ENDPOINT) eqn:Ee.
  - assert ((dtype d =? USB_DT_INTERFACE) = false) as ->.
    { apply Z.eqb_neq. apply Z.eqb_eq in Ee. rewrite Ee. done. }
    erewrite bind_ok by (by apply configure_ep_ok). rewrite Hnext; [done|]. cbn.
    by rewrite <- Hlen, <- (length_configures b cur [(o + i, d)] (cx_eps s)).
  - destruct (dtype d =? USB_DT_INTERFACE) eqn:Ei; cbn [negb]; [|by apply Hnext].
    replace (0 <=? a) with true by (symmetry; apply Z.leb_le; lia). cbn. f_equal. by destruct s.
Qed.

(** Until then they are passed over. *)
Lemma seek_loop ds b o n a i fuel s k :
  Forall descriptor ds -> Forall bytes ds -> 0 <= a -> (length ds < fuel)%nat ->
  found_at b (o + i) (concat ds) k -> length (cx_eps s) = 32%nat ->
  ep_config_loop fuel (b, o) (i + Z.of_nat (length (concat ds))) n a i STATE_SEEK None (-1) s k =
    Ok (match find_alternate n a (placed (o + i) ds) with
        | Some (cur, l) => (0, s <| cx_eps := foldl (configure b cur) (cx_eps s) l |>, k)
        | None => (-1, s, k)
        end).
Proof.
  intros Hds Hby Ha. revert fuel i. induction ds as [|d ds IH]; intros [|fuel] i Hfu Hf Hlen;
    [cbn in Hfu; lia| |cbn in Hfu; lia|]; cbn [ep_config_loop].
  { by rewrite Z.add_0_r, Z.ltb_irrefl. }
  apply Forall_cons in Hds as [Hd Hds]. apply Forall_cons in Hby as [Hbd Hby].
  pose proof Hd as (_ & Hl & Hl4). cbn [concat] in *. rewrite length_app. cbn [length] in Hfu.
  apply found_next in Hf as [Hfd Hfn]. rewrite <- Z.add_assoc in Hfn.
  replace (i <? _) with true by (symmetry; apply Z.ltb_lt; lia). cbn [negb].
  pose proof (fun j Hj s => found_byte b (o + i) d j s k Hfd Hj) as Hat.
  unfold ptr_add at 1. cbn [fst snd]. erewrite bind_ok by apply (Hat 1%nat ltac:(lia)).
  cbn [placed find_alternate fst snd]. fold (dtype d).
  replace (i + Z.of_nat (length d + length (concat ds))) with
    (i + Z.of_nat (length d) + Z.of_nat (length (concat ds))) by lia.
  rewrite (bind_ok _ _ s k (is_alternate n a d) s k).
  - destruct (is_alternate n a d).
    + erewrite bind_ok by by apply char_at_descriptor. unfold ptr_add. cbn [fst snd].
      rewrite config_loop by (done || lia). by rewrite Z.add_assoc.
    + erewrite bind_ok by by apply char_at_descriptor. rewrite IH by (done || lia). by rewrite Z.add_assoc.
  - unfold is_alternate, is_interface in *. destruct (dtype d =? USB_DT_INTERFACE); [|done].
    specialize (Hl4 (or_introl eq_refl)). cbn [andb]. unfold ptr_add. cbn [fst snd].
    erewrite bind_ok by apply (Hat 2%nat ltac:(lia)). destruct (nth 2 d 0 =? n); [|done]. cbn [negb andb].
    replace (a <? 0) with false by (symmetry; apply Z.ltb_ge; lia).
    by erewrite bind_ok by apply (Hat 3%nat ltac:(lia)).
Qed.

(** The configuration [config] points to: its head, which tells the length of
    all, and its descriptors. *)
Definition configuration (b : positive) (o : Z) (hdr : list Z) (ds : list (list Z)) s k : Prop :=
  cx_config s = Some (b, o) /\ length hdr = 9%nat /\
  of_le (take 2 (drop 2 hdr)) = Z.of_nat (9 + length (concat ds)) /\
  Forall descriptor ds /\ Forall bytes ds /\ length (cx_eps s) = 32%nat /\
  found_at b o (hdr ++ concat ds) k.

Lemma ep_config_start fuel n a b o hdr ds s k :
  configuration b o hdr ds s k ->
  ep_config fuel n a s k =
    ep_config_loop fuel (b, o) (9 + Z.of_nat (length (concat ds))) n a 9 STATE_SEEK None (-1) s k.
Proof.
  intros (Hc & Hh & Hlen & Hds & Hby & Heps & Hf). unfold ep_config.
  erewrite bind_ok by reflexivity. rewrite Hc. erewrite bind_ok by reflexivity.
  erewrite bind_ok by (apply (half_found b o _ 2 s k Hf); rewrite length_app; lia).
  rewrite drop_app_le, take_app_le, Hlen by (rewrite ?length_drop; lia).
  by replace (Z.of_nat (9 + _)) with (9 + Z.of_nat (length (concat ds))) by lia.
Qed.

Lemma ep_config_run fuel n a b o hdr ds s k :
  configuration b o hdr ds s k -> 0 <= a -> (length ds < fuel)%nat ->
  ep_config fuel n a s k =
    Ok (match find_alternate n a (placed (o + 9) ds) with
        | Some (cur, l) => (0, s <| cx_eps := foldl (configure b cur) (cx_eps s) l |>, k)
        | None => (-1, s, k)
        end).
Proof.
  intros Hc Ha Hfu. rewrite (ep_config_start fuel n a b o hdr ds) by done.
  destruct Hc as (_ & Hh & _ & Hds & Hby & Hlen & Hf).
  apply found_next in Hf as [_ Hfn]. rewrite Hh in Hfn. by apply seek_loop.
Qed.

(** C20: Choosing an alternate setting of an interface: if the configuration has it,
    the endpoints it lists behind that setting's descriptor, up to the next
    interface, are set up with that interface and their own descriptors, the last
    descriptor of an endpoint counting, and no other endpoint changes; otherwise
    the result is -1 and nothing changes. *)
Theorem alternate_configured fuel n a b o hdr ds s k :
  configuration b o hdr ds s k -> 0 <= a -> (length ds < fuel)%nat ->
  exists ret s', ep_config fuel n a s k = Ok (ret, s', k) /\
  match find_alternate n a (placed (o + 9) ds) with
  | None => ret = -1 /\ s' = s
  | Some (cur, l) => ret = 0 /\ s' = s <| cx_eps := cx_eps s' |> /\ length (cx_eps s') = 32%nat /\
      forall i e, cx_eps s !! i = Some e ->
        cx_eps s' !! i = Some match last (filter (fun x => ep_number x.2 = Z.of_nat i) l) with
                              | Some x => configured_ep b cur x.1 e
                              | None => e
                              end
  end.
Proof.
  intros Hc Ha Hf. pose proof (ep_config_run fuel n a b o hdr ds s k Hc Ha Hf) as Hrun.
  destruct Hc as (_ & _ & _ & _ & Hby & Hlen & _).
  destruct (find_alternate n a (placed (o + 9) ds)) as [[cur l]|] eqn:E; [|by eexists _, _].
  eexists _, _. split; [exact Hrun|]. split; [done|]. split; [done|]. cbn [cx_eps set_field set_cx_eps].
  split; [by rewrite length_configures|]. intros i e He. apply configures_lookup; [|done].
  eapply find_alternate_numbers; [|exact E]. by apply placed_bytes.
Qed.

(** A negative setting, as [init] asks for: every endpoint behind the first
    descriptor of the interface is set up, of whatever interface and setting,
    with the last descriptor of the interface before it. *)
Fixpoint endpoints_behind (n : Z) (cur : option Z) (l : list (Z * list Z)) : list (Z * (Z * list Z)) :=
  match l with
  | [] => []
  | x :: l' =>
      if is_interface x.2 && (nth 2 x.2 0 =? n) then endpoints_behind n (Some x.1) l'
      else match cur with
           | Some c => if is_endpoint x.2 then (c, x) :: endpoints_behind n cur l'
                       else endpoints_behind n cur l'
           | None => endpoints_behind n cur l'
           end
  end.
Definition has_interface (n : Z) (ds : list (list Z)) : bool :=
  existsb (fun d => is_interface d && (nth 2 d 0 =? n)) ds.
Definition state_of (cur : option Z) : ep_config_state :=
  match cur with Some _ => STATE_CONFIG | None => STATE_SEEK end.
Definition result_of (found : bool) : Z := if found then 0 else -1.
Definition configure_behind (b : positive) (eps : list ep_s) (x : Z * (Z * list Z)) : list ep_s :=
  configure b x.1 eps x.2.

Lemma behind_loop ds b o cur n a i fuel s k :
  Forall descriptor ds -> Forall bytes ds -> a < 0 -> (length ds < fuel)%nat ->
  found_at b (o + i) (concat ds) k -> length (cx_eps s) = 32%nat ->
  ep_config_loop fuel (b, o) (i + Z.of_nat (length (concat ds))) n a i (state_of cur)
      (pair b <$> cur) (result_of (bool_decide (is_Some cur))) s k =
    Ok (result_of (bool_decide (is_Some cur) || has_interface n ds),
        s <| cx_eps := foldl (configure_behind b) (cx_eps s)
                         (endpoints_behind n cur (placed (o + i) ds)) |>, k).
Proof.
  intros Hds Hby Ha. revert fuel i cur s. induction ds as [|d ds IH]; intros [|fuel] i cur s Hfu Hf Hlen;
    [cbn in Hfu; lia| |cbn in Hfu; lia|]; cbn [ep_config_loop].
  { rewrite Z.add_0_r, Z.ltb_irrefl. cbn. rewrite orb_false_r. f_equal. by destruct s. }
  apply Forall_cons in Hds as [Hd Hds]. apply Forall_cons in Hby as [Hbd Hby].
  pose proof Hd as (_ & Hl & Hl4). cbn [concat] in *. rewrite length_app. cbn [length] in Hfu.
  apply found_next in Hf as [Hfd Hfn]. rewrite <- Z.add_assoc in Hfn.
  replace (i <? _) with true by (symmetry; apply Z.ltb_lt; lia). cbn [negb].
  pose proof (fun j Hj s => found_byte b (o + i) d j s k Hfd Hj) as Hat.
  unfold ptr_add at 1. cbn [fst snd]. erewrite bind_ok by apply (Hat 1%nat ltac:(lia)).
  cbn [placed endpoints_behind has_interface existsb fst snd]. fold (has_interface n ds). fold (dtype d).
  assert (forall cur s, length (cx_eps s) = 32%nat ->
    (n0 ← char_at (b, o) i; ep_config_loop fuel (b, o) (i + Z.of_nat (length d + length (concat ds))) n a
       (i + n0) (state_of cur) (pair b <$> cur) (result_of (bool_decide (is_Some cur)))) s k =
    Ok (result_of (bool_decide (is_Some cur) || has_interface n ds),
        s <| cx_eps := foldl (configure_behind b) (cx_eps s)
          (endpoints_behind n cur (placed (o + i + Z.of_nat (length d)) ds)) |>, k)) as Hnext.
  { intros cur1 s1 Hlen1. erewrite bind_ok by by apply char_at_descriptor.
    replace (i + Z.of_nat (length d + length (concat ds))) with
      (i + Z.of_nat (length d) + Z.of_nat (length (concat ds))) by lia.
    rewrite IH by (done || lia). by rewrite Z.add_assoc. }
  assert (ptr_add (b, o) i = (b, o + i)) as Hp by done.
  destruct (is_interface d) eqn:Ei; unfold is_interface in Ei; rewrite ?Ei; cbn [andb].
  - specialize (Hl4 (or_introl eq_refl)). apply Z.eqb_eq in Ei. rewrite Ei.
    change (USB_DT_INTERFACE =? USB_DT_ENDPOINT) with false. cbn [negb].
    replace (0 <=? a) with false by (symmetry; apply Z.leb_gt; lia).
    assert (forall A (x : A), match state_of cur with STATE_SEEK => x | STATE_CONFIG => x end = x) as -> by by destruct cur.
    rewrite (bind_ok _ _ s k (nth 2 d 0 =? n) s k).
    2:{ rewrite Hp. erewrite bind_ok by apply (Hat 2%nat ltac:(lia)).
        replace (a <? 0) with true by (symmetry; apply Z.ltb_lt; lia). by destruct (nth 2 d 0 =? n). }
    destruct (nth 2 d 0 =? n); cbn [orb].
    + rewrite Hp, orb_true_r. exact (Hnext (Some (o + i)) s Hlen).
    + rewrite (Hnext cur s Hlen). by destruct cur; cbn; rewrite ?Ei; unfold is_endpoint; rewrite ?Ei.
  - cbn [negb orb]. unfold is_endpoint. destruct cur as [c|]; cbn [state_of fmap option_fmap option_map].
    + destruct (dtype d =? USB_DT_ENDPOINT) eqn:Ee; [|exact (Hnext (Some c) s Hlen)].
      erewrite bind_ok by (by apply configure_ep_ok).
      refine (Hnext (Some c) (s <| cx_eps := configure b c (cx_eps s) (o + i, d) |>) _).
      by rewrite <- Hlen, <- (length_configures b c [(o + i, d)] (cx_eps s)).
    + exact (Hnext None s Hlen).
Qed.

(** What [init] does with the configuration: not only the first settings. *)
Theorem all_settings_configured fuel n a b o hdr ds s k :
  configuration b o hdr ds s k -> a < 0 -> (length ds < fuel)%nat ->
  ep_config fuel n a s k =
    Ok (result_of (has_interface n ds),
        s <| cx_eps := foldl (configure_behind b) (cx_eps s)
                         (endpoints_behind n None (placed (o + 9) ds)) |>, k).
Proof.
  intros Hc Ha Hfu. rewrite (ep_config_start fuel n a b o hdr ds) by done.
  destruct Hc as (_ & Hh & _ & Hds & Hby & Hlen & Hf).
  apply found_next in Hf as [_ Hfn]. rewrite Hh in Hfn.
  by apply (behind_loop ds b o None).
Qed.
End config.

(** ** A configuration with two settings *)

Definition demo_interface (n a eps : Z) : list Z := [9; 4; n; a; eps; 255; 0; 0; 0].
Definition demo_endpoint (address : Z) : list Z := [7; 5; address; 2; 0; 2; 0].
Definition demo_descriptors : list (list Z) :=
  [demo_interface 0 0 1; demo_endpoint 129; demo_interface 0 1 2; demo_endpoint 129; demo_endpoint 2].
Definition demo_header : list Z := [9; 2; 48; 0; 1; 1; 0; 128; 50].
Definition demo_gadget : context_t :=
  context_zero <| cx_config := Some (1%positive, 4) |> <| cx_dev := Some 7 |> <| cx_fd := 3 |>.
Definition demo_memory : kernel :=
  mkKernel {[1%positive := [0; 0; 0; 0] ++ demo_header ++ concat demo_descriptors]} ∅ ∅ ∅ [] [] 10.

Lemma demo_configuration : configuration 1 4 demo_header demo_descriptors demo_gadget demo_memory.
Proof.
  split; [done|]. split; [done|]. split; [done|].
  split; [repeat constructor; cbn; done || lia|].
  split; [repeat constructor; done|]. split; [done|].
  exists [0; 0; 0; 0], []. split; [by rewrite app_nil_r|done].
Qed.

Lemma alternate_configured_witness :
  let _ : PlainChar := true in
  find_alternate 0 1 (placed 13 demo_descriptors) =
    Some (29, [(38, demo_endpoint 129); (45, demo_endpoint 2)]) /\
  exists ret s', ep_config 10 0 1 demo_gadget demo_memory = Ok (ret, s', demo_memory) /\
    match find_alternate 0 1 (placed 13 demo_descriptors) with
    | None => ret = -1 /\ s' = demo_gadget
    | Some (cur, l) => ret = 0 /\ s' = demo_gadget <| cx_eps := cx_eps s' |> /\ length (cx_eps s') = 32%nat /\
        forall i e, cx_eps demo_gadget !! i = Some e ->
          cx_eps s' !! i = Some match last (filter (fun x => ep_number x.2 = Z.of_nat i) l) with
                                | Some x => configured_ep 1 cur x.1 e
                                | None => e
                                end
    end.
Proof.
  intros pc. split; [reflexivity|].
  apply (alternate_configured 10 0 1 1 4 demo_header demo_descriptors); [exact demo_configuration|lia|cbn; lia].
Defined.
