(* ===== verification/GadgetIoProps.v ===== *)
(** * The gadget: its threads and control requests

    What a thread that waits for data does while the endpoints are stopped
    (nothing, so that stopping does not end); how a thread hands the data of the
    remote device on; what becomes of a control request. *)
From S2P Require Import Prelude Kernel Wire Exec EventProps Client Gadget GadgetProps.

(** ** A thread nobody wakes *)
Section blocked.
Context `{Env} `{Arch} `{Schedule}.
Implicit Types (s : context_t) (k : kernel).
Notation M := (M context_t).

(** The endpoint is being stopped and its thread waits. *)
Definition blocked (i : nat) (free : option positive) s : Prop :=
  cx_stopping s = true /\
  exists e, cx_eps s !! i = Some e /\ es_thread e = th_wait free /\ es_stopping e = true.
Definition keeps {A} (i : nat) (free : option positive) (m : M A) : Prop :=
  forall s k a s' k', m s k = Ok (a, s', k') -> blocked i free s -> blocked i free s'.

Section keeps.
Context (i : nat) (free : option positive).

Lemma keeps_bind {A B} (m : M A) (f : A -> M B) :
  keeps i free m -> (forall a, keeps i free (f a)) -> keeps i free (m ≫= f).
Proof.
  intros Hm Hf s k b s' k' Hrun Hb. unfold mbind, M_bind in Hrun.
  destruct (m s k) as [[[a s1] k1]|] eqn:E; [|done].
  exact (Hf a _ _ _ _ _ Hrun (Hm _ _ _ _ _ E Hb)).
Qed.
Lemma keeps_ret {A} (a : A) : keeps i free (mret a).
Proof. intros s k a' s' k' [= _ <- _]. done. Qed.
Lemma keeps_crash {A} b : keeps i free (crash b : M A).
Proof. by intros s k a' s' k'. Qed.
Lemma keeps_of_option {A} b (o : option A) : keeps i free (of_option b o).
Proof. destruct o; [apply keeps_ret|apply keeps_crash]. Qed.
Lemma keeps_gets {A} (f : context_t -> A) : keeps i free (gets f).
Proof. intros s k a' s' k' [= _ <- _]. done. Qed.
Lemma keeps_get : keeps i free get.
Proof. intros s k a' s' k' [= _ <- _]. done. Qed.
Lemma keeps_kgets {A} (f : kernel -> A) : keeps i free (kgets f).
Proof. intros s k a' s' k' [= _ <- _]. done. Qed.
Lemma keeps_kmodify f : keeps i free (kmodify f).
Proof. intros s k a' s' k' [= _ <- _]. done. Qed.
Lemma keeps_ext c : keeps i free (ext c).
Proof. intros s k a' s' k' [= _ <- _]. done. Qed.
Lemma keeps_lock l : keeps i free (spin_lock l).
Proof. intros s k a' s' k'. unfold spin_lock. case_decide; [done|]. by intros [= _ <- _]. Qed.
Lemma keeps_unlock l : keeps i free (spin_unlock l).
Proof. intros s k a' s' k'. unfold spin_unlock. case_decide; [|done]. by intros [= _ <- _]. Qed.
Lemma keeps_load p n : keeps i free (load_bytes p n).
Proof.
  intros s k a' s' k'. unfold load_bytes. destruct (_ !! _); [|done]. case_match; [|done]. by intros [= _ <- _].
Qed.
Lemma keeps_modify f :
  (forall s, cx_eps (f s) = cx_eps s) -> (forall s, cx_stopping (f s) = cx_stopping s) ->
  keeps i free (modify f).
Proof. intros He Hs s k a' s' k' [= _ <- _]. unfold blocked. by rewrite He, Hs. Qed.
End keeps.
#[local] Hint Resolve keeps_ret keeps_crash keeps_of_option keeps_gets keeps_get keeps_kgets
  keeps_kmodify keeps_ext keeps_lock keeps_unlock keeps_load : keeps.
#[local] Hint Extern 1 (keeps _ _ (modify _)) => apply keeps_modify; intros; reflexivity : keeps.

(** Split a program at its calls and branches. *)
Ltac keeps_step :=
  lazymatch goal with
  | |- keeps _ _ (_ ≫= _) => apply keeps_bind; [|intros ?]
  | |- keeps _ _ (match ?x with _ => _ end) => destruct x
  | |- keeps _ _ _ => solve [eauto 2 with keeps]
  end.
Ltac keeps := repeat keeps_step.

Lemma keeps_when i free b m : keeps i free m -> keeps i free (when_ b m).
Proof. intros. destruct b; [done|apply keeps_ret]. Qed.
Lemma keeps_ext_ret i free c : keeps i free (ext_ret c).
Proof. unfold ext_ret. keeps. Qed.
Lemma keeps_ext_do i free c : keeps i free (ext_do c).
Proof. unfold ext_do. keeps. Qed.
Lemma keeps_look_ep i free j : keeps i free (look_ep j).
Proof. unfold look_ep. keeps. Qed.
Lemma keeps_look_urb i free u : keeps i free (look_urb u).
Proof. unfold look_urb. keeps. Qed.
Lemma keeps_deref {A} i free (o : option A) : keeps i free (deref o).
Proof. unfold deref. keeps. Qed.
#[local] Hint Resolve keeps_ext_ret keeps_ext_do keeps_look_ep keeps_look_urb keeps_deref keeps_when : keeps.
Lemma keeps_update_urb i free u f : keeps i free (update_urb u f).
Proof. unfold update_urb. keeps. Qed.
Lemma keeps_byte_at i free p o : keeps i free (byte_at p o).
Proof. unfold byte_at. keeps. Qed.
Lemma keeps_urb_free i free u : keeps i free (urb_free u).
Proof. unfold urb_free. keeps. Qed.
#[local] Hint Resolve keeps_update_urb keeps_byte_at keeps_urb_free : keeps.

(** An update of another endpoint, or one that leaves a waiting thread alone. *)
Lemma keeps_update_ep i free j f :
  (Z.to_nat j = i -> forall e, es_thread e = th_wait free -> es_stopping e = true ->
     es_thread (f e) = th_wait free /\ es_stopping (f e) = true) ->
  keeps i free (update_ep j f).
Proof.
  intros Hf s k a s' k' Hrun (Hs & e & He & Ht & Hst). unfold update_ep in Hrun.
  unfold mbind, M_bind in Hrun. destruct (look_ep j s k) as [[[e1 s1] k1]|] eqn:E; [|done].
  assert (s1 = s) as ->.
  { unfold look_ep, of_option, mbind, M_bind, gets in E. cbn in E. destruct (_ !! _); [|done]. by injection E as _ <- _. }
  injection Hrun as _ <- _. split; [done|]. cbn [cx_eps set_field set_cx_eps].
  rewrite list_lookup_alter. case_decide as Hj; [|by eexists].
  subst i. rewrite He. cbn. eexists. split; [done|]. by apply Hf.
Qed.

(** Stopping is under way: another call of [stop_io] returns. *)
Lemma keeps_stop_io i free me : keeps i free (stop_io me).
Proof.
  intros s k a s' k' Hrun Hb. pose proof Hb as (Hs & _). unfold stop_io in Hrun.
  unfold mbind at 1, M_bind at 1 in Hrun. destruct (spin_lock MutexCtx s k) as [[[? s1] k1]|] eqn:E; [|done].
  assert (s1 = s) as ->. { unfold spin_lock in E. case_decide; [done|]. by injection E as _ <- _. }
  unfold mbind at 1, M_bind at 1, get at 1 in Hrun. rewrite Hs in Hrun. eapply keeps_unlock; eassumption.
Qed.
#[local] Hint Resolve keeps_stop_io : keeps.

Lemma keeps_transfer i free me j u data len : keeps i free (transfer me j u data len).
Proof. unfold transfer, usb_endpoint_type. keeps. Qed.
Lemma keeps_urb_new i free j : keeps i free (urb_new j).
Proof. unfold urb_new, urb_calloc. keeps. Qed.
#[local] Hint Resolve keeps_transfer keeps_urb_new : keeps.
Lemma keeps_usbip_read i free me j u : keeps i free (usbip_read me j u).
Proof. unfold usbip_read. keeps. Qed.
Lemma keeps_usbip_write i free me u : keeps i free (usbip_write me u).
Proof. unfold usbip_write. keeps. Qed.
Lemma keeps_ep_to_ctx i free j : keeps i free (ep_to_ctx j).
Proof. unfold ep_to_ctx, ep_index, usb_endpoint_num, usb_endpoint_dir_in. keeps. Qed.
Lemma keeps_pop_ready i free j : keeps i free (pop_ready j).
Proof. apply keeps_update_ep. by intros _ e. Qed.
#[local] Hint Resolve keeps_usbip_read keeps_usbip_write keeps_ep_to_ctx keeps_pop_ready : keeps.

Lemma keeps_set_thread i free j t : Z.to_nat j <> i -> keeps i free (set_thread j t).
Proof. intros Hj. by apply keeps_update_ep. Qed.
#[local] Hint Resolve keeps_set_thread : keeps.

Lemma keeps_step i free j : keeps i free (ep_thread_step j).
Proof.
  destruct (decide (Z.to_nat j = i)) as [Hj|Hj].
  - intros s k a s' k' Hrun Hb. pose proof Hb as (_ & e & He & Ht & _).
    revert Hrun. unfold ep_thread_step. erewrite bind_ok.
    2:{ unfold look_ep. erewrite bind_ok by reflexivity. apply of_option_ok. rewrite Hj. exact He. }
    rewrite Ht. clear He Ht. revert s k a s' k' Hb.
    assert (keeps i free (desc ← deref (es_desc e); usb_endpoint_dir_in desc;; mret tt)) as Hk.
    { unfold usb_endpoint_dir_in. keeps. }
    intros s k [] s' k' Hb Hrun. eapply Hk; eassumption.
  - assert (forall t, keeps i free (set_thread j t)) as Hset by (intros t; by apply keeps_set_thread).
    assert (forall fr, keeps i free (ep_in_loop j fr)) as Hin by (intros fr; unfold ep_in_loop; keeps; auto).
    assert (keeps i free (ep_out_loop j)) as Hout by (unfold ep_out_loop; keeps; auto).
    unfold ep_thread_step, usb_endpoint_dir_in, ep_in_begin, ep_in_wake, ep_in_write, ep_out_begin, ep_out_wake, ep_out_read.
    keeps; try apply Hin; try apply Hout; try apply Hset. by apply keeps_update_ep.
Qed.

Lemma keeps_look_bind {B} i free j (f : ep_s -> M B) :
  (forall e, (Z.to_nat j = i -> es_stopping e = true) -> keeps i free (f e)) ->
  keeps i free (look_ep j ≫= f).
Proof.
  intros Hf s k b s' k' Hrun Hb. pose proof Hb as (_ & e & He & _ & Hst). revert Hrun.
  unfold mbind at 1, M_bind at 1, look_ep, of_option.
  unfold mbind at 1, M_bind at 1, gets. destruct (cx_eps s !! Z.to_nat j) as [e'|] eqn:E; [|done].
  cbn. intros Hrun. eapply (Hf e'); [|exact Hrun|exact Hb]. intros Hj. rewrite Hj in E. congruence.
Qed.

(** A thread is signalled only when its endpoint is not being stopped. *)
Lemma keeps_signal i free j : Z.to_nat j <> i -> keeps i free (ep_cond_signal j).
Proof. intros Hj. by apply keeps_update_ep. Qed.
Lemma keeps_append i free j u :
  keeps i free (update_ep j (fun e => e <| es_urb_ready_list := es_urb_ready_list e ++ [u] |>)).
Proof. by apply keeps_update_ep. Qed.
#[local] Hint Resolve keeps_append keeps_step : keeps.

Lemma keeps_urb_done i free u ret : keeps i free (urb_done u ret).
Proof.
  unfold urb_done, usb_endpoint_dir_in.
  repeat lazymatch goal with
    | |- keeps _ _ (look_ep _ ≫= _) => apply keeps_look_bind; intros ? ?
    | |- _ => keeps_step
    end.
  apply keeps_signal. naive_solver.
Qed.

(** What may happen while a thread waits for another: stretches of the
    endpoints' threads, and on the library's thread data that arrives in a buffer
    and callbacks of transfers. *)
Inductive others_work : M unit -> Prop :=
  | others_nothing : others_work (mret tt)
  | others_thread j m : others_work m -> others_work (ep_thread_step j;; m)
  | others_data u data n m : others_work m ->
      others_work (update_urb u (fun r => r <| us_buf := data |> <| us_actual_length := n |>);; m)
  | others_done u ret m : others_work m -> others_work (urb_done u ret;; m).

Lemma keeps_others i free m : others_work m -> keeps i free m.
Proof. induction 1; keeps. apply keeps_urb_done. Qed.

(** C31: An endpoint whose thread waits for data cannot be stopped: nobody wakes the
    thread, whatever the other threads and the library do, so that joining it does
    not return. *)
Theorem waiting_thread_blocks_stop i free e me s k s1 k1 :
  cx_stopping s = true -> 0 <= i -> cx_eps s !! Z.to_nat i = Some e -> 0 < es_fd e ->
  es_thread e = th_wait free -> me <> Some i -> k_locks k = [] ->
  let stopped := s <| cx_eps := alter (fun e => e <| es_stopping := true |> <| es_fd := -1 |>)
                                      (Z.to_nat i) (cx_eps s) |> in
  others_work (others i) -> others i stopped (traced [UThreadJoin i; UClose (es_fd e)] k) = Ok (tt, s1, k1) ->
  stop_ep me i s k = Crash Deadlock.
Proof.
  intros Hs Hi He Hfd Ht Hme Hl stopped Hw Hrun.
  unfold stop_ep. erewrite bind_ok by (by eapply look_ep_ok).
  replace (es_fd e <=? 0) with false by (symmetry; apply Z.leb_gt; lia).
  destruct k as [hp us ds ns lk tr nx]; cbn in Hl; subst lk.
  erewrite bind_ok by (apply spin_lock_ok; apply not_elem_of_nil).
  erewrite bind_ok by (by eapply update_ep_ok).
  erewrite bind_ok by (eapply spin_unlock_ok; [reflexivity|apply not_elem_of_nil]).
  erewrite bind_ok by reflexivity.
  set (g := fun e : ep_s => e <| es_stopping := true |>).
  erewrite bind_ok.
  2:{ eapply update_ep_ok; [done|]. cbn [cx_eps set_field set_cx_eps]. by rewrite list_lookup_alter_eq, He. }
  cbn [cx_eps set_field set_cx_eps]. rewrite alter_alter.
  apply bind_crash. unfold pthread_join. fold stopped.
  assert (cx_eps stopped !! Z.to_nat i = Some (g e <| es_fd := -1 |>)) as Hst.
  { unfold stopped. cbn [cx_eps set_field set_cx_eps]. by rewrite list_lookup_alter_eq, He. }
  erewrite bind_ok by (eapply look_ep_ok; [done|]; exact Hst).
  rewrite decide_False by (cbn; by rewrite Ht). erewrite bind_ok by reflexivity.
  rewrite decide_False by done.
  erewrite bind_ok.
  2:{ exact Hrun. }
  destruct (keeps_others (Z.to_nat i) free _ Hw _ _ _ _ _ Hrun) as (_ & e1 & He1 & Ht1 & _).
  { split; [done|]. eexists. split; [exact Hst|]. by split. }
  erewrite bind_ok by (eapply look_ep_ok; [done|]; exact He1).
  rewrite decide_False by (by rewrite Ht1). done.
Qed.
End blocked.
(** ** Stopping ends when the threads do *)
Section stopping.
Context `{Env} `{Arch} `{Schedule}.
Implicit Types (s : context_t) (k : kernel).

(** The files closed and threads joined, the latest first. *)
Definition stop_calls (tr : list call) : list call :=
  omap (fun c => match c with UClose _ | UThreadJoin _ => Some c | _ => None end) tr.

(** The schedule lets the thread of endpoint [i] run to its end while it is
    joined; nothing else of the endpoints, the device or the flag changes, nothing
    is closed or joined, and no URB is lost. *)
Definition thread_ends (i : Z) (e : ep_s) s k : Prop :=
  exists s' k' e', others i s k = Ok (tt, s', k') /\ k_locks k' = [] /\ k_heap k' = k_heap k /\
    cx_eps s' = <[Z.to_nat i := e']> (cx_eps s) /\ es_thread e' = th_done /\ es_fd e' = -1 /\
    cx_dev s' = cx_dev s /\ cx_stopping s' = true /\
    stop_calls (k_trace k') = stop_calls (k_trace k) /\
    es_urb_ready_list e ++ cx_urb_free_list s ⊆+ es_urb_ready_list e' ++ cx_urb_free_list s'.

(** All threads of running endpoints end when they are joined while stopping,
    the descriptors being in the memory [hp]. *)
Definition threads_end (hp : gmap positive (list Z)) (l : list ep_s) : Prop :=
  forall i s k e, cx_stopping s = true -> k_locks k = [] -> k_heap k = hp ->
    cx_eps s !! i = Some (e <| es_stopping := true |> <| es_fd := -1 |>) ->
    l !! i = Some e -> 0 < es_fd e -> es_thread e <> th_none /\ thread_ends (Z.of_nat i) e s k.

(** What is left of an endpoint: closed, without a thread and URBs. *)
Definition closed_ep (e : ep_s) : Prop :=
  es_fd e = -1 /\ es_thread e = th_none /\ es_urb_ready_list e = [].

(** What stopping the endpoint [e] number [i] calls, and the URBs it gives back. *)
Definition stops_of (i : nat) (e : ep_s) : list call :=
  if es_fd e <=? 0 then [] else [UThreadJoin (Z.of_nat i); UClose (es_fd e)].
Definition urbs_of (e : ep_s) : list positive := if es_fd e <=? 0 then [] else es_urb_ready_list e.
Fixpoint stops (i : nat) (l : list ep_s) : list call :=
  match l with [] => [] | e :: l' => stops (S i) l' ++ stops_of i e end.

Lemma urb_free_ok u s k :
  k_locks k = [] ->
  urb_free u s k = Ok (tt, s <| cx_urb_free_list := u :: cx_urb_free_list s |>, k).
Proof.
  intros Hk. destruct k as [hp us ds ns lk tr nx]; cbn in Hk; subst lk. unfold urb_free.
  erewrite bind_ok by (apply spin_lock_ok, not_elem_of_nil). erewrite bind_ok by reflexivity.
  by erewrite spin_unlock_ok by (reflexivity || apply not_elem_of_nil).
Qed.

Lemma free_ready_ok i l e s k :
  0 <= i -> cx_eps s !! Z.to_nat i = Some e -> es_urb_ready_list e = l -> k_locks k = [] ->
  exists s', free_ready i l s k = Ok (tt, s', k) /\
    cx_eps s' = <[Z.to_nat i := e <| es_urb_ready_list := [] |>]> (cx_eps s) /\
    cx_dev s' = cx_dev s /\ cx_stopping s' = cx_stopping s /\
    cx_urb_free_list s' ≡ₚ l ++ cx_urb_free_list s.
Proof.
  intros Hi. revert e s. induction l as [|u l IH]; intros e s He Hl Hk.
  { exists s. split; [done|]. split; [|by split_and!]. rewrite list_insert_id; [done|]. rewrite He. f_equal.
    destruct e; cbn in *. by subst. }
  cbn [free_ready]. erewrite bind_ok by (by eapply update_ep_ok).
  erewrite bind_ok by by apply urb_free_ok.
  set (s1 := _ <| cx_urb_free_list := _ |>).
  destruct (IH (e <| es_urb_ready_list := l |>) s1) as (s' & Hrun & He' & Hd & Hst & Hfree); [|done|done|].
  { unfold s1. cbn [cx_eps set_field set_cx_eps set_cx_urb_free_list]. by rewrite list_lookup_alter_eq, He. }
  exists s'. split; [exact Hrun|]. rewrite He', Hd, Hst. split; [|split; [done|split; [done|]]].
  2:{ rewrite Hfree. unfold s1. cbn [cx_urb_free_list set_field set_cx_urb_free_list set_cx_eps]. solve_Permutation. }
  unfold s1.
  cbn [cx_eps set_field set_cx_eps set_cx_urb_free_list].
  apply list_eq. intros j. destruct (decide (Z.to_nat i = j)) as [<-|Hj].
  - pose proof (lookup_lt_Some _ _ _ He). by rewrite !list_lookup_insert_eq by (rewrite ?length_alter; done).
  - rewrite !list_lookup_insert_ne by done. by apply list_lookup_alter_ne.
Qed.

(** One endpoint: nothing to do, or its thread ends. *)
Lemma stop_ep_ok me i e s k l :
  threads_end (k_heap k) l -> l !! i = Some e -> cx_eps s !! i = Some e -> me <> Some (Z.of_nat i) ->
  cx_stopping s = true -> k_locks k = [] ->
  exists s' k' e', stop_ep me (Z.of_nat i) s k = Ok (tt, s', k') /\
    cx_eps s' = <[i := e']> (cx_eps s) /\ (if es_fd e <=? 0 then e' = e else closed_ep e') /\
    cx_dev s' = cx_dev s /\ cx_stopping s' = true /\ k_locks k' = [] /\ k_heap k' = k_heap k /\
    stop_calls (k_trace k') = stops_of i e ++ stop_calls (k_trace k) /\
    urbs_of e ++ cx_urb_free_list s ⊆+ cx_urb_free_list s'.
Proof.
  intros Hends Hl He Hme Hs Hk. unfold stop_ep, stops_of, urbs_of.
  assert (0 <= Z.of_nat i) as Hi by lia.
  erewrite bind_ok by (eapply look_ep_ok; [done|]; by rewrite Nat2Z.id).
  destruct (es_fd e <=? 0) eqn:Hfd.
  { exists s, k, e. split; [done|]. split_and!; try done. by rewrite list_insert_id. }
  bool_to_prop. destruct k as [hp us ds ns lk tr nx]; cbn in Hk; subst lk.
  erewrite bind_ok by (apply spin_lock_ok, not_elem_of_nil).
  erewrite bind_ok by (eapply update_ep_ok; [done|]; by rewrite Nat2Z.id).
  erewrite bind_ok by (eapply spin_unlock_ok; [reflexivity|apply not_elem_of_nil]).
  erewrite bind_ok by reflexivity. rewrite Nat2Z.id.
  erewrite bind_ok.
  2:{ eapply update_ep_ok; [done|]. cbn [cx_eps set_field set_cx_eps].
      by rewrite Nat2Z.id, list_lookup_alter_eq, He. }
  cbn [cx_eps set_field set_cx_eps]. rewrite Nat2Z.id, alter_alter.
  match goal with |- context [(pthread_join me _ ≫= _) ?x ?y] => set (s1 := x); set (k1 := y) end.
  assert (cx_eps s1 !! i = Some (e <| es_stopping := true |> <| es_fd := -1 |>)) as He1.
  { unfold s1. cbn [cx_eps set_field set_cx_eps]. by rewrite list_lookup_alter_eq, He. }
  destruct (Hends i s1 (traced [UThreadJoin (Z.of_nat i)] k1) e) as [Hth (s2 & k2 & e2 & Hrun & Hk2 & Hh2 & He2 & Ht2 & Hf2 & Hd2 & Hs2 & Htr2 & Hu2)];
    [done|done|done|done|done|lia|].
  erewrite bind_ok.
  2:{ unfold pthread_join. erewrite bind_ok by (eapply look_ep_ok; [done|]; rewrite Nat2Z.id; exact He1).
      rewrite decide_False by done. erewrite bind_ok by reflexivity. rewrite decide_False by done.
      erewrite bind_ok by exact Hrun.
      assert (cx_eps s2 !! i = Some e2) as He2'.
      { rewrite He2, Nat2Z.id, list_lookup_insert_eq; [done|]. eapply lookup_lt_Some, He1. }
      erewrite bind_ok by (eapply look_ep_ok; [done|]; rewrite Nat2Z.id; exact He2').
      rewrite decide_True by done. eapply update_ep_ok; [done|]. rewrite Nat2Z.id. exact He2'. }
  cbv beta. set (s3 := s2 <| cx_eps := _ |>).
  assert (cx_eps s3 = <[i := e2 <| es_thread := th_none |>]> (cx_eps s)) as He3.
  { unfold s3. cbn [cx_eps set_field set_cx_eps]. rewrite He2, Nat2Z.id. unfold s1. cbn [cx_eps set_field set_cx_eps].
    pose proof (lookup_lt_Some _ _ _ He). apply list_eq. intros j. destruct (decide (i = j)) as [<-|Hj].
    - by rewrite list_lookup_alter_eq, !list_lookup_insert_eq by (rewrite ?length_alter; done).
    - rewrite list_lookup_alter_ne, !list_lookup_insert_ne by done. by apply list_lookup_alter_ne. }
  assert (cx_eps s3 !! i = Some (e2 <| es_thread := th_none |>)) as He3'.
  { rewrite He3, list_lookup_insert_eq; [done|]. eapply lookup_lt_Some, He. }
  erewrite bind_ok by (eapply look_ep_ok; [done|]; rewrite Nat2Z.id; exact He3').
  destruct (free_ready_ok (Z.of_nat i) (es_urb_ready_list (e2 <| es_thread := th_none |>)) (e2 <| es_thread := th_none |>) s3 k2)
    as (s' & Hfree & He' & Hd' & Hs' & Hu'); [done|by rewrite Nat2Z.id|done|done|].
  exists s', k2, (e2 <| es_thread := th_none |> <| es_urb_ready_list := [] |>).
  split; [exact Hfree|]. split; [rewrite He', He3, Nat2Z.id; apply list_insert_insert_eq|].
  split; [by split|]. split; [rewrite Hd'; exact Hd2|]. split; [by rewrite Hs'|].
  split; [done|]. split; [done|]. split; [exact Htr2|]. rewrite Hu'. exact Hu2.
Qed.

Lemma stop_eps_ok me l n : forall i s k,
  threads_end (k_heap k) l -> length l = 32%nat -> cx_stopping s = true -> k_locks k = [] ->
  (forall j, me <> Some (Z.of_nat j)) -> (i + n = 32)%nat -> length (cx_eps s) = 32%nat ->
  (forall j, (i <= j)%nat -> cx_eps s !! j = l !! j) ->
  exists s' k', stop_eps me (Z.of_nat i) n s k = Ok (tt, s', k') /\
    length (cx_eps s') = 32%nat /\
    (forall j, (j < i)%nat -> cx_eps s' !! j = cx_eps s !! j) /\
    (forall j e, (i <= j)%nat -> l !! j = Some e -> exists e', cx_eps s' !! j = Some e' /\
       if es_fd e <=? 0 then e' = e else closed_ep e') /\
    cx_dev s' = cx_dev s /\ cx_stopping s' = true /\ k_locks k' = [] /\ k_heap k' = k_heap k /\
    stop_calls (k_trace k') = stops i (drop i l) ++ stop_calls (k_trace k) /\
    mjoin (urbs_of <$> drop i l) ++ cx_urb_free_list s ⊆+ cx_urb_free_list s'.
Proof.
  induction n as [|n IH]; intros i s k Hends Hl Hs Hk Hme Hin Hlen Hsame.
  { exists s, k. rewrite drop_ge by lia. split; [done|]. split; [done|]. split; [done|]. split; [|by split_and!].
    intros j e Hj He. apply lookup_lt_Some in He. lia. }
  destruct (lookup_lt_is_Some_2 l i) as [e He]; [lia|].
  cbn [stop_eps].
  destruct (stop_ep_ok me i e s k l) as (s1 & k1 & e1 & Hrun1 & He1 & Hc1 & Hd1 & Hs1 & Hk1 & Hh1 & Ht1 & Hu1);
    [done|done|by rewrite Hsame|done|done|done|].
  erewrite bind_ok by exact Hrun1.
  replace (Z.of_nat i + 1) with (Z.of_nat (S i)) by lia.
  destruct (IH (S i) s1 k1) as (s' & k' & Hrun & Hlen' & Hlow & Hhigh & Hd' & Hs' & Hk' & Hh' & Ht' & Hu');
    [by rewrite Hh1|done|done|done|done|lia| | |].
  { by rewrite He1, length_insert. }
  { intros j Hj. rewrite He1, list_lookup_insert_ne by lia. apply Hsame. lia. }
  exists s', k'. split; [exact Hrun|]. split; [done|]. split.
  { intros j Hj. rewrite Hlow by lia. rewrite He1. apply list_lookup_insert_ne. lia. }
  split.
  2:{ rewrite Hd', Hd1, Hh', Hh1, Ht', Ht1, (drop_S _ _ _ He). cbn [stops fmap list_fmap mjoin list_join].
      rewrite <- !app_assoc. split_and!; try done. etransitivity; [|exact Hu'].
      etransitivity; [|apply submseteq_skips_l, Hu1]. apply Permutation_submseteq. solve_Permutation. }
  intros j ej Hj Hlj. destruct (decide (i = j)) as [<-|Hne]; [|apply Hhigh; [lia|done]].
  assert (ej = e) as -> by congruence. exists e1. rewrite Hlow by lia. split; [|done].
  rewrite He1. apply list_lookup_insert_eq. lia.
Qed.

(** C29: Stopping the endpoints ends when every running thread ends once it is
    joined.  The files of the running endpoints are closed, in order and each before
    its thread is joined, and nothing else is; each running endpoint is left without
    a file, a thread and URBs, which are free again; the others are as before; the
    device is closed last and forgotten, and stopping is over. *)
Theorem stop_io_completes me s k dev :
  threads_end (k_heap k) (cx_eps s) -> length (cx_eps s) = 32%nat -> cx_stopping s = false -> k_locks k = [] ->
  (forall j, me <> Some (Z.of_nat j)) -> cx_dev s = Some dev ->
  exists s' k' tr, stop_io me s k = Ok (tt, s', k') /\
    (forall j e, cx_eps s !! j = Some e -> exists e', cx_eps s' !! j = Some e' /\
       if es_fd e <=? 0 then e' = e else closed_ep e') /\
    mjoin (urbs_of <$> cx_eps s) ++ cx_urb_free_list s ⊆+ cx_urb_free_list s' /\
    cx_dev s' = None /\ cx_stopping s' = false /\ k_locks k' = [] /\
    k_trace k' = ULib (LibDeviceClose dev) :: tr /\
    stop_calls tr = stops 0 (cx_eps s) ++ stop_calls (k_trace k).
Proof.
  intros Hends Hlen Hs Hk Hme Hdev. unfold stop_io.
  destruct k as [hp us ds ns lk tr nx]; cbn in Hk; subst lk.
  erewrite bind_ok by (apply spin_lock_ok, not_elem_of_nil). erewrite bind_ok by reflexivity.
  rewrite Hs. erewrite bind_ok by reflexivity.
  erewrite bind_ok by (eapply spin_unlock_ok; [reflexivity|apply not_elem_of_nil]).
  match goal with |- context [(stop_eps me 0 32 ≫= _) ?x ?y] => set (s1 := x); set (k1 := y) end.
  destruct (stop_eps_ok me (cx_eps s) 32 0 s1 k1) as (s2 & k2 & Hrun & Hlen2 & _ & Hall & Hd2 & Hs2 & Hk2 & _ & Ht2 & Hu2);
    [done|done|done|done|done|done|done|done|].
  erewrite bind_ok by exact Hrun. erewrite bind_ok by reflexivity. rewrite Hd2. unfold s1.
  cbn [cx_dev set_field set_cx_stopping]. rewrite Hdev. erewrite bind_ok by reflexivity.
  destruct k2 as [hp2 us2 ds2 ns2 lk2 tr2 nx2]; cbn in Hk2; subst lk2.
  erewrite bind_ok by reflexivity. erewrite bind_ok by reflexivity.
  erewrite bind_ok by (apply spin_lock_ok, not_elem_of_nil). erewrite bind_ok by reflexivity.
  eexists _, _, tr2. split; [by eapply spin_unlock_ok; [reflexivity|apply not_elem_of_nil]|].
  split; [intros j e He; exact (Hall j e (Nat.le_0_l j) He)|]. split; [exact Hu2|]. by split_and!.
Qed.

(** A thread that was signalled ends when its endpoint is being stopped. *)
Lemma woken_ends i e desc s k :
  0 <= i -> cx_eps s !! Z.to_nat i = Some e -> es_thread e = th_woken None -> es_stopping e = true ->
  es_desc e = Some desc -> usb_endpoint_dir_in desc s k = Ok (true, s, k) -> k_locks k = [] ->
  ep_thread_step i s k =
    Ok (tt, s <| cx_eps := alter (fun e => e <| es_thread := th_done |>) (Z.to_nat i) (cx_eps s) |>, k).
Proof.
  intros Hi He Ht Hs Hd Hin Hk. unfold ep_thread_step.
  erewrite bind_ok by (by eapply look_ep_ok). rewrite Hd. erewrite bind_ok by reflexivity.
  erewrite bind_ok by exact Hin. rewrite Ht. unfold ep_in_wake.
  destruct k as [hp us ds ns lk tr nx]; cbn in Hk; subst lk.
  erewrite bind_ok by (apply spin_lock_ok, not_elem_of_nil). unfold ep_in_loop.
  erewrite bind_ok by (by eapply look_ep_ok). rewrite Hs.
  erewrite bind_ok by (eapply spin_unlock_ok; [reflexivity|apply not_elem_of_nil]).
  erewrite bind_ok by reflexivity. by eapply update_ep_ok.
Qed.
End stopping.

(** ** A gadget whose threads can end, and one whose thread cannot *)

Definition free_env : Env := fun _ _ => (0, []).
Definition step_schedule `{Env} `{Arch} : Schedule := fun i => let _ : Schedule := fun _ => mret tt in ep_thread_step i.

(** Endpoint 1 IN of the demonstration, running, with its thread at [t]. *)
Definition demo_ep (t : ep_thread_t) : ep_s :=
  mkEpS true 5 t (Some (1%positive, 29)) (Some (1%positive, 38)) [20%positive] false.
Definition running_gadget (t : ep_thread_t) : context_t :=
  demo_gadget <| cx_eps := <[17%nat := demo_ep t]> (cx_eps demo_gadget) |>
    <| cx_urbs := {[20%positive := urb_s_zero <| us_ep := 17 |>]} |>.
(** While a thread is joined, data arrives in the buffer. *)
Definition data_schedule : Schedule := fun _ =>
  update_urb 20 (fun r => r <| us_buf := [1; 2] |> <| us_actual_length := 2 |>);; mret tt.

Lemma demo_threads_end :
  let _ : Env := free_env in let _ : Arch := false in let _ : Schedule := step_schedule in
  threads_end (k_heap demo_memory) (cx_eps (running_gadget (th_woken None))).
Proof.
  intros env arch sch i s k e Hs Hk Hh He Hl Hfd.
  assert (i = 17%nat /\ e = demo_ep (th_woken None)) as [-> ->].
  { unfold running_gadget in Hl. cbn [cx_eps set_field set_cx_eps set_cx_urbs] in Hl.
    destruct (decide (17%nat = i)) as [<-|Hne].
    - rewrite list_lookup_insert_eq in Hl by (cbn; lia). by injection Hl as <-.
    - rewrite list_lookup_insert_ne in Hl by done. apply (lookup_replicate 32 ep_s_zero) in Hl as [-> _]. done. }
  split; [done|]. eexists _, k, ((demo_ep (th_woken None)) <| es_stopping := true |> <| es_fd := -1 |> <| es_thread := th_done |>).
  split; [|split; [done|split; [done|]]].
  - unfold others, step_schedule. eapply woken_ends; [lia|exact He|done|done|done| |done].
    assert (byte_at (1%positive, 38) 2 s k = Ok (129, s, k)) as Hb.
    { eapply byte_at_ok; [by rewrite Hh|lia|reflexivity]. }
    unfold usb_endpoint_dir_in. by erewrite bind_ok by exact Hb.
  - cbn [cx_eps set_field set_cx_eps cx_dev cx_stopping]. split; [|by split_and!].
    change (Z.to_nat (Z.of_nat 17)) with 17%nat. apply list_eq. intros j.
    destruct (decide (17%nat = j)) as [<-|Hj].
    + rewrite list_lookup_alter_eq, He, list_lookup_insert_eq by (eapply lookup_lt_Some, He). reflexivity.
    + by rewrite list_lookup_alter_ne, list_lookup_insert_ne.
Qed.

Lemma stop_io_completes_witness :
  let _ : Env := free_env in let _ : Arch := false in let _ : Schedule := step_schedule in
  let s := running_gadget (th_woken None) in
  0 < es_fd (demo_ep (th_woken None)) /\
  exists s' k' tr, stop_io None s demo_memory = Ok (tt, s', k') /\
    (forall j e, cx_eps s !! j = Some e -> exists e', cx_eps s' !! j = Some e' /\
       if es_fd e <=? 0 then e' = e else closed_ep e') /\
    [20%positive] ⊆+ cx_urb_free_list s' /\
    k_trace k' = ULib (LibDeviceClose 7) :: tr /\ stop_calls tr = [UThreadJoin 17; UClose 5].
Proof.
  intros env arch sch s. split; [done|].
  destruct (stop_io_completes None s demo_memory 7) as (s' & k' & tr & Hrun & Hall & Hu & _ & _ & _ & Htr & Hst);
    [exact demo_threads_end|done|done|done|done|done|].
  exists s', k', tr. split; [exact Hrun|]. split; [exact Hall|]. split; [exact Hu|].
  split; [exact Htr|exact Hst].
Defined.

Lemma waiting_thread_blocks_stop_witness :
  let _ : Env := free_env in let _ : Arch := false in let _ : Schedule := data_schedule in
  let s := (running_gadget (th_wait None)) <| cx_stopping := true |> in
  es_thread (demo_ep (th_wait None)) = th_wait None /\ stop_ep None 17 s demo_memory = Crash Deadlock.
Proof.
  intros env arch sch s. split; [done|].
  eapply (waiting_thread_blocks_stop 17 None (demo_ep (th_wait None)) None s demo_memory);
    [done|lia|done|done|done|done|done| |].
  - apply others_data, others_nothing.
  - reflexivity.
Defined.
