(* ===== verification/GadgetCtlProps.v ===== *)
(** * The gadget: control requests and data to the host

    A control request of the host reaches the device with the same setup packet,
    and its answer reaches the host; what a thread read from the device is written
    to the host whole. *)
From S2P Require Import Prelude Kernel Wire Exec EventProps Client Gadget GadgetProps.

Section control.
Context `{Env} `{Arch} `{PlainChar} `{Schedule}.
Implicit Types (s : context_t) (k : kernel).

(** The setup packet of the arguments of [libusbip_control_msg], as the client
    library puts it into the header of the request. *)
Definition setup_packet (requesttype request value index size : Z) : list Z :=
  [u8 requesttype; u8 request] ++ le_bytes 2 (u16 value) ++ le_bytes 2 (u16 index) ++ le_bytes 2 (u16 size).

(** What the client library promises for an IN request: the length it leaves is
    that of the data it stored, which fits; it stores nothing when it fails. *)
Definition lib_control_ok : Prop :=
  forall tr dev rt rq v i data size t, has_bits rt USB_DIR_IN = true -> 0 <= size ->
    let a := env_answer tr (ULib (LibControlMsg dev rt rq v i data size t)) in
    if a.1 <? 0 then a.2 = [] else a.1 = Z.of_nat (length a.2) /\ a.1 <= size.
Definition read_ok : Prop :=
  forall tr fd len, 0 <= len -> let a := env_answer tr (URead fd len) in Z.of_nat (length a.2) <= len /\
    (a.1 = len -> Z.of_nat (length a.2) = len).
Definition gadget_memory : Prop := forall tr n, (env_answer tr (CMalloc n)).1 <> 0.

(** Fields of a setup packet. *)
Definition half (setup : list Z) (n : nat) : Z := of_le (take 2 (drop n setup)).
Definition the_call (dev : Z) (setup data : list Z) : call :=
  ULib (LibControlMsg dev (nth 0 setup 0) (nth 1 setup 0) (half setup 2) (half setup 4) data (half setup 6) 1000).

Lemma malloc_block_ok n s k :
  gadget_memory -> 0 <= n -> exists blk, Z.of_nat (length blk) = n /\
  malloc_block n s k =
    Ok (Some (k_next k, 0), s,
        (traced [CMalloc n] k) <| k_heap := <[k_next k := blk]> (k_heap k) |> <| k_next := Pos.succ (k_next k) |>).
Proof.
  intros Hm Hn. specialize (Hm (k_trace k) n). unfold malloc_block.
  exists (take (Z.to_nat n) ((env_answer (k_trace k) (CMalloc n)).2 ++ replicate (Z.to_nat n) 0)).
  split; [rewrite length_take, length_app, length_replicate; lia|].
  unfold ext. erewrite bind_ok by reflexivity. destruct (env_answer _ _) as [r junk]. cbn [fst snd] in *.
  apply Z.eqb_neq in Hm. rewrite Hm. by erewrite bind_ok by reflexivity.
Qed.

Lemma store_bytes_ok b off blk data s k :
  k_heap k !! b = Some blk -> 0 <= off -> off + Z.of_nat (length data) <= Z.of_nat (length blk) ->
  store_bytes (b, off) data s k =
    Ok (tt, s, k <| k_heap := <[b := splice blk (Z.to_nat off) data]> (k_heap k) |>).
Proof.
  intros Hb Ho Hl. unfold store_bytes. cbn [fst snd]. rewrite Hb.
  replace (0 <=? off) with true by (symmetry; apply Z.leb_le; lia).
  by replace (off + _ <=? _) with true by (symmetry; apply Z.leb_le; lia).
Qed.

(** Storing what was received at the start of a block; nothing is stored when
    there is nothing. *)
Lemma store_answer b blk data s k :
  k_heap k !! b = Some blk -> (length data <= length blk)%nat ->
  match data with
  | [] => mret tt
  | _ :: _ => p ← deref (Some (b, 0)); store_bytes p data
  end s k = Ok (tt, s, k <| k_heap := <[b := splice blk 0 data]> (k_heap k) |>).
Proof.
  intros Hb Hl. destruct data as [|x data].
  - unfold splice. cbn. rewrite insert_id by done. by destruct k.
  - erewrite bind_ok by reflexivity. by apply store_bytes_ok; [|lia|cbn in *; lia].
Qed.

Lemma half_of setup n :
  (n + 2 <= length setup)%nat -> of_le [nth n setup 0; nth (S n) setup 0] = half setup n.
Proof.
  intros Hn. unfold half. destruct (lookup_lt_is_Some_2 setup n) as [x Hx]; [lia|].
  destruct (lookup_lt_is_Some_2 setup (S n)) as [y Hy]; [lia|].
  rewrite (drop_S _ _ _ Hx), (drop_S _ _ _ Hy). cbn [take].
  by rewrite !nth_lookup, Hx, Hy.
Qed.

(** The packet the library builds is the one the host sent. *)
Lemma setup_forwarded setup :
  length setup = 8%nat -> bytes setup ->
  setup_packet (nth 0 setup 0) (nth 1 setup 0) (half setup 2) (half setup 4) (half setup 6) = setup.
Proof.
  intros Hl Hb. do 8 (destruct setup as [|? setup]; [done|]). destruct setup; [|done].
  unfold bytes in Hb. repeat match type of Hb with Forall _ (_ :: _) => apply Forall_cons in Hb as [? Hb] end.
  unfold setup_packet, half, is_byte in *. cbn -[Z.mul Z.div Z.modulo Z.add u8 u16]. repeat f_equal; int_lia.
Qed.

(** A request that is not one of the two the gadget acts on itself. *)
Definition plain_request (setup : list Z) : Prop :=
  nth 1 setup 0 <> USB_REQ_SET_CONFIGURATION /\ nth 1 setup 0 <> USB_REQ_SET_INTERFACE.

(** What the gadget does for a request of the host that asks for data, given what
    happened before: the answer is written to the host.  When the device or the
    writing fails it does what the code has at its label STALL: a write of nothing. *)
Definition serve_in (fd dev : Z) (setup : list Z) (tr : list call) : list call :=
  let c := the_call dev setup [] in
  let m := CMalloc (half setup 6) in
  let a := env_answer (m :: tr) c in
  if a.1 <? 0 then [UWrite fd []; c; m]
  else
    let w := UWrite fd a.2 in
    if (env_answer (c :: m :: tr) w).1 =? a.1 then [w; c; m] else [UWrite fd []; w; c; m].

(** For one that brings data, or has none: it is read from the host whole and
    passed on; a request without data is acknowledged by a write of nothing.  The
    label STALL is a read of nothing. *)
Definition serve_out (fd dev : Z) (setup : list Z) (tr : list call) : list call :=
  let n := half setup 6 in
  let m := CMalloc n in
  if n =? 0 then
    let c := the_call dev setup [] in
    if (env_answer (m :: tr) c).1 <? 0 then [URead fd 0; c; m]
    else let w := UWrite fd [] in
         if (env_answer (c :: m :: tr) w).1 <? 0 then [URead fd 0; w; c; m] else [w; c; m]
  else
    let r := URead fd n in
    let a := env_answer (m :: tr) r in
    if negb (a.1 =? n) then [URead fd 0; r; m]
    else let c := the_call dev setup a.2 in
         if (env_answer (r :: m :: tr) c).1 <? 0 then [URead fd 0; c; r; m] else [c; r; m].

Lemma half_range setup n : bytes setup -> 0 <= half setup n < 2 ^ 16.
Proof.
  intros Hb. unfold half. pose proof (of_le_range (take 2 (drop n setup))) as Hr.
  assert (bytes (take 2 (drop n setup))) as Hb' by by apply Forall_take, Forall_drop.
  specialize (Hr Hb'). pose proof (length_take_le (drop n setup) 2).
  rewrite length_take in Hr. destruct (Nat.min 2 (length (drop n setup))) as [|[|[|]]] eqn:E; cbn in Hr |- *; lia.
Qed.

Lemma control_in_ok rt rq v i b blk size s k dev :
  has_bits rt USB_DIR_IN = true -> cx_dev s = Some dev -> k_heap k !! b = Some blk ->
  let c := ULib (LibControlMsg dev rt rq v i [] size 1000) in
  let a := env_answer (k_trace k) c in (length a.2 <= length blk)%nat ->
  control_msg rt rq v i (Some (b, 0)) size 1000 s k =
    Ok (a.1, s, (traced [c] k) <| k_heap := <[b := splice blk 0 a.2]> (k_heap k) |>).
Proof.
  intros Hin Hdev Hb c a Hl. unfold control_msg. erewrite bind_ok by reflexivity. rewrite Hdev.
  erewrite bind_ok by reflexivity. rewrite Hin. erewrite bind_ok by reflexivity.
  unfold ext. erewrite bind_ok by reflexivity. fold c. fold a. destruct a as [ret answer]. cbn [fst snd] in *.
  by erewrite bind_ok by (apply store_answer; [exact Hb|done]).
Qed.

Lemma load_splice b blk data s k :
  k_heap k !! b = Some (splice blk 0 data) -> (length data <= length blk)%nat ->
  load_bytes (b, 0) (Z.of_nat (length data)) s k = Ok (data, s, k).
Proof.
  intros Hb Hl. erewrite load_bytes_ok; [|exact Hb|done|lia|].
  - cbn [snd]. unfold splice. rewrite Nat2Z.id. change (Z.to_nat 0) with 0%nat. rewrite drop_0, take_0. cbn [app]. by rewrite take_app_length.
  - unfold splice. cbn. rewrite !length_app, length_drop. lia.
Qed.

Lemma load_answer b blk data s k :
  k_heap k !! b = Some (splice blk 0 data) -> (length data <= length blk)%nat ->
  (if Z.of_nat (length data) =? 0 then mret []
   else p ← deref (Some (b, 0)); load_bytes p (Z.of_nat (length data))) s k = Ok (data, s, k).
Proof.
  intros Hb Hl. destruct data as [|x data]; [done|]. by apply (load_splice b blk (x :: data)).
Qed.

Lemma serve_in_run fuel setup s k dev :
  lib_control_ok -> gadget_memory -> length setup = 8%nat -> bytes setup -> plain_request setup ->
  has_bits (nth 0 setup 0) USB_DIR_IN = true -> cx_dev s = Some dev ->
  exists k', handle_control fuel setup s k = Ok (tt, s, k') /\
    k_trace k' = serve_in (cx_fd s) dev setup (k_trace k) ++ k_trace k /\ k_locks k' = k_locks k.
Proof.
  intros Hlib Hm Hlen Hb [Hp1 Hp2] Hin Hdev. unfold handle_control.
  rewrite !(half_of setup) by lia. rewrite Hin. erewrite bind_ok by reflexivity.
  destruct (malloc_block_ok (half setup 6) s k Hm) as (blk & Hblk & Hmal); [by apply half_range|].
  erewrite bind_ok by exact Hmal. rewrite andb_false_r. erewrite bind_ok by reflexivity. cbn [negb].
  apply Z.eqb_neq in Hp1, Hp2. rewrite Hp1, Hp2. erewrite bind_ok by reflexivity.
  cbv beta iota.
  match goal with |- context [(control_msg _ _ _ _ _ _ _ ≫= _) _ ?x] => set (k1 := x) end.
  specialize (Hlib (k_trace k1) dev (nth 0 setup 0) (nth 1 setup 0) (half setup 2) (half setup 4) [] (half setup 6) 1000 Hin
    (proj1 (half_range setup 6 Hb))).
  change (k_trace k1) with (CMalloc (half setup 6) :: k_trace k) in *.
  set (a := env_answer (CMalloc (half setup 6) :: k_trace k) (the_call dev setup [])) in *.
  fold (the_call dev setup []) in Hlib. fold a in Hlib. cbv zeta in Hlib.
  assert (length a.2 <= length blk)%nat as Hfit.
  { destruct (a.1 <? 0); [rewrite Hlib; cbn; lia|lia]. }
  erewrite bind_ok.
  2:{ eapply control_in_ok; [done|exact Hdev|apply lookup_insert_eq|exact Hfit]. }
  fold (the_call dev setup []). change (k_trace k1) with (CMalloc (half setup 6) :: k_trace k).
  fold a. unfold serve_in. fold a.
  destruct (a.1 <? 0) eqn:Ea; [eexists; split; [reflexivity|]; by split|]. destruct Hlib as [Ha Hle]. apply Z.ltb_ge in Ea.
  assert (u16 a.1 = a.1) as ->. { pose proof (half_range setup 6 Hb). int_lia. }
  erewrite bind_ok.
  2:{ erewrite bind_ok.
      2:{ rewrite Ha. apply (load_answer _ blk); [apply lookup_insert_eq|done]. }
      erewrite bind_ok by apply ext_ret_ok. reflexivity. }
  match goal with |- context [env_answer ?tr (UWrite ?f ?d)] => set (w := env_answer tr (UWrite f d)) end.
  destruct (w.1 =? a.1) eqn:Ew; cbn [negb]; subst w; cbn in Ew; unfold k1 in *; cbn in *; rewrite Ew; (eexists; split; [reflexivity|by split]).
Qed.

Lemma control_out_ok rt rq v i b data s k dev :
  has_bits rt USB_DIR_IN = false -> cx_dev s = Some dev -> k_heap k !! b = Some data ->
  let c := ULib (LibControlMsg dev rt rq v i data (Z.of_nat (length data)) 1000) in
  control_msg rt rq v i (Some (b, 0)) (Z.of_nat (length data)) 1000 s k =
    Ok ((env_answer (k_trace k) c).1, s, traced [c] k).
Proof.
  intros Hout Hdev Hb c. unfold control_msg. erewrite bind_ok by reflexivity. rewrite Hdev.
  erewrite bind_ok by reflexivity. rewrite Hout.
  erewrite bind_ok.
  2:{ instantiate (3 := data). destruct data as [|x data]; [reflexivity|].
      change (Z.of_nat (length (x :: data)) =? 0) with false. cbv iota. erewrite bind_ok by reflexivity.
      erewrite load_bytes_ok; [|exact Hb|done|lia|cbn [snd]; lia].
      cbn [snd]. change (Z.to_nat 0) with 0%nat. by rewrite Nat2Z.id, drop_0, firstn_all. }
  unfold ext. erewrite bind_ok by reflexivity. fold c. by destruct (env_answer _ c).
Qed.

Lemma splice_whole blk data : length data = length blk -> splice blk 0 data = data.
Proof. intros Hl. unfold splice. cbn. rewrite drop_ge by lia. by rewrite app_nil_r. Qed.

Lemma serve_out_run fuel setup s k dev :
  read_ok -> gadget_memory -> length setup = 8%nat -> bytes setup -> plain_request setup ->
  has_bits (nth 0 setup 0) USB_DIR_IN = false -> cx_dev s = Some dev ->
  exists k', handle_control fuel setup s k = Ok (tt, s, k') /\
    k_trace k' = serve_out (cx_fd s) dev setup (k_trace k) ++ k_trace k /\ k_locks k' = k_locks k.
Proof.
  intros Hrd Hm Hlen Hb [Hp1 Hp2] Hout Hdev. unfold handle_control.
  rewrite !(half_of setup) by lia. rewrite Hout. erewrite bind_ok by reflexivity.
  destruct (malloc_block_ok (half setup 6) s k Hm) as (blk & Hblk & Hmal); [by apply half_range|].
  erewrite bind_ok by exact Hmal. rewrite andb_true_r. cbn [negb].
  apply Z.eqb_neq in Hp1, Hp2. rewrite Hp1, Hp2. unfold serve_out. cbv zeta.
  destruct (half setup 6 =? 0) eqn:E0; cbn [negb].
  - apply Z.eqb_eq in E0. assert (blk = []) as -> by (destruct blk; [done|cbn in *; lia]).
    unfold the_call. rewrite E0 in *.
    erewrite bind_ok by reflexivity. cbn [negb]. erewrite bind_ok by reflexivity. cbv beta iota.
    erewrite bind_ok by (eapply (control_out_ok _ _ _ _ _ []); [done|exact Hdev|apply lookup_insert_eq]).
    change (Z.of_nat (length (@nil Z))) with 0 in *.
    set (c := ULib (LibControlMsg dev _ _ _ _ [] 0 1000)).
    match goal with |- context [env_answer (k_trace ?x) c] => change (k_trace x) with (CMalloc 0 :: k_trace k) end.
    destruct (_ <? 0) eqn:Ec; [eexists; split; [reflexivity|by split]|].
    erewrite bind_ok by (erewrite bind_ok by apply ext_ret_ok; reflexivity).
    match goal with |- context [env_answer (k_trace ?x) (UWrite _ _)] =>
      change (k_trace x) with (c :: CMalloc 0 :: k_trace k) end.
    rewrite ?Ec. cbv iota.
    destruct ((env_answer (c :: CMalloc 0 :: k_trace k) (UWrite (cx_fd s) [])).1 <? 0) eqn:Ew; cbn [negb];
      (eexists; split; [reflexivity|by split]).
  - specialize (Hrd (CMalloc (half setup 6) :: k_trace k) (cx_fd s) (half setup 6)
      (proj1 (half_range setup 6 Hb))) as [Hr1 Hr2].
    set (a := env_answer (CMalloc (half setup 6) :: k_trace k) (URead (cx_fd s) (half setup 6))) in *.
    erewrite bind_ok.
    2:{ unfold ext. erewrite bind_ok by reflexivity.
        match goal with |- context [env_answer (k_trace ?x) ?c] =>
          change (env_answer (k_trace x) c) with a end.
        rewrite (surjective_pairing a).
        erewrite bind_ok by (eapply (store_answer _ blk); [apply lookup_insert_eq|lia]). reflexivity. }
    cbv beta. fold a. destruct (a.1 =? half setup 6) eqn:Ea; cbn [negb].
    2:{ eexists; split; [reflexivity|by split]. }
    apply Z.eqb_eq in Ea. specialize (Hr2 Ea). rewrite splice_whole by lia.
    erewrite bind_ok by reflexivity. cbv beta iota.
    erewrite bind_ok.
    2:{ rewrite <- Hr2. eapply control_out_ok; [done|exact Hdev|apply lookup_insert_eq]. }
    rewrite Hr2. unfold the_call. set (c := ULib _).
    match goal with |- context [env_answer (k_trace ?x) c] =>
      change (k_trace x) with (URead (cx_fd s) (half setup 6) :: CMalloc (half setup 6) :: k_trace k) end.
    destruct (_ <? 0) eqn:Ec; [eexists; split; [reflexivity|by split]|].
    erewrite bind_ok by reflexivity. cbn [negb]. eexists; split; [reflexivity|by split].
Qed.

(** After a disconnect, or while the endpoints are set up anew, there is no device:
    when the host's data could not be read the code goes to STALL, in all other
    cases it hands NULL to the library. *)
Definition unread (fd : Z) (setup : list Z) (tr : list call) : bool :=
  let n := half setup 6 in
  negb (has_bits (nth 0 setup 0) USB_DIR_IN) && negb (n =? 0) &&
  negb ((env_answer (CMalloc n :: tr) (URead fd n)).1 =? n).

Theorem request_without_device_crashes fuel setup s k :
  read_ok -> gadget_memory -> length setup = 8%nat -> bytes setup -> plain_request setup ->
  cx_dev s = None -> unread (cx_fd s) setup (k_trace k) = false ->
  handle_control fuel setup s k = Crash NullDeref.
Proof.
  intros Hrd Hm Hlen Hb [Hp1 Hp2] Hdev Hun. unfold handle_control.
  rewrite !(half_of setup) by lia. erewrite bind_ok by reflexivity.
  destruct (malloc_block_ok (half setup 6) s k Hm) as (blk & Hblk & Hmal); [by apply half_range|].
  erewrite bind_ok by exact Hmal. apply Z.eqb_neq in Hp1, Hp2. rewrite Hp1, Hp2. unfold unread in Hun.
  assert (forall k1 b n, (control_msg (nth 0 setup 0) (nth 1 setup 0) (half setup 2) (half setup 4) b n 1000 :
    Kernel.M context_t Z) s k1 = Crash NullDeref) as Hnull.
  { intros. unfold control_msg. erewrite bind_ok by reflexivity. by rewrite Hdev. }
  destruct (has_bits (nth 0 setup 0) USB_DIR_IN).
  { rewrite andb_false_r. erewrite bind_ok by reflexivity. cbn [negb]. erewrite bind_ok by reflexivity.
    cbv beta iota. by apply bind_crash. }
  rewrite andb_true_r. destruct (half setup 6 =? 0) eqn:E0; cbn [negb andb] in *.
  { erewrite bind_ok by reflexivity. cbn [negb]. erewrite bind_ok by reflexivity.
    cbv beta iota. by apply bind_crash. }
  specialize (Hrd (CMalloc (half setup 6) :: k_trace k) (cx_fd s) (half setup 6)
    (proj1 (half_range setup 6 Hb))) as [Hr1 Hr2].
  set (a := env_answer (CMalloc (half setup 6) :: k_trace k) (URead (cx_fd s) (half setup 6))) in *.
  apply negb_false_iff in Hun.
  erewrite bind_ok.
  2:{ unfold ext. erewrite bind_ok by reflexivity.
      match goal with |- context [env_answer (k_trace ?x) ?c] => change (env_answer (k_trace x) c) with a end.
      rewrite (surjective_pairing a).
      erewrite bind_ok by (eapply (store_answer _ blk); [apply lookup_insert_eq|lia]). reflexivity. }
  cbv beta. fold a. rewrite Hun. cbn [negb]. erewrite bind_ok by reflexivity. cbv beta iota. by apply bind_crash.
Qed.

Lemma unread_stalls fuel setup s k :
  read_ok -> gadget_memory -> length setup = 8%nat -> bytes setup ->
  unread (cx_fd s) setup (k_trace k) = true ->
  exists k', handle_control fuel setup s k = Ok (tt, s, k') /\ k_locks k' = k_locks k /\
    k_trace k' = [URead (cx_fd s) 0; URead (cx_fd s) (half setup 6); CMalloc (half setup 6)] ++ k_trace k.
Proof.
  intros Hrd Hm Hlen Hb Hun. unfold unread in Hun. apply andb_true_iff in Hun as [[Hin E0]%andb_true_iff Hne].
  apply negb_true_iff in Hin, E0, Hne. unfold handle_control. rewrite !(half_of setup) by lia. rewrite Hin, E0.
  erewrite bind_ok by reflexivity.
  destruct (malloc_block_ok (half setup 6) s k Hm) as (blk & Hblk & Hmal); [by apply half_range|].
  erewrite bind_ok by exact Hmal. cbn [negb andb].
  specialize (Hrd (CMalloc (half setup 6) :: k_trace k) (cx_fd s) (half setup 6)
    (proj1 (half_range setup 6 Hb))) as [Hr1 _].
  set (a := env_answer (CMalloc (half setup 6) :: k_trace k) (URead (cx_fd s) (half setup 6))) in *.
  erewrite bind_ok.
  2:{ unfold ext. erewrite bind_ok by reflexivity.
      match goal with |- context [env_answer (k_trace ?x) ?c] => change (env_answer (k_trace x) c) with a end.
      rewrite (surjective_pairing a).
      erewrite bind_ok by (eapply (store_answer _ blk); [apply lookup_insert_eq|lia]). reflexivity. }
  cbv beta. fold a. rewrite Hne. cbn [negb]. eexists; split; [reflexivity|by split].
Qed.

(** C19: A control request of the host that the gadget does not act on itself, with
    memory for its data.  The device gets the setup packet the host sent, with the
    host's data if there is any, and the data of its answer is written to the host
    whole.  When the host's data cannot be read, the device refuses or the host does
    not take the answer, the last thing done is what the code calls a stall, a read
    or write of nothing in the direction of the request; the gadgetfs test program
    of the repository says that a stall is one in the other direction.  Without a
    device the code crashes, but for the case of data that could not be read.  The
    gadget's state is as before. *)
Theorem control_request_served fuel setup s k :
  lib_control_ok -> read_ok -> gadget_memory -> length setup = 8%nat -> bytes setup ->
  plain_request setup ->
  setup_packet (nth 0 setup 0) (nth 1 setup 0) (half setup 2) (half setup 4) (half setup 6) = setup /\
  match cx_dev s with
  | Some dev => exists k', handle_control fuel setup s k = Ok (tt, s, k') /\ k_locks k' = k_locks k /\
      k_trace k' = (if has_bits (nth 0 setup 0) USB_DIR_IN
                    then serve_in (cx_fd s) dev setup (k_trace k)
                    else serve_out (cx_fd s) dev setup (k_trace k)) ++ k_trace k
  | None =>
      if unread (cx_fd s) setup (k_trace k) then
        exists k', handle_control fuel setup s k = Ok (tt, s, k') /\ k_locks k' = k_locks k /\
          k_trace k' = [URead (cx_fd s) 0; URead (cx_fd s) (half setup 6); CMalloc (half setup 6)] ++ k_trace k
      else handle_control fuel setup s k = Crash NullDeref
  end.
Proof.
  intros Hlib Hrd Hm Hlen Hb Hp. split; [by apply setup_forwarded|].
  destruct (cx_dev s) as [dev|] eqn:Hdev.
  - destruct (has_bits (nth 0 setup 0) USB_DIR_IN) eqn:Hin.
    + destruct (serve_in_run fuel setup s k dev) as (k' & ? & ? & ?); try done. by exists k'.
    + destruct (serve_out_run fuel setup s k dev) as (k' & ? & ? & ?); try done. by exists k'.
  - destruct (unread (cx_fd s) setup (k_trace k)) eqn:Hun; [by apply unread_stalls|].
    by apply request_without_device_crashes.
Qed.
End control.

(** ** Data of the device on its way to the host *)
Section data.
Context `{Env} `{Arch} `{Schedule}.
Implicit Types (s : context_t) (k : kernel).

(** [write] takes at least one byte, at most what it is given. *)
Definition write_ok : Prop :=
  forall tr fd data, data <> [] -> 1 <= (env_answer tr (UWrite fd data)).1 <= Z.of_nat (length data).

(** What the calls [cs], the latest first, wrote: what each took. *)
Fixpoint written (tr cs : list call) : list Z :=
  match cs with
  | [] => []
  | c :: cs' =>
      written tr cs' ++
      match c with
      | UWrite fd d => take (Z.to_nat (env_answer (cs' ++ tr) c).1) d
      | _ => []
      end
  end.

Fixpoint thread_steps (m : nat) (i : Z) : M context_t unit :=
  match m with
  | O => mret tt
  | S m' => ep_thread_step i;; thread_steps m' i
  end.

(** The thread of the IN endpoint [i] writes the data of [u] from [off] on. *)
Definition writing (i : Z) (u : positive) (off : Z) (e : ep_s) (r : urb_s) s k : Prop :=
  0 <= i /\ cx_eps s !! Z.to_nat i = Some e /\ es_thread e = th_write u off /\
  (exists desc, es_desc e = Some desc /\ forall s k', k_heap k' = k_heap k ->
                usb_endpoint_dir_in desc s k' = Ok (true, s, k')) /\
  cx_urbs s !! u = Some r /\ 0 <= off <= us_actual_length r /\
  us_actual_length r <= Z.of_nat (length (us_buf r)) < 2 ^ 63.

Definition at_offset (i : Z) (u : positive) (off : Z) s : context_t :=
  s <| cx_eps := alter (fun e => e <| es_thread := th_write u off |>) (Z.to_nat i) (cx_eps s) |>.

Lemma write_step i u off e r s k :
  writing i u off e r s k -> off < us_actual_length r ->
  let c := UWrite (es_fd e) (take (Z.to_nat (us_actual_length r - off)) (drop (Z.to_nat off) (us_buf r))) in
  let n := (env_answer (k_trace k) c).1 in 0 <= n ->
  ep_thread_step i s k = Ok (tt, at_offset i u (off + n) s, traced [c] k).
Proof.
  intros (Hi & He & Ht & (desc & Hd & Hin) & Hu & Hoff & Hlen) Hlt c n Hn. unfold ep_thread_step.
  erewrite bind_ok by (by eapply look_ep_ok). rewrite Hd. erewrite bind_ok by reflexivity.
  erewrite bind_ok by by apply Hin. rewrite Ht. unfold ep_in_write.
  assert (look_urb u s k = Ok (r, s, k)) as Hlu.
  { unfold look_urb. erewrite bind_ok by reflexivity. by apply of_option_ok. }
  erewrite bind_ok by exact Hlu. replace (off =? _) with false by (symmetry; apply Z.eqb_neq; lia).
  erewrite bind_ok by (by eapply look_ep_ok). cbv zeta.
  replace (u64 (us_actual_length r - off)) with (us_actual_length r - off) by int_lia.
  replace (_ <? off + _) with false by (symmetry; apply Z.ltb_ge; lia). erewrite bind_ok by reflexivity.
  fold c. erewrite bind_ok by apply ext_ret_ok. fold n.
  replace (n <? 0) with false by (symmetry; apply Z.ltb_ge; lia). by eapply update_ep_ok.
Qed.

Lemma written_snoc tr cs c : written tr (cs ++ [c]) = written tr [c] ++ written (c :: tr) cs.
Proof.
  induction cs as [|c' cs IH]; [by rewrite app_nil_r|]. cbn [app written]. rewrite IH, <- app_assoc.
  by rewrite <- app_assoc.
Qed.

Lemma alter_same (f : ep_s -> ep_s) (j : nat) e (l : list ep_s) : l !! j = Some e -> f e = e -> alter f j l = l.
Proof. intros He Hf. rewrite (alter_cong f id j e) by done. apply list_eq. intros x. rewrite list_lookup_alter. case_decide; [subst|done]. by destruct (l !! x). Qed.

(** C30: A thread with data of the device writes all of it to the host and in order,
    in as many calls as it takes and at most one per byte, however little each call
    accepts. *)
Theorem in_data_written i u off e r s k :
  write_ok -> writing i u off e r s k ->
  exists m cs, Z.of_nat m <= us_actual_length r - off /\
    thread_steps m i s k = Ok (tt, at_offset i u (us_actual_length r) s, traced cs k) /\
    written (k_trace k) cs =
      take (Z.to_nat (us_actual_length r - off)) (drop (Z.to_nat off) (us_buf r)).
Proof.
  intros Hok Hw. pose proof Hw as (_ & _ & _ & _ & _ & Hoff & _).
  remember (Z.to_nat (us_actual_length r - off)) as n eqn:En. revert off e s k En Hw Hoff.
  induction n as [n IH] using lt_wf_ind. intros off e s k En Hw Hoff.
  pose proof Hw as (Hi & He & Ht & Hd & Hu & _ & Hlen).
  destruct (decide (off = us_actual_length r)) as [->|Hne].
  { exists 0%nat, []. split; [lia|]. split; [|subst; by rewrite Z.sub_diag].
    cbn [thread_steps]. rewrite traced_nil. unfold at_offset. rewrite (alter_same _ _ e); [by destruct s|exact He|].
    destruct e; cbn in *. by subst. }
  set (data := take n (drop (Z.to_nat off) (us_buf r))).
  assert (length data = n) as Hld by (unfold data; rewrite length_take, length_drop; lia).
  set (c := UWrite (es_fd e) data). set (w := (env_answer (k_trace k) c).1).
  assert (1 <= w <= Z.of_nat n) as Hwr.
  { rewrite <- Hld. apply Hok. intros E. apply (f_equal length) in E. cbn in E. lia. }
  set (e1 := e <| es_thread := th_write u (off + w) |>). set (s1 := at_offset i u (off + w) s).
  assert (writing i u (off + w) e1 r s1 (traced [c] k)) as Hw1.
  { split; [done|]. split; [unfold s1, at_offset; cbn [cx_eps set_field set_cx_eps]; by rewrite list_lookup_alter_eq, He|].
    split; [done|]. split; [exact Hd|]. split; [exact Hu|]. lia. }
  destruct (IH (n - Z.to_nat w)%nat ltac:(lia) (off + w) e1 s1 (traced [c] k) ltac:(lia) Hw1 ltac:(lia))
    as (m & cs & Hm & Hrun & Hwritten).
  exists (S m), (cs ++ [c]). split; [lia|]. split.
  - cbn [thread_steps]. rewrite (bind_ok _ _ s k tt s1 (traced [c] k)).
    + rewrite Hrun. rewrite traced_traced. refine (eps_eq _ _ s _ _).
      unfold s1, at_offset. cbn [cx_eps set_field set_cx_eps]. by rewrite alter_alter.
    + unfold s1, w, c, data. rewrite En. eapply write_step; [exact Hw|lia|]. rewrite <- En. fold data c w. lia.
  - rewrite written_snoc. cbn [written app]. fold w.
    change (c :: k_trace k) with (k_trace (traced [c] k)). rewrite Hwritten. unfold data.
    unfold c. cbv iota. unfold data. rewrite take_take, Nat.min_l by lia.
    rewrite Z2Nat.inj_add, <- drop_drop by lia.
    rewrite <- (take_drop (Z.to_nat w) (take n (drop (Z.to_nat off) (us_buf r)))).
    by rewrite take_take, Nat.min_l, skipn_firstn_comm by lia.
Qed.
End data.

(** ** A request and data of the demonstration device *)

Definition device_env : Env := fun _ c =>
  match c with
  | CMalloc _ => (1, [])
  | ULib (LibControlMsg _ _ _ _ _ _ size _) =>
      let d := take (Z.to_nat size) [18; 1] in (Z.of_nat (length d), d)
  | UWrite _ d => (Z.min 2 (Z.of_nat (length d)), [])
  | _ => (0, [])
  end.
(** GET_STATUS: two bytes from the device. *)
Definition get_status : list Z := [128; 0; 0; 0; 0; 0; 2; 0].

Lemma control_request_served_witness :
  let _ : Env := device_env in let _ : Arch := false in let _ : PlainChar := true in
  let _ : Schedule := fun _ => mret tt in
  serve_in 3 7 get_status [] = [UWrite 3 [18; 1]; the_call 7 get_status []; CMalloc 2] /\
  setup_packet 128 0 0 0 2 = get_status /\
  exists k', handle_control 10 get_status demo_gadget demo_memory = Ok (tt, demo_gadget, k') /\
    k_locks k' = [] /\ k_trace k' = serve_in 3 7 get_status [] ++ [].
Proof.
  intros env arch pc sch. split; [reflexivity|].
  apply (control_request_served 10 get_status demo_gadget demo_memory).
  - intros tr dev rt rq v i data size t Hin Hs. cbn -[take]. rewrite length_take.
    replace (_ <? 0) with false by (symmetry; apply Z.ltb_ge; lia). cbn [length]. lia.
  - intros tr fd len Hl. cbn. lia.
  - done.
  - done.
  - repeat constructor; done.
  - done.
Defined.

(** Endpoint 1 IN with five bytes to write, two at a time. *)
Definition five_bytes : urb_s :=
  urb_s_zero <| us_ep := 17 |> <| us_buf := [1; 2; 3; 4; 5; 0; 0; 0] |> <| us_actual_length := 5 |>.
Definition writing_ep : ep_s :=
  mkEpS true 5 (th_write 20 0) (Some (1%positive, 29)) (Some (1%positive, 38)) [] false.
Definition writing_gadget : context_t :=
  demo_gadget <| cx_eps := <[17%nat := writing_ep]> (cx_eps demo_gadget) |>
    <| cx_urbs := {[20%positive := five_bytes]} |>.

Lemma in_data_written_witness :
  let _ : Env := device_env in let _ : Arch := false in let _ : Schedule := fun _ => mret tt in
  exists m cs, Z.of_nat m <= 5 - 0 /\
    thread_steps m 17 writing_gadget demo_memory =
      Ok (tt, at_offset 17 20 5 writing_gadget, traced cs demo_memory) /\
    written [] cs = [1; 2; 3; 4; 5].
Proof.
  intros env arch sch.
  apply (in_data_written 17 20 0 writing_ep five_bytes writing_gadget demo_memory).
  - intros tr fd data Hd. cbn. destruct data; [done|]. cbn [length]. lia.
  - split; [lia|]. split; [done|]. split; [done|]. split; [|split; [done|cbn; lia]].
    exists (1%positive, 38). split; [done|]. intros s k' Hk.
    assert (byte_at (1%positive, 38) 2 s k' = Ok (129, s, k')) as Hb.
    { eapply byte_at_ok; [by rewrite Hk|lia|reflexivity]. }
    unfold usb_endpoint_dir_in. by erewrite bind_ok by exact Hb.
Defined.
