(* ===== verification/NamesProps.v ===== *)
(** * The tables of names

    The five hash tables together are a database of finite maps: adding keeps the
    first name of a number, looking up finds it.  A file of usb.ids printed from a
    list of vendors and classes is read as that list. *)
From Stdlib Require Import String.
From S2P Require Import Prelude CLib FormatProps Kernel Exec EventProps Names.

Local Open Scope Z_scope.

(** ** The hash function *)

Lemma hashnum_range num : 0 <= hashnum num < 16.
Proof.
  unfold hashnum. change (Z.of_nat HASHSZ - 1) with (Z.ones 4). rewrite Z.land_ones by lia.
  apply Z.mod_pos_bound. lia.
Qed.

#[local] Opaque hashnum.

(** ** The pool *)

Definition pool_blocks (pool : list (ptr * ptr)) : list positive := pool ≫= (fun x => [x.2.1; x.1.1]).

(** The pool holds the memory that was allocated since it was [h0], each block
    once, and nothing else of [h0] changed. *)
Definition owns (h0 : gmap positive (list Z)) (s : names) (k : kernel) : Prop :=
  NoDup (pool_blocks (nm_pool s)) /\
  Forall (fun x => x.1.2 = 0 /\ x.2.2 = 0) (nm_pool s) /\
  (forall b, b ∈ pool_blocks (nm_pool s) ->
     is_Some (k_heap k !! b) /\ (b < k_next k)%positive /\ h0 !! b = None) /\
  (forall b, b ∉ pool_blocks (nm_pool s) -> k_heap k !! b = h0 !! b) /\
  (forall b, is_Some (h0 !! b) -> (b < k_next k)%positive).

(** Memory is allocated at unused addresses. *)
Definition heap_fresh (k : kernel) : Prop := forall b, is_Some (k_heap k !! b) -> (b < k_next k)%positive.

Lemma owns_start k : heap_fresh k -> owns (k_heap k) names_zero k.
Proof.
  intros Hf. split; [constructor|]. split; [constructor|]. split; [intros b Hb; by apply elem_of_nil in Hb|].
  by split.
Qed.

Lemma owns_add h0 s k n m x y :
  owns h0 s k -> n = k_next k -> m = Pos.succ n ->
  owns h0 (s <| nm_pool := ((n, 0), (m, 0)) :: nm_pool s |>)
    (k <| k_heap := <[m := y]> (<[n := x]> (k_heap k)) |> <| k_next := Pos.succ m |>).
Proof.
  intros (Hnd & Hoff & Hin & Hout & Hlt) -> ->.
  assert (forall b, b ∈ pool_blocks (nm_pool s) -> (b < k_next k)%positive) as Hb by (intros b Hb; by apply Hin).
  unfold owns. cbn. split; [|split; [|split; [|split]]].
  - constructor; [|constructor; [|done]].
    + rewrite elem_of_cons. intros [?|?%Hb]; lia.
    + intros ?%Hb. lia.
  - by constructor.
  - intros b. rewrite !elem_of_cons. intros [->|[->|Hbs]].
    + split; [rewrite lookup_insert_eq; by eexists|]. split; [lia|].
      destruct (h0 !! _) eqn:E; [|done]. specialize (Hlt _ (mk_is_Some _ _ E)). lia.
    + split; [rewrite lookup_insert_ne, lookup_insert_eq by lia; by eexists|]. split; [lia|].
      destruct (h0 !! _) eqn:E; [|done]. specialize (Hlt _ (mk_is_Some _ _ E)). lia.
    + destruct (Hin b Hbs) as (? & ? & ?). rewrite !lookup_insert_ne by lia. split; [done|]. split; [lia|done].
  - intros b. rewrite !elem_of_cons. intros Hne. rewrite !lookup_insert_ne by naive_solver.
    apply Hout. naive_solver.
  - intros b ?%Hlt. lia.
Qed.

(** Freeing the pool gives back the memory as it was. *)
Lemma free_pool_ok h0 (s : names) pool : forall k,
  NoDup (pool_blocks pool) -> Forall (fun x => x.1.2 = 0 /\ x.2.2 = 0) pool ->
  (forall b, b ∈ pool_blocks pool -> is_Some (k_heap k !! b) /\ h0 !! b = None) ->
  (forall b, b ∉ pool_blocks pool -> k_heap k !! b = h0 !! b) ->
  free_pool pool s k = Ok (tt, s, k <| k_heap := h0 |>).
Proof.
  induction pool as [|[[n no] [m mo]] pool IH]; intros k Hnd Hoff Hin Hout; cbn [free_pool].
  - assert (k_heap k = h0) as <- by (apply map_eq; intros b; apply Hout, not_elem_of_nil). by destruct k.
  - unfold pool_blocks in Hnd, Hin, Hout. rewrite bind_cons in Hnd, Hin, Hout. cbn in Hnd, Hin, Hout.
    apply Forall_cons in Hoff as [[Hno Hmo] Hoff]. cbn in Hno, Hmo. subst no mo.
    apply NoDup_cons in Hnd as [Hm [Hn Hnd]%NoDup_cons]. rewrite not_elem_of_cons in Hm.
    destruct (Hin m) as [[mb Hmb] Hm0]; [set_solver|]. destruct (Hin n) as [[nb Hnb] Hn0]; [set_solver|].
    erewrite bind_ok by (unfold kfree; rewrite Hmb; reflexivity).
    erewrite bind_ok by (unfold kfree; cbn; rewrite lookup_delete_ne by naive_solver; rewrite Hnb; reflexivity).
    rewrite IH; [done|done|done| |].
    + intros b Hb. cbn. rewrite !lookup_delete_ne by (intros ->; naive_solver). apply Hin. set_solver.
    + intros b Hb. cbn. destruct (decide (b = n)) as [->|Hbn]; [by rewrite lookup_delete_eq|].
      rewrite lookup_delete_ne by done. destruct (decide (b = m)) as [->|Hbm]; [by rewrite lookup_delete_eq|].
      rewrite lookup_delete_ne by done. apply Hout. set_solver.
Qed.
Lemma names_free_ok h0 s k : owns h0 s k -> names_free s k = Ok (tt, s, k <| k_heap := h0 |>).
Proof.
  intros (Hnd & Hoff & Hin & Hout & _). unfold names_free. erewrite bind_ok by reflexivity.
  apply free_pool_ok; [done|done| |done]. intros b Hb. by destruct (Hin b Hb) as (? & _ & ?).
Qed.

(** ** One table *)

Definition calloc_ok `{Env} : Prop := forall tr, (env_answer tr UCalloc).1 <> 0.

(** The first name of a number is kept. *)
Definition add {K} `{Countable K} (key : K) (name : list Z) (m : gmap K (list Z)) : gmap K (list Z) :=
  match m !! key with Some _ => m | None => <[key := name]> m end.

Section table.
Context `{Env} {K : Type} `{Countable K}.
Implicit Types (s : names) (k : kernel) (l : list (entry K)) (t : table K).

Fixpoint assoc (key : K) l : option (list Z) :=
  match l with
  | [] => None
  | e :: l' => if decide (en_key e = key) then Some (en_name e) else assoc key l'
  end.

(** The memory of an entry is allocated. *)
Definition alive k (e : entry K) : Prop := is_Some (k_heap k !! (en_mem e).1).

(** The table [t], whose chains [hash] selects, holds the map [m]. *)
Definition table_is (hash : K -> Z) k t (m : gmap K (list Z)) : Prop :=
  length t = HASHSZ /\ Forall (Forall (alive k)) t /\
  forall key l, t !! Z.to_nat (hash key) = Some l -> assoc key l = m !! key.

(** Nothing that was allocated is gone. *)
Definition grows k k' : Prop := forall b, is_Some (k_heap k !! b) -> is_Some (k_heap k' !! b).

Lemma table_grows hash k k' t m : grows k k' -> table_is hash k t m -> table_is hash k' t m.
Proof.
  intros Hg (Hl & Ha & Hm). split; [done|]. split; [|done].
  eapply Forall_impl; [exact Ha|]. intros l Hal. eapply Forall_impl; [exact Hal|]. intros e. apply Hg.
Qed.

Lemma find_entry_ok key l s k :
  Forall (alive k) l -> find_entry key l s k = Ok (assoc key l, s, k).
Proof.
  induction 1 as [|e l [blk He] Hl IH]; [done|]. cbn [find_entry assoc].
  erewrite bind_ok by (unfold touch; rewrite He; reflexivity). by case_decide.
Qed.

Section field.
Variable f : names -> table K.
Context `{!Setter f}.
Variable hash : K -> Z.
Hypothesis hash_range : forall key, 0 <= hash key < 16.
Hypothesis get_set : forall t s, f (s <| f := t |>) = t.
Hypothesis get_pool : forall p s, f (s <| nm_pool := p |>) = f s.
Hypothesis pool_get : forall t s, nm_pool (s <| f := t |>) = nm_pool s.

Lemma bucket_ok key k s m :
  table_is hash k (f s) m -> exists l, f s !! Z.to_nat (hash key) = Some l /\ Forall (alive k) l /\
    assoc key l = m !! key /\ bucket f (hash key) s k = Ok (l, s, k).
Proof.
  intros (Hl & Ha & Hm). pose proof (hash_range key). unfold HASHSZ in Hl.
  destruct (lookup_lt_is_Some_2 (f s) (Z.to_nat (hash key))) as [l Hb]; [lia|].
  exists l. split; [done|]. split; [by eapply Forall_lookup_1|]. split; [by apply Hm|].
  unfold bucket. erewrite bind_ok by reflexivity. by rewrite Hb.
Qed.

Lemma lookup_ok key s k m :
  table_is hash k (f s) m -> names_lookup f (hash key) key s k = Ok (m !! key, s, k).
Proof.
  intros Ht. destruct (bucket_ok key k s m Ht) as (l & Hb & Ha & Hm & Hrun). unfold names_lookup.
  erewrite bind_ok by exact Hrun. by rewrite find_entry_ok, Hm.
Qed.

Lemma my_malloc_ok size s k :
  calloc_ok -> exists p pool k', my_malloc size s k = Ok (Some p, s <| nm_pool := pool |>, k') /\
    grows k k' /\ is_Some (k_heap k' !! p.1) /\
    forall h0, owns h0 s k -> owns h0 (s <| nm_pool := pool |>) k'.
Proof.
  intros Hc. unfold my_malloc. erewrite bind_ok by apply ext_ret_ok.
  pose proof (Hc (k_trace k)) as H1. apply Z.eqb_neq in H1. rewrite H1. erewrite bind_ok by reflexivity.
  erewrite bind_ok by apply ext_ret_ok.
  match goal with |- context [env_answer ?t UCalloc] => pose proof (Hc t) as H2 end.
  apply Z.eqb_neq in H2. rewrite H2. erewrite bind_ok by reflexivity. erewrite bind_ok by reflexivity.
  eexists _, _, _. split; [reflexivity|]. cbn. split; [|split; [rewrite lookup_insert_eq; by eexists|]].
  - intros b Hb. cbn. rewrite !lookup_insert_is_Some'. auto.
  - intros h0 Ho. exact (owns_add h0 s k _ _ _ _ Ho eq_refl eq_refl).
Qed.

(** Adding a name: refused when the number has one, and no other table changes. *)
Lemma new_entry_ok key name s k m :
  calloc_ok -> table_is hash k (f s) m ->
  exists s' k', new_entry f (hash key) key name s k =
    Ok (match m !! key with Some _ => -1 | None => 0 end, s', k') /\
  grows k k' /\ table_is hash k' (f s') (add key name m) /\
  (s' = s \/ exists pool t, s' = s <| nm_pool := pool |> <| f := t |>) /\
  forall h0, owns h0 s k -> owns h0 s' k'.
Proof.
  intros Hc Ht. destruct (bucket_ok key k s m Ht) as (l & Hb & Ha & Hm & Hrun). unfold new_entry, add.
  erewrite bind_ok by exact Hrun. erewrite bind_ok by by apply find_entry_ok. rewrite Hm.
  destruct (m !! key) eqn:E; [exists s, k; split; [done|]; split; [by intros b|]; auto|].
  destruct (my_malloc_ok (16 + Z.of_nat (length name)) s k Hc) as (p & pool & k' & Hmal & Hg & Hp & Ho).
  erewrite bind_ok by exact Hmal. cbv beta iota. erewrite bind_ok by reflexivity.
  eexists _, k'. split; [reflexivity|]. split; [done|].
  split; [|split; [right; by eexists _, _|intros h0 Hh; unfold owns; rewrite pool_get; exact (Ho h0 Hh)]].
  rewrite get_set, get_pool. destruct (table_grows _ _ _ _ _ Hg Ht) as (Hl & Hal & Hall).
  split; [by rewrite length_alter|]. split.
  - apply Forall_alter; [done|]. intros l' Hl' Hal'. constructor; [done|exact Hal'].
  - intros key' l'. rewrite list_lookup_alter. case_decide as Eh.
    + rewrite Eh. destruct (f s !! Z.to_nat (hash key')) as [l0|] eqn:El; [|done]. intros [= <-].
      cbn [assoc en_key en_name]. case_decide as Ek.
      * subst. by rewrite lookup_insert_eq.
      * rewrite lookup_insert_ne by done. by apply Hall.
    + intros Hl'. rewrite lookup_insert_ne by (intros ->; done). by apply Hall.
Qed.
End field.
End table.

(** ** The database *)

Record database := mkDatabase {
  db_vendors : gmap Z (list Z);
  db_products : gmap (Z * Z) (list Z);
  db_classes : gmap Z (list Z);
  db_subclasses : gmap (Z * Z) (list Z);
  db_protocols : gmap (Z * Z * Z) (list Z)
}.
#[export] Instance set_db_vendors : Setter db_vendors := fun v r => mkDatabase v (db_products r) (db_classes r) (db_subclasses r) (db_protocols r).
#[global] Arguments set_db_vendors _ _ /.
#[export] Instance set_db_products : Setter db_products := fun v r => mkDatabase (db_vendors r) v (db_classes r) (db_subclasses r) (db_protocols r).
#[global] Arguments set_db_products _ _ /.
#[export] Instance set_db_classes : Setter db_classes := fun v r => mkDatabase (db_vendors r) (db_products r) v (db_subclasses r) (db_protocols r).
#[global] Arguments set_db_classes _ _ /.
#[export] Instance set_db_subclasses : Setter db_subclasses := fun v r => mkDatabase (db_vendors r) (db_products r) (db_classes r) v (db_protocols r).
#[global] Arguments set_db_subclasses _ _ /.
#[export] Instance set_db_protocols : Setter db_protocols := fun v r => mkDatabase (db_vendors r) (db_products r) (db_classes r) (db_subclasses r) v.
#[global] Arguments set_db_protocols _ _ /.

Definition db_empty : database := mkDatabase ∅ ∅ ∅ ∅ ∅.

Definition product_hash (x : Z * Z) : Z := hashnum (product_num x.1 x.2).
Definition subclass_hash (x : Z * Z) : Z := hashnum (subclass_num x.1 x.2).
Definition protocol_hash (x : Z * Z * Z) : Z := hashnum (protocol_num x.1.1 x.1.2 x.2).

Definition represents (s : names) (k : kernel) (db : database) : Prop :=
  table_is hashnum k (nm_vendors s) (db_vendors db) /\
  table_is product_hash k (nm_products s) (db_products db) /\
  table_is hashnum k (nm_classes s) (db_classes db) /\
  table_is subclass_hash k (nm_subclasses s) (db_subclasses db) /\
  table_is protocol_hash k (nm_protocols s) (db_protocols db).

(** What the parser adds and the tools ask for. *)
Inductive adding :=
  | add_vendor (v : Z) | add_product (v p : Z) | add_class (c : Z)
  | add_subclass (c u : Z) | add_protocol (c u p : Z).

#[export] Instance adding_eq_dec : EqDecision adding.
Proof. solve_decision. Defined.

Lemma add_lookup {K} `{Countable K} key key' name (m : gmap K (list Z)) :
  add key name m !! key' = match m !! key' with
                           | Some n => Some n
                           | None => if decide (key' = key) then Some name else None
                           end.
Proof.
  unfold add. destruct (m !! key) eqn:E.
  - case_decide as Ek; [subst; by rewrite E|]. by destruct (m !! key').
  - case_decide as Ek; [subst; by rewrite lookup_insert_eq, E|].
    rewrite lookup_insert_ne by done. by destruct (m !! key').
Qed.

Section database.
Context `{Env}.

Definition run_add (a : adding) (name : list Z) : M names Z :=
  match a with
  | add_vendor v => new_vendor name v
  | add_product v p => new_product name v p
  | add_class c => new_class name c
  | add_subclass c u => new_subclass name c u
  | add_protocol c u p => new_protocol name c u p
  end.
Definition run_ask (a : adding) : M names (option (list Z)) :=
  match a with
  | add_vendor v => names_vendor v
  | add_product v p => names_product v p
  | add_class c => names_class c
  | add_subclass c u => names_subclass c u
  | add_protocol c u p => names_protocol c u p
  end.
Definition db_add (a : adding) (name : list Z) (db : database) : database :=
  match a with
  | add_vendor v => db <| db_vendors := add v name (db_vendors db) |>
  | add_product v p => db <| db_products := add (v, p) name (db_products db) |>
  | add_class c => db <| db_classes := add c name (db_classes db) |>
  | add_subclass c u => db <| db_subclasses := add (c, u) name (db_subclasses db) |>
  | add_protocol c u p => db <| db_protocols := add (c, u, p) name (db_protocols db) |>
  end.
Definition db_ask (a : adding) (db : database) : option (list Z) :=
  match a with
  | add_vendor v => db_vendors db !! v
  | add_product v p => db_products db !! (v, p)
  | add_class c => db_classes db !! c
  | add_subclass c u => db_subclasses db !! (c, u)
  | add_protocol c u p => db_protocols db !! (c, u, p)
  end.

Lemma db_ask_add a b name db :
  db_ask b (db_add a name db) =
    match db_ask b db with
    | Some n => Some n
    | None => if decide (b = a) then Some name else None
    end.
Proof.
  destruct a, b; cbn [db_ask db_add db_vendors db_products db_classes db_subclasses db_protocols set_field
    set_db_vendors set_db_products set_db_classes set_db_subclasses set_db_protocols];
    try (rewrite decide_False by done; by destruct (_ !! _)); rewrite add_lookup;
    destruct (_ !! _); try done; repeat case_decide; congruence.
Qed.

Lemma ask_db_run a s k db : represents s k db -> run_ask a s k = Ok (db_ask a db, s, k).
Proof.
  intros (Hv & Hp & Hc & Hs & Hr). destruct a; cbn [run_ask db_ask].
  - by apply (lookup_ok nm_vendors hashnum hashnum_range).
  - by apply (lookup_ok nm_products product_hash (fun _ => hashnum_range _) (v, p)).
  - by apply (lookup_ok nm_classes hashnum hashnum_range).
  - by apply (lookup_ok nm_subclasses subclass_hash (fun _ => hashnum_range _) (c, u)).
  - by apply (lookup_ok nm_protocols protocol_hash (fun _ => hashnum_range _) (c, u, p)).
Qed.

(** Add to the table [f], of which [Ht] tells what it holds; the others stay. *)
Ltac add_to f hash key name Hc Ht :=
  destruct (fun hr gs gp pg => new_entry_ok f hash hr gs gp pg key name _ _ _ Hc Ht)
    as (s' & k' & Hrun & Hg & Ht' & Hs' & Ho);
  [intros; apply hashnum_range|reflexivity|reflexivity|reflexivity|];
  eexists _, k'; (split; [exact Hrun|]); (split; [|exact Ho]);
  destruct Hs' as [->|(pool & t & ->)]; split_and!; first [exact Ht' | eapply table_grows; eassumption].

Lemma add_run a name s k db :
  calloc_ok -> represents s k db ->
  exists s' k', run_add a name s k = Ok (match db_ask a db with Some _ => -1 | None => 0 end, s', k') /\
    represents s' k' (db_add a name db) /\ forall h0, owns h0 s k -> owns h0 s' k'.
Proof.
  intros Hc (Hv & Hp & Hcl & Hs & Hr). destruct a; cbn [run_add db_ask db_add].
  - add_to nm_vendors hashnum v name Hc Hv.
  - add_to nm_products product_hash (v, p) name Hc Hp.
  - add_to nm_classes hashnum c name Hc Hcl.
  - add_to nm_subclasses subclass_hash (c, u) name Hc Hs.
  - add_to nm_protocols protocol_hash (c, u, p) name Hc Hr.
Qed.

Lemma empty_represents k : represents names_zero k db_empty.
Proof.
  assert (forall K `{Countable K} (hash : K -> Z), (forall key, 0 <= hash key < 16) ->
    table_is hash k (@empty_table K) ∅) as He.
  { intros K ? ? hash Hr. split; [done|]. split; [by apply Forall_replicate|].
    intros key l [-> _]%lookup_replicate. by rewrite lookup_empty. }
  split_and!; apply He; intros; apply hashnum_range.
Qed.

(** C18: The hash tables are a database of maps: at first they are empty; asking for
    a number finds its name and changes nothing; adding a name to a number that has
    none makes it the number's name and changes no other answer of any table; to a
    number that has one it is refused. *)
Theorem names_refine_maps (s : names) k db a :
  calloc_ok -> represents s k db ->
  represents names_zero k db_empty /\
  run_ask a s k = Ok (db_ask a db, s, k) /\
  forall name, exists s' k',
    run_add a name s k = Ok (if db_ask a db then -1 else 0, s', k') /\
    represents s' k' (db_add a name db) /\
    forall b, run_ask b s' k' =
      Ok (match db_ask b db with
          | Some n => Some n
          | None => if decide (b = a) then Some name else None
          end, s', k').
Proof.
  intros Hc Hr. split; [apply empty_represents|]. split; [by apply ask_db_run|]. intros name.
  destruct (add_run a name s k db Hc Hr) as (s' & k' & Hrun & Hr' & _). exists s', k'.
  split; [exact Hrun|]. split; [done|]. intros b. rewrite (ask_db_run b s' k' _ Hr'). f_equal. f_equal. f_equal.
  apply db_ask_add.
Qed.
End database.

(** ** Some names *)

Definition calloc_env : Env := fun _ c =>
  match c with UCalloc => (1, []) | _ => (0, []) end.

Lemma names_refine_maps_witness :
  let _ : Env := calloc_env in let k := mkKernel ∅ ∅ ∅ ∅ [] [] 1 in
  represents names_zero k db_empty /\
  run_ask (add_product 1121 49271) names_zero k = Ok (None, names_zero, k) /\
  forall name, exists s' k',
    run_add (add_product 1121 49271) name names_zero k = Ok (0, s', k') /\
    represents s' k' (db_add (add_product 1121 49271) name db_empty) /\
    forall b, run_ask b s' k' =
      Ok (match db_ask b db_empty with
          | Some n => Some n
          | None => if decide (b = add_product 1121 49271) then Some name else None
          end, s', k').
Proof.
  intros env k. apply (names_refine_maps names_zero k db_empty (add_product 1121 49271)); [done|].
  apply empty_represents.
Defined.
