(* ===== verification/NamesFile.v ===== *)
(** * Reading usb.ids

    A file with the vendors and their products and the classes with their
    subclasses and protocols, one to a line, is read as exactly these names. *)
From Stdlib Require Import String.
From S2P Require Import Prelude CLib FormatProps Kernel Exec EventProps Names NamesProps.

Local Open Scope Z_scope.

(** ** The contents of a file *)

Inductive group :=
  | vendor_group (id : Z) (name : list Z) (products : list (Z * list Z))
  | class_group (id : Z) (name : list Z) (subs : list (Z * list Z * list (Z * list Z)))
  | remark (line : list Z).

Definition id_line (prefix : list Z) (width : nat) (id : Z) (name : list Z) : list Z :=
  prefix ++ pad0 width (print_x id) ++ [32; 32] ++ name.

Definition subclass_lines (x : Z * list Z * list (Z * list Z)) : list (list Z) :=
  id_line [9] 2 x.1.1 x.1.2 :: ((fun y => id_line [9; 9] 2 y.1 y.2) <$> x.2).
Definition group_lines (g : group) : list (list Z) :=
  match g with
  | vendor_group id name ps => id_line [] 4 id name :: ((fun y => id_line [9] 4 y.1 y.2) <$> ps)
  | class_group id name subs => id_line [67; 32] 2 id name :: (subs ≫= subclass_lines)
  | remark line => [line]
  end.
Definition file_of (lines : list (list Z)) : list Z := lines ≫= (fun l => l ++ [chr_newline]).

(** The database it stands for: the first name of a number counts. *)
Definition db_products_of (v : Z) (ps : list (Z * list Z)) (db : database) : database :=
  foldl (fun db y => db_add (add_product v y.1) y.2 db) db ps.
Definition db_subclass_of (c : Z) (db : database) (x : Z * list Z * list (Z * list Z)) : database :=
  foldl (fun db y => db_add (add_protocol c x.1.1 y.1) y.2 db) (db_add (add_subclass c x.1.1) x.1.2 db) x.2.
Definition db_group (db : database) (g : group) : database :=
  match g with
  | vendor_group id name ps => db_products_of id ps (db_add (add_vendor id) name db)
  | class_group id name subs => foldl (db_subclass_of id) (db_add (add_class id) name db) subs
  | remark _ => db
  end.
Definition db_of (gs : list group) : database := foldl db_group db_empty gs.

(** Names fit into the line buffer and have no blank in front. *)
Definition good_name (name : list Z) : Prop :=
  name <> [] /\ (length name <= 480)%nat /\ is_space (hd 0 name) = false /\
  Forall (fun c => c <> 0 /\ c <> 10 /\ c <> 13) name.
Definition line_ok (l : list Z) : Prop :=
  (length l <= 510)%nat /\ Forall (fun c => c <> 0 /\ c <> 10 /\ c <> 13) l.

Definition good_id (bits : Z) (y : Z * list Z) : Prop := 0 <= y.1 < 2 ^ bits /\ good_name y.2.
Definition good_group (g : group) : Prop :=
  match g with
  | vendor_group id name ps => good_id 16 (id, name) /\ Forall (good_id 16) ps
  | class_group id name subs =>
      good_id 8 (id, name) /\ Forall (fun x => good_id 8 x.1 /\ Forall (good_id 8) x.2) subs
  | remark line => line_ok line /\ (line = [] \/ hd 0 line = 35)
  end.

(** ** Lines *)

Lemma hexs_line_ok l : hexs l -> Forall (fun c => c <> 0 /\ c <> 10 /\ c <> 13) l.
Proof.
  intros Hl. eapply Forall_impl; [exact Hl|]. cbv beta. intros c Hc. unfold is_hex, is_digit in Hc.
  assert (48 <= c) by (apply orb_true_iff in Hc as [[Hc|Hc]%orb_true_iff|Hc]; bool_to_prop; lia). lia.
Qed.

Lemma fgets_line n l rest :
  line_ok l -> (length l < n)%nat -> fgets n (l ++ chr_newline :: rest) = (l ++ [chr_newline], rest).
Proof.
  intros [_ Hl]. revert n. induction Hl as [|c l (_ & Hc & _) Hl IH]; intros [|n] Hn; cbn [length] in Hn;
    [lia|done|lia|].
  cbn [app fgets]. apply Z.eqb_neq in Hc. unfold chr_newline at 1. rewrite Hc. by rewrite IH by lia.
Qed.

Lemma trim_line l : line_ok l -> trim (l ++ [chr_newline]) = l.
Proof.
  intros [_ Hl]. unfold trim. assert (c_str (l ++ [chr_newline]) = l ++ [chr_newline]) as ->.
  { induction Hl as [|c l (Hc & _ & _) Hl IH]; [done|]. cbn. apply Z.eqb_neq in Hc. by rewrite Hc, IH. }
  assert (up_to 13 (l ++ [chr_newline]) = l ++ [chr_newline]) as ->.
  { induction Hl as [|c l (_ & _ & Hc) Hl IH]; [done|]. cbn. apply Z.eqb_neq in Hc. by rewrite Hc, IH. }
  induction Hl as [|c l (_ & Hc & _) Hl IH]; [done|]. cbn. apply Z.eqb_neq in Hc.
  unfold chr_newline at 1. by rewrite Hc, IH.
Qed.

Lemma pad_hexs n x : 0 <= x -> hexs (pad0 n (print_x x)).
Proof. intros Hx. unfold pad0, pad_left. apply Forall_app_2; [by apply Forall_replicate|by apply print_x_hexs]. Qed.
Lemma pad_length n x : (n <= length (pad0 n (print_x x)))%nat.
Proof. unfold pad0, pad_left. rewrite length_app, length_replicate. lia. Qed.

Lemma print_base_length fuel x : (length (print_base 16 fuel x) <= fuel)%nat.
Proof.
  revert x. induction fuel as [|fuel IH]; intros x; [done|]. cbn [print_base]. case_if; [cbn; lia|].
  rewrite length_app. specialize (IH (x / 16)). cbn [length]. lia.
Qed.
Lemma pad_length_le n x : (length (pad0 n (print_x x)) <= n + 16)%nat.
Proof.
  unfold pad0, pad_left. pose proof (print_base_length 16 x). unfold print_x.
  rewrite length_app, length_replicate. lia.
Qed.

Lemma id_line_ok p n id name :
  good_name name -> 0 <= id -> (length p <= 2)%nat -> Forall (fun c => c <> 0 /\ c <> 10 /\ c <> 13) p ->
  (n <= 4)%nat -> line_ok (id_line p n id name).
Proof.
  intros (_ & Hl & _ & Hn) Hid Hp Hpf Hn4. unfold id_line. split.
  - rewrite !length_app. pose proof (pad_length_le n id). cbn [length]. lia.
  - apply Forall_app_2; [done|]. apply Forall_app_2; [by apply hexs_line_ok, pad_hexs|].
    apply Forall_app_2; [by repeat constructor|done].
Qed.

(** The number and the name of a line. *)
Lemma number_line n id name :
  good_name name -> 0 <= id < 2 ^ 32 -> (2 <= n)%nat ->
  number (pad0 n (print_x id) ++ [32; 32] ++ name) = (id, name).
Proof.
  intros (Hne & _ & Hsp & _) Hid Hn. unfold number, scan_x_all.
  rewrite scan_x_pad by (done || lia). rewrite Z.min_l by lia. rewrite u32_id by done. f_equal.
  cbn [app skip_spaces]. change (is_space 32) with true. cbv iota.
  destruct name as [|c name]; [done|]. cbn in Hsp |- *. by rewrite Hsp.
Qed.

Lemma number_id_line n id name :
  good_name name -> 0 <= id < 2 ^ 32 -> (2 <= n)%nat -> number (id_line [] n id name) = (id, name).
Proof. exact (number_line n id name). Qed.

(** The first characters of a line of a number tell what it is. *)
Lemma pad_head n id : 0 <= id -> (2 <= n)%nat ->
  exists c1 c2 l, pad0 n (print_x id) = c1 :: c2 :: l /\ is_hex c1 = true /\ is_hex c2 = true.
Proof.
  intros Hid Hn. pose proof (pad_hexs n id Hid) as Hh. pose proof (pad_length n id) as Hl.
  destruct (pad0 n (print_x id)) as [|c1 [|c2 l]]; [cbn in Hl; lia|cbn in Hl; lia|].
  apply Forall_cons in Hh as [H1 [H2 _]%Forall_cons]. by exists c1, c2, l.
Qed.

Lemma starts_ne p c buf : p <> [] -> c <> nth 0 p 0 -> starts p (c :: buf) = false.
Proof. destruct p as [|x p]; [done|]. intros _ Hc. apply bool_decide_eq_false_2. intros [=]. done. Qed.
Lemma starts_ne2 p c c2 buf : (2 <= length p)%nat -> c2 <> nth 1 p 0 -> starts p (c :: c2 :: buf) = false.
Proof.
  destruct p as [|x [|x2 p]]; cbn [length]; [lia|lia|]. intros _ Hc. apply bool_decide_eq_false_2. intros [=]. done.
Qed.
Ltac starts_no := first
  [ rewrite starts_ne by (done || (vm_compute; lia))
  | rewrite starts_ne2 by (vm_compute; lia) ].

Lemma hex_chars c : is_hex c = true ->
  (48 <= c <= 57 \/ 65 <= c <= 70 \/ 97 <= c <= 102).
Proof.
  unfold is_hex, is_digit. intros [[Hc|Hc]%orb_true_iff|Hc]%orb_true_iff; bool_to_prop; lia.
Qed.

Section lines.
Context `{Env}.
Implicit Types (s : names) (k : kernel).

Lemma vendor_line_ok id name la :
  good_id 16 (id, name) ->
  parse_line (id_line [] 4 id name) la = (new_vendor name id;; mret (mkLast id (-1) (-1) (-1) (-1))).
Proof.
  intros [Hid Hn]. cbn [fst snd] in *. unfold id_line. cbn [app].
  destruct (pad_head 4 id) as (c1 & c2 & l & E & H1 & H2); [lia|lia|].
  pose proof (number_line 4 id name Hn ltac:(lia) ltac:(lia)) as Hnum.
  pose proof (hex_chars c1 H1). pose proof (hex_chars c2 H2).
  rewrite E in *. cbn [app] in *. unfold parse_line.
  replace (c1 =? 35) with false by (symmetry; apply Z.eqb_neq; lia).
  do 7 starts_no.
  unfold hex_at. cbn [nth andb]. rewrite H1. unfold parse_vendor. rewrite Hnum.
  destruct Hn as [Hne _]. destruct name as [|x name]; [done|].
  by replace (u16 id) with id by int_lia; replace (s32 id) with id by int_lia.
Qed.

Lemma tab_line buf la :
  hex_at 0 buf = true -> parse_line (9 :: buf) la = parse_product (9 :: buf) la.
Proof.
  intros Hb. unfold parse_line. change (9 =? 35) with false.
  do 7 starts_no. unfold hex_at in *. cbn [nth andb]. change (is_hex 9) with false.
  by rewrite Hb.
Qed.
Lemma tab_tab_line buf la :
  hex_at 0 buf = true -> parse_line (9 :: 9 :: buf) la = parse_protocol (9 :: 9 :: buf) la.
Proof.
  intros Hb. unfold parse_line. change (9 =? 35) with false.
  do 7 starts_no. unfold hex_at in *. cbn [nth andb]. change (is_hex 9) with false.
  cbn [andb]. change (9 =? 9) with true. by rewrite Hb.
Qed.

Lemma hex_at_line n id name : 0 <= id -> (2 <= n)%nat -> hex_at 0 (id_line [] n id name) = true.
Proof.
  intros Hid Hn. destruct (pad_head n id Hid Hn) as (c1 & c2 & l & E & H1 & _). unfold id_line. by rewrite E.
Qed.

Lemma skip_id_line n id name : 0 <= id -> (2 <= n)%nat -> skip_spaces (id_line [] n id name) = id_line [] n id name.
Proof.
  intros Hid Hn. destruct (pad_head n id Hid Hn) as (c1 & c2 & l & E & H1 & _). unfold id_line. rewrite E.
  cbn [app skip_spaces]. destruct (is_hex_not c1 H1) as (Hs & _). by rewrite Hs.
Qed.

Lemma product_line_ok v id name la :
  good_id 16 (id, name) -> 0 <= v < 2 ^ 16 -> la_vendor la = v ->
  parse_line (id_line [9] 4 id name) la = (new_product name v id;; mret la).
Proof.
  intros [Hid Hn] Hv Hla. cbn [fst snd] in *. change (id_line [9] 4 id name) with (9 :: id_line [] 4 id name).
  rewrite tab_line by (apply hex_at_line; lia). unfold parse_product. rewrite skipn_cons, drop_0.
  rewrite number_id_line by (done || lia).
  destruct Hn as [Hne _]. destruct name as [|x name]; [done|]. rewrite Hla.
  replace (v =? -1) with false by (symmetry; apply Z.eqb_neq; lia). cbn [negb].
  by replace (u16 id) with id by int_lia; replace (u16 v) with v by int_lia.
Qed.

Lemma class_line_ok id name la :
  good_id 8 (id, name) ->
  parse_line (id_line [67; 32] 2 id name) la = (new_class name id;; mret (mkLast (-1) id (-1) (-1) (-1))).
Proof.
  intros [Hid Hn]. cbn [fst snd] in *.
  assert (parse_line (id_line [67; 32] 2 id name) la = parse_class (id_line [67; 32] 2 id name) la) as -> by reflexivity.
  change (id_line [67; 32] 2 id name) with (67 :: 32 :: id_line [] 2 id name).
  pose proof (hex_at_line 2 id name ltac:(lia) ltac:(lia)) as Hh.
  unfold parse_class. rewrite !skipn_cons, drop_0, skip_id_line by lia. rewrite Hh. cbn [negb].
  rewrite number_id_line by (done || lia).
  destruct Hn as [Hne _]. destruct name as [|x name]; [done|].
  by replace (u8 id) with id by int_lia; replace (s32 id) with id by int_lia.
Qed.

Lemma subclass_line_ok c id name la :
  good_id 8 (id, name) -> 0 <= c < 2 ^ 8 -> la_vendor la = -1 -> la_class la = c ->
  parse_line (id_line [9] 2 id name) la =
    (new_subclass name c id;; mret (mkLast (-1) c id (la_hut la) (la_lang la))).
Proof.
  intros [Hid Hn] Hv Hla Hlc. cbn [fst snd] in *. change (id_line [9] 2 id name) with (9 :: id_line [] 2 id name).
  rewrite tab_line by (apply hex_at_line; lia). unfold parse_product. rewrite skipn_cons, drop_0.
  rewrite number_id_line by (done || lia).
  destruct Hn as [Hne _]. destruct name as [|x name]; [done|]. rewrite Hla, Hlc.
  replace (c =? -1) with false by (symmetry; apply Z.eqb_neq; lia). cbn [negb Z.eqb Pos.eqb].
  by replace (u8 id) with id by int_lia; replace (u8 c) with c by int_lia; replace (s32 id) with id by int_lia.
Qed.

Lemma protocol_line_ok c u id name la :
  good_id 8 (id, name) -> 0 <= c < 2 ^ 8 -> 0 <= u < 2 ^ 8 -> la_class la = c -> la_subclass la = u ->
  parse_line (id_line [9; 9] 2 id name) la = (new_protocol name c u id;; mret la).
Proof.
  intros [Hid Hn] Hc Hu Hlc Hlu. cbn [fst snd] in *.
  change (id_line [9; 9] 2 id name) with (9 :: 9 :: id_line [] 2 id name).
  rewrite tab_tab_line by (apply hex_at_line; lia). unfold parse_protocol. rewrite !skipn_cons, drop_0.
  rewrite number_id_line by (done || lia).
  destruct Hn as [Hne _]. destruct name as [|x name]; [done|]. rewrite Hlc, Hlu.
  replace (c =? -1) with false by (symmetry; apply Z.eqb_neq; lia).
  replace (u =? -1) with false by (symmetry; apply Z.eqb_neq; lia). cbn [negb andb].
  by replace (u8 id) with id by int_lia; replace (u8 c) with c by int_lia; replace (u8 u) with u by int_lia.
Qed.

(** ** Several lines *)

Fixpoint run_lines (lines : list (list Z)) (la : last) : M names last :=
  match lines with
  | [] => mret la
  | l :: lines' => la ← parse_line l la; run_lines lines' la
  end.

Definition adds (lines : list (list Z)) (la la' : last) (f : database -> database) : Prop :=
  forall s k db, represents s k db ->
  exists s' k', run_lines lines la s k = Ok (la', s', k') /\ represents s' k' (f db) /\
    forall h0, owns h0 s k -> owns h0 s' k'.

Lemma run_lines_app l1 l2 la s k la' s' k' :
  run_lines l1 la s k = Ok (la', s', k') -> run_lines (l1 ++ l2) la s k = run_lines l2 la' s' k'.
Proof.
  revert la s k. induction l1 as [|l l1 IH]; intros la s k Hr; [by injection Hr as -> -> ->|].
  cbn [app run_lines] in *. apply bind_inv in Hr as (la1 & s1 & k1 & H1 & H2).
  erewrite bind_ok by exact H1. by apply IH.
Qed.

Lemma adds_nil la : adds [] la la (fun db => db).
Proof. intros s k db Hr. by exists s, k. Qed.
Lemma adds_app l1 l2 la la1 la2 f g h :
  adds l1 la la1 f -> adds l2 la1 la2 g -> (forall db, h db = g (f db)) -> adds (l1 ++ l2) la la2 h.
Proof.
  intros H1 H2 Hh s k db Hr. rewrite Hh. destruct (H1 s k db Hr) as (s1 & k1 & Hrun1 & Hr1 & Ho1).
  destruct (H2 s1 k1 _ Hr1) as (s2 & k2 & Hrun2 & Hr2 & Ho2). exists s2, k2.
  rewrite (run_lines_app _ _ _ _ _ _ _ _ Hrun1). auto.
Qed.
Lemma adds_cons l lines la la1 la2 f g h :
  adds [l] la la1 f -> adds lines la1 la2 g -> (forall db, h db = g (f db)) -> adds (l :: lines) la la2 h.
Proof. apply (adds_app [l]). Qed.

Hypothesis mem : calloc_ok.

Lemma adds_one l la la' a name :
  parse_line l la = (run_add a name;; mret la') -> adds [l] la la' (db_add a name).
Proof.
  intros Hp s k db Hr. destruct (add_run a name s k db mem Hr) as (s' & k' & Hrun & Hr').
  exists s', k'. split; [|exact Hr']. cbn [run_lines]. rewrite Hp.
  erewrite bind_ok by (erewrite bind_ok by exact Hrun; reflexivity). done.
Qed.

Lemma adds_list {A} (line : A -> list Z) (add : A -> adding) (name : A -> list Z) (ok : A -> Prop) la ys :
  (forall y, ok y -> parse_line (line y) la = (run_add (add y) (name y);; mret la)) -> Forall ok ys ->
  adds (line <$> ys) la la (fun db => foldl (fun db y => db_add (add y) (name y) db) db ys).
Proof.
  intros Hl. induction 1 as [|y ys Hy Hys IH]; [apply adds_nil|]. cbn [fmap list_fmap foldl].
  eapply adds_cons; [apply adds_one, Hl, Hy|exact IH|done].
Qed.

Lemma subclasses_add c subs : forall la,
  0 <= c < 2 ^ 8 -> la_vendor la = -1 -> la_class la = c ->
  Forall (fun x => good_id 8 x.1 /\ Forall (good_id 8) x.2) subs ->
  exists la', adds (subs ≫= subclass_lines) la la' (fun db => foldl (db_subclass_of c) db subs).
Proof.
  induction subs as [|[[u name] ps] subs IH]; intros la Hc Hv Hlc Hok; [exists la; apply adds_nil|].
  apply Forall_cons in Hok as [[Hu Hps] Hok]. cbn [fst snd] in Hu, Hps.
  destruct (IH (mkLast (-1) c u (la_hut la) (la_lang la))) as [la' IH']; [done..|]. exists la'.
  rewrite bind_cons. eapply adds_app; [|exact IH'|reflexivity].
  eapply adds_cons; [apply (adds_one _ _ _ (add_subclass c u)), subclass_line_ok; done| |].
  { eapply (adds_list (fun y => id_line [9; 9] 2 y.1 y.2) (fun y => add_protocol c u y.1) snd); [|exact Hps].
    intros [p pn] Hp. destruct Hu as [Hu _]. by apply protocol_line_ok. }
  reflexivity.
Qed.

Lemma group_adds g la : good_group g -> exists la', adds (group_lines g) la la' (fun db => db_group db g).
Proof.
  destruct g as [id name ps|id name subs|line]; cbn [good_group group_lines db_group].
  - intros [Hid Hps]. exists (mkLast id (-1) (-1) (-1) (-1)).
    eapply adds_cons; [by apply (adds_one _ _ _ (add_vendor id)), vendor_line_ok| |].
    { eapply (adds_list (fun y => id_line [9] 4 y.1 y.2) (fun y => add_product id y.1) snd); [|exact Hps].
      intros [p pn] Hp. destruct Hid as [Hid _]. by apply product_line_ok. }
    reflexivity.
  - intros [Hid Hsubs]. destruct (subclasses_add id subs (mkLast (-1) id (-1) (-1) (-1))) as [la' Hs];
      [by destruct Hid|done..|]. exists la'.
    eapply adds_cons; [by apply (adds_one _ _ _ (add_class id)), class_line_ok|exact Hs|reflexivity].
  - intros [_ Hl]. exists la. intros s k db Hr. exists s, k. split; [|auto].
    destruct Hl as [->|Hh]; [done|]. destruct line as [|c line]; [done|]. cbn in Hh. by subst c.
Qed.

Lemma groups_add gs : forall la, Forall good_group gs ->
  exists la', adds (gs ≫= group_lines) la la' (fun db => foldl db_group db gs).
Proof.
  induction gs as [|g gs IH]; intros la Hok; [exists la; apply adds_nil|].
  apply Forall_cons in Hok as [Hg Hok]. destruct (group_adds g la Hg) as [la1 H1].
  destruct (IH la1 Hok) as [la2 H2]. exists la2. rewrite bind_cons. by eapply adds_app.
Qed.

(** ** The file *)

Lemma lines_ok gs : Forall good_group gs -> Forall line_ok (gs ≫= group_lines).
Proof.
  assert (forall n p y bits, bits <= 16 -> good_id bits y -> (length p <= 2)%nat ->
    Forall (fun c => c <> 0 /\ c <> 10 /\ c <> 13) p -> (n <= 4)%nat -> line_ok (id_line p n y.1 y.2)) as Hl.
  { intros n p y bits Hb [Hid Hn] Hp Hpf Hn4. apply id_line_ok; (done || lia). }
  intros Hok. apply Forall_bind. eapply Forall_impl; [exact Hok|]. intros [id name ps|id name subs|line] Hg.
  - destruct Hg as [Hid Hps]. constructor; [eapply (Hl 4%nat [] (id, name)); (done || cbn; lia)|].
    apply Forall_fmap. eapply Forall_impl; [exact Hps|]. intros y Hy. eapply Hl; [|exact Hy|..]; (lia || cbn; try lia).
    by repeat constructor.
  - destruct Hg as [Hid Hsubs].
    constructor; [eapply (Hl 2%nat _ (id, name)); [|exact Hid|..]; (lia || cbn; try lia); by repeat constructor|].
    apply Forall_bind. eapply Forall_impl; [exact Hsubs|]. intros x [Hx Hps]. constructor.
    + eapply Hl; [|exact Hx|..]; (lia || cbn; try lia). by repeat constructor.
    + apply Forall_fmap. eapply Forall_impl; [exact Hps|]. intros y Hy.
      eapply Hl; [|exact Hy|..]; (lia || cbn; try lia). by repeat constructor.
  - destruct Hg as [Hg _]. by constructor.
Qed.

Lemma file_length lines : (length lines <= length (file_of lines))%nat.
Proof.
  induction lines as [|l lines IH]; [done|]. unfold file_of in *. rewrite bind_cons, !length_app. cbn [length].
  lia.
Qed.

Lemma parse_run lines : forall fuel la s k la' s' k',
  Forall line_ok lines -> (length lines < fuel)%nat -> run_lines lines la s k = Ok (la', s', k') ->
  parse fuel (file_of lines) la s k = Ok (tt, s', k').
Proof.
  induction lines as [|l lines IH]; intros [|fuel] la s k la' s' k' Hok Hf Hr; cbn [length] in Hf; [lia| |lia|].
  - by injection Hr as -> -> ->.
  - apply Forall_cons in Hok as [Hl Hok]. cbn [run_lines] in Hr.
    apply bind_inv in Hr as (la1 & s1 & k1 & H1 & H2).
    unfold file_of. rewrite bind_cons, <- app_assoc. cbn [app parse].
    rewrite fgets_line by (done || (destruct Hl; lia)).
    destruct (l ++ [chr_newline]) as [|c l'] eqn:E; [by destruct l|]. rewrite <- E. rewrite trim_line by done.
    erewrite bind_ok by exact H1. apply (IH fuel la1 s1 k1 la' s' k'); (done || lia).
Qed.

(** The database is read, and its memory is the only memory that changed. *)
Lemma names_init_run path (f : Z) gs k :
  Forall good_group gs ->
  env_answer (k_trace k) (UFopen path) = (f, file_of (gs ≫= group_lines)) -> f <> 0 ->
  exists s' k', names_init path names_zero k = Ok (0, s', k') /\ represents s' k' (db_of gs) /\
    (heap_fresh k -> owns (k_heap k) s' k').
Proof.
  intros Hok Hfile Hf. destruct (groups_add gs last_none Hok) as [la' Hadds].
  assert (ext (UFopen path) names_zero k =
    Ok ((f, file_of (gs ≫= group_lines)), names_zero, traced [UFopen path] k)) as Hext.
  { unfold ext. by rewrite Hfile. }
  set (k1 := traced _ _) in Hext.
  destruct (Hadds names_zero k1 db_empty (empty_represents k1)) as (s' & k2 & Hrun & Hr & Ho).
  apply (parse_run _ (S (length (file_of (gs ≫= group_lines))))) in Hrun;
    [|by apply lines_ok|pose proof (file_length (gs ≫= group_lines)); lia].
  apply Z.eqb_neq in Hf. unfold names_init. erewrite bind_ok by exact Hext. cbv beta iota. rewrite Hf.
  erewrite bind_ok by exact Hrun. eexists _, _. split; [reflexivity|]. split; [exact Hr|].
  intros Hfr. exact (Ho (k_heap k) (owns_start k1 Hfr)).
Qed.

(** C16: Reading a file of vendors with their products, classes with their
    subclasses and protocols, remarks and empty lines, in any order, ends, returns 0,
    and fills the tables with exactly these names: every lookup afterwards answers
    the first name the file gives the number, and nothing for a number that the file
    does not have.  Freeing the names leaves the memory as it was before. *)
Theorem names_file_read path (f : Z) gs k :
  Forall good_group gs ->
  env_answer (k_trace k) (UFopen path) = (f, file_of (gs ≫= group_lines)) -> f <> 0 ->
  heap_fresh k ->
  exists s' k',
    names_init path names_zero k = Ok (0, s', k') /\
    represents s' k' (db_of gs) /\
    (forall a, run_ask a s' k' = Ok (db_ask a (db_of gs), s', k')) /\
    names_free s' k' = Ok (tt, s', k' <| k_heap := k_heap k |>).
Proof.
  intros Hok Hfile Hf Hfr. destruct (names_init_run path f gs k Hok Hfile Hf) as (s' & k' & Hi & Hr & Ho).
  exists s', k'. split; [done|]. split; [done|]. split; [intros a; by apply ask_db_run|].
  by apply names_free_ok, Ho.
Qed.
End lines.

(** ** A file *)

Definition usb_ids : list group :=
  [remark (text "# some ids"); remark [];
   vendor_group 1121 (text "Primax") [(49271, text "Mouse"); (49272, text "Keyboard")];
   class_group 3 (text "HID") [(1, text "Boot", [(1, text "Keyboard"); (2, text "Mouse")])];
   vendor_group 1121 (text "Other") []].
Definition usb_ids_env : Env := fun _ c =>
  match c with
  | UFopen _ => (5, file_of (usb_ids ≫= group_lines))
  | UCalloc => (1, [])
  | _ => (0, [])
  end.

#[export] Instance good_group_dec g : Decision (good_group g).
Proof. destruct g; unfold good_group, good_id, good_name, line_ok; apply _. Defined.

Lemma names_file_read_witness :
  let _ : Env := usb_ids_env in let k := mkKernel ∅ ∅ ∅ ∅ [] [] 1 in
  db_ask (add_vendor 1121) (db_of usb_ids) = Some (text "Primax") /\
  db_ask (add_protocol 3 1 2) (db_of usb_ids) = Some (text "Mouse") /\
  exists s' k',
    names_init (text "usb.ids") names_zero k = Ok (0, s', k') /\
    represents s' k' (db_of usb_ids) /\
    (forall a, run_ask a s' k' = Ok (db_ask a (db_of usb_ids), s', k')) /\
    names_free s' k' = Ok (tt, s', k' <| k_heap := ∅ |>).
Proof.
  intros env k. split; [by vm_compute|]. split; [by vm_compute|].
  apply (names_file_read (H := env)) with (f := 5); [|apply (bool_decide_unpack _); by vm_compute|reflexivity|lia|by intros b [? ?]].
  intros tr. discriminate.
Defined.
