(* ===== verification/CommandsProps.v ===== *)
(** * What the commands print

    The local list: which devices, in which order, under which names; from reading
    usb.ids to giving the memory back. *)
From Stdlib Require Import String Sorted.
From S2P Require Import Prelude CLib FormatProps Kernel Exec EventProps Names NamesProps NamesFile Sysfs Tools Commands.

Local Open Scope Z_scope.

(** ** Sorting *)

Lemma strcmp_le_total a b : strcmp_le a b = false -> strcmp_le b a = true.
Proof.
  revert b. induction a as [|x a IH]; intros [|y b]; cbn; try done.
  destruct (x <? y) eqn:E1; [done|]. destruct (y <? x) eqn:E2; [done|]. auto.
Qed.
Lemma strcmp_le_trans a b c : strcmp_le a b = true -> strcmp_le b c = true -> strcmp_le a c = true.
Proof.
  revert b c. induction a as [|x a IH]; intros [|y b] [|z c]; cbn; try done.
  destruct (x <? y) eqn:E1, (y <? x) eqn:E2, (y <? z) eqn:E3, (z <? y) eqn:E4, (x <? z) eqn:E5, (z <? x) eqn:E6;
    bool_to_prop; try done; try lia. eauto.
Qed.

Lemma insert_device_perm d l : insert_device d l ≡ₚ d :: l.
Proof.
  induction l as [|e l IH]; [done|]. cbn. destruct (devcmp d e); [done|]. rewrite IH. apply Permutation_swap.
Qed.
Lemma insert_device_sorted d l :
  StronglySorted (fun a b => devcmp a b = true) l ->
  StronglySorted (fun a b => devcmp a b = true) (insert_device d l).
Proof.
  induction 1 as [|e l Hs IH Hall]; cbn; [by repeat constructor|].
  destruct (devcmp d e) eqn:E.
  - constructor; [by constructor|]. constructor; [done|]. eapply Forall_impl; [exact Hall|].
    intros x Hx. by eapply strcmp_le_trans.
  - constructor; [done|]. rewrite insert_device_perm. constructor; [by apply strcmp_le_total|done].
Qed.
Lemma sort_devices_ok l :
  sort_devices l ≡ₚ l /\ StronglySorted (fun a b => devcmp a b = true) (sort_devices l).
Proof.
  induction l as [|d l [IHp IHs]]; [split; constructor|]. cbn. split.
  - by rewrite insert_device_perm, IHp.
  - by apply insert_device_sorted.
Qed.

(** ** Names *)

Definition product_name_of (size : nat) (db : database) (v p : Z) : list Z :=
  snprintf size (product_text (default (text "unknown vendor") (db_vendors db !! v))
                   (default (text "unknown product") (db_products db !! (v, p))) v p).

Lemma get_product_ok `{Env} size v p s k db :
  represents s k db ->
  usbip_names_get_product size v p s k = Ok (product_name_of size db v p, s, k).
Proof.
  intros Hr. unfold usbip_names_get_product.
  erewrite bind_ok by exact (ask_db_run (add_product v p) s k db Hr).
  erewrite bind_ok by exact (ask_db_run (add_vendor v) s k db Hr). done.
Qed.

(** ** The list *)

(** What sysfs says of a device: its ids and its configuration as text, and the
    drivers of its interfaces. *)
Record dev_desc := mkDesc {
  dd_vendor : list Z;
  dd_product : list Z;
  dd_conf : list Z;
  dd_drivers : list (list Z)
}.

Fixpoint interfaces_text (parsable : bool) (busid conf : list Z) (i : Z) (drivers : list (list Z)) : list Z :=
  match drivers with
  | [] => []
  | d :: drivers' =>
      print_interface (intf_busid busid conf i) d parsable ++ interfaces_text parsable busid conf (i + 1) drivers'
  end.
Definition device_text (db : database) (parsable : bool) (dev : sysfs_device) (x : dev_desc) : list Z :=
  print_device (sf_bus_id dev) (dd_vendor x) (dd_product x) parsable ++
  print_product_name (product_name_of 128 db (hex16 (dd_vendor x)) (hex16 (dd_product x))) parsable ++
  interfaces_text parsable (sf_bus_id dev) (dd_conf x) 0 (dd_drivers x) ++ newline.

Section commands.
Context `{Env} `{Arch} `{Sysfs} `{SysfsBus} `{Package}.
Implicit Types (s : tool) (k : kernel).

Definition described (tr : list call) (dev : sysfs_device) (x : dev_desc) : Prop :=
  sysfs_get_device_attr tr dev (text "idVendor") = Some (dd_vendor x) /\
  sysfs_get_device_attr tr dev (text "idProduct") = Some (dd_product x) /\
  sysfs_get_device_attr tr dev (text "bConfigurationValue") = Some (dd_conf x) /\
  (exists num, sysfs_get_device_attr tr dev (text "bNumInterfaces") = Some num /\
     Z.to_nat (atoi num) = length (dd_drivers x)) /\
  (forall i d, dd_drivers x !! i = Some d -> exists intf,
     sysfs_open_device tr bus_usb (intf_busid (sf_bus_id dev) (dd_conf x) (Z.of_nat i)) = Some intf /\
     sf_driver_name intf = d).

Definition out (t : list Z) s : tool := s <| tl_out := tl_out s ++ t |>.
Lemma out_out t t' s : out t' (out t s) = out (t ++ t') s.
Proof. unfold out. destruct s. cbn. by rewrite app_assoc. Qed.
Lemma printf_ok t s k : printf t s k = Ok (tt, out t s, k).
Proof. done. Qed.
Lemma out_nil s : out [] s = s.
Proof. unfold out. rewrite app_nil_r. by destruct s. Qed.

Lemma on_names_ok {A} (m : Kernel.M names A) a n s k k' :
  m (tl_names s) k = Ok (a, n, k') -> on_names m s k = Ok (a, s <| tl_names := n |>, k').
Proof. intros Hm. unfold on_names. by rewrite Hm. Qed.

Lemma list_interfaces_ok parsable busid conf drivers : forall i s k,
  (forall j d, drivers !! j = Some d -> exists intf,
     sysfs_open_device (k_trace k) bus_usb (intf_busid busid conf (i + Z.of_nat j)) = Some intf /\
     sf_driver_name intf = d) ->
  list_interfaces parsable busid conf i (length drivers) s k =
    Ok (true, out (interfaces_text parsable busid conf i drivers) s, k).
Proof.
  induction drivers as [|d drivers IH]; intros i s k Hi; [by rewrite out_nil|].
  cbn [length list_interfaces interfaces_text].
  destruct (Hi 0%nat d eq_refl) as (intf & Ho & Hd). rewrite Z.add_0_r in Ho.
  erewrite bind_ok by reflexivity. rewrite Ho. erewrite bind_ok by apply printf_ok. rewrite Hd.
  rewrite IH; [by rewrite out_out|]. intros j d' Hj. destruct (Hi (S j) d' Hj) as (x & Hx & Hx').
  exists x. split; [|done]. by replace (i + 1 + Z.of_nat j) with (i + Z.of_nat (S j)) by lia.
Qed.

Lemma list_device_ok parsable dev x s k db :
  represents (tl_names s) k db -> described (k_trace k) dev x ->
  list_device parsable dev s k = Ok (true, out (device_text db parsable dev x) s, k).
Proof.
  intros Hr (Hv & Hp & Hc & (num & Hn & Hlen) & Hi). unfold list_device.
  do 4 erewrite bind_ok by reflexivity. rewrite Hv, Hp, Hc, Hn.
  erewrite bind_ok by (apply on_names_ok; by apply get_product_ok).
  do 2 erewrite bind_ok by apply printf_ok. rewrite Hlen.
  erewrite bind_ok by (apply list_interfaces_ok; intros j d Hj; by apply Hi).
  cbv iota. erewrite bind_ok by apply printf_ok. rewrite !out_out. unfold device_text.
  by rewrite <- ?app_assoc.
Qed.

Lemma list_each_ok parsable desc devs : forall s k db,
  represents (tl_names s) k db -> Forall (fun d => described (k_trace k) d (desc d)) devs ->
  list_each parsable devs s k =
    Ok (true, out (devs ≫= (fun d => device_text db parsable d (desc d))) s, k).
Proof.
  induction devs as [|d devs IH]; intros s k db Hr Hd; [by rewrite out_nil|].
  apply Forall_cons in Hd as [Hd Hds]. cbn [list_each].
  erewrite bind_ok by by apply list_device_ok. cbv iota. rewrite (IH _ _ db); [|done|done].
  by rewrite out_out.
Qed.

(** The devices of the list: those that are no interfaces and no root hubs. *)
Definition local_devices (tr : list call) (l : list sysfs_device) : list sysfs_device :=
  sort_devices (List.filter (is_device tr) l).
Definition local_text (db : database) (parsable : bool) (desc : sysfs_device -> dev_desc)
    (devs : list sysfs_device) : list Z :=
  (if parsable then [] else local_header) ++ (devs ≫= (fun d => device_text db parsable d (desc d))).

Lemma list_devices_ok parsable l desc s k db :
  represents (tl_names s) k db ->
  sysfs_open_bus (k_trace k) bus_usb = true -> sysfs_get_bus_devices (k_trace k) bus_usb = Some l ->
  Forall (fun d => is_device (k_trace k) d = true -> described (k_trace k) d (desc d)) l ->
  list_devices parsable s k =
    Ok (0, out (local_text db parsable desc (local_devices (k_trace k) l)) s, k).
Proof.
  intros Hr Ho Hl Hd. unfold list_devices. erewrite bind_ok by reflexivity. rewrite Ho. cbn [negb].
  erewrite bind_ok by reflexivity. rewrite Hl. erewrite bind_ok by reflexivity. fold (local_devices (k_trace k) l).
  assert (Forall (fun d => described (k_trace k) d (desc d)) (local_devices (k_trace k) l)) as Hall.
  { unfold local_devices. rewrite (proj1 (sort_devices_ok _)). apply Forall_forall. intros d Hin.
    apply list_elem_of_In, filter_In in Hin as [Hin Hdev].
    rewrite Forall_forall in Hd. apply Hd; [by apply list_elem_of_In|done]. }
  unfold local_text. destruct parsable.
  - erewrite bind_ok by reflexivity. erewrite bind_ok by by apply list_each_ok. done.
  - erewrite bind_ok by apply printf_ok. erewrite bind_ok by by apply list_each_ok. by rewrite out_out.
Qed.

(** The command line [usbip list -l] or [usbip list -p -l]. *)
Definition list_local (parsable : bool) : cmdline :=
  mkCmdline [] (Some (text "list")) []
    (if parsable then [("p"%string, []); ("l"%string, [])] else [("l"%string, [])]).

(** C17: The local list: [usbip list] prints every device of the bus that is neither
    an interface nor a root hub, each once and in the order of their names, with its
    ids, its name from usb.ids, and the driver of each of its interfaces; it
    succeeds, and the memory is as it was before. *)
Theorem local_list_printed parsable (f : Z) gs l desc k :
  calloc_ok -> heap_fresh k -> Forall good_group gs ->
  env_answer (k_trace k) (UFopen usbids_file) = (f, file_of (gs ≫= group_lines)) -> f <> 0 ->
  (forall tr, sysfs_open_bus tr bus_usb = true /\ sysfs_get_bus_devices tr bus_usb = Some l /\
     Forall (fun d => is_device tr d = true -> described tr d (desc d)) l) ->
  exists s' k' tr, main (list_local parsable) tool_start k = Ok (0, s', k') /\
    tl_out s' = local_text (db_of gs) parsable desc (local_devices tr l) /\
    local_devices tr l ≡ₚ List.filter (is_device tr) l /\
    StronglySorted (fun a b => devcmp a b = true) (local_devices tr l) /\
    k_heap k' = k_heap k.
Proof.
  intros Hc Hfr Hok Hfile Hf Hsys.
  destruct (names_init_run Hc usbids_file f gs k Hok Hfile Hf) as (n & k1 & Hi & Hr & Ho).
  destruct (Hsys (k_trace k1)) as (Hbus & Hl & Hd).
  set (s1 := tool_start <| tl_names := n |>).
  pose proof (list_devices_ok parsable l desc s1 k1 (db_of gs) Hr Hbus Hl Hd) as Hlist.
  set (t := local_text _ _ _ _) in Hlist.
  assert (usbip_list (cl_args (list_local parsable)) tool_start k =
    Ok (0, out t s1, k1 <| k_heap := k_heap k |>)) as Hrun.
  { unfold usbip_list. erewrite bind_ok by (apply on_names_ok; exact Hi). fold s1.
    erewrite bind_ok by (destruct parsable; exact Hlist).
    erewrite bind_ok by (apply on_names_ok; apply names_free_ok; by apply Ho). done. }
  exists (out t s1), (k1 <| k_heap := k_heap k |>), (k_trace k1). split.
  { assert (main (list_local parsable) = (rc ← run_command c_list (list_local parsable); mret (exit_status rc)))
      as -> by (by destruct parsable).
    erewrite bind_ok by exact Hrun. done. }
  split; [done|]. split; [apply sort_devices_ok|]. split; [apply sort_devices_ok|]. done.
Qed.
End commands.

(** ** A machine with a mouse *)

Definition mouse : sysfs_device :=
  mkSysfsDev (text "/sys/devices/1-1") (text "1-1") (text "1-1") (text "usb").
Definition root_hub : sysfs_device :=
  mkSysfsDev (text "/sys/devices/usb1") (text "usb1") (text "usb1") (text "usb").
Definition mouse_attr (name : list Z) : option (list Z) :=
  if decide (name = text "devpath") then Some (text "1")
  else if decide (name = text "idVendor") then Some (text "0461")
  else if decide (name = text "idProduct") then Some (text "c077")
  else if decide (name = text "bConfigurationValue") then Some (text "1")
  else if decide (name = text "bNumInterfaces") then Some (text "1")
  else None.
Definition mouse_sysfs : Sysfs := {|
  sysfs_open_device _ _ busid :=
    if decide (busid = text "1-1:1.0") then Some (mkSysfsDev [] busid busid (text "usbhid")) else None;
  sysfs_open_device_path _ _ := None;
  sysfs_get_device_parent _ _ := None;
  sysfs_open_driver _ _ _ := false;
  sysfs_get_driver_devices _ _ _ := None;
  sysfs_get_device_attr _ dev name :=
    if decide (sf_name dev = text "1-1") then mouse_attr name
    else if decide (name = text "devpath") then Some (text "0") else None;
  sysfs_get_driver_attr _ _ _ _ := false;
  sysfs_get_mnt_path _ := None;
  sysfs_class_names _ := None;
  sysfs_class_devices _ _ := None;
  sysfs_get_link _ _ := None
|}.
Definition mouse_bus : SysfsBus := {|
  sysfs_open_bus _ _ := true;
  sysfs_get_bus_devices _ _ := Some [root_hub; mouse]
|}.
Definition mouse_package : Package := {| package_string := text "usbip"; usbids_file := text "usb.ids" |}.
Definition mouse_desc (_ : sysfs_device) : dev_desc :=
  mkDesc (text "0461") (text "c077") (text "1") [text "usbhid"].

Lemma local_list_printed_witness :
  let _ : Env := usb_ids_env in let _ : Arch := false in
  let _ : Sysfs := mouse_sysfs in let _ : SysfsBus := mouse_bus in let _ : Package := mouse_package in
  let k := mkKernel ∅ ∅ ∅ ∅ [] [] 1 in
  device_text (db_of usb_ids) true mouse (mouse_desc mouse) =
    text "busid=1-1#usbid=0461:c077#1-1:1.0=usbhid#" ++ newline /\
  exists s' k' tr, main (list_local true) tool_start k = Ok (0, s', k') /\
    tl_out s' = local_text (db_of usb_ids) true mouse_desc (local_devices tr [root_hub; mouse]) /\
    local_devices tr [root_hub; mouse] ≡ₚ List.filter (is_device tr) [root_hub; mouse] /\
    StronglySorted (fun a b => devcmp a b = true) (local_devices tr [root_hub; mouse]) /\
    k_heap k' = k_heap k.
Proof.
  intros env arch sys bus pack k. split; [by vm_compute|].
  apply (local_list_printed (H := env) (H0 := arch) (H1 := sys) (H2 := bus) (H3 := pack) true 5 usb_ids
           [root_hub; mouse] mouse_desc k).
  - intros tr. discriminate.
  - by intros b [? ?].
  - apply (bool_decide_unpack _). by vm_compute.
  - reflexivity.
  - lia.
  - intros tr. split; [done|]. split; [done|]. constructor; [intros Hd; by vm_compute in Hd|].
    constructor; [|constructor]. intros _. split_and!; [done|done|done|by exists (text "1")|].
    intros [|i] d Hi; [|done]. injection Hi as <-. eexists. by split.
Defined.
