(* ===== verification/ClientDelivery.v ===== *)
(** * The client library and the exporter

    A transfer of the client library, from its submission over the exporter's
    request to the answer in the user's variable: the library does without the
    controller's driver, the exporter cannot tell the difference.
    [libusbip_urb_transfer] sends the address of an endpoint, with the direction in
    bit 7, where the driver sends its number: [good_request] admits both. *)
From Stdlib Require Import String.
From S2P Require Import Prelude CLib Kernel Wire NetWire Event EventProps Exec Xfer XferProps IsoProps.
From S2P Require Import Filters FilterProps Stub StubTx StubRx StubMain StubDev StubProps StubReqProps StubTxProps StubRxProps.
From S2P Require Import Vhci VhciRx VhciTx VhciProps VhciTxProps Delivery Results.
From S2P Require Import Client ClientDev ClientApi ClientProps ClientReplyProps ClientOpenProps ClientApiProps.

Local Open Scope Z_scope.

(** The user's buffer of an IN transfer is memory of the user's. *)
Definition in_buffer (ur : urb_t) (k : kernel) (b : positive) (off : Z) (blk : list Z) : Prop :=
  buf_base (ub_buf ur) = place_user (b, off) /\ k_heap k !! b = Some blk /\
  0 <= off /\ off + buf_len (ub_buf ur) <= Z.of_nat (length blk).

(** Request [q] is the only one to be answered, with the number [n]: its URB [r] is
    completed, with any status, and no longer than the buffer of the transfer [ur]. *)
Definition to_answer `{UsbPipes} (n : Z) (ur : urb_t) (q : positive) (r : urb) (sd : stub_device) (ke : kernel) : Prop :=
  sd_priv_tx sd = [q] /\
  (exists u x, StubReqProps.request q u x r sd ke /\ u32 (sp_seqnum x) = n) /\
  sendable r (k_heap ke) /\ usb_pipeisoc (urb_pipe r) = false /\
  usb_pipein (urb_pipe r) = (direction (h_base (ub_header ur)) =? USBIP_DIR_IN) /\
  urb_actual_length r < 2 ^ 31 /\ urb_actual_length r <= buf_len (ub_buf ur).

(** The exporter that is ready to answer. *)
Definition answering (sock : Z) (sd : stub_device) (ke : kernel) : Prop :=
  stub_wf sd ke /\ fresh_heap ke /\ ud_tcp_socket (sd_ud sd) = Some sock /\
  LockPriv 0 ∉ k_locks ke /\ LockUd 0 ∉ k_locks ke.

Section forth.
Context `{Env} `{Arch} `{UsbPipes} `{!UsbPipesOk} `{FilterDrivers stub_device}.

(** One request on the connection. *)
Lemma serve_single esock id dev h data sd k fuel :
  serving esock id dev sd k -> good_request dev id (h, data) -> recvmsg_ok -> allocs_ok ->
  streams esock (k_trace k) (wire_bytes h ++ data) -> lossless esock (k_trace k) (wire_bytes h ++ data) ->
  undisturbed -> ud_event (sd_ud sd) = 0 -> (2 < fuel)%nat ->
  exists sd' k' q u, stub_rx_loop fuel sd k = Ok (0, sd', k') /\
    sd_priv_init sd' = sd_priv_init sd ++ [q] /\ submitted (k_trace k') = u :: submitted (k_trace k) /\
    arrived dev sd' k' (h, data) q u.
Proof.
  intros Hs Hg Hok Ha Hst Hl Hu He Hf.
  assert (mjoin (Delivery.request_bytes <$> [(h, data)]) = wire_bytes h ++ data) as Hm by apply app_nil_r.
  destruct (serve_all esock id dev [(h, data)] sd k fuel)
    as (sd' & k' & Hrun & _ & _ & pus & part & us & Hall & Hi & Hsub & Hlen & Hfin);
    [cbn; lia|done|by constructor|done|done|by rewrite Hm|].
  destruct Hfin as [Hp ->]; [by rewrite Hm|done|done|].
  destruct pus as [|[q u] [|]]; try discriminate Hp. destruct us; [|cbn in Hlen; lia].
  exists sd', k', q, u. split; [done|]. rewrite app_nil_r in Hi. split; [exact Hi|]. split; [exact Hsub|].
  by inversion Hall.
Qed.
End forth.

Section back.
Context `{Env} `{Arch} `{UsbPipes}.

(** One answer. *)
Lemma answer_single n ur esock q r sd ke :
  answering esock sd ke -> to_answer n ur q r sd ke -> mallocs_ok ->
  exists ret sd' ke', stub_send_ret_submit sd ke = Ok (ret, sd', ke') /\
    sent (k_trace ke') = (wire_bytes (ret_header n r) ++ reply_data r (k_heap ke)) :: sent (k_trace ke).
Proof.
  intros (Hwf & Hfr & Hsock & Hl1 & Hl2) (Hq & (u & x & Hreq & Hn) & Hs & Hiso & _) Hm.
  assert (ready sd ke (sd_priv_tx sd) [reply_msg x r (k_heap ke)]) as Hr.
  { rewrite Hq. constructor; [|constructor]. by exists u, x, r. }
  destruct (stub_replies_run esock [reply_msg x r (k_heap ke)] sd ke)
    as (m & ret & sd' & ke' & Hrun & _ & _ & _ & Hsent & Hout); [done..|].
  exists ret, sd', ke'. split; [done|]. rewrite Hsent.
  assert (m = 1%nat) as -> by (cbn in Hout; lia). cbn [take]. unfold reply_msg, reply_isos.
  by rewrite Hiso, app_nil_r, Hn.
Qed.
End back.

Section client.
Context `{Env} `{Ar : Arch} `{UvErrors} `{UsbPipes}.
Implicit Types (s : session) (k : kernel).

(** The session once the request is written. *)
Definition submitted_session (w u d : positive) (r : work_t) (ur : urb_t) (dv : device_t) s : session :=
  put_work w (r <| wk_nread := put_status 0 (wk_nread r) |>)
    (put_device d (sent_device u dv) (put_urbt u (sent_urb w dv ur (submit_header dv ur)) s)).

Section answer.
Variables (wl w u d ret : positive) (r : work_t) (ur : urb_t) (dv : device_t) (v : Z).
Variables (q : positive) (rb : urb) (sd : stub_device) (ke : kernel).
Context (s : session) (k : kernel).
Hypothesis Hrec : receiving wl d s.
Hypothesis Hne : wl <> w.
Hypothesis Hdv : ss_devices s !! d = Some dv.
Hypothesis Hn : is_u32 (dv_seqnum dv).
Hypothesis Hret : ub_ret ur = Some ret.
Hypothesis Hv : ss_vars s !! ret = Some v.
Hypothesis Href : 2 <= wk_ref_count r.
Hypothesis Hsg : signalable (wk_sync r) s k.
Hypothesis Hbusy : wk_state r = ws_busy.
Hypothesis Hnot : u ∉ dv_urb_list dv.
Hypothesis Hothers : Forall (fun v => exists rv, ss_urbs s !! v = Some rv /\
  (ub_work rv = None \/ ub_seqnum rv <> dv_seqnum dv)) (dv_urb_list dv).
Hypothesis Hto : to_answer (dv_seqnum dv) ur q rb sd ke.

Let ur1 : urb_t := sent_urb w dv ur (submit_header dv ur).
Let r1 : work_t := r <| wk_nread := put_status 0 (wk_nread r) |>.
Let s1 : session := submitted_session w u d r ur dv s.
Let h : usbip_header := ret_header (dv_seqnum dv) rb.

Lemma answer_at : exists r0, at_header wl d r0 (sent_device u dv) s1.
Proof.
  destruct Hrec as (r0 & dv0 & (Hw & Hd) & Hwork & Hpt & Hrest). assert (dv0 = dv) as -> by congruence.
  exists r0. unfold s1, submitted_session. split; [split; map_side|]. split; [done|]. by split.
Qed.
Lemma answer_urb : ss_urbs s1 !! u = Some ur1.
Proof. unfold s1, submitted_session. map_side. Qed.
Lemma answer_work : ss_works s1 !! w = Some r1.
Proof. unfold s1, submitted_session. map_side. Qed.
Lemma answer_var : ss_vars s1 !! ret = Some v.
Proof. unfold s1, submitted_session. map_side. Qed.
Lemma answer_waiting : first_waiting (dv_urb_list (sent_device u dv)) (seqnum (h_base h)) u s1.
Proof.
  exists (dv_urb_list dv), []. split; [done|]. apply Forall_forall. intros u' Hin'.
  rewrite Forall_forall in Hothers. destruct (Hothers u' Hin') as (rv & Hrv & Hno).
  exists rv. split; [|done]. unfold s1, submitted_session. map_cbn. by rewrite lookup_insert_ne by (by intros ->).
Qed.
Lemma answer_wf : header_wf h.
Proof. apply ret_header_wf; [done|]. apply Hto. Qed.
Lemma answer_length : 0 <= urb_actual_length rb < 2 ^ 31.
Proof.
  destruct Hto as (_ & _ & ((_ & _ & Hal & _) & _) & _ & _ & Ha & _). unfold is_u32 in Hal. lia.
Qed.
Lemma answer_w0 : w0 (h_u h) = 0 <-> urb_status rb = 0.
Proof.
  destruct Hto as (_ & _ & ((_ & _ & _ & Hst & _) & _) & _). unfold is_s32 in Hst.
  unfold h, ret_header. cbn [h_u w0]. split; int_lia.
Qed.
Lemma answer_dir : ub_direction ur1 = direction (h_base (ub_header ur)).
Proof. done. Qed.

Ltac answer_side :=
  first [apply answer_wf | by apply answer_w0 | by rewrite answer_w0 | apply answer_waiting
        | apply answer_urb | apply answer_var | apply answer_work | eassumption].

(** It succeeded, with data if it was to read some. *)
Lemma answer_received b off blk sizes :
  urb_status rb = 0 -> (usb_pipein (urb_pipe rb) = true -> 0 < urb_actual_length rb) ->
  (direction (h_base (ub_header ur)) = USBIP_DIR_IN -> in_buffer ur k b off blk) ->
  (48 + length (reply_data rb (k_heap ke)) <= length sizes)%nat ->
  exists s2 k2, uv_stream sizes (UvSocket d) (wire_bytes h ++ reply_data rb (k_heap ke)) s1 k = Ok ([], s2, k2) /\
    receiving wl d s2 /\ ss_vars s2 !! ret = Some (urb_actual_length rb) /\
    (exists rw, ss_works s2 !! w = Some rw /\ wk_state rw = ws_done) /\
    (direction (h_base (ub_header ur)) = USBIP_DIR_IN ->
     k_heap k2 !! b = Some (splice blk (Z.to_nat off) (reply_data rb (k_heap ke)))).
Proof.
  intros Hst Hpos Hbuf Hsz. destruct answer_at as [r0 Hat].
  pose proof Hto as (_ & _ & Hs & Hiso & Hin & Ha & Hle). pose proof answer_length as Hal.
  pose proof (reply_data_length rb (k_heap ke) Hs Hiso) as Hlen.
  set (k' := if direction (h_base (ub_header ur)) =? USBIP_DIR_IN
             then k <| k_heap := <[b := splice blk (Z.to_nat off) (reply_data rb (k_heap ke))]> (k_heap k) |>
             else k).
  assert (data_received ur1 h (reply_data rb (k_heap ke)) k k') as Hdata.
  { unfold data_received, k'. rewrite answer_dir. change (ub_buf ur1) with (ub_buf ur). rewrite Hin in Hlen, Hpos.
    destruct (direction (h_base (ub_header ur)) =? USBIP_DIR_IN) eqn:E.
    - apply Z.eqb_eq in E. destruct (Hbuf E) as (Hb & Hk & Ho & Hl). specialize (Hpos eq_refl).
      exists b, off, blk. split_and!; [done|done|done|lia| |cbn; lia|lia|done].
      intros Hnil. rewrite Hnil in Hlen. cbn in Hlen. lia.
    - split; [|done]. apply length_zero_iff_nil. lia. }
  eexists _, _. split.
  { apply (reply_run wl d u w ret r0 (sent_device u dv) ur1 r1 h v (reply_data rb (k_heap ke)) sizes s1 k k');
      try done; answer_side. }
  split; [eexists _, _; apply (at_header_answered wl d u w ret r0 _ ur1 r1 h s1 Hat Hne), answer_wf|].
  unfold after_done, answered. split; [|split].
  - assert (urb_actual_length rb = s32 (w1 (h_u h))) as -> by (cbn; rewrite s32_id; [done|unfold is_s32; lia]).
    map_side.
  - eexists. split; [map_side|done].
  - intros E. cbn [k_heap traced]. unfold k'. rewrite E, Z.eqb_refl. cbn. by rewrite lookup_insert_eq.
Qed.

(** It succeeded and read nothing. *)
Lemma answer_empty sizes :
  urb_status rb = 0 -> usb_pipein (urb_pipe rb) = true -> urb_actual_length rb = 0 -> (48 <= length sizes)%nat ->
  exists s2, uv_stream sizes (UvSocket d) (wire_bytes h ++ reply_data rb (k_heap ke)) s1 k = Ok ([], s2, k) /\
    ss_vars s2 !! ret = Some v /\ (exists rw, ss_works s2 !! w = Some rw /\ wk_state rw = ws_busy) /\
    exists dv2, ss_devices s2 !! d = Some dv2 /\ u ∉ dv_urb_list dv2.
Proof.
  intros Hst Hi Hz Hsz. destruct answer_at as [r0 Hat]. pose proof Hto as (_ & _ & Hs & Hiso & Hin & _).
  pose proof (reply_data_length rb (k_heap ke) Hs Hiso) as Hlen.
  assert (reply_data rb (k_heap ke) = []) as ->.
  { apply length_zero_iff_nil. rewrite Hi, Hz in Hlen. lia. }
  rewrite Hi in Hin. symmetry in Hin. apply Z.eqb_eq in Hin. rewrite app_nil_r.
  exists (stuck wl d u r0 (sent_device u dv) ur1 h s1). split.
  { apply empty_run; try done; answer_side. }
  unfold stuck. split; [exact answer_var|]. split.
  - exists r1. split; [|done]. pose proof answer_work. map_side.
  - eexists. split; [map_side|]. cbn. rewrite elem_of_remove_id. naive_solver.
Qed.

(** It failed: only the header counts. *)
Lemma answer_failed sizes :
  urb_status rb <> 0 -> (48 <= length sizes)%nat ->
  exists s2 k2, uv_stream sizes (UvSocket d) (wire_bytes h) s1 k = Ok ([], s2, k2) /\
    ss_vars s2 !! ret = Some v /\ (exists rw, ss_works s2 !! w = Some rw /\ wk_state rw = ws_done) /\
    exists rl, ss_works s2 !! wl = Some rl /\ wk_ret rl = - UV_EIO.
Proof.
  intros Hst Hsz. destruct answer_at as [r0 Hat]. eexists _, _. split.
  { apply (failed_run wl d u w r0 (sent_device u dv) ur1 r1 h sizes s1 k); try done; answer_side. }
  unfold after_done, failed. split; [exact answer_var|]. split.
  - eexists. split; [map_side|done].
  - eexists. split; [map_side|done].
Qed.
End answer.
End client.

(** C3: A transfer of the client library served by the exporter's driver.  Submitting
    it writes one message.  Over a connection that loses nothing the exporter's
    receiving thread, whose machine may have the other byte order, makes of it
    exactly one request with one URB, as the transfer describes it.  When its URB,
    not isochronous, is completed with no more data than the user's buffer takes and
    is the only one to be answered, the exporter's transmitter sends one message.  Then, however
    the connection cuts it: if the URB succeeded, with at least one byte for an IN
    transfer, the library stores the data in the user's buffer and the length in the
    user's variable, finishes the transfer and waits for the next result; if an IN
    transfer succeeded without data the transfer is not finished, though it leaves
    the list of the device, and nothing is stored; if the URB failed the header of
    the message finishes the transfer, the variable keeps its value, and the library
    notes the error that ends its receiving loop. *)
Theorem client_transfer_served `{UvErrors} `{UsbPipes} `{!UsbPipesOk} `{FilterDrivers stub_device}
    (client exporter : Env) (client_arch exporter_arch : Arch)
    wl w u d r ur dv ret v data dev s k :
  receiving wl d s -> wl <> w -> submitting w u d r ur dv s ->
  good_request dev (dv_devid dv) (submit_header dv ur, data) -> out_data ur k data ->
  @network_up client -> ub_ret ur = Some ret -> ss_vars s !! ret = Some v ->
  2 <= wk_ref_count r -> signalable (wk_sync r) s k -> u ∉ dv_urb_list dv ->
  Forall (fun v => exists rv, ss_urbs s !! v = Some rv /\
            (ub_work rv = None \/ ub_seqnum rv <> dv_seqnum dv)) (dv_urb_list dv) ->
  let msg := wire_bytes (submit_header dv ur) ++ data in
  exists s1 k1,
    (@work_process client client_arch _ w;; @write_cb client client_arch _ (UvUrbWrite u) 0) s k = Ok (tt, s1, k1) /\
    k1 = traced [UUv (UvWrite (UvUrbWrite u) (UvSocket d) msg)] k /\
    (forall esock sd ke fuel,
       serving esock (dv_devid dv) dev sd ke -> @recvmsg_ok exporter -> @allocs_ok exporter ->
       @streams exporter esock (k_trace ke) msg -> @lossless exporter esock (k_trace ke) msg ->
       @undisturbed exporter -> ud_event (sd_ud sd) = 0 -> (2 < fuel)%nat ->
       exists sd' ke' q uu, @stub_rx_loop exporter exporter_arch _ _ fuel sd ke = Ok (0, sd', ke') /\
         sd_priv_init sd' = sd_priv_init sd ++ [q] /\
         submitted (k_trace ke') = uu :: submitted (k_trace ke) /\
         arrived dev sd' ke' (submit_header dv ur, data) q uu) /\
    (forall esock sd ke q rb b off blk,
       answering esock sd ke -> to_answer (dv_seqnum dv) ur q rb sd ke -> @mallocs_ok exporter ->
       (direction (h_base (ub_header ur)) = USBIP_DIR_IN -> in_buffer ur k b off blk) ->
       exists n sd' ke' header reply, @stub_send_ret_submit exporter exporter_arch _ sd ke = Ok (n, sd', ke') /\
         sent (k_trace ke') = (header ++ reply) :: sent (k_trace ke) /\ length header = 48%nat /\
         (urb_status rb = 0 -> (usb_pipein (urb_pipe rb) = true -> 0 < urb_actual_length rb) ->
          forall sizes, (length (header ++ reply) <= length sizes)%nat -> exists s2 k2,
           @uv_stream client client_arch _ sizes (UvSocket d) (header ++ reply) s1 k1 = Ok ([], s2, k2) /\
           receiving wl d s2 /\ ss_vars s2 !! ret = Some (urb_actual_length rb) /\
           (exists rw, ss_works s2 !! w = Some rw /\ wk_state rw = ws_done) /\
           (direction (h_base (ub_header ur)) = USBIP_DIR_IN ->
            k_heap k2 !! b = Some (splice blk (Z.to_nat off) (reply_data rb (k_heap ke))))) /\
         (urb_status rb = 0 -> usb_pipein (urb_pipe rb) = true -> urb_actual_length rb = 0 ->
          forall sizes, (48 <= length sizes)%nat -> exists s2,
           @uv_stream client client_arch _ sizes (UvSocket d) (header ++ reply) s1 k1 = Ok ([], s2, k1) /\
           ss_vars s2 !! ret = Some v /\ (exists rw, ss_works s2 !! w = Some rw /\ wk_state rw = ws_busy) /\
           exists dv2, ss_devices s2 !! d = Some dv2 /\ u ∉ dv_urb_list dv2) /\
         (urb_status rb <> 0 ->
          forall sizes, (48 <= length sizes)%nat -> exists s2 k2,
           @uv_stream client client_arch _ sizes (UvSocket d) header s1 k1 = Ok ([], s2, k2) /\
           ss_vars s2 !! ret = Some v /\ (exists rw, ss_works s2 !! w = Some rw /\ wk_state rw = ws_done) /\
           exists rl, ss_works s2 !! wl = Some rl /\ wk_ret rl = - UV_EIO)).
Proof.
  intros Hrec Hne Hsub Hg Hdata Hup Hret Hv Href Hsg Hnot Hothers msg.
  pose proof (proj1 Hg) as Hwf. pose proof Hsub as ((_ & _ & Hd) & (_ & _ & _ & _ & Hbusy) & _).
  assert (is_u32 (dv_seqnum dv)) as Hn.
  { destruct Hwf as (Hw & _). unfold header_words, submit_header in Hw. cbn in Hw. by decompose_Forall_hyps. }
  set (k1 := traced [UUv (UvWrite (UvUrbWrite u) (UvSocket d) msg)] k).
  exists (@submitted_session client_arch w u d r ur dv s), k1.
  split; [exact (@transfer_submit_run client client_arch _ w u d r ur dv data s k Hsub Hwf Hdata Hup)|].
  split; [reflexivity|]. split.
  { intros esock sd ke fuel Hs Hok Ha Hst Hl Hu He Hf.
    exact (@serve_single exporter exporter_arch _ _ _ esock (dv_devid dv) dev _ _ sd ke fuel Hs Hg Hok Ha Hst Hl Hu He Hf). }
  intros esock sd ke q rb b off blk Han Hto Hm Hbuf.
  destruct (@answer_single exporter exporter_arch _ (dv_seqnum dv) ur esock q rb sd ke Han Hto Hm)
    as (n & sd' & ke' & Hrun & Hsent).
  exists n, sd', ke', (wire_bytes (ret_header (dv_seqnum dv) rb)), (reply_data rb (k_heap ke)).
  split; [exact Hrun|]. split; [exact Hsent|]. split; [apply length_ret_header|].
  split; [|split].
  - intros Hst Hpos sizes Hsz. rewrite length_app, length_ret_header in Hsz.
    exact (@answer_received client client_arch _ _ wl w u d ret r ur dv v q rb sd ke s k1
      Hrec Hne Hd Hn Hret Hv Href Hsg Hnot Hothers Hto b off blk sizes Hst Hpos Hbuf Hsz).
  - intros Hst Hi Hz sizes Hsz.
    exact (@answer_empty client client_arch _ _ wl w u d ret r ur dv v q rb sd ke s k1
      Hrec Hne Hd Hn Hv Hbusy Hnot Hothers Hto sizes Hst Hi Hz Hsz).
  - intros Hst sizes Hsz.
    exact (@answer_failed client client_arch _ _ wl w u d ret r ur dv v q rb sd ke s k1
      Hrec Hne Hd Hn Hv Href Hsg Hnot Hothers Hto sizes Hst Hsz).
Qed.

(** ** Sample: a read of four bytes from endpoint 0x81, which the device answers with two *)

Definition read_header : usbip_header :=
  mkHeader (mkBasic USBIP_CMD_SUBMIT 0 0 USBIP_DIR_IN 129)
    (mkUnion 0 0 0 0 0 (replicate 8 0)).
Definition read_urb : urb_t :=
  demo_out_urb <| ub_buf := mkUvBuf (place_user (60%positive, 0)) 4 |> <| ub_header := read_header |>.
Definition read_device : device_t :=
  demo_device <| dv_urb_list := [] |> <| dv_seqnum := 11 |> <| dv_devid := 65538 |>.
Definition read_session : session :=
  session_zero <| ss_works := {[10%positive := demo_loop; 40%positive := demo_submit_work]} |>
    <| ss_devices := {[20%positive := read_device]} |> <| ss_urbs := {[30%positive := read_urb]} |>
    <| ss_vars := {[50%positive := -1]} |>.
Definition read_bytes : list Z := wire_bytes (submit_header read_device read_urb) ++ [].
Definition read_env : Env := sock_env 7 5 read_bytes.

Lemma read_receiving : receiving 10 20 read_session.
Proof. by exists demo_loop, read_device. Defined.
Lemma read_submitting : submitting 40 30 20 demo_submit_work read_urb read_device read_session.
Proof. by repeat split. Defined.
Lemma read_request : good_request sample_usb_dev 65538 (submit_header read_device read_urb, []).
Proof.
  split.
  { split; [|split; [done|split; [done|by intros [?|?]]]].
    repeat (apply Forall_cons; split; [done|]). by apply Forall_nil. }
  split; [done|]. split; [done|]. split; [done|]. split; [by left|]. split; [by exists (mkEp USB_ENDPOINT_XFER_BULK false 512)|].
  split; [|done]. repeat (apply Forall_cons; split; [done|]). by apply Forall_nil.
Defined.
Lemma read_answering : answering 7 back_sdev sample_stub_kernel.
Proof.
  split; [apply back_wf|]. split; [apply sample_fresh_heap|].
  split; [done|split; by vm_compute; set_solver].
Qed.
Lemma read_to_answer : @to_answer linux_pipes 11 read_urb 12 sample_done_urb back_sdev sample_stub_kernel.
Proof.
  split; [done|]. split.
  { exists 22%positive, back_priv. split; [|done].
    split_and!; [unfold queued; cbn; set_solver|reflexivity..]. }
  split; [|by repeat split].
  split; [unfold urb_wf, is_u32, is_s32; cbn; lia|]. split; [|done].
  intros _. exists 33%positive, [4; 5; 0; 0]. by repeat split.
Qed.

Lemma client_transfer_served_witness :
  receiving 10 20 read_session /\
  exists s1 k1, (@work_process up_env false some_errors 40;;
      @write_cb up_env false some_errors (UvUrbWrite 30) 0) read_session demo_kernel = Ok (tt, s1, k1) /\
    (exists sd' ke' q u, @stub_rx_loop read_env true linux_pipes no_drivers 3 (sample_sdev 0) sample_rx_kernel
        = Ok (0, sd', ke') /\ submitted (k_trace ke') = [u] /\
      @arrived linux_pipes sample_usb_dev sd' ke' (submit_header read_device read_urb, []) q u) /\
    exists n sd' ke' answer s2 k2,
      @stub_send_ret_submit read_env true linux_pipes back_sdev sample_stub_kernel = Ok (n, sd', ke') /\
      sent (k_trace ke') = [answer] /\
      @uv_stream up_env false some_errors (replicate (length answer) 3%nat) (UvSocket 20) answer s1 k1
        = Ok ([], s2, k2) /\
      ss_vars s2 !! 50%positive = Some 2 /\ k_heap k2 !! 60%positive = Some [4; 5; 9; 9].
Proof.
  split; [exact read_receiving|].
  destruct (@client_transfer_served some_errors linux_pipes linux_pipes_ok no_drivers up_env read_env false true
    10 40 30 20 demo_submit_work read_urb read_device 50 (-1) [] sample_usb_dev read_session demo_kernel)
    as (s1 & k1 & Hrun & _ & Hforth & Hback);
    [exact read_receiving|done|exact read_submitting|exact read_request|done|exact up_env_network|done|done
    |cbn; lia|done|apply not_elem_of_nil|by apply Forall_nil|].
  exists s1, k1. split; [exact Hrun|]. split.
  - destruct (Hforth 7 (sample_sdev 0) sample_rx_kernel 3%nat)
      as (sd' & ke' & q & u & Hloop & _ & Hsub & Harr).
    + apply sample_serving.
    + apply sock_env_ok.
    + intros tr n. split; discriminate.
    + by apply sock_env_streams.
    + by apply sock_env_lossless.
    + split; reflexivity.
    + reflexivity.
    + lia.
    + exists sd', ke', q, u. split; [exact Hloop|]. split; [exact Hsub|exact Harr].
  - destruct (Hback 7 back_sdev sample_stub_kernel 12%positive sample_done_urb 60%positive 0 [9; 9; 9; 9])
      as (n & sd' & ke' & header & reply & Hans & Hsent & Hlen & Hread & _).
    + apply read_answering.
    + apply read_to_answer.
    + intros tr n. discriminate.
    + by repeat split.
    + destruct (Hread eq_refl) with (sizes := replicate (length (header ++ reply)) 3%nat)
        as (s2 & k2 & Hs & _ & Hv & _ & Hb); [done|by rewrite length_replicate|].
      exists n, sd', ke', (header ++ reply), s2, k2. split; [exact Hans|]. split; [exact Hsent|].
      split; [exact Hs|]. split; [exact Hv|]. exact (Hb eq_refl).
Defined.
